(* ===== verification/_CoqProject ===== *)
-Q . S2P
Prelude.v
Queue.v
QueueAlgo.v
NtgString.v
Pool.v
Array.v
PartList.v
Parse.v
ConfToken.v
Conf.v
Record.v
Base64.v
Crc32.v
Md5.v
Sprintf.v
Inet.v
Url.v
Options.v
Log.v
Core.v
Times.v
Escape.v
Utf8.v
HttpTypes.v
HttpStatusLine.v
HttpHeaderLine.v
HttpChunked.v
HttpRequest.v
HttpResponse.v
HttpHead.v
HttpBody.v
HttpConn.v
Balance.v
Table.v
Spline.v
UserGroup.v
Random.v
UserPool.v
User.v
UserManage.v
UserSim.v
UserTasks.v
UserControl.v
Channel.v
Remote.v
Process.v
Master.v
Dispatch.v
Worker.v
