(* ===== verification/Prelude.v ===== *)
(** * The ntrig network traffic generator: verification development

    ntrig simulates web users.  A front end connects to the generator and asks, in
    JSON, for users that browse a site; the generator keeps them clicking through
    sessions, or lets their number follow the curve of a scene over a day.  The
    sources are under src/ntrig/src/ (the paths below are relative to it), C of the
    nginx family; the build is gcc -O2 on 64-bit little-endian Linux.

    ** The program and its processes

    - The master process (utils/ntg_process_cycle.c, ntg_master_process_cycle) reads
      the configuration (utils/ntg_conf_file.c), spawns the other processes
      (utils/ntg_process.c), listens for front ends (utils/ntg_remote.c) and passes
      their requests on over channels (utils/ntg_channel.c, message/).
    - The virtual process (ntg_virtual_process_cycle) holds the simulated users: the
      manager (user/ntg_user_manage.c) keeps a table of consumers
      (utils/ntg_table.c) with groups of users (user/ntg_user_group.c); a user whose
      timer fires (user/ntg_user.c) sends a request message to one of the traffic
      processes, chosen by the balancer (user/ntg_user_balance.c).
    - The traffic processes (ntg_traffic_process_cycle) turn a request message into
      an HTTP request (http/ntg_http_request.c) and drain the response
      (http/ntg_http.c, ntg_http_parse.c, ntg_http_discard.c, ntg_http_recv.c).
    - The record process collects records (record/).
    - Every process reads its channel with ntg_channel_handler, and they share the
      base library (utils/): queues, pools, strings, times, formats.

    ** The files

    Base library.
    - Prelude: integers at their width, text literals, tactics (width, mlia,
      split_tests, chars), hint databases and shared lemmas.
    - Queue, QueueAlgo: the intrusive queue of utils/ntg_queue.h and .c.  State: the
      link fields of all nodes, a gmap of addresses.  is_queue relates it to a list;
      every macro refines a list operation and frames the rest; the middle and the
      stable sort.
    - NtgString, Base64, Sprintf, Escape, Utf8: utils/ntg_string.c.  A pointer to
      text is the list of the bytes that can be read; reading past them is None.
    - Pool: utils/ntg_palloc.c.  State: blocks, large regions and cleanups by
      address, and the heap of malloc.  The class Allocator is the promise of
      malloc; pool_inv is the invariant.
    - Array, PartList: utils/ntg_array.c and utils/ntg_list.c over the pools.  The
      memory is a function from addresses to bytes; array_inv and list_inv say which
      pieces of the pool they own.
    - Crc32: utils/ntg_crc32.c and .h, against division bit by bit.
    - Md5: utils/ntg_md5.c, against RFC 1321 on the padded text.
    - Inet, Url: utils/ntg_inet.c.  Addresses as text, blocks of addresses and socket
      addresses; the text of a server taken apart and resolved.
    - Parse: utils/ntg_parse.c, numbers with units.
    - ConfToken, Conf: utils/ntg_conf_file.c.  The tokenizer with its refilled
      buffer, and the handling of a directive by the commands of the modules.
    - Times: utils/ntg_times.c, ntg_time.c.  The calendar and the cached times.
    - Record: record/ntg_record.c, the ring of records.
    - Table: utils/ntg_table.c.  The hash table over its pool of nodes; the class
      TableKey is what it asks of the functions of its user.

    Traffic processes.
    - HttpTypes: the input buffer, the objects of the parsers and the loop over the
      bytes they share.
    - HttpStatusLine, HttpHeaderLine, HttpChunked: the three state machines of
      http/ntg_http_parse.c.
    - HttpRequest: the requests, their free list, their text, and the handlers of
      response headers.
    - HttpResponse: the event handlers of http/ntg_http.c, ntg_http_discard.c and
      ntg_http_recv.c over an oracle of the outcomes of send and recv; HttpHead,
      HttpBody and HttpConn hold the theorems on the head, the body and the whole.

    Virtual process.
    - Spline: user/ntg_user_spline.c in float arithmetic, its arrays checked.
    - UserGroup, UserPool: user/ntg_user_group.c.  State (Record vm): users, groups
      and consumers by address and the links of the queues of Queue.  Access to what
      was freed is None.  pool_inv of UserPool: every user in exactly one place.
    - User: the timer of a user in user/ntg_user.c, proved against the interface
      Balancer / BalancerLaw, which Balance.v implements.
    - Balance: user/ntg_user_balance.c.
    - UserManage: user/ntg_user_manage.c; UserSim, UserTasks and UserControl hold the
      theorems on messages, on the task timer and on both together.
    - Random: utils/ntg_math.c and user/ntg_user_behavior.c, what is drawn for a user.

    Start.
    - Options: the command line of ntrig.c, the copy of the arguments, and the paths
      of the cycle that follow from them (with the full names of utils/ntg_file.c).
    - Core: the core module of ntrig.c: the settings, their setters and defaults, the
      environment that is handed on, and the list of URLs.

    - Log: utils/ntg_log.c and ntg_errno.c, with the files of the cycle that
      ntg_conf_open_file gives.  State: the logs by address, the open files, the rings
      in memory, and what was written; logs_inv is the chain in order.

    Processes.
    - Channel: message/ntg_message.h and utils/ntg_channel.c; a message is its cells
      of 4 bytes at the offsets of the structures.
    - Remote: utils/ntg_remote.c; the tree of the JSON parser is an argument.
    - Process: utils/ntg_process.c; the table of processes, with the channels written
      to and the signals sent as a trace.
    - Master: ntg_master_process_cycle and what it calls; one turn is a function of
      the signals it gets; the class Kernel is what is asked of the system.
    - Dispatch: ntg_channel_handler; the composition of front end, master, manager
      and balancer.
    - Worker: what the spawned processes keep, and their loops.

    ** What is shown

    - Composition: a request read from a front end, dispatched and handled, comes
      back as the answer its simulation deserves (Dispatch.front_end_answered); the
      process of the users knows the processes the master has
      (Dispatch.users_know_processes).
    - Connections: whatever the server sends and however it is cut into reads, every
      event ends the request or leaves it ready (HttpConn.read_cb_total,
      write_cb_ready), the head is processed within the received data
      (HttpHead.process_header_total), and the body is counted exactly
      (HttpBody.read_discarded_exact).  The parsers are
      resumable (HttpChunked.chunked_resumable and its lemmas for the other two).
    - Processes: a spawned process is well formed (Process.spawn_process_correct), a
      turn of the master keeps the table (Master.master_turn_safe,
      reap_children_correct), and asked to stop, the workers
      and then the master end (Worker.stopping_stops_workers, Master.master_stops).
    - Users: none is lost or held twice (UserPool.control_cb_correct, UserControl),
      the timer of the tasks finishes (UserControl.activation_completes), a user
      clicks as often as was drawn (User.session_correct), a scene always has its
      curve (Spline.scene_curve_total), and the times that are drawn are
      bounded (Random.times_bounded).
    - Messages and configuration: round trips (Channel.channel_roundtrip,
      ConfToken.conf_roundtrip), refinement of the buffered tokenizer by a scan of
      the text (ConfToken.conf_read_refines), the choice of the command
      (Conf.conf_handler_correct).
    - Base library: refinements (Queue.ntg_queue_ops_correct,
      Record.record_ring_refines), bounds (Sprintf.ntg_vslprintf_bound), pools
      (Pool.pool_alloc_correct, pool_destroy_correct), the calendar
      (Times.gmtime_correct), the check sums (Crc32.crc_correct, Md5.md5_correct),
      arrays and lists that grow (Array.array_push_correct, PartList).
    - Start: a command line, the text of a server and the environment mean what was
      written (Options.get_options_correct, Url.parse_server_correct,
      Core.environment_correct); the settings are complete (Core.init_conf_correct).
    - Log: an error goes, as one line, to exactly the logs that are verbose enough
      (Log.log_error_delivered); the directive error_log keeps them in order
      (Log.error_log_correct) and takes the levels it should (Log.set_levels_correct).
    Examples at the end of the files show the flaws the models exhibit; each says
    which input triggers it.

    ** Undefined behaviour, fuel and bounds

    A definition returns None where the code reads outside of an object or through a
    bad pointer, and where its fuel ends; theorems that it returns Some show that
    neither happens.
    - The loops over the logs take a number above that of the logs (Log).
    - Queue loops take the number of nodes as fuel; QueueAlgo shows that it is enough.
    - ntg_palloc calls itself for the node of a large region: the node is small, so
      that two levels are enough (Pool.palloc_ok).
    - The loop over the tokens takes one step for each byte that is unread and one
      for the end (ConfToken); a file is parsed with as much fuel as it has
      directives, and one more (Conf).
    - The number formatter of Sprintf has a digit per unit of fuel: 20 for 64 bits.
    - The loops over a response are bounded by the bytes that were received and the
      outcomes of the oracle (HttpResponse); those over the table of processes by
      NTG_MAX_PROCESSES.
    - The number of users, values of a scene and consumers are those of the
      configuration; the hypotheses of a theorem say which are meant.

    ** Not modelled

    - Calls of the system and of libevent, beyond their outcomes; the JSON parser of
      lib/ (vendored); MySQL; the C library's log, exp and pow.
    - Start-up and tear-down: main, utils/ntg_cycle.c, ntg_daemon.c, the wrappers of
      file calls, the set-up of signals, identifiers and affinity of a
      process: calls of the system one after the other.
    - Base library that the generator does not use, or hardly: ntg_rbtree, ntg_hash,
      ntg_buf, ntg_output_chain.
    - The setting up of a connection in http/ntg_http.c (ntg_http_start and the
      resolution of names), and the tables of configuration commands.

    ** What is left

    Of the program's own logic: the start of a connection, the reading of lists of
    texts (utils/ntg_text.c); of the base library: red-black trees and the hash
    tables of ntg_hash.c, against references. *)

From Stdlib Require Export ZArith Lia Ascii.
From stdpp Require Export base option list gmap strings fin_maps sets.

(** ** Notations and scopes *)

Declare Scope ntg_scope.
Delimit Scope ntg_scope with ntg.

#[global] Open Scope Z_scope.
#[global] Open Scope ntg_scope.

(** A C buffer: the bytes that can be read from a pointer onwards.  A
    [u_char] is an integer in [0, 256). *)
Abbreviation bytes := (list Z).

(** ** System return values (ntg_types.h) *)

Definition NTG_OK : Z := 0.
Definition NTG_ERROR : Z := -1.
Definition NTG_AGAIN : Z := -2.
Definition NTG_BUSY : Z := -3.
Definition NTG_DONE : Z := -4.
Definition NTG_DECLINED : Z := -5.
Definition NTG_ABORT : Z := -6.

(** ** Machine integers

    [ntg_uint_t], [size_t] and [uint64_t] are 64 bits wide on the configured
    platform (NTG_PTR_SIZE is 8), so are the signed [ntg_int_t], [ssize_t],
    [off_t] and [time_t]. Unsigned arithmetic wraps; signed results are brought
    back in range in two's complement, and the theorems say where they rely on
    no overflow having happened. *)

Definition u8 (z : Z) : Z := z mod 256.
Definition u16 (z : Z) : Z := z mod 65536.
Definition u32 (z : Z) : Z := z mod 4294967296.
Definition u64 (z : Z) : Z := z mod 18446744073709551616.
Definition s32 (z : Z) : Z := (z + 2147483648) mod 4294967296 - 2147483648.
Definition s64 (z : Z) : Z :=
  (z + 9223372036854775808) mod 18446744073709551616 - 9223372036854775808.

Definition NTG_MAX_INT_T_VALUE : Z := 9223372036854775807.
Definition NTG_MAX_SIZE_T_VALUE : Z := 9223372036854775807.
Definition NTG_MAX_OFF_T_VALUE : Z := 9223372036854775807.
Definition NTG_MAX_UINT32_VALUE : Z := 4294967295.

Definition is_byte (c : Z) : Prop := 0 <= c < 256.
Definition is_u64 (c : Z) : Prop := 0 <= c < 18446744073709551616.
Definition is_s64 (c : Z) : Prop :=
  -9223372036854775808 <= c < 9223372036854775808.

#[export] Instance is_byte_dec c : Decision (is_byte c).
Proof. unfold is_byte. apply _. Defined.
#[export] Instance is_u64_dec c : Decision (is_u64 c).
Proof. unfold is_u64. apply _. Defined.
#[export] Instance is_s64_dec c : Decision (is_s64 c).
Proof. unfold is_s64. apply _. Defined.

(** ** Automation *)

Create HintDb ntg.
Create Rewrite HintDb ntg_width.

(** Unfold the machine integers and let lia see through [mod] and [/]. *)
Ltac width := unfold u8, u16, u32, u64, s32, s64, is_byte, is_u64, is_s64 in *.
Ltac mlia := width; Z.to_euclidean_division_equations; lia.

(** Arithmetic on the lengths of explicit lists. *)
Ltac len_lia := repeat first [rewrite length_app | progress cbn [length]]; lia.

(** Split the first boolean test or match that blocks the goal. *)
Ltac split_test :=
  match goal with
  | |- context [if ?b then _ else _] => destruct b eqn:?
  end.
Ltac split_tests := repeat (split_test; simplify_eq/=).

Section machine_integers.

Lemma u8_byte z : is_byte (u8 z).
Proof. mlia. Qed.
Lemma u64_range z : is_u64 (u64 z).
Proof. mlia. Qed.
Lemma s64_range z : is_s64 (s64 z).
Proof. mlia. Qed.

Lemma u8_small z : is_byte z -> u8 z = z.
Proof. intros; mlia. Qed.
Lemma u32_small z : 0 <= z < 4294967296 -> u32 z = z.
Proof. intros; mlia. Qed.
Lemma u64_small z : is_u64 z -> u64 z = z.
Proof. intros; mlia. Qed.
Lemma s64_small z : is_s64 z -> s64 z = z.
Proof. intros; mlia. Qed.

(** Joining bit fields is adding. *)
Lemma lor_shiftl_add a b k :
  0 <= k -> 0 <= b < 2 ^ k -> Z.lor (Z.shiftl a k) b = a * 2 ^ k + b.
Proof.
  intros Hk Hb. rewrite Z.shiftl_mul_pow2 by lia.
  pose proof (Z.add_lor_land (a * 2 ^ k) b) as E.
  assert (Z.land (a * 2 ^ k) b = 0) as E0; [|lia].
  apply Z.bits_inj'. intros n Hn. rewrite Z.land_spec, Z.bits_0.
  destruct (Z.ltb_spec n k).
  - by rewrite Z.mul_pow2_bits_low.
  - rewrite <-(Z.mod_small b (2 ^ k)), Z.mod_pow2_bits_high by lia. by rewrite andb_false_r.
Qed.

(** A finite check proves a statement about every small number. *)
Lemma forall_below (n : nat) (P : Z -> bool) :
  forallb P (map Z.of_nat (seq 0 n)) = true ->
  forall z, 0 <= z < Z.of_nat n -> P z = true.
Proof.
  rewrite forallb_forall. intros HP z Hz. apply HP, in_map_iff.
  exists (Z.to_nat z). split; [lia|]. apply in_seq. lia.
Qed.

Lemma shiftr_div a k : 0 <= k -> Z.shiftr a k = a / 2 ^ k.
Proof. apply Z.shiftr_div_pow2. Qed.
Lemma land_ones_mod a k : 0 <= k -> Z.land a (Z.ones k) = a mod 2 ^ k.
Proof. apply Z.land_ones. Qed.

End machine_integers.

#[export] Hint Resolve u8_byte u64_range s64_range : ntg.
#[export] Hint Rewrite u8_small u32_small u64_small s64_small
  using (width; lia) : ntg_width.

(** ** Text literals

    [str "..."] is the list of byte values of an ASCII literal. *)

Fixpoint str (s : string) : bytes :=
  match s with
  | EmptyString => []
  | String c s' => Z.of_nat (nat_of_ascii c) :: str s'
  end.

Arguments str _%_string.

(** A character literal: [ch "H"] is ['H']. *)
Definition ch (a : ascii) : Z := Z.of_N (N_of_ascii a).

Arguments ch _%_char.

(** Evaluate the character literals of the goal and the hypotheses. *)
Ltac chars :=
  repeat match goal with
  | |- context [ch ?a] => let v := eval vm_compute in (ch a) in change (ch a) with v
  | H : context [ch ?a] |- _ =>
      let v := eval vm_compute in (ch a) in change (ch a) with v in H
  end.

(** Forward application, for chains of record updates. *)
Notation "x |> f" := (f x) (at level 45, f at level 44, left associativity, only parsing)
  : ntg_scope.

Definition LF : Z := 10.
Definition CR : Z := 13.

(** [strncmp] of the C library on two buffers; [None] is a read past the end of
    one of them.  Only the sign of the result is defined. *)
Fixpoint strncmp (s1 s2 : bytes) (n : nat) {struct n} : option Z :=
  match n with
  | O => Some 0
  | S n =>
      match s1, s2 with
      | c1 :: s1, c2 :: s2 =>
          if c1 =? c2 then if c1 =? 0 then Some 0 else strncmp s1 s2 n
          else Some (c1 - c2)
      | _, _ => None
      end
  end.

(** ** Generic list facts *)

Section lists.
Context {A : Type}.
Implicit Types (l : list A) (x y : A).

(** Induction by three elements at a time. *)
Lemma list_ind3 (P : list A -> Prop) :
  P [] -> (forall x, P [x]) -> (forall x y, P [x; y]) ->
  (forall x y z l, P l -> P (x :: y :: z :: l)) -> forall l, P l.
Proof.
  intros H0 H1 H2 H3 l.
  enough (P l /\ (forall x, P (x :: l)) /\ (forall x y, P (x :: y :: l))) by tauto.
  induction l as [|a l (IH1 & IH2 & IH3)]; split_and!; eauto.
Qed.

Lemma head_app_cons l x k : head (l ++ x :: k) = Some (hd x l).
Proof. by destruct l. Qed.

Lemma snoc_not_nil l x : l ++ [x] <> [].
Proof. by destruct l. Qed.

(** Every non-empty list ends in some element. *)
Lemma exists_last_elem l : l <> [] -> exists k x, l = k ++ [x].
Proof.
  induction l as [|y l _] using rev_ind; [done|]. intros _. by exists l, y.
Qed.

(** The last element of a non-empty list, given its first. *)
Lemma last_cons_snoc x l k y : x :: l = k ++ [y] -> List.last l x = y.
Proof.
  destruct (decide (l = [])) as [->|Hne]; cbn.
  - destruct k as [|? [|? ?]]; cbn; intros; congruence.
  - destruct (exists_last_elem l Hne) as (k' & z & ->). rewrite last_last, app_comm_cons.
    by intros [_ ?]%app_inj_tail.
Qed.

(** The default only matters for the empty list. *)
Lemma last_cons_default x l d : List.last (x :: l) d = List.last l x.
Proof.
  revert x d. induction l as [|a l IH]; intros x d; [done|].
  change (List.last (x :: a :: l) d) with (List.last (a :: l) d). by rewrite !IH.
Qed.

Lemma last_elem_of l d : List.last l d ∈ d :: l.
Proof.
  revert d. induction l as [|x l IH]; intros d; [by left|].
  rewrite last_cons_default. right. apply IH.
Qed.

Lemma nodup_app_swap l k : NoDup (l ++ k) <-> NoDup (k ++ l).
Proof. rewrite (Permutation_app_comm l k). done. Qed.

Lemma nodup_snoc l x : NoDup (l ++ [x]) <-> (x ∉ l) /\ NoDup l.
Proof.
  rewrite nodup_app_swap. cbn. rewrite NoDup_cons. done.
Qed.

End lists.

(** Distinct keys of a map are no more than its entries. *)
Lemma nodes_bound {A} (m : gmap Z A) (l : list Z) :
  NoDup l -> (forall i, i ∈ l -> is_Some (m !! i)) -> (length l <= size m)%nat.
Proof.
  intros Hl Hm. rewrite <-size_dom, <-(size_list_to_set (C := gset Z) l Hl).
  apply subseteq_size. intros i Hi%elem_of_list_to_set. apply elem_of_dom. auto.
Qed.

(** ** Character classes *)

Definition is_digit (c : Z) : bool := (ch "0" <=? c) && (c <=? ch "9").
Definition digit_val (c : Z) : Z := c - ch "0".

(** The value of a string of decimal digits. *)
Definition dec_value (ds : bytes) : Z :=
  fold_left (fun v c => v * 10 + digit_val c) ds 0.

Lemma dec_value_snoc ds c : dec_value (ds ++ [c]) = dec_value ds * 10 + digit_val c.
Proof. unfold dec_value. by rewrite fold_left_app. Qed.

(** Accumulating decimal digits modulo a width. *)
Lemma fold_digits_mod n (Hn : 0 < n) ds v :
  fold_left (fun v c => (v * 10 + c - ch "0") mod n) ds (v mod n) =
  (fold_left (fun v c => v * 10 + digit_val c) ds v) mod n.
Proof.
  revert v. induction ds as [|c ds IH]; intros v; cbn [fold_left]; [done|].
  rewrite <-IH. f_equal. unfold digit_val. rewrite <-Z.add_sub_assoc.
  by rewrite <-Zplus_mod_idemp_l, Zmult_mod_idemp_l, Zplus_mod_idemp_l.
Qed.

Lemma is_digit_range c : is_digit c = true -> 48 <= c <= 57.
Proof. unfold is_digit. chars. lia. Qed.
