(* ===== verification/Queue.v ===== *)
(** * The intrusive doubly linked queue (src/utils/ntg_queue.h)

    A [ntg_queue_t] is a pair of pointers embedded in another object; a queue
    is a ring of them through a sentinel.  The model keeps the link fields of
    every node in a heap, so two queues that share nodes, and a node moved
    from one queue to another, behave as they do in the code.  The macros
    become the sequences of field assignments they expand to; a dereference of
    a pointer that names no node makes the operation undefined ([None]).

    [is_queue m s xs] relates the heap to the list of the nodes of the queue
    with sentinel [s]; every operation is proved against its list counterpart
    together with the part of the heap it leaves alone. *)

From S2P Require Import Prelude.

Section queue.
Context {L : Type} `{Countable L}.
Implicit Types (s p q x y : L) (xs ys zs : list L).

(** [struct ntg_queue_s]. *)
Record qlink := QLink { q_prev : L; q_next : L }.

Implicit Types (m : gmap L qlink).

(** Field reads and writes through a pointer. *)
Definition get_prev m q : option L := q_prev <$> m !! q.
Definition get_next m q : option L := q_next <$> m !! q.

Definition set_prev m q v : option (gmap L qlink) :=
  l ← m !! q; Some (<[q := QLink v (q_next l)]> m).
Definition set_next m q v : option (gmap L qlink) :=
  l ← m !! q; Some (<[q := QLink (q_prev l) v]> m).

(** ** The macros of ntg_queue.h *)

Definition ntg_queue_init m q : option (gmap L qlink) :=
  m ← set_prev m q q;
  set_next m q q.

Definition ntg_queue_empty m h : option bool :=
  p ← get_prev m h; Some (bool_decide (h = p)).

Definition ntg_queue_insert_head m h x : option (gmap L qlink) :=
  n ← get_next m h;
  m ← set_next m x n;
  n ← get_next m x;
  m ← set_prev m n x;
  m ← set_prev m x h;
  set_next m h x.

Definition ntg_queue_insert_after := ntg_queue_insert_head.

Definition ntg_queue_insert_tail m h x : option (gmap L qlink) :=
  p ← get_prev m h;
  m ← set_prev m x p;
  p ← get_prev m x;
  m ← set_next m p x;
  m ← set_next m x h;
  set_prev m h x.

Definition ntg_queue_head := get_next.
Definition ntg_queue_last := get_prev.

Definition ntg_queue_remove m x : option (gmap L qlink) :=
  n ← get_next m x;
  p ← get_prev m x;
  m ← set_prev m n p;
  p ← get_prev m x;
  n ← get_next m x;
  set_next m p n.

Definition ntg_queue_split m h q n : option (gmap L qlink) :=
  p ← get_prev m h;
  m ← set_prev m n p;
  p ← get_prev m n;
  m ← set_next m p n;
  m ← set_next m n q;
  p ← get_prev m q;
  m ← set_prev m h p;
  p ← get_prev m h;
  m ← set_next m p h;
  set_prev m q n.

Definition ntg_queue_add m h n : option (gmap L qlink) :=
  p ← get_prev m h;
  f ← get_next m n;
  m ← set_next m p f;
  f ← get_next m n;
  p ← get_prev m h;
  m ← set_prev m f p;
  p ← get_prev m n;
  m ← set_prev m h p;
  p ← get_prev m h;
  set_next m p h.

(** ** Representation *)

(** [b] follows [a]: both pointers agree. *)
Definition linked m a b : Prop :=
  get_next m a = Some b /\ get_prev m b = Some a.

(** Consecutive nodes of [l] are linked. *)
Fixpoint chain m (l : list L) : Prop :=
  match l with
  | a :: (b :: _) as t => linked m a b /\ chain m t
  | _ => True
  end.

(** The ring through sentinel [s] holds the nodes [xs], in that order. *)
Definition is_queue m s xs : Prop :=
  NoDup (s :: xs) /\ chain m (s :: xs ++ [s]).

(** The heap is unchanged outside [l]. *)
Definition same_except (l : list L) m m' : Prop :=
  dom m' = dom m /\ forall y, y ∉ l -> m' !! y = m !! y.

(** ** Field-level reasoning *)

Definition upd_prev m q v : gmap L qlink :=
  alter (fun l => QLink v (q_next l)) q m.
Definition upd_next m q v : gmap L qlink :=
  alter (fun l => QLink (q_prev l) v) q m.

Lemma set_prev_upd m q v : is_Some (m !! q) -> set_prev m q v = Some (upd_prev m q v).
Proof.
  intros [l Hl]. unfold set_prev, upd_prev. rewrite Hl. cbn. f_equal.
  apply map_eq; intros i. rewrite lookup_insert, lookup_alter.
  case_decide; [by subst; rewrite Hl|done].
Qed.

Lemma set_next_upd m q v : is_Some (m !! q) -> set_next m q v = Some (upd_next m q v).
Proof.
  intros [l Hl]. unfold set_next, upd_next. rewrite Hl. cbn. f_equal.
  apply map_eq; intros i. rewrite lookup_insert, lookup_alter.
  case_decide; [by subst; rewrite Hl|done].
Qed.

Lemma lookup_upd_prev_is_Some m q v y :
  is_Some (upd_prev m q v !! y) <-> is_Some (m !! y).
Proof. unfold upd_prev. apply lookup_alter_is_Some. Qed.
Lemma lookup_upd_next_is_Some m q v y :
  is_Some (upd_next m q v !! y) <-> is_Some (m !! y).
Proof. unfold upd_next. apply lookup_alter_is_Some. Qed.

Lemma get_prev_upd_prev m q v y :
  get_prev (upd_prev m q v) y =
  if decide (q = y) then (fun _ : L => v) <$> get_prev m y else get_prev m y.
Proof.
  unfold get_prev, upd_prev. rewrite lookup_alter. case_decide; [subst|done].
  by destruct (m !! _).
Qed.
Lemma get_next_upd_prev m q v y : get_next (upd_prev m q v) y = get_next m y.
Proof.
  unfold get_next, upd_prev. rewrite lookup_alter. case_decide; [subst|done].
  by destruct (m !! _).
Qed.
Lemma get_next_upd_next m q v y :
  get_next (upd_next m q v) y =
  if decide (q = y) then (fun _ : L => v) <$> get_next m y else get_next m y.
Proof.
  unfold get_next, upd_next. rewrite lookup_alter. case_decide; [subst|done].
  by destruct (m !! _).
Qed.
Lemma get_prev_upd_next m q v y : get_prev (upd_next m q v) y = get_prev m y.
Proof.
  unfold get_prev, upd_next. rewrite lookup_alter. case_decide; [subst|done].
  by destruct (m !! _).
Qed.

Lemma get_prev_is_Some m q : is_Some (get_prev m q) <-> is_Some (m !! q).
Proof. unfold get_prev. by rewrite fmap_is_Some. Qed.
Lemma get_next_is_Some m q : is_Some (get_next m q) <-> is_Some (m !! q).
Proof. unfold get_next. by rewrite fmap_is_Some. Qed.

Lemma get_prev_lookup m q v : get_prev m q = Some v -> is_Some (m !! q).
Proof. intros Hq. apply get_prev_is_Some. eauto. Qed.
Lemma get_next_lookup m q v : get_next m q = Some v -> is_Some (m !! q).
Proof. intros Hq. apply get_next_is_Some. eauto. Qed.

Lemma const_prev m q (v : L) : is_Some (m !! q) -> (fun _ : L => v) <$> get_prev m q = Some v.
Proof. by intros [? ->]%get_prev_is_Some. Qed.
Lemma const_next m q (v : L) : is_Some (m !! q) -> (fun _ : L => v) <$> get_next m q = Some v.
Proof. by intros [? ->]%get_next_is_Some. Qed.

Lemma same_except_refl l m : same_except l m m.
Proof. done. Qed.
Lemma same_except_trans l m1 m2 m3 :
  same_except l m1 m2 -> same_except l m2 m3 -> same_except l m1 m3.
Proof. intros [D1 E1] [D2 E2]; split; [congruence|]. intros y Hy. by rewrite E2, E1. Qed.
Lemma same_except_weaken l k m m' :
  same_except l m m' -> (forall y, y ∈ l -> y ∈ k) -> same_except k m m'.
Proof. intros [D E] Hlk; split; [done|]. intros y Hy. apply E. auto. Qed.
Lemma same_except_upd_prev l m q v : q ∈ l -> same_except l m (upd_prev m q v).
Proof.
  intros Hq. split; [apply dom_alter_L|]. intros y Hy. apply lookup_alter_ne. by intros ->.
Qed.
Lemma same_except_upd_next l m q v : q ∈ l -> same_except l m (upd_next m q v).
Proof.
  intros Hq. split; [apply dom_alter_L|]. intros y Hy. apply lookup_alter_ne. by intros ->.
Qed.

(** ** Chains and rings *)

Lemma chain_app m l1 a l2 :
  chain m (l1 ++ a :: l2) <-> chain m (l1 ++ [a]) /\ chain m (a :: l2).
Proof.
  induction l1 as [|x l1 IH]; [cbn; tauto|].
  destruct l1 as [|y l1]; cbn in *; tauto.
Qed.

Lemma chain_cons m a l :
  chain m (a :: l) <-> (forall c, head l = Some c -> linked m a c) /\ chain m l.
Proof. destruct l; cbn; naive_solver. Qed.

Lemma chain_linked m l1 a c l2 : chain m (l1 ++ a :: c :: l2) -> linked m a c.
Proof. rewrite chain_app. cbn. tauto. Qed.

Lemma chain_app_l m l k : chain m (l ++ k) -> chain m l.
Proof.
  induction l as [|a [|b l] IH]; [done..|]. intros [? ?]. split; [done|by apply IH].
Qed.
Lemma chain_app_r m l k : chain m (l ++ k) -> chain m k.
Proof. induction l as [|a l IH]; [done|]. cbn [app]. rewrite chain_cons. tauto. Qed.

(** A chain only depends on the forward pointers of all its nodes but the
    last and on the backward pointers of all but the first. *)
Lemma chain_frame m m' l :
  chain m l ->
  (forall a, a ∈ removelast l -> get_next m' a = get_next m a) ->
  (forall a, a ∈ tail l -> get_prev m' a = get_prev m a) ->
  chain m' l.
Proof.
  induction l as [|a [|c t] IH]; [done..|]. intros [[Ln Lp] Ht] Hn Hp.
  split; [split|].
  - rewrite Hn; [done|]. cbn. set_solver.
  - rewrite Hp; [done|]. cbn. set_solver.
  - apply IH; [done| |]; intros x Hx.
    + apply Hn. cbn -[removelast]. change (removelast (a :: c :: t)) with (a :: removelast (c :: t)).
      set_solver.
    + apply Hp. cbn in *. set_solver.
Qed.

Lemma chain_frame_nodup m m' l x :
  chain m (l ++ [x]) ->
  (forall a, a ∈ l -> get_next m' a = get_next m a) ->
  (forall a, a ∈ tail (l ++ [x]) -> get_prev m' a = get_prev m a) ->
  chain m' (l ++ [x]).
Proof. intros. eapply chain_frame; [done|by rewrite removelast_last|done]. Qed.

(** Redirecting the end of a chain. *)
Lemma chain_extend m m' l k e b :
  l = k ++ [e] -> chain m l -> NoDup l ->
  (forall a, a ∈ l -> a <> e -> get_next m' a = get_next m a) ->
  (forall a, a ∈ tail l -> get_prev m' a = get_prev m a) ->
  linked m' e b -> chain m' (l ++ [b]).
Proof.
  intros -> Hc [Hek _]%nodup_snoc Hn Hp Hl. rewrite <-app_assoc. cbn [app].
  rewrite chain_app. split; [|done]. apply (chain_frame_nodup m); [done| |done].
  intros a Ha. apply Hn; set_solver.
Qed.

Lemma chain_lookup m l a : 
  chain m l -> (2 <= length l)%nat -> a ∈ l -> is_Some (m !! a).
Proof.
  induction l as [|x [|y t] IH]; [cbn; lia..|]. intros [[Ln Lp] Ht] _ Ha.
  apply elem_of_cons in Ha as [->|Ha]; [by eapply get_next_lookup|].
  destruct t as [|z t].
  - apply list_elem_of_singleton in Ha as ->. by eapply get_prev_lookup.
  - apply IH; [done|cbn; lia|done].
Qed.

(** ** Queues as rings *)

Lemma is_queue_lookup m s xs y : is_queue m s xs -> y ∈ s :: xs -> is_Some (m !! y).
Proof.
  intros [_ Hc] Hy. eapply chain_lookup; [done|rewrite length_cons, length_app; cbn; lia|].
  rewrite app_comm_cons, elem_of_app. by left.
Qed.

(** A ring can be read from any of its nodes. *)
Lemma is_queue_rotate m s xs1 p xs2 :
  is_queue m s (xs1 ++ p :: xs2) <-> is_queue m p (xs2 ++ s :: xs1).
Proof.
  unfold is_queue.
  replace (s :: (xs1 ++ p :: xs2) ++ [s]) with ((s :: xs1) ++ p :: (xs2 ++ [s]))
    by (cbn; by rewrite <-app_assoc).
  replace (p :: (xs2 ++ s :: xs1) ++ [p]) with ((p :: xs2) ++ s :: (xs1 ++ [p]))
    by (cbn; by rewrite <-app_assoc).
  rewrite (chain_app m (s :: xs1)), (chain_app m (p :: xs2)). cbn -[chain].
  assert (s :: xs1 ++ p :: xs2 ≡ₚ p :: xs2 ++ s :: xs1) as ->.
  { apply (Permutation_app_comm (s :: xs1) (p :: xs2)). }
  tauto.
Qed.

Lemma is_queue_first m s xs : is_queue m s xs -> get_next m s = Some (hd s xs).
Proof. intros [_ Hc]. destruct xs; cbn in Hc; apply Hc. Qed.

Lemma is_queue_last m s xs : is_queue m s xs -> get_prev m s = Some (List.last xs s).
Proof.
  intros [_ Hc]. destruct (decide (xs = [])) as [->|Hne]; [cbn in *; apply Hc|].
  destruct (exists_last_elem xs Hne) as (k & x & ->). rewrite last_last.
  apply (chain_linked m (s :: k) x s []). cbn in *. by rewrite <-app_assoc in Hc.
Qed.

(** A queue is determined by the links of its own nodes. *)
Lemma is_queue_frame m m' s xs :
  is_queue m s xs -> (forall y, y ∈ s :: xs -> m' !! y = m !! y) -> is_queue m' s xs.
Proof.
  intros [Hnd Hc] Hs. split; [done|]. rewrite app_comm_cons in *.
  apply (chain_frame_nodup m); [exact Hc| |]; intros a Ha; unfold get_next, get_prev;
    (rewrite Hs; [done|]); [done|].
  cbn in Ha. set_solver.
Qed.

Lemma is_queue_same_except l m m' s xs :
  same_except l m m' -> is_queue m s xs -> (forall y, y ∈ s :: xs -> y ∉ l) ->
  is_queue m' s xs.
Proof. intros [_ E] Hq Hd. eapply is_queue_frame; [done|]. intros y Hy. apply E. auto. Qed.

(** ** The operations against their list counterparts *)

(** A node stays allocated through the updates. *)
Ltac alloc :=
  repeat first [ rewrite lookup_upd_prev_is_Some | rewrite lookup_upd_next_is_Some ];
  done.

(** Read fields through the updates, deciding the aliasing tests that the
    hypotheses settle. *)
Ltac fields :=
  repeat first
    [ rewrite get_prev_upd_prev | rewrite get_next_upd_prev
    | rewrite get_next_upd_next | rewrite get_prev_upd_next
    | rewrite decide_True by congruence | rewrite decide_False by congruence
    | rewrite const_prev by alloc | rewrite const_next by alloc
    | progress cbn [mbind option_bind] ].

(** Perform the next field write. *)
Ltac write :=
  first [rewrite set_prev_upd by alloc | rewrite set_next_upd by alloc]; fields.

Ltac frame :=
  repeat (eapply same_except_trans;
          [|first [apply same_except_upd_prev | apply same_except_upd_next]; set_solver]);
  first [apply same_except_refl | apply same_except_upd_prev; set_solver
        | apply same_except_upd_next; set_solver].

Lemma ntg_queue_init_spec m q :
  is_Some (m !! q) ->
  exists m', ntg_queue_init m q = Some m' /\ is_queue m' q [] /\ same_except [q] m m'.
Proof.
  intros Hq. unfold ntg_queue_init. do 2 write.
  eexists; split; [done|]. split; [|frame].
  split; [apply NoDup_singleton|]. split; [|done]. split; by fields.
Qed.

Lemma ntg_queue_empty_spec m s xs :
  is_queue m s xs -> ntg_queue_empty m s = Some (bool_decide (xs = [])).
Proof.
  intros Hq. unfold ntg_queue_empty. rewrite (is_queue_last _ _ _ Hq). cbn. f_equal.
  apply bool_decide_ext. split; [|by intros ->]. intros Hs.
  destruct (decide (xs = [])) as [->|Hne]; [done|].
  destruct (exists_last_elem xs Hne) as (k & x & ->). rewrite last_last in Hs. subst.
  destruct Hq as [Hnd _]. apply NoDup_cons in Hnd as [Hnd _]. set_solver.
Qed.

Lemma ntg_queue_insert_head_spec m s xs x :
  is_queue m s xs -> x ∉ s :: xs -> is_Some (m !! x) ->
  exists m', ntg_queue_insert_head m s x = Some m' /\ is_queue m' s (x :: xs) /\
             same_except (x :: s :: xs) m m'.
Proof.
  intros Hq Hx Hxm. set (n := hd s xs).
  assert (Hn : n ∈ s :: xs) by (subst n; destruct xs; set_solver).
  assert (Hsm : is_Some (m !! s)) by (eapply is_queue_lookup; set_solver).
  assert (Hnm : is_Some (m !! n)) by (by eapply is_queue_lookup).
  assert (Hxs : x <> s) by set_solver. assert (Hxn : x <> n) by set_solver.
  unfold ntg_queue_insert_head. rewrite (is_queue_first _ _ _ Hq). fields.
  fold n. do 4 write.
  eexists; split; [done|]. split; [|frame].
  destruct Hq as [Hnd Hc]. pose proof (proj1 (NoDup_cons _ _) Hnd) as [Hs Hnd'].
  split; [rewrite Permutation_swap; apply NoDup_cons; done|].
  cbn [app]. rewrite !chain_cons. cbn [head]. split; [|split].
  - intros ? [= <-]. split; by fields.
  - rewrite head_app_cons. intros ? [= <-]. fold n. split; by fields.
  - apply (chain_frame_nodup m); [apply (chain_cons m s), Hc| |]; intros a Ha.
    + assert (s <> a /\ x <> a) as [? ?] by set_solver. by fields.
    + assert (x <> a /\ n <> a) as [? ?]; [|by fields].
      destruct xs as [|y xs]; cbn in Ha; [set_solver|]. subst n; cbn.
      apply NoDup_cons in Hnd' as [? _]. set_solver.
Qed.

(** Appending is inserting after the last node. *)
Lemma ntg_queue_insert_tail_head m s p x :
  get_prev m s = Some p -> get_next m p = Some s -> is_Some (m !! x) ->
  x <> s -> x <> p ->
  ntg_queue_insert_tail m s x = ntg_queue_insert_head m p x.
Proof.
  intros Hs Hp Hx Hxs Hxp.
  pose proof (get_prev_lookup _ _ _ Hs). pose proof (get_next_lookup _ _ _ Hp).
  unfold ntg_queue_insert_tail, ntg_queue_insert_head. rewrite Hs, Hp. fields.
  do 4 write. do 4 write. f_equal. apply map_eq; intros y.
  unfold upd_prev, upd_next. rewrite !lookup_alter.
  repeat case_decide; subst; try done; destruct (m !! y) as [[? ?]|]; done.
Qed.

(** The predecessor of the sentinel points back to it. *)
Lemma is_queue_last_next m s xs :
  is_queue m s xs -> get_next m (List.last xs s) = Some s.
Proof.
  intros [_ Hc]. destruct (decide (xs = [])) as [->|Hne]; [cbn in *; apply Hc|].
  destruct (exists_last_elem xs Hne) as (k & x & ->). rewrite last_last.
  apply (chain_linked m (s :: k) x s []). cbn in *. by rewrite <-app_assoc in Hc.
Qed.

Lemma list_last_elem s xs : List.last xs s ∈ s :: xs.
Proof.
  destruct (decide (xs = [])) as [->|Hne]; [set_solver|].
  destruct (exists_last_elem xs Hne) as (k & x & ->). rewrite last_last. set_solver.
Qed.

(** Inserting after the last node of a prefix of the ring. *)
Lemma ntg_queue_insert_after_spec m s xs1 xs2 x :
  is_queue m s (xs1 ++ xs2) -> x ∉ s :: xs1 ++ xs2 -> is_Some (m !! x) ->
  exists m', ntg_queue_insert_after m (List.last xs1 s) x = Some m' /\
             is_queue m' s (xs1 ++ x :: xs2) /\ same_except (x :: s :: xs1 ++ xs2) m m'.
Proof.
  intros Hq Hx Hm. destruct (decide (xs1 = [])) as [->|Hne].
  { by apply ntg_queue_insert_head_spec. }
  destruct (exists_last_elem xs1 Hne) as (k & p & ->). rewrite last_last.
  rewrite <-app_assoc in Hq |- *. cbn in Hq |- *. rewrite is_queue_rotate in Hq.
  destruct (ntg_queue_insert_head_spec m p (xs2 ++ s :: k) x Hq) as (m' & E & Hq' & Hs);
    [set_solver|done|].
  exists m'; split; [done|]. split; [by rewrite is_queue_rotate|].
  eapply same_except_weaken; [done|set_solver].
Qed.

Lemma ntg_queue_insert_tail_spec m s xs x :
  is_queue m s xs -> x ∉ s :: xs -> is_Some (m !! x) ->
  exists m', ntg_queue_insert_tail m s x = Some m' /\ is_queue m' s (xs ++ [x]) /\
             same_except (x :: s :: xs) m m'.
Proof.
  intros Hq Hx Hm. pose proof (list_last_elem s xs).
  rewrite (ntg_queue_insert_tail_head m s (List.last xs s));
    [|by apply is_queue_last|by apply is_queue_last_next|done|set_solver..].
  destruct (ntg_queue_insert_after_spec m s xs [] x) as (m' & E & Hq' & Hs);
    rewrite ?app_nil_r in *; eauto.
Qed.

(** Unlinking a node leaves the ring of the others. *)
Lemma ntg_queue_remove_ring m x s xs :
  is_queue m x (s :: xs) ->
  exists m', ntg_queue_remove m x = Some m' /\ is_queue m' s xs /\
             same_except (s :: xs) m m' /\ m' !! x = m !! x.
Proof.
  intros Hq. pose proof (is_queue_first _ _ _ Hq) as Hf.
  pose proof (is_queue_last _ _ _ Hq) as Hl. cbn [hd] in Hf.
  destruct (exists_last_elem (s :: xs)) as (k & l & Hk); [done|].
  rewrite Hk, last_last in Hl.
  assert (Hls : l ∈ s :: xs) by (rewrite Hk; set_solver).
  assert (Hsm : is_Some (m !! s)) by (eapply is_queue_lookup; set_solver).
  assert (Hlm : is_Some (m !! l)) by (eapply is_queue_lookup; set_solver).
  destruct Hq as [Hnd Hc]. apply NoDup_cons in Hnd as [Hx Hnd].
  assert (Hxs : x <> s) by set_solver.
  unfold ntg_queue_remove. rewrite Hf, Hl. fields. write. rewrite Hl, Hf. fields. write.
  eexists; split; [done|]. split; [|split; [frame|]].
  2: { unfold upd_next, upd_prev. rewrite !lookup_alter_ne by set_solver. done. }
  split; [done|]. rewrite app_comm_cons.
  apply (chain_extend m _ _ k l); [done| |done| | |split; by fields].
  - apply (chain_cons m x), proj2 in Hc. by eapply chain_app_l.
  - intros a _ ?. by fields.
  - intros a Ha. cbn in Ha. apply NoDup_cons in Hnd as [? _].
    assert (s <> a) by set_solver. by fields.
Qed.

Lemma ntg_queue_remove_spec m s xs1 x xs2 :
  is_queue m s (xs1 ++ x :: xs2) ->
  exists m', ntg_queue_remove m x = Some m' /\ is_queue m' s (xs1 ++ xs2) /\
             same_except (s :: xs1 ++ xs2) m m' /\ m' !! x = m !! x.
Proof.
  rewrite is_queue_rotate. destruct xs2 as [|f xs2]; intros Hq.
  - destruct (ntg_queue_remove_ring _ _ _ _ Hq) as (m' & ? & ? & ? & ?).
    exists m'. by rewrite app_nil_r.
  - destruct (ntg_queue_remove_ring _ _ f (xs2 ++ s :: xs1) Hq) as (m' & ? & ? & ? & ?).
    exists m'. rewrite is_queue_rotate. split_and!; try done.
    eapply same_except_weaken; [done|set_solver].
Qed.

Lemma ntg_queue_split_spec m h xs1 q xs2 n :
  is_queue m h (xs1 ++ q :: xs2) -> n ∉ h :: xs1 ++ q :: xs2 -> is_Some (m !! n) ->
  exists m', ntg_queue_split m h q n = Some m' /\ is_queue m' h xs1 /\
             is_queue m' n (q :: xs2) /\ same_except (n :: h :: xs1 ++ q :: xs2) m m'.
Proof.
  intros Hq Hn Hnm. pose proof (is_queue_last _ _ _ Hq) as Hl.
  destruct (exists_last_elem (q :: xs2)) as (k2 & l & Hk2); [done|].
  destruct (exists_last_elem (h :: xs1)) as (k1 & p & Hk1); [done|].
  assert (Ha : forall a, a ∈ h :: xs1 ++ q :: xs2 -> is_Some (m !! a)) by
    (intros; by eapply is_queue_lookup).
  assert (Hlm : l ∈ q :: xs2) by (rewrite Hk2; set_solver).
  assert (Hpm : p ∈ h :: xs1) by (rewrite Hk1; set_solver).
  assert (is_Some (m !! l)) by (apply Ha; set_solver).
  assert (is_Some (m !! p)) by (apply Ha; set_solver).
  assert (is_Some (m !! h)) by (apply Ha; set_solver).
  assert (is_Some (m !! q)) by (apply Ha; set_solver).
  destruct Hq as [Hnd Hc].
  rewrite app_comm_cons in Hnd.
  apply NoDup_app in Hnd as (Hnd1 & Hdis & Hnd2).
  assert (Hlp : forall a, a ∈ h :: xs1 -> a <> l) by set_solver.
  assert (Hqp : forall a, a ∈ h :: xs1 -> a <> q) by set_solver.
  assert (n <> h /\ n <> q /\ n <> l /\ n <> p) as (?&?&?&?) by set_solver.
  assert (q <> h /\ l <> h /\ l <> p /\ p <> q) as (?&?&?&?) by set_solver.
  assert (Hpq : get_prev m q = Some p).
  { rewrite <-app_assoc, app_comm_cons, Hk1, <-app_assoc in Hc.
    apply (chain_linked m k1 p q _ Hc). }
  assert (Hc1 : chain m (h :: xs1)).
  { rewrite <-app_assoc, app_comm_cons in Hc. by eapply chain_app_l. }
  assert (Hc2 : chain m (q :: xs2)).
  { rewrite <-app_assoc, app_comm_cons in Hc. by eapply chain_app_l, chain_app_r. }
  rewrite Hk2, app_assoc, last_last in Hl.
  unfold ntg_queue_split. rewrite Hl. fields. do 3 write.
  rewrite Hpq. fields. do 3 write.
  eexists; split; [done|]. split; [|split; [|frame]].
  - split; [done|]. rewrite app_comm_cons.
    apply (chain_extend m _ _ k1 p); [done..| | |].
    + intros a Hin Hap. pose proof (Hlp _ Hin). assert (n <> a) by set_solver. by fields.
    + intros a Hin. cbn in Hin. assert (n <> a /\ q <> a) as [? ?] by set_solver.
      apply NoDup_cons in Hnd1 as [? _]. assert (h <> a) by set_solver. by fields.
    + split; by fields.
  - split; [apply NoDup_cons; split; [set_solver|done]|].
    cbn [app]. rewrite chain_cons. cbn [head].
    split; [intros ? [= <-]; split; by fields|]. rewrite app_comm_cons.
    apply (chain_extend m _ _ k2 l); [done..| | |].
    + intros a Hin Hal. assert (p <> a /\ n <> a) as [? ?] by set_solver. by fields.
    + intros a Hin. cbn in Hin. apply NoDup_cons in Hnd2 as [? _].
      assert (n <> a /\ q <> a /\ h <> a) as (? & ? & ?) by set_solver. by fields.
    + split; by fields.
Qed.

(** [ntg_queue_add] appends the nodes of [n] to [h]; [n] itself is left
    pointing into the merged ring. *)
Lemma ntg_queue_add_spec m h n xs f ys :
  is_queue m h xs -> is_queue m n (f :: ys) ->
  (forall a, a ∈ h :: xs -> a ∉ n :: f :: ys) ->
  exists m', ntg_queue_add m h n = Some m' /\ is_queue m' h (xs ++ f :: ys) /\
             same_except (h :: xs ++ f :: ys) m m'.
Proof.
  intros Hq1 Hq2 Hdis.
  pose proof (is_queue_last _ _ _ Hq1) as Hl1. pose proof (is_queue_last _ _ _ Hq2) as Hl2.
  pose proof (is_queue_first _ _ _ Hq2) as Hf2. cbn [hd] in Hf2.
  destruct (exists_last_elem (h :: xs)) as (k1 & p & Hk1); [done|].
  destruct (exists_last_elem (f :: ys)) as (k2 & l & Hk2); [done|].
  assert (Hpm : p ∈ h :: xs) by (rewrite Hk1; set_solver).
  assert (Hlm : l ∈ f :: ys) by (rewrite Hk2; set_solver).
  pose proof (last_cons_snoc _ _ _ _ Hk1) as Hlp.
  rewrite Hlp in Hl1. rewrite Hk2, last_last in Hl2.
  assert (is_Some (m !! h)) by (eapply (is_queue_lookup m h xs); [done|set_solver]).
  assert (is_Some (m !! p)) by (eapply (is_queue_lookup m h xs); [done|set_solver]).
  assert (is_Some (m !! f)) by (eapply (is_queue_lookup m n (f :: ys)); [done|set_solver]).
  assert (is_Some (m !! l)) by (eapply (is_queue_lookup m n (f :: ys)); [done|set_solver]).
  assert (p <> n /\ h <> n /\ f <> h /\ f <> p /\ l <> p /\ l <> h) as (?&?&?&?&?&?)
    by set_solver.
  destruct Hq1 as [Hnd1 Hc1], Hq2 as [Hnd2 Hc2].
  pose proof (proj2 (proj1 (NoDup_cons _ _) Hnd2)) as Hnd2'.
  pose proof (proj1 (proj1 (NoDup_cons _ _) Hnd2)) as Hn.
  assert (f <> n /\ l <> n) as [? ?] by set_solver.
  unfold ntg_queue_add. rewrite Hl1, Hf2. fields. write. rewrite Hf2, Hl1. fields. write.
  rewrite Hl2. fields. write. write.
  eexists; split; [done|]. split; [|frame]. split.
  { apply (NoDup_app (h :: xs)); split_and!; set_solver. }
  assert (Hc1' : chain m (h :: xs)) by (rewrite app_comm_cons in Hc1; by eapply chain_app_l).
  apply (chain_cons m n), proj2 in Hc2.
  assert (Hc2' : chain m (f :: ys)) by (by eapply chain_app_l).
  replace (h :: (xs ++ f :: ys) ++ [h]) with ((h :: xs) ++ f :: (ys ++ [h]))
    by (cbn; by rewrite <-app_assoc).
  rewrite chain_app, (app_comm_cons ys). split.
  - apply (chain_extend m _ _ k1 p); [done..| | |].
    + intros a Hin Hap. assert (l <> a) by set_solver. by fields.
    + intros a Hin. cbn in Hin. apply NoDup_cons in Hnd1 as [? _].
      assert (f <> a /\ h <> a) as [? ?] by set_solver. by fields.
    + split; by fields.
  - apply (chain_extend m _ _ k2 l); [done..| | |].
    + intros a Hin Hal. assert (p <> a) by set_solver. by fields.
    + intros a Hin. cbn in Hin. apply NoDup_cons in Hnd2' as [? _].
      assert (f <> a /\ h <> a) as [? ?] by set_solver. by fields.
    + split; by fields.
Qed.

(** ** Properties *)

(** C39: inserting a fresh node at the head or at the tail of a ring, and
    unlinking any node of it, succeed, give the ring of the list with the
    node added or removed at that place, and change no node outside the
    ring. *)
Theorem ntg_queue_ops_correct m s xs x :
  is_queue m s xs -> x ∉ s :: xs -> is_Some (m !! x) ->
  (exists m', ntg_queue_insert_head m s x = Some m' /\ is_queue m' s (x :: xs) /\
              same_except (x :: s :: xs) m m') /\
  (exists m', ntg_queue_insert_tail m s x = Some m' /\ is_queue m' s (xs ++ [x]) /\
              same_except (x :: s :: xs) m m') /\
  (forall xs1 y xs2, xs = xs1 ++ y :: xs2 ->
     exists m', ntg_queue_remove m y = Some m' /\ is_queue m' s (xs1 ++ xs2) /\
                same_except (s :: xs1 ++ xs2) m m' /\ m' !! y = m !! y).
Proof.
  intros Hq Hx Hm. split_and!.
  - by apply ntg_queue_insert_head_spec.
  - by apply ntg_queue_insert_tail_spec.
  - intros xs1 y xs2 ->. by apply ntg_queue_remove_spec.
Qed.

(** Splitting a ring at a node [q] into a fresh sentinel [n] leaves the
    nodes before [q] in the first ring and [q] with its successors in the
    second, and adding the second ring back to the first restores the
    original one. *)
Theorem ntg_queue_split_add m h xs1 q xs2 n :
  is_queue m h (xs1 ++ q :: xs2) -> n ∉ h :: xs1 ++ q :: xs2 -> is_Some (m !! n) ->
  exists m1 m2, ntg_queue_split m h q n = Some m1 /\
    is_queue m1 h xs1 /\ is_queue m1 n (q :: xs2) /\
    ntg_queue_add m1 h n = Some m2 /\ is_queue m2 h (xs1 ++ q :: xs2) /\
    same_except (n :: h :: xs1 ++ q :: xs2) m m2.
Proof.
  intros Hq Hn Hm.
  destruct (ntg_queue_split_spec _ _ _ _ _ _ Hq Hn Hm) as (m1 & E1 & Hh & Hn1 & Hs1).
  destruct (ntg_queue_add_spec m1 h n xs1 q xs2 Hh Hn1) as (m2 & E2 & H2 & Hs2).
  - destruct Hq as [Hnd _]. rewrite app_comm_cons in Hnd.
    apply NoDup_app in Hnd as (_ & Hd & _). intros a Ha. specialize (Hd a Ha).
    rewrite elem_of_cons. intros [-> |?]; [|done]. set_solver.
  - exists m1, m2. split_and!; try done.
    eapply same_except_trans; [done|]. eapply same_except_weaken; [done|set_solver].
Qed.

#[global] Instance linked_dec m a b : Decision (linked m a b).
Proof. unfold linked. apply _. Defined.
#[global] Instance chain_dec m l : Decision (chain m l).
Proof.
  induction l as [|a [|b l] IH]; [left; done|left; done|].
  cbn. apply and_dec; [apply _|exact IH].
Defined.
#[global] Instance is_queue_dec m s xs : Decision (is_queue m s xs).
Proof. unfold is_queue. apply _. Defined.

End queue.

Arguments qlink : clear implicits.

(** A ring with sentinel 0 and nodes 1, 2, 3, built by the operations, and two
    more initialised nodes 4 and 5. *)
Definition example_heap : gmap nat (qlink nat) :=
  let m := list_to_map ((fun i => (i, QLink i i)) <$> seq 0 6) in
  default ∅ (
    m ← ntg_queue_init m 0%nat;
    m ← ntg_queue_insert_tail m 0%nat 2%nat;
    m ← ntg_queue_insert_head m 0%nat 1%nat;
    ntg_queue_insert_tail m 0%nat 3%nat).

Lemma example_ring : is_queue example_heap 0%nat [1; 2; 3]%nat.
Proof. apply (bool_decide_eq_true_1 _). by vm_compute. Qed.

Lemma ntg_queue_ops_correct_witness :
  exists m', ntg_queue_insert_tail example_heap 0%nat 4%nat = Some m' /\
             is_queue m' 0%nat [1; 2; 3; 4]%nat.
Proof.
  destruct (ntg_queue_ops_correct example_heap 0%nat [1; 2; 3]%nat 4%nat)
    as (_ & (m' & Em & Hm & _) & _).
  - apply example_ring.
  - apply (bool_decide_eq_true_1 _). by vm_compute.
  - by eexists.
  - by exists m'.
Defined.

Lemma ntg_queue_split_add_witness :
  exists m1, ntg_queue_split example_heap 0%nat 2%nat 5%nat = Some m1 /\
    is_queue m1 0%nat [1]%nat /\ is_queue m1 5%nat [2; 3]%nat.
Proof.
  destruct (ntg_queue_split_add example_heap 0%nat [1]%nat 2%nat [3]%nat 5%nat)
    as (m1 & m2 & Em & Hm1 & Hm2 & _).
  - apply example_ring.
  - apply (bool_decide_eq_true_1 _). by vm_compute.
  - by eexists.
  - by exists m1.
Defined.
