(* ===== verification/QueueAlgo.v ===== *)
(** * Algorithms over a queue (src/utils/ntg_queue.c)

    The middle element and the stable insertion sort, on the link heap of
    [Queue]. *)

From stdpp Require Import sorting.
From S2P Require Import Prelude Queue.

Section queue_algorithms.
Context {L : Type} `{Countable L}.
Implicit Types (s p q x y : L) (xs ys zs : list L) (m : gmap L (qlink L)).

(** ** ntg_queue.c

    The loops take fuel; the theorems below show that as much fuel as the
    queue has nodes is enough. *)

Fixpoint ntg_queue_middle_loop (fuel : nat) m (queue middle next : L) : option L :=
  match fuel with
  | O => None
  | S fuel =>
      middle ← get_next m middle;
      next ← get_next m next;
      last ← ntg_queue_last m queue;
      if bool_decide (next = last) then Some middle
      else
        next ← get_next m next;
        last ← ntg_queue_last m queue;
        if bool_decide (next = last) then Some middle
        else ntg_queue_middle_loop fuel m queue middle next
  end.

Definition ntg_queue_middle (fuel : nat) m (queue : L) : option L :=
  middle ← ntg_queue_head m queue;
  last ← ntg_queue_last m queue;
  if bool_decide (middle = last) then Some middle
  else
    next ← ntg_queue_head m queue;
    ntg_queue_middle_loop fuel m queue middle next.

(** The comparison callback only reads the objects the nodes are embedded
    in, which the sort does not modify. *)
Context (cmp : L -> L -> Z).

(** The inner [do ... while] of [ntg_queue_sort]: walk back from [prev] to
    the place [q] belongs after. *)
Fixpoint ntg_queue_sort_scan (fuel : nat) m (queue : L) prev q : option L :=
  match fuel with
  | O => None
  | S fuel =>
      if cmp prev q <=? 0 then Some prev
      else
        prev ← get_prev m prev;
        if bool_decide (prev = queue) then Some prev
        else ntg_queue_sort_scan fuel m queue prev q
  end.

Fixpoint ntg_queue_sort_loop (fuel : nat) (size : nat) m (queue : L) q
  : option (gmap L (qlink L)) :=
  match fuel with
  | O => None
  | S fuel =>
      if bool_decide (q = queue) then Some m
      else
        prev ← get_prev m q;
        next ← get_next m q;
        m ← ntg_queue_remove m q;
        prev ← ntg_queue_sort_scan size m queue prev q;
        m ← ntg_queue_insert_after m prev q;
        ntg_queue_sort_loop fuel size m queue next
  end.

Definition ntg_queue_sort (size : nat) m (queue : L) : option (gmap L (qlink L)) :=
  q ← ntg_queue_head m queue;
  last ← ntg_queue_last m queue;
  if bool_decide (q = last) then Some m
  else
    q ← get_next m q;
    ntg_queue_sort_loop size size m queue q.

(** ** The reference sort

    [place q pre] puts [q] after the last element of [pre] that does not
    compare greater. *)
Fixpoint place_rev (q : L) (r : list L) : list L :=
  match r with
  | [] => [q]
  | e :: r' => if cmp e q <=? 0 then q :: e :: r' else e :: place_rev q r'
  end.

Definition place q (pre : list L) : list L := rev (place_rev q (rev pre)).

Definition insertion_sort (xs : list L) : list L :=
  fold_left (fun pre q => place q pre) xs [].

(** ** Reading neighbours by position *)

Lemma is_queue_next m s xs i a b :
  is_queue m s xs -> xs !! i = Some a -> xs !! S i = Some b -> get_next m a = Some b.
Proof.
  intros [_ Hc] Ha Hb. destruct (list_elem_of_split_length _ _ _ Ha) as (l1 & l2 & -> & ->).
  rewrite lookup_app_r in Hb by lia. replace (S _ - _)%nat with 1%nat in Hb by lia.
  destruct l2 as [|c l2]; [done|]. injection Hb as ->.
  apply (chain_linked m (s :: l1) a b (l2 ++ [s])).
  by rewrite <-app_assoc in Hc.
Qed.

Lemma is_queue_prev m s xs1 p xs2 :
  is_queue m s (xs1 ++ p :: xs2) -> get_prev m p = Some (List.last xs1 s).
Proof.
  rewrite is_queue_rotate. intros Hq. apply is_queue_last in Hq. rewrite Hq. f_equal.
  destruct (decide (xs1 = [])) as [->|Hne]; [by rewrite last_last|].
  destruct (exists_last_elem xs1 Hne) as (k & x & ->).
  by rewrite app_comm_cons, app_assoc, !last_last.
Qed.

Lemma list_last_lookup (xs : list L) d :
  xs <> [] -> xs !! (length xs - 1)%nat = Some (List.last xs d).
Proof.
  intros Hne. destruct (exists_last_elem xs Hne) as (k & x & ->).
  rewrite last_last, length_app. cbn. replace (length k + 1 - 1)%nat with (length k) by lia.
  by rewrite list_lookup_middle.
Qed.

(** ** The middle element *)

Lemma middle_loop_spec m s xs fuel i a b :
  is_queue m s xs -> xs !! i = Some a -> xs !! (2 * i)%nat = Some b ->
  (2 * i + 1 < length xs)%nat -> (length xs <= 2 * i + fuel)%nat ->
  ntg_queue_middle_loop fuel m s a b = xs !! (length xs / 2)%nat.
Proof.
  intros Hq. revert i a b. induction fuel as [|fuel IH]; intros i a b Ha Hb Hi Hf; [lia|].
  assert (Hne : xs <> []) by (by intros ->).
  pose proof (list_last_lookup xs s Hne) as Hlast.
  assert (Hnd : NoDup xs) by (by destruct Hq as [[_ ?]%NoDup_cons _]).
  destruct (lookup_lt_is_Some_2 xs (S i)) as [a1 Ha1]; [lia|].
  destruct (lookup_lt_is_Some_2 xs (S (2 * i))) as [b1 Hb1]; [lia|].
  cbn [ntg_queue_middle_loop]. unfold ntg_queue_last.
  rewrite (is_queue_next _ _ _ _ _ _ Hq Ha Ha1), (is_queue_next _ _ _ _ _ _ Hq Hb Hb1),
    (is_queue_last _ _ _ Hq). cbn [mbind option_bind].
  case_bool_decide as E1.
  { subst. pose proof (NoDup_lookup _ _ _ _ Hnd Hb1 Hlast).
    rewrite <-Ha1. f_equal. apply Nat.div_unique with 0%nat; lia. }
  assert (S (2 * i) <> length xs - 1)%nat by (intros E; rewrite E in Hb1; congruence).
  destruct (lookup_lt_is_Some_2 xs (S (S (2 * i)))) as [b2 Hb2]; [lia|].
  rewrite (is_queue_next _ _ _ _ _ _ Hq Hb1 Hb2). cbn [mbind option_bind].
  case_bool_decide as E2.
  { subst. pose proof (NoDup_lookup _ _ _ _ Hnd Hb2 Hlast).
    rewrite <-Ha1. f_equal. apply Nat.div_unique with 1%nat; lia. }
  assert (S (S (2 * i)) <> length xs - 1)%nat by (intros E; rewrite E in Hb2; congruence).
  apply (IH (S i)); [done| |lia..]. by replace (2 * S i)%nat with (S (S (2 * i))) by lia.
Qed.

Lemma middle_spec m s xs fuel :
  is_queue m s xs -> (length xs <= fuel)%nat ->
  ntg_queue_middle fuel m s = Some (default s (xs !! (length xs / 2)%nat)).
Proof.
  intros Hq Hf. unfold ntg_queue_middle, ntg_queue_head, ntg_queue_last.
  rewrite (is_queue_first _ _ _ Hq), (is_queue_last _ _ _ Hq). cbn [mbind option_bind].
  destruct xs as [|a [|a' xs]]; [cbn; by rewrite bool_decide_eq_true_2..|].
  cbn [hd]. rewrite bool_decide_eq_false_2.
  - rewrite (middle_loop_spec m s (a :: a' :: xs) fuel 0 a a); [|done..|cbn; lia|cbn in *; lia].
    destruct (lookup_lt_is_Some_2 (a :: a' :: xs) (length (a :: a' :: xs) / 2)) as [c ->]; [|done].
    apply Nat.div_lt; cbn; lia.
  - destruct Hq as [Hnd _]. apply NoDup_cons in Hnd as [_ Hnd].
    apply NoDup_cons in Hnd as [Hnd _]. intros E. apply Hnd.
    pose proof (list_last_lookup (a' :: xs) s) as Hl. cbn in E, Hl |- *. rewrite E.
    eapply list_elem_of_lookup_2, Hl. done.
Qed.

(** ** The sort *)

Lemma place_snoc_le q pre e : (cmp e q <= 0) -> place q (pre ++ [e]) = pre ++ [e; q].
Proof.
  intros Hc. unfold place. rewrite rev_app_distr. cbn.
  rewrite (proj2 (Z.leb_le _ _) Hc). cbn. rewrite rev_involutive, <-app_assoc. done.
Qed.
Lemma place_snoc_gt q pre e : ~ (cmp e q <= 0) -> place q (pre ++ [e]) = place q pre ++ [e].
Proof.
  intros Hc. unfold place. rewrite rev_app_distr. cbn.
  rewrite (proj2 (Z.leb_gt _ _)) by lia. done.
Qed.

(** Where [place] splits the prefix. *)
Lemma place_split q pre :
  exists a b, pre = a ++ b /\ place q pre = a ++ q :: b /\
    (forall e, e ∈ b -> 0 < cmp e q) /\
    (a = [] \/ exists a' e, a = a' ++ [e] /\ cmp e q <= 0).
Proof.
  induction pre as [|e pre IH] using rev_ind.
  { exists [], []. split_and!; try done; [set_solver|by left]. }
  destruct (decide (cmp e q <= 0)) as [Hle|Hgt].
  - exists (pre ++ [e]), []. rewrite app_nil_r, place_snoc_le, <-app_assoc by done.
    split_and!; try done; [set_solver|right; eauto].
  - destruct IH as (a & b & -> & Hp & Hb & Ha). exists a, (b ++ [e]).
    rewrite place_snoc_gt, Hp, <-!app_assoc by done. split_and!; try done.
    intros e' [?| ->%list_elem_of_singleton]%elem_of_app; [auto|lia].
Qed.

(** The backward scan stops at the node (or the sentinel) [place] puts [q]
    after. *)
Lemma sort_scan_spec m s q rest fuel pre e :
  is_queue m s ((pre ++ [e]) ++ rest) -> (length pre < fuel)%nat ->
  exists a b, pre ++ [e] = a ++ b /\ place q (pre ++ [e]) = a ++ q :: b /\
    ntg_queue_sort_scan fuel m s e q = Some (List.last a s).
Proof.
  revert rest fuel e. induction pre as [|e' pre IH] using rev_ind; intros rest fuel e Hq Hf;
    (destruct fuel as [|fuel]; [rewrite ?length_app in Hf; cbn in Hf; lia|]);
    cbn [ntg_queue_sort_scan]; destruct (Z.leb_spec (cmp e q) 0) as [Hle|Hgt].
  1: exists ([] ++ [e]), [].
  3: exists ((pre ++ [e']) ++ [e]), [].
  1,3: by rewrite app_nil_r, place_snoc_le, last_last, <-?app_assoc.
  - rewrite <-app_assoc in Hq. cbn in Hq.
    rewrite (is_queue_prev _ _ [] _ _ Hq). cbn. rewrite bool_decide_eq_true_2 by done.
    exists [], [e]. split_and!; try done. apply (place_snoc_gt q [] e). lia.
  - rewrite <-(app_assoc (pre ++ [e'])) in Hq. cbn [app] in Hq.
    rewrite (is_queue_prev _ _ _ _ _ Hq). cbn [mbind option_bind]. rewrite last_last.
    rewrite bool_decide_eq_false_2.
    + destruct (IH (e :: rest) fuel e') as (a & b & E & Ep & Es);
        [done|rewrite length_app in Hf; cbn in Hf; lia|].
      exists a, (b ++ [e]). rewrite place_snoc_gt, Ep, E, <-!app_assoc by lia.
      done.
    + destruct Hq as [Hnd _]. apply NoDup_cons in Hnd as [Hs _].
      intros ->. apply Hs. set_solver.
Qed.

Lemma sort_loop_spec size m s pre rest fuel :
  is_queue m s (pre ++ rest) -> pre <> [] ->
  (length pre + length rest <= size)%nat -> (length rest < fuel)%nat ->
  exists m', ntg_queue_sort_loop fuel size m s (hd s rest) = Some m' /\
    is_queue m' s (fold_left (fun pre q => place q pre) rest pre) /\
    same_except (s :: pre ++ rest) m m'.
Proof.
  revert m pre rest. induction fuel as [|fuel IH]; intros m pre rest Hq Hne Hsz Hf; [lia|].
  destruct rest as [|q rest]; cbn [hd ntg_queue_sort_loop fold_left].
  { rewrite bool_decide_eq_true_2 by done. exists m. rewrite app_nil_r in *.
    split_and!; [done..|apply same_except_refl]. }
  rewrite bool_decide_eq_false_2;
    [|destruct Hq as [[Hs _]%NoDup_cons _]; intros ->; apply Hs; set_solver].
  destruct (exists_last_elem pre Hne) as (k & e & ->).
  rewrite (is_queue_prev _ _ _ _ _ Hq), last_last. cbn [mbind option_bind].
  pose proof Hq as Hq'. rewrite is_queue_rotate in Hq'.
  assert (get_next m q = Some (hd s rest)) as -> by
    (rewrite (is_queue_first _ _ _ Hq'); by destruct rest).
  cbn [mbind option_bind].
  destruct (ntg_queue_remove_spec m s _ _ _ Hq) as (m1 & -> & Hq1 & Hs1 & Hk).
  cbn [mbind option_bind].
  destruct (sort_scan_spec m1 s q rest size k e) as (a & b & E & Ep & ->);
    [done|rewrite length_app in Hsz; cbn in Hsz; lia|].
  cbn [mbind option_bind]. rewrite E, <-app_assoc in Hq1.
  assert (Hqf : q ∉ s :: (a ++ b ++ rest)).
  { rewrite app_assoc, <-E. destruct Hq' as [[Hs _]%NoDup_cons _]. set_solver. }
  destruct (ntg_queue_insert_after_spec m1 s a (b ++ rest) q) as (m2 & -> & Hq2 & Hs2);
    [done..|rewrite Hk; eapply is_queue_lookup; [exact Hq|set_solver]|].
  cbn [mbind option_bind].
  destruct (IH m2 (a ++ q :: b) rest) as (m3 & -> & Hq3 & Hs3).
  - by rewrite <-app_assoc.
  - by destruct a.
  - apply (f_equal length) in E. rewrite !length_app in *. cbn in *. lia.
  - cbn in Hf. lia.
  - exists m3. rewrite Ep. split_and!; [done..|]. rewrite E in *.
    eapply same_except_trans; [|eapply same_except_trans];
      (eapply same_except_weaken; [eassumption|]); set_solver.
Qed.

Lemma sort_spec size m s xs :
  is_queue m s xs -> (length xs <= size)%nat -> xs <> [] ->
  exists m', ntg_queue_sort size m s = Some m' /\ is_queue m' s (insertion_sort xs) /\
    same_except (s :: xs) m m'.
Proof.
  intros Hq Hsz Hne. unfold ntg_queue_sort, ntg_queue_head, ntg_queue_last.
  rewrite (is_queue_first _ _ _ Hq), (is_queue_last _ _ _ Hq). cbn [mbind option_bind].
  destruct xs as [|a xs]; [done|]. cbn [hd]. case_bool_decide as E.
  - exists m. destruct xs as [|b xs]; [split_and!; [done..|apply same_except_refl]|].
    exfalso. destruct Hq as [[_ [Hnd _]%NoDup_cons]%NoDup_cons _]. apply Hnd.
    pose proof (list_last_lookup (b :: xs) s) as Hl. cbn in E, Hl |- *. rewrite E.
    eapply list_elem_of_lookup_2, Hl. done.
  - assert (get_next m a = Some (hd s xs)) as ->.
    { pose proof (proj1 (is_queue_rotate m s [] a xs) Hq) as Hr.
      rewrite (is_queue_first _ _ _ Hr). by destruct xs. }
    cbn [mbind option_bind].
    apply (sort_loop_spec size m s [a] xs); [done..|cbn in *; lia|cbn in *; lia].
Qed.

Lemma sort_empty_spec size m s : is_queue m s [] -> ntg_queue_sort size m s = Some m.
Proof.
  intros Hq. unfold ntg_queue_sort, ntg_queue_head, ntg_queue_last.
  rewrite (is_queue_first _ _ _ Hq), (is_queue_last _ _ _ Hq). cbn.
  by rewrite bool_decide_eq_true_2.
Qed.

(** ** The reference sort sorts, stably *)

Lemma place_perm q pre : place q pre ≡ₚ pre ++ [q].
Proof.
  destruct (place_split q pre) as (a & b & -> & -> & _). 
  by rewrite <-app_assoc, (Permutation_app_comm b [q]).
Qed.

Lemma insertion_sort_perm xs : insertion_sort xs ≡ₚ xs.
Proof.
  unfold insertion_sort. change xs with ([] ++ xs) at 2. generalize (@nil L).
  induction xs as [|x xs IH]; intros l; cbn; [by rewrite app_nil_r|].
  rewrite IH, place_perm, <-app_assoc. done.
Qed.

Context (cmp_total : forall a b, cmp a b <= 0 \/ cmp b a <= 0).
Context (cmp_trans : forall a b c, cmp a b <= 0 -> cmp b c <= 0 -> cmp a c <= 0).

Lemma place_sorted q pre :
  StronglySorted (fun a b => cmp a b <= 0) pre ->
  StronglySorted (fun a b => cmp a b <= 0) (place q pre).
Proof.
  destruct (place_split q pre) as (a & b & -> & -> & Hb & Ha). intros Hs.
  apply StronglySorted_app in Hs as (Hab & Hsa & Hsb).
  assert (Haq : forall e, e ∈ a -> cmp e q <= 0).
  { destruct Ha as [->|(a' & e & -> & He)]; [set_solver|].
    apply StronglySorted_app in Hsa as (Hae & _).
    intros x [Hx| ->%list_elem_of_singleton]%elem_of_app; [|done].
    apply (cmp_trans x e q); [apply Hae; set_solver|done]. }
  assert (Hqb : forall e, e ∈ b -> cmp q e <= 0).
  { intros e He. destruct (cmp_total q e); [done|]. specialize (Hb e He). lia. }
  apply StronglySorted_app_2; [|done|].
  - intros x y Hx [-> |Hy]%elem_of_cons; auto.
  - apply StronglySorted_cons. split; [|done]. by apply Forall_forall.
Qed.

Lemma insertion_sort_sorted xs :
  StronglySorted (fun a b => cmp a b <= 0) (insertion_sort xs).
Proof.
  unfold insertion_sort.
  assert (Hs : StronglySorted (fun a b => cmp a b <= 0) (@nil L)) by constructor.
  revert Hs. generalize (@nil L).
  induction xs as [|x xs IH]; intros l Hl; cbn; [done|]. by apply IH, place_sorted.
Qed.

(** Elements that compare equal keep their order. *)
Lemma place_stable (P : L -> Prop) `{forall x, Decision (P x)} q pre :
  (forall a b, P a -> P b -> cmp a b <= 0) ->
  filter P (place q pre) = filter P (pre ++ [q]).
Proof.
  intros HP. destruct (place_split q pre) as (a & b & -> & -> & Hb & _).
  rewrite <-app_assoc, !filter_app, filter_cons. f_equal. rewrite filter_cons, filter_nil.
  case_decide; [|by rewrite app_nil_r].
  assert (filter P b = []) as ->; [|done].
  destruct (filter P b) as [|e l] eqn:E; [done|].
  assert (e ∈ filter P b) as [? ?]%list_elem_of_filter by (rewrite E; set_solver).
  specialize (Hb e ltac:(done)). specialize (HP e q ltac:(done) ltac:(done)). lia.
Qed.

Lemma insertion_sort_stable (P : L -> Prop) `{forall x, Decision (P x)} xs :
  (forall a b, P a -> P b -> cmp a b <= 0) ->
  filter P (insertion_sort xs) = filter P xs.
Proof.
  intros HP. unfold insertion_sort. change xs with ([] ++ xs) at 2. generalize (@nil L).
  induction xs as [|x xs IH]; intros l; cbn; [by rewrite app_nil_r|].
  rewrite IH, filter_app, place_stable, <-filter_app, <-app_assoc by done. done.
Qed.

(** ** Properties *)

(** C37: [ntg_queue_sort] terminates within a number of steps that is the
    length of the ring, and leaves in the ring the same nodes, sorted by the
    comparison, the nodes that compare equal in their original order,
    without touching any node outside the ring. *)
Theorem ntg_queue_sort_correct m s xs size :
  is_queue m s xs -> (length xs <= size)%nat ->
  exists m' ys, ntg_queue_sort size m s = Some m' /\ is_queue m' s ys /\
    same_except (s :: xs) m m' /\
    ys ≡ₚ xs /\ StronglySorted (fun a b => cmp a b <= 0) ys /\
    (forall (P : L -> Prop) `(forall x, Decision (P x)),
       (forall a b, P a -> P b -> cmp a b <= 0) -> filter P ys = filter P xs).
Proof.
  intros Hq Hsz. destruct (decide (xs = [])) as [->|Hne].
  - exists m, []. split_and!; try done; [by apply sort_empty_spec|by constructor].
  - destruct (sort_spec size m s xs Hq Hsz Hne) as (m' & E & Hm & Hs).
    exists m', (insertion_sort xs). split_and!; try done.
    + apply insertion_sort_perm.
    + apply insertion_sort_sorted.
    + intros P ? HP. by apply insertion_sort_stable.
Qed.

End queue_algorithms.

Section middle.
Context {L : Type} `{Countable L}.

(** [ntg_queue_middle] terminates within as many steps as the ring has
    nodes and returns the node at position n/2 of the n nodes (the first
    node of the second half when n is even), or the sentinel of an empty
    ring. *)
Theorem ntg_queue_middle_correct (m : gmap L (qlink L)) s xs size :
  is_queue m s xs -> (length xs <= size)%nat ->
  ntg_queue_middle size m s = Some (default s (xs !! (length xs / 2)%nat)).
Proof. apply middle_spec. Qed.
End middle.

(** Keys for the example: node 3 before node 1, node 2 equal to node 1. *)
Definition example_cmp (a b : nat) : Z :=
  let key i := match i with 3%nat => 0 | _ => 1 end in key a - key b.

Lemma ntg_queue_sort_correct_witness :
  exists m' ys, ntg_queue_sort example_cmp 3 example_heap 0%nat = Some m' /\
    is_queue m' 0%nat ys /\
    ys ≡ₚ [1; 2; 3]%nat /\ StronglySorted (fun a b => example_cmp a b <= 0) ys.
Proof.
  destruct (ntg_queue_sort_correct example_cmp) with (m := example_heap) (s := 0%nat)
    (xs := [1; 2; 3]%nat) (size := 3%nat) as (m' & ys & Em & Hm & _ & Hp & Hs & _).
  - intros a b. unfold example_cmp. lia.
  - intros a b c. unfold example_cmp. lia.
  - apply example_ring.
  - cbn. lia.
  - by exists m', ys.
Defined.

Lemma ntg_queue_middle_correct_witness :
  ntg_queue_middle 3 example_heap 0%nat = Some 2%nat.
Proof.
  rewrite (ntg_queue_middle_correct example_heap 0%nat [1; 2; 3]%nat).
  - done.
  - apply example_ring.
  - cbn. lia.
Defined.
