(* ===== verification/NtgString.v ===== *)
(** * Strings (src/utils/ntg_string.h, ntg_string.c)

    Copies, comparisons, searches and conversions of numbers.  A [u_char *]
    argument is the list of the bytes that can be read from it; a function
    that reads past them is undefined ([None]).  A search returns the offset of
    the match. *)

From S2P Require Import Prelude.

(** [ntg_tolower], and the inline case folding of the comparisons. *)
Definition ntg_tolower (c : Z) : Z :=
  u8 (if (ch "A" <=? c) && (c <=? ch "Z") then Z.lor c 32 else c).
Definition ntg_toupper (c : Z) : Z :=
  u8 (if (ch "a" <=? c) && (c <=? ch "z") then Z.land c (Z.lnot 32) else c).

Definition fold_case (c : Z) : Z :=
  if (ch "A" <=? c) && (c <=? ch "Z") then Z.lor c 32 else c.

(** ** Copies *)

(** The bytes written to [dst]; in place, [dst = src], each byte is read before
    it is written. *)
Fixpoint ntg_strlow (src : bytes) (n : nat) {struct n} : option bytes :=
  match n with
  | O => Some []
  | S n => match src with [] => None | c :: src => cons (ntg_tolower c) <$> ntg_strlow src n end
  end.

(** The loop [while (--n)] of [ntg_cpystrn], [n] being the value after the
    decrement. *)
Fixpoint cpystrn_loop (src : bytes) (n : nat) {struct n} : option bytes :=
  match n with
  | O => Some [0]
  | S n =>
      match src with
      | [] => None
      | c :: src => if c =? 0 then Some [0] else cons c <$> cpystrn_loop src n
      end
  end.

(** The bytes written; the result points at the last of them, the final NUL
    ([dst] itself when [n] is 0). *)
Definition ntg_cpystrn (src : bytes) (n : nat) : option bytes :=
  match n with O => Some [] | S n => cpystrn_loop src n end.

(** ** Comparisons *)

Fixpoint ntg_strcasecmp (s1 s2 : bytes) : option Z :=
  match s1, s2 with
  | c1 :: s1, c2 :: s2 =>
      let c1 := fold_case c1 in
      let c2 := fold_case c2 in
      if c1 =? c2 then if negb (c1 =? 0) then ntg_strcasecmp s1 s2 else Some 0
      else Some (c1 - c2)
  | _, _ => None
  end.

Fixpoint ntg_strncasecmp (s1 s2 : bytes) (n : nat) {struct n} : option Z :=
  match n with
  | O => Some 0
  | S n =>
      match s1, s2 with
      | c1 :: s1, c2 :: s2 =>
          let c1 := fold_case c1 in
          let c2 := fold_case c2 in
          if c1 =? c2 then if negb (c1 =? 0) then ntg_strncasecmp s1 s2 n else Some 0
          else Some (c1 - c2)
      | _, _ => None
      end
  end.

(** Both compare from the last of the [n] bytes to the first. *)
Fixpoint ntg_rstrncmp (s1 s2 : bytes) (n : nat) {struct n} : option Z :=
  match n with
  | O => Some 0
  | S n =>
      c1 ← s1 !! n; c2 ← s2 !! n;
      if negb (c1 =? c2) then Some (c1 - c2) else ntg_rstrncmp s1 s2 n
  end.

Definition upper_case (c : Z) : Z :=
  if (ch "a" <=? c) && (c <=? ch "z") then u8 (c - (ch "a" - ch "A")) else c.

Fixpoint ntg_rstrncasecmp (s1 s2 : bytes) (n : nat) {struct n} : option Z :=
  match n with
  | O => Some 0
  | S n =>
      c1 ← s1 !! n; c2 ← s2 !! n;
      let c1 := upper_case c1 in
      let c2 := upper_case c2 in
      if negb (c1 =? c2) then Some (c1 - c2) else ntg_rstrncasecmp s1 s2 n
  end.

(** [memcmp] of the C library; only the sign of the result is defined. *)
Fixpoint memcmp (s1 s2 : bytes) (n : nat) {struct n} : option Z :=
  match n with
  | O => Some 0
  | S n =>
      match s1, s2 with
      | c1 :: s1, c2 :: s2 => if c1 =? c2 then memcmp s1 s2 n else Some (c1 - c2)
      | _, _ => None
      end
  end.

Definition ntg_memn2cmp (s1 s2 : bytes) (n1 n2 : nat) : option Z :=
  let '(n, z) := if (n1 <=? n2)%nat then (n1, -1) else (n2, 1) in
  m ← memcmp s1 s2 n;
  if negb (m =? 0) || (n1 =? n2)%nat then Some m else Some z.

(** "." sorts before every other byte but NUL. *)
Fixpoint ntg_dns_strcmp (s1 s2 : bytes) : option Z :=
  match s1, s2 with
  | c1 :: s1, c2 :: s2 =>
      let c1 := fold_case c1 in
      let c2 := fold_case c2 in
      if c1 =? c2 then if negb (c1 =? 0) then ntg_dns_strcmp s1 s2 else Some 0
      else
        let c1 := if c1 =? ch "." then ch " " else c1 in
        let c2 := if c2 =? ch "." then ch " " else c2 in
        Some (c1 - c2)
  | _, _ => None
  end.

(** "/" sorts before every other byte but NUL. *)
Fixpoint ntg_filename_cmp (s1 s2 : bytes) (n : nat) {struct n} : option Z :=
  match n with
  | O => Some 0
  | S n =>
      match s1, s2 with
      | c1 :: s1, c2 :: s2 =>
          if c1 =? c2 then if negb (c1 =? 0) then ntg_filename_cmp s1 s2 n else Some 0
          else if (c1 =? 0) || (c2 =? 0) then Some (c1 - c2)
          else
            let c1 := if c1 =? ch "/" then 0 else c1 in
            let c2 := if c2 =? ch "/" then 0 else c2 in
            Some (c1 - c2)
      | _, _ => None
      end
  end.

(** ** Searches *)

(** A match of the tail of the needle, when the comparison is defined. *)
Definition matches (r : option Z) : option bool := (fun v : Z => v =? 0) <$> r.

Definition shift1 (r : option nat) : option nat := S <$> r.

Fixpoint ntg_strlchr (p : bytes) (room : nat) (c : Z) {struct room} : option (option nat) :=
  match room with
  | O => Some None
  | S room =>
      match p with
      | [] => None
      | c0 :: p => if c0 =? c then Some (Some O) else shift1 <$> ntg_strlchr p room c
      end
  end.

(** The loops of [ntg_strnstr], [c2] being the first byte of the needle and [s2]
    the rest, of length [n]; [len] is the number of bytes left. *)
Fixpoint strnstr_loop (s1 : bytes) (c2 : Z) (s2 : bytes) (n len : nat) {struct len}
  : option (option nat) :=
  match len with
  | O => Some None
  | S len =>
      match s1 with
      | [] => None
      | c1 :: s1 =>
          if c1 =? 0 then Some None
          else if negb (c1 =? c2) then shift1 <$> strnstr_loop s1 c2 s2 n len
          else if (len <? n)%nat then Some None
          else
            matches (strncmp s1 s2 n) ≫= fun m : bool =>
            if m then Some (Some O) else shift1 <$> strnstr_loop s1 c2 s2 n len
      end
  end.

(** [strlen] of the C library. *)
Fixpoint strlen (s : bytes) : option nat :=
  match s with
  | [] => None
  | c :: s => if c =? 0 then Some O else S <$> strlen s
  end.

Definition ntg_strnstr (s1 s2 : bytes) (len : nat) : option (option nat) :=
  match s2 with
  | [] => None
  | c2 :: s2 => n ← strlen s2; strnstr_loop s1 c2 s2 n len
  end.

Fixpoint strstrn_loop (s1 : bytes) (c2 : Z) (s2 : bytes) (n : nat) : option (option nat) :=
  match s1 with
  | [] => None
  | c1 :: s1 =>
      if c1 =? 0 then Some None
      else if negb (c1 =? c2) then shift1 <$> strstrn_loop s1 c2 s2 n
      else
        matches (strncmp s1 s2 n) ≫= fun m : bool =>
        if m then Some (Some O) else shift1 <$> strstrn_loop s1 c2 s2 n
  end.

Definition ntg_strstrn (s1 s2 : bytes) (n : nat) : option (option nat) :=
  match s2 with [] => None | c2 :: s2 => strstrn_loop s1 c2 s2 n end.

Fixpoint strcasestrn_loop (s1 : bytes) (c2 : Z) (s2 : bytes) (n : nat) : option (option nat) :=
  match s1 with
  | [] => None
  | c1 :: s1 =>
      if c1 =? 0 then Some None
      else if negb (fold_case c1 =? c2) then shift1 <$> strcasestrn_loop s1 c2 s2 n
      else
        matches (ntg_strncasecmp s1 s2 n) ≫= fun m : bool =>
        if m then Some (Some O) else shift1 <$> strcasestrn_loop s1 c2 s2 n
  end.

Definition ntg_strcasestrn (s1 s2 : bytes) (n : nat) : option (option nat) :=
  match s2 with [] => None | c2 :: s2 => strcasestrn_loop s1 (fold_case c2) s2 n end.

(** [room] is [last - n - s1], the number of places the needle can start at. *)
Fixpoint strlcasestrn_loop (s1 : bytes) (room : Z) (c2 : Z) (s2 : bytes) (n : nat)
  : option (option nat) :=
  if room <=? 0 then Some None
  else
    match s1 with
    | [] => None
    | c1 :: s1 =>
        if negb (fold_case c1 =? c2) then shift1 <$> strlcasestrn_loop s1 (room - 1) c2 s2 n
        else
          matches (ntg_strncasecmp s1 s2 n) ≫= fun m : bool =>
          if m then Some (Some O) else shift1 <$> strlcasestrn_loop s1 (room - 1) c2 s2 n
    end.

(** [last] is given as the distance from [s1]. *)
Definition ntg_strlcasestrn (s1 : bytes) (last : Z) (s2 : bytes) (n : nat)
  : option (option nat) :=
  match s2 with
  | [] => None
  | c2 :: s2 => strlcasestrn_loop s1 (last - Z.of_nat n) (fold_case c2) s2 n
  end.

(** ** Numbers *)

(** The loop shared by [ntg_atoi], [ntg_atosz], [ntg_atoof] and [ntg_atotm],
    which differ in the name of their 64-bit signed type only; [Some None] is
    [NTG_ERROR]. *)
Fixpoint atoi_loop (line : bytes) (n : nat) (value : Z) {struct n} : option Z :=
  match n with
  | O => Some (if value <? 0 then NTG_ERROR else value)
  | S n =>
      match line with
      | [] => None
      | c :: line =>
          if (c <? ch "0") || (ch "9" <? c) then Some NTG_ERROR
          else atoi_loop line n (s64 (s64 (value * 10) + (c - ch "0")))
      end
  end.

Definition ntg_atoi (line : bytes) (n : nat) : option Z :=
  match n with O => Some NTG_ERROR | _ => atoi_loop line n 0 end.
Definition ntg_atosz (line : bytes) (n : nat) : option Z :=
  match n with O => Some NTG_ERROR | _ => atoi_loop line n 0 end.
Definition ntg_atoof (line : bytes) (n : nat) : option Z :=
  match n with O => Some NTG_ERROR | _ => atoi_loop line n 0 end.
Definition ntg_atotm (line : bytes) (n : nat) : option Z :=
  match n with O => Some NTG_ERROR | _ => atoi_loop line n 0 end.

(** [ntg_atofp]: a fixed point number; [point] digits may follow the dot. *)
Fixpoint scale10 (value : Z) (point : nat) : Z :=
  match point with O => value | S point => scale10 (s64 (value * 10)) point end.

Fixpoint atofp_loop (line : bytes) (n : nat) (value : Z) (point : nat) (dot : bool) {struct n} : option Z :=
  match n with
  | O =>
      let value := scale10 value point in
      Some (if value <? 0 then NTG_ERROR else value)
  | S n =>
      match line with
      | [] => None
      | c :: line =>
          match point with
          | O => Some NTG_ERROR
          | S point' =>
              if c =? ch "." then
                if dot then Some NTG_ERROR else atofp_loop line n value point true
              else if (c <? ch "0") || (ch "9" <? c) then Some NTG_ERROR
              else
                atofp_loop line n (s64 (s64 (value * 10) + (c - ch "0")))
                  (if dot then point' else point) dot
          end
      end
  end.

Definition ntg_atofp (line : bytes) (n point : nat) : option Z :=
  match n with O => Some NTG_ERROR | _ => atofp_loop line n 0 point false end.

Fixpoint hextoi_loop (line : bytes) (n : nat) (value : Z) {struct n} : option Z :=
  match n with
  | O => Some (if value <? 0 then NTG_ERROR else value)
  | S n =>
      match line with
      | [] => None
      | c0 :: line =>
          if (ch "0" <=? c0) && (c0 <=? ch "9") then
            hextoi_loop line n (s64 (s64 (value * 16) + (c0 - ch "0")))
          else
            let c := u8 (Z.lor c0 32) in
            if (ch "a" <=? c) && (c <=? ch "f") then
              hextoi_loop line n (s64 (s64 (value * 16) + (c - ch "a" + 10)))
            else Some NTG_ERROR
      end
  end.

Definition ntg_hextoi (line : bytes) (n : nat) : option Z :=
  match n with O => Some NTG_ERROR | _ => hextoi_loop line n 0 end.

Definition hex_lower : bytes := str "0123456789abcdef".

(** The bytes written to [dst]. *)
Fixpoint ntg_hex_dump (src : bytes) (len : nat) {struct len} : option bytes :=
  match len with
  | O => Some []
  | S len =>
      match src with
      | [] => None
      | c :: src =>
          h ← hex_lower !! Z.to_nat (Z.shiftr c 4);
          l ← hex_lower !! Z.to_nat (Z.land c 15);
          r ← ntg_hex_dump src len;
          Some (h :: l :: r)
      end
  end.

(** ** Case folding *)

Lemma fold_case_zero c : 0 <= c -> fold_case c = 0 <-> c = 0.
Proof.
  intros Hc. unfold fold_case. chars. split_test; [|done].
  apply andb_true_iff in Heqb as [H1 H2].
  split; [|lia]. intros E. apply Z.lor_eq_0_iff in E as [_ ?]. done.
Qed.

Lemma fold_case_pos c : 0 < c -> fold_case c <> 0.
Proof. intros Hc. rewrite fold_case_zero; lia. Qed.

(** A NUL terminated string in memory. *)
Definition is_cstr (s t : bytes) : Prop := (exists r, s = t ++ 0 :: r) /\ Forall (fun c => 0 < c) t.

(** Two strings that differ in case only. *)
Definition same_nocase (s t : bytes) : Prop := map fold_case s = map fold_case t.

#[export] Instance same_nocase_dec s t : Decision (same_nocase s t).
Proof. unfold same_nocase. apply _. Defined.

(** Comparing with a needle that has no NUL: the comparison is defined as soon
    as enough bytes can be read, and is 0 exactly on a match. *)
Lemma strncasecmp_needle u : forall s r,
  Forall (fun c => 0 < c) u -> (length u <= length s)%nat ->
  exists v, ntg_strncasecmp s (u ++ r) (length u) = Some v /\
    (v = 0 <-> same_nocase (take (length u) s) u).
Proof.
  induction u as [|c u IH]; intros s r Hu Hl; cbn [length app]; rewrite ?firstn_cons.
  { exists 0. rewrite take_0. split; [reflexivity|]. split; intros; reflexivity. }
  destruct s as [|c1 s]; [cbn in Hl; lia|]. cbn [ntg_strncasecmp]. rewrite firstn_cons.
  apply Forall_cons in Hu as [Hc Hu]. cbn [length] in Hl.
  destruct (Z.eqb_spec (fold_case c1) (fold_case c)) as [E|E].
  - assert (fold_case c <> 0) by (rewrite fold_case_zero; lia).
    rewrite E, (proj2 (Z.eqb_neq _ 0)) by done. cbn [negb].
    destruct (IH s r Hu ltac:(lia)) as (v & -> & Hv). exists v. split; [done|].
    rewrite Hv. unfold same_nocase. cbn [map]. rewrite E. split; [by intros ->|by intros [= ->]].
  - eexists. split; [done|]. unfold same_nocase. cbn [map]. split; [lia|]. by intros [= ? _].
Qed.

(** On two NUL terminated strings [ntg_strncasecmp] is defined, and is 0
    exactly when their first [n] bytes are equal up to the case of letters. *)
Theorem ntg_strncasecmp_correct n s1 s2 t1 t2 :
  is_cstr s1 t1 -> is_cstr s2 t2 ->
  exists v, ntg_strncasecmp s1 s2 n = Some v /\
    (v = 0 <-> same_nocase (take n t1) (take n t2)).
Proof.
  intros [[r1 ->] H1] [[r2 ->] H2]. unfold same_nocase. revert t1 t2 H1 H2.
  induction n as [|n IH]; intros t1 t2 H1 H2; cbn [ntg_strncasecmp]; rewrite ?take_0, ?firstn_cons.
  { exists 0. split; [reflexivity|]. split; intros; reflexivity. }
  destruct t1 as [|c1 t1], t2 as [|c2 t2]; cbn [app map]; rewrite ?take_nil, ?firstn_cons; cbn [map];
    rewrite ?Forall_cons in H1; rewrite ?Forall_cons in H2; destruct_and?;
    repeat match goal with H : 0 < ?c |- _ =>
      pose proof (fold_case_pos c H); revert H end; intros.
  - exists 0. split; [reflexivity|]. split; intros; reflexivity.
  - change (fold_case 0) with 0. rewrite (proj2 (Z.eqb_neq 0 _)) by lia.
    eexists. split; [done|]. split; [lia|done].
  - change (fold_case 0) with 0. rewrite (proj2 (Z.eqb_neq _ 0)) by lia.
    eexists. split; [done|]. split; [lia|done].
  - destruct (Z.eqb_spec (fold_case c1) (fold_case c2)) as [E|E].
    + rewrite (proj2 (Z.eqb_neq _ 0)) by lia. cbn [negb].
      destruct (IH t1 t2) as (v & -> & Hv); [done..|]. exists v. split; [done|].
      rewrite Hv, E. split; [by intros ->|by intros [= ->]].
    + eexists. split; [done|]. split; [lia|]. by intros [= ? _].
Qed.

(** ** Searching *)

(** The needle [t] occurs, up to case, at offset [i] of the first [len] bytes. *)
Definition occurs (s t : bytes) (len i : nat) : Prop :=
  (i + length t <= len)%nat /\ same_nocase (take (length t) (drop i s)) t.

#[export] Instance occurs_dec s t len i : Decision (occurs s t len i).
Proof. unfold occurs. apply _. Defined.

Definition first_occurrence (s t : bytes) (len : nat) (r : option nat) : Prop :=
  match r with
  | Some i => occurs s t len i /\ forall j, (j < i)%nat -> ~ occurs s t len j
  | None => forall j, ~ occurs s t len j
  end.

Lemma occurs_cons_O s c s' t len : 
  occurs (c :: s) (s' :: t) (S len) 0 <->
  (length t <= len)%nat /\ fold_case c = fold_case s' /\ same_nocase (take (length t) s) t.
Proof.
  unfold occurs, same_nocase. cbn [drop take length map]. split.
  - intros [? [= ? ?]]. split; [lia|done].
  - intros (? & -> & ->). split; [lia|done].
Qed.

Lemma occurs_cons_S s c t len j : occurs (c :: s) t (S len) (S j) <-> occurs s t len j.
Proof. unfold occurs. cbn [drop]. split; intros [? ?]; (split; [lia|done]). Qed.

Lemma first_occurrence_shift c s t len r :
  ~ occurs (c :: s) t (S len) 0 -> first_occurrence s t len r ->
  first_occurrence (c :: s) t (S len) (shift1 r).
Proof.
  intros H0 Hr. destruct r as [i|]; cbn in *.
  - destruct Hr as [Hi Hj]. split; [by apply occurs_cons_S|].
    intros [|j] Hlt; [done|]. rewrite occurs_cons_S. apply Hj. lia.
  - intros [|j]; [done|]. by rewrite occurs_cons_S.
Qed.

Lemma strlcasestrn_loop_spec c u r : Forall (fun c => 0 < c) u ->
  forall s len, (len <= length s)%nat ->
  exists o, strlcasestrn_loop s (Z.of_nat len - Z.of_nat (length u)) (fold_case c) (u ++ r)
      (length u) = Some o /\ first_occurrence s (c :: u) len o.
Proof.
  intros Hu. induction s as [|c1 s IH]; intros len Hl; cbn [strlcasestrn_loop].
  - cbn in Hl. assert (len = 0%nat) as -> by lia.
    rewrite (proj2 (Z.leb_le _ 0)) by lia. exists None. split; [done|].
    intros j [Hj _]. cbn in Hj. lia.
  - destruct (Z.leb_spec (Z.of_nat len - Z.of_nat (length u)) 0) as [H0|H0].
    { exists None. split; [done|]. intros j [Hj _]. cbn in Hj. lia. }
    destruct len as [|len]; [lia|]. cbn [length] in Hl.
    destruct (IH len ltac:(lia)) as (o & Eo & Ho).
    replace (Z.of_nat (S len) - Z.of_nat (length u) - 1) with
      (Z.of_nat len - Z.of_nat (length u)) by lia.
    destruct (Z.eqb_spec (fold_case c1) (fold_case c)) as [E|E]; cbn [negb].
    + destruct (strncasecmp_needle u s r Hu ltac:(lia)) as (v & -> & Hv). cbn [matches].
      unfold matches. cbn. destruct (Z.eqb_spec v 0) as [Ev|Ev].
      * exists (Some 0%nat). split; [done|]. split; [|lia].
        apply occurs_cons_O. split; [lia|]. split; [done|by apply Hv].
      * rewrite Eo. exists (shift1 o). split; [done|].
        apply first_occurrence_shift; [|done]. rewrite occurs_cons_O. tauto.
    + rewrite Eo. exists (shift1 o). split; [done|].
      apply first_occurrence_shift; [|done]. rewrite occurs_cons_O. tauto.
Qed.

(** [ntg_strlcasestrn] searches the [len] bytes before [last], reads none
    beyond them, and returns the first place the needle occurs at up to case,
    or NULL when there is none. *)
Theorem ntg_strlcasestrn_correct s len c u r :
  (len <= length s)%nat -> Forall (fun c => 0 < c) u ->
  exists o, ntg_strlcasestrn s (Z.of_nat len) ((c :: u) ++ r) (length u) = Some o /\
    first_occurrence s (c :: u) len o.
Proof. intros Hl Hu. cbn [ntg_strlcasestrn app]. by apply strlcasestrn_loop_spec. Qed.

(** ** Copying *)

(** Copying a NUL terminated string into [n] bytes writes at most [n]
    bytes, always ends them with a NUL, and keeps the longest prefix of the
    string that fits. *)
Theorem ntg_cpystrn_correct src t n :
  is_cstr src t -> (0 < n)%nat ->
  exists d, ntg_cpystrn src n = Some d /\ d = take (n - 1) t ++ [0] /\ (length d <= n)%nat.
Proof.
  intros [[r ->] Ht] Hn. exists (take (n - 1) t ++ [0]).
  split; [|split; [done|rewrite length_app, length_take; cbn; lia]].
  destruct n as [|n]; [lia|]. cbn [ntg_cpystrn]. rewrite Nat.sub_succ, Nat.sub_0_r.
  clear Hn. revert t Ht. induction n as [|n IH]; intros t Ht; cbn [cpystrn_loop];
    [by rewrite take_0|].
  destruct t as [|c t]; cbn [app]; [done|].
  apply Forall_cons in Ht as [Hc Ht]. rewrite (proj2 (Z.eqb_neq c 0)) by lia.
  by rewrite IH.
Qed.

(** ** Numbers *)

Lemma s64_s64_mul10 v d : s64 (s64 (s64 v * 10) + d) = s64 (v * 10 + d).
Proof. mlia. Qed.

Lemma dec_value_cons_range ds v :
  forallb is_digit ds = true -> 0 <= v ->
  v <= fold_left (fun v c => v * 10 + digit_val c) ds v.
Proof.
  revert v. induction ds as [|c ds IH]; intros v Hd Hv; cbn [fold_left forallb] in *; [lia|].
  apply andb_true_iff in Hd as [Hc Hd]. apply is_digit_range in Hc.
  assert (0 <= digit_val c) by (unfold digit_val; chars; lia).
  specialize (IH (v * 10 + digit_val c) Hd). lia.
Qed.

Lemma atoi_loop_spec line n : (n <= length line)%nat -> forall v,
  atoi_loop line n (s64 v) =
  Some (if forallb is_digit (take n line)
        then let v := s64 (fold_left (fun v c => v * 10 + digit_val c) (take n line) v) in
             if v <? 0 then NTG_ERROR else v
        else NTG_ERROR).
Proof.
  revert line. induction n as [|n IH]; intros line Hl v; cbn [atoi_loop]; [by rewrite take_0|].
  destruct line as [|c line]; [cbn in Hl; lia|]. rewrite firstn_cons. cbn [forallb fold_left].
  cbn [length] in Hl.
  destruct ((c <? ch "0") || (ch "9" <? c)) eqn:E.
  - assert (is_digit c = false) as ->; [|done]. unfold is_digit. lia.
  - assert (is_digit c = true) as -> by (unfold is_digit; lia). cbn [andb].
    rewrite s64_s64_mul10. fold (digit_val c). apply IH. lia.
Qed.

(** [ntg_atoi] (and its [ssize_t], [off_t] and [time_t] twins, which run
    the same loop) rejects a line with a byte that is no digit, returns the
    value of a line of digits that fits a signed 64-bit integer, and rejects
    one that overflows into the sign bit. *)
Theorem ntg_atoi_correct line n :
  (0 < n <= length line)%nat ->
  let ds := take n line in
  (forallb is_digit ds = false -> ntg_atoi line n = Some NTG_ERROR) /\
  (forallb is_digit ds = true -> is_s64 (dec_value ds) -> ntg_atoi line n = Some (dec_value ds)) /\
  (forallb is_digit ds = true -> is_u64 (dec_value ds) -> ~ is_s64 (dec_value ds) ->
   ntg_atoi line n = Some NTG_ERROR).
Proof.
  intros Hn ds.
  assert (E : ntg_atoi line n = Some (if forallb is_digit ds
        then let v := s64 (dec_value ds) in if v <? 0 then NTG_ERROR else v else NTG_ERROR)).
  { unfold ntg_atoi. destruct n; [lia|]. by apply (atoi_loop_spec line _ (proj2 Hn) 0). }
  rewrite E. split_and!; [by intros ->| |]; intros Hd; rewrite Hd; cbn zeta iota; intros Hs.
  - pose proof (dec_value_cons_range ds 0 Hd ltac:(lia)) as H0. fold (dec_value ds) in H0.
    rewrite s64_small by done. by rewrite (proj2 (Z.ltb_ge _ 0)).
  - intros Hs'. rewrite (proj2 (Z.ltb_lt _ 0)); [done|]. mlia.
Qed.

(** *** Hexadecimal *)

(** The value of a byte string, most significant byte first. *)
Definition be_value (s : bytes) : Z := fold_left (fun v c => v * 256 + c) s 0.

Lemma be_value_mono s v :
  Forall is_byte s -> 0 <= v -> v <= fold_left (fun v c => v * 256 + c) s v.
Proof.
  revert v. induction s as [|c s IH]; intros v Hs Hv; cbn [fold_left]; [lia|].
  apply Forall_cons in Hs as [Hc Hs]. unfold is_byte in Hc.
  specialize (IH (v * 256 + c) Hs). lia.
Qed.

(** Every hexadecimal digit is written as one that reads back. *)
Lemma hex_lower_digits : forall k, (k < 16)%nat -> exists c,
  hex_lower !! k = Some c /\
  forall line n v, hextoi_loop (c :: line) (S n) v =
                   hextoi_loop line n (s64 (s64 (v * 16) + Z.of_nat k)).
Proof.
  intros k Hk. do 16 (destruct k as [|k]; [eexists; split; reflexivity|]). lia.
Qed.

Lemma nibbles c : is_byte c -> 0 <= Z.shiftr c 4 < 16 /\ 0 <= Z.land c 15 < 16 /\
  c = Z.shiftr c 4 * 16 + Z.land c 15.
Proof.
  unfold is_byte. intros Hc. rewrite Z.shiftr_div_pow2 by lia.
  change 15 with (Z.ones 4). rewrite Z.land_ones by lia. change (2 ^ 4) with 16. mlia.
Qed.

Lemma s64_s64_mul16 v d : s64 (s64 (s64 v * 16) + d) = s64 (v * 16 + d).
Proof. mlia. Qed.

Lemma hex_dump_hextoi s d v :
  Forall is_byte s -> ntg_hex_dump s (length s) = Some d ->
  hextoi_loop d (length d) (s64 v) =
    Some (let v := s64 (fold_left (fun v c => v * 256 + c) s v) in
          if v <? 0 then NTG_ERROR else v) /\
  length d = (2 * length s)%nat.
Proof.
  revert d v. induction s as [|c s IH]; intros d v Hs E; cbn [ntg_hex_dump length] in E.
  { injection E as <-. done. }
  apply Forall_cons in Hs as [Hc Hs]. destruct (nibbles c Hc) as (H1 & H2 & H3).
  destruct (hex_lower_digits (Z.to_nat (Z.shiftr c 4))) as (h & Eh & Hh); [lia|].
  destruct (hex_lower_digits (Z.to_nat (Z.land c 15))) as (l & El & Hl); [lia|].
  rewrite Eh, El in E. cbn [mbind option_bind] in E.
  destruct (ntg_hex_dump s (length s)) as [d'|] eqn:Ed; [|done]. cbn in E. injection E as <-.
  cbn [length]. rewrite Hh, Hl. rewrite (s64_s64_mul16 v), s64_s64_mul16, !Z2Nat.id by lia.
  replace ((v * 16 + Z.shiftr c 4) * 16 + Z.land c 15) with (v * 256 + c) by lia.
  destruct (IH d' (v * 256 + c) Hs eq_refl) as [-> Hlen]. split; [done|lia].
Qed.

Lemma hex_dump_total s : Forall is_byte s -> is_Some (ntg_hex_dump s (length s)).
Proof.
  induction s as [|c s IH]; intros Hs; cbn [ntg_hex_dump length]; [done|].
  apply Forall_cons in Hs as [Hc Hs]. destruct (nibbles c Hc) as (H1 & H2 & _).
  destruct (hex_lower_digits (Z.to_nat (Z.shiftr c 4))) as (h & -> & _); [lia|].
  destruct (hex_lower_digits (Z.to_nat (Z.land c 15))) as (l & -> & _); [lia|].
  cbn. destruct (IH Hs) as [d ->]. by eexists.
Qed.

(** Dumping bytes in hexadecimal writes two digits per byte, and reading
    them back with [ntg_hextoi] gives the big endian value of the bytes
    whenever it fits the signed result. *)
Theorem ntg_hex_dump_hextoi s :
  Forall is_byte s -> s <> [] -> is_s64 (be_value s) ->
  exists d, ntg_hex_dump s (length s) = Some d /\ length d = (2 * length s)%nat /\
    ntg_hextoi d (length d) = Some (be_value s).
Proof.
  intros Hs Hne Hv. destruct (hex_dump_total s Hs) as [d Ed]. exists d.
  destruct (hex_dump_hextoi s d 0 Hs Ed) as [E Hlen]. split_and!; [done|done|].
  unfold ntg_hextoi. destruct (length d) as [|n] eqn:El; [by destruct s|].
  etransitivity; [exact E|]. fold (be_value s). rewrite s64_small by done. cbn zeta.
  pose proof (be_value_mono s 0 Hs ltac:(lia)). by rewrite (proj2 (Z.ltb_ge _ 0)).
Qed.

(** ** Ordering *)

(** The lexicographic order of byte strings. *)
Fixpoint lex_compare (s1 s2 : bytes) : comparison :=
  match s1, s2 with
  | [], [] => Eq
  | [], _ => Lt
  | _, [] => Gt
  | c1 :: s1, c2 :: s2 => match c1 ?= c2 with Eq => lex_compare s1 s2 | o => o end
  end.

Lemma memn2cmp_lex s1 s2 :
  exists v, ntg_memn2cmp s1 s2 (length s1) (length s2) = Some v /\ (v ?= 0) = lex_compare s1 s2.
Proof.
  unfold ntg_memn2cmp. revert s2. induction s1 as [|c1 s1 IH]; intros [|c2 s2];
    [by exists 0|by exists (-1)|by exists 1|].
  cbn [length Nat.leb lex_compare]. specialize (IH s2).
  change (S (length s1) <=? S (length s2))%nat with (length s1 <=? length s2)%nat.
  assert (Hrec : forall n, memcmp (c1 :: s1) (c2 :: s2) (S n) =
    if c1 =? c2 then memcmp s1 s2 n else Some (c1 - c2)) by done.
  destruct (length s1 <=? length s2)%nat; rewrite Hrec;
    destruct (Z.eqb_spec c1 c2) as [->|Hne]; rewrite ?Z.compare_refl; try exact IH;
    exists (c1 - c2); cbn; rewrite (proj2 (Z.eqb_neq _ 0)) by lia; cbn; (split; [done|]);
    rewrite Z.compare_sub, Z.sub_0_r, <-Z.compare_sub; destruct (c1 ?= c2) eqn:Ec; try done;
    by apply Z.compare_eq in Ec.
Qed.

(** ** Examples *)

(** The comment of [ntg_atoi] promises [NTG_ERROR] on overflow, but a value
    that wraps around to a non-negative number is returned. *)
Lemma ntg_atoi_wraps : ntg_atoi (str "18446744073709551617") 20 = Some 1.
Proof. reflexivity. Qed.

Lemma ntg_strncasecmp_correct_witness :
  exists v, ntg_strncasecmp (str "CLOSEd" ++ [0]) (str "close" ++ [0]) 5 = Some v /\ v = 0.
Proof.
  destruct (ntg_strncasecmp_correct 5 (str "CLOSEd" ++ [0]) (str "close" ++ [0])
    (str "CLOSEd") (str "close")) as (v & E & Hv).
  - split; [by exists []|]. repeat constructor.
  - split; [by exists []|]. repeat constructor.
  - exists v. split; [exact E|]. apply Hv. reflexivity.
Defined.

Lemma ntg_strlcasestrn_correct_witness :
  exists o, ntg_strlcasestrn (str "keep-alive, Close") 17 (str "close" ++ [0]) 4 = Some o /\
    first_occurrence (str "keep-alive, Close") (str "close") 17 o.
Proof.
  apply (ntg_strlcasestrn_correct (str "keep-alive, Close") 17 (ch "c") (str "lose") [0]).
  - cbn. lia.
  - repeat constructor.
Defined.

Lemma ntg_cpystrn_correct_witness :
  exists d, ntg_cpystrn (str "hostname" ++ [0]) 5 = Some d /\ d = str "host" ++ [0] /\
    (length d <= 5)%nat.
Proof.
  apply (ntg_cpystrn_correct (str "hostname" ++ [0]) (str "hostname") 5).
  - split; [by exists []|]. repeat constructor.
  - lia.
Defined.

Lemma ntg_atoi_correct_witness : ntg_atoi (str "8080 ") 4 = Some 8080.
Proof.
  destruct (ntg_atoi_correct (str "8080 ") 4) as (_ & H & _).
  - cbn. lia.
  - apply H; [done|]. by apply (bool_decide_eq_true_1 _).
Defined.

Lemma ntg_hex_dump_hextoi_witness :
  exists d, ntg_hex_dump [18; 171] 2 = Some d /\ length d = 4%nat /\ ntg_hextoi d 4 = Some 4779.
Proof.
  destruct (ntg_hex_dump_hextoi [18; 171]) as (d & E & Hl & Hd).
  - repeat constructor; unfold is_byte; lia.
  - done.
  - by apply (bool_decide_eq_true_1 _).
  - exists d. rewrite Hl in Hd. done.
Defined.
