(* ===== verification/Pool.v ===== *)
(** * Memory pools (src/utils/ntg_palloc.c, ntg_palloc.h, ntg_alloc.c)

    A pool hands out pieces of blocks, and whole regions of [malloc] for what is
    too large for a block; everything is given back at once.  A pointer is an
    address, 0 the null pointer; the regions [malloc] gave and that are not freed
    yet are part of the state.  The headers of the blocks, the nodes of the large
    regions and of the cleanups are known by their addresses and their sizes. *)

From S2P Require Import Prelude.

(** ** Pools *)

Record block := Block { bk_addr : Z; bk_last : Z; bk_end : Z; bk_failed : Z }.
Record large := Large { lg_addr : Z; lg_alloc : Z }.
Record cleanup := Cleanup { cl_addr : Z; cl_handler : Z; cl_data : Z }.

(** What a pool does outside of itself. *)
Inductive pool_action :=
  | Freed (a : Z)
  | Zeroed (a n : Z)
  | Cleaned (handler data : Z).

(** [ntg_pool_t]: the chains of blocks, of large regions and of cleanups;
    [pl_current] is the place of the current block in its chain.  [pl_heap] maps
    the addresses of the allocated regions to their sizes. *)
Record pool := Pool {
  pl_blocks : list block;
  pl_max : Z;
  pl_current : nat;
  pl_large : list large;
  pl_cleanup : list cleanup;
  pl_heap : gmap Z Z;
  pl_out : list pool_action }.

Definition sizeof_ntg_pool_t : Z := 80.
Definition sizeof_ntg_pool_data_t : Z := 32.
Definition sizeof_ntg_pool_large_t : Z := 16.
Definition sizeof_ntg_pool_cleanup_t : Z := 24.
Definition NTG_ALIGNMENT : Z := 8.
Definition NTG_POOL_ALIGNMENT : Z := 16.

Definition ntg_align_ptr (p a : Z) : Z := Z.land (u64 (p + (a - 1))) (Z.lnot (a - 1)).

Definition set_pl_blocks v p := Pool v (pl_max p) (pl_current p) (pl_large p) (pl_cleanup p) (pl_heap p) (pl_out p).
Definition set_pl_large v p := Pool (pl_blocks p) (pl_max p) (pl_current p) v (pl_cleanup p) (pl_heap p) (pl_out p).
Definition set_pl_cleanup v p := Pool (pl_blocks p) (pl_max p) (pl_current p) (pl_large p) v (pl_heap p) (pl_out p).
Definition hold (a n : Z) p := Pool (pl_blocks p) (pl_max p) (pl_current p) (pl_large p) (pl_cleanup p) (<[a := n]> (pl_heap p)) (pl_out p).
Definition pool_emit (o : pool_action) p := Pool (pl_blocks p) (pl_max p) (pl_current p) (pl_large p) (pl_cleanup p) (pl_heap p) (pl_out p ++ [o]).

(** [ntg_free]. *)
Definition ntg_free (a : Z) (p : pool) : pool :=
  pool_emit (Freed a) (Pool (pl_blocks p) (pl_max p) (pl_current p) (pl_large p) (pl_cleanup p) (delete a (pl_heap p)) (pl_out p)).

Section pool.
(** [malloc] and [posix_memalign], the heap and the alignment given, [malloc]
    aligning to 16; and the size of a page. *)
Context (malloc : gmap Z Z -> Z -> Z -> option Z) (ntg_pagesize : Z).

Definition NTG_MAX_ALLOC_FROM_POOL : Z := ntg_pagesize - 1.

Definition ntg_create_pool (size : Z) (heap : gmap Z Z) : option pool :=
  a ← malloc heap NTG_POOL_ALIGNMENT size;
  let size' := u64 (size - sizeof_ntg_pool_t) in
  Some (Pool [Block a (a + sizeof_ntg_pool_t) (a + size) 0]
    (if size' <? NTG_MAX_ALLOC_FROM_POOL then size' else NTG_MAX_ALLOC_FROM_POOL) 0 [] [] (<[a := size]> heap) []).

(** The search of [ntg_palloc] and [ntg_pnalloc] from block number [i] on. *)
Fixpoint search (align : bool) (size : Z) (i : nat) (bs : list block) : option (nat * Z) :=
  match bs with
  | [] => None
  | b :: bs =>
      let m := if align then ntg_align_ptr (bk_last b) NTG_ALIGNMENT else bk_last b in
      if u64 (bk_end b - m) >=? size then Some (i, m) else search align size (S i) bs
  end.

(** The loop over the blocks that could not serve: the counts, and the new current
    block. *)
Fixpoint fail_blocks (i current : nat) (bs : list block) : list block * nat :=
  match bs with
  | [] => ([], current)
  | [b] => ([b], current)
  | b :: bs =>
      let '(bs, current) := fail_blocks (S i) (if bk_failed b >? 4 then S i else current) bs in
      (Block (bk_addr b) (bk_last b) (bk_end b) (u64 (bk_failed b + 1)) :: bs, current)
  end.

Definition ntg_palloc_block (size : Z) (p : pool) : option (Z * pool) :=
  b ← head (pl_blocks p);
  let psize := u64 (bk_end b - bk_addr b) in
  match malloc (pl_heap p) NTG_POOL_ALIGNMENT psize with
  | None => Some (0, p)
  | Some a =>
      let m := ntg_align_ptr (a + sizeof_ntg_pool_data_t) NTG_ALIGNMENT in
      let '(bs, current) := fail_blocks (pl_current p) (pl_current p) (drop (pl_current p) (pl_blocks p)) in
      Some (m, Pool (take (pl_current p) (pl_blocks p) ++ bs ++ [Block a (m + size) (a + psize) 0]) (pl_max p) current
                 (pl_large p) (pl_cleanup p) (<[a := psize]> (pl_heap p)) (pl_out p))
  end.

(** The first branch of both: a piece of a block. *)
Definition palloc_small (align : bool) (size : Z) (p : pool) : option (Z * pool) :=
  match search align size (pl_current p) (drop (pl_current p) (pl_blocks p)) with
  | Some (i, m) =>
      b ← pl_blocks p !! i;
      Some (m, set_pl_blocks (<[i := Block (bk_addr b) (m + size) (bk_end b) (bk_failed b)]> (pl_blocks p)) p)
  | None => ntg_palloc_block size p
  end.

(** A free node among the first five takes the region. *)
Fixpoint reuse_large (n : nat) (a : Z) (ls : list large) : option (list large) :=
  match n, ls with
  | S n, l :: ls => if lg_alloc l =? 0 then Some (Large (lg_addr l) a :: ls) else cons l <$> reuse_large n a ls
  | _, _ => None
  end.

(** [palloc] is the call of [ntg_palloc] for a node. *)
Definition ntg_palloc_large (palloc : Z -> pool -> option (Z * pool)) (size : Z) (p : pool) : option (Z * pool) :=
  match malloc (pl_heap p) 16 size with
  | None => Some (0, p)
  | Some a =>
      let p := hold a size p in
      match reuse_large 5 a (pl_large p) with
      | Some ls => Some (a, set_pl_large ls p)
      | None =>
          '(l, p) ← palloc sizeof_ntg_pool_large_t p;
          if l =? 0 then Some (0, ntg_free a p) else Some (a, set_pl_large (Large l a :: pl_large p) p)
      end
  end.

(** The node of a large region is allocated by the function itself. *)
Fixpoint ntg_palloc (fuel : nat) (size : Z) (p : pool) : option (Z * pool) :=
  match fuel with
  | O => None
  | S fuel => if size <=? pl_max p then palloc_small true size p else ntg_palloc_large (ntg_palloc fuel) size p
  end.

Definition ntg_pnalloc (fuel : nat) (size : Z) (p : pool) : option (Z * pool) :=
  if size <=? pl_max p then palloc_small false size p else ntg_palloc_large (ntg_palloc fuel) size p.

Definition ntg_pmemalign (fuel : nat) (size alignment : Z) (p : pool) : option (Z * pool) :=
  match malloc (pl_heap p) alignment size with
  | None => Some (0, p)
  | Some a =>
      '(l, p) ← ntg_palloc fuel sizeof_ntg_pool_large_t (hold a size p);
      if l =? 0 then Some (0, ntg_free a p) else Some (a, set_pl_large (Large l a :: pl_large p) p)
  end.

Definition ntg_pcalloc (fuel : nat) (size : Z) (p : pool) : option (Z * pool) :=
  '(a, p) ← ntg_palloc fuel size p;
  Some (a, if a =? 0 then p else pool_emit (Zeroed a size) p).

Definition ntg_pool_cleanup_add (fuel : nat) (size : Z) (p : pool) : option (Z * pool) :=
  '(c, p) ← ntg_palloc fuel sizeof_ntg_pool_cleanup_t p;
  if c =? 0 then Some (0, p)
  else
    '(data, p) ← (if size =? 0 then Some (0, p) else ntg_palloc fuel size p);
    if negb (size =? 0) && (data =? 0) then Some (0, p)
    else Some (c, set_pl_cleanup (Cleanup c 0 data :: pl_cleanup p) p).

End pool.

(** [ntg_pfree]. *)
Fixpoint free_large (a : Z) (ls : list large) : option (list large) :=
  match ls with
  | [] => None
  | l :: ls => if a =? lg_alloc l then Some (Large (lg_addr l) 0 :: ls) else cons l <$> free_large a ls
  end.

Definition ntg_pfree (a : Z) (p : pool) : Z * pool :=
  match free_large a (pl_large p) with
  | Some ls => (NTG_OK, set_pl_large ls (ntg_free a p))
  | None => (NTG_DECLINED, p)
  end.

Definition free_all (xs : list Z) (p : pool) : pool := fold_left (fun p a => ntg_free a p) xs p.
Definition large_regions (p : pool) : list Z := List.filter (fun a => negb (a =? 0)) (map lg_alloc (pl_large p)).

(** [ntg_destroy_pool]: the handlers run, then everything is freed. *)
Definition ntg_destroy_pool (p : pool) : pool :=
  let p := fold_left (fun p c => if cl_handler c =? 0 then p else pool_emit (Cleaned (cl_handler c) (cl_data c)) p) (pl_cleanup p) p in
  let p := free_all (large_regions p) p in
  free_all (map bk_addr (pl_blocks p)) p.

Definition ntg_reset_pool (p : pool) : pool :=
  let p := free_all (large_regions p) p in
  let p := set_pl_large [] p in
  set_pl_blocks (map (fun b => Block (bk_addr b) (bk_addr b + sizeof_ntg_pool_t) (bk_end b) (bk_failed b)) (pl_blocks p)) p.

(** [ntg_pool_run_cleanup_file]; [file] is the handler [ntg_pool_cleanup_file],
    and [fd_of] reads the descriptor of the data. *)
Fixpoint run_cleanup (file : Z) (fd_of : Z -> Z) (fd : Z) (cs : list cleanup) : option (Z * list cleanup) :=
  match cs with
  | [] => None
  | c :: cs =>
      if (cl_handler c =? file) && (fd_of (cl_data c) =? fd) then Some (cl_data c, Cleanup (cl_addr c) 0 (cl_data c) :: cs)
      else '(d, cs) ← run_cleanup file fd_of fd cs; Some (d, c :: cs)
  end.

Definition ntg_pool_run_cleanup_file (file : Z) (fd_of : Z -> Z) (fd : Z) (p : pool) : pool :=
  match run_cleanup file fd_of fd (pl_cleanup p) with
  | Some (d, cs) => set_pl_cleanup cs (pool_emit (Cleaned file d) p)
  | None => p
  end.

(** ** Regions *)

(** Two regions, each an address and a size, share no byte. *)
Definition apart (r q : Z * Z) : Prop := fst r + snd r <= fst q \/ fst q + snd q <= fst r.

Lemma apart_sym r q : apart r q -> apart q r.
Proof. unfold apart. lia. Qed.

(** What the C library promises: a region that is aligned and apart from all others. *)
Class Allocator (malloc : gmap Z Z -> Z -> Z -> option Z) : Prop :=
  malloc_ok : forall h alignment n a, malloc h alignment n = Some a ->
    0 < a /\ a mod 8 = 0 /\ a + n < 9223372036854775808 /\ forall b m, h !! b = Some m -> apart (a, n) (b, m).

Lemma align_ptr p : 0 <= p < 9223372036854775808 -> ntg_align_ptr p 8 = (p + 7) / 8 * 8.
Proof.
  intros Hp. unfold ntg_align_ptr. change (8 - 1) with (Z.ones 3). rewrite <-Z.ldiff_land, Z.ldiff_ones_r by lia.
  rewrite Z.shiftl_mul_pow2, Z.shiftr_div_pow2 by lia. change (Z.ones 3) with 7. change (2 ^ 3) with 8. by rewrite u64_small by (width; lia).
Qed.

Lemma align_spec p : 0 <= p < 9223372036854775808 ->
  p <= ntg_align_ptr p 8 < p + 8 /\ ntg_align_ptr p 8 mod 8 = 0.
Proof. intros Hp. rewrite align_ptr by done. Z.to_euclidean_division_equations. lia. Qed.

(** ** The invariant *)

Definition psize (p : pool) : Z := match pl_blocks p with b :: _ => bk_end b - bk_addr b | [] => 0 end.

Definition block_ok (heap : gmap Z Z) (n : Z) (b : block) : Prop :=
  heap !! bk_addr b = Some n /\ bk_end b = bk_addr b + n /\ bk_addr b + sizeof_ntg_pool_data_t <= bk_last b <= bk_end b.

Definition owners (p : pool) : list Z := map bk_addr (pl_blocks p) ++ large_regions p.

(** [r] lies behind the header of a block, in the part that was handed out. *)
Definition in_block (p : pool) (r : Z * Z) : Prop :=
  exists b, b ∈ pl_blocks p /\ bk_addr b + sizeof_ntg_pool_data_t <= fst r /\ fst r + snd r <= bk_last b.

Definition placed (p : pool) (r : Z * Z) : Prop :=
  0 <= snd r /\ (in_block p r \/ fst r ∈ large_regions p /\ pl_heap p !! fst r = Some (snd r)).

Definition heap_ok (h : gmap Z Z) : Prop :=
  (forall a n, h !! a = Some n -> 0 < a /\ 0 < n /\ a mod 8 = 0 /\ a + n < 9223372036854775808) /\
  (forall a n b m, h !! a = Some n -> h !! b = Some m -> a <> b -> apart (a, n) (b, m)).

(** The pool [p] over the regions [h0] of others: [live] are the pieces it handed
    out, its own nodes among them. *)
Record pool_inv (h0 : gmap Z Z) (p : pool) (live : list (Z * Z)) : Prop := {
  pv_max : 24 <= pl_max p <= psize p - 80 /\ psize p mod 8 = 0;
  pv_blocks : Forall (block_ok (pl_heap p) (psize p)) (pl_blocks p);
  pv_current : (pl_current p < length (pl_blocks p))%nat;
  pv_heap : heap_ok (pl_heap p);
  pv_owners : NoDup (owners p);
  pv_owned : forall a, a ∈ owners p -> is_Some (pl_heap p !! a) /\ h0 !! a = None;
  pv_others : forall a, a ∉ owners p -> pl_heap p !! a = h0 !! a;
  pv_live : Forall (placed p) live;
  pv_apart : ForallOrdPairs apart live;
  pv_nodes : Forall (fun l => (lg_addr l, 16) ∈ live /\ in_block p (lg_addr l, 16)) (pl_large p);
  pv_cleanups : Forall (fun c => (cl_addr c, 24) ∈ live) (pl_cleanup p) }.

(** A block is a region of the heap, so that blocks and large regions are apart. *)
Lemma in_block_apart h0 p live r a n :
  pool_inv h0 p live -> in_block p r -> 0 <= snd r -> pl_heap p !! a = Some n -> a ∉ map bk_addr (pl_blocks p) -> apart r (a, n).
Proof.
  intros I (b & Hb & H1 & H2) H0 Ha Hn. pose proof (proj1 (Forall_forall _ _) (pv_blocks _ _ _ I) b Hb) as (Hh & He & Hl).
  destruct (proj2 (pv_heap _ _ _ I) (bk_addr b) (psize p) a n Hh Ha) as [H|H].
  - intros <-. apply Hn. by apply list_elem_of_fmap_2.
  - left. cbn in *. lia.
  - right. cbn in *. unfold sizeof_ntg_pool_data_t in *. lia.
Qed.

Lemma blocks_apart h0 p live i j b c :
  pool_inv h0 p live -> pl_blocks p !! i = Some b -> pl_blocks p !! j = Some c -> i <> j ->
  apart (bk_addr b, psize p) (bk_addr c, psize p).
Proof.
  intros I Hb Hc Hne. pose proof (Forall_lookup_1 _ _ _ _ (pv_blocks _ _ _ I) Hb) as (H1 & _).
  pose proof (Forall_lookup_1 _ _ _ _ (pv_blocks _ _ _ I) Hc) as (H2 & _).
  apply (proj2 (pv_heap _ _ _ I) _ _ _ _ H1 H2). intros E. apply Hne.
  pose proof (pv_owners _ _ _ I) as Hd. unfold owners in Hd. apply NoDup_app in Hd as [Hd _].
  apply (NoDup_lookup _ _ _ (bk_addr b) Hd); rewrite list_lookup_fmap; [by rewrite Hb|rewrite Hc, E; done].
Qed.

Lemma large_not_block h0 p live a : pool_inv h0 p live -> a ∈ large_regions p -> a ∉ map bk_addr (pl_blocks p).
Proof.
  intros I Ha Hb. pose proof (pv_owners _ _ _ I) as Hd. apply NoDup_app in Hd as (_ & Hd & _). by apply (Hd a).
Qed.

(** A piece behind the last of a block is apart from all that was handed out. *)
Lemma behind_apart h0 p live i b m n r :
  pool_inv h0 p live -> pl_blocks p !! i = Some b -> bk_last b <= m -> 0 <= n -> m + n <= bk_end b -> r ∈ live -> apart (m, n) r.
Proof.
  intros I Hb Hm Hn He Hr. pose proof (Forall_lookup_1 _ _ _ _ (pv_blocks _ _ _ I) Hb) as (Hh & Eb & Hl).
  unfold sizeof_ntg_pool_data_t in *.
  pose proof (proj1 (Forall_forall _ _) (pv_live _ _ _ I) r Hr) as [H0 [(c & Hc & H1 & H2)|[H1 H2]]].
  - apply list_elem_of_lookup in Hc as [j Hc]. pose proof (Forall_lookup_1 _ _ _ _ (pv_blocks _ _ _ I) Hc) as (Hhc & Ec & Hlc).
    unfold sizeof_ntg_pool_data_t in *. destruct (decide (i = j)) as [<-|Hne].
    + rewrite Hb in Hc. injection Hc as <-. right. cbn. lia.
    + destruct (blocks_apart h0 p live i j b c I Hb Hc Hne) as [H|H]; cbn in H; [left|right]; cbn; lia.
  - pose proof (large_not_block _ _ _ _ I H1) as Hnb.
    destruct (proj2 (pv_heap _ _ _ I) _ _ _ _ Hh H2) as [H|H].
    + intros E. apply Hnb. rewrite <-E. apply list_elem_of_fmap_2. by eapply list_elem_of_lookup_2.
    + left. cbn in *. lia.
    + right. cbn in *. lia.
Qed.

Lemma apart_cons r live : (forall q, q ∈ live -> apart r q) -> ForallOrdPairs apart live -> ForallOrdPairs apart (r :: live).
Proof. intros H F. constructor; [by apply Forall_forall|done]. Qed.

(** ** A piece of a block *)

(** Block [i] ends its used part at [m]. *)
Definition used_to (i : nat) (m : Z) (b : block) (p : pool) : pool :=
  set_pl_blocks (<[i := Block (bk_addr b) m (bk_end b) (bk_failed b)]> (pl_blocks p)) p.

Section used.
Context (p : pool) (i : nat) (b : block) (m : Z) (Hb : pl_blocks p !! i = Some b) (Hm : bk_last b <= m <= bk_end b).

Lemma used_psize : psize (used_to i m b p) = psize p.
Proof using Hb. unfold psize, used_to, set_pl_blocks. cbn. destruct (pl_blocks p) as [|c bs]; [done|]. destruct i; [|done]. by injection Hb as ->. Qed.

Lemma used_addrs : map bk_addr (pl_blocks (used_to i m b p)) = map bk_addr (pl_blocks p).
Proof using Hb.
  cbn. change (map bk_addr) with (fmap (M := list) bk_addr). rewrite list_fmap_insert. apply list_insert_id. by rewrite list_lookup_fmap, Hb.
Qed.

Lemma used_in_block r : in_block p r -> in_block (used_to i m b p) r.
Proof using Hb Hm.
  intros (c & Hc & H1 & H2). apply list_elem_of_lookup in Hc as [j Hc]. destruct (decide (i = j)) as [<-|Hne].
  - rewrite Hb in Hc. injection Hc as <-. eexists. split; [eapply list_elem_of_lookup_2, list_lookup_insert_eq; by eapply lookup_lt_Some|].
    cbn. lia.
  - exists c. split; [|done]. eapply list_elem_of_lookup_2. cbn. by rewrite list_lookup_insert_ne.
Qed.
End used.

Lemma used_inv h0 p live i b m n :
  pool_inv h0 p live -> pl_blocks p !! i = Some b -> bk_last b <= m -> 0 <= n -> m + n <= bk_end b ->
  pool_inv h0 (used_to i (m + n) b p) ((m, n) :: live) /\ in_block (used_to i (m + n) b p) (m, n).
Proof.
  intros I Hb Hm Hn He. assert (Hr : bk_last b <= m + n <= bk_end b) by lia.
  pose proof (used_in_block p i b (m + n) Hb Hr) as Hin. pose proof (used_psize p i b (m + n) Hb) as Eps.
  pose proof (used_addrs p i b (m + n) Hb) as Ead.
  pose proof (Forall_lookup_1 _ _ _ _ (pv_blocks _ _ _ I) Hb) as (Hh & Eb & Hl).
  assert (Hnew : in_block (used_to i (m + n) b p) (m, n)).
  { eexists. split; [eapply list_elem_of_lookup_2, list_lookup_insert_eq; by eapply lookup_lt_Some|]. cbn. lia. }
  split; [|done]. destruct I as [I1 I2 I3 I4 I5 I6 I7 I8 I9 I10 I11]. split; try done.
  - by rewrite Eps.
  - rewrite Eps. cbn. apply Forall_insert; [done|]. split; [done|]. split; [done|]. cbn. lia.
  - cbn. by rewrite length_insert.
  - unfold owners. by rewrite Ead.
  - intros a. unfold owners. rewrite Ead. apply I6.
  - intros a. unfold owners. rewrite Ead. apply I7.
  - constructor; [split; [done|by left]|]. eapply Forall_impl; [exact I8|]. intros r [H0 [H|H]]; (split; [done|]); [left; by apply Hin|by right].
  - apply apart_cons; [|done]. intros q Hq. apply (behind_apart h0 p live i b); by (done || split).
  - eapply Forall_impl; [exact I10|]. intros l [H1 H2]. split; [by right|by apply Hin].
  - eapply Forall_impl; [exact I11|]. intros c H1. by right.
Qed.

(** ** Another block *)

Lemma fail_blocks_spec bs i cur :
  let '(bs', cur') := fail_blocks i cur bs in
  Forall2 (fun b c => bk_addr c = bk_addr b /\ bk_last c = bk_last b /\ bk_end c = bk_end b) bs bs' /\
  (cur' = cur \/ i < cur' < i + length bs)%nat.
Proof.
  revert i cur. induction bs as [|b [|c bs] IH]; intros i cur.
  - split; [constructor|by left].
  - split; [by repeat constructor|by left].
  - change (fail_blocks i cur (b :: c :: bs)) with
      (let '(bs', cur') := fail_blocks (S i) (if bk_failed b >? 4 then S i else cur) (c :: bs) in
       (Block (bk_addr b) (bk_last b) (bk_end b) (u64 (bk_failed b + 1)) :: bs', cur')).
    specialize (IH (S i) (if bk_failed b >? 4 then S i else cur)). destruct (fail_blocks _ _ (c :: bs)) as [bs' cur'].
    destruct IH as [F H]. split; [by constructor|]. cbn [length] in *. destruct (bk_failed b >? 4); lia.
Qed.

(** The blocks [bs] are those of [p], but for their counts, with the block [new]. *)
Definition more_blocks (p : pool) (bs : list block) (new : block) (cur : nat) (heap : gmap Z Z) : pool :=
  Pool (bs ++ [new]) (pl_max p) cur (pl_large p) (pl_cleanup p) heap (pl_out p).

Lemma more_inv h0 p live bs cur a m n :
  pool_inv h0 p live ->
  Forall2 (fun b c => bk_addr c = bk_addr b /\ bk_last c = bk_last b /\ bk_end c = bk_end b) (pl_blocks p) bs ->
  (cur < length (pl_blocks p))%nat -> heap_ok (<[a := psize p]> (pl_heap p)) -> pl_heap p !! a = None ->
  a + sizeof_ntg_pool_data_t <= m -> 0 <= n -> m + n <= a + psize p ->
  let p' := more_blocks p bs (Block a (m + n) (a + psize p) 0) cur (<[a := psize p]> (pl_heap p)) in
  pool_inv h0 p' ((m, n) :: live) /\ in_block p' (m, n).
Proof.
  intros I F Hcur Hheap Ha Hm Hn He p'.
  assert (Ead : map bk_addr bs = map bk_addr (pl_blocks p)) by (clear -F; induction F as [|b c l l' (E & _) _ IH]; cbn; congruence).
  assert (Eps : psize p' = psize p).
  { pose proof (pv_current _ _ _ I). unfold psize, p', more_blocks. cbn.
    destruct (pl_blocks p) as [|b l]; [cbn in H; lia|]. inversion F as [|? c ? l' (E1 & _ & E2) _]; subst. cbn. by rewrite E1, E2. }
  assert (Hnew : in_block p' (m, n)) by (eexists; split; [apply elem_of_app; right; by left|cbn; lia]).
  assert (Hin : forall r, in_block p r -> in_block p' r).
  { intros r (b & (j & Hb)%list_elem_of_lookup & H1 & H2). destruct (Forall2_lookup_l _ _ _ _ _ F Hb) as (c & Hc & E1 & E2 & E3).
    exists c. rewrite E1, E2. split; [|done]. apply elem_of_app. left. by eapply list_elem_of_lookup_2. }
  assert (Hno : a ∉ owners p) by (intros H; destruct (pv_owned _ _ _ I a H) as [ [? H'] _]; congruence).
  assert (Hown : forall x, x ∈ owners p' <-> x = a \/ x ∈ owners p).
  { intros x. unfold owners, p', more_blocks. cbn. rewrite map_app, Ead, !elem_of_app. cbn. rewrite elem_of_cons, elem_of_nil. tauto. }
  assert (Ehp : pl_heap p' = <[a := psize p]> (pl_heap p)) by done.
  split; [|done]. pose proof I as [I1 I2 I3 I4 I5 I6 I7 I8 I9 I10 I11]. split; rewrite ?Ehp; try done.
  - by rewrite Eps.
  - rewrite Eps. cbn. apply Forall_app. split.
    + apply Forall_lookup_2. intros j c Hc. destruct (Forall2_lookup_r _ _ _ _ _ F Hc) as (b & Hb & E1 & E2 & E3).
      destruct (Forall_lookup_1 _ _ _ _ I2 Hb) as (H1 & H2 & H3). unfold block_ok. rewrite E1, E2, E3. split; [|done].
      rewrite lookup_insert_ne; [done|]. congruence.
    + apply Forall_singleton. split; [cbn; by rewrite lookup_insert_eq|]. split; [done|]. cbn. unfold sizeof_ntg_pool_data_t in *. lia.
  - cbn. rewrite length_app, <-(Forall2_length _ _ _ F). lia.
  - unfold owners, p', more_blocks. cbn. rewrite map_app, Ead. cbn. unfold owners in I5, Hno.
    rewrite <-app_assoc. cbn [app]. apply NoDup_app in I5 as (N1 & N2 & N3). rewrite elem_of_app in Hno.
    apply NoDup_app. split; [done|]. split; [|apply NoDup_cons; split; [tauto|done] ].
    intros x Hx [ -> |Hx']%elem_of_cons; [tauto|]. by apply (N2 x).
  - intros x [ -> |Hx]%Hown.
    + rewrite lookup_insert_eq. split; [by eexists|]. rewrite <-I7; [done|done].
    + destruct (I6 x Hx) as [H1 H2]. split; [|done]. rewrite lookup_insert_ne; [done|by intros ->].
  - intros x Hx. rewrite Hown in Hx. rewrite lookup_insert_ne by (intros ->; apply Hx; by left). apply I7. tauto.
  - constructor; [split; [done|by left]|]. eapply Forall_impl; [exact I8|]. intros r [H0 [H|[H H']]]; (split; [done|]); [left; by apply Hin|].
    right. split; [done|]. rewrite Ehp, lookup_insert_ne; [done|]. congruence.
  - apply apart_cons; [|done]. intros q Hq. destruct (proj1 (Forall_forall _ _) I8 q Hq) as [H0 [H|[H H']]].
    + apply apart_sym. assert (Hap : apart q (a, psize p)).
      { destruct H as (b & Hb & H1 & H2). destruct (proj1 (Forall_forall _ _) I2 b Hb) as (Hh & Eb & Hl).
        destruct (proj2 Hheap (bk_addr b) (psize p) a (psize p)) as [Hx|Hx]; [rewrite lookup_insert_ne; [done|congruence]|by rewrite lookup_insert_eq|congruence| |];
          cbn in Hx; [left|right]; cbn; unfold sizeof_ntg_pool_data_t in *; lia. }
      unfold apart in *. cbn in *. unfold sizeof_ntg_pool_data_t in *. lia.
    + destruct (proj2 Hheap (fst q) (snd q) a (psize p)) as [Hx|Hx];
        [rewrite lookup_insert_ne; [done|congruence]|by rewrite lookup_insert_eq|congruence| |]; cbn in Hx; [right|left]; cbn; unfold sizeof_ntg_pool_data_t in *; lia.
  - eapply Forall_impl; [exact I10|]. intros l [H1 H2]. split; [by right|by apply Hin].
  - eapply Forall_impl; [exact I11|]. intros c H1. by right.
Qed.

(** ** Small pieces *)

Section alloc.
Context (malloc : gmap Z Z -> Z -> Z -> option Z) {A : Allocator malloc}.

Lemma malloc_heap h alignment n a : heap_ok h -> 0 < n -> malloc h alignment n = Some a -> heap_ok (<[a := n]> h) /\ h !! a = None.
Proof using A.
  intros [H1 H2] Hn E. destruct (malloc_ok _ _ _ _ E) as (P1 & P2 & P3 & P4).
  assert (Ha : h !! a = None).
  { destruct (h !! a) as [m|] eqn:Hm; [|done]. pose proof (P4 a m Hm) as Hap. destruct (H1 a m Hm) as (_ & ? & _). destruct Hap as [Hap|Hap]; cbn in Hap; lia. }
  split; [|done]. split.
  - intros b m. destruct (decide (b = a)) as [ -> |Hb]; [rewrite lookup_insert_eq; intros [= <-]; done|rewrite lookup_insert_ne by done; apply H1].
  - intros b m c k Hb Hc Hne. destruct (decide (b = a)) as [ -> |Hba], (decide (c = a)) as [ -> |Hca]; [done|..].
    + rewrite lookup_insert_eq in Hb. rewrite lookup_insert_ne in Hc by done. injection Hb as <-. by apply P4.
    + rewrite lookup_insert_eq in Hc. rewrite lookup_insert_ne in Hb by done. injection Hc as <-. by apply apart_sym, P4.
    + rewrite lookup_insert_ne in Hb by done. rewrite lookup_insert_ne in Hc by done. by apply H2.
Qed.

Lemma search_spec align size i bs j m :
  search align size i bs = Some (j, m) ->
  exists k b, j = (i + k)%nat /\ bs !! k = Some b /\ size <= u64 (bk_end b - m) /\ m = (if align then ntg_align_ptr (bk_last b) 8 else bk_last b).
Proof.
  revert i. induction bs as [|b bs IH]; intros i; cbn [search]; [done|]. destruct (Z.geb_spec (u64 (bk_end b - (if align then ntg_align_ptr (bk_last b) NTG_ALIGNMENT else bk_last b))) size).
  - intros [= <- <-]. exists O, b. rewrite Nat.add_0_r. done.
  - intros (k & c & -> & Hk & H')%IH. exists (S k), c. split; [lia|done].
Qed.

(** The end of a block is aligned, so that aligning does not pass it. *)
Lemma place_in_block h0 p live i b (align : bool) :
  pool_inv h0 p live -> pl_blocks p !! i = Some b ->
  let m := if align then ntg_align_ptr (bk_last b) 8 else bk_last b in
  0 < m /\ bk_last b <= m <= bk_end b /\ (align = true -> m mod 8 = 0) /\ u64 (bk_end b - m) = bk_end b - m.
Proof.
  intros I Hb m. pose proof (Forall_lookup_1 _ _ _ _ (pv_blocks _ _ _ I) Hb) as (Hh & Eb & Hl).
  destruct (proj1 (pv_heap _ _ _ I) _ _ Hh) as (P1 & P2 & P3 & P4). destruct (pv_max _ _ _ I) as [_ P5]. unfold sizeof_ntg_pool_data_t in *.
  assert (Hm : bk_last b <= m <= bk_end b /\ (align = true -> m mod 8 = 0)).
  { subst m. destruct align; [|split; [lia|done] ]. destruct (align_spec (bk_last b) ltac:(lia)) as [H1 H2]. split; [|done].
    rewrite Eb in *. Z.to_euclidean_division_equations. lia. }
  destruct Hm as [Hm1 Hm2]. split; [lia|]. split; [done|]. split; [done|]. apply u64_small. width. lia.
Qed.

(** What an allocation of a piece promises. *)
Record piece (h0 : gmap Z Z) (align : bool) (size : Z) (p : pool) (live : list (Z * Z)) (a : Z) (p' : pool) : Prop := {
  pc_aligned : 0 < a /\ (align = true -> a mod 8 = 0);
  pc_inv : pool_inv h0 p' ((a, size) :: live);
  pc_in : in_block p' (a, size);
  pc_same : pl_large p' = pl_large p /\ pl_cleanup p' = pl_cleanup p /\ pl_max p' = pl_max p }.

Lemma palloc_block_ok h0 align size p live :
  pool_inv h0 p live -> 0 <= size <= pl_max p ->
  exists a p', ntg_palloc_block malloc size p = Some (a, p') /\ (a = 0 /\ p' = p \/ piece h0 align size p live a p').
Proof using A.
  intros I Hs. pose proof (pv_current _ _ _ I) as Hc. destruct (pv_max _ _ _ I) as [Hmax Hal]. unfold ntg_palloc_block.
  destruct (pl_blocks p) as [|b0 bs0] eqn:Eb0; [cbn in Hc; lia|]. cbn [head mbind option_bind].
  pose proof (pv_blocks _ _ _ I) as Hbs. rewrite Eb0 in Hbs. pose proof (Forall_inv Hbs) as (Hh0 & He0 & _).
  destruct (proj1 (pv_heap _ _ _ I) _ _ Hh0) as (P1 & P2 & P3 & P4).
  assert (Eps : u64 (bk_end b0 - bk_addr b0) = psize p) by (rewrite u64_small by (width; lia); lia). rewrite Eps.
  destruct (malloc (pl_heap p) NTG_POOL_ALIGNMENT (psize p)) as [a|] eqn:Ea; [|by exists 0, p; split; [|left] ].
  destruct (malloc_ok _ _ _ _ Ea) as (Q1 & Q2 & Q3 & _). destruct (malloc_heap _ _ (psize p) a (pv_heap _ _ _ I) ltac:(lia) Ea) as [Hheap Hna].
  unfold sizeof_ntg_pool_data_t in *. destruct (align_spec (a + 32) ltac:(lia)) as [Hm1 Hm2].
  assert (Em : ntg_align_ptr (a + 32) NTG_ALIGNMENT = a + 32) by (unfold NTG_ALIGNMENT; Z.to_euclidean_division_equations; lia).
  rewrite Em. pose proof (fail_blocks_spec (drop (pl_current p) (b0 :: bs0)) (pl_current p) (pl_current p)) as Hf.
  destruct (fail_blocks _ _ _) as [bs cur]. destruct Hf as [F Hcur]. rewrite length_drop in Hcur.
  assert (F' : Forall2 (fun b c => bk_addr c = bk_addr b /\ bk_last c = bk_last b /\ bk_end c = bk_end b) (pl_blocks p)
    (take (pl_current p) (b0 :: bs0) ++ bs)).
  { rewrite Eb0, <-(take_drop (pl_current p) (b0 :: bs0)) at 1. apply Forall2_app; [|done]. by apply Forall_Forall2_diag, Forall_true. }
  pose proof (more_inv h0 p live _ cur a (a + 32) size I F' ltac:(rewrite Eb0; lia) Hheap Hna ltac:(unfold sizeof_ntg_pool_data_t; lia) ltac:(lia) ltac:(lia)) as [J K].
  eexists _, _. split; [reflexivity|]. right. rewrite app_assoc. split; [|exact J|exact K|done].
  split; [lia|]. intros _. Z.to_euclidean_division_equations. lia.
Qed.

Lemma palloc_small_ok h0 align size p live :
  pool_inv h0 p live -> 0 <= size <= pl_max p ->
  exists a p', palloc_small malloc align size p = Some (a, p') /\ (a = 0 /\ p' = p \/ piece h0 align size p live a p').
Proof using A.
  intros I Hs. unfold palloc_small. destruct (search _ _ _ _) as [[i m]|] eqn:E; [|by apply palloc_block_ok].
  destruct (search_spec _ _ _ _ _ _ E) as (k & b & -> & Hk & Hsz & ->). rewrite lookup_drop in Hk. rewrite Hk. cbn [mbind option_bind].
  destruct (place_in_block h0 p live _ b align I Hk) as (M1 & M2 & M3 & M4). rewrite M4 in Hsz.
  destruct (used_inv h0 p live _ b _ size I Hk (proj1 M2) ltac:(lia) ltac:(lia)) as [J K].
  eexists _, _. split; [reflexivity|]. right. by split.
Qed.

(** ** Large regions *)

Definition regions_of (ls : list large) : list Z := List.filter (fun a => negb (a =? 0)) (map lg_alloc ls).

Lemma hold_inv h0 p live a n :
  pool_inv h0 p live -> heap_ok (<[a := n]> (pl_heap p)) -> pl_heap p !! a = None -> pool_inv (<[a := n]> h0) (hold a n p) live.
Proof.
  intros [I1 I2 I3 I4 I5 I6 I7 I8 I9 I10 I11] Hh Ha.
  assert (Hne : forall x, is_Some (pl_heap p !! x) -> a <> x) by (intros x [? H] ->; congruence).
  split; try done.
  - eapply Forall_impl; [exact I2|]. intros b (H1 & H2). split; [|done]. cbn. rewrite lookup_insert_ne; [done|by apply Hne; eexists].
  - intros x Hx. destruct (I6 x Hx) as [H1 H2]. pose proof (Hne x H1). cbn. by rewrite !lookup_insert_ne by done.
  - intros x Hx. cbn. destruct (decide (x = a)) as [ -> |Hxa]; [by rewrite !lookup_insert_eq|]. rewrite !lookup_insert_ne by done. by apply I7.
  - eapply Forall_impl; [exact I8|]. intros r [H0 [H|[H1 H2]]]; (split; [done|]); [by left|]. right. split; [done|]. cbn.
    rewrite lookup_insert_ne; [done|by apply Hne; eexists].
Qed.

Lemma attach_inv h1 p live a n ls :
  pool_inv h1 p live -> h1 !! a = Some n -> Permutation (regions_of ls) (a :: large_regions p) ->
  Forall (fun l => (lg_addr l, 16) ∈ live /\ in_block p (lg_addr l, 16)) ls ->
  pool_inv (delete a h1) (set_pl_large ls p) ((a, n) :: live).
Proof.
  intros I Ha Hp Hls. assert (Hno : a ∉ owners p) by (intros H; destruct (pv_owned _ _ _ I a H) as [_ H']; congruence).
  assert (Hh : pl_heap p !! a = Some n) by (by rewrite (pv_others _ _ _ I a Hno)).
  assert (Hown : Permutation (owners (set_pl_large ls p)) (a :: owners p)).
  { unfold owners. change (large_regions (set_pl_large ls p)) with (regions_of ls). cbn [pl_blocks set_pl_large]. rewrite Hp. symmetry. apply Permutation_middle. }
  assert (Hnb : a ∉ map bk_addr (pl_blocks p)) by (intros H; apply Hno, elem_of_app; by left).
  pose proof (proj1 (pv_heap _ _ _ I) a n Hh) as (Hpos & Hn & _).
  pose proof I as [I1 I2 I3 I4 I5 I6 I7 I8 I9 I10 I11]. split; try done.
  - rewrite Hown. by apply NoDup_cons.
  - intros x Hx. rewrite Hown, elem_of_cons in Hx. destruct Hx as [ -> |Hx]; [split; [by eexists|apply lookup_delete_eq] |].
    destruct (I6 x Hx) as [H1 H2]. split; [done|]. rewrite lookup_delete_ne; [done|by intros ->].
  - intros x Hx. rewrite Hown, elem_of_cons in Hx. rewrite lookup_delete_ne by (intros ->; apply Hx; by left). apply I7. tauto.
  - assert (Hreg : forall x, x ∈ regions_of ls <-> x = a \/ x ∈ large_regions p) by (intros x; by rewrite Hp, elem_of_cons).
    constructor.
    + split; [cbn; lia|]. right. split; [by apply Hreg; left|done].
    + eapply Forall_impl; [exact I8|]. intros r [H0 [H|[H1 H2]]]; (split; [done|]); [by left|]. right. split; [by apply Hreg; right|done].
  - apply apart_cons; [|done]. intros q Hq. destruct (proj1 (Forall_forall _ _) I8 q Hq) as [H0 [H|[H1 H2]]].
    + apply apart_sym. by apply (in_block_apart h1 p live).
    + destruct q as [x k]. apply (proj2 I4); [done|done|]. intros <-. apply Hno, elem_of_app. by right.
  - eapply Forall_impl; [exact Hls|]. intros l [H1 H2]. split; [by right|done].
  - eapply Forall_impl; [exact I11|]. intros c H1. by right.
Qed.

Lemma free_inv h1 p live a : pool_inv h1 p live -> a ∉ owners p -> pool_inv (delete a h1) (ntg_free a p) live.
Proof.
  intros [I1 I2 I3 I4 I5 I6 I7 I8 I9 I10 I11] Ha. assert (Hne : forall x, x ∈ owners p -> a <> x) by (by intros x Hx ->).
  split; try done.
  - apply Forall_forall. intros b Hb. destruct (proj1 (Forall_forall _ _) I2 b Hb) as (H1 & H2). split; [|done]. cbn.
    rewrite lookup_delete_ne; [done|]. apply Hne, elem_of_app. left. by apply list_elem_of_fmap_2.
  - cbn. split.
    + intros x n [_ H]%lookup_delete_Some. by apply I4.
    + intros x n y m [_ H]%lookup_delete_Some [_ H']%lookup_delete_Some. by apply I4.
  - intros x Hx. cbn. rewrite !lookup_delete_ne by (by apply Hne). by apply I6.
  - intros x Hx. cbn. destruct (decide (x = a)) as [ -> |Hxa]; [by rewrite !lookup_delete_eq|]. rewrite !lookup_delete_ne by done. by apply I7.
  - eapply Forall_impl; [exact I8|]. intros r [H0 [H|[H1 H2]]]; (split; [done|]); [by left|]. right. split; [done|]. cbn.
    rewrite lookup_delete_ne; [done|]. apply Hne, elem_of_app. by right.
Qed.

Lemma reuse_spec k a ls ls' :
  a <> 0 -> reuse_large k a ls = Some ls' -> Permutation (regions_of ls') (a :: regions_of ls) /\ map lg_addr ls' = map lg_addr ls.
Proof.
  intros Ha. revert ls ls'. induction k as [|k IH]; intros [|l ls] ls'; cbn [reuse_large]; try done.
  destruct (Z.eqb_spec (lg_alloc l) 0) as [E|E].
  - intros [= <-]. unfold regions_of. cbn. rewrite E. cbn. by rewrite (proj2 (Z.eqb_neq a 0)) by done.
  - destruct (reuse_large k a ls) as [ls1|] eqn:E1; [|done]. cbn. intros [= <-]. destruct (IH _ _ E1) as [H1 H2].
    cbn [map]. rewrite H2. split; [|done]. unfold regions_of in *. cbn. rewrite (proj2 (Z.eqb_neq _ _) E). cbn. rewrite H1. apply Permutation_swap.
Qed.

(** What an allocation promises; the pool may take nodes of its own on the way. *)
Definition allocated (h0 : gmap Z Z) (align : bool) (size : Z) (p : pool) (live : list (Z * Z)) (a : Z) (p' : pool) : Prop :=
  pl_cleanup p' = pl_cleanup p /\
  if a =? 0 then pool_inv h0 p' live /\ map lg_addr (pl_large p') = map lg_addr (pl_large p)
  else 0 < a /\ (align = true -> a mod 8 = 0) /\
    exists nodes, pool_inv h0 p' ((a, size) :: nodes ++ live) /\ Forall (fun r => snd r = 16) nodes /\
      map lg_addr (pl_large p') = map fst nodes ++ map lg_addr (pl_large p).

Lemma piece_allocated h0 align size p live a p' : piece h0 align size p live a p' -> allocated h0 align size p live a p'.
Proof.
  intros [ [H1 H2] H3 _ (H4 & H5 & _)]. unfold allocated. rewrite (proj2 (Z.eqb_neq a 0)) by lia. split; [done|]. split; [done|]. split; [done|].
  exists []. split; [done|]. split; [constructor|]. by rewrite H4.
Qed.

(** A region of [malloc] for which a node is wanted. *)
Lemma region_ok h0 align n p live a :
  pool_inv h0 p live -> 0 < n -> malloc (pl_heap p) align n = Some a ->
  exists l p1, palloc_small malloc true 16 (hold a n p) = Some (l, p1) /\ pl_large p1 = pl_large p /\ pl_cleanup p1 = pl_cleanup p /\
    if l =? 0 then pool_inv h0 (ntg_free a p1) live
    else pool_inv h0 (set_pl_large (Large l a :: pl_large p1) p1) ((a, n) :: (l, 16) :: live).
Proof using A.
  intros I Hn E. destruct (malloc_heap _ _ n a (pv_heap _ _ _ I) Hn E) as [Hh Ha].
  assert (Hno : a ∉ owners p) by (intros H; destruct (pv_owned _ _ _ I a H) as [ [? H'] _]; congruence).
  assert (Ha0 : h0 !! a = None) by (by rewrite <-(pv_others _ _ _ I a Hno)).
  pose proof (hold_inv h0 p live a n I Hh Ha) as I1. assert (Ed : delete a (<[a := n]> h0) = h0) by (by apply delete_insert_id).
  destruct (palloc_small_ok (<[a := n]> h0) true 16 (hold a n p) live I1) as (l & p1 & E1 & H).
  { destruct (pv_max _ _ _ I). cbn. lia. }
  exists l, p1. split; [exact E1|]. destruct H as [ [ -> -> ]|[ [H1 _] H2 H3 (H4 & H5 & _)] ]; (split; [done|]); (split; [done|]).
  - cbn [Z.eqb]. rewrite <-Ed at 1. by apply free_inv.
  - rewrite (proj2 (Z.eqb_neq l 0)) by lia. rewrite <-Ed at 1. apply attach_inv; [done|by rewrite lookup_insert_eq| |].
    + unfold regions_of. cbn. destruct (malloc_ok _ _ _ _ E) as (Hp & _). by rewrite (proj2 (Z.eqb_neq a 0)) by lia.
    + constructor; [split; [by left|done] |]. apply (pv_nodes _ _ _ H2).
Qed.

Lemma palloc_large_ok h0 align size p live callee :
  pool_inv h0 p live -> 0 < size -> (forall q, pl_max q = pl_max p -> callee 16 q = palloc_small malloc true 16 q) ->
  exists a p', ntg_palloc_large malloc callee size p = Some (a, p') /\ allocated h0 align size p live a p'.
Proof using A.
  intros I Hs Hc. unfold ntg_palloc_large. destruct (malloc (pl_heap p) 16 size) as [a|] eqn:E; [|exists 0, p; split; [done|]; split; [done|]; by split].
  destruct (malloc_ok _ _ _ _ E) as (Hpos & Hal & _).
  assert (Hgood : forall nodes p', pool_inv h0 p' ((a, size) :: nodes ++ live) -> pl_cleanup p' = pl_cleanup p -> Forall (fun r => snd r = 16) nodes ->
    map lg_addr (pl_large p') = map fst nodes ++ map lg_addr (pl_large p) -> allocated h0 align size p live a p').
  { intros nodes p' J Hcl Hn Hm. unfold allocated. rewrite (proj2 (Z.eqb_neq a 0)) by lia. split; [done|]. split; [done|]. split; [done|]. by exists nodes. }
  destruct (reuse_large 5 a (pl_large (hold a size p))) as [ls|] eqn:Er.
  - eexists _, _. split; [reflexivity|]. assert (Hm' := proj2 (reuse_spec 5 a _ _ ltac:(lia) Er)). apply (Hgood []); [|done|constructor|exact Hm']. destruct (malloc_heap _ _ size a (pv_heap _ _ _ I) Hs E) as [Hh Ha].
    assert (Hno : a ∉ owners p) by (intros H; destruct (pv_owned _ _ _ I a H) as [ [? H'] _]; congruence).
    assert (Ed : delete a (<[a := size]> h0) = h0) by (apply delete_insert_id; by rewrite <-(pv_others _ _ _ I a Hno)).
    destruct (reuse_spec 5 a _ _ ltac:(lia) Er) as [Hp Hm]. rewrite <-Ed. pose proof (hold_inv h0 p live a size I Hh Ha) as I1.
    apply attach_inv; [done|by rewrite lookup_insert_eq|done|].
    apply Forall_lookup_2. intros i l Hl. assert (Hl' : lg_addr <$> pl_large p !! i = Some (lg_addr l)).
    { rewrite <-list_lookup_fmap. change (fmap lg_addr (pl_large p)) with (map lg_addr (pl_large (hold a size p))). rewrite <-Hm.
      change (map lg_addr ls) with (lg_addr <$> ls). by rewrite list_lookup_fmap, Hl. }
    apply fmap_Some in Hl' as (l' & Hl' & ->). by apply (Forall_lookup_1 _ _ _ _ (pv_nodes _ _ _ I) Hl').
  - unfold sizeof_ntg_pool_large_t. rewrite Hc by done. destruct (region_ok h0 16 size p live a I Hs E) as (l & p1 & E1 & El & Ec & H). rewrite E1.
    cbn [mbind option_bind]. destruct (l =? 0).
    + eexists _, _. split; [reflexivity|]. split; [done|]. cbn. split; [exact H|by rewrite El].
    + eexists _, _. split; [reflexivity|]. apply (Hgood [(l, 16)]); [exact H|done|by repeat constructor|cbn; by rewrite El].
Qed.

Lemma palloc_ok h0 fuel size p live :
  pool_inv h0 p live -> 0 <= size ->
  exists a p', ntg_palloc malloc (S (S fuel)) size p = Some (a, p') /\ allocated h0 true size p live a p'.
Proof using A.
  intros I Hs. cbn [ntg_palloc]. destruct (Z.leb_spec size (pl_max p)).
  - destruct (palloc_small_ok h0 true size p live I ltac:(lia)) as (a & p' & E & H'). exists a, p'. split; [exact E|].
    destruct H' as [ [ -> -> ]|H']; [by split|by eapply piece_allocated].
  - destruct (pv_max _ _ _ I). apply palloc_large_ok; [done|lia|]. intros q Hq. cbn [ntg_palloc]. by rewrite Hq, (proj2 (Z.leb_le 16 _)) by lia.
Qed.

(** C21: an allocation always returns.  What [ntg_palloc] and [ntg_pnalloc] hand
    out is apart from every other piece that is in use and from the pool's own
    nodes, inside of memory the pool holds, and for [ntg_palloc] aligned; the
    regions of others are as before.  Without memory the result is null and
    nothing is lost.  The same holds for zeroed and for aligned memory. *)
Theorem pool_alloc_correct h0 fuel size alignment p live :
  pool_inv h0 p live -> 0 <= size ->
  (exists a p', ntg_palloc malloc (S (S fuel)) size p = Some (a, p') /\ allocated h0 true size p live a p') /\
  (exists a p', ntg_pnalloc malloc (S fuel) size p = Some (a, p') /\ allocated h0 false size p live a p') /\
  (exists a p', ntg_pcalloc malloc (S (S fuel)) size p = Some (a, p') /\ allocated h0 true size p live a p') /\
  (0 < size -> exists a p', ntg_pmemalign malloc (S fuel) size alignment p = Some (a, p') /\ allocated h0 true size p live a p').
Proof using A.
  intros I Hs. pose proof (palloc_ok h0 fuel size p live I Hs) as (a & p' & E & H). split; [by exists a, p'|].
  destruct (pv_max _ _ _ I). assert (Hn : forall q, pl_max q = pl_max p -> ntg_palloc malloc (S fuel) 16 q = palloc_small malloc true 16 q)
    by (intros q Hq; cbn [ntg_palloc]; by rewrite Hq, (proj2 (Z.leb_le 16 _)) by lia).
  split; [|split].
  - unfold ntg_pnalloc. destruct (Z.leb_spec size (pl_max p)); [|apply palloc_large_ok; [done|lia|exact Hn] ].
    destruct (palloc_small_ok h0 false size p live I ltac:(lia)) as (b & q & Eb & Hb). exists b, q. split; [exact Eb|].
    destruct Hb as [ [ -> -> ]|Hb]; [by split|by eapply piece_allocated].
  - unfold ntg_pcalloc. rewrite E. cbn [mbind option_bind]. eexists _, _. split; [reflexivity|]. destruct (a =? 0) eqn:Ea; [done|].
    unfold allocated in *. rewrite Ea in *. destruct H as (Hcl & H2 & H3 & nodes & H4 & H5). split; [done|]. split; [done|]. split; [done|]. exists nodes. split; [|exact H5].
    destruct H4 as [I1 I2 I3 I4 I5 I6 I7 I8 I9 I10 I11]. by split.
  - intros Hpos. unfold ntg_pmemalign. destruct (malloc (pl_heap p) alignment size) as [b|] eqn:Eb; [|exists 0, p; split; [done|]; split; [done|]; by split].
    unfold sizeof_ntg_pool_large_t. rewrite Hn by done. destruct (region_ok h0 alignment size p live b I Hpos Eb) as (l & q & E1 & El & Ec & Hl). rewrite E1.
    cbn [mbind option_bind]. destruct (malloc_ok _ _ _ _ Eb) as (Hb & Hal & _). destruct (l =? 0); eexists _, _; (split; [reflexivity|]); (split; [done|]); [split; [exact Hl|cbn; by rewrite El] |].
    rewrite (proj2 (Z.eqb_neq b 0)) by lia. split; [done|]. split; [done|]. exists [(l, 16)]. split; [done|]. split; [by repeat constructor|cbn; by rewrite El].
Qed.

(** A new pool. *)
Lemma create_pool_ok pagesize size h0 p :
  heap_ok h0 -> 104 <= size -> size mod 8 = 0 -> 25 <= pagesize -> ntg_create_pool malloc pagesize size h0 = Some p -> pool_inv h0 p [].
Proof using A.
  intros Hh Hs Hm Hp E. unfold ntg_create_pool in E. destruct (malloc h0 NTG_POOL_ALIGNMENT size) as [a|] eqn:Ea; [|done]. injection E as <-.
  destruct (malloc_ok _ _ _ _ Ea) as (P1 & P2 & P3 & P4). destruct (malloc_heap _ _ size a Hh ltac:(lia) Ea) as [Hh' Hna].
  unfold sizeof_ntg_pool_t, NTG_MAX_ALLOC_FROM_POOL in *. rewrite u64_small by (width; lia). split; try done.
  - unfold psize. cbn. replace (a + size - a) with size by lia. split; [|done]. destruct (Z.ltb_spec (size - 80) (pagesize - 1)); lia.
  - apply Forall_singleton. unfold psize. cbn. replace (a + size - a) with size by lia. split; [apply lookup_insert_eq|]. cbn. unfold sizeof_ntg_pool_data_t. lia.
  - cbn. lia.
  - apply NoDup_singleton.
  - intros x [ -> |Hx]%elem_of_cons; [|by apply not_elem_of_nil in Hx]. split; [cbn; rewrite lookup_insert_eq; by eexists|done].
  - intros x Hx. cbn. rewrite lookup_insert_ne; [done|]. intros ->. apply Hx. by left.
  - constructor.
Qed.

(** A cleanup gets a node of its own. *)
Lemma cleanup_add_ok h0 fuel size p live :
  pool_inv h0 p live -> 0 <= size ->
  exists c p', ntg_pool_cleanup_add malloc (S (S fuel)) size p = Some (c, p') /\ exists used, pool_inv h0 p' (used ++ live).
Proof using A.
  intros I Hs. unfold ntg_pool_cleanup_add, sizeof_ntg_pool_cleanup_t.
  destruct (palloc_ok h0 fuel 24 p live I ltac:(lia)) as (c & p1 & E1 & H). rewrite E1. cbn [mbind option_bind].
  destruct H as [_ H]. destruct (c =? 0) eqn:Ec; [exists 0, p1; split; [done|]; destruct H as [H _]; by exists []|].
  destruct H as (_ & _ & nodes & I1 & _).
  assert (Hadd : forall data p2 used, pool_inv h0 p2 (used ++ (c, 24) :: nodes ++ live) -> exists used',
    pool_inv h0 (set_pl_cleanup (Cleanup c 0 data :: pl_cleanup p2) p2) (used' ++ live)).
  { intros data p2 used [J1 J2 J3 J4 J5 J6 J7 J8 J9 J10 J11]. exists (used ++ (c, 24) :: nodes). rewrite <-app_assoc. cbn [app].
    split; try done. constructor; [|exact J11]. apply elem_of_app. right. by left. }
  destruct (Z.eqb_spec size 0).
  - cbn [mbind option_bind negb andb]. eexists _, _. split; [reflexivity|]. by apply (Hadd 0 p1 []).
  - destruct (palloc_ok h0 fuel size p1 _ I1 Hs) as (d & p2 & E2 & H2). rewrite E2. cbn [mbind option_bind negb andb].
    destruct H2 as [_ H2]. destruct (d =? 0).
    + exists 0, p2. split; [done|]. destruct H2 as [H2 _]. by exists ((c, 24) :: nodes).
    + destruct H2 as (_ & _ & nodes2 & I2 & _). eexists _, _. split; [reflexivity|]. by apply (Hadd d p2 ((d, size) :: nodes2)).
Qed.

End alloc.

(** ** Giving back *)

Lemma free_large_spec a ls ls' :
  a <> 0 -> free_large a ls = Some ls' -> Permutation (regions_of ls) (a :: regions_of ls') /\ map lg_addr ls' = map lg_addr ls.
Proof.
  intros Ha. revert ls'. induction ls as [|l ls IH]; intros ls'; cbn [free_large]; [done|]. destruct (Z.eqb_spec a (lg_alloc l)) as [ -> |E].
  - intros [= <-]. unfold regions_of. cbn. by rewrite (proj2 (Z.eqb_neq _ _) Ha).
  - destruct (free_large a ls) as [ls1|]; [|done]. cbn. intros [= <-]. destruct (IH _ eq_refl) as [H1 H2]. cbn [map]. rewrite H2. split; [|done].
    unfold regions_of in *. cbn. destruct (negb (lg_alloc l =? 0)); [|done]. rewrite H1. apply Permutation_swap.
Qed.

Lemma free_large_none a ls : free_large a ls = None -> a ∉ regions_of ls.
Proof.
  induction ls as [|l ls IH]; cbn [free_large]; [intros _ H; by apply not_elem_of_nil in H|]. destruct (Z.eqb_spec a (lg_alloc l)); [done|].
  destruct (free_large a ls); [done|]. intros _. unfold regions_of in *. cbn.
  destruct (negb (lg_alloc l =? 0)); [|by apply IH]. intros [H|H]%elem_of_cons; [done|]. by apply IH.
Qed.

(** The large region [a] is taken out of the pool. *)
Definition without (a : Z) (live : list (Z * Z)) : list (Z * Z) := List.filter (fun r => negb (fst r =? a)) live.

Lemma without_elem a live r : r ∈ without a live <-> r ∈ live /\ fst r <> a.
Proof.
  unfold without. rewrite !list_elem_of_In, filter_In, negb_true_iff, Z.eqb_neq. done.
Qed.

Lemma without_apart a live : ForallOrdPairs apart live -> ForallOrdPairs apart (without a live).
Proof.
  induction 1 as [|r live H _ IH]; cbn; [constructor|]. destruct (negb _); [|done]. constructor; [|done].
  rewrite Forall_forall in *. intros q [Hq _]%without_elem. by apply H.
Qed.

(** Freeing a large region of the pool gives exactly it back, and the node of
    the region can serve again; what is no large region is declined. *)
Theorem pool_free_correct h0 p live a :
  pool_inv h0 p live -> a <> 0 -> a ∉ map cl_addr (pl_cleanup p) ->
  if decide (a ∈ large_regions p)
  then exists p', ntg_pfree a p = (NTG_OK, p') /\ pool_inv h0 p' (without a live) /\ pl_heap p' = delete a (pl_heap p) /\
    length (pl_large p') = length (pl_large p)
  else ntg_pfree a p = (NTG_DECLINED, p).
Proof.
  intros I Ha Hcl. unfold ntg_pfree. destruct (free_large a (pl_large p)) as [ls|] eqn:E.
  2: { by rewrite decide_False by (by apply free_large_none). }
  destruct (free_large_spec a _ _ Ha E) as [Hp Hm]. change (regions_of (pl_large p)) with (large_regions p) in Hp.
  assert (Hin : a ∈ large_regions p) by (rewrite Hp; by left). rewrite decide_True by done. eexists. split; [reflexivity|].
  split; [|split; [done|]; change (length ls = length (pl_large p)); by rewrite <-(length_map lg_addr ls), Hm, length_map].
  set (p' := set_pl_large ls (ntg_free a p)).
  assert (Hown : Permutation (owners p) (a :: owners p')).
  { unfold owners. rewrite Hp. change (large_regions p') with (regions_of ls). symmetry. apply Permutation_middle. }
  assert (Hno : a ∉ owners p') by (pose proof (pv_owners _ _ _ I) as H; rewrite Hown in H; by apply NoDup_cons in H as [H _]).
  assert (Hne : forall x, x ∈ owners p' -> a <> x) by (by intros x Hx ->).
  pose proof (large_not_block _ _ _ _ I Hin) as Hnb. pose proof (pv_owned _ _ _ I a ltac:(by rewrite Hown; left)) as [ [n Hn] _].
  pose proof I as [I1 I2 I3 I4 I5 I6 I7 I8 I9 I10 I11]. split; try done.
  - apply Forall_forall. intros b Hb. destruct (proj1 (Forall_forall _ _) I2 b Hb) as (H1 & H2). split; [|done]. cbn.
    rewrite lookup_delete_ne; [done|]. apply Hne, elem_of_app. left. by apply list_elem_of_fmap_2.
  - cbn. split.
    + intros x m [_ H]%lookup_delete_Some. by apply I4.
    + intros x m y k [_ H]%lookup_delete_Some [_ H']%lookup_delete_Some. by apply I4.
  - rewrite Hown in I5. by apply NoDup_cons in I5 as [_ I5].
  - intros x Hx. cbn. rewrite lookup_delete_ne by (by apply Hne). apply I6. rewrite Hown. by right.
  - intros x Hx. cbn. destruct (decide (x = a)) as [ -> |Hxa].
    + rewrite lookup_delete_eq. symmetry. apply I6. rewrite Hown. by left.
    + rewrite lookup_delete_ne by done. apply I7. rewrite Hown, elem_of_cons. tauto.
  - apply Forall_forall. intros r [Hr Hra]%without_elem. destruct (proj1 (Forall_forall _ _) I8 r Hr) as [H0 [H|[H1 H2]]]; (split; [done|]); [by left|].
    right. split; [|cbn; by rewrite lookup_delete_ne]. rewrite Hp, elem_of_cons in H1. destruct H1; [done|]. done.
  - by apply without_apart.
  - apply Forall_lookup_2. intros i l Hl. assert (Hl' : lg_addr <$> pl_large p !! i = Some (lg_addr l)).
    { rewrite <-list_lookup_fmap. change (fmap lg_addr (pl_large p)) with (map lg_addr (pl_large p)). rewrite <-Hm.
      change (map lg_addr ls) with (lg_addr <$> ls). cbn in Hl. by rewrite list_lookup_fmap, Hl. }
    apply fmap_Some in Hl' as (l' & Hl' & El). destruct (Forall_lookup_1 _ _ _ _ I10 Hl') as [H1 H2]. rewrite <-El in H1, H2.
    split; [|done]. apply without_elem. split; [done|]. cbn. intros Ea.
    pose proof (in_block_apart h0 p live _ a n I H2 ltac:(cbn; lia) Hn Hnb) as Hap. destruct (proj1 I4 a n Hn) as (_ & Hpos & _). rewrite Ea in Hap.
    destruct Hap as [Hap|Hap]; cbn in Hap; lia.
  - apply Forall_forall. intros c Hc. apply without_elem. split; [by apply (proj1 (Forall_forall _ _) I11)|]. cbn. intros Ea. apply Hcl. rewrite <-Ea.
    by apply list_elem_of_fmap_2.
Qed.

Lemma free_all_heap xs p : pl_heap (free_all xs p) = foldr delete (pl_heap p) (rev xs) /\ pl_out (free_all xs p) = pl_out p ++ map Freed xs.
Proof.
  revert p. induction xs as [|x xs IH]; intros p; cbn [free_all fold_left]; [by rewrite app_nil_r|]. destruct (IH (ntg_free x p)) as [H1 H2].
  unfold free_all in *. rewrite H1, H2. cbn. by rewrite foldr_app, <-app_assoc.
Qed.

(** The cleanups that run when the pool is destroyed. *)
Definition cleanups_run (cs : list cleanup) : list pool_action :=
  map (fun c => Cleaned (cl_handler c) (cl_data c)) (List.filter (fun c => negb (cl_handler c =? 0)) cs).

Lemma run_cleanups cs p :
  let q := fold_left (fun p c => if cl_handler c =? 0 then p else pool_emit (Cleaned (cl_handler c) (cl_data c)) p) cs p in
  pl_heap q = pl_heap p /\ pl_blocks q = pl_blocks p /\ pl_large q = pl_large p /\ pl_out q = pl_out p ++ cleanups_run cs.
Proof.
  revert p. induction cs as [|c cs IH]; intros p; cbn [fold_left]; [by rewrite app_nil_r|]. unfold cleanups_run. cbn.
  destruct (cl_handler c =? 0); [apply IH|]. cbn. destruct (IH (pool_emit (Cleaned (cl_handler c) (cl_data c)) p)) as (H1 & H2 & H3 & H4).
  rewrite H1, H2, H3, H4. cbn. by rewrite <-app_assoc.
Qed.

Lemma foldr_delete (xs : list Z) (h : gmap Z Z) k : foldr delete h xs !! k = if decide (k ∈ xs) then None else h !! k.
Proof.
  induction xs as [|x xs IH]; cbn [foldr]; [done|]. destruct (decide (k = x)) as [ -> |Hk].
  - rewrite lookup_delete_eq, decide_True by (by left). done.
  - rewrite lookup_delete_ne, IH by done. destruct (decide (k ∈ xs)); [by rewrite decide_True by (by right)|].
    rewrite decide_False; [done|]. rewrite elem_of_cons. tauto.
Qed.

(** C22: destroying a pool runs its cleanups, the last added first, and then gives
    back every region the pool holds, each once: the heap is that of the others,
    as it was before the pool. *)
Theorem pool_destroy_correct h0 p live :
  pool_inv h0 p live ->
  exists freed, pl_out (ntg_destroy_pool p) = pl_out p ++ cleanups_run (pl_cleanup p) ++ map Freed freed /\
    NoDup freed /\ (forall a, a ∈ freed -> is_Some (pl_heap p !! a)) /\ pl_heap (ntg_destroy_pool p) = h0.
Proof.
  intros I. exists (large_regions p ++ map bk_addr (pl_blocks p)). unfold ntg_destroy_pool.
  set (q := fold_left _ (pl_cleanup p) p). destruct (run_cleanups (pl_cleanup p) p) as (H1 & H2 & H3 & H4). fold q in H1, H2, H3, H4.
  assert (El : large_regions q = large_regions p) by (unfold large_regions; by rewrite H3). rewrite El.
  assert (Eb : pl_blocks (free_all (large_regions p) q) = pl_blocks p).
  { rewrite <-H2. clear. generalize (large_regions p) q. intros xs. induction xs as [|x xs IH]; intros q'; [done|]. cbn [free_all fold_left]. apply (IH (ntg_free x q')). }
  rewrite Eb. destruct (free_all_heap (map bk_addr (pl_blocks p)) (free_all (large_regions p) q)) as [F1 F2].
  destruct (free_all_heap (large_regions p) q) as [G1 G2]. rewrite F1, F2, G1, G2, H1, H4.
  assert (Hp : Permutation (large_regions p ++ map bk_addr (pl_blocks p)) (owners p)) by (unfold owners; apply Permutation_app_comm).
  split; [by rewrite map_app, <-!app_assoc|]. split; [rewrite Hp; apply (pv_owners _ _ _ I)|].
  split; [intros a Ha; rewrite Hp in Ha; by apply (pv_owned _ _ _ I)|].
  apply map_eq. intros k. rewrite <-foldr_app, foldr_delete.
  assert (Hk : k ∈ rev (map bk_addr (pl_blocks p)) ++ rev (large_regions p) <-> k ∈ owners p).
  { unfold owners. rewrite !elem_of_app, !list_elem_of_In, <-!in_rev. done. }
  destruct (decide _) as [H|H]; rewrite Hk in H; [symmetry; by apply (pv_owned _ _ _ I)|by apply (pv_others _ _ _ I)].
Qed.

(** ** Examples *)

(** An allocator that takes the memory behind all it gave. *)
Definition top (h : gmap Z Z) : Z := map_fold (fun b m t => Z.max t (b + m)) 0 h.
Definition bump_malloc (h : gmap Z Z) (alignment n : Z) : option Z :=
  let a := (top h / 16 + 1) * 16 in if a + n <? 9223372036854775808 then Some a else None.

Lemma top_spec h : 0 <= top h /\ forall b m, h !! b = Some m -> b + m <= top h.
Proof.
  unfold top. apply (map_fold_weak_ind (fun t h => 0 <= t /\ forall b m, h !! b = Some m -> b + m <= t)).
  - split; [done|]. intros b m H. by rewrite lookup_empty in H.
  - intros i x g t Hi [H1 H2]. split; [lia|]. intros b m. destruct (decide (b = i)) as [ -> |Hb].
    + rewrite lookup_insert_eq. intros [= <-]. lia.
    + rewrite lookup_insert_ne by done. intros H. pose proof (H2 b m H). lia.
Qed.

#[export] Instance bump_allocator : Allocator bump_malloc.
Proof.
  intros h al n a. unfold bump_malloc. destruct (Z.ltb_spec ((top h / 16 + 1) * 16 + n) 9223372036854775808) as [Hlt|]; [|done]. intros [= <-].
  destruct (top_spec h) as [H0 H]. split; [Z.to_euclidean_division_equations; lia|]. split; [Z.to_euclidean_division_equations; lia|]. split; [done|].
  intros b m Hb. pose proof (H b m Hb). right. cbn. Z.to_euclidean_division_equations. lia.
Qed.

(** A pool next to a region of others; a small and a large piece are in use. *)
Definition others_heap : gmap Z Z := {[64 := 32]}.
Definition new_pool : pool := default (Pool [] 0 0 [] [] ∅ []) (ntg_create_pool bump_malloc 4096 1024 others_heap).
Definition small_pool : pool := default new_pool (snd <$> ntg_palloc bump_malloc 2 100 new_pool).
Definition busy_pool : pool := default new_pool (snd <$> ntg_palloc bump_malloc 2 2000 small_pool).

Lemma others_heap_ok : heap_ok others_heap.
Proof.
  unfold others_heap. split.
  - intros a n [<- <-]%lookup_singleton_Some. split_and!; (lia || reflexivity).
  - intros a n b m [<- <-]%lookup_singleton_Some [<- <-]%lookup_singleton_Some. done.
Qed.

Lemma new_pool_inv : pool_inv others_heap new_pool [].
Proof.
  apply (create_pool_ok bump_malloc 4096 1024); [apply others_heap_ok|lia|done|lia|vm_compute; reflexivity].
Qed.

Lemma pool_alloc_correct_witness :
  exists a p', ntg_palloc bump_malloc 2 100 new_pool = Some (a, p') /\ a = 192 /\ exists nodes, pool_inv others_heap p' ((192, 100) :: nodes ++ []).
Proof.
  destruct (pool_alloc_correct bump_malloc others_heap 0 100 16 new_pool [] new_pool_inv ltac:(lia)) as ((a & p' & E & H) & _).
  assert (Ea : fst <$> ntg_palloc bump_malloc 2 100 new_pool = Some 192) by (vm_compute; reflexivity).
  rewrite E in Ea. injection Ea as ->. exists 192, p'. split; [exact E|]. split; [reflexivity|].
  destruct H as (_ & _ & _ & nodes & I & _). by exists nodes.
Defined.

Lemma busy_pool_inv : exists live, pool_inv others_heap busy_pool ((1152, 2000) :: live).
Proof.
  destruct (palloc_ok bump_malloc others_heap 0 100 new_pool [] new_pool_inv ltac:(lia)) as (a & p1 & E1 & H1).
  assert (Ea : fst <$> ntg_palloc bump_malloc 2 100 new_pool = Some 192) by (vm_compute; reflexivity). rewrite E1 in Ea. injection Ea as ->.
  destruct H1 as (_ & _ & _ & nodes1 & I1 & _). assert (Es : small_pool = p1) by (unfold small_pool; by rewrite E1). rewrite <-Es in I1.
  destruct (palloc_ok bump_malloc others_heap 0 2000 small_pool _ I1 ltac:(lia)) as (b & p2 & E2 & H2).
  assert (Eb : fst <$> ntg_palloc bump_malloc 2 2000 small_pool = Some 1152) by (vm_compute; reflexivity). rewrite E2 in Eb. injection Eb as ->.
  destruct H2 as (_ & _ & _ & nodes2 & I2 & _). assert (Es2 : busy_pool = p2) by (unfold busy_pool; by rewrite E2). rewrite Es2. by eexists.
Qed.

Lemma pool_free_correct_witness :
  exists p', ntg_pfree 1152 busy_pool = (NTG_OK, p') /\ pl_heap p' = delete 1152 (pl_heap busy_pool) /\ pl_heap busy_pool !! 1152 = Some 2000.
Proof.
  destruct busy_pool_inv as [live I].
  pose proof (pool_free_correct others_heap busy_pool _ 1152 I ltac:(lia) ltac:(vm_compute; apply not_elem_of_nil)) as H.
  rewrite decide_True in H by (vm_compute; left). destruct H as (p' & E & _ & Eh & _). exists p'. split; [exact E|]. split; [exact Eh|].
  vm_compute. reflexivity.
Defined.

Lemma pool_destroy_correct_witness :
  exists freed, pl_out (ntg_destroy_pool busy_pool) = map Freed freed /\ NoDup freed /\ pl_heap (ntg_destroy_pool busy_pool) = others_heap.
Proof.
  destruct busy_pool_inv as [live I]. destruct (pool_destroy_correct others_heap busy_pool _ I) as (freed & E & N & _ & H).
  exists freed. split; [exact E|]. split; [exact N|exact H].
Defined.

(** What the code does not handle. *)

(** A pool whose size is no multiple of the alignment: the room behind the aligned
    pointer is negative, an enormous [size_t], and the piece lies behind the end. *)
Lemma unaligned_pool_overruns :
  (p ← ntg_create_pool bump_malloc 4096 101 ∅; '(_, p) ← ntg_pnalloc bump_malloc 2 20 p; '(m, p) ← ntg_palloc bump_malloc 2 8 p;
   Some (m, map bk_end (pl_blocks p))) = Some (120, [117]).
Proof. vm_compute. reflexivity. Qed.

(** The cleanups stay registered when the pool is reset, in memory that is handed
    out again. *)
Lemma reset_keeps_cleanups :
  ('(c, p) ← ntg_pool_cleanup_add bump_malloc 2 0 new_pool; '(m, p) ← ntg_palloc bump_malloc 2 24 (ntg_reset_pool p);
   Some (c, m, map cl_addr (pl_cleanup p))) = Some (192, 192, [192]).
Proof. vm_compute. reflexivity. Qed.

(** After a reset the search still starts at the block that was the current one. *)
Lemma reset_keeps_current p : pl_current (ntg_reset_pool p) = pl_current p.
Proof.
  unfold ntg_reset_pool. cbn. generalize (large_regions p). intros xs. revert p. induction xs as [|x xs IH]; intros p; [done|].
  cbn [free_all fold_left]. apply (IH (ntg_free x p)).
Qed.
