(* ===== verification/Array.v ===== *)
(** * Arrays over pools (src/utils/ntg_array.c, ntg_array.h)

    An array that grows, in place when it lies at the end of the first block of its
    pool, and else in another piece that is twice as large.  The memory is a function
    from addresses to bytes; the pool is that of Pool. *)

From S2P Require Import Prelude Pool.

Definition memory := Z -> Z.

(** [ntg_memcpy]: the bytes are copied as they were. *)
Definition memcpy (dst src n : Z) (mem : memory) : memory :=
  fun x => if (dst <=? x) && (x <? dst + n) then mem (src + (x - dst)) else mem x.

(** [ntg_array_t]: its own address, and its fields but for the pool. *)
Record array := Array { ar_addr : Z; ar_elts : Z; ar_nelts : Z; ar_size : Z; ar_nalloc : Z }.

Definition sizeof_ntg_array_t : Z := 40.

Definition set_ar_elts v a := Array (ar_addr a) v (ar_nelts a) (ar_size a) (ar_nalloc a).
Definition set_ar_nelts v a := Array (ar_addr a) (ar_elts a) v (ar_size a) (ar_nalloc a).
Definition set_ar_nalloc v a := Array (ar_addr a) (ar_elts a) (ar_nelts a) (ar_size a) v.

Section array.
Context (malloc : gmap Z Z -> Z -> Z -> option Z) (fuel : nat).

Definition ntg_array_create (n size : Z) (p : pool) : option (option array * pool) :=
  '(a, p) ← ntg_palloc malloc fuel sizeof_ntg_array_t p;
  if a =? 0 then Some (None, p)
  else
    '(elts, p) ← ntg_palloc malloc fuel (u64 (n * size)) p;
    if elts =? 0 then Some (None, p) else Some (Some (Array a elts 0 size n), p).

(** [a] is where the array lies. *)
Definition ntg_array_init (a n size : Z) (p : pool) : option (Z * array * pool) :=
  '(elts, p) ← ntg_palloc malloc fuel (u64 (n * size)) p;
  Some (if elts =? 0 then NTG_ERROR else NTG_OK, Array a elts 0 size n, p).

Definition ntg_array_destroy (a : array) (p : pool) : option pool :=
  b ← pl_blocks p !! 0%nat;
  let size := u64 (ar_size a * ar_nalloc a) in
  let p := if u64 (ar_elts a + size) =? bk_last b then used_to 0 (u64 (bk_last b - size)) b p else p in
  b ← pl_blocks p !! 0%nat;
  Some (if u64 (ar_addr a + sizeof_ntg_array_t) =? bk_last b then used_to 0 (ar_addr a) b p else p).

(** The address of the new element, 0 for none, the memory, the array and the pool. *)
Definition ntg_array_push (mem : memory) (a : array) (p : pool) : option (Z * memory * array * pool) :=
  let push mem a p := Some (u64 (ar_elts a + u64 (ar_size a * ar_nelts a)), mem, set_ar_nelts (u64 (ar_nelts a + 1)) a, p) in
  if ar_nelts a =? ar_nalloc a then
    let size := u64 (ar_size a * ar_nalloc a) in
    b ← pl_blocks p !! 0%nat;
    if (u64 (ar_elts a + size) =? bk_last b) && (u64 (bk_last b + ar_size a) <=? bk_end b) then
      push mem (set_ar_nalloc (u64 (ar_nalloc a + 1)) a) (used_to 0 (u64 (bk_last b + ar_size a)) b p)
    else
      '(new, p) ← ntg_palloc malloc fuel (u64 (2 * size)) p;
      if new =? 0 then Some (0, mem, a, p)
      else push (memcpy new (ar_elts a) size mem) (set_ar_nalloc (u64 (ar_nalloc a * 2)) (set_ar_elts new a)) p
  else push mem a p.

Definition ntg_array_push_n (mem : memory) (n : Z) (a : array) (p : pool) : option (Z * memory * array * pool) :=
  let size := u64 (n * ar_size a) in
  let push mem a p := Some (u64 (ar_elts a + u64 (ar_size a * ar_nelts a)), mem, set_ar_nelts (u64 (ar_nelts a + n)) a, p) in
  if u64 (ar_nelts a + n) >? ar_nalloc a then
    b ← pl_blocks p !! 0%nat;
    if (u64 (ar_elts a + u64 (ar_size a * ar_nalloc a)) =? bk_last b) && (u64 (bk_last b + size) <=? bk_end b) then
      push mem (set_ar_nalloc (u64 (ar_nalloc a + n)) a) (used_to 0 (u64 (bk_last b + size)) b p)
    else
      let nalloc := u64 (2 * (if n >=? ar_nalloc a then n else ar_nalloc a)) in
      '(new, p) ← ntg_palloc malloc fuel (u64 (nalloc * ar_size a)) p;
      if new =? 0 then Some (0, mem, a, p)
      else push (memcpy new (ar_elts a) (u64 (ar_nelts a * ar_size a)) mem) (set_ar_nalloc nalloc (set_ar_elts new a)) p
  else push mem a p.

End array.

(** ** Pieces at the end of the first block *)

(** The nodes of the pool are among the pieces. *)
Definition own_nodes (p : pool) (live : list (Z * Z)) : Prop :=
  Forall (fun a => (a, 16) ∈ live) (map lg_addr (pl_large p)) /\ Forall (fun c => (cl_addr c, 24) ∈ live) (pl_cleanup p).

Definition sized (r : Z * Z) : Prop := 0 < snd r.

(** A piece lies in the address space. *)
Lemma piece_range h0 p live r : pool_inv h0 p live -> r ∈ live -> 0 < fst r /\ 0 <= snd r /\ fst r + snd r < 9223372036854775808.
Proof.
  intros I Hr. destruct (proj1 (Forall_forall _ _) (pv_live _ _ _ I) r Hr) as [H0 [(b & Hb & H1 & H2)|[H1 H2] ] ].
  - destruct (proj1 (Forall_forall _ _) (pv_blocks _ _ _ I) b Hb) as (Hh & He & Hl). destruct (proj1 (pv_heap _ _ _ I) _ _ Hh) as (P1 & P2 & P3 & P4).
    unfold sizeof_ntg_pool_data_t in *. lia.
  - destruct (proj1 (pv_heap _ _ _ I) _ _ H2) as (P1 & P2 & P3 & P4). lia.
Qed.

(** A piece that ends where the used part of a block ends lies in that block. *)
Lemma last_piece h0 p live i b a n :
  pool_inv h0 p live -> (a, n) ∈ live -> pl_blocks p !! i = Some b -> a + n = bk_last b -> bk_addr b + sizeof_ntg_pool_data_t <= a.
Proof.
  intros I Hr Hb E. pose proof (Forall_lookup_1 _ _ _ _ (pv_blocks _ _ _ I) Hb) as (Hh & He & Hl).
  destruct (proj1 (Forall_forall _ _) (pv_live _ _ _ I) _ Hr) as [H0 [(c & Hc & H1 & H2)|[H1 H2] ] ]; cbn in *; unfold sizeof_ntg_pool_data_t in *.
  - apply list_elem_of_lookup in Hc as [j Hc]. destruct (decide (i = j)) as [<-|Hne]; [rewrite Hb in Hc; by injection Hc as <-|].
    pose proof (Forall_lookup_1 _ _ _ _ (pv_blocks _ _ _ I) Hc) as (_ & He' & Hl').
    destruct (blocks_apart h0 p live i j b c I Hb Hc Hne) as [H|H]; cbn in H; lia.
  - pose proof (large_not_block _ _ _ _ I H1) as Hnb. destruct (proj1 (pv_heap _ _ _ I) _ _ H2) as (_ & Hn & _).
    destruct (proj2 (pv_heap _ _ _ I) _ _ _ _ Hh H2) as [H|H]; cbn in *; [|lia|lia].
    intros Ea. apply Hnb. rewrite <-Ea. apply list_elem_of_fmap_2. by eapply list_elem_of_lookup_2.
Qed.

(** The pieces of the pool without one that is no node of its own. *)
Lemma drop_inv h0 p r live : pool_inv h0 p (r :: live) -> own_nodes p live -> pool_inv h0 p live.
Proof.
  intros [I1 I2 I3 I4 I5 I6 I7 I8 I9 I10 I11] [N1 N2]. split; try done.
  - by apply Forall_inv_tail in I8.
  - by inversion I9.
  - apply Forall_forall. intros l Hl. split; [|apply (proj1 (Forall_forall _ _) I10 l Hl)].
    apply (proj1 (Forall_forall _ _) N1). by apply list_elem_of_fmap_2.
Qed.

Section end_of_block.
Context (h0 : gmap Z Z) (p : pool) (live : list (Z * Z)) (b : block) (a n : Z).
Context (I : pool_inv h0 p ((a, n) :: live)) (N : own_nodes p live) (P : Forall sized live).
Context (Hb : pl_blocks p !! 0%nat = Some b) (E : a + n = bk_last b).

(** It grows. *)
Lemma grow_inv k : 0 < n -> 0 <= k -> bk_last b + k <= bk_end b -> pool_inv h0 (used_to 0 (bk_last b + k) b p) ((a, n + k) :: live).
Proof using I N P Hb E.
  intros Hn Hk He. destruct (used_inv h0 p _ 0 b (bk_last b) k I Hb ltac:(lia) Hk He) as [J _].
  pose proof (last_piece h0 p _ 0 b a n I ltac:(by left) Hb E) as Ha. unfold sizeof_ntg_pool_data_t in Ha.
  set (q := used_to 0 (bk_last b + k) b p) in *. destruct J as [J1 J2 J3 J4 J5 J6 J7 J8 J9 J10 J11].
  apply Forall_cons in J8 as [J8a J8b]. apply Forall_cons in J8b as [J8b J8c]. split; try done.
  - constructor; [|done]. split; [cbn; lia|]. left. eexists. split; [eapply list_elem_of_lookup_2, list_lookup_insert_eq; by eapply lookup_lt_Some|].
    cbn. unfold sizeof_ntg_pool_data_t. lia.
  - apply apart_cons; [|by inversion J9 as [|? ? ? J9']; inversion J9']. intros r Hr. inversion J9 as [|? ? A1 A2]; subst. inversion A2 as [|? ? A3 _]; subst.
    apply Forall_cons in A1 as [_ A1]. pose proof (proj1 (Forall_forall _ _) A1 r Hr) as B1. pose proof (proj1 (Forall_forall _ _) A3 r Hr) as B2.
    pose proof (proj1 (Forall_forall _ _) P r Hr) as B3. unfold apart, sized in *. cbn in *. lia.
  - apply Forall_forall. intros l Hl. split; [right; apply (proj1 (Forall_forall _ _) (proj1 N)); by apply list_elem_of_fmap_2|].
    apply (proj1 (Forall_forall _ _) J10 l Hl).
  - eapply Forall_impl; [exact (proj2 N)|]. intros c Hc. by right.
Qed.

(** It is given back. *)
Lemma shrink_inv : 0 < n -> pool_inv h0 (used_to 0 a b p) live.
Proof using I N P Hb E.
  intros Hn. pose proof (last_piece h0 p _ 0 b a n I ltac:(by left) Hb E) as Ha. unfold sizeof_ntg_pool_data_t in Ha.
  pose proof (used_psize p 0 b a Hb) as Eps. pose proof (used_addrs p 0 b a Hb) as Ead.
  pose proof (Forall_lookup_1 _ _ _ _ (pv_blocks _ _ _ I) Hb) as (Hh & He & Hl). pose proof I as [I1 I2 I3 I4 I5 I6 I7 I8 I9 I10 I11].
  assert (Hin : forall r, r ∈ live -> in_block p r -> in_block (used_to 0 a b p) r).
  { intros r Hr (c & Hc & H1 & H2). apply list_elem_of_lookup in Hc as [j Hc]. destruct (decide (0%nat = j)) as [<-|Hne].
    - rewrite Hb in Hc. injection Hc as <-. eexists. split; [eapply list_elem_of_lookup_2, list_lookup_insert_eq; by eapply lookup_lt_Some|].
      inversion I9 as [|? ? A1 _]; subst. pose proof (proj1 (Forall_forall _ _) A1 r Hr) as B1. pose proof (proj1 (Forall_forall _ _) P r Hr) as B3.
      unfold apart, sized in *. cbn in *. lia.
    - exists c. split; [|done]. eapply list_elem_of_lookup_2. cbn. by rewrite list_lookup_insert_ne. }
  split; try done.
  - by rewrite Eps.
  - rewrite Eps. cbn. apply Forall_insert; [done|]. split; [done|]. split; [done|]. cbn. unfold sizeof_ntg_pool_data_t. lia.
  - cbn. by rewrite length_insert.
  - unfold owners. by rewrite Ead.
  - intros x. unfold owners. rewrite Ead. apply I6.
  - intros x. unfold owners. rewrite Ead. apply I7.
  - apply Forall_cons in I8 as [_ I8]. apply Forall_forall. intros r Hr. destruct (proj1 (Forall_forall _ _) I8 r Hr) as [H0 [H|H] ]; (split; [done|]); [left; by apply Hin|by right].
  - by inversion I9.
  - apply Forall_forall. intros l Hlg. assert (Hm : (lg_addr l, 16) ∈ live) by (apply (proj1 (Forall_forall _ _) (proj1 N)); by apply list_elem_of_fmap_2).
    split; [exact Hm|]. apply Hin; [exact Hm|]. apply (proj1 (Forall_forall _ _) I10 l Hlg).
  - exact (proj2 N).
Qed.
End end_of_block.

(** ** The invariant *)

(** The array [a] in the pool [p] beside the pieces [rest], the nodes of the pool
    among them. *)
Record array_inv (h0 : gmap Z Z) (p : pool) (a : array) (rest : list (Z * Z)) : Prop := {
  ai_pool : pool_inv h0 p ((ar_elts a, ar_size a * ar_nalloc a) :: rest);
  ai_nodes : own_nodes p rest;
  ai_sized : Forall sized rest;
  ai_size : 0 < ar_size a;
  ai_room : 0 < ar_nalloc a;
  ai_nelts : 0 <= ar_nelts a <= ar_nalloc a }.

Definition bytes_at (mem : memory) (a n : Z) : list Z := map (fun i => mem (a + i)) (seqZ 0 n).

(** The elements of the array. *)
Definition contents (mem : memory) (a : array) : list (list Z) :=
  map (fun i => bytes_at mem (ar_elts a + ar_size a * i) (ar_size a)) (seqZ 0 (ar_nelts a)).

(** Bytes are written. *)
Definition store (at_ : Z) (v : list Z) (mem : memory) : memory :=
  fun x => if (at_ <=? x) && (x <? at_ + Z.of_nat (length v)) then default 0 (v !! Z.to_nat (x - at_)) else mem x.

Lemma bytes_at_ext mem mem' a a' n : (forall i, 0 <= i < n -> mem (a + i) = mem' (a' + i)) -> bytes_at mem a n = bytes_at mem' a' n.
Proof. intros H. apply map_ext_in. intros i Hi. apply list_elem_of_In, elem_of_seqZ in Hi. apply H. lia. Qed.

Lemma store_same at_ v mem : bytes_at (store at_ v mem) at_ (Z.of_nat (length v)) = v.
Proof.
  apply list_eq. intros i. unfold bytes_at. change (map ?f ?l) with (f <$> l). rewrite list_lookup_fmap. destruct (decide (i < length v)%nat) as [Hi|Hi].
  - rewrite lookup_seqZ_lt by lia. cbn. unfold store. rewrite (proj2 (Z.leb_le _ _)) by lia. rewrite (proj2 (Z.ltb_lt _ _)) by lia. cbn.
    replace (Z.to_nat (at_ + (0 + Z.of_nat i) - at_)) with i by lia. destruct (lookup_lt_is_Some_2 v i Hi) as [x ->]. done.
  - rewrite lookup_seqZ_ge by lia. symmetry. apply lookup_ge_None_2. lia.
Qed.

Lemma store_other at_ v mem x : x < at_ \/ at_ + Z.of_nat (length v) <= x -> store at_ v mem x = mem x.
Proof. intros H. unfold store. destruct (Z.leb_spec at_ x), (Z.ltb_spec x (at_ + Z.of_nat (length v))); (done || lia). Qed.

Lemma length_contents mem a : 0 <= ar_nelts a -> length (contents mem a) = Z.to_nat (ar_nelts a).
Proof. intros H. unfold contents. by rewrite length_map, length_seqZ. Qed.

(** The elements of a part of an array. *)
Lemma contents_ext mem mem' a a' :
  ar_nelts a' = ar_nelts a -> ar_size a' = ar_size a -> 0 <= ar_size a ->
  (forall x, 0 <= x < ar_size a * ar_nelts a -> mem (ar_elts a + x) = mem' (ar_elts a' + x)) -> contents mem a = contents mem' a'.
Proof.
  intros En Es H0 H. unfold contents. rewrite En, Es. apply map_ext_in. intros i Hi. apply list_elem_of_In, elem_of_seqZ in Hi.
  apply bytes_at_ext. intros k Hk. rewrite <-!Z.add_assoc. apply H. nia.
Qed.

(** New elements behind the old ones. *)
Lemma contents_snoc mem a vs :
  0 <= ar_nelts a -> 0 <= ar_size a -> Forall (fun v => Z.of_nat (length v) = ar_size a) vs ->
  contents (store (ar_elts a + ar_size a * ar_nelts a) (concat vs) mem) (set_ar_nelts (ar_nelts a + Z.of_nat (length vs)) a) = contents mem a ++ vs.
Proof.
  intros Hn Hs Hvs. set (at_ := ar_elts a + ar_size a * ar_nelts a). unfold contents. cbn [ar_nelts ar_size ar_elts set_ar_nelts].
  rewrite seqZ_app by lia. rewrite map_app. f_equal.
  - apply map_ext_in. intros i Hi. apply list_elem_of_In, elem_of_seqZ in Hi. apply bytes_at_ext. intros k Hk. apply store_other. left. subst at_. nia.
  - apply list_eq. intros i. change (map ?f ?l) with (f <$> l). rewrite list_lookup_fmap. destruct (decide (i < length vs)%nat) as [Hi|Hi].
    2: { rewrite lookup_seqZ_ge by lia. symmetry. apply lookup_ge_None_2. lia. }
    rewrite lookup_seqZ_lt by lia. cbn. destruct (lookup_lt_is_Some_2 vs i Hi) as [v Hv]. rewrite Hv. f_equal.
    pose proof (take_drop_middle vs i v Hv) as Ev. rewrite <-Ev in Hvs. apply Forall_app in Hvs as [Hv1 Hv2]. apply Forall_cons in Hv2 as [Hv2 _].
    assert (Hl : Z.of_nat (length (concat (take i vs))) = ar_size a * Z.of_nat i).
    { assert (Hti : length (take i vs) = i) by (rewrite length_take; lia). rewrite <-Hti at 2. clear -Hv1.
      induction Hv1 as [|w l Hw _ IH]; cbn; [lia|]. rewrite length_app. lia. }
    apply list_eq. intros k. unfold bytes_at. change (map ?f ?l) with (f <$> l). rewrite list_lookup_fmap. destruct (decide (k < length v)%nat) as [Hk|Hk].
    2: { rewrite lookup_seqZ_ge by lia. symmetry. apply lookup_ge_None_2. lia. }
    rewrite lookup_seqZ_lt by lia. cbn. destruct (lookup_lt_is_Some_2 v k Hk) as [c Hc]. rewrite Hc. f_equal.
    assert (Hcc : concat vs !! (length (concat (take i vs)) + k)%nat = Some c).
    { pose proof (f_equal (@concat Z) Ev) as Ec. rewrite concat_app in Ec. cbn in Ec. rewrite <-Ec, lookup_app_r by lia. rewrite lookup_app_l by lia. by replace (_ + k - _)%nat with k by lia. }
    pose proof (lookup_lt_Some _ _ _ Hcc) as Hlt. unfold store. subst at_. rewrite (proj2 (Z.leb_le _ _)) by nia. rewrite (proj2 (Z.ltb_lt _ _)) by nia. cbn.
    match goal with |- default 0 (_ !! ?j) = _ => replace j with (length (concat (take i vs)) + k)%nat by nia end. by rewrite Hcc.
Qed.

Lemma array_range h0 p a rest : array_inv h0 p a rest ->
  0 < ar_elts a /\ 0 < ar_size a * ar_nalloc a /\ ar_elts a + ar_size a * ar_nalloc a < 9223372036854775808 /\ ar_nalloc a <= ar_size a * ar_nalloc a.
Proof.
  intros [I _ _ Hs Hn _]. pose proof (piece_range h0 p _ _ I ltac:(by left)) as H. cbn in H. nia.
Qed.

Lemma array_frame h0 p a rest r x : array_inv h0 p a rest -> r ∈ rest -> fst r <= x < fst r + snd r ->
  x < ar_elts a \/ ar_elts a + ar_size a * ar_nalloc a <= x.
Proof.
  intros [I _ _ _ _ _] Hr Hx. pose proof (pv_apart _ _ _ I) as H. inversion H as [|? ? H1 _]; subst.
  pose proof (proj1 (Forall_forall _ _) H1 r Hr) as [Ha|Ha]; cbn in Ha; lia.
Qed.

Lemma set_nelts_inv h0 p a rest n : array_inv h0 p a rest -> 0 <= n <= ar_nalloc a -> array_inv h0 p (set_ar_nelts n a) rest.
Proof. intros [I1 I2 I3 I4 I5 I6] Hn. by split. Qed.

Lemma length_concat_sized (k : Z) (vs : list (list Z)) : Forall (fun v => Z.of_nat (length v) = k) vs -> Z.of_nat (length (concat vs)) = k * Z.of_nat (length vs).
Proof. induction 1 as [|v vs Hv _ IH]; cbn; [lia|]. rewrite length_app. lia. Qed.

(** The elements behind the last one, when there is room. *)
Lemma push_end h0 p a rest mem vs :
  array_inv h0 p a rest -> ar_nelts a + Z.of_nat (length vs) <= ar_nalloc a -> Forall (fun v => Z.of_nat (length v) = ar_size a) vs ->
  let elt := u64 (ar_elts a + u64 (ar_size a * ar_nelts a)) in
  let a' := set_ar_nelts (u64 (ar_nelts a + Z.of_nat (length vs))) a in
  elt <> 0 /\ array_inv h0 p a' rest /\ contents (store elt (concat vs) mem) a' = contents mem a ++ vs /\
  (forall r x, r ∈ rest -> fst r <= x < fst r + snd r -> store elt (concat vs) mem x = mem x).
Proof.
  intros I Hn Hvs. pose proof (array_range h0 p a rest I) as (R1 & R2 & R3 & R4). pose proof (ai_nelts _ _ _ _ I) as Hne. pose proof (ai_size _ _ _ _ I) as Hs.
  assert (Hm : 0 <= ar_size a * ar_nelts a <= ar_size a * ar_nalloc a) by nia. cbv zeta.
  rewrite (u64_small (ar_size a * ar_nelts a)) by (width; lia). rewrite (u64_small (ar_elts a + _)) by (width; lia). rewrite (u64_small (ar_nelts a + _)) by (width; lia).
  split; [lia|]. split; [apply set_nelts_inv; [done|lia]|]. split; [by apply contents_snoc; [lia|lia|]|].
  intros r x Hr Hx. apply store_other. rewrite (length_concat_sized _ _ Hvs). pose proof (array_frame h0 p a rest r x I Hr Hx). nia.
Qed.

Lemma own_nodes_app p live more : own_nodes p live -> own_nodes p (more ++ live).
Proof. intros [H1 H2]. split; eapply Forall_impl; [exact H1| |exact H2|]; intros x Hx; apply elem_of_app; by right. Qed.

Lemma memcpy_copied dst src n mem x : 0 <= x < n -> memcpy dst src n mem (dst + x) = mem (src + x).
Proof. intros Hx. unfold memcpy. rewrite (proj2 (Z.leb_le _ _)), (proj2 (Z.ltb_lt _ _)) by lia. cbn. f_equal. lia. Qed.

Lemma memcpy_other dst src n mem x : x < dst \/ dst + n <= x -> memcpy dst src n mem x = mem x.
Proof. intros Hx. unfold memcpy. destruct (Z.leb_spec dst x), (Z.ltb_spec x (dst + n)); (done || lia). Qed.

Section push.
Context (malloc : gmap Z Z -> Z -> Z -> option Z) {A : Allocator malloc} (h0 : gmap Z Z) (fuel : nat).

(** Another piece for the elements: the first one remains the pool's. *)
Lemma move_array p a rest mem nalloc new p1 :
  array_inv h0 p a rest -> ar_nalloc a <= nalloc -> new <> 0 ->
  allocated h0 true (nalloc * ar_size a) p ((ar_elts a, ar_size a * ar_nalloc a) :: rest) new p1 ->
  let a1 := set_ar_nalloc nalloc (set_ar_elts new a) in
  let mem1 := memcpy new (ar_elts a) (ar_nelts a * ar_size a) mem in
  exists more, array_inv h0 p1 a1 (more ++ rest) /\ contents mem1 a1 = contents mem a /\
    (forall r x, r ∈ rest -> fst r <= x < fst r + snd r -> mem1 x = mem x).
Proof using A.
  intros I Hn Hnew (Hcl & Hal) a1 mem1. rewrite (proj2 (Z.eqb_neq _ _) Hnew) in Hal. destruct Hal as (Hpos & _ & nodes & J & Hn16 & Hlg).
  pose proof (array_range h0 p a rest I) as (R1 & R2 & R3 & R4). pose proof I as [_ [N1 N2] Hsz Hs Hroom Hne].
  set (old := (ar_elts a, ar_size a * ar_nalloc a)) in *. exists (nodes ++ [old]).
  assert (I1 : array_inv h0 p1 a1 ((nodes ++ [old]) ++ rest)).
  { split; [|split| | | |]; try (cbn; lia).
    - rewrite <-app_assoc. cbn [app]. unfold a1. cbn. by rewrite (Z.mul_comm (ar_size a)).
    - rewrite Hlg. apply Forall_app. split.
      + apply Forall_forall. intros x Hx. apply list_elem_of_fmap in Hx as ([y k] & -> & Hy). cbn.
        pose proof (proj1 (Forall_forall _ _) Hn16 _ Hy) as Hk. cbn in Hk. subst k. rewrite !elem_of_app. left. by left.
      + eapply Forall_impl; [exact N1|]. intros x Hx. apply elem_of_app. by right.
    - rewrite Hcl. eapply Forall_impl; [exact N2|]. intros x Hx. apply elem_of_app. by right.
    - repeat apply Forall_app_2; [|by repeat constructor|done]. eapply Forall_impl; [exact Hn16|]. unfold sized. lia. }
  assert (Hin : 0 <= ar_nelts a * ar_size a <= ar_size a * nalloc) by nia.
  split; [exact I1|]. split.
  - symmetry. apply contents_ext; [done|done|lia|]. intros x Hx. unfold mem1, a1. cbn [ar_elts set_ar_elts set_ar_nalloc]. rewrite memcpy_copied by lia. done.
  - intros r x Hr Hx. pose proof (array_frame _ _ _ _ r x I1 ltac:(apply elem_of_app; by right) Hx) as Hf. cbn in Hf. apply memcpy_other. lia.
Qed.

(** What adding the elements [vs] promises. *)
Definition grown (mem : memory) (a : array) (rest : list (Z * Z)) (vs : list (list Z)) (res : Z * memory * array * pool) : Prop :=
  let '(elt, mem', a', p') := res in
  if elt =? 0 then mem' = mem /\ a' = a /\ array_inv h0 p' a rest
  else exists more, array_inv h0 p' a' (more ++ rest) /\ contents (store elt (concat vs) mem') a' = contents mem a ++ vs /\
    forall r x, r ∈ rest -> fst r <= x < fst r + snd r -> store elt (concat vs) mem' x = mem x.

Lemma push_grown mem a rest vs more mem1 a1 p1 m :
  Forall (fun v => Z.of_nat (length v) = ar_size a) vs ->
  array_inv h0 p1 a1 (more ++ rest) -> ar_size a1 = ar_size a -> ar_nelts a1 + Z.of_nat (length vs) <= ar_nalloc a1 ->
  contents mem1 a1 = contents mem a -> (forall r x, r ∈ rest -> fst r <= x < fst r + snd r -> mem1 x = mem x) ->
  m = u64 (ar_nelts a1 + Z.of_nat (length vs)) ->
  grown mem a rest vs (u64 (ar_elts a1 + u64 (ar_size a1 * ar_nelts a1)), mem1, set_ar_nelts m a1, p1).
Proof using.
  intros Hvs I1 Es Hroom Ec Hf ->. destruct (push_end h0 p1 a1 _ mem1 vs I1 Hroom ltac:(by rewrite Es)) as (H0 & H1 & H2 & H3).
  unfold grown. rewrite (proj2 (Z.eqb_neq _ _) H0). exists more. split; [exact H1|]. split; [by rewrite H2, Ec|].
  intros r x Hr Hx. rewrite (H3 r x) by (done || (apply elem_of_app; by right)). by apply (Hf r).
Qed.

Lemma push_n_ok p a rest mem vs :
  array_inv h0 p a rest -> Forall (fun v => Z.of_nat (length v) = ar_size a) vs -> Z.of_nat (length vs) * ar_size a < 4611686018427387904 ->
  exists res, ntg_array_push_n malloc (S (S fuel)) mem (Z.of_nat (length vs)) a p = Some res /\ grown mem a rest vs res.
Proof using A.
  intros I Hvs Hlen. set (n := Z.of_nat (length vs)) in *. pose proof (array_range h0 p a rest I) as (R1 & R2 & R3 & R4). pose proof I as [Ip IN Isz Is Ir Ine].
  assert (Hn : 0 <= n <= n * ar_size a) by nia. assert (Em : u64 (ar_nelts a * ar_size a) = ar_nelts a * ar_size a) by (apply u64_small; width; nia). assert (Eu : u64 (ar_nelts a + n) = ar_nelts a + n) by (apply u64_small; width; lia).
  unfold ntg_array_push_n. rewrite (u64_small (n * ar_size a)) by (width; lia). rewrite Eu.
  destruct (Z.gtb_spec (ar_nelts a + n) (ar_nalloc a)) as [Hfull|Hfree].
  2: { eexists. split; [reflexivity|]. by apply (push_grown mem a rest vs [] mem a p). }
  destruct (pl_blocks p !! 0%nat) as [b|] eqn:Hb; cbn [mbind option_bind].
  2: { apply lookup_ge_None_1 in Hb. pose proof (pv_current _ _ _ Ip). lia. }
  rewrite (u64_small (ar_size a * ar_nalloc a)) by (width; lia). rewrite (u64_small (ar_elts a + ar_size a * ar_nalloc a)) by (width; lia).
  pose proof (Forall_lookup_1 _ _ _ _ (pv_blocks _ _ _ Ip) Hb) as (Hh & He & Hl). destruct (proj1 (pv_heap _ _ _ Ip) _ _ Hh) as (P1 & P2 & P3 & P4).
  unfold sizeof_ntg_pool_data_t in Hl. rewrite (u64_small (bk_last b + _)) by (width; lia).
  destruct (Z.eqb_spec (ar_elts a + ar_size a * ar_nalloc a) (bk_last b)) as [El|_], (Z.leb_spec (bk_last b + n * ar_size a) (bk_end b)) as [Hle|_]; cbn [andb].
  1: { rewrite (u64_small (ar_nalloc a + n)) by (width; lia). eexists. split; [reflexivity|]. apply (push_grown mem a rest vs []); try done; cbn; [|lia].
    pose proof (grow_inv h0 p rest b _ _ Ip IN Isz Hb El (n * ar_size a) ltac:(lia) ltac:(lia) Hle) as G.
    split; try done; cbn; [|lia|lia]. by replace (ar_size a * (ar_nalloc a + n)) with (ar_size a * ar_nalloc a + n * ar_size a) by lia. }
  all: set (nalloc := 2 * (if n >=? ar_nalloc a then n else ar_nalloc a)).
  all: assert (Hna : ar_nalloc a <= nalloc /\ ar_nelts a + n <= nalloc /\ nalloc <= nalloc * ar_size a < 18446744073709551616)
    by (subst nalloc; destruct (Z.geb_spec n (ar_nalloc a)); nia).
  all: rewrite (u64_small nalloc) by (width; lia); rewrite (u64_small (nalloc * _)) by (width; lia).
  all: destruct (palloc_ok malloc h0 fuel (nalloc * ar_size a) p _ Ip ltac:(lia)) as (new & p1 & -> & Hal); cbn [mbind option_bind].
  all: destruct (Z.eqb_spec new 0) as [->|Hnew].
  all: try (eexists; split; [reflexivity|]; destruct Hal as (Hcl & J & Hm); cbn; split; [done|]; split; [done|];
    split; try done; split; [by rewrite Hm; apply IN|by rewrite Hcl; apply IN]).
  all: rewrite Em.
  all: destruct (move_array p a rest mem nalloc new p1 I ltac:(lia) Hnew Hal) as (more & H1 & H2 & H3).
  all: eexists; split; [reflexivity|]; apply (push_grown mem a rest vs more); try done; cbn; lia.
Qed.
End push.

(** One element is as many elements as one. *)
Lemma push_is_push_n malloc fuel h0 p a rest mem : array_inv h0 p a rest -> ntg_array_push malloc fuel mem a p = ntg_array_push_n malloc fuel mem 1 a p.
Proof.
  intros I. pose proof (array_range h0 p a rest I) as (R1 & R2 & R3 & R4). pose proof I as [_ _ _ Is Ir Ine]. unfold ntg_array_push, ntg_array_push_n.
  rewrite (u64_small (1 * ar_size a)) by (width; lia). rewrite Z.mul_1_l.
  destruct (Z.eqb_spec (ar_nelts a) (ar_nalloc a)) as [E|E]; destruct (Z.gtb_spec (u64 (ar_nelts a + 1)) (ar_nalloc a)) as [G|G];
    rewrite (u64_small (ar_nelts a + 1)) in G by (width; lia); try lia; [|reflexivity].
  destruct (pl_blocks p !! 0%nat) as [b|]; cbn [mbind option_bind]; [|reflexivity].
  rewrite (u64_small (ar_size a * ar_nalloc a)) by (width; lia).
  destruct (_ && _); [reflexivity|]. assert (Hc : (if 1 >=? ar_nalloc a then 1 else ar_nalloc a) = ar_nalloc a) by (destruct (Z.geb_spec 1 (ar_nalloc a)); lia).
  rewrite Hc. rewrite (u64_small (2 * ar_nalloc a)) by (width; lia). rewrite (Z.mul_comm (ar_nalloc a) 2), (u64_small (2 * ar_nalloc a)) by (width; lia).
  rewrite E, (Z.mul_comm (ar_nalloc a) (ar_size a)), (u64_small (ar_size a * ar_nalloc a)) by (width; lia). by replace (2 * ar_nalloc a * ar_size a) with (2 * (ar_size a * ar_nalloc a)) by lia.
Qed.

(** C27: The array is a list that grows: elements are added behind the ones that are
    there, which keep their values also when the array moves, in memory that is the
    array's alone; nobody else's memory changes, nothing wraps around, and without
    memory the array is as before.  A single element is added in the same way. *)
Theorem array_push_correct malloc (A : Allocator malloc) h0 fuel p a rest mem vs :
  array_inv h0 p a rest -> Forall (fun v => Z.of_nat (length v) = ar_size a) vs -> Z.of_nat (length vs) * ar_size a < 4611686018427387904 ->
  exists res, ntg_array_push_n malloc (S (S fuel)) mem (Z.of_nat (length vs)) a p = Some res /\ grown h0 mem a rest vs res /\
    (length vs = 1%nat -> ntg_array_push malloc (S (S fuel)) mem a p = Some res).
Proof.
  intros I Hvs Hl. destruct (push_n_ok malloc h0 fuel p a rest mem vs I Hvs Hl) as (res & E & H). exists res. split; [exact E|]. split; [exact H|].
  intros H1. rewrite (push_is_push_n _ _ _ _ _ _ _ I). by rewrite H1 in E.
Qed.

(** ** Creation and destruction *)

Lemma ord_pairs_perm (l k : list (Z * Z)) : Permutation l k -> ForallOrdPairs apart l -> ForallOrdPairs apart k.
Proof.
  induction 1 as [|x l k P IH|x y l|l k j _ IH1 _ IH2]; intros H; [done|..].
  - inversion H as [|? ? H1 H2]; subst. constructor; [by rewrite <-P|by apply IH].
  - inversion H as [|? ? H1 H2]; subst. inversion H2 as [|? ? H3 H4]; subst. apply Forall_cons in H1 as [H1 H1'].
    constructor; [constructor; [by apply apart_sym|done]|by constructor].
  - by apply IH2, IH1.
Qed.

Lemma pool_inv_perm h0 p l k : Permutation l k -> pool_inv h0 p l -> pool_inv h0 p k.
Proof.
  intros P [I1 I2 I3 I4 I5 I6 I7 I8 I9 I10 I11]. split; try done; try (by rewrite <-P).
  - by apply (ord_pairs_perm l).
  - eapply Forall_impl; [exact I10|]. intros x [H1 H2]. split; [by rewrite <-P|done].
  - eapply Forall_impl; [exact I11|]. intros x H. by rewrite <-P.
Qed.

Lemma own_nodes_perm p l k : Permutation l k -> own_nodes p l -> own_nodes p k.
Proof. intros P [N1 N2]. split; eapply Forall_impl; [exact N1| |exact N2|]; intros x H; by rewrite <-P. Qed.

(** A piece of another size is no node. *)
Lemma own_nodes_drop p a n live : n <> 16 -> n <> 24 -> own_nodes p ((a, n) :: live) -> own_nodes p live.
Proof. intros H1 H2 [N1 N2]. split; eapply Forall_impl; [exact N1| |exact N2|]; intros x [H|H]%elem_of_cons; (congruence || done). Qed.

Lemma allocated_nodes h0 size p live a p1 : a <> 0 -> allocated h0 true size p live a p1 -> own_nodes p live -> Forall sized live ->
  exists nodes, pool_inv h0 p1 ((a, size) :: nodes ++ live) /\ own_nodes p1 (nodes ++ live) /\ Forall sized (nodes ++ live).
Proof.
  intros Ha (Hcl & H) [N1 N2] Hs. rewrite (proj2 (Z.eqb_neq _ _) Ha) in H. destruct H as (_ & _ & nodes & I & Hn & Hm). exists nodes. split; [done|].
  assert (Hin : forall x, x ∈ live -> x ∈ nodes ++ live) by (intros x Hx; apply elem_of_app; by right). split; [split|].
  - rewrite Hm. apply Forall_app. split; [|eapply Forall_impl; [exact N1|]; intros x; apply Hin].
    apply Forall_forall. intros x Hx. apply list_elem_of_fmap in Hx as ([y k] & -> & Hy). cbn.
    pose proof (proj1 (Forall_forall _ _) Hn _ Hy) as Hk. cbn in Hk. subst k. apply elem_of_app. by left.
  - rewrite Hcl. eapply Forall_impl; [exact N2|]. intros x. apply Hin.
  - apply Forall_app. split; [|done]. eapply Forall_impl; [exact Hn|]. unfold sized. lia.
Qed.

Lemma allocated_null h0 size p live p1 : allocated h0 true size p live 0 p1 -> own_nodes p live -> pool_inv h0 p1 live /\ own_nodes p1 live.
Proof. intros (Hcl & I & Hm) [N1 N2]. split; [exact I|]. split; [by rewrite Hm|by rewrite Hcl]. Qed.

Section create.
Context (malloc : gmap Z Z -> Z -> Z -> option Z) {A : Allocator malloc} (h0 : gmap Z Z) (fuel : nat).

(** An array is created empty, beside its own structure, or nothing is lost. *)
Theorem array_create_correct p live n size :
  pool_inv h0 p live -> own_nodes p live -> Forall sized live -> 0 < n -> 0 < size -> n * size < 9223372036854775808 ->
  exists r p', ntg_array_create malloc (S (S fuel)) n size p = Some (r, p') /\ exists more,
    match r with
    | Some a => array_inv h0 p' a ((ar_addr a, sizeof_ntg_array_t) :: more ++ live) /\ own_nodes p' (more ++ live) /\
        ar_nelts a = 0 /\ ar_size a = size /\ ar_nalloc a = n
    | None => pool_inv h0 p' (more ++ live) /\ own_nodes p' (more ++ live)
    end.
Proof using A.
  intros I N Hs Hn Hsz Hr. unfold ntg_array_create. destruct (palloc_ok malloc h0 fuel sizeof_ntg_array_t p live I ltac:(done)) as (a & p1 & -> & H1).
  cbn [mbind option_bind]. destruct (Z.eqb_spec a 0) as [->|Ha]; [eexists _, _; split; [reflexivity|]; exists []; by apply (allocated_null _ _ _ _ _ H1)|].
  destruct (allocated_nodes _ _ _ _ _ _ Ha H1 N Hs) as (nodes1 & I1 & N1 & S1). rewrite u64_small by (width; nia).
  assert (N1' : own_nodes p1 ((a, sizeof_ntg_array_t) :: nodes1 ++ live)) by (apply (own_nodes_app _ _ [_]); exact N1).
  destruct (palloc_ok malloc h0 fuel (n * size) p1 _ I1 ltac:(nia)) as (e & p2 & -> & H2). cbn [mbind option_bind].
  destruct (Z.eqb_spec e 0) as [->|He].
  - eexists _, _. split; [reflexivity|]. exists ((a, sizeof_ntg_array_t) :: nodes1). by apply (allocated_null _ _ _ _ _ H2).
  - destruct (allocated_nodes _ _ _ _ _ _ He H2 N1' ltac:(by constructor)) as (nodes2 & I2 & N2 & S2). eexists _, _. split; [reflexivity|]. exists (nodes2 ++ nodes1).
    cbn [ar_addr ar_nelts ar_size ar_nalloc].
    assert (P : Permutation (nodes2 ++ (a, sizeof_ntg_array_t) :: nodes1 ++ live) ((a, sizeof_ntg_array_t) :: (nodes2 ++ nodes1) ++ live))
      by (rewrite <-app_assoc; symmetry; apply Permutation_middle).
    split; [|split; [|done] ].
    + split; cbn; try lia; [|by apply (own_nodes_perm _ _ _ P)|by rewrite <-P]. rewrite Z.mul_comm. eapply pool_inv_perm; [|exact I2]. by constructor.
    + apply (own_nodes_perm _ _ _ P) in N2. by apply own_nodes_drop in N2.
Qed.

(** A structure that lies elsewhere. *)
Lemma array_init_correct p live at_ n size :
  pool_inv h0 p live -> own_nodes p live -> Forall sized live -> 0 < n -> 0 < size -> n * size < 9223372036854775808 ->
  exists rc a p', ntg_array_init malloc (S (S fuel)) at_ n size p = Some (rc, a, p') /\ exists more,
    if rc =? NTG_OK then array_inv h0 p' a (more ++ live) /\ ar_nelts a = 0 /\ ar_size a = size /\ ar_nalloc a = n
    else pool_inv h0 p' (more ++ live) /\ own_nodes p' (more ++ live).
Proof using A.
  intros I N Hs Hn Hsz Hr. unfold ntg_array_init. rewrite u64_small by (width; nia).
  destruct (palloc_ok malloc h0 fuel (n * size) p live I ltac:(nia)) as (e & p1 & -> & H1). cbn [mbind option_bind]. eexists _, _, _. split; [reflexivity|].
  destruct (Z.eqb_spec e 0) as [->|He]; [exists []; by apply (allocated_null _ _ _ _ _ H1)|].
  destruct (allocated_nodes _ _ _ _ _ _ He H1 N Hs) as (nodes & I1 & N1 & S1). exists nodes. split; [|done].
  split; cbn; try lia; [|done|done]. by rewrite Z.mul_comm.
Qed.
End create.

(** An array that is destroyed gives back what lies at the end of the first block,
    its elements and then its structure; its pieces are no longer in use. *)
Theorem array_destroy_correct h0 p a rest :
  array_inv h0 p a ((ar_addr a, sizeof_ntg_array_t) :: rest) -> own_nodes p rest ->
  exists p', ntg_array_destroy a p = Some p' /\ pool_inv h0 p' rest /\ own_nodes p' rest.
Proof.
  intros I N. pose proof (array_range h0 p a _ I) as (R1 & R2 & R3 & R4). pose proof I as [Ip IN Isz Is Ir Ine].
  pose proof (piece_range h0 p _ (ar_addr a, sizeof_ntg_array_t) Ip ltac:(right; by left)) as R5. cbn in R5. unfold sizeof_ntg_array_t in R5.
  unfold ntg_array_destroy. destruct (pl_blocks p !! 0%nat) as [b|] eqn:Hb; cbn [mbind option_bind].
  2: { apply lookup_ge_None_1 in Hb. pose proof (pv_current _ _ _ Ip). lia. }
  rewrite (u64_small (ar_size a * ar_nalloc a)) by (width; lia). rewrite (u64_small (ar_elts a + _)) by (width; lia). rewrite (u64_small (ar_addr a + _)) by (width; unfold sizeof_ntg_array_t; lia).
  assert (H1 : exists b1, let p1 := if ar_elts a + ar_size a * ar_nalloc a =? bk_last b then used_to 0 (u64 (bk_last b - ar_size a * ar_nalloc a)) b p else p in
    pl_blocks p1 !! 0%nat = Some b1 /\ pool_inv h0 p1 ((ar_addr a, sizeof_ntg_array_t) :: rest) /\ own_nodes p1 rest).
  { destruct (Z.eqb_spec (ar_elts a + ar_size a * ar_nalloc a) (bk_last b)) as [E|E].
    - replace (u64 (bk_last b - ar_size a * ar_nalloc a)) with (ar_elts a) by (rewrite u64_small by (width; lia); lia).
      eexists. split; [apply list_lookup_insert_eq; by eapply lookup_lt_Some|]. split; [|exact N]. by apply (shrink_inv h0 p _ b _ _ Ip IN Isz Hb E).
    - exists b. split; [done|]. split; [|exact N]. by apply (drop_inv _ _ _ _ Ip). }
  cbv zeta in H1. destruct H1 as (b1 & Hb1 & I1 & N1). rewrite Hb1. cbn [mbind option_bind]. eexists. split; [reflexivity|].
  destruct (Z.eqb_spec (ar_addr a + sizeof_ntg_array_t) (bk_last b1)) as [E|E].
  - split; [|exact N1]. apply Forall_cons in Isz as [_ Isz]. by apply (shrink_inv h0 _ rest b1 _ _ I1 N1 Isz Hb1 E).
  - split; [|exact N1]. by apply (drop_inv _ _ _ _ I1).
Qed.

(** ** Examples *)

Definition array_pool : pool := default new_pool (snd <$> ntg_array_create bump_malloc 2 2 4 new_pool).
Definition an_array : array := Array 192 232 0 4 2.

Lemma an_array_inv : exists rest, array_inv others_heap array_pool an_array rest.
Proof.
  destruct (array_create_correct bump_malloc others_heap 0 new_pool [] 2 4 new_pool_inv) as (r & p & E & more & H).
  - split; constructor.
  - constructor.
  - lia.
  - lia.
  - lia.
  - assert (Er : fst <$> ntg_array_create bump_malloc 2 2 4 new_pool = Some (Some an_array)) by (vm_compute; reflexivity).
    rewrite E in Er. injection Er as ->. assert (Ep : array_pool = p) by (unfold array_pool; by rewrite E). rewrite Ep. destruct H as [H _]. by eexists.
Qed.

Lemma array_push_correct_witness :
  exists mem a p, ntg_array_push_n bump_malloc 2 (fun _ => 0) 3 an_array array_pool = Some (232, mem, a, p) /\
    contents (store 232 [1; 2; 3; 4; 5; 6; 7; 8; 9; 10; 11; 12] mem) a = [ [1; 2; 3; 4]; [5; 6; 7; 8]; [9; 10; 11; 12] ].
Proof.
  destruct an_array_inv as [rest I].
  destruct (array_push_correct bump_malloc bump_allocator others_heap 0 array_pool an_array rest (fun _ => 0) [ [1; 2; 3; 4]; [5; 6; 7; 8]; [9; 10; 11; 12] ] I)
    as (res & E & H & _).
  - repeat constructor.
  - reflexivity.
  - destruct res as [ [ [elt mem] a] p]. exists mem, a, p. assert (Ee : fst (fst (fst (elt, mem, a, p))) = 232).
    { pose proof (f_equal (fmap (fun r : Z * memory * array * pool => fst (fst (fst r)))) E) as F. vm_compute in F. cbn. congruence. }
    cbn in Ee. subst elt. split; [exact E|]. destruct H as (more & _ & Hc & _). exact Hc.
Defined.

(** An array that is made for no element never gets room: the element that is added
    lies in memory that is handed out again. *)
Example no_room_for_push :
  ('(_, a, p) ← ntg_array_init bump_malloc 2 0 0 8 new_pool; '(_, p) ← ntg_palloc bump_malloc 2 8 p;
   '(elt, _, a, p) ← ntg_array_push bump_malloc 2 (fun _ => 0) a p; '(m, _) ← ntg_palloc bump_malloc 2 8 p;
   Some (elt, m, ar_nelts a, ar_nalloc a)) = Some (200, 200, 1, 0).
Proof. vm_compute. reflexivity. Qed.

