(* ===== verification/PartList.v ===== *)
(** * Lists of parts over pools (src/utils/ntg_list.c, ntg_list.h)

    A list that grows by parts of equal room, so that its elements never move.  The
    parts are known by their addresses; the first one lies in the structure of the
    list.  The memory of the elements and the pool are those of Array and Pool. *)

From S2P Require Import Prelude Pool Array.

(** [ntg_list_part_t]. *)
Record part := Part { pt_elts : Z; pt_nelts : Z; pt_next : Z }.

(** [ntg_list_t] at [ls_addr]; [ls_parts] are the parts in memory. *)
Record plist := PList { ls_addr : Z; ls_last : Z; ls_size : Z; ls_nalloc : Z; ls_parts : gmap Z part }.

Definition sizeof_ntg_list_t : Z := 56.
Definition sizeof_ntg_list_part_t : Z := 24.

(** [&list->part]. *)
Definition first_part (addr : Z) : Z := addr + 8.

Section list.
Context (malloc : gmap Z Z -> Z -> Z -> option Z) (fuel : nat).

(** What both ways of creation write. *)
Definition list_init_fields (addr elts n size : Z) : plist :=
  PList addr (first_part addr) size n {[first_part addr := Part elts 0 0]}.

Definition ntg_list_create (n size : Z) (p : pool) : option (option plist * pool) :=
  '(list, p) ← ntg_palloc malloc fuel sizeof_ntg_list_t p;
  if list =? 0 then Some (None, p)
  else
    '(elts, p) ← ntg_palloc malloc fuel (u64 (n * size)) p;
    if elts =? 0 then Some (None, p) else Some (Some (list_init_fields list elts n size), p).

Definition ntg_list_init (addr n size : Z) (p : pool) : option (Z * option plist * pool) :=
  '(elts, p) ← ntg_palloc malloc fuel (u64 (n * size)) p;
  if elts =? 0 then Some (NTG_ERROR, None, p) else Some (NTG_OK, Some (list_init_fields addr elts n size), p).

(** The address of the new element, 0 for none. *)
Definition ntg_list_push (l : plist) (p : pool) : option (Z * plist * pool) :=
  let push l p :=
    last ← ls_parts l !! ls_last l;
    Some (u64 (pt_elts last + u64 (ls_size l * pt_nelts last)),
          PList (ls_addr l) (ls_last l) (ls_size l) (ls_nalloc l) (<[ls_last l := Part (pt_elts last) (u64 (pt_nelts last + 1)) (pt_next last)]> (ls_parts l)), p) in
  last ← ls_parts l !! ls_last l;
  if pt_nelts last =? ls_nalloc l then
    '(new, p) ← ntg_palloc malloc fuel sizeof_ntg_list_part_t p;
    if new =? 0 then Some (0, l, p)
    else
      '(elts, p) ← ntg_palloc malloc fuel (u64 (ls_nalloc l * ls_size l)) p;
      if elts =? 0 then Some (0, l, p)
      else
        let parts := <[new := Part elts 0 0]> (ls_parts l) in
        old ← parts !! ls_last l;
        let parts := <[ls_last l := Part (pt_elts old) (pt_nelts old) new]> parts in
        push (PList (ls_addr l) new (ls_size l) (ls_nalloc l) parts) p
  else push l p.

End list.

(** ** The chain *)

(** The parts from [a] on up to [b]. *)
Fixpoint segment (parts : gmap Z part) (a : Z) (ps : list (Z * part)) (b : Z) : Prop :=
  match ps with
  | [] => a = b
  | (x, q) :: ps => a = x /\ x <> 0 /\ parts !! x = Some q /\ segment parts (pt_next q) ps b
  end.

Lemma segment_app parts a ps qs b : segment parts a (ps ++ qs) b <-> exists c, segment parts a ps c /\ segment parts c qs b.
Proof.
  revert a. induction ps as [|[x q] ps IH]; intros a; cbn [app segment].
  - split; [intros H; by exists a|intros (c & -> & H); done].
  - split.
    + intros (H1 & H2 & H3 & H4). apply IH in H4 as (c & H4 & H5). by exists c.
    + intros (c & (H1 & H2 & H3 & H4) & H5). split; [done|]. split; [done|]. split; [done|]. apply IH. by exists c.
Qed.

Lemma segment_insert parts a ps b x q : x ∉ map fst ps -> segment parts a ps b -> segment (<[x := q]> parts) a ps b.
Proof.
  revert a. induction ps as [|[y r] ps IH]; intros a; cbn [segment map]; [done|]. rewrite not_elem_of_cons. intros [Hx Hn] (H1 & H2 & H3 & H4). cbn in Hx.
  split; [done|]. split; [done|]. split; [by rewrite lookup_insert_ne|]. by apply IH.
Qed.

(** What a loop over the list visits, as the users of the list write it. *)
Fixpoint walk (n : nat) (parts : gmap Z part) (a : Z) : option (list (Z * part)) :=
  match n with
  | O => None
  | S n => if a =? 0 then Some [] else q ← parts !! a; ps ← walk n parts (pt_next q); Some ((a, q) :: ps)
  end.

Lemma walk_segment parts a ps n : segment parts a ps 0 -> (length ps < n)%nat -> walk n parts a = Some ps.
Proof.
  revert a n. induction ps as [|[x q] ps IH]; intros a [|n]; cbn [segment length]; try lia.
  - by intros -> _.
  - intros (-> & Hx & Hq & H) Hn. cbn [walk]. rewrite (proj2 (Z.eqb_neq x 0) Hx), Hq. cbn [mbind option_bind]. by rewrite IH by (done || lia).
Qed.

(** ** The elements *)

(** Their places, part by part. *)
Definition part_places (size : Z) (q : part) : list Z := map (fun i => pt_elts q + size * i) (seqZ 0 (pt_nelts q)).
Definition places (size : Z) (ps : list (Z * part)) : list Z := concat (map (fun x => part_places size (snd x)) ps).

Definition room (l : plist) (q : part) : Z * Z := (pt_elts q, ls_size l * ls_nalloc l).

(** The pieces of the list: its elements, and its parts but for the first. *)
Definition pieces (l : plist) (ps : list (Z * part)) : list (Z * Z) :=
  map (fun x => room l (snd x)) ps ++ map (fun x => (fst x, sizeof_ntg_list_part_t)) (tail ps).

Record list_inv (h0 : gmap Z Z) (p : pool) (l : plist) (ps : list (Z * part)) (rest : list (Z * Z)) : Prop := {
  li_chain : segment (ls_parts l) (first_part (ls_addr l)) ps 0;
  li_nodup : NoDup (map fst ps);
  li_last : exists qs q, ps = qs ++ [(ls_last l, q)] /\ Forall (fun x => pt_nelts (snd x) = ls_nalloc l) qs /\ 0 <= pt_nelts q <= ls_nalloc l;
  li_pool : pool_inv h0 p (pieces l ps ++ rest);
  li_nodes : own_nodes p (pieces l ps ++ rest);
  li_sized : Forall sized rest;
  li_self : (ls_addr l, sizeof_ntg_list_t) ∈ rest;
  li_size : 0 < ls_size l;
  li_room : 0 < ls_nalloc l }.

Lemma room_piece l ps x q : (x, q) ∈ ps -> room l q ∈ pieces l ps.
Proof. intros H. apply elem_of_app. left. by apply (list_elem_of_fmap_2 (fun x => room l (snd x)) ps (x, q)). Qed.

Lemma room_range h0 p l ps rest x q : list_inv h0 p l ps rest -> (x, q) ∈ ps ->
  0 < pt_elts q /\ 0 < ls_size l * ls_nalloc l /\ pt_elts q + ls_size l * ls_nalloc l < 9223372036854775808 /\ ls_nalloc l <= ls_size l * ls_nalloc l.
Proof.
  intros I Hq. pose proof (piece_range h0 p _ (room l q) (li_pool _ _ _ _ _ I)) as H. pose proof (li_size _ _ _ _ _ I). pose proof (li_room _ _ _ _ _ I).
  specialize (H ltac:(apply elem_of_app; left; by apply (room_piece l ps x))). unfold room in H. cbn in H. nia.
Qed.

(** Every place lies in the room of its part. *)
Lemma place_room l ps a : 0 < ls_size l -> Forall (fun x => pt_nelts (snd x) <= ls_nalloc l) ps -> a ∈ places (ls_size l) ps ->
  exists x q, (x, q) ∈ ps /\ pt_elts q <= a /\ a + ls_size l <= pt_elts q + ls_size l * ls_nalloc l /\ a ∈ part_places (ls_size l) q.
Proof.
  intros Hs Hf Ha. unfold places in Ha. apply list_elem_of_In, in_concat in Ha as (t & Ht & Ha). apply in_map_iff in Ht as ([x q] & <- & Hx). exists x, q.
  rewrite <-list_elem_of_In in Hx. split; [done|]. cbn in Ha. pose proof (proj1 (Forall_forall _ _) Hf _ Hx) as Hn. cbn in Hn.
  split; [|split; [|by apply list_elem_of_In] ]; apply in_map_iff in Ha as (i & <- & Hi); apply list_elem_of_In, elem_of_seqZ in Hi; nia.
Qed.

Lemma ord_pairs_app l1 l2 r s : ForallOrdPairs apart (l1 ++ l2) -> r ∈ l1 -> s ∈ l2 -> apart r s.
Proof.
  induction l1 as [|x l1 IH]; cbn; [by intros _ H; apply not_elem_of_nil in H|]. intros H Hr Hs. inversion H as [|? ? H1 H2]; subst.
  apply elem_of_cons in Hr as [->|Hr]; [|by apply IH]. apply (proj1 (Forall_forall _ _) H1). apply elem_of_app. by right.
Qed.

Lemma places_app size ps qs : places size (ps ++ qs) = places size ps ++ places size qs.
Proof. unfold places. by rewrite map_app, concat_app. Qed.

Lemma places_one size x q : places size [(x, q)] = part_places size q.
Proof. unfold places. cbn. by rewrite app_nil_r. Qed.

Lemma part_places_snoc size e n nx nx' : 0 <= n -> part_places size (Part e (n + 1) nx') = part_places size (Part e n nx) ++ [e + size * n].
Proof. intros Hn. unfold part_places. cbn [pt_nelts pt_elts]. rewrite seqZ_app by lia. rewrite map_app. cbn. do 4 f_equal. Qed.

(** Only the addresses count for the pieces. *)
Lemma pieces_same l l' qs x e n nx n' nx' : ls_size l' = ls_size l -> ls_nalloc l' = ls_nalloc l ->
  pieces l' (qs ++ [(x, Part e n nx)]) = pieces l (qs ++ [(x, Part e n' nx')]).
Proof. intros Es En. unfold pieces, room. rewrite Es, En, !map_app. cbn. f_equal. by destruct qs as [|[y r] qs]; cbn; rewrite ?map_app. Qed.

Lemma list_frame h0 p l ps rest x q r y : list_inv h0 p l ps rest -> (x, q) ∈ ps -> r ∈ rest -> fst r <= y < fst r + snd r ->
  y < pt_elts q \/ pt_elts q + ls_size l * ls_nalloc l <= y.
Proof.
  intros I Hq Hr Hy. pose proof (ord_pairs_app _ _ (room l q) r (pv_apart _ _ _ (li_pool _ _ _ _ _ I)) ltac:(by apply (room_piece l ps x)) Hr) as [H|H]; cbn in H; lia.
Qed.

Lemma filled_le l (qs : list (Z * part)) x q : Forall (fun x => pt_nelts (snd x) = ls_nalloc l) qs -> pt_nelts q <= ls_nalloc l ->
  Forall (fun x => pt_nelts (snd x) <= ls_nalloc l) (qs ++ [(x, q)]).
Proof. intros H Hq. apply Forall_app. split; [eapply Forall_impl; [exact H|]; cbn; lia|by constructor]. Qed.

(** The elements do not touch the one that is added. *)
Lemma places_apart h0 p l (qs : list (Z * part)) q rest a :
  list_inv h0 p l (qs ++ [(ls_last l, q)]) rest -> Forall (fun x => pt_nelts (snd x) = ls_nalloc l) qs -> 0 <= pt_nelts q < ls_nalloc l ->
  a ∈ places (ls_size l) (qs ++ [(ls_last l, q)]) -> apart (a, ls_size l) (pt_elts q + ls_size l * pt_nelts q, ls_size l).
Proof.
  intros I Hf Hq Ha. pose proof (li_size _ _ _ _ _ I) as Hs. rewrite places_app, places_one, elem_of_app in Ha. destruct Ha as [Ha|Ha].
  - destruct (place_room l qs a Hs) as (x & r & Hx & H1 & H2 & _); [eapply Forall_impl; [exact Hf|]; cbn; lia|done|].
    pose proof (pv_apart _ _ _ (li_pool _ _ _ _ _ I)) as Hp. unfold pieces in Hp. rewrite map_app, <-!app_assoc in Hp.
    pose proof (ord_pairs_app _ _ (room l r) (room l q) Hp ltac:(by apply (list_elem_of_fmap_2 (fun x => room l (snd x)) qs (x, r))) ltac:(by left)) as [Hap|Hap]; cbn in Hap; [left|right]; cbn; nia.
  - unfold part_places in Ha. apply list_elem_of_fmap in Ha as (i & -> & Hi). apply elem_of_seqZ in Hi. left. cbn. nia.
Qed.

(** An element behind the last one, when its part has room. *)
Lemma push_room h0 p l (qs : list (Z * part)) q rest :
  list_inv h0 p l (qs ++ [(ls_last l, q)]) rest -> Forall (fun x => pt_nelts (snd x) = ls_nalloc l) qs -> 0 <= pt_nelts q < ls_nalloc l ->
  let elt := u64 (pt_elts q + u64 (ls_size l * pt_nelts q)) in
  let q' := Part (pt_elts q) (u64 (pt_nelts q + 1)) (pt_next q) in
  let l' := PList (ls_addr l) (ls_last l) (ls_size l) (ls_nalloc l) (<[ls_last l := q']> (ls_parts l)) in
  elt <> 0 /\ list_inv h0 p l' (qs ++ [(ls_last l, q')]) rest /\
  places (ls_size l) (qs ++ [(ls_last l, q')]) = places (ls_size l) (qs ++ [(ls_last l, q)]) ++ [elt] /\
  forall mem v, Z.of_nat (length v) = ls_size l ->
    (forall a, a ∈ places (ls_size l) (qs ++ [(ls_last l, q)]) -> bytes_at (store elt v mem) a (ls_size l) = bytes_at mem a (ls_size l)) /\
    (forall r x, r ∈ rest -> fst r <= x < fst r + snd r -> store elt v mem x = mem x).
Proof.
  intros I Hf Hq. assert (Hin : (ls_last l, q) ∈ qs ++ [(ls_last l, q)]) by (apply elem_of_app; right; by left).
  pose proof (room_range _ _ _ _ _ _ _ I Hin) as (R1 & R2 & R3 & R4). pose proof (li_size _ _ _ _ _ I) as Hs.
  assert (Hm : 0 <= ls_size l * pt_nelts q /\ ls_size l * pt_nelts q + ls_size l <= ls_size l * ls_nalloc l) by nia. cbv zeta.
  rewrite (u64_small (ls_size l * pt_nelts q)) by (width; lia). rewrite (u64_small (pt_elts q + _)) by (width; lia). rewrite (u64_small (pt_nelts q + 1)) by (width; lia).
  split; [lia|]. destruct q as [e n nx]. cbn [pt_elts pt_nelts pt_next] in *. split; [|split].
  - destruct I as [C1 C2 C3 C4 C5 C6 C7 C8 C9]. split; try done; cbn [ls_parts ls_addr].
    + apply segment_app in C1 as (c & C1 & C1'). apply segment_app. exists c. rewrite map_app in C2. apply NoDup_app in C2 as (_ & C2 & _).
      split; [apply segment_insert; [|done]; intros H; apply (C2 _ H); by left|]. cbn in *. rewrite lookup_insert_eq. tauto.
    + rewrite map_app in *. exact C2.
    + eexists qs, _. split; [done|]. split; [done|]. cbn. lia.
    + rewrite (pieces_same l _ _ _ _ _ _ n nx) by done. exact C4.
    + rewrite (pieces_same l _ _ _ _ _ _ n nx) by done. exact C5.
  - rewrite !places_app, !places_one, (part_places_snoc _ _ _ nx) by lia. by rewrite app_assoc.
  - intros mem v Hv. split.
    + intros a Ha. pose proof (places_apart _ _ _ _ _ _ _ I Hf Hq Ha) as Hap. cbn in Hap. apply bytes_at_ext. intros i Hi. apply store_other.
      destruct Hap as [Hap|Hap]; cbn in Hap; lia.
    + intros r x Hr Hx. apply store_other. pose proof (list_frame _ _ _ _ _ _ _ r x I Hin Hr Hx) as H. cbn in H. lia.
Qed.

(** A part behind the last one. *)
Lemma new_part h0 p2 l (qs : list (Z * part)) q rest new elts more :
  segment (ls_parts l) (first_part (ls_addr l)) (qs ++ [(ls_last l, q)]) 0 -> NoDup (map fst (qs ++ [(ls_last l, q)])) ->
  Forall (fun x => pt_nelts (snd x) = ls_nalloc l) (qs ++ [(ls_last l, q)]) -> new ∉ map fst (qs ++ [(ls_last l, q)]) -> new <> 0 ->
  let q' := Part (pt_elts q) (pt_nelts q) new in
  let ps' := (qs ++ [(ls_last l, q')]) ++ [(new, Part elts 0 0)] in
  let l' := PList (ls_addr l) new (ls_size l) (ls_nalloc l) (<[ls_last l := q']> (<[new := Part elts 0 0]> (ls_parts l))) in
  pool_inv h0 p2 (pieces l' ps' ++ more ++ rest) -> own_nodes p2 (pieces l' ps' ++ more ++ rest) -> Forall sized (more ++ rest) ->
  (ls_addr l, sizeof_ntg_list_t) ∈ rest -> 0 < ls_size l -> 0 < ls_nalloc l ->
  list_inv h0 p2 l' ps' (more ++ rest) /\ places (ls_size l) ps' = places (ls_size l) (qs ++ [(ls_last l, q)]).
Proof.
  intros C1 C2 C3 Hnew Hn0 q' ps' l' J N S Hself Hs Hr. apply Forall_app in C3 as [C3 C4]. apply Forall_inv in C4. cbn in C4.
  rewrite map_app in C2, Hnew. cbn in C2, Hnew. rewrite elem_of_app, list_elem_of_singleton in Hnew.
  pose proof (proj1 (proj2 (proj1 (NoDup_app _ _) C2))) as Hd. split.
  - split; try done.
    + apply segment_app in C1 as (c & C1 & C1'). cbn in C1'. destruct C1' as (-> & Hl0 & Hlq & _). apply segment_app. exists new. split.
      * apply segment_app. exists (ls_last l). split.
        { apply segment_insert; [intros H; apply (Hd _ H); by left|]. apply segment_insert; [tauto|done]. }
        cbn. by rewrite lookup_insert_eq.
      * cbn. split; [done|]. split; [done|]. split; [|done]. rewrite lookup_insert_ne by (intros E; apply Hnew; by right). by rewrite lookup_insert_eq.
    + unfold ps'. rewrite !map_app. cbn. apply NoDup_app. split; [done|]. split; [|apply NoDup_singleton].
      intros x Hx ->%list_elem_of_singleton. apply Hnew. by apply elem_of_app in Hx as [?|?%list_elem_of_singleton]; [left|right].
    + eexists (qs ++ [(ls_last l, q')]), _. split; [done|]. split; [|cbn; lia]. apply Forall_app. split; [done|]. by constructor.
    + apply elem_of_app. by right.
  - unfold ps'. rewrite !places_app, !places_one. unfold part_places at 2. cbn. by rewrite app_nil_r.
Qed.

Lemma pieces_sized h0 p l ps rest : list_inv h0 p l ps rest -> Forall sized (pieces l ps ++ rest).
Proof.
  intros I. apply Forall_app. split; [|apply I]. apply Forall_app. split; apply Forall_forall; intros r Hr; apply list_elem_of_fmap in Hr as ([x q] & -> & Hq); [|done].
  pose proof (room_range _ _ _ _ _ _ _ I Hq). unfold sized. cbn. lia.
Qed.

(** A new piece is no part of the list. *)
Lemma new_fresh h0 p l ps rest p1 new nodes : list_inv h0 p l ps rest ->
  pool_inv h0 p1 ((new, sizeof_ntg_list_part_t) :: nodes ++ pieces l ps ++ rest) -> new ∉ map fst ps.
Proof.
  intros I J Hx. pose proof (pv_apart _ _ _ J) as H. inversion H as [|? ? Ha _]; subst. clear H. pose proof (li_last _ _ _ _ _ I) as (qs & q & Eps & _).
  destruct ps as [|[y r] ps]; [by destruct qs|]. pose proof (li_chain _ _ _ _ _ I) as C. cbn in C. destruct C as (Ey & _). unfold first_part in Ey. subst y.
  cbn in Hx. apply elem_of_cons in Hx as [->|Hx].
  - pose proof (proj1 (Forall_forall _ _) Ha (ls_addr l, sizeof_ntg_list_t)) as Hap. rewrite !elem_of_app in Hap. specialize (Hap (or_intror (or_intror (li_self _ _ _ _ _ I)))).
    unfold apart, sizeof_ntg_list_t, sizeof_ntg_list_part_t in Hap. cbn in Hap. lia.
  - apply list_elem_of_fmap in Hx as ([z w] & -> & Hz). pose proof (proj1 (Forall_forall _ _) Ha (z, sizeof_ntg_list_part_t)) as Hap. unfold pieces in Hap. rewrite !elem_of_app in Hap.
    assert (Hin : (z, sizeof_ntg_list_part_t) ∈ map (fun x : Z * part => (fst x, sizeof_ntg_list_part_t)) (tail ((ls_addr l + 8, r) :: ps)))
      by (apply (list_elem_of_fmap_2 (fun x : Z * part => (fst x, sizeof_ntg_list_part_t)) ps (z, w)); done).
    specialize (Hap (or_intror (or_introl (or_intror Hin)))). unfold apart, sizeof_ntg_list_part_t in Hap. cbn in Hap. lia.
Qed.

(** The same list over a pool that changed outside of it. *)
Lemma list_inv_pool h0 p l ps rest p' more : list_inv h0 p l ps rest ->
  pool_inv h0 p' (pieces l ps ++ more ++ rest) -> own_nodes p' (pieces l ps ++ more ++ rest) -> Forall sized more -> list_inv h0 p' l ps (more ++ rest).
Proof.
  intros [C1 C2 C3 C4 C5 C6 C7 C8 C9] J N S. split; try done; [by apply Forall_app|]. apply elem_of_app. by right.
Qed.

(** The pieces of a list with another part. *)
Lemma pieces_snoc l l' qs x e n nx nx' new elts : ls_size l' = ls_size l -> ls_nalloc l' = ls_nalloc l ->
  Permutation (pieces l' ((qs ++ [(x, Part e n nx')]) ++ [(new, Part elts 0 0)]))
    ((elts, ls_size l * ls_nalloc l) :: (new, sizeof_ntg_list_part_t) :: pieces l (qs ++ [(x, Part e n nx)])).
Proof.
  intros Es En. rewrite <-(pieces_same l l' qs x e n nx' n nx Es En). unfold pieces. rewrite !(map_app _ (qs ++ _)).
  assert (Et : tail ((qs ++ [(x, Part e n nx')]) ++ [(new, Part elts 0 0)]) = tail (qs ++ [(x, Part e n nx')]) ++ [(new, Part elts 0 0)]) by (by destruct qs).
  rewrite Et, (map_app _ (tail _)). unfold room at 2. cbn [map fst snd pt_elts]. rewrite Es, En.
  rewrite <-app_assoc. cbn [app]. rewrite <-Permutation_middle. apply perm_skip. rewrite app_assoc. by rewrite <-Permutation_cons_append.
Qed.

Section push.
Context (malloc : gmap Z Z -> Z -> Z -> option Z) {A : Allocator malloc} (h0 : gmap Z Z) (fuel : nat).

(** What adding an element promises. *)
Definition pushed (l : plist) (ps : list (Z * part)) (rest : list (Z * Z)) (res : Z * plist * pool) : Prop :=
  let '(elt, l', p') := res in exists more,
  if elt =? 0 then l' = l /\ list_inv h0 p' l ps (more ++ rest)
  else exists ps', list_inv h0 p' l' ps' (more ++ rest) /\ ls_size l' = ls_size l /\ places (ls_size l) ps' = places (ls_size l) ps ++ [elt] /\
    forall mem v, Z.of_nat (length v) = ls_size l ->
      bytes_at (store elt v mem) elt (ls_size l) = v /\
      (forall a, a ∈ places (ls_size l) ps -> bytes_at (store elt v mem) a (ls_size l) = bytes_at mem a (ls_size l)) /\
      (forall r x, r ∈ rest -> fst r <= x < fst r + snd r -> store elt v mem x = mem x).

Lemma room_pushed p1 l1 qs q l ps rest more :
  list_inv h0 p1 l1 (qs ++ [(ls_last l1, q)]) (more ++ rest) -> Forall (fun x => pt_nelts (snd x) = ls_nalloc l1) qs -> 0 <= pt_nelts q < ls_nalloc l1 ->
  ls_size l1 = ls_size l -> places (ls_size l) (qs ++ [(ls_last l1, q)]) = places (ls_size l) ps ->
  pushed l ps rest (u64 (pt_elts q + u64 (ls_size l1 * pt_nelts q)),
    PList (ls_addr l1) (ls_last l1) (ls_size l1) (ls_nalloc l1) (<[ls_last l1 := Part (pt_elts q) (u64 (pt_nelts q + 1)) (pt_next q)]> (ls_parts l1)), p1).
Proof using.
  intros I Hf Hq Es Ep. destruct (push_room h0 p1 l1 qs q _ I Hf Hq) as (H1 & H2 & H3 & H4). exists more. rewrite (proj2 (Z.eqb_neq _ _) H1). eexists. split; [exact H2|].
  split; [exact Es|]. rewrite Es in H3, H4 |- *. rewrite Ep in H3, H4. split; [exact H3|]. intros mem v Hv. destruct (H4 mem v Hv) as [H5 H6].
  split; [rewrite <-Hv; apply store_same|]. split; [exact H5|]. intros r x Hr. apply H6, elem_of_app. by right.
Qed.

(** Another part, and the element in it. *)
Lemma part_pushed p l qs q rest p1 p2 new elts nodes1 :
  let ps := qs ++ [(ls_last l, q)] in
  list_inv h0 p l ps rest -> Forall (fun x => pt_nelts (snd x) = ls_nalloc l) qs -> pt_nelts q = ls_nalloc l -> new <> 0 -> new ∉ map fst ps -> elts <> 0 ->
  let live := (new, sizeof_ntg_list_part_t) :: nodes1 ++ pieces l ps ++ rest in
  allocated h0 true (ls_nalloc l * ls_size l) p1 live elts p2 -> own_nodes p1 live -> Forall sized live ->
  exists res, (let parts := <[new := Part elts 0 0]> (ls_parts l) in
    old ← parts !! ls_last l;
    let parts := <[ls_last l := Part (pt_elts old) (pt_nelts old) new]> parts in
    last ← parts !! new;
    Some (u64 (pt_elts last + u64 (ls_size l * pt_nelts last)),
      PList (ls_addr l) new (ls_size l) (ls_nalloc l) (<[new := Part (pt_elts last) (u64 (pt_nelts last + 1)) (pt_next last)]> parts), p2)) = Some res /\
    pushed l ps rest res.
Proof using A.
  intros ps I Hf Hq Hnew Hfresh Helts live H2 N1 S1. destruct (allocated_nodes _ _ _ _ _ _ Helts H2 N1 S1) as (nodes2 & I2 & N2 & S2).
  pose proof (li_chain _ _ _ _ _ I) as C. pose proof C as C'. apply segment_app in C' as (c & _ & (_ & _ & Hlq & _)).
  assert (Hne : new <> ls_last l) by (intros ->; apply Hfresh; unfold ps; rewrite map_app; apply elem_of_app; right; by left).
  cbv zeta. rewrite (lookup_insert_ne _ new) by done. rewrite Hlq. cbn [mbind option_bind]. rewrite lookup_insert_ne by done. rewrite lookup_insert_eq. cbn [mbind option_bind].
  eexists. split; [reflexivity|]. destruct q as [e n nx]. cbn [pt_elts pt_nelts] in *. set (l' := PList (ls_addr l) new (ls_size l) (ls_nalloc l) (<[ls_last l := Part e n new]> (<[new := Part elts 0 0]> (ls_parts l)))).
  pose proof (pieces_snoc l l' qs (ls_last l) e n nx new new elts eq_refl eq_refl) as P. fold ps in P.
  assert (P2 : Permutation ((elts, ls_nalloc l * ls_size l) :: nodes2 ++ live) (pieces l' ((qs ++ [(ls_last l, Part e n new)]) ++ [(new, Part elts 0 0)]) ++ (nodes2 ++ nodes1) ++ rest)).
  { rewrite P, (Z.mul_comm (ls_nalloc l)). cbn [app]. apply perm_skip. unfold live. rewrite <-Permutation_middle. apply perm_skip.
    rewrite !app_assoc. apply Permutation_app_tail. rewrite <-(app_assoc (pieces l ps)). rewrite <-app_assoc. by rewrite app_assoc, Permutation_app_comm. }
  destruct (new_part h0 p2 l qs (Part e n nx) rest new elts (nodes2 ++ nodes1) C (li_nodup _ _ _ _ _ I)) as [J K]; try done.
  - apply Forall_app. split; [done|]. by constructor.
  - by apply (pool_inv_perm _ _ _ _ P2).
  - apply (own_nodes_perm _ _ _ P2). apply (own_nodes_app _ _ [_]). exact N2.
  - unfold live in S2. rewrite !Forall_app, Forall_cons, !Forall_app in S2. rewrite !Forall_app. tauto.
  - apply I.
  - apply I.
  - apply I.
  - pose proof (li_room _ _ _ _ _ I). apply (room_pushed p2 l' (qs ++ [(ls_last l, Part e n new)]) (Part elts 0 0) l ps rest (nodes2 ++ nodes1)); try done.
    apply Forall_app. split; [done|]. by constructor.
Qed.

(** The list grows by one element behind the ones that are there: none of these
    moves or changes, the new one lies in memory that is the list's alone, and nobody
    else's memory changes; without memory the list is as before. *)
Theorem list_push_correct p l ps rest :
  list_inv h0 p l ps rest -> exists res, ntg_list_push malloc (S (S fuel)) l p = Some res /\ pushed l ps rest res.
Proof using A.
  intros I. pose proof (li_last _ _ _ _ _ I) as (qs & q & -> & Hf & Hq). pose proof (li_chain _ _ _ _ _ I) as C. apply segment_app in C as (c & C & C'). cbn in C'.
  destruct C' as (_ & _ & Hlq & _). unfold ntg_list_push. rewrite Hlq. cbn [mbind option_bind]. destruct (Z.eqb_spec (pt_nelts q) (ls_nalloc l)) as [Efull|Efree].
  2: { eexists. split; [reflexivity|]. by apply (room_pushed p l qs q l _ rest []); [|done|lia|done|done]. }
  set (ps := qs ++ [(ls_last l, q)]) in *. pose proof (pieces_sized _ _ _ _ _ I) as Hsz. pose proof (li_pool _ _ _ _ _ I) as Ip. pose proof (li_nodes _ _ _ _ _ I) as IN.
  destruct (palloc_ok malloc h0 fuel sizeof_ntg_list_part_t p _ Ip ltac:(done)) as (new & p1 & -> & H1). cbn [mbind option_bind].
  destruct (Z.eqb_spec new 0) as [->|Hnew].
  { eexists. split; [reflexivity|]. exists []. cbn. split; [done|]. destruct (allocated_null _ _ _ _ _ H1 IN). by apply (list_inv_pool _ p l ps rest p1 []). }
  destruct (allocated_nodes _ _ _ _ _ _ Hnew H1 IN Hsz) as (nodes1 & I1 & N1 & S1). pose proof (new_fresh _ _ _ _ _ _ _ _ I I1) as Hfresh.
  destruct (room_range _ _ _ _ _ (ls_last l) q I ltac:(subst ps; apply elem_of_app; right; by left)) as (R1 & R2 & R3 & R4).
  rewrite (u64_small (ls_nalloc l * ls_size l)) by (width; lia).
  assert (N1' : own_nodes p1 ((new, sizeof_ntg_list_part_t) :: nodes1 ++ pieces l ps ++ rest)) by (apply (own_nodes_app _ _ [_]); exact N1).
  assert (S1' : Forall sized ((new, sizeof_ntg_list_part_t) :: nodes1)) by (constructor; [done|by apply Forall_app in S1 as [S1 _] ]).
  destruct (palloc_ok malloc h0 fuel (ls_nalloc l * ls_size l) p1 _ I1 ltac:(lia)) as (elts & p2 & -> & H2). cbn [mbind option_bind].
  destruct (Z.eqb_spec elts 0) as [->|Helts].
  { eexists. split; [reflexivity|]. exists ((new, sizeof_ntg_list_part_t) :: nodes1). cbn [Z.eqb]. split; [done|].
    destruct (allocated_null _ _ _ _ _ H2 N1') as [J N]. apply (list_inv_pool _ p l ps rest p2); [done| | |done].
    - eapply pool_inv_perm; [|exact J]. rewrite app_comm_cons, !app_assoc. apply Permutation_app_tail, Permutation_app_comm.
    - eapply own_nodes_perm; [|exact N]. rewrite app_comm_cons, !app_assoc. apply Permutation_app_tail, Permutation_app_comm. }
  apply (part_pushed p l qs q rest p1 p2 new elts nodes1 I Hf Efull Hnew Hfresh Helts H2 N1'). constructor; [done|exact S1].
Qed.
End push.

(** A loop from the first part on meets the parts in order and ends. *)
Lemma list_walk h0 p l ps rest : list_inv h0 p l ps rest -> walk (S (length ps)) (ls_parts l) (first_part (ls_addr l)) = Some ps.
Proof. intros I. apply walk_segment; [apply I|lia]. Qed.

(** ** Creation *)

Section create.
Context (malloc : gmap Z Z -> Z -> Z -> option Z) {A : Allocator malloc} (h0 : gmap Z Z) (fuel : nat).

(** A list is created empty, with one part, or nothing is lost. *)
Theorem list_create_correct p live n size :
  pool_inv h0 p live -> own_nodes p live -> Forall sized live -> 0 < n -> 0 < size -> n * size < 9223372036854775808 ->
  exists r p', ntg_list_create malloc (S (S fuel)) n size p = Some (r, p') /\ exists more,
    match r with
    | Some l => exists ps, list_inv h0 p' l ps (more ++ live) /\ places size ps = [] /\ exists elts, l = list_init_fields (ls_addr l) elts n size
    | None => pool_inv h0 p' (more ++ live) /\ own_nodes p' (more ++ live)
    end.
Proof using A.
  intros I N Hs Hn Hsz Hr. unfold ntg_list_create. destruct (palloc_ok malloc h0 fuel sizeof_ntg_list_t p live I ltac:(done)) as (a & p1 & -> & H1).
  cbn [mbind option_bind]. destruct (Z.eqb_spec a 0) as [->|Ha]; [eexists _, _; split; [reflexivity|]; exists []; by apply (allocated_null _ _ _ _ _ H1)|].
  destruct (allocated_nodes _ _ _ _ _ _ Ha H1 N Hs) as (nodes1 & I1 & N1 & S1). rewrite u64_small by (width; nia).
  assert (N1' : own_nodes p1 ((a, sizeof_ntg_list_t) :: nodes1 ++ live)) by (apply (own_nodes_app _ _ [_]); exact N1).
  pose proof (piece_range _ _ _ _ I1 ltac:(by left)) as Hpos. cbn in Hpos.
  destruct (palloc_ok malloc h0 fuel (n * size) p1 _ I1 ltac:(nia)) as (e & p2 & -> & H2). cbn [mbind option_bind].
  destruct (Z.eqb_spec e 0) as [->|He].
  - eexists _, _. split; [reflexivity|]. exists ((a, sizeof_ntg_list_t) :: nodes1). by apply (allocated_null _ _ _ _ _ H2).
  - destruct (allocated_nodes _ _ _ _ _ _ He H2 N1' ltac:(by constructor)) as (nodes2 & I2 & N2 & S2). eexists _, _. split; [reflexivity|].
    exists (nodes2 ++ (a, sizeof_ntg_list_t) :: nodes1). exists [(first_part a, Part e 0 0)]. split; [|split; [done|by exists e] ].
    rewrite <-app_assoc. cbn [app]. split; try done; unfold list_init_fields; cbn [ls_parts ls_addr ls_last ls_size ls_nalloc].
    + cbn. unfold first_part. split; [done|]. split; [lia|]. split; [by rewrite lookup_singleton_eq|done].
    + apply NoDup_singleton.
    + exists [], (Part e 0 0). split; [done|]. split; [constructor|cbn; lia].
    + unfold pieces, room. cbn. by rewrite (Z.mul_comm size).
    + apply (own_nodes_app _ _ [_]). exact N2.
    + apply elem_of_app. right. by left.
Qed.
End create.

(** ** Examples *)

Definition list_pool : pool := default new_pool (snd <$> ntg_list_create bump_malloc 2 1 2 new_pool).
Definition a_list : plist := list_init_fields 192 248 1 2.

Lemma a_list_inv : exists ps rest, list_inv others_heap list_pool a_list ps rest /\ places 2 ps = [].
Proof.
  destruct (list_create_correct bump_malloc others_heap 0 new_pool [] 1 2 new_pool_inv) as (r & p & E & more & H).
  - split; constructor.
  - constructor.
  - lia.
  - lia.
  - lia.
  - assert (Er : (fun r => (ls_addr <$> r, pt_elts <$> (l ← r; ls_parts l !! 200))) <$> (fst <$> ntg_list_create bump_malloc 2 1 2 new_pool) = Some (Some 192, Some 248))
      by (vm_compute; reflexivity).
    rewrite E in Er. destruct r as [r|]; [|discriminate Er]. destruct H as (ps & H & Hp & elts & Hl). injection Er as Ea Ee. rewrite Hl, Ea in Ee.
    change (pt_elts <$> ls_parts (list_init_fields 192 elts 1 2) !! 200 = Some 248) in Ee. unfold list_init_fields, first_part in Ee. cbn [ls_parts] in Ee.
    change (192 + 8) with 200 in Ee. rewrite lookup_singleton_eq in Ee. injection Ee as ->. rewrite Ea in Hl. change (r = a_list) in Hl. subst r.
    assert (Ep : list_pool = p) by (unfold list_pool; by rewrite E). rewrite Ep. by exists ps, (more ++ []).
Qed.

Lemma list_push_correct_witness :
  exists l p ps more, ntg_list_push bump_malloc 2 a_list list_pool = Some (248, l, p) /\ list_inv others_heap p l ps more /\ places 2 ps = [248].
Proof.
  destruct a_list_inv as (ps & rest & I & Hp). destruct (list_push_correct bump_malloc others_heap 0 list_pool a_list ps rest I) as ([ [elt l] p] & E & more & H).
  assert (Ee : fst (fst (elt, l, p)) = 248).
  { pose proof (f_equal (fmap (fun r : Z * plist * pool => fst (fst r))) E) as F. vm_compute in F. cbn. congruence. }
  cbn in Ee. subst elt. destruct H as (ps' & H & _ & Hpl & _). exists l, p, ps', (more ++ rest). split; [exact E|]. split; [exact H|].
  change (ls_size a_list) with 2 in Hpl. by rewrite Hpl, Hp.
Defined.

(** Two elements in two parts. *)
Example two_parts :
  ('(e1, l, p) ← ntg_list_push bump_malloc 2 a_list list_pool; '(e2, l, p) ← ntg_list_push bump_malloc 2 l p;
   ps ← walk 3 (ls_parts l) (first_part (ls_addr l)); Some (e1, e2, map fst ps)) = Some (248, 280, [200; 256]).
Proof. vm_compute. reflexivity. Qed.
