(* ===== verification/Parse.v ===== *)
(** * Sizes, offsets and times of the configuration (src/utils/ntg_parse.c) *)

From S2P Require Import Prelude NtgString.

(** ** Sizes and offsets *)

(** The part [ntg_parse_size] and [ntg_parse_offset] share: the unit is the last
    byte; [giga] tells whether a G is one. *)
Definition size_unit (giga : bool) (unit : Z) : option (Z * Z) :=
  if (unit =? ch "K") || (unit =? ch "k") then Some (NTG_MAX_SIZE_T_VALUE / 1024, 1024)
  else if (unit =? ch "M") || (unit =? ch "m") then
    Some (NTG_MAX_SIZE_T_VALUE / (1024 * 1024), 1024 * 1024)
  else if giga && ((unit =? ch "G") || (unit =? ch "g")) then
    Some (NTG_MAX_SIZE_T_VALUE / (1024 * 1024 * 1024), 1024 * 1024 * 1024)
  else None.

(** Reading the last byte of an empty line is undefined. *)
Definition ntg_parse_size (line : bytes) : option Z :=
  unit ← last line;
  let '(len, max, scale) := match size_unit false unit with
                            | Some (max, scale) => ((length line - 1)%nat, max, scale)
                            | None => (length line, NTG_MAX_SIZE_T_VALUE, 1)
                            end in
  size ← ntg_atosz line len;
  if (size =? NTG_ERROR) || (size >? max) then Some NTG_ERROR else Some (s64 (size * scale)).

Definition ntg_parse_offset (line : bytes) : option Z :=
  unit ← last line;
  let '(len, max, scale) := match size_unit true unit with
                            | Some (max, scale) => ((length line - 1)%nat, max, scale)
                            | None => (length line, NTG_MAX_OFF_T_VALUE, 1)
                            end in
  offset ← ntg_atoof line len;
  if (offset =? NTG_ERROR) || (offset >? max) then Some NTG_ERROR else Some (s64 (offset * scale)).

(** ** Times *)

Definition cutoff : Z := NTG_MAX_INT_T_VALUE / 10.
Definition cutlim : Z := NTG_MAX_INT_T_VALUE mod 10.

(** The steps of [ntg_parse_time]. *)
Definition st_start : Z := 0.
Definition st_year : Z := 1.
Definition st_month : Z := 2.
Definition st_week : Z := 3.
Definition st_day : Z := 4.
Definition st_hour : Z := 5.
Definition st_min : Z := 6.
Definition st_sec : Z := 7.
Definition st_msec : Z := 8.
Definition st_last : Z := 9.

(** The [switch] on a byte that is no digit: the new step, and its scale in
    seconds (in milliseconds for [st_msec]); [Some None] is an error.  After an m
    the byte behind it is looked at, the last argument. *)
Definition time_unit (is_sec : bool) (step c : Z) (next : option Z) : option (option (Z * Z)) :=
  let unit (ok : bool) st scale := Some (if ok then Some (st, scale) else None) in
  if c =? ch "y" then unit (negb (step >? st_start)) st_year (60 * 60 * 24 * 365)
  else if c =? ch "M" then unit (negb (step >=? st_month)) st_month (60 * 60 * 24 * 30)
  else if c =? ch "w" then unit (negb (step >=? st_week)) st_week (60 * 60 * 24 * 7)
  else if c =? ch "d" then unit (negb (step >=? st_day)) st_day (60 * 60 * 24)
  else if c =? ch "h" then unit (negb (step >=? st_hour)) st_hour (60 * 60)
  else if c =? ch "m" then
    next ← next;
    if next =? ch "s" then unit (negb (is_sec || (step >=? st_msec))) st_msec 1
    else unit (negb (step >=? st_min)) st_min 60
  else if c =? ch "s" then unit (negb (step >=? st_sec)) st_sec 1
  else if c =? ch " " then unit (negb (step >=? st_sec)) st_last 1
  else Some None.

(** Skipping spaces. *)
Fixpoint skip_spaces (n : nat) (line : bytes) : option (bytes * nat) :=
  match n with
  | O => Some (line, O)
  | S n' => match line with
            | [] => None
            | c :: line' => if c =? ch " " then skip_spaces n' line' else Some (line, n)
            end
  end.

(** The loop, over the [n] bytes that are left; [Some None] is an error.  Each
    turn takes a byte at least, so [n] and one turn more are enough. *)
Fixpoint time_loop (fuel : nat) (is_sec : bool) (line : bytes) (n : nat) (value total : Z)
    (valid : bool) (step : Z) : option (option (Z * Z * bool)) :=
  match fuel, n with
  | O, _ => None
  | S _, O => Some (Some (value, total, valid))
  | S fuel, S n =>
      match line with
      | [] => None
      | c :: line =>
          if (ch "0" <=? c) && (c <=? ch "9") then
            if (value >=? cutoff) && ((value >? cutoff) || (c - ch "0" >? cutlim)) then Some None
            else time_loop fuel is_sec line n (s64 (value * 10 + (c - ch "0"))) total true step
          else
            unit ← time_unit is_sec step c (head line);
            match unit with
            | None => Some None
            | Some (step, scale) =>
                let max := NTG_MAX_INT_T_VALUE / scale in
                let '(scale, max) := if negb (step =? st_msec) && negb is_sec
                                     then (scale * 1000, max / 1000) else (scale, max) in
                if value >? max then Some None
                else
                  let value := s64 (value * scale) in
                  if total >? s64 (NTG_MAX_INT_T_VALUE - value) then Some None
                  else
                    let '(line, n) := if step =? st_msec then (tail line, pred n) else (line, n) in
                    '(line, n) ← skip_spaces n line;
                    time_loop fuel is_sec line n 0 (s64 (total + value)) valid step
            end
      end
  end.

Definition ntg_parse_time (line : bytes) (n : nat) (is_sec : bool) : option Z :=
  r ← time_loop (S n) is_sec line n 0 0 false (if is_sec then st_start else st_month);
  match r with
  | None => Some NTG_ERROR
  | Some (value, total, valid) =>
      if negb valid then Some NTG_ERROR
      else if negb is_sec && (value >? NTG_MAX_INT_T_VALUE / 1000) then Some NTG_ERROR
      else
        let value := if negb is_sec then s64 (value * 1000) else value in
        if total >? s64 (NTG_MAX_INT_T_VALUE - value) then Some NTG_ERROR
        else Some (s64 (total + value))
  end.

Example time_1 : ntg_parse_time (str "1h30m" ++ [0]) 5 true = Some 5400.
Proof. reflexivity. Qed.
Example time_2 : ntg_parse_time (str "2s 5ms" ++ [0]) 6 false = Some 2005.
Proof. reflexivity. Qed.
Example time_3 : ntg_parse_time (str "5m1h" ++ [0]) 4 true = Some NTG_ERROR.
Proof. reflexivity. Qed.
Example size_1 : ntg_parse_size (str "64k") = Some 65536.
Proof. reflexivity. Qed.

(** ** What a time means *)

Inductive time_unit_t := Uyear | Umonth | Uweek | Uday | Uhour | Umin | Usec | Umsec.

(** The order of the units, from the longest. *)
Definition unit_rank (u : time_unit_t) : Z :=
  match u with
  | Uyear => 1 | Umonth => 2 | Uweek => 3 | Uday => 4 | Uhour => 5 | Umin => 6 | Usec => 7 | Umsec => 8
  end.
Definition unit_text (u : time_unit_t) : bytes :=
  match u with
  | Uyear => str "y" | Umonth => str "M" | Uweek => str "w" | Uday => str "d"
  | Uhour => str "h" | Umin => str "m" | Usec => str "s" | Umsec => str "ms"
  end.
Definition unit_seconds (u : time_unit_t) : Z :=
  match u with
  | Uyear => 31536000 | Umonth => 2592000 | Uweek => 604800 | Uday => 86400
  | Uhour => 3600 | Umin => 60 | Usec => 1 | Umsec => 1
  end.

(** The length of a unit, in seconds or in milliseconds. *)
Definition unit_scale (is_sec : bool) (u : time_unit_t) : Z :=
  if is_sec then unit_seconds u else match u with Umsec => 1 | _ => unit_seconds u * 1000 end.

(** A number with its unit, and the spaces behind it. *)
Record time_token := TimeToken { tt_digits : bytes; tt_unit : time_unit_t; tt_spaces : nat }.

Definition token_text (t : time_token) : bytes :=
  tt_digits t ++ unit_text (tt_unit t) ++ replicate (tt_spaces t) (ch " ").
Definition tokens_text (ts : list time_token) : bytes := concat (map token_text ts).

Definition token_ok (t : time_token) : Prop := tt_digits t <> [] /\ forallb is_digit (tt_digits t) = true.

(** The units come in order, each once, behind that of rank [step]; there are no
    milliseconds where the time is in seconds. *)
Fixpoint in_order (is_sec : bool) (step : Z) (ts : list time_token) : bool :=
  match ts with
  | [] => true
  | t :: ts => (step <? unit_rank (tt_unit t)) && negb (is_sec && (unit_rank (tt_unit t) =? st_msec)) &&
      in_order is_sec (unit_rank (tt_unit t)) ts
  end.

Definition tokens_value (is_sec : bool) (ts : list time_token) : Z :=
  foldr (fun t v => dec_value (tt_digits t) * unit_scale is_sec (tt_unit t) + v) 0 ts.

(** ** Reading a number *)

Definition is_max (v : Z) : Prop := 0 <= v <= NTG_MAX_INT_T_VALUE.

Lemma cut_overflow v d :
  0 <= v -> 0 <= d <= 9 ->
  (v >=? cutoff) && ((v >? cutoff) || (d >? cutlim)) = (NTG_MAX_INT_T_VALUE <? v * 10 + d).
Proof.
  intros Hv Hd. unfold cutoff, cutlim.
  change (NTG_MAX_INT_T_VALUE / 10) with 922337203685477580. change (NTG_MAX_INT_T_VALUE mod 10) with 7.
  change NTG_MAX_INT_T_VALUE with 9223372036854775807. lia.
Qed.

Lemma time_loop_digits ds fuel is_sec line n v total valid step :
  forallb is_digit ds = true -> is_max v ->
  let v' := fold_left (fun v c => v * 10 + digit_val c) ds v in
  time_loop (length ds + fuel) is_sec (ds ++ line) (length ds + n) v total valid step =
  if NTG_MAX_INT_T_VALUE <? v' then Some None
  else time_loop fuel is_sec line n v' total (valid || bool_decide (ds <> [])) step.
Proof.
  revert v valid. induction ds as [|c ds IH]; intros v valid Hd Hv; cbn [fold_left length app Nat.add].
  { unfold is_max in Hv. rewrite (proj2 (Z.ltb_ge _ _)) by lia. by rewrite orb_false_r. }
  cbn [forallb] in Hd. apply andb_true_iff in Hd as [Hc Hd]. pose proof (is_digit_range _ Hc) as Hr.
  assert (Hdv : c - ch "0" = digit_val c /\ 0 <= digit_val c <= 9) by (unfold digit_val; chars; lia).
  destruct Hdv as [Hdv Hdr]. cbn [time_loop].
  assert ((ch "0" <=? c) && (c <=? ch "9") = true) as -> by (chars; lia). rewrite Hdv.
  unfold is_max in Hv. rewrite cut_overflow by lia.
  pose proof (dec_value_cons_range ds (v * 10 + digit_val c) Hd ltac:(lia)) as Hge.
  destruct (Z.ltb_spec NTG_MAX_INT_T_VALUE (v * 10 + digit_val c)).
  { by rewrite (proj2 (Z.ltb_lt _ _)) by lia. }
  rewrite s64_small by (unfold NTG_MAX_INT_T_VALUE in *; width; lia).
  rewrite IH by (done || (unfold is_max; lia)). rewrite (bool_decide_eq_true_2 (c :: ds <> [])) by done. by rewrite orb_true_r.
Qed.

Lemma skip_spaces_spec k line n c :
  head line = Some c -> c <> ch " " \/ n = O ->
  skip_spaces (k + n) (replicate k (ch " ") ++ line) = Some (line, n).
Proof.
  intros Hl Hc. induction k as [|k IH]; cbn [replicate app Nat.add skip_spaces].
  - destruct n as [|n]; [done|]. destruct line as [|c' line]; [discriminate Hl|]. injection Hl as ->.
    cbn [skip_spaces]. destruct (Z.eqb_spec c (ch " ")); [|done]. naive_solver.
  - by rewrite Z.eqb_refl.
Qed.

(** What stands behind an m must not be an s. *)
Definition not_s (line : bytes) : Prop := exists c, head line = Some c /\ c <> ch "s".

Lemma time_unit_spec is_sec step u rest :
  not_s rest -> 0 <= step ->
  exists c line, unit_text u ++ rest = c :: line /\ is_digit c = false /\
    time_unit is_sec step c (head line) =
    Some (if (step <? unit_rank u) && negb (is_sec && (unit_rank u =? st_msec))
          then Some (unit_rank u, unit_seconds u) else None) /\
    (if unit_rank u =? st_msec then tail line else line) = rest.
Proof.
  intros (c & Hc & Hs) Hstep. destruct rest as [|c' rest]; [discriminate Hc|]. injection Hc as ->.
  destruct u; (eexists _, _; split; [reflexivity|]; split; [reflexivity|]; split; [|reflexivity]);
    unfold time_unit; chars; cbn [Z.eqb Pos.eqb head unit_rank unit_seconds mbind option_bind].
  6: rewrite (proj2 (Z.eqb_neq c _)) by (chars; done).
  all: rewrite ?Z.gtb_ltb, ?Z.geb_leb; unfold st_start, st_year, st_month, st_week, st_day, st_hour, st_min, st_sec, st_msec;
    cbn [Z.eqb Pos.eqb]; rewrite ?andb_false_r; cbn [negb]; rewrite ?andb_true_r.
  all: destruct is_sec; cbn [orb andb negb];
    repeat match goal with |- context [?a <? ?b] => destruct (Z.ltb_spec a b) end;
    repeat match goal with |- context [?a <=? ?b] => destruct (Z.leb_spec a b) end; try done; lia.
Qed.

(** A unit applied to its number. *)
Lemma unit_limit is_sec u v :
  0 <= v ->
  let scale := unit_seconds u in let max := NTG_MAX_INT_T_VALUE / scale in
  let '(scale, max) := if negb (unit_rank u =? st_msec) && negb is_sec
                       then (scale * 1000, max / 1000) else (scale, max) in
  (is_sec = true -> unit_rank u <> st_msec) ->
  scale = unit_scale is_sec u /\ (v >? max) = (NTG_MAX_INT_T_VALUE <? v * unit_scale is_sec u).
Proof.
  intros Hv. assert (H : forall a b m, 0 < b -> m = a / b -> (v >? m) = (a <? v * b)).
  { intros a b m Hb ->. rewrite Z.gtb_ltb. apply eq_true_iff_eq. rewrite !Z.ltb_lt.
    Z.to_euclidean_division_equations; nia. }
  destruct u, is_sec; cbn -[NTG_MAX_INT_T_VALUE Z.div Z.mul]; intros Hm;
    (split; [try reflexivity|apply H; [lia|try reflexivity; try (rewrite Z.mul_1_r; reflexivity)]]).
  all: try (exfalso; by apply Hm).
  all: rewrite ?Z.div_div by lia; try reflexivity.
Qed.

Lemma unit_scale_pos is_sec u : 1 <= unit_scale is_sec u.
Proof. destruct u, is_sec; cbn; lia. Qed.

(** ** Reading the tokens *)

(** What stands behind a token. *)
Definition ends_token (line : bytes) (n : nat) : Prop :=
  not_s line /\ (n = O \/ exists c, head line = Some c /\ c <> ch " ").

Lemma token_starts t line : token_ok t -> exists c, head (token_text t ++ line) = Some c /\ is_digit c = true.
Proof.
  intros [Hne Hd]. unfold token_text. destruct (tt_digits t) as [|c ds]; [done|].
  exists c. cbn in Hd. apply andb_true_iff in Hd as [Hc _]. by split.
Qed.

Lemma digit_not c : is_digit c = true -> c <> ch "s" /\ c <> ch " ".
Proof. intros H%is_digit_range. chars. lia. Qed.

Lemma ends_token_tokens ts line n :
  Forall token_ok ts -> ends_token line n -> ends_token (tokens_text ts ++ line) (length (tokens_text ts) + n).
Proof.
  destruct ts as [|t ts]; [done|]. intros Ht _. apply Forall_cons in Ht as [Ht _].
  unfold tokens_text. cbn [map concat]. rewrite <-app_assoc.
  destruct (token_starts t (concat (map token_text ts) ++ line) Ht) as (c & Hc & Hd).
  destruct (digit_not c Hd). split; [by exists c|]. right. by exists c.
Qed.

Lemma spaces_not_s k line : not_s line -> not_s (replicate k (ch " ") ++ line).
Proof. destruct k; [done|]. intros _. exists (ch " "). by split. Qed.

(** A turn at a unit. *)
Lemma time_loop_unit fuel is_sec u k line n v total valid step :
  is_max v -> is_max total -> 0 <= step -> ends_token line n ->
  time_loop (S fuel) is_sec (unit_text u ++ replicate k (ch " ") ++ line)
    (length (unit_text u) + (k + n)) v total valid step =
  if (step <? unit_rank u) && negb (is_sec && (unit_rank u =? st_msec)) &&
     (total + v * unit_scale is_sec u <=? NTG_MAX_INT_T_VALUE)
  then time_loop fuel is_sec line n 0 (total + v * unit_scale is_sec u) valid (unit_rank u)
  else Some None.
Proof.
  intros Hv Htot Hstep [Hs Hsp]. unfold is_max in *.
  destruct (time_unit_spec is_sec step u (replicate k (ch " ") ++ line) (spaces_not_s _ _ Hs) Hstep)
    as (c & line1 & E & Hc & Hu & Hl).
  assert (Hlen : (length (unit_text u) = 1 + (if Z.eqb (unit_rank u) st_msec then 1 else 0))%nat) by (by destruct u).
  rewrite E, Hlen. cbn [time_loop Nat.add].
  assert ((ch "0" <=? c) && (c <=? ch "9") = false) as ->.
  { unfold is_digit in Hc. exact Hc. }
  rewrite Hu. cbn [mbind option_bind].
  destruct (step <? unit_rank u); cbn [andb]; [|done].
  destruct (is_sec && (unit_rank u =? st_msec)) eqn:Ems; cbn [negb andb]; [done|].
  pose proof (unit_limit is_sec u v ltac:(lia)) as HL. cbv zeta in HL.
  destruct (if negb (unit_rank u =? st_msec) && negb is_sec then _ else _) as [scale max].
  destruct HL as [-> ->].
  { intros ->. cbn in Ems. by apply Z.eqb_neq. }
  pose proof (unit_scale_pos is_sec u) as Hpos. set (p := v * unit_scale is_sec u).
  assert (0 <= p) by (subst p; nia).
  destruct (Z.ltb_spec NTG_MAX_INT_T_VALUE p).
  { by rewrite (proj2 (Z.leb_gt _ _)) by lia. }
  unfold NTG_MAX_INT_T_VALUE in *.
  rewrite !(s64_small p), (s64_small (_ - p)) by (width; lia). rewrite Z.gtb_ltb.
  destruct (Z.ltb_spec (9223372036854775807 - p) total).
  { by rewrite (proj2 (Z.leb_gt _ _)) by lia. }
  rewrite (proj2 (Z.leb_le _ _)) by lia. rewrite s64_small by (width; lia).
  assert (Hskip : skip_spaces (k + n) (replicate k (ch " ") ++ line) = Some (line, n)).
  { destruct Hs as (c0 & Hc0 & _). destruct Hsp as [->|(c1 & Hc1 & Hn)].
    - apply (skip_spaces_spec _ _ _ c0); [done|by right].
    - apply (skip_spaces_spec _ _ _ c1); [done|by left]. }
  destruct (unit_rank u =? st_msec); cbn [Nat.add pred tail]; [cbn [tail] in Hl|]; rewrite Hl, Hskip; done.
Qed.

Lemma dec_value_nonneg ds : forallb is_digit ds = true -> 0 <= dec_value ds.
Proof. intros Hd. exact (dec_value_cons_range ds 0 Hd ltac:(lia)). Qed.

Lemma tokens_value_nonneg is_sec ts : Forall token_ok ts -> 0 <= tokens_value is_sec ts.
Proof.
  induction 1 as [|t ts [_ Hd] Ht IH]; cbn [tokens_value foldr]; [lia|].
  fold (tokens_value is_sec ts). pose proof (unit_scale_pos is_sec (tt_unit t)).
  pose proof (dec_value_nonneg _ Hd). nia.
Qed.

Lemma time_loop_tokens ts fuel is_sec line n total valid step :
  Forall token_ok ts -> is_max total -> 0 <= step -> ends_token line n ->
  (length (tokens_text ts) + n < fuel)%nat ->
  exists fuel' step', (n < fuel')%nat /\
    time_loop fuel is_sec (tokens_text ts ++ line) (length (tokens_text ts) + n) 0 total valid step =
    if in_order is_sec step ts && (total + tokens_value is_sec ts <=? NTG_MAX_INT_T_VALUE)
    then time_loop fuel' is_sec line n 0 (total + tokens_value is_sec ts)
           (valid || bool_decide (ts <> [])) step'
    else Some None.
Proof.
  revert fuel total valid step. induction ts as [|t ts IH]; intros fuel total valid step Ht Htot Hstep Hend Hf.
  { exists fuel, step. split; [exact Hf|]. cbn [in_order tokens_value foldr andb]. unfold is_max in Htot.
    rewrite Z.add_0_r, (proj2 (Z.leb_le _ _)) by lia. by rewrite orb_false_r. }
  apply Forall_cons in Ht as [[Hne Hd] Ht].
  assert (Elen : length (tokens_text (t :: ts)) = (length (tt_digits t) + (length (unit_text (tt_unit t)) +
    (tt_spaces t + length (tokens_text ts))))%nat).
  { unfold tokens_text. cbn [map concat]. unfold token_text. rewrite !length_app, length_replicate. lia. }
  assert (Etext : tokens_text (t :: ts) ++ line = tt_digits t ++ unit_text (tt_unit t) ++
    replicate (tt_spaces t) (ch " ") ++ tokens_text ts ++ line).
  { unfold tokens_text. cbn [map concat]. unfold token_text. by rewrite <-!app_assoc. }
  rewrite Etext, Elen. rewrite Elen in Hf.
  set (m := (length (tokens_text ts) + n)%nat).
  replace (length (tt_digits t) + _ + n)%nat with
    (length (tt_digits t) + (length (unit_text (tt_unit t)) + (tt_spaces t + m)))%nat by (subst m; lia).
  replace fuel with (length (tt_digits t) + S (fuel - length (tt_digits t) - 1))%nat by lia.
  rewrite time_loop_digits by (done || (unfold is_max; done)). cbv zeta. fold (dec_value (tt_digits t)).
  rewrite bool_decide_eq_true_2 by done. rewrite orb_true_r.
  pose proof (dec_value_nonneg _ Hd) as Hv0. cbn [in_order tokens_value foldr]. fold (tokens_value is_sec ts).
  pose proof (unit_scale_pos is_sec (tt_unit t)) as Hpos.
  pose proof (tokens_value_nonneg is_sec ts Ht) as Htv.
  set (v := dec_value (tt_digits t)) in *. set (p := v * unit_scale is_sec (tt_unit t)) in *.
  unfold is_max in Htot. assert (v <= p) by (subst p; nia).
  destruct (Z.ltb_spec NTG_MAX_INT_T_VALUE v).
  { exists (S n), 0. split; [lia|]. rewrite (proj2 (Z.leb_gt _ _)) by lia. by rewrite andb_false_r. }
  pose proof (ends_token_tokens ts line n Ht Hend) as Hend'. fold m in Hend'.
  rewrite time_loop_unit by (done || (unfold is_max; lia)). fold p.
  destruct ((step <? _) && _) eqn:Eo; cbn [andb]; [|exists (S n), 0; split; [lia|done]].
  destruct (Z.leb_spec (total + p) NTG_MAX_INT_T_VALUE).
  2: { exists (S n), 0. split; [lia|]. rewrite (proj2 (Z.leb_gt _ _)) by lia. by rewrite andb_false_r. }
  destruct (IH (fuel - length (tt_digits t) - 1)%nat (total + p) true (unit_rank (tt_unit t)))
    as (fuel' & step' & Hf' & E); [done|unfold is_max; lia|by destruct (tt_unit t)|done| |].
  { destruct (unit_text (tt_unit t)) eqn:Eu; [by destruct (tt_unit t)|]. cbn [length] in Hf. lia. }
  exists fuel', step'. split; [done|]. fold m in E. rewrite E, Z.add_assoc.
  rewrite (bool_decide_eq_true_2 (t :: ts <> [])) by done. by rewrite orb_true_r.
Qed.

(** A time is read exactly when its units come in order, each once, from
    years or, in milliseconds, from weeks down, the last number without a unit
    being seconds: the result is the sum of the numbers times their units; it
    is an error when the units are not in order, or when the sum does not fit
    in 64 bits, however large the numbers are. *)
Theorem parse_time_correct is_sec ts bare rest :
  Forall token_ok ts -> forallb is_digit bare = true -> ts <> [] \/ bare <> [] -> not_s rest ->
  let total := tokens_value is_sec ts + dec_value bare * (if is_sec then 1 else 1000) in
  ntg_parse_time (tokens_text ts ++ bare ++ rest) (length (tokens_text ts) + length bare) is_sec =
  Some (if in_order is_sec (if is_sec then st_start else st_month) ts && (total <=? NTG_MAX_INT_T_VALUE)
        then total else NTG_ERROR).
Proof.
  intros Ht Hd Hne Hs total. unfold ntg_parse_time. set (step := if is_sec then st_start else st_month).
  assert (Hend : ends_token (bare ++ rest) (length bare)).
  { destruct bare as [|c bare]; [by split; [|left]|]. cbn in Hd. apply andb_true_iff in Hd as [Hc _].
    destruct (digit_not c Hc). split; [by exists c|right; by exists c]. }
  destruct (time_loop_tokens ts (S (length (tokens_text ts) + length bare)) is_sec (bare ++ rest) (length bare)
    0 false step) as (fuel & step' & Hf & E); [done|unfold is_max; done|by destruct is_sec|done|lia|].
  rewrite E. clear E. rewrite Z.add_0_l.
  pose proof (dec_value_nonneg _ Hd) as Hv0. pose proof (tokens_value_nonneg is_sec ts Ht) as Htv.
  assert (Hb : dec_value bare <= dec_value bare * (if is_sec then 1 else 1000)) by (destruct is_sec; lia).
  destruct (in_order is_sec step ts); cbn [andb]; [|done].
  destruct (Z.leb_spec (tokens_value is_sec ts) NTG_MAX_INT_T_VALUE).
  2: { cbn [mbind option_bind]. by rewrite (proj2 (Z.leb_gt _ _)) by lia. }
  destruct (fuel - length bare)%nat as [|f] eqn:Ef; [lia|].
  replace fuel with (length bare + S f)%nat by lia. rewrite <-(Nat.add_0_r (length bare)) at 2.
  rewrite time_loop_digits by (done || (unfold is_max; done)). cbv zeta. fold (dec_value bare).
  destruct (Z.ltb_spec NTG_MAX_INT_T_VALUE (dec_value bare)).
  { cbn [mbind option_bind]. by rewrite (proj2 (Z.leb_gt _ _)) by lia. }
  cbn [time_loop mbind option_bind orb].
  assert (bool_decide (ts <> []) || bool_decide (bare <> []) = true) as ->.
  { apply orb_true_iff. rewrite !bool_decide_eq_true. done. }
  cbn [orb negb].
  unfold NTG_MAX_INT_T_VALUE in *. change (9223372036854775807 / 1000) with 9223372036854775.
  subst total. cbv zeta. rewrite !Z.gtb_ltb. destruct is_sec; cbn [negb andb].
  - rewrite Z.mul_1_r, s64_small by (width; lia).
    repeat match goal with |- context [?a <? ?b] => destruct (Z.ltb_spec a b) end;
      destruct (Z.leb_spec (tokens_value true ts + dec_value bare) 9223372036854775807); try lia; [done|].
    rewrite s64_small by (width; lia). done.
  - destruct (Z.ltb_spec 9223372036854775 (dec_value bare)).
    { by rewrite (proj2 (Z.leb_gt _ _)) by lia. }
    rewrite (s64_small (dec_value bare * 1000)), s64_small by (width; lia).
    repeat match goal with |- context [?a <? ?b] => destruct (Z.ltb_spec a b) end;
      destruct (Z.leb_spec (tokens_value false ts + dec_value bare * 1000) 9223372036854775807); try lia; [done|].
    rewrite s64_small by (width; lia). done.
Qed.

(** ** Sizes *)

(** The limit and the factor of a unit. *)
Lemma size_unit_scale giga unit max scale :
  size_unit giga unit = Some (max, scale) -> 1 < scale /\ max = NTG_MAX_SIZE_T_VALUE / scale.
Proof. unfold size_unit. repeat case_match; intros [= <- <-]; split; try lia; reflexivity. Qed.

Lemma unit_not_digit giga unit r : size_unit giga unit = Some r -> is_digit unit = false.
Proof.
  unfold size_unit. intros H. destruct (is_digit unit) eqn:E; [|done]. apply is_digit_range in E.
  revert H. chars. repeat match goal with |- context [?a =? ?b] => destruct (Z.eqb_spec a b) end;
    try lia. by destruct giga.
Qed.

(** The number in front of the unit. *)
Lemma number_spec line n :
  (0 < n <= length line)%nat ->
  let ds := take n line in
  (forallb is_digit ds = true -> is_u64 (dec_value ds) ->
   ntg_atosz line n = Some (if dec_value ds <=? NTG_MAX_SIZE_T_VALUE then dec_value ds else NTG_ERROR)) /\
  (forallb is_digit ds = false -> ntg_atosz line n = Some NTG_ERROR).
Proof.
  intros Hn ds.
  assert (E : ntg_atosz line n = Some (if forallb is_digit ds
        then let v := s64 (dec_value ds) in if v <? 0 then NTG_ERROR else v else NTG_ERROR)).
  { unfold ntg_atosz. destruct n; [lia|]. by apply (atoi_loop_spec line _ (proj2 Hn) 0). }
  rewrite E. split; intros Hd; rewrite Hd; [|done]. intros Hu. f_equal. cbv zeta.
  pose proof (dec_value_nonneg _ Hd) as Hv. set (v := dec_value ds) in *. unfold NTG_MAX_SIZE_T_VALUE.
  destruct (Z.leb_spec v 9223372036854775807).
  - rewrite s64_small by (width; lia). by rewrite (proj2 (Z.ltb_ge _ _)) by lia.
  - assert (Hs : s64 v < 0) by mlia. by rewrite (proj2 (Z.ltb_lt _ _)) by lia.
Qed.

(** The limit, and the multiplication behind it. *)
Lemma scaled_result v scale :
  0 <= v -> 1 <= scale ->
  let size := if v <=? NTG_MAX_SIZE_T_VALUE then v else NTG_ERROR in
  (if (size =? NTG_ERROR) || (size >? NTG_MAX_SIZE_T_VALUE / scale) then Some NTG_ERROR
   else Some (s64 (size * scale))) =
  Some (if v * scale <=? NTG_MAX_SIZE_T_VALUE then v * scale else NTG_ERROR).
Proof.
  intros Hv Hs. unfold NTG_MAX_SIZE_T_VALUE, NTG_ERROR.
  destruct (Z.leb_spec v 9223372036854775807); cbv zeta.
  - rewrite (proj2 (Z.eqb_neq _ _)) by lia. cbn [orb]. rewrite Z.gtb_ltb.
    destruct (Z.ltb_spec (9223372036854775807 / scale) v), (Z.leb_spec (v * scale) 9223372036854775807);
      try done.
    + exfalso. Z.to_euclidean_division_equations; nia.
    + f_equal. apply s64_small. width. nia.
    + exfalso. Z.to_euclidean_division_equations; nia.
  - cbn [Z.eqb orb]. rewrite (proj2 (Z.leb_gt _ _)) by nia. done.
Qed.

Definition parse_scaled (giga : bool) : bytes -> option Z :=
  if giga then ntg_parse_offset else ntg_parse_size.

Lemma parse_scaled_unit giga ds unit max scale :
  size_unit giga unit = Some (max, scale) ->
  parse_scaled giga (ds ++ [unit]) =
  (size ← ntg_atosz (ds ++ [unit]) (length ds);
   if (size =? NTG_ERROR) || (size >? NTG_MAX_SIZE_T_VALUE / scale) then Some NTG_ERROR
   else Some (s64 (size * scale))).
Proof.
  intros Hu. destruct (size_unit_scale _ _ _ _ Hu) as [_ ->].
  destruct giga; unfold parse_scaled, ntg_parse_size, ntg_parse_offset;
    rewrite last_snoc; cbn [mbind option_bind]; rewrite Hu, length_app; cbn [length];
    by replace (length ds + 1 - 1)%nat with (length ds) by lia.
Qed.

Lemma parse_scaled_plain giga line c :
  last line = Some c -> size_unit giga c = None ->
  parse_scaled giga line =
  (size ← ntg_atosz line (length line);
   if (size =? NTG_ERROR) || (size >? NTG_MAX_SIZE_T_VALUE / 1) then Some NTG_ERROR
   else Some (s64 (size * 1))).
Proof.
  intros Hl Hu. destruct giga; unfold parse_scaled, ntg_parse_size, ntg_parse_offset;
    rewrite Hl; cbn [mbind option_bind]; by rewrite Hu.
Qed.

(** A size, or an offset, of a number and perhaps a unit is the number times
    the unit when that fits a signed 64-bit integer, and an error otherwise,
    for all numbers below 2^64; without a number, or with a byte in it that is
    no digit, it is an error. *)
Theorem parse_size_correct giga ds suffix scale :
  (suffix = [] /\ scale = 1 /\ (exists c, last ds = Some c /\ size_unit giga c = None)) \/
  (exists unit max, suffix = [unit] /\ size_unit giga unit = Some (max, scale)) ->
  (forallb is_digit ds = true -> is_u64 (dec_value ds)) ->
  parse_scaled giga (ds ++ suffix) =
  Some (if bool_decide (ds <> []) && forallb is_digit ds && (dec_value ds * scale <=? NTG_MAX_SIZE_T_VALUE)
        then dec_value ds * scale else NTG_ERROR).
Proof.
  intros Hsuf Hu.
  assert (Hcore : forall line, take (length ds) line = ds -> (length ds <= length line)%nat -> 1 <= scale ->
    (size ← ntg_atosz line (length ds);
     if (size =? NTG_ERROR) || (size >? NTG_MAX_SIZE_T_VALUE / scale) then Some NTG_ERROR
     else Some (s64 (size * scale))) =
    Some (if bool_decide (ds <> []) && forallb is_digit ds && (dec_value ds * scale <=? NTG_MAX_SIZE_T_VALUE)
          then dec_value ds * scale else NTG_ERROR)).
  { intros line Ht Hl Hs. destruct ds as [|d ds]; [done|]. rewrite bool_decide_eq_true_2 by done. cbn [andb].
    destruct (number_spec line (length (d :: ds)) ltac:(cbn [length] in *; lia)) as [H1 H2]. rewrite Ht in H1, H2.
    destruct (forallb is_digit (d :: ds)) eqn:Hd; cbn [andb].
    - rewrite H1 by auto. cbn [mbind option_bind]. apply scaled_result; [by apply dec_value_nonneg|done].
    - by rewrite H2. }
  destruct Hsuf as [(-> & -> & c & Hc & Hn)|(unit & max & -> & Hs)].
  - rewrite app_nil_r, (parse_scaled_plain _ _ c) by done. apply Hcore; [by rewrite firstn_all|done|done].
  - rewrite (parse_scaled_unit _ _ _ _ _ Hs). destruct (size_unit_scale _ _ _ _ Hs).
    apply Hcore; [by rewrite take_app_length|rewrite length_app; lia|lia].
Qed.

(** ** Examples *)

Lemma parse_size_correct_witness :
  ntg_parse_size (str "64k") = Some 65536 /\ ntg_parse_offset (str "9g") = Some 9663676416.
Proof.
  split.
  - apply (parse_size_correct false (str "64") (str "k") 1024).
    + right. by eexists _, _.
    + intros _. vm_compute. split; [discriminate|reflexivity].
  - apply (parse_size_correct true (str "9") (str "g") (1024 * 1024 * 1024)).
    + right. by eexists _, _.
    + intros _. vm_compute. split; [discriminate|reflexivity].
Defined.

Definition example_tokens : list time_token :=
  [TimeToken (str "1") Uhour 1; TimeToken (str "30") Umin 0].

Lemma parse_time_correct_witness : ntg_parse_time (str "1h 30m15" ++ [0]) 8 true = Some 5415.
Proof.
  apply (parse_time_correct true example_tokens (str "15") [0]).
  - repeat constructor; discriminate.
  - reflexivity.
  - left. discriminate.
  - exists 0. split; [reflexivity|]. vm_compute. discriminate.
Defined.

(** ** What the code gets wrong *)

(** A number of 2^64 and more wraps around, and is accepted. *)
Lemma size_wraps : ntg_parse_size (str "18446744073709551617k") = Some 1024.
Proof. reflexivity. Qed.

(** An empty line is read in front of its first byte. *)
Lemma empty_size : ntg_parse_size [] = None /\ ntg_parse_offset [] = None.
Proof. split; reflexivity. Qed.

(** The byte behind the line decides what a final m means. *)
Lemma minute_looks_behind :
  ntg_parse_time (str "5m;") 2 false = Some 300000 /\ ntg_parse_time (str "5ms;") 2 false = Some 5.
Proof. split; reflexivity. Qed.
