(* ===== verification/ConfToken.v ===== *)
(** * The tokens of the configuration (ntg_conf_read_token of src/utils/ntg_conf_file.c)

    A token is a directive with its words, up to a semicolon or a brace.  The
    file is read through a buffer that is refilled when it is used up; the
    theorems show that the result does not depend on that, and that a directive
    that is written with quotes is read back.  The parameter of the command line
    is a buffer without a file behind it. *)

From S2P Require Import Prelude.

Definition NTG_CONF_BUFFER : nat := 4096.
Definition NTG_CONF_BLOCK_START : Z := 1.
Definition NTG_CONF_BLOCK_DONE : Z := 2.
Definition NTG_CONF_FILE_DONE : Z := 3.

(** ** One character *)

(** The variables of the function, the words found so far, and the line of the
    file; [tk_start] is an index into the buffer. *)
Record tok := Tok {
  tk_need_space : bool;
  tk_last_space : bool;
  tk_sharp_comment : bool;
  tk_variable : bool;
  tk_quoted : bool;
  tk_s_quoted : bool;
  tk_d_quoted : bool;
  tk_start : nat;
  tk_start_line : Z;
  tk_line : Z;
  tk_args : list bytes }.

Definition set_spaces need last t := Tok need last (tk_sharp_comment t) (tk_variable t) (tk_quoted t) (tk_s_quoted t) (tk_d_quoted t)
  (tk_start t) (tk_start_line t) (tk_line t) (tk_args t).
Definition set_sharp v t := Tok (tk_need_space t) (tk_last_space t) v (tk_variable t) (tk_quoted t) (tk_s_quoted t) (tk_d_quoted t)
  (tk_start t) (tk_start_line t) (tk_line t) (tk_args t).
Definition set_variable v t := Tok (tk_need_space t) (tk_last_space t) (tk_sharp_comment t) v (tk_quoted t) (tk_s_quoted t) (tk_d_quoted t)
  (tk_start t) (tk_start_line t) (tk_line t) (tk_args t).
Definition set_quoted v t := Tok (tk_need_space t) (tk_last_space t) (tk_sharp_comment t) (tk_variable t) v (tk_s_quoted t) (tk_d_quoted t)
  (tk_start t) (tk_start_line t) (tk_line t) (tk_args t).
Definition set_s_quoted v t := Tok (tk_need_space t) (tk_last_space t) (tk_sharp_comment t) (tk_variable t) (tk_quoted t) v (tk_d_quoted t)
  (tk_start t) (tk_start_line t) (tk_line t) (tk_args t).
Definition set_d_quoted v t := Tok (tk_need_space t) (tk_last_space t) (tk_sharp_comment t) (tk_variable t) (tk_quoted t) (tk_s_quoted t) v
  (tk_start t) (tk_start_line t) (tk_line t) (tk_args t).
Definition set_start v line t := Tok (tk_need_space t) (tk_last_space t) (tk_sharp_comment t) (tk_variable t) (tk_quoted t) (tk_s_quoted t)
  (tk_d_quoted t) v line (tk_line t) (tk_args t).
Definition set_line v t := Tok (tk_need_space t) (tk_last_space t) (tk_sharp_comment t) (tk_variable t) (tk_quoted t) (tk_s_quoted t)
  (tk_d_quoted t) (tk_start t) (tk_start_line t) v (tk_args t).
Definition set_args v t := Tok (tk_need_space t) (tk_last_space t) (tk_sharp_comment t) (tk_variable t) (tk_quoted t) (tk_s_quoted t)
  (tk_d_quoted t) (tk_start t) (tk_start_line t) (tk_line t) v.

Definition is_space (c : Z) : bool := (c =? ch " ") || (c =? 9) || (c =? CR) || (c =? LF).
Definition QUOTE : Z := 34.
Definition APOS : Z := 39.
Definition BACKSLASH : Z := 92.

(** The copy of a word: [n] bytes of [src], behind which the delimiter stands. *)
Fixpoint copy_word (n : nat) (src : bytes) : bytes :=
  match n, src with
  | S n, c :: src' =>
      if c =? BACKSLASH then
        match src' with
        | d :: src'' =>
            if (d =? QUOTE) || (d =? APOS) || (d =? BACKSLASH) then d :: copy_word (pred n) src''
            else if d =? ch "t" then 9 :: copy_word (pred n) src''
            else if d =? ch "r" then CR :: copy_word (pred n) src''
            else if d =? ch "n" then LF :: copy_word (pred n) src''
            else c :: copy_word n src'
        | [] => [c]
        end
      else c :: copy_word n src'
  | _, _ => []
  end.

Inductive char_result := Next (t : tok) | Return (rc : Z) (t : tok).

Section token.
(** Whether the array and the pool have memory for word number [n]. *)
Context (push_ok word_ok : nat -> bool).

(** The end of a word: [pos] is behind the delimiter [c]. *)
Definition end_word (pos : nat) (data : bytes) (c : Z) (t : tok) : char_result :=
  let n := length (tk_args t) in
  if negb (push_ok n && word_ok n) then Return NTG_ERROR t
  else
    let t := set_args (tk_args t ++ [copy_word (pos - 1 - tk_start t) (take (pos - tk_start t) (drop (tk_start t) data))]) t in
    if c =? ch ";" then Return NTG_OK t else if c =? ch "{" then Return NTG_CONF_BLOCK_START t else Next t.

(** Behind a space. *)
Definition start_word (pos : nat) (c : Z) (t : tok) : char_result :=
  if is_space c then Next t
  else
    let t := set_start (pos - 1) (tk_line t) t in
    if (c =? ch ";") || (c =? ch "{") then
      if bool_decide (tk_args t = []) then Return NTG_ERROR t
      else Return (if c =? ch "{" then NTG_CONF_BLOCK_START else NTG_OK) t
    else if c =? ch "}" then Return (if bool_decide (tk_args t = []) then NTG_CONF_BLOCK_DONE else NTG_ERROR) t
    else if c =? ch "#" then Next (set_sharp true t)
    else
      let t := set_spaces (tk_need_space t) false t in
      if c =? BACKSLASH then Next (set_quoted true t)
      else if c =? QUOTE then Next (set_start pos (tk_start_line t) (set_d_quoted true t))
      else if c =? APOS then Next (set_start pos (tk_start_line t) (set_s_quoted true t))
      else Next t.

(** Within a word. *)
Definition in_word (pos : nat) (data : bytes) (c : Z) (t : tok) : char_result :=
  if (c =? ch "{") && tk_variable t then Next t
  else
    let t := set_variable false t in
    if c =? BACKSLASH then Next (set_quoted true t)
    else if c =? ch "$" then Next (set_variable true t)
    else if tk_d_quoted t then
      if c =? QUOTE then end_word pos data c (set_d_quoted false (set_spaces true (tk_last_space t) t)) else Next t
    else if tk_s_quoted t then
      if c =? APOS then end_word pos data c (set_s_quoted false (set_spaces true (tk_last_space t) t)) else Next t
    else if is_space c || (c =? ch ";") || (c =? ch "{") then end_word pos data c (set_spaces (tk_need_space t) true t)
    else Next t.

(** The body of the loop behind the refill: [c] is the byte before [pos]. *)
Definition conf_char (pos : nat) (data : bytes) (c : Z) (t : tok) : char_result :=
  let t := if c =? LF then set_sharp false (set_line (u64 (tk_line t + 1)) t) else t in
  if tk_sharp_comment t then Next t
  else if tk_quoted t then Next (set_quoted false t)
  else if tk_need_space t then
    if is_space c then Next (set_spaces false true t)
    else if c =? ch ";" then Return NTG_OK t
    else if c =? ch "{" then Return NTG_CONF_BLOCK_START t
    else if c =? ch ")" then start_word pos c (set_spaces false true t)
    else Return NTG_ERROR t
  else if tk_last_space t then start_word pos c t
  else in_word pos data c t.

(** ** The buffer *)

(** [b->start] to [b->last], [b->pos], the room of the buffer, and the offset in
    the file. *)
Record conf_buf := ConfBuf { cb_data : bytes; cb_pos : nat; cb_room : nat; cb_offset : nat }.

(** The file, the size it was found to have, and whether a read at an offset works. *)
Context (file : bytes) (file_size : nat) (read_ok : nat -> bool).

(** The part for a buffer that is used up: the return code, or the refilled buffer. *)
Definition conf_refill (b : conf_buf) (t : tok) : (Z * tok) + (conf_buf * tok) :=
  if (cb_pos b <? length (cb_data b))%nat then inr (b, t)
  else if (file_size <=? cb_offset b)%nat then
    inl (if negb (bool_decide (tk_args t = [])) || negb (tk_last_space t) then NTG_ERROR else NTG_CONF_FILE_DONE, t)
  else
    let len := (cb_pos b - tk_start t)%nat in
    if (len =? NTG_CONF_BUFFER)%nat then inl (NTG_ERROR, set_line (tk_start_line t) t)
    else
      let size := Nat.min (file_size - cb_offset b) (cb_room b - len) in
      let got := take size (drop (cb_offset b) file) in
      if negb (read_ok (cb_offset b)) || negb (length got =? size)%nat then inl (NTG_ERROR, t)
      else inr (ConfBuf (take len (drop (tk_start t) (cb_data b)) ++ got) len (cb_room b) (cb_offset b + size),
                set_start 0 (tk_start_line t) t).

Fixpoint conf_loop (fuel : nat) (b : conf_buf) (t : tok) : option (Z * conf_buf * tok) :=
  match fuel with
  | O => None
  | S fuel =>
      match conf_refill b t with
      | inl (rc, t) => Some (rc, b, t)
      | inr (b, t) =>
          c ← cb_data b !! cb_pos b;
          let b := ConfBuf (cb_data b) (S (cb_pos b)) (cb_room b) (cb_offset b) in
          match conf_char (cb_pos b) (cb_data b) c t with
          | Next t => conf_loop fuel b t
          | Return rc t => Some (rc, b, t)
          end
      end
  end.

(** How many bytes are still to be read. *)
Definition unread (b : conf_buf) : nat := (length (cb_data b) - cb_pos b) + (file_size - cb_offset b).

Definition start_tok (pos : nat) (line : Z) : tok := Tok false true false false false false false pos line line [].

(** [ntg_conf_read_token]. *)
Definition ntg_conf_read_token (b : conf_buf) (line : Z) : option (Z * conf_buf * tok) :=
  conf_loop (S (unread b)) b (start_tok (cb_pos b) line).

End token.

(** ** Reading all at once *)

(** The same function on the whole text, without a buffer: the specification.
    The result has the place behind the token. *)
Fixpoint conf_scan (push_ok word_ok : nat -> bool) (text : bytes) (fuel pos : nat) (t : tok) : option (Z * nat * tok) :=
  match fuel with
  | O => None
  | S fuel =>
      match text !! pos with
      | None => Some (if negb (bool_decide (tk_args t = [])) || negb (tk_last_space t) then NTG_ERROR else NTG_CONF_FILE_DONE, pos, t)
      | Some c =>
          match conf_char push_ok word_ok (S pos) text c t with
          | Next t => conf_scan push_ok word_ok text fuel (S pos) t
          | Return rc t => Some (rc, S pos, t)
          end
      end
  end.

(** The state after [n] characters that do not end the token. *)
Fixpoint scan_state (push_ok word_ok : nat -> bool) (text : bytes) (n pos : nat) (t : tok) : option tok :=
  match n with
  | O => Some t
  | S n =>
      c ← text !! pos;
      match conf_char push_ok word_ok (S pos) text c t with
      | Next t => scan_state push_ok word_ok text n (S pos) t
      | Return _ _ => None
      end
  end.

(** ** The buffer makes no difference *)

Section buffered.
Context (push_ok word_ok : nat -> bool).

(** The same state, with its indices into the text from [base] on. *)
Definition up (base : nat) (t : tok) : tok := set_start (base + tk_start t) (tk_start_line t) t.
Definition up_result (base : nat) (r : char_result) : char_result :=
  match r with Next t => Next (up base t) | Return rc t => Return rc (up base t) end.

(** The bytes of the word that [t] is in, up to [pos]. *)
Definition same_word (base pos : nat) (data text : bytes) (t : tok) : Prop :=
  take (pos - tk_start t) (drop (tk_start t) data) = take (pos - tk_start t) (drop (base + tk_start t) text).

Ltac tests := repeat match goal with |- context [if ?b then _ else _] => destruct b end.

Lemma end_word_up base pos data text c t :
  (tk_start t <= pos)%nat -> same_word base pos data text t ->
  end_word push_ok word_ok (base + pos) text c (up base t) = up_result base (end_word push_ok word_ok pos data c t).
Proof.
  intros Hs Hw. unfold end_word. change (tk_args (up base t)) with (tk_args t). change (tk_start (up base t)) with (base + tk_start t)%nat.
  replace (base + pos - 1 - (base + tk_start t))%nat with (pos - 1 - tk_start t)%nat by lia.
  replace (base + pos - (base + tk_start t))%nat with (pos - tk_start t)%nat by lia. unfold same_word in Hw. rewrite <-Hw. cbv zeta. tests; done.
Qed.

Lemma start_word_up base pos c t :
  (0 < pos)%nat -> start_word (base + pos) c (up base t) = up_result base (start_word pos c t).
Proof.
  intros Hp. unfold start_word. replace (base + pos - 1)%nat with (base + (pos - 1))%nat by lia.
  cbv zeta. cbn [tk_args set_start up]. tests; done.
Qed.

Lemma conf_char_up base pos data text c t :
  (tk_start t <= pos)%nat -> same_word base (S pos) data text t ->
  conf_char push_ok word_ok (S (base + pos)) text c (up base t) = up_result base (conf_char push_ok word_ok (S pos) data c t).
Proof.
  intros Hs Hw. unfold conf_char. rewrite <-Nat.add_succ_r.
  set (t1 := if c =? LF then _ else up base t). set (t2 := if c =? LF then _ else t).
  assert (E1 : t1 = up base t2) by (subst t1 t2; by destruct (c =? LF)).
  assert (Es : tk_start t2 = tk_start t) by (subst t2; by destruct (c =? LF)). clearbody t1 t2. subst t1.
  assert (Hw2 : same_word base (S pos) data text t2) by (unfold same_word; by rewrite Es).
  cbn [tk_sharp_comment tk_quoted tk_need_space tk_last_space up set_start].
  destruct (tk_sharp_comment t2); [done|]. destruct (tk_quoted t2); [done|]. destruct (tk_need_space t2).
  - destruct (is_space c); [done|]. destruct (c =? ch ";"); [done|]. destruct (c =? ch "{"); [done|]. destruct (c =? ch ")"); [|done].
    change (set_spaces false true (up base t2)) with (up base (set_spaces false true t2)). apply start_word_up. lia.
  - destruct (tk_last_space t2); [apply start_word_up; lia|]. unfold in_word. cbn [tk_variable tk_d_quoted tk_s_quoted tk_last_space tk_need_space set_variable up set_start].
    destruct ((c =? ch "{") && tk_variable t2); [done|]. destruct (c =? BACKSLASH); [done|]. destruct (c =? ch "$"); [done|].
    destruct (tk_d_quoted t2); [|destruct (tk_s_quoted t2)].
    + destruct (c =? QUOTE); [|done]. apply (end_word_up base (S pos) data text c (set_d_quoted false (set_spaces true (tk_last_space t2) (set_variable false t2)))); [cbn; lia|exact Hw2].
    + destruct (c =? APOS); [|done]. apply (end_word_up base (S pos) data text c (set_s_quoted false (set_spaces true (tk_last_space t2) (set_variable false t2)))); [cbn; lia|exact Hw2].
    + destruct (is_space c || (c =? ch ";") || (c =? ch "{")); [|done].
      apply (end_word_up base (S pos) data text c (set_spaces (tk_need_space t2) true (set_variable false t2))); [cbn; lia|exact Hw2].
Qed.

(** The start of the word stays behind the place. *)
Lemma conf_char_start pos data c t t' :
  (tk_start t <= pos)%nat -> (conf_char push_ok word_ok (S pos) data c t = Next t' \/ exists rc, conf_char push_ok word_ok (S pos) data c t = Return rc t') ->
  (tk_start t' <= S pos)%nat.
Proof.
  intros Hs. unfold conf_char. set (t2 := if c =? LF then _ else t).
  assert (Es : tk_start t2 = tk_start t) by (subst t2; by destruct (c =? LF)). clearbody t2.
  unfold start_word, in_word, end_word. tests; (intros [H|[rc H]]; [try discriminate H; injection H as <-|try discriminate H; injection H as _ <-]; cbn; lia).
Qed.

Context (file : bytes) (read_ok : nat -> bool) (Hread : forall offset, read_ok offset = true).

(** The buffer holds the part of the file behind [base], up to the offset. *)
Record buf_ok (base : nat) (b : conf_buf) (t : tok) : Prop := {
  bo_data : cb_data b = take (length (cb_data b)) (drop base file);
  bo_offset : cb_offset b = (base + length (cb_data b))%nat;
  bo_pos : (cb_pos b <= length (cb_data b))%nat;
  bo_start : (tk_start t <= cb_pos b)%nat;
  bo_room : cb_room b = NTG_CONF_BUFFER /\ (length (cb_data b) <= cb_room b)%nat;
  bo_file : (cb_offset b <= length file)%nat }.

(** Too much of the file without the start of a word. *)
Definition too_long (pos : nat) (t : tok) : Prop :=
  exists n t', scan_state push_ok word_ok file n pos t = Some t' /\ (pos + n - tk_start t' = NTG_CONF_BUFFER)%nat /\ (pos + n < length file)%nat.

Lemma refill_spec base b t :
  buf_ok base b t ->
  match conf_refill file (length file) read_ok b t with
  | inl (rc, t') =>
      (base + cb_pos b = length file)%nat /\ t' = t /\ rc = (if negb (bool_decide (tk_args t = [])) || negb (tk_last_space t) then NTG_ERROR else NTG_CONF_FILE_DONE) \/
      rc = NTG_ERROR /\ (cb_pos b - tk_start t = NTG_CONF_BUFFER)%nat /\ (base + cb_pos b < length file)%nat
  | inr (b', t') => exists base', buf_ok base' b' t' /\ (base' + cb_pos b' = base + cb_pos b)%nat /\ up base' t' = up base t /\ (cb_pos b' < length (cb_data b'))%nat
  end.
Proof using Hread.
  intros [H1 H2 H3 H4 [H5 H6] H7]. unfold conf_refill. destruct (Nat.ltb_spec (cb_pos b) (length (cb_data b))).
  { exists base. by repeat split. }
  destruct (Nat.leb_spec (length file) (cb_offset b)); [left; split; [lia|done]|].
  destruct (Nat.eqb_spec (cb_pos b - tk_start t) NTG_CONF_BUFFER) as [E|E]; [right; split; [done|]; lia|].
  set (len := (cb_pos b - tk_start t)%nat) in *. set (size := Nat.min _ _).
  assert (Hsz : (0 < size)%nat) by lia. assert (Hgot : length (take size (drop (cb_offset b) file)) = size) by (rewrite length_take, length_drop; lia).
  rewrite Hread, Hgot, Nat.eqb_refl. cbn [negb orb]. exists (base + tk_start t)%nat.
  assert (Hl : length (take len (drop (tk_start t) (cb_data b))) = len) by (rewrite length_take, length_drop; lia).
  split; [|split; [cbn; lia|split; [unfold up, set_start; cbn; by rewrite Nat.add_0_r|cbn [cb_data cb_pos]; rewrite length_app, Hl, Hgot; lia] ] ].
  split; cbn [cb_data cb_pos cb_room cb_offset tk_start set_start]; rewrite ?length_app, ?Hl, ?Hgot; try lia.
  assert (Ed : take len (drop (tk_start t) (cb_data b)) = take len (drop (base + tk_start t) file)).
  { rewrite H1, skipn_firstn_comm, drop_drop, take_take. f_equal. lia. }
  assert (Ed2 : drop (cb_offset b) file = drop len (drop (base + tk_start t) file)) by (rewrite drop_drop; f_equal; lia).
  rewrite Ed, Ed2. apply take_take_drop.
Qed.

Lemma slice_eq base b s n :
  cb_data b = take (length (cb_data b)) (drop base file) -> (s + n <= length (cb_data b))%nat ->
  take n (drop s (cb_data b)) = take n (drop (base + s) file).
Proof. intros H Hl. rewrite H, skipn_firstn_comm, drop_drop, take_take. f_equal. lia. Qed.

Lemma loop_scan fuel base b t :
  buf_ok base b t -> (unread (length file) b < fuel)%nat ->
  exists rc b' t', conf_loop push_ok word_ok file (length file) read_ok fuel b t = Some (rc, b', t') /\
    ((exists base', buf_ok base' b' t' /\
       conf_scan push_ok word_ok file fuel (base + cb_pos b) (up base t) = Some (rc, (base' + cb_pos b')%nat, up base' t')) \/
     rc = NTG_ERROR /\ too_long (base + cb_pos b) (up base t)).
Proof using Hread.
  revert base b t. induction fuel as [|fuel IH]; intros base b t I Hf; [lia|]. cbn [conf_loop conf_scan].
  pose proof (refill_spec base b t I) as HR. destruct (conf_refill _ _ _ b t) as [[rc t1]|[b1 t1]].
  - eexists _, _, _. split; [reflexivity|]. destruct HR as [(H1 & -> & ->)|(-> & H1 & H2)].
    + left. exists base. split; [done|]. by rewrite lookup_ge_None_2 by lia.
    + right. split; [done|]. exists O, (up base t). split; [done|]. cbn. lia.
  - destruct HR as (base1 & I1 & Ep & Et & Hlt). rewrite <-Ep, <-Et. destruct I1 as [J1 J2 J3 J4 J5 J6].
    destruct (lookup_lt_is_Some_2 (cb_data b1) (cb_pos b1) Hlt) as [c Hc]. rewrite Hc. cbn [mbind option_bind].
    assert (Hfc : file !! (base1 + cb_pos b1)%nat = Some c) by (rewrite J1 in Hc; by rewrite lookup_take_lt, lookup_drop in Hc by lia).
    rewrite Hfc. cbn [cb_pos cb_data].
    assert (Hw : same_word base1 (S (cb_pos b1)) (cb_data b1) file t1) by (apply slice_eq; [done|lia]).
    rewrite (conf_char_up base1 (cb_pos b1) (cb_data b1) file c t1 J4 Hw).
    destruct (conf_char push_ok word_ok (S (cb_pos b1)) (cb_data b1) c t1) as [t2|rc t2] eqn:Ec; cbn [up_result].
    + pose proof (conf_char_start _ _ _ _ _ J4 (or_introl Ec)) as Hs.
      destruct (IH base1 (ConfBuf (cb_data b1) (S (cb_pos b1)) (cb_room b1) (cb_offset b1)) t2) as (rc & b' & t' & E & H).
      { by split. } { unfold unread in *. cbn [cb_data cb_pos cb_offset]. destruct I as [K1 K2 K3 K4 K5 K6]. lia. }
      exists rc, b', t'. split; [exact E|]. cbn [cb_pos] in H. rewrite Nat.add_succ_r in H.
      destruct H as [H|(-> & n & t3 & H1 & H2 & H3)]; [by left|right]. split; [done|]. exists (S n), t3.
      cbn [scan_state]. rewrite Hfc. cbn [mbind option_bind]. rewrite (conf_char_up base1 (cb_pos b1) (cb_data b1) file c t1 J4 Hw), Ec. cbn [up_result].
      split; [exact H1|]. lia.
    + eexists _, _, _. split; [reflexivity|]. left. exists base1. cbn [cb_pos]. rewrite Nat.add_succ_r. split; [|done].
      split; cbn; try done; try lia. apply (conf_char_start (cb_pos b1) (cb_data b1) c t1 t2 J4). right. by exists rc.
Qed.

(** C23: reading a token returns, and gives what the text of the file says,
    wherever the refills of the buffer fall: the same result, words and line, and
    the buffer left behind the token.  Only if as much as the buffer holds
    follows the start of a word is there an error instead. *)
Theorem conf_read_refines base b line :
  buf_ok base b (start_tok (cb_pos b) line) ->
  exists rc b' t', ntg_conf_read_token push_ok word_ok file (length file) read_ok b line = Some (rc, b', t') /\
    ((exists base', buf_ok base' b' t' /\
       conf_scan push_ok word_ok file (S (length file - (base + cb_pos b))) (base + cb_pos b) (start_tok (base + cb_pos b) line) =
         Some (rc, (base' + cb_pos b')%nat, up base' t')) \/
     rc = NTG_ERROR /\ too_long (base + cb_pos b) (start_tok (base + cb_pos b) line)).
Proof using Hread.
  intros I. unfold ntg_conf_read_token. destruct (loop_scan (S (unread (length file) b)) base b _ I ltac:(lia)) as (rc & b' & t' & E & H).
  exists rc, b', t'. split; [exact E|]. destruct I as [K1 K2 K3 K4 K5 K6].
  replace (length file - (base + cb_pos b))%nat with (unread (length file) b) by (unfold unread; lia). exact H.
Qed.

End buffered.

(** ** What is written is read back *)

(** A word in double quotes. *)
Definition escape_char (c : Z) : bytes := if (c =? QUOTE) || (c =? BACKSLASH) then [BACKSLASH; c] else [c].
Definition escape_word (w : bytes) : bytes := mjoin (map escape_char w).
Definition print_word (w : bytes) : bytes := QUOTE :: escape_word w ++ [QUOTE; ch " "].
Definition print_words (ws : list bytes) : bytes := mjoin (map print_word ws).
Definition print_directive (ws : list bytes) (terminator : Z) : bytes := print_words ws ++ [terminator].

Lemma print_words_cons w ws : print_words (w :: ws) = print_word w ++ print_words ws.
Proof. done. Qed.

Lemma escape_word_cons c w : escape_word (c :: w) = escape_char c ++ escape_word w.
Proof. done. Qed.

Lemma copy_escaped w : copy_word (length (escape_word w)) (escape_word w ++ [QUOTE]) = w.
Proof.
  induction w as [|c w IH]; [done|]. rewrite escape_word_cons. unfold escape_char.
  destruct ((c =? QUOTE) || (c =? BACKSLASH)) eqn:E; cbn [app length copy_word].
  - change (BACKSLASH =? BACKSLASH) with true. cbv iota.
    assert (H : (c =? QUOTE) || (c =? APOS) || (c =? BACKSLASH) = true) by (destruct (c =? QUOTE), (c =? APOS), (c =? BACKSLASH); done).
    rewrite H. cbn [pred]. by rewrite IH.
  - apply orb_false_iff in E as [_ E]. rewrite E. by rewrite IH.
Qed.

Section scan.
Context (push_ok word_ok : nat -> bool) (Hmem : forall n, push_ok n = true /\ word_ok n = true) (text : bytes).
Notation scan := (conf_scan push_ok word_ok text).
Notation char_at := (conf_char push_ok word_ok).

Lemma drop_head pos c rest : drop pos text = c :: rest -> text !! pos = Some c /\ drop (S pos) text = rest.
Proof.
  intros H. split; [by rewrite <-(Nat.add_0_r pos), <-lookup_drop, H|]. by rewrite <-Nat.add_1_r, <-drop_drop, H.
Qed.

Lemma scan_next fuel pos c t t' : text !! pos = Some c -> char_at (S pos) text c t = Next t' -> scan (S fuel) pos t = scan fuel (S pos) t'.
Proof. intros H E. cbn [conf_scan]. by rewrite H, E. Qed.

(** Between words, with the words [args]; and between double quotes. *)
Definition between (args : list bytes) (t : tok) : Prop :=
  tk_need_space t = false /\ tk_last_space t = true /\ tk_sharp_comment t = false /\ tk_quoted t = false /\ tk_s_quoted t = false /\
  tk_d_quoted t = false /\ tk_args t = args.

Record within (args : list bytes) (start : nat) (t : tok) : Prop := {
  wi_flags : tk_need_space t = false /\ tk_last_space t = false /\ tk_sharp_comment t = false /\ tk_quoted t = false /\ tk_s_quoted t = false;
  wi_quoted : tk_d_quoted t = true;
  wi_args : tk_args t = args /\ tk_start t = start }.

Lemma within_char args start pos c t :
  within args start t -> (c =? QUOTE) || (c =? BACKSLASH) = false -> exists t', char_at pos text c t = Next t' /\ within args start t'.
Proof.
  intros [(F1 & F2 & F3 & F4 & F5) Q (A1 & A2)] [E1 E2]%orb_false_iff. destruct t. cbn in *. subst.
  unfold conf_char. destruct (c =? LF); cbn; unfold in_word; cbn; rewrite E1, E2;
    destruct ((c =? ch "{") && tk_variable0); [by eexists|destruct (c =? ch "$"); by eexists|by eexists|destruct (c =? ch "$"); by eexists].
Qed.

Lemma within_escape args start pos c t :
  within args start t -> (c =? QUOTE) || (c =? BACKSLASH) = true ->
  exists t1 t', char_at pos text BACKSLASH t = Next t1 /\ char_at (S pos) text c t1 = Next t' /\ within args start t'.
Proof.
  intros [(F1 & F2 & F3 & F4 & F5) Q (A1 & A2)] E. destruct t. cbn in *. subst.
  assert (H : c = QUOTE \/ c = BACKSLASH) by (apply orb_true_iff in E as [E|E]; apply Z.eqb_eq in E; auto).
  by destruct H as [ -> | -> ]; eexists _, _.
Qed.

Lemma scan_escaped w fuel pos args start t rest :
  within args start t -> drop pos text = escape_word w ++ rest ->
  exists t', scan (length (escape_word w) + fuel) pos t = scan fuel (pos + length (escape_word w)) t' /\ within args start t'.
Proof.
  revert pos t. induction w as [|c w IH]; intros pos t W Hd; [exists t; by rewrite Nat.add_0_r|].
  rewrite escape_word_cons in *. unfold escape_char in *.
  destruct ((c =? QUOTE) || (c =? BACKSLASH)) eqn:E; cbn [app length] in *.
  - destruct (drop_head _ _ _ Hd) as [H1 Hd1]. destruct (drop_head _ _ _ Hd1) as [H2 Hd2].
    destruct (within_escape args start (S pos) c t W E) as (t1 & t2 & E1 & E2 & W2). destruct (IH _ _ W2 Hd2) as (t' & E' & W').
    exists t'. split; [|done]. cbn [Nat.add]. rewrite (scan_next _ _ _ _ _ H1 E1), (scan_next _ _ _ _ _ H2 E2), E'. f_equal. lia.
  - destruct (drop_head _ _ _ Hd) as [H1 Hd1]. destruct (within_char args start (S pos) c t W E) as (t1 & E1 & W1).
    destruct (IH _ _ W1 Hd1) as (t' & E' & W'). exists t'. split; [|done]. cbn [Nat.add]. rewrite (scan_next _ _ _ _ _ H1 E1), E'. f_equal. lia.
Qed.

Lemma open_quote pos args t :
  between args t -> exists t', char_at (S pos) text QUOTE t = Next t' /\ within args (S pos) t'.
Proof. intros (F1 & F2 & F3 & F4 & F5 & F6 & F7). destruct t. cbn in *. subst. by eexists. Qed.

Lemma close_quote pos args start t w :
  within args start t -> (start <= pos)%nat -> take (S pos - start) (drop start text) = escape_word w ++ [QUOTE] -> length (escape_word w) = (pos - start)%nat ->
  exists t1 t2, char_at (S pos) text QUOTE t = Next t1 /\ char_at (S (S pos)) text (ch " ") t1 = Next t2 /\ between (args ++ [w]) t2.
Proof using Hmem.
  intros [(F1 & F2 & F3 & F4 & F5) Q (A1 & A2)] Hs Hw Hl. destruct t. cbn in *. subst.
  unfold conf_char at 1. cbn [tk_sharp_comment tk_quoted tk_need_space tk_last_space]. change (QUOTE =? LF) with false. cbv iota zeta.
  cbn [tk_sharp_comment tk_quoted tk_need_space tk_last_space]. unfold in_word. cbn [tk_variable tk_d_quoted set_variable].
  change (QUOTE =? ch "{") with false. change (QUOTE =? BACKSLASH) with false. change (QUOTE =? ch "$") with false. change (QUOTE =? QUOTE) with true.
  cbn [andb]. cbv iota zeta. cbn [tk_d_quoted tk_last_space]. unfold end_word. cbn [tk_args tk_start set_d_quoted set_spaces tk_last_space].
  match goal with |- context [push_ok ?n] => destruct (Hmem n) as [ -> -> ] end. cbn [andb negb]. change (QUOTE =? ch ";") with false. change (QUOTE =? ch "{") with false. cbv iota zeta.
  cbn [tk_args tk_start set_variable]. match goal with |- context [copy_word ?n _] => replace n with (length (escape_word w)) by lia end. rewrite Hw, copy_escaped. eexists _, _. split; [reflexivity|]. split; [reflexivity|]. done.
Qed.

Lemma scan_word w fuel pos args t rest :
  between args t -> drop pos text = print_word w ++ rest ->
  exists t', scan (length (print_word w) + fuel) pos t = scan fuel (pos + length (print_word w)) t' /\ between (args ++ [w]) t'.
Proof using Hmem.
  intros B Hd. unfold print_word in *. cbn [app length Nat.add] in *. rewrite <-app_assoc in Hd. rewrite length_app. cbn [length app] in *.
  destruct (drop_head _ _ _ Hd) as [H1 Hd1]. destruct (open_quote pos args t B) as (t1 & E1 & W1).
  destruct (scan_escaped w (2 + fuel) (S pos) args (S pos) t1 _ W1 Hd1) as (t2 & E2 & W2).
  assert (Hd2 : drop (S pos + length (escape_word w)) text = QUOTE :: ch " " :: rest) by (rewrite <-drop_drop, Hd1; apply drop_app_length).
  destruct (drop_head _ _ _ Hd2) as [H2 Hd3]. destruct (drop_head _ _ _ Hd3) as [H3 _].
  destruct (close_quote (S pos + length (escape_word w)) args (S pos) t2 w W2) as (t3 & t4 & E3 & E4 & B4); [lia| |lia|].
  { rewrite Hd1. replace (S (S pos + length (escape_word w)) - S pos)%nat with (length (escape_word w ++ [QUOTE])) by (rewrite length_app; cbn; lia).
    change (escape_word w ++ QUOTE :: ch " " :: rest) with (escape_word w ++ [QUOTE] ++ ch " " :: rest). rewrite app_assoc. apply take_app_length. }
  exists t4. split; [|done]. rewrite (scan_next _ _ _ _ _ H1 E1).
  replace (length (escape_word w) + 2 + fuel)%nat with (length (escape_word w) + (2 + fuel))%nat by lia.
  rewrite E2. cbn [Nat.add]. rewrite (scan_next _ _ _ _ _ H2 E3), (scan_next _ _ _ _ _ H3 E4). f_equal. lia.
Qed.

Lemma scan_words ws fuel pos args t rest :
  between args t -> drop pos text = print_words ws ++ rest ->
  exists t', scan (length (print_words ws) + fuel) pos t = scan fuel (pos + length (print_words ws)) t' /\ between (args ++ ws) t'.
Proof using Hmem.
  revert pos args t. induction ws as [|w ws IH]; intros pos args t B Hd.
  - exists t. cbn. rewrite Nat.add_0_r, app_nil_r. done.
  - rewrite print_words_cons in *. rewrite <-app_assoc in Hd. rewrite length_app.
    destruct (scan_word w (length (print_words ws) + fuel) pos args t _ B Hd) as (t1 & E1 & B1).
    assert (Hd1 : drop (pos + length (print_word w)) text = print_words ws ++ rest) by (rewrite <-drop_drop, Hd; apply drop_app_length).
    destruct (IH _ _ _ B1 Hd1) as (t2 & E2 & B2). exists t2. rewrite <-app_assoc in B2. split; [|done].
    rewrite <-Nat.add_assoc, E1, E2. f_equal. lia.
Qed.

(** The whole directive. *)
Lemma scan_directive ws terminator fuel pos line rest :
  ws <> [] -> terminator = ch ";" \/ terminator = ch "{" -> drop pos text = print_directive ws terminator ++ rest ->
  exists t', scan (length (print_directive ws terminator) + fuel) pos (start_tok pos line) =
      Some (if terminator =? ch "{" then NTG_CONF_BLOCK_START else NTG_OK, (pos + length (print_directive ws terminator))%nat, t') /\ tk_args t' = ws.
Proof using Hmem.
  intros Hws Ht Hd. unfold print_directive in *. rewrite <-app_assoc in Hd. rewrite length_app. cbn [length].
  destruct (scan_words ws (1 + fuel) pos [] (start_tok pos line) _ ltac:(done) Hd) as (t & E & B).
  rewrite <-Nat.add_assoc, E. assert (Hd1 : drop (pos + length (print_words ws)) text = terminator :: rest) by (rewrite <-drop_drop, Hd; apply drop_app_length).
  destruct (drop_head _ _ _ Hd1) as [H1 _]. cbn [Nat.add conf_scan app]. rewrite H1. destruct B as (F1 & F2 & F3 & F4 & F5 & F6 & F7).
  destruct t. cbn in *. subst. destruct ws as [|w ws]; [done|].
  rewrite Nat.add_assoc, Nat.add_1_r.
  destruct Ht as [ -> | -> ]; (eexists; split; [reflexivity|done]).
Qed.

(** The places [conf_scan] passes are before its end. *)
Lemma scan_end fuel pos t rc q t' : scan fuel pos t = Some (rc, q, t') -> (pos <= q)%nat /\ (forall c, text !! pos = Some c -> pos < q)%nat.
Proof.
  revert pos t. induction fuel as [|fuel IH]; intros pos t; cbn [conf_scan]; [done|]. destruct (text !! pos) as [c|].
  - destruct (char_at (S pos) text c t) as [t1|rc1 t1].
    + intros H%IH. destruct H as [H _]. split; [lia|]. intros. lia.
    + intros [= _ <- _]. split; [lia|]. intros. lia.
  - intros [= _ <- _]. split; [lia|]. done.
Qed.

Lemma scan_before fuel pos t rc q t' n t1 :
  scan fuel pos t = Some (rc, q, t') -> scan_state push_ok word_ok text n pos t = Some t1 -> (pos + n < length text)%nat -> (pos + n < q)%nat.
Proof.
  revert fuel pos t. induction n as [|n IH]; intros fuel pos t Hs.
  - intros _ Hl. rewrite Nat.add_0_r in *. destruct (lookup_lt_is_Some_2 text pos Hl) as [c Hc]. by apply (proj2 (scan_end _ _ _ _ _ _ Hs) c).
  - destruct fuel as [|fuel]; [done|]. cbn [conf_scan scan_state] in *. destruct (text !! pos) as [c|]; [|done]. cbn [mbind option_bind].
    destruct (char_at (S pos) text c t) as [t2|]; [|done]. intros H1 H2. pose proof (IH _ _ _ Hs H1 ltac:(lia)). lia.
Qed.

Lemma char_start_from pos0 pos data c t t' :
  (pos0 <= pos)%nat -> (pos0 <= tk_start t)%nat -> char_at (S pos) data c t = Next t' -> (pos0 <= tk_start t')%nat.
Proof.
  intros Hp Hs. unfold conf_char. set (t2 := if c =? LF then _ else t).
  assert (Es : tk_start t2 = tk_start t) by (subst t2; by destruct (c =? LF)). clearbody t2.
  unfold start_word, in_word, end_word. repeat match goal with |- context [if ?b then _ else _] => destruct b end;
    intros H; try discriminate H; injection H as <-; cbn; lia.
Qed.

Lemma state_start_from pos0 n pos t t' :
  (pos0 <= pos)%nat -> (pos0 <= tk_start t)%nat -> scan_state push_ok word_ok text n pos t = Some t' -> (pos0 <= tk_start t')%nat.
Proof.
  revert pos t. induction n as [|n IH]; intros pos t Hp Hs; cbn [scan_state]; [by intros [= <-]|].
  destruct (text !! pos) as [c|]; [|done]. cbn [mbind option_bind]. destruct (char_at (S pos) text c t) as [t2|] eqn:E; [|done].
  apply IH; [lia|]. by apply (char_start_from pos0 pos text c t).
Qed.
End scan.

(** See [conf_roundtrip]. *)
Lemma conf_directive_ok push_ok word_ok file read_ok base b line ws terminator before after :
  (forall n, push_ok n = true /\ word_ok n = true) -> (forall offset, read_ok offset = true) ->
  ws <> [] -> terminator = ch ";" \/ terminator = ch "{" -> (length (print_directive ws terminator) <= NTG_CONF_BUFFER)%nat ->
  file = before ++ print_directive ws terminator ++ after ->
  buf_ok file base b (start_tok (cb_pos b) line) -> (base + cb_pos b = length before)%nat ->
  exists b' t' base', ntg_conf_read_token push_ok word_ok file (length file) read_ok b line =
      Some (if terminator =? ch "{" then NTG_CONF_BLOCK_START else NTG_OK, b', t') /\
    tk_args t' = ws /\ buf_ok file base' b' t' /\ (base' + cb_pos b' = length (before ++ print_directive ws terminator))%nat.
Proof.
  intros Hmem Hread Hws Ht Hlen Hf I Hp.
  destruct (loop_scan push_ok word_ok file read_ok Hread (S (unread (length file) b)) base b _ I ltac:(lia)) as (rc & b' & t' & E & H).
  change (up base (start_tok (cb_pos b) line)) with (start_tok (base + cb_pos b) line) in H. rewrite Hp in H.
  assert (Hd : drop (length before) file = print_directive ws terminator ++ after) by (rewrite Hf; apply drop_app_length).
  assert (Hfl : (length file = length before + length (print_directive ws terminator) + length after)%nat) by (rewrite Hf, !length_app; lia).
  assert (Hu : (unread (length file) b = length file - length before)%nat) by (destruct I as [K1 K2 K3 K4 K5 K6]; unfold unread; lia).
  replace (S (unread (length file) b)) with (length (print_directive ws terminator) + S (length after))%nat in H by lia.
  destruct (scan_directive push_ok word_ok Hmem file ws terminator (S (length after)) (length before) line after Hws Ht Hd) as (t1 & E1 & A1).
  destruct H as [(base' & I' & E')|(_ & n & t2 & H1 & H2 & H3)].
  - rewrite E1 in E'. injection E' as Erc Epos Et. exists b', t', base'. rewrite Erc. split; [exact E|].
    split; [rewrite <-A1, Et; done|]. split; [done|]. rewrite length_app. lia.
  - pose proof (scan_before push_ok word_ok file _ _ _ _ _ _ _ _ E1 H1 H3).
    pose proof (state_start_from push_ok word_ok file (length before) n (length before) (start_tok (length before) line) t2 ltac:(lia) ltac:(cbn; lia) H1). lia.
Qed.

(** C24: a directive whose words are written in double quotes, with a backslash
    before quotes and backslashes, is read back as it was, whatever bytes the
    words hold and wherever the directive and the buffer lie in the file; the next
    token is read behind it.  It has to fit into a buffer. *)
Theorem conf_roundtrip push_ok word_ok file read_ok base b line ws terminator before after :
  (forall n, push_ok n = true /\ word_ok n = true) -> (forall offset, read_ok offset = true) ->
  ws <> [] -> terminator = ch ";" \/ terminator = ch "{" -> (length (print_directive ws terminator) <= NTG_CONF_BUFFER)%nat ->
  file = before ++ print_directive ws terminator ++ after ->
  buf_ok file base b (start_tok (cb_pos b) line) -> (base + cb_pos b = length before)%nat ->
  exists b' t' base', ntg_conf_read_token push_ok word_ok file (length file) read_ok b line =
      Some (if terminator =? ch "{" then NTG_CONF_BLOCK_START else NTG_OK, b', t') /\
    tk_args t' = ws /\ buf_ok file base' b' t' /\ (base' + cb_pos b' = length (before ++ print_directive ws terminator))%nat.
Proof. apply conf_directive_ok. Qed.

(** ** Examples *)

Definition always : nat -> bool := fun _ => true.

(** A file, and the empty buffer it is read with. *)
Definition example_words : list bytes := [str "listen"; str "10.0.0.1;" ++ [QUOTE; BACKSLASH; LF]; []].
Definition example_file : bytes := print_directive example_words (ch "{") ++ str " worker 4; }".
Definition empty_buf : conf_buf := ConfBuf [] 0 NTG_CONF_BUFFER 0.

Lemma empty_buf_ok file line : buf_ok file 0 empty_buf (start_tok 0 line).
Proof. split; try done; cbn; lia. Qed.

Lemma conf_read_refines_witness :
  exists rc b' t', ntg_conf_read_token always always example_file (length example_file) always empty_buf 1 = Some (rc, b', t') /\
    rc = NTG_CONF_BLOCK_START /\ exists base', conf_scan always always example_file (S (length example_file)) 0 (start_tok 0 1) =
      Some (rc, (base' + cb_pos b')%nat, up base' t').
Proof.
  destruct (conf_read_refines always always example_file always (fun _ => eq_refl) 0 empty_buf 1 (empty_buf_ok example_file 1))
    as (rc & b' & t' & E & [(base' & _ & H)|(Hrc & _)]).
  - exists rc, b', t'. split; [exact E|]. split; [|by exists base'].
    assert (Hc : (fun r => fst (fst r)) <$> ntg_conf_read_token always always example_file (length example_file) always empty_buf 1 =
      Some NTG_CONF_BLOCK_START) by (vm_compute; reflexivity). rewrite E in Hc. by injection Hc.
  - exfalso. assert (Hc : (fun r => fst (fst r)) <$> ntg_conf_read_token always always example_file (length example_file) always empty_buf 1 =
      Some NTG_CONF_BLOCK_START) by (vm_compute; reflexivity). rewrite E, Hrc in Hc. discriminate Hc.
Defined.

Lemma conf_roundtrip_witness :
  exists b' t', ntg_conf_read_token always always example_file (length example_file) always empty_buf 1 = Some (NTG_CONF_BLOCK_START, b', t') /\
    tk_args t' = example_words.
Proof.
  destruct (conf_roundtrip always always example_file always 0 empty_buf 1 example_words (ch "{") [] (str " worker 4; }"))
    as (b' & t' & base' & E & A & _).
  - by intros n.
  - by intros n.
  - discriminate.
  - by right.
  - apply Nat.leb_le. vm_compute. reflexivity.
  - reflexivity.
  - apply empty_buf_ok.
  - reflexivity.
  - exists b', t'. split; [exact E|exact A].
Defined.

(** What the code does not handle. *)

Definition read_result (file : bytes) : option (Z * list bytes) :=
  '(rc, _, t) ← ntg_conf_read_token always always file (length file) always empty_buf 1; Some (rc, tk_args t).

(** A comment longer than the buffer is taken for a parameter that is too long. *)
Lemma long_comment_refused : read_result (ch "#" :: replicate 4200 (ch "x") ++ [LF] ++ str "a b;") = Some (NTG_ERROR, []).
Proof. vm_compute. reflexivity. Qed.

(** A word that starts with a variable in braces ends at the brace: the dollar is
    noticed within a word only. *)
Lemma leading_variable_splits :
  read_result (str "set ${a}b;") = Some (NTG_CONF_BLOCK_START, [str "set"; str "$"]) /\
  read_result (str "set x${a}b;") = Some (NTG_OK, [str "set"; str "x${a}b"]).
Proof. split; vm_compute; reflexivity. Qed.
