(* ===== verification/Conf.v ===== *)
(** * Directives of the configuration (src/utils/ntg_conf_file.c)

    A directive that was read is looked up among the commands of the modules, its
    place and the number of its words are checked, and the command's setter is
    called; the setters for slots of the modules' structures are here too.  A
    setter of a block calls the parser again. *)

From S2P Require Import Prelude NtgString Parse ConfToken.

Definition NTG_CONF_NOARGS : Z := 1.
Definition NTG_CONF_MAX_ARGS : nat := 8.
Definition NTG_CONF_BLOCK : Z := 256.
Definition NTG_CONF_FLAG : Z := 512.
Definition NTG_CONF_ANY : Z := 1024.
Definition NTG_CONF_1MORE : Z := 2048.
Definition NTG_CONF_2MORE : Z := 4096.
Definition NTG_DIRECT_CONF : Z := 65536.
Definition NTG_MAIN_CONF : Z := 16777216.
Definition NTG_CONF_MODULE : Z := 1179537219.

(** What a setter returns: [NTG_CONF_OK], [NTG_CONF_ERROR] or a text. *)
Inductive set_result := SetOk | SetError | SetMessage (text : bytes).

(** [ntg_command_t], its setter and what belongs to it known by a number. *)
Record command := Command { cm_name : bytes; cm_type : Z; cm_set : Z }.

(** [ntg_module_t]: type and commands. *)
Record conf_module := ConfModule { md_type : Z; md_commands : list command }.

Definition has (type flag : Z) : bool := negb (Z.land type flag =? 0).

(** Which structure the setter gets: that of the module, its place, or one of the
    module's level. *)
Inductive conf_place := DirectConf | MainConf | InnerConf.
Definition place_of (type : Z) : conf_place :=
  if has type NTG_DIRECT_CONF then DirectConf else if has type NTG_MAIN_CONF then MainConf else InnerConf.

(** Why a directive is refused. *)
Inductive refusal :=
  | NotTerminated | NoBrace | WrongNumber | SetterFailed | SetterSays (text : bytes) | NotAllowed | Unknown.

Definition argument_number : list Z := [1; 2; 4; 8; 16; 32; 64; 128].

(** Whether a command of a type takes [n] words, its name among them. *)
Definition arguments_ok (type : Z) (n : nat) : bool :=
  if has type NTG_CONF_ANY then true
  else if has type NTG_CONF_FLAG then (n =? 2)%nat
  else if has type NTG_CONF_1MORE then negb (n <? 2)%nat
  else if has type NTG_CONF_2MORE then negb (n <? 3)%nat
  else if (NTG_CONF_MAX_ARGS <? n)%nat then false
  else match argument_number !! (n - 1)%nat with Some flag => has type flag | None => false end.

Section handler.
Context {St : Type} (modules : list conf_module).
Context (setter : nat -> conf_place -> command -> list bytes -> St -> option (set_result * St)).

(** All commands with the numbers and types of their modules, in the order of the
    two loops; a command without a name ends those of its module. *)
Fixpoint until_null (cs : list command) : list command :=
  match cs with
  | [] => []
  | c :: cs => if bool_decide (cm_name c = []) then [] else c :: until_null cs
  end.

Definition candidates : list (nat * Z * command) :=
  mjoin (imap (fun i m => map (fun c => (i, md_type m, c)) (until_null (md_commands m))) modules).

(** [ntg_strcmp] of names with equal lengths. *)
Definition same_name (name : bytes) (c : command) : bool := bool_decide (name = cm_name c).

(** The command [c] fits: check it, and call its setter. *)
Definition run_command (last : Z) (args : list bytes) (i : nat) (c : command) (s : St) : option ((option refusal) * St) :=
  let type := cm_type c in
  if negb (has type NTG_CONF_BLOCK) && negb (last =? NTG_OK) then Some (Some NotTerminated, s)
  else if has type NTG_CONF_BLOCK && negb (last =? NTG_CONF_BLOCK_START) then Some (Some NoBrace, s)
  else if negb (arguments_ok type (length args)) then Some (Some WrongNumber, s)
  else
    '(r, s) ← setter i (place_of type) c args s;
    Some (match r with SetOk => None | SetError => Some SetterFailed | SetMessage text => Some (SetterSays text) end, s).

(** The loops of [ntg_conf_handler]. *)
Fixpoint handler_loop (module_type cmd_type last : Z) (args : list bytes) (name : bytes) (cs : list (nat * Z * command)) (found : bool) (s : St)
  : option (option refusal * St) :=
  match cs with
  | [] => Some (Some (if found then NotAllowed else Unknown), s)
  | (i, mtype, c) :: cs =>
      if negb (same_name name c) then handler_loop module_type cmd_type last args name cs found s
      else if negb (mtype =? NTG_CONF_MODULE) && negb (mtype =? module_type) then handler_loop module_type cmd_type last args name cs true s
      else if negb (has (cm_type c) cmd_type) then handler_loop module_type cmd_type last args name cs true s
      else run_command last args i c s
  end.

(** [ntg_conf_handler]: [None] within the result is [NTG_OK]. *)
Definition ntg_conf_handler (module_type cmd_type last : Z) (args : list bytes) (s : St) : option (option refusal * St) :=
  name ← head args; handler_loop module_type cmd_type last args name candidates false s.

(** The command a directive means: the first with its name that may stand here. *)
Definition allowed (module_type cmd_type : Z) (name : bytes) (x : nat * Z * command) : bool :=
  let '(_, mtype, c) := x in
  same_name name c && ((mtype =? NTG_CONF_MODULE) || (mtype =? module_type)) && has (cm_type c) cmd_type.

(** C25: a directive is handled by the first command of its name that may stand at
    its place, in the order of the modules, if it ends the way the command wants
    and has a number of words the command takes; otherwise it is refused and
    nothing is set.  Without such a command it is refused too. *)
Theorem conf_handler_correct module_type cmd_type last args name rest s :
  args = name :: rest ->
  ntg_conf_handler module_type cmd_type last args s =
    match List.find (allowed module_type cmd_type name) candidates with
    | Some (i, _, c) =>
        if has (cm_type c) NTG_CONF_BLOCK && (last =? NTG_CONF_BLOCK_START) || negb (has (cm_type c) NTG_CONF_BLOCK) && (last =? NTG_OK) then
          if arguments_ok (cm_type c) (length args) then
            '(r, s) ← setter i (place_of (cm_type c)) c args s;
            Some (match r with SetOk => None | SetError => Some SetterFailed | SetMessage text => Some (SetterSays text) end, s)
          else Some (Some WrongNumber, s)
        else Some (Some (if has (cm_type c) NTG_CONF_BLOCK then NoBrace else NotTerminated), s)
    | None => Some (Some (if existsb (fun x => same_name name (snd x)) candidates then NotAllowed else Unknown), s)
    end.
Proof.
  intros ->. unfold ntg_conf_handler. cbn [head mbind option_bind].
  assert (H : forall cs found, handler_loop module_type cmd_type last (name :: rest) name cs found s =
    match List.find (allowed module_type cmd_type name) cs with
    | Some (i, _, c) => run_command last (name :: rest) i c s
    | None => Some (Some (if found || existsb (fun x => same_name name (snd x)) cs then NotAllowed else Unknown), s)
    end).
  { induction cs as [|[[i mtype] c] cs IH]; intros found; [by rewrite orb_false_r|]. cbn [handler_loop List.find allowed existsb snd].
    destruct (same_name name c); cbn [negb andb orb]; [|apply IH].
    destruct (mtype =? NTG_CONF_MODULE), (mtype =? module_type), (has (cm_type c) cmd_type); cbn [negb andb orb]; rewrite ?IH, ?orb_true_r; done. }
  rewrite H. destruct (List.find _ _) as [[[i mtype] c]|]; [|done]. unfold run_command.
  destruct (has (cm_type c) NTG_CONF_BLOCK); cbn [negb andb orb]; [destruct (last =? NTG_CONF_BLOCK_START)|destruct (last =? NTG_OK)]; cbn [negb orb andb]; try done;
    by destruct (arguments_ok _ _).
Qed.

End handler.

(** ** Parsing *)

(** What is parsed: a file, a block within one, or the parameter of the command line. *)
Inductive parse_type := parse_file | parse_block | parse_param.

Section parse.
Context {St : Type} (push_ok word_ok : nat -> bool) (file : bytes) (file_size : nat) (read_ok : nat -> bool).
Context (modules : list conf_module) (module_type cmd_type : Z).

(** The buffer and the line. *)
Definition conf_state : Type := conf_buf * Z.

(** A setter gets the parser for a block, and may go on reading. *)
Definition block_parser : Type := conf_state * St -> option (bool * (conf_state * St)).
Context (setter : block_parser -> nat -> conf_place -> command -> list bytes -> conf_state * St -> option (set_result * (conf_state * St))).

(** The handler [cf->handler] of the directives of a special block. *)
Context (custom : option (list bytes -> St -> option (set_result * St))).

(** The loop of [ntg_conf_parse]; the result tells whether it is [NTG_CONF_OK]. *)
Fixpoint ntg_conf_parse (fuel : nat) (type : parse_type) (cs : conf_state * St) : option (bool * (conf_state * St)) :=
  match fuel with
  | O => None
  | S fuel =>
      let '(b, line, s) := cs in
      '(rc, b, t) ← ntg_conf_read_token push_ok word_ok file file_size read_ok b line;
      let cf := (b, tk_line t) in
      if rc =? NTG_ERROR then Some (false, (cf, s))
      else if rc =? NTG_CONF_BLOCK_DONE then Some (match type with parse_block => true | _ => false end, (cf, s))
      else if rc =? NTG_CONF_FILE_DONE then Some (match type with parse_block => false | _ => true end, (cf, s))
      else if (rc =? NTG_CONF_BLOCK_START) && (match type with parse_param => true | _ => false end) then Some (false, (cf, s))
      else
        match custom with
        | Some h =>
            if rc =? NTG_CONF_BLOCK_START then Some (false, (cf, s))
            else
              '(r, s) ← h (tk_args t) s;
              match r with SetOk => ntg_conf_parse fuel type (cf, s) | _ => Some (false, (cf, s)) end
        | None =>
            '(r, cs) ← ntg_conf_handler modules (setter (ntg_conf_parse fuel parse_block)) module_type cmd_type rc (tk_args t) (cf, s);
            match r with None => ntg_conf_parse fuel type cs | Some _ => Some (false, cs) end
        end
  end.

End parse.

(** The parameter of the command line: a buffer that is all there is. *)
Definition ntg_conf_param {St} (push_ok word_ok : nat -> bool) (modules : list conf_module) (module_type cmd_type : Z)
  (setter : block_parser -> nat -> conf_place -> command -> list bytes -> conf_state * St -> option (set_result * (conf_state * St)))
  (custom : option (list bytes -> St -> option (set_result * St))) (fuel : nat) (param : bytes) (s : St) : option (bool * St) :=
  if bool_decide (param = []) then Some (true, s)
  else
    '(ok, (_, s)) ← ntg_conf_parse push_ok word_ok [] 0 (fun _ => false) modules module_type cmd_type setter custom fuel parse_param
       ((ConfBuf param 0 (length param) 0, 0), s);
    Some (ok, s).

(** A file of directives that their setters accept. *)
Section parse_all.
Context {St : Type} (push_ok word_ok : nat -> bool) (read_ok : nat -> bool) (modules : list conf_module) (module_type cmd_type : Z).
Context (setter : (conf_state * St -> option (bool * (conf_state * St))) -> nat -> conf_place -> command -> list bytes -> conf_state * St ->
  option (set_result * (conf_state * St))).

(** What one directive makes of the state: its command does not read on, and accepts. *)
Definition accepts (ws : list bytes) (s s' : St) : Prop :=
  forall parser cf, ntg_conf_handler modules (setter parser) module_type cmd_type NTG_OK ws (cf, s) = Some (None, (cf, s')).

Inductive accepted : list (list bytes) -> St -> St -> Prop :=
  | accepted_nil s : accepted [] s s
  | accepted_cons ws wss s s1 s2 : accepts ws s s1 -> accepted wss s1 s2 -> accepted (ws :: wss) s s2.

Definition print_file (wss : list (list bytes)) : bytes := mjoin (map (fun ws => print_directive ws (ch ";")) wss).

Lemma print_file_cons ws wss : print_file (ws :: wss) = print_directive ws (ch ";") ++ print_file wss.
Proof. done. Qed.

Context (Hmem : forall n, push_ok n = true /\ word_ok n = true) (Hread : forall offset, read_ok offset = true).

Lemma parse_rest file base b line before wss s s' fuel :
  Forall (fun ws => ws <> [] /\ (length (print_directive ws (ch ";")) <= NTG_CONF_BUFFER)%nat) wss ->
  accepted wss s s' -> file = before ++ print_file wss -> buf_ok file base b (start_tok (cb_pos b) line) ->
  (base + cb_pos b = length before)%nat -> (length wss < fuel)%nat ->
  exists cf, ntg_conf_parse push_ok word_ok file (length file) read_ok modules module_type cmd_type setter None fuel parse_file ((b, line), s) =
    Some (true, (cf, s')).
Proof using Hmem Hread.
  intros F A. revert fuel base b line before F. induction A as [s|ws wss s s1 s2 Ha A IH]; intros fuel base b line before F Hf I Hp Hfu;
    (destruct fuel as [|fuel]; [cbn in Hfu; lia|]); cbn [ntg_conf_parse].
  - cbn in Hf. rewrite app_nil_r in Hf. unfold ntg_conf_read_token.
    destruct (loop_scan push_ok word_ok file read_ok Hread (S (unread (length file) b)) base b _ I ltac:(lia)) as (rc & b' & t' & E & H). rewrite E.
    cbn [mbind option_bind]. assert (Hn : file !! (base + cb_pos b)%nat = None) by (apply lookup_ge_None_2; rewrite Hf; lia).
    destruct H as [(base' & _ & H)|(_ & n & t1 & _ & _ & H)]; [|rewrite Hf in H; lia]. cbn [conf_scan] in H. rewrite Hn in H. injection H as <- _ _.
    change (tk_args (up base (start_tok (cb_pos b) line))) with ([] : list bytes). change (tk_last_space (up base (start_tok (cb_pos b) line))) with true.
    cbn. by eexists.
  - pose proof (Forall_inv F) as [Hw Hl]. pose proof (Forall_inv_tail F) as F'. rewrite print_file_cons in Hf.
    destruct (conf_directive_ok push_ok word_ok file read_ok base b line ws (ch ";") before (print_file wss) Hmem Hread Hw ltac:(by left) Hl Hf I Hp)
      as (b' & t' & base' & E & At & I' & Hp'). rewrite E. cbn [mbind option_bind].
    change (ch ";" =? ch "{") with false. cbv iota. change (NTG_OK =? NTG_ERROR) with false. change (NTG_OK =? NTG_CONF_BLOCK_DONE) with false.
    change (NTG_OK =? NTG_CONF_FILE_DONE) with false. change (NTG_OK =? NTG_CONF_BLOCK_START) with false. cbn [andb]. cbv iota.
    rewrite At, Ha. cbn [mbind option_bind]. apply (IH fuel base' b' (tk_line t') (before ++ print_directive ws (ch ";"))); try done.
    + by rewrite <-app_assoc.
    + destruct I' as [K1 K2 K3 K4 K5 K6]. by split.
    + cbn in Hfu. lia.
Qed.

(** A file of directives, each with its words in quotes, is parsed to its end:
    each directive reaches its command with its words, in the order of the file,
    and when all are accepted so is the file. *)
Theorem conf_parse_correct wss s s' fuel :
  Forall (fun ws => ws <> [] /\ (length (print_directive ws (ch ";")) <= NTG_CONF_BUFFER)%nat) wss ->
  accepted wss s s' -> (length wss < fuel)%nat ->
  exists cf, ntg_conf_parse push_ok word_ok (print_file wss) (length (print_file wss)) read_ok modules module_type cmd_type setter None fuel parse_file
    ((ConfBuf [] 0 NTG_CONF_BUFFER 0, 1), s) = Some (true, (cf, s')).
Proof using Hmem Hread.
  intros F A Hf. apply (parse_rest (print_file wss) 0 _ 1 [] wss s s' fuel F A); try done. apply empty_buf_ok.
Qed.
End parse_all.

(** ** Setters of slots *)

Definition NTG_CONF_UNSET : Z := -1.
Definition NTG_CONF_UNSET_SIZE : Z := 18446744073709551615.
Definition DUPLICATE : set_result := SetMessage (str "is duplicate").
Definition INVALID_NUMBER : set_result := SetMessage (str "invalid number").
Definition INVALID_VALUE : set_result := SetMessage (str "invalid value").

Section setters.
(** The handler behind the setter, if the command has one. *)
Context (post : option (Z -> set_result)).

Definition posted (v : Z) : set_result * Z := (match post with Some h => h v | None => SetOk end, v).

(** A word of memory ends with a zero behind it. *)
Definition ntg_conf_set_flag_slot (args : list bytes) (slot : Z) : option (set_result * Z) :=
  if negb (slot =? NTG_CONF_UNSET) then Some (DUPLICATE, slot)
  else
    value ← args !! 1%nat;
    on ← ntg_strcasecmp (value ++ [0]) (str "on" ++ [0]);
    if on =? 0 then Some (posted 1)
    else
      off ← ntg_strcasecmp (value ++ [0]) (str "off" ++ [0]);
      if off =? 0 then Some (posted 0) else Some (SetError, slot).

(** What the setters of numbers share. *)
Definition number_slot (unset error : Z) (message : set_result) (parse : bytes -> option Z) (args : list bytes) (slot : Z)
  : option (set_result * Z) :=
  if negb (slot =? unset) then Some (DUPLICATE, slot)
  else value ← args !! 1%nat; n ← parse value; if n =? error then Some (message, n) else Some (posted n).

Definition ntg_conf_set_num_slot := number_slot NTG_CONF_UNSET NTG_ERROR INVALID_NUMBER (fun v => ntg_atoi v (length v)).
Definition ntg_conf_set_size_slot := number_slot NTG_CONF_UNSET_SIZE (u64 NTG_ERROR) INVALID_VALUE (fun v => n ← ntg_parse_size v; Some (u64 n)).
Definition ntg_conf_set_off_slot := number_slot NTG_CONF_UNSET NTG_ERROR INVALID_VALUE ntg_parse_offset.
Definition ntg_conf_set_msec_slot := number_slot NTG_CONF_UNSET_SIZE (u64 NTG_ERROR) INVALID_VALUE (fun v => n ← ntg_parse_time v (length v) false; Some (u64 n)).
Definition ntg_conf_set_sec_slot := number_slot NTG_CONF_UNSET NTG_ERROR INVALID_VALUE (fun v => ntg_parse_time v (length v) true).

End setters.

(** [None] is a slot whose data is null; the handler behind gets the string. *)
Definition ntg_conf_set_str_slot (post : option (bytes -> set_result)) (args : list bytes) (slot : option bytes) : option (set_result * option bytes) :=
  match slot with
  | Some _ => Some (DUPLICATE, slot)
  | None => value ← args !! 1%nat; Some (match post with Some h => h value | None => SetOk end, Some value)
  end.

(** [ntg_bufs_t]: the number and the size. *)
Definition ntg_conf_set_bufs_slot (args : list bytes) (bufs : Z * Z) : option (set_result * (Z * Z)) :=
  if negb (fst bufs =? 0) then Some (DUPLICATE, bufs)
  else
    v1 ← args !! 1%nat; num ← ntg_atoi v1 (length v1);
    if (num =? NTG_ERROR) || (num =? 0) then Some (INVALID_VALUE, (num, snd bufs))
    else
      v2 ← args !! 2%nat; size ← ntg_parse_size v2;
      if (u64 size =? u64 NTG_ERROR) || (u64 size =? 0) then Some (INVALID_VALUE, (num, u64 size)) else Some (SetOk, (num, u64 size)).

(** The search in a table of names. *)
Fixpoint enum_value (table : list (bytes * Z)) (value : bytes) : option (option Z) :=
  match table with
  | [] => Some None
  | (name, v) :: table =>
      if negb (length name =? length value)%nat then enum_value table value
      else c ← ntg_strcasecmp (name ++ [0]) (value ++ [0]); if c =? 0 then Some (Some v) else enum_value table value
  end.

Definition ntg_conf_set_enum_slot (table : list (bytes * Z)) (args : list bytes) (slot : Z) : option (set_result * Z) :=
  if negb (slot =? NTG_CONF_UNSET_SIZE) then Some (DUPLICATE, slot)
  else value ← args !! 1%nat; v ← enum_value table value; Some (match v with Some v => (SetOk, v) | None => (SetError, slot) end).

Fixpoint bitmask_loop (table : list (bytes * Z)) (values : list bytes) (slot : Z) : option (set_result * Z) :=
  match values with
  | [] => Some (SetOk, slot)
  | value :: values =>
      m ← enum_value table value;
      match m with
      | None => Some (SetError, slot)
      | Some mask => bitmask_loop table values (if negb (Z.land slot mask =? 0) then slot else Z.lor slot mask)
      end
  end.

Definition ntg_conf_set_bitmask_slot (table : list (bytes * Z)) (args : list bytes) (slot : Z) : option (set_result * Z) :=
  bitmask_loop table (drop 1 args) slot.

Definition ntg_conf_check_num_bounds (low high v : Z) : set_result :=
  if high =? -1 then if v >=? low then SetOk else SetError
  else if (v >=? low) && (v <=? high) then SetOk else SetError.

Definition ntg_conf_deprecated (v : Z) : set_result := SetOk.

(** ** Examples *)

(** Two modules; the state is the slot of a number and that of a flag. *)
Definition example_modules : list conf_module :=
  [ConfModule NTG_CONF_MODULE [Command (str "workers") (NTG_DIRECT_CONF + NTG_MAIN_CONF + 2) 0; Command (str "daemon") (NTG_DIRECT_CONF + NTG_MAIN_CONF + NTG_CONF_FLAG) 1; Command [] 0 0];
   ConfModule 1163019075 [Command (str "user") (NTG_MAIN_CONF + NTG_CONF_BLOCK + NTG_CONF_NOARGS) 2; Command [] 0 0]].

Definition example_setter (parser : conf_state * (Z * Z) -> option (bool * (conf_state * (Z * Z)))) (i : nat) (place : conf_place) (c : command) (args : list bytes) (cs : conf_state * (Z * Z))
  : option (set_result * (conf_state * (Z * Z))) :=
  let '(cf, (workers, daemon)) := cs in
  if cm_set c =? 0 then '(r, workers) ← ntg_conf_set_num_slot None args workers; Some (r, (cf, (workers, daemon)))
  else if cm_set c =? 1 then '(r, daemon) ← ntg_conf_set_flag_slot None args daemon; Some (r, (cf, (workers, daemon)))
  else '(ok, cs) ← parser cs; Some (if ok : bool then SetOk else SetError, cs).

Lemma conf_handler_correct_witness :
  exists s, ntg_conf_handler example_modules (example_setter (fun _ => None)) 1163019075 NTG_MAIN_CONF NTG_OK [str "workers"; str "4"] ((empty_buf, 1), (-1, -1)) =
    Some (None, s) /\ snd s = (4, -1).
Proof.
  rewrite (conf_handler_correct example_modules (example_setter (fun _ => None)) 1163019075 NTG_MAIN_CONF NTG_OK [str "workers"; str "4"] (str "workers") [str "4"]
    ((empty_buf, 1), (-1, -1)) eq_refl).
  eexists. split; vm_compute; reflexivity.
Defined.

Definition example_directives : list (list bytes) := [[str "workers"; str "4"]; [str "daemon"; str "off"]].

Lemma conf_parse_correct_witness :
  exists cf, ntg_conf_parse always always (print_file example_directives) (length (print_file example_directives)) always example_modules 1163019075 NTG_MAIN_CONF
    example_setter None 3 parse_file ((empty_buf, 1), (-1, -1)) = Some (true, (cf, (4, 0))).
Proof.
  apply (conf_parse_correct always always always example_modules 1163019075 NTG_MAIN_CONF example_setter (fun n => conj eq_refl eq_refl) (fun n => eq_refl)
    example_directives (-1, -1) (4, 0) 3).
  - repeat constructor; try discriminate; apply Nat.leb_le; vm_compute; reflexivity.
  - apply (accepted_cons _ _ _ _ _ _ _ (4, -1)); [intros parser cf; vm_compute; reflexivity|].
    apply (accepted_cons _ _ _ _ _ _ _ (4, 0)); [intros parser cf; vm_compute; reflexivity|]. constructor.
  - cbn. lia.
Defined.

(** A block is parsed by the setter of its directive, up to its brace. *)
Example block_parsed :
  (fun r => (fst r, snd (snd r))) <$> ntg_conf_parse always always (str "user { daemon on; } workers 8;") 30 always example_modules 1163019075 NTG_MAIN_CONF
    example_setter None 9 parse_file ((empty_buf, 1), (-1, -1)) = Some (true, (8, 1)).
Proof. vm_compute. reflexivity. Qed.

(** A directive that comes twice, a block that does not end, and one too many ends. *)
Example files_refused :
  map (fun text => fst <$> ntg_conf_parse always always text (length text) always example_modules 1163019075 NTG_MAIN_CONF
    example_setter None 9 parse_file ((empty_buf, 1), (-1, -1))) [str "workers 8; workers 9;"; str "user { daemon on; "; str "daemon on; }"] =
  [Some false; Some false; Some false].
Proof. vm_compute. reflexivity. Qed.
