(* ===== verification/Record.v ===== *)
(** * The ring of records (src/record/ntg_record.c, ntg_record_manage.c) *)

From S2P Require Import Prelude.

(** [struct ntg_record_s]: the bit fields and the rest. *)
Record ntg_record := NtgRecord {
  rd_csm_id : Z;
  rd_gp_id : Z;
  rd_state_code : Z;
  rd_user_id : Z;
  rd_url_id : Z;
  rd_time : Z;
  rd_send : Z;
  rd_receive : Z }.

(** The fields of [struct ntg_record_manage_s] that are used. *)
Record ntg_record_manage := RecordManage {
  records : list ntg_record;
  record_n : Z;
  dequeue_count : Z;
  enqueue_count : Z }.

Definition NTG_RECORD_NUM : Z := 1024.

(** [ntg_record_manage_init]; [palloc] is what the memory holds, when there is some. *)
Definition ntg_record_manage_init (palloc : option (list ntg_record)) (mg : ntg_record_manage)
  : Z * ntg_record_manage :=
  match palloc with
  | None => (NTG_ERROR, mg)
  | Some rs => (NTG_OK, RecordManage rs (record_n mg) 0 0)
  end.

(** [ntg_record_init]; [pool] and [manage] are the outcomes of the allocations,
    and what the manager holds before. *)
Definition ntg_record_init (pool : bool) (manage : option ntg_record_manage)
    (palloc : option (list ntg_record)) : Z * option ntg_record_manage :=
  if negb pool then (NTG_ERROR, None)
  else
    match manage with
    | None => (NTG_ERROR, None)
    | Some mg =>
        let mg := RecordManage (records mg) NTG_RECORD_NUM (dequeue_count mg) (enqueue_count mg) in
        let '(rc, mg) := ntg_record_manage_init palloc mg in
        (if rc =? NTG_OK then NTG_OK else NTG_ERROR, Some mg)
    end.

(** [ntg_get_record]: the number of the record to fill in, or none. *)
Definition ntg_get_record (mg : ntg_record_manage) : option Z * ntg_record_manage :=
  if u32 (enqueue_count mg - dequeue_count mg) >=? u64 (record_n mg - 1) then (None, mg)
  else
    let enqueue := enqueue_count mg in
    let i := u32 (Z.land enqueue (u64 (record_n mg - 1))) in
    (Some i, RecordManage (records mg) (record_n mg) (dequeue_count mg) (u32 (enqueue + 1))).

(** [ntg_get_records]: the oldest record; a record outside the array is
    undefined. *)
Definition ntg_get_records (mg : ntg_record_manage) : option (Z * option ntg_record * ntg_record_manage) :=
  if enqueue_count mg =? dequeue_count mg then Some (-1, None, mg)
  else
    let dequeue := dequeue_count mg in
    let i := u32 (Z.land dequeue (u64 (record_n mg - 1))) in
    temp ← records mg !! Z.to_nat i;
    Some (0, Some temp, RecordManage (records mg) (record_n mg) (u32 (dequeue + 1)) (enqueue_count mg)).

(** The caller of [ntg_get_record] fills the record in. *)
Definition fill_record (i : Z) (r : ntg_record) (mg : ntg_record_manage) : ntg_record_manage :=
  RecordManage (<[Z.to_nat i := r]> (records mg)) (record_n mg) (dequeue_count mg) (enqueue_count mg).

(** ** The ring is a bounded queue *)

(** The specification: a queue of at most [cap] records. *)
Definition put (cap : Z) (r : ntg_record) (q : list ntg_record) : option (list ntg_record) :=
  if Z.of_nat (length q) <? cap then Some (q ++ [r]) else None.

(** The ring, of 2^[k] places, holds the queue [q]. *)
Record holds (k : Z) (mg : ntg_record_manage) (q : list ntg_record) : Prop := {
  ho_k : 0 < k <= 31;
  ho_n : record_n mg = 2 ^ k;
  ho_len : Z.of_nat (length (records mg)) = 2 ^ k;
  ho_deq : 0 <= dequeue_count mg < 2 ^ 32;
  ho_enq : enqueue_count mg = u32 (dequeue_count mg + Z.of_nat (length q));
  ho_cap : Z.of_nat (length q) < 2 ^ k;
  ho_data : forall j, (j < length q)%nat ->
    records mg !! Z.to_nat ((dequeue_count mg + Z.of_nat j) mod 2 ^ k) = q !! j }.

Section ring.
Context (k : Z) (mg : ntg_record_manage) (q : list ntg_record) (H : holds k mg q).

Lemma pow_bound : 2 <= 2 ^ k <= 2147483648.
Proof.
  destruct (ho_k _ _ _ H). split.
  - change 2 with (2 ^ 1) at 1. apply Z.pow_le_mono_r; lia.
  - change 2147483648 with (2 ^ 31). apply Z.pow_le_mono_r; lia.
Qed.

(** The place of a count. *)
Lemma ring_index c : 0 <= c -> u32 (Z.land c (u64 (record_n mg - 1))) = c mod 2 ^ k.
Proof.
  intros Hc. pose proof pow_bound. destruct (ho_k _ _ _ H). rewrite (ho_n _ _ _ H).
  rewrite u64_small by (width; lia).
  replace (2 ^ k - 1) with (Z.ones k) by (rewrite Z.ones_equiv; lia).
  rewrite Z.land_ones by lia. apply u32_small. pose proof (Z.mod_pos_bound c (2 ^ k)). lia.
Qed.

(** Wrapping around at 2^32 does not move the places. *)
Lemma wrap_index c : u32 c mod 2 ^ k = c mod 2 ^ k.
Proof.
  destruct (ho_k _ _ _ H). unfold u32. change 4294967296 with (2 ^ 32). apply Z.mod_mod_divide.
  exists (2 ^ (32 - k)). rewrite <-Z.pow_add_r by lia. f_equal. lia.
Qed.

Lemma ring_distance : u32 (enqueue_count mg - dequeue_count mg) = Z.of_nat (length q).
Proof.
  pose proof pow_bound. pose proof (ho_cap _ _ _ H). pose proof (ho_deq _ _ _ H).
  rewrite (ho_enq _ _ _ H). change (2 ^ 32) with 4294967296 in *. mlia.
Qed.

(** Places of different records are different. *)
Lemma places_differ i j : 0 <= i < 2 ^ k -> 0 <= j < 2 ^ k -> i <> j ->
  (dequeue_count mg + i) mod 2 ^ k <> (dequeue_count mg + j) mod 2 ^ k.
Proof.
  intros Hi Hj Hne E. pose proof pow_bound.
  apply Hne. pose proof (Z.div_mod (dequeue_count mg + i) (2 ^ k) ltac:(lia)).
  pose proof (Z.div_mod (dequeue_count mg + j) (2 ^ k) ltac:(lia)).
  set (a := (dequeue_count mg + i) / 2 ^ k) in *. set (b := (dequeue_count mg + j) / 2 ^ k) in *.
  destruct (Z.lt_trichotomy a b) as [|[->|]]; nia.
Qed.

Lemma get_record_spec r :
  match put (2 ^ k - 1) r q with
  | Some q' => exists i mg', ntg_get_record mg = (Some i, mg') /\ holds k (fill_record i r mg') q'
  | None => ntg_get_record mg = (None, mg)
  end.
Proof.
  pose proof pow_bound as Hp. pose proof (ho_cap _ _ _ H) as Hc. pose proof (ho_deq _ _ _ H) as Hd.
  unfold put, ntg_get_record. rewrite ring_distance, (ho_n _ _ _ H), u64_small by (width; lia).
  rewrite Z.geb_leb. destruct (Z.ltb_spec (Z.of_nat (length q)) (2 ^ k - 1)).
  2: { by rewrite (proj2 (Z.leb_le _ _)) by lia. }
  rewrite (proj2 (Z.leb_gt _ _)) by lia. eexists _, _. split; [reflexivity|].
  assert (He : 0 <= enqueue_count mg) by (rewrite (ho_enq _ _ _ H); mlia).
  pose proof (ring_index _ He) as Hi. rewrite (ho_n _ _ _ H), u64_small in Hi by (width; lia).
  rewrite Hi. rewrite (ho_enq _ _ _ H), wrap_index.
  split; cbn [fill_record record_n records dequeue_count enqueue_count]; try apply H; try reflexivity.
  - rewrite length_insert. apply H.
  - rewrite length_app. cbn [length]. mlia.
  - rewrite length_app. cbn [length]. lia.
  - intros j Hj. rewrite length_app in Hj. cbn [length] in Hj.
    pose proof (Z.mod_pos_bound (dequeue_count mg + Z.of_nat (length q)) (2 ^ k) ltac:(lia)).
    pose proof (ho_len _ _ _ H). destruct (decide (j = length q)) as [->|Hne].
    + rewrite list_lookup_insert_eq by lia. by rewrite lookup_app_r, Nat.sub_diag by lia.
    + rewrite list_lookup_insert_ne, lookup_app_l by
        (pose proof (places_differ (Z.of_nat (length q)) (Z.of_nat j) ltac:(lia) ltac:(lia) ltac:(lia));
         pose proof (Z.mod_pos_bound (dequeue_count mg + Z.of_nat j) (2 ^ k) ltac:(lia)); lia).
      apply (ho_data _ _ _ H). lia.
Qed.

Lemma get_records_spec :
  match q with
  | [] => ntg_get_records mg = Some (-1, None, mg)
  | r :: q' => exists mg', ntg_get_records mg = Some (0, Some r, mg') /\ holds k mg' q'
  end.
Proof.
  pose proof pow_bound as Hp. pose proof (ho_cap _ _ _ H) as Hc. pose proof (ho_deq _ _ _ H) as Hd.
  pose proof (ho_enq _ _ _ H) as He. pose proof ring_distance as Hdist.
  pose proof (ring_index (dequeue_count mg) (proj1 Hd)) as Hi. pose proof wrap_index as Hw.
  unfold ntg_get_records. destruct q as [|r q'] eqn:Eq; cbn [length] in *.
  - assert (enqueue_count mg = dequeue_count mg) as -> by (change (2 ^ 32) with 4294967296 in *; mlia).
    by rewrite Z.eqb_refl.
  - destruct (Z.eqb_spec (enqueue_count mg) (dequeue_count mg)) as [E|_].
    { rewrite E, Z.sub_diag in Hdist. change (u32 0) with 0 in Hdist. lia. }
    rewrite Hi.
    pose proof (ho_data _ _ _ H 0%nat ltac:(cbn; lia)) as H0. rewrite Z.add_0_r in H0. rewrite H0.
    cbn [lookup list_lookup mbind option_bind]. eexists. split; [reflexivity|].
    split; cbn [record_n records dequeue_count enqueue_count]; try apply H; try reflexivity.
    + change (2 ^ 32) with 4294967296. mlia.
    + rewrite He. change (2 ^ 32) with 4294967296 in *. mlia.
    + lia.
    + intros j Hj. change (q' !! j) with ((r :: q') !! S j). rewrite <-(ho_data _ _ _ H (S j)) by (cbn; lia). f_equal. f_equal. rewrite <-(Hw (u32 _ + _)), <-(Hw (_ + Z.of_nat (S j))).
      f_equal. mlia.
Qed.

End ring.


(** Initialisation gives the empty queue. *)
Lemma record_init_holds mg rs :
  Z.of_nat (length rs) = NTG_RECORD_NUM ->
  exists mg', ntg_record_init true (Some mg) (Some rs) = (NTG_OK, Some mg') /\ holds 10 mg' [].
Proof. intros Hl. eexists. split; [reflexivity|]. split; cbn; try lia; done. Qed.

Definition example_record (n : Z) : ntg_record := NtgRecord n 0 0 0 0 0 0 0.

(** A ring of four places, about to wrap around, with one record. *)
Definition example_ring : ntg_record_manage :=
  RecordManage (map example_record [0; 1; 2; 3]) 4 4294967295 0.

