(* ===== verification/Base64.v ===== *)
(** * Base 64 (src/utils/ntg_string.c)

    Encoding and decoding of a counted string, with the tables of the code. *)

From S2P Require Import Prelude.

(** ** Encoding (ntg_encode_base64) *)

Definition basis64 : bytes :=
  str "ABCDEFGHIJKLMNOPQRSTUVWXYZabcdefghijklmnopqrstuvwxyz0123456789+/".

Definition b64 (i : Z) : Z := nth (Z.to_nat i) basis64 0.

(** The bytes written to [dst->data]; [dst->len] is their number. *)
Fixpoint ntg_encode_base64 (s : bytes) : bytes :=
  match s with
  | s0 :: s1 :: s2 :: s =>
      b64 (Z.land (Z.shiftr s0 2) 63) ::
      b64 (Z.lor (Z.shiftl (Z.land s0 3) 4) (Z.shiftr s1 4)) ::
      b64 (Z.lor (Z.shiftl (Z.land s1 15) 2) (Z.shiftr s2 6)) ::
      b64 (Z.land s2 63) :: ntg_encode_base64 s
  | [s0; s1] =>
      [b64 (Z.land (Z.shiftr s0 2) 63);
       b64 (Z.lor (Z.shiftl (Z.land s0 3) 4) (Z.shiftr s1 4));
       b64 (Z.shiftl (Z.land s1 15) 2); ch "="]
  | [s0] =>
      [b64 (Z.land (Z.shiftr s0 2) 63); b64 (Z.shiftl (Z.land s0 3) 4); ch "="; ch "="]
  | [] => []
  end.

(** [ntg_base64_encoded_length] and [ntg_base64_decoded_length] (ntg_string.h). *)
Definition ntg_base64_encoded_length (len : Z) : Z := (len + 2) / 3 * 4.
Definition ntg_base64_decoded_length (len : Z) : Z := (len + 3) / 4 * 3.

(** ** Decoding (ntg_decode_base64, ntg_decode_base64url) *)

Definition decode_basis : list Z :=
  [77; 77; 77; 77; 77; 77; 77; 77; 77; 77; 77; 77; 77; 77; 77; 77;
   77; 77; 77; 77; 77; 77; 77; 77; 77; 77; 77; 77; 77; 77; 77; 77;
   77; 77; 77; 77; 77; 77; 77; 77; 77; 77; 77; 62; 77; 77; 77; 63;
   52; 53; 54; 55; 56; 57; 58; 59; 60; 61; 77; 77; 77; 77; 77; 77;
   77;  0;  1;  2;  3;  4;  5;  6;  7;  8;  9; 10; 11; 12; 13; 14;
   15; 16; 17; 18; 19; 20; 21; 22; 23; 24; 25; 77; 77; 77; 77; 77;
   77; 26; 27; 28; 29; 30; 31; 32; 33; 34; 35; 36; 37; 38; 39; 40;
   41; 42; 43; 44; 45; 46; 47; 48; 49; 50; 51; 77; 77; 77; 77; 77;
   77; 77; 77; 77; 77; 77; 77; 77; 77; 77; 77; 77; 77; 77; 77; 77;
   77; 77; 77; 77; 77; 77; 77; 77; 77; 77; 77; 77; 77; 77; 77; 77;
   77; 77; 77; 77; 77; 77; 77; 77; 77; 77; 77; 77; 77; 77; 77; 77;
   77; 77; 77; 77; 77; 77; 77; 77; 77; 77; 77; 77; 77; 77; 77; 77;
   77; 77; 77; 77; 77; 77; 77; 77; 77; 77; 77; 77; 77; 77; 77; 77;
   77; 77; 77; 77; 77; 77; 77; 77; 77; 77; 77; 77; 77; 77; 77; 77;
   77; 77; 77; 77; 77; 77; 77; 77; 77; 77; 77; 77; 77; 77; 77; 77;
   77; 77; 77; 77; 77; 77; 77; 77; 77; 77; 77; 77; 77; 77; 77; 77].

Definition decode_basis_url : list Z :=
  [77; 77; 77; 77; 77; 77; 77; 77; 77; 77; 77; 77; 77; 77; 77; 77;
   77; 77; 77; 77; 77; 77; 77; 77; 77; 77; 77; 77; 77; 77; 77; 77;
   77; 77; 77; 77; 77; 77; 77; 77; 77; 77; 77; 77; 77; 62; 77; 77;
   52; 53; 54; 55; 56; 57; 58; 59; 60; 61; 77; 77; 77; 77; 77; 77;
   77;  0;  1;  2;  3;  4;  5;  6;  7;  8;  9; 10; 11; 12; 13; 14;
   15; 16; 17; 18; 19; 20; 21; 22; 23; 24; 25; 77; 77; 77; 77; 63;
   77; 26; 27; 28; 29; 30; 31; 32; 33; 34; 35; 36; 37; 38; 39; 40;
   41; 42; 43; 44; 45; 46; 47; 48; 49; 50; 51; 77; 77; 77; 77; 77;
   77; 77; 77; 77; 77; 77; 77; 77; 77; 77; 77; 77; 77; 77; 77; 77;
   77; 77; 77; 77; 77; 77; 77; 77; 77; 77; 77; 77; 77; 77; 77; 77;
   77; 77; 77; 77; 77; 77; 77; 77; 77; 77; 77; 77; 77; 77; 77; 77;
   77; 77; 77; 77; 77; 77; 77; 77; 77; 77; 77; 77; 77; 77; 77; 77;
   77; 77; 77; 77; 77; 77; 77; 77; 77; 77; 77; 77; 77; 77; 77; 77;
   77; 77; 77; 77; 77; 77; 77; 77; 77; 77; 77; 77; 77; 77; 77; 77;
   77; 77; 77; 77; 77; 77; 77; 77; 77; 77; 77; 77; 77; 77; 77; 77;
   77; 77; 77; 77; 77; 77; 77; 77; 77; 77; 77; 77; 77; 77; 77; 77].

Section decode.
Context (basis : list Z).

Definition basis_of (c : Z) : Z := nth (Z.to_nat c) basis 0.

(** The first loop: the number of bytes before the padding, or an error. *)
Fixpoint decode_scan (s : bytes) : option nat :=
  match s with
  | [] => Some O
  | c :: s =>
      if c =? ch "=" then Some O
      else if basis_of c =? 77 then None
      else S <$> decode_scan s
  end.

(** The second loop, on the bytes before the padding. *)
Fixpoint decode_quads (s : bytes) : bytes :=
  match s with
  | s0 :: s1 :: s2 :: s3 :: s =>
      u8 (Z.lor (Z.shiftl (basis_of s0) 2) (Z.shiftr (basis_of s1) 4)) ::
      u8 (Z.lor (Z.shiftl (basis_of s1) 4) (Z.shiftr (basis_of s2) 2)) ::
      u8 (Z.lor (Z.shiftl (basis_of s2) 6) (basis_of s3)) :: decode_quads s
  | s0 :: s1 :: s =>
      u8 (Z.lor (Z.shiftl (basis_of s0) 2) (Z.shiftr (basis_of s1) 4)) ::
      match s with
      | s2 :: _ => [u8 (Z.lor (Z.shiftl (basis_of s1) 4) (Z.shiftr (basis_of s2) 2))]
      | [] => []
      end
  | _ => []
  end.

(** [None] is [NTG_ERROR]; otherwise the bytes written to [dst->data]. *)
Definition ntg_decode_base64_internal (src : bytes) : option bytes :=
  match decode_scan src with
  | None => None
  | Some len => if (len mod 4 =? 1)%nat then None else Some (decode_quads (take len src))
  end.

End decode.

Definition ntg_decode_base64 : bytes -> option bytes := ntg_decode_base64_internal decode_basis.
Definition ntg_decode_base64url : bytes -> option bytes :=
  ntg_decode_base64_internal decode_basis_url.

(** ** Round trip *)

Lemma decode_basis_b64 i :
  0 <= i < 64 -> basis_of decode_basis (b64 i) = i /\ (b64 i =? ch "=") = false.
Proof.
  intros Hi.
  pose proof (forall_below 64
    (fun i => (basis_of decode_basis (b64 i) =? i) && negb (b64 i =? ch "="))) as H.
  specialize (H ltac:(by vm_compute) i ltac:(lia)). cbn beta in H.
  apply andb_true_iff in H as [H1 H2]. apply Z.eqb_eq in H1. by apply negb_true_iff in H2.
Qed.

(** The six-bit fields of a group of three bytes. *)
Lemma field0 a : Z.land (Z.shiftr a 2) 63 = a / 4 mod 64.
Proof. change 63 with (Z.ones 6). by rewrite land_ones_mod, shiftr_div by lia. Qed.
Lemma field1 a b : is_byte b ->
  Z.lor (Z.shiftl (Z.land a 3) 4) (Z.shiftr b 4) = a mod 4 * 16 + b / 16.
Proof.
  intros Hb. change 3 with (Z.ones 2). rewrite land_ones_mod, shiftr_div by lia.
  rewrite lor_shiftl_add; [done|lia|]. change (2 ^ 4) with 16. mlia.
Qed.
Lemma field2 a b : is_byte b ->
  Z.lor (Z.shiftl (Z.land a 15) 2) (Z.shiftr b 6) = a mod 16 * 4 + b / 64.
Proof.
  intros Hb. change 15 with (Z.ones 4). rewrite land_ones_mod, shiftr_div by lia.
  rewrite lor_shiftl_add; [done|lia|]. change (2 ^ 6) with 64. change (2 ^ 2) with 4. mlia.
Qed.
Lemma field3 a : Z.land a 63 = a mod 64.
Proof. change 63 with (Z.ones 6). by rewrite land_ones_mod by lia. Qed.
Lemma field1_last a : Z.shiftl (Z.land a 3) 4 = a mod 4 * 16.
Proof.
  change 3 with (Z.ones 2). rewrite land_ones_mod by lia. by rewrite Z.shiftl_mul_pow2 by lia.
Qed.
Lemma field2_last a : Z.shiftl (Z.land a 15) 2 = a mod 16 * 4.
Proof.
  change 15 with (Z.ones 4). rewrite land_ones_mod by lia. by rewrite Z.shiftl_mul_pow2 by lia.
Qed.

(** Joining the fields gives the bytes back. *)
Lemma join0 x y : 0 <= y < 64 -> u8 (Z.lor (Z.shiftl x 2) (Z.shiftr y 4)) = (x * 4 + y / 16) mod 256.
Proof.
  intros Hy. rewrite shiftr_div by lia. rewrite lor_shiftl_add; [done|lia|].
  change (2 ^ 4) with 16. change (2 ^ 2) with 4. mlia.
Qed.
Lemma join1 x y : 0 <= y < 64 -> u8 (Z.lor (Z.shiftl x 4) (Z.shiftr y 2)) = (x * 16 + y / 4) mod 256.
Proof.
  intros Hy. rewrite shiftr_div by lia. rewrite lor_shiftl_add; [done|lia|].
  change (2 ^ 4) with 16. change (2 ^ 2) with 4. mlia.
Qed.
Lemma join2 x y : 0 <= y < 64 -> u8 (Z.lor (Z.shiftl x 6) y) = (x * 64 + y) mod 256.
Proof. intros Hy. rewrite lor_shiftl_add; [done|lia|]. change (2 ^ 6) with 64. lia. Qed.

Lemma decode_scan_cons i s :
  0 <= i < 64 -> decode_scan decode_basis (b64 i :: s) = S <$> decode_scan decode_basis s.
Proof.
  intros Hi. destruct (decode_basis_b64 i Hi) as [H1 H2]. cbn [decode_scan].
  rewrite H1, H2. rewrite (proj2 (Z.eqb_neq i 77)) by lia. done.
Qed.

Lemma decode_scan_pad s : decode_scan decode_basis (ch "=" :: s) = Some 0%nat.
Proof. done. Qed.

Lemma base64_roundtrip s :
  Forall is_byte s ->
  exists n, decode_scan decode_basis (ntg_encode_base64 s) = Some n /\
    (n mod 4 <> 1)%nat /\
    decode_quads decode_basis (take n (ntg_encode_base64 s)) = s /\
    Z.of_nat (length (ntg_encode_base64 s)) =
      ntg_base64_encoded_length (Z.of_nat (length s)).
Proof.
  unfold ntg_base64_encoded_length.
  induction s as [|a|a b|a b c s IH] using list_ind3; intros Hs;
    rewrite ?Forall_cons in Hs; destruct_and?; cbn [ntg_encode_base64].
  - exists 0%nat. done.
  - unfold is_byte in *. rewrite field0, field1_last.
    rewrite !decode_scan_cons, decode_scan_pad by mlia.
    eexists. split_and!; [done|done| |done]. cbn [firstn decode_quads].
    destruct (decode_basis_b64 (a / 4 mod 64)) as [-> _]; [mlia|].
    destruct (decode_basis_b64 (a mod 4 * 16)) as [-> _]; [mlia|].
    f_equal. rewrite join0 by mlia. mlia.
  - rewrite field0, field1, field2_last by done. unfold is_byte in *.
    rewrite !decode_scan_cons, decode_scan_pad by mlia.
    eexists. split_and!; [done|done| |done]. cbn [firstn decode_quads].
    destruct (decode_basis_b64 (a / 4 mod 64)) as [-> _]; [mlia|].
    destruct (decode_basis_b64 (a mod 4 * 16 + b / 16)) as [-> _]; [mlia|].
    destruct (decode_basis_b64 (b mod 16 * 4)) as [-> _]; [mlia|].
    f_equal; [|f_equal]; [rewrite join0 by mlia|rewrite join1 by mlia]; mlia.
  - destruct IH as (n & En & Hn & Hd & Hl); [done|].
    rewrite field0, field1, field2, field3 by done. unfold is_byte in *.
    rewrite !decode_scan_cons, En by mlia. cbn [fmap option_fmap option_map].
    exists (4 + n)%nat. split_and!.
    + done.
    + rewrite Nat.add_comm. change (n + 4)%nat with (n + 1 * 4)%nat. by rewrite Nat.Div0.mod_add.
    + cbn [Nat.add firstn decode_quads]. rewrite Hd.
      destruct (decode_basis_b64 (a / 4 mod 64)) as [-> _]; [mlia|].
      destruct (decode_basis_b64 (a mod 4 * 16 + b / 16)) as [-> _]; [mlia|].
      destruct (decode_basis_b64 (b mod 16 * 4 + c / 64)) as [-> _]; [mlia|].
      destruct (decode_basis_b64 (c mod 64)) as [-> _]; [mlia|].
      f_equal; [|f_equal; [|f_equal]];
        [rewrite join0 by mlia|rewrite join1 by mlia|rewrite join2 by mlia]; mlia.
    + cbn [length]. mlia.
Qed.

(** Decoding an encoded string gives the string back, and the encoded
    length is the one the size macro reserves. *)
Theorem ntg_base64_decode_encode s :
  Forall is_byte s ->
  ntg_decode_base64 (ntg_encode_base64 s) = Some s /\
  Z.of_nat (length (ntg_encode_base64 s)) = ntg_base64_encoded_length (Z.of_nat (length s)).
Proof.
  intros Hs. destruct (base64_roundtrip s Hs) as (n & En & Hn & Hd & Hl). split; [|done].
  unfold ntg_decode_base64, ntg_decode_base64_internal. rewrite En.
  apply Nat.eqb_neq in Hn. by rewrite Hn, Hd.
Qed.

(** Whatever the input and the alphabet, the decoder either reports an
    error or writes no more bytes than the size macro reserves. *)
Theorem ntg_base64_decode_bound basis src d :
  ntg_decode_base64_internal basis src = Some d ->
  Z.of_nat (length d) <= ntg_base64_decoded_length (Z.of_nat (length src)).
Proof.
  unfold ntg_decode_base64_internal, ntg_base64_decoded_length. intros E.
  destruct (decode_scan basis src) as [n|]; [|done]. case_match; [done|]. injection E as <-.
  assert (H4 : forall l, Z.of_nat (length (decode_quads basis l)) <= (Z.of_nat (length l) + 3) / 4 * 3).
  { intros l. induction l as [l IH] using (induction_ltof1 _ (@length Z)).
    destruct l as [|a [|b [|c [|d l]]]]; cbn [decode_quads length]; try (mlia).
    specialize (IH l ltac:(unfold ltof; cbn; lia)). mlia. }
  specialize (H4 (take n src)). rewrite length_take in H4.
  assert (Z.of_nat (n `min` length src) <= Z.of_nat (length src)) by lia. mlia.
Qed.

Lemma ntg_base64_decode_encode_witness :
  ntg_decode_base64 (ntg_encode_base64 (str "any carnal pleas")) = Some (str "any carnal pleas").
Proof.
  apply (ntg_base64_decode_encode (str "any carnal pleas")).
  apply (bool_decide_eq_true_1 _). by vm_compute.
Defined.

Lemma ntg_base64_decode_bound_witness :
  exists d, ntg_decode_base64_internal decode_basis (str "YW55") = Some d /\
    Z.of_nat (length d) <= 3.
Proof.
  exists (str "any"). split; [reflexivity|].
  by apply (ntg_base64_decode_bound decode_basis (str "YW55")).
Defined.
