(* ===== verification/Crc32.v ===== *)
(** * Cyclic redundancy check (src/utils/ntg_crc32.c, ntg_crc32.h)

    The check of 32 bits of a string, by nibbles over a small table that is moved to
    a cache line, by bytes over a large table, or in pieces; the reference is the
    division bit by bit. *)

From S2P Require Import Prelude Pool.

(** ** The tables *)

Definition ntg_crc32_table16 : list Z :=
  [0x00000000; 0x1db71064; 0x3b6e20c8; 0x26d930ac;
   0x76dc4190; 0x6b6b51f4; 0x4db26158; 0x5005713c;
   0xedb88320; 0xf00f9344; 0xd6d6a3e8; 0xcb61b38c;
   0x9b64c2b0; 0x86d3d2d4; 0xa00ae278; 0xbdbdf21c].

Definition ntg_crc32_table256 : list Z :=
  [0x00000000; 0x77073096; 0xee0e612c; 0x990951ba;
   0x076dc419; 0x706af48f; 0xe963a535; 0x9e6495a3;
   0x0edb8832; 0x79dcb8a4; 0xe0d5e91e; 0x97d2d988;
   0x09b64c2b; 0x7eb17cbd; 0xe7b82d07; 0x90bf1d91;
   0x1db71064; 0x6ab020f2; 0xf3b97148; 0x84be41de;
   0x1adad47d; 0x6ddde4eb; 0xf4d4b551; 0x83d385c7;
   0x136c9856; 0x646ba8c0; 0xfd62f97a; 0x8a65c9ec;
   0x14015c4f; 0x63066cd9; 0xfa0f3d63; 0x8d080df5;
   0x3b6e20c8; 0x4c69105e; 0xd56041e4; 0xa2677172;
   0x3c03e4d1; 0x4b04d447; 0xd20d85fd; 0xa50ab56b;
   0x35b5a8fa; 0x42b2986c; 0xdbbbc9d6; 0xacbcf940;
   0x32d86ce3; 0x45df5c75; 0xdcd60dcf; 0xabd13d59;
   0x26d930ac; 0x51de003a; 0xc8d75180; 0xbfd06116;
   0x21b4f4b5; 0x56b3c423; 0xcfba9599; 0xb8bda50f;
   0x2802b89e; 0x5f058808; 0xc60cd9b2; 0xb10be924;
   0x2f6f7c87; 0x58684c11; 0xc1611dab; 0xb6662d3d;
   0x76dc4190; 0x01db7106; 0x98d220bc; 0xefd5102a;
   0x71b18589; 0x06b6b51f; 0x9fbfe4a5; 0xe8b8d433;
   0x7807c9a2; 0x0f00f934; 0x9609a88e; 0xe10e9818;
   0x7f6a0dbb; 0x086d3d2d; 0x91646c97; 0xe6635c01;
   0x6b6b51f4; 0x1c6c6162; 0x856530d8; 0xf262004e;
   0x6c0695ed; 0x1b01a57b; 0x8208f4c1; 0xf50fc457;
   0x65b0d9c6; 0x12b7e950; 0x8bbeb8ea; 0xfcb9887c;
   0x62dd1ddf; 0x15da2d49; 0x8cd37cf3; 0xfbd44c65;
   0x4db26158; 0x3ab551ce; 0xa3bc0074; 0xd4bb30e2;
   0x4adfa541; 0x3dd895d7; 0xa4d1c46d; 0xd3d6f4fb;
   0x4369e96a; 0x346ed9fc; 0xad678846; 0xda60b8d0;
   0x44042d73; 0x33031de5; 0xaa0a4c5f; 0xdd0d7cc9;
   0x5005713c; 0x270241aa; 0xbe0b1010; 0xc90c2086;
   0x5768b525; 0x206f85b3; 0xb966d409; 0xce61e49f;
   0x5edef90e; 0x29d9c998; 0xb0d09822; 0xc7d7a8b4;
   0x59b33d17; 0x2eb40d81; 0xb7bd5c3b; 0xc0ba6cad;
   0xedb88320; 0x9abfb3b6; 0x03b6e20c; 0x74b1d29a;
   0xead54739; 0x9dd277af; 0x04db2615; 0x73dc1683;
   0xe3630b12; 0x94643b84; 0x0d6d6a3e; 0x7a6a5aa8;
   0xe40ecf0b; 0x9309ff9d; 0x0a00ae27; 0x7d079eb1;
   0xf00f9344; 0x8708a3d2; 0x1e01f268; 0x6906c2fe;
   0xf762575d; 0x806567cb; 0x196c3671; 0x6e6b06e7;
   0xfed41b76; 0x89d32be0; 0x10da7a5a; 0x67dd4acc;
   0xf9b9df6f; 0x8ebeeff9; 0x17b7be43; 0x60b08ed5;
   0xd6d6a3e8; 0xa1d1937e; 0x38d8c2c4; 0x4fdff252;
   0xd1bb67f1; 0xa6bc5767; 0x3fb506dd; 0x48b2364b;
   0xd80d2bda; 0xaf0a1b4c; 0x36034af6; 0x41047a60;
   0xdf60efc3; 0xa867df55; 0x316e8eef; 0x4669be79;
   0xcb61b38c; 0xbc66831a; 0x256fd2a0; 0x5268e236;
   0xcc0c7795; 0xbb0b4703; 0x220216b9; 0x5505262f;
   0xc5ba3bbe; 0xb2bd0b28; 0x2bb45a92; 0x5cb36a04;
   0xc2d7ffa7; 0xb5d0cf31; 0x2cd99e8b; 0x5bdeae1d;
   0x9b64c2b0; 0xec63f226; 0x756aa39c; 0x026d930a;
   0x9c0906a9; 0xeb0e363f; 0x72076785; 0x05005713;
   0x95bf4a82; 0xe2b87a14; 0x7bb12bae; 0x0cb61b38;
   0x92d28e9b; 0xe5d5be0d; 0x7cdcefb7; 0x0bdbdf21;
   0x86d3d2d4; 0xf1d4e242; 0x68ddb3f8; 0x1fda836e;
   0x81be16cd; 0xf6b9265b; 0x6fb077e1; 0x18b74777;
   0x88085ae6; 0xff0f6a70; 0x66063bca; 0x11010b5c;
   0x8f659eff; 0xf862ae69; 0x616bffd3; 0x166ccf45;
   0xa00ae278; 0xd70dd2ee; 0x4e048354; 0x3903b3c2;
   0xa7672661; 0xd06016f7; 0x4969474d; 0x3e6e77db;
   0xaed16a4a; 0xd9d65adc; 0x40df0b66; 0x37d83bf0;
   0xa9bcae53; 0xdebb9ec5; 0x47b2cf7f; 0x30b5ffe9;
   0xbdbdf21c; 0xcabac28a; 0x53b39330; 0x24b4a3a6;
   0xbad03605; 0xcdd70693; 0x54de5729; 0x23d967bf;
   0xb3667a2e; 0xc4614ab8; 0x5d681b02; 0x2a6f2b94;
   0xb40bbe37; 0xc30c8ea1; 0x5a05df1b; 0x2d02ef8d].

(** ** The checks *)

(** [ntg_crc32_table_short] is a pointer; [ct_mem] holds the words of the memory. *)
Record crc_tables := CrcTables { ct_short : Z; ct_mem : gmap Z Z }.

Definition table_short (t : crc_tables) (i : Z) : option Z := ct_mem t !! (ct_short t + 4 * i).

(** The loop of [ntg_crc32_short]; a read outside of the memory is undefined. *)
Fixpoint short_loop (t : crc_tables) (crc : Z) (p : bytes) : option Z :=
  match p with
  | [] => Some crc
  | c :: p =>
      w ← table_short t (Z.land (Z.lxor crc (Z.land c 15)) 15);
      let crc := Z.lxor w (Z.shiftr crc 4) in
      w ← table_short t (Z.land (Z.lxor crc (Z.shiftr c 4)) 15);
      let crc := Z.lxor w (Z.shiftr crc 4) in
      short_loop t crc p
  end.

Definition ntg_crc32_short (t : crc_tables) (p : bytes) : option Z :=
  crc ← short_loop t 4294967295 p;
  Some (Z.lxor crc 4294967295).

Definition ntg_crc32_init : Z := 4294967295.
Definition ntg_crc32_final (crc : Z) : Z := Z.lxor crc 4294967295.

Fixpoint ntg_crc32_update (crc : Z) (p : bytes) : Z :=
  match p with
  | [] => crc
  | c :: p =>
      ntg_crc32_update (Z.lxor (nth (Z.to_nat (Z.land (Z.lxor crc c) 255)) ntg_crc32_table256 0) (Z.shiftr crc 8)) p
  end.

(** The loop of [ntg_crc32_long] is the one of [ntg_crc32_update]. *)
Definition ntg_crc32_long (p : bytes) : Z := Z.lxor (ntg_crc32_update 4294967295 p) 4294967295.

(** ** Moving the small table (ntg_crc32_table_init) *)

(** [ntg_memcpy] of words. *)
Fixpoint copy_words (p : Z) (ws : list Z) (m : gmap Z Z) : gmap Z Z :=
  match ws with
  | [] => m
  | w :: ws => copy_words (p + 4) ws (<[p := w]> m)
  end.

Definition ntg_crc32_table_init (ntg_alloc : Z -> Z) (ntg_cacheline_size : Z) (t : crc_tables) : Z * crc_tables :=
  if Z.land (ct_short t) (Z.lnot (u64 (ntg_cacheline_size - 1))) =? ct_short t then (NTG_OK, t)
  else
    let p := ntg_alloc (64 + ntg_cacheline_size) in
    if p =? 0 then (NTG_ERROR, t)
    else
      let p := ntg_align_ptr p ntg_cacheline_size in
      (NTG_OK, CrcTables p (copy_words p ntg_crc32_table16 (ct_mem t))).

(** ** The reference *)

(** One bit of the division, by the polynomial of the PNG specification. *)
Definition crc_bit (c : Z) : Z :=
  if Z.odd c then Z.lxor (Z.shiftr c 1) 3988292384 else Z.shiftr c 1.

Definition crc_bits (n : nat) (c : Z) : Z := Nat.iter n crc_bit c.

Definition crc_spec (crc : Z) (p : bytes) : Z :=
  fold_left (fun crc c => crc_bits 8 (Z.lxor crc c)) p crc.

Lemma crc_bit_lxor a b : crc_bit (Z.lxor a b) = Z.lxor (crc_bit a) (crc_bit b).
Proof.
  unfold crc_bit. rewrite Z.shiftr_lxor, <-!Z.bit0_odd, Z.lxor_spec.
  destruct (Z.testbit a 0), (Z.testbit b 0); cbn [xorb]; apply Z.bits_inj'; intros n Hn;
    rewrite ?Z.lxor_spec; destruct (Z.testbit (Z.shiftr a 1) n), (Z.testbit (Z.shiftr b 1) n), (Z.testbit 3988292384 n); done.
Qed.

Lemma crc_bits_S n c : crc_bits (S n) c = crc_bits n (crc_bit c).
Proof. apply Nat.iter_succ_r. Qed.

Lemma crc_bits_add n m c : crc_bits (n + m) c = crc_bits n (crc_bits m c).
Proof. apply Nat.iter_add. Qed.

Lemma crc_bits_lxor n a b : crc_bits n (Z.lxor a b) = Z.lxor (crc_bits n a) (crc_bits n b).
Proof. revert a b. induction n as [|n IH]; intros a b; [done|]. by rewrite !crc_bits_S, crc_bit_lxor, IH. Qed.

(** The zeros below are shifted out. *)
Lemma crc_bits_shiftl n c : crc_bits n (Z.shiftl c (Z.of_nat n)) = c.
Proof.
  induction n as [|n IH]; [apply Z.shiftl_0_r|]. rewrite crc_bits_S. rewrite <-IH at 2. f_equal. unfold crc_bit.
  rewrite <-Z.bit0_odd, Z.shiftl_spec_low by lia. rewrite Z.shiftr_shiftl_l by lia. f_equal. lia.
Qed.

Lemma split_low c n : 0 <= n -> Z.lxor (Z.land c (Z.ones n)) (Z.shiftl (Z.shiftr c n) n) = c.
Proof.
  intros Hn. apply Z.bits_inj'. intros i Hi. rewrite Z.lxor_spec, Z.land_spec, Z.testbit_ones_nonneg by done.
  destruct (Z.ltb_spec i n) as [H|H].
  - by rewrite Z.shiftl_spec_low, andb_true_r, xorb_false_r.
  - rewrite Z.shiftl_spec_high, Z.shiftr_spec by lia. replace (i - n + n) with i by lia. by rewrite andb_false_r, xorb_false_l.
Qed.

(** The low bits choose what is added to the others. *)
Lemma crc_bits_low n c : crc_bits n c = Z.lxor (crc_bits n (Z.land c (Z.ones (Z.of_nat n)))) (Z.shiftr c (Z.of_nat n)).
Proof. rewrite <-(split_low c (Z.of_nat n)) at 1 by lia. by rewrite crc_bits_lxor, crc_bits_shiftl. Qed.

Lemma table256_bits i : 0 <= i < 256 -> nth (Z.to_nat i) ntg_crc32_table256 0 = crc_bits 8 i.
Proof.
  intros Hi. pose proof (forall_below 256 (fun i => nth (Z.to_nat i) ntg_crc32_table256 0 =? crc_bits 8 i)) as H.
  apply Z.eqb_eq, H; [by vm_compute|lia].
Qed.

Lemma table16_bits i : 0 <= i < 16 -> nth (Z.to_nat i) ntg_crc32_table16 0 = crc_bits 4 i.
Proof.
  intros Hi. pose proof (forall_below 16 (fun i => nth (Z.to_nat i) ntg_crc32_table16 0 =? crc_bits 4 i)) as H.
  apply Z.eqb_eq, H; [by vm_compute|lia].
Qed.

Lemma shiftr_byte c : is_byte c -> Z.shiftr c 8 = 0.
Proof. intros Hc. rewrite shiftr_div by lia. apply Z.div_small. exact Hc. Qed.

(** ** The loops are the reference *)

Lemma long_byte crc c : is_byte c ->
  Z.lxor (nth (Z.to_nat (Z.land (Z.lxor crc c) 255)) ntg_crc32_table256 0) (Z.shiftr crc 8) = crc_bits 8 (Z.lxor crc c).
Proof.
  intros Hc. rewrite (crc_bits_low 8). change (Z.of_nat 8) with 8. change 255 with (Z.ones 8).
  rewrite table256_bits.
  { rewrite Z.shiftr_lxor. rewrite (shiftr_byte c) by exact Hc. rewrite Z.lxor_0_r. reflexivity. }
  rewrite land_ones_mod by lia. by apply Z.mod_pos_bound.
Qed.

Lemma crc_update_spec crc p : Forall is_byte p -> ntg_crc32_update crc p = crc_spec crc p.
Proof.
  intros Hp. revert crc. induction Hp as [|c p Hc _ IH]; intros crc; [done|].
  cbn [ntg_crc32_update]. rewrite long_byte by exact Hc. apply IH.
Qed.

Definition tables_ok (t : crc_tables) : Prop :=
  forall i, 0 <= i < 16 -> table_short t i = Some (nth (Z.to_nat i) ntg_crc32_table16 0).

Lemma short_nibble t crc x : tables_ok t -> 0 <= x < 16 ->
  (w ← table_short t (Z.land (Z.lxor crc x) 15); Some (Z.lxor w (Z.shiftr crc 4))) = Some (crc_bits 4 (Z.lxor crc x)).
Proof.
  intros Ht Hx. assert (Hr : 0 <= Z.land (Z.lxor crc x) 15 < 16)
    by (change 15 with (Z.ones 4); rewrite land_ones_mod by lia; by apply Z.mod_pos_bound).
  rewrite Ht, table16_bits by exact Hr. cbn [mbind option_bind]. f_equal. rewrite (crc_bits_low 4 (Z.lxor crc x)).
  change (Z.of_nat 4) with 4. change (Z.ones 4) with 15. rewrite Z.shiftr_lxor. f_equal.
  rewrite (shiftr_div x) by lia. rewrite Z.div_small by done. by rewrite Z.lxor_0_r.
Qed.

Lemma two_nibbles crc c : is_byte c ->
  crc_bits 4 (Z.lxor (crc_bits 4 (Z.lxor crc (Z.land c 15))) (Z.shiftr c 4)) = crc_bits 8 (Z.lxor crc c).
Proof.
  intros Hc. rewrite (crc_bits_add 4 4). f_equal. rewrite <-(split_low c 4) at 3 by lia. change (Z.ones 4) with 15.
  rewrite <-Z.lxor_assoc, (crc_bits_lxor 4 (Z.lxor crc (Z.land c 15))). f_equal. symmetry. apply (crc_bits_shiftl 4).
Qed.

Lemma short_loop_spec t crc p : tables_ok t -> Forall is_byte p -> short_loop t crc p = Some (crc_spec crc p).
Proof.
  intros Ht Hp. revert crc. induction Hp as [|c p Hc _ IH]; intros crc; [done|]. cbn [short_loop].
  assert (Hx : 0 <= Z.land c 15 < 16) by (change 15 with (Z.ones 4); rewrite land_ones_mod by lia; by apply Z.mod_pos_bound).
  assert (Hy : 0 <= Z.shiftr c 4 < 16) by (rewrite shiftr_div by lia; mlia).
  pose proof (short_nibble t crc (Z.land c 15) Ht Hx) as H1.
  pose proof (short_nibble t (crc_bits 4 (Z.lxor crc (Z.land c 15))) (Z.shiftr c 4) Ht Hy) as H2.
  rewrite two_nibbles in H2 by done.
  destruct (table_short t (Z.land (Z.lxor crc (Z.land c 15)) 15)) as [w|]; cbn in H1; [injection H1 as E1|done].
  cbn. rewrite E1. destruct (table_short t _) as [w'|]; cbn in H2; [injection H2 as E2|done]. cbn. rewrite E2. apply IH.
Qed.

Lemma crc_spec_app crc p q : crc_spec crc (p ++ q) = crc_spec (crc_spec crc p) q.
Proof. apply fold_left_app. Qed.

Lemma update_pieces crc ps : Forall is_byte (concat ps) -> fold_left ntg_crc32_update ps crc = crc_spec crc (concat ps).
Proof.
  revert crc. induction ps as [|p ps IH]; intros crc H; [done|]. cbn [concat fold_left] in *.
  apply Forall_app in H as [H1 H2]. by rewrite IH, crc_spec_app, crc_update_spec.
Qed.

(** ** The words are of 32 bits *)

Lemma word_shiftr c : 0 <= c < 2 ^ 32 <-> Z.shiftr c 32 = 0.
Proof. rewrite shiftr_div by lia. rewrite Z.div_small_iff by lia. lia. Qed.

Lemma word_lxor a b : 0 <= a < 2 ^ 32 -> 0 <= b < 2 ^ 32 -> 0 <= Z.lxor a b < 2 ^ 32.
Proof. rewrite !word_shiftr, Z.shiftr_lxor. by intros -> ->. Qed.

Lemma crc_bit_word c : 0 <= c < 2 ^ 32 -> 0 <= crc_bit c < 2 ^ 32.
Proof.
  intros Hc. assert (0 <= Z.shiftr c 1 < 2 ^ 32) by (rewrite shiftr_div by lia; Z.to_euclidean_division_equations; lia).
  unfold crc_bit. destruct (Z.odd c); [|done]. by apply word_lxor.
Qed.

Lemma crc_bits_word n c : 0 <= c < 2 ^ 32 -> 0 <= crc_bits n c < 2 ^ 32.
Proof. intros Hc. induction n as [|n IH]; [done|]. by apply crc_bit_word. Qed.

Lemma crc_spec_word crc p : Forall is_byte p -> 0 <= crc < 2 ^ 32 -> 0 <= crc_spec crc p < 2 ^ 32.
Proof.
  intros Hp. revert crc. induction Hp as [|c p Hc _ IH]; intros crc H; [done|]. apply IH, crc_bits_word, word_lxor; [done|].
  width. lia.
Qed.

(** ** Changes are seen *)

(** A bit of the division forgets nothing. *)
Lemma crc_bit_kernel d : 0 <= d < 2 ^ 32 -> crc_bit d = 0 -> d = 0.
Proof.
  intros Hd. unfold crc_bit. assert (E : d = 2 * Z.shiftr d 1 + Z.b2z (Z.odd d)).
  { rewrite shiftr_div by lia. change (2 ^ 1) with 2. rewrite <-Z.bit0_odd, Z.bit0_mod. apply Z.div_mod. lia. }
  destruct (Z.odd d); [|cbn in E; lia]. intros H%Z.lxor_eq. cbn in E. lia.
Qed.

Lemma crc_bits_inj n a b : 0 <= a < 2 ^ 32 -> 0 <= b < 2 ^ 32 -> crc_bits n a = crc_bits n b -> a = b.
Proof.
  intros Ha Hb H. apply Z.lxor_eq. assert (Hd : 0 <= Z.lxor a b < 2 ^ 32) by by apply word_lxor.
  assert (E : crc_bits n (Z.lxor a b) = 0) by (rewrite crc_bits_lxor, H; apply Z.lxor_nilpotent).
  clear H. revert E. induction n as [|n IH]; [done|]. intros E. apply IH, crc_bit_kernel; [by apply crc_bits_word|exact E].
Qed.

(** The bytes as a number, the first one lowest. *)
Fixpoint le_word (p : bytes) : Z :=
  match p with
  | [] => 0
  | c :: p => Z.lxor c (Z.shiftl (le_word p) 8)
  end.

(** A string is divided like one number. *)
Lemma crc_spec_le crc p : crc_spec crc p = crc_bits (8 * length p) (Z.lxor crc (le_word p)).
Proof.
  revert crc. induction p as [|c p IH]; intros crc; [by rewrite Z.lxor_0_r|].
  change (crc_spec crc (c :: p)) with (crc_spec (crc_bits 8 (Z.lxor crc c)) p). cbn [length le_word].
  replace (8 * S (length p))%nat with (8 * length p + 8)%nat by lia.
  rewrite IH, crc_bits_add, <-Z.lxor_assoc, (crc_bits_lxor 8 (Z.lxor crc c)). do 2 f_equal. symmetry. apply (crc_bits_shiftl 8).
Qed.

Lemma le_word_cons c p : is_byte c -> le_word (c :: p) = le_word p * 256 + c.
Proof.
  intros Hc. cbn. change 256 with (2 ^ 8). rewrite <-Z.shiftl_mul_pow2 by lia. rewrite Z.lxor_comm. symmetry. apply Z.add_nocarry_lxor.
  rewrite <-(Z.mod_small c (2 ^ 8)) by exact Hc. apply Z.bits_inj'. intros n Hn. rewrite Z.land_spec, Z.bits_0.
  destruct (Z.ltb_spec n 8); [by rewrite Z.shiftl_spec_low by lia|]. by rewrite Z.mod_pow2_bits_high, andb_false_r by lia.
Qed.

Lemma le_word_range p : Forall is_byte p -> 0 <= le_word p < 256 ^ Z.of_nat (length p).
Proof.
  induction 1 as [|c p Hc _ IH]; [done|]. rewrite le_word_cons by done. cbn [length].
  rewrite Nat2Z.inj_succ, Z.pow_succ_r by lia. width. nia.
Qed.

Lemma le_word_inj p q : Forall is_byte p -> Forall is_byte q -> length p = length q -> le_word p = le_word q -> p = q.
Proof.
  intros Hp. revert q. induction Hp as [|c p Hc Hp IH]; intros [|d q] Hq Hlen E; try done.
  apply Forall_cons_1 in Hq as [Hd Hq]. rewrite !le_word_cons in E by done. assert (c = d) as <- by mlia.
  f_equal. apply IH; [done|by injection Hlen|lia].
Qed.

(** ** The moved table *)

Lemma align_pow2 p k : 0 <= k <= 12 -> 0 <= p < 9223372036854775808 ->
  let a := ntg_align_ptr p (2 ^ k) in p <= a < p + 2 ^ k /\ a mod 2 ^ k = 0.
Proof.
  intros Hk Hp. unfold ntg_align_ptr. assert (0 < 2 ^ k <= 2 ^ 12) by (split; [|apply Z.pow_le_mono_r]; lia).
  replace (2 ^ k - 1) with (Z.ones k) by (rewrite Z.ones_equiv; lia).
  rewrite <-Z.ldiff_land, Z.ldiff_ones_r by lia. rewrite Z.shiftl_mul_pow2, Z.shiftr_div_pow2 by lia. rewrite Z.ones_equiv.
  rewrite u64_small by (width; lia). cbn zeta. split; [|apply Z.mod_mul; lia].
  pose proof (Z.mod_pos_bound (p + Z.pred (2 ^ k)) (2 ^ k)). pose proof (Z.div_mod (p + Z.pred (2 ^ k)) (2 ^ k)). lia.
Qed.

Lemma copy_words_lookup p ws m a :
  copy_words p ws m !! a =
  if (p <=? a) && (a <? p + 4 * Z.of_nat (length ws)) && ((a - p) mod 4 =? 0) then ws !! Z.to_nat ((a - p) / 4) else m !! a.
Proof.
  revert p m. induction ws as [|w ws IH]; intros p m; cbn [copy_words length].
  - destruct (Z.leb_spec p a); [|done]. by destruct (Z.ltb_spec a (p + 4 * Z.of_nat 0)); [lia|].
  - rewrite IH. destruct (decide (a = p)) as [->|Hne].
    + destruct (Z.leb_spec (p + 4) p); [lia|]. cbn [andb]. rewrite lookup_insert_eq, Z.leb_refl.
      destruct (Z.ltb_spec p (p + 4 * Z.of_nat (S (length ws)))); [|lia]. by rewrite Z.sub_diag.
    + rewrite lookup_insert_ne by done. replace ((a - (p + 4)) mod 4 =? 0) with ((a - p) mod 4 =? 0) by (f_equal; mlia).
      destruct (Z.eqb_spec ((a - p) mod 4) 0) as [E|E]; [|by rewrite !andb_false_r]. rewrite !andb_true_r.
      destruct (Z.leb_spec p a) as [H1|H1]; destruct (Z.leb_spec (p + 4) a) as [H2|H2]; cbn [andb]; [|mlia|lia|done].
      replace (a <? p + 4 * Z.of_nat (S (length ws))) with (a <? p + 4 + 4 * Z.of_nat (length ws)) by (f_equal; lia).
      destruct (Z.ltb_spec a (p + 4 + 4 * Z.of_nat (length ws))); [|done].
      replace (Z.to_nat ((a - p) / 4)) with (S (Z.to_nat ((a - (p + 4)) / 4))) by mlia. done.
Qed.

Section table_init.
(** [ntg_alloc] gives the null pointer or an address. *)
Context (ntg_alloc : Z -> Z) (k : Z) (Hk : 0 <= k <= 12)
  (alloc_address : forall n, 0 <= ntg_alloc n < 9223372036854775808).

Lemma table_init_ok t t' rc :
  tables_ok t -> 0 <= ct_short t < 9223372036854775808 -> ntg_crc32_table_init ntg_alloc (2 ^ k) t = (rc, t') ->
  tables_ok t' /\ (rc = NTG_ERROR /\ t' = t \/ rc = NTG_OK /\ ct_short t' mod 2 ^ k = 0) /\
  forall a, ct_mem t' !! a <> ct_mem t !! a -> exists p, p = ntg_alloc (64 + 2 ^ k) /\ p <= a /\ a + 4 <= p + 64 + 2 ^ k.
Proof using Hk alloc_address.
  intros Ht Hs. unfold ntg_crc32_table_init. assert (0 < 2 ^ k <= 2 ^ 12) by (split; [|apply Z.pow_le_mono_r]; lia).
  rewrite u64_small by (width; lia). destruct (Z.eqb_spec (Z.land (ct_short t) (Z.lnot (2 ^ k - 1))) (ct_short t)) as [E|E].
  - intros [= <- <-]. split; [done|]. split; [right; split; [done|]|done].
    rewrite <-E. replace (2 ^ k - 1) with (Z.ones k) by (rewrite Z.ones_equiv; lia).
    rewrite <-Z.ldiff_land, Z.ldiff_ones_r by lia. rewrite Z.shiftl_mul_pow2 by lia. apply Z.mod_mul. lia.
  - destruct (Z.eqb_spec (ntg_alloc (64 + 2 ^ k)) 0) as [E0|E0]; intros [<- <-]%pair_equal_spec; [by split; [|split; [left|]]|].
    destruct (align_pow2 (ntg_alloc (64 + 2 ^ k)) k Hk (alloc_address _)) as [Ha Hm].
    split; [|split; [by right|]].
    + intros i Hi. unfold table_short. cbn [ct_short ct_mem]. rewrite copy_words_lookup.
      change (Z.of_nat (length ntg_crc32_table16)) with 16.
      rewrite Z.add_simpl_l, Z.mul_comm, Z.mod_mul, Z.div_mul by lia.
      rewrite (proj2 (Z.leb_le _ _)), (proj2 (Z.ltb_lt _ _)) by lia. cbn [andb Z.eqb].
      destruct (nth_lookup_or_length ntg_crc32_table16 (Z.to_nat i) 0) as [E'|E']; [exact E'|].
      change (length ntg_crc32_table16) with 16%nat in E'. lia.
    + cbn [ct_mem]. intros a. rewrite copy_words_lookup. change (Z.of_nat (length ntg_crc32_table16)) with 16.
      destruct (Z.leb_spec (ntg_align_ptr (ntg_alloc (64 + 2 ^ k)) (2 ^ k)) a); [|done].
      destruct (Z.ltb_spec a (ntg_align_ptr (ntg_alloc (64 + 2 ^ k)) (2 ^ k) + 4 * 16)); [|done].
      destruct (Z.eqb_spec ((a - ntg_align_ptr (ntg_alloc (64 + 2 ^ k)) (2 ^ k)) mod 4) 0) as [E4|E4]; [|done].
      intros _. eexists. split; [done|]. split; [lia|]. mlia.
Qed.
End table_init.

(** ** The claims *)

(** Of every string, the check by nibbles (over the small table, moved or not),
    the check by bytes and the check in any pieces are the one of the division bit by
    bit, a number of 32 bits. *)
Theorem crc_correct t p ps :
  tables_ok t -> Forall is_byte p -> concat ps = p ->
  let crc := ntg_crc32_final (crc_spec ntg_crc32_init p) in
  ntg_crc32_short t p = Some crc /\ ntg_crc32_long p = crc /\
  ntg_crc32_final (fold_left ntg_crc32_update ps ntg_crc32_init) = crc /\ 0 <= crc < 2 ^ 32.
Proof.
  intros Ht Hp Hps crc. subst p. unfold ntg_crc32_short, ntg_crc32_long. rewrite short_loop_spec, crc_update_spec, update_pieces by done.
  repeat split; apply word_lxor; try done; by apply crc_spec_word.
Qed.

(** Two strings that differ in at most four bytes next to each other have
    different checks. *)
Theorem crc_detects_bursts p x y s :
  Forall is_byte (p ++ x ++ s) -> Forall is_byte y -> length x = length y -> (length x <= 4)%nat ->
  x <> y -> ntg_crc32_long (p ++ x ++ s) <> ntg_crc32_long (p ++ y ++ s).
Proof.
  intros H Hy Hlen H4 Hne E. apply Hne. clear Hne. apply Forall_app in H as [Hp [Hx Hs]%Forall_app]. unfold ntg_crc32_long in E.
  rewrite !crc_update_spec, !crc_spec_app in E by (repeat (apply Forall_app; split); done).
  apply (f_equal (Z.lxor 4294967295)) in E. rewrite !(Z.lxor_comm 4294967295), !Z.lxor_assoc, Z.lxor_nilpotent, !Z.lxor_0_r in E.
  set (c := crc_spec 4294967295 p) in *. assert (Hc : 0 <= c < 2 ^ 32) by by apply crc_spec_word.
  assert (Hw : forall z, Forall is_byte z -> (length z <= 4)%nat -> 0 <= Z.lxor c (le_word z) < 2 ^ 32).
  { intros z Hz Hl. apply word_lxor; [done|]. pose proof (le_word_range z Hz).
    assert (256 ^ Z.of_nat (length z) <= 256 ^ 4) by (apply Z.pow_le_mono_r; lia). lia. }
  rewrite (crc_spec_le (crc_spec c x)), (crc_spec_le (crc_spec c y)), !crc_bits_lxor in E.
  apply (f_equal (fun z => Z.lxor z (crc_bits (8 * length s) (le_word s)))) in E.
  rewrite !Z.lxor_assoc, Z.lxor_nilpotent, !Z.lxor_0_r in E.
  apply crc_bits_inj in E; [|by apply crc_spec_word..]. rewrite !crc_spec_le, Hlen in E.
  apply crc_bits_inj in E; [|apply Hw; (done || lia)..].
  apply le_word_inj; [done..|]. apply (f_equal (Z.lxor c)) in E.
  by rewrite <-!Z.lxor_assoc, Z.lxor_nilpotent, !Z.lxor_0_l in E.
Qed.

(** ** Examples *)

Definition example_tables : crc_tables := CrcTables 72 (copy_words 72 ntg_crc32_table16 ∅).

Lemma example_tables_ok : tables_ok example_tables.
Proof.
  intros i Hi. unfold table_short, example_tables. cbn [ct_short ct_mem]. rewrite table16_bits by done.
  pose proof (forall_below 16 (fun i => bool_decide (copy_words 72 ntg_crc32_table16 ∅ !! (72 + 4 * i) = Some (crc_bits 4 i)))) as H.
  apply (bool_decide_eq_true_1 _), H; [by vm_compute|lia].
Qed.

Definition nine : bytes := str "123456789".

Lemma literal_bytes s : forallb (fun c => (0 <=? c) && (c <? 256)) (str s) = true -> Forall is_byte (str s).
Proof. intros H. apply Forall_forall. intros c Hc%list_elem_of_In. apply (proj1 (forallb_forall _ _) H) in Hc. width. lia. Qed.

Lemma crc_correct_witness :
  ntg_crc32_final (crc_spec ntg_crc32_init nine) = 3421780262 /\
  ntg_crc32_short example_tables nine = Some (ntg_crc32_final (crc_spec ntg_crc32_init nine)).
Proof.
  split; [by vm_compute|].
  exact (proj1 (crc_correct example_tables nine [str "1234"; str "56789"] example_tables_ok (literal_bytes "123456789" eq_refl) eq_refl)).
Defined.

Lemma crc_detects_bursts_witness :
  ntg_crc32_long (str "12" ++ str "345" ++ str "6789") <> ntg_crc32_long (str "12" ++ str "X4Y" ++ str "6789").
Proof.
  apply (crc_detects_bursts (str "12") (str "345") (str "X4Y") (str "6789") (literal_bytes "123456789" eq_refl) (literal_bytes "X4Y" eq_refl));
    vm_compute; [done|lia|done].
Defined.

(** A table that is moved to a cache line of 64 bytes. *)
Example moved_table :
  let '(rc, t) := ntg_crc32_table_init (fun _ => 1040) 64 example_tables in
  rc = NTG_OK /\ ct_short t = 1088 /\ ntg_crc32_short t nine = Some 3421780262.
Proof. by vm_compute. Qed.
