(* ===== verification/Md5.v ===== *)
(** * MD5 (src/utils/ntg_md5.c, ntg_md5.h)

    The digest of a text that comes in parts: the context keeps the state of the
    blocks that are complete and the part of a block behind them.  The reference pads
    the whole text and runs over its blocks with the functions of RFC 1321. *)

From S2P Require Import Prelude.

(** [ntg_md5_t]. *)
Record md5_ctx := Md5 { m_bytes : Z; m_abcd : Z * Z * Z * Z; m_buffer : bytes }.

Definition md5_start : Z * Z * Z * Z := (0x67452301, 0xefcdab89, 0x98badcfe, 0x10325476).

(** The buffer holds what it held before. *)
Definition ntg_md5_init (buffer : bytes) : md5_ctx := Md5 0 md5_start buffer.

(** ** The transformation of a block *)

Definition lnot32 (z : Z) : Z := Z.lxor z 0xffffffff.

Definition md5_F (x y z : Z) : Z := Z.lxor z (Z.land x (Z.lxor y z)).
Definition md5_G (x y z : Z) : Z := Z.lxor y (Z.land z (Z.lxor x y)).
Definition md5_H (x y z : Z) : Z := Z.lxor (Z.lxor x y) z.
Definition md5_I (x y z : Z) : Z := Z.lxor y (Z.lor x (lnot32 z)).

(** [STEP]. *)
Definition md5_step (f : Z -> Z -> Z -> Z) (a b c d x t s : Z) : Z :=
  let a := u32 (a + u32 (f b c d + x + t)) in
  let a := Z.lor (u32 (Z.shiftl a s)) (Z.shiftr (Z.land a 0xffffffff) (32 - s)) in
  u32 (a + b).

(** The steps: the function, the word of the block, the constant and the shift.  The
    first of the four registers changes, and they are turned: [a b c d], [d a b c],
    [c d a b], [b c d a]. *)
Definition md5_steps : list ((Z -> Z -> Z -> Z) * nat * Z * Z) :=
  [(md5_F, 0%nat, 0xd76aa478, 7); (md5_F, 1%nat, 0xe8c7b756, 12);
   (md5_F, 2%nat, 0x242070db, 17); (md5_F, 3%nat, 0xc1bdceee, 22);
   (md5_F, 4%nat, 0xf57c0faf, 7); (md5_F, 5%nat, 0x4787c62a, 12);
   (md5_F, 6%nat, 0xa8304613, 17); (md5_F, 7%nat, 0xfd469501, 22);
   (md5_F, 8%nat, 0x698098d8, 7); (md5_F, 9%nat, 0x8b44f7af, 12);
   (md5_F, 10%nat, 0xffff5bb1, 17); (md5_F, 11%nat, 0x895cd7be, 22);
   (md5_F, 12%nat, 0x6b901122, 7); (md5_F, 13%nat, 0xfd987193, 12);
   (md5_F, 14%nat, 0xa679438e, 17); (md5_F, 15%nat, 0x49b40821, 22);
   (md5_G, 1%nat, 0xf61e2562, 5); (md5_G, 6%nat, 0xc040b340, 9);
   (md5_G, 11%nat, 0x265e5a51, 14); (md5_G, 0%nat, 0xe9b6c7aa, 20);
   (md5_G, 5%nat, 0xd62f105d, 5); (md5_G, 10%nat, 0x02441453, 9);
   (md5_G, 15%nat, 0xd8a1e681, 14); (md5_G, 4%nat, 0xe7d3fbc8, 20);
   (md5_G, 9%nat, 0x21e1cde6, 5); (md5_G, 14%nat, 0xc33707d6, 9);
   (md5_G, 3%nat, 0xf4d50d87, 14); (md5_G, 8%nat, 0x455a14ed, 20);
   (md5_G, 13%nat, 0xa9e3e905, 5); (md5_G, 2%nat, 0xfcefa3f8, 9);
   (md5_G, 7%nat, 0x676f02d9, 14); (md5_G, 12%nat, 0x8d2a4c8a, 20);
   (md5_H, 5%nat, 0xfffa3942, 4); (md5_H, 8%nat, 0x8771f681, 11);
   (md5_H, 11%nat, 0x6d9d6122, 16); (md5_H, 14%nat, 0xfde5380c, 23);
   (md5_H, 1%nat, 0xa4beea44, 4); (md5_H, 4%nat, 0x4bdecfa9, 11);
   (md5_H, 7%nat, 0xf6bb4b60, 16); (md5_H, 10%nat, 0xbebfbc70, 23);
   (md5_H, 13%nat, 0x289b7ec6, 4); (md5_H, 0%nat, 0xeaa127fa, 11);
   (md5_H, 3%nat, 0xd4ef3085, 16); (md5_H, 6%nat, 0x04881d05, 23);
   (md5_H, 9%nat, 0xd9d4d039, 4); (md5_H, 12%nat, 0xe6db99e5, 11);
   (md5_H, 15%nat, 0x1fa27cf8, 16); (md5_H, 2%nat, 0xc4ac5665, 23);
   (md5_I, 0%nat, 0xf4292244, 6); (md5_I, 7%nat, 0x432aff97, 10);
   (md5_I, 14%nat, 0xab9423a7, 15); (md5_I, 5%nat, 0xfc93a039, 21);
   (md5_I, 12%nat, 0x655b59c3, 6); (md5_I, 3%nat, 0x8f0ccc92, 10);
   (md5_I, 10%nat, 0xffeff47d, 15); (md5_I, 1%nat, 0x85845dd1, 21);
   (md5_I, 8%nat, 0x6fa87e4f, 6); (md5_I, 15%nat, 0xfe2ce6e0, 10);
   (md5_I, 6%nat, 0xa3014314, 15); (md5_I, 13%nat, 0x4e0811a1, 21);
   (md5_I, 4%nat, 0xf7537e82, 6); (md5_I, 11%nat, 0xbd3af235, 10);
   (md5_I, 2%nat, 0x2ad7d2bb, 15); (md5_I, 9%nat, 0xeb86d391, 21)].

(** [SET] and [GET]: a word in little-endian order. *)
Definition md5_word (p : bytes) (n : nat) : option Z :=
  b0 ← p !! (n * 4)%nat; b1 ← p !! (n * 4 + 1)%nat; b2 ← p !! (n * 4 + 2)%nat; b3 ← p !! (n * 4 + 3)%nat;
  Some (Z.lor (Z.lor b0 (Z.shiftl b1 8)) (Z.lor (Z.shiftl b2 16) (Z.shiftl b3 24))).

Fixpoint md5_run (steps : list ((Z -> Z -> Z -> Z) * nat * Z * Z)) (p : bytes) (r : Z * Z * Z * Z) : option (Z * Z * Z * Z) :=
  match steps with
  | [] => Some r
  | (f, n, t, s) :: steps =>
      let '(a, b, c, d) := r in
      x ← md5_word p n;
      md5_run steps p (d, md5_step f a b c d x t s, b, c)
  end.

Definition md5_add (r q : Z * Z * Z * Z) : Z * Z * Z * Z :=
  let '(a, b, c, d) := r in let '(a', b', c', d') := q in (u32 (a + a'), u32 (b + b'), u32 (c + c'), u32 (d + d')).

(** The loop over [size] bytes, a multiple of 64 above nought; [n] turns at most. *)
Fixpoint ntg_md5_body (n : nat) (r : Z * Z * Z * Z) (data : bytes) (size : Z) : option ((Z * Z * Z * Z) * bytes) :=
  match n with
  | O => None
  | S n =>
      q ← md5_run md5_steps data r;
      let r := md5_add q r in
      let size := u64 (size - 64) in
      if size =? 0 then Some (r, drop 64 data) else ntg_md5_body n r (drop 64 data) size
  end.

(** ** The context *)

(** [ntg_memcpy] of [n] bytes into the buffer. *)
Definition md5_copy (buffer : bytes) (at_ n : nat) (data : bytes) : option bytes :=
  if (n <=? length data)%nat && (at_ + n <=? length buffer)%nat then Some (take at_ buffer ++ take n data ++ drop (at_ + n) buffer) else None.

(** The call for the buffer, when it is full. *)
Definition md5_full (r : Z * Z * Z * Z) (buffer : bytes) : option (Z * Z * Z * Z) := '(r, _) ← ntg_md5_body 1 r buffer 64; Some r.

(** The blocks that lie whole in the data, and what is left of it. *)
Definition md5_rest (total : Z) (data : bytes) (size : Z) (r : Z * Z * Z * Z) (buffer : bytes) : option md5_ctx :=
  '(r, data, size) ← (if size >=? 64 then
                        '(r, data) ← ntg_md5_body (S (Z.to_nat (size / 64))) r data (Z.land size (Z.lnot 0x3f));
                        Some (r, data, Z.land size 0x3f)
                      else Some (r, data, size));
  buffer ← md5_copy buffer 0 (Z.to_nat size) data;
  Some (Md5 total r buffer).

Definition ntg_md5_update (ctx : md5_ctx) (data : bytes) (size : Z) : option md5_ctx :=
  let used := Z.land (m_bytes ctx) 0x3f in
  let total := u64 (m_bytes ctx + size) in
  if negb (used =? 0) then
    let free := 64 - used in
    if size <? free then
      buffer ← md5_copy (m_buffer ctx) (Z.to_nat used) (Z.to_nat size) data;
      Some (Md5 total (m_abcd ctx) buffer)
    else
      buffer ← md5_copy (m_buffer ctx) (Z.to_nat used) (Z.to_nat free) data;
      r ← md5_full (m_abcd ctx) buffer;
      md5_rest total (drop (Z.to_nat free) data) (size - free) r buffer
  else md5_rest total data size (m_abcd ctx) (m_buffer ctx).

Definition le_bytes (n : nat) (z : Z) : bytes := map (fun i => u8 (Z.shiftr z (8 * Z.of_nat i))) (seq 0 n).

(** The context is cleared at the end. *)
Definition md5_cleared : md5_ctx := Md5 0 (0, 0, 0, 0) (repeat 0 64).

Definition ntg_md5_final (ctx : md5_ctx) : option (bytes * md5_ctx) :=
  let used := Z.to_nat (Z.land (m_bytes ctx) 0x3f) in
  buffer ← md5_copy (m_buffer ctx) used 1 [0x80];
  let used := S used in
  let free := (64 - used)%nat in
  '(r, buffer, used, free) ← (if (free <? 8)%nat then
      buffer ← md5_copy buffer used free (repeat 0 free);
      r ← md5_full (m_abcd ctx) buffer;
      Some (r, buffer, 0%nat, 64%nat)
    else Some (m_abcd ctx, buffer, used, free));
  buffer ← md5_copy buffer used (free - 8) (repeat 0 (free - 8));
  buffer ← md5_copy buffer 56 8 (le_bytes 8 (u64 (Z.shiftl (m_bytes ctx) 3)));
  r ← md5_full r buffer;
  let '(a, b, c, d) := r in
  Some (le_bytes 4 a ++ le_bytes 4 b ++ le_bytes 4 c ++ le_bytes 4 d, md5_cleared).

(** ** The reference *)

(** The functions, the words, the shifts and the rotation of RFC 1321; the constants
    are those of the table. *)
Definition rfc_function (i : nat) (x y z : Z) : Z :=
  match (i / 16)%nat with
  | 0%nat => Z.lor (Z.land x y) (Z.land (lnot32 x) z)
  | 1%nat => Z.lor (Z.land x z) (Z.land y (lnot32 z))
  | 2%nat => Z.lxor (Z.lxor x y) z
  | _ => Z.lxor y (Z.lor x (lnot32 z))
  end.
Definition rfc_word (i : nat) : nat :=
  match (i / 16)%nat with
  | 0%nat => i
  | 1%nat => (5 * i + 1) mod 16
  | 2%nat => (3 * i + 5) mod 16
  | _ => (7 * i) mod 16
  end.
Definition rfc_shift (i : nat) : Z :=
  nth (i mod 4) (nth (i / 16) [ [7; 12; 17; 22]; [5; 9; 14; 20]; [4; 11; 16; 23]; [6; 10; 15; 21] ] []) 0.
Definition rfc_constant (i : nat) : Z := nth i (map (fun '(_, _, t, _) => t) md5_steps) 0.
Definition rotate_left (x s : Z) : Z := (x * 2 ^ s) mod 4294967296 + x / 2 ^ (32 - s).

(** Word [n] of the block that [p] starts with. *)
Definition block_word (p : bytes) (n : nat) : Z :=
  let b i := nth (n * 4 + i) p 0 in b 0%nat + 256 * (b 1%nat + 256 * (b 2%nat + 256 * b 3%nat)).

Definition rfc_step (p : bytes) (r : Z * Z * Z * Z) (i : nat) : Z * Z * Z * Z :=
  let '(a, b, c, d) := r in
  (d, (b + rotate_left ((a + rfc_function i b c d + block_word p (rfc_word i) + rfc_constant i) mod 4294967296) (rfc_shift i)) mod 4294967296, b, c).

Definition rfc_block (r : Z * Z * Z * Z) (p : bytes) : Z * Z * Z * Z := md5_add (fold_left (rfc_step p) (seq 0 64) r) r.

Fixpoint rfc_blocks (n : nat) (r : Z * Z * Z * Z) (p : bytes) : Z * Z * Z * Z :=
  match n with O => r | S n => rfc_blocks n (rfc_block r p) (drop 64 p) end.

(** The bit behind the text, noughts up to the place of the length in bits. *)
Definition md5_pad (msg : bytes) : bytes :=
  let n := length msg in
  msg ++ [0x80] ++ repeat 0 (Z.to_nat ((55 - Z.of_nat n) mod 64)) ++ le_bytes 8 (u64 (8 * Z.of_nat n)).

Definition md5 (msg : bytes) : bytes :=
  let p := md5_pad msg in
  let '(a, b, c, d) := rfc_blocks (length p / 64) md5_start p in le_bytes 4 a ++ le_bytes 4 b ++ le_bytes 4 c ++ le_bytes 4 d.

(** ** A block *)

Definition is_byte_list (l : bytes) : Prop := Forall is_byte l.
Definition word32 (z : Z) : Prop := 0 <= z < 4294967296.
Definition words (r : Z * Z * Z * Z) : Prop := let '(a, b, c, d) := r in word32 a /\ word32 b /\ word32 c /\ word32 d.

Lemma lor_shift x y n : 0 <= n -> 0 <= x < 2 ^ n -> Z.lor x (Z.shiftl y n) = x + y * 2 ^ n.
Proof. intros Hn Hx. rewrite Z.lor_comm, lor_shiftl_add by done. lia. Qed.

Lemma nth_byte p n : is_byte_list p -> is_byte (nth n p 0).
Proof. intros H. destruct (decide (n < length p)%nat); [apply (proj1 (List.Forall_forall _ _) H), nth_In; lia|rewrite nth_overflow by lia; width; lia]. Qed.

Lemma lookup_nth_byte (p : bytes) n : (n < length p)%nat -> p !! n = Some (nth n p 0).
Proof. intros H. rewrite nth_lookup. by destruct (lookup_lt_is_Some_2 p n H) as [x ->]. Qed.

Lemma md5_word_ok p n : is_byte_list p -> (n < 16)%nat -> (64 <= length p)%nat -> md5_word p n = Some (block_word p n).
Proof.
  intros Hp Hn Hl. unfold md5_word. rewrite !lookup_nth_byte by lia. cbn [mbind option_bind]. f_equal. unfold block_word.
  pose proof (nth_byte p (n * 4) Hp). pose proof (nth_byte p (n * 4 + 1) Hp). pose proof (nth_byte p (n * 4 + 2) Hp). pose proof (nth_byte p (n * 4 + 3) Hp).
  rewrite Nat.add_0_r. set (b0 := nth (n * 4) p 0) in *. set (b1 := nth (n * 4 + 1) p 0) in *. set (b2 := nth (n * 4 + 2) p 0) in *. set (b3 := nth (n * 4 + 3) p 0) in *.
  unfold is_byte in *. rewrite (lor_shift b0 b1 8) by (cbn; lia).
  assert (E : Z.lor (Z.shiftl b2 16) (Z.shiftl b3 24) = Z.shiftl (b2 + b3 * 256) 16).
  { change 256 with (2 ^ 8). rewrite <-(lor_shift b2 b3 8) by (cbn; lia). rewrite Z.shiftl_lor, Z.shiftl_shiftl by lia. done. }
  rewrite E, lor_shift by (cbn; lia). cbn. lia.
Qed.

(** On 32 bits the functions of the code are those of RFC 1321. *)
Ltac bitwise_case := apply Z.bits_inj'; intros k Hk; unfold md5_F, md5_G, lnot32; repeat first [rewrite Z.lxor_spec | rewrite Z.land_spec | rewrite Z.lor_spec].

Lemma high_bits z k : word32 z -> 32 <= k -> Z.testbit z k = false.
Proof. intros Hz Hk. unfold word32 in Hz. rewrite <-(Z.mod_small z (2 ^ 32)) by (cbn; lia). by rewrite Z.mod_pow2_bits_high by lia. Qed.

Lemma mask_bit k : 0 <= k -> Z.testbit 0xffffffff k = (k <? 32).
Proof. intros Hk. change 0xffffffff with (Z.ones 32). destruct (Z.ltb_spec k 32); [apply Z.ones_spec_low; lia|apply Z.ones_spec_high; lia]. Qed.

Lemma md5_F_rfc x y z : word32 x -> word32 y -> word32 z -> md5_F x y z = Z.lor (Z.land x y) (Z.land (lnot32 x) z).
Proof.
  intros Hx Hy Hz. bitwise_case. rewrite mask_bit by done. destruct (Z.ltb_spec k 32).
  - by destruct (Z.testbit x k), (Z.testbit y k), (Z.testbit z k).
  - by rewrite (high_bits x), (high_bits y), (high_bits z) by done.
Qed.

Lemma md5_G_rfc x y z : word32 x -> word32 y -> word32 z -> md5_G x y z = Z.lor (Z.land x z) (Z.land y (lnot32 z)).
Proof.
  intros Hx Hy Hz. bitwise_case. rewrite mask_bit by done. destruct (Z.ltb_spec k 32).
  - by destruct (Z.testbit x k), (Z.testbit y k), (Z.testbit z k).
  - by rewrite (high_bits x), (high_bits y), (high_bits z) by done.
Qed.

Lemma rotate_ok a s : word32 a -> 0 < s < 32 -> Z.lor (u32 (Z.shiftl a s)) (Z.shiftr (Z.land a 0xffffffff) (32 - s)) = rotate_left a s.
Proof.
  intros Ha Hs. unfold rotate_left. change 0xffffffff with (Z.ones 32). rewrite land_ones_mod by lia. unfold word32 in Ha. rewrite Z.mod_small by (cbn; lia).
  rewrite shiftr_div by lia. rewrite Z.shiftl_mul_pow2 by lia. unfold u32.
  assert (Hp : 2 ^ 32 = 2 ^ s * 2 ^ (32 - s)) by (rewrite <-Z.pow_add_r by lia; f_equal; lia). change 4294967296 with (2 ^ 32) in *.
  assert (0 < 2 ^ s /\ 0 < 2 ^ (32 - s)) by (split; apply Z.pow_pos_nonneg; lia).
  assert (E : (a * 2 ^ s) mod 2 ^ 32 = Z.shiftl (a mod 2 ^ (32 - s)) s).
  { rewrite Z.shiftl_mul_pow2 by lia. rewrite Hp, (Z.mul_comm (2 ^ s)). by rewrite Z.mul_mod_distr_r by lia. }
  rewrite E. rewrite lor_shiftl_add; [by rewrite <-Z.shiftl_mul_pow2 by lia|lia|]. split; [apply Z.div_pos; lia|]. apply Z.div_lt_upper_bound; lia.
Qed.

(** The table is the one of RFC 1321. *)
Definition code_function (i : nat) : Z -> Z -> Z -> Z :=
  match (i / 16)%nat with 0%nat => md5_F | 1%nat => md5_G | 2%nat => md5_H | _ => md5_I end.
Definition table_row (i : nat) : (Z -> Z -> Z -> Z) * nat * Z * Z := (code_function i, rfc_word i, rfc_constant i, rfc_shift i).

Lemma table_rfc : md5_steps = map table_row (seq 0 64).
Proof. reflexivity. Qed.

Lemma function_rfc i x y z : word32 x -> word32 y -> word32 z -> code_function i x y z = rfc_function i x y z.
Proof. intros. unfold code_function, rfc_function. destruct (i / 16)%nat as [|[|[|] ] ]; [by apply md5_F_rfc|by apply md5_G_rfc|done|done]. Qed.

Lemma row_bounds i : (i < 64)%nat -> 0 < rfc_shift i < 32 /\ (rfc_word i < 16)%nat.
Proof.
  intros Hi. assert (H : forallb (fun i => (0 <? rfc_shift i) && (rfc_shift i <? 32) && (rfc_word i <? 16)%nat) (seq 0 64) = true) by reflexivity.
  rewrite forallb_forall in H. specialize (H i ltac:(apply in_seq; lia)). rewrite !andb_true_iff, Nat.ltb_lt in H. lia.
Qed.

Lemma word32_u32 z : word32 (u32 z).
Proof. unfold word32. mlia. Qed.

Lemma step_rfc f a b c d x t s : 0 < s < 32 ->
  md5_step f a b c d x t s = (b + rotate_left ((a + f b c d + x + t) mod 4294967296) s) mod 4294967296.
Proof.
  intros Hs. unfold md5_step. assert (E : u32 (a + u32 (f b c d + x + t)) = (a + f b c d + x + t) mod 4294967296).
  { unfold u32. rewrite Zplus_mod_idemp_r. f_equal. lia. }
  rewrite E. rewrite rotate_ok by (done || (unfold word32; apply Z.mod_pos_bound; lia)). unfold u32. f_equal. lia.
Qed.

Lemma run_rfc p l r : is_byte_list p -> (64 <= length p)%nat -> Forall (fun i => i < 64)%nat l -> words r ->
  md5_run (map table_row l) p r = Some (fold_left (rfc_step p) l r) /\ words (fold_left (rfc_step p) l r).
Proof.
  intros Hp Hl Hi. revert r. induction Hi as [|i l Hi _ IH]; intros [ [ [a b] c] d] Hr; [done|]. destruct (row_bounds i Hi) as [Hs Hw].
  cbn [map md5_run fold_left]. unfold table_row at 1. rewrite md5_word_ok by done. cbn [mbind option_bind]. rewrite step_rfc by done.
  destruct Hr as (Ha & Hb & Hc & Hd). rewrite (function_rfc i b c d) by done. apply IH. split; [done|]. split; [|done]. apply (word32_u32 (b + _)).
Qed.

Lemma block_rfc p r : is_byte_list p -> (64 <= length p)%nat -> words r ->
  exists q, md5_run md5_steps p r = Some q /\ md5_add q r = rfc_block r p /\ words (rfc_block r p).
Proof.
  intros Hp Hl Hr. rewrite table_rfc. destruct (run_rfc p (seq 0 64) r Hp Hl) as [-> Hq]; [|done|].
  - apply Forall_forall. intros i Hi. apply elem_of_seq in Hi. lia.
  - eexists. split; [reflexivity|]. split; [reflexivity|]. unfold rfc_block. destruct (fold_left _ _ r) as [ [ [a b] c] d], r as [ [ [a' b'] c'] d'].
    cbn. split_and!; apply word32_u32.
Qed.

Lemma is_byte_drop n p : is_byte_list p -> is_byte_list (drop n p).
Proof. apply Forall_drop. Qed.

Lemma body_rfc k n r p : is_byte_list p -> (64 * S k <= length p)%nat -> (S k <= n)%nat -> 64 * Z.of_nat (S k) < 18446744073709551616 -> words r ->
  ntg_md5_body n r p (64 * Z.of_nat (S k)) = Some (rfc_blocks (S k) r p, drop (64 * S k) p) /\ words (rfc_blocks (S k) r p).
Proof.
  revert n r p. induction k as [|k IH]; intros [|n] r p Hp Hl Hn Hb Hr; [lia| |lia|]; destruct (block_rfc p r Hp ltac:(lia) Hr) as (q & Eq & E & W).
  all: cbn [ntg_md5_body]; rewrite Eq; cbn [mbind option_bind]; rewrite E.
  - change (u64 (64 * Z.of_nat 1 - 64)) with 0. cbn [Z.eqb]. exact (conj eq_refl W).
  - assert (Es : u64 (64 * Z.of_nat (S (S k)) - 64) = 64 * Z.of_nat (S k)) by (rewrite u64_small by (width; lia); lia). rewrite Es.
    rewrite (proj2 (Z.eqb_neq _ 0)) by lia. destruct (IH n (rfc_block r p) (drop 64 p)) as [E2 W2]; [by apply is_byte_drop|rewrite length_drop; lia|lia|lia|exact W|].
    change (rfc_blocks (S (S k)) r p) with (rfc_blocks (S k) (rfc_block r p) (drop 64 p)). rewrite E2. split; [|exact W2].
    rewrite drop_drop. replace (64 * S (S k))%nat with (64 + 64 * S k)%nat by lia. reflexivity.
Qed.

(** The blocks look at no more than their bytes. *)
Lemma block_word_app p q n : (n < 16)%nat -> (64 <= length p)%nat -> block_word (p ++ q) n = block_word p n.
Proof. intros Hn Hl. unfold block_word. by rewrite !app_nth1 by lia. Qed.

Lemma rfc_block_app r p q : (64 <= length p)%nat -> rfc_block r (p ++ q) = rfc_block r p.
Proof.
  intros Hl. unfold rfc_block. f_equal. assert (H : Forall (fun i => i < 64)%nat (seq 0 64)) by (apply Forall_forall; intros i Hi; apply elem_of_seq in Hi; lia).
  revert r. induction H as [|i l Hi _ IH]; intros r; [done|]. cbn [fold_left]. rewrite IH. f_equal. destruct r as [ [ [a b] c] d]. unfold rfc_step.
  destruct (row_bounds i Hi). by rewrite block_word_app.
Qed.

Lemma rfc_blocks_app k r p q : (64 * k <= length p)%nat -> rfc_blocks k r (p ++ q) = rfc_blocks k r p.
Proof.
  revert r p. induction k as [|k IH]; intros r p Hl; [done|]. cbn [rfc_blocks]. rewrite rfc_block_app by lia. rewrite drop_app_le by lia. apply IH. rewrite length_drop. lia.
Qed.

Lemma rfc_blocks_add j k r p : rfc_blocks (j + k) r p = rfc_blocks k (rfc_blocks j r p) (drop (64 * j) p).
Proof.
  revert r p. induction j as [|j IH]; intros r p; [done|]. cbn [Nat.add rfc_blocks]. rewrite IH, drop_drop. by replace (64 * S j)%nat with (64 + 64 * j)%nat by lia.
Qed.

(** ** The context *)

Definition blocks_of (msg : bytes) : nat := (length msg / 64)%nat.
Definition state_of (msg : bytes) : Z * Z * Z * Z := rfc_blocks (blocks_of msg) md5_start msg.
Definition tail_of (msg : bytes) : bytes := drop (64 * blocks_of msg) msg.

(** The context of the text [msg]. *)
Record ctx_inv (ctx : md5_ctx) (msg : bytes) : Prop := {
  mc_bytes : m_bytes ctx = u64 (Z.of_nat (length msg));
  mc_state : m_abcd ctx = state_of msg;
  mc_buffer : length (m_buffer ctx) = 64%nat;
  mc_tail : take (length (tail_of msg)) (m_buffer ctx) = tail_of msg;
  mc_msg : is_byte_list msg }.

Lemma length_tail msg : length (tail_of msg) = (length msg mod 64)%nat.
Proof. unfold tail_of, blocks_of. rewrite length_drop. pose proof (Nat.div_mod_eq (length msg) 64). lia. Qed.

Lemma tail_short msg : (length (tail_of msg) < 64)%nat.
Proof. rewrite length_tail. apply Nat.mod_upper_bound. lia. Qed.

Lemma used_ok msg : Z.land (u64 (Z.of_nat (length msg))) 0x3f = Z.of_nat (length (tail_of msg)).
Proof.
  rewrite length_tail. change 0x3f with (Z.ones 6). rewrite land_ones_mod by lia. change (2 ^ 6) with 64. unfold u64.
  rewrite Nat2Z.inj_mod. Z.to_euclidean_division_equations. lia.
Qed.

(** More of the text. *)
Lemma advance msg d : let k := (length (tail_of msg ++ d) / 64)%nat in
  state_of (msg ++ d) = rfc_blocks k (state_of msg) (tail_of msg ++ d) /\ tail_of (msg ++ d) = drop (64 * k) (tail_of msg ++ d).
Proof.
  intros k. assert (Hb : blocks_of (msg ++ d) = (blocks_of msg + k)%nat).
  { unfold blocks_of, k. rewrite !length_app, length_tail. pose proof (Nat.div_mod_eq (length msg) 64) as E. rewrite E at 1.
    rewrite <-Nat.add_assoc, Nat.mul_comm, Nat.div_add_l by lia. reflexivity. }
  pose proof (Nat.div_mod_eq (length msg) 64) as E. assert (Hd : drop (64 * blocks_of msg) (msg ++ d) = tail_of msg ++ d) by (unfold tail_of; rewrite drop_app_le; [done|unfold blocks_of; lia]).
  split.
  - unfold state_of at 1. rewrite Hb, rfc_blocks_add, Hd. f_equal. unfold state_of. apply rfc_blocks_app. unfold blocks_of. lia.
  - unfold tail_of at 1. rewrite Hb, <-Hd, drop_drop. f_equal. lia.
Qed.

Lemma words_blocks k r p : is_byte_list p -> (64 * k <= length p)%nat -> words r -> words (rfc_blocks k r p).
Proof.
  revert r p. induction k as [|k IH]; intros r p Hp Hl Hr; [exact Hr|]. cbn [rfc_blocks]. destruct (block_rfc p r Hp ltac:(lia) Hr) as (_ & _ & _ & W).
  apply IH; [by apply is_byte_drop|rewrite length_drop; lia|exact W].
Qed.

Lemma words_start : words md5_start.
Proof. unfold md5_start, words, word32. lia. Qed.

Lemma words_state msg : is_byte_list msg -> words (state_of msg).
Proof. intros H. apply words_blocks; [done| |apply words_start]. unfold blocks_of. pose proof (Nat.div_mod_eq (length msg) 64). lia. Qed.

Lemma put_ok buffer at_ n data : (n <= length data)%nat -> (at_ + n <= length buffer)%nat ->
  exists b, md5_copy buffer at_ n data = Some b /\ length b = length buffer /\ b = take at_ buffer ++ take n data ++ drop (at_ + n) buffer.
Proof.
  intros H1 H2. unfold md5_copy. rewrite (proj2 (Nat.leb_le _ _) H1), (proj2 (Nat.leb_le _ _) H2). cbn. eexists. split; [reflexivity|]. split; [|reflexivity].
  rewrite !length_app, !length_take, length_drop. lia.
Qed.

Lemma rest_ok total d r buffer : is_byte_list d -> words r -> length buffer = 64%nat -> Z.of_nat (length d) < 18446744073709551616 ->
  let k := (length d / 64)%nat in
  exists b, md5_rest total d (Z.of_nat (length d)) r buffer = Some (Md5 total (rfc_blocks k r d) b) /\ length b = 64%nat /\
    take (length (drop (64 * k) d)) b = drop (64 * k) d.
Proof.
  intros Hd Hr Hb Hlen k. pose proof (Nat.div_mod_eq (length d) 64) as Ek. fold k in Ek. pose proof (Nat.mod_upper_bound (length d) 64 ltac:(lia)) as Hm.
  assert (Hlast : forall data, data = drop (64 * k) d -> exists b, md5_copy buffer 0 (length data) data = Some b /\ length b = 64%nat /\ take (length data) b = data).
  { intros data ->. destruct (put_ok buffer 0 (length (drop (64 * k) d)) (drop (64 * k) d)) as (b & E & Hl & Eb); [lia|rewrite length_drop; lia|].
    exists b. split; [exact E|]. split; [lia|]. rewrite Eb, take_0, app_nil_l. rewrite firstn_all. apply take_app_length. }
  destruct (Hlast _ eq_refl) as (b & E & Hl & Ht). exists b. split; [|done]. unfold md5_rest.
  destruct (Z.geb_spec (Z.of_nat (length d)) 64) as [H64|H64].
  - assert (Ea : Z.land (Z.of_nat (length d)) (Z.lnot 0x3f) = 64 * Z.of_nat k).
    { change 0x3f with (Z.ones 6). rewrite <-Z.ldiff_land, Z.ldiff_ones_r, Z.shiftl_mul_pow2, shiftr_div by lia. change (2 ^ 6) with 64. unfold k. rewrite Nat2Z.inj_div. lia. }
    rewrite Ea. destruct k as [|k'] eqn:Hk; [lia|]. destruct (body_rfc k' (S (Z.to_nat (Z.of_nat (length d) / 64))) r d Hd ltac:(lia)) as [Eb _]; [|lia|exact Hr|].
    { assert (Hz : Z.to_nat (Z.of_nat (length d) / 64) = (length d / 64)%nat) by (rewrite <-(Nat2Z.id (length d / 64)), Nat2Z.inj_div; done). rewrite Hz. lia. }
    rewrite Eb. cbn [mbind option_bind]. assert (Es : Z.to_nat (Z.land (Z.of_nat (length d)) 0x3f) = length (drop (64 * S k') d)).
    { change 0x3f with (Z.ones 6). rewrite land_ones_mod by lia. change (2 ^ 6) with (Z.of_nat 64). rewrite <-Nat2Z.inj_mod, Nat2Z.id, length_drop. lia. }
    rewrite Es, E. reflexivity.
  - assert (k = 0%nat) as Ek0 by lia. rewrite Ek0 in *. cbn [mbind option_bind]. rewrite Nat2Z.id. change (drop (64 * 0) d) with d in E. rewrite E. reflexivity.
Qed.

#[local] Opaque rfc_block.

Lemma put_prefix x y data : (length data <= length y)%nat -> md5_copy (x ++ y) (length x) (length data) data = Some (x ++ data ++ drop (length data) y).
Proof.
  intros H. unfold md5_copy. rewrite Nat.leb_refl, length_app, (proj2 (Nat.leb_le _ _)) by lia. cbn. rewrite take_app_length, firstn_all. do 3 f_equal.
  rewrite drop_app_ge by lia. f_equal. lia.
Qed.

Lemma put_fill x y n data : (n <= length data)%nat -> length y = n -> md5_copy (x ++ y) (length x) n data = Some (x ++ take n data).
Proof.
  intros H1 H2. unfold md5_copy. rewrite (proj2 (Nat.leb_le n _) H1), (proj2 (Nat.leb_le _ (length (x ++ y)))) by (rewrite length_app; lia). cbn [andb]. rewrite take_app_length.
  rewrite drop_ge by (rewrite length_app; lia). by rewrite app_nil_r.
Qed.

Lemma one_block r p : is_byte_list p -> length p = 64%nat -> words r -> md5_full r p = Some (rfc_block r p) /\ words (rfc_block r p).
Proof.
  intros Hp Hl Hr. destruct (body_rfc 0 1 r p Hp ltac:(lia) ltac:(lia) ltac:(lia) Hr) as [E W]. change (64 * Z.of_nat 1) with 64 in E. unfold md5_full. rewrite E.
  split; [reflexivity|exact W].
Qed.

Lemma buffer_split ctx msg : ctx_inv ctx msg -> exists y, m_buffer ctx = tail_of msg ++ y /\ (length (tail_of msg) + length y = 64)%nat.
Proof.
  intros [_ _ Hb Ht _]. exists (drop (length (tail_of msg)) (m_buffer ctx)). split; [rewrite <-Ht at 1; symmetry; apply take_drop|].
  rewrite length_drop, Hb. pose proof (tail_short msg). lia.
Qed.

Lemma total_ok (n k : nat) : u64 (u64 (Z.of_nat n) + Z.of_nat k) = u64 (Z.of_nat (n + k)).
Proof. unfold u64. rewrite Zplus_mod_idemp_l. f_equal. lia. Qed.

Lemma long_length (t d : bytes) f : (f = 64 - length t)%nat -> (length t <= 64)%nat -> (f <= length d)%nat ->
  (length (t ++ d) / 64 = S (length (drop f d) / 64))%nat.
Proof.
  intros -> Ht Hf. rewrite length_app, length_drop. replace (length t + length d)%nat with (1 * 64 + (length d - (64 - length t)))%nat by lia.
  by rewrite Nat.div_add_l by lia.
Qed.

(** A block that is begun and not filled. *)
Lemma fill_part ctx msg d y total :
  ctx_inv ctx msg -> m_buffer ctx = tail_of msg ++ y -> (length (tail_of msg) + length y = 64)%nat -> (length d < length y)%nat -> is_byte_list (msg ++ d) ->
  total = u64 (Z.of_nat (length (msg ++ d))) -> ctx_inv (Md5 total (m_abcd ctx) (tail_of msg ++ d ++ drop (length d) y)) (msg ++ d).
Proof.
  intros I Ey Hy Hd Hmd Etot. destruct (advance msg d) as [Es El]. set (t := tail_of msg) in *.
  assert (Hk : (length (t ++ d) / 64 = 0)%nat) by (apply Nat.div_small; rewrite length_app; lia). rewrite Hk in Es, El.
  split; cbn [m_bytes m_abcd m_buffer]; [exact Etot|rewrite (mc_state _ _ I), Es; reflexivity| | |exact Hmd].
  - rewrite !length_app, length_drop. lia.
  - rewrite El. change (drop (64 * 0) (t ++ d)) with (t ++ d). rewrite app_assoc. apply take_app_length.
Qed.

(** A block that is begun and filled, and what is behind it. *)
Lemma fill_block msg d f r total b :
  (f = 64 - length (tail_of msg))%nat -> (f <= length d)%nat -> is_byte_list (msg ++ d) -> r = rfc_block (state_of msg) (tail_of msg ++ take f d) ->
  total = u64 (Z.of_nat (length (msg ++ d))) -> length b = 64%nat ->
  (let k := (length (drop f d) / 64)%nat in take (length (drop (64 * k) (drop f d))) b = drop (64 * k) (drop f d)) ->
  ctx_inv (Md5 total (rfc_blocks (length (drop f d) / 64) r (drop f d)) b) (msg ++ d).
Proof.
  intros Ef Hf Hmd Er Etot Hb Hdb. destruct (advance msg d) as [Es El]. pose proof (tail_short msg) as Hu. set (t := tail_of msg) in *.
  rewrite (long_length t d f Ef ltac:(lia) Hf) in Es, El. assert (Ed : t ++ d = (t ++ take f d) ++ drop f d) by (by rewrite <-app_assoc, take_drop).
  assert (Hl64 : length (t ++ take f d) = 64%nat) by (rewrite length_app, length_take; lia).
  rewrite Ed in Es, El. set (k := (length (drop f d) / 64)%nat) in *.
  change (rfc_blocks (S k) (state_of msg) ((t ++ take f d) ++ drop f d)) with (rfc_blocks k (rfc_block (state_of msg) ((t ++ take f d) ++ drop f d)) (drop 64 ((t ++ take f d) ++ drop f d))) in Es.
  rewrite rfc_block_app in Es by lia. rewrite <-Hl64 in Es at 1. rewrite drop_app_length in Es.
  assert (El2 : tail_of (msg ++ d) = drop (64 * k) (drop f d)) by (rewrite El, drop_app_ge by lia; f_equal; lia).
  split; cbn [m_bytes m_abcd m_buffer]; [exact Etot|rewrite Er, Es; reflexivity|exact Hb|rewrite El2; exact Hdb|exact Hmd].
Qed.

#[local] Opaque md5_full ntg_md5_body md5_rest md5_copy rfc_blocks.

(** The three ways of an update. *)
Section update.
Context (ctx : md5_ctx) (msg d : bytes) (I : ctx_inv ctx msg) (Hd : is_byte_list d) (Hlen : Z.of_nat (length d) < 18446744073709551616).

Lemma msg_bytes : is_byte_list (msg ++ d).
Proof using I Hd. apply Forall_app. split; [apply I|exact Hd]. Qed.

Lemma state_words : words (m_abcd ctx).
Proof using I. rewrite (mc_state _ _ I). apply words_state, I. Qed.

Lemma update_used : Z.land (m_bytes ctx) 0x3f = Z.of_nat (length (tail_of msg)).
Proof using I. rewrite (mc_bytes _ _ I). apply used_ok. Qed.

Lemma update_total : u64 (m_bytes ctx + Z.of_nat (length d)) = u64 (Z.of_nat (length (msg ++ d))).
Proof using I. rewrite (mc_bytes _ _ I), total_ok, length_app. reflexivity. Qed.

Lemma update_whole : length (tail_of msg) = 0%nat ->
  exists ctx', ntg_md5_update ctx d (Z.of_nat (length d)) = Some ctx' /\ ctx_inv ctx' (msg ++ d).
Proof using I Hd Hlen.
  intros E0. assert (Et : tail_of msg = []) by (by apply length_zero_iff_nil). destruct (advance msg d) as [Es El]. rewrite Et in Es, El. cbn [app] in Es, El.
  destruct (rest_ok (u64 (Z.of_nat (length (msg ++ d)))) d (m_abcd ctx) (m_buffer ctx) Hd state_words (mc_buffer _ _ I) Hlen) as (b & E & Hl & Hdb).
  unfold ntg_md5_update. rewrite update_used, update_total, E0. cbn [negb Z.eqb Z.of_nat]. eexists. split; [exact E|].
  split; cbn [m_bytes m_abcd m_buffer]; [reflexivity|rewrite (mc_state _ _ I), Es; reflexivity|exact Hl|rewrite El; exact Hdb|apply msg_bytes].
Qed.

Lemma update_short : (0 < length (tail_of msg))%nat -> (length (tail_of msg) + length d < 64)%nat ->
  exists ctx', ntg_md5_update ctx d (Z.of_nat (length d)) = Some ctx' /\ ctx_inv ctx' (msg ++ d).
Proof using I Hd.
  intros E0 Hs. destruct (buffer_split _ _ I) as (y & Ey & Hy). unfold ntg_md5_update. rewrite update_used, update_total, Ey.
  rewrite (proj2 (Z.eqb_neq _ _)) by lia. rewrite (proj2 (Z.ltb_lt _ _)) by lia. cbn [negb]. rewrite !Nat2Z.id, put_prefix by lia. cbn [mbind option_bind].
  eexists. split; [reflexivity|]. apply fill_part; (exact I || apply msg_bytes || reflexivity || exact Ey || lia).
Qed.

Lemma long_rest f : (0 < length (tail_of msg))%nat -> f = (64 - length (tail_of msg))%nat -> (f <= length d)%nat ->
  ntg_md5_update ctx d (Z.of_nat (length d)) =
  md5_rest (u64 (Z.of_nat (length (msg ++ d)))) (drop f d) (Z.of_nat (length (drop f d))) (rfc_block (m_abcd ctx) (tail_of msg ++ take f d)) (tail_of msg ++ take f d).
Proof using I Hd.
  intros E0 Ef Hf. destruct (buffer_split _ _ I) as (y & Ey & Hy). pose proof (tail_short msg) as Hu.
  assert (Hl64 : length (tail_of msg ++ take f d) = 64%nat) by (rewrite length_app, length_take; lia).
  assert (Hb64 : is_byte_list (tail_of msg ++ take f d)) by (apply Forall_app; split; [apply is_byte_drop, I|by apply Forall_take]).
  generalize (proj1 (one_block (m_abcd ctx) (tail_of msg ++ take f d) Hb64 Hl64 state_words)).
  unfold ntg_md5_update. generalize (rfc_block (m_abcd ctx) (tail_of msg ++ take f d)). generalize md5_full md5_rest. intros full rest q E1.
  rewrite update_used, update_total, Ey. rewrite (proj2 (Z.eqb_neq _ _)) by lia. rewrite (proj2 (Z.ltb_ge _ _)) by lia. cbn [negb].
  assert (Ez : 64 - Z.of_nat (length (tail_of msg)) = Z.of_nat f) by lia. rewrite Ez, !Nat2Z.id, put_fill by lia. cbn [mbind option_bind]. rewrite E1. cbn [mbind option_bind].
  assert (Ed : Z.of_nat (length d) - Z.of_nat f = Z.of_nat (length (drop f d))) by (rewrite length_drop; lia). rewrite Ed. reflexivity.
Qed.

Lemma update_long : (0 < length (tail_of msg))%nat -> (64 <= length (tail_of msg) + length d)%nat ->
  exists ctx', ntg_md5_update ctx d (Z.of_nat (length d)) = Some ctx' /\ ctx_inv ctx' (msg ++ d).
Proof using I Hd Hlen.
  intros E0 Hf. set (f := (64 - length (tail_of msg))%nat). pose proof (tail_short msg) as Hu. rewrite (long_rest f) by (reflexivity || lia).
  assert (Hl64 : length (tail_of msg ++ take f d) = 64%nat) by (rewrite length_app, length_take; lia).
  assert (Hb64 : is_byte_list (tail_of msg ++ take f d)) by (apply Forall_app; split; [apply is_byte_drop, I|by apply Forall_take]).
  destruct (one_block (m_abcd ctx) (tail_of msg ++ take f d) Hb64 Hl64 state_words) as [_ W].
  destruct (rest_ok (u64 (Z.of_nat (length (msg ++ d)))) (drop f d) _ (tail_of msg ++ take f d) (is_byte_drop f d Hd) W Hl64) as (b & E & Hl & Hdb); [rewrite length_drop; lia|].
  eexists. split; [exact E|]. apply fill_block with (f := f); try (apply msg_bytes || reflexivity || exact Hl || exact Hdb || lia).
  by rewrite (mc_state _ _ I).
Qed.

(** An update is more of the text. *)
Lemma md5_update_ok : exists ctx', ntg_md5_update ctx d (Z.of_nat (length d)) = Some ctx' /\ ctx_inv ctx' (msg ++ d).
Proof using I Hd Hlen.
  destruct (decide (length (tail_of msg) = 0%nat)); [by apply update_whole|].
  destruct (decide (length (tail_of msg) + length d < 64)%nat); [apply update_short|apply update_long]; lia.
Qed.
End update.

(** ** The end *)

Lemma length_le n z : length (le_bytes n z) = n.
Proof. unfold le_bytes. by rewrite length_map, length_seq. Qed.

Lemma le_is_bytes n z : is_byte_list (le_bytes n z).
Proof. apply Forall_forall. intros x Hx. apply list_elem_of_In, in_map_iff in Hx. destruct Hx as (i & <- & _). unfold is_byte. mlia. Qed.

Definition padding (msg : bytes) : bytes := drop (length msg) (md5_pad msg).
Definition bit_length (msg : bytes) : bytes := le_bytes 8 (u64 (8 * Z.of_nat (length msg))).

Lemma pad_app msg : md5_pad msg = msg ++ padding msg.
Proof. unfold padding, md5_pad. by rewrite drop_app_length. Qed.

Lemma padding_is msg : let t := length (tail_of msg) in
  padding msg = [0x80] ++ repeat 0 (if (t <? 56)%nat then 55 - t else 119 - t) ++ bit_length msg.
Proof.
  intros t. unfold padding, md5_pad. rewrite drop_app_length. do 3 f_equal. pose proof (tail_short msg). fold t in H.
  assert (E : (55 - Z.of_nat (length msg)) mod 64 = (55 - Z.of_nat t) mod 64).
  { unfold t. rewrite length_tail, Nat2Z.inj_mod. change (Z.of_nat 64) with 64. by rewrite Zminus_mod_idemp_r. }
  rewrite E. destruct (Nat.ltb_spec t 56); [rewrite Z.mod_small by lia; lia|].
  rewrite <-(Z_mod_plus_full _ 1), Z.mod_small by lia. lia.
Qed.

Lemma padding_bytes msg : is_byte_list (padding msg).
Proof.
  rewrite padding_is. apply Forall_app. split; [repeat constructor; unfold is_byte; lia|]. apply Forall_app. split; [|apply le_is_bytes].
  apply Forall_forall. intros x Hx. apply list_elem_of_In, repeat_spec in Hx. subst. unfold is_byte. lia.
Qed.

(** The digest is the state behind the padding. *)
Lemma md5_state msg : md5 msg =
  let '(a, b, c, d) := state_of (msg ++ padding msg) in le_bytes 4 a ++ le_bytes 4 b ++ le_bytes 4 c ++ le_bytes 4 d.
Proof. unfold md5, state_of, blocks_of. by rewrite pad_app. Qed.

(** The noughts and the length behind what the block holds. *)
Lemma last_puts x y le : (length x + length y = 64)%nat -> (length x <= 56)%nat -> length le = 8%nat ->
  exists b, md5_copy (x ++ y) (length x) (56 - length x) (repeat 0 (56 - length x)) = Some b /\ md5_copy b 56 8 le = Some (x ++ repeat 0 (56 - length x) ++ le).
Proof.
  intros Hl Hx Hle. set (z := repeat 0 (56 - length x)). assert (Hz : length z = (56 - length x)%nat) by apply repeat_length.
  exists (x ++ z ++ drop (length z) y). split; [rewrite <-Hz; apply put_prefix; lia|]. rewrite !app_assoc.
  assert (E : 56%nat = length (x ++ z)) by (rewrite length_app; lia). rewrite E, put_fill by (rewrite ?length_drop; lia).
  by rewrite <-Hle, firstn_all.
Qed.

Lemma mark_put t y : (0 < length y)%nat -> md5_copy (t ++ y) (length t) 1 [0x80] = Some ((t ++ [0x80]) ++ drop 1 y).
Proof. intros H. rewrite <-app_assoc. exact (put_prefix t y [0x80] H). Qed.

Section final.
Context (ctx : md5_ctx) (msg : bytes) (I : ctx_inv ctx msg).

Lemma final_length : le_bytes 8 (u64 (Z.shiftl (m_bytes ctx) 3)) = bit_length msg.
Proof using I.
  unfold bit_length. f_equal. rewrite (mc_bytes _ _ I), Z.shiftl_mul_pow2 by lia. unfold u64. change (2 ^ 3) with 8.
  rewrite Zmult_mod_idemp_l. f_equal. lia.
Qed.

(** The end of a text that has room for the length in its last block. *)
Lemma final_short : (length (tail_of msg) < 56)%nat -> ntg_md5_final ctx = Some (md5 msg, md5_cleared).
Proof using I.
  intros Ht. destruct (buffer_split _ _ I) as (y & Ey & Hy). pose proof (padding_is msg) as Ep. cbv zeta in Ep. rewrite (proj2 (Nat.ltb_lt _ _) Ht) in Ep.
  destruct (advance msg (padding msg)) as [Es _]. set (t := tail_of msg) in *.
  assert (H80 : length (t ++ [0x80]) = S (length t)) by (rewrite length_app; cbn; lia).
  destruct (last_puts (t ++ [0x80]) (drop 1 y) (bit_length msg)) as (b & E1 & E2); [rewrite H80, length_drop; lia|lia|apply length_le|].
  assert (Eb : (t ++ [0x80]) ++ repeat 0 (56 - length (t ++ [0x80])) ++ bit_length msg = t ++ padding msg).
  { rewrite Ep, <-app_assoc. do 4 f_equal. lia. }
  rewrite Eb in E2. assert (Hl : length (t ++ padding msg) = 64%nat).
  { rewrite <-Eb, app_assoc, length_app, length_app, repeat_length, H80. unfold bit_length. rewrite length_le. lia. }
  assert (Hb : is_byte_list (t ++ padding msg)) by (apply Forall_app; split; [apply is_byte_drop, I|apply padding_bytes]).
  destruct (one_block (state_of msg) (t ++ padding msg) Hb Hl (words_state msg (mc_msg _ _ I))) as [E3 _].
  rewrite Hl in Es. change (rfc_blocks (64 / 64) (state_of msg) (t ++ padding msg)) with (rfc_block (state_of msg) (t ++ padding msg)) in Es.
  rewrite md5_state, Es. revert E1 E2 E3. rewrite H80. unfold ntg_md5_final. rewrite (update_used ctx msg I), final_length, Nat2Z.id, Ey, (mc_state _ _ I). fold t.
  rewrite mark_put by lia. generalize md5_full. intros full E1 E2 E3. cbn [mbind option_bind].
  rewrite (proj2 (Nat.ltb_ge _ _)) by lia. cbn [mbind option_bind]. replace (64 - S (length t) - 8)%nat with (56 - S (length t))%nat by lia.
  rewrite E1. cbn [mbind option_bind]. rewrite E2. cbn [mbind option_bind]. rewrite E3. by destruct (rfc_block _ _) as [ [ [a' b'] c'] d'].
Qed.

(** The end of a text whose length goes into a block of its own. *)
Lemma final_long : (56 <= length (tail_of msg))%nat -> ntg_md5_final ctx = Some (md5 msg, md5_cleared).
Proof using I.
  intros Ht. destruct (buffer_split _ _ I) as (y & Ey & Hy). pose proof (tail_short msg) as Hu. pose proof (padding_is msg) as Ep. cbv zeta in Ep.
  rewrite (proj2 (Nat.ltb_ge _ _) Ht) in Ep. destruct (advance msg (padding msg)) as [Es _]. set (t := tail_of msg) in *.
  set (p1 := t ++ [0x80] ++ repeat 0 (63 - length t)). set (p2 := repeat 0 56 ++ bit_length msg).
  assert (E : t ++ padding msg = p1 ++ p2).
  { rewrite Ep. unfold p1, p2. replace (119 - length t)%nat with ((63 - length t) + 56)%nat by lia. rewrite repeat_app, <-!app_assoc. reflexivity. }
  assert (H80 : length (t ++ [0x80]) = S (length t)) by (rewrite length_app; cbn; lia).
  assert (L1 : length p1 = 64%nat) by (unfold p1; rewrite app_assoc, length_app, repeat_length, H80; lia).
  assert (L2 : length p2 = 64%nat) by (unfold p2, bit_length; rewrite length_app, length_le; reflexivity).
  assert (Hb : is_byte_list (p1 ++ p2)) by (rewrite <-E; apply Forall_app; split; [apply is_byte_drop, I|apply padding_bytes]).
  apply Forall_app in Hb. destruct Hb as [B1 B2].
  destruct (one_block (state_of msg) p1 B1 L1 (words_state msg (mc_msg _ _ I))) as [E1 W]. destruct (one_block _ p2 B2 L2 W) as [E2 _].
  rewrite E, length_app, L1, L2 in Es. change (rfc_blocks ((64 + 64) / 64) (state_of msg) (p1 ++ p2)) with (rfc_block (rfc_block (state_of msg) (p1 ++ p2)) (drop 64 (p1 ++ p2))) in Es.
  rewrite rfc_block_app in Es by lia. rewrite <-L1 in Es at 1. rewrite drop_app_length in Es.
  destruct (last_puts [] p1 (bit_length msg)) as (b & P1 & P2); [exact L1|cbn; lia|apply length_le|]. cbn [app length Nat.sub] in P1, P2. fold p2 in P2.
  assert (P0 : md5_copy ((t ++ [0x80]) ++ drop 1 y) (S (length t)) (63 - length t) (repeat 0 (63 - length t)) = Some p1).
  { rewrite <-H80, put_fill; [|by rewrite repeat_length|rewrite length_drop; lia]. rewrite <-(repeat_length 0 (63 - length t)) at 1. rewrite firstn_all, <-app_assoc. reflexivity. }
  rewrite md5_state, Es. revert E1 E2. unfold ntg_md5_final. rewrite (update_used ctx msg I), final_length, Nat2Z.id, Ey, (mc_state _ _ I). fold t.
  rewrite mark_put by lia. generalize md5_full. intros full E1 E2. cbn [mbind option_bind].
  rewrite (proj2 (Nat.ltb_lt _ _)) by lia. replace (64 - S (length t))%nat with (63 - length t)%nat by lia. rewrite P0. cbn [mbind option_bind]. rewrite E1. cbn [mbind option_bind Nat.sub].
  rewrite P1. cbn [mbind option_bind]. rewrite P2. cbn [mbind option_bind]. rewrite E2. by destruct (rfc_block _ _) as [ [ [a' b'] c'] d'].
Qed.
End final.

Lemma init_ok buffer : length buffer = 64%nat -> ctx_inv (ntg_md5_init buffer) [].
Proof. intros H. by split; [| |exact H| |constructor]. Qed.

(** ** The digest *)

(** The calls for a text in parts. *)
Fixpoint md5_updates (ctx : md5_ctx) (parts : list bytes) : option md5_ctx :=
  match parts with [] => Some ctx | d :: parts => ctx ← ntg_md5_update ctx d (Z.of_nat (length d)); md5_updates ctx parts end.

Lemma updates_ok parts ctx msg : ctx_inv ctx msg -> Forall is_byte_list parts -> Forall (fun d => Z.of_nat (length d) < 18446744073709551616) parts ->
  exists ctx', md5_updates ctx parts = Some ctx' /\ ctx_inv ctx' (msg ++ concat parts).
Proof.
  revert ctx msg. induction parts as [|d parts IH]; intros ctx msg I Hp Hl; [exists ctx; cbn; by rewrite app_nil_r|].
  apply Forall_cons in Hp as [Hd Hp]. apply Forall_cons in Hl as [Hn Hl]. destruct (md5_update_ok ctx msg d I Hd Hn) as (ctx1 & E1 & I1).
  destruct (IH ctx1 _ I1 Hp Hl) as (ctx2 & E2 & I2). exists ctx2. cbn [md5_updates concat]. rewrite E1. cbn [mbind option_bind]. split; [exact E2|]. by rewrite app_assoc.
Qed.

(** C38: the digest of a text that comes in parts, whatever the parts are and whatever was
    in the buffer of the context, is the digest RFC 1321 gives for the whole text: the
    updates and the end read and write nothing outside the data, the buffer and the
    result, and leave out no block; so the digest does not depend on where the text is
    cut.  The context is cleared. *)
Theorem md5_correct buffer parts : length buffer = 64%nat -> Forall is_byte_list parts -> Forall (fun d => Z.of_nat (length d) < 18446744073709551616) parts ->
  (ctx ← md5_updates (ntg_md5_init buffer) parts; ntg_md5_final ctx) = Some (md5 (concat parts), md5_cleared).
Proof.
  intros Hb Hp Hl. destruct (updates_ok parts _ [] (init_ok buffer Hb) Hp Hl) as (ctx & -> & I). cbn [mbind option_bind].
  destruct (decide (length (tail_of (concat parts)) < 56)%nat); [by apply final_short|apply final_long; [exact I|cbn [app]; lia] ].
Qed.

Definition example_parts : list bytes := [ [97]; []; [98; 99]; repeat 120 150 ].

Lemma md5_correct_witness :
  (ctx ← md5_updates (ntg_md5_init (repeat 7 64)) example_parts; ntg_md5_final ctx) = Some (md5 (concat example_parts), md5_cleared).
Proof.
  apply md5_correct; [reflexivity| |].
  - unfold example_parts, is_byte_list, is_byte. cbn [repeat]. repeat constructor; lia.
  - repeat constructor.
Defined.

(** The first of the digests RFC 1321 lists. *)
Example digest_of_nothing : fst <$> ntg_md5_final (ntg_md5_init (repeat 7 64)) =
  Some [0xd4; 0x1d; 0x8c; 0xd9; 0x8f; 0; 0xb2; 4; 0xe9; 0x80; 9; 0x98; 0xec; 0xf8; 0x42; 0x7e].
Proof. vm_compute. reflexivity. Qed.

Example digest_of_abc : md5 [97; 98; 99] =
  [0x90; 1; 0x50; 0x98; 0x3c; 0xd2; 0x4f; 0xb0; 0xd6; 0x96; 0x3f; 0x7d; 0x28; 0xe1; 0x7f; 0x72].
Proof. vm_compute. reflexivity. Qed.
