(* ===== verification/Sprintf.v ===== *)
(** * Formatted output (src/utils/ntg_string.c, ntg_vslprintf and its callers)

    [ntg_vslprintf] interprets a format, taking arguments from a list, and
    writes to a buffer bounded by [last].  The model returns the bytes written;
    the room is [last - buf].  Reading past the format or an argument string,
    a missing argument and one of the wrong type are undefined ([None]). *)

From Stdlib Require Import SpecFloat.
From S2P Require Import Prelude NtgString.

(** A variadic argument.  A C string is the memory it starts. *)
Inductive arg :=
  | AInt (z : Z)
  | AStr (s : bytes)
  | ACstr (s : bytes)
  | AFloat (f : spec_float).

Definition NTG_INT64_LEN : Z := 20.
Definition NTG_INT_T_LEN : Z := NTG_INT64_LEN.

(** ** ntg_sprintf_num *)

Definition hex_upper : bytes := str "0123456789ABCDEF".

(** The digits of [n] before those of [acc], by the [do ... while] loops. *)
Fixpoint num_digits (fuel : nat) (base : Z) (table : bytes) (n : Z) (acc : bytes) : option bytes :=
  match fuel with
  | O => None
  | S fuel =>
      let acc := nth (Z.to_nat (n mod base)) table 0 :: acc in
      let n := n / base in
      if n =? 0 then Some acc else num_digits fuel base table n acc
  end.

(** The digits fill [temp] from its end; [NTG_INT64_LEN] bytes is all it has. *)
Definition sprintf_temp (ui64 hexadecimal : Z) : option bytes :=
  let fuel := Z.to_nat NTG_INT64_LEN in
  if hexadecimal =? 0 then num_digits fuel 10 (str "0123456789") ui64 []
  else if hexadecimal =? 1 then num_digits fuel 16 hex_lower ui64 []
  else num_digits fuel 16 hex_upper ui64 [].

Definition ntg_sprintf_num (room ui64 zero hexadecimal width : Z) : option bytes :=
  temp ← sprintf_temp ui64 hexadecimal;
  let len := Z.of_nat (length temp) in
  let pad := repeat zero (Z.to_nat (Z.min (width - len) room)) in
  let room := room - Z.of_nat (length pad) in
  let len := if room <? len then room else len in
  Some (pad ++ take (Z.to_nat len) temp).

(** ** Doubles, for [%f] *)

Definition sf_add : spec_float -> spec_float -> spec_float := SFadd 53 1024.
Definition sf_sub : spec_float -> spec_float -> spec_float := SFsub 53 1024.
Definition sf_mul : spec_float -> spec_float -> spec_float := SFmul 53 1024.
Definition sf_of_Z (z : Z) : spec_float := binary_normalize 53 1024 z 0 false.
(** The conversion of a double to an integer drops the fraction. *)
Definition sf_trunc (f : spec_float) : Z :=
  match f with
  | S754_finite s m e =>
      let v := if 0 <=? e then Zpos m * 2 ^ e else Zpos m / 2 ^ (- e) in
      if s then - v else v
  | _ => 0
  end.
Definition sf_half : spec_float := binary_normalize 53 1024 1 (-1) false.

Fixpoint sf_scale (n : nat) (scale : spec_float) : spec_float :=
  match n with O => scale | S n => sf_scale n (sf_mul scale (sf_of_Z 10)) end.

(** ** The format *)

Definition is_num (c : Z) : bool := (ch "0" <=? c) && (c <=? ch "9").

Fixpoint scan_width (fmt : bytes) (width : Z) : option (Z * bytes) :=
  match fmt with
  | [] => None
  | c :: fmt' =>
      if is_num c then scan_width fmt' (u64 (width * 10 + c - ch "0")) else Some (width, fmt)
  end.

(** [sign], [hex], [max_width], [frac_width] and [slen]. *)
Record flags := Flags {
  f_sign : bool; f_hex : Z; f_max_width : bool; f_frac_width : Z; f_slen : option Z }.

Definition flags0 : flags := Flags true 0 false 0 None.

(** The loop over the modifiers; [slen] of [(size_t) -1] is "no length". *)
Fixpoint scan_flags (fmt : bytes) (fl : flags) (args : list arg)
  : option (flags * bytes * list arg) :=
  match fmt with
  | [] => None
  | c :: fmt' =>
      if c =? ch "u" then
        scan_flags fmt' (Flags false (f_hex fl) (f_max_width fl) (f_frac_width fl) (f_slen fl)) args
      else if c =? ch "m" then
        scan_flags fmt' (Flags (f_sign fl) (f_hex fl) true (f_frac_width fl) (f_slen fl)) args
      else if c =? ch "X" then
        scan_flags fmt' (Flags false 2 (f_max_width fl) (f_frac_width fl) (f_slen fl)) args
      else if c =? ch "x" then
        scan_flags fmt' (Flags false 1 (f_max_width fl) (f_frac_width fl) (f_slen fl)) args
      else if c =? ch "." then
        match scan_width fmt' (f_frac_width fl) with
        | None => None
        | Some (w, fmt') =>
            Some (Flags (f_sign fl) (f_hex fl) (f_max_width fl) w (f_slen fl), fmt', args)
        end
      else if c =? ch "*" then
        match args with
        | AInt z :: args =>
            let slen := if u64 z =? u64 (-1) then None else Some (u64 z) in
            scan_flags fmt' (Flags (f_sign fl) (f_hex fl) (f_max_width fl) (f_frac_width fl) slen)
              args
        | _ => None
        end
      else Some (fl, fmt, args)
  end.

(** [while ( *p && buf < last)]. *)
Fixpoint copy_cstr (p : bytes) (room : Z) : option bytes :=
  match p with
  | [] => None
  | c :: p =>
      if (c =? 0) || (room <=? 0) then Some []
      else cons c <$> copy_cstr p (room - 1)
  end.

(** Copy [len] bytes of [p] as far as there is room. *)
Definition copy_len (p : bytes) (len room : Z) : option bytes :=
  let n := Z.to_nat (Z.min room len) in
  if (n <=? length p)%nat then Some (take n p) else None.

(** What a conversion does: write text, or format an integer given as
    [sign], [i64] and [ui64] with the width. *)
Inductive conv :=
  | ConvText (out : bytes) (args : list arg)
  | ConvNum (sign : bool) (i64 ui64 : Z) (width : Z) (args : list arg).

Definition conv_f (f : spec_float) (room zero width frac_width : Z) : option bytes :=
  let neg := SFltb f (sf_of_Z 0) in
  let f := if neg then SFopp f else f in
  let minus := if neg then [ch "-"] else [] in
  let ui64 := u64 (sf_trunc f) in
  let room := room - Z.of_nat (length minus) in
  num ← ntg_sprintf_num room ui64 zero 0 width;
  let room := room - Z.of_nat (length num) in
  if frac_width =? 0 then Some (minus ++ num)
  else
    let dot := if 0 <? room then [ch "."] else [] in
    let room := room - Z.of_nat (length dot) in
    let scale := sf_scale (Z.to_nat frac_width) (sf_of_Z 1) in
    let frac :=
      u64 (sf_trunc (sf_add (sf_mul (sf_sub f (sf_of_Z (s64 ui64))) scale) sf_half)) in
    tail ← ntg_sprintf_num room frac (ch "0") 0 frac_width;
    Some (minus ++ num ++ dot ++ tail).

(** An integer argument read as signed or unsigned through [sg] and [us]. *)
Definition conv_int (sg us : Z -> Z) (fl : flags) (width : Z) (args : list arg) : option conv :=
  match args with
  | AInt z :: args =>
      Some (if f_sign fl then ConvNum true (sg z) 0 width args
            else ConvNum false 0 (us z) width args)
  | _ => None
  end.

(** The switch on the conversion character. *)
Definition convert (c : Z) (fl : flags) (room zero width : Z) (args : list arg) : option conv :=
  if (c =? ch "V") || (c =? ch "v") then
    match args with
    | AStr s :: args =>
        out ← copy_len s (Z.of_nat (length s)) room; Some (ConvText out args)
    | _ => None
    end
  else if c =? ch "s" then
    match args with
    | ACstr p :: args =>
        out ← match f_slen fl with
              | None => copy_cstr p room
              | Some slen => copy_len p slen room
              end;
        Some (ConvText out args)
    | _ => None
    end
  else if (c =? ch "O") || (c =? ch "T") || (c =? ch "r") then
    match args with
    | AInt z :: args => Some (ConvNum true (s64 z) 0 width args)
    | _ => None
    end
  else if c =? ch "P" then
    match args with
    | AInt z :: args => Some (ConvNum true (s32 z) 0 width args)
    | _ => None
    end
  else if c =? ch "M" then
    match args with
    | AInt z :: args =>
        Some (if s64 z =? -1 then ConvNum true (-1) 0 width args
              else ConvNum false 0 (u64 z) width args)
    | _ => None
    end
  else if (c =? ch "z") || (c =? ch "l") || (c =? ch "L") then conv_int s64 u64 fl width args
  else if c =? ch "i" then
    conv_int s64 u64 fl (if f_max_width fl then NTG_INT_T_LEN else width) args
  else if (c =? ch "d") || (c =? ch "D") then conv_int s32 u32 fl width args
  else if (c =? ch "A") || (c =? ch "p") then Some (ConvNum (f_sign fl) 0 0 width args)
  else if c =? ch "f" then
    match args with
    | AFloat f :: args =>
        out ← conv_f f room zero width (f_frac_width fl); Some (ConvText out args)
    | _ => None
    end
  else if c =? ch "c" then
    match args with
    | AInt z :: args => Some (ConvText [Z.land (s32 z) 255] args)
    | _ => None
    end
  else if c =? ch "Z" then Some (ConvText [0] args)
  else if c =? ch "N" then Some (ConvText [LF] args)
  else Some (ConvText [c] args).

(** The bytes a conversion writes. *)
Definition conv_out (cv : conv) (hex room zero : Z) : option (bytes * list arg) :=
  match cv with
  | ConvText out args => Some (out, args)
  | ConvNum sign i64 ui64 width args =>
      let minus := if sign && (i64 <? 0) then [ch "-"] else [] in
      let ui64 := if sign then (if i64 <? 0 then u64 (- i64) else u64 i64) else ui64 in
      num ← ntg_sprintf_num (room - Z.of_nat (length minus)) ui64 zero hex width;
      Some (minus ++ num, args)
  end.

(** One conversion, [fmt] standing after the percent sign: the bytes written,
    and the format and the arguments left. *)
Definition conversion (fmt : bytes) (room : Z) (args : list arg)
  : option (bytes * bytes * list arg) :=
  match fmt with
  | [] => None
  | z0 :: _ =>
      let zero := if z0 =? ch "0" then ch "0" else ch " " in
      match scan_width fmt 0 with
      | None => None
      | Some (width, fmt) =>
          match scan_flags fmt flags0 args with
          | None => None
          | Some (fl, fmt, args) =>
              match fmt with
              | [] => None
              | c :: fmt =>
                  match convert c fl room zero width args with
                  | None => None
                  | Some cv =>
                      match conv_out cv (f_hex fl) room zero with
                      | None => None
                      | Some (out, args) => Some (out, fmt, args)
                      end
                  end
              end
          end
      end
  end.

Fixpoint vslprintf_loop (fuel : nat) (room : Z) (fmt : bytes) (args : list arg) : option bytes :=
  match fuel with
  | O => None
  | S fuel =>
      match fmt with
      | [] => None
      | c :: fmt =>
          if (c =? 0) || (room <=? 0) then Some []
          else if c =? ch "%" then
            match conversion fmt room args with
            | None => None
            | Some (out, fmt, args) =>
                app out <$> vslprintf_loop fuel (room - Z.of_nat (length out)) fmt args
            end
          else cons c <$> vslprintf_loop fuel (room - 1) fmt args
      end
  end.

Definition ntg_vslprintf (room : Z) (fmt : bytes) (args : list arg) : option bytes :=
  vslprintf_loop (S (length fmt)) room fmt args.

(** The callers: [buf] and [last] are addresses. *)
Definition ntg_sprintf (buf : Z) (fmt : bytes) (args : list arg) : option bytes :=
  ntg_vslprintf (18446744073709551615 - buf) fmt args.
Definition ntg_snprintf (buf max : Z) (fmt : bytes) (args : list arg) : option bytes :=
  ntg_vslprintf (u64 (buf + max) - buf) fmt args.
Definition ntg_slprintf (buf last : Z) (fmt : bytes) (args : list arg) : option bytes :=
  ntg_vslprintf (last - buf) fmt args.

(** ** The buffer bound *)

Lemma sprintf_num_bound room ui64 zero hex width out :
  ntg_sprintf_num room ui64 zero hex width = Some out -> 0 <= room ->
  Z.of_nat (length out) <= room.
Proof.
  unfold ntg_sprintf_num. destruct (sprintf_temp ui64 hex) as [temp|]; [|done].
  cbn [mbind option_bind]. intros [= <-] Hr.
  rewrite length_app, length_take, repeat_length. match goal with |- context [?a <? ?b] => destruct (Z.ltb_spec a b) end; lia.
Qed.

Lemma copy_cstr_bound p room out :
  copy_cstr p room = Some out -> 0 <= room -> Z.of_nat (length out) <= room.
Proof.
  revert room out. induction p as [|c p IH]; intros room out; cbn; [done|].
  destruct ((c =? 0) || (room <=? 0)) eqn:Et; [intros [= <-]; cbn; lia|].
  destruct (copy_cstr p (room - 1)) as [o|] eqn:E; cbn; [|done]. intros [= <-] Hr.
  apply IH in E; [|lia]. cbn. lia.
Qed.

Lemma copy_len_bound p len room out :
  copy_len p len room = Some out -> 0 <= room -> Z.of_nat (length out) <= room.
Proof.
  unfold copy_len. case_match; [|done]. intros [= <-] Hr. rewrite length_take. lia.
Qed.

Lemma conv_f_bound f room zero width frac out :
  conv_f f room zero width frac = Some out -> 0 < room -> Z.of_nat (length out) <= room.
Proof.
  unfold conv_f. set (minus := if SFltb f _ then [ch "-"] else []).
  assert (Hm : (length minus <= 1)%nat) by (subst minus; case_match; cbn; lia).
  intros E Hr. destruct (ntg_sprintf_num _ _ _ _ _) as [num|] eqn:En; [|done].
  apply sprintf_num_bound in En; [|lia]. cbn [mbind option_bind] in E.
  destruct (frac =? 0).
  - injection E as <-. rewrite length_app. lia.
  - set (dot := if 0 <? _ then [ch "."] else []) in E.
    assert (Hd : Z.of_nat (length dot) <= room - Z.of_nat (length minus) - Z.of_nat (length num)).
    { subst dot. destruct (Z.ltb_spec 0 (room - Z.of_nat (length minus) - Z.of_nat (length num)));
        cbn; lia. }
    destruct (ntg_sprintf_num _ _ _ 0 frac) as [tl|] eqn:Et; [|done].
    apply sprintf_num_bound in Et; [|lia]. cbn in E. injection E as <-.
    rewrite !length_app. lia.
Qed.

Lemma convert_bound c fl room zero width args cv :
  convert c fl room zero width args = Some cv -> 0 < room ->
  match cv with ConvText out _ => Z.of_nat (length out) <= room | _ => True end.
Proof.
  unfold convert, conv_int. intros E Hr.
  repeat match type of E with
  | (if ?b then _ else _) = _ => destruct b
  | (match ?a with [] => _ | _ :: _ => _ end) = _ => destruct a; [done|]
  | (match ?a with AInt _ => _ | _ => _ end) = _ => destruct a; try done
  end; try (injection E as <-; repeat case_match; cbn; try done; lia).
  - destruct (copy_len _ _ _) eqn:Ec; [|done]. cbn in E. injection E as <-.
    eapply copy_len_bound; [done|lia].
  - destruct (f_slen fl).
    + destruct (copy_len _ _ _) eqn:Ec; [|done]. cbn in E. injection E as <-.
      eapply copy_len_bound; [done|lia].
    + destruct (copy_cstr _ _) eqn:Ec; [|done]. cbn in E. injection E as <-.
      apply copy_cstr_bound in Ec; lia.
  - destruct (conv_f _ _ _ _ _) eqn:Ec; [|done]. cbn in E. injection E as <-.
    by eapply conv_f_bound.
Qed.

Lemma conv_out_bound cv hex room zero out args :
  conv_out cv hex room zero = Some (out, args) -> 0 < room ->
  match cv with ConvText out _ => Z.of_nat (length out) <= room | _ => True end ->
  Z.of_nat (length out) <= room.
Proof.
  destruct cv as [o a|sg i u w a]; cbn; [by intros [= <- _]|]. intros E Hr _.
  match type of E with context [ntg_sprintf_num ?r ?u ?z ?h ?w] =>
    destruct (ntg_sprintf_num r u z h w) as [num|] eqn:En end; [|done].
  cbn in E. injection E as <- _. apply sprintf_num_bound in En; [|case_match; cbn; lia].
  rewrite length_app. lia.
Qed.

Lemma conversion_bound fmt room args out fmt' args' :
  conversion fmt room args = Some (out, fmt', args') -> 0 < room ->
  Z.of_nat (length out) <= room.
Proof.
  unfold conversion. destruct fmt as [|z0 fmt]; [done|].
  generalize (if z0 =? ch "0" then ch "0" else ch " ") as zero. intros zero E Hr.
  repeat case_match; simplify_eq.
  match goal with H : convert _ _ _ _ _ _ = Some _ |- _ => apply convert_bound in H; [|done] end.
  by eapply conv_out_bound.
Qed.

Lemma vslprintf_loop_bound fuel room fmt args out :
  vslprintf_loop fuel room fmt args = Some out -> 0 <= room -> Z.of_nat (length out) <= room.
Proof.
  revert room fmt args out. induction fuel as [|fuel IH]; intros room fmt args out E Hr; [done|].
  cbn in E. destruct fmt as [|c fmt]; [done|].
  destruct ((c =? 0) || (room <=? 0)) eqn:Et; [injection E as <-; cbn; lia|].
  destruct (c =? ch "%").
  - destruct (conversion fmt room args) as [[[o f] a]|] eqn:Ec; [|done].
    apply conversion_bound in Ec; [|lia].
    destruct (vslprintf_loop _ _ f a) eqn:El; [|done]. cbn in E. injection E as <-.
    apply IH in El; [|lia]. rewrite length_app. lia.
  - destruct (vslprintf_loop _ _ fmt args) eqn:El; [|done]. cbn in E. injection E as <-.
    apply IH in El; [|lia]. cbn. lia.
Qed.

(** C34: whatever the format and the arguments, formatted output never writes
    beyond the end of its buffer. *)
Theorem ntg_vslprintf_bound room fmt args out :
  ntg_vslprintf room fmt args = Some out -> 0 <= room -> Z.of_nat (length out) <= room.
Proof. apply vslprintf_loop_bound. Qed.

(** ** Termination: every turn moves on in the format *)

Lemma scan_width_suffix fmt w w' fmt' :
  scan_width fmt w = Some (w', fmt') -> (length fmt' <= length fmt)%nat.
Proof.
  revert w. induction fmt as [|c fmt IH]; intros w; cbn; [done|].
  case_match; [intros E%IH; lia|by intros [= _ <-]].
Qed.

Lemma scan_flags_suffix fmt fl args fl' fmt' args' :
  scan_flags fmt fl args = Some (fl', fmt', args') -> (length fmt' <= length fmt)%nat.
Proof.
  revert fl args. induction fmt as [|c fmt IH]; intros fl args; cbn; [done|].
  repeat case_match; intros; simplify_eq; try done;
    try match goal with H : scan_width _ _ = Some _ |- _ => apply scan_width_suffix in H; cbn in *; lia end;
    match goal with H : scan_flags _ _ _ = Some _ |- _ => apply IH in H; cbn; lia end || (cbn; lia).
Qed.

Lemma conversion_suffix fmt room args out fmt' args' :
  conversion fmt room args = Some (out, fmt', args') -> (length fmt' < length fmt)%nat.
Proof.
  unfold conversion. destruct fmt as [|z0 fmt]; [done|].
  generalize (if z0 =? ch "0" then ch "0" else ch " ") as zero. intros zero E.
  repeat case_match; simplify_eq.
  repeat match goal with
  | H : scan_width _ _ = Some _ |- _ => apply scan_width_suffix in H
  | H : scan_flags _ _ _ = Some _ |- _ => apply scan_flags_suffix in H
  end. cbn in *. lia.
Qed.

Lemma vslprintf_loop_fuel fmt room args f1 f2 :
  (length fmt < f1)%nat -> (length fmt < f2)%nat ->
  vslprintf_loop f1 room fmt args = vslprintf_loop f2 room fmt args.
Proof.
  revert f2 room fmt args. induction f1 as [|f1 IH]; intros [|f2] room fmt args H1 H2; try lia.
  cbn. destruct fmt as [|c fmt]; [done|]. cbn [length] in *.
  case_match; [done|]. case_match.
  - destruct (conversion fmt room args) as [[[o f] a]|] eqn:Ec; [|done].
    apply conversion_suffix in Ec. by rewrite (IH f2) by lia.
  - by rewrite (IH f2) by lia.
Qed.

(** Formatting terminates: with a turn per byte of the format the loop has
    reached its end, and more fuel gives the same result. *)
Theorem ntg_vslprintf_terminates fuel room fmt args :
  (length fmt < fuel)%nat -> vslprintf_loop fuel room fmt args = ntg_vslprintf room fmt args.
Proof. intros H. apply vslprintf_loop_fuel; lia. Qed.

(** ** Numbers *)

Lemma dec_digit d : 0 <= d < 10 ->
  is_digit (nth (Z.to_nat d) (str "0123456789") 0) = true /\
  digit_val (nth (Z.to_nat d) (str "0123456789") 0) = d.
Proof.
  intros Hd. pose proof (forall_below 10 (fun d =>
    is_digit (nth (Z.to_nat d) (str "0123456789") 0) &&
    (digit_val (nth (Z.to_nat d) (str "0123456789") 0) =? d)) ltac:(by vm_compute) d Hd) as H.
  cbn beta in H. apply andb_true_iff in H as [? ?%Z.eqb_eq]. done.
Qed.

Lemma dec_value_app_digits ds l :
  fold_left (fun v c => v * 10 + digit_val c) l (dec_value ds) = dec_value (ds ++ l).
Proof. unfold dec_value. by rewrite fold_left_app. Qed.

(** The decimal digits of a number below [10 ^ fuel]. *)
Lemma num_digits_dec fuel : forall n acc,
  0 <= n < 10 ^ Z.of_nat fuel -> (0 < fuel)%nat ->
  exists ds, num_digits fuel 10 (str "0123456789") n acc = Some (ds ++ acc) /\
    forallb is_digit ds = true /\ dec_value ds = n /\ (0 < length ds <= fuel)%nat.
Proof.
  induction fuel as [|fuel IH]; intros n acc Hn Hf; [lia|].
  rewrite Nat2Z.inj_succ, Z.pow_succ_r in Hn by lia. cbn [num_digits].
  destruct (dec_digit (n mod 10)) as [Hd Hv]; [mlia|].
  set (c := nth _ _ _) in *. destruct (Z.eqb_spec (n / 10) 0) as [E|E].
  - exists [c]. cbn [forallb dec_value app fold_left length]. rewrite Hd.
    unfold dec_value. cbn [fold_left]. rewrite Hv. split_and!; try done; try lia; mlia.
  - assert (fuel <> 0%nat) by (intros ->; cbn in Hn; mlia).
    destruct (IH (n / 10) (c :: acc)) as (ds & -> & Hds & Hval & Hl); [mlia|lia|].
    exists (ds ++ [c]). rewrite <-app_assoc, forallb_app, Hds, dec_value_snoc, Hval, Hv, length_app.
    cbn [forallb length]. rewrite Hd. split_and!; try done; try lia; mlia.
Qed.

(** Printing any 64-bit number in decimal fits the 20 byte buffer of
    [ntg_sprintf_num], and reading the digits back with [ntg_atoi] gives the
    number whenever it fits the signed result. *)
Theorem ntg_sprintf_num_atoi n room zero :
  0 <= n < 9223372036854775808 -> NTG_INT64_LEN <= room ->
  exists ds, ntg_sprintf_num room n zero 0 0 = Some ds /\
    Z.of_nat (length ds) <= NTG_INT64_LEN /\ ntg_atoi ds (length ds) = Some n.
Proof.
  unfold NTG_INT64_LEN. intros Hn Hr. unfold ntg_sprintf_num, sprintf_temp. cbn [Z.eqb].
  destruct (num_digits_dec (Z.to_nat NTG_INT64_LEN) n []) as (ds & E & Hd & Hv & Hl);
    [change (10 ^ _) with 100000000000000000000; lia
    |change (Z.to_nat NTG_INT64_LEN) with 20%nat; lia|].
  rewrite E, app_nil_r. cbn [mbind option_bind].
  change (Z.to_nat NTG_INT64_LEN) with 20%nat in Hl.
  replace (Z.to_nat (Z.min (0 - Z.of_nat (length ds)) room)) with 0%nat by lia.
  cbn [repeat app length]. rewrite (proj2 (Z.ltb_ge _ _)) by lia. rewrite take_ge by lia.
  exists ds. split_and!; [done|lia|].
  unfold ntg_atoi. destruct (length ds) as [|k] eqn:El; [lia|]. rewrite <-El.
  change 0 with (s64 0). rewrite atoi_loop_spec by lia.
  rewrite take_ge by lia. rewrite Hd. fold (dec_value ds). rewrite Hv. cbn zeta.
  rewrite s64_small by (width; lia). by rewrite (proj2 (Z.ltb_ge n 0)) by lia.
Qed.

(** Every 64-bit number fits the buffer of digits, in every base. *)
Lemma sprintf_temp_defined n hex : 0 <= n < 18446744073709551616 -> is_Some (sprintf_temp n hex).
Proof.
  intros Hn. unfold sprintf_temp. 
  assert (G : forall fuel base t n acc, 0 <= n < base ^ Z.of_nat fuel -> (0 < fuel)%nat ->
    2 <= base -> is_Some (num_digits fuel base t n acc)).
  { clear. induction fuel as [|fuel IH]; intros base t n acc Hn Hf Hb; [lia|].
    rewrite Nat2Z.inj_succ, Z.pow_succ_r in Hn by lia. cbn [num_digits].
    destruct (Z.eqb_spec (n / base) 0) as [E|E]; [done|].
    assert (0 <= n / base < base ^ Z.of_nat fuel).
    { split; [apply Z.div_pos; lia|]. apply Z.div_lt_upper_bound; lia. }
    apply IH; [done| |done]. destruct fuel; [|lia]. cbn in *. lia. }
  change (Z.to_nat NTG_INT64_LEN) with 20%nat.
  repeat case_match; apply G; lia.
Qed.

(** ** Plain text and strings, for the callers *)

Definition plain (s : bytes) : Prop := Forall (fun c => c <> 0 /\ c <> ch "%") s.

Lemma vslprintf_plain s : forall fuel room fmt args,
  plain s -> (length s <= fuel)%nat -> Z.of_nat (length s) <= room ->
  vslprintf_loop fuel room (s ++ fmt) args =
  app s <$> vslprintf_loop (fuel - length s) (room - Z.of_nat (length s)) fmt args.
Proof.
  induction s as [|c s IH]; intros fuel room fmt args Hs Hf Hr; cbn [length app] in *.
  { rewrite Nat.sub_0_r, Z.sub_0_r. by destruct (vslprintf_loop _ _ _ _). }
  apply Forall_cons in Hs as [[H0 Hp] Hs]. destruct fuel as [|fuel]; [lia|]. cbn [vslprintf_loop].
  rewrite (proj2 (Z.eqb_neq c 0)), (proj2 (Z.eqb_neq c _)) by done.
  rewrite (proj2 (Z.leb_gt room 0)) by lia. cbn [orb].
  rewrite IH by (done || lia).
  replace (room - Z.of_nat (S (length s))) with (room - 1 - Z.of_nat (length s)) by lia.
  replace (S fuel - S (length s))%nat with (fuel - length s)%nat by lia.
  by destruct (vslprintf_loop _ _ fmt args).
Qed.

Lemma copy_cstr_all t r room :
  Forall (fun c => 0 < c) t -> Z.of_nat (length t) <= room -> copy_cstr (t ++ 0 :: r) room = Some t.
Proof.
  revert room. induction t as [|c t IH]; intros room Ht Hl; cbn; [done|].
  apply Forall_cons in Ht as [Hc Ht]. cbn in Hl.
  rewrite (proj2 (Z.eqb_neq c 0)), (proj2 (Z.leb_gt room 0)) by lia. cbn.
  by rewrite IH by (done || lia).
Qed.

Lemma conversion_s fmt room t r args :
  Forall (fun c => 0 < c) t -> Z.of_nat (length t) <= room ->
  conversion (115 :: fmt) room (ACstr (t ++ 0 :: r) :: args) = Some (t, fmt, args).
Proof.
  intros Ht Hl. unfold conversion.
  assert (Hw : scan_width (115 :: fmt) 0 = Some (0, 115 :: fmt)) by reflexivity.
  assert (Hg : forall a, scan_flags (115 :: fmt) flags0 a = Some (flags0, 115 :: fmt, a))
    by reflexivity.
  assert (Hc : forall z p, convert 115 flags0 room z 0 (ACstr p :: args) =
    (out ← copy_cstr p room; Some (ConvText out args))) by reflexivity.
  rewrite Hw, Hg, Hc, copy_cstr_all by (done || lia). done.
Qed.

Lemma vslprintf_s s t : forall fuel room fmt args,
  is_cstr s t -> (0 < fuel)%nat -> Z.of_nat (length t) <= room -> 0 < room ->
  vslprintf_loop fuel room (str "%s" ++ fmt) (ACstr s :: args) =
  app t <$> vslprintf_loop (fuel - 1) (room - Z.of_nat (length t)) fmt args.
Proof.
  intros fuel room fmt args [[r ->] Ht] Hf Hl Hr. destruct fuel as [|fuel]; [lia|].
  change (str "%s" ++ fmt) with (37 :: 115 :: fmt). cbn [vslprintf_loop].
  change (37 =? 0) with false. change (37 =? ch "%") with true.
  rewrite (proj2 (Z.leb_gt room 0)) by lia. cbn [orb].
  rewrite conversion_s by done.
  by rewrite Nat.sub_succ, Nat.sub_0_r.
Qed.

(** ** Formats cut in pieces, for the callers *)

(** A piece of a format: plain text, or a conversion with the argument it takes
    and the text it writes. *)
Inductive piece := PText (s : bytes) | PConv (spec : bytes) (a : arg) (out : bytes).

Definition piece_fmt (p : piece) : bytes :=
  match p with PText s => s | PConv spec _ _ => ch "%" :: spec end.
Definition piece_args (p : piece) : list arg :=
  match p with PText _ => [] | PConv _ a _ => [a] end.
Definition piece_out (p : piece) : bytes :=
  match p with PText s => s | PConv _ _ out => out end.

Definition pieces_fmt (ps : list piece) : bytes := concat (map piece_fmt ps) ++ [0].
Definition pieces_args (ps : list piece) : list arg := concat (map piece_args ps).
Definition pieces_out (ps : list piece) : bytes := concat (map piece_out ps).

Definition piece_ok (p : piece) : Prop :=
  match p with
  | PText s => plain s
  | PConv spec a out => forall fmt args room, 0 < room -> Z.of_nat (length out) <= room ->
      conversion (spec ++ fmt) room (a :: args) = Some (out, fmt, args)
  end.

(** No piece but the last, it may be, finds the room used up. *)
Fixpoint pieces_room (ps : list piece) (room : Z) : Prop :=
  match ps with
  | [] => True
  | p :: ps => Z.of_nat (length (piece_out p)) <= room /\ (match p with PText _ => True | _ => 0 < room end) /\
      pieces_room ps (room - Z.of_nat (length (piece_out p)))
  end.

Lemma pieces_room_enough ps room :
  Z.of_nat (length (pieces_out ps)) < room -> pieces_room ps room.
Proof.
  revert room. induction ps as [|p ps IH]; intros room; [done|]. unfold pieces_out. cbn [map concat pieces_room].
  rewrite length_app. fold (pieces_out ps). intros H. split; [lia|]. split; [destruct p; [done|lia]|].
  apply IH. lia.
Qed.

Lemma vslprintf_pieces ps : forall fuel room,
  Forall piece_ok ps -> pieces_room ps room -> (length (pieces_fmt ps) < fuel)%nat ->
  vslprintf_loop fuel room (pieces_fmt ps) (pieces_args ps) = Some (pieces_out ps).
Proof.
  induction ps as [|p ps IH]; intros fuel room Hok Hr Hf.
  { destruct fuel; [lia|reflexivity]. }
  apply Forall_cons in Hok as [Hp Hok]. destruct Hr as (Hl & Hr0 & Hr).
  assert (E : pieces_fmt (p :: ps) = piece_fmt p ++ pieces_fmt ps).
  { unfold pieces_fmt. cbn [map concat]. by rewrite <-app_assoc. }
  unfold pieces_args, pieces_out. cbn [map concat]. fold (pieces_args ps) (pieces_out ps).
  rewrite E in Hf |- *. rewrite length_app in Hf. destruct p as [s|spec a out]; cbn [piece_fmt piece_args piece_out] in *.
  - cbn [app]. rewrite vslprintf_plain by (done || lia). by rewrite IH by (done || lia).
  - destruct fuel as [|fuel]; [lia|]. cbn [length app] in *. cbn [vslprintf_loop].
    change (ch "%" =? 0) with false. rewrite Z.eqb_refl, (proj2 (Z.leb_gt room 0)) by lia. cbn [orb].
    rewrite Hp by (done || lia). by rewrite IH by (done || lia).
Qed.

Lemma ntg_vslprintf_pieces ps room :
  Forall piece_ok ps -> pieces_room ps room -> ntg_vslprintf room (pieces_fmt ps) (pieces_args ps) = Some (pieces_out ps).
Proof. intros Hok Hr. apply vslprintf_pieces; [done|done|lia]. Qed.

(** Pieces in front of another format. *)
Lemma vslprintf_before ps fmt args : forall fuel room,
  Forall piece_ok ps -> pieces_room ps room -> (length (concat (map piece_fmt ps) ++ fmt) < fuel)%nat ->
  vslprintf_loop fuel room (concat (map piece_fmt ps) ++ fmt) (pieces_args ps ++ args) =
  app (pieces_out ps) <$> vslprintf_loop fuel (room - Z.of_nat (length (pieces_out ps))) fmt args.
Proof.
  induction ps as [|p ps IH]; intros fuel room Hok Hr Hf.
  { cbn. rewrite Z.sub_0_r. by destruct (vslprintf_loop _ _ _ _). }
  apply Forall_cons in Hok as [Hp Hok]. destruct Hr as (Hl & Hr0 & Hr). unfold pieces_args, pieces_out in *. cbn [map concat] in *.
  rewrite length_app, <-!app_assoc in *. rewrite !length_app in Hf.
  assert (Hfuel : forall f r, (length (concat (map piece_fmt ps) ++ fmt) < f)%nat -> vslprintf_loop f r fmt args = vslprintf_loop fuel r fmt args).
  { intros f r H. rewrite length_app in H. apply vslprintf_loop_fuel; lia. }
  rewrite Nat2Z.inj_add, Z.sub_add_distr. destruct p as [t|spec a out]; cbn [piece_fmt piece_args piece_out] in *.
  - rewrite vslprintf_plain by (done || lia). cbn [app]. rewrite IH by (done || (rewrite ?length_app; lia)). rewrite Hfuel by (rewrite ?length_app; lia).
    destruct (vslprintf_loop _ _ fmt args); cbn; [by rewrite app_assoc|done].
  - destruct fuel as [|fuel]; [lia|]. cbn [length app] in *.
    remember (vslprintf_loop (S fuel) (room - Z.of_nat (length out) - Z.of_nat (length (concat (map piece_out ps)))) fmt args) as v eqn:Ev. cbn [vslprintf_loop].
    change (ch "%" =? 0) with false. rewrite Z.eqb_refl, (proj2 (Z.leb_gt room 0)) by lia. cbn [orb].
    rewrite Hp by (done || lia). rewrite IH by (done || (rewrite ?length_app; lia)). rewrite (Hfuel fuel) by (rewrite ?length_app; lia).
    rewrite <-Ev. destruct v; cbn; [by rewrite app_assoc|done].
Qed.

Lemma line_feed_end f room : 0 < room -> vslprintf_loop (S (S f)) room (ch "%" :: str "N" ++ [0]) [] = Some [LF].
Proof.
  intros Hr. cbn [vslprintf_loop]. rewrite (proj2 (Z.leb_gt room 0)) by lia. change (ch "%" =? 0) with false. rewrite Z.eqb_refl. cbn [orb].
  change (conversion (str "N" ++ [0]) room []) with (Some ([LF], [0], @nil arg)). reflexivity.
Qed.

(** The decimal digits of a number, and the number filled up to a width. *)
Definition decimal (n : Z) : bytes := default [] (num_digits 20 10 (str "0123456789") n []).
Definition filled (zero width n : Z) : bytes :=
  repeat zero (Z.to_nat (width - Z.of_nat (length (decimal n)))) ++ decimal n.

Lemma decimal_spec n : 0 <= n < 10 ^ 20 ->
  num_digits 20 10 (str "0123456789") n [] = Some (decimal n) /\
  forallb is_digit (decimal n) = true /\ dec_value (decimal n) = n /\ (0 < length (decimal n) <= 20)%nat.
Proof.
  intros Hn. destruct (num_digits_dec 20 n [] Hn ltac:(lia)) as (ds & E & Hd & Hv & Hl).
  rewrite app_nil_r in E. unfold decimal. rewrite E. done.
Qed.

Lemma sprintf_num_filled room n zero width :
  0 <= n < 10 ^ 20 -> Z.of_nat (length (filled zero width n)) <= room ->
  ntg_sprintf_num room n zero 0 width = Some (filled zero width n).
Proof.
  intros Hn. destruct (decimal_spec n Hn) as (E & _). unfold filled. rewrite length_app, repeat_length. intros Hl.
  unfold ntg_sprintf_num, sprintf_temp. cbn [Z.eqb]. change (Z.to_nat NTG_INT64_LEN) with 20%nat. rewrite E.
  cbn [mbind option_bind].
  replace (Z.to_nat (Z.min (width - Z.of_nat (length (decimal n))) room))
    with (Z.to_nat (width - Z.of_nat (length (decimal n)))) by lia.
  rewrite repeat_length. rewrite (proj2 (Z.ltb_ge _ _)) by lia. by rewrite take_ge by lia.
Qed.

(** The conversions of an [int]: %d, %2d, %02d, %4d, %ud. *)
Inductive int_spec : bytes -> Z -> Z -> Prop :=
  | int_d : int_spec (str "d") (ch " ") 0
  | int_2d : int_spec (str "2d") (ch " ") 2
  | int_02d : int_spec (str "02d") (ch "0") 2
  | int_4d : int_spec (str "4d") (ch " ") 4
  | int_ud : int_spec (str "ud") (ch " ") 0.

Definition PInt (spec : bytes) (zero width n : Z) : piece := PConv spec (AInt n) (filled zero width n).

Lemma int_piece_ok spec zero width n :
  int_spec spec zero width -> 0 <= n < 2147483648 -> piece_ok (PInt spec zero width n).
Proof.
  intros Hs Hn fmt args room Hr Hl.
  assert (H32 : s32 n = n /\ u32 n = n /\ (n <? 0) = false /\ u64 n = n)
    by (split_and!; [mlia|mlia|lia|mlia]). destruct H32 as (Es & Eu & Eneg & E64).
  assert (Hd : ntg_sprintf_num (room - 0) n zero 0 width = Some (filled zero width n)).
  { rewrite Z.sub_0_r. apply sprintf_num_filled; [lia|done]. }
  destruct Hs.
  1-4: (match goal with |- conversion (?spec ++ _) _ _ = Some (filled ?z ?w _, _, _) =>
    assert (conversion (spec ++ fmt) room (AInt n :: args) = conv_out (ConvNum true (s32 n) 0 w args) 0 room z
      ≫= fun '(out, args) => Some (out, fmt, args)) as -> by reflexivity end;
    unfold conv_out; rewrite Es, Eneg; cbn [andb length]; rewrite ?E64; change (Z.of_nat 0) with 0; rewrite Hd; done).
  assert (conversion (str "ud" ++ fmt) room (AInt n :: args) = conv_out (ConvNum false 0 (u32 n) 0 args) 0 room (ch " ")
      ≫= fun '(out, args) => Some (out, fmt, args)) as -> by reflexivity.
  unfold conv_out. rewrite Eu. cbn [andb length]. change (Z.of_nat 0) with 0. rewrite Hd. done.
Qed.

Definition PStr (t : bytes) : piece := PConv (str "s") (ACstr (t ++ [0])) t.

Lemma str_piece_ok t : Forall (fun c => 0 < c) t -> piece_ok (PStr t).
Proof.
  intros Ht fmt args room Hr Hl. exact (conversion_s fmt room t [] args Ht Hl).
Qed.

Definition PChar (c : Z) : piece := PConv (str "c") (AInt c) [c].

Lemma char_piece_ok c : is_byte c -> piece_ok (PChar c).
Proof.
  intros Hc fmt args room Hr Hl.
  assert (conversion (str "c" ++ fmt) room (AInt c :: args) = Some ([Z.land (s32 c) 255], fmt, args)) as -> by reflexivity.
  change 255 with (Z.ones 8). rewrite Z.land_ones by lia. do 4 f_equal. mlia.
Qed.

Lemma text_piece_ok s : forallb (fun c => negb (c =? 0) && negb (c =? ch "%")) s = true -> piece_ok (PText s).
Proof.
  intros H. apply List.Forall_forall. intros c Hc. rewrite forallb_forall in H. specialize (H c Hc). rewrite andb_true_iff, !negb_true_iff, !Z.eqb_neq in H. exact H.
Qed.

Definition PVar (t : bytes) : piece := PConv (str "V") (AStr t) t.

Lemma var_piece_ok t : piece_ok (PVar t).
Proof.
  intros fmt args room Hr Hl.
  assert (conversion (str "V" ++ fmt) room (AStr t :: args) =
    match (out ← copy_len t (Z.of_nat (length t)) room; Some (ConvText out args)) with
    | None => None
    | Some cv => match conv_out cv 0 room (ch " ") with None => None | Some (out, args) => Some (out, fmt, args) end end) as -> by reflexivity.
  unfold copy_len. replace (Z.to_nat (Z.min room (Z.of_nat (length t)))) with (length t) by lia. by rewrite Nat.leb_refl, firstn_all.
Qed.

Definition PPid (n : Z) : piece := PConv (str "P") (AInt n) (decimal n).

Lemma pid_piece_ok n : 0 <= n < 2147483648 -> piece_ok (PPid n).
Proof.
  intros Hn fmt args room Hr Hl. assert (conversion (str "P" ++ fmt) room (AInt n :: args) = conv_out (ConvNum true (s32 n) 0 0 args) 0 room (ch " ") ≫= fun '(out, args) => Some (out, fmt, args)) as -> by reflexivity.
  assert (E : s32 n = n) by mlia. rewrite E. unfold conv_out. rewrite (proj2 (Z.ltb_ge _ _)) by lia. cbn [andb length]. change (Z.of_nat 0) with 0.
  rewrite u64_small by (width; lia). assert (Ef : filled (ch " ") 0 n = decimal n).
  { unfold filled. replace (Z.to_nat (0 - Z.of_nat (length (decimal n)))) with 0%nat by lia. reflexivity. }
  rewrite Z.sub_0_r, <-Ef, sprintf_num_filled by (rewrite ?Ef; lia). rewrite Ef. reflexivity.
Qed.

Definition PUz (n : Z) : piece := PConv (str "uz") (AInt n) (decimal n).
Definition PUi (n : Z) : piece := PConv (str "ui") (AInt n) (decimal n).

Lemma unsigned_piece_ok n spec : spec = str "uz" \/ spec = str "ui" -> 0 <= n < 18446744073709551616 -> piece_ok (PConv spec (AInt n) (decimal n)).
Proof.
  intros Hs Hn fmt args room Hr Hl.
  assert (conversion (spec ++ fmt) room (AInt n :: args) = conv_out (ConvNum false 0 (u64 n) 0 args) 0 room (ch " ") ≫= fun '(out, args) => Some (out, fmt, args)) as -> by (destruct Hs as [->| ->]; reflexivity).
  unfold conv_out. cbn [andb length]. change (Z.of_nat 0) with 0. rewrite u64_small by (width; lia). assert (Ef : filled (ch " ") 0 n = decimal n).
  { unfold filled. replace (Z.to_nat (0 - Z.of_nat (length (decimal n)))) with 0%nat by lia. reflexivity. }
  rewrite Z.sub_0_r, <-Ef, sprintf_num_filled by (rewrite ?Ef; lia). rewrite Ef. reflexivity.
Qed.

(** How long they are. *)
Lemma num_digits_more f g base table n acc out :
  num_digits f base table n acc = Some out -> (f <= g)%nat -> num_digits g base table n acc = Some out.
Proof.
  revert g n acc. induction f as [|f IH]; intros g n acc H Hg; [discriminate H|]. destruct g as [|g]; [lia|].
  cbn [num_digits] in *. destruct (n / base =? 0); [done|]. apply (IH g _ _ H). lia.
Qed.

Lemma length_decimal n k : (0 < k <= 20)%nat -> 0 <= n < 10 ^ Z.of_nat k -> (0 < length (decimal n) <= k)%nat.
Proof.
  intros Hk Hn. destruct (num_digits_dec k n [] Hn ltac:(lia)) as (ds & E & _ & _ & Hl).
  unfold decimal. rewrite (num_digits_more _ 20 _ _ _ _ _ E) by lia. cbn [default]. by rewrite app_nil_r.
Qed.

Lemma length_filled zero width n k :
  (0 < k <= 20)%nat -> 0 <= n < 10 ^ Z.of_nat k -> Z.of_nat k <= width -> Z.of_nat (length (filled zero width n)) = width.
Proof.
  intros Hk Hn Hw. pose proof (length_decimal n k Hk Hn). unfold filled. rewrite length_app, repeat_length. lia.
Qed.

Lemma length_filled_max zero width n :
  width <= 20 -> 0 <= n < 10 ^ 20 -> Z.of_nat (length (filled zero width n)) <= 20.
Proof.
  intros Hw Hn. pose proof (length_decimal n 20 ltac:(lia) Hn). unfold filled. rewrite length_app, repeat_length. lia.
Qed.

(** A text printed at an address of the user's half has all the room it needs. *)
Lemma ntg_sprintf_pieces buf ps :
  0 <= buf < 2 ^ 63 -> Forall piece_ok ps -> Forall (fun p => Z.of_nat (length (piece_out p)) <= 64) ps ->
  (length ps <= 64)%nat -> ntg_sprintf buf (pieces_fmt ps) (pieces_args ps) = Some (pieces_out ps).
Proof.
  change (2 ^ 63) with 9223372036854775808. intros Hb Hok Hs Hn. apply ntg_vslprintf_pieces; [done|].
  apply pieces_room_enough. enough (Z.of_nat (length (pieces_out ps)) <= 64 * Z.of_nat (length ps)) by lia.
  clear -Hs. induction Hs as [|p ps Hp Hs IH]; [done|]. unfold pieces_out. cbn [map concat length].
  rewrite length_app. fold (pieces_out ps). lia.
Qed.

(** ** Examples *)

(** The comment lists [%p] and [%A]; both print 0 and take no argument. *)
Lemma pointer_conversion_ignored :
  ntg_vslprintf 100 (str "%p" ++ [0]) [AInt 4096] = Some (str "0") /\
  ntg_vslprintf 100 (str "%A %d" ++ [0]) [AInt 7; AInt 8] = Some (str "0 7").
Proof. split; reflexivity. Qed.

(** A format that ends in a percent sign is read beyond its NUL. *)
Lemma percent_at_end_overreads : ntg_vslprintf 100 (str "50%" ++ [0]) [] = None.
Proof. reflexivity. Qed.

Lemma ntg_vslprintf_bound_witness :
  exists out, ntg_vslprintf 8 (str "%s: %04d %xz" ++ [0]) [ACstr (str "id" ++ [0]); AInt 42; AInt 255]
    = Some out /\ Z.of_nat (length out) <= 8.
Proof.
  eexists. split; [vm_compute; reflexivity|].
  apply (ntg_vslprintf_bound 8 (str "%s: %04d %xz" ++ [0])
    [ACstr (str "id" ++ [0]); AInt 42; AInt 255]); [reflexivity|lia].
Defined.

Lemma ntg_vslprintf_terminates_witness :
  vslprintf_loop 9 10 (str "%V" ++ [0]) [AStr (str "x")] = ntg_vslprintf 10 (str "%V" ++ [0]) [AStr (str "x")].
Proof. apply ntg_vslprintf_terminates. cbn. lia. Defined.

Lemma ntg_sprintf_num_atoi_witness :
  exists ds, ntg_sprintf_num 32 8080 32 0 0 = Some ds /\
    Z.of_nat (length ds) <= NTG_INT64_LEN /\ ntg_atoi ds (length ds) = Some 8080.
Proof. apply (ntg_sprintf_num_atoi 8080 32 32); unfold NTG_INT64_LEN; lia. Defined.
