(* ===== verification/Inet.v ===== *)
(** * Internet addresses (src/utils/ntg_inet.c, ntg_inet.h)

    Addresses of version 4 as text, blocks of addresses, and the comparison of socket
    addresses.  The build sets NTG_HAVE_UNIX_DOMAIN and not NTG_HAVE_INET6, so that
    the code for version 6 is not compiled.  An [in_addr_t] is the 32-bit word that
    has the bytes of the address in memory, the first one lowest. *)

From S2P Require Import Prelude NtgString Sprintf.

Definition INADDR_NONE : Z := 4294967295.
Definition INADDR_ANY : Z := 0.
Definition AF_UNIX : Z := 1.
Definition AF_INET : Z := 2.

(** [htonl] and [ntohl], [htons] and [ntohs]: the bytes in the other order. *)
Definition htonl (a : Z) : Z :=
  a mod 256 * 16777216 + a / 256 mod 256 * 65536 + a / 65536 mod 256 * 256 + a / 16777216 mod 256.
Definition htons (p : Z) : Z := p mod 256 * 256 + p / 256 mod 256.

(** Byte [i] of a word in memory. *)
Definition addr_byte (a i : Z) : Z := Z.land (Z.shiftr a (8 * i)) 255.

(** ** From text (ntg_inet_addr) *)

(** The loop; [Some None] is the return of INADDR_NONE. *)
Fixpoint inet_loop (p : bytes) (len : nat) (addr octet n : Z) {struct len} : option (option (Z * Z * Z)) :=
  match len with
  | O => Some (Some (addr, octet, n))
  | S len =>
      if octet >? 255 then Some None
      else
        match p with
        | [] => None
        | c :: p =>
            if (ch "0" <=? c) && (c <=? ch "9") then inet_loop p len addr (u64 (octet * 10 + (c - ch "0"))) n
            else if c =? ch "." then inet_loop p len (u32 (u32 (Z.shiftl addr 8) + octet)) 0 (u64 (n + 1))
            else Some None
        end
  end.

Definition ntg_inet_addr (text : bytes) (len : nat) : option Z :=
  r ← inet_loop text len 0 0 0;
  match r with
  | None => Some INADDR_NONE
  | Some (addr, octet, n) =>
      Some (if n =? 3 then htonl (u32 (u32 (Z.shiftl addr 8) + octet)) else INADDR_NONE)
  end.

(** ** To text (ntg_sock_ntop, ntg_inet_ntop) *)

(** A [struct sockaddr]: of the internet, with the port in network order, of the
    local domain, or another one with what lies where the port and the address of an
    internet address are. *)
Inductive sockaddr :=
  | SockIn (port addr : Z)
  | SockUn (path : bytes)
  | SockOther (family port addr : Z).

Definition sa_family (sa : sockaddr) : Z :=
  match sa with SockIn _ _ => AF_INET | SockUn _ => AF_UNIX | SockOther f _ _ => f end.

Definition sun_path_offset : Z := 2.
Definition sizeof_sockaddr_in : Z := 16.
Definition sizeof_sockaddr_un : Z := 110.

(** What is written to [text], an address, and the result. *)
Definition ntg_sock_ntop (sa : sockaddr) (socklen text len : Z) (port : bool) : option (bytes * Z) :=
  match sa with
  | SockIn p a =>
      let octets := [AInt (addr_byte a 0); AInt (addr_byte a 1); AInt (addr_byte a 2); AInt (addr_byte a 3)] in
      out ← (if port then ntg_snprintf text len (str "%ud.%ud.%ud.%ud:%d" ++ [0]) (octets ++ [AInt (htons p)])
             else ntg_snprintf text len (str "%ud.%ud.%ud.%ud" ++ [0]) octets);
      Some (out, Z.of_nat (length out))
  | SockUn path =>
      out ← (if socklen <=? sun_path_offset then ntg_snprintf text len (str "unix:%Z" ++ [0]) []
             else ntg_snprintf text len (str "unix:%s%Z" ++ [0]) [ACstr path]);
      Some (out, u64 (Z.of_nat (length out) - 1))
  | SockOther _ _ _ => Some ([], 0)
  end.

Definition ntg_inet_ntop (family : Z) (addr : bytes) (text len : Z) : option (bytes * Z) :=
  if family =? AF_INET then
    p0 ← addr !! 0%nat; p1 ← addr !! 1%nat; p2 ← addr !! 2%nat; p3 ← addr !! 3%nat;
    out ← ntg_snprintf text len (str "%ud.%ud.%ud.%ud" ++ [0]) [AInt p0; AInt p1; AInt p2; AInt p3];
    Some (out, Z.of_nat (length out))
  else Some ([], 0).

(** ** Blocks of addresses (ntg_ptocidr) *)

Record cidr := Cidr { cd_family : Z; cd_addr : Z; cd_mask : Z }.

Definition cidr_masked (shift : Z) (c : cidr) : Z * cidr :=
  let mask := if negb (shift =? 0) then htonl (u32 (Z.shiftl 4294967295 (32 - shift))) else 0 in
  if cd_addr c =? Z.land (cd_addr c) mask then (NTG_OK, Cidr (cd_family c) (cd_addr c) mask)
  else (NTG_DONE, Cidr (cd_family c) (Z.land (cd_addr c) mask) mask).

Definition ntg_ptocidr (text : bytes) (len : nat) (c : cidr) : option (Z * cidr) :=
  mask ← ntg_strlchr text len (ch "/");
  addr ← ntg_inet_addr text (default len mask);
  if addr =? INADDR_NONE then Some (NTG_ERROR, Cidr (cd_family c) addr (cd_mask c))
  else
    let c := Cidr AF_INET addr (cd_mask c) in
    match mask with
    | None => Some (NTG_OK, Cidr AF_INET addr 4294967295)
    | Some m =>
        shift ← ntg_atoi (drop (S m) text) (len - S m);
        if shift =? NTG_ERROR then Some (NTG_ERROR, c)
        else if shift >? 32 then Some (NTG_ERROR, c)
        else Some (cidr_masked shift c)
    end.

(** ** An address object (ntg_parse_addr) *)

Record addr := Addr { ad_sockaddr : sockaddr; ad_socklen : Z; ad_name : bytes }.

(** [alloc] says whether [ntg_pcalloc] finds memory. *)
Definition ntg_parse_addr (alloc : bool) (text : bytes) (len : nat) (name : bytes) : option (Z * option addr) :=
  inaddr ← ntg_inet_addr text len;
  if inaddr =? INADDR_NONE then Some (NTG_DECLINED, None)
  else if negb alloc then Some (NTG_ERROR, None)
  else Some (NTG_OK, Some (Addr (SockIn 0 inaddr) sizeof_sockaddr_in name)).

(** ** Comparison (ntg_cmp_sockaddr) *)

Definition ntg_cmp_sockaddr (sa1 sa2 : sockaddr) (cmp_port : bool) : option Z :=
  if negb (sa_family sa1 =? sa_family sa2) then Some NTG_DECLINED
  else
    match sa1, sa2 with
    | SockUn path1, SockUn path2 =>
        d ← memcmp path1 path2 108;
        Some (if d =? 0 then NTG_OK else NTG_DECLINED)
    | SockIn port1 addr1, SockIn port2 addr2 | SockOther _ port1 addr1, SockOther _ port2 addr2 =>
        Some (if cmp_port && negb (port1 =? port2) then NTG_DECLINED
              else if negb (addr1 =? addr2) then NTG_DECLINED else NTG_OK)
    | _, _ => None
    end.

(** ** The octets of an address *)

(** The address of four octets, as the word in memory and as the number read. *)
Definition word_of (a b c d : Z) : Z := a + b * 256 + c * 65536 + d * 16777216.
Definition number_of (a b c d : Z) : Z := a * 16777216 + b * 65536 + c * 256 + d.

Lemma htonl_number a b c d : is_byte a -> is_byte b -> is_byte c -> is_byte d -> htonl (number_of a b c d) = word_of a b c d.
Proof. unfold htonl, number_of, word_of, is_byte. intros. Z.to_euclidean_division_equations. lia. Qed.

Lemma htonl_range a : 0 <= htonl a < 4294967296.
Proof. unfold htonl. Z.to_euclidean_division_equations. lia. Qed.

Lemma htonl_htonl a : 0 <= a < 4294967296 -> htonl (htonl a) = a.
Proof.
  intros Ha. replace a with (number_of (a / 16777216 mod 256) (a / 65536 mod 256) (a / 256 mod 256) (a mod 256)) at 1.
  - rewrite htonl_number by (apply Z.mod_pos_bound; lia). unfold htonl, word_of. Z.to_euclidean_division_equations. lia.
  - unfold number_of. Z.to_euclidean_division_equations. lia.
Qed.

Lemma addr_byte_div a i : 0 <= i -> addr_byte a i = a / 2 ^ (8 * i) mod 256.
Proof. intros Hi. unfold addr_byte. change 255 with (Z.ones 8). rewrite land_ones_mod, shiftr_div by lia. done. Qed.

Lemma addr_bytes a b c d : is_byte a -> is_byte b -> is_byte c -> is_byte d ->
  addr_byte (word_of a b c d) 0 = a /\ addr_byte (word_of a b c d) 1 = b /\
  addr_byte (word_of a b c d) 2 = c /\ addr_byte (word_of a b c d) 3 = d.
Proof.
  intros. rewrite !addr_byte_div by lia. change (2 ^ (8 * 0)) with 1. change (2 ^ (8 * 1)) with 256. change (2 ^ (8 * 2)) with 65536.
  change (2 ^ (8 * 3)) with 16777216. unfold word_of, is_byte in *. Z.to_euclidean_division_equations. lia.
Qed.

(** ** Reading *)

Definition digits_value (ds : bytes) (v : Z) : Z := fold_left (fun v c => v * 10 + digit_val c) ds v.

(** Before its last digit an octet is at most 255. *)
Definition octet_prefix (ds : bytes) (v : Z) : Prop := ds = [] \/ digits_value (removelast ds) v <= 255.

Lemma octet_prefix_cons c ds v : octet_prefix (c :: ds) v -> forallb is_digit (c :: ds) = true -> 0 <= v ->
  v <= 255 /\ octet_prefix ds (v * 10 + digit_val c).
Proof.
  intros [H|H] Hd Hv; [done|]. cbn [forallb] in Hd. apply andb_true_iff in Hd as [Hc Hd]. apply is_digit_range in Hc.
  assert (0 <= digit_val c) by (unfold digit_val; chars; lia). destruct ds as [|e ds]; [split; [done|by left]|].
  change (removelast (c :: e :: ds)) with (c :: removelast (e :: ds)) in H. unfold digits_value in H. cbn [fold_left] in H.
  assert (Hr : forallb is_digit (removelast (e :: ds)) = true).
  { apply forallb_forall. intros x Hx. apply (proj1 (forallb_forall _ _) Hd). rewrite (app_removelast_last (l := e :: ds) 0) by done.
    apply in_or_app. by left. }
  pose proof (dec_value_cons_range _ (v * 10 + digit_val c) Hr ltac:(lia)). split; [lia|by right].
Qed.

Lemma inet_loop_digits ds rest k addr v n :
  forallb is_digit ds = true -> 0 <= v -> octet_prefix ds v ->
  inet_loop (ds ++ rest) (length ds + k) addr v n = inet_loop rest k addr (digits_value ds v) n.
Proof.
  revert v. induction ds as [|c ds IH]; intros v Hd Hv Hp; [done|]. destruct (octet_prefix_cons _ _ _ Hp Hd Hv) as [H1 H2].
  cbn [forallb] in Hd. apply andb_true_iff in Hd as [Hc Hd]. pose proof (is_digit_range _ Hc) as Hr. cbn [app length Nat.add inet_loop].
  destruct (Z.gtb_spec v 255); [lia|]. unfold is_digit in Hc. rewrite Hc. fold (digit_val c).
  assert (0 <= digit_val c <= 9) by (unfold digit_val; chars; lia). rewrite u64_small by (width; lia). apply IH; [done|lia|done].
Qed.

Lemma inet_loop_dot rest k addr v n :
  0 <= v <= 255 -> inet_loop (ch "." :: rest) (S k) addr v n = inet_loop rest k (u32 (u32 (Z.shiftl addr 8) + v)) 0 (u64 (n + 1)).
Proof. intros Hv. cbn [inet_loop]. by destruct (Z.gtb_spec v 255); [lia|]. Qed.

(** Four numbers with dots between. *)
Definition dotted (d1 d2 d3 d4 : bytes) : bytes := d1 ++ ch "." :: d2 ++ ch "." :: d3 ++ ch "." :: d4.

Definition octet_text (d : bytes) : Prop := forallb is_digit d = true /\ dec_value d <= 255.
Definition last_octet_text (d : bytes) : Prop := forallb is_digit d = true /\ octet_prefix d 0.

Lemma octet_value d : octet_text d -> is_byte (dec_value d).
Proof. intros [H1 H2]. pose proof (dec_value_cons_range d 0 H1 ltac:(lia)). fold (dec_value d) in *. width. lia. Qed.

Lemma octet_last d : octet_text d -> last_octet_text d.
Proof.
  intros [H1 H2]. split; [done|]. destruct (decide (d = [])) as [->|Hne]; [by left|right].
  destruct (exists_last_elem d Hne) as (k & x & ->). rewrite removelast_last, dec_value_snoc in *. unfold digits_value.
  rewrite forallb_app in H1. apply andb_true_iff in H1 as [H1 H3]. cbn in H3. apply andb_true_iff in H3 as [H3 _].
  pose proof (dec_value_cons_range k 0 H1 ltac:(lia)). apply is_digit_range in H3. fold (dec_value k) in *. unfold digit_val in *. chars. lia.
Qed.

Lemma inet_loop_octet d rest k addr n : octet_text d -> 0 <= addr -> 0 <= n < 4 ->
  inet_loop (d ++ ch "." :: rest) (length d + S k) addr 0 n = inet_loop rest k (u32 (u32 (addr * 256) + dec_value d)) 0 (n + 1).
Proof.
  intros Hd Ha Hn. pose proof (octet_value d Hd). rewrite inet_loop_digits; [|apply Hd|lia|by apply octet_last].
  fold (dec_value d). rewrite inet_loop_dot by (unfold digits_value, is_byte, dec_value in *; lia).
  rewrite Z.shiftl_mul_pow2, (u64_small (n + 1)) by (width; lia). done.
Qed.

Lemma inet_addr_dotted d1 d2 d3 d4 rest :
  octet_text d1 -> octet_text d2 -> octet_text d3 -> last_octet_text d4 ->
  ntg_inet_addr (dotted d1 d2 d3 d4 ++ rest) (length (dotted d1 d2 d3 d4)) =
  Some (htonl (u32 (number_of (dec_value d1) (dec_value d2) (dec_value d3) (dec_value d4)))).
Proof.
  intros H1 H2 H3 [H4 H5]. pose proof (octet_value _ H1). pose proof (octet_value _ H2). pose proof (octet_value _ H3).
  unfold ntg_inet_addr, dotted. repeat rewrite <-?app_assoc, <-?app_comm_cons. repeat (rewrite length_app; cbn [length]).
  rewrite inet_loop_octet by (done || lia). rewrite inet_loop_octet by (done || mlia). rewrite inet_loop_octet by (done || mlia).
  rewrite <-(Nat.add_0_r (length d4)), inet_loop_digits by (done || lia). fold (dec_value d4). cbn [inet_loop mbind option_bind].
  change (0 + 1 + 1 + 1 =? 3) with true. cbn match. do 2 f_equal. rewrite Z.shiftl_mul_pow2 by lia. change (2 ^ 8) with 256.
  unfold number_of, digits_value, dec_value in *. width. rewrite !Zplus_mod_idemp_l. f_equal.
  Z.to_euclidean_division_equations. lia.
Qed.

(** The loop counts the dots it passes. *)
Lemma inet_loop_dots p len addr v n a v' n' :
  inet_loop p len addr v n = Some (Some (a, v', n')) -> 0 <= n -> n + Z.of_nat len < 18446744073709551616 -> n <= n'.
Proof.
  revert p addr v n. induction len as [|len IH]; intros p addr v n E Hn Hl; cbn [inet_loop] in E; [injection E as _ _ <-; lia|].
  destruct (v >? 255); [done|]. destruct p as [|c p]; [done|]. destruct ((ch "0" <=? c) && (c <=? ch "9")).
  - apply IH in E; lia.
  - destruct (c =? ch "."); [|done]. rewrite u64_small in E by (width; lia). apply IH in E; lia.
Qed.

(** What is accepted is digits to the end, or digits, a dot and what is accepted. *)
Lemma inet_loop_inv p len addr v n r :
  inet_loop p len addr v n = Some (Some r) -> 0 <= v -> 0 <= n -> n + Z.of_nat len < 18446744073709551616 ->
  (exists ds rest, p = ds ++ rest /\ length ds = len /\ forallb is_digit ds = true /\ octet_prefix ds v /\ r = (addr, digits_value ds v, n)) \/
  (exists ds rest k, p = ds ++ ch "." :: rest /\ len = (length ds + S k)%nat /\ forallb is_digit ds = true /\ digits_value ds v <= 255 /\
    inet_loop rest k (u32 (u32 (Z.shiftl addr 8) + digits_value ds v)) 0 (n + 1) = Some (Some r)).
Proof.
  revert p v. induction len as [|len IH]; intros p v E Hv Hn Hl; cbn [inet_loop] in E.
  { left. injection E as <-. exists [], p. split_and!; try done. by left. }
  destruct (Z.gtb_spec v 255) as [|Hv']; [done|]. destruct p as [|c p]; [done|].
  destruct ((ch "0" <=? c) && (c <=? ch "9")) eqn:Hc.
  - assert (0 <= digit_val c <= 9) by (unfold digit_val; chars; lia). fold (digit_val c) in E. rewrite u64_small in E by (width; lia).
    destruct (IH p _ E ltac:(lia) Hn ltac:(lia)) as [(ds & rest & -> & Hlen & Hd & Hp & Hr)|(ds & rest & k & -> & -> & Hd & Hp & Hr)].
    + left. exists (c :: ds), rest. split; [done|]. split; [cbn; lia|]. split; [cbn; by rewrite Hd, andb_true_r|]. split; [|exact Hr].
      right. destruct ds as [|e ds]; [cbn; lia|]. destruct Hp as [Hp|Hp]; [done|exact Hp].
    + right. exists (c :: ds), rest, k. split; [done|]. split; [done|]. split; [cbn; by rewrite Hd, andb_true_r|]. done.
  - destruct (Z.eqb_spec c (ch ".")) as [->|]; [|done]. rewrite u64_small in E by (width; lia). right. exists [], p, len. done.
Qed.

Lemma inet_addr_inv text len r :
  ntg_inet_addr text len = Some r -> r <> INADDR_NONE -> Z.of_nat len < 2 ^ 63 ->
  exists d1 d2 d3 d4 rest, octet_text d1 /\ octet_text d2 /\ octet_text d3 /\ last_octet_text d4 /\
    text = dotted d1 d2 d3 d4 ++ rest /\ len = length (dotted d1 d2 d3 d4).
Proof.
  intros E Hr Hl. unfold ntg_inet_addr in E. destruct (inet_loop text len 0 0 0) as [[[[a v] n]|]|] eqn:E1; cbn [mbind option_bind] in E;
    [|by injection E as <-|done]. destruct (Z.eqb_spec n 3) as [->|]; [|by injection E as <-]. clear E Hr.
  apply inet_loop_inv in E1 as [(? & ? & _ & _ & _ & _ & [=])|(d1 & t1 & k1 & -> & -> & D1 & O1 & E1)]; [|lia..].
  apply inet_loop_inv in E1 as [(? & ? & _ & _ & _ & _ & [=])|(d2 & t2 & k2 & -> & -> & D2 & O2 & E1)]; [|lia..].
  apply inet_loop_inv in E1 as [(? & ? & _ & _ & _ & _ & [=])|(d3 & t3 & k3 & -> & -> & D3 & O3 & E1)]; [|lia..].
  apply inet_loop_inv in E1 as [(d4 & t4 & -> & <- & D4 & O4 & _)|(d4 & t4 & k4 & -> & -> & D4 & O4 & E1)]; [| |lia..].
  - exists d1, d2, d3, d4, t4. split_and!; try done. 
    + unfold dotted. by repeat rewrite <-?app_assoc, <-?app_comm_cons.
    + unfold dotted. by repeat (rewrite length_app; cbn [length]).
  - apply inet_loop_dots in E1; lia.
Qed.

(** ** Printing and reading back *)

Definition octet (n : Z) : bytes := filled (ch " ") 0 n.

Lemma octet_decimal n : is_byte n -> octet_text (octet n) /\ dec_value (octet n) = n /\ (0 < length (octet n) <= 3)%nat.
Proof.
  intros Hn. unfold octet, filled. width. destruct (decimal_spec n ltac:(lia)) as (_ & H1 & H2 & _).
  pose proof (length_decimal n 3 ltac:(lia) ltac:(lia)). replace (Z.to_nat (0 - Z.of_nat (length (decimal n)))) with 0%nat by lia.
  cbn [repeat app]. split; [split; [done|lia]|done].
Qed.

Definition inet_pieces (a b c d : Z) : list piece :=
  [PInt (str "ud") (ch " ") 0 a; PText (str "."); PInt (str "ud") (ch " ") 0 b; PText (str ".");
   PInt (str "ud") (ch " ") 0 c; PText (str "."); PInt (str "ud") (ch " ") 0 d].

Definition inet_text (a b c d : Z) : bytes := dotted (octet a) (octet b) (octet c) (octet d).

Lemma inet_pieces_ok a b c d : is_byte a -> is_byte b -> is_byte c -> is_byte d -> Forall piece_ok (inet_pieces a b c d).
Proof. width. intros. repeat constructor; try (apply int_piece_ok; [constructor|lia]); done. Qed.

Lemma inet_text_length a b c d : is_byte a -> is_byte b -> is_byte c -> is_byte d -> (7 <= length (inet_text a b c d) <= 15)%nat.
Proof.
  intros Ha Hb Hc Hd. destruct (octet_decimal a Ha) as (_ & _ & La), (octet_decimal b Hb) as (_ & _ & Lb),
    (octet_decimal c Hc) as (_ & _ & Lc), (octet_decimal d Hd) as (_ & _ & Ld).
  unfold inet_text, dotted. repeat (rewrite length_app; cbn [length]). lia.
Qed.

Lemma pieces_out_inet a b c d : pieces_out (inet_pieces a b c d) = inet_text a b c d.
Proof. unfold pieces_out, inet_text, dotted. cbn [map concat piece_out inet_pieces PInt]. by rewrite app_nil_r. Qed.

(** The text just fits when the last number is printed with room. *)
Lemma inet_pieces_room a b c d room : is_byte a -> is_byte b -> is_byte c -> is_byte d ->
  Z.of_nat (length (inet_text a b c d)) <= room -> pieces_room (inet_pieces a b c d) room.
Proof.
  intros Ha Hb Hc Hd. destruct (octet_decimal a Ha) as (_ & _ & La), (octet_decimal b Hb) as (_ & _ & Lb),
    (octet_decimal c Hc) as (_ & _ & Lc), (octet_decimal d Hd) as (_ & _ & Ld).
  unfold inet_text, dotted. repeat (rewrite length_app; cbn [length]). intros H. cbn [pieces_room inet_pieces piece_out PInt].
  fold (octet a) (octet b) (octet c) (octet d). cbn [length str]. split_and!; cbn; lia || done.
Qed.

Lemma inet_snprintf a b c d text len :
  is_byte a -> is_byte b -> is_byte c -> is_byte d -> 0 <= text -> 15 <= len -> text + len < 18446744073709551616 ->
  ntg_snprintf text len (str "%ud.%ud.%ud.%ud" ++ [0]) [AInt a; AInt b; AInt c; AInt d] = Some (inet_text a b c d).
Proof.
  intros Ha Hb Hc Hd Ht Hl Hs. unfold ntg_snprintf. rewrite u64_small by (width; lia).
  change (str "%ud.%ud.%ud.%ud" ++ [0]) with (pieces_fmt (inet_pieces a b c d)).
  change [AInt a; AInt b; AInt c; AInt d] with (pieces_args (inet_pieces a b c d)). rewrite <-pieces_out_inet.
  apply ntg_vslprintf_pieces; [by apply inet_pieces_ok|]. apply inet_pieces_room; try done.
  pose proof (inet_text_length a b c d Ha Hb Hc Hd). lia.
Qed.

(** An address that is printed, by either function, is read back. *)
Lemma inet_roundtrip a b c d text len port rest :
  is_byte a -> is_byte b -> is_byte c -> is_byte d -> 0 <= text -> 15 <= len -> text + len < 18446744073709551616 ->
  exists out, ntg_inet_ntop AF_INET [a; b; c; d] text len = Some (out, Z.of_nat (length out)) /\
    ntg_sock_ntop (SockIn port (word_of a b c d)) 16 text len false = Some (out, Z.of_nat (length out)) /\
    (length out <= 15)%nat /\ ntg_inet_addr (out ++ rest) (length out) = Some (word_of a b c d).
Proof.
  intros Ha Hb Hc Hd Ht Hl Hs. exists (inet_text a b c d). pose proof (inet_snprintf a b c d text len Ha Hb Hc Hd Ht Hl Hs) as E.
  split; [|split; [|split]].
  - unfold ntg_inet_ntop. cbn [lookup list_lookup]. change (AF_INET =? AF_INET) with true. cbn match. cbn [mbind option_bind lookup list_lookup].
    rewrite E. done.
  - unfold ntg_sock_ntop. destruct (addr_bytes a b c d Ha Hb Hc Hd) as (-> & -> & -> & ->). rewrite E. done.
  - by apply inet_text_length.
  - destruct (octet_decimal a Ha) as (Oa & Va & _), (octet_decimal b Hb) as (Ob & Vb & _), (octet_decimal c Hc) as (Oc & Vc & _),
      (octet_decimal d Hd) as (Od & Vd & _). unfold inet_text. rewrite inet_addr_dotted by (done || by apply octet_last).
    rewrite Va, Vb, Vc, Vd. rewrite u32_small by (unfold number_of, is_byte in *; lia). by rewrite htonl_number.
Qed.

(** ** Masks *)

Lemma htonl_testbit a n : 0 <= n ->
  Z.testbit (htonl a) n =
  if n <? 8 then Z.testbit a (n + 24) else if n <? 16 then Z.testbit a (n + 8)
  else if n <? 24 then Z.testbit a (n - 8) else if n <? 32 then Z.testbit a (n - 24) else false.
Proof.
  intros Hn. unfold htonl. rewrite <-!Z.add_assoc.
  assert (E : forall k, 0 <= k -> a / 2 ^ k mod 2 ^ 8 = Z.land (Z.shiftr a k) (Z.ones 8)).
  { intros k Hk. by rewrite land_ones_mod, shiftr_div by lia. }
  assert (R : forall z, 0 <= z mod 256 < 256) by (intros; apply Z.mod_pos_bound; lia).
  pose proof (R a). pose proof (R (a / 256)). pose proof (R (a / 65536)). pose proof (R (a / 16777216)).
  assert (EL : a mod 256 * 16777216 + (a / 256 mod 256 * 65536 + (a / 65536 mod 256 * 256 + a / 16777216 mod 256)) =
    Z.lor (Z.shiftl (a mod 256) 24) (Z.lor (Z.shiftl (a / 256 mod 256) 16) (Z.lor (Z.shiftl (a / 65536 mod 256) 8) (a / 16777216 mod 256)))).
  { rewrite (lor_shiftl_add (a / 65536 mod 256) _ 8), (lor_shiftl_add (a / 256 mod 256) _ 16), (lor_shiftl_add (a mod 256) _ 24) by lia. lia. }
  rewrite EL. clear EL.
  replace (a mod 256) with (a / 2 ^ 0 mod 2 ^ 8) by (by rewrite Z.div_1_r).
  change 256 with (2 ^ 8). change 65536 with (2 ^ 16). change 16777216 with (2 ^ 24). rewrite !E by lia.
  rewrite !Z.lor_spec, !Z.shiftl_spec, !Z.land_spec, !Z.testbit_ones by lia.
  destruct (Z.ltb_spec n 8); [|destruct (Z.ltb_spec n 16); [|destruct (Z.ltb_spec n 24); [|destruct (Z.ltb_spec n 32)] ] ].
  all: repeat match goal with |- context [(?x <=? ?y) && (?z <? ?w)] =>
    first [replace ((x <=? y) && (z <? w)) with true by lia | replace ((x <=? y) && (z <? w)) with false by lia] end.
  all: rewrite ?(proj2 (Z.leb_le 0 n) Hn), ?andb_true_r, ?andb_false_r, ?orb_false_r, ?orb_false_l, ?Z.shiftr_spec by lia.
  all: try done; f_equal; lia.
Qed.

Lemma htonl_land a b : htonl (Z.land a b) = Z.land (htonl a) (htonl b).
Proof.
  apply Z.bits_inj'. intros n Hn. rewrite Z.land_spec, !htonl_testbit by done. rewrite !Z.land_spec.
  by repeat case_match.
Qed.

(** The first [s] bits of an address, in the order of the network. *)
Definition prefix_mask (s : Z) : Z := Z.shiftl (Z.ones s) (32 - s).

Lemma cidr_mask s : 0 <= s <= 32 ->
  (if negb (s =? 0) then htonl (u32 (Z.shiftl 4294967295 (32 - s))) else 0) = htonl (prefix_mask s) /\ 0 <= prefix_mask s < 4294967296.
Proof.
  intros Hs. pose proof (forall_below 33 (fun s =>
    ((if negb (s =? 0) then htonl (u32 (Z.shiftl 4294967295 (32 - s))) else 0) =? htonl (prefix_mask s)) &&
    (0 <=? prefix_mask s) && (prefix_mask s <? 4294967296))) as H.
  specialize (H ltac:(by vm_compute) s ltac:(lia)). apply andb_true_iff in H as [[H1%Z.eqb_eq H2%Z.leb_le]%andb_true_iff H3%Z.ltb_lt].
  done.
Qed.

Lemma prefix_land y s : 0 <= s <= 32 -> 0 <= y < 4294967296 -> Z.land y (prefix_mask s) = y / 2 ^ (32 - s) * 2 ^ (32 - s).
Proof.
  intros Hs Hy. rewrite <-Z.shiftr_div_pow2, <-Z.shiftl_mul_pow2 by lia. unfold prefix_mask. apply Z.bits_inj'. intros n Hn.
  rewrite Z.land_spec, !Z.shiftl_spec by lia. destruct (Z.ltb_spec n (32 - s)) as [H|H].
  - by rewrite !(Z.testbit_neg_r _ (n - (32 - s))), andb_false_r by lia.
  - rewrite Z.shiftr_spec by lia. replace (n - (32 - s) + (32 - s)) with n by lia. rewrite Z.testbit_ones by lia.
    destruct (Z.ltb_spec n 32) as [H'|H'].
    + replace ((0 <=? n - (32 - s)) && (n - (32 - s) <? s)) with true by lia. apply andb_true_r.
    + rewrite <-(Z.mod_small y (2 ^ 32)) by done. by rewrite Z.mod_pow2_bits_high by lia.
Qed.

Lemma same_prefix x y s : 0 <= s <= 32 -> 0 <= x < 4294967296 -> 0 <= y < 4294967296 ->
  Z.land x (htonl (prefix_mask s)) = Z.land y (htonl (prefix_mask s)) <-> htonl x / 2 ^ (32 - s) = htonl y / 2 ^ (32 - s).
Proof.
  intros Hs Hx Hy. destruct (cidr_mask s Hs) as [_ Hm]. pose proof (htonl_range x). pose proof (htonl_range y).
  assert (E : forall z, 0 <= z < 4294967296 -> Z.land z (htonl (prefix_mask s)) = htonl (htonl z / 2 ^ (32 - s) * 2 ^ (32 - s))).
  { intros z Hz. rewrite <-(prefix_land (htonl z)) by (done || apply htonl_range). by rewrite htonl_land, htonl_htonl. }
  rewrite !E by done. split; [|by intros ->]. intros H'. apply (f_equal htonl) in H'.
  assert (0 < 2 ^ (32 - s)) by (apply Z.pow_pos_nonneg; lia).
  rewrite !htonl_htonl in H' by (rewrite <-prefix_land by (done || apply htonl_range); split;
    [apply Z.land_nonneg; lia|rewrite prefix_land by done; pose proof (Z.mul_div_le (htonl x) (2 ^ (32 - s)));
     pose proof (Z.mul_div_le (htonl y) (2 ^ (32 - s))); lia]).
  apply (Z.mul_reg_r _ _ (2 ^ (32 - s))); [lia|done].
Qed.

(** ** The claims *)

Lemma strlchr_before s c rest k : c ∉ s -> ntg_strlchr (s ++ c :: rest) (length s + S k) c = Some (Some (length s)).
Proof.
  induction s as [|d s IH]; intros Hs; cbn [app length Nat.add ntg_strlchr]; [by rewrite Z.eqb_refl|].
  apply not_elem_of_cons in Hs as [Hd Hs]. rewrite (proj2 (Z.eqb_neq d c)) by congruence. by rewrite IH.
Qed.

Lemma strlchr_none s c rest : c ∉ s -> ntg_strlchr (s ++ rest) (length s) c = Some None.
Proof.
  induction s as [|d s IH]; intros Hs; cbn [app length ntg_strlchr]; [done|].
  apply not_elem_of_cons in Hs as [Hd Hs]. rewrite (proj2 (Z.eqb_neq d c)) by congruence. by rewrite IH.
Qed.

Lemma digits_no_slash d : forallb is_digit d = true -> ch "/" ∉ d.
Proof.
  intros Hd H%list_elem_of_In. apply (proj1 (forallb_forall _ _) Hd) in H. done.
Qed.

Lemma inet_text_no_slash a b c d : is_byte a -> is_byte b -> is_byte c -> is_byte d -> ch "/" ∉ inet_text a b c d.
Proof.
  intros Ha Hb Hc Hd. destruct (octet_decimal a Ha) as ([Oa _] & _), (octet_decimal b Hb) as ([Ob _] & _),
    (octet_decimal c Hc) as ([Oc _] & _), (octet_decimal d Hd) as ([Od _] & _).
  apply digits_no_slash in Oa, Ob, Oc, Od. unfold inet_text, dotted. by rewrite !elem_of_app, !elem_of_cons, !elem_of_app, !elem_of_cons, !elem_of_app, !elem_of_cons; intros H; decompose [or] H.
Qed.

(** The mask of a block and the addresses in it. *)
Definition block_of (w s : Z) (rc : Z) (c : cidr) : Prop :=
  cd_family c = AF_INET /\ cd_mask c = htonl (prefix_mask s) /\ cd_addr c = Z.land w (cd_mask c) /\
  (rc = NTG_OK /\ cd_addr c = w \/ rc = NTG_DONE /\ cd_addr c <> w) /\
  forall x, 0 <= x < 4294967296 -> Z.land x (cd_mask c) = cd_addr c <-> htonl x / 2 ^ (32 - s) = htonl w / 2 ^ (32 - s).

Lemma cidr_masked_ok w s m : 0 <= s <= 32 -> 0 <= w < 4294967296 ->
  block_of w s (fst (cidr_masked s (Cidr AF_INET w m))) (snd (cidr_masked s (Cidr AF_INET w m))).
Proof.
  intros Hs Hw. unfold cidr_masked. destruct (cidr_mask s Hs) as [-> _]. cbn [cd_addr cd_family].
  assert (H : forall x, 0 <= x < 4294967296 -> Z.land x (htonl (prefix_mask s)) = Z.land w (htonl (prefix_mask s)) <->
    htonl x / 2 ^ (32 - s) = htonl w / 2 ^ (32 - s)) by (intros; by apply same_prefix).
  destruct (Z.eqb_spec w (Z.land w (htonl (prefix_mask s)))) as [E|E]; (split; [done|]); (split; [done|]); cbn [cd_mask cd_addr fst snd].
  - split; [done|]. split; [by left|]. intros x Hx. rewrite E at 1. by apply H.
  - split; [done|]. split; [right; split; [done|by intros E'; apply E]|done].
Qed.

(** A block of addresses written as an address and the number of its leading
    bits is read as the mask of these bits and the address without the others, with
    NTG_DONE when the address had others; an address lies in the block when its
    leading bits are the same.  A number above 32 is refused. *)
Theorem ptocidr_correct a b c d ds m rest :
  is_byte a -> is_byte b -> is_byte c -> is_byte d -> word_of a b c d <> INADDR_NONE ->
  forallb is_digit ds = true -> ds <> [] -> dec_value ds < 2 ^ 63 ->
  let text := inet_text a b c d ++ ch "/" :: ds in
  exists rc cd, ntg_ptocidr (text ++ rest) (length text) m = Some (rc, cd) /\
    if dec_value ds <=? 32 then block_of (word_of a b c d) (dec_value ds) rc cd else rc = NTG_ERROR.
Proof.
  intros Ha Hb Hc Hd Hw Hds Hne Hv text. unfold ntg_ptocidr, text. rewrite <-app_assoc, length_app. cbn [app length].
  rewrite strlchr_before by (by apply inet_text_no_slash). cbn [mbind option_bind default].
  destruct (inet_roundtrip a b c d 0 15 0 (ch "/" :: ds ++ rest) Ha Hb Hc Hd ltac:(lia) ltac:(lia) ltac:(lia)) as (out & E & _ & _ & Eo).
  unfold ntg_inet_ntop in E. change (AF_INET =? AF_INET) with true in E. cbn [lookup list_lookup mbind option_bind] in E.
  rewrite inet_snprintf in E by (done || lia). cbn [mbind option_bind] in E. injection E as <-. cbn [option_bind default] in *.
  cbn [id from_option] in *. rewrite Eo. cbn [mbind option_bind]. rewrite (proj2 (Z.eqb_neq _ _)) by done.
  replace (drop (S (length (inet_text a b c d))) (inet_text a b c d ++ ch "/" :: ds ++ rest)) with (ds ++ rest)
    by (by rewrite drop_app_ge, Nat.sub_succ_l, Nat.sub_diag by lia).
  replace (length (inet_text a b c d) + S (length ds) - S (length (inet_text a b c d)))%nat with (length ds) by lia.
  assert (Hl : (0 < length ds <= length (ds ++ rest))%nat) by (rewrite length_app; destruct ds; [done|cbn; lia]).
  pose proof (dec_value_cons_range ds 0 Hds ltac:(lia)). fold (dec_value ds) in *.
  destruct (ntg_atoi_correct (ds ++ rest) (length ds) Hl) as (_ & Ea & _). rewrite take_app_length in Ea.
  rewrite Ea by (done || width; lia). cbn [mbind option_bind]. unfold NTG_ERROR. rewrite (proj2 (Z.eqb_neq (dec_value ds) (-1))) by lia.
  destruct (Z.gtb_spec (dec_value ds) 32); destruct (Z.leb_spec (dec_value ds) 32); try lia; [by eexists _, _|].
  eexists _, _. split; [by rewrite (surjective_pairing (cidr_masked _ _))|]. apply cidr_masked_ok; [lia|].
  unfold word_of, is_byte in *. lia.
Qed.

(** An address is read from four numbers with dots between, each at most 255, the
    last one as the code sees it; nothing else is accepted. *)
Theorem inet_addr_correct d1 d2 d3 d4 rest text len r :
  (octet_text d1 -> octet_text d2 -> octet_text d3 -> octet_text d4 ->
   ntg_inet_addr (dotted d1 d2 d3 d4 ++ rest) (length (dotted d1 d2 d3 d4)) =
   Some (word_of (dec_value d1) (dec_value d2) (dec_value d3) (dec_value d4))) /\
  (ntg_inet_addr text len = Some r -> r <> INADDR_NONE -> Z.of_nat len < 2 ^ 63 ->
   exists d1 d2 d3 d4 rest, octet_text d1 /\ octet_text d2 /\ octet_text d3 /\ last_octet_text d4 /\
     text = dotted d1 d2 d3 d4 ++ rest /\ len = length (dotted d1 d2 d3 d4)).
Proof.
  split; [|apply inet_addr_inv]. intros H1 H2 H3 H4. rewrite inet_addr_dotted by (done || by apply octet_last).
  pose proof (octet_value _ H1). pose proof (octet_value _ H2). pose proof (octet_value _ H3). pose proof (octet_value _ H4).
  rewrite u32_small by (unfold number_of, is_byte in *; lia). by rewrite htonl_number.
Qed.

(** Two addresses of the internet are the same when their addresses, and their ports
    when they are asked for, are; the comparison is an equivalence on the socket
    addresses it is defined for. *)
Lemma memcmp_eq s1 s2 n : (n <= length s1)%nat -> (n <= length s2)%nat -> exists d, memcmp s1 s2 n = Some d /\ (d = 0 <-> take n s1 = take n s2).
Proof.
  revert s1 s2. induction n as [|n IH]; intros s1 s2 H1 H2; [by exists 0|]. destruct s1 as [|c1 s1], s2 as [|c2 s2]; cbn [length] in *; [lia..|].
  cbn [memcmp]. destruct (Z.eqb_spec c1 c2) as [->|Hne].
  - destruct (IH s1 s2 ltac:(lia) ltac:(lia)) as (d & E & Hd). exists d. split; [done|]. rewrite !firstn_cons. rewrite Hd. split; [by intros ->|by intros [=]].
  - eexists. split; [done|]. rewrite !firstn_cons. split; [lia|by intros [=]].
Qed.

(** What two socket addresses are compared by. *)
Definition sock_key (sa : sockaddr) (cmp_port : bool) : Z * Z * Z * bytes :=
  match sa with
  | SockIn p a => (AF_INET, if cmp_port then p else 0, a, [])
  | SockUn path => (AF_UNIX, 0, 0, take 108 path)
  | SockOther f p a => (f, if cmp_port then p else 0, a, [])
  end.

Definition sock_ok (sa : sockaddr) : Prop :=
  match sa with SockIn _ _ => True | SockUn path => length path = 108%nat | SockOther f _ _ => f <> AF_INET /\ f <> AF_UNIX end.

Theorem cmp_sockaddr_correct sa1 sa2 port :
  sock_ok sa1 -> sock_ok sa2 ->
  exists rc, ntg_cmp_sockaddr sa1 sa2 port = Some rc /\ (rc = NTG_OK \/ rc = NTG_DECLINED) /\
    (rc = NTG_OK <-> sock_key sa1 port = sock_key sa2 port).
Proof.
  intros H1 H2. unfold ntg_cmp_sockaddr. destruct (Z.eqb_spec (sa_family sa1) (sa_family sa2)) as [Ef|Ef]; cbn [negb].
  2: { eexists. split; [done|]. split; [by right|]. split; [done|]. intros E. destruct Ef. destruct sa1, sa2; cbn in *; congruence. }
  destruct sa1 as [p1 a1|s1|f1 p1 a1], sa2 as [p2 a2|s2|f2 p2 a2]; cbn [sa_family sock_ok] in *; try (unfold AF_INET, AF_UNIX in *; lia).
  2: { destruct (memcmp_eq s1 s2 108 ltac:(lia) ltac:(lia)) as (d & -> & Hd). cbn [mbind option_bind]. eexists. split; [done|].
       unfold sock_key. destruct (Z.eqb_spec d 0) as [E|E]; (split; [tauto|]); (split; [|intros [=]]); try done.
       - intros _. by rewrite (proj1 Hd E).
       - tauto. }
  all: eexists; split; [done|]; unfold sock_key; destruct port, (Z.eqb_spec p1 p2), (Z.eqb_spec a1 a2); cbn; (split; [tauto|]); (split; [|intros [=]]);
    intros; try discriminate; congruence.
Qed.

(** ** Examples *)

Lemma ptocidr_correct_witness :
  exists rc cd, ntg_ptocidr (str "10.1.2.3/24") 11 (Cidr 0 0 0) = Some (rc, cd) /\ block_of (word_of 10 1 2 3) 24 rc cd.
Proof.
  exact (ptocidr_correct 10 1 2 3 (str "24") (Cidr 0 0 0) [] ltac:(width; lia) ltac:(width; lia) ltac:(width; lia) ltac:(width; lia)
    ltac:(done) eq_refl ltac:(done) ltac:(by vm_compute)).
Defined.

Example cidr_example : ntg_ptocidr (str "10.1.2.3/24") 11 (Cidr 0 0 0) = Some (NTG_DONE, Cidr AF_INET (word_of 10 1 2 0) (word_of 255 255 255 0)).
Proof. reflexivity. Qed.

(** The last number is not checked at the end of the text: 256 is carried into the
    number before it. *)
Lemma last_octet_unchecked : ntg_inet_addr (str "10.0.0.256") 10 = Some (word_of 10 0 1 0).
Proof. reflexivity. Qed.

(** Numbers may be missing. *)
Lemma dots_accepted : ntg_inet_addr (str "...") 3 = Some INADDR_ANY.
Proof. reflexivity. Qed.

(** The broadcast address is the error value. *)
Lemma broadcast_refused : ntg_inet_addr (str "255.255.255.255") 15 = Some INADDR_NONE.
Proof. reflexivity. Qed.

(** A local address printed without room has a length of 2^64 - 1. *)
Lemma no_room_underflows : ntg_sock_ntop (SockUn (str "/tmp/s" ++ [0])) 110 4096 0 false = Some ([], 18446744073709551615).
Proof. reflexivity. Qed.
