(* ===== verification/Url.v ===== *)
(** * URLs of servers (ntg_parse_url and its callees in src/utils/ntg_inet.c)

    The text of a server, "host:port/uri", "unix:path:uri" or a port alone, is taken
    apart, and its host becomes addresses.  The resolver of the C library and the
    memory that is found are arguments.  The object is cleared by its owner first. *)

From S2P Require Import Prelude NtgString Sprintf Inet.

(** A [ntg_str_t] that points into the text: its offset and its length. *)
Definition slice := (Z * Z)%type.

(** [ntg_url_t]; [u_data] are the bytes that can be read from [url.data] on. *)
Record url := Url {
  u_data : bytes; u_len : Z;
  u_host : slice; u_port_text : slice; u_uri : slice;
  u_port : Z; u_default_port : Z; u_family : Z;
  u_listen : bool; u_uri_part : bool; u_no_resolve : bool;
  u_no_port : bool; u_wildcard : bool;
  u_socklen : Z; u_sockaddr : sockaddr;
  u_addrs : list addr; u_naddrs : Z; u_err : bytes }.

Definition set_u_host v u := Url (u_data u) (u_len u) v (u_port_text u) (u_uri u) (u_port u) (u_default_port u) (u_family u) (u_listen u) (u_uri_part u) (u_no_resolve u) (u_no_port u) (u_wildcard u) (u_socklen u) (u_sockaddr u) (u_addrs u) (u_naddrs u) (u_err u).
Definition set_u_uri v u := Url (u_data u) (u_len u) (u_host u) (u_port_text u) v (u_port u) (u_default_port u) (u_family u) (u_listen u) (u_uri_part u) (u_no_resolve u) (u_no_port u) (u_wildcard u) (u_socklen u) (u_sockaddr u) (u_addrs u) (u_naddrs u) (u_err u).
Definition set_u_port n text u := Url (u_data u) (u_len u) (u_host u) text (u_uri u) n (u_default_port u) (u_family u) (u_listen u) (u_uri_part u) (u_no_resolve u) (u_no_port u) (u_wildcard u) (u_socklen u) (u_sockaddr u) (u_addrs u) (u_naddrs u) (u_err u).
Definition set_u_no_port u := Url (u_data u) (u_len u) (u_host u) (u_port_text u) (u_uri u) (u_default_port u) (u_default_port u) (u_family u) (u_listen u) (u_uri_part u) (u_no_resolve u) true (u_wildcard u) (u_socklen u) (u_sockaddr u) (u_addrs u) (u_naddrs u) (u_err u).
Definition set_u_wildcard v u := Url (u_data u) (u_len u) (u_host u) (u_port_text u) (u_uri u) (u_port u) (u_default_port u) (u_family u) (u_listen u) (u_uri_part u) (u_no_resolve u) (u_no_port u) v (u_socklen u) (u_sockaddr u) (u_addrs u) (u_naddrs u) (u_err u).
Definition set_u_sock fam len sa u := Url (u_data u) (u_len u) (u_host u) (u_port_text u) (u_uri u) (u_port u) (u_default_port u) fam (u_listen u) (u_uri_part u) (u_no_resolve u) (u_no_port u) (u_wildcard u) len sa (u_addrs u) (u_naddrs u) (u_err u).
Definition set_u_addrs v n u := Url (u_data u) (u_len u) (u_host u) (u_port_text u) (u_uri u) (u_port u) (u_default_port u) (u_family u) (u_listen u) (u_uri_part u) (u_no_resolve u) (u_no_port u) (u_wildcard u) (u_socklen u) (u_sockaddr u) v n (u_err u).
Definition set_u_err v u := Url (u_data u) (u_len u) (u_host u) (u_port_text u) (u_uri u) (u_port u) (u_default_port u) (u_family u) (u_listen u) (u_uri_part u) (u_no_resolve u) (u_no_port u) (u_wildcard u) (u_socklen u) (u_sockaddr u) (u_addrs u) (u_naddrs u) v.

Definition fail (err : string) (u : url) : option (Z * url) := Some (NTG_ERROR, set_u_err (str err) u).

(** The addresses the allocations give, 0 for none. *)
Definition alloc (mem : list Z) : Z * list Z := match mem with [] => (0, []) | a :: mem => (a, mem) end.

Definition empty_addr : addr := Addr (SockIn 0 0) 0 [].

(** ** Local sockets *)

(** [ntg_cpystrn] into a path of 108 bytes that was cleared. *)
Definition sun_path (path : bytes) (n : Z) : option bytes :=
  p ← ntg_cpystrn path (Z.to_nat n);
  Some (p ++ repeat 0 (108 - length p)).

Definition ntg_parse_unix_domain_url (mem : list Z) (u : url) : option (Z * url) :=
  let len := u64 (u_len u - 5) in
  let path := drop 5 (u_data u) in
  '(len, u) ← (if u_uri_part u then
                 uri ← ntg_strlchr path (Z.to_nat len) (ch ":");
                 Some match uri with
                      | Some i => (Z.of_nat i, set_u_uri (5 + Z.of_nat i + 1, len - (Z.of_nat i + 1)) u)
                      | None => (len, u)
                      end
               else Some (len, u));
  if len =? 0 then fail "no path in the unix domain socket" u
  else
    let u := set_u_host (5, len) u in
    let len := u64 (len + 1) in
    if len >? 108 then fail "too long path in the unix domain socket" u
    else
      p ← sun_path path len;
      let u := set_u_sock (u_family u) sizeof_sockaddr_un (SockUn p) u in
      let '(addrs, mem) := alloc mem in
      let u := set_u_addrs (if addrs =? 0 then [] else [empty_addr]) (u_naddrs u) u in
      if addrs =? 0 then Some (NTG_ERROR, u)
      else
        let '(saun, mem) := alloc mem in
        if saun =? 0 then Some (NTG_ERROR, u)
        else
          let u := set_u_sock AF_UNIX (u_socklen u) (u_sockaddr u) u in
          Some (NTG_OK, set_u_addrs [Addr (SockUn p) sizeof_sockaddr_un (take (Z.to_nat (len + 4)) (u_data u))] 1 u).

(** ** Names that are resolved (ntg_inet_resolve_host) *)

(** The loop over the addresses of the host: [todo] are those to come. *)
Fixpoint resolve_loop (mem : list Z) (port : Z) (todo : list Z) (done : list addr) : option (Z * list addr) :=
  match todo with
  | [] => Some (NTG_OK, done)
  | a :: todo =>
      let '(sin, mem) := alloc mem in
      if sin =? 0 then Some (NTG_ERROR, done ++ empty_addr :: repeat empty_addr (length todo))
      else
        let sa := SockIn port a in
        let '(p, mem) := alloc mem in
        if p =? 0 then Some (NTG_ERROR, done ++ Addr sa sizeof_sockaddr_in [] :: repeat empty_addr (length todo))
        else
          '(name, _) ← ntg_sock_ntop sa sizeof_sockaddr_in p 21 true;
          resolve_loop mem port todo (done ++ [Addr sa sizeof_sockaddr_in name])
  end.

(** [gethostbyname] is given the name with its NUL. *)
Definition ntg_inet_resolve_host (gethostbyname : bytes -> option (list Z)) (mem : list Z) (u : url) : option (Z * url) :=
  let port := htons (u_port u) in
  let '(off, hlen) := u_host u in
  let host := drop (Z.to_nat off) (u_data u) in
  in_addr ← ntg_inet_addr host (Z.to_nat hlen);
  if in_addr =? INADDR_NONE then
    let '(copy, mem) := alloc mem in
    if copy =? 0 then Some (NTG_ERROR, u)
    else
      name ← ntg_cpystrn host (Z.to_nat (hlen + 1));
      match gethostbyname name with
      | None | Some [] => fail "host not found" u
      | Some h =>
          let '(addrs, mem) := alloc mem in
          if addrs =? 0 then Some (NTG_ERROR, set_u_addrs [] (u_naddrs u) u)
          else
            '(rc, l) ← resolve_loop mem port h [];
            Some (rc, set_u_addrs l (Z.of_nat (length h)) u)
      end
  else
    let '(addrs, mem) := alloc mem in
    if addrs =? 0 then Some (NTG_ERROR, set_u_addrs [] (u_naddrs u) u)
    else
      let '(sin, mem) := alloc mem in
      if sin =? 0 then Some (NTG_ERROR, set_u_addrs [empty_addr] (u_naddrs u) u)
      else
        let '(p, mem) := alloc mem in
        if p =? 0 then Some (NTG_ERROR, set_u_addrs [Addr (SockIn port in_addr) sizeof_sockaddr_in []] 1 u)
        else
          name ← ntg_sprintf p (str "%V:%d" ++ [0]) [AStr (take (Z.to_nat hlen) host); AInt (htons port)];
          Some (NTG_OK, set_u_addrs [Addr (SockIn port in_addr) sizeof_sockaddr_in name] 1 u).

(** ** Hosts of the internet (ntg_parse_inet_url) *)

(** The three searches, and what of them counts: the places of the port and of the
    uri, as offsets. *)
Definition find_parts (data : bytes) (len : nat) : option (option nat * option nat) :=
  port ← ntg_strlchr data len (ch ":");
  uri ← ntg_strlchr data len (ch "/");
  args ← ntg_strlchr data len (ch "?");
  let uri := match args, uri with
             | Some a, None => Some a
             | Some a, Some b => if (a <? b)%nat then Some a else Some b
             | None, _ => uri
             end in
  Some (port, uri).

(** The host at the start of the text, of [len] bytes, when the port is known. *)
Definition parse_host (gethostbyname : bytes -> option (list Z)) (mem : list Z) (len : Z) (port : Z) (u : url) : option (Z * url) :=
  if len =? 0 then fail "no host" u
  else
    let u := set_u_host (0, len) u in
    star ← (if u_listen u && (len =? 1) then c ← head (u_data u); Some (if c =? ch "*" then 1 else 0) else Some 0);
    if star =? 1 then Some (NTG_OK, set_u_wildcard true (set_u_sock (u_family u) (u_socklen u) (SockIn port INADDR_ANY) u))
    else
      a ← ntg_inet_addr (u_data u) (Z.to_nat len);
      let u := set_u_sock (u_family u) (u_socklen u) (SockIn port a) u in
      if negb (a =? INADDR_NONE) then
        let u := if a =? INADDR_ANY then set_u_wildcard true u else u in
        let '(addrs, mem) := alloc mem in
        if addrs =? 0 then Some (NTG_ERROR, set_u_addrs [] 1 u)
        else
          let '(sin, mem) := alloc mem in
          if sin =? 0 then Some (NTG_ERROR, set_u_addrs [empty_addr] 1 u)
          else
            let '(p, mem) := alloc mem in
            if p =? 0 then Some (NTG_ERROR, set_u_addrs [Addr (u_sockaddr u) sizeof_sockaddr_in []] 1 u)
            else
              name ← ntg_sprintf p (str "%V:%d" ++ [0]) [AStr (take (Z.to_nat len) (u_data u)); AInt (u_port u)];
              Some (NTG_OK, set_u_addrs [Addr (u_sockaddr u) sizeof_sockaddr_in name] 1 u)
      else if u_no_resolve u then Some (NTG_OK, u)
      else
        '(rc, u) ← ntg_inet_resolve_host gethostbyname mem u;
        if negb (rc =? NTG_OK) then Some (NTG_ERROR, u)
        else
          first ← head (u_addrs u);
          let u := set_u_sock (sa_family (ad_sockaddr first)) (ad_socklen first) (ad_sockaddr first) u in
          match u_sockaddr u with
          | SockIn _ a => Some (NTG_OK, if a =? INADDR_ANY then set_u_wildcard true u else u)
          | _ => None
          end.

Definition ntg_parse_inet_url (gethostbyname : bytes -> option (list Z)) (mem : list Z) (u : url) : option (Z * url) :=
  let u := set_u_sock AF_INET sizeof_sockaddr_in (SockIn 0 0) u in
  '(port, uri) ← find_parts (u_data u) (Z.to_nat (u_len u));
  if match uri with Some _ => u_listen u || negb (u_uri_part u) | None => false end then fail "invalid host" u
  else
    let last := match uri with Some i => Z.of_nat i | None => u_len u end in
    let u := match uri with Some i => set_u_uri (Z.of_nat i, u_len u - Z.of_nat i) u | None => u end in
    let port := match uri, port with Some i, Some p => if (i <? p)%nat then None else Some p | _, _ => port end in
    match port with
    | Some p =>
        let len := last - (Z.of_nat p + 1) in
        n ← ntg_atoi (drop (S p) (u_data u)) (Z.to_nat len);
        if (n <? 1) || (n >? 65535) then fail "invalid port" u
        else parse_host gethostbyname mem (Z.of_nat p) (htons n) (set_u_port n (Z.of_nat p + 1, len) u)
    | None =>
        n ← (if match uri with None => u_listen u | Some _ => false end then ntg_atoi (u_data u) (Z.to_nat last) else Some NTG_ERROR);
        if negb (n =? NTG_ERROR) then
          if (n <? 1) || (n >? 65535) then fail "invalid port" u
          else Some (NTG_OK, set_u_wildcard true (set_u_sock (u_family u) (u_socklen u) (SockIn (htons n) 0) (set_u_port n (0, last) u)))
        else parse_host gethostbyname mem last (htons (u_default_port u)) (set_u_no_port u)
    end.

(** Addresses of version 6 are not compiled in (ntg_parse_inet6_url). *)
Definition ntg_parse_inet6_url (u : url) : option (Z * url) :=
  fail "the INET6 sockets are not supported on this platform" u.

Definition ntg_parse_url (gethostbyname : bytes -> option (list Z)) (mem : list Z) (u : url) : option (Z * url) :=
  r ← ntg_strncasecmp (u_data u) (str "unix:" ++ [0]) 5;
  if r =? 0 then ntg_parse_unix_domain_url mem u
  else
    c ← head (u_data u);
    if c =? ch "[" then ntg_parse_inet6_url u else ntg_parse_inet_url gethostbyname mem u.

(** ** What is read lies in the text *)

Lemma strlchr_total p n c : (n <= length p)%nat ->
  exists r, ntg_strlchr p n c = Some r /\ (forall i, r = Some i -> (i < n)%nat /\ p !! i = Some c /\ c ∉ take i p) /\ (r = None -> c ∉ take n p).
Proof.
  revert n. induction p as [|d p IH]; intros [|n] Hn; cbn [length] in Hn; try lia; try (by exists None; split; [|split; [|intros _; apply not_elem_of_nil] ]).
  cbn [ntg_strlchr]. destruct (Z.eqb_spec d c) as [->|Hne].
  - exists (Some 0%nat). split; [done|]. split; [|done]. intros i [= <-]. split; [lia|]. split; [done|]. apply not_elem_of_nil.
  - destruct (IH n ltac:(lia)) as (r & -> & H1 & H2). exists (shift1 r). split; [done|]. split.
    + intros i Hi. destruct r as [j|]; [|done]. injection Hi as <-. destruct (H1 j eq_refl) as (? & ? & ?). split; [lia|]. split; [done|].
      rewrite firstn_cons. apply not_elem_of_cons. split; [congruence|done].
    + intros Hr. destruct r; [done|]. rewrite firstn_cons. apply not_elem_of_cons. split; [congruence|by apply H2].
Qed.

Lemma inet_loop_total p n a v k : (n <= length p)%nat -> is_Some (inet_loop p n a v k).
Proof.
  revert p a v k. induction n as [|n IH]; intros p a v k Hn; cbn [inet_loop]; [by eexists|].
  destruct (v >? 255); [by eexists|]. destruct p as [|c p]; [cbn in Hn; lia|]. cbn [length] in Hn.
  destruct ((ch "0" <=? c) && (c <=? ch "9")); [apply IH; lia|]. destruct (c =? ch "."); [apply IH; lia|by eexists].
Qed.

Lemma inet_addr_total p n : (n <= length p)%nat -> exists a, ntg_inet_addr p n = Some a /\ 0 <= a < 4294967296.
Proof.
  intros Hn. unfold ntg_inet_addr. destruct (inet_loop_total p n 0 0 0 Hn) as [ [ [ [a v] k]|] ->]; cbn [mbind option_bind].
  - eexists. split; [done|]. destruct (k =? 3); [apply htonl_range|done].
  - by eexists.
Qed.

Lemma atoi_total p n : (n <= length p)%nat -> is_Some (ntg_atoi p n).
Proof.
  intros Hn. destruct n as [|n]; [by eexists|]. unfold ntg_atoi. rewrite (atoi_loop_spec p (S n) Hn 0 : atoi_loop p (S n) 0 = _). by eexists.
Qed.

(** ** Names *)

(** The name of an address: its text and its port. *)
Definition named (host : bytes) (port : Z) : bytes := host ++ ch ":" :: filled (ch " ") 0 port.

Lemma port_text_length port : 0 <= port < 65536 -> (0 < length (filled (ch " ") 0 port) <= 5)%nat.
Proof.
  intros Hp. pose proof (length_decimal port 5 ltac:(lia) ltac:(lia)). unfold filled.
  replace (Z.to_nat (0 - Z.of_nat (length (decimal port)))) with 0%nat by lia. exact H.
Qed.

Lemma name_printed p host port : 0 <= p < 2 ^ 63 -> Z.of_nat (length host) < 2 ^ 62 -> 0 <= port < 65536 ->
  ntg_sprintf p (str "%V:%d" ++ [0]) [AStr host; AInt port] = Some (named host port).
Proof.
  intros Hp Hh Hport. pose proof (port_text_length port Hport). unfold ntg_sprintf.
  change (str "%V:%d" ++ [0]) with (pieces_fmt [PVar host; PText (str ":"); PInt (str "d") (ch " ") 0 port]).
  change [AStr host; AInt port] with (pieces_args [PVar host; PText (str ":"); PInt (str "d") (ch " ") 0 port]).
  assert (E : pieces_out [PVar host; PText (str ":"); PInt (str "d") (ch " ") 0 port] = named host port)
    by (unfold pieces_out, named; cbn [map concat piece_out PVar PInt str app]; by rewrite app_nil_r).
  rewrite <-E. apply ntg_vslprintf_pieces.
  - repeat constructor; [apply var_piece_ok|done|done|apply int_piece_ok; [constructor|lia] ].
  - apply pieces_room_enough. rewrite E. unfold named. rewrite length_app. cbn [length]. lia.
Qed.

(** The bytes of an address. *)
Definition word_text (w : Z) : bytes := inet_text (addr_byte w 0) (addr_byte w 1) (addr_byte w 2) (addr_byte w 3).

Lemma addr_byte_byte w i : 0 <= i -> is_byte (addr_byte w i).
Proof. intros Hi. rewrite addr_byte_div by done. by apply Z.mod_pos_bound. Qed.

Lemma htons_htons p : 0 <= p < 65536 -> htons (htons p) = p.
Proof. intros Hp. unfold htons. Z.to_euclidean_division_equations. lia. Qed.

Lemma sock_name_printed p port w : 0 <= p < 2 ^ 63 -> 0 <= port < 65536 ->
  ntg_sock_ntop (SockIn (htons port) w) 16 p 21 true = Some (named (word_text w) port, Z.of_nat (length (named (word_text w) port))).
Proof.
  intros Hp Hport. pose proof (port_text_length port Hport).
  assert (B : forall i, 0 <= i -> is_byte (addr_byte w i)) by (intros; by apply addr_byte_byte).
  unfold ntg_sock_ntop, word_text. set (a := addr_byte w 0). set (b := addr_byte w 1). set (c := addr_byte w 2). set (d := addr_byte w 3).
  assert (Ha : is_byte a) by (by apply B). assert (Hb : is_byte b) by (by apply B). assert (Hc : is_byte c) by (by apply B). assert (Hd : is_byte d) by (by apply B).
  rewrite htons_htons by done. pose proof (inet_text_length a b c d Ha Hb Hc Hd).
  set (ps := inet_pieces a b c d ++ [PText (str ":"); PInt (str "d") (ch " ") 0 port]).
  assert (E : pieces_out ps = named (inet_text a b c d) port).
  { unfold pieces_out, ps. rewrite map_app, concat_app. fold (pieces_out (inet_pieces a b c d)). rewrite pieces_out_inet. unfold named.
    cbn [map concat piece_out PInt str app]. by rewrite app_nil_r. }
  enough (ntg_snprintf p 21 (str "%ud.%ud.%ud.%ud:%d" ++ [0]) ([AInt a; AInt b; AInt c; AInt d] ++ [AInt port]) = Some (named (inet_text a b c d) port)) as ->
    by reflexivity.
  rewrite <-E. unfold ntg_snprintf. rewrite u64_small by (width; lia). replace (p + 21 - p) with 21 by lia. apply (ntg_vslprintf_pieces ps).
  - apply Forall_app. split; [by apply inet_pieces_ok|]. repeat constructor; [done|done|apply int_piece_ok; [constructor|lia] ].
  - destruct (octet_decimal a Ha) as (_ & _ & La), (octet_decimal b Hb) as (_ & _ & Lb), (octet_decimal c Hc) as (_ & _ & Lc), (octet_decimal d Hd) as (_ & _ & Ld).
    cbn [ps inet_pieces app pieces_room piece_out PInt]. fold (octet a) (octet b) (octet c) (octet d). cbn [str length]. split_and!; cbn; lia || done.
Qed.

(** ** Resolving *)

(** Allocations give addresses of the user's half, or null. *)
Definition mem_good (mem : list Z) : Prop := Forall (fun a => 0 <= a < 2 ^ 63) mem.

(** There is memory for [n] allocations. *)
Definition enough (n : nat) (mem : list Z) : Prop := (n <= length mem)%nat /\ Forall (fun a => a <> 0) mem.

Lemma alloc_good mem : mem_good mem -> 0 <= fst (alloc mem) < 2 ^ 63 /\ mem_good (snd (alloc mem)).
Proof. intros H. destruct H; [split; [cbn; lia|constructor]|done]. Qed.

Lemma alloc_enough n mem : enough (S n) mem -> fst (alloc mem) <> 0 /\ enough n (snd (alloc mem)).
Proof. intros [H1 H2]. destruct H2 as [|a mem Ha H2]; [cbn in H1; lia|]. cbn in *. split; [done|]. split; [lia|done]. Qed.

(** The next allocation, with what is known about it. *)
Ltac step_alloc mem :=
  let a := fresh "a" in let G := fresh "G" in
  pose proof (alloc_good mem ltac:(assumption)) as G; destruct (alloc mem) as [a ?mem'] eqn:?; cbn [fst snd] in G; destruct G as [? ?];
  destruct (Z.eqb_spec a 0).

Definition sock_addr (port w : Z) : addr := Addr (SockIn (htons port) w) sizeof_sockaddr_in (named (word_text w) port).

Lemma resolve_loop_ok mem port todo done :
  mem_good mem -> 0 <= port < 65536 ->
  exists rc l, resolve_loop mem (htons port) todo done = Some (rc, l) /\ (rc = NTG_OK \/ rc = NTG_ERROR) /\
    (rc = NTG_OK -> l = done ++ map (sock_addr port) todo) /\ (enough (2 * length todo) mem -> rc = NTG_OK).
Proof.
  intros Hm Hp. revert mem Hm done. induction todo as [|w todo IH]; intros mem Hm done; cbn [resolve_loop].
  { eexists _, _. split; [reflexivity|]. split; [by left|]. split; [|done]. by rewrite app_nil_r. }
  pose proof (alloc_enough (S (2 * length todo)) mem) as N1. step_alloc mem; cbn [fst snd] in N1.
  { eexists _, _. split; [reflexivity|]. split; [by right|]. split; [done|]. intros N. cbn [length] in N. destruct N1; [|done].
    by replace (S (S (2 * length todo)))%nat with (2 * S (length todo))%nat by lia. }
  pose proof (alloc_enough (2 * length todo) mem') as N2. step_alloc mem'; cbn [fst snd] in N2.
  { eexists _, _. split; [reflexivity|]. split; [by right|]. split; [done|]. intros N. cbn [length] in N.
    destruct N1 as [_ M]; [by replace (S (S (2 * length todo)))%nat with (2 * S (length todo))%nat by lia|]. by destruct (N2 M). }
  unfold sizeof_sockaddr_in at 1. rewrite sock_name_printed by done. cbn [mbind option_bind].
  destruct (IH _ H2 (done ++ [sock_addr port w])) as (rc & l & E & H3 & H4 & H5). exists rc, l. split; [exact E|]. split; [done|]. split.
  - intros Hrc. rewrite H4 by done. by rewrite <-app_assoc.
  - intros N. cbn [length] in N. apply H5, N2, N1. by replace (S (S (2 * length todo)))%nat with (2 * S (length todo))%nat by lia.
Qed.

(** The text of the object: it ends in a NUL. *)
Definition text_of (t : bytes) (u : url) : Prop := is_cstr (u_data u) t /\ u_len u = Z.of_nat (length t) /\ u_len u < 2 ^ 31.

Lemma text_data t u : text_of t u -> (length t < length (u_data u))%nat /\ take (length t) (u_data u) = t.
Proof. intros [ [ [r ->] _] _]. rewrite length_app, take_app_length. cbn [length]. split; [lia|done]. Qed.

Lemma text_take t u n : text_of t u -> (n <= length t)%nat -> take n (u_data u) = take n t.
Proof. intros [ [ [r ->] _] _] Hn. by rewrite take_app_le. Qed.

(** ** The host *)

(** What of an object the host does not change. *)
Definition parts (u : url) := (u_data u, u_len u, u_host u, u_port_text u, u_uri u, u_port u, u_no_port u).

Inductive host_result (gethostbyname : bytes -> option (list Z)) (host : bytes) (u u' : url) : Prop :=
  | host_any :
      u_listen u = true -> host = [ch "*"] -> u_sockaddr u' = SockIn (htons (u_port u)) INADDR_ANY -> u_wildcard u' = true ->
      u_addrs u' = u_addrs u -> host_result gethostbyname host u u'
  | host_address a :
      ntg_inet_addr host (length host) = Some a -> a <> INADDR_NONE -> u_sockaddr u' = SockIn (htons (u_port u)) a ->
      u_addrs u' = [Addr (SockIn (htons (u_port u)) a) sizeof_sockaddr_in (named host (u_port u))] -> u_naddrs u' = 1 ->
      u_wildcard u' = (a =? INADDR_ANY) || u_wildcard u -> host_result gethostbyname host u u'
  | host_unresolved :
      ntg_inet_addr host (length host) = Some INADDR_NONE -> u_no_resolve u = true -> u_addrs u' = u_addrs u ->
      host_result gethostbyname host u u'
  | host_resolved w ws :
      ntg_inet_addr host (length host) = Some INADDR_NONE -> u_no_resolve u = false -> gethostbyname (host ++ [0]) = Some (w :: ws) ->
      u_sockaddr u' = SockIn (htons (u_port u)) w -> u_addrs u' = map (sock_addr (u_port u)) (w :: ws) ->
      u_naddrs u' = Z.of_nat (length (w :: ws)) -> u_wildcard u' = (w =? INADDR_ANY) || u_wildcard u -> host_result gethostbyname host u u'.

(** The memory and the resolver serve the host. *)
Definition host_served (gethostbyname : bytes -> option (list Z)) (host : bytes) (u : url) (mem : list Z) : Prop :=
  u_no_resolve u = true /\ enough 3 mem \/
  (exists a, ntg_inet_addr host (length host) = Some a /\ a <> INADDR_NONE) /\ enough 3 mem \/
  exists w ws, gethostbyname (host ++ [0]) = Some (w :: ws) /\ enough (4 + 2 * length ws) mem.

Section host.
Context (gethostbyname : bytes -> option (list Z)) (t : bytes) (n : nat) (Hn : (0 < n <= length t)%nat).

Lemma inet_addr_ext (p q : bytes) k : (k <= length p)%nat -> (k <= length q)%nat -> take k p = take k q -> ntg_inet_addr p k = ntg_inet_addr q k.
Proof.
  intros Hp Hq E. unfold ntg_inet_addr. assert (H : forall a v m, inet_loop p k a v m = inet_loop q k a v m); [|by rewrite H].
  revert p q Hp Hq E. induction k as [|k IH]; intros p q Hp Hq E a v m; [done|]. destruct p as [|c p], q as [|d q]; cbn [length] in *; try lia.
  rewrite !firstn_cons in E. injection E as -> E. cbn [inet_loop]. destruct (v >? 255); [done|]. rewrite !(IH p q) by (lia || done). done.
Qed.

Lemma host_inet_addr u : text_of t u -> ntg_inet_addr (u_data u) n = ntg_inet_addr (take n t) (length (take n t)).
Proof using Hn.
  intros Ht. pose proof (text_data t u Ht) as [H1 _]. rewrite length_take_le by lia. apply inet_addr_ext; [lia|rewrite length_take; lia|].
  rewrite (text_take t u) by (done || lia). by rewrite take_take, Nat.min_id.
Qed.

Lemma host_copied u : text_of t u -> ntg_cpystrn (u_data u) (S n) = Some (take n t ++ [0]).
Proof using Hn. intros [H _]. destruct (ntg_cpystrn_correct _ _ (S n) H ltac:(lia)) as (d & -> & -> & _). by rewrite Nat.sub_succ, Nat.sub_0_r. Qed.

Lemma resolve_host_ok mem u :
  text_of t u -> mem_good mem -> 0 <= u_port u < 65536 -> u_host u = (0, Z.of_nat n) ->
  ntg_inet_addr (take n t) (length (take n t)) = Some INADDR_NONE ->
  exists rc u', ntg_inet_resolve_host gethostbyname mem u = Some (rc, u') /\ (rc = NTG_OK \/ rc = NTG_ERROR) /\
    (rc = NTG_OK -> exists w ws, gethostbyname (take n t ++ [0]) = Some (w :: ws) /\
      u' = set_u_addrs (map (sock_addr (u_port u)) (w :: ws)) (Z.of_nat (length (w :: ws))) u) /\
    (forall w ws, gethostbyname (take n t ++ [0]) = Some (w :: ws) -> enough (4 + 2 * length ws) mem -> rc = NTG_OK).
Proof using Hn.
  intros Ht Hm Hp Hh Ha. unfold ntg_inet_resolve_host. rewrite Hh. change (Z.to_nat 0) with 0%nat. rewrite drop_0, Nat2Z.id, (host_inet_addr u Ht), Ha.
  cbn [mbind option_bind]. rewrite Z.eqb_refl. pose proof (fun k => alloc_enough k mem) as N1. step_alloc mem; cbn [fst snd] in N1.
  { eexists _, _. split; [reflexivity|]. split; [by right|]. split; [done|]. intros w ws _ N. by destruct (N1 _ N). }
  replace (Z.to_nat (Z.of_nat n + 1)) with (S n) by lia. rewrite (host_copied u Ht). cbn [mbind option_bind].
  destruct (gethostbyname (take n t ++ [0])) as [[|w ws]|]; [eexists _, _; split; [reflexivity|]; split; [by right|]; split; done| |
    eexists _, _; split; [reflexivity|]; split; [by right|]; split; done].
  pose proof (fun k => alloc_enough k mem') as N2. step_alloc mem'; cbn [fst snd] in N2.
  { eexists _, _. split; [reflexivity|]. split; [by right|]. split; [done|]. intros w' ws' _ N. destruct (N1 _ N) as [_ N']. by destruct (N2 _ N'). }
  destruct (resolve_loop_ok _ (u_port u) (w :: ws) [] H2 Hp) as (rc & l & E & H3 & H4 & H5). rewrite E. cbn [mbind option_bind].
  exists rc. eexists. split; [reflexivity|]. split; [done|]. split.
  - intros Hrc. exists w, ws. split; [done|]. by rewrite H4.
  - intros w' ws' [= <- <-] N. apply H5. destruct (N1 _ N) as [_ N']. destruct (N2 _ N') as [_ N'']. by replace (2 * length (w :: ws))%nat with (2 + 2 * length ws)%nat by (cbn; lia).
Qed.
End host.

(** The test of ntg_parse_inet_url for a host that stands for any. *)
Lemma not_any t n u : (0 < n <= length t)%nat -> text_of t u -> u_listen u = false \/ take n t <> [ch "*"] ->
  (if u_listen u && (Z.of_nat n =? 1) then c ← head (u_data u); Some (if c =? ch "*" then 1 else 0) else Some 0) = Some 0.
Proof.
  intros Hn Ht Hs. pose proof (text_data t u Ht) as [Hlen _]. pose proof (text_take t u n Ht ltac:(lia)) as Htk.
  destruct (u_listen u); [|done]. destruct Hs as [|Hs]; [done|]. destruct (Z.eqb_spec (Z.of_nat n) 1) as [E1|]; [|done].
  replace n with 1%nat in * by lia. destruct (u_data u) as [|c data]; [cbn in Hlen; lia|]. cbn [head mbind option_bind].
  rewrite (proj2 (Z.eqb_neq c (ch "*"))); [done|]. intros ->. apply Hs. rewrite <-Htk. done.
Qed.

Lemma parse_host_address gethostbyname t n mem u a :
  (0 < n <= length t)%nat -> text_of t u -> mem_good mem -> 0 <= u_port u < 65536 ->
  ntg_inet_addr (take n t) (length (take n t)) = Some a -> a <> INADDR_NONE ->
  u_listen u = false \/ take n t <> [ch "*"] ->
  exists rc u', parse_host gethostbyname mem (Z.of_nat n) (htons (u_port u)) u = Some (rc, u') /\ (rc = NTG_OK \/ rc = NTG_ERROR) /\
    (rc = NTG_OK -> host_result gethostbyname (take n t) u u' /\ parts u' = parts (set_u_host (0, Z.of_nat n) u)) /\
    (enough 3 mem -> rc = NTG_OK).
Proof.
  intros Hn Ht Hm Hp Ha Hna Hstar. unfold parse_host. rewrite (proj2 (Z.eqb_neq (Z.of_nat n) 0)) by lia.
  pose proof (text_take t u n Ht ltac:(lia)) as Htk.
  rewrite (not_any t n (set_u_host (0, Z.of_nat n) u) Hn Ht ltac:(tauto)). cbn [mbind option_bind]. change (0 =? 1) with false. cbn match. cbn [u_data set_u_host]. rewrite Nat2Z.id, (host_inet_addr t n Hn u Ht), Ha.
  cbn [mbind option_bind]. rewrite (proj2 (Z.eqb_neq a INADDR_NONE) Hna). cbn [negb].
  pose proof (fun k => alloc_enough k mem) as N1. step_alloc mem; cbn [fst snd] in N1.
  { eexists _, _. split; [reflexivity|]. split; [by right|]. split; [done|]. intros N. by destruct (N1 _ N). }
  pose proof (fun k => alloc_enough k mem') as N2. step_alloc mem'; cbn [fst snd] in N2.
  { eexists _, _. split; [reflexivity|]. split; [by right|]. split; [done|]. intros N. destruct (N1 _ N) as [_ N']. by destruct (N2 _ N'). }
  pose proof (fun k => alloc_enough k mem'0) as N3. step_alloc mem'0; cbn [fst snd] in N3.
  { eexists _, _. split; [reflexivity|]. split; [by right|]. split; [done|]. intros N. destruct (N1 _ N) as [_ N']. destruct (N2 _ N') as [_ N'']. by destruct (N3 _ N''). }
  assert (Hl : Z.of_nat (length (take n t)) < 2 ^ 62) by (rewrite length_take; destruct Ht as (_ & ? & ?); lia).
  destruct (Z.eqb_spec a INADDR_ANY) as [Hany|Hany]; cbn [u_data u_port set_u_wildcard set_u_sock set_u_host];
    rewrite Htk, name_printed by done; cbn [mbind option_bind];
    (eexists _, _; split; [reflexivity|]; split; [by left|]; split; [intros _; split; [|done]; eapply (host_address _ _ _ _ a); try done|done]).
  - cbn. by subst a.
  - cbn. by rewrite (proj2 (Z.eqb_neq a INADDR_ANY) Hany).
Qed.

Lemma parse_host_star gethostbyname t n mem u port :
  (0 < n <= length t)%nat -> text_of t u -> u_listen u = true -> take n t = [ch "*"] ->
  parse_host gethostbyname mem (Z.of_nat n) port u =
  Some (NTG_OK, set_u_wildcard true (set_u_sock (u_family u) (u_socklen u) (SockIn port INADDR_ANY) (set_u_host (0, Z.of_nat n) u))).
Proof.
  intros Hn Ht Hl Hs. assert (n = 1%nat) as -> by (apply (f_equal length) in Hs; rewrite length_take in Hs; cbn in Hs; lia).
  pose proof (text_take t u 1 Ht ltac:(lia)) as Htk. rewrite Hs in Htk. unfold parse_host. cbn [Z.eqb Z.of_nat Pos.of_succ_nat].
  cbn [u_listen set_u_host u_data]. rewrite Hl. destruct (u_data u) as [|c data]; [done|]. injection Htk as ->. done.
Qed.

Lemma parse_host_name gethostbyname t n mem u :
  (0 < n <= length t)%nat -> text_of t u -> mem_good mem -> 0 <= u_port u < 65536 ->
  ntg_inet_addr (take n t) (length (take n t)) = Some INADDR_NONE ->
  exists rc u', parse_host gethostbyname mem (Z.of_nat n) (htons (u_port u)) u = Some (rc, u') /\ (rc = NTG_OK \/ rc = NTG_ERROR) /\
    (rc = NTG_OK -> host_result gethostbyname (take n t) u u' /\ parts u' = parts (set_u_host (0, Z.of_nat n) u)) /\
    (host_served gethostbyname (take n t) u mem -> rc = NTG_OK).
Proof.
  intros Hn Ht Hm Hp Ha.
  destruct (decide (u_listen u = true /\ take n t = [ch "*"])) as [ [Hl Hs]|Hs].
  { rewrite (parse_host_star _ t) by done. eexists _, _. split; [reflexivity|]. split; [by left|]. split; [|done]. intros _. split; [|done]. by apply host_any. }
  unfold parse_host. rewrite (proj2 (Z.eqb_neq (Z.of_nat n) 0)) by lia.
  pose proof (text_take t u n Ht ltac:(lia)) as Htk.
  rewrite (not_any t n (set_u_host (0, Z.of_nat n) u) Hn Ht). 2: { cbn [u_listen set_u_host]. destruct (u_listen u); [right; intros ?; by apply Hs|by left]. }
  cbn [mbind option_bind]. change (0 =? 1) with false. cbn match. cbn [u_data set_u_host].
  rewrite Nat2Z.id, (host_inet_addr t n Hn u Ht), Ha. cbn [mbind option_bind]. rewrite Z.eqb_refl. cbn [negb].
  cbn [u_no_resolve set_u_sock set_u_host]. destruct (u_no_resolve u) eqn:Hnr.
  { eexists _, _. split; [reflexivity|]. split; [by left|]. split; [|done]. intros _. split; [|done]. by apply host_unresolved. }
  match goal with |- context [ntg_inet_resolve_host gethostbyname mem ?x] => set (v := x) end.
  destruct (resolve_host_ok gethostbyname t n Hn mem v Ht Hm Hp eq_refl Ha) as (rc & u' & -> & H1 & H2 & H3). cbn [mbind option_bind].
  destruct (Z.eqb_spec rc NTG_OK) as [->|Hrc]; cbn [negb].
  - destruct (H2 eq_refl) as (w & ws & Eg & ->). cbn [u_addrs set_u_addrs map head mbind option_bind].
    cbn [u_sockaddr set_u_sock sock_addr ad_sockaddr]. eexists _, _. split; [reflexivity|]. split; [by left|]. split; [|done].
    intros _. destruct (Z.eqb_spec w INADDR_ANY) as [Hw|Hw]; (split; [eapply (host_resolved _ _ _ _ w ws); try done|done]).
    + cbn. by subst w.
    + cbn. by rewrite (proj2 (Z.eqb_neq w INADDR_ANY) Hw).
  - eexists _, _. split; [reflexivity|]. split; [by right|]. split; [done|]. intros [ [? _]|[ [ (a & E & Hne) _]|(w & ws & Eg & En)] ].
    + congruence.
    + rewrite Ha in E. by injection E as <-.
    + by destruct (Hrc (H3 _ _ Eg En)).
Qed.

(** The host of a text that is in memory: an answer, and what it is. *)
Lemma parse_host_ok gethostbyname t n mem u :
  (n <= length t)%nat -> text_of t u -> mem_good mem -> 0 <= u_port u < 65536 ->
  exists rc u', parse_host gethostbyname mem (Z.of_nat n) (htons (u_port u)) u = Some (rc, u') /\ (rc = NTG_OK \/ rc = NTG_ERROR) /\
    (rc = NTG_OK -> host_result gethostbyname (take n t) u u' /\ parts u' = parts (set_u_host (0, Z.of_nat n) u)) /\
    ((0 < n)%nat -> host_served gethostbyname (take n t) u mem -> rc = NTG_OK).
Proof.
  intros Hn Ht Hm Hp. destruct n as [|n].
  { eexists _, _. split; [reflexivity|]. split; [by right|]. split; [done|]. lia. }
  destruct (inet_addr_total (take (S n) t) (length (take (S n) t)) ltac:(lia)) as (a & Ha & _).
  destruct (decide (a = INADDR_NONE)) as [->|Hna].
  { destruct (parse_host_name gethostbyname t (S n) mem u ltac:(lia) Ht Hm Hp Ha) as (rc & u' & E & H1 & H2 & H3). by exists rc, u'. }
  destruct (decide (u_listen u = true /\ take (S n) t = [ch "*"])) as [ [Hl Hs]|Hs].
  { rewrite (parse_host_star _ t) by (done || lia). eexists _, _. split; [reflexivity|]. split; [by left|]. split; [|done].
    intros _. split; [|done]. by apply host_any. }
  destruct (parse_host_address gethostbyname t (S n) mem u a ltac:(lia) Ht Hm Hp Ha Hna) as (rc & u' & E & H1 & H2 & H3).
  { destruct (u_listen u); [right; intros E; by destruct Hs|by left]. }
  exists rc, u'. split; [exact E|]. split; [done|]. split; [done|]. intros _ [ [_ He]|[ [_ He]|(w & ws & _ & [He1 He2])] ]; apply H3; [done..|].
  split; [lia|done].
Qed.

(** ** Taking the text apart *)

Lemma strlchr_skip s rest k c : c ∉ s -> ntg_strlchr (s ++ rest) (length s + k) c = option_map (option_map (fun i => length s + i)%nat) (ntg_strlchr rest k c).
Proof.
  induction s as [|d s IH]; intros Hs; cbn [app length Nat.add].
  { destruct (ntg_strlchr rest k c) as [ [i|]|]; done. }
  apply not_elem_of_cons in Hs as [Hd Hs]. cbn [ntg_strlchr]. rewrite (proj2 (Z.eqb_neq d c)) by congruence. rewrite IH by done.
  destruct (ntg_strlchr rest k c) as [ [i|]|]; done.
Qed.

(** A server: a host, its port, it may be, and the rest. *)
Record server (host : bytes) (port : option bytes) (uri : bytes) : Prop := {
  sv_host : ch ":" ∉ host /\ ch "/" ∉ host /\ ch "?" ∉ host;
  sv_port : match port with Some ds => forallb is_digit ds = true /\ ds <> [] | None => True end;
  sv_uri : uri = [] \/ exists c r, uri = c :: r /\ (c = ch "/" \/ c = ch "?") }.

Definition port_part (port : option bytes) : bytes := match port with Some ds => ch ":" :: ds | None => [] end.
Definition server_text (host : bytes) (port : option bytes) (uri : bytes) : bytes := host ++ port_part port ++ uri.

Lemma digits_plain ds c : forallb is_digit ds = true -> is_digit c = false -> c ∉ ds.
Proof. intros Hd Hc H%list_elem_of_In. apply (proj1 (forallb_forall _ _) Hd) in H. congruence. Qed.

Lemma head_part_plain host port uri : server host port uri -> ch "/" ∉ host ++ port_part port /\ ch "?" ∉ host ++ port_part port.
Proof.
  intros [ (H1 & H2 & H3) Hp _]. rewrite !elem_of_app. destruct port as [ds|]; cbn [port_part].
  - destruct Hp as [Hp _]. pose proof (digits_plain ds (ch "/") Hp eq_refl). pose proof (digits_plain ds (ch "?") Hp eq_refl).
    rewrite !elem_of_cons. split; intros [?|[?|?]]; done.
  - split; intros [?|H%elem_of_nil]; done.
Qed.

(** Where the uri starts. *)
Lemma find_uri host port uri rest : server host port uri ->
  exists p, find_parts (server_text host port uri ++ rest) (length (server_text host port uri)) =
    Some (p, match uri with [] => None | _ => Some (length (host ++ port_part port)) end) /\
    ntg_strlchr (server_text host port uri ++ rest) (length (server_text host port uri)) (ch ":") = Some p.
Proof.
  intros S. destruct (head_part_plain _ _ _ S) as [Hs Hq]. unfold find_parts, server_text.
  assert (E : forall c, c ∉ host ++ port_part port -> ntg_strlchr ((host ++ port_part port ++ uri) ++ rest) (length (host ++ port_part port ++ uri)) c =
    option_map (option_map (fun i => length (host ++ port_part port) + i)%nat) (ntg_strlchr (uri ++ rest) (length uri) c)).
  { intros c Hc. rewrite (app_assoc host), <-(app_assoc _ uri), length_app. by apply strlchr_skip. }
  destruct (strlchr_total ((host ++ port_part port ++ uri) ++ rest) (length (host ++ port_part port ++ uri)) (ch ":") ltac:(rewrite (length_app _ rest); lia))
    as (p & -> & _). exists p. split; [|done]. cbn [mbind option_bind]. rewrite !E by done.
  destruct (sv_uri _ _ _ S) as [->|(c & r & -> & Hc)]; [done|].
  assert (T : forall d, exists x, ntg_strlchr ((c :: r) ++ rest) (length (c :: r)) d = Some (if c =? d then Some 0%nat else x) /\ (forall i, x = Some i -> (0 < i)%nat)).
  { intros d. destruct (strlchr_total (r ++ rest) (length r) d ltac:(rewrite length_app; lia)) as (x & Ex & _). exists (shift1 x).
    cbn [app length ntg_strlchr]. rewrite Ex. split; [by destruct (c =? d)|]. destruct x; [|done]. intros i [= <-]. lia. }
  destruct (T (ch "/")) as (x & -> & Hx), (T (ch "?")) as (y & -> & Hy). cbn [option_map mbind option_bind].
  set (k := length (host ++ port_part port)). assert (Hlt : forall j, (0 < j)%nat -> ((k + j <? k)%nat = false) /\ ((k <? k + j)%nat = true))
    by (intros j Hj; split; [apply Nat.ltb_ge|apply Nat.ltb_lt]; lia).
  destruct Hc as [->| ->].
  - change (ch "/" =? ch "/") with true. change (ch "/" =? ch "?") with false. cbn match. cbn [option_map mbind option_bind]. rewrite Nat.add_0_r.
    destruct y as [j|]; cbn [option_map]; [|done]. by rewrite (proj1 (Hlt j (Hy j eq_refl))).
  - change (ch "?" =? ch "/") with false. change (ch "?" =? ch "?") with true. cbn match. cbn [option_map mbind option_bind]. rewrite Nat.add_0_r.
    destruct x as [j|]; cbn [option_map]; [|done]. by rewrite (proj2 (Hlt j (Hx j eq_refl))).
Qed.

(** Where the port starts: a colon behind the start of the uri is none. *)
Lemma find_port host port uri rest p : server host port uri ->
  ntg_strlchr (server_text host port uri ++ rest) (length (server_text host port uri)) (ch ":") = Some p ->
  match port with
  | Some _ => p = Some (length host) /\ (length host < length (host ++ port_part port))%nat
  | None => match p with Some i => uri <> [] /\ (length host < i)%nat | None => True end
  end.
Proof.
  intros S E. destruct (sv_host _ _ _ S) as (Hc & _). unfold server_text in E. rewrite <-app_assoc, length_app, strlchr_skip in E by done.
  destruct port as [ds|]; cbn [port_part] in *.
  - cbn [app length ntg_strlchr] in E. rewrite Z.eqb_refl in E. cbn in E. injection E as <-. rewrite Nat.add_0_r, length_app. cbn [length]. split; [done|lia].
  - cbn [app] in E. destruct (sv_uri _ _ _ S) as [->|(c & r & -> & Hr)]; cbn [app length ntg_strlchr] in E; [by injection E as <-|].
    assert (c =? ch ":" = false) as Ec by (destruct Hr as [->| ->]; done). rewrite Ec in E.
    destruct (ntg_strlchr (r ++ rest) (length r) (ch ":")) as [ [i|]|]; cbn in E; [|by injection E as <-|done]. injection E as <-. split; [done|lia].
Qed.

(** ** Any text gets an answer *)

Lemma find_parts_total t u : text_of t u ->
  exists port uri, find_parts (u_data u) (length t) = Some (port, uri) /\
    (forall p, port = Some p -> (p < length t)%nat /\ t !! p = Some (ch ":")) /\
    (forall i, uri = Some i -> (i < length t)%nat /\ (t !! i = Some (ch "/") \/ t !! i = Some (ch "?"))).
Proof.
  intros Ht. destruct (text_data t u Ht) as [Hl E].
  assert (L : forall i c, (i < length t)%nat -> u_data u !! i = Some c -> t !! i = Some c) by (intros i c Hi <-; rewrite <-E; by apply lookup_take_lt).
  unfold find_parts.
  destruct (strlchr_total (u_data u) (length t) (ch ":") ltac:(lia)) as (a & -> & Ha & _).
  destruct (strlchr_total (u_data u) (length t) (ch "/") ltac:(lia)) as (b & -> & Hb & _).
  destruct (strlchr_total (u_data u) (length t) (ch "?") ltac:(lia)) as (c & -> & Hc & _). cbn [mbind option_bind].
  eexists _, _. split; [reflexivity|]. split.
  - intros p Hp. destruct (Ha p Hp) as (? & ? & _). split; [done|by apply L].
  - intros i Hi. assert (H : b = Some i \/ c = Some i).
    { destruct b as [j|], c as [k|]; [destruct (k <? j)%nat|..]; tauto. }
    destruct H as [H|H]; [destruct (Hb i H) as (? & ? & _)|destruct (Hc i H) as (? & ? & _)]; (split; [done|]); [left|right]; by apply L.
Qed.

(** A port that was read. *)
Lemma port_read t u p len : text_of t u -> (p + len <= length t)%nat ->
  exists n, ntg_atoi (drop p (u_data u)) len = Some n.
Proof. intros Ht Hp. destruct (text_data t u Ht) as [Hl _]. apply atoi_total. rewrite length_drop. lia. Qed.

Lemma parse_inet_total gethostbyname mem t u :
  text_of t u -> mem_good mem -> 0 <= u_default_port u < 65536 ->
  exists rc u', ntg_parse_inet_url gethostbyname mem u = Some (rc, u') /\ (rc = NTG_OK \/ rc = NTG_ERROR).
Proof.
  intros Ht Hm Hd. unfold ntg_parse_inet_url. cbn [u_data u_len set_u_sock].
  destruct Ht as (H1 & H2 & H3). assert (Ht : text_of t u) by done. rewrite H2, Nat2Z.id.
  destruct (find_parts_total t u Ht) as (port & uri & -> & Hport & Huri). cbn [mbind option_bind].
  destruct (match uri with Some _ => u_listen (set_u_sock AF_INET sizeof_sockaddr_in (SockIn 0 0) u) || _ | None => false end);
    [by eexists _, _; split; [reflexivity|right]|].
  set (last := match uri with Some i => Z.of_nat i | None => Z.of_nat (length t) end).
  set (v := match uri with Some i => set_u_uri (Z.of_nat i, Z.of_nat (length t) - Z.of_nat i) _ | None => _ end).
  assert (Hv : u_data v = u_data u /\ u_len v = u_len u /\ u_default_port v = u_default_port u) by (subst v; by destruct uri). destruct Hv as (Dv & Lv & Pv).
  assert (Htv : text_of t v) by (split; [by rewrite Dv|by rewrite Lv]).
  assert (Hlast : 0 <= last <= Z.of_nat (length t)) by (subst last; destruct uri as [i|]; [destruct (Huri i eq_refl)|]; lia).
  assert (Hp : forall p, match uri with Some i => match port with Some p => if (i <? p)%nat then None else Some p | None => None end | None => port end = Some p ->
    Z.of_nat p + 1 <= last /\ (p < length t)%nat).
  { intros p Hp. subst last. destruct uri as [i|].
    - destruct port as [q|]; [|done]. destruct (Nat.ltb_spec i q); [done|]. injection Hp as <-. destruct (Hport q eq_refl) as [Hq Eq], (Huri i eq_refl) as [Hi Ei].
      assert (i <> q) by (intros ->; rewrite Eq in Ei; by destruct Ei). lia.
    - destruct (Hport p Hp). lia. }
  replace (match uri with Some i => match port with Some p => if (i <? p)%nat then None else Some p | None => port end | None => port end)
    with (match uri with Some i => match port with Some p => if (i <? p)%nat then None else Some p | None => None end | None => port end)
    by (destruct uri; [by destruct port|done]).
  destruct (match uri with Some i => match port with Some p => if (i <? p)%nat then None else Some p | None => None end | None => port end) as [p|].
  - destruct (Hp p eq_refl) as [Hp1 Hp2].
    destruct (port_read t v (S p) (Z.to_nat (last - (Z.of_nat p + 1))) Htv ltac:(lia)) as (n & ->).
    cbn [mbind option_bind]. destruct ((n <? 1) || (n >? 65535)) eqn:En; [by eexists _, _; split; [reflexivity|right]|].
    destruct (parse_host_ok gethostbyname t p mem (set_u_port n (Z.of_nat p + 1, last - (Z.of_nat p + 1)) v) ltac:(lia) Htv Hm ltac:(cbn; lia)) as (rc & u' & E & Hrc & _).
    exists rc, u'. split; [exact E|done].
  - assert (Hn : exists n, (if match uri with None => u_listen v | Some _ => false end then ntg_atoi (u_data v) (Z.to_nat last) else Some NTG_ERROR) = Some n).
    { destruct (match uri with None => u_listen v | Some _ => false end); [|by eexists]. destruct (port_read t v 0 (Z.to_nat last) Htv ltac:(lia)) as (n & E). exists n. exact E. }
    destruct Hn as (n & ->). cbn [mbind option_bind]. destruct (negb (n =? NTG_ERROR)).
    + destruct ((n <? 1) || (n >? 65535)); eexists _, _; (split; [reflexivity|]); [by right|by left].
    + destruct (parse_host_ok gethostbyname t (Z.to_nat last) mem (set_u_no_port v) ltac:(lia) Htv Hm ltac:(cbn; lia)) as (rc & u' & E & Hrc & _).
      rewrite Z2Nat.id in E by lia. cbn [u_port set_u_no_port] in E. exists rc, u'. split; [exact E|done].
Qed.

(** ** Local sockets *)

(** The result for a path and what follows it, the colon included. *)
Definition local_result (t path uri : bytes) (u u' : url) : Prop :=
  u_host u' = (5, Z.of_nat (length path)) /\ u_family u' = AF_UNIX /\ u_naddrs u' = 1 /\
  u_uri u' = (if uri then u_uri u else (6 + Z.of_nat (length path), Z.of_nat (length uri) - 1)) /\
  u_addrs u' = [Addr (SockUn (path ++ repeat 0 (108 - length path))) sizeof_sockaddr_un (take 5 t ++ path)].

Lemma sun_path_ok t u path uri : text_of t u -> (5 <= length t)%nat -> drop 5 t = path ++ uri -> (length path < 108)%nat ->
  sun_path (drop 5 (u_data u)) (Z.of_nat (length path) + 1) = Some (path ++ repeat 0 (108 - length path)).
Proof.
  intros [ [ [r Er] Hpos] _] H5 E Hl. unfold sun_path. replace (Z.to_nat (Z.of_nat (length path) + 1)) with (S (length path)) by lia.
  assert (Hc : is_cstr (drop 5 (u_data u)) (drop 5 t)).
  { split; [|by apply Forall_drop]. exists r. by rewrite Er, drop_app_le by done. }
  destruct (ntg_cpystrn_correct _ _ (S (length path)) Hc ltac:(lia)) as (d & -> & -> & _).
  rewrite Nat.sub_succ, Nat.sub_0_r, E, take_app_length. cbn [mbind option_bind]. rewrite length_app, <-app_assoc. cbn [length].
  do 2 f_equal. replace (108 - length path)%nat with (S (108 - (length path + 1))) by lia. done.
Qed.

(** The text is cut at the first colon of the path, when a uri may follow. *)
Lemma local_parts t u : text_of t u -> (5 <= length t)%nat ->
  exists path uri, drop 5 t = path ++ uri /\ (uri = [] \/ u_uri_part u = true /\ head uri = Some (ch ":")) /\ (u_uri_part u = true -> ch ":" ∉ path) /\
    (if u_uri_part u then
       uri ← ntg_strlchr (drop 5 (u_data u)) (Z.to_nat (u64 (u_len u - 5))) (ch ":");
       Some match uri with
            | Some i => (Z.of_nat i, set_u_uri (5 + Z.of_nat i + 1, u64 (u_len u - 5) - (Z.of_nat i + 1)) u)
            | None => (u64 (u_len u - 5), u)
            end
     else Some (u64 (u_len u - 5), u)) =
    Some (Z.of_nat (length path), if uri then u else set_u_uri (6 + Z.of_nat (length path), Z.of_nat (length uri) - 1) u).
Proof.
  intros Ht H5. destruct (text_data t u Ht) as [Hl E]. destruct Ht as (_ & Hlen & H31). rewrite u64_small by (width; lia).
  assert (Hd : length (drop 5 t) = (length t - 5)%nat) by apply length_drop.
  destruct (u_uri_part u) eqn:Hu.
  2: { exists (drop 5 t), []. rewrite app_nil_r. split; [done|]. split; [by left|]. split; [done|]. do 2 f_equal. lia. }
  replace (Z.to_nat (u_len u - 5)) with (length t - 5)%nat by lia.
  destruct (strlchr_total (drop 5 (u_data u)) (length t - 5) (ch ":") ltac:(rewrite length_drop; lia)) as (r & -> & Hr & Hn). cbn [mbind option_bind].
  assert (Et : take (length t - 5) (drop 5 (u_data u)) = drop 5 t) by (rewrite take_drop_commute; by replace (5 + (length t - 5))%nat with (length t) by lia; rewrite E).
  destruct r as [i|].
  - destruct (Hr i eq_refl) as (Hi & Hc & Hp). exists (take i (drop 5 t)), (drop i (drop 5 t)). rewrite take_drop.
    assert (Hci : drop 5 t !! i = Some (ch ":")) by (rewrite <-Et; by rewrite lookup_take_lt). rewrite (drop_S _ _ _ Hci).
    split; [done|]. split; [by right|]. split; [intros _; by rewrite <-Et, take_take, Nat.min_l by lia|]. rewrite length_take, Hd.
    cbn [length]. rewrite length_drop, Hd, Nat.min_l by lia. replace (5 + Z.of_nat i + 1) with (6 + Z.of_nat i) by lia.
    replace (u_len u - 5 - (Z.of_nat i + 1)) with (Z.of_nat (S (length t - 5 - S i)) - 1) by lia. done.
  - exists (drop 5 t), []. rewrite app_nil_r. split; [done|]. split; [by left|]. split; [intros _; rewrite <-Et; by apply Hn|]. do 2 f_equal. lia.
Qed.

Lemma parse_unix_ok mem t u :
  text_of t u -> (5 <= length t)%nat -> mem_good mem ->
  exists rc u', ntg_parse_unix_domain_url mem u = Some (rc, u') /\ (rc = NTG_OK \/ rc = NTG_ERROR) /\
    (rc = NTG_OK -> exists path uri, drop 5 t = path ++ uri /\ (u_uri_part u = true -> ch ":" ∉ path) /\
       (uri = [] \/ u_uri_part u = true /\ head uri = Some (ch ":")) /\ (0 < length path < 108)%nat /\ local_result t path uri u u').
Proof.
  intros Ht H5 Hm. destruct (local_parts t u Ht H5) as (path & uri & E & Hu & Hp & E1). unfold ntg_parse_unix_domain_url. rewrite E1. cbn [mbind option_bind].
  set (v := if uri then u else _). assert (Hv : u_data v = u_data u /\ u_uri v = if uri then u_uri u else (6 + Z.of_nat (length path), Z.of_nat (length uri) - 1))
    by (subst v; by destruct uri). destruct Hv as [Dv Uv]. clearbody v.
  destruct (Z.eqb_spec (Z.of_nat (length path)) 0) as [H0|H0]; [by eexists _, _; split; [reflexivity|split; [right|]]|].
  assert (Hlp : (length path <= length t)%nat) by (apply (f_equal length) in E; rewrite length_app, length_drop in E; lia).
  assert (Hlt : Z.of_nat (length t) < 2 ^ 31) by (destruct Ht as (_ & ? & ?); lia).
  rewrite u64_small by (width; lia).
  destruct (Z.gtb_spec (Z.of_nat (length path) + 1) 108); [by eexists _, _; split; [reflexivity|split; [right|]]|].
  cbn [u_data set_u_host]. rewrite ?Dv. rewrite (sun_path_ok t u path uri) by (done || lia). cbn [mbind option_bind].
  step_alloc mem; [by eexists _, _; split; [reflexivity|split; [right|]]|].
  step_alloc mem'; [by eexists _, _; split; [reflexivity|split; [right|]]|].
  eexists _, _. split; [reflexivity|]. split; [by left|]. intros _. exists path, uri. split_and!; try done; [lia|lia|].
  unfold local_result. cbn. split_and!; try done. do 2 f_equal. rewrite ?Dv. replace (Z.to_nat (Z.of_nat (length path) + 1 + 4)) with (5 + length path)%nat by lia.
  rewrite (text_take t u) by (done || (apply (f_equal length) in E; rewrite length_app, length_drop in E; lia)).
  by rewrite <-take_take_drop, E, take_app_length.
Qed.

(** ** The claims *)

Definition unix_scheme : bytes := str "unix:".

Lemma scheme_tested t u : text_of t u ->
  exists v, ntg_strncasecmp (u_data u) (str "unix:" ++ [0]) 5 = Some v /\ (v = 0 <-> same_nocase (take 5 t) unix_scheme) /\ (v = 0 -> (5 <= length t)%nat).
Proof.
  intros [H _]. destruct (ntg_strncasecmp_correct 5 (u_data u) (str "unix:" ++ [0]) t (str "unix:") H) as (v & E & Hv).
  { split; [by exists []|]. repeat constructor. }
  exists v. split; [done|]. split; [done|]. intros Hv0. apply Hv in Hv0. apply (f_equal length) in Hv0. rewrite !length_map, length_take in Hv0.
  change (length (take 5 (str "unix:"))) with 5%nat in Hv0. lia.
Qed.

(** Every text of a server, whatever it holds, is answered without a read outside
    of it, also when there is no memory or no address. *)
Theorem parse_url_total gethostbyname mem t u :
  text_of t u -> mem_good mem -> 0 <= u_default_port u < 65536 ->
  exists rc u', ntg_parse_url gethostbyname mem u = Some (rc, u') /\ (rc = NTG_OK \/ rc = NTG_ERROR).
Proof.
  intros Ht Hm Hd. unfold ntg_parse_url. destruct (scheme_tested t u Ht) as (v & -> & _ & H5). cbn [mbind option_bind].
  destruct (Z.eqb_spec v 0) as [Hv|Hv].
  - destruct (parse_unix_ok mem t u Ht (H5 Hv) Hm) as (rc & u' & E & Hrc & _). by exists rc, u'.
  - pose proof (text_data t u Ht) as [Hl _]. destruct (u_data u) as [|c data] eqn:Eu; [cbn in Hl; lia|]. cbn [head mbind option_bind].
    destruct (c =? ch "["); [by eexists _, _; split; [reflexivity|right]|]. by apply (parse_inet_total gethostbyname mem t).
Qed.

(** The number of the port, and the object before its host is looked at. *)
Definition port_number (default : Z) (port : option bytes) : Z := match port with Some ds => dec_value ds | None => default end.

Definition split_url (host : bytes) (port : option bytes) (uri : bytes) (u : url) : url :=
  let u := set_u_sock AF_INET sizeof_sockaddr_in (SockIn 0 0) u in
  let u := match uri with [] => u | _ => set_u_uri (Z.of_nat (length (host ++ port_part port)), Z.of_nat (length uri)) u end in
  match port with
  | Some ds => set_u_port (dec_value ds) (Z.of_nat (length host) + 1, Z.of_nat (length ds)) u
  | None => set_u_no_port u
  end.

(** The text is one that the object may hold. *)
Definition server_allowed (host : bytes) (port : option bytes) (uri : bytes) (u : url) : Prop :=
  (uri <> [] -> u_listen u = false /\ u_uri_part u = true) /\
  match port with
  | Some ds => 1 <= dec_value ds <= 65535
  | None => 0 <= u_default_port u < 65536 /\ (u_listen u = true -> uri = [] -> forallb is_digit host = false)
  end.

Lemma port_digits t u host port uri ds : text_of t u -> t = server_text host port uri -> port = Some ds -> server host port uri -> 1 <= dec_value ds <= 65535 ->
  ntg_atoi (drop (S (length host)) (u_data u)) (length ds) = Some (dec_value ds).
Proof.
  intros [ [ [r Er] _] _] -> -> S Hv. rewrite Er. unfold server_text, port_part. rewrite <-app_assoc. cbn [app].
  rewrite drop_app_ge by lia. replace (Datatypes.S (length host) - length host)%nat with 1%nat by lia. cbn [drop]. rewrite <-app_assoc.
  destruct (sv_port _ _ _ S) as [Hd Hne]. assert (Hl : (0 < length ds <= length (ds ++ uri ++ 0%Z :: r))%nat) by (rewrite length_app; destruct ds; [done|cbn; lia]).
  destruct (ntg_atoi_correct _ _ Hl) as (_ & E & _). rewrite take_app_length in E. apply E; [done|]. width. lia.
Qed.

Lemma not_a_port t u : text_of t u -> forallb is_digit t = false -> ntg_atoi (u_data u) (length t) = Some NTG_ERROR.
Proof.
  intros Ht H. pose proof (text_data t u Ht) as [Hl E]. assert (Hp : (0 < length t <= length (u_data u))%nat) by (destruct t; [done|cbn in *; lia]).
  destruct (ntg_atoi_correct _ _ Hp) as (H1 & _). apply H1. by rewrite E.
Qed.

Lemma server_parsed gethostbyname mem host port uri u :
  server host port uri -> text_of (server_text host port uri) u -> server_allowed host port uri u ->
  ntg_parse_inet_url gethostbyname mem u =
  parse_host gethostbyname mem (Z.of_nat (length host)) (htons (u_port (split_url host port uri u))) (split_url host port uri u).
Proof.
  intros V Ht [Hu Hp]. unfold ntg_parse_inet_url. cbn [u_data u_len set_u_sock].
  destruct Ht as (Hc & Hlen & H31). assert (Ht : text_of (server_text host port uri) u) by done. destruct Hc as [ [r Er] _]. rewrite Hlen, Nat2Z.id.
  destruct (find_uri host port uri (0 :: r) V) as (p & E1 & E2). rewrite Er, E1. cbn [mbind option_bind].
  pose proof (find_port host port uri (0 :: r) p V E2) as Hport.
  assert (Hguard : match (match uri with [] => None | _ => Some (length (host ++ port_part port)) end) with
    | Some _ => u_listen (set_u_sock AF_INET sizeof_sockaddr_in (SockIn 0 0) u) || negb (u_uri_part (set_u_sock AF_INET sizeof_sockaddr_in (SockIn 0 0) u))
    | None => false end = false).
  { destruct uri; [done|]. destruct (Hu ltac:(done)) as [E3 E4]. cbn. by rewrite E3, E4. }
  rewrite Hguard. clear Hguard.
  assert (El : Z.of_nat (length (server_text host port uri)) = Z.of_nat (length (host ++ port_part port)) + Z.of_nat (length uri))
    by (unfold server_text; rewrite app_assoc, (length_app _ uri); lia).
  destruct port as [ds|].
  - destruct Hport as [-> Hlt]. cbn [port_part] in *. assert (Hds : length (host ++ ch ":" :: ds) = S (length host + length ds)) by (rewrite length_app; cbn; lia).
    assert (Ea : ntg_atoi (drop (S (length host)) (u_data u)) (length ds) = Some (dec_value ds)) by (by apply (port_digits (server_text host (Some ds) uri) u host (Some ds) uri)).
    destruct uri as [|c uri].
    + cbn [u_data set_u_sock]. rewrite El, Z.add_0_r. replace (Z.to_nat _) with (length ds) by lia. rewrite Ea. cbn [mbind option_bind].
      replace ((dec_value ds <? 1) || (dec_value ds >? 65535)) with false by lia. unfold split_url. cbn [u_port set_u_port]. repeat f_equal. lia.
    + rewrite (proj2 (Nat.ltb_ge _ _)) by lia. cbn [u_data set_u_sock set_u_uri]. replace (Z.to_nat _) with (length ds) by lia. rewrite Ea.
      cbn [mbind option_bind]. replace ((dec_value ds <? 1) || (dec_value ds >? 65535)) with false by lia. unfold split_url. cbn [u_port set_u_port].
      rewrite El. cbn [port_part]. replace (Z.of_nat (length (host ++ ch ":" :: ds)) + Z.of_nat (length (c :: uri)) - Z.of_nat (length (host ++ ch ":" :: ds)))
        with (Z.of_nat (length (c :: uri))) by lia. repeat f_equal. lia.
  - cbn [port_part] in *. rewrite app_nil_r in *. destruct Hp as [Hp Hnum]. destruct uri as [|c uri].
    + destruct p as [i|]; [by destruct Hport|]. cbn [u_listen u_data set_u_sock].
      assert (Ea : (if u_listen u then ntg_atoi (u_data u) (Z.to_nat (Z.of_nat (length (server_text host None [])))) else Some NTG_ERROR) = Some NTG_ERROR).
      { destruct (u_listen u) eqn:Hl; [|done]. rewrite Nat2Z.id. apply not_a_port; [done|]. unfold server_text. cbn [port_part app]. rewrite app_nil_r. by apply Hnum. }
      rewrite Ea. cbn [mbind option_bind]. change (negb (NTG_ERROR =? NTG_ERROR)) with false. cbn match. rewrite El, Z.add_0_r. done.
    + cbn [mbind option_bind]. assert (E5 : match p with Some p => if (length host <? p)%nat then None else Some p | None => p end = None).
      { destruct p as [i|]; [|done]. destruct Hport as [_ Hi]. by rewrite (proj2 (Nat.ltb_lt _ _)). }
      rewrite E5. change (negb (NTG_ERROR =? NTG_ERROR)) with false. cbn match. rewrite El. unfold split_url. cbn [port_part]. rewrite app_nil_r.
      replace (Z.of_nat (length host) + Z.of_nat (length (c :: uri)) - Z.of_nat (length host)) with (Z.of_nat (length (c :: uri))) by lia. done.
Qed.

(** C26: The text of a server is taken apart as it was put together: the host, the
    port, given or the usual one, and the uri; a host that is an address gets this
    address, any other host the addresses it is resolved to, each with the port and a
    name that shows both.  With memory and an answer of the resolver nothing is
    refused. *)
Theorem parse_server_correct gethostbyname mem host port uri u :
  server host port uri -> text_of (server_text host port uri) u -> server_allowed host port uri u -> mem_good mem ->
  ~ same_nocase (take 5 (server_text host port uri)) unix_scheme -> head (server_text host port uri) <> Some (ch "[") ->
  exists rc u', ntg_parse_url gethostbyname mem u = Some (rc, u') /\ (rc = NTG_OK \/ rc = NTG_ERROR) /\
    (rc = NTG_OK -> host_result gethostbyname host (split_url host port uri u) u' /\
       parts u' = parts (set_u_host (0, Z.of_nat (length host)) (split_url host port uri u))) /\
    (host <> [] -> host_served gethostbyname host (split_url host port uri u) mem -> rc = NTG_OK).
Proof.
  intros V Ht Ha Hm Hx Hb. unfold ntg_parse_url. destruct (scheme_tested _ u Ht) as (v & -> & Hv & _). cbn [mbind option_bind].
  rewrite (proj2 (Z.eqb_neq v 0)) by tauto.
  assert (Hh : exists c, head (u_data u) = Some c /\ c <> ch "[").
  { destruct Ht as ([ [r ->] _] & _). destruct (server_text host port uri) as [|c t]; [by exists 0|]. exists c. split; [done|]. cbn in Hb. congruence. }
  destruct Hh as (c & -> & Hc). cbn [mbind option_bind]. rewrite (proj2 (Z.eqb_neq c _)) by done.
  rewrite (server_parsed gethostbyname mem host port uri u V Ht Ha). set (w := split_url host port uri u).
  assert (Hw : u_data w = u_data u /\ u_len w = u_len u /\ 0 <= u_port w < 65536).
  { destruct Ha as [_ Ha]. unfold w, split_url. destruct uri, port; cbn in *; (split; [done|]); (split; [done|lia]). }
  destruct Hw as (Dw & Lw & Pw). assert (Htw : text_of (server_text host port uri) w) by (destruct Ht; split; [by rewrite Dw|by rewrite Lw]).
  assert (Htk : take (length host) (server_text host port uri) = host) by apply take_app_length.
  destruct (parse_host_ok gethostbyname (server_text host port uri) (length host) mem w) as (rc & u' & E & H1 & H2 & H3); [|done..|].
  { unfold server_text. rewrite length_app. lia. }
  rewrite Htk in H2, H3. exists rc, u'. split; [exact E|]. split; [done|]. split; [done|]. intros Hne. apply H3. destruct host; [done|cbn; lia].
Qed.

(** ** Examples *)

Definition url_of (s : string) (listen : bool) : url :=
  Url (str s ++ [0]) (Z.of_nat (length (str s))) (0, 0) (0, 0) (0, 0) 0 80 0 listen (negb listen) false false false 0 (SockIn 0 0) [] 0 [].

Definition no_host (name : bytes) : option (list Z) := None.

Example url_with_port :
  exists u, ntg_parse_url no_host [64; 128; 256] (url_of "10.0.0.1:8080/x?y" false) = Some (NTG_OK, u) /\
    (u_host u, u_port u, u_uri u) = ((0, 8), 8080, (13, 4)) /\ u_addrs u = [Addr (SockIn (htons 8080) (word_of 10 0 0 1)) 16 (str "10.0.0.1:8080")].
Proof. eexists. split; [vm_compute; reflexivity|done]. Qed.

Example url_of_local_socket :
  exists u, ntg_parse_url no_host [64; 128] (url_of "unix:/tmp/s:/x" false) = Some (NTG_OK, u) /\
    (u_host u, u_uri u) = ((5, 6), (12, 2)) /\ ad_name <$> u_addrs u = [str "unix:/tmp/s"].
Proof. eexists. split; [vm_compute; reflexivity|done]. Qed.

Lemma example_text s listen : Forall (fun c => 0 < c) (str s) -> Z.of_nat (length (str s)) < 2 ^ 31 -> text_of (str s) (url_of s listen).
Proof. intros H1 H2. split; [|done]. split; [by exists []|done]. Qed.

Lemma parse_url_total_witness :
  exists rc u', ntg_parse_url no_host [64] (url_of "unix:" false) = Some (rc, u') /\ (rc = NTG_OK \/ rc = NTG_ERROR).
Proof.
  apply (parse_url_total no_host [64] (str "unix:")); [apply example_text; [repeat constructor|done]|repeat constructor; lia|cbn; lia].
Defined.

Definition example_hosts (name : bytes) : option (list Z) := Some [word_of 10 0 0 7; word_of 10 0 0 8].

Lemma parse_server_correct_witness :
  exists rc u', ntg_parse_url example_hosts [64; 128; 192; 256; 320; 384] (url_of "www.ntrig.org:8080/index?x" false) = Some (rc, u') /\ rc = NTG_OK /\
    host_result example_hosts (str "www.ntrig.org") (split_url (str "www.ntrig.org") (Some (str "8080")) (str "/index?x") (url_of "www.ntrig.org:8080/index?x" false)) u'.
Proof.
  destruct (parse_server_correct example_hosts [64; 128; 192; 256; 320; 384] (str "www.ntrig.org") (Some (str "8080")) (str "/index?x")
    (url_of "www.ntrig.org:8080/index?x" false)) as (rc & u' & E & _ & H2 & H3).
  - split; [split_and!; refine (bool_decide_unpack _ _); by vm_compute|by split|right; by exists (ch "/"), (str "index?x"); split; [|left]].
  - apply (example_text "www.ntrig.org:8080/index?x"); [repeat constructor|done].
  - split; [by split|]. by vm_compute.
  - repeat constructor; lia.
  - by vm_compute.
  - by vm_compute.
  - exists rc, u'. split; [exact E|]. assert (Hrc : rc = NTG_OK).
    { apply H3; [done|]. right. right. exists (word_of 10 0 0 7), [word_of 10 0 0 8]. split; [done|]. split; [cbn; lia|]. repeat constructor; lia. }
    split; [exact Hrc|exact (proj1 (H2 Hrc))].
Defined.

Example server_resolved :
  exists u, ntg_parse_url example_hosts [64; 128; 192; 256; 320; 384] (url_of "www.ntrig.org:8080/index?x" false) = Some (NTG_OK, u) /\
    u_addrs u = map (sock_addr 8080) [word_of 10 0 0 7; word_of 10 0 0 8].
Proof. eexists. split; [vm_compute; reflexivity|by vm_compute]. Qed.
