(* ===== verification/Options.v ===== *)
(** * The command line (src/ntrig.c)

    [ntg_get_options] runs over the arguments and their letters, [ntg_save_argv]
    copies them, and [ntg_process_options] turns them into the paths of the cycle.
    An argument is a string of memory with its NUL; [argv] ends in a null pointer. *)

From S2P Require Import Prelude NtgString.

(** The static variables of ntrig.c that the options set. *)
Record options := Options {
  o_show_help : bool; o_show_version : bool; o_show_configure : bool; o_test_config : bool; o_quiet_mode : bool;
  o_prefix : option bytes; o_conf_file : option bytes; o_conf_params : option bytes; o_url_file : option bytes;
  o_signal : option bytes; o_signaller : bool }.

Definition no_options : options := Options false false false false false None None None None None false.

Definition set_help o := Options true true (o_show_configure o) (o_test_config o) (o_quiet_mode o) (o_prefix o) (o_conf_file o) (o_conf_params o) (o_url_file o) (o_signal o) (o_signaller o).
Definition set_version o := Options (o_show_help o) true (o_show_configure o) (o_test_config o) (o_quiet_mode o) (o_prefix o) (o_conf_file o) (o_conf_params o) (o_url_file o) (o_signal o) (o_signaller o).
Definition set_configure o := Options (o_show_help o) true true (o_test_config o) (o_quiet_mode o) (o_prefix o) (o_conf_file o) (o_conf_params o) (o_url_file o) (o_signal o) (o_signaller o).
Definition set_test o := Options (o_show_help o) (o_show_version o) (o_show_configure o) true (o_quiet_mode o) (o_prefix o) (o_conf_file o) (o_conf_params o) (o_url_file o) (o_signal o) (o_signaller o).
Definition set_quiet o := Options (o_show_help o) (o_show_version o) (o_show_configure o) (o_test_config o) true (o_prefix o) (o_conf_file o) (o_conf_params o) (o_url_file o) (o_signal o) (o_signaller o).
Definition set_prefix v o := Options (o_show_help o) (o_show_version o) (o_show_configure o) (o_test_config o) (o_quiet_mode o) (Some v) (o_conf_file o) (o_conf_params o) (o_url_file o) (o_signal o) (o_signaller o).
Definition set_conf_file v o := Options (o_show_help o) (o_show_version o) (o_show_configure o) (o_test_config o) (o_quiet_mode o) (o_prefix o) (Some v) (o_conf_params o) (o_url_file o) (o_signal o) (o_signaller o).
Definition set_conf_params v o := Options (o_show_help o) (o_show_version o) (o_show_configure o) (o_test_config o) (o_quiet_mode o) (o_prefix o) (o_conf_file o) (Some v) (o_url_file o) (o_signal o) (o_signaller o).
Definition set_url_file v o := Options (o_show_help o) (o_show_version o) (o_show_configure o) (o_test_config o) (o_quiet_mode o) (o_prefix o) (o_conf_file o) (o_conf_params o) (Some v) (o_signal o) (o_signaller o).
Definition set_signal v o := Options (o_show_help o) (o_show_version o) (o_show_configure o) (o_test_config o) (o_quiet_mode o) (o_prefix o) (o_conf_file o) (o_conf_params o) (o_url_file o) (Some v) (o_signaller o).
Definition set_signaller o := Options (o_show_help o) (o_show_version o) (o_show_configure o) (o_test_config o) (o_quiet_mode o) (o_prefix o) (o_conf_file o) (o_conf_params o) (o_url_file o) (o_signal o) true.

(** [strcmp] of the C library, its sign. *)
Fixpoint strcmp (s1 s2 : bytes) : option Z :=
  match s1, s2 with
  | c1 :: s1, c2 :: s2 => if negb (c1 =? c2) then Some (c1 - c2) else if c1 =? 0 then Some 0 else strcmp s1 s2
  | _, _ => None
  end.

(** [argv[i]]: behind the arguments lies the null pointer. *)
Definition argv_at (argv : list bytes) (i : nat) : option (option bytes) :=
  if (i <? length argv)%nat then Some (argv !! i) else if (i =? length argv)%nat then Some None else None.

(** The value of an option: the rest of the argument, or the next argument. *)
Definition option_value (argv : list bytes) (p : bytes) (i : nat) : option (option bytes * nat) :=
  c ← head p;
  if negb (c =? 0) then Some (Some p, i) else v ← argv_at argv (S i); Some (v, S i).

Fixpoint signal_known (names : list bytes) (s : bytes) : option bool :=
  match names with
  | [] => Some false
  | n :: names => d ← strcmp s (n ++ [0]); if d =? 0 then Some true else signal_known names s
  end.

Definition signal_names : list bytes := [str "stop"; str "quit"; str "add"; str "reload"].

(** What the letter [c] does with its value. *)
Definition given (c : Z) (v : bytes) (o : options) : option (Z * options) :=
  if c =? ch "p" then Some (NTG_OK, set_prefix v o)
  else if c =? ch "c" then Some (NTG_OK, set_conf_file v o)
  else if c =? ch "g" then Some (NTG_OK, set_conf_params v o)
  else if c =? ch "f" then Some (NTG_OK, set_url_file v o)
  else
    let o := set_signal v o in
    match signal_known signal_names v with
    | None => None
    | Some true => Some (NTG_OK, set_signaller o)
    | Some false => Some (NTG_ERROR, o)
    end.

(** The loop over the letters of argument [i]. *)
Fixpoint letters (argv : list bytes) (p : bytes) (i : nat) (o : options) : option (Z * nat * options) :=
  match p with
  | [] => None
  | c :: p =>
      if c =? 0 then Some (NTG_OK, i, o)
      else if (c =? ch "?") || (c =? ch "h") then letters argv p i (set_help o)
      else if c =? ch "v" then letters argv p i (set_version o)
      else if c =? ch "V" then letters argv p i (set_configure o)
      else if c =? ch "t" then letters argv p i (set_test o)
      else if c =? ch "q" then letters argv p i (set_quiet o)
      else if (c =? ch "p") || (c =? ch "c") || (c =? ch "g") || (c =? ch "s") || (c =? ch "f") then
        match option_value argv p i with
        | None => None
        | Some (None, i) => Some (NTG_ERROR, i, o)
        | Some (Some v, i) => '(rc, o) ← given c v o; Some (rc, i, o)
        end
      else Some (NTG_ERROR, i, o)
  end.

(** The loop over the arguments from [i] on, at most [n] of them. *)
Fixpoint get_options (argv : list bytes) (n i : nat) (o : options) : option (Z * options) :=
  match n with
  | O => Some (NTG_OK, o)
  | S n =>
      if (i <? length argv)%nat then
        arg ← argv !! i;
        match arg with
        | [] => None
        | c :: p =>
            if negb (c =? ch "-") then Some (NTG_ERROR, o)
            else
              '(rc, i, o) ← letters argv p i o;
              if negb (rc =? NTG_OK) then Some (NTG_ERROR, o) else get_options argv n (S i) o
        end
      else Some (NTG_OK, o)
  end.

Definition ntg_get_options (argv : list bytes) : option (Z * options) := get_options argv (length argv) 1 no_options.

(** ** The arguments are copied (ntg_save_argv) *)

(** [mem] are the outcomes of the allocations: of the array, then of each string. *)
Fixpoint save_strings (mem : list bool) (argv : list bytes) : option (Z * list bytes) :=
  match argv with
  | [] => Some (NTG_OK, [])
  | s :: argv =>
      len ← strlen s;
      if negb (default false (head mem)) then Some (NTG_ERROR, [])
      else
        d ← ntg_cpystrn s (S len);
        '(rc, l) ← save_strings (tail mem) argv;
        Some (rc, d :: l)
  end.

Definition ntg_save_argv (mem : list bool) (argv : list bytes) : option (Z * list bytes) :=
  if negb (default false (head mem)) then Some (NTG_ERROR, []) else save_strings (tail mem) argv.

(** ** Names of files (ntg_conf_full_name, ntg_get_full_name, ntg_test_full_name) *)

(** A [ntg_str_t] is its bytes; behind those of a file name lies a NUL. *)
Definition ntg_test_full_name (name : bytes) : option Z :=
  c ← head (name ++ [0]);
  Some (if c =? ch "/" then NTG_OK else NTG_DECLINED).

(** [alloc]: there is memory.  The result is the name, and what is written behind
    it: a NUL. *)
Definition ntg_get_full_name (alloc : bool) (prefix name : bytes) : option (Z * bytes) :=
  rc ← ntg_test_full_name name;
  if rc =? NTG_OK then Some (NTG_OK, name)
  else if negb alloc then Some (NTG_ERROR, name)
  else
    d ← ntg_cpystrn (name ++ [0]) (S (length name));
    Some (NTG_OK, take (length prefix + length name) (prefix ++ d)).

(** The paths and the parameters of the cycle. *)
Record paths := Paths {
  pt_prefix : bytes; pt_conf_prefix : bytes; pt_conf_file : bytes; pt_conf_param : bytes; pt_log_info : bool }.

Definition ntg_conf_full_name (alloc : bool) (name : bytes) (conf_prefix : bool) (c : paths) : option (Z * bytes) :=
  ntg_get_full_name alloc (if conf_prefix then pt_conf_prefix c else pt_prefix c) name.

Definition NTG_PREFIX : bytes := str "/home/tzh/nworkspace/ntrig/".
Definition NTG_CONF_PREFIX : bytes := str "conf/".
Definition NTG_CONF_PATH : bytes := str "conf/ntrig.conf".

(** ** The paths of the cycle (ntg_process_options) *)

(** The search for the last slash behind the first byte; [file] in reverse. *)
Fixpoint dir_length (rev_file : bytes) : option nat :=
  match rev_file with
  | [] | [_] => None
  | c :: rest => if c =? ch "/" then Some (S (length rest)) else dir_length rest
  end.

(** The prefix given, with a slash at its end, for both prefixes. *)
Definition given_prefix (alloc : bool) (o : options) : option (option (bytes * bytes)) :=
  match o_prefix o with
  | Some p =>
      len ← strlen p;
      let p := take len p in
      match last p with
      | Some e =>
          if negb (e =? ch "/") then if negb alloc then Some None else Some (Some (p ++ [ch "/"], p ++ [ch "/"]))
          else Some (Some (p, p))
      | None => Some (Some (p, p))
      end
  | None => Some (Some (NTG_CONF_PREFIX, NTG_PREFIX))
  end.

(** A string that was given, or what there is without it. *)
Definition given_string (v : option bytes) (default : bytes) : option bytes :=
  match v with Some s => len ← strlen s; Some (take len s) | None => Some default end.

(** [alloc1]: memory for the prefix with its slash, [alloc2]: for the file's name. *)
Definition ntg_process_options (alloc1 alloc2 : bool) (o : options) (c : paths) : option (Z * paths) :=
  r ← given_prefix alloc1 o;
  match r with
  | None => Some (NTG_ERROR, c)
  | Some (conf_prefix, prefix) =>
      let c := Paths prefix conf_prefix (pt_conf_file c) (pt_conf_param c) (pt_log_info c) in
      file ← given_string (o_conf_file o) NTG_CONF_PATH;
      '(rc, file) ← ntg_conf_full_name alloc2 file false c;
      if negb (rc =? NTG_OK) then Some (NTG_ERROR, Paths prefix conf_prefix file (pt_conf_param c) (pt_log_info c))
      else
        let conf_prefix := match dir_length (rev file) with Some n => take n file | None => conf_prefix end in
        param ← given_string (o_conf_params o) (pt_conf_param c);
        Some (NTG_OK, Paths prefix conf_prefix file param (o_test_config o || pt_log_info c))
  end.

(** ** What a command line says *)

(** One argument, or two: switches, and it may be a letter with its value, which is
    the rest of the argument or the next one. *)
Record group := Group { g_switches : bytes; g_value : option (Z * bytes * bool) }.

Definition cstring (t : bytes) : bytes := t ++ [0].

Definition group_args (g : group) : list bytes :=
  match g_value g with
  | None => [cstring (ch "-" :: g_switches g)]
  | Some (c, v, true) => [cstring (ch "-" :: g_switches g ++ c :: v)]
  | Some (c, v, false) => [cstring (ch "-" :: g_switches g ++ [c]); cstring v]
  end.

Definition is_switch (c : Z) : bool := existsb (Z.eqb c) (str "?hvVtq").
Definition takes_value (c : Z) : bool := existsb (Z.eqb c) (str "pcgsf").

Definition value_ok (c : Z) (v : bytes) : Prop := takes_value c = true /\ Forall (fun d => 0 < d) v /\ (c = ch "s" -> v ∈ signal_names).

Definition group_ok (g : group) : Prop :=
  Forall (fun c => is_switch c = true) (g_switches g) /\
  match g_value g with Some (c, v, attached) => value_ok c v /\ (attached = true -> v <> []) | None => True end.

Definition apply_switch (o : options) (c : Z) : options :=
  if (c =? ch "?") || (c =? ch "h") then set_help o
  else if c =? ch "v" then set_version o
  else if c =? ch "V" then set_configure o
  else if c =? ch "t" then set_test o
  else set_quiet o.

Definition apply_value (c : Z) (v : bytes) (o : options) : options :=
  if c =? ch "p" then set_prefix (cstring v) o
  else if c =? ch "c" then set_conf_file (cstring v) o
  else if c =? ch "g" then set_conf_params (cstring v) o
  else if c =? ch "f" then set_url_file (cstring v) o
  else set_signaller (set_signal (cstring v) o).

Definition apply_group (o : options) (g : group) : options :=
  let o := fold_left apply_switch (g_switches g) o in
  match g_value g with Some (c, v, _) => apply_value c v o | None => o end.

Lemma strcmp_cstring s t : Forall (fun c => 0 < c) s -> Forall (fun c => 0 < c) t ->
  exists d, strcmp (cstring s) (cstring t) = Some d /\ (d = 0 <-> s = t).
Proof.
  intros Hs. revert t. induction Hs as [|c s Hc _ IH]; intros t Ht; destruct Ht as [|d t Hd Ht]; unfold cstring; cbn [app strcmp].
  - by exists 0.
  - rewrite (proj2 (Z.eqb_neq 0 d)) by lia. eexists. split; [done|]. split; [lia|done].
  - rewrite (proj2 (Z.eqb_neq c 0)) by lia. eexists. split; [done|]. split; [lia|done].
  - destruct (Z.eqb_spec c d) as [->|Hne]; cbn [negb].
    + rewrite (proj2 (Z.eqb_neq d 0)) by lia. destruct (IH t Ht) as (e & E & He). exists e. split; [exact E|]. rewrite He. split; [by intros ->|by intros [=] ].
    + eexists. split; [done|]. split; [lia|]. by intros [=].
Qed.

Lemma signal_known_ok names s : Forall (fun c => 0 < c) s -> Forall (Forall (fun c => 0 < c)) names ->
  exists b, signal_known names (cstring s) = Some b /\ (b = true <-> s ∈ names).
Proof.
  intros Hs Hn. induction Hn as [|n names Hn _ IH]; cbn; [exists false; split; [done|]; by rewrite elem_of_nil|].
  destruct (strcmp_cstring s n Hs Hn) as (d & E & Hd). fold (cstring n). rewrite E. cbn. destruct (Z.eqb_spec d 0) as [H0|H0].
  - exists true. split; [done|]. split; [|done]. intros _. rewrite (proj1 Hd H0). by left.
  - destruct IH as (b & E' & Hb). exists b. split; [done|]. rewrite Hb, elem_of_cons. split; [by right|]. intros [H|H]; [tauto|done].
Qed.

Lemma signal_names_pos : Forall (Forall (fun c => 0 < c)) signal_names.
Proof. repeat constructor. Qed.

Lemma is_switch_cases c : is_switch c = true -> c = ch "?" \/ c = ch "h" \/ c = ch "v" \/ c = ch "V" \/ c = ch "t" \/ c = ch "q".
Proof.
  unfold is_switch. rewrite existsb_exists. intros (d & Hd & <-%Z.eqb_eq). repeat destruct Hd as [<-|Hd]; repeat (first [by left|right]); done.
Qed.

Lemma takes_value_cases c : takes_value c = true -> c = ch "p" \/ c = ch "c" \/ c = ch "g" \/ c = ch "s" \/ c = ch "f".
Proof.
  unfold takes_value. rewrite existsb_exists. intros (d & Hd & <-%Z.eqb_eq). repeat destruct Hd as [<-|Hd]; repeat (first [by left|right]); done.
Qed.

Lemma given_ok c v o : value_ok c v -> given c (cstring v) o = Some (NTG_OK, apply_value c v o).
Proof.
  intros (Hc & Hv & Hs). destruct (takes_value_cases c Hc) as [->|[->|[->|[->| ->] ] ] ]; try reflexivity.
  unfold given. destruct (signal_known_ok signal_names v Hv signal_names_pos) as (b & -> & Hb). by rewrite (proj2 Hb (Hs eq_refl)).
Qed.

(** The loop takes the switches one by one. *)
Lemma letters_switch argv c p i o : is_switch c = true -> letters argv (c :: p) i o = letters argv p i (apply_switch o c).
Proof. intros H. destruct (is_switch_cases c H) as [->|[->|[->|[->|[->| ->] ] ] ] ]; reflexivity. Qed.

Lemma letters_switches argv sw p i o : Forall (fun c => is_switch c = true) sw ->
  letters argv (sw ++ p) i o = letters argv p i (fold_left apply_switch sw o).
Proof. intros H. revert o. induction H as [|c sw Hc _ IH]; intros o; [done|]. cbn [app fold_left]. by rewrite letters_switch, IH. Qed.

Lemma letters_value argv c p i o : takes_value c = true ->
  letters argv (c :: p) i o =
  match option_value argv p i with
  | None => None
  | Some (None, i) => Some (NTG_ERROR, i, o)
  | Some (Some v, i) => '(rc, o) ← given c v o; Some (rc, i, o)
  end.
Proof. intros H. destruct (takes_value_cases c H) as [->|[->|[->|[->| ->] ] ] ]; reflexivity. Qed.

Lemma letters_other argv c p i o : is_switch c = false -> takes_value c = false -> c <> 0 -> letters argv (c :: p) i o = Some (NTG_ERROR, i, o).
Proof.
  intros H1 H2 H0. cbn [letters]. rewrite (proj2 (Z.eqb_neq c 0)) by done.
  repeat match goal with |- context [c =? ?k] => destruct (Z.eqb_spec c k) as [->|]; [first [discriminate H1|discriminate H2] |] end.
  reflexivity.
Qed.

(** ** The command line is read as it is written *)

Lemma group_letters pre g rest o : group_ok g ->
  exists p, head (group_args g) = Some (ch "-" :: p) /\
    letters (pre ++ group_args g ++ rest) p (length pre) o = Some (NTG_OK, (length pre + length (group_args g) - 1)%nat, apply_group o g).
Proof.
  intros [Hs Hv]. unfold group_args, apply_group. destruct (g_value g) as [ [ [c v] [|] ]|].
  - destruct Hv as [Hv Hne]. exists (g_switches g ++ c :: v ++ [0]). split; [unfold cstring; cbn; by rewrite <-app_assoc|]. rewrite letters_switches by done.
    rewrite letters_value by apply Hv. unfold option_value. destruct v as [|d v]; [by destruct Hne|]. cbn [app head mbind option_bind].
    pose proof (proj1 (proj2 Hv)) as Hp. apply Forall_cons in Hp as [Hd _]. rewrite (proj2 (Z.eqb_neq d 0)) by lia. cbn [negb].
    change (d :: v ++ [0]) with (cstring (d :: v)). rewrite given_ok by done. cbn [mbind option_bind length]. do 3 f_equal. lia.
  - destruct Hv as [Hv _]. exists (g_switches g ++ [c; 0]). split; [unfold cstring; cbn; by rewrite <-app_assoc|]. rewrite letters_switches by done.
    rewrite letters_value by apply Hv. unfold option_value, argv_at. cbn [head mbind option_bind Z.eqb negb].
    rewrite length_app. cbn [length app]. rewrite (proj2 (Nat.ltb_lt _ _)) by lia.
    rewrite lookup_app_r by lia. replace (S (length pre) - length pre)%nat with 1%nat by lia. cbn [lookup list_lookup mbind option_bind].
    rewrite given_ok by done. cbn [mbind option_bind]. do 3 f_equal. lia.
  - exists (g_switches g ++ [0]). split; [done|]. rewrite letters_switches by done. cbn [letters app length Z.eqb]. do 3 f_equal. lia.
Qed.

Lemma get_options_groups gs : forall pre n o, Forall group_ok gs -> (length gs <= n)%nat ->
  get_options (pre ++ concat (map group_args gs)) n (length pre) o = Some (NTG_OK, fold_left apply_group gs o).
Proof.
  induction gs as [|g gs IH]; intros pre n o Hok Hn; cbn [map concat fold_left].
  - destruct n as [|n]; [done|]. cbn [get_options]. rewrite app_nil_r. by rewrite Nat.ltb_irrefl.
  - destruct n as [|n]; [cbn in Hn; lia|]. apply Forall_cons in Hok as [Hg Hok]. destruct (group_letters pre g (concat (map group_args gs)) o Hg) as (p & Hh & El).
    assert (Hl : (0 < length (group_args g))%nat) by (destruct (group_args g); [done|cbn; lia]).
    cbn [get_options]. rewrite (proj2 (Nat.ltb_lt _ _)) by (rewrite !length_app; lia).
    rewrite lookup_app_r, Nat.sub_diag by lia. destruct (group_args g) as [|a args] eqn:Ea; [done|]. injection Hh as ->. cbn [app lookup list_lookup mbind option_bind].
    rewrite Z.eqb_refl. cbn [negb]. cbn [app] in El. rewrite El. cbn [mbind option_bind]. change (NTG_OK =? NTG_OK) with true. cbn [negb].
    specialize (IH (pre ++ group_args g) n (apply_group o g) Hok ltac:(cbn in Hn; lia)). rewrite Ea, <-app_assoc in IH. cbn [app] in IH.
    rewrite <-IH. f_equal. rewrite length_app. cbn [length]. lia.
Qed.

(** ** Nothing else is accepted *)

Definition text_arg (t : bytes) : Prop := Forall (fun c => 0 < c) t.

Lemma given_total c v o : takes_value c = true -> text_arg v ->
  exists rc o', given c (cstring v) o = Some (rc, o') /\ (rc = NTG_OK \/ rc = NTG_ERROR) /\ (rc = NTG_OK -> value_ok c v /\ o' = apply_value c v o).
Proof.
  intros Hc Hv. destruct (decide (c = ch "s" -> v ∈ signal_names)) as [Hs|Hs].
  - exists NTG_OK, (apply_value c v o). split; [by apply given_ok|]. split; [by left|]. by repeat split.
  - assert (c = ch "s" /\ v ∉ signal_names) as [-> Hn] by (split; [destruct (decide (c = ch "s")); [done|by destruct Hs]|tauto]).
    destruct (signal_known_ok signal_names v Hv signal_names_pos) as (b & Eb & Hb).
    exists NTG_ERROR, (set_signal (cstring v) o). split; [|split; [by right|done] ]. unfold given.
    change (ch "s" =? ch "p") with false. change (ch "s" =? ch "c") with false. change (ch "s" =? ch "g") with false. change (ch "s" =? ch "f") with false.
    cbn match. rewrite Eb. destruct b; [tauto|done].
Qed.

(** What the loop over the letters [t] accepted. *)
Definition accepted (argv : list bytes) (t : bytes) (i : nat) (o : options) (j : nat) (o' : options) : Prop :=
  exists sw, Forall (fun c => is_switch c = true) sw /\
    (t = sw /\ j = i /\ o' = fold_left apply_switch sw o \/
     exists c v, value_ok c v /\ o' = apply_value c v (fold_left apply_switch sw o) /\
       (t = sw ++ c :: v /\ v <> [] /\ j = i \/ t = sw ++ [c] /\ argv !! S i = Some (cstring v) /\ j = S i)).

Lemma accepted_switch argv c t i o j o' : is_switch c = true -> accepted argv t i (apply_switch o c) j o' -> accepted argv (c :: t) i o j o'.
Proof.
  intros Hc (sw & Hsw & H). exists (c :: sw). split; [by constructor|]. destruct H as [ (-> & -> & ->)|(d & v & Hv & -> & H)]; [by left|right].
  exists d, v. split; [done|]. split; [done|]. destruct H as [ (-> & ? & ?)|(-> & ? & ?)]; [by left|by right].
Qed.

Lemma letters_total ts t i o : Forall text_arg ts -> (i < length ts)%nat -> text_arg t ->
  exists rc j o', letters (map cstring ts) (t ++ [0]) i o = Some (rc, j, o') /\ (rc = NTG_OK \/ rc = NTG_ERROR) /\
    (rc = NTG_OK -> accepted (map cstring ts) t i o j o').
Proof.
  intros Hts Hi Ht. revert o. induction Ht as [|c t Hc Ht IH]; intros o; cbn [app].
  { exists NTG_OK, i, o. split; [done|]. split; [by left|]. intros _. exists []. split; [constructor|by left]. }
  destruct (is_switch c) eqn:Hsw.
  { rewrite letters_switch by done. destruct (IH (apply_switch o c)) as (rc & j & o' & E & H1 & H2). exists rc, j, o'. split; [done|]. split; [done|].
    intros Hrc. by apply accepted_switch, H2. }
  destruct (takes_value c) eqn:Htv.
  2: { rewrite letters_other by (done || lia). eexists _, _, _. split; [done|]. split; [by right|done]. }
  rewrite letters_value by done. unfold option_value. destruct Ht as [|d t Hd Ht].
  - cbn [app head mbind option_bind Z.eqb negb]. unfold argv_at. rewrite length_map. destruct (Nat.ltb_spec (S i) (length ts)) as [Hl|Hl].
    + destruct (lookup_lt_is_Some_2 ts (S i) Hl) as [v Hv]. change (map cstring ts) with (cstring <$> ts). rewrite list_lookup_fmap, Hv. cbn [fmap option_fmap option_map mbind option_bind].
      destruct (given_total c v o Htv (Forall_lookup_1 _ _ _ _ Hts Hv)) as (rc & o' & -> & H1 & H2). cbn [mbind option_bind]. exists rc, (S i), o'. split; [done|].
      split; [done|]. intros Hrc. destruct (H2 Hrc) as [Hvo ->]. exists []. split; [constructor|]. right. exists c, v. split; [done|]. split; [done|]. right.
      split; [done|]. split; [by rewrite list_lookup_fmap, Hv|done].
    + rewrite (proj2 (Nat.eqb_eq (S i) (length ts))) by lia. cbn [mbind option_bind]. eexists _, _, _. split; [done|]. split; [by right|done].
  - cbn [app head mbind option_bind]. rewrite (proj2 (Z.eqb_neq d 0)) by lia. cbn [negb]. change (d :: t ++ [0]) with (cstring (d :: t)).
    destruct (given_total c (d :: t) o Htv ltac:(by constructor)) as (rc & o' & -> & H1 & H2). cbn [mbind option_bind]. exists rc, i, o'. split; [done|].
    split; [done|]. intros Hrc. destruct (H2 Hrc) as [Hvo ->]. exists []. split; [constructor|]. right. exists c, (d :: t). split; [done|]. split; [done|]. by left.
Qed.

Lemma get_options_total ts n : forall i o, Forall text_arg ts -> (length ts <= i + n)%nat ->
  exists rc o', get_options (map cstring ts) n i o = Some (rc, o') /\ (rc = NTG_OK \/ rc = NTG_ERROR) /\
    (rc = NTG_OK -> exists gs, Forall group_ok gs /\ drop i (map cstring ts) = concat (map group_args gs) /\ o' = fold_left apply_group gs o).
Proof.
  assert (Hend : forall i o, (length ts <= i)%nat -> exists gs, Forall group_ok gs /\ drop i (map cstring ts) = concat (map group_args gs) /\ o = fold_left apply_group gs o).
  { intros i o Hi. exists []. split; [constructor|]. split; [|done]. apply drop_ge. by rewrite length_map. }
  induction n as [|n IH]; intros i o Hts Hn; cbn [get_options].
  { eexists _, _. split; [done|]. split; [by left|]. intros _. apply Hend. lia. }
  rewrite length_map. destruct (Nat.ltb_spec i (length ts)) as [Hi|Hi].
  2: { eexists _, _. split; [done|]. split; [by left|]. intros _. by apply Hend. }
  destruct (lookup_lt_is_Some_2 ts i Hi) as [t Ht]. assert (Hl : map cstring ts !! i = Some (cstring t)) by (change (map cstring ts) with (cstring <$> ts); by rewrite list_lookup_fmap, Ht).
  rewrite Hl. cbn [mbind option_bind]. pose proof (Forall_lookup_1 _ _ _ _ Hts Ht) as Htt. destruct Htt as [|c t Hc Htt]; unfold cstring; cbn [app].
  { eexists _, _. split; [done|]. split; [by right|done]. }
  destruct (Z.eqb_spec c (ch "-")) as [->|]; cbn [negb]; [|eexists _, _; split; [done|split; [by right|done] ] ].
  fold cstring. destruct (letters_total ts t i o Hts Hi Htt) as (rc & j & o' & -> & H1 & H2). cbn [mbind option_bind].
  destruct (Z.eqb_spec rc NTG_OK) as [->|]; cbn [negb]; [|eexists _, _; split; [done|split; [by right|done] ] ].
  destruct (H2 eq_refl) as (sw & Hsw & Hcase). pose proof (drop_S _ _ _ Hl) as Ed.
  assert (Hj : (i <= j <= S i)%nat) by (destruct Hcase as [ (_ & -> & _)|(? & ? & _ & _ & [ (_ & _ & ->)|(_ & _ & ->)])]; lia).
  destruct (IH (S j) o' Hts ltac:(lia)) as (rc & o'' & E & H3 & H4). exists rc, o''. split; [exact E|]. split; [done|]. intros Hrc.
  destruct (H4 Hrc) as (gs & Hgs & Eg & Eo). destruct Hcase as [ (Et & Ej & E1)|(c & v & Hv & E1 & [ (Et & Hne & Ej)|(Et & Hnext & Ej)])]; subst t j o'.
  - exists (Group sw None :: gs). split; [constructor; [by split|done]|]. split; [by rewrite Ed, Eg|exact Eo].
  - exists (Group sw (Some (c, v, true)) :: gs). split; [constructor; [by split|done]|]. split; [by rewrite Ed, Eg|exact Eo].
  - exists (Group sw (Some (c, v, false)) :: gs). split; [constructor; [by split|done]|]. split; [|exact Eo]. by rewrite Ed, (drop_S _ _ _ Hnext), Eg.
Qed.

(** C35: A command line of options is read as it is written, however its switches are
    put together and whether a value stands alone or not; every other command line
    of strings is refused, and none is read beyond its end. *)
Theorem get_options_correct name gs ts :
  (Forall group_ok gs -> ntg_get_options (name :: concat (map group_args gs)) = Some (NTG_OK, fold_left apply_group gs no_options)) /\
  (Forall text_arg ts -> exists rc o, ntg_get_options (map cstring ts) = Some (rc, o) /\ (rc = NTG_OK \/ rc = NTG_ERROR) /\
    (rc = NTG_OK -> exists gs, Forall group_ok gs /\ drop 1 (map cstring ts) = concat (map group_args gs) /\ o = fold_left apply_group gs no_options)).
Proof.
  split.
  - intros Hok. unfold ntg_get_options. apply (get_options_groups gs [name] _ no_options Hok). cbn [length].
    assert (H : forall g, (1 <= length (group_args g))%nat) by (intros [sw [ [ [c v] [|] ]|] ]; cbn; lia). clear Hok.
    enough (length gs <= length (concat (map group_args gs)))%nat by lia.
    induction gs as [|g gs IH]; [done|]. cbn [map concat length]. rewrite length_app. specialize (H g). lia.
  - intros Hts. unfold ntg_get_options. apply get_options_total; [done|]. rewrite length_map. lia.
Qed.

(** ** The paths *)

Lemma strlen_cstring t r : text_arg t -> strlen (t ++ 0 :: r) = Some (length t).
Proof.
  induction 1 as [|c t Hc _ IH]; [done|]. cbn [app strlen length]. rewrite (proj2 (Z.eqb_neq c 0)) by lia. by rewrite IH.
Qed.

Lemma strlen_text t : text_arg t -> (len ← strlen (cstring t); Some (take len (cstring t))) = Some t.
Proof. intros Ht. unfold cstring. rewrite strlen_cstring by done. cbn [mbind option_bind]. by rewrite take_app_length. Qed.

(** The part of a name up to its last slash, a slash at its start apart. *)
Lemma dir_length_spec r :
  match dir_length r with
  | Some n => exists d base, rev r = d ++ ch "/" :: base /\ d <> [] /\ ch "/" ∉ base /\ n = S (length d)
  | None => forall d base, rev r = d ++ ch "/" :: base -> d = []
  end.
Proof.
  induction r as [|c r IH]; [intros d base H; cbn in H; by destruct d|]. destruct r as [|e r].
  { cbn. intros d base H. destruct d as [|x [|y d] ]; [done|discriminate H|discriminate H]. }
  change (dir_length (c :: e :: r)) with (if c =? ch "/" then Some (S (length (e :: r))) else dir_length (e :: r)).
  change (rev (c :: e :: r)) with (rev (e :: r) ++ [c]). destruct (Z.eqb_spec c (ch "/")) as [->|Hne].
  - exists (rev (e :: r)), []. split; [done|]. split; [|split; [apply not_elem_of_nil|by rewrite length_rev] ].
    intros H. apply (f_equal length) in H. rewrite length_rev in H. done.
  - destruct (dir_length (e :: r)) as [n|].
    + destruct IH as (d & base & -> & Hd & Hb & Hn). exists d, (base ++ [c]). rewrite <-app_assoc. split; [done|]. split; [done|]. split; [|done].
      rewrite elem_of_app, list_elem_of_singleton. intros [?|?]; [done|congruence].
    + intros d base H. destruct (decide (base = [])) as [->|Hb]; [apply app_inj_tail in H as [_ H]; congruence|].
      destruct (exists_last_elem base Hb) as (k & x & ->). apply (IH d k). change (d ++ ch "/" :: k ++ [x]) with (d ++ (ch "/" :: k) ++ [x]) in H.
      rewrite app_assoc in H. by apply app_inj_tail in H as [H _].
Qed.

Definition absolute (name : bytes) : Prop := exists r, name = ch "/" :: r.

Lemma full_name_ok prefix name : text_arg name ->
  exists full, ntg_get_full_name true prefix name = Some (NTG_OK, full) /\
    (absolute name /\ full = name \/ ~ absolute name /\ full = prefix ++ name).
Proof.
  intros Hn. unfold ntg_get_full_name, ntg_test_full_name.
  assert (Hh : exists c, head (name ++ [0]) = Some c /\ (c = ch "/" <-> absolute name)).
  { destruct name as [|c r]; [exists 0; split; [done|]; split; [done|by intros [? ?] ]|]. exists c. split; [done|]. split; [intros ->; by exists r|intros [s [= -> _] ]; done]. }
  destruct Hh as (c & -> & Hc). cbn [mbind option_bind]. destruct (Z.eqb_spec c (ch "/")) as [E|E].
  - exists name. split; [done|]. left. tauto.
  - change (NTG_DECLINED =? NTG_OK) with false. cbn match. cbn [negb].
    destruct (ntg_cpystrn_correct (name ++ [0]) name (S (length name)) ltac:(split; [by exists []|done]) ltac:(lia)) as (d & -> & -> & _).
    rewrite Nat.sub_succ, Nat.sub_0_r, firstn_all. cbn [mbind option_bind]. exists (prefix ++ name). split; [|right; tauto].
    by rewrite app_assoc, <-length_app, take_app_length.
Qed.

(** The prefix with a slash at its end. *)
Definition slashed (p : bytes) : bytes := match last p with Some e => if e =? ch "/" then p else p ++ [ch "/"] | None => p end.

(** The values of the options are strings. *)
Definition value_text (v : option bytes) (t : option bytes) : Prop :=
  match v, t with Some s, Some t => s = cstring t /\ text_arg t | None, None => True | _, _ => False end.

Lemma default_text : text_arg NTG_CONF_PATH.
Proof. repeat constructor. Qed.

(** The paths of the cycle: the prefix ends in a slash; the configuration file is
    the one that was given, behind the prefix when it is relative; its prefix is the
    part of its name up to the last slash, so that files it includes are found beside
    it. *)
Theorem process_options_correct o c prefix file param :
  value_text (o_prefix o) prefix -> value_text (o_conf_file o) file -> value_text (o_conf_params o) param ->
  exists c', ntg_process_options true true o c = Some (NTG_OK, c') /\
    pt_prefix c' = match prefix with Some p => slashed p | None => NTG_PREFIX end /\
    pt_conf_param c' = default (pt_conf_param c) param /\
    (let f := default NTG_CONF_PATH file in
     absolute f /\ pt_conf_file c' = f \/ ~ absolute f /\ pt_conf_file c' = pt_prefix c' ++ f) /\
    ((exists dir base, pt_conf_file c' = dir ++ ch "/" :: base /\ dir <> [] /\ ch "/" ∉ base /\ pt_conf_prefix c' = dir ++ [ch "/"]) \/
     forall dir base, pt_conf_file c' = dir ++ ch "/" :: base -> dir = []).
Proof.
  intros Hp Hf Hg. unfold ntg_process_options.
  set (pre := match prefix with Some p => slashed p | None => NTG_PREFIX end).
  set (cpre := match prefix with Some p => slashed p | None => NTG_CONF_PREFIX end).
  assert (E1 : given_prefix true o = Some (Some (cpre, pre))).
  { unfold given_prefix. subst pre cpre. destruct (o_prefix o) as [s|], prefix as [p|]; cbn [value_text] in Hp; try done. destruct Hp as [-> Hp]. unfold cstring.
    rewrite strlen_cstring by done. cbn [mbind option_bind]. rewrite take_app_length. cbn zeta. unfold slashed. destruct (last p) as [e|]; [|done]. by destruct (e =? ch "/"). }
  rewrite E1. cbn [mbind option_bind]. cbn [pt_conf_file pt_conf_param pt_log_info].
  assert (E2 : given_string (o_conf_file o) NTG_CONF_PATH = Some (default NTG_CONF_PATH file) /\ text_arg (default NTG_CONF_PATH file)).
  { destruct (o_conf_file o) as [s|], file as [f|]; cbn [value_text] in Hf; try done; [|split; [done|apply default_text] ]. destruct Hf as [-> Hf]. split; [by apply strlen_text|done]. }
  destruct E2 as [-> Ht]. cbn [mbind option_bind]. unfold ntg_conf_full_name. cbn [pt_prefix].
  destruct (full_name_ok pre (default NTG_CONF_PATH file) Ht) as (full & -> & Hfull). cbn [mbind option_bind]. change (NTG_OK =? NTG_OK) with true. cbn [negb].
  assert (E3 : given_string (o_conf_params o) (pt_conf_param c) = Some (default (pt_conf_param c) param)).
  { destruct (o_conf_params o) as [s|], param as [g|]; cbn [value_text] in Hg; try done. destruct Hg as [-> Hg]. by apply strlen_text. }
  rewrite E3. cbn [mbind option_bind]. eexists. split; [reflexivity|]. cbn [pt_prefix pt_conf_param pt_conf_file pt_conf_prefix]. split; [done|]. split; [done|]. split; [exact Hfull|].
  pose proof (dir_length_spec (rev full)) as Hd. rewrite rev_involutive in Hd. destruct (dir_length (rev full)) as [n|]; [left|by right].
  destruct Hd as (d & base & -> & Hne & Hb & ->). exists d, base. split; [done|]. split; [done|]. split; [done|].
  change (d ++ ch "/" :: base) with (d ++ [ch "/"] ++ base). rewrite app_assoc. rewrite <-(take_app_length (d ++ [ch "/"]) base) at 2.
  f_equal. rewrite length_app. cbn. lia.
Qed.

(** ** Examples *)

Definition example_groups : list group := [Group (str "tq") (Some (ch "c", str "/etc/ntrig.conf", false)); Group [] (Some (ch "p", str "/srv", true))].

Lemma get_options_correct_witness :
  ntg_get_options [cstring (str "ntrig"); cstring (str "-tqc"); cstring (str "/etc/ntrig.conf"); cstring (str "-p/srv")] =
  Some (NTG_OK, Options false false false true true (Some (cstring (str "/srv"))) (Some (cstring (str "/etc/ntrig.conf"))) None None None false).
Proof.
  apply (proj1 (get_options_correct (cstring (str "ntrig")) example_groups [])).
  repeat constructor; try (intros [=]); done.
Defined.

Lemma process_options_correct_witness :
  exists c, ntg_process_options true true (Options false false false true true (Some (cstring (str "/srv"))) (Some (cstring (str "ntrig.conf"))) None None None false)
      (Paths [] [] [] [] false) = Some (NTG_OK, c) /\ pt_prefix c = str "/srv/".
Proof.
  destruct (process_options_correct (Options false false false true true (Some (cstring (str "/srv"))) (Some (cstring (str "ntrig.conf"))) None None None false)
    (Paths [] [] [] [] false) (Some (str "/srv")) (Some (str "ntrig.conf")) None) as (c & E & Hp & _).
  - split; [done|repeat constructor].
  - split; [done|repeat constructor].
  - done.
  - exists c. split; [exact E|exact Hp].
Defined.

(** The name of the program is not looked at; an option without its value is
    refused. *)
Example missing_value : fst <$> ntg_get_options [cstring (str "ntrig"); cstring (str "-tc")] = Some NTG_ERROR.
Proof. reflexivity. Qed.
