(* ===== verification/Log.v ===== *)
(** * The log (src/utils/ntg_log.c, ntg_log.h, ntg_errno.c)

    The line of an error is put together in a buffer of 2048 bytes and goes to the logs
    of a chain that are verbose enough; the chain is kept in descending order of the
    levels.  The logs are known by their addresses, the open files by their places in
    the list of the cycle. *)

From Stdlib Require Import Sorting.Sorted.
From S2P Require Import Prelude NtgString Parse Sprintf Options.

(** ** Levels *)

Definition NTG_LOG_EMERG : Z := 1.
Definition NTG_LOG_ERR : Z := 4.
Definition NTG_LOG_WARN : Z := 5.
Definition NTG_LOG_NOTICE : Z := 6.
Definition NTG_LOG_DEBUG : Z := 8.
Definition NTG_LOG_DEBUG_CONNECTION : Z := 0x80000000.
Definition NTG_LOG_DEBUG_ALL : Z := 0x7ffffff0.
Definition NTG_MAX_ERROR_STR : Z := 2048.
Definition NTG_SYS_NERR : Z := 135.

Definition err_levels : list bytes :=
  [[]; str "emerg"; str "alert"; str "crit"; str "error"; str "warn"; str "notice"; str "info"; str "debug"].

(** With the bits from [NTG_LOG_DEBUG_FIRST] to [NTG_LOG_DEBUG_LAST]. *)
Definition debug_levels : list (bytes * Z) :=
  [(str "debug_core", 0x010); (str "debug_alloc", 0x020); (str "debug_mutex", 0x040); (str "debug_event", 0x080);
   (str "debug_http", 0x100); (str "debug_mail", 0x200); (str "debug_mysql", 0x400); (str "debug_discard", 0x800)].

(** ** The text of an error *)

(** [ntg_slprintf] behind what the buffer of [last] bytes has. *)
Definition print (last : Z) (fmt : bytes) (args : list arg) (b : bytes) : option bytes :=
  out ← ntg_slprintf (Z.of_nat (length b)) last (fmt ++ [0]) args; Some (b ++ out).

(** What [ntg_strerror] copies; [errlist] are the texts of the system. *)
Definition ntg_strerror (errlist : list bytes) (err size : Z) : option bytes :=
  msg ← (if u64 err <? NTG_SYS_NERR then errlist !! Z.to_nat (u64 err) else Some (str "Unknown error"));
  Some (take (Z.to_nat (Z.min (u64 size) (Z.of_nat (length msg)))) msg).

(** [b] is what the buffer has up to [buf]. *)
Definition ntg_log_errno (errlist : list bytes) (last err : Z) (b : bytes) : option bytes :=
  let b := if Z.of_nat (length b) >? last - 50 then take (Z.to_nat (last - 50)) b ++ str "..." else b in
  b ← print last (str " (%d: ") [AInt err] b;
  msg ← ntg_strerror errlist err (last - Z.of_nat (length b));
  let b := b ++ msg in
  Some (if Z.of_nat (length b) <? last then b ++ [ch ")"] else b).

(** The end of a line. *)
Definition end_line (last : Z) (b : bytes) : bytes :=
  (if Z.of_nat (length b) >? last - 1 then take (Z.to_nat (last - 1)) b else b) ++ [LF].

(** ** The logs *)

(** The handler gets the room that is left, and gives what it writes there. *)
Record log := Log {
  l_level : Z;
  l_file : option nat;
  l_disk_full : Z;
  l_handler : option (Z -> bytes);
  l_writer : bool;
  l_wdata : Z;
  l_next : Z }.

Definition set_l_level v l := Log v (l_file l) (l_disk_full l) (l_handler l) (l_writer l) (l_wdata l) (l_next l).
Definition set_l_file v l := Log (l_level l) v (l_disk_full l) (l_handler l) (l_writer l) (l_wdata l) (l_next l).
Definition set_l_disk_full v l := Log (l_level l) (l_file l) v (l_handler l) (l_writer l) (l_wdata l) (l_next l).
Definition set_l_memory a l := Log (l_level l) (l_file l) (l_disk_full l) (l_handler l) true a (l_next l).
Definition set_l_wdata a l := Log (l_level l) (l_file l) (l_disk_full l) (l_handler l) (l_writer l) a (l_next l).
Definition set_l_next v l := Log (l_level l) (l_file l) (l_disk_full l) (l_handler l) (l_writer l) (l_wdata l) v.
(** A structure of noughts. *)
Definition no_log : log := Log 0 None 0 None false 0 0.

Record open_file := OpenFile { of_name : bytes; of_fd : Z }.

(** [ntg_log_memory_buf_t]: the bytes before [pos], and from [pos] to [end]. *)
Record mem_buf := MemBuf { mb_head : bytes; mb_ring : bytes; mb_written : Z }.

Inductive log_out := ToFile (fd : Z) (text : bytes) | ToConsole (text : bytes).

(** [s_full] tells for the next writes which of them find the file system full;
    [s_use_stderr] is [log_use_stderr] of the cycle. *)
Record log_state := LogState {
  s_logs : gmap Z log;
  s_files : list open_file;
  s_bufs : gmap Z mem_buf;
  s_full : list bool;
  s_use_stderr : bool;
  s_out : list log_out }.

Definition set_logs v s := LogState v (s_files s) (s_bufs s) (s_full s) (s_use_stderr s) (s_out s).
Definition set_files v s := LogState (s_logs s) v (s_bufs s) (s_full s) (s_use_stderr s) (s_out s).
Definition set_bufs v s := LogState (s_logs s) (s_files s) v (s_full s) (s_use_stderr s) (s_out s).
Definition use_stderr s := LogState (s_logs s) (s_files s) (s_bufs s) (s_full s) true (s_out s).
Definition emit_log o s := LogState (s_logs s) (s_files s) (s_bufs s) (s_full s) (s_use_stderr s) (s_out s ++ [o]).

Definition ntg_stderr : Z := 2.
Definition NTG_INVALID_FILE : Z := -1.

(** [ntg_memcpy] to place [i] of a buffer. *)
Definition write_at (i : nat) (data buffer : bytes) : option bytes :=
  if (i + length data <=? length buffer)%nat then Some (take i buffer ++ data ++ drop (i + length data) buffer) else None.

(** The counter of bytes is that of the ring before this line. *)
Definition ntg_log_memory_writer (wdata : Z) (buf : bytes) (s : log_state) : option log_state :=
  if wdata =? 0 then Some s
  else
    mem ← s_bufs s !! wdata;
    let len := length buf in
    let written := mb_written mem in
    let size := length (mb_ring mem) in
    if (size =? 0)%nat then None
    else
      let p := Z.to_nat (written mod Z.of_nat size) in
      let avail := (size - p)%nat in
      ring ← (if (len <=? avail)%nat then write_at p buf (mb_ring mem)
              else ring ← write_at p (take avail buf) (mb_ring mem); write_at 0 (drop avail buf) ring);
      Some (set_bufs (<[wdata := MemBuf (mb_head mem) ring (u64 (written + Z.of_nat len))]> (s_bufs s)) s).

(** What is left of a log whose buffer is destroyed. *)
Definition ntg_log_memory_cleanup (a : Z) (s : log_state) : option log_state :=
  l ← s_logs s !! a; Some (set_logs (<[a := set_l_wdata 0 l]> (s_logs s)) s).

Fixpoint ntg_log_get_file_log (n : nat) (head : Z) (s : log_state) : option Z :=
  match n with
  | O => None
  | S n =>
      if head =? 0 then Some 0
      else l ← s_logs s !! head; if l_file l then Some head else ntg_log_get_file_log n (l_next l) s
  end.

(** ** The line *)

Section line.
(** The time in seconds and as the text of the log, the process and the texts of
    the system. *)
Context (now : Z) (err_log_time : bytes) (ntg_log_pid : Z) (errlist : list bytes).

(** The line, and where its message starts. *)
Definition log_line (level : Z) (handler : option (Z -> bytes)) (err : Z) (fmt : bytes) (args : list arg) : option (bytes * nat) :=
  let last := NTG_MAX_ERROR_STR in
  name ← err_levels !! Z.to_nat level;
  _ ← write_at 0 err_log_time (repeat 0 (Z.to_nat last));
  let b := err_log_time in
  b ← print last (str " [%V] ") [AStr name] b;
  b ← print last (str "%P: ") [AInt ntg_log_pid] b;
  let msg := length b in
  out ← ntg_vslprintf (last - Z.of_nat (length b)) fmt args;
  let b := b ++ out in
  b ← (if negb (err =? 0) then ntg_log_errno errlist last err b else Some b);
  let b := match handler with
           | Some h => if negb (level =? NTG_LOG_DEBUG) then b ++ h (last - Z.of_nat (length b)) else b
           | None => b
           end in
  Some (end_line last b, msg).

(** The loop over the logs; [wrote_stderr] is told at the end. *)
Fixpoint write_logs (n : nat) (level : Z) (debug_connection : bool) (line : bytes) (a : Z) (s : log_state) (wrote_stderr : bool) : option (log_state * bool) :=
  match n with
  | O => None
  | S n =>
      if a =? 0 then Some (s, wrote_stderr)
      else
        l ← s_logs s !! a;
        if (l_level l <? level) && negb debug_connection then Some (s, wrote_stderr)
        else if l_writer l then
          s ← ntg_log_memory_writer (l_wdata l) line s;
          write_logs n level debug_connection line (l_next l) s wrote_stderr
        else if now =? l_disk_full l then write_logs n level debug_connection line (l_next l) s wrote_stderr
        else
          i ← l_file l; file ← s_files s !! i;
          let s := emit_log (ToFile (of_fd file) line) s in
          let full := default false (head (s_full s)) in
          let logs := if full then <[a := set_l_disk_full now l]> (s_logs s) else s_logs s in
          let s := LogState logs (s_files s) (s_bufs s) (tail (s_full s)) (s_use_stderr s) (s_out s) in
          write_logs n level debug_connection line (l_next l) s (wrote_stderr || (of_fd file =? ntg_stderr))
  end.

(** [fuel] bounds the number of logs. *)
Definition ntg_log_error_core (fuel : nat) (use_stderr : bool) (level : Z) (a err : Z) (fmt : bytes) (args : list arg) (s : log_state) : option log_state :=
  l ← s_logs s !! a;
  '(line, msg) ← log_line level (l_handler l) err fmt args;
  let debug_connection := negb (Z.land (l_level l) NTG_LOG_DEBUG_CONNECTION =? 0) in
  '(s, wrote_stderr) ← write_logs fuel level debug_connection line a s false;
  if negb use_stderr || (level >? NTG_LOG_WARN) || wrote_stderr then Some s
  else
    name ← err_levels !! Z.to_nat level;
    let back := (7 + length name + 3)%nat in
    if (msg <? back)%nat then None
    else
      let msg := (msg - back)%nat in
      out ← ntg_sprintf 0 (str "ntrig: [%V] " ++ [0]) [AStr name];
      line ← write_at msg out line;
      Some (emit_log (ToConsole (drop msg line)) s).

(** [ntg_log_error]: only when the first log is verbose enough. *)
Definition ntg_log_error (fuel : nat) (use_stderr : bool) (level a err : Z) (fmt : bytes) (args : list arg) (s : log_state) : option log_state :=
  l ← s_logs s !! a;
  if l_level l >=? level then ntg_log_error_core fuel use_stderr level a err fmt args s else Some s.

Definition ntg_log_stderr (err : Z) (fmt : bytes) (args : list arg) (s : log_state) : option log_state :=
  let last := NTG_MAX_ERROR_STR in
  let b := str "ntrig: " in
  out ← ntg_vslprintf (last - Z.of_nat (length b)) fmt args;
  let b := b ++ out in
  b ← (if negb (err =? 0) then ntg_log_errno errlist last err b else Some b);
  Some (emit_log (ToConsole (end_line last b)) s).

End line.

(** ** The chain *)

(** The search for the place behind the head. *)
Fixpoint insert_loop (n : nat) (a new : Z) (s : log_state) : option log_state :=
  match n with
  | O => None
  | S n =>
      l ← s_logs s !! a; new_log ← s_logs s !! new;
      if l_next l =? 0 then Some (set_logs (<[a := set_l_next new l]> (s_logs s)) s)
      else
        next ← s_logs s !! l_next l;
        if l_level new_log >? l_level next then
          Some (set_logs (<[a := set_l_next new l]> (<[new := set_l_next (l_next l) new_log]> (s_logs s))) s)
        else insert_loop n (l_next l) new s
  end.

(** The head stays where it is: the contents are exchanged. *)
Definition ntg_log_insert (fuel : nat) (a new : Z) (s : log_state) : option log_state :=
  l ← s_logs s !! a; new_log ← s_logs s !! new;
  if l_level new_log >? l_level l then Some (set_logs (<[a := set_l_next new new_log]> (<[new := l]> (s_logs s))) s)
  else insert_loop fuel a new s.

(** ** The directive error_log *)

(** The text up to its NUL. *)
Fixpoint upto_nul (s : bytes) : bytes := match s with [] => [] | c :: s => if c =? 0 then [] else c :: upto_nul s end.

(** The level a name stands for, from number [n] on. *)
Fixpoint find_level (n : Z) (names : list bytes) (value : bytes) : option Z :=
  match names with [] => None | name :: names => if bool_decide (value = name) then Some n else find_level (n + 1) names value end.
Fixpoint find_debug (names : list (bytes * Z)) (value : bytes) : option Z :=
  match names with [] => None | (name, d) :: names => if bool_decide (value = name) then Some d else find_debug names value end.

(** One of the levels of a directive: the level of the log, and whether there is no
    error of the configuration. *)
Definition set_level (value : bytes) (level : Z) : Z * bool :=
  let value := upto_nul value in
  let debug level (found : bool) :=
    match find_debug debug_levels value with
    | Some d => if negb (Z.land level (Z.lnot NTG_LOG_DEBUG_ALL) =? 0) then (level, false) else (Z.lor level d, true)
    | None => (level, found)
    end in
  match find_level 1 (tail err_levels) value with
  | Some n => if negb (level =? 0) then (level, false) else debug n true
  | None => debug level false
  end.

Fixpoint set_levels (values : list bytes) (level : Z) : Z * bool :=
  match values with
  | [] => (level, true)
  | v :: values => let '(level, ok) := set_level v level in if ok : bool then set_levels values level else (level, false)
  end.

(** [values] are the arguments behind the name of the file. *)
Definition ntg_log_set_levels (values : list bytes) (level : Z) : Z * bool :=
  match values with
  | [] => (NTG_LOG_ERR, true)
  | _ =>
      let '(level, ok) := set_levels values level in
      if ok : bool then (if level =? NTG_LOG_DEBUG then NTG_LOG_DEBUG_ALL else level, true) else (level, false)
  end.

Definition NTG_ERROR_LOG_PATH : bytes := str "logs/error.log".

(** The file of that name, from place [i] on. *)
Fixpoint find_file (full : bytes) (i : nat) (files : list open_file) : option nat :=
  match files with
  | [] => None
  | f :: files =>
      if (length full =? length (of_name f))%nat && bool_decide (upto_nul full = upto_nul (of_name f)) then Some i
      else find_file full (S i) files
  end.

Section conf.
(** The paths of the cycle, the file that is read and its line; whether there is memory
    for the full name and for the file, and the addresses of what is allocated from the
    pool of the directive, 0 for no memory; the counter of a buffer is what the memory
    had. *)
Context (cycle : paths) (conf_name : bytes) (conf_line : Z).
Context (mem_full mem_file : bool) (log_at buf_at ring_at cleanup_at garbage : Z) (fuel : nat).

(** [ntg_list_push] on the files of the cycle. *)
Definition push_file (file : open_file) (s : log_state) : option (option nat * log_state) :=
  Some (if mem_file then (Some (length (s_files s)), set_files (s_files s ++ [file]) s) else (None, s)).

Definition ntg_conf_open_file (name : bytes) (s : log_state) : option (option nat * log_state) :=
  if negb (length name =? 0)%nat then
    '(rc, full) ← ntg_conf_full_name mem_full name false cycle;
    if negb (rc =? NTG_OK) then Some (None, s)
    else
      match find_file full 0 (s_files s) with
      | Some i => Some (Some i, s)
      | None => push_file (OpenFile full NTG_INVALID_FILE) s
      end
  else push_file (OpenFile name ntg_stderr) s.

(** The file of a log, when it could be opened. *)
Definition give_file (a : Z) (name : bytes) (s : log_state) : option (bool * log_state) :=
  '(file, s) ← ntg_conf_open_file name s;
  l ← s_logs s !! a;
  Some (bool_decide (file <> None), set_logs (<[a := set_l_file file l]> (s_logs s)) s).

Definition change_log (a : Z) (f : log -> log) (s : log_state) : option log_state :=
  l ← s_logs s !! a; Some (set_logs (<[a := f l]> (s_logs s)) s).

(** [new_log] of the cycle is at [a]. *)
Definition ntg_log_open_default (a : Z) (s : log_state) : option (Z * log_state) :=
  found ← ntg_log_get_file_log fuel a s;
  if negb (found =? 0) then Some (NTG_OK, s)
  else
    l ← s_logs s !! a;
    let first := l_level l =? 0 in
    let log := if first then a else log_at in
    if log =? 0 then Some (NTG_ERROR, s)
    else
      let s := if first then s else set_logs (<[log := no_log]> (s_logs s)) s in
      s ← change_log log (set_l_level NTG_LOG_ERR) s;
      '(ok, s) ← give_file log NTG_ERROR_LOG_PATH s;
      if negb ok then Some (NTG_ERROR, s)
      else if log =? a then Some (NTG_OK, s)
      else s ← ntg_log_insert fuel a log s; Some (NTG_OK, s).

(** The buffer of a log in memory: the text before it, and the ring.  The byte before
    the number of an empty size is the colon, which is no unit. *)
Definition memory_log (a : Z) (size_text : bytes) (s : log_state) : option (bool * log_state) :=
  let needed := Z.of_nat (length (str "MEMLOG  :" ++ [LF; 0])) + Z.of_nat (length conf_name) + 20 + 20 + NTG_MAX_ERROR_STR in
  size ← (if bool_decide (size_text = []) then Some NTG_ERROR else ntg_parse_size size_text);
  let size := u64 size in
  if (size =? u64 NTG_ERROR) || (size <? needed) then Some (false, s)
  else if (buf_at =? 0) || (ring_at =? 0) then Some (false, s)
  else
    text ← ntg_slprintf ring_at (ring_at + size) (str "MEMLOG %uz %V:%ui%N" ++ [0]) [AInt size; AStr conf_name; AInt conf_line];
    let buf := MemBuf text (repeat (ch " ") (Z.to_nat size - length text)) garbage in
    if cleanup_at =? 0 then Some (false, s)
    else s ← change_log a (set_l_memory buf_at) s; Some (true, set_bufs (<[buf_at := buf]> (s_bufs s)) s).

(** The log that gets the values: the head while it has no level, or a new one. *)
Definition ntg_log_set_log (head : Z) (values : list bytes) (s : log_state) : option (bool * Z * log_state) :=
  level ← (if head =? 0 then Some 1 else l_level <$> s_logs s !! head);
  let new := if level =? 0 then head else log_at in
  if new =? 0 then Some (false, head, s)
  else
    let s := if level =? 0 then s else set_logs (<[new := no_log]> (s_logs s)) s in
    let head := if head =? 0 then new else head in
    file ← values !! 0%nat;
    '(ok, s) ← (if bool_decide (upto_nul file = str "stderr") then give_file new [] (use_stderr s)
                else if bool_decide (take 7 file = str "memory:") then memory_log new (drop 7 file) s
                else give_file new file s);
    if negb ok then Some (false, head, s)
    else
      l ← s_logs s !! new;
      let '(level, ok) := ntg_log_set_levels (drop 1 values) (l_level l) in
      s ← change_log new (set_l_level level) s;
      if negb ok then Some (false, head, s)
      else if head =? new then Some (true, head, s)
      else s ← ntg_log_insert fuel head new s; Some (true, head, s).

(** [error_log]: the head is the log of the new cycle. *)
Definition ntg_error_log (a : Z) (values : list bytes) (s : log_state) : option (bool * log_state) :=
  '(ok, _, s) ← ntg_log_set_log a values s; Some (ok, s).

End conf.

(** [set_stderr] tells whether the descriptor could be copied; the descriptor is given. *)
Definition ntg_log_redirect_stderr (fuel : nat) (set_stderr : bool) (a : Z) (s : log_state) : option (Z * option Z) :=
  if s_use_stderr s then Some (NTG_OK, None)
  else
    a ← ntg_log_get_file_log fuel a s; l ← s_logs s !! a; i ← l_file l; file ← s_files s !! i;
    if negb (of_fd file =? ntg_stderr) then Some (if set_stderr then NTG_OK else NTG_ERROR, Some (of_fd file)) else Some (NTG_OK, None).

(** ** The first log *)

(** The name of its file; [mem]: there is memory for it. *)
Definition log_path (mem : bool) (prefix : option bytes) : option bytes :=
  let name := NTG_ERROR_LOG_PATH in
  c ← head name;
  if negb (c =? ch "/") then
    let prefix := default NTG_PREFIX prefix in
    match last prefix with
    | None => Some name
    | Some c =>
        if negb mem then None
        else
          let room := repeat 0 (length prefix + length name + 2) in
          let name := prefix ++ (if negb (c =? ch "/") then [ch "/"] else []) ++ name in
          _ ← write_at 0 (name ++ [0]) room; Some name
    end
  else Some name.

(** [open_file] gives the descriptor or -1, and [err] is the error then, which goes to
    the console.  No result means that there is no log. *)
Definition ntg_log_init (errlist : list bytes) (mem : bool) (prefix : option bytes) (open_file : bytes -> Z) (err : Z) (s : log_state) : option (log * Z * log_state) :=
  name ← log_path mem prefix;
  let log := set_l_level NTG_LOG_NOTICE no_log in
  let fd := open_file name in
  if fd =? NTG_INVALID_FILE then
    s ← ntg_log_stderr errlist err (str "[alert] could not open error log file: open() " ++ [34] ++ str "%s" ++ [34] ++ str " failed" ++ [0]) [ACstr (name ++ [0])] s;
    Some (log, ntg_stderr, s)
  else Some (log, fd, s).

(** ** The chain of the logs *)

Fixpoint log_chain (m : gmap Z log) (a : Z) (ls : list (Z * log)) : Prop :=
  match ls with
  | [] => a = 0
  | (x, l) :: ls => x = a /\ a <> 0 /\ m !! a = Some l /\ log_chain m (l_next l) ls
  end.

(** A log without its link. *)
Definition body (l : log) : log := set_l_next 0 l.
Definition bodies (ls : list (Z * log)) : list log := map (fun x => body (snd x)) ls.

Lemma log_chain_frame m m' a ls : log_chain m a ls -> (forall y, y ∈ map fst ls -> m' !! y = m !! y) -> log_chain m' a ls.
Proof.
  revert a. induction ls as [|[x l] ls IH]; intros a H Hf; [exact H|]. destruct H as (-> & Ha & Hl & H). cbn [map fst] in Hf. split; [done|]. split; [done|].
  split; [rewrite Hf by (by left); done|]. apply IH; [done|]. intros y Hy. apply Hf. by right.
Qed.

(** A log goes behind those that are as verbose as itself. *)
Fixpoint ins (n : log) (ls : list log) : list log :=
  match ls with [] => [n] | l :: ls => if l_level n >? l_level l then n :: l :: ls else l :: ins n ls end.

(** In descending order of the levels. *)
Definition descending (ls : list log) : Prop := StronglySorted (fun l k => l_level k <= l_level l) ls.

Lemma ins_perm n ls : Permutation (ins n ls) (n :: ls).
Proof. induction ls as [|l ls IH]; cbn [ins]; [done|]. case_match; [done|]. rewrite IH. apply perm_swap. Qed.

Lemma ins_descending n ls : descending ls -> descending (ins n ls).
Proof.
  unfold descending. induction 1 as [|l ls Hs IH Hl]; cbn [ins]; [repeat constructor|]. destruct (Z.gtb_spec (l_level n) (l_level l)).
  - constructor; [by constructor|]. constructor; [lia|]. eapply Forall_impl; [exact Hl|]. cbn. lia.
  - constructor; [done|]. rewrite ins_perm. by constructor; [lia|].
Qed.

Lemma body_same l : l_next l = 0 -> body l = l.
Proof. destruct l. cbn. intros ->. reflexivity. Qed.

Lemma body_linked v l : l_next l = 0 -> body (set_l_next v l) = l.
Proof. exact (body_same l). Qed.

Section insert.
Context (s : log_state) (new : Z) (n : log) (Hnew : new <> 0) (Hn : s_logs s !! new = Some n) (Hnext : l_next n = 0).

(** The logs that a chain gets, with a new one among them. *)
Definition inserted (a : Z) (ls : list (Z * log)) (contents : list log) (s' : log_state) : Prop :=
  exists m ls', s' = set_logs m s /\ log_chain m a ls' /\ bodies ls' = contents /\ Permutation (map fst ls') (new :: map fst ls) /\
    (forall y, y <> new -> y ∉ map fst ls -> m !! y = s_logs s !! y).

Lemma insert_loop_ok k a l ls : log_chain (s_logs s) a ((a, l) :: ls) -> new ∉ map fst ((a, l) :: ls) -> NoDup (map fst ((a, l) :: ls)) -> (length ls < k)%nat ->
  exists s', insert_loop k a new s = Some s' /\ inserted a ((a, l) :: ls) (body l :: ins n (bodies ls)) s'.
Proof using Hnew Hn Hnext.
  revert a l ls. induction k as [|k IH]; intros a l ls (_ & Ha & Hl & Hc) Hni Hnd Hk; [lia|]. cbn [insert_loop]. rewrite Hl, Hn. cbn [mbind option_bind].
  cbn [map fst] in Hni, Hnd. apply not_elem_of_cons in Hni as [Hna Hni]. apply NoDup_cons in Hnd as [Han Hnd].
  destruct ls as [|[b l2] ls].
  - cbn in Hc. rewrite Hc. cbn [Z.eqb]. eexists. split; [reflexivity|]. exists (<[a := set_l_next new l]> (s_logs s)), [(a, set_l_next new l); (new, n)].
    split; [reflexivity|]. split; [|split; [cbn; by rewrite (body_same n Hnext)|split; [cbn; apply perm_swap|] ] ].
    + cbn. split_and!; try done; [apply lookup_insert_eq|by rewrite lookup_insert_ne by done].
    + intros y Hy Hy2. apply lookup_insert_ne. cbn in Hy2. set_solver.
  - destruct Hc as (Eb & Hb & Hl2 & Hc). rewrite (proj2 (Z.eqb_neq _ _) Hb), Hl2. cbn [mbind option_bind]. subst b. cbn [bodies map snd ins].
    change (l_level (body l2)) with (l_level l2). destruct (l_level n >? l_level l2) eqn:El.
    + eexists. split; [reflexivity|]. exists (<[a := set_l_next new l]> (<[new := set_l_next (l_next l) n]> (s_logs s))), ((a, set_l_next new l) :: (new, set_l_next (l_next l) n) :: (l_next l, l2) :: ls).
      split; [reflexivity|]. split; [|split; [cbn [bodies map snd]; by rewrite (body_linked _ n Hnext)|split; [cbn; apply perm_swap|] ] ].
      * cbn [log_chain l_next set_l_next]. split_and!; try done; [apply lookup_insert_eq|by rewrite lookup_insert_ne, lookup_insert_eq by done| |].
        -- cbn [map fst] in Han, Hni. rewrite !lookup_insert_ne by set_solver. done.
        -- apply (log_chain_frame (s_logs s)); [done|]. intros y Hy. cbn [map fst] in Han, Hni. rewrite !lookup_insert_ne by set_solver. done.
      * intros y Hy Hy2. cbn [map fst] in Hy2. rewrite !lookup_insert_ne by set_solver. done.
    + destruct (IH (l_next l) l2 ls) as (s' & E & m & ls' & -> & Hc' & Hb' & Hp & Hf); [by cbn|done|done|cbn in Hk; lia|].
      exists (set_logs m s). split; [exact E|]. exists m, ((a, l) :: ls'). split; [reflexivity|]. split; [|split; [cbn [bodies map snd]; f_equal; exact Hb'|split] ].
      * cbn [log_chain]. split_and!; try done. by rewrite Hf by done.
      * cbn [map fst]. rewrite Hp. apply perm_swap.
      * intros y Hy Hy2. apply Hf; [done|]. cbn [map fst] in *. set_solver.
Qed.

(** An insertion into the chain is one into the list. *)
Lemma log_insert_ok fuel a ls : log_chain (s_logs s) a ls -> ls <> [] -> new ∉ map fst ls -> NoDup (map fst ls) -> (length ls <= fuel)%nat ->
  exists s', ntg_log_insert fuel a new s = Some s' /\ inserted a ls (ins n (bodies ls)) s'.
Proof using Hnew Hn Hnext.
  intros Hc Hne Hni Hnd Hk. destruct ls as [|[x l] ls]; [done|]. pose proof Hc as (-> & Ha & Hl & Hc2). unfold ntg_log_insert. rewrite Hl, Hn. cbn [mbind option_bind].
  cbn [bodies map snd ins]. change (l_level (body l)) with (l_level l). destruct (l_level n >? l_level l) eqn:El.
  - cbn [map fst] in Hni, Hnd. apply not_elem_of_cons in Hni as [Hna Hni]. apply NoDup_cons in Hnd as [Han Hnd].
    eexists. split; [reflexivity|]. exists (<[a := set_l_next new n]> (<[new := l]> (s_logs s))), ((a, set_l_next new n) :: (new, l) :: ls).
    split; [reflexivity|]. split; [|split; [cbn [bodies map snd]; by rewrite (body_linked _ n Hnext)|split; [cbn; apply perm_swap|] ] ].
    + cbn [log_chain l_next set_l_next]. split_and!; try done; [apply lookup_insert_eq|by rewrite lookup_insert_ne, lookup_insert_eq by done|].
      apply (log_chain_frame (s_logs s)); [done|]. intros y Hy. rewrite !lookup_insert_ne by set_solver. done.
    + intros y Hy Hy2. cbn [map fst] in Hy2. rewrite !lookup_insert_ne by set_solver. done.
  - apply (insert_loop_ok fuel a l ls); [exact Hc|exact Hni|exact Hnd|cbn in Hk; lia].
Qed.
End insert.

(** ** The levels of a directive *)

Definition level_of (v : bytes) : option Z := find_level 1 (tail err_levels) (upto_nul v).
Definition debug_of (v : bytes) : option Z := find_debug debug_levels (upto_nul v).

Lemma find_level_elem k names v n : find_level k names v = Some n -> v ∈ names /\ k <= n < k + Z.of_nat (length names).
Proof.
  revert k. induction names as [|name names IH]; intros k; cbn [find_level]; [done|]. case_bool_decide as E.
  - intros [= <-]. subst. split; [left|cbn [length]; lia].
  - intros H%IH. destruct H as [H1 H2]. split; [by right|cbn [length]; lia].
Qed.

Lemma find_debug_elem names v d : find_debug names v = Some d -> (v, d) ∈ names.
Proof.
  induction names as [|[name d'] names IH]; cbn [find_debug]; [done|]. case_bool_decide as E; [intros [= <-]; subst; left|intros H%IH; by right].
Qed.

(** The bits of the debug levels are not those of the plain ones. *)
Lemma plain_level v n : level_of v = Some n -> 1 <= n <= 8 /\ Z.land n (Z.lnot NTG_LOG_DEBUG_ALL) <> 0 /\ debug_of v = None.
Proof.
  intros [H1 H2]%find_level_elem. cbn [length tail err_levels] in H2. split; [lia|]. split.
  - assert (Hn : n ∈ [1; 2; 3; 4; 5; 6; 7; 8]) by (rewrite !elem_of_cons; lia). clear H1 H2. revert n Hn. apply Forall_forall. repeat constructor; discriminate.
  - unfold debug_of. revert H1. generalize (upto_nul v). apply Forall_forall. repeat constructor.
Qed.

Definition debug_bits (d : Z) : Prop := d <> 0 /\ Z.land d (Z.lnot NTG_LOG_DEBUG_ALL) = 0.

Lemma debug_level v d : debug_of v = Some d -> debug_bits d.
Proof.
  intros H%find_debug_elem. assert (Hall : Forall (fun p => debug_bits (snd p)) debug_levels) by (repeat constructor; discriminate).
  exact (proj1 (Forall_forall _ _) Hall _ H).
Qed.

Lemma debug_bits_lor a d : Z.land a (Z.lnot NTG_LOG_DEBUG_ALL) = 0 -> debug_bits d -> debug_bits (Z.lor a d).
Proof. intros Ha [Hd H]. split; [intros [_ ?]%Z.lor_eq_0_iff; done|]. by rewrite Z.land_lor_distr_l, Ha, H. Qed.

(** One more value, on what the ones before have left. *)
Lemma set_level_spec v level : set_level v level =
  match level_of v with
  | Some n => if level =? 0 then (n, true) else (level, false)
  | None => match debug_of v with
            | Some d => if Z.land level (Z.lnot NTG_LOG_DEBUG_ALL) =? 0 then (Z.lor level d, true) else (level, false)
            | None => (level, false)
            end
  end.
Proof.
  unfold set_level. cbv zeta. fold (level_of v) (debug_of v). destruct (level_of v) as [n|] eqn:E; [|by destruct (debug_of v), (Z.land level (Z.lnot NTG_LOG_DEBUG_ALL) =? 0)].
  destruct (plain_level v n E) as (_ & _ & Ed). rewrite Ed. by destruct (level =? 0).
Qed.

Lemma set_levels_debug vs level r : debug_bits level ->
  set_levels vs level = (r, true) <-> exists ds, Forall2 (fun v d => debug_of v = Some d /\ level_of v = None) vs ds /\ r = fold_left Z.lor ds level.
Proof.
  revert level. induction vs as [|v vs IH]; intros level Hb; cbn [set_levels].
  - split; [intros [= <-]; by exists []|]. intros (ds & H & ->). inversion H. reflexivity.
  - rewrite set_level_spec. destruct (level_of v) as [n|] eqn:El.
    + destruct Hb as [Hb0 _]. rewrite (proj2 (Z.eqb_neq _ _) Hb0). split; [discriminate|]. intros (ds & H & _). inversion H. naive_solver.
    + destruct (debug_of v) as [d|] eqn:Ed; [|split; [discriminate|]; intros (ds & H & _); inversion H; naive_solver].
      rewrite (proj2 Hb). cbn [Z.eqb]. rewrite IH by (apply debug_bits_lor; [apply Hb|by apply (debug_level v)]). split.
      * intros (ds & H & ->). exists (d :: ds). split; [by constructor|reflexivity].
      * intros (ds & H & ->). inversion H as [|? d' ? ds' [E' _] H']; subst. rewrite Ed in E'. injection E' as <-. by exists ds'.
Qed.

Lemma set_levels_plain vs level r : Z.land level (Z.lnot NTG_LOG_DEBUG_ALL) <> 0 -> set_levels vs level = (r, true) <-> vs = [] /\ r = level.
Proof.
  intros Hb. assert (H0 : level <> 0) by (by intros ->). destruct vs as [|v vs]; cbn [set_levels]; [naive_solver|]. rewrite set_level_spec.
  rewrite (proj2 (Z.eqb_neq _ _) H0), (proj2 (Z.eqb_neq _ _) Hb). destruct (level_of v), (debug_of v); naive_solver.
Qed.

Lemma debug_lor ds level : debug_bits level -> Forall debug_bits ds -> debug_bits (fold_left Z.lor ds level).
Proof. intros Hb H. revert level Hb. induction H as [|d ds Hd _ IH]; intros level Hb; [done|]. apply IH, debug_bits_lor; [apply Hb|done]. Qed.

(** All of the values are debug levels. *)
Definition all_debug (vs : list bytes) (ds : list Z) : Prop := Forall2 (fun v d => debug_of v = Some d /\ level_of v = None) vs ds.

Lemma all_debug_lor vs ds d : debug_bits d -> all_debug vs ds -> (fold_left Z.lor ds d =? NTG_LOG_DEBUG) = false.
Proof.
  intros Hd H. assert (Hall : debug_bits (fold_left Z.lor ds d)).
  { apply debug_lor; [done|]. induction H as [|? ? ? ? [E _] _ IH]; constructor; [exact (debug_level _ _ E)|exact IH]. }
  apply Z.eqb_neq. intros E8. destruct Hall as [_ Hall]. by rewrite E8 in Hall.
Qed.

(** The directive takes one level, of which debug is all of the debug levels, or any
    number of debug levels, which are joined; without one it is the level of errors; and
    everything else is an error. *)
Theorem set_levels_correct values r :
  ntg_log_set_levels values 0 = (r, true) <->
  values = [] /\ r = NTG_LOG_ERR \/
  (exists v n, values = [v] /\ level_of v = Some n /\ r = if n =? NTG_LOG_DEBUG then NTG_LOG_DEBUG_ALL else n) \/
  (exists ds, values <> [] /\ all_debug values ds /\ r = fold_left Z.lor ds 0).
Proof.
  destruct values as [|v vs]; [cbn; naive_solver|]. unfold ntg_log_set_levels. cbn [set_levels]. rewrite set_level_spec. cbn [Z.eqb].
  destruct (level_of v) as [n|] eqn:El.
  - destruct (plain_level v n El) as (Hn & Hb & Hd). pose proof (set_levels_plain vs n) as P. destruct (set_levels vs n) as [r' ok]. split.
    + destruct ok; [|discriminate]. intros [= <-]. destruct (proj1 (P r' Hb) eq_refl) as [-> ->]. right; left. by exists v, n.
    + intros [ [? _]|[(v' & n' & [= <- ->] & E & ->)|(ds & _ & H & _)] ]; [done| |inversion H; naive_solver].
      rewrite El in E. injection E as <-. pose proof (proj2 (P n Hb) (conj eq_refl eq_refl)) as [= -> ->]. by destruct (n =? NTG_LOG_DEBUG).
  - destruct (debug_of v) as [d|] eqn:Ed.
    + assert (Hd : debug_bits d) by exact (debug_level v d Ed). change (Z.land 0 (Z.lnot NTG_LOG_DEBUG_ALL)) with 0. cbn [Z.eqb]. change (Z.lor 0 d) with d.
      pose proof (set_levels_debug vs d) as P. destruct (set_levels vs d) as [r' ok]. split.
      * destruct ok; [|discriminate]. intros H. destruct (proj1 (P r' Hd) eq_refl) as (ds & H2 & ->). right; right. exists (d :: ds). split; [done|]. split; [by constructor|].
        rewrite (all_debug_lor vs ds d Hd H2) in H. by injection H.
      * intros [ [? _]|[(v' & n' & [= <- ->] & E & _)|(ds & _ & H & ->)] ]; [done|congruence|]. inversion H as [|? d' ? ds' [E _] H2]; subst. rewrite Ed in E. injection E as <-.
        pose proof (proj2 (P (fold_left Z.lor ds' d) Hd) (ex_intro _ ds' (conj H2 eq_refl))) as [= -> ->]. rewrite (all_debug_lor vs ds' d Hd H2). reflexivity.
    + split; [discriminate|]. intros [ [? _]|[(v' & n' & [= <- ->] & E & ->)|(ds & _ & H & _)] ]; [done|congruence|inversion H; naive_solver].
Qed.

(** ** A line in memory *)

(** The ring with a line at the place of the counter. *)
Definition ring_put (p : nat) (buf ring : bytes) : bytes :=
  let avail := (length ring - p)%nat in
  if (length buf <=? avail)%nat then take p ring ++ buf ++ drop (p + length buf) ring
  else drop avail buf ++ drop (length buf - avail) (take p ring ++ take avail buf).

Definition ring_place (mem : mem_buf) : nat := Z.to_nat (mb_written mem mod Z.of_nat (length (mb_ring mem))).

Definition mem_put (line : bytes) (mem : mem_buf) : mem_buf :=
  MemBuf (mb_head mem) (ring_put (ring_place mem) line (mb_ring mem)) (u64 (mb_written mem + Z.of_nat (length line))).

Lemma length_ring_put p buf ring : (p < length ring)%nat -> (length buf <= length ring)%nat -> length (ring_put p buf ring) = length ring.
Proof.
  intros Hp Hb. unfold ring_put. cbv zeta. destruct (Nat.leb_spec (length buf) (length ring - p)); rewrite !length_app, ?length_drop, ?length_app, ?length_take; lia.
Qed.

(** The line can be read where it was written, around the end. *)
Lemma ring_put_reads p buf ring i : (p < length ring)%nat -> (length buf <= length ring)%nat -> (i < length buf)%nat ->
  ring_put p buf ring !! ((p + i) mod length ring)%nat = buf !! i.
Proof.
  intros Hp Hb Hi. unfold ring_put. cbv zeta. destruct (Nat.leb_spec (length buf) (length ring - p)) as [H|H].
  - rewrite Nat.mod_small by lia. rewrite lookup_app_r by (rewrite length_take; lia). rewrite length_take.
    replace (p + i - p `min` length ring)%nat with i by lia. by rewrite lookup_app_l by lia.
  - destruct (decide (p + i < length ring)%nat).
    + rewrite Nat.mod_small by lia. rewrite lookup_app_r by (rewrite length_drop; lia). rewrite length_drop, lookup_drop.
      rewrite lookup_app_r by (rewrite length_take; lia). rewrite length_take, lookup_take_lt by lia. f_equal. lia.
    + assert (E : ((p + i) mod length ring = p + i - length ring)%nat).
      { replace (p + i)%nat with (p + i - length ring + 1 * length ring)%nat at 1 by lia. rewrite Nat.Div0.mod_add, Nat.mod_small by lia. reflexivity. }
      rewrite E, lookup_app_l by (rewrite length_drop; lia). rewrite lookup_drop. f_equal. lia.
Qed.

(** The rest of the ring is left alone. *)
Lemma ring_put_other p buf ring j : (p < length ring)%nat -> (length buf <= length ring)%nat -> (j < length ring)%nat ->
  (forall i, (i < length buf)%nat -> j <> ((p + i) mod length ring)%nat) -> ring_put p buf ring !! j = ring !! j.
Proof.
  intros Hp Hb Hj Hn. assert (H1 : ~ (p <= j < p + length buf)%nat).
  { intros H. apply (Hn (j - p)%nat); [lia|]. rewrite Nat.mod_small; lia. }
  assert (H2 : ~ (j + length ring < p + length buf)%nat).
  { intros H. apply (Hn (j + length ring - p)%nat); [lia|]. replace (p + (j + length ring - p))%nat with (j + 1 * length ring)%nat by lia. rewrite Nat.Div0.mod_add, Nat.mod_small by lia. reflexivity. }
  unfold ring_put. cbv zeta. destruct (Nat.leb_spec (length buf) (length ring - p)) as [H|H].
  - destruct (decide (j < p)%nat); [rewrite lookup_app_l by (rewrite length_take; lia); by rewrite lookup_take_lt by lia|].
    rewrite lookup_app_r by (rewrite length_take; lia). rewrite lookup_app_r by (rewrite length_take; lia). rewrite lookup_drop, length_take. f_equal. lia.
  - rewrite lookup_app_r by (rewrite length_drop; lia). rewrite length_drop, lookup_drop.
    rewrite lookup_app_l by (rewrite length_take; lia). rewrite lookup_take_lt by lia. f_equal. lia.
Qed.

Lemma memory_writer_ok wdata mem line s : wdata <> 0 -> s_bufs s !! wdata = Some mem -> (0 < length (mb_ring mem))%nat -> (length line <= length (mb_ring mem))%nat -> 0 <= mb_written mem ->
  ntg_log_memory_writer wdata line s = Some (set_bufs (<[wdata := mem_put line mem]> (s_bufs s)) s).
Proof.
  intros Hw Hm H0 Hl Hwr. unfold ntg_log_memory_writer. rewrite (proj2 (Z.eqb_neq _ _) Hw), Hm. cbn [mbind option_bind].
  rewrite (proj2 (Nat.eqb_neq _ _)) by lia. fold (ring_place mem). assert (Hp : (ring_place mem < length (mb_ring mem))%nat).
  { unfold ring_place. pose proof (Z.mod_pos_bound (mb_written mem) (Z.of_nat (length (mb_ring mem))) ltac:(lia)). lia. }
  unfold mem_put, ring_put. cbv zeta. set (p := ring_place mem) in *. destruct (Nat.leb_spec (length line) (length (mb_ring mem) - p)).
  - unfold write_at. rewrite (proj2 (Nat.leb_le _ _)) by lia. reflexivity.
  - unfold write_at. rewrite length_take, (proj2 (Nat.leb_le (p + _) _)) by lia. cbn [mbind option_bind].
    rewrite !length_app, !length_take, !length_drop, (proj2 (Nat.leb_le (0 + _) _)) by lia. cbn [mbind option_bind]. rewrite take_0, app_nil_l.
    rewrite (drop_ge (mb_ring mem)) by lia. rewrite app_nil_r. reflexivity.
Qed.

(** ** Who gets a line *)

Definition reached (level : Z) (ls : list (Z * log)) : list (Z * log) := List.filter (fun x => level <=? l_level (snd x)) ls.

(** The descriptor a log writes to, unless its file system was full in this second. *)
Definition target (now : Z) (files : list open_file) (l : log) : list Z :=
  if l_writer l || (now =? l_disk_full l) then []
  else match i ← l_file l; files !! i with Some f => [of_fd f] | None => [] end.
Definition targets now files (ls : list (Z * log)) : list Z := concat (map (fun x => target now files (snd x)) ls).

Definition put_line (line : bytes) (bufs : gmap Z mem_buf) (l : log) : gmap Z mem_buf :=
  if l_writer l && negb (l_wdata l =? 0) then alter (mem_put line) (l_wdata l) bufs else bufs.

(** A log has a file, or a ring that has room for every line. *)
Definition log_ok (files : list open_file) (bufs : gmap Z mem_buf) (l : log) : Prop :=
  if l_writer l then l_wdata l = 0 \/ exists mem, bufs !! l_wdata l = Some mem /\ NTG_MAX_ERROR_STR <= Z.of_nat (length (mb_ring mem)) /\ 0 <= mb_written mem
  else exists i f, l_file l = Some i /\ files !! i = Some f.

Lemma mem_put_length line mem : Z.of_nat (length line) <= NTG_MAX_ERROR_STR -> NTG_MAX_ERROR_STR <= Z.of_nat (length (mb_ring mem)) ->
  length (mb_ring (mem_put line mem)) = length (mb_ring mem).
Proof.
  intros Hl Hm. unfold NTG_MAX_ERROR_STR in *. apply length_ring_put; [|lia]. unfold ring_place.
  pose proof (Z.mod_pos_bound (mb_written mem) (Z.of_nat (length (mb_ring mem))) ltac:(lia)). lia.
Qed.

Lemma put_line_ok files bufs line l k : Z.of_nat (length line) <= NTG_MAX_ERROR_STR -> log_ok files bufs k -> log_ok files (put_line line bufs l) k.
Proof.
  intros Hl. unfold log_ok. case_match; [|done]. intros [?|(mem & Hm & Hr & Hw)]; [by left|right]. unfold put_line. case_match; [|by exists mem].
  destruct (decide (l_wdata l = l_wdata k)) as [->|].
  - rewrite lookup_alter_eq, Hm. eexists. split; [reflexivity|]. rewrite mem_put_length by done. split; [done|]. cbn [mb_written mem_put]. mlia.
  - rewrite lookup_alter_ne by done. by exists mem.
Qed.

(** What a line may change of a log. *)
Definition same_but_full (x y : Z * log) : Prop := fst x = fst y /\ set_l_disk_full 0 (snd x) = set_l_disk_full 0 (snd y).

Lemma same_refl ls : Forall2 same_but_full ls ls.
Proof. induction ls; constructor; done. Qed.

Section write.
Context (now level : Z) (line : bytes) (Hline : Z.of_nat (length line) <= NTG_MAX_ERROR_STR).

Lemma reached_none x l ls : descending (bodies ((x, l) :: ls)) -> l_level l < level -> reached level ((x, l) :: ls) = [].
Proof using Type.
  clear Hline. intros Hd Hl. unfold reached. cbn [List.filter snd]. rewrite (proj2 (Z.leb_gt _ _)) by lia. cbn [bodies map snd] in Hd. apply StronglySorted_inv in Hd as [_ Hd].
  induction ls as [|[y k] ls IH]; [done|]. cbn [map snd] in Hd. apply Forall_cons in Hd as [Hk Hd]. cbn [l_level body set_l_next] in Hk.
  cbn [List.filter snd]. rewrite (proj2 (Z.leb_gt _ _)) by lia. apply IH, Hd.
Qed.

Definition written_by (a : Z) (ls : list (Z * log)) (s : log_state) (wrote : bool) (res : log_state * bool) : Prop :=
  let '(s', w) := res in let r := reached level ls in
  w = wrote || existsb (fun fd => fd =? ntg_stderr) (targets now (s_files s) r) /\
  s_out s' = s_out s ++ map (fun fd => ToFile fd line) (targets now (s_files s) r) /\
  s_bufs s' = fold_left (fun bufs x => put_line line bufs (snd x)) r (s_bufs s) /\
  s_files s' = s_files s /\ s_use_stderr s' = s_use_stderr s /\
  (forall y, y ∉ map fst ls -> s_logs s' !! y = s_logs s !! y) /\
  exists ls', log_chain (s_logs s') a ls' /\ Forall2 same_but_full ls ls'.

(** What the loop does for one log. *)
Record stepped (x : Z) (l : log) (s : log_state) (wrote : bool) (s1 : log_state) (w1 : bool) : Prop := {
  st_log : exists l1, s_logs s1 !! x = Some l1 /\ set_l_disk_full 0 l = set_l_disk_full 0 l1;
  st_wrote : w1 = wrote || existsb (fun fd => fd =? ntg_stderr) (target now (s_files s) l);
  st_out : s_out s1 = s_out s ++ map (fun fd => ToFile fd line) (target now (s_files s) l);
  st_bufs : s_bufs s1 = put_line line (s_bufs s) l;
  st_files : s_files s1 = s_files s;
  st_use : s_use_stderr s1 = s_use_stderr s;
  st_other : forall y, y <> x -> s_logs s1 !! y = s_logs s !! y }.

Lemma write_step x l ls s s1 wrote w1 s' w : stepped x l s wrote s1 w1 -> x <> 0 -> level <= l_level l -> x ∉ map fst ls ->
  written_by (l_next l) ls s1 w1 (s', w) -> written_by x ((x, l) :: ls) s wrote (s', w).
Proof using Type.
  intros [(l1 & E & Hs) Hw Ho Hb Hf Hu Hm] H0 Hl Hn (W1 & W2 & W3 & W4 & W5 & W6 & ls' & W7 & W8). unfold written_by. unfold reached in *. cbn [List.filter snd].
  rewrite (proj2 (Z.leb_le _ _) Hl). unfold targets in *. cbn [map snd concat fold_left]. rewrite Hf in *. split; [|split; [|split; [|split; [|split; [|split] ] ] ] ].
  - rewrite W1, Hw, existsb_app, orb_assoc. reflexivity.
  - rewrite W2, Ho, map_app, app_assoc. reflexivity.
  - rewrite W3, Hb. reflexivity.
  - exact W4.
  - congruence.
  - intros y Hy. cbn [map fst] in Hy. apply not_elem_of_cons in Hy as [Hy1 Hy2]. rewrite W6 by done. by apply Hm.
  - exists ((x, l1) :: ls'). split; [|by constructor]. cbn [log_chain]. split; [done|]. split; [done|]. split; [by rewrite W6|].
    assert (En : l_next l1 = l_next l) by (change (l_next l1) with (l_next (set_l_disk_full 0 l1)); rewrite <-Hs; done). by rewrite En.
Qed.

Lemma write_one x l s wrote : x <> 0 -> s_logs s !! x = Some l -> level <= l_level l -> log_ok (s_files s) (s_bufs s) l ->
  exists s1 w1, stepped x l s wrote s1 w1 /\ forall k, write_logs now (S k) level false line x s wrote = write_logs now k level false line (l_next l) s1 w1.
Proof using Hline.
  intros Hx Hl Hle Hok. cbn [write_logs]. rewrite (proj2 (Z.eqb_neq _ _) Hx), Hl. cbn [mbind option_bind]. rewrite (proj2 (Z.ltb_ge _ _)) by lia. cbn [andb].
  unfold log_ok in Hok. destruct (l_writer l) eqn:Ew.
  - assert (Et : target now (s_files s) l = []) by (unfold target; by rewrite Ew). destruct (Z.eqb_spec (l_wdata l) 0) as [E0|Hw0].
    + exists s, wrote. split; [|unfold ntg_log_memory_writer; by rewrite E0]. split; rewrite ?Et; cbn; rewrite ?app_nil_r, ?orb_false_r; try done; [by exists l|]. unfold put_line. by rewrite E0, andb_false_r.
    + destruct Hok as [?|(mem & Hm & Hr & Hwr)]; [done|]. exists (set_bufs (put_line line (s_bufs s) l) s), wrote. split.
      { split; rewrite ?Et; cbn; rewrite ?app_nil_r, ?orb_false_r; try done. by exists l. }
      intros k. unfold NTG_MAX_ERROR_STR in *. rewrite (memory_writer_ok (l_wdata l) mem line s) by (done || lia). cbn [mbind option_bind]. do 2 f_equal.
      unfold put_line. rewrite Ew, (proj2 (Z.eqb_neq _ _) Hw0). cbn [andb negb]. apply map_eq. intros i.
      destruct (decide (l_wdata l = i)) as [<-|]; [by rewrite lookup_insert_eq, lookup_alter_eq, Hm|by rewrite lookup_insert_ne, lookup_alter_ne by done].
  - assert (Ep : put_line line (s_bufs s) l = s_bufs s) by (unfold put_line; by rewrite Ew). destruct (Z.eqb_spec now (l_disk_full l)) as [En|Hne].
    + assert (Et : target now (s_files s) l = []) by (unfold target; by rewrite <-En, Z.eqb_refl, orb_true_r). exists s, wrote. split; [|done].
      split; rewrite ?Et, ?Ep; cbn; rewrite ?app_nil_r, ?orb_false_r; try done. by exists l.
    + destruct Hok as (i & f & Ei & Ef). assert (Et : target now (s_files s) l = [of_fd f]) by (unfold target; by rewrite Ew, (proj2 (Z.eqb_neq _ _) Hne), Ei; cbn; rewrite Ef).
      rewrite Ei. cbn [mbind option_bind]. rewrite Ef. cbn [mbind option_bind]. eexists _, _. split; [|intros k; reflexivity].
      split; rewrite ?Et, ?Ep; cbn; rewrite ?orb_false_r; try done.
      * destruct (default false (head (s_full s))); [rewrite lookup_insert_eq; by eexists|by exists l].
      * intros y Hy. destruct (default false (head (s_full s))); [by rewrite lookup_insert_ne by done|done].
Qed.

Lemma write_logs_ok k a ls s wrote :
  log_chain (s_logs s) a ls -> NoDup (map fst ls) -> descending (bodies ls) -> Forall (fun x => log_ok (s_files s) (s_bufs s) (snd x)) ls -> (length ls < k)%nat ->
  exists res, write_logs now k level false line a s wrote = Some res /\ written_by a ls s wrote res.
Proof using Hline.
  revert a ls s wrote. induction k as [|k IH]; intros a ls s wrote Hc Hn Hd Hok Hk; [lia|]. destruct ls as [|[x l] ls].
  { cbn in Hc. subst a. eexists. split; [reflexivity|]. unfold written_by. cbn. rewrite app_nil_r, orb_false_r. split_and!; try done. by exists []. }
  destruct Hc as (-> & Ha & Hl & Hc). cbn [map fst] in Hn. apply NoDup_cons in Hn as [Hxn Hn]. destruct (Z.lt_ge_cases (l_level l) level) as [Hlt|Hge].
  { cbn [write_logs]. rewrite (proj2 (Z.eqb_neq _ _) Ha), Hl. cbn [mbind option_bind]. rewrite (proj2 (Z.ltb_lt _ _) Hlt). cbn [andb negb].
    eexists. split; [reflexivity|]. unfold written_by. rewrite (reached_none a l ls Hd Hlt). cbn. rewrite app_nil_r, orb_false_r. split_and!; try done. exists ((a, l) :: ls). split; [done|apply same_refl]. }
  apply Forall_cons in Hok as [Hokl Hok]. cbn [snd] in Hokl. apply StronglySorted_inv in Hd as [Hd _]. cbn [length] in Hk.
  destruct (write_one a l s wrote Ha Hl Hge Hokl) as (s1 & w1 & St & E). rewrite E. destruct (IH (l_next l) ls s1 w1) as ([s' w] & -> & W); [|done|done| |lia|].
  - apply (log_chain_frame (s_logs s)); [done|]. intros y Hy. apply St. intros ->. done.
  - rewrite (st_files _ _ _ _ _ _ St), (st_bufs _ _ _ _ _ _ St). eapply Forall_impl; [exact Hok|]. intros y Hy. by apply put_line_ok.
  - eexists. split; [reflexivity|]. by apply (write_step a l ls s s1 wrote w1).
Qed.
End write.

(** ** The text of a line *)

Lemma print_pieces last ps b : Forall piece_ok ps -> Z.of_nat (length b) + Z.of_nat (length (pieces_out ps)) < last ->
  print last (concat (map piece_fmt ps)) (pieces_args ps) b = Some (b ++ pieces_out ps).
Proof.
  intros Hok Hl. unfold print, ntg_slprintf. change (concat (map piece_fmt ps) ++ [0]) with (pieces_fmt ps).
  rewrite ntg_vslprintf_pieces; [reflexivity|done|]. apply pieces_room_enough. lia.
Qed.

Ltac each_piece := repeat first [apply List.Forall_nil | apply List.Forall_cons; [first [by apply text_piece_ok | apply var_piece_ok | by apply pid_piece_ok | apply int_piece_ok; [constructor|lia] ]|] ].

Lemma prefix_of_take (p l : bytes) n : p `prefix_of` l -> (length p <= n)%nat -> p `prefix_of` take n l.
Proof. intros [r ->] H. rewrite take_app_ge by done. by eexists. Qed.

Lemma end_line_ok b : length (end_line NTG_MAX_ERROR_STR b) <> 0%nat /\ Z.of_nat (length (end_line NTG_MAX_ERROR_STR b)) <= NTG_MAX_ERROR_STR /\
  end_line NTG_MAX_ERROR_STR b = take 2047 b ++ [LF].
Proof.
  assert (E : end_line NTG_MAX_ERROR_STR b = take 2047 b ++ [LF]).
  { unfold end_line, NTG_MAX_ERROR_STR. f_equal. destruct (Z.gtb_spec (Z.of_nat (length b)) (2048 - 1)); [reflexivity|]. by rewrite take_ge by lia. }
  rewrite E, length_app, length_take. unfold NTG_MAX_ERROR_STR. cbn [length]. split_and!; [lia|lia|done].
Qed.

Section text.
Context (err_log_time : bytes) (ntg_log_pid : Z) (errlist : list bytes).
Context (Htime : length err_log_time = 19%nat) (Hpid : 0 <= ntg_log_pid < 2147483648) (Herrs : (135 <= length errlist)%nat).

(** What comes before the message. *)
Definition line_prefix (name : bytes) : bytes := err_log_time ++ str " [" ++ name ++ str "] " ++ decimal ntg_log_pid ++ str ": ".

Lemma length_prefix name : (length name <= 6)%nat -> (length name + 10 <= length (line_prefix name) <= 41)%nat.
Proof using Htime Hpid.
  clear Herrs.
  intros Hn. pose proof (length_decimal ntg_log_pid 10 ltac:(lia) ltac:(lia)). unfold line_prefix. rewrite !length_app, Htime. cbn [length str]. lia.
Qed.

Lemma errno_ok err b : 0 < err < 2147483648 -> Z.of_nat (length b) <= NTG_MAX_ERROR_STR ->
  exists b', ntg_log_errno errlist NTG_MAX_ERROR_STR err b = Some b' /\ Z.of_nat (length b') <= NTG_MAX_ERROR_STR /\ take 1998 b `prefix_of` b'.
Proof using Herrs.
  clear Htime Hpid. intros He Hb. unfold NTG_MAX_ERROR_STR in *. unfold ntg_log_errno.
  set (b0 := if _ >? _ then _ else b). assert (H0 : Z.of_nat (length b0) <= 2001 /\ take 1998 b `prefix_of` b0).
  { unfold b0. destruct (Z.gtb_spec (Z.of_nat (length b)) (2048 - 50)).
    - rewrite length_app, length_take. cbn [length str]. split; [lia|]. by exists (str "...").
    - split; [lia|]. exists (drop 1998 b). symmetry. apply take_drop. }
  destruct H0 as [H0 P0]. clearbody b0. set (ps := [PText (str " ("); PInt (str "d") (ch " ") 0 err; PText (str ": ")]).
  assert (Hlen : Z.of_nat (length (pieces_out ps)) <= 24).
  { pose proof (length_filled_max (ch " ") 0 err ltac:(lia) ltac:(lia)). unfold ps, pieces_out. cbn [map concat piece_out PInt]. rewrite !length_app. cbn [length str]. lia. }
  assert (Hok : Forall piece_ok ps) by (unfold ps; each_piece).
  assert (Ep : print 2048 (str " (%d: ") [AInt err] b0 = Some (b0 ++ pieces_out ps)) by exact (print_pieces 2048 ps b0 Hok ltac:(lia)).
  rewrite Ep. cbn [mbind option_bind]. set (b1 := b0 ++ pieces_out ps). assert (H1 : Z.of_nat (length b1) <= 2025) by (unfold b1; rewrite length_app; lia).
  assert (Hm : exists msg, ntg_strerror errlist err (2048 - Z.of_nat (length b1)) = Some msg /\ Z.of_nat (length msg) <= 2048 - Z.of_nat (length b1)).
  { unfold ntg_strerror. rewrite !u64_small by (width; lia). assert (Hs : exists t, (if err <? NTG_SYS_NERR then errlist !! Z.to_nat err else Some (str "Unknown error")) = Some t).
    { unfold NTG_SYS_NERR. destruct (Z.ltb_spec err 135); [apply lookup_lt_is_Some_2; lia|by eexists]. }
    destruct Hs as [t ->]. cbn [mbind option_bind]. eexists. split; [reflexivity|]. rewrite length_take. lia. }
  destruct Hm as (msg & -> & Hm). cbn [mbind option_bind]. eexists. split; [reflexivity|].
  assert (P1 : take 1998 b `prefix_of` b1 ++ msg) by (destruct P0 as [r ->]; unfold b1; rewrite <-!app_assoc; by eexists).
  destruct (Z.ltb_spec (Z.of_nat (length (b1 ++ msg))) 2048); rewrite ?length_app in *; cbn [length]; (split; [lia|]); [|done].
  destruct P1 as [r ->]. rewrite <-app_assoc. by eexists.
Qed.

(** A line: it fits, and is the message behind its prefix, as far as there is room. *)
Lemma log_line_ok level name handler err fmt args out :
  err_levels !! Z.to_nat level = Some name -> 0 <= err < 2147483648 ->
  (forall h n, handler = Some h -> 0 <= n -> Z.of_nat (length (h n)) <= n) ->
  ntg_vslprintf (NTG_MAX_ERROR_STR - Z.of_nat (length (line_prefix name))) fmt args = Some out ->
  exists line, log_line err_log_time ntg_log_pid errlist level handler err fmt args = Some (line, length (line_prefix name)) /\
    Z.of_nat (length line) <= NTG_MAX_ERROR_STR /\ line_prefix name `prefix_of` line /\ last line = Some LF /\
    (err = 0 -> handler = None -> line = take 2047 (line_prefix name ++ out) ++ [LF]).
Proof using Htime Hpid Herrs.
  intros Hname He Hh Hout. assert (Hn : (length name <= 6)%nat).
  { assert (Hall : Forall (fun n => (length n <= 6)%nat) err_levels) by (repeat constructor; cbn; lia). apply (Forall_lookup_1 _ _ _ _ Hall Hname). }
  pose proof (length_prefix name Hn) as Hp. unfold log_line. rewrite Hname. cbn [mbind option_bind]. unfold write_at. rewrite repeat_length, Htime.
  change (0 + 19 <=? Z.to_nat NTG_MAX_ERROR_STR)%nat with true. cbn [mbind option_bind]. unfold NTG_MAX_ERROR_STR in *.
  set (p1 := [PText (str " ["); PVar name; PText (str "] ")]). set (p2 := [PPid ntg_log_pid; PText (str ": ")]).
  assert (L : length (err_log_time ++ pieces_out p1) = (23 + length name)%nat) by (rewrite length_app, Htime; unfold p1, pieces_out; cbn [map concat piece_out PVar]; rewrite !length_app; cbn [length str]; lia).
  assert (E1 : print 2048 (str " [%V] ") [AStr name] err_log_time = Some (err_log_time ++ pieces_out p1)).
  { refine (print_pieces 2048 p1 err_log_time _ _); [unfold p1; each_piece|]. rewrite <-Nat2Z.inj_add, <-length_app, L. lia. }
  assert (Ew : line_prefix name = (err_log_time ++ pieces_out p1) ++ pieces_out p2).
  { unfold line_prefix, p1, p2, pieces_out. cbn [map concat piece_out PVar PPid]. rewrite !app_nil_r, <-!app_assoc. reflexivity. }
  assert (E2 : print 2048 (str "%P: ") [AInt ntg_log_pid] (err_log_time ++ pieces_out p1) = Some (line_prefix name)).
  { rewrite Ew. refine (print_pieces 2048 p2 _ _ _); [unfold p2; each_piece|]. rewrite <-Nat2Z.inj_add, <-length_app, <-Ew. lia. }
  rewrite E1. cbn [mbind option_bind]. rewrite E2. cbn [mbind option_bind]. rewrite Hout. cbn [mbind option_bind].
  assert (Ho : Z.of_nat (length (line_prefix name ++ out)) <= 2048) by (rewrite length_app; apply vslprintf_loop_bound in Hout; lia).
  assert (Hb : exists b, (if negb (err =? 0) then ntg_log_errno errlist 2048 err (line_prefix name ++ out) else Some (line_prefix name ++ out)) = Some b /\
    Z.of_nat (length b) <= 2048 /\ take 1998 (line_prefix name ++ out) `prefix_of` b /\ (err = 0 -> b = line_prefix name ++ out)).
  { destruct (Z.eqb_spec err 0) as [->|H0]; cbn [negb].
    - eexists. split; [reflexivity|]. split; [lia|]. split; [|done]. exists (drop 1998 (line_prefix name ++ out)). symmetry. apply take_drop.
    - destruct (errno_ok err (line_prefix name ++ out)) as (b & E & H1 & H2); [lia|exact Ho|]. exists b. done. }
  destruct Hb as (b & -> & Hb & Pb & Eb). cbn [mbind option_bind]. set (b2 := match handler with Some _ => _ | None => b end).
  assert (H2 : b `prefix_of` b2 /\ (handler = None -> b2 = b)).
  { unfold b2. destruct handler as [h|]; [|done]. split; [|done]. case_match; [by eexists|done]. }
  destruct (end_line_ok b2) as (_ & Hle & El). unfold NTG_MAX_ERROR_STR in *. eexists. split; [reflexivity|]. split; [exact Hle|]. rewrite El. split; [|split].
  - assert (P : line_prefix name `prefix_of` take 2047 b2); [|destruct P as [r ->]; rewrite <-app_assoc; by eexists].
    apply prefix_of_take; [|lia]. etrans; [|exact (proj1 H2)]. etrans; [|exact Pb]. apply prefix_of_take; [by eexists|lia].
  - apply last_snoc.
  - intros He0 Hn0. rewrite (proj2 H2 Hn0), (Eb He0). reflexivity.
Qed.
End text.

(** ** The delivery of an error *)

(** A chain of logs in order, with all they need. *)
Record logs_inv (s : log_state) (a : Z) (ls : list (Z * log)) : Prop := {
  li_chain : log_chain (s_logs s) a ls;
  li_nodup : NoDup (map fst ls);
  li_order : descending (bodies ls);
  li_ok : Forall (fun x => log_ok (s_files s) (s_bufs s) (snd x)) ls }.

Lemma same_bodies ls ls' : Forall2 same_but_full ls ls' -> map fst ls' = map fst ls /\ map (fun x => set_l_disk_full 0 (snd x)) ls' = map (fun x => set_l_disk_full 0 (snd x)) ls.
Proof. induction 1 as [|x y ls ls' [E1 E2] _ [IH1 IH2] ]; [done|]. cbn [map]. by rewrite E1, E2, IH1, IH2. Qed.

Lemma logs_after s a ls s' ls' line (r : list (Z * log)) : logs_inv s a ls -> Z.of_nat (length line) <= NTG_MAX_ERROR_STR -> log_chain (s_logs s') a ls' -> Forall2 same_but_full ls ls' -> s_files s' = s_files s ->
  s_bufs s' = fold_left (fun bufs x => put_line line bufs (snd x)) r (s_bufs s) -> logs_inv s' a ls'.
Proof.
  intros [Hc Hn Ho Hok] Hl Hc' Hs Ef Eb. destruct (same_bodies ls ls' Hs) as [Ea _]. split; [done|by rewrite Ea| |].
  - clear -Ho Hs. induction Hs as [|x y ls ls' [_ E] H IH]; [done|]. cbn [bodies map] in *. apply StronglySorted_inv in Ho as [Ho Hf]. constructor; [by apply IH|].
    assert (El : forall u v, set_l_disk_full 0 u = set_l_disk_full 0 v -> l_level v = l_level u).
    { intros u v Hu. change (l_level v) with (l_level (set_l_disk_full 0 v)). by rewrite <-Hu. }
    clear IH Ho. induction H as [|x' y' ls ls' [_ E'] _ IH]; [constructor|]. apply Forall_cons in Hf as [Hf1 Hf]. constructor; [|by apply IH].
    cbn [l_level body set_l_next] in *. by rewrite (El _ _ E), (El _ _ E').
  - rewrite Ef, Eb. assert (Hok' : Forall (fun x => log_ok (s_files s) (s_bufs s) (snd x)) ls').
    { clear -Hok Hs. induction Hs as [|x y ls ls' [_ E] _ IH]; [done|]. apply Forall_cons in Hok as [Hx Hok]. constructor; [|by apply IH].
      unfold log_ok in *. change (l_writer (snd y)) with (l_writer (set_l_disk_full 0 (snd y))). change (l_wdata (snd y)) with (l_wdata (set_l_disk_full 0 (snd y))).
      change (l_file (snd y)) with (l_file (set_l_disk_full 0 (snd y))). rewrite <-E. exact Hx. }
    clear -Hok' Hl. revert Hok'. generalize (s_bufs s). induction r as [|x r IH]; intros bufs H; [done|]. cbn [fold_left]. apply IH.
    eapply Forall_impl; [exact H|]. intros y Hy. by apply put_line_ok.
Qed.

(** What goes to the console: the line with the name of the program for its prefix. *)
Definition console (use : bool) (level : Z) (ts : list Z) (name line : bytes) (msg : nat) : list log_out :=
  if use && (level <=? NTG_LOG_WARN) && negb (existsb (fun fd => fd =? ntg_stderr) ts) then [ToConsole (str "ntrig: [" ++ name ++ str "] " ++ drop msg line)] else [].

Lemma console_prefix name : (length name <= 6)%nat -> ntg_sprintf 0 (str "ntrig: [%V] " ++ [0]) [AStr name] = Some (str "ntrig: [" ++ name ++ str "] ").
Proof.
  intros Hn. refine (ntg_sprintf_pieces 0 [PText (str "ntrig: ["); PVar name; PText (str "] ")] _ _ _ _); [lia|each_piece| |cbn; lia].
  repeat apply List.Forall_cons; cbn; try lia. apply List.Forall_nil.
Qed.

Section delivery.
Context (now : Z) (err_log_time : bytes) (ntg_log_pid : Z) (errlist : list bytes).
Context (Htime : length err_log_time = 19%nat) (Hpid : 0 <= ntg_log_pid < 2147483648) (Herrs : (135 <= length errlist)%nat).

(** C28: an error goes, as one line that ends in a line feed, is at most as long as the
    buffer and starts with the time, the level and the process, to the logs that are
    verbose enough and to no others, each in order: to their files, but for those whose
    file system is full, and to their rings; and to the console, when it is severe and no
    file is the console.  The chain stays in order.  Without an error number the line is
    the message, as far as there is room. *)
Theorem log_error_delivered fuel use level name a l ls err fmt args out s :
  logs_inv s a ((a, l) :: ls) -> (S (length ls) < fuel)%nat ->
  0 <= level -> err_levels !! Z.to_nat level = Some name -> 0 <= err < 2147483648 ->
  (forall h n, l_handler l = Some h -> 0 <= n -> Z.of_nat (length (h n)) <= n) -> Z.land (l_level l) NTG_LOG_DEBUG_CONNECTION = 0 ->
  ntg_vslprintf (NTG_MAX_ERROR_STR - Z.of_nat (length (line_prefix err_log_time ntg_log_pid name))) fmt args = Some out ->
  let prefix := line_prefix err_log_time ntg_log_pid name in
  let r := reached level ((a, l) :: ls) in let ts := targets now (s_files s) r in
  exists line s' ls', ntg_log_error_core now err_log_time ntg_log_pid errlist fuel use level a err fmt args s = Some s' /\
    Z.of_nat (length line) <= NTG_MAX_ERROR_STR /\ prefix `prefix_of` line /\ last line = Some LF /\
    (err = 0 -> l_handler l = None -> line = take 2047 (prefix ++ out) ++ [LF]) /\
    s_out s' = s_out s ++ map (fun fd => ToFile fd line) ts ++ console use level ts name line (length prefix) /\
    s_bufs s' = fold_left (fun bufs x => put_line line bufs (snd x)) r (s_bufs s) /\
    logs_inv s' a ls' /\ Forall2 same_but_full ((a, l) :: ls) ls'.
Proof using Htime Hpid Herrs.
  intros I Hf Hl0 Hname He Hh Hdc Hout prefix r ts. pose proof I as [Hc Hn Ho Hok]. pose proof Hc as (_ & _ & Hl & _).
  destruct (log_line_ok err_log_time ntg_log_pid errlist Htime Hpid Herrs level name (l_handler l) err fmt args out Hname He Hh Hout) as (line & El & Hlen & Hpre & Hlast & Hshape).
  destruct (write_logs_ok now level line Hlen fuel a ((a, l) :: ls) s false Hc Hn Ho Hok Hf) as ([s1 w] & Ew & W1 & W2 & W3 & W4 & W5 & _ & ls' & W7 & W8). cbn [orb] in W1.
  assert (I' : logs_inv s1 a ls') by exact (logs_after s a _ s1 ls' line r I Hlen W7 W8 W4 W3).
  unfold ntg_log_error_core. rewrite Hl. cbn [mbind option_bind]. rewrite El, Hdc. cbn [mbind option_bind Z.eqb negb]. rewrite Ew. cbn [mbind option_bind].
  unfold console. fold r ts in W1, W2. rewrite <-W1, Z.gtb_ltb, Z.ltb_antisym. destruct use, (level <=? NTG_LOG_WARN), w; cbn [negb orb andb].
  2: {
    rewrite Hname. cbn [mbind option_bind].
    assert (Hnl : (length name <= 6)%nat).
    { assert (Hall : Forall (fun n => (length n <= 6)%nat) err_levels) by (repeat constructor; cbn; lia). apply (Forall_lookup_1 _ _ _ _ Hall Hname). }
    pose proof (length_prefix err_log_time ntg_log_pid Htime Hpid name Hnl) as Hp. fold prefix in Hp |- *.
    rewrite (proj2 (Nat.ltb_ge _ _)) by lia. rewrite console_prefix by done. cbn [mbind option_bind]. set (t := str "ntrig: [" ++ name ++ str "] ").
    assert (Lt : length t = (7 + length name + 3)%nat) by (unfold t; rewrite !length_app; change (length (str "ntrig: [")) with 8%nat; change (length (str "] ")) with 2%nat; lia).
    fold prefix in Hpre, Hshape. destruct Hpre as [rest Er]. assert (Lp : (length prefix <= length line)%nat) by (rewrite Er, length_app; lia).
    rewrite <-Lt. unfold write_at. rewrite (proj2 (Nat.leb_le _ _)) by lia. cbn [mbind option_bind].
    replace (length prefix - length t + length t)%nat with (length prefix) by lia.
    assert (Edr : drop (length prefix - length t) (take (length prefix - length t) line ++ t ++ drop (length prefix) line) = t ++ drop (length prefix) line).
    { rewrite drop_app_ge by (rewrite length_take; lia). rewrite length_take. by replace (length prefix - length t - (length prefix - length t) `min` length line)%nat with 0%nat by lia. }
    rewrite Edr. exists line, (emit_log (ToConsole (t ++ drop (length prefix) line)) s1), ls'. split; [reflexivity|]. split; [done|]. split; [by exists rest|]. split; [done|]. split; [done|].
    split; [cbn [s_out emit_log]; rewrite W2, <-app_assoc; unfold t; by rewrite <-!app_assoc|]. split; [exact W3|]. split; [|done]. destruct I'; by split. }
  all: exists line, s1, ls'; rewrite app_nil_r; split_and!; done.
Qed.
End delivery.

(** ** The directive and the chain *)

Lemma parse_size_defined t : t <> [] -> is_Some (ntg_parse_size t).
Proof.
  intros Ht. unfold ntg_parse_size. destruct (last t) as [c|] eqn:E; [|by apply last_None in E]. cbn [mbind option_bind].
  assert (Hd : forall n, (n <= length t)%nat -> is_Some (ntg_atosz t n)).
  { intros [|n] Hn; [by eexists|]. unfold ntg_atosz. change 0 with (s64 0). rewrite atoi_loop_spec by done. by eexists. }
  assert (Hlt : (0 < length t)%nat) by (destruct t; [done|cbn; lia]).
  destruct (size_unit false c) as [ [max scale]|]; [destruct (Hd (length t - 1)%nat ltac:(lia)) as [z ->]|destruct (Hd (length t) ltac:(lia)) as [z ->] ]; cbn [mbind option_bind]; case_match; by eexists.
Qed.

Lemma full_name_defined mem name conf p : text_arg name -> exists rc full, ntg_conf_full_name mem name conf p = Some (rc, full).
Proof.
  intros Hn. unfold ntg_conf_full_name. destruct mem; [destruct (full_name_ok (if conf then pt_conf_prefix p else pt_prefix p) name Hn) as (full & -> & _); by do 2 eexists|].
  unfold ntg_get_full_name, ntg_test_full_name. destruct (head (name ++ [0])) as [c|] eqn:E; [|by destruct name]. cbn [mbind option_bind].
  destruct (c =? ch "/"); cbn; by do 2 eexists.
Qed.

Section directive.
Context (cycle : paths) (conf_name : bytes) (conf_line : Z) (Hline : 0 <= conf_line < 18446744073709551616).
Context (mem_full mem_file : bool) (log_at buf_at ring_at cleanup_at garbage : Z) (fuel : nat) (Hgarbage : 0 <= garbage).

(** The text before the ring, and the room that is left for lines. *)
Lemma mem_text size : NTG_MAX_ERROR_STR + 51 + Z.of_nat (length conf_name) <= size < 18446744073709551616 ->
  exists text, ntg_slprintf ring_at (ring_at + size) (str "MEMLOG %uz %V:%ui%N" ++ [0]) [AInt size; AStr conf_name; AInt conf_line] = Some text /\
    NTG_MAX_ERROR_STR <= size - Z.of_nat (length text).
Proof using Hline.
  clear Hgarbage. intros Hs. unfold NTG_MAX_ERROR_STR in *. set (ps := [PText (str "MEMLOG "); PUz size; PText (str " "); PVar conf_name; PText (str ":"); PUi conf_line]).
  pose proof (length_decimal size 20 ltac:(lia) ltac:(lia)) as L1. pose proof (length_decimal conf_line 20 ltac:(lia) ltac:(lia)) as L2.
  assert (Hlen : Z.of_nat (length (pieces_out ps)) <= 49 + Z.of_nat (length conf_name)).
  { unfold ps, pieces_out. cbn [map concat piece_out PUz PUi PVar]. rewrite !length_app. cbn [length str]. lia. }
  assert (Hok : Forall piece_ok ps).
  { unfold ps. repeat first [apply List.Forall_nil | apply List.Forall_cons; [first [by apply text_piece_ok | apply var_piece_ok | apply unsigned_piece_ok; [tauto|lia] ]|] ]. }
  unfold ntg_slprintf, ntg_vslprintf. replace (ring_at + size - ring_at) with size by lia.
  exists (pieces_out ps ++ [LF]). split; [|rewrite length_app; cbn [length]; lia].
  pose proof (vslprintf_before ps (str "%N" ++ [0]) [] (S (length (str "MEMLOG %uz %V:%ui%N" ++ [0]))) size Hok (pieces_room_enough ps size ltac:(lia)) ltac:(cbn; lia)) as E.
  refine (eq_trans E _). assert (Er : exists room, size - Z.of_nat (length (pieces_out ps)) = room /\ 0 < room) by (eexists; split; [reflexivity|lia]). destruct Er as (room & -> & Hr).
  assert (En : vslprintf_loop (S (length (str "MEMLOG %uz %V:%ui%N" ++ [0]))) room (str "%N" ++ [0]) [] = Some [LF]).
  { exact (line_feed_end _ room Hr). }
  rewrite En. reflexivity.
Qed.

(** The log [a] has got what it writes to, and nothing that the others use is lost. *)
Definition log_opened (s : log_state) (a : Z) (s' : log_state) : Prop :=
  exists l, s_logs s' = <[a := l]> (s_logs s) /\ l_level l = 0 /\ l_next l = 0 /\ log_ok (s_files s') (s_bufs s') l /\
    s_files s `prefix_of` s_files s' /\ (forall b mem, s_bufs s !! b = Some mem -> s_bufs s' !! b = Some mem).

Lemma open_file_ok name s : text_arg name -> exists file s', ntg_conf_open_file cycle mem_full mem_file name s = Some (file, s') /\
  s_logs s' = s_logs s /\ s_bufs s' = s_bufs s /\ s_files s `prefix_of` s_files s' /\ (forall i, file = Some i -> exists f, s_files s' !! i = Some f).
Proof using Type.
  intros Hn. unfold ntg_conf_open_file.
  assert (Hp : forall f, exists file s', push_file mem_file f s = Some (file, s') /\ s_logs s' = s_logs s /\ s_bufs s' = s_bufs s /\ s_files s `prefix_of` s_files s' /\ (forall i, file = Some i -> exists f, s_files s' !! i = Some f)).
  { intros f. unfold push_file. destruct mem_file.
    - eexists _, _. split; [reflexivity|]. cbn. split_and!; try done; [by eexists|]. intros i [= <-]. exists f. by rewrite lookup_app_r, Nat.sub_diag by lia.
    - eexists _, _. split; [reflexivity|]. done. }
  case_match; [|apply Hp]. destruct (full_name_defined mem_full name false cycle Hn) as (rc & full & ->). cbn [mbind option_bind]. case_match; [by eexists _, _|].
  destruct (find_file full 0 (s_files s)) as [i|] eqn:E; [|apply Hp]. eexists _, _. split; [reflexivity|]. split_and!; try done. intros j [= <-].
  assert (Hf : forall k files, find_file full k files = Some i -> exists f, (k <= i)%nat /\ files !! (i - k)%nat = Some f).
  { intros k files. revert k. induction files as [|f files IH]; intros k; cbn [find_file]; [done|]. case_match; [intros [= ->]; exists f; by rewrite Nat.sub_diag|].
    intros (g & Hk1 & Hk2)%IH. exists g. split; [lia|]. by replace (i - k)%nat with (S (i - S k))%nat by lia. }
  destruct (Hf _ _ E) as (f & _ & Hk). rewrite Nat.sub_0_r in Hk. by exists f.
Qed.

Lemma give_file_ok a name s : s_logs s !! a = Some no_log -> text_arg name ->
  exists ok s', give_file cycle mem_full mem_file a name s = Some (ok, s') /\ (ok = true -> log_opened s a s').
Proof using Type.
  intros Ha Hn. unfold give_file. destruct (open_file_ok name s Hn) as (file & s' & -> & El & Eb & Ep & Hf). cbn [mbind option_bind]. rewrite El, Ha. cbn [mbind option_bind].
  eexists _, _. split; [reflexivity|]. intros H%bool_decide_eq_true. destruct file as [i|]; [|done]. destruct (Hf i eq_refl) as [f E].
  exists (set_l_file (Some i) no_log). cbn [s_logs set_logs s_files s_bufs]. rewrite ?El, ?Eb. split_and!; try done. by exists i, f.
Qed.

Lemma memory_log_ok a text s : s_logs s !! a = Some no_log -> s_bufs s !! buf_at = None ->
  exists ok s', memory_log conf_name conf_line buf_at ring_at cleanup_at garbage a text s = Some (ok, s') /\ (ok = true -> log_opened s a s').
Proof using Hline Hgarbage.
  intros Ha Hb. unfold memory_log. cbv zeta. assert (Hs : exists z, (if bool_decide (text = []) then Some NTG_ERROR else ntg_parse_size text) = Some z).
  { case_bool_decide; [by eexists|]. by apply parse_size_defined. }
  destruct Hs as [z ->]. cbn [mbind option_bind]. destruct ((u64 z =? u64 NTG_ERROR) || _) eqn:Ez; [by eexists _, _|]. destruct ((buf_at =? 0) || (ring_at =? 0)) eqn:Eb; [by eexists _, _|].
  apply orb_false_iff in Ez as [_ Ez]. apply Z.ltb_ge in Ez. change (Z.of_nat (length (str "MEMLOG  :" ++ [LF; 0]))) with 11 in Ez.
  destruct (mem_text (u64 z)) as (t & -> & Ht); [split; [lia|mlia]|]. cbn [mbind option_bind]. destruct (cleanup_at =? 0); [by eexists _, _|].
  unfold change_log. rewrite Ha. cbn [mbind option_bind]. eexists _, _. split; [reflexivity|]. intros _. apply orb_false_iff in Eb as [Eb _]. apply Z.eqb_neq in Eb.
  exists (set_l_memory buf_at no_log). cbn [s_logs set_bufs set_logs s_files s_bufs]. split_and!; try done.
  - right. eexists. cbn [l_wdata set_l_memory]. rewrite lookup_insert_eq. split; [reflexivity|]. cbn [mb_ring mb_written]. rewrite repeat_length. lia.
  - intros b mem Hm. rewrite lookup_insert_ne; [done|]. intros <-. congruence.
Qed.

Lemma log_ok_more files files' (bufs bufs' : gmap Z mem_buf) l : files `prefix_of` files' -> (forall b mem, bufs !! b = Some mem -> bufs' !! b = Some mem) -> log_ok files bufs l -> log_ok files' bufs' l.
Proof using Type.
  intros [more ->] Hb. unfold log_ok. destruct (l_writer l).
  - intros [?|(mem & H & ?)]; [by left|right]. exists mem. split; [by apply Hb|done].
  - intros (i & f & E & H). exists i, f. split; [done|]. by apply lookup_app_l_Some.
Qed.

(** The file of a directive, whichever kind it is. *)
Lemma file_step_ok a file s : s_logs s !! a = Some no_log -> s_bufs s !! buf_at = None -> text_arg file ->
  exists ok s', (if bool_decide (upto_nul file = str "stderr") then give_file cycle mem_full mem_file a [] (use_stderr s)
     else if bool_decide (take 7 file = str "memory:") then memory_log conf_name conf_line buf_at ring_at cleanup_at garbage a (drop 7 file) s
     else give_file cycle mem_full mem_file a file s) = Some (ok, s') /\ (ok = true -> log_opened s a s').
Proof using Hline Hgarbage.
  intros Ha Hb Hf. case_bool_decide; [|case_bool_decide].
  - apply (give_file_ok a [] (use_stderr s) Ha). constructor.
  - by apply memory_log_ok.
  - by apply give_file_ok.
Qed.

(** The level, on the log that was opened. *)
Lemma opened_level s a s' level : log_opened s a s' -> exists l s2, s_logs s' !! a = Some l /\ l_level l = 0 /\
  change_log a (set_l_level level) s' = Some s2 /\ s_logs s2 = <[a := set_l_level level l]> (s_logs s) /\ l_next l = 0 /\
  log_ok (s_files s2) (s_bufs s2) (set_l_level level l) /\ s_files s `prefix_of` s_files s2 /\ (forall b mem, s_bufs s !! b = Some mem -> s_bufs s2 !! b = Some mem).
Proof using Type.
  intros (l & El & Hl & Hn & Hok & Hp & Hb). exists l. unfold change_log. rewrite El, lookup_insert_eq. cbn [mbind option_bind]. eexists. do 3 (split; [done|]).
  cbn [s_logs set_logs s_files s_bufs]. rewrite insert_insert_eq. done.
Qed.

Lemma ok_bodies files (bufs : gmap Z mem_buf) ls : Forall (fun x => log_ok files bufs (snd x)) ls <-> Forall (log_ok files bufs) (bodies ls).
Proof using Type. unfold bodies. rewrite Forall_map. done. Qed.

(** The log without a level that a new cycle starts with, or the chain that directives
    before have made. *)
Definition before_directive (s : log_state) (a : Z) (ls : list (Z * log)) (first : bool) : Prop :=
  if first then a <> 0 /\ s_logs s !! a = Some no_log
  else logs_inv s a ls /\ ls <> [] /\ log_at <> 0 /\ log_at ∉ map fst ls /\ (length ls <= fuel)%nat /\ exists l, s_logs s !! a = Some l /\ l_level l <> 0.

(** C29: a directive that is accepted gives the level it says to one more log, which has a
    file, or a ring with room for every line; the log is put in its place in the order of
    the levels; so that the chain is ready for errors, as it was before.  No directive
    makes the code read or write where it must not. *)
Theorem error_log_correct a ls first values s :
  before_directive s a ls first -> s_bufs s !! buf_at = None -> values <> [] -> Forall text_arg values ->
  exists ok s', ntg_error_log cycle conf_name conf_line mem_full mem_file log_at buf_at ring_at cleanup_at garbage fuel a values s = Some (ok, s') /\
    (ok = true -> exists n ls', ntg_log_set_levels (drop 1 values) 0 = (l_level n, true) /\ logs_inv s' a ls' /\
       bodies ls' = if first then [n] else ins n (bodies ls)).
Proof using Hline Hgarbage.
  intros Hb Hbuf Hv Htext. destruct values as [|file levels]; [done|]. apply Forall_cons in Htext as [Hfile _]. unfold ntg_error_log, ntg_log_set_log. cbn [lookup list_lookup].
  destruct first.
  - destruct Hb as [Ha Hl]. rewrite (proj2 (Z.eqb_neq _ _) Ha), Hl. cbn [fmap option_fmap option_map mbind option_bind l_level no_log Z.eqb]. rewrite (proj2 (Z.eqb_neq _ _) Ha).
    destruct (file_step_ok a file s Hl Hbuf Hfile) as (ok & s1 & -> & Ho). cbn [mbind option_bind]. destruct ok; cbn [negb]; [|by eexists _, _]. specialize (Ho eq_refl).
    destruct (ntg_log_set_levels (drop 1 (file :: levels)) 0) as [level ok] eqn:Elv. destruct (opened_level s a s1 level Ho) as (l & s2 & E1 & E0 & E2 & El & En & Hok & _).
    rewrite E1. cbn [mbind option_bind]. rewrite E0, Elv, E2. cbn [mbind option_bind]. destruct ok; cbn [negb]; [|by eexists _, _]. rewrite Z.eqb_refl. cbn [mbind option_bind].
    eexists _, _. split; [reflexivity|]. intros _. exists (set_l_level level l), [(a, set_l_level level l)]. split; [done|]. split.
    + split; [cbn; rewrite El; split_and!; try done; by rewrite lookup_insert_eq|cbn; apply NoDup_singleton|repeat constructor|by repeat constructor].
    + cbn. f_equal. by apply body_same.
  - destruct Hb as (I & Hne & Hat & Hni & Hfuel & l0 & Hl0 & Hlv). destruct I as [Hc Hnd Hord Hok0].
    assert (Ha : a <> 0 /\ a <> log_at) by (destruct ls as [|[x l] ls]; [done|]; destruct Hc as (-> & ? & _); cbn [map fst] in Hni; set_solver). destruct Ha as [Ha Haat].
    rewrite (proj2 (Z.eqb_neq _ _) Ha), Hl0. cbn [fmap option_fmap option_map mbind option_bind]. rewrite (proj2 (Z.eqb_neq _ _) Hlv), (proj2 (Z.eqb_neq _ _) Hat).
    set (s1 := set_logs (<[log_at := no_log]> (s_logs s)) s). destruct (file_step_ok log_at file s1) as (ok & s2 & -> & Ho); [apply lookup_insert_eq|done|done|]. cbn [mbind option_bind].
    destruct ok; cbn [negb]; [|by eexists _, _]. specialize (Ho eq_refl). destruct (ntg_log_set_levels (drop 1 (file :: levels)) 0) as [level ok] eqn:Elv.
    destruct (opened_level s1 log_at s2 level Ho) as (l & s3 & E1 & E0 & E2 & El & En & Hok & Hp & Hbk). rewrite E1. cbn [mbind option_bind]. rewrite E0, Elv, E2. cbn [mbind option_bind].
    destruct ok; cbn [negb]; [|by eexists _, _]. rewrite (proj2 (Z.eqb_neq a log_at)) by done. unfold s1 in El. cbn [s_logs set_logs] in El. rewrite insert_insert_eq in El.
    destruct (log_insert_ok s3 log_at (set_l_level level l) Hat) with (fuel := fuel) (a := a) (ls := ls) as (s4 & -> & m & ls' & -> & Hc' & Hb' & Hperm & _);
      [by rewrite El, lookup_insert_eq|done|apply (log_chain_frame (s_logs s)); [done|]; intros y Hy; rewrite El, lookup_insert_ne; [done|]; intros <-; done|done|done|done|done|].
    cbn [mbind option_bind]. eexists _, _. split; [reflexivity|]. intros _. exists (set_l_level level l), ls'. split; [done|]. split; [|done].
    split; [done| |by rewrite Hb'; apply ins_descending|].
    + rewrite Hperm. by apply NoDup_cons.
    + apply ok_bodies. rewrite Hb'. rewrite ins_perm. constructor; [exact Hok|]. apply ok_bodies. eapply Forall_impl; [exact Hok0|]. intros x. by apply log_ok_more.
Qed.
End directive.

(** ** Examples *)

Definition example_time : bytes := str "2016/06/06 10:00:00".
Definition example_texts : list bytes := repeat (str "Failed") 135.
Definition example_info : log := Log 7 (Some 0%nat) 0 None false 0 200.
Definition example_error : log := Log 4 (Some 1%nat) 0 None false 0 0.
Definition example_logs : log_state :=
  LogState (<[100 := example_info]> (<[200 := example_error]> ∅)) [OpenFile (str "info.log") 5; OpenFile (str "error.log") 6] ∅ [false; true] false [].

Lemma example_logs_inv : logs_inv example_logs 100 [(100, example_info); (200, example_error)].
Proof.
  split; [cbn; by repeat split|cbn; repeat constructor; set_solver|repeat constructor; cbn; lia|].
  repeat constructor; [by exists 0%nat; eexists|by exists 1%nat; eexists].
Qed.

Lemma log_error_delivered_witness : exists line s', ntg_log_error_core 1465200000 example_time 4242 example_texts 3 true 4 100 13 (str "read failed" ++ [0]) [] example_logs = Some s' /\
  Z.of_nat (length line) <= NTG_MAX_ERROR_STR /\ s_out s' = [ToFile 5 line; ToFile 6 line; ToConsole (str "ntrig: [error] " ++ drop 34 line)].
Proof.
  destruct (log_error_delivered 1465200000 example_time 4242 example_texts eq_refl ltac:(lia) ltac:(unfold example_texts; rewrite repeat_length; lia) 3 true 4 (str "error") 100 example_info
    [(200, example_error)] 13 (str "read failed" ++ [0]) [] (str "read failed") example_logs) as (line & s' & ls' & E & Hl & _ & _ & _ & Ho & _);
    [exact example_logs_inv|cbn; lia|lia|reflexivity|lia|discriminate|reflexivity|reflexivity|].
  exists line, s'. split; [exact E|]. split; [exact Hl|]. exact Ho.
Defined.

Lemma error_log_correct_witness : exists s', ntg_error_log (Paths (str "/opt/ntrig/") [] [] [] false) (str "ntrig.conf") 7 true true 300 400 500 600 12345 2 100 [str "memory:8k"; str "warn"] example_logs = Some (true, s') /\
  exists n ls', l_level n = 5 /\ logs_inv s' 100 ls' /\ bodies ls' = [body example_info; n; example_error].
Proof.
  destruct (error_log_correct (Paths (str "/opt/ntrig/") [] [] [] false) (str "ntrig.conf") 7 ltac:(lia) true true 300 400 500 600 12345 2 ltac:(lia) 100 [(100, example_info); (200, example_error)]
    false [str "memory:8k"; str "warn"] example_logs) as (ok & s' & E & H); [|reflexivity|discriminate|repeat constructor|].
  - split; [exact example_logs_inv|]. split; [discriminate|]. split; [lia|]. split; [cbn; set_solver|]. split; [cbn; lia|]. by exists example_info.
  - assert (Eok : ok = true).
    { assert (Ev : exists s2, ntg_error_log (Paths (str "/opt/ntrig/") [] [] [] false) (str "ntrig.conf") 7 true true 300 400 500 600 12345 2 100 [str "memory:8k"; str "warn"] example_logs = Some (true, s2)) by (eexists; vm_compute; reflexivity).
      destruct Ev as [s2 Ev]. rewrite Ev in E. by injection E. }
    subst ok. exists s'. split; [exact E|]. destruct (H eq_refl) as (n & ls' & Elv & I & Eb). assert (Hn : l_level n = 5) by (change (ntg_log_set_levels (drop 1 [str "memory:8k"; str "warn"]) 0) with (5, true) in Elv; congruence).
    exists n, ls'. split; [exact Hn|]. split; [exact I|]. rewrite Eb. unfold ins, bodies. cbn [map snd]. change (l_level (body example_info)) with 7. change (l_level (body example_error)) with 4. rewrite Hn. reflexivity.
Defined.

(** Levels: one plain one, or debug levels; not both. *)
Example levels_of_directives : ntg_log_set_levels [str "debug"] 0 = (NTG_LOG_DEBUG_ALL, true) /\
  ntg_log_set_levels [str "debug_http"; str "debug_event"] 0 = (0x180, true) /\
  snd (ntg_log_set_levels [str "error"; str "debug_http"] 0) = false /\ snd (ntg_log_set_levels [str "debug_http"; str "error"] 0) = false.
Proof. done. Qed.

(** The place of the first line in a ring is whatever the counter in the memory of the
    pool was: it is never set. *)
Example ring_starts_anywhere : exists s', ntg_error_log (Paths (str "/opt/ntrig/") [] [] [] false) (str "ntrig.conf") 7 true true 300 400 500 600 12345 2 100 [str "memory:8k"; str "warn"] example_logs = Some (true, s') /\
  (mb_written <$> s_bufs s' !! 400) = Some 12345.
Proof. eexists. split; [vm_compute; reflexivity|]. reflexivity. Qed.
