(* ===== verification/Core.v ===== *)
(** * The core module (src/ntrig.c)

    The settings every process uses: their creation, the setters of the directives,
    the defaults, the environment that is handed on, and the list of URLs.  The
    answers of the user data base and of the allocator are arguments. *)

From S2P Require Import Prelude NtgString ConfToken Conf Inet Options.

(** A variable of the environment: its memory, and the length of its name. *)
Record env_var := EnvVar { ev_data : bytes; ev_len : nat }.

(** [ntg_core_conf_t]: [cc_front] is the address and the port of the socket, in
    network order; [cc_database] the strings of the data base with its port; the masks
    of [cc_cpu_affinity] that were not written yet are [None]. *)
Record core_conf := CoreConf {
  cc_daemon : Z;
  cc_master : Z;
  cc_timer_resolution : Z;
  cc_consumes : Z;
  cc_front : Z * Z;
  cc_database : option (list bytes * Z);
  cc_worker_processes : Z;
  cc_debug_points : Z;
  cc_rlimit_nofile : Z;
  cc_rlimit_sigpending : Z;
  cc_rlimit_core : Z;
  cc_priority : Z;
  cc_cpu_affinity : option (list (option Z));
  cc_username : option bytes;
  cc_user : Z;
  cc_group : Z;
  cc_lock_file : bytes;
  cc_pid : bytes;
  cc_oldpid : bytes;
  cc_env : list env_var;
  cc_environment : option (list bytes) }.

Definition set_cc_daemon (v : Z) (r : core_conf) : core_conf :=
  CoreConf v (cc_master r) (cc_timer_resolution r) (cc_consumes r) (cc_front r)
    (cc_database r) (cc_worker_processes r) (cc_debug_points r) (cc_rlimit_nofile r)
    (cc_rlimit_sigpending r) (cc_rlimit_core r) (cc_priority r) (cc_cpu_affinity r)
    (cc_username r) (cc_user r) (cc_group r) (cc_lock_file r) (cc_pid r) (cc_oldpid r)
    (cc_env r) (cc_environment r).
Definition set_cc_master (v : Z) (r : core_conf) : core_conf :=
  CoreConf (cc_daemon r) v (cc_timer_resolution r) (cc_consumes r) (cc_front r)
    (cc_database r) (cc_worker_processes r) (cc_debug_points r) (cc_rlimit_nofile r)
    (cc_rlimit_sigpending r) (cc_rlimit_core r) (cc_priority r) (cc_cpu_affinity r)
    (cc_username r) (cc_user r) (cc_group r) (cc_lock_file r) (cc_pid r) (cc_oldpid r)
    (cc_env r) (cc_environment r).
Definition set_cc_timer_resolution (v : Z) (r : core_conf) : core_conf :=
  CoreConf (cc_daemon r) (cc_master r) v (cc_consumes r) (cc_front r) (cc_database r)
    (cc_worker_processes r) (cc_debug_points r) (cc_rlimit_nofile r) (cc_rlimit_sigpending
    r) (cc_rlimit_core r) (cc_priority r) (cc_cpu_affinity r) (cc_username r) (cc_user r)
    (cc_group r) (cc_lock_file r) (cc_pid r) (cc_oldpid r) (cc_env r) (cc_environment r).
Definition set_cc_consumes (v : Z) (r : core_conf) : core_conf :=
  CoreConf (cc_daemon r) (cc_master r) (cc_timer_resolution r) v (cc_front r) (cc_database
    r) (cc_worker_processes r) (cc_debug_points r) (cc_rlimit_nofile r)
    (cc_rlimit_sigpending r) (cc_rlimit_core r) (cc_priority r) (cc_cpu_affinity r)
    (cc_username r) (cc_user r) (cc_group r) (cc_lock_file r) (cc_pid r) (cc_oldpid r)
    (cc_env r) (cc_environment r).
Definition set_cc_front (v : Z * Z) (r : core_conf) : core_conf :=
  CoreConf (cc_daemon r) (cc_master r) (cc_timer_resolution r) (cc_consumes r) v
    (cc_database r) (cc_worker_processes r) (cc_debug_points r) (cc_rlimit_nofile r)
    (cc_rlimit_sigpending r) (cc_rlimit_core r) (cc_priority r) (cc_cpu_affinity r)
    (cc_username r) (cc_user r) (cc_group r) (cc_lock_file r) (cc_pid r) (cc_oldpid r)
    (cc_env r) (cc_environment r).
Definition set_cc_database (v : option (list bytes * Z)) (r : core_conf) : core_conf :=
  CoreConf (cc_daemon r) (cc_master r) (cc_timer_resolution r) (cc_consumes r) (cc_front
    r) v (cc_worker_processes r) (cc_debug_points r) (cc_rlimit_nofile r)
    (cc_rlimit_sigpending r) (cc_rlimit_core r) (cc_priority r) (cc_cpu_affinity r)
    (cc_username r) (cc_user r) (cc_group r) (cc_lock_file r) (cc_pid r) (cc_oldpid r)
    (cc_env r) (cc_environment r).
Definition set_cc_worker_processes (v : Z) (r : core_conf) : core_conf :=
  CoreConf (cc_daemon r) (cc_master r) (cc_timer_resolution r) (cc_consumes r) (cc_front
    r) (cc_database r) v (cc_debug_points r) (cc_rlimit_nofile r) (cc_rlimit_sigpending r)
    (cc_rlimit_core r) (cc_priority r) (cc_cpu_affinity r) (cc_username r) (cc_user r)
    (cc_group r) (cc_lock_file r) (cc_pid r) (cc_oldpid r) (cc_env r) (cc_environment r).
Definition set_cc_debug_points (v : Z) (r : core_conf) : core_conf :=
  CoreConf (cc_daemon r) (cc_master r) (cc_timer_resolution r) (cc_consumes r) (cc_front
    r) (cc_database r) (cc_worker_processes r) v (cc_rlimit_nofile r)
    (cc_rlimit_sigpending r) (cc_rlimit_core r) (cc_priority r) (cc_cpu_affinity r)
    (cc_username r) (cc_user r) (cc_group r) (cc_lock_file r) (cc_pid r) (cc_oldpid r)
    (cc_env r) (cc_environment r).
Definition set_cc_rlimit_nofile (v : Z) (r : core_conf) : core_conf :=
  CoreConf (cc_daemon r) (cc_master r) (cc_timer_resolution r) (cc_consumes r) (cc_front
    r) (cc_database r) (cc_worker_processes r) (cc_debug_points r) v (cc_rlimit_sigpending
    r) (cc_rlimit_core r) (cc_priority r) (cc_cpu_affinity r) (cc_username r) (cc_user r)
    (cc_group r) (cc_lock_file r) (cc_pid r) (cc_oldpid r) (cc_env r) (cc_environment r).
Definition set_cc_rlimit_sigpending (v : Z) (r : core_conf) : core_conf :=
  CoreConf (cc_daemon r) (cc_master r) (cc_timer_resolution r) (cc_consumes r) (cc_front
    r) (cc_database r) (cc_worker_processes r) (cc_debug_points r) (cc_rlimit_nofile r) v
    (cc_rlimit_core r) (cc_priority r) (cc_cpu_affinity r) (cc_username r) (cc_user r)
    (cc_group r) (cc_lock_file r) (cc_pid r) (cc_oldpid r) (cc_env r) (cc_environment r).
Definition set_cc_rlimit_core (v : Z) (r : core_conf) : core_conf :=
  CoreConf (cc_daemon r) (cc_master r) (cc_timer_resolution r) (cc_consumes r) (cc_front
    r) (cc_database r) (cc_worker_processes r) (cc_debug_points r) (cc_rlimit_nofile r)
    (cc_rlimit_sigpending r) v (cc_priority r) (cc_cpu_affinity r) (cc_username r)
    (cc_user r) (cc_group r) (cc_lock_file r) (cc_pid r) (cc_oldpid r) (cc_env r)
    (cc_environment r).
Definition set_cc_priority (v : Z) (r : core_conf) : core_conf :=
  CoreConf (cc_daemon r) (cc_master r) (cc_timer_resolution r) (cc_consumes r) (cc_front
    r) (cc_database r) (cc_worker_processes r) (cc_debug_points r) (cc_rlimit_nofile r)
    (cc_rlimit_sigpending r) (cc_rlimit_core r) v (cc_cpu_affinity r) (cc_username r)
    (cc_user r) (cc_group r) (cc_lock_file r) (cc_pid r) (cc_oldpid r) (cc_env r)
    (cc_environment r).
Definition set_cc_cpu_affinity (v : option (list (option Z))) (r : core_conf) : core_conf :=
  CoreConf (cc_daemon r) (cc_master r) (cc_timer_resolution r) (cc_consumes r) (cc_front
    r) (cc_database r) (cc_worker_processes r) (cc_debug_points r) (cc_rlimit_nofile r)
    (cc_rlimit_sigpending r) (cc_rlimit_core r) (cc_priority r) v (cc_username r) (cc_user
    r) (cc_group r) (cc_lock_file r) (cc_pid r) (cc_oldpid r) (cc_env r) (cc_environment
    r).
Definition set_cc_username (v : option bytes) (r : core_conf) : core_conf :=
  CoreConf (cc_daemon r) (cc_master r) (cc_timer_resolution r) (cc_consumes r) (cc_front
    r) (cc_database r) (cc_worker_processes r) (cc_debug_points r) (cc_rlimit_nofile r)
    (cc_rlimit_sigpending r) (cc_rlimit_core r) (cc_priority r) (cc_cpu_affinity r) v
    (cc_user r) (cc_group r) (cc_lock_file r) (cc_pid r) (cc_oldpid r) (cc_env r)
    (cc_environment r).
Definition set_cc_user (v : Z) (r : core_conf) : core_conf :=
  CoreConf (cc_daemon r) (cc_master r) (cc_timer_resolution r) (cc_consumes r) (cc_front
    r) (cc_database r) (cc_worker_processes r) (cc_debug_points r) (cc_rlimit_nofile r)
    (cc_rlimit_sigpending r) (cc_rlimit_core r) (cc_priority r) (cc_cpu_affinity r)
    (cc_username r) v (cc_group r) (cc_lock_file r) (cc_pid r) (cc_oldpid r) (cc_env r)
    (cc_environment r).
Definition set_cc_group (v : Z) (r : core_conf) : core_conf :=
  CoreConf (cc_daemon r) (cc_master r) (cc_timer_resolution r) (cc_consumes r) (cc_front
    r) (cc_database r) (cc_worker_processes r) (cc_debug_points r) (cc_rlimit_nofile r)
    (cc_rlimit_sigpending r) (cc_rlimit_core r) (cc_priority r) (cc_cpu_affinity r)
    (cc_username r) (cc_user r) v (cc_lock_file r) (cc_pid r) (cc_oldpid r) (cc_env r)
    (cc_environment r).
Definition set_cc_lock_file (v : bytes) (r : core_conf) : core_conf :=
  CoreConf (cc_daemon r) (cc_master r) (cc_timer_resolution r) (cc_consumes r) (cc_front
    r) (cc_database r) (cc_worker_processes r) (cc_debug_points r) (cc_rlimit_nofile r)
    (cc_rlimit_sigpending r) (cc_rlimit_core r) (cc_priority r) (cc_cpu_affinity r)
    (cc_username r) (cc_user r) (cc_group r) v (cc_pid r) (cc_oldpid r) (cc_env r)
    (cc_environment r).
Definition set_cc_pid (v : bytes) (r : core_conf) : core_conf :=
  CoreConf (cc_daemon r) (cc_master r) (cc_timer_resolution r) (cc_consumes r) (cc_front
    r) (cc_database r) (cc_worker_processes r) (cc_debug_points r) (cc_rlimit_nofile r)
    (cc_rlimit_sigpending r) (cc_rlimit_core r) (cc_priority r) (cc_cpu_affinity r)
    (cc_username r) (cc_user r) (cc_group r) (cc_lock_file r) v (cc_oldpid r) (cc_env r)
    (cc_environment r).
Definition set_cc_oldpid (v : bytes) (r : core_conf) : core_conf :=
  CoreConf (cc_daemon r) (cc_master r) (cc_timer_resolution r) (cc_consumes r) (cc_front
    r) (cc_database r) (cc_worker_processes r) (cc_debug_points r) (cc_rlimit_nofile r)
    (cc_rlimit_sigpending r) (cc_rlimit_core r) (cc_priority r) (cc_cpu_affinity r)
    (cc_username r) (cc_user r) (cc_group r) (cc_lock_file r) (cc_pid r) v (cc_env r)
    (cc_environment r).
Definition set_cc_env (v : list env_var) (r : core_conf) : core_conf :=
  CoreConf (cc_daemon r) (cc_master r) (cc_timer_resolution r) (cc_consumes r) (cc_front
    r) (cc_database r) (cc_worker_processes r) (cc_debug_points r) (cc_rlimit_nofile r)
    (cc_rlimit_sigpending r) (cc_rlimit_core r) (cc_priority r) (cc_cpu_affinity r)
    (cc_username r) (cc_user r) (cc_group r) (cc_lock_file r) (cc_pid r) (cc_oldpid r) v
    (cc_environment r).
Definition set_cc_environment (v : option (list bytes)) (r : core_conf) : core_conf :=
  CoreConf (cc_daemon r) (cc_master r) (cc_timer_resolution r) (cc_consumes r) (cc_front
    r) (cc_database r) (cc_worker_processes r) (cc_debug_points r) (cc_rlimit_nofile r)
    (cc_rlimit_sigpending r) (cc_rlimit_core r) (cc_priority r) (cc_cpu_affinity r)
    (cc_username r) (cc_user r) (cc_group r) (cc_lock_file r) (cc_pid r) (cc_oldpid r)
    (cc_env r) v.

Definition NTG_CONF_UNSET_UINT32 : Z := 4294967295.

(** [ntg_core_module_create_conf]; the allocations of the structure and of the array
    of variables. *)
Definition ntg_core_module_create_conf (alloc1 alloc2 : bool) : option core_conf :=
  if alloc1 && alloc2 then
    Some (CoreConf NTG_CONF_UNSET NTG_CONF_UNSET NTG_CONF_UNSET_SIZE NTG_CONF_UNSET (0, 0) None NTG_CONF_UNSET NTG_CONF_UNSET
      NTG_CONF_UNSET NTG_CONF_UNSET NTG_CONF_UNSET 0 None None NTG_CONF_UNSET_UINT32 NTG_CONF_UNSET_UINT32 [] [] [] [] None)
  else None.

(** ** The setters *)

(** [args] are the words of the directive; a NUL lies behind each in memory. *)
Definition ntg_set_user (geteuid : Z) (getpwnam getgrnam : bytes -> option Z) (args : list bytes) (c : core_conf) : option (set_result * core_conf) :=
  if negb (cc_user c =? NTG_CONF_UNSET_UINT32) then Some (DUPLICATE, c)
  else if negb (geteuid =? 0) then Some (SetOk, c)
  else
    user ← args !! 1%nat;
    let c := set_cc_username (Some user) c in
    match getpwnam user with
    | None => Some (SetError, c)
    | Some uid =>
        let c := set_cc_user uid c in
        group ← (if (length args =? 2)%nat then args !! 1%nat else args !! 2%nat);
        match getgrnam group with
        | None => Some (SetError, c)
        | Some gid => Some (SetOk, set_cc_group gid c)
        end
    end.

(** The place of the first equals sign. *)
Fixpoint find_equals (s : bytes) (i : nat) : option nat :=
  match s with
  | [] => None
  | c :: s => if c =? ch "=" then Some i else find_equals s (S i)
  end.

(** [alloc]: the array has room for another variable. *)
Definition ntg_set_env (alloc : bool) (args : list bytes) (c : core_conf) : option (set_result * core_conf) :=
  if negb alloc then Some (SetError, c)
  else
    value ← args !! 1%nat;
    Some (SetOk, set_cc_env (cc_env c ++ [EnvVar (value ++ [0]) (default (length value) (find_equals value 0))]) c).

(** The number is an [int]: what [ntg_atoi] gives is cut. *)
Definition ntg_set_priority (args : list bytes) (c : core_conf) : option (set_result * core_conf) :=
  if negb (cc_priority c =? 0) then Some (SetMessage (str "is duplicate"), c)
  else
    value ← args !! 1%nat;
    first ← head (value ++ [0]);
    let minus := first =? ch "-" in
    let n := if minus || (first =? ch "+") then 1%nat else 0%nat in
    v ← ntg_atoi (drop n (value ++ [0])) (length value - n);
    let c := set_cc_priority (s32 v) c in
    if cc_priority c =? NTG_ERROR then Some (INVALID_NUMBER, c)
    else Some (SetOk, if minus then set_cc_priority (s32 (- cc_priority c)) c else c).

(** The loop over the words: the masks from place [n] on. *)
Fixpoint affinity_loop (values : list bytes) (n : nat) (mask : list (option Z)) : option (set_result * list (option Z)) :=
  match values with
  | [] => Some (SetOk, mask)
  | value :: values =>
      i ← ntg_atoi (value ++ [0]) (length value);
      if i =? NTG_ERROR then Some (SetError, mask)
      else if i >? 64 then Some (SetError, mask)
      else affinity_loop values (S n) (<[n := Some (u32 i)]> mask)
  end.

Definition ntg_set_cpu_affinity (alloc : bool) (args : list bytes) (c : core_conf) : option (set_result * core_conf) :=
  match cc_cpu_affinity c with
  | Some _ => Some (SetMessage (str "is duplicate"), c)
  | None =>
      if negb alloc then Some (SetError, c)
      else
        '(r, mask) ← affinity_loop (tail args) 0 (repeat None (length args - 1));
        Some (r, set_cc_cpu_affinity (Some mask) c)
  end.

(** A mask that was never written is undefined. *)
Definition ntg_get_cpu_affinity (n : nat) (c : core_conf) : option Z :=
  match cc_cpu_affinity c with
  | None => Some 0
  | Some masks => if (n <? length masks)%nat then mjoin (masks !! n) else mjoin (masks !! (length masks - 1)%nat)
  end.

Definition ntg_set_worker_processes (args : list bytes) (c : core_conf) : option (set_result * core_conf) :=
  if negb (cc_worker_processes c =? NTG_CONF_UNSET) then Some (DUPLICATE, c)
  else
    value ← args !! 1%nat;
    n ← ntg_atoi (value ++ [0]) (length value);
    let c := set_cc_worker_processes n c in
    if n =? NTG_ERROR then Some (INVALID_VALUE, c) else Some (SetOk, c).

(** [post] is the handler behind, if the command has one. *)
Definition ntg_set_front_end (post : option (Z * Z -> set_result)) (args : list bytes) (c : core_conf) : option (set_result * core_conf) :=
  let '(addr, port) := cc_front c in
  if negb (addr =? 0) then Some (DUPLICATE, c)
  else
    host ← args !! 1%nat;
    addr ← (if negb (length host =? 0)%nat then ntg_inet_addr (host ++ [0]) (length host) else Some addr);
    let c := set_cc_front (addr, port) c in
    if addr =? INADDR_NONE then Some (INVALID_VALUE, c)
    else
      value ← args !! 2%nat;
      n ← ntg_atoi (value ++ [0]) (length value);
      if (n <? 1025) || (n >? 65535) then Some (SetMessage (str "invalid port"), c)
      else
        let front := (addr, htons n) in
        Some (match post with Some h => h front | None => SetOk end, set_cc_front front c).

Definition ntg_set_database (post : option (list bytes * Z -> set_result)) (args : list bytes) (c : core_conf) : option (set_result * core_conf) :=
  match cc_database c with
  | Some _ => Some (DUPLICATE, c)
  | None =>
      type ← args !! 1%nat; host ← args !! 2%nat; port ← args !! 3%nat;
      n ← ntg_atoi (port ++ [0]) (length port);
      user ← args !! 4%nat; password ← args !! 5%nat; name ← args !! 6%nat;
      let database := ([type; host; user; password; name], u64 n) in
      Some (match post with Some h => h database | None => SetOk end, set_cc_database (Some database) c)
  end.

(** ** The defaults (ntg_core_module_init_conf) *)

Definition init_value (unset v : Z) (x : Z) : Z := if x =? unset then v else x.

Definition NTG_PID_PATH : bytes := str "logs/ntrig.pid".
Definition NTG_LOCK_PATH : bytes := str "logs/ntrig.lock".
Definition NTG_USER : bytes := str "nobody".
Definition NTG_GROUP : bytes := str "nogroup".
Definition NTG_OLDPID_EXT : bytes := str ".oldbin".
Definition ACCEPT_EXT : bytes := str ".accept".

Section init_conf.
(** The memory for the names, the user data base, and the lock file of the cycle
    before: its bytes, those of ".accept" behind it included, and its length. *)
Context (alloc_pid alloc_oldpid alloc_lock alloc_accept : bool) (geteuid : Z) (getpwnam getgrnam : bytes -> option Z).
Context (old_lock : bytes * nat) (paths : paths).

(** The users, when no directive named them. *)
Definition init_user (c : core_conf) : bool * core_conf :=
  if (cc_user c =? NTG_CONF_UNSET_UINT32) && (geteuid =? 0) then
    match getpwnam NTG_USER with
    | None => (false, c)
    | Some uid =>
        let c := set_cc_user uid (set_cc_username (Some NTG_USER) c) in
        match getgrnam NTG_GROUP with
        | None => (false, c)
        | Some gid => (true, set_cc_group gid c)
        end
    end
  else (true, c).

(** The lock file of the cycle: the memory that is written, and its length. *)
Definition init_lock (c : core_conf) : option (option (bytes * nat)) :=
  let '(data, len) := old_lock in
  if negb (len =? 0)%nat then
    if negb alloc_accept then Some None
    else if (len - 1 + 8 <=? length data)%nat then Some (Some (take (len - 1 + 8) data, len)) else None
  else if negb alloc_accept then Some None
  else Some (Some (cc_lock_file c ++ ACCEPT_EXT ++ [0], S (length (cc_lock_file c)))).

Definition ntg_core_module_init_conf (c : core_conf) : option (set_result * core_conf * option (bytes * nat)) :=
  let c := set_cc_daemon (init_value NTG_CONF_UNSET 1 (cc_daemon c)) c in
  let c := set_cc_master (init_value NTG_CONF_UNSET 1 (cc_master c)) c in
  let c := set_cc_timer_resolution (init_value NTG_CONF_UNSET_SIZE 0 (cc_timer_resolution c)) c in
  let c := set_cc_worker_processes (init_value NTG_CONF_UNSET 1 (cc_worker_processes c)) c in
  let c := set_cc_debug_points (init_value NTG_CONF_UNSET 0 (cc_debug_points c)) c in
  let c := if (length (cc_pid c) =? 0)%nat then set_cc_pid NTG_PID_PATH c else c in
  '(rc, pid) ← ntg_conf_full_name alloc_pid (cc_pid c) false paths;
  let c := set_cc_pid pid c in
  if negb (rc =? NTG_OK) then Some (SetError, c, None)
  else if negb alloc_oldpid then Some (SetError, c, None)
  else
    let c := set_cc_oldpid (cc_pid c ++ NTG_OLDPID_EXT ++ [0]) c in
    let '(ok, c) := init_user c in
    if negb ok then Some (SetError, c, None)
    else
      let c := if (length (cc_lock_file c) =? 0)%nat then set_cc_lock_file NTG_LOCK_PATH c else c in
      '(rc, lock) ← ntg_conf_full_name alloc_lock (cc_lock_file c) false paths;
      let c := set_cc_lock_file lock c in
      if negb (rc =? NTG_OK) then Some (SetError, c, None)
      else
        l ← init_lock c;
        Some (match l with Some l => (SetOk, c, Some l) | None => (SetError, c, None) end).
End init_conf.

(** ** The environment (ntg_set_environment) *)

(** Whether an entry of the environment is for the variable. *)
Definition env_matches (var : env_var) (e : bytes) : option bool :=
  d ← strncmp e (ev_data var) (ev_len var);
  if d =? 0 then c ← e !! ev_len var; Some (c =? ch "=") else Some false.

(** The search of [ntg_os_environ]. *)
Fixpoint env_find (var : env_var) (environ : list bytes) : option (option bytes) :=
  match environ with
  | [] => Some None
  | e :: environ =>
      match env_matches var e with
      | None => None
      | Some true => Some (Some e)
      | Some false => env_find var environ
      end
  end.

(** The entry for a variable, if there is one. *)
Definition env_entry (environ : list bytes) (var : env_var) : option (option bytes) :=
  c ← ev_data var !! ev_len var;
  if c =? ch "=" then Some (Some (ev_data var)) else env_find var environ.

(** The first loop counts, the second one stores. *)
Fixpoint env_count (environ : list bytes) (vars : list env_var) : option nat :=
  match vars with
  | [] => Some O
  | var :: vars => e ← env_entry environ var; n ← env_count environ vars; Some (match e with Some _ => S n | None => n end)
  end.

Fixpoint env_store (environ : list bytes) (vars : list env_var) (n : nat) (env : list (option bytes)) : option (nat * list (option bytes)) :=
  match vars with
  | [] => Some (n, env)
  | var :: vars =>
      e ← env_entry environ var;
      match e with
      | Some e => if (n <? length env)%nat then env_store environ vars (S n) (<[n := Some e]> env) else None
      | None => env_store environ vars n env
      end
  end.

Fixpoint tz_found (vars : list env_var) : option bool :=
  match vars with
  | [] => Some false
  | var :: vars =>
      d1 ← strcmp (ev_data var) (str "TZ" ++ [0]);
      if d1 =? 0 then Some true
      else d2 ← strncmp (ev_data var) (str "TZ=" ++ [0]) 3; if d2 =? 0 then Some true else tz_found vars
  end.

(** [last] is the number of further entries the caller wants room for; the result is
    the array of pointers, [None] for the null pointer and for what is not written
    yet, the number of entries, and the settings. *)
Definition ntg_set_environment (alloc_var alloc_env : bool) (environ : list bytes) (last : option nat) (c : core_conf)
  : option (option (list (option bytes) * nat) * core_conf) :=
  match last, cc_environment c with
  | None, Some env => Some (Some (map Some env ++ [None], length env), c)
  | _, _ =>
      tz ← tz_found (cc_env c);
      if negb tz && negb alloc_var then Some (None, c)
      else
        let c := if tz then c else set_cc_env (cc_env c ++ [EnvVar (str "TZ" ++ [0]) 2]) c in
        n ← env_count environ (cc_env c);
        if negb alloc_env then Some (None, c)
        else
          let env := repeat None (match last with Some l => l | None => 0 end + n + 1) in
          '(n, env) ← env_store environ (cc_env c) 0 env;
          if (n <? length env)%nat then
            let env := <[n := None]> env in
            Some (Some (env, n), match last with None => set_cc_environment (Some (omap id (take n env))) c | Some _ => c end)
          else None
  end.

(** ** The list of URLs (ntg_read_url_file) *)

Definition NTG_HTT_URL_MAX : nat := 200.

(** [fgets] with room for [room] bytes and the NUL: a line with its newline, or the
    part of it that fits. *)
Fixpoint fgets (room : nat) (file : bytes) : bytes * bytes :=
  match room, file with
  | O, _ | _, [] => ([], file)
  | S room, c :: file =>
      if c =? LF then ([c], file) else let '(line, rest) := fgets room file in (c :: line, rest)
  end.

(** One line: its newline is cut off, the rest copied. *)
Definition url_line (line : bytes) : option bytes :=
  len ← strlen (line ++ [0]);
  if (len =? 0)%nat then None
  else
    e ← line !! (len - 1)%nat;
    Some (take (if e =? LF then len - 1 else len) line).

Fixpoint read_urls (n : nat) (file : bytes) : option (list bytes) :=
  match n, file with
  | O, _ | _, [] => Some []
  | S n, _ =>
      let '(line, file) := fgets 4999 file in
      url ← url_line line;
      urls ← read_urls n file;
      Some (url :: urls)
  end.

(** [None] of the argument is a file that cannot be opened: the program exits. *)
Definition ntg_read_url_file (file : option bytes) : option (option (list bytes)) :=
  match file with
  | None => Some None
  | Some file => urls ← read_urls NTG_HTT_URL_MAX file; Some (Some urls)
  end.

(** ** The environment that is handed on *)

(** A variable of the settings, with a value of its own or without. *)
Definition env_text (var : env_var) (nv : bytes * option bytes) : Prop :=
  text_arg nv.1 /\ ch "=" ∉ nv.1 /\ ev_len var = length nv.1 /\
  match nv.2 with
  | None => ev_data var = cstring nv.1
  | Some v => ev_data var = cstring (nv.1 ++ ch "=" :: v) /\ text_arg v
  end.

(** Its entry: the value of its own, or the first of the environment with its name. *)
Definition entry_spec (environ : list bytes) (nv : bytes * option bytes) : option bytes :=
  match nv.2 with
  | Some v => Some (nv.1 ++ ch "=" :: v)
  | None => head (filter (fun e => (nv.1 ++ [ch "="]) `prefix_of` e) environ)
  end.

(** The time zone is always handed on. *)
Definition with_tz (names : list (bytes * option bytes)) : list (bytes * option bytes) :=
  if decide (str "TZ" ∈ map fst names) then names else names ++ [(str "TZ", None)].

Lemma text_app s t : text_arg (s ++ t) <-> text_arg s /\ text_arg t.
Proof. apply Forall_app. Qed.

Lemma prefix_cons_ne (c d : Z) k l : c <> d -> ~ (c :: k) `prefix_of` (d :: l).
Proof. intros H Hp. by apply prefix_cons_inv_1 in Hp. Qed.

Lemma strncmp_prefix s e r : text_arg s -> text_arg e ->
  exists d, strncmp (cstring e) (s ++ r) (length s) = Some d /\ (d = 0 <-> s `prefix_of` e).
Proof.
  intros Hs. revert e. induction Hs as [|c s Hc _ IH]; intros e He.
  { exists 0. cbn. split; [done|]. split; [intros _; apply prefix_nil|done]. }
  destruct He as [|d e Hd He]; unfold cstring; cbn [app length strncmp].
  { rewrite (proj2 (Z.eqb_neq 0 c)) by lia. eexists. split; [done|]. split; [lia|]. intros H. by apply prefix_nil_inv in H. }
  destruct (Z.eqb_spec d c) as [->|Hne].
  - rewrite (proj2 (Z.eqb_neq c 0)) by lia. destruct (IH e He) as (x & E & Hx). exists x. split; [exact E|]. rewrite Hx.
    split; [apply prefix_cons|apply prefix_cons_inv_2].
  - eexists. split; [done|]. split; [lia|]. intros H. by apply prefix_cons_ne in H; [|congruence].
Qed.

Lemma env_matches_ok var nv e : env_text var nv -> text_arg e ->
  env_matches var (cstring e) = Some (bool_decide ((nv.1 ++ [ch "="]) `prefix_of` e)).
Proof.
  destruct nv as [name v]. intros (Hn & _ & El & Hd) He. cbn in *.
  assert (exists r, ev_data var = name ++ r) as [r Er].
  { destruct v as [v|]; [destruct Hd as [-> _]|rewrite Hd]; unfold cstring; rewrite <-?app_assoc; by eexists. }
  unfold env_matches. rewrite Er, El. destruct (strncmp_prefix name e r Hn He) as (d & -> & Hd0). cbn [mbind option_bind].
  destruct (Z.eqb_spec d 0) as [H0|H0].
  - apply Hd0 in H0 as [k ->]. unfold cstring. rewrite <-app_assoc, lookup_app_r, Nat.sub_diag by lia.
    apply text_app in He as [_ Hk]. destruct Hk as [|c k Hc _]; cbn; f_equal.
    + symmetry. apply bool_decide_eq_false. intros Hp. apply prefix_app_inv, prefix_nil_inv in Hp. done.
    + destruct (Z.eqb_spec c (ch "=")) as [->|Hne]; symmetry.
      * apply bool_decide_eq_true. apply prefix_app. apply prefix_cons, prefix_nil.
      * apply bool_decide_eq_false. intros Hp. apply prefix_app_inv in Hp. by apply prefix_cons_ne in Hp; [|congruence].
  - f_equal. symmetry. apply bool_decide_eq_false. intros Hp. apply H0, Hd0. by apply prefix_app_l in Hp.
Qed.

Lemma env_find_ok var nv es : env_text var nv -> Forall text_arg es ->
  env_find var (map cstring es) = Some (cstring <$> head (filter (fun e => (nv.1 ++ [ch "="]) `prefix_of` e) es)).
Proof.
  intros Hv. induction 1 as [|e es He _ IH]; [done|]. cbn [map env_find]. rewrite (env_matches_ok var nv e Hv He), filter_cons.
  case_decide as H; [by rewrite bool_decide_eq_true_2|rewrite bool_decide_eq_false_2 by done; exact IH].
Qed.

Lemma env_entry_ok var nv es : env_text var nv -> Forall text_arg es ->
  env_entry (map cstring es) var = Some (cstring <$> entry_spec es nv).
Proof.
  intros Hv Hes. pose proof (env_find_ok var nv es Hv Hes) as Hf. destruct Hv as (Hn & _ & El & Hd). unfold env_entry, entry_spec.
  destruct nv as [name [v|] ]; cbn in *; rewrite El.
  - destruct Hd as [-> _]. unfold cstring. by rewrite <-app_assoc, lookup_app_r, Nat.sub_diag by lia.
  - rewrite Hd. unfold cstring. rewrite lookup_app_r, Nat.sub_diag by lia. exact Hf.
Qed.

Lemma env_count_ok vars names es : Forall2 env_text vars names -> Forall text_arg es ->
  env_count (map cstring es) vars = Some (length (omap (entry_spec es) names)).
Proof.
  intros Hv Hes. induction Hv as [|var nv vars names Hv _ IH]; [done|]. cbn [env_count omap list_omap]. rewrite (env_entry_ok var nv es Hv Hes), IH.
  cbn. by destruct (entry_spec es nv).
Qed.

(** The entries lie one behind the other. *)
Lemma env_store_ok vars names es pre k : Forall2 env_text vars names -> Forall text_arg es ->
  let l := omap (entry_spec es) names in (length l <= k)%nat ->
  env_store (map cstring es) vars (length pre) (map Some pre ++ repeat None k) =
  Some ((length pre + length l)%nat, map Some (pre ++ map cstring l) ++ repeat None (k - length l)).
Proof.
  intros Hv Hes. revert pre k. induction Hv as [|var nv vars names Hv _ IH]; intros pre k; cbn zeta; cbn [env_store omap list_omap].
  { intros _. cbn [length map]. by rewrite Nat.add_0_r, Nat.sub_0_r, app_nil_r. }
  rewrite (env_entry_ok var nv es Hv Hes). cbn [mbind option_bind]. destruct (entry_spec es nv) as [e|]; cbn [fmap option_fmap option_map]; [|apply IH].
  destruct k as [|k]; cbn [length]; [lia|]. intros Hk. rewrite length_app, length_map, repeat_length, (proj2 (Nat.ltb_lt _ _)) by lia.
  rewrite insert_app_r_alt by (rewrite length_map; lia). rewrite length_map, Nat.sub_diag. cbn [repeat insert list_insert].
  specialize (IH (pre ++ [cstring e]) k ltac:(lia)). rewrite length_app in IH. cbn [length] in IH. rewrite Nat.add_1_r, map_app in IH. cbn [map] in IH.
  rewrite <-app_assoc in IH. cbn [app] in IH. rewrite IH. f_equal. f_equal; [lia|]. by rewrite <-(app_assoc pre).
Qed.

Lemma tz_no_equals : ch "=" ∉ str "TZ".
Proof. apply (bool_decide_eq_true_1 _). reflexivity. Qed.

Lemma tz_alone var name v : env_text var (name, v) ->
  exists d1, strcmp (ev_data var) (str "TZ" ++ [0]) = Some d1 /\
    (d1 = 0 -> name = str "TZ") /\
    (d1 <> 0 -> exists d2, strncmp (ev_data var) (str "TZ=" ++ [0]) 3 = Some d2 /\ (d2 = 0 <-> name = str "TZ")).
Proof.
  intros (Hn & Hq & _ & Hd). cbn in Hn, Hq, Hd. assert (Htz : text_arg (str "TZ")) by repeat constructor.
  set (t := match v with Some v => name ++ ch "=" :: v | None => name end).
  assert (Ht : ev_data var = cstring t /\ text_arg t).
  { subst t. destruct v as [v|]; [|done]. destruct Hd as [-> Hv]. split; [done|]. apply text_app. split; [done|]. by constructor. }
  destruct Ht as [-> Ht]. destruct (strcmp_cstring t (str "TZ") Ht Htz) as (d1 & E1 & H1).
  change (cstring (str "TZ")) with (str "TZ" ++ [0]) in E1. rewrite E1.
  destruct (strncmp_prefix (str "TZ=") t [0] ltac:(repeat constructor) Ht) as (d2 & E2 & H2).
  exists d1. split; [done|]. rewrite H1. split.
  - subst t. destruct v as [v|]; [|done]. intros E. assert (He : ch "=" ∈ str "TZ") by (rewrite <-E; apply elem_of_app; right; by left).
    by destruct tz_no_equals.
  - intros H0. exists d2. split; [exact E2|]. rewrite H2. subst t. split.
    + intros Hp. destruct v as [v|].
      * destruct name as [|c1 [|c2 [|c3 name] ] ]; destruct Hp as [k Hk]; cbn in Hk; injection Hk; intros; subst; try done.
        exfalso. apply Hq. do 2 right. by left.
      * exfalso. apply Hq. destruct Hp as [k ->]. do 2 right. by left.
    + intros ->. destruct v as [v|]; [|by destruct H0]. by exists v.
Qed.

Lemma tz_found_ok vars names : Forall2 env_text vars names -> tz_found vars = Some (bool_decide (str "TZ" ∈ map fst names)).
Proof.
  induction 1 as [|var [name v] vars names Hv _ IH]; [done|]. cbn [tz_found map fst]. destruct (tz_alone var name v Hv) as (d1 & -> & H1 & H2).
  cbn [mbind option_bind]. destruct (Z.eqb_spec d1 0) as [H0|H0].
  - rewrite bool_decide_eq_true_2; [done|]. rewrite (H1 H0). by left.
  - destruct (H2 H0) as (d2 & -> & H3). cbn [mbind option_bind]. destruct (Z.eqb_spec d2 0) as [Hz|Hz].
    + rewrite bool_decide_eq_true_2; [done|]. rewrite (proj1 H3 Hz). by left.
    + rewrite IH. f_equal. apply bool_decide_ext. rewrite elem_of_cons. split; [tauto|]. intros [E|E]; [|done]. destruct Hz. by apply H3.
Qed.

(** The settings with the time zone among the variables. *)
Lemma with_tz_ok (c : core_conf) names : Forall2 env_text (cc_env c) names ->
  Forall2 env_text (if bool_decide (str "TZ" ∈ map fst names) then cc_env c else cc_env c ++ [EnvVar (str "TZ" ++ [0]) 2]) (with_tz names).
Proof.
  intros H. unfold with_tz. destruct (decide (str "TZ" ∈ map fst names)) as [E|E]; [by rewrite bool_decide_eq_true_2|].
  rewrite bool_decide_eq_false_2 by done. apply Forall2_app; [done|]. constructor; [|constructor].
  split; [repeat constructor|]. split; [apply tz_no_equals|done].
Qed.

Lemma insert_repeat_none {A} (l : list (option A)) k : <[length l := None]> (l ++ repeat None (S k)) = l ++ repeat None (S k).
Proof. by rewrite insert_app_r_alt, Nat.sub_diag by lia. Qed.

Lemma omap_map_some {A} (l : list A) : omap id (map Some l) = l.
Proof. induction l as [|x l IH]; [done|]. cbn. by f_equal. Qed.

(** C36: What is handed on to a new process: for every variable of the settings, the
    time zone among them, its own value or the first entry of the environment with
    its name, in order and nothing else; the count agrees with what is stored, the
    array has room for it, for what the caller wants besides and for the null
    pointer. *)
Theorem environment_correct (c : core_conf) names es last :
  Forall2 env_text (cc_env c) names -> Forall text_arg es -> (last = None -> cc_environment c = None) ->
  let entries := map cstring (omap (entry_spec es) (with_tz names)) in
  exists c', ntg_set_environment true true (map cstring es) last c =
      Some (Some (map Some entries ++ repeat None (S (default O last)), length entries), c') /\
    Forall2 env_text (cc_env c') (with_tz names) /\
    cc_environment c' = match last with None => Some entries | Some _ => cc_environment c end.
Proof.
  intros Hv Hes Hlast entries. set (l := omap (entry_spec es) (with_tz names)) in *.
  assert (Hl : length entries = length l) by apply length_map.
  set (c1 := if bool_decide (str "TZ" ∈ map fst names) then c else set_cc_env (cc_env c ++ [EnvVar (str "TZ" ++ [0]) 2]) c).
  assert (H1 : Forall2 env_text (cc_env c1) (with_tz names)) by (pose proof (with_tz_ok c names Hv) as H; subst c1; by destruct bool_decide).
  assert (E1 : cc_environment c1 = cc_environment c) by (subst c1; by destruct bool_decide).
  set (extra := match last with Some k => k | None => O end). replace (default O last) with extra by (by destruct last). assert (Hs : env_store (map cstring es) (cc_env c1) 0 (repeat None (extra + length l + 1)) =
    Some (length l, map Some entries ++ repeat None (S extra))).
  { pose proof (env_store_ok _ _ es [] (extra + length l + 1) H1 Hes ltac:(fold l; lia)) as Hst. cbn [length map app Nat.add] in Hst.
    rewrite Hst. fold l. fold entries. by replace (extra + length l + 1 - length l)%nat with (S extra) by lia. }
  exists (match last with None => set_cc_environment (Some entries) c1 | Some _ => c1 end).
  split; [|split; [by destruct last|destruct last; [exact E1|done] ] ].
  unfold ntg_set_environment. rewrite (tz_found_ok _ _ Hv). cbn [mbind option_bind negb]. fold c1.
  rewrite andb_false_r. rewrite (env_count_ok _ _ es H1 Hes). fold l. cbn [mbind option_bind].
  assert (Hlt : (length l <? length (map Some entries ++ repeat None (S extra)))%nat = true)
    by (apply Nat.ltb_lt; rewrite length_app, length_map, repeat_length; lia).
  assert (Hi : <[length l := None]> (map Some entries ++ repeat None (S extra)) = map Some entries ++ repeat None (S extra))
    by (rewrite <-Hl, <-(length_map Some entries); apply insert_repeat_none).
  assert (Ht : omap id (take (length l) (map Some entries ++ repeat None (S extra))) = entries)
    by (rewrite <-Hl, <-(length_map Some entries), take_app_length; apply omap_map_some).
  destruct last as [k|]; [|rewrite (Hlast eq_refl)].
  all: cbv beta match; cbv delta [extra] beta match in *; rewrite Hs; cbn [mbind option_bind]; rewrite Hlt; cbv zeta; rewrite Hi, ?Ht, Hl; reflexivity.
Qed.

(** ** The list of URLs *)

(** A line of a file: a string without a newline that fits the buffer. *)
Definition text_line (l : bytes) : Prop := text_arg l /\ LF ∉ l /\ (length l < 4999)%nat.

Lemma fgets_line room l file : LF ∉ l -> (length l < room)%nat -> fgets room (l ++ LF :: file) = (l ++ [LF], file).
Proof.
  revert room. induction l as [|c l IH]; intros [|room] Hl Hr; cbn [length] in Hr; [lia|reflexivity|lia|].
  cbn [app fgets]. rewrite not_elem_of_cons in Hl. destruct Hl as [Hc Hl]. rewrite (proj2 (Z.eqb_neq c LF)) by congruence. by rewrite IH by (done || lia).
Qed.

Lemma fgets_last room l : LF ∉ l -> (length l < room)%nat -> fgets room l = (l, []).
Proof.
  revert room. induction l as [|c l IH]; intros [|room] Hl Hr; cbn [length] in Hr; [lia|reflexivity|lia|].
  cbn [fgets]. rewrite not_elem_of_cons in Hl. destruct Hl as [Hc Hl]. rewrite (proj2 (Z.eqb_neq c LF)) by congruence. by rewrite IH by (done || lia).
Qed.

Lemma url_line_ok l : text_arg l -> url_line (l ++ [LF]) = Some l.
Proof.
  intros Hl. unfold url_line. rewrite <-app_assoc. cbn [app].
  assert (Ht : text_arg (l ++ [LF])) by (apply text_app; split; [done|repeat constructor]).
  pose proof (strlen_cstring (l ++ [LF]) [] Ht) as E. rewrite <-app_assoc in E. cbn [app] in E. rewrite E. cbn [mbind option_bind].
  rewrite length_app. cbn [length]. rewrite Nat.add_1_r. cbn [Nat.eqb]. rewrite Nat.sub_succ, Nat.sub_0_r.
  rewrite lookup_app_r, Nat.sub_diag by lia. cbn [lookup list_lookup mbind option_bind]. rewrite Z.eqb_refl. by rewrite take_app_length.
Qed.

Lemma url_line_last l : text_arg l -> LF ∉ l -> l <> [] -> url_line l = Some l.
Proof.
  intros Hl Hn Hne. destruct (exists_last_elem l Hne) as (k & x & ->). unfold url_line. rewrite strlen_cstring by done. cbn [mbind option_bind].
  rewrite length_app. cbn [length]. rewrite Nat.add_1_r. cbn [Nat.eqb]. rewrite Nat.sub_succ, Nat.sub_0_r.
  rewrite lookup_app_r, Nat.sub_diag by lia. cbn [lookup list_lookup mbind option_bind].
  assert (Hx : x <> LF) by (intros ->; apply Hn, elem_of_app; right; by left). rewrite (proj2 (Z.eqb_neq x LF)) by done.
  rewrite take_ge; [done|]. rewrite length_app. cbn. lia.
Qed.

Definition url_file (ls : list bytes) (l : bytes) : bytes := concat (map (fun l => l ++ [LF]) ls) ++ l.

Lemma read_urls_ok n ls l : Forall text_line ls -> text_line l ->
  read_urls n (url_file ls l) = Some (take n (ls ++ if decide (l = []) then [] else [l])).
Proof.
  intros Hls (Hl & Hn & Hlen). revert n. induction Hls as [|k ls (Hk & Hkn & Hkl) _ IH]; intros [|n]; try reflexivity; unfold url_file; cbn [map concat app].
  - case_decide as E; [by subst l|]. destruct l as [|c l]; [done|]. cbn [read_urls]. rewrite fgets_last by done. rewrite url_line_last by done.
    cbn [mbind option_bind take]. by rewrite take_nil; destruct n.
  - rewrite <-app_assoc, <-app_assoc. cbn [app]. assert (Hm : forall X, match k ++ LF :: X with [] => Some [] | _ :: _ => (let '(line, file) := fgets 4999 (k ++ LF :: X) in
        url ← url_line line; urls ← read_urls n file; Some (url :: urls)) end = (urls ← read_urls n X; Some (k :: urls))).
    { intros X. rewrite fgets_line by done. rewrite url_line_ok by done. by destruct k. }
    cbn [read_urls]. rewrite Hm. fold (url_file ls l). rewrite IH. reflexivity.
Qed.

(** The list of URLs is the lines of the file, the first two hundred of them, in
    order and without their newlines, whether the last line ends in one or not. *)
Theorem read_url_file_correct ls l : Forall text_line ls -> text_line l ->
  ntg_read_url_file (Some (url_file ls l)) = Some (Some (take 200 (ls ++ if decide (l = []) then [] else [l]))).
Proof. intros Hls Hl. unfold ntg_read_url_file. by rewrite read_urls_ok. Qed.

(** ** The processors *)

(** The masks of the words of a directive. *)
Definition mask_of (value : bytes) (mask : option Z) : Prop :=
  exists i, ntg_atoi (value ++ [0]) (length value) = Some i /\ i <> NTG_ERROR /\ i <= 64 /\ mask = Some (u32 i).

Lemma affinity_loop_ok values n mask r mask' :
  affinity_loop values n mask = Some (r, mask') -> (n + length values <= length mask)%nat ->
  length mask' = length mask /\
  (r = SetOk -> exists ms, Forall2 mask_of values ms /\ mask' = take n mask ++ ms ++ drop (n + length values) mask).
Proof.
  revert n mask. induction values as [|v values IH]; intros n mask; cbn [affinity_loop length].
  { intros [= <- <-] _. split; [done|]. intros _. exists []. split; [constructor|]. by rewrite Nat.add_0_r, app_nil_l, take_drop. }
  destruct (ntg_atoi (v ++ [0]) (length v)) as [i|] eqn:Ei; cbn [mbind option_bind]; [|done].
  destruct (Z.eqb_spec i NTG_ERROR) as [|Hi]; [by intros [= <- <-]|]. destruct (Z.gtb_spec i 64) as [|Hm]; [by intros [= <- <-]|].
  intros E Hn. destruct (IH (S n) _ E ltac:(rewrite length_insert; lia)) as [Hl Hr]. rewrite length_insert in Hl. split; [done|].
  intros Hok. destruct (Hr Hok) as (ms & Hms & ->). exists (Some (u32 i) :: ms). split; [constructor; [by exists i|done]|].
  rewrite drop_insert_lt by lia. rewrite (take_S_r _ n (Some (u32 i))) by (apply list_lookup_insert_eq; lia). rewrite take_insert_ge by lia.
  rewrite <-app_assoc. cbn [app]. do 4 f_equal. lia.
Qed.

(** After a directive that was accepted every process finds a mask: its own, or
    the last one. *)
Theorem cpu_affinity_correct args c c' n :
  ntg_set_cpu_affinity true args c = Some (SetOk, c') -> (1 < length args)%nat ->
  exists value m, args !! S (Nat.min n (length args - 2)) = Some value /\ ntg_get_cpu_affinity n c' = Some m /\ mask_of value (Some m).
Proof.
  unfold ntg_set_cpu_affinity. destruct (cc_cpu_affinity c) as [|] eqn:Ec; [done|]. cbn [negb].
  destruct args as [|a values]; cbn [length tail]; [lia|]. rewrite Nat.sub_succ, Nat.sub_0_r.
  destruct (affinity_loop values 0 (repeat None (length values))) as [ [r mask]|] eqn:El; cbn [mbind option_bind]; [|done].
  intros [= -> <-] Hlen. destruct (affinity_loop_ok _ _ _ _ _ El ltac:(rewrite repeat_length; lia)) as [Hl Hr].
  destruct (Hr eq_refl) as (ms & Hms & ->). rewrite repeat_length in Hl. rewrite take_0, drop_ge in * by (rewrite repeat_length; lia).
  rewrite app_nil_r in *. cbn [app] in *. set (k := Nat.min n (length values - 1)).
  destruct (lookup_lt_is_Some_2 values k ltac:(lia)) as [value Hv]. destruct (Forall2_lookup_l _ _ _ _ _ Hms Hv) as (m & Hm & Hmask).
  destruct Hmask as (i & Ei & H1 & H2 & ->). exists value, (u32 i). split; [|split].
  - replace (S (length values) - 2)%nat with (length values - 1)%nat by lia. exact Hv.
  - unfold ntg_get_cpu_affinity. cbn [cc_cpu_affinity set_cc_cpu_affinity]. rewrite Hl. destruct (Nat.ltb_spec n (length values)).
    + replace n with k by lia. by rewrite Hm.
    + replace (length values - 1)%nat with k by lia. by rewrite Hm.
  - by exists i.
Qed.

(** ** The settings are complete *)

(** A name, or what stands for it when there is none, is the file that is opened:
    behind the prefix, when it is relative. *)
Definition opened (prefix name other full : bytes) : Prop :=
  let f := if decide (name = []) then other else name in absolute f /\ full = f \/ ~ absolute f /\ full = prefix ++ f.

Lemma full_name_opened p name other : text_arg name -> text_arg other ->
  exists full, ntg_conf_full_name true (if (length name =? 0)%nat then other else name) false p = Some (NTG_OK, full) /\
    opened (pt_prefix p) name other full.
Proof.
  intros Hn Ho. unfold opened, ntg_conf_full_name. case_decide as E.
  - subst name. apply (full_name_ok _ _ Ho).
  - rewrite (proj2 (Nat.eqb_neq _ _)) by (by intros H%length_zero_iff_nil). apply (full_name_ok _ _ Hn).
Qed.

(** The lock file of the cycle before is kept, and its name with it. *)
Lemma init_lock_kept alloc c m n : (length ACCEPT_EXT + n <= length m)%nat -> n <> O ->
  exists l, init_lock true (m, n) c = Some (Some l) /\ init_lock alloc l c = if alloc then Some (Some l) else Some None.
Proof.
  intros Hm Hn. unfold init_lock. rewrite (proj2 (Nat.eqb_neq n 0)) by done. cbn [negb]. change (length ACCEPT_EXT) with 7%nat in Hm.
  rewrite (proj2 (Nat.leb_le _ _)) by lia. eexists. split; [reflexivity|]. cbn beta iota. rewrite (proj2 (Nat.eqb_neq n 0)) by done. cbn [negb].
  destruct alloc; [|done]. cbn [negb]. rewrite length_take, (proj2 (Nat.leb_le _ _)) by lia. rewrite take_take. do 4 f_equal. lia.
Qed.

(** A cycle that follows takes over the file of the first. *)
Lemma init_lock_follows c c' : exists l, init_lock true ([], O) c = Some (Some l) /\ init_lock true l c' = Some (Some l).
Proof.
  eexists. split; [reflexivity|]. unfold init_lock. cbn [Nat.eqb negb]. rewrite Nat.sub_succ, Nat.sub_0_r.
  assert (Hl : (length (cc_lock_file c) + 8)%nat = length (cc_lock_file c ++ ACCEPT_EXT ++ [0])) by (rewrite length_app; reflexivity).
  rewrite Hl, (proj2 (Nat.leb_le _ _)) by lia. by rewrite firstn_all.
Qed.

Definition users_known (geteuid : Z) (getpwnam getgrnam : bytes -> option Z) (c : core_conf) : Prop :=
  cc_user c = NTG_CONF_UNSET_UINT32 -> geteuid = 0 -> is_Some (getpwnam NTG_USER) /\ is_Some (getgrnam NTG_GROUP).

(** Only the three settings of the user change. *)
Lemma init_user_ok geteuid getpwnam getgrnam c : users_known geteuid getpwnam getgrnam c ->
  exists c', init_user geteuid getpwnam getgrnam c = (true, c') /\
    c' = set_cc_group (cc_group c') (set_cc_user (cc_user c') (set_cc_username (cc_username c') c)) /\
    (geteuid = 0 -> cc_user c <> NTG_CONF_UNSET_UINT32 \/ getpwnam NTG_USER = Some (cc_user c') /\ getgrnam NTG_GROUP = Some (cc_group c')).
Proof.
  intros Hu. unfold init_user. destruct (Z.eqb_spec (cc_user c) NTG_CONF_UNSET_UINT32) as [E1|E1], (Z.eqb_spec geteuid 0) as [E2|E2]; cbn [andb].
  2-4: exists c; split; [done|]; split; [by destruct c|tauto].
  destruct (Hu E1 E2) as [ [uid Hp] [gid Hg] ]. rewrite Hp, Hg. eexists. split; [done|]. split; [done|]. intros _. by right.
Qed.

(** Once the configuration is read every setting has a value: the one that was
    given, or the default; the names of the pid and lock files are complete, and the
    two that are derived from them lie in memory that is just long enough. *)
Theorem init_conf_correct geteuid getpwnam getgrnam old_lock p c :
  text_arg (cc_pid c) -> text_arg (cc_lock_file c) -> users_known geteuid getpwnam getgrnam c ->
  (old_lock.2 <> O -> length ACCEPT_EXT + old_lock.2 <= length old_lock.1)%nat ->
  exists c' lock, ntg_core_module_init_conf true true true true geteuid getpwnam getgrnam old_lock p c = Some (SetOk, c', Some lock) /\
    (cc_daemon c', cc_master c', cc_worker_processes c') =
      (init_value NTG_CONF_UNSET 1 (cc_daemon c), init_value NTG_CONF_UNSET 1 (cc_master c), init_value NTG_CONF_UNSET 1 (cc_worker_processes c)) /\
    opened (pt_prefix p) (cc_pid c) NTG_PID_PATH (cc_pid c') /\ cc_oldpid c' = cc_pid c' ++ NTG_OLDPID_EXT ++ [0] /\
    opened (pt_prefix p) (cc_lock_file c) NTG_LOCK_PATH (cc_lock_file c') /\
    (old_lock.2 = O -> lock = (cc_lock_file c' ++ ACCEPT_EXT ++ [0], S (length (cc_lock_file c')))) /\
    (geteuid = 0 -> cc_user c <> NTG_CONF_UNSET_UINT32 \/ getpwnam NTG_USER = Some (cc_user c') /\ getgrnam NTG_GROUP = Some (cc_group c')).
Proof.
  intros Hpid Hlock Hu Hold. unfold ntg_core_module_init_conf. cbv zeta.
  match goal with |- context [length (cc_pid ?x)] => set (c1 := x) end.
  change (cc_pid c1) with (cc_pid c). set (c2 := if (length (cc_pid c) =? 0)%nat then set_cc_pid NTG_PID_PATH c1 else c1).
  assert (E2 : cc_pid c2 = if (length (cc_pid c) =? 0)%nat then NTG_PID_PATH else cc_pid c) by (subst c2; by destruct (length (cc_pid c) =? 0)%nat).
  assert (R2 : c2 = set_cc_pid (cc_pid c2) c1) by (subst c2; by destruct (length (cc_pid c) =? 0)%nat).
  rewrite E2. destruct (full_name_opened p (cc_pid c) NTG_PID_PATH Hpid ltac:(repeat constructor)) as (pid & -> & Ho1).
  cbn [mbind option_bind]. change (negb (NTG_OK =? NTG_OK)) with false. change (negb true) with false. cbn match.
  change (cc_pid (set_cc_pid pid c2)) with pid. set (c3 := set_cc_oldpid _ _).
  assert (R3 : c3 = set_cc_oldpid (pid ++ NTG_OLDPID_EXT ++ [0]) (set_cc_pid pid c1)) by (subst c3; by rewrite R2).
  destruct (init_user_ok geteuid getpwnam getgrnam c3) as (c4 & -> & R4 & Hu4); [by rewrite R3|]. rewrite R3 in R4, Hu4. cbn [negb].
  assert (El : cc_lock_file c4 = cc_lock_file c) by (by rewrite R4). rewrite El.
  set (c5 := if (length (cc_lock_file c) =? 0)%nat then set_cc_lock_file NTG_LOCK_PATH c4 else c4).
  assert (E5 : cc_lock_file c5 = if (length (cc_lock_file c) =? 0)%nat then NTG_LOCK_PATH else cc_lock_file c)
    by (subst c5; destruct (length (cc_lock_file c) =? 0)%nat; [done|exact El]).
  assert (R5 : forall l, set_cc_lock_file l c5 = set_cc_lock_file l c4) by (intros l; subst c5; by destruct (length (cc_lock_file c) =? 0)%nat).
  rewrite E5. destruct (full_name_opened p (cc_lock_file c) NTG_LOCK_PATH Hlock ltac:(repeat constructor)) as (lock & -> & Ho2).
  cbn [mbind option_bind]. change (negb (NTG_OK =? NTG_OK)) with false. cbn match. rewrite R5. set (c6 := set_cc_lock_file lock c4).
  assert (exists m, init_lock true old_lock c6 = Some (Some m) /\ (old_lock.2 = O -> m = (lock ++ ACCEPT_EXT ++ [0], S (length lock)))) as (m & -> & Hm).
  { destruct old_lock as [d n]. destruct (decide (n = O)) as [->|Hn]; [eexists; split; [reflexivity|done]|].
    destruct (init_lock_kept true c6 d n (Hold Hn) Hn) as (m & E & _). exists m. split; [exact E|]. intros H. by destruct Hn. }
  cbn [mbind option_bind]. exists c6, m. split; [done|]. subst c6. cbn [cc_pid cc_lock_file cc_oldpid cc_user cc_group set_cc_lock_file cc_daemon cc_master cc_worker_processes].
  split; [by rewrite R4|]. split; [by rewrite R4|]. split; [by rewrite R4|]. split; [exact Ho2|]. split; [exact Hm|exact Hu4].
Qed.

(** ** Examples *)

Definition fresh : core_conf := default (CoreConf 0 0 0 0 (0, 0) None 0 0 0 0 0 0 None None 0 0 [] [] [] [] None) (ntg_core_module_create_conf true true).

Definition with_env : core_conf := set_cc_env [EnvVar (cstring (str "PATH")) 4; EnvVar (cstring (str "MODE=x")) 4; EnvVar (cstring (str "HOME")) 4] fresh.

Lemma environment_correct_witness :
  exists c, ntg_set_environment true true (map cstring [str "PAT=1"; str "PATH=/bin"; str "TZ=UTC"; str "PATH=/usr"]) (Some 2%nat) with_env =
    Some (Some (map Some (map cstring [str "PATH=/bin"; str "MODE=x"; str "TZ=UTC"]) ++ [None; None; None], 3%nat), c).
Proof.
  destruct (environment_correct with_env [(str "PATH", None); (str "MODE", Some (str "x")); (str "HOME", None)]
    [str "PAT=1"; str "PATH=/bin"; str "TZ=UTC"; str "PATH=/usr"] (Some 2%nat)) as (c & E & _).
  - repeat constructor; cbn; try (apply (bool_decide_eq_true_1 _); reflexivity); try lia.
  - repeat constructor.
  - done.
  - exists c. rewrite E. vm_compute. reflexivity.
Defined.

Lemma init_conf_correct_witness :
  exists c lock, ntg_core_module_init_conf true true true true 0 (fun _ => Some 99) (fun _ => Some 98) ([], O) (Paths (str "/srv/") [] [] [] false) fresh =
      Some (SetOk, c, Some lock) /\
    cc_worker_processes c = 1 /\ cc_pid c = str "/srv/logs/ntrig.pid" /\ cc_user c = 99.
Proof.
  destruct (init_conf_correct 0 (fun _ => Some 99) (fun _ => Some 98) ([], O) (Paths (str "/srv/") [] [] [] false) fresh) as (c & lock & E & E1 & E2 & _ & _ & _ & E3).
  - constructor.
  - constructor.
  - intros _ _. by split; eexists.
  - done.
  - exists c, lock. split; [exact E|]. injection E1 as _ _ Ew. split; [exact Ew|]. split.
    + unfold opened in E2. destruct E2 as [ [ [r Hr] _]|[_ E2] ]; [discriminate Hr|exact E2].
    + destruct (E3 eq_refl) as [H|[H _] ]; [by destruct H|by injection H].
Defined.

(** A priority is an [int]: the largest unsigned number is the value that stands for
    an error, and one above it is nought again. *)
Example priority_cut : (fst <$> ntg_set_priority [str "worker_priority"; str "4294967295"] fresh, fst <$> ntg_set_priority [str "worker_priority"; str "4294967296"] fresh) =
  (Some INVALID_NUMBER, Some SetOk).
Proof. reflexivity. Qed.

(** The address 0.0.0.0 stands for no address: a second one is not a duplicate. *)
Example front_end_twice :
  ('(_, c) ← ntg_set_front_end None [str "front_end"; str "0.0.0.0"; str "8080"] fresh; fst <$> ntg_set_front_end None [str "front_end"; str "10.0.0.1"; str "8081"] c) = Some SetOk.
Proof. vm_compute. reflexivity. Qed.

(** The port of the data base is not looked at. *)
Example database_port : ('(r, c) ← ntg_set_database None (map str ["database"; "mysql"; "localhost"; "x"; "u"; "p"; "d"]) fresh; Some (r, snd <$> cc_database c)) = Some (SetOk, Some 18446744073709551615).
Proof. vm_compute. reflexivity. Qed.

(** A line that starts with a NUL is read before its start. *)
Example nul_line : ntg_read_url_file (Some ([0; LF] ++ str "http://a/")) = None.
Proof. reflexivity. Qed.
