(* ===== verification/Times.v ===== *)
(** * Times (src/utils/ntg_times.c, ntg_times.h, ntg_time.c)

    [ntg_gmtime] against the Gregorian calendar, the formats of a time, and the
    cache of formatted times with its ring of slots.  The time of day, the
    calendar of the place and [mktime] are the C library's: arguments. *)

From S2P Require Import Prelude NtgString Sprintf.

(** [struct tm], the members that are used. *)
Record ntg_tm := NtgTm {
  tm_sec : Z; tm_min : Z; tm_hour : Z; tm_mday : Z; tm_mon : Z; tm_year : Z; tm_wday : Z; tm_gmtoff : Z }.

Definition week : list bytes :=
  map (fun s => str s ++ [0]) ["Sun"; "Mon"; "Tue"; "Wed"; "Thu"; "Fri"; "Sat"]%string.
Definition months : list bytes :=
  map (fun s => str s ++ [0])
    ["Jan"; "Feb"; "Mar"; "Apr"; "May"; "Jun"; "Jul"; "Aug"; "Sep"; "Oct"; "Nov"; "Dec"]%string.

(** An entry of a table of strings. *)
Definition entry (table : list bytes) (i : Z) : option arg :=
  if 0 <=? i then ACstr <$> table !! Z.to_nat i else None.

(** ** ntg_gmtime *)

Definition is_leap (year : Z) : bool :=
  (year mod 4 =? 0) && (negb (year mod 100 =? 0) || (year mod 400 =? 0)).

(** Days before March 1 of [year], counted as the code does. *)
Definition days_before (year : Z) : Z :=
  u64 (u64 (u64 (365 * year) + year / 4 - year / 100) + year / 400).

(** The month and the day from the day of a year that starts on March 1. *)
Definition month_day (year yday : Z) : Z * Z * Z :=
  let mon := u64 (Z.quot (s64 (s64 (yday + 31) * 10)) 306) in
  let mday := u64 (u64 (yday - u64 (u64 (367 * mon) / 12 - 30)) + 1) in
  if yday >=? 306 then (u64 (year + 1), u64 (mon - 10), mday) else (year, u64 (mon + 2), mday).

Definition ntg_gmtime (t : Z) : ntg_tm :=
  let n := u64 t in
  let days := n / 86400 in
  let wday := u64 (4 + days) mod 7 in
  let n := n mod 86400 in
  let hour := n / 3600 in
  let n := n mod 3600 in
  let min := n / 60 in
  let sec := n mod 60 in
  let days := u64 (u64 (days - (31 + 28)) + 719527) in
  let year := u64 (u64 (days + 2) * 400) / (365 * 400 + 100 - 4 + 1) in
  let yday := s64 (days - days_before year) in
  let '(year, yday) :=
    if yday <? 0 then (u64 (year - 1), s64 (365 + (if is_leap year then 1 else 0) + yday)) else (year, yday) in
  let '(year, mon, mday) := month_day year yday in
  NtgTm (s32 sec) (s32 min) (s32 hour) (s32 mday) (s32 mon) (s32 year) (s32 wday) 0.

Example gmtime_1 : ntg_gmtime 951782400 = NtgTm 0 0 0 29 2 2000 2 0.
Proof. reflexivity. Qed.
Example gmtime_2 : ntg_gmtime 1456963199 = NtgTm 59 59 23 2 3 2016 3 0.
Proof. reflexivity. Qed.

(** ** The formats *)

Definition ntg_http_time (buf t : Z) : option bytes :=
  let tm := ntg_gmtime t in
  wday ← entry week (tm_wday tm);
  mon ← entry months (s32 (tm_mon tm - 1));
  ntg_sprintf buf (str "%s, %02d %s %4d %02d:%02d:%02d GMT" ++ [0])
    [wday; AInt (tm_mday tm); mon; AInt (tm_year tm); AInt (tm_hour tm); AInt (tm_min tm); AInt (tm_sec tm)].

Definition ntg_http_cookie_time (buf t : Z) : option bytes :=
  let tm := ntg_gmtime t in
  wday ← entry week (tm_wday tm);
  mon ← entry months (s32 (tm_mon tm - 1));
  ntg_sprintf buf
    ((if tm_year tm >? 2037 then str "%s, %02d-%s-%d %02d:%02d:%02d GMT"
      else str "%s, %02d-%s-%02d %02d:%02d:%02d GMT") ++ [0])
    [wday; AInt (tm_mday tm); mon;
     AInt (if tm_year tm >? 2037 then tm_year tm else Z.rem (tm_year tm) 100);
     AInt (tm_hour tm); AInt (tm_min tm); AInt (tm_sec tm)].

(** The formats of [ntg_time_update]. *)
Definition err_log_time (buf : Z) (tm : ntg_tm) : option bytes :=
  ntg_sprintf buf (str "%4d/%02d/%02d %02d:%02d:%02d" ++ [0])
    [AInt (tm_year tm); AInt (tm_mon tm); AInt (tm_mday tm); AInt (tm_hour tm); AInt (tm_min tm); AInt (tm_sec tm)].

Definition http_log_time (buf gmtoff : Z) (tm : ntg_tm) : option bytes :=
  mon ← entry months (s32 (tm_mon tm - 1));
  ntg_sprintf buf (str "%02d/%s/%d:%02d:%02d:%02d %c%02d%02d" ++ [0])
    [AInt (tm_mday tm); mon; AInt (tm_year tm); AInt (tm_hour tm); AInt (tm_min tm); AInt (tm_sec tm);
     AInt (if gmtoff <? 0 then ch "-" else ch "+");
     AInt (Z.abs (Z.quot gmtoff 60)); AInt (Z.abs (Z.rem gmtoff 60))].

Definition http_log_iso8601 (buf gmtoff : Z) (tm : ntg_tm) : option bytes :=
  ntg_sprintf buf (str "%4d-%02d-%02dT%02d:%02d:%02d%c%02d:%02d" ++ [0])
    [AInt (tm_year tm); AInt (tm_mon tm); AInt (tm_mday tm); AInt (tm_hour tm); AInt (tm_min tm); AInt (tm_sec tm);
     AInt (if gmtoff <? 0 then ch "-" else ch "+");
     AInt (Z.abs (Z.quot gmtoff 60)); AInt (Z.abs (Z.rem gmtoff 60))].

Definition syslog_time (buf : Z) (tm : ntg_tm) : option bytes :=
  mon ← entry months (s32 (tm_mon tm - 1));
  ntg_sprintf buf (str "%s %2d %02d:%02d:%02d" ++ [0])
    [mon; AInt (tm_mday tm); AInt (tm_hour tm); AInt (tm_min tm); AInt (tm_sec tm)].

(** ** The cache *)

Definition NTG_TIME_SLOTS : Z := 64.

(** [ntg_time_t]. *)
Record ntg_time := NtgTime { sec : Z; msec : Z; gmtoff : Z }.

(** A slot: the time, and the texts of the five arrays. *)
Record slot_data := SlotData {
  sl_time : ntg_time;
  sl_err_log : bytes;
  sl_http : bytes;
  sl_http_log : bytes;
  sl_iso8601 : bytes;
  sl_syslog : bytes }.

(** What the pointers [ntg_cached_...] point at: slots. *)
Record cached := Cached {
  p_time : Z;
  p_http : option Z;
  p_err_log : option Z;
  p_http_log : option Z;
  p_iso8601 : option Z;
  p_syslog : option Z }.

Record times := Times {
  slot : Z;
  ntg_time_lock : Z;
  ntg_current_msec : Z;
  cached_gmtoff : Z;
  slots : list slot_data;
  pointers : cached }.

(** A text is written over the row of its slot, without a NUL; one longer than
    the row is undefined. *)
Definition write_row (row out : bytes) : option bytes :=
  if (length out <=? length row)%nat then Some (out ++ drop (length out) row) else None.

Definition next_slot (slot : Z) : Z := if slot =? NTG_TIME_SLOTS - 1 then 0 else u64 (slot + 1).

Section cache.
(** [localtime] of the C library, and the addresses of the rows, by array and slot. *)
Context (localtime : Z -> ntg_tm) (row_addr : Z -> Z -> Z).

Definition ntg_localtime (s : Z) : ntg_tm :=
  let tm := localtime s in
  NtgTm (tm_sec tm) (tm_min tm) (tm_hour tm) (tm_mday tm) (s32 (tm_mon tm + 1)) (s32 (tm_year tm + 1900))
    (tm_wday tm) (tm_gmtoff tm).

Definition ntg_libc_localtime (s : Z) : ntg_tm := localtime s.

(** The part of [ntg_time_update] behind the choice of the slot. *)
Definition fill_slot (sec' msec' i : Z) (t : times) : option times :=
  sl ← slots t !! Z.to_nat i;
  p0 ← ntg_http_time (row_addr 0 i) sec' ≫= write_row (sl_http sl);
  let tm := ntg_localtime sec' in
  let off := Z.quot (tm_gmtoff tm) 60 in
  p1 ← err_log_time (row_addr 1 i) tm ≫= write_row (sl_err_log sl);
  p2 ← http_log_time (row_addr 2 i) off tm ≫= write_row (sl_http_log sl);
  p3 ← http_log_iso8601 (row_addr 3 i) off tm ≫= write_row (sl_iso8601 sl);
  p4 ← syslog_time (row_addr 4 i) tm ≫= write_row (sl_syslog sl);
  let sl := SlotData (NtgTime sec' msec' off) p1 p0 p2 p3 p4 in
  Some (Times i 0 (ntg_current_msec t) off (<[Z.to_nat i := sl]> (slots t))
         (Cached i (Some i) (Some i) (Some i) (Some i) (Some i))).

(** [ntg_time_update]; the time of day is that of [gettimeofday]. *)
Definition ntg_time_update (tv_sec tv_usec : Z) (t : times) : option times :=
  if negb (ntg_time_lock t =? 0) then Some t
  else
    let msec' := u64 (Z.quot tv_usec 1000) in
    let t := Times (slot t) (ntg_time_lock t) (u64 (u64 tv_sec * 1000 + msec')) (cached_gmtoff t) (slots t) (pointers t) in
    sl ← slots t !! Z.to_nat (slot t);
    let tp := sl_time sl in
    if sec tp =? tv_sec then
      let sl := SlotData (NtgTime (sec tp) msec' (gmtoff tp)) (sl_err_log sl) (sl_http sl) (sl_http_log sl)
                  (sl_iso8601 sl) (sl_syslog sl) in
      Some (Times (slot t) 0 (ntg_current_msec t) (cached_gmtoff t) (<[Z.to_nat (slot t) := sl]> (slots t)) (pointers t))
    else fill_slot tv_sec msec' (next_slot (slot t)) t.

(** [ntg_time_sigsafe_update]: two of the texts only. *)
Definition ntg_time_sigsafe_update (tv_sec : Z) (t : times) : option times :=
  if negb (ntg_time_lock t =? 0) then Some t
  else
    sl ← slots t !! Z.to_nat (slot t);
    if sec (sl_time sl) =? tv_sec then Some t
    else
      let i := next_slot (slot t) in
      sl ← slots t !! Z.to_nat i;
      let tp := sl_time sl in
      let tm := ntg_gmtime (s64 (tv_sec + s64 (cached_gmtoff t * 60))) in
      p ← err_log_time (row_addr 1 i) tm ≫= write_row (sl_err_log sl);
      p2 ← syslog_time (row_addr 4 i) tm ≫= write_row (sl_syslog sl);
      let sl := SlotData (NtgTime 0 (msec tp) (gmtoff tp)) p (sl_http sl) (sl_http_log sl) (sl_iso8601 sl) p2 in
      let ps := pointers t in
      Some (Times i 0 (ntg_current_msec t) (cached_gmtoff t) (<[Z.to_nat i := sl]> (slots t))
             (Cached (p_time ps) (p_http ps) (Some i) (p_http_log ps) (p_iso8601 ps) (Some i))).

(** The static memory before [ntg_time_init]: all zero. *)
Definition zero_slot : slot_data :=
  SlotData (NtgTime 0 0 0) (replicate 20 0) (replicate 30 0) (replicate 27 0) (replicate 26 0) (replicate 16 0).
Definition zero_times : times :=
  Times 0 0 0 0 (replicate 64 zero_slot) (Cached 0 None None None None None).

Definition ntg_time_init (tv_sec tv_usec : Z) : option times := ntg_time_update tv_sec tv_usec zero_times.

(** [ntg_time] of the cached time. *)
Definition ntg_time_now (t : times) : option Z := (fun sl => sec (sl_time sl)) <$> slots t !! Z.to_nat (p_time (pointers t)).

(** [ntg_next_time]; [mktime] also brings its argument in order. *)
Definition ntg_next_time (mktime : ntg_tm -> Z * ntg_tm) (when : Z) (t : times) : option Z :=
  now ← ntg_time_now t;
  let tm := ntg_libc_localtime now in
  let hour := s32 (Z.quot when 3600) in
  let when := Z.rem when 3600 in
  let tm := NtgTm (s32 (Z.rem when 60)) (s32 (Z.quot when 60)) hour (tm_mday tm) (tm_mon tm) (tm_year tm)
              (tm_wday tm) (tm_gmtoff tm) in
  let '(next, tm) := mktime tm in
  if next =? -1 then Some (-1)
  else if s64 (next - now) >? 0 then Some next
  else
    let tm := NtgTm (tm_sec tm) (tm_min tm) (tm_hour tm) (s32 (tm_mday tm + 1)) (tm_mon tm) (tm_year tm)
                (tm_wday tm) (tm_gmtoff tm) in
    let '(next, _) := mktime tm in
    if negb (next =? -1) then Some next else Some (-1).

End cache.

(** ** The calendar *)

(** The Gregorian calendar, by its rules: the leap years, the days of a month, of
    the years before. *)
Definition leap_year (year : Z) : bool :=
  (year mod 400 =? 0) || ((year mod 4 =? 0) && negb (year mod 100 =? 0)).

Definition month_days (year month : Z) : Z :=
  if month =? 2 then (if leap_year year then 29 else 28)
  else if (month =? 4) || (month =? 6) || (month =? 9) || (month =? 11) then 30 else 31.

Definition days_of_years (year : Z) : Z :=
  365 * (year - 1) + (year - 1) / 4 - (year - 1) / 100 + (year - 1) / 400.

Fixpoint days_of_months (year : Z) (months : nat) : Z :=
  match months with
  | O => 0
  | S m => days_of_months year m + month_days year (Z.of_nat (S m))
  end.

(** The number of a day, January 1 of year 1 being day 0. *)
Definition day_number (year month day : Z) : Z :=
  days_of_years year + days_of_months year (Z.to_nat (month - 1)) + day - 1.

Definition epoch : Z := day_number 1970 1 1.

Record valid_tm (tm : ntg_tm) : Prop := {
  vt_sec : 0 <= tm_sec tm < 60;
  vt_min : 0 <= tm_min tm < 60;
  vt_hour : 0 <= tm_hour tm < 24;
  vt_mon : 1 <= tm_mon tm <= 12;
  vt_mday : 1 <= tm_mday tm <= month_days (tm_year tm) (tm_mon tm);
  vt_wday : 0 <= tm_wday tm < 7 }.

Lemma is_leap_spec y : is_leap y = leap_year y.
Proof.
  unfold is_leap, leap_year.
  destruct (Z.eqb_spec (y mod 4) 0), (Z.eqb_spec (y mod 100) 0), (Z.eqb_spec (y mod 400) 0); cbn [negb andb orb]; try done; mlia.
Qed.

(** One more year adds 365 or 366 days. *)
Lemma days_of_years_step y : days_of_years (y + 1) = days_of_years y + 365 + (if leap_year y then 1 else 0).
Proof.
  unfold days_of_years, leap_year. replace (y + 1 - 1) with y by lia.
  destruct (Z.eqb_spec (y mod 4) 0), (Z.eqb_spec (y mod 100) 0), (Z.eqb_spec (y mod 400) 0); cbn [negb andb orb];
    Z.to_euclidean_division_equations; lia.
Qed.

(** ** The months *)

(** The days before a month of a common year. *)
Definition days_before_month : list Z := [0; 31; 59; 90; 120; 151; 181; 212; 243; 273; 304; 334].

Lemma days_of_months_table y m :
  1 <= m <= 12 ->
  days_of_months y (Z.to_nat (m - 1)) =
  nth (Z.to_nat (m - 1)) days_before_month 0 + (if leap_year y && (3 <=? m) then 1 else 0).
Proof.
  intros Hm. assert (Hk : exists k, (k < 12)%nat /\ m = Z.of_nat k + 1) by (exists (Z.to_nat (m - 1)); lia).
  destruct Hk as (k & Hk & ->). replace (Z.to_nat (Z.of_nat k + 1 - 1)) with k by lia.
  do 12 (destruct k as [|k]; [destruct (leap_year y) eqn:E; cbn -[leap_year]; unfold month_days; cbn -[leap_year]; rewrite ?E; reflexivity|]). lia.
Qed.

(** Every day of a year that starts on March 1. *)
Definition month_day_ok (yday : Z) : bool :=
  let '(_, m, d) := month_day 0 yday in
  let before := nth (Z.to_nat (m - 1)) days_before_month 0 in
  if yday <? 306 then
    (3 <=? m) && (m <=? 12) && (1 <=? d) && (d <=? (if m =? 12 then 31 else month_days 1 m)) && (before + d - 1 =? 59 + yday)
  else
    (1 <=? m) && (m <=? 2) && (1 <=? d) && (d <=? (if m =? 2 then if yday =? 365 then 29 else 28 else 31)) &&
    (before + d - 1 =? yday - 306).

Lemma month_day_year y yday :
  month_day y yday = let '(_, m, d) := month_day 0 yday in (if yday >=? 306 then u64 (y + 1) else y, m, d).
Proof. unfold month_day. by destruct (yday >=? 306). Qed.

(** The date of a day of a year that starts on March 1 of [y]. *)
Lemma month_day_spec y yday :
  0 <= yday < 365 + (if leap_year (y + 1) then 1 else 0) -> 0 <= y < 2 ^ 63 ->
  exists y' m d, month_day y yday = (y', m, d) /\ (y' = y \/ y' = y + 1) /\ 1 <= m <= 12 /\ 1 <= d <= month_days y' m /\
    day_number y' m d = day_number y 3 1 + yday.
Proof.
  intros Hd Hy. assert (Hok : month_day_ok yday = true).
  { apply (forall_below 366 month_day_ok); [by vm_compute|]. destruct (leap_year (y + 1)); lia. }
  unfold month_day_ok in Hok. rewrite month_day_year. destruct (month_day 0 yday) as [[? m] d].
  set (before := nth _ _ _) in Hok. rewrite Z.geb_leb.
  assert (Hlen : forall y', m <> 2 -> month_days y' m = month_days 1 m).
  { intros y' Hm. unfold month_days. by rewrite (proj2 (Z.eqb_neq m 2)). }
  unfold day_number. change (days_of_months y (Z.to_nat (3 - 1))) with (0 + 31 + (if leap_year y then 29 else 28)).
  destruct (Z.ltb_spec yday 306); repeat rewrite andb_true_iff in Hok;
    destruct Hok as ((((H1 & H2) & H3) & H4) & H5); apply Z.leb_le in H1, H2, H3, H4; apply Z.eqb_eq in H5.
  - exists y, m, d. rewrite (proj2 (Z.leb_gt _ _)) by lia. rewrite days_of_months_table by lia. fold before.
    rewrite (proj2 (Z.leb_le 3 m)) by lia. rewrite andb_true_r, Hlen by lia.
    split_and!; [done|by left|lia|lia|lia| |].
    + destruct (Z.eqb_spec m 12) as [->|]; [done|lia].
    + destruct (leap_year y); lia.
  - exists (y + 1), m, d. rewrite (proj2 (Z.leb_le _ _)) by lia. rewrite u64_small by (width; lia).
    rewrite days_of_months_table by lia. fold before. rewrite (proj2 (Z.leb_gt 3 m)) by lia. rewrite andb_false_r.
    rewrite days_of_years_step. split_and!; [done|by right|lia|lia|lia| |destruct (leap_year y); lia].
    unfold month_days. destruct (Z.eqb_spec m 2) as [->|Hm].
    + cbn [Z.eqb] in H4. destruct (Z.eqb_spec yday 365) as [->|]; destruct (leap_year (y + 1)); lia.
    + assert (m = 1) as -> by lia. cbn. lia.
Qed.

(** ** The year *)

Lemma days_before_spec y : 0 <= y < 2 ^ 40 -> days_before y = 365 * y + y / 4 - y / 100 + y / 400.
Proof.
  intros Hy. unfold days_before. change (2 ^ 40) with 1099511627776 in Hy.
  rewrite (u64_small (365 * y)) by (width; lia).
  rewrite (u64_small (365 * y + _ - _)), u64_small by (width; Z.to_euclidean_division_equations; lia). done.
Qed.

(** [days_before] counts the days to March 1, from that of year 0. *)
Lemma march_first y : 365 * y + y / 4 - y / 100 + y / 400 = day_number y 3 1 + 306.
Proof.
  unfold day_number. change (days_of_months y (Z.to_nat (3 - 1))) with (0 + 31 + (if leap_year y then 29 else 28)).
  pose proof (days_of_years_step y) as E. unfold days_of_years at 1 in E.
  replace (y + 1 - 1) with y in E by lia. destruct (leap_year y); lia.
Qed.

(** Gauss' formula is at most one year ahead. *)
Lemma gauss_year D y :
  0 <= D -> y = (D + 2) * 400 / 146097 ->
  let first y := 365 * y + y / 4 - y / 100 + y / 400 in
  first (y - 1) <= D < first (y + 1).
Proof.
  intros HD Hy. cbv beta zeta.
  pose proof (Z.div_mod ((D + 2) * 400) 146097 ltac:(lia)). pose proof (Z.mod_pos_bound ((D + 2) * 400) 146097 ltac:(lia)).
  rewrite <-Hy in *. clear Hy. assert (H4 : forall z, 4 * (z / 4) <= z < 4 * (z / 4) + 4) by (intros; mlia).
  assert (H100 : forall z, 100 * (z / 100) <= z < 100 * (z / 100) + 100) by (intros; mlia).
  assert (H400 : forall z, 400 * (z / 400) <= z < 400 * (z / 400) + 400) by (intros; mlia).
  pose proof (H4 (y - 1)). pose proof (H4 (y + 1)). pose proof (H100 (y - 1)). pose proof (H100 (y + 1)).
  pose proof (H400 (y - 1)). pose proof (H400 (y + 1)). lia.
Qed.

(** A count of seconds since the epoch is the valid date and time that many
    seconds away, on its day of the week. *)
Definition seconds_of (tm : ntg_tm) : Z :=
  (day_number (tm_year tm) (tm_mon tm) (tm_mday tm) - epoch) * 86400 + tm_hour tm * 3600 + tm_min tm * 60 + tm_sec tm.

Lemma gmtime_year D :
  0 <= D < 2 ^ 39 ->
  let year := u64 (u64 (D + 2) * 400) / (365 * 400 + 100 - 4 + 1) in
  let yday := s64 (D - days_before year) in
  exists y yd,
    (if yday <? 0 then (u64 (year - 1), s64 (365 + (if is_leap year then 1 else 0) + yday)) else (year, yday)) = (y, yd) /\
    0 <= y < 2 ^ 31 - 1 /\ 0 <= yd < 365 + (if leap_year (y + 1) then 1 else 0) /\ D = day_number y 3 1 + 306 + yd.
Proof.
  intros HD. change (2 ^ 39) with 549755813888 in HD. change (365 * 400 + 100 - 4 + 1) with 146097. cbv zeta.
  rewrite (u64_small (D + 2)), (u64_small (_ * 400)) by (width; lia).
  destruct (gauss_year D _ (proj1 HD) eq_refl) as [H1 H2]. cbv beta in H1, H2.
  set (year := (D + 2) * 400 / 146097) in *.
  assert (Hy : 0 <= year < 2 ^ 31 - 1) by (change (2 ^ 31) with 2147483648; subst year; clear H1 H2; mlia).
  change (2 ^ 31) with 2147483648 in *.
  rewrite is_leap_spec, days_before_spec by (change (2 ^ 40) with 1099511627776; lia).
  pose proof (march_first (year - 1)) as M0. pose proof (march_first year) as M1. pose proof (march_first (year + 1)) as M2.
  set (f0 := _ - _ + (year - 1) / 400) in *. set (f1 := _ - _ + year / 400) in *. set (f2 := _ - _ + (year + 1) / 400) in *.
  assert (Hstep : forall y, day_number (y + 1) 3 1 = day_number y 3 1 + 365 + (if leap_year (y + 1) then 1 else 0)).
  { clear. intros y. unfold day_number. rewrite days_of_years_step.
    change (days_of_months ?y (Z.to_nat (3 - 1))) with (0 + 31 + (if leap_year y then 29 else 28)). destruct (leap_year y), (leap_year (y + 1)); lia. }
  pose proof (Hstep (year - 1)) as S1. pose proof (Hstep year) as S2. replace (year - 1 + 1) with year in * by lia.
  assert (Hs : -400 < D - f1 < 400) by (destruct (leap_year year), (leap_year (year + 1)); lia).
  rewrite (s64_small (D - f1)) by (width; lia).
  destruct (Z.ltb_spec (D - f1) 0).
  - eexists _, _. split; [reflexivity|].
    assert (Hl : 0 <= (if leap_year year then 1 else 0) <= 1) by (destruct (leap_year year); lia).
    assert (year <> 0).
    { intros E0. assert (f1 = 0) by (subst f1; rewrite E0; reflexivity). lia. }
    rewrite u64_small, s64_small by (width; lia). replace (year - 1 + 1) with year by lia. lia.
  - eexists _, _. split; [reflexivity|]. lia.
Qed.

Lemma days_before_1970 y m d :
  y < 1970 -> 1 <= m <= 12 -> 1 <= d <= month_days y m -> day_number y m d < epoch.
Proof.
  intros Hy Hm Hd. change epoch with 719162. unfold day_number. rewrite days_of_months_table by done.
  assert (Hb : forall k, nth k days_before_month 0 <= 334).
  { intros k. do 12 (destruct k as [|k]; [cbn; lia|]). by destruct k. }
  specialize (Hb (Z.to_nat (m - 1))).
  assert (Hlen : month_days y m <= 31) by (unfold month_days; repeat case_match; lia).
  destruct (decide (y = 1969)) as [->|].
  - change (days_of_years 1969) with 718797. change (leap_year 1969) with false. cbn [andb]. lia.
  - assert (days_of_years y <= 718431) by (unfold days_of_years; mlia).
    destruct (leap_year y && (3 <=? m)); lia.
Qed.

Lemma gmtime_fields t :
  0 <= t < 2 ^ 55 ->
  let tm := ntg_gmtime t in
  valid_tm tm /\ seconds_of tm = t /\ tm_wday tm = (4 + t / 86400) mod 7 /\ 1970 <= tm_year tm.
Proof.
  intros Ht. change (2 ^ 55) with 36028797018963968 in Ht. cbv zeta. unfold ntg_gmtime.
  rewrite (u64_small t) by (width; lia). set (days := t / 86400).
  assert (Hdays : 0 <= days < 417000000000) by (subst days; mlia).
  rewrite (u64_small (4 + days)) by (width; lia).
  assert (ED : u64 (u64 (days - (31 + 28)) + 719527) = days + 719468) by mlia. rewrite ED.
  destruct (gmtime_year (days + 719468)) as (y & yd & E & Hy & Hyd & HD); [lia|]. cbv zeta in E. rewrite E.
  destruct (month_day_spec y yd Hyd) as (y' & m & d & E' & Hy' & Hm & Hd & Hn); [lia|]. rewrite E'.
  assert (Hmd : 28 <= month_days y' m <= 31) by (unfold month_days; repeat case_match; lia).
  change (2 ^ 31) with 2147483648 in Hy.
  assert (Hw : 0 <= (4 + days) mod 7 < 7) by mlia.
  assert (Es : forall z, 0 <= z < 2147483648 -> s32 z = z) by (clear; intros; mlia).
  assert (Hsec : 0 <= t mod 86400 mod 3600 mod 60 < 60 /\ 0 <= t mod 86400 mod 3600 / 60 < 60 /\ 0 <= t mod 86400 / 3600 < 24 /\
    t = days * 86400 + t mod 86400 / 3600 * 3600 + t mod 86400 mod 3600 / 60 * 60 + t mod 86400 mod 3600 mod 60)
    by (subst days; mlia).
  destruct Hsec as (Hs & Hmin & Hh & Et).
  rewrite !Es by lia. unfold seconds_of, epoch in *. cbn [tm_sec tm_min tm_hour tm_mday tm_mon tm_year tm_wday].
  change (day_number 1970 1 1) with 719162.
  split; [by split; cbn [tm_sec tm_min tm_hour tm_mday tm_mon tm_year tm_wday]; lia|]. split; [lia|]. split; [done|].
  destruct (Z.le_gt_cases 1970 y') as [|Hlt]; [done|exfalso].
  pose proof (days_before_1970 y' m d ltac:(lia) Hm Hd) as Hlt'. change epoch with 719162 in Hlt'. lia.
Qed.

(** ** The texts *)

Definition two (n : Z) : bytes := filled (ch "0") 2 n.
Definition name (table : list bytes) (i : Z) : bytes := take 3 (nth (Z.to_nat i) table []).
Definition clock (tm : ntg_tm) : bytes :=
  two (tm_hour tm) ++ str ":" ++ two (tm_min tm) ++ str ":" ++ two (tm_sec tm).

(** Mon, 28 Sep 1970 06:00:00 GMT *)
Definition http_text (tm : ntg_tm) : bytes :=
  name week (tm_wday tm) ++ str ", " ++ two (tm_mday tm) ++ str " " ++ name months (tm_mon tm - 1) ++ str " " ++
  filled (ch " ") 4 (tm_year tm) ++ str " " ++ clock tm ++ str " GMT".

(** 1970/09/28 12:00:00 *)
Definition err_log_text (tm : ntg_tm) : bytes :=
  filled (ch " ") 4 (tm_year tm) ++ str "/" ++ two (tm_mon tm) ++ str "/" ++ two (tm_mday tm) ++ str " " ++ clock tm.

(** +0600 *)
Definition zone (colon : bytes) (off : Z) : bytes :=
  [if off <? 0 then ch "-" else ch "+"] ++ two (Z.abs off / 60) ++ colon ++ two (Z.abs off mod 60).

(** 28/Sep/1970:12:00:00 +0600 *)
Definition http_log_text (tm : ntg_tm) (off : Z) : bytes :=
  two (tm_mday tm) ++ str "/" ++ name months (tm_mon tm - 1) ++ str "/" ++ decimal (tm_year tm) ++ str ":" ++
  clock tm ++ str " " ++ zone [] off.

(** 1970-09-28T12:00:00+06:00 *)
Definition iso8601_text (tm : ntg_tm) (off : Z) : bytes :=
  filled (ch " ") 4 (tm_year tm) ++ str "-" ++ two (tm_mon tm) ++ str "-" ++ two (tm_mday tm) ++ str "T" ++
  clock tm ++ zone (str ":") off.

(** Sep 28 12:00:00 *)
Definition syslog_text (tm : ntg_tm) : bytes :=
  name months (tm_mon tm - 1) ++ str " " ++ filled (ch " ") 2 (tm_mday tm) ++ str " " ++ clock tm.

Lemma filled_0 zero n : filled zero 0 n = decimal n.
Proof. unfold filled. by replace (Z.to_nat (0 - _)) with 0%nat by lia. Qed.

Lemma entry_name table i :
  table = week \/ table = months -> 0 <= i < Z.of_nat (length table) ->
  entry table i = Some (ACstr (name table i ++ [0])) /\ Forall (fun c => 0 < c) (name table i) /\ length (name table i) = 3%nat.
Proof.
  intros Ht Hi. unfold entry. rewrite (proj2 (Z.leb_le 0 i)) by lia. unfold name.
  assert (Hk : exists k, Z.to_nat i = k /\ (k < length table)%nat) by (exists (Z.to_nat i); lia).
  destruct Hk as (k & -> & Hk). destruct Ht as [-> | ->]; cbn in Hk;
    repeat (destruct k as [|k]; [split; [reflexivity|split; [repeat constructor|reflexivity]]|]); lia.
Qed.

(** The numbers the formats can print. *)
Record small_tm (tm : ntg_tm) : Prop := {
  sm_valid : valid_tm tm;
  sm_year : 0 <= tm_year tm < 2147483648 }.

Section texts.
Context (tm : ntg_tm) (Hs : small_tm tm) (buf : Z) (Hb : 0 <= buf < 2 ^ 63).

Lemma mday_range : 1 <= tm_mday tm <= 31.
Proof.
  destruct Hs as [[] _]. assert (month_days (tm_year tm) (tm_mon tm) <= 31); [|lia].
  unfold month_days; repeat case_match; lia.
Qed.

Lemma wday_entry : entry week (tm_wday tm) = Some (ACstr (name week (tm_wday tm) ++ [0])) /\
  Forall (fun c => 0 < c) (name week (tm_wday tm)) /\ length (name week (tm_wday tm)) = 3%nat.
Proof. apply entry_name; [by left|]. destruct Hs as [[] _]. cbn. lia. Qed.

Lemma mon_entry : entry months (s32 (tm_mon tm - 1)) = Some (ACstr (name months (tm_mon tm - 1) ++ [0])) /\
  Forall (fun c => 0 < c) (name months (tm_mon tm - 1)) /\ length (name months (tm_mon tm - 1)) = 3%nat.
Proof using Hs.
  clear - Hs. destruct Hs as [[] _]. assert (s32 (tm_mon tm - 1) = tm_mon tm - 1) as -> by mlia.
  apply entry_name; [by right|]. cbn. lia.
Qed.

(** A piece of these formats. *)
Definition fits_piece (p : piece) : Prop := piece_ok p /\ Z.of_nat (length (piece_out p)) <= 64.

Lemma int_fits spec zero width n : int_spec spec zero width -> 0 <= n < 2147483648 -> fits_piece (PInt spec zero width n).
Proof.
  intros Hi Hn. split; [by apply int_piece_ok|]. cbn [piece_out PInt].
  pose proof (length_filled_max zero width n ltac:(destruct Hi; lia) ltac:(lia)). lia.
Qed.

Lemma text_fits s : plain s -> Z.of_nat (length s) <= 64 -> fits_piece (PText s).
Proof. by split. Qed.

Lemma str_fits s : Forall (fun c => 0 < c) s -> length s = 3%nat -> fits_piece (PStr s).
Proof. intros Hp Hl. split; [by apply str_piece_ok|]. cbn [piece_out PStr]. lia. Qed.

Lemma char_fits c : is_byte c -> fits_piece (PChar c).
Proof. intros Hc. split; [by apply char_piece_ok|]. cbn. lia. Qed.

Lemma printed ps : Forall fits_piece ps -> (length ps <= 64)%nat ->
  ntg_sprintf buf (pieces_fmt ps) (pieces_args ps) = Some (pieces_out ps).
Proof.
  intros Hp Hl. apply ntg_sprintf_pieces; [done| | |done];
    (eapply List.Forall_impl; [|exact Hp]; intros ? []; done).
Qed.

Definition clock_pieces : list piece :=
  [PInt (str "02d") (ch "0") 2 (tm_hour tm); PText (str ":"); PInt (str "02d") (ch "0") 2 (tm_min tm); PText (str ":");
   PInt (str "02d") (ch "0") 2 (tm_sec tm)].

Ltac solve_pieces :=
  destruct Hs as [[] ?]; pose proof mday_range;
  repeat (apply List.Forall_cons;
    [first [apply int_fits; [constructor || eassumption|lia]
           |apply text_fits; [by repeat (constructor; [split; by vm_compute|])|cbn; lia]
           |apply str_fits; [apply mon_entry || apply wday_entry|apply mon_entry || apply wday_entry]]|]);
  try apply List.Forall_nil.

Lemma http_printed :
  (wday ← entry week (tm_wday tm);
   mon ← entry months (s32 (tm_mon tm - 1));
   ntg_sprintf buf (str "%s, %02d %s %4d %02d:%02d:%02d GMT" ++ [0])
     [wday; AInt (tm_mday tm); mon; AInt (tm_year tm); AInt (tm_hour tm); AInt (tm_min tm); AInt (tm_sec tm)]) =
  Some (http_text tm).
Proof.
  rewrite (proj1 wday_entry), (proj1 mon_entry). cbn [mbind option_bind].
  refine (eq_trans (printed ([PStr (name week (tm_wday tm)); PText (str ", "); PInt (str "02d") (ch "0") 2 (tm_mday tm);
    PText (str " "); PStr (name months (tm_mon tm - 1)); PText (str " "); PInt (str "4d") (ch " ") 4 (tm_year tm);
    PText (str " ")] ++ clock_pieces ++ [PText (str " GMT")]) _ _) _); [|cbn; lia|].
  - unfold clock_pieces. cbn [app]. solve_pieces.
  - unfold http_text, clock, two, pieces_out. cbn [map concat app clock_pieces piece_out PInt PStr]. by rewrite <-!app_assoc.
Qed.

(** Prints what is left with the pieces [ps]. *)
Ltac print_with ps :=
  refine (eq_trans (printed ps _ _) _);
  [unfold clock_pieces; cbn [app]; solve_pieces
  |cbn; lia
  |unfold pieces_out; cbn [map concat app clock_pieces piece_out PInt PStr PChar];
   rewrite <-?app_assoc, ?app_nil_r; try reflexivity].

Lemma err_log_printed : err_log_time buf tm = Some (err_log_text tm).
Proof.
  unfold err_log_time.
  print_with ([PInt (str "4d") (ch " ") 4 (tm_year tm); PText (str "/"); PInt (str "02d") (ch "0") 2 (tm_mon tm);
    PText (str "/"); PInt (str "02d") (ch "0") 2 (tm_mday tm); PText (str " ")] ++ clock_pieces).
Qed.

Lemma syslog_printed : syslog_time buf tm = Some (syslog_text tm).
Proof.
  unfold syslog_time. rewrite (proj1 mon_entry). cbn [mbind option_bind].
  print_with ([PStr (name months (tm_mon tm - 1)); PText (str " "); PInt (str "2d") (ch " ") 2 (tm_mday tm);
    PText (str " ")] ++ clock_pieces).
Qed.

Lemma cookie_printed y spec zero width :
  int_spec spec zero width -> 0 <= y < 2147483648 ->
  (wday ← entry week (tm_wday tm);
   mon ← entry months (s32 (tm_mon tm - 1));
   ntg_sprintf buf (str "%s, %02d-%s-%" ++ spec ++ str " %02d:%02d:%02d GMT" ++ [0])
     [wday; AInt (tm_mday tm); mon; AInt y; AInt (tm_hour tm); AInt (tm_min tm); AInt (tm_sec tm)]) =
  Some (name week (tm_wday tm) ++ str ", " ++ two (tm_mday tm) ++ str "-" ++ name months (tm_mon tm - 1) ++ str "-" ++
    filled zero width y ++ str " " ++ clock tm ++ str " GMT").
Proof.
  intros Hsp Hy. rewrite (proj1 wday_entry), (proj1 mon_entry). cbn [mbind option_bind].
  assert (E : str "%s, %02d-%s-%" ++ spec ++ str " %02d:%02d:%02d GMT" ++ [0] =
    pieces_fmt ([PStr (name week (tm_wday tm)); PText (str ", "); PInt (str "02d") (ch "0") 2 (tm_mday tm); PText (str "-");
      PStr (name months (tm_mon tm - 1)); PText (str "-"); PInt spec zero width y; PText (str " ")] ++ clock_pieces ++
      [PText (str " GMT")])) by (by destruct Hsp).
  rewrite E. refine (eq_trans (printed _ _ _) _); [|cbn; lia|].
  - cbn [app clock_pieces]. solve_pieces.
  - unfold clock, two, pieces_out. cbn [map concat app clock_pieces piece_out PInt PStr]. by rewrite <-!app_assoc.
Qed.

Section zone.
Context (off : Z) (Hoff : -6000 < off < 6000).

Lemma off_hours : Z.abs (Z.quot off 60) = Z.abs off / 60 /\ 0 <= Z.abs off / 60 < 100.
Proof using Hoff. clear - Hoff. Z.to_euclidean_division_equations. lia. Qed.

Lemma off_minutes : Z.abs (Z.rem off 60) = Z.abs off mod 60 /\ 0 <= Z.abs off mod 60 < 60.
Proof using Hoff. clear - Hoff. Z.to_euclidean_division_equations. lia. Qed.

Definition zone_pieces (colon : list piece) : list piece :=
  [PChar (if off <? 0 then ch "-" else ch "+"); PInt (str "02d") (ch "0") 2 (Z.abs off / 60)] ++ colon ++
  [PInt (str "02d") (ch "0") 2 (Z.abs off mod 60)].

Lemma zone_fits colon : Forall fits_piece colon -> Forall fits_piece (zone_pieces colon).
Proof.
  intros Hc. unfold zone_pieces. pose proof off_hours. pose proof off_minutes.
  apply List.Forall_app; split; [|apply List.Forall_app; split; [done|]];
    repeat (apply List.Forall_cons; [first [apply char_fits; destruct (off <? 0); by vm_compute|apply int_fits; [constructor|lia]]|]);
    apply List.Forall_nil.
Qed.

Lemma http_log_printed : http_log_time buf off tm = Some (http_log_text tm off).
Proof.
  unfold http_log_time. rewrite (proj1 mon_entry), (proj1 off_hours), (proj1 off_minutes). cbn [mbind option_bind].
  refine (eq_trans (printed ([PInt (str "02d") (ch "0") 2 (tm_mday tm); PText (str "/"); PStr (name months (tm_mon tm - 1));
    PText (str "/"); PInt (str "d") (ch " ") 0 (tm_year tm); PText (str ":")] ++ clock_pieces ++ [PText (str " ")] ++ zone_pieces []) _ _) _);
    [|cbn; lia|].
  - rewrite !app_assoc. apply List.Forall_app; split; [|by apply zone_fits]. unfold clock_pieces. cbn [app]. solve_pieces.
  - unfold pieces_out. cbn [map concat app clock_pieces zone_pieces piece_out PInt PStr PChar].
    rewrite app_nil_r. rewrite filled_0. unfold http_log_text, clock, two, zone. rewrite <-!app_assoc. reflexivity.
Qed.

Lemma iso8601_printed : http_log_iso8601 buf off tm = Some (iso8601_text tm off).
Proof.
  unfold http_log_iso8601. rewrite (proj1 off_hours), (proj1 off_minutes).
  refine (eq_trans (printed ([PInt (str "4d") (ch " ") 4 (tm_year tm); PText (str "-"); PInt (str "02d") (ch "0") 2 (tm_mon tm);
    PText (str "-"); PInt (str "02d") (ch "0") 2 (tm_mday tm); PText (str "T")] ++ clock_pieces ++ zone_pieces [PText (str ":")]) _ _) _);
    [|cbn; lia|].
  - rewrite !app_assoc. apply List.Forall_app; split.
    + unfold clock_pieces. cbn [app]. solve_pieces.
    + apply zone_fits. solve_pieces.
  - unfold pieces_out. cbn [map concat app clock_pieces zone_pieces piece_out PInt PStr PChar].
    rewrite app_nil_r. unfold iso8601_text, clock, two, zone. rewrite <-!app_assoc. reflexivity.
Qed.

End zone.

End texts.

(** ** The lengths of the texts *)

Lemma dec_value_lt ds : forallb is_digit ds = true -> dec_value ds < 10 ^ Z.of_nat (length ds).
Proof.
  induction ds as [|c ds IH] using rev_ind; [done|]. rewrite forallb_app. intros [Hd Hc]%andb_true_iff.
  cbn [forallb] in Hc. rewrite andb_true_r in Hc. apply is_digit_range in Hc. specialize (IH Hd).
  rewrite dec_value_snoc, length_app. cbn [length]. replace (Z.of_nat (length ds + 1)) with (Z.succ (Z.of_nat (length ds))) by lia.
  rewrite Z.pow_succ_r by lia. unfold digit_val. chars. lia.
Qed.

Lemma length_decimal_4 n : 1000 <= n < 10000 -> length (decimal n) = 4%nat.
Proof.
  intros Hn. pose proof (length_decimal n 4 ltac:(lia) ltac:(cbn; lia)).
  destruct (decimal_spec n ltac:(lia)) as (_ & Hd & Hv & _). pose proof (dec_value_lt _ Hd) as Hlt. rewrite Hv in Hlt.
  destruct (length (decimal n)) as [|[|[|[|k]]]]; cbn in Hlt; lia.
Qed.

(** The texts of a year of four digits have the lengths of [ntg_time_init]. *)
Record shown_tm (tm : ntg_tm) : Prop := {
  sh_valid : valid_tm tm;
  sh_year : 1000 <= tm_year tm < 10000 }.

Lemma shown_small tm : shown_tm tm -> small_tm tm.
Proof. intros []. split; [done|lia]. Qed.

Lemma texts_lengths tm off :
  shown_tm tm -> -6000 < off < 6000 ->
  length (http_text tm) = 29%nat /\ length (err_log_text tm) = 19%nat /\ length (http_log_text tm off) = 26%nat /\
  length (iso8601_text tm off) = 25%nat /\ length (syslog_text tm) = 15%nat.
Proof.
  intros Hs Hoff. pose proof (shown_small tm Hs) as Hm. destruct Hs as [[] Hy]. pose proof (mday_range tm Hm).
  assert (H2 : forall z n, 0 <= n < 100 -> length (filled z 2 n) = 2%nat).
  { intros z n Hn. pose proof (length_filled z 2 n 2 ltac:(lia) ltac:(cbn; lia) ltac:(lia)). lia. }
  assert (H4 : length (filled (ch " ") 4 (tm_year tm)) = 4%nat).
  { pose proof (length_filled (ch " ") 4 (tm_year tm) 4 ltac:(lia) ltac:(cbn; lia) ltac:(lia)). lia. }
  pose proof (proj2 (off_hours off Hoff)). pose proof (proj2 (off_minutes off Hoff)).
  pose proof (proj2 (proj2 (wday_entry tm Hm))) as Hwd. pose proof (proj2 (proj2 (mon_entry tm Hm))) as Hmo.
  unfold http_text, err_log_text, http_log_text, iso8601_text, syslog_text, clock, zone, two.
  rewrite !length_app, !H2, H4, Hwd, Hmo, length_decimal_4 by lia. cbn. lia.
Qed.

(** The times from 1970-01-05 on and up to 9999-12-27, wherever the place is. *)
Definition good_time (s : Z) : Prop := 360000 <= s < 253402300800 - 360000.

Lemma before_10000 tm : valid_tm tm -> 1970 <= tm_year tm -> seconds_of tm < 253402300800 -> shown_tm tm.
Proof.
  intros Hv Hy Hs. split; [done|]. split; [lia|]. destruct (Z.lt_ge_cases (tm_year tm) 10000) as [|Hge]; [done|exfalso].
  unfold seconds_of in Hs. assert (epoch = 719162) as E by reflexivity. rewrite E in Hs. destruct Hv. unfold day_number in Hs.
  rewrite days_of_months_table in Hs by done.
  assert (Hb : forall k, 0 <= nth k days_before_month 0).
  { intros k. do 12 (destruct k as [|k]; [cbn; lia|]). by destruct k. }
  specialize (Hb (Z.to_nat (tm_mon tm - 1))).
  assert (3652059 <= days_of_years (tm_year tm)).
  { unfold days_of_years. clear -Hge. set (y := tm_year _) in *. clearbody y. mlia. }
  destruct (leap_year _ && _); lia.
Qed.

Lemma gmtime_shown t : 0 <= t < 253402300800 -> shown_tm (ntg_gmtime t).
Proof.
  intros Ht. destruct (gmtime_fields t) as (Hv & Hs & _ & Hy).
  - assert (2 ^ 55 = 36028797018963968) as -> by reflexivity. lia.
  - cbv zeta in *. apply before_10000; [done|done|]. rewrite Hs. lia.
Qed.

(** ** The cache *)

Record slot_ok (sl : slot_data) : Prop := {
  so_err : length (sl_err_log sl) = 20%nat;
  so_http : length (sl_http sl) = 30%nat;
  so_log : length (sl_http_log sl) = 27%nat;
  so_iso : length (sl_iso8601 sl) = 26%nat;
  so_sys : length (sl_syslog sl) = 16%nat }.

Record times_ok (t : times) : Prop := {
  to_slot : 0 <= slot t < 64;
  to_lock : ntg_time_lock t = 0;
  to_gmtoff : -6000 < cached_gmtoff t < 6000;
  to_len : length (slots t) = 64%nat;
  to_slots : Forall slot_ok (slots t) }.

Lemma zero_times_ok : times_ok zero_times.
Proof. split; cbn [zero_times slot cached_gmtoff slots]; try lia; try done. by repeat (constructor; [by split|]). Qed.

(** A row that holds a text. *)
Definition shows (row text : bytes) : Prop := take (length text) row = text.

Lemma write_row_shows row text :
  (length text <= length row)%nat ->
  exists row', write_row row text = Some row' /\ shows row' text /\ length row' = length row.
Proof.
  intros Hl. unfold write_row. rewrite (proj2 (Nat.leb_le _ _)) by done. eexists. split; [reflexivity|].
  split; [unfold shows; by rewrite take_app_length|]. rewrite length_app, length_drop. lia.
Qed.

Lemma next_slot_spec s : 0 <= s < 64 -> next_slot s = (s + 1) mod 64 /\ 0 <= next_slot s < 64.
Proof.
  intros Hs. unfold next_slot, NTG_TIME_SLOTS. change (64 - 1) with 63.
  destruct (Z.eqb_spec s 63) as [->|]; [done|]. rewrite u64_small by (width; lia). split; [mlia|lia].
Qed.

Section updates.
Context (localtime : Z -> ntg_tm) (row_addr : Z -> Z -> Z).
(** [localtime] gives a valid date, less than 100 hours from Greenwich. *)
Context (Hlocal : forall s, good_time s -> let tm := ntg_localtime localtime s in
                  shown_tm tm /\ -6000 < Z.quot (tm_gmtoff tm) 60 < 6000).
Context (Haddr : forall a i, 0 <= row_addr a i < 2 ^ 63).

Abbreviation local_tm s := (ntg_localtime localtime s).
Abbreviation offset s := (Z.quot (tm_gmtoff (local_tm s)) 60).

(** What an update writes into its slot. *)
Record slot_shows (s m : Z) (sl : slot_data) : Prop := {
  ss_time : sl_time sl = NtgTime s m (offset s);
  ss_http : shows (sl_http sl) (http_text (ntg_gmtime s));
  ss_err : shows (sl_err_log sl) (err_log_text (local_tm s));
  ss_log : shows (sl_http_log sl) (http_log_text (local_tm s) (offset s));
  ss_iso : shows (sl_iso8601 sl) (iso8601_text (local_tm s) (offset s));
  ss_sys : shows (sl_syslog sl) (syslog_text (local_tm s)) }.

Definition all_at (i : Z) : cached := Cached i (Some i) (Some i) (Some i) (Some i) (Some i).

Lemma time_slot_lookup t i : times_ok t -> 0 <= i < 64 -> exists sl, slots t !! Z.to_nat i = Some sl /\ slot_ok sl.
Proof.
  intros Ht Hi. destruct (lookup_lt_is_Some_2 (slots t) (Z.to_nat i)) as [sl Hsl].
  { rewrite (to_len _ Ht). lia. }
  exists sl. split; [done|]. by apply (Forall_lookup_1 _ _ _ _ (to_slots _ Ht) Hsl).
Qed.

Lemma put_slot t i sl s' m off ps :
  times_ok t -> 0 <= i < 64 -> slot_ok sl -> 0 <= s' < 64 -> -6000 < off < 6000 ->
  times_ok (Times s' 0 m off (<[Z.to_nat i := sl]> (slots t)) ps).
Proof.
  intros Ht Hi Hsl Hs Ho. split; cbn; try done.
  - rewrite length_insert. apply (to_len _ Ht).
  - apply Forall_insert; [apply (to_slots _ Ht)|done].
Qed.

Lemma fill_slot_spec s m i t :
  times_ok t -> good_time s -> 0 <= i < 64 ->
  exists sl, slot_ok sl /\ slot_shows s m sl /\
    fill_slot localtime row_addr s m i t =
    Some (Times i 0 (ntg_current_msec t) (offset s) (<[Z.to_nat i := sl]> (slots t)) (all_at i)).
Proof.
  intros Ht Hs Hi. destruct (time_slot_lookup t i Ht Hi) as (sl & Hsl & [He Hh Hl Hiso Hsy]).
  destruct (Hlocal s Hs) as [Htm Hoff]. cbv zeta in *. set (tm := local_tm s) in *. set (off := offset s) in *.
  unfold good_time in Hs. pose proof (gmtime_shown s ltac:(lia)) as Hg.
  destruct (texts_lengths (ntg_gmtime s) 0 Hg ltac:(lia)) as (L0 & _).
  destruct (texts_lengths tm off Htm Hoff) as (_ & L1 & L2 & L3 & L4).
  destruct (write_row_shows (sl_http sl) (http_text (ntg_gmtime s)) ltac:(lia)) as (r0 & W0 & S0 & K0).
  destruct (write_row_shows (sl_err_log sl) (err_log_text tm) ltac:(lia)) as (r1 & W1 & S1 & K1).
  destruct (write_row_shows (sl_http_log sl) (http_log_text tm off) ltac:(lia)) as (r2 & W2 & S2 & K2).
  destruct (write_row_shows (sl_iso8601 sl) (iso8601_text tm off) ltac:(lia)) as (r3 & W3 & S3 & K3).
  destruct (write_row_shows (sl_syslog sl) (syslog_text tm) ltac:(lia)) as (r4 & W4 & S4 & K4).
  exists (SlotData (NtgTime s m off) r1 r0 r2 r3 r4).
  split; [split; cbn; lia|]. split; [by split|].
  assert (E0 : ntg_http_time (row_addr 0 i) s = Some (http_text (ntg_gmtime s)))
    by (apply http_printed; [by apply shown_small|apply Haddr]).
  unfold fill_slot. cbv zeta. fold off. fold tm. rewrite Hsl. cbn [mbind option_bind]. rewrite E0. cbn [mbind option_bind]. rewrite W0. cbn [mbind option_bind].
  rewrite err_log_printed by (apply Haddr || by apply shown_small). cbn [mbind option_bind]. rewrite W1. cbn [mbind option_bind].
  rewrite http_log_printed by (done || apply Haddr || by apply shown_small). cbn [mbind option_bind]. rewrite W2. cbn [mbind option_bind].
  rewrite iso8601_printed by (done || apply Haddr || by apply shown_small). cbn [mbind option_bind]. rewrite W3. cbn [mbind option_bind].
  rewrite syslog_printed by (apply Haddr || by apply shown_small). cbn [mbind option_bind]. rewrite W4. reflexivity.
Qed.

Lemma update_same t s us sl :
  times_ok t -> slots t !! Z.to_nat (slot t) = Some sl -> sec (sl_time sl) = s ->
  let m := u64 (Z.quot us 1000) in
  ntg_time_update localtime row_addr s us t =
  Some (Times (slot t) 0 (u64 (u64 s * 1000 + m)) (cached_gmtoff t)
    (<[Z.to_nat (slot t) := SlotData (NtgTime s m (gmtoff (sl_time sl))) (sl_err_log sl) (sl_http sl) (sl_http_log sl)
       (sl_iso8601 sl) (sl_syslog sl)]> (slots t)) (pointers t)).
Proof.
  intros Ht Hsl <-. unfold ntg_time_update. rewrite (to_lock _ Ht). cbn [Z.eqb negb slots slot pointers]. rewrite Hsl.
  cbn [mbind option_bind]. by rewrite Z.eqb_refl.
Qed.

Lemma update_next t s us sl :
  times_ok t -> good_time s -> slots t !! Z.to_nat (slot t) = Some sl -> sec (sl_time sl) <> s ->
  let m := u64 (Z.quot us 1000) in let i := next_slot (slot t) in
  exists sl', slot_ok sl' /\ slot_shows s m sl' /\
    ntg_time_update localtime row_addr s us t =
    Some (Times i 0 (u64 (u64 s * 1000 + m)) (offset s) (<[Z.to_nat i := sl']> (slots t)) (all_at i)).
Proof.
  intros Ht Hg Hsl Hne m i. unfold ntg_time_update. rewrite (to_lock _ Ht). cbn [Z.eqb negb slots slot pointers]. rewrite Hsl.
  cbn [mbind option_bind]. rewrite (proj2 (Z.eqb_neq _ _)) by done. fold m i.
  set (t1 := Times _ _ _ _ _ _).
  destruct (fill_slot_spec s m i t1) as (sl' & H1 & H2 & H3); [|done| |by exists sl'].
  - destruct Ht. by split.
  - apply next_slot_spec. apply (to_slot _ Ht).
Qed.

(** A signal handler's update: the next slot, with two of its texts. *)
Lemma sigsafe_spec t s :
  times_ok t -> good_time s ->
  ntg_time_sigsafe_update row_addr s t = Some t \/
  exists sl, slot_ok sl /\ let i := next_slot (slot t) in let tm := ntg_gmtime (s + cached_gmtoff t * 60) in
    shows (sl_err_log sl) (err_log_text tm) /\ shows (sl_syslog sl) (syslog_text tm) /\
    ntg_time_sigsafe_update row_addr s t =
    Some (Times i 0 (ntg_current_msec t) (cached_gmtoff t) (<[Z.to_nat i := sl]> (slots t))
      (Cached (p_time (pointers t)) (p_http (pointers t)) (Some i) (p_http_log (pointers t)) (p_iso8601 (pointers t)) (Some i))).
Proof.
  intros Ht Hg. unfold ntg_time_sigsafe_update. rewrite (to_lock _ Ht). cbn [Z.eqb negb].
  pose proof (to_slot _ Ht) as Hs. destruct (time_slot_lookup t (slot t) Ht Hs) as (sl0 & E0 & _). rewrite E0.
  cbn [mbind option_bind]. destruct (sec (sl_time sl0) =? s); [by left|right].
  destruct (next_slot_spec _ Hs) as [_ Hi]. set (i := next_slot (slot t)) in *.
  destruct (time_slot_lookup t i Ht Hi) as (sl & E & [He Hh Hl Hiso Hsy]). rewrite E. cbn [mbind option_bind].
  pose proof (to_gmtoff _ Ht) as Ho. unfold good_time in Hg.
  rewrite (s64_small (cached_gmtoff t * 60)), s64_small by (width; lia).
  pose proof (gmtime_shown (s + cached_gmtoff t * 60) ltac:(lia)) as Hg'.
  set (tm := ntg_gmtime (s + _)) in *. destruct (texts_lengths tm 0 Hg' ltac:(lia)) as (_ & L1 & _ & _ & L4).
  destruct (write_row_shows (sl_err_log sl) (err_log_text tm) ltac:(lia)) as (r1 & W1 & S1 & K1).
  destruct (write_row_shows (sl_syslog sl) (syslog_text tm) ltac:(lia)) as (r4 & W4 & S4 & K4).
  exists (SlotData (NtgTime 0 (msec (sl_time sl)) (gmtoff (sl_time sl))) r1 (sl_http sl) (sl_http_log sl) (sl_iso8601 sl) r4).
  split; [split; cbn; lia|]. split; [done|]. split; [done|].
  rewrite err_log_printed by (apply Haddr || by apply shown_small). cbn [mbind option_bind]. rewrite W1. cbn [mbind option_bind].
  rewrite syslog_printed by (apply Haddr || by apply shown_small). cbn [mbind option_bind]. rewrite W4. reflexivity.
Qed.

(** ** Readers *)

Inductive time_event := Update (s us : Z) | Sigsafe (s : Z).

Definition event_time (e : time_event) : Z := match e with Update s _ | Sigsafe s => s end.

Definition time_step (e : time_event) (t : times) : option times :=
  match e with
  | Update s us => ntg_time_update localtime row_addr s us t
  | Sigsafe s => ntg_time_sigsafe_update row_addr s t
  end.

Fixpoint time_steps (es : list time_event) (t : times) : option times :=
  match es with [] => Some t | e :: es => time_step e t ≫= time_steps es end.

Definition texts_of (sl : slot_data) : list bytes :=
  [sl_err_log sl; sl_http sl; sl_http_log sl; sl_iso8601 sl; sl_syslog sl].

(** The texts of slot [p]. *)
Definition texts_at (p : Z) (t : times) : option (list bytes) := texts_of <$> slots t !! Z.to_nat p.

Lemma time_step_spec e t :
  times_ok t -> good_time (event_time e) ->
  exists t', time_step e t = Some t' /\ times_ok t' /\
    ((slot t' = slot t /\ forall p, texts_at p t' = texts_at p t) \/
     (slot t' = (slot t + 1) mod 64 /\ forall p, 0 <= p -> p <> slot t' -> texts_at p t' = texts_at p t)).
Proof.
  intros Ht Hg. pose proof (to_slot _ Ht) as Hs. destruct (next_slot_spec _ Hs) as [En Hn].
  assert (Hput : forall p i sl, 0 <= p -> 0 <= i -> p <> i -> <[Z.to_nat i := sl]> (slots t) !! Z.to_nat p = slots t !! Z.to_nat p).
  { intros p i sl Hp Hi Hne. apply list_lookup_insert_ne. lia. }
  destruct e as [s us|s]; cbn [event_time time_step] in *.
  - destruct (time_slot_lookup t (slot t) Ht Hs) as (sl & E & Hok). destruct (Z.eq_dec (sec (sl_time sl)) s) as [Es|Hne].
    + rewrite (update_same t s us sl Ht E Es). eexists. split; [reflexivity|].
      split; [apply put_slot; try done; [by destruct Hok|apply (to_gmtoff _ Ht)]|].
      left. split; [done|]. intros p. unfold texts_at. cbn [slots].
      destruct (decide (Z.to_nat p = Z.to_nat (slot t))) as [->|Hp]; [|by rewrite list_lookup_insert_ne].
      rewrite E, list_lookup_insert_eq by (apply lookup_lt_Some in E; lia). done.
    + destruct (update_next t s us sl Ht Hg E Hne) as (sl' & Hok' & _ & ->). eexists. split; [reflexivity|].
      split; [apply put_slot; try done; by apply Hlocal|]. right. split; [done|]. cbn [slot].
      intros p Hp Hpi. unfold texts_at. cbn [slots]. by rewrite Hput by lia.
  - destruct (sigsafe_spec t s Ht Hg) as [->|(sl & Hok & _ & _ & ->)].
    + exists t. split; [done|]. split; [done|]. by left.
    + eexists. split; [reflexivity|]. split; [apply put_slot; try done; apply (to_gmtoff _ Ht)|].
      right. split; [done|]. cbn [slot]. intros p Hp Hpi. unfold texts_at. cbn [slots]. by rewrite Hput by lia.
Qed.

Lemma time_steps_safe es t p :
  times_ok t -> Forall (fun e => good_time (event_time e)) es ->
  0 <= p < 64 -> Z.of_nat (length es) + (slot t - p) mod 64 < 64 ->
  exists t', time_steps es t = Some t' /\ times_ok t' /\ texts_at p t' = texts_at p t.
Proof.
  revert t. induction es as [|e es IH]; intros t Ht Hes Hp Hl; [by exists t|].
  apply Forall_cons in Hes as [He Hes]. cbn [length] in Hl.
  destruct (time_step_spec e t Ht He) as (t1 & E1 & Ht1 & Hstep).
  assert (H1 : texts_at p t1 = texts_at p t /\ Z.of_nat (length es) + (slot t1 - p) mod 64 < 64).
  { pose proof (to_slot _ Ht). pose proof (to_slot _ Ht1). destruct Hstep as [[-> Hk]|[Hs Hk]]; [split; [apply Hk|lia]|].
    assert (p <> slot t1) by (intros ->; rewrite Hs in Hl; mlia).
    split; [apply Hk; lia|]. rewrite Hs. mlia. }
  destruct H1 as [H1 Hl1]. destruct (IH t1 Ht1 Hes Hp Hl1) as (t' & E & Ht' & Hk).
  exists t'. cbn [time_steps]. rewrite E1. split; [exact E|]. split; [done|]. by rewrite Hk.
Qed.

End updates.

(** C31: every count of seconds from 0 up to 2^55 is turned into a valid date of
    the Gregorian calendar and a time of day that lie exactly that many
    seconds behind January 1, 1970, with its day of the week, a Thursday being
    the first. *)
Theorem gmtime_correct t :
  0 <= t < 2 ^ 55 ->
  valid_tm (ntg_gmtime t) /\ seconds_of (ntg_gmtime t) = t /\ tm_wday (ntg_gmtime t) = (4 + t / 86400) mod 7.
Proof. intros Ht. destruct (gmtime_fields t Ht) as (H1 & H2 & H3 & _). done. Qed.

(** An update of the cached times within the second of the last one changes
    its milliseconds only; otherwise it moves to the next of the 64 slots, fills
    it with the time and its five texts, in the lengths the readers use, and
    moves the pointers there.  No text leaves its row. *)
Theorem time_update_correct localtime row_addr t s us :
  (forall s, good_time s -> let tm := ntg_localtime localtime s in
     shown_tm tm /\ -6000 < Z.quot (tm_gmtoff tm) 60 < 6000) ->
  (forall a i, 0 <= row_addr a i < 2 ^ 63) ->
  times_ok t -> good_time s -> 0 <= us < 1000000 ->
  exists sl t', slots t !! Z.to_nat (slot t) = Some sl /\
    ntg_time_update localtime row_addr s us t = Some t' /\ times_ok t' /\
    ntg_current_msec t' = s * 1000 + us / 1000 /\
    if sec (sl_time sl) =? s then
      slot t' = slot t /\ pointers t' = pointers t /\ (forall p, texts_at p t' = texts_at p t) /\
      sl_time <$> slots t' !! Z.to_nat (slot t) = Some (NtgTime s (us / 1000) (gmtoff (sl_time sl)))
    else
      slot t' = (slot t + 1) mod 64 /\ pointers t' = all_at (slot t') /\
      (forall p, 0 <= p -> p <> slot t' -> texts_at p t' = texts_at p t) /\
      exists sl', slots t' !! Z.to_nat (slot t') = Some sl' /\ slot_shows localtime s (us / 1000) sl'.
Proof.
  intros Hlocal Haddr Ht Hg Hus. pose proof (to_slot _ Ht) as Hs. destruct (next_slot_spec _ Hs) as [En Hn].
  destruct (time_slot_lookup t (slot t) Ht Hs) as (sl & E & Hok).
  destruct (time_step_spec localtime row_addr Hlocal Haddr (Update s us) t Ht Hg) as (t' & Et' & Ht' & Hstep).
  exists sl, t'. split; [done|]. split; [exact Et'|]. split; [done|]. cbn [time_step] in Et'.
  assert (Em : u64 (Z.quot us 1000) = us / 1000) by mlia.
  assert (Es : u64 (u64 s * 1000 + us / 1000) = s * 1000 + us / 1000) by (unfold good_time in Hg; clear - Hg Hus; mlia).
  destruct (Z.eqb_spec (sec (sl_time sl)) s) as [E1|E1].
  - rewrite (update_same localtime row_addr t s us sl Ht E E1) in Et'. rewrite Em, Es in Et'. injection Et' as <-.
    cbn [ntg_current_msec slot pointers slots] in *. split; [done|]. split; [done|]. split; [done|]. split.
    + destruct Hstep as [[_ H]|[H _]]; [done|]. exfalso. clear - H Hs. mlia.
    + by rewrite list_lookup_insert_eq by (apply lookup_lt_Some in E; lia).
  - destruct (update_next localtime row_addr Hlocal Haddr t s us sl Ht Hg E E1) as (sl' & Hok' & Hsh & Eu).
    rewrite Eu, Em, Es in Et'. injection Et' as <-. cbn [ntg_current_msec slot pointers slots] in *.
    split; [done|]. split; [done|]. split; [done|]. split.
    + destruct Hstep as [[H _]|[_ H]]; [|done]. exfalso. clear - En H Hs. mlia.
    + exists sl'. split; [|by rewrite <-Em]. apply list_lookup_insert_eq. rewrite (to_len _ Ht). lia.
Qed.

(** A reader that holds a pointer to a text reads it unchanged, without a
    lock, while updates and signal handlers go on: as long as the ring has not
    come around to its slot, which takes 64 updates less the slots the ring is
    ahead of it. *)
Theorem readers_safe localtime row_addr es t p :
  (forall s, good_time s -> let tm := ntg_localtime localtime s in
     shown_tm tm /\ -6000 < Z.quot (tm_gmtoff tm) 60 < 6000) ->
  (forall a i, 0 <= row_addr a i < 2 ^ 63) ->
  times_ok t -> Forall (fun e => good_time (event_time e)) es ->
  0 <= p < 64 -> Z.of_nat (length es) + (slot t - p) mod 64 < 64 ->
  exists t', time_steps localtime row_addr es t = Some t' /\ times_ok t' /\ texts_at p t' = texts_at p t.
Proof. intros Hl Ha. by apply time_steps_safe. Qed.

(** ** Examples *)

Lemma gmtime_correct_witness : seconds_of (ntg_gmtime 1456963199) = 1456963199.
Proof. apply (gmtime_correct 1456963199). vm_compute. split; [discriminate|reflexivity]. Defined.

(** A place one hour east of Greenwich, by the C library's conventions. *)
Definition example_localtime (s : Z) : ntg_tm :=
  let tm := ntg_gmtime (s + 3600) in
  NtgTm (tm_sec tm) (tm_min tm) (tm_hour tm) (tm_mday tm) (tm_mon tm - 1) (tm_year tm - 1900) (tm_wday tm) 3600.

Lemma example_local s :
  good_time s -> let tm := ntg_localtime example_localtime s in
  shown_tm tm /\ -6000 < Z.quot (tm_gmtoff tm) 60 < 6000.
Proof.
  unfold good_time. intros Hs. split; [|vm_compute; split; reflexivity].
  pose proof (gmtime_shown (s + 3600) ltac:(lia)) as [Hv Hy]. unfold ntg_localtime, example_localtime.
  set (tm := ntg_gmtime (s + 3600)) in *. cbn [tm_sec tm_min tm_hour tm_mday tm_mon tm_year tm_wday].
  assert (s32 (tm_mon tm - 1 + 1) = tm_mon tm) as -> by (destruct Hv; clearbody tm; mlia).
  assert (s32 (tm_year tm - 1900 + 1900) = tm_year tm) as -> by (clearbody tm; mlia).
  split; [destruct Hv; by split|exact Hy].
Qed.

Definition example_addr (a i : Z) : Z := 4096.

Lemma example_addr_ok a i : 0 <= example_addr a i < 2 ^ 63.
Proof. vm_compute. split; [discriminate|reflexivity]. Qed.

Lemma time_update_correct_witness :
  exists t, ntg_time_update example_localtime example_addr 1456963199 250000 zero_times = Some t /\ slot t = 1 /\
    pointers t = all_at 1.
Proof.
  destruct (time_update_correct example_localtime example_addr zero_times 1456963199 250000 example_local example_addr_ok
    zero_times_ok) as (sl & t & E & Eu & _ & _ & H); [unfold good_time; lia|lia|].
  injection E as <-. cbn [sec sl_time zero_slot Z.eqb] in H. destruct H as (H1 & H2 & _).
  exists t. split; [exact Eu|]. split; [exact H1|]. rewrite H2, H1. reflexivity.
Defined.

Lemma readers_safe_witness :
  exists t, time_steps example_localtime example_addr [Update 1456963199 0; Sigsafe 1456963199; Update 1456963200 0] zero_times =
    Some t /\ texts_at 0 t = texts_at 0 zero_times.
Proof.
  destruct (readers_safe example_localtime example_addr [Update 1456963199 0; Sigsafe 1456963199; Update 1456963200 0]
    zero_times 0 example_local example_addr_ok zero_times_ok) as (t & E & _ & H).
  - repeat constructor; cbn [event_time]; lia.
  - lia.
  - vm_compute. reflexivity.
  - exists t. split; [exact E|exact H].
Defined.

(** After a signal handler's update its slot has no time: the next one takes
    another slot in the same second, so that it is updates that are counted,
    and not seconds as the comment says. *)
Lemma signals_use_slots :
  exists t, time_steps example_localtime example_addr [Sigsafe 1456963199; Sigsafe 1456963199; Sigsafe 1456963199] zero_times =
    Some t /\ slot t = 3.
Proof. eexists. split; [vm_compute; reflexivity|reflexivity]. Qed.
