(* ===== verification/Escape.v ===== *)
(** * Escaping (src/utils/ntg_string.c)

    Percent escaping and unescaping of URIs and escaping of HTML text.  Each
    escaping function is called twice by its users: with a NULL destination it
    returns the room needed, then it writes. *)

From S2P Require Import Prelude NtgString.

(** ** ntg_escape_uri *)

Definition NTG_ESCAPE_URI : nat := 0.
Definition NTG_ESCAPE_ARGS : nat := 1.
Definition NTG_ESCAPE_URI_COMPONENT : nat := 2.
Definition NTG_ESCAPE_HTML : nat := 3.
Definition NTG_ESCAPE_REFRESH : nat := 4.
Definition NTG_ESCAPE_MEMCACHED : nat := 5.
Definition NTG_ESCAPE_MAIL_AUTH : nat := 6.

Definition all32 : Z := 0xffffffff.

Definition escape_map_uri : list Z :=
  [all32; 0x80000029; 0; 0x80000000; all32; all32; all32; all32].
Definition escape_map_args : list Z :=
  [all32; 0x88000869; 0; 0x80000000; all32; all32; all32; all32].
Definition escape_map_uri_component : list Z :=
  [all32; 0xfc009fff; 0x78000001; 0xb8000001; all32; all32; all32; all32].
Definition escape_map_html : list Z :=
  [all32; 0x000000ad; 0; 0x80000000; all32; all32; all32; all32].
Definition escape_map_refresh : list Z :=
  [all32; 0x00000085; 0; 0x80000000; all32; all32; all32; all32].
Definition escape_map_memcached : list Z :=
  [all32; 0x00000021; 0; 0; 0; 0; 0; 0].

Definition escape_maps : list (list Z) :=
  [escape_map_uri; escape_map_args; escape_map_uri_component; escape_map_html;
   escape_map_refresh; escape_map_memcached; escape_map_memcached].

(** [escape[c >> 5] & (1 << (c & 0x1f))]. *)
Definition escaped (escape : list Z) (c : Z) : bool :=
  negb (Z.land (nth (Z.to_nat (Z.shiftr c 5)) escape 0) (Z.shiftl 1 (Z.land c 31)) =? 0).

(** [dst == NULL]: the number of bytes to be escaped. *)
Fixpoint escape_uri_count (escape : list Z) (src : bytes) : Z :=
  match src with
  | [] => 0
  | c :: src => (if escaped escape c then 1 else 0) + escape_uri_count escape src
  end.

Definition hex_of (i : Z) : Z := nth (Z.to_nat i) hex_lower 0.

(** The bytes written to [dst]. *)
Fixpoint escape_uri_write (escape : list Z) (src : bytes) : bytes :=
  match src with
  | [] => []
  | c :: src =>
      if escaped escape c
      then ch "%" :: hex_of (Z.shiftr c 4) :: hex_of (Z.land c 15) :: escape_uri_write escape src
      else c :: escape_uri_write escape src
  end.

Definition ntg_escape_uri_count (src : bytes) (type : nat) : option Z :=
  escape ← escape_maps !! type; Some (escape_uri_count escape src).
Definition ntg_escape_uri (src : bytes) (type : nat) : option bytes :=
  escape ← escape_maps !! type; Some (escape_uri_write escape src).

(** ** ntg_unescape_uri *)

Definition NTG_UNESCAPE_URI : Z := 1.
Definition NTG_UNESCAPE_REDIRECT : Z := 2.

Inductive unescape_sw := sw_usual | sw_quoted | sw_quoted_second.

Definition flag (type f : Z) : bool := negb (Z.land type f =? 0).

(** What the switch does with one byte: the bytes it writes and the next state
    with [decoded], or the end of the loop ([goto done]). *)
Inductive unescape_act :=
  | UnNext (out : bytes) (state : unescape_sw) (decoded : Z)
  | UnDone (out : bytes).

(** [c] is the byte read, [prev] the byte before it. *)
Definition unescape_step (type : Z) (state : unescape_sw) (decoded prev c : Z) : unescape_act :=
  match state with
  | sw_usual =>
      if (c =? ch "?") && flag type (Z.lor NTG_UNESCAPE_URI NTG_UNESCAPE_REDIRECT)
      then UnDone [c]
      else if c =? ch "%" then UnNext [] sw_quoted decoded
      else UnNext [c] sw_usual decoded
  | sw_quoted =>
      if (ch "0" <=? c) && (c <=? ch "9") then UnNext [] sw_quoted_second (u8 (c - ch "0"))
      else
        let l := u8 (Z.lor c 32) in
        if (ch "a" <=? l) && (l <=? ch "f")
        then UnNext [] sw_quoted_second (u8 (l - ch "a" + 10))
        else UnNext [c] sw_usual decoded
  | sw_quoted_second =>
      if (ch "0" <=? c) && (c <=? ch "9") then
        let v := u8 (Z.shiftl decoded 4 + c - ch "0") in
        if flag type NTG_UNESCAPE_REDIRECT then
          if (ch "%" <? v) && (v <? 127) then UnNext [v] sw_usual decoded
          else UnNext [ch "%"; prev; c] sw_usual decoded
        else UnNext [v] sw_usual decoded
      else
        let l := u8 (Z.lor c 32) in
        if (ch "a" <=? l) && (l <=? ch "f") then
          let v := u8 (Z.shiftl decoded 4 + l - ch "a" + 10) in
          if flag type NTG_UNESCAPE_URI then
            if v =? ch "?" then UnDone [v] else UnNext [v] sw_usual decoded
          else if flag type NTG_UNESCAPE_REDIRECT then
            if v =? ch "?" then UnDone [v]
            else if (ch "%" <? v) && (v <? 127) then UnNext [v] sw_usual decoded
            else UnNext [ch "%"; prev; c] sw_usual decoded
          else UnNext [v] sw_usual decoded
        else UnNext [] sw_usual decoded
  end.

(** The bytes written and the bytes not consumed. *)
Fixpoint unescape_loop (type : Z) (state : unescape_sw) (decoded prev : Z) (src : bytes)
  : bytes * bytes :=
  match src with
  | [] => ([], [])
  | c :: src =>
      match unescape_step type state decoded prev c with
      | UnNext out state decoded =>
          let '(d, s) := unescape_loop type state decoded c src in (out ++ d, s)
      | UnDone out => (out, src)
      end
  end.

Definition ntg_unescape_uri (src : bytes) (type : Z) : bytes * bytes :=
  unescape_loop type sw_usual 0 0 src.

(** ** ntg_escape_html *)

Definition escape_html_char (c : Z) : bytes :=
  if c =? ch "<" then str "&lt;"
  else if c =? ch ">" then str "&gt;"
  else if c =? ch "&" then str "&amp;"
  else if c =? 34 then str "&quot;"
  else [c].

(** [dst == NULL]: the number of extra bytes. *)
Fixpoint escape_html_count (src : bytes) : Z :=
  match src with
  | [] => 0
  | c :: src =>
      (if c =? ch "<" then 5 - 2
       else if c =? ch ">" then 5 - 2
       else if c =? ch "&" then 6 - 2
       else if c =? 34 then 7 - 2
       else 0) + escape_html_count src
  end.

Fixpoint ntg_escape_html (src : bytes) : bytes :=
  match src with [] => [] | c :: src => escape_html_char c ++ ntg_escape_html src end.

(** ** Properties *)

(** The tables other than the one for refresh escape the percent sign. *)
Definition escapes_percent (type : nat) : Prop :=
  (type <= 6)%nat /\ type <> NTG_ESCAPE_REFRESH.

Lemma escapes_percent_table type :
  escapes_percent type -> exists t, escape_maps !! type = Some t /\ escaped t (ch "%") = true.
Proof.
  intros [H1 H2]. unfold NTG_ESCAPE_REFRESH in H2.
  destruct type as [|[|[|[|[|[|[|type]]]]]]]; try lia;
    (eexists; split; [reflexivity|reflexivity]).
Qed.

(** One escaped byte is read back by two turns of the unescaping machine. *)
Lemma unescape_escaped c d p s :
  is_byte c ->
  unescape_loop 0 sw_usual d p (ch "%" :: hex_of (Z.shiftr c 4) :: hex_of (Z.land c 15) :: s) =
  let '(o, r) := unescape_loop 0 sw_usual (Z.shiftr c 4) (hex_of (Z.land c 15)) s in
  (c :: o, r).
Proof.
  intros Hc. destruct (nibbles c Hc) as (H1 & H2 & H3).
  pose proof (forall_below 16 (fun i => match unescape_step 0 sw_quoted d (ch "%") (hex_of i) with
    | UnNext [] sw_quoted_second v => v =? i | _ => false end)) as Hq.
  specialize (Hq ltac:(by vm_compute) _ H1). cbn beta in Hq.
  pose proof (forall_below 256 (fun c => match unescape_step 0 sw_quoted_second (Z.shiftr c 4)
      (hex_of (Z.shiftr c 4)) (hex_of (Z.land c 15)) with
    | UnNext [v] sw_usual d => (v =? c) && (d =? Z.shiftr c 4) | _ => false end)) as Hs.
  specialize (Hs ltac:(by vm_compute) c Hc). cbn beta in Hs.
  cbn [unescape_loop]. change (unescape_step 0 sw_usual d p (ch "%")) with (UnNext [] sw_quoted d).
  cbn iota. destruct (unescape_step 0 sw_quoted _ _ _) as [[|? ?] [] v|]; try done.
  apply Z.eqb_eq in Hq. subst v.
  destruct (unescape_step 0 sw_quoted_second _ _ _) as [[|v [|? ?]] [] d'|]; try done.
  apply andb_true_iff in Hs as [Hv Hd]. apply Z.eqb_eq in Hv, Hd. subst.
  by destruct (unescape_loop _ _ _ _ s).
Qed.

Lemma unescape_plain c d p s :
  (c =? ch "%") = false ->
  unescape_loop 0 sw_usual d p (c :: s) =
  let '(o, r) := unescape_loop 0 sw_usual d c s in (c :: o, r).
Proof.
  intros Hc. cbn [unescape_loop unescape_step]. unfold flag. cbn [Z.land].
  change (0 =? 0) with true. cbn [negb]. rewrite andb_false_r, Hc. 
  by destruct (unescape_loop _ _ _ _ s).
Qed.

(** For every kind of escaping but that of a refresh header, unescaping the
    escaped bytes gives them back, all consumed; and the escaped length is the
    number of bytes plus twice the count the first call returns. *)
Theorem ntg_escape_uri_roundtrip src type :
  Forall is_byte src -> escapes_percent type ->
  exists d n, ntg_escape_uri src type = Some d /\ ntg_escape_uri_count src type = Some n /\
    ntg_unescape_uri d 0 = (src, []) /\
    Z.of_nat (length d) = Z.of_nat (length src) + 2 * n.
Proof.
  intros Hs Ht. destruct (escapes_percent_table type Ht) as (t & Et & Hp).
  unfold ntg_escape_uri, ntg_escape_uri_count, ntg_unescape_uri. rewrite Et. cbn.
  eexists _, _. split; [done|]. split; [done|].
  enough (G : forall d p,
    unescape_loop 0 sw_usual d p (escape_uri_write t src) = (src, []) /\
    Z.of_nat (length (escape_uri_write t src)) =
      Z.of_nat (length src) + 2 * escape_uri_count t src) by apply G.
  induction src as [|c src IH]; intros d p; cbn [escape_uri_write escape_uri_count length]; [done|].
  apply Forall_cons in Hs as [Hc Hs]. destruct (escaped t c) eqn:E; cbn [length].
  - rewrite unescape_escaped by done.
    destruct (IH Hs (Z.shiftr c 4) (hex_of (Z.land c 15))) as [-> Hl]. split; [done|lia].
  - rewrite unescape_plain.
    + destruct (IH Hs d c) as [-> Hl]. split; [done|lia].
    + apply Z.eqb_neq. intros ->. congruence.
Qed.

(** Unescaping never writes more bytes than it reads, in any mode, so it
    can be done in place; and it consumes its whole input or stops just after
    a question mark it has written. *)
Theorem ntg_unescape_uri_bound src type d rest :
  ntg_unescape_uri src type = (d, rest) ->
  (length d + length rest <= length src)%nat /\
  (rest <> [] -> exists d', d = d' ++ [ch "?"]).
Proof.
  unfold ntg_unescape_uri. revert d rest.
  enough (G : forall st de p d rest, unescape_loop type st de p src = (d, rest) ->
    (length d + length rest <= length src +
       match st with sw_usual => 0 | sw_quoted => 1 | sw_quoted_second => 2 end)%nat /\
    (rest <> [] -> exists d', d = d' ++ [ch "?"])).
  { intros d rest E. apply G in E as [? ?]. split; [lia|done]. }
  induction src as [|c src IH]; intros st de p d rest E; cbn [unescape_loop length] in *.
  { injection E as <- <-. cbn. split; [lia|done]. }
  destruct (unescape_step type st de p c) as [out st' de'|out] eqn:Es.
  - destruct (unescape_loop type st' de' c src) as [d' r'] eqn:El. injection E as <- <-.
    apply IH in El as [Hl Hr]. rewrite length_app. split.
    + assert (length out + match st' with sw_usual => 0 | sw_quoted => 1 | sw_quoted_second => 2 end
        <= 1 + match st with sw_usual => 0 | sw_quoted => 1 | sw_quoted_second => 2 end)%nat; [|lia].
      destruct st; cbn [unescape_step] in Es; repeat case_match; simplify_eq; cbn; lia.
    + intros Hne. destruct (Hr Hne) as (d2 & ->). exists (out ++ d2). by rewrite app_assoc.
  - injection E as <- <-.
    assert (out = [ch "?"]) as ->.
    { destruct st; cbn [unescape_step] in Es; repeat case_match; simplify_eq;
        repeat match goal with
        | H : _ && _ = true |- _ => apply andb_true_iff in H as [? ?]
        | H : (_ =? _) = true |- _ => apply Z.eqb_eq in H
        end; congruence. }
    cbn. split; [destruct st; lia|]. intros _. by exists [].
Qed.

(** The room [ntg_escape_html] asks for is exactly what it then uses, and
    its output holds no markup: no angle bracket and no double quote. *)
Theorem ntg_escape_html_correct src :
  Z.of_nat (length (ntg_escape_html src)) = Z.of_nat (length src) + escape_html_count src /\
  Forall (fun c => c <> ch "<" /\ c <> ch ">" /\ c <> 34) (ntg_escape_html src).
Proof.
  induction src as [|c src [IH1 IH2]]; cbn [ntg_escape_html escape_html_count length]; [done|].
  rewrite length_app. unfold escape_html_char.
  assert (Hl : Forall (fun c => c <> ch "<" /\ c <> ch ">" /\ c <> 34)
    (str "&lt;" ++ str "&gt;" ++ str "&amp;" ++ str "&quot;")).
  { repeat (apply Forall_cons; split; [done|]). done. }
  rewrite !Forall_app in Hl. destruct Hl as (L1 & L2 & L3 & L4). rewrite Forall_app.
  destruct (Z.eqb_spec c (ch "<")); [split; [cbn in *; lia|done]|].
  destruct (Z.eqb_spec c (ch ">")); [split; [cbn in *; lia|done]|].
  destruct (Z.eqb_spec c (ch "&")); [split; [cbn in *; lia|done]|].
  destruct (Z.eqb_spec c 34); [split; [cbn in *; lia|done]|].
  split; [cbn in *; lia|]. split; [|done]. by apply Forall_singleton.
Qed.

(** The comment on the table for refresh headers lists the percent sign, but
    its bit is not set: such an escape is not undone by unescaping. *)
Lemma refresh_keeps_percent : ntg_escape_uri (str "%41") NTG_ESCAPE_REFRESH = Some (str "%41").
Proof. reflexivity. Qed.

Lemma ntg_escape_uri_roundtrip_witness :
  exists d n, ntg_escape_uri (str "/a b?c=d%e") NTG_ESCAPE_URI = Some d /\
    ntg_escape_uri_count (str "/a b?c=d%e") NTG_ESCAPE_URI = Some n /\
    ntg_unescape_uri d 0 = (str "/a b?c=d%e", []) /\ Z.of_nat (length d) = 10 + 2 * n.
Proof.
  apply (ntg_escape_uri_roundtrip (str "/a b?c=d%e") NTG_ESCAPE_URI).
  - apply (bool_decide_eq_true_1 _). by vm_compute.
  - split; [unfold NTG_ESCAPE_URI; lia|done].
Defined.

Lemma ntg_unescape_uri_bound_witness :
  exists d rest, ntg_unescape_uri (str "/a%20b?c%3f") NTG_UNESCAPE_URI = (d, rest) /\
    (length d + length rest <= 11)%nat.
Proof.
  destruct (ntg_unescape_uri (str "/a%20b?c%3f") NTG_UNESCAPE_URI) as [d rest] eqn:E.
  exists d, rest. split; [done|]. by apply (ntg_unescape_uri_bound _ _ _ _ E).
Defined.
