(* ===== verification/Utf8.v ===== *)
(** * UTF-8 (src/utils/ntg_string.c)

    Decoding of one character, counting the characters of a string and copying
    a string by characters. *)

From S2P Require Import Prelude.

(** ** ntg_utf8_decode

    The argument is the memory from [*p] on and the number of bytes of the
    string; the result the character, or a code above 0x10ffff, and the memory
    from the new [*p] on. *)

Definition UTF8_INCOMPLETE : Z := 0xfffffffe.
Definition UTF8_ERROR : Z := 0xffffffff.

(** The loop over the continuation bytes. *)
Fixpoint utf8_rest (s : bytes) (len : nat) (u valid : Z) {struct len} : option (Z * bytes) :=
  match len with
  | O => Some (if u >? valid then u else UTF8_ERROR, s)
  | S len =>
      match s with
      | [] => None
      | i :: s =>
          if i <? 0x80 then Some (UTF8_ERROR, s)
          else utf8_rest s len (u32 (Z.lor (Z.shiftl u 6) (Z.land i 0x3f))) valid
      end
  end.

Definition ntg_utf8_decode (s : bytes) (n : Z) : option (Z * bytes) :=
  match s with
  | [] => None
  | u :: s' =>
      let go u valid len :=
        if u64 (n - 1) <? Z.of_nat len then Some (UTF8_INCOMPLETE, s)
        else utf8_rest s' len u valid in
      if u >=? 0xf0 then go (Z.land u 0x07) 0xffff 3%nat
      else if u >=? 0xe0 then go (Z.land u 0x0f) 0x7ff 2%nat
      else if u >=? 0xc2 then go (Z.land u 0x1f) 0x7f 1%nat
      else Some (UTF8_ERROR, s')
  end.

(** ** ntg_utf8_length

    [room] is [last - p]; the whole [n] is passed to the decoder at every
    character.  Each turn consumes a byte of the string. *)
Fixpoint utf8_length_loop (fuel : nat) (s : bytes) (room n len : Z) : option Z :=
  match fuel with
  | O => None
  | S fuel =>
      if room <=? 0 then Some len
      else
        match s with
        | [] => None
        | c :: s' =>
            if c <? 0x80 then utf8_length_loop fuel s' (room - 1) n (len + 1)
            else
              match ntg_utf8_decode s n with
              | None => None
              | Some (u, s') =>
                  if u >? 0x10ffff then Some n
                  else
                    utf8_length_loop fuel s'
                      (room - (Z.of_nat (length s) - Z.of_nat (length s'))) n (len + 1)
              end
        end
  end.

Definition ntg_utf8_length (s : bytes) (n : nat) : option Z :=
  utf8_length_loop (S n) s (Z.of_nat n) (Z.of_nat n) 0.

(** ** ntg_utf8_cpystrn

    The bytes written; [n] counts characters and [len] is the number of bytes
    of the source. *)
Fixpoint utf8_cpystrn_loop (n : nat) (src : bytes) (len : Z) : option bytes :=
  match n with
  | O => Some [0]
  | S n =>
      match src with
      | [] => None
      | c :: src' =>
          if c <? 0x80 then
            if negb (c =? 0) then cons c <$> utf8_cpystrn_loop n src' (u64 (len - 1))
            else Some [c]
          else
            match ntg_utf8_decode src len with
            | None => None
            | Some (u, next) =>
                if u >? 0x10ffff then Some [0]
                else
                  let k := (length src - length next)%nat in
                  app (take k src) <$>
                    utf8_cpystrn_loop n next (u64 (len - Z.of_nat k))
            end
      end
  end.

Definition ntg_utf8_cpystrn (src : bytes) (n : nat) (len : Z) : option bytes :=
  match n with O => Some [] | S n => utf8_cpystrn_loop n src len end.

(** ** The encoding *)

(** The UTF-8 encoding of a character, as RFC 3629 defines it. *)
Definition utf8_encode (c : Z) : bytes :=
  if c <? 0x80 then [c]
  else if c <? 0x800 then [0xc0 + c / 64; 0x80 + c mod 64]
  else if c <? 0x10000 then [0xe0 + c / 4096; 0x80 + c / 64 mod 64; 0x80 + c mod 64]
  else [0xf0 + c / 262144; 0x80 + c / 4096 mod 64; 0x80 + c / 64 mod 64; 0x80 + c mod 64].

Lemma utf8_rest_step i s len u valid :
  0x80 <= i < 256 -> 0 <= u < 67108864 ->
  utf8_rest (i :: s) (S len) u valid = utf8_rest s len (u * 64 + i mod 64) valid.
Proof.
  intros Hi Hu. cbn [utf8_rest]. rewrite (proj2 (Z.ltb_ge i _)) by lia. f_equal.
  change 0x3f with (Z.ones 6). rewrite land_ones_mod, lor_shiftl_add by mlia.
  change (2 ^ 6) with 64. mlia.
Qed.

Lemma land_low u k m : 0 <= k -> 0 <= m < 2 ^ k -> (u mod 2 ^ k = m) -> Z.land u (Z.ones k) = m.
Proof. intros Hk Hm <-. by apply land_ones_mod. Qed.

(** Decoding the encoding of any character beyond ASCII returns the
    character and stands just after it, as soon as the string holds it. *)
Theorem ntg_utf8_decode_encode c s n :
  0x80 <= c <= 0x10ffff -> Z.of_nat (length (utf8_encode c)) <= n < 18446744073709551616 ->
  ntg_utf8_decode (utf8_encode c ++ s) n = Some (c, s).
Proof.
  intros Hc Hn. unfold utf8_encode in *. rewrite (proj2 (Z.ltb_ge c _)) in * by lia.
  unfold ntg_utf8_decode.
  destruct (Z.ltb_spec c 0x800); [|destruct (Z.ltb_spec c 0x10000)]; cbn [app length] in *;
    rewrite !Z.geb_leb, u64_small by (width; lia).
  - rewrite (proj2 (Z.leb_gt 0xf0 _)), (proj2 (Z.leb_gt 0xe0 _)), (proj2 (Z.leb_le 0xc2 _)) by mlia.
    rewrite (proj2 (Z.ltb_ge _ _)) by lia.
    rewrite (land_low _ 5 (c / 64)) by mlia. rewrite utf8_rest_step by mlia. cbn [utf8_rest].
    rewrite Z.gtb_ltb, (proj2 (Z.ltb_lt _ _)) by mlia. repeat f_equal. mlia.
  - rewrite (proj2 (Z.leb_gt 0xf0 _)), (proj2 (Z.leb_le 0xe0 _)) by mlia.
    rewrite (proj2 (Z.ltb_ge _ _)) by lia.
    rewrite (land_low _ 4 (c / 4096)) by mlia. rewrite !utf8_rest_step by mlia. cbn [utf8_rest].
    rewrite Z.gtb_ltb, (proj2 (Z.ltb_lt _ _)) by mlia. repeat f_equal. mlia.
  - rewrite (proj2 (Z.leb_le 0xf0 _)) by mlia.
    rewrite (proj2 (Z.ltb_ge _ _)) by lia.
    rewrite (land_low _ 3 (c / 262144)) by mlia. rewrite !utf8_rest_step by mlia. cbn [utf8_rest].
    rewrite Z.gtb_ltb, (proj2 (Z.ltb_lt _ _)) by mlia. repeat f_equal. mlia.
Qed.

Lemma utf8_encode_length c : 0 <= c <= 0x10ffff -> (1 <= length (utf8_encode c) <= 4)%nat.
Proof. intros Hc. unfold utf8_encode. repeat case_match; cbn; lia. Qed.

(** The bytes of a list of characters. *)
Definition utf8_string (cs : list Z) : bytes := concat (map utf8_encode cs).

Lemma utf8_length_loop_spec cs : forall fuel rest n len,
  Forall (fun c => 0 <= c <= 0x10ffff) cs ->
  (length cs < fuel)%nat ->
  Z.of_nat (length (utf8_string cs)) <= n < 18446744073709551616 ->
  utf8_length_loop fuel (utf8_string cs ++ rest) (Z.of_nat (length (utf8_string cs))) n len =
  Some (len + Z.of_nat (length cs)).
Proof.
  induction cs as [|c cs IH]; intros fuel rest n len Hcs Hf Hn;
    (destruct fuel as [|fuel]; [cbn in Hf; lia|]).
  { cbn. by rewrite Z.add_0_r. }
  apply Forall_cons in Hcs as [Hc Hcs].
  change (utf8_string (c :: cs)) with (utf8_encode c ++ utf8_string cs) in *.
  rewrite length_app in *. pose proof (utf8_encode_length c Hc) as Hl.
  rewrite <-app_assoc. cbn [utf8_length_loop length] in *.
  rewrite (proj2 (Z.leb_gt _ 0)) by lia.
  destruct (decide (c < 0x80)) as [Ha|Ha].
  - assert (utf8_encode c = [c]) as Ee by (unfold utf8_encode; by rewrite (proj2 (Z.ltb_lt c _))).
    rewrite Ee in *. cbn [app length] in *. rewrite (proj2 (Z.ltb_lt c _)) by lia.
    replace (Z.of_nat (1 + length (utf8_string cs)) - 1) with
      (Z.of_nat (length (utf8_string cs))) by lia.
    rewrite IH by (done || lia). f_equal. lia.
  - pose proof (ntg_utf8_decode_encode c (utf8_string cs ++ rest) n ltac:(lia) ltac:(lia)) as Hd.
    destruct (utf8_encode c) as [|b bs] eqn:Ee; [cbn in Hl; lia|]. cbn [app] in *.
    assert (0x80 <= b) as Hb.
    { unfold utf8_encode in Ee. rewrite (proj2 (Z.ltb_ge c _)) in Ee by lia.
      repeat case_match; injection Ee as <- _; mlia. }
    rewrite (proj2 (Z.ltb_ge b _)) by lia. rewrite Hd.
    rewrite Z.gtb_ltb, (proj2 (Z.ltb_ge _ c)) by lia.
    replace (Z.of_nat (length (b :: bs) + length (utf8_string cs)) - _) with
      (Z.of_nat (length (utf8_string cs))) by len_lia.
    rewrite IH by (done || lia). f_equal. lia.
Qed.

(** On a valid UTF-8 string [ntg_utf8_length] terminates and returns the
    number of characters. *)
Theorem ntg_utf8_length_correct cs rest :
  Forall (fun c => 0 <= c <= 0x10ffff) cs ->
  Z.of_nat (length (utf8_string cs)) < 18446744073709551616 ->
  ntg_utf8_length (utf8_string cs ++ rest) (length (utf8_string cs)) =
  Some (Z.of_nat (length cs)).
Proof.
  intros Hcs Hl. unfold ntg_utf8_length. rewrite utf8_length_loop_spec; [done|done| |lia].
  clear Hl. induction cs as [|c cs IH]; [cbn; lia|]. apply Forall_cons in Hcs as [Hc Hcs].
  change (utf8_string (c :: cs)) with (utf8_encode c ++ utf8_string cs).
  rewrite length_app. pose proof (utf8_encode_length c Hc). specialize (IH Hcs). cbn. lia.
Qed.

(** [ntg_utf8_length] passes the whole length to the decoder at every
    character, so it reads past the end of a string that stops inside one. *)
Lemma ntg_utf8_length_overread : ntg_utf8_length [ch "a"; 0xc3] 2 = None.
Proof. reflexivity. Qed.

Lemma ntg_utf8_decode_encode_witness :
  ntg_utf8_decode ([0xe4; 0xb8; 0xad] ++ str "x") 4 = Some (0x4e2d, str "x").
Proof. apply (ntg_utf8_decode_encode 0x4e2d (str "x") 4); cbn; lia. Defined.

Lemma ntg_utf8_length_correct_witness :
  ntg_utf8_length (utf8_string [0x61; 0x4e2d; 0x1f600] ++ []) 8 = Some 3.
Proof.
  apply (ntg_utf8_length_correct [0x61; 0x4e2d; 0x1f600] []).
  - repeat constructor; lia.
  - cbn. lia.
Defined.
