(* ===== verification/HttpTypes.v ===== *)
(** * Data shared by the HTTP response parsers

    The parser part of [ntg_http_request_t] (src/http/ntg_http_request.h), the
    input buffer [ntg_buf_t] (src/utils/ntg_buf.h), the status and chunked
    objects, the constants of ntg_http_request.h, and the loop
    [for (p = b->pos; p < b->last; p++)] that the three parsers share, with the
    lemmas that make them resumable. *)

From S2P Require Import Prelude.

(** ** Constants (ntg_http_request.h) *)

Definition NTG_HTTP_LC_HEADER_LEN : Z := 32.
Definition NTG_HTTP_PARSE_HEADER_DONE : Z := 1.
Definition NTG_HTTP_PARSE_INVALID_HEADER : Z := 13.
Definition NTG_HTTP_VERSION_9 : Z := 9.
Definition NTG_HTTP_VERSION_11 : Z := 1001.
Definition NTG_HTTP_OK : Z := 200.
Definition NTG_HTTP_SWITCHING_PROTOCOLS : Z := 101.
Definition NTG_HTTP_NO_CONTENT : Z := 204.
Definition NTG_HTTP_NOT_MODIFIED : Z := 304.
Definition NTG_HTTP_SPECIAL_RESPONSE : Z := 300.

(** A pointer into the input buffer; [None] is [NULL]. *)
Abbreviation ptr := (option Z).

(** [ntg_http_status_t]. *)
Record ntg_http_status := HttpStatus {
  http_version : Z;
  code : Z;
  count : Z;
  status_start : ptr;
  status_end : ptr }.

Definition set_http_version (v : Z) (r : ntg_http_status) : ntg_http_status :=
  HttpStatus v (code r) (count r) (status_start r) (status_end r).
Definition set_code (v : Z) (r : ntg_http_status) : ntg_http_status :=
  HttpStatus (http_version r) v (count r) (status_start r) (status_end r).
Definition set_count (v : Z) (r : ntg_http_status) : ntg_http_status :=
  HttpStatus (http_version r) (code r) v (status_start r) (status_end r).
Definition set_status_start (v : ptr) (r : ntg_http_status) : ntg_http_status :=
  HttpStatus (http_version r) (code r) (count r) v (status_end r).
Definition set_status_end (v : ptr) (r : ntg_http_status) : ntg_http_status :=
  HttpStatus (http_version r) (code r) (count r) (status_start r) v.

(** [struct ntg_http_chunked_s]. *)
Record ntg_http_chunked := HttpChunked {
  chunk_state : Z;
  chunk_size : Z;
  chunk_length : Z }.

Definition set_chunk_state (v : Z) (r : ntg_http_chunked) : ntg_http_chunked :=
  HttpChunked v (chunk_size r) (chunk_length r).
Definition set_chunk_size (v : Z) (r : ntg_http_chunked) : ntg_http_chunked :=
  HttpChunked (chunk_state r) v (chunk_length r).
Definition set_chunk_length (v : Z) (r : ntg_http_chunked) : ntg_http_chunked :=
  HttpChunked (chunk_state r) (chunk_size r) v.

(** The fields of [struct ntg_http_request_s] used to parse the response head.
    [http_minor] and [http_major] are 16-bit fields.  The four header pointers
    are only meaningful once the parser has set them. *)
Record hparse := HParse {
  r_state : Z;
  header_hash : Z;
  lowcase_index : Z;
  lowcase_header : list Z;
  header_name_start : Z;
  header_name_end : Z;
  header_start : Z;
  header_end : Z;
  invalid_header : bool;
  http_minor : Z;
  http_major : Z }.

Definition set_r_state (v : Z) (r : hparse) : hparse :=
  HParse v (header_hash r) (lowcase_index r) (lowcase_header r) (header_name_start r)
    (header_name_end r) (header_start r) (header_end r) (invalid_header r) (http_minor r)
    (http_major r).
Definition set_header_hash (v : Z) (r : hparse) : hparse :=
  HParse (r_state r) v (lowcase_index r) (lowcase_header r) (header_name_start r)
    (header_name_end r) (header_start r) (header_end r) (invalid_header r) (http_minor r)
    (http_major r).
Definition set_lowcase_index (v : Z) (r : hparse) : hparse :=
  HParse (r_state r) (header_hash r) v (lowcase_header r) (header_name_start r)
    (header_name_end r) (header_start r) (header_end r) (invalid_header r) (http_minor r)
    (http_major r).
Definition set_lowcase_header (v : list Z) (r : hparse) : hparse :=
  HParse (r_state r) (header_hash r) (lowcase_index r) v (header_name_start r)
    (header_name_end r) (header_start r) (header_end r) (invalid_header r) (http_minor r)
    (http_major r).
Definition set_header_name_start (v : Z) (r : hparse) : hparse :=
  HParse (r_state r) (header_hash r) (lowcase_index r) (lowcase_header r) v
    (header_name_end r) (header_start r) (header_end r) (invalid_header r) (http_minor r)
    (http_major r).
Definition set_header_name_end (v : Z) (r : hparse) : hparse :=
  HParse (r_state r) (header_hash r) (lowcase_index r) (lowcase_header r)
    (header_name_start r) v (header_start r) (header_end r) (invalid_header r) (http_minor
    r) (http_major r).
Definition set_header_start (v : Z) (r : hparse) : hparse :=
  HParse (r_state r) (header_hash r) (lowcase_index r) (lowcase_header r)
    (header_name_start r) (header_name_end r) v (header_end r) (invalid_header r)
    (http_minor r) (http_major r).
Definition set_header_end (v : Z) (r : hparse) : hparse :=
  HParse (r_state r) (header_hash r) (lowcase_index r) (lowcase_header r)
    (header_name_start r) (header_name_end r) (header_start r) v (invalid_header r)
    (http_minor r) (http_major r).
Definition set_invalid_header (v : bool) (r : hparse) : hparse :=
  HParse (r_state r) (header_hash r) (lowcase_index r) (lowcase_header r)
    (header_name_start r) (header_name_end r) (header_start r) (header_end r) v
    (http_minor r) (http_major r).
Definition set_http_minor (v : Z) (r : hparse) : hparse :=
  HParse (r_state r) (header_hash r) (lowcase_index r) (lowcase_header r)
    (header_name_start r) (header_name_end r) (header_start r) (header_end r)
    (invalid_header r) v (http_major r).
Definition set_http_major (v : Z) (r : hparse) : hparse :=
  HParse (r_state r) (header_hash r) (lowcase_index r) (lowcase_header r)
    (header_name_start r) (header_name_end r) (header_start r) (header_end r)
    (invalid_header r) (http_minor r) v.

(** The memory part of [struct ntg_buf_s]; [buf_mem] is the memory from
    [buf_start] on. *)
Record ntg_buf := Buf {
  buf_pos : Z;
  buf_last : Z;
  buf_start : Z;
  buf_end : Z;
  buf_mem : bytes }.

Definition set_buf_pos (v : Z) (r : ntg_buf) : ntg_buf :=
  Buf v (buf_last r) (buf_start r) (buf_end r) (buf_mem r).
Definition set_buf_last (v : Z) (r : ntg_buf) : ntg_buf :=
  Buf (buf_pos r) v (buf_start r) (buf_end r) (buf_mem r).
Definition set_buf_start (v : Z) (r : ntg_buf) : ntg_buf :=
  Buf (buf_pos r) (buf_last r) v (buf_end r) (buf_mem r).
Definition set_buf_end (v : Z) (r : ntg_buf) : ntg_buf :=
  Buf (buf_pos r) (buf_last r) (buf_start r) v (buf_mem r).
Definition set_buf_mem (v : bytes) (r : ntg_buf) : ntg_buf :=
  Buf (buf_pos r) (buf_last r) (buf_start r) (buf_end r) v.

Definition buf_wf (b : ntg_buf) : Prop :=
  buf_start b <= buf_pos b <= buf_last b /\ buf_last b <= buf_end b /\
  buf_last b - buf_start b <= Z.of_nat (length (buf_mem b)).

#[export] Instance buf_wf_dec b : Decision (buf_wf b).
Proof. unfold buf_wf. apply _. Defined.

(** The memory from address [p] on. *)
Definition buf_from (b : ntg_buf) (p : Z) : bytes :=
  drop (Z.to_nat (p - buf_start b)) (buf_mem b).

(** The bytes to process, those of [[pos, last)]. *)
Definition buf_data (b : ntg_buf) : bytes :=
  take (Z.to_nat (buf_last b - buf_pos b)) (buf_from b (buf_pos b)).

Lemma buf_data_length b :
  buf_wf b -> Z.of_nat (length (buf_data b)) = buf_last b - buf_pos b.
Proof.
  intros (? & ? & ?). unfold buf_data, buf_from.
  rewrite length_take, length_drop. lia.
Qed.

(** Receiving the bytes of [[mid, last)] later. *)
Lemma buf_data_split b mid :
  buf_wf b -> buf_pos b <= mid <= buf_last b ->
  buf_data b = buf_data (set_buf_last mid b) ++ buf_data (set_buf_pos mid b).
Proof.
  intros (? & ? & ?) ?. unfold buf_data, buf_from, set_buf_last, set_buf_pos. cbn.
  rewrite <-(take_drop (Z.to_nat (mid - buf_pos b)) (take (Z.to_nat (buf_last b - buf_pos b)) _)).
  f_equal.
  - rewrite take_take. f_equal. lia.
  - rewrite skipn_firstn_comm, drop_drop. f_equal; [lia|]. f_equal. lia.
Qed.

Lemma buf_wf_set_last b mid :
  buf_wf b -> buf_pos b <= mid <= buf_last b -> buf_wf (set_buf_last mid b).
Proof. unfold buf_wf, set_buf_last. cbn. lia. Qed.

(** What a caller does between two calls: the rest of the data arrives. *)
Lemma buf_resume b mid :
  buf_wf b -> buf_pos b <= mid <= buf_last b ->
  let d1 := buf_data (set_buf_last mid b) in
  let d2 := buf_data (set_buf_pos mid b) in
  buf_data b = d1 ++ d2 /\ Z.of_nat (length d1) = mid - buf_pos b /\
  mid + Z.of_nat (length d2) = buf_last b /\
  set_buf_last (buf_last b)
    (set_buf_pos (buf_pos b + Z.of_nat (length d1)) (set_buf_last mid b))
  = set_buf_pos mid b.
Proof.
  intros Hwf Hmid d1 d2. pose proof (buf_data_split b mid Hwf Hmid) as Hsp.
  pose proof (buf_data_length _ (buf_wf_set_last b mid Hwf Hmid)) as Hl1.
  pose proof (buf_data_length b Hwf) as Hl. rewrite Hsp, length_app in Hl.
  fold d1 in Hl, Hl1, Hsp. fold d2 in Hl, Hsp. cbn [buf_last buf_pos set_buf_last] in Hl1.
  split_and!; [done|lia|lia|].
  unfold set_buf_pos, set_buf_last. cbn [buf_pos buf_last buf_start buf_end buf_mem].
  f_equal. lia.
Qed.

Lemma set_buf_pos_twice p q r b : p = r -> set_buf_pos p (set_buf_pos q b) = set_buf_pos r b.
Proof. by intros ->. Qed.

(** Consuming a known prefix of the data. *)
Lemma buf_data_set_pos b k w rest :
  buf_wf b -> buf_data b = w ++ rest -> Z.of_nat (length w) = k ->
  buf_data (set_buf_pos (buf_pos b + k) b) = rest /\ buf_wf (set_buf_pos (buf_pos b + k) b).
Proof.
  intros Hwf Hd Hk. pose proof (buf_data_length b Hwf) as Hl. rewrite Hd, length_app in Hl.
  destruct (buf_resume b (buf_pos b + k) Hwf ltac:(destruct Hwf; lia)) as (Hsp & Hl1 & _ & _).
  rewrite Hd in Hsp. split.
  - apply app_inj_1 in Hsp as [_ Hsp]; [done|lia].
  - destruct Hwf as (? & ? & ?). unfold buf_wf, set_buf_pos. cbn. lia.
Qed.

(** ** The parsers' loop

    One pass of the loop body at address [p] on the byte [c] either leaves a
    new state or leaves the loop ([return] or [goto]). *)
Section scan.
Context {S O : Type} (step : Z -> Z -> S -> S + O).

Fixpoint scan (p : Z) (data : bytes) (st : S) : S + O :=
  match data with
  | [] => inl st
  | c :: data =>
      match step p c st with
      | inl st => scan (p + 1) data st
      | inr o => inr o
      end
  end.

(** Scanning in two parts is scanning the whole. *)
Lemma scan_app d1 d2 p st :
  scan p (d1 ++ d2) st =
  match scan p d1 st with
  | inl st' => scan (p + Z.of_nat (length d1)) d2 st'
  | inr o => inr o
  end.
Proof.
  revert p st. induction d1 as [|c d1 IH]; intros p st; cbn [scan app length].
  - by rewrite Z.add_0_r.
  - destruct (step p c st) as [st'|o]; [|done]. rewrite IH.
    destruct (scan (p + 1) d1 st'); [|done]. f_equal. lia.
Qed.

(** An outcome is reached at some byte, from the state left by those before. *)
Lemma scan_inr data p st o :
  scan p data st = inr o ->
  exists d1 c d2 st', data = d1 ++ c :: d2 /\ scan p d1 st = inl st' /\
    step (p + Z.of_nat (length d1)) c st' = inr o.
Proof.
  revert p st. induction data as [|c data IH]; intros p st; cbn; [done|].
  destruct (step p c st) as [st'|o'] eqn:E.
  - intros (d1 & c' & d2 & st2 & -> & E1 & E2)%IH.
    exists (c :: d1), c', d2, st2. cbn. rewrite E. split_and!; try done.
    by replace (p + Z.of_nat _) with (p + 1 + Z.of_nat (length d1)) by lia.
  - intros [= ->]. exists [], c, data, st. rewrite Z.add_0_r. done.
Qed.

(** Invariants of the loop body are invariants of the loop. *)
Lemma scan_inv (I : S -> Prop) (Q : Z -> O -> Prop) :
  (forall p c st, I st ->
     match step p c st with inl st' => I st' | inr o => Q p o end) ->
  forall data p st, I st ->
    match scan p data st with
    | inl st' => I st'
    | inr o => exists p', p <= p' < p + Z.of_nat (length data) /\ Q p' o
    end.
Proof.
  intros Hstep. induction data as [|c data IH]; intros p st Hst; cbn [scan length]; [done|].
  specialize (Hstep p c st Hst). destruct (step p c st) as [st'|o].
  - specialize (IH (p + 1) st' Hstep). destruct (scan _ _ _); [done|].
    destruct IH as (p' & ? & ?). exists p'. split; [lia|done].
  - exists p. split; [lia|done].
Qed.

End scan.

(** ** Languages *)

(** [star P K]: bytes of [P], then [K]. *)
Definition star (P : Z -> bool) (K : bytes -> Prop) (w : bytes) : Prop :=
  exists u v, w = u ++ v /\ forallb P u = true /\ K v.

Lemma star_here P (K : bytes -> Prop) w : K w -> star P K w.
Proof. intros HK. by exists [], w. Qed.
Lemma star_cons P K c w : P c = true -> star P K w -> star P K (c :: w).
Proof. intros Hc (u & v & -> & Hu & Hv). exists (c :: u), v. cbn. by rewrite Hc. Qed.

(** ** Example data *)

Definition example_hparse : hparse := HParse 0 0 0 (repeat 0 32) 0 0 0 0 false 0 0.
Definition example_buf (d : bytes) : ntg_buf :=
  Buf 1000 (1000 + Z.of_nat (length d)) 1000 (1000 + Z.of_nat (length d)) d.
