(* ===== verification/HttpStatusLine.v ===== *)
(** * Parsing the status line (src/http/ntg_http_parse.c, ntg_http_parse_status_line)

    The resumable state machine over "HTTP/x.y ddd text CRLF".  The theorems
    show that a buffer received in pieces is parsed as if received at once,
    that a well formed line is accepted with the fields it holds, and that
    nothing else is accepted. *)

From S2P Require Import Prelude HttpTypes.

(** The states, numbered as the C enumeration. *)
Inductive status_sw :=
  | sw_start | sw_H | sw_HT | sw_HTT | sw_HTTP
  | sw_first_major_digit | sw_major_digit | sw_first_minor_digit | sw_minor_digit
  | sw_status | sw_space_after_status | sw_status_text | sw_almost_done.

#[export] Instance status_sw_eq_dec : EqDecision status_sw.
Proof. solve_decision. Defined.

Definition status_sw_list : list status_sw :=
  [sw_start; sw_H; sw_HT; sw_HTT; sw_HTTP; sw_first_major_digit; sw_major_digit;
   sw_first_minor_digit; sw_minor_digit; sw_status; sw_space_after_status;
   sw_status_text; sw_almost_done].

Definition status_sw_num (s : status_sw) : Z :=
  match s with
  | sw_start => 0 | sw_H => 1 | sw_HT => 2 | sw_HTT => 3 | sw_HTTP => 4
  | sw_first_major_digit => 5 | sw_major_digit => 6 | sw_first_minor_digit => 7
  | sw_minor_digit => 8 | sw_status => 9 | sw_space_after_status => 10
  | sw_status_text => 11 | sw_almost_done => 12
  end.

(** A stored state that is none of the enumerators matches no [case]. *)
Definition status_sw_of (z : Z) : option status_sw :=
  if z <? 0 then None else status_sw_list !! Z.to_nat z.

Lemma status_sw_of_num s : status_sw_of (status_sw_num s) = Some s.
Proof. by destruct s. Qed.

(** How the loop is left before the data ends. *)
Inductive status_exit :=
  | StatusError (r : hparse) (status : ntg_http_status)
  | StatusDone (p : Z) (r : hparse) (status : ntg_http_status).

Definition status_local : Type := status_sw * hparse * ntg_http_status.

(** One pass of the loop body. *)
Definition status_step (p c : Z) (l : status_local) : status_local + status_exit :=
  let '(state, r, status) := l in
  let goto s := inl (s, r, status) in
  let error := inr (StatusError r status) in
  let done := inr (StatusDone p r status) in
  match state with
  | sw_start => if c =? ch "H" then goto sw_H else error
  | sw_H => if c =? ch "T" then goto sw_HT else error
  | sw_HT => if c =? ch "T" then goto sw_HTT else error
  | sw_HTT => if c =? ch "P" then goto sw_HTTP else error
  | sw_HTTP => if c =? ch "/" then goto sw_first_major_digit else error
  | sw_first_major_digit =>
      if (c <? ch "1") || (ch "9" <? c) then error
      else inl (sw_major_digit, set_http_major (u16 (c - ch "0")) r, status)
  | sw_major_digit =>
      if c =? ch "." then goto sw_first_minor_digit
      else if (c <? ch "0") || (ch "9" <? c) then error
      else inl (sw_major_digit,
                set_http_major (u16 (http_major r * 10 + c - ch "0")) r, status)
  | sw_first_minor_digit =>
      if (c <? ch "0") || (ch "9" <? c) then error
      else inl (sw_minor_digit, set_http_minor (u16 (c - ch "0")) r, status)
  | sw_minor_digit =>
      if c =? ch " " then goto sw_status
      else if (c <? ch "0") || (ch "9" <? c) then error
      else inl (sw_minor_digit,
                set_http_minor (u16 (http_minor r * 10 + c - ch "0")) r, status)
  | sw_status =>
      if c =? ch " " then goto sw_status
      else if (c <? ch "0") || (ch "9" <? c) then error
      else
        let status := set_code (u64 (code status * 10 + c - ch "0")) status in
        let status := set_count (u64 (count status + 1)) status in
        if count status =? 3
        then inl (sw_space_after_status, r, set_status_start (Some (p - 2)) status)
        else inl (sw_status, r, status)
  | sw_space_after_status =>
      if c =? ch " " then goto sw_status_text
      else if c =? ch "." then goto sw_status_text
      else if c =? CR then goto sw_almost_done
      else if c =? LF then done
      else error
  | sw_status_text =>
      if c =? CR then goto sw_almost_done
      else if c =? LF then done
      else goto sw_status_text
  | sw_almost_done =>
      let status := set_status_end (Some (p - 1)) status in
      if c =? LF then inr (StatusDone p r status) else inr (StatusError r status)
  end.

Definition ntg_http_parse_status_line (r : hparse) (b : ntg_buf) (status : ntg_http_status)
  : Z * hparse * ntg_buf * ntg_http_status :=
  let b_end := set_buf_pos (buf_pos b + Z.of_nat (length (buf_data b))) b in
  match status_sw_of (r_state r) with
  | None => (NTG_AGAIN, r, b_end, status)
  | Some state =>
      match scan status_step (buf_pos b) (buf_data b) (state, r, status) with
      | inl (state, r, status) =>
          (NTG_AGAIN, set_r_state (status_sw_num state) r, b_end, status)
      | inr (StatusError r status) => (NTG_ERROR, r, b, status)
      | inr (StatusDone p r status) =>
          let status :=
            match status_end status with
            | None => set_status_end (Some p) status
            | Some _ => status
            end in
          (NTG_OK, set_r_state (status_sw_num sw_start) r, set_buf_pos (p + 1) b,
           set_http_version (http_major r * 1000 + http_minor r) status)
      end
  end.

(** ** Resuming *)

(** The parser does not use the stored state while it runs. *)
Lemma status_step_r_state p c s r st z :
  status_step p c (s, set_r_state z r, st) =
  match status_step p c (s, r, st) with
  | inl (s', r', st') => inl (s', set_r_state z r', st')
  | inr (StatusError r' st') => inr (StatusError (set_r_state z r') st')
  | inr (StatusDone p' r' st') => inr (StatusDone p' (set_r_state z r') st')
  end.
Proof. destruct s; cbn -[u16 u64 Z.mul]; repeat case_match; simplify_eq; done. Qed.

Lemma status_scan_r_state data p s r st z :
  scan status_step p data (s, set_r_state z r, st) =
  match scan status_step p data (s, r, st) with
  | inl (s', r', st') => inl (s', set_r_state z r', st')
  | inr (StatusError r' st') => inr (StatusError (set_r_state z r') st')
  | inr (StatusDone p' r' st') => inr (StatusDone p' (set_r_state z r') st')
  end.
Proof.
  revert p s r st. induction data as [|c data IH]; intros p s r st; cbn [scan]; [done|].
  rewrite status_step_r_state.
  destruct (status_step p c (s, r, st)) as [[[s' r'] st']|[r' st'|p' r' st']]; [apply IH|done..].
Qed.

(** Two results that a caller cannot tell apart: on an error the request is
    dropped, so only the verdict and the status object matter. *)
Definition same_verdict (x y : Z * hparse * ntg_buf * ntg_http_status) : Prop :=
  let '(rc1, r1, b1, st1) := x in
  let '(rc2, r2, b2, st2) := y in
  rc1 = rc2 /\ st1 = st2 /\ (rc1 <> NTG_ERROR -> r1 = r2 /\ b1 = b2).

(** Parsing a status line that arrives in two parts, split at any byte,
    gives the result of parsing it at once: after [NTG_AGAIN] on the first
    part the second call continues, and any other verdict on the first part is
    the verdict on the whole. *)
Theorem status_line_resumable r b mid st :
  buf_wf b -> buf_pos b <= mid <= buf_last b ->
  let '(rc, r1, b1, st1) := ntg_http_parse_status_line r (set_buf_last mid b) st in
  let b1 := set_buf_last (buf_last b) b1 in
  if rc =? NTG_AGAIN
  then same_verdict (ntg_http_parse_status_line r1 b1 st1)
         (ntg_http_parse_status_line r b st)
  else ntg_http_parse_status_line r b st = (rc, r1, b1, st1).
Proof.
  intros Hwf Hmid. destruct (buf_resume b mid Hwf Hmid) as (Hsp & Hl1 & Hl2 & Hbm).
  unfold ntg_http_parse_status_line at 1.
  change (buf_pos (set_buf_last mid b)) with (buf_pos b).
  destruct (status_sw_of (r_state r)) as [s|] eqn:Es.
  2: { cbn [Z.eqb NTG_AGAIN]. rewrite Hbm. unfold ntg_http_parse_status_line. rewrite Es.
       cbn. split_and!; try done. intros _. split; [done|].
       apply set_buf_pos_twice. rewrite Hsp, length_app. cbn. lia. }
  destruct (scan status_step (buf_pos b) (buf_data (set_buf_last mid b)) (s, r, st))
    as [[[s1 r1] st1]|o] eqn:E1.
  - cbn [Z.eqb NTG_AGAIN]. rewrite Hbm. unfold ntg_http_parse_status_line.
    cbn [r_state set_r_state]. rewrite status_sw_of_num, Es, Hsp, scan_app, E1.
    replace (buf_pos b + Z.of_nat (length (buf_data (set_buf_last mid b)))) with mid by lia.
    change (buf_pos (set_buf_pos mid b)) with mid. rewrite status_scan_r_state.
    destruct (scan status_step mid _ (s1, r1, st1)) as [[[s2 r2] st2]|[r2 st2|p2 r2 st2]];
      cbn; split_and!; try done; intros _; (split; [done|]);
      apply set_buf_pos_twice; cbn; rewrite ?length_app; lia.
  - unfold ntg_http_parse_status_line. rewrite Es, Hsp, scan_app, E1.
    destruct o as [r2 st2|p2 r2 st2]; cbn; destruct b; done.
Qed.

(** ** The language of status lines *)

(** A status line of major version [maj], minor version [min] and code
    [d1 d2 d3]; the parser lets spaces stand before each digit of the code. *)
Definition status_line_head (maj min sp1 : bytes) (d1 : Z) (sp2 : bytes) (d2 : Z)
    (sp3 : bytes) (d3 : Z) : bytes :=
  str "HTTP/" ++ maj ++ [ch "."] ++ min ++ [ch " "] ++
  sp1 ++ [d1] ++ sp2 ++ [d2] ++ sp3 ++ [d3].

Definition is_text (c : Z) : bool := negb ((c =? CR) || (c =? LF)).

(** What may follow the code: nothing, or a space or a dot and some text; then
    the end of the line. *)
Definition status_reason (w : bytes) : Prop :=
  w = [] \/ exists c t, w = c :: t /\ (c = ch " " \/ c = ch ".") /\ forallb is_text t = true.
Definition status_eol (w : bytes) : Prop := w = [LF] \/ w = [CR; LF].

Definition version_digits (maj min : bytes) : Prop :=
  forallb is_digit maj = true /\ forallb is_digit min = true /\
  min <> [] /\ exists d ds, maj = d :: ds /\ d <> ch "0".

Definition is_space (c : Z) : bool := c =? ch " ".

(** *** Accepting *)

Lemma scan_major k ds p r st :
  forallb is_digit ds = true ->
  scan status_step p (ds ++ k) (sw_major_digit, r, st) =
  scan status_step (p + Z.of_nat (length ds)) k
    (sw_major_digit,
     set_http_major (fold_left (fun v c => u16 (v * 10 + c - ch "0")) ds (http_major r)) r, st).
Proof.
  revert p r. induction ds as [|c ds IH]; intros p r Hd; cbn [app length fold_left].
  { rewrite Z.add_0_r. by destruct r. }
  cbn [forallb] in Hd. apply andb_true_iff in Hd as [Hc Hd].
  apply is_digit_range in Hc. cbn [scan status_step].
  rewrite (proj2 (Z.eqb_neq c _)) by (chars; lia).
  rewrite (proj2 (Z.ltb_ge c _)), (proj2 (Z.ltb_ge _ c)) by (chars; lia). cbn [orb].
  rewrite IH by done. f_equal. lia.
Qed.

Lemma scan_minor k ds p r st :
  forallb is_digit ds = true ->
  scan status_step p (ds ++ k) (sw_minor_digit, r, st) =
  scan status_step (p + Z.of_nat (length ds)) k
    (sw_minor_digit,
     set_http_minor (fold_left (fun v c => u16 (v * 10 + c - ch "0")) ds (http_minor r)) r, st).
Proof.
  revert p r. induction ds as [|c ds IH]; intros p r Hd; cbn [app length fold_left].
  { rewrite Z.add_0_r. by destruct r. }
  cbn [forallb] in Hd. apply andb_true_iff in Hd as [Hc Hd].
  apply is_digit_range in Hc. cbn [scan status_step].
  rewrite (proj2 (Z.eqb_neq c _)) by (chars; lia).
  rewrite (proj2 (Z.ltb_ge c _)), (proj2 (Z.ltb_ge _ c)) by (chars; lia). cbn [orb].
  rewrite IH by done. f_equal. lia.
Qed.

(** States in which the bytes of a class change nothing. *)
Lemma scan_loop P s k ds p r st :
  (forall q c, P c = true -> status_step q c (s, r, st) = inl (s, r, st)) ->
  forallb P ds = true ->
  scan status_step p (ds ++ k) (s, r, st) =
  scan status_step (p + Z.of_nat (length ds)) k (s, r, st).
Proof.
  intros HP. revert p. induction ds as [|c ds IH]; intros p Hd; cbn [app length scan].
  { by rewrite Z.add_0_r. }
  cbn [forallb] in Hd. apply andb_true_iff in Hd as [Hc Hd].
  rewrite HP, IH by done. f_equal. lia.
Qed.

Lemma scan_spaces k ds p r st :
  forallb is_space ds = true ->
  scan status_step p (ds ++ k) (sw_status, r, st) =
  scan status_step (p + Z.of_nat (length ds)) k (sw_status, r, st).
Proof.
  apply scan_loop. intros q c Hc. cbn. unfold is_space in Hc. by rewrite Hc.
Qed.

Lemma scan_text k ds p r st :
  forallb is_text ds = true ->
  scan status_step p (ds ++ k) (sw_status_text, r, st) =
  scan status_step (p + Z.of_nat (length ds)) k (sw_status_text, r, st).
Proof.
  apply scan_loop. intros q c Hc. cbn. unfold is_text in Hc.
  apply negb_true_iff, orb_false_iff in Hc as [-> ->]. done.
Qed.

(** One digit of the code. *)
Lemma scan_code_digit k c p r st :
  is_digit c = true ->
  scan status_step p (c :: k) (sw_status, r, st) =
  (let st := set_code (u64 (code st * 10 + c - ch "0")) st in
   let st := set_count (u64 (count st + 1)) st in
   scan status_step (p + 1) k
     (if count st =? 3
      then (sw_space_after_status, r, set_status_start (Some (p - 2)) st)
      else (sw_status, r, st))).
Proof.
  intros Hc%is_digit_range. cbn [scan status_step].
  rewrite (proj2 (Z.eqb_neq c _)) by (chars; lia).
  rewrite (proj2 (Z.ltb_ge c _)), (proj2 (Z.ltb_ge _ c)) by (chars; lia). cbn [orb].
  by destruct (count _ =? 3).
Qed.

(** The end of the line: the status object records where the text ends. *)
Lemma scan_eol k e p s r st :
  status_eol e -> s = sw_space_after_status \/ s = sw_status_text ->
  exists st', scan status_step p (e ++ k) (s, r, st) =
    inr (StatusDone (p + Z.of_nat (length e) - 1) r st') /\
    (e = [LF] /\ st' = st \/ e = [CR; LF] /\ st' = set_status_end (Some p) st).
Proof.
  intros [-> | ->] [-> | ->]; cbn -[Z.add Z.sub]; eexists; split;
    [f_equal; f_equal; lia|by left|f_equal; f_equal; lia|by left
    |f_equal; f_equal; lia|right|f_equal; f_equal; lia|right];
    (split; [done|]); f_equal; f_equal; lia.
Qed.

Lemma scan_reason k t e p r st :
  status_reason t -> status_eol e ->
  exists st', scan status_step p (t ++ e ++ k) (sw_space_after_status, r, st) =
    inr (StatusDone (p + Z.of_nat (length (t ++ e)) - 1) r st') /\
    (e = [LF] /\ st' = st \/
     e = [CR; LF] /\ st' = set_status_end (Some (p + Z.of_nat (length t))) st).
Proof.
  intros [->|(c & u & -> & Hc & Hu)] He.
  - cbn [app length]. rewrite Z.add_0_r. apply scan_eol; eauto.
  - rewrite length_app. cbn [app length].
    assert (scan status_step p (c :: u ++ e ++ k) (sw_space_after_status, r, st) =
      scan status_step (p + 1) (u ++ e ++ k) (sw_status_text, r, st)) as ->.
    { destruct Hc as [-> | ->]; done. }
    rewrite scan_text by done.
    destruct (scan_eol k e (p + 1 + Z.of_nat (length u)) sw_status_text r st He) as (st' & -> & Hst);
      [by right|].
    exists st'. split; [f_equal; f_equal; lia|].
    destruct Hst as [?|[-> ->]]; [by left|right; split; [done|]]. f_equal; f_equal; lia.
Qed.

(** The version, up to the code. *)
Lemma scan_version k maj min p r st :
  version_digits maj min ->
  scan status_step p (str "HTTP/" ++ maj ++ [ch "."] ++ min ++ [ch " "] ++ k) (sw_start, r, st) =
  scan status_step (p + Z.of_nat (5 + length maj + 1 + length min + 1)) k
    (sw_status,
     set_http_minor (u16 (dec_value min)) (set_http_major (u16 (dec_value maj)) r), st).
Proof.
  intros (Hmaj & Hmin & Hne & d & ds & -> & Hd).
  destruct min as [|e es]; [done|]. cbn [forallb] in Hmaj, Hmin.
  apply andb_true_iff in Hmaj as [Hd0 Hds], Hmin as [He0 Hes].
  apply is_digit_range in Hd0, He0. change (ch "0") with 48 in Hd.
  change (str "HTTP/") with [ch "H"; ch "T"; ch "T"; ch "P"; ch "/"].
  cbn [app scan]. unfold status_step at 1 2 3 4 5. rewrite !Z.eqb_refl.
  unfold status_step at 1.
  rewrite (proj2 (Z.ltb_ge d _)), (proj2 (Z.ltb_ge _ d)) by (chars; lia). cbn [orb].
  rewrite scan_major by done. cbn [scan app]. unfold status_step at 1. rewrite Z.eqb_refl.
  unfold status_step at 1.
  rewrite (proj2 (Z.ltb_ge e _)), (proj2 (Z.ltb_ge _ e)) by (chars; lia). cbn [orb].
  rewrite scan_minor by done. cbn [scan app]. unfold status_step at 1. rewrite Z.eqb_refl.
  cbn [http_major set_http_major http_minor set_http_minor].
  unfold u16. rewrite !fold_digits_mod by lia.
  replace (p + Z.of_nat _) with
    (p + 1 + 1 + 1 + 1 + 1 + 1 + Z.of_nat (length ds) + 1 + 1 + Z.of_nat (length es) + 1);
    [done|cbn [length]; lia].
Qed.

(** The code: three digits. *)
Lemma scan_code k sp1 d1 sp2 d2 sp3 d3 p r st :
  forallb is_space sp1 = true -> forallb is_space sp2 = true -> forallb is_space sp3 = true ->
  is_digit d1 = true -> is_digit d2 = true -> is_digit d3 = true ->
  code st = 0 -> count st = 0 ->
  let n := Z.of_nat (length sp1 + 1 + length sp2 + 1 + length sp3 + 1) in
  scan status_step p (sp1 ++ [d1] ++ sp2 ++ [d2] ++ sp3 ++ [d3] ++ k) (sw_status, r, st) =
  scan status_step (p + n) k
    (sw_space_after_status, r,
     set_status_start (Some (p + n - 3))
       (set_count 3 (set_code (dec_value [d1; d2; d3]) st))).
Proof.
  intros Hs1 Hs2 Hs3 H1 H2 H3 Hc Hn n. pose proof (eq_refl n) as En. unfold n in En at 2.
  clearbody n. destruct st as [v c0 n0 a b]. cbn in Hc, Hn. subst c0 n0.
  pose proof (is_digit_range _ H1). pose proof (is_digit_range _ H2).
  pose proof (is_digit_range _ H3).
  rewrite scan_spaces by done. cbn [app]. rewrite scan_code_digit by done. cbn [code count set_code set_count http_version status_start status_end].
  change (u64 (0 + 1)) with 1. cbn [Z.eqb Pos.eqb].
  rewrite scan_spaces by done. cbn [app]. rewrite scan_code_digit by done. cbn [code count set_code set_count http_version status_start status_end].
  change (u64 (1 + 1)) with 2. cbn [Z.eqb Pos.eqb].
  rewrite scan_spaces by done. cbn [app]. rewrite scan_code_digit by done. cbn [code count set_code set_count http_version status_start status_end].
  change (u64 (2 + 1)) with 3. cbn [Z.eqb Pos.eqb].
  replace (p + Z.of_nat (length sp1) + 1 + Z.of_nat (length sp2) + 1 + Z.of_nat (length sp3))
    with (p + n - 1) by lia.
  unfold set_status_start, set_count, set_code, dec_value, digit_val.
  cbn [http_version count status_start status_end code fold_left].
  assert (u64 (u64 (u64 (0 * 10 + d1 - ch "0") * 10 + d2 - ch "0") * 10 + d3 - ch "0") =
    ((0 * 10 + (d1 - ch "0")) * 10 + (d2 - ch "0")) * 10 + (d3 - ch "0")) as ->.
  { chars. clear -H H0 H4. mlia. }
  replace (p + n - 1 + 1) with (p + n) by lia.
  replace (p + n - 1 - 2) with (p + n - 3) by lia. done.
Qed.

(** The bytes of a status line in its parts. *)
Record status_parts := StatusParts {
  sp_major : bytes; sp_minor : bytes;
  sp_space1 : bytes; sp_d1 : Z; sp_space2 : bytes; sp_d2 : Z; sp_space3 : bytes; sp_d3 : Z;
  sp_reason : bytes; sp_eol : bytes }.

Definition status_parts_wf (l : status_parts) : Prop :=
  version_digits (sp_major l) (sp_minor l) /\
  (forallb is_space (sp_space1 l) = true /\ forallb is_space (sp_space2 l) = true /\
   forallb is_space (sp_space3 l) = true) /\
  (is_digit (sp_d1 l) = true /\ is_digit (sp_d2 l) = true /\ is_digit (sp_d3 l) = true) /\
  status_reason (sp_reason l) /\ status_eol (sp_eol l).

(** The line up to the code, and the whole line. *)
Definition status_head (l : status_parts) : bytes :=
  status_line_head (sp_major l) (sp_minor l) (sp_space1 l) (sp_d1 l) (sp_space2 l) (sp_d2 l)
    (sp_space3 l) (sp_d3 l).
Definition status_bytes (l : status_parts) : bytes :=
  status_head l ++ sp_reason l ++ sp_eol l.

Definition status_init (st : ntg_http_status) : Prop :=
  code st = 0 /\ count st = 0 /\ status_end st = None.

(** A well formed status line at the start of the data is accepted; the
    parser stores its three digit code and its version, the start of the last
    three bytes of the code and the end of the text, and leaves the buffer just
    after the line. *)
Theorem status_line_accepts b r st l rest :
  status_parts_wf l -> buf_data b = status_bytes l ++ rest ->
  status_init st -> r_state r = status_sw_num sw_start ->
  exists r', ntg_http_parse_status_line r b st =
    (NTG_OK, r', set_buf_pos (buf_pos b + Z.of_nat (length (status_bytes l))) b,
     HttpStatus (u16 (dec_value (sp_major l)) * 1000 + u16 (dec_value (sp_minor l)))
       (dec_value [sp_d1 l; sp_d2 l; sp_d3 l]) 3
       (Some (buf_pos b + Z.of_nat (length (status_head l)) - 3))
       (Some (buf_pos b + Z.of_nat (length (status_head l) + length (sp_reason l))))) /\
    r_state r' = status_sw_num sw_start.
Proof.
  intros (Hv & (Hs1 & Hs2 & Hs3) & (H1 & H2 & H3) & Ht & He) Hd (Hc & Hn & Hend) Hr.
  destruct l as [maj min s1 d1 s2 d2 s3 d3 t e].
  cbn [sp_major sp_minor sp_space1 sp_d1 sp_space2 sp_d2 sp_space3 sp_d3 sp_reason sp_eol] in *.
  unfold ntg_http_parse_status_line. rewrite Hr, (status_sw_of_num sw_start).
  rewrite Hd. unfold status_bytes, status_head, status_line_head in *.
  cbn [sp_major sp_minor sp_space1 sp_d1 sp_space2 sp_d2 sp_space3 sp_d3 sp_reason sp_eol] in *.
  rewrite <-!app_assoc, scan_version, scan_code by done.
  edestruct scan_reason as (st' & -> & Hst); [exact Ht|exact He|].
  eexists (set_r_state (status_sw_num sw_start) _). split; [|reflexivity]. cbn -[u16 dec_value length Z.mul].
  repeat rewrite length_app. change (length (str "HTTP/")) with 5%nat. cbn [length].
  f_equal; [f_equal|].
  - f_equal. destruct Hst as [[-> _] |[-> _]]; len_lia.
  - destruct st as [v c n a o]. cbn in Hc, Hn, Hend. subst.
    destruct Hst as [[-> ->] |[-> ->]];
      unfold set_status_end, set_status_start, set_count, set_code, set_http_version;
      cbn [http_version count status_start status_end code length];
      f_equal; f_equal; len_lia.
Qed.

(** *** Only well formed lines are accepted

    [status_lang s n w]: the bytes [w] lead from state [s], with [n] digits of
    the code still to come, to the end of the line. *)
Definition lang_reason (w : bytes) : Prop :=
  exists t e, w = t ++ e /\ status_reason t /\ status_eol e.

Fixpoint lang_code (n : nat) : bytes -> Prop :=
  match n with
  | O => lang_reason
  | S n => star is_space (fun w => exists d w', w = d :: w' /\ is_digit d = true /\ lang_code n w')
  end.

Definition lang_minor : bytes -> Prop :=
  star is_digit (fun w => exists w', w = ch " " :: w' /\ lang_code 3 w').
Definition lang_minor0 (w : bytes) : Prop :=
  exists d w', w = d :: w' /\ is_digit d = true /\ lang_minor w'.
Definition lang_major : bytes -> Prop :=
  star is_digit (fun w => exists w', w = ch "." :: w' /\ lang_minor0 w').
Definition lang_major0 (w : bytes) : Prop :=
  exists d w', w = d :: w' /\ is_digit d = true /\ d <> ch "0" /\ lang_major w'.

Definition status_lang (s : status_sw) (n : nat) (w : bytes) : Prop :=
  match s with
  | sw_start => exists w', w = str "HTTP/" ++ w' /\ lang_major0 w'
  | sw_H => exists w', w = str "TTP/" ++ w' /\ lang_major0 w'
  | sw_HT => exists w', w = str "TP/" ++ w' /\ lang_major0 w'
  | sw_HTT => exists w', w = str "P/" ++ w' /\ lang_major0 w'
  | sw_HTTP => exists w', w = str "/" ++ w' /\ lang_major0 w'
  | sw_first_major_digit => lang_major0 w
  | sw_major_digit => lang_major w
  | sw_first_minor_digit => lang_minor0 w
  | sw_minor_digit => lang_minor w
  | sw_status => lang_code n w
  | sw_space_after_status => lang_reason w
  | sw_status_text => star is_text status_eol w
  | sw_almost_done => w = [LF]
  end.

(** The number of digits still expected matches the state. *)
Definition status_expects (s : status_sw) (n : Z) : Prop :=
  match s with
  | sw_status => 0 <= n < 3
  | sw_space_after_status | sw_status_text | sw_almost_done => True
  | _ => n = 0
  end.

Lemma is_digit_tests c :
  (c <? ch "0") || (ch "9" <? c) = false -> is_digit c = true.
Proof. unfold is_digit. intros [H1 H2]%orb_false_iff. lia. Qed.

Lemma lang_reason_text c w :
  c = ch " " \/ c = ch "." -> star is_text status_eol w -> lang_reason (c :: w).
Proof.
  intros Hc (u & v & -> & Hu & Hv). exists (c :: u), v. split; [done|]. split; [|done].
  right. by exists c, u.
Qed.

(** One step of the loop goes one byte into the language. *)
Lemma status_step_lang p c s r st s' r' st' w :
  status_step p c (s, r, st) = inl (s', r', st') ->
  status_expects s (count st) ->
  status_expects s' (count st') /\
  (status_lang s' (Z.to_nat (3 - count st')) w ->
   status_lang s (Z.to_nat (3 - count st)) (c :: w)).
Proof.
  intros E He. destruct s; cbn [status_step status_expects] in *;
    repeat case_match; simplify_eq; cbn [count set_count set_code set_status_start status_lang status_expects] in *.
  all: repeat match goal with
    | H : (_ =? _) = true |- _ => apply Z.eqb_eq in H; subst
    | H : _ || _ = false |- _ => apply is_digit_tests in H || apply orb_false_iff in H as [? ?]
    end.
  1-4: split; [done|]; intros (w' & -> & ?); by exists w'.
  - split; [done|]. intros Hw. by exists w.
  - split; [done|]. intros Hw. exists c, w. split_and!; try done; unfold is_digit; chars; lia.
  - split; [done|]. intros Hw. apply star_here. by exists w.
  - split; [done|]. intros Hw. by apply star_cons.
  - split; [done|]. intros Hw. by exists c, w.
  - split; [lia|]. intros Hw. apply star_here. exists w. rewrite He in Hw. by split.
  - split; [done|]. intros Hw. by apply star_cons.
  - split; [done|]. intros Hw. destruct (Z.to_nat _) as [|n] eqn:En; [lia|].
    by apply star_cons.
  - split; [done|]. intros Hw. 
    rewrite u64_small in * by (width; lia).
    replace (Z.to_nat (3 - count st)) with 1%nat by lia. apply star_here. by exists c, w.
  - rewrite u64_small in * by (width; lia). split; [lia|]. intros Hw.
    replace (Z.to_nat (3 - count st)) with (S (Z.to_nat (3 - (count st + 1)))) by lia.
    apply star_here. by exists c, w.
  - split; [done|]. apply lang_reason_text. by left.
  - split; [done|]. apply lang_reason_text. by right.
  - split; [done|]. intros ->. exists [], [CR; LF]. split_and!; [done|by left|by right].
  - split; [done|]. intros ->. apply star_here. by right.
  - split; [done|]. intros Hw. apply star_cons; [|done]. unfold is_text. 
    by rewrite (proj2 (Z.eqb_neq _ _)), (proj2 (Z.eqb_neq _ _)) by (by apply Z.eqb_neq).
Qed.

Lemma status_done_lang p c s r st n o :
  status_step p c (s, r, st) = inr o ->
  match o with StatusDone _ _ _ => status_lang s n [c] | StatusError _ _ => True end.
Proof.
  intros E. destruct s; cbn [status_step] in E; repeat case_match; simplify_eq; try done;
    apply Z.eqb_eq in Heqb || idtac;
    repeat match goal with H : (_ =? _) = true |- _ => apply Z.eqb_eq in H; subst end; cbn.
  - exists [], [LF]. split_and!; [done|by left|by left].
  - apply star_here. by left.
  - done.
Qed.

Lemma status_scan_lang d p s r st c s' r' st' p' r2 st2 :
  scan status_step p d (s, r, st) = inl (s', r', st') ->
  status_step p' c (s', r', st') = inr (StatusDone p' r2 st2) ->
  status_expects s (count st) ->
  status_lang s (Z.to_nat (3 - count st)) (d ++ [c]).
Proof.
  revert p s r st. induction d as [|c0 d IH]; intros p s r st E1 E2 He; cbn [scan app] in *.
  - simplify_eq. by apply (status_done_lang _ _ _ _ _ _ _ E2).
  - destruct (status_step p c0 (s, r, st)) as [[[s1 r1] st1]|] eqn:Es; [|done].
    destruct (status_step_lang _ _ _ _ _ _ _ _ (d ++ [c]) Es He) as [He1 Hw].
    apply Hw. by eapply IH.
Qed.

Lemma lang_code_parts w :
  lang_code 3 w -> exists s1 d1 s2 d2 s3 d3 t e,
    w = s1 ++ [d1] ++ s2 ++ [d2] ++ s3 ++ [d3] ++ t ++ e /\
    (forallb is_space s1 = true /\ forallb is_space s2 = true /\ forallb is_space s3 = true) /\
    (is_digit d1 = true /\ is_digit d2 = true /\ is_digit d3 = true) /\
    status_reason t /\ status_eol e.
Proof.
  intros (s1 & v1 & -> & Hs1 & d1 & w1 & -> & Hd1 & s2 & v2 & -> & Hs2 & d2 & w2 & -> & Hd2 &
    s3 & v3 & -> & Hs3 & d3 & w3 & -> & Hd3 & t & e & -> & Ht & He).
  exists s1, d1, s2, d2, s3, d3, t, e. done.
Qed.

Lemma lang_start_parts n w :
  status_lang sw_start n w -> exists l, status_parts_wf l /\ w = status_bytes l.
Proof.
  intros (w0 & -> & d & w1 & -> & Hd & Hd0 & maj & v & -> & Hmaj & w2 & -> &
    e0 & w3 & -> & He0 & mi & v3 & -> & Hmi & w4 & -> & Hc).
  apply lang_code_parts in Hc as (s1 & d1 & s2 & d2 & s3 & d3 & t & e & -> & ? & ? & ? & ?).
  exists (StatusParts (d :: maj) (e0 :: mi) s1 d1 s2 d2 s3 d3 t e). split.
  - assert (version_digits (d :: maj) (e0 :: mi)).
    { unfold version_digits. cbn [forallb]. rewrite Hd, He0. split_and!; try done.
      by exists d, maj. }
    done.
  - unfold status_bytes, status_head, status_line_head.
    cbn [sp_major sp_minor sp_space1 sp_d1 sp_space2 sp_d2 sp_space3 sp_d3 sp_reason sp_eol].
    by rewrite <-!app_assoc.
Qed.

(** The status line parser accepts nothing but well formed status lines:
    when it returns [NTG_OK] from a fresh state, the data starts with a line of
    the form "HTTP/" major "." minor " " and three digits, an optional reason
    and an end of line, and the buffer is left just after it. *)
Theorem status_line_accepts_only b r st r' b' st' :
  ntg_http_parse_status_line r b st = (NTG_OK, r', b', st') ->
  r_state r = status_sw_num sw_start -> count st = 0 ->
  exists l rest, status_parts_wf l /\ buf_data b = status_bytes l ++ rest /\
    b' = set_buf_pos (buf_pos b + Z.of_nat (length (status_bytes l))) b.
Proof.
  unfold ntg_http_parse_status_line. intros E Hr Hc. rewrite Hr, (status_sw_of_num sw_start) in E.
  destruct (scan status_step (buf_pos b) (buf_data b) _) as [[[? ?] ?]|o] eqn:Es; [done|].
  destruct (scan_inr _ _ _ _ _ Es) as (d1 & c & d2 & [[s1 r1] st1] & Hd & E1 & E2).
  destruct o as [|p rd std]; [done|].
  assert (Hp : p = buf_pos b + Z.of_nat (length d1)).
  { destruct s1; cbn [status_step] in E2; repeat case_match; simplify_eq; done. }
  subst p. pose proof (status_scan_lang _ _ _ _ _ _ _ _ _ _ _ _ E1 E2 Hc) as Hl.
  apply lang_start_parts in Hl as (l & Hwf & Hl). exists l, d2. split_and!; [done| |].
  - by rewrite Hd, <-Hl, <-app_assoc.
  - injection E as _ <- _. rewrite <-Hl, length_app. cbn. f_equal. lia.
Qed.

(** ** Examples *)

Definition example_status : ntg_http_status := HttpStatus 0 0 0 None None.

Definition example_line : status_parts :=
  StatusParts (str "1") (str "1") [] (ch "2") [] (ch "0") [] (ch "0") (str " OK") [CR; LF].

Lemma status_line_accepts_witness :
  exists r' b', ntg_http_parse_status_line example_hparse
      (example_buf (str "HTTP/1.1 200 OK" ++ [CR; LF] ++ str "Server: x")) example_status =
    (NTG_OK, r', b', HttpStatus 1001 200 3 (Some 1009) (Some 1015)).
Proof.
  destruct (status_line_accepts (example_buf (str "HTTP/1.1 200 OK" ++ [CR; LF] ++ str "Server: x"))
    example_hparse example_status example_line (str "Server: x")) as (r' & E & _).
  - repeat split; try (by cbn).
    + by exists (ch "1"), [].
    + right. exists (ch " "), (str "OK"). split_and!; [done|by left|done].
    + by right.
  - done.
  - done.
  - done.
  - exists r'. eexists. exact E.
Defined.

Lemma status_line_accepts_only_witness :
  exists l rest, status_parts_wf l /\
    str "HTTP/1.0 404 Not Found" ++ [LF] = status_bytes l ++ rest.
Proof.
  pose (b := example_buf (str "HTTP/1.0 404 Not Found" ++ [LF])).
  destruct (ntg_http_parse_status_line example_hparse b example_status) as [[[rc r'] b'] st'] eqn:E.
  destruct (status_line_accepts_only b example_hparse example_status r' b' st')
    as (l & rest & Hl & Hd & _).
  - rewrite E. vm_compute in E. by injection E as <- _ _ _.
  - done.
  - done.
  - by exists l, rest.
Defined.

Lemma status_line_resumable_witness :
  let b := example_buf (str "HTTP/1.1 200 OK" ++ [CR; LF]) in
  exists r1 b1 st1,
    ntg_http_parse_status_line example_hparse (set_buf_last 1007 b) example_status =
      (NTG_AGAIN, r1, b1, st1) /\
    same_verdict (ntg_http_parse_status_line r1 (set_buf_last 1017 b1) st1)
      (ntg_http_parse_status_line example_hparse b example_status).
Proof.
  intros b.
  pose proof (status_line_resumable example_hparse b 1007 example_status) as T.
  destruct (ntg_http_parse_status_line example_hparse (set_buf_last 1007 b) example_status)
    as [[[rc r1] b1] st1] eqn:E.
  exists r1, b1, st1. assert (rc = NTG_AGAIN) as -> by (vm_compute in E; by injection E as <-).
  split; [done|]. apply T.
  - by apply (bool_decide_eq_true_1 _).
  - cbn. lia.
Defined.
