(* ===== verification/HttpHeaderLine.v ===== *)
(** * Parsing a header line (src/http/ntg_http_parse.c, ntg_http_parse_header_line)

    The resumable state machine over one line of the response head.  It hashes
    and lowers the name as it goes and leaves the name and the value as
    pointers into the input buffer. *)

From S2P Require Import Prelude HttpTypes.

Inductive header_sw :=
  | sw_start | sw_name | sw_space_before_value | sw_value | sw_space_after_value
  | sw_ignore_line | sw_almost_done | sw_header_almost_done.

#[export] Instance header_sw_eq_dec : EqDecision header_sw.
Proof. solve_decision. Defined.

Definition header_sw_list : list header_sw :=
  [sw_start; sw_name; sw_space_before_value; sw_value; sw_space_after_value;
   sw_ignore_line; sw_almost_done; sw_header_almost_done].

Definition header_sw_num (s : header_sw) : Z :=
  match s with
  | sw_start => 0 | sw_name => 1 | sw_space_before_value => 2 | sw_value => 3
  | sw_space_after_value => 4 | sw_ignore_line => 5 | sw_almost_done => 6
  | sw_header_almost_done => 7
  end.

Definition header_sw_of (z : Z) : option header_sw :=
  if z <? 0 then None else header_sw_list !! Z.to_nat z.

Lemma header_sw_of_num s : header_sw_of (header_sw_num s) = Some s.
Proof. by destruct s. Qed.

(** The table of the bytes a header name consists of, in lower case. *)
Definition lowcase : list Z :=
  repeat 0 45 ++ str "-" ++ repeat 0 2 ++ str "0123456789" ++ repeat 0 6 ++
  [0] ++ str "abcdefghijklmnopqrstuvwxyz" ++ repeat 0 5 ++
  [0] ++ str "abcdefghijklmnopqrstuvwxyz" ++ repeat 0 5 ++
  repeat 0 128.

Definition lowcase_of (c : Z) : Z := nth (Z.to_nat c) lowcase 0.

(** [ntg_hash(key, c)] (ntg_hash.h). *)
Definition ntg_hash (key c : Z) : Z := u64 (key * 31 + c).

(** How the loop is left before the data ends. *)
Inductive header_exit :=
  | HeaderInvalid (r : hparse)
  | HeaderLineDone (p hash i : Z) (r : hparse)
  | HeadersDone (p : Z) (r : hparse).

(** The local variables [state], [hash], [i] and the request. *)
Definition header_local : Type := header_sw * Z * Z * hparse.

Section step.
(** The memory of the buffer and the flag argument. *)
Context (mem : Z -> bytes) (allow_underscores : bool).

(** [r->lowcase_header[i] = c]. *)
Definition store_lowcase (i c : Z) (r : hparse) : hparse :=
  set_lowcase_header (<[Z.to_nat i := c]> (lowcase_header r)) r.

(** One pass of the loop body. *)
Definition header_step (p c : Z) (l : header_local) : header_local + header_exit :=
  let '(state, hash, i, r) := l in
  match state with
  | sw_start =>
      let r := r |> set_header_name_start p |> set_invalid_header false in
      if c =? CR then inl (sw_header_almost_done, hash, i, set_header_end p r)
      else if c =? LF then inr (HeadersDone p (set_header_end p r))
      else
        let lc := lowcase_of c in
        if negb (lc =? 0) then
          inl (sw_name, ntg_hash 0 lc, 1, store_lowcase 0 lc r)
        else if c =? ch "_" then
          if allow_underscores then
            inl (sw_name, ntg_hash 0 c, 1, store_lowcase 0 c r)
          else inl (sw_name, hash, i, set_invalid_header true r)
        else if c =? 0 then inr (HeaderInvalid r)
        else inl (sw_name, hash, i, set_invalid_header true r)
  | sw_name =>
      let lc := lowcase_of c in
      if negb (lc =? 0) then
        inl (sw_name, ntg_hash hash lc, Z.land (i + 1) (NTG_HTTP_LC_HEADER_LEN - 1),
             store_lowcase i lc r)
      else if c =? ch "_" then
        if allow_underscores then
          inl (sw_name, ntg_hash hash c, Z.land (i + 1) (NTG_HTTP_LC_HEADER_LEN - 1),
               store_lowcase i c r)
        else inl (sw_name, hash, i, set_invalid_header true r)
      else if c =? ch ":" then
        inl (sw_space_before_value, hash, i, set_header_name_end p r)
      else if c =? CR then
        inl (sw_almost_done, hash, i,
             r |> set_header_name_end p |> set_header_start p |> set_header_end p)
      else if c =? LF then
        inr (HeaderLineDone p hash i
             (r |> set_header_name_end p |> set_header_start p |> set_header_end p))
      else if (c =? ch "/") && (p - header_name_start r =? 4) &&
              bool_decide (strncmp (mem (header_name_start r)) (str "HTTP" ++ [0]) 4 = Some 0)
      then inl (sw_ignore_line, hash, i, r)
      else if c =? 0 then inr (HeaderInvalid r)
      else inl (sw_name, hash, i, set_invalid_header true r)
  | sw_space_before_value =>
      if c =? ch " " then inl (sw_space_before_value, hash, i, r)
      else if c =? CR then
        inl (sw_almost_done, hash, i, r |> set_header_start p |> set_header_end p)
      else if c =? LF then
        inr (HeaderLineDone p hash i (r |> set_header_start p |> set_header_end p))
      else if c =? 0 then inr (HeaderInvalid r)
      else inl (sw_value, hash, i, set_header_start p r)
  | sw_value =>
      if c =? ch " " then inl (sw_space_after_value, hash, i, set_header_end p r)
      else if c =? CR then inl (sw_almost_done, hash, i, set_header_end p r)
      else if c =? LF then inr (HeaderLineDone p hash i (set_header_end p r))
      else if c =? 0 then inr (HeaderInvalid r)
      else inl (sw_value, hash, i, r)
  | sw_space_after_value =>
      if c =? ch " " then inl (sw_space_after_value, hash, i, r)
      else if c =? CR then inl (sw_almost_done, hash, i, r)
      else if c =? LF then inr (HeaderLineDone p hash i r)
      else if c =? 0 then inr (HeaderInvalid r)
      else inl (sw_value, hash, i, r)
  | sw_ignore_line =>
      if c =? LF then inl (sw_start, hash, i, r) else inl (sw_ignore_line, hash, i, r)
  | sw_almost_done =>
      if c =? LF then inr (HeaderLineDone p hash i r)
      else if c =? CR then inl (sw_almost_done, hash, i, r)
      else inr (HeaderInvalid r)
  | sw_header_almost_done =>
      if c =? LF then inr (HeadersDone p r) else inr (HeaderInvalid r)
  end.

End step.

Definition ntg_http_parse_header_line (r : hparse) (b : ntg_buf) (allow_underscores : bool)
  : Z * hparse * ntg_buf :=
  let b_end := set_buf_pos (buf_pos b + Z.of_nat (length (buf_data b))) b in
  match header_sw_of (r_state r) with
  | None => (NTG_AGAIN, r, b_end)
  | Some state =>
      match scan (header_step (buf_from b) allow_underscores) (buf_pos b) (buf_data b)
              (state, header_hash r, lowcase_index r, r) with
      | inl (state, hash, i, r) =>
          (NTG_AGAIN,
           r |> set_r_state (header_sw_num state) |> set_header_hash hash |> set_lowcase_index i,
           b_end)
      | inr (HeaderInvalid r) => (NTG_HTTP_PARSE_INVALID_HEADER, r, b)
      | inr (HeaderLineDone p hash i r) =>
          (NTG_OK,
           r |> set_r_state (header_sw_num sw_start) |> set_header_hash hash |> set_lowcase_index i,
           set_buf_pos (p + 1) b)
      | inr (HeadersDone p r) =>
          (NTG_HTTP_PARSE_HEADER_DONE, set_r_state (header_sw_num sw_start) r,
           set_buf_pos (p + 1) b)
      end
  end.

(** ** Resuming *)

(** The locals saved in the request between two calls; the loop body does not
    look at them there. *)
Definition save (z h i : Z) (r : hparse) : hparse :=
  r |> set_r_state z |> set_header_hash h |> set_lowcase_index i.

Definition save_exit (z h i : Z) (o : header_exit) : header_exit :=
  match o with
  | HeaderInvalid r => HeaderInvalid (save z h i r)
  | HeaderLineDone p h' i' r => HeaderLineDone p h' i' (save z h i r)
  | HeadersDone p r => HeadersDone p (save z h i r)
  end.

Lemma header_step_save mem au p c s hash i r z h j :
  header_step mem au p c (s, hash, i, save z h j r) =
  match header_step mem au p c (s, hash, i, r) with
  | inl (s', hash', i', r') => inl (s', hash', i', save z h j r')
  | inr o => inr (save_exit z h j o)
  end.
Proof.
  destruct s; cbn [header_step header_name_start save set_r_state set_header_hash
    set_lowcase_index]; repeat case_match; simplify_eq; done.
Qed.

Lemma header_scan_save mem au data p s hash i r z h j :
  scan (header_step mem au) p data (s, hash, i, save z h j r) =
  match scan (header_step mem au) p data (s, hash, i, r) with
  | inl (s', hash', i', r') => inl (s', hash', i', save z h j r')
  | inr o => inr (save_exit z h j o)
  end.
Proof.
  revert p s hash i r. induction data as [|c data IH]; intros p s hash i r; cbn [scan]; [done|].
  rewrite header_step_save.
  destruct (header_step mem au p c (s, hash, i, r)) as [[[[s' h'] i'] r']|o]; [apply IH|done].
Qed.

(** Results that a caller cannot tell apart: after [NTG_OK] and [NTG_AGAIN] all
    is equal; at the end of the head the hash and the index are no longer
    used; after an error only the verdict matters. *)
Definition same_header (x y : Z * hparse * ntg_buf) : Prop :=
  let '(rc1, r1, b1) := x in
  let '(rc2, r2, b2) := y in
  rc1 = rc2 /\
  (rc1 = NTG_OK \/ rc1 = NTG_AGAIN -> r1 = r2 /\ b1 = b2) /\
  (rc1 = NTG_HTTP_PARSE_HEADER_DONE -> b1 = b2 /\ r_state r1 = r_state r2).

(** Parsing a header line that arrives in two parts, split at any byte,
    gives the result of parsing it at once. *)
Theorem header_line_resumable r b mid au :
  buf_wf b -> buf_pos b <= mid <= buf_last b ->
  let '(rc, r1, b1) := ntg_http_parse_header_line r (set_buf_last mid b) au in
  let b1 := set_buf_last (buf_last b) b1 in
  if rc =? NTG_AGAIN
  then same_header (ntg_http_parse_header_line r1 b1 au) (ntg_http_parse_header_line r b au)
  else ntg_http_parse_header_line r b au = (rc, r1, b1).
Proof.
  intros Hwf Hmid. destruct (buf_resume b mid Hwf Hmid) as (Hsp & Hl1 & Hl2 & Hbm).
  unfold ntg_http_parse_header_line at 1.
  change (buf_pos (set_buf_last mid b)) with (buf_pos b).
  change (buf_from (set_buf_last mid b)) with (buf_from b).
  destruct (header_sw_of (r_state r)) as [s|] eqn:Es.
  2: { cbn [Z.eqb NTG_AGAIN]. rewrite Hbm. unfold ntg_http_parse_header_line. rewrite Es.
       cbn. split_and!; try done. intros _. split; [done|].
       apply set_buf_pos_twice. rewrite Hsp, length_app. cbn. lia. }
  destruct (scan _ (buf_pos b) (buf_data (set_buf_last mid b)) _)
    as [[[[s1 h1] i1] r1]|o] eqn:E1.
  - cbn [Z.eqb NTG_AGAIN]. rewrite Hbm. unfold ntg_http_parse_header_line.
    cbn [r_state set_r_state set_header_hash set_lowcase_index header_hash lowcase_index].
    rewrite header_sw_of_num, Es, Hsp, scan_app, E1.
    replace (buf_pos b + Z.of_nat (length (buf_data (set_buf_last mid b)))) with mid by lia.
    change (buf_pos (set_buf_pos mid b)) with mid.
    change (buf_from (set_buf_pos mid b)) with (buf_from b).
    fold (save (header_sw_num s1) h1 i1 r1). rewrite header_scan_save.
    destruct (scan (header_step (buf_from b) au) mid _ (s1, h1, i1, r1))
      as [[[[s2 h2] i2] r2]|[r2|p2 h2 i2 r2|p2 r2]];
      cbn; split_and!; try done; try (by intros [? | ?]); intros _; (split; [done|]);
      apply set_buf_pos_twice; cbn; rewrite ?length_app; lia.
  - unfold ntg_http_parse_header_line. rewrite Es, Hsp, scan_app, E1.
    destruct o; cbn; destruct b; done.
Qed.

(** ** Bounds *)

Definition lowcase_inv (i : Z) (r : hparse) : Prop :=
  0 <= i < NTG_HTTP_LC_HEADER_LEN /\
  length (lowcase_header r) = Z.to_nat NTG_HTTP_LC_HEADER_LEN.

(** The pointers set so far, for a line in state [s] before address [p]. *)
Definition pointers_inv (s : header_sw) (p : Z) (r : hparse) : Prop :=
  match s with
  | sw_start | sw_ignore_line | sw_header_almost_done => True
  | sw_name => header_name_start r < p
  | sw_space_before_value => header_name_start r <= header_name_end r < p
  | sw_value =>
      header_name_start r <= header_name_end r <= header_start r /\ header_start r < p
  | sw_space_after_value | sw_almost_done =>
      header_name_start r <= header_name_end r <= header_start r /\
      header_start r <= header_end r < p
  end.

(** A stored value of the index is in the array. *)
Lemma land_31_range i : 0 <= Z.land i (NTG_HTTP_LC_HEADER_LEN - 1) < NTG_HTTP_LC_HEADER_LEN.
Proof.
  unfold NTG_HTTP_LC_HEADER_LEN. change (32 - 1) with (Z.ones 5).
  rewrite Z.land_ones by lia. mlia.
Qed.

Lemma header_step_lowcase mem au p c s h i r :
  lowcase_inv i r ->
  match header_step mem au p c (s, h, i, r) with
  | inl (s', h', i', r') => lowcase_inv i' r'
  | inr (HeaderInvalid r') | inr (HeadersDone _ r') =>
      length (lowcase_header r') = Z.to_nat NTG_HTTP_LC_HEADER_LEN
  | inr (HeaderLineDone _ _ i' r') => lowcase_inv i' r'
  end.
Proof.
  intros [Hi Hl]. pose proof (land_31_range (i + 1)).
  destruct s; cbn [header_step store_lowcase]; repeat case_match; simplify_eq;
    try (split; [|cbn; rewrite ?length_insert; exact Hl]); try assumption;
    try (unfold NTG_HTTP_LC_HEADER_LEN; lia); cbn; rewrite ?length_insert; done.
Qed.

Lemma header_step_pointers mem au p c s h i r :
  pointers_inv s p r ->
  match header_step mem au p c (s, h, i, r) with
  | inl (s', _, _, r') => pointers_inv s' (p + 1) r'
  | inr (HeaderLineDone p' _ _ r') => p' = p /\
      header_name_start r' <= header_name_end r' <= header_start r' /\
      header_start r' <= header_end r' <= p
  | inr (HeadersDone p' _) => p' = p
  | inr _ => True
  end.
Proof.
  destruct s; cbn [header_step pointers_inv store_lowcase]; intros Hp;
    repeat case_match; simplify_eq; cbn; try done; try lia.
Qed.

Lemma header_scan_pointers mem au data p s h i r :
  pointers_inv s p r ->
  match scan (header_step mem au) p data (s, h, i, r) with
  | inl (s', _, _, r') => pointers_inv s' (p + Z.of_nat (length data)) r'
  | inr (HeaderLineDone p' _ _ r') => p <= p' < p + Z.of_nat (length data) /\
      header_name_start r' <= header_name_end r' <= header_start r' /\
      header_start r' <= header_end r' <= p'
  | inr (HeadersDone p' _) => p <= p' < p + Z.of_nat (length data)
  | inr _ => True
  end.
Proof.
  revert p s h i r. induction data as [|c data IH]; intros p s h i r Hp; cbn [scan length].
  { by rewrite Z.add_0_r. }
  pose proof (header_step_pointers mem au p c s h i r Hp) as Hs.
  destruct (header_step mem au p c (s, h, i, r)) as [[[[s' h'] i'] r']|o].
  - specialize (IH (p + 1) s' h' i' r' Hs). destruct (scan _ _ _ _) as [[[[? ?] ?] ?]|[]];
      [|done|lia|lia].
    by replace (p + Z.of_nat (S (length data))) with (p + 1 + Z.of_nat (length data)) by lia.
  - destruct o; [done|lia..].
Qed.

Lemma header_scan_lowcase mem au data p s h i r :
  lowcase_inv i r ->
  match scan (header_step mem au) p data (s, h, i, r) with
  | inl (s', h', i', r') => lowcase_inv i' r'
  | inr (HeaderInvalid r') | inr (HeadersDone _ r') =>
      length (lowcase_header r') = Z.to_nat NTG_HTTP_LC_HEADER_LEN
  | inr (HeaderLineDone _ _ i' r') => lowcase_inv i' r'
  end.
Proof.
  revert p s h i r. induction data as [|c data IH]; intros p s h i r Hp; cbn [scan]; [done|].
  pose proof (header_step_lowcase mem au p c s h i r Hp) as Hs.
  destruct (header_step mem au p c (s, h, i, r)) as [[[[s' h'] i'] r']|o]; [by apply IH|done].
Qed.

(** In every call the index into [lowcase_header] stays inside its 32 bytes; and
    when a line is complete the name and the value it reports are ordered
    slices of the data received so far and the buffer is advanced by at least
    one byte, never beyond the data. *)
Lemma header_line_bounds r b au rc r' b' s :
  ntg_http_parse_header_line r b au = (rc, r', b') ->
  buf_wf b -> lowcase_inv (lowcase_index r) r ->
  header_sw_of (r_state r) = Some s -> pointers_inv s (buf_pos b) r ->
  length (lowcase_header r') = Z.to_nat NTG_HTTP_LC_HEADER_LEN /\
  buf_pos b <= buf_pos b' <= buf_last b /\
  (rc = NTG_OK ->
     lowcase_inv (lowcase_index r') r' /\ buf_pos b < buf_pos b' /\
     header_name_start r' <= header_name_end r' <= header_start r' /\
     header_start r' <= header_end r' < buf_pos b') /\
  (rc = NTG_AGAIN -> buf_pos b' = buf_last b /\ lowcase_inv (lowcase_index r') r' /\
     exists s', header_sw_of (r_state r') = Some s' /\ pointers_inv s' (buf_last b) r').
Proof.
  unfold ntg_http_parse_header_line. intros E Hwf Hlc Hs Hp. rewrite Hs in E.
  pose proof (buf_data_length b Hwf) as Hl.
  pose proof (header_scan_pointers (buf_from b) au (buf_data b) (buf_pos b) s
    (header_hash r) (lowcase_index r) r Hp) as Hsp.
  pose proof (header_scan_lowcase (buf_from b) au (buf_data b) (buf_pos b) s
    (header_hash r) (lowcase_index r) r Hlc) as Hinv.
  destruct (scan _ _ _ _) as [[[[s1 h1] i1] r1]|[r1|p1 h1 i1 r1|p1 r1]];
    cbn in E; simplify_eq; cbn in *.
  - destruct Hwf. split; [apply Hinv|]. split; [lia|]. split; [done|].
    intros _. split; [lia|]. split; [exact Hinv|]. exists s1.
    rewrite header_sw_of_num. split; [done|]. rewrite Hl in Hsp.
    by replace (buf_last b) with (buf_pos b + (buf_last b - buf_pos b)) by lia.
  - destruct Hwf. split_and!; try done; lia.
  - destruct Hinv. split; [done|]. split; [lia|]. split; [|done]. intros _. split_and!; try done; lia.
  - split_and!; try done; lia.
Qed.

(** ** Well formed lines *)

Definition name_byte (c : Z) : bool := negb (lowcase_of c =? 0).
Definition value_byte (c : Z) : bool :=
  negb ((c =? ch " ") || (c =? CR) || (c =? LF) || (c =? 0)).
Definition value_or_space (c : Z) : bool := value_byte c || (c =? ch " ").

(** A value: nothing, or text that neither starts nor ends with a space. *)
Definition header_value (v : bytes) : Prop :=
  v = [] \/ exists c u d, (v = [c] /\ d = c \/ v = c :: u ++ [d]) /\
    value_byte c = true /\ value_byte d = true /\ forallb value_or_space u = true.

(** The end of a header line: a line feed after any number of returns. *)
Definition header_eol (w : bytes) : Prop :=
  exists n, w = repeat CR n ++ [LF].

(** Hash of a name, as [ntg_hash_key] computes it on the lower case name. *)
Definition name_hash (name : bytes) : Z :=
  fold_left (fun h c => ntg_hash h (lowcase_of c)) name 0.

Section accepts.
Context (mem : Z -> bytes) (au : bool).
Let step := header_step mem au.

Lemma name_byte_colon c : name_byte c = true -> c <> ch ":" /\ c <> CR /\ c <> LF /\ c <> 0.
Proof. intros H. split_and!; intros ->; by vm_compute in H. Qed.

Lemma scan_name_first p c k h i r :
  name_byte c = true ->
  scan step p (c :: k) (sw_start, h, i, r) =
  scan step (p + 1) k (sw_name, ntg_hash 0 (lowcase_of c), 1,
    r |> set_header_name_start p |> set_invalid_header false |> store_lowcase 0 (lowcase_of c)).
Proof.
  intros Hc. destruct (name_byte_colon c Hc) as (_ & H1 & H2 & _).
  unfold name_byte in Hc. cbn [scan]. unfold step at 1. cbn [header_step].
  by rewrite (proj2 (Z.eqb_neq c CR)), (proj2 (Z.eqb_neq c LF)), Hc.
Qed.

(** What reading a name leaves: the array starts with the lower case name. *)
Definition named (n : nat) (low : bytes) (r0 r : hparse) : Prop :=
  take n (lowcase_header r) = low /\ length (lowcase_header r) = length (lowcase_header r0) /\
  header_name_start r = header_name_start r0 /\ invalid_header r = invalid_header r0 /\
  http_major r = http_major r0 /\ http_minor r = http_minor r0.

Lemma scan_name_rest ds p k h i r low :
  forallb name_byte ds = true ->
  (i + length ds <= 32)%nat -> length (lowcase_header r) = 32%nat ->
  take i (lowcase_header r) = low ->
  exists i' r', scan step p (ds ++ k) (sw_name, h, Z.of_nat i, r) =
      scan step (p + Z.of_nat (length ds)) k
        (sw_name, fold_left (fun h c => ntg_hash h (lowcase_of c)) ds h, i', r') /\
    named (i + length ds) (low ++ map lowcase_of ds) r r'.
Proof.
  revert p h i r low. induction ds as [|c ds IH]; intros p h i r low Hd Hi Hl Hlow.
  { cbn [app length map fold_left]. rewrite Z.add_0_r, app_nil_r, Nat.add_0_r.
    exists (Z.of_nat i), r. done. }
  cbn [forallb length app scan] in *. apply andb_true_iff in Hd as [Hc Hd].
  unfold step at 1. cbn [header_step]. unfold name_byte in Hc. rewrite Hc.
  assert (Hsl : lowcase_header (store_lowcase (Z.of_nat i) (lowcase_of c) r) =
    <[i := lowcase_of c]> (lowcase_header r)).
  { cbn. by rewrite Nat2Z.id. }
  destruct (decide (ds = [])) as [->|Hne].
  - cbn [app length map fold_left]. do 2 eexists. split; [done|].
    unfold named. rewrite Hsl, length_insert. split_and!; try done.
    rewrite Nat.add_1_r, (take_S_r _ _ (lowcase_of c)), take_insert_ge by
      (rewrite ?list_lookup_insert_eq; lia || done). by rewrite Hlow.
  - assert (1 <= length ds)%nat by (destruct ds; [done|cbn; lia]).
    assert (Hland : Z.land (Z.of_nat i + 1) (NTG_HTTP_LC_HEADER_LEN - 1) = Z.of_nat (S i)).
    { unfold NTG_HTTP_LC_HEADER_LEN. change (32 - 1) with (Z.ones 5).
      rewrite Z.land_ones by lia. rewrite Z.mod_small; lia. }
    rewrite Hland.
    destruct (IH (p + 1) (ntg_hash h (lowcase_of c)) (S i)
      (store_lowcase (Z.of_nat i) (lowcase_of c) r) (low ++ [lowcase_of c]))
      as (i' & r' & E & Hn1 & Hn2 & Hn3); [done|lia|by rewrite Hsl, length_insert| |].
    { rewrite Hsl, (take_S_r _ _ (lowcase_of c)), take_insert_ge by
        (rewrite ?list_lookup_insert_eq; lia || done). by rewrite Hlow. }
    exists i', r'. unfold step in *. rewrite E. split; [f_equal; lia|].
    cbn [map fold_left]. rewrite Hsl, length_insert in Hn2.
    rewrite <-app_assoc in Hn1. cbn [app] in Hn1. unfold named.
    replace (i + S (length ds))%nat with (S i + length ds)%nat by lia. done.
Qed.

(** States in which a class of bytes changes nothing. *)
Lemma scan_skip P s ds p k h i r :
  (forall q c, P c = true -> step q c (s, h, i, r) = inl (s, h, i, r)) ->
  forallb P ds = true ->
  scan step p (ds ++ k) (s, h, i, r) = scan step (p + Z.of_nat (length ds)) k (s, h, i, r).
Proof.
  intros HP. revert p. induction ds as [|c ds IH]; intros p Hd; cbn [app length scan].
  { by rewrite Z.add_0_r. }
  cbn [forallb] in Hd. apply andb_true_iff in Hd as [Hc Hd].
  rewrite HP, IH by done. f_equal. lia.
Qed.

Definition is_space (c : Z) : bool := c =? ch " ".

Lemma scan_before_value ds p k h i r :
  forallb is_space ds = true ->
  scan step p (ds ++ k) (sw_space_before_value, h, i, r) =
  scan step (p + Z.of_nat (length ds)) k (sw_space_before_value, h, i, r).
Proof.
  apply scan_skip. intros q c Hc. unfold step. cbn [header_step].
  unfold is_space in Hc. by rewrite Hc.
Qed.

Lemma scan_after_value ds p k h i r :
  forallb is_space ds = true ->
  scan step p (ds ++ k) (sw_space_after_value, h, i, r) =
  scan step (p + Z.of_nat (length ds)) k (sw_space_after_value, h, i, r).
Proof.
  apply scan_skip. intros q c Hc. unfold step. cbn [header_step].
  unfold is_space in Hc. by rewrite Hc.
Qed.

Lemma value_byte_tests c :
  value_byte c = true ->
  (c =? ch " ") = false /\ (c =? CR) = false /\ (c =? LF) = false /\ (c =? 0) = false.
Proof.
  unfold value_byte. rewrite negb_true_iff, !orb_false_iff. tauto.
Qed.

(** Text of a value only moves the recorded end. *)
Lemma scan_value_text u p k s h i r d :
  s = sw_value \/ s = sw_space_after_value ->
  forallb value_or_space u = true -> value_byte d = true ->
  exists e, scan step p (u ++ d :: k) (s, h, i, r) =
    scan step (p + Z.of_nat (length u) + 1) k (sw_value, h, i, set_header_end e r).
Proof.
  intros Hs Hu (Hd1 & Hd2 & Hd3 & Hd4)%value_byte_tests. revert p s r Hs.
  induction u as [|c u IH]; intros p s r Hs; cbn [app length].
  { exists (header_end r). rewrite Z.add_0_r.
    replace (set_header_end (header_end r) r) with r by (by destruct r).
    destruct Hs as [-> | ->]; cbn [scan]; unfold step at 1; cbn [header_step];
      by rewrite Hd1, Hd2, Hd3, Hd4. }
  cbn [forallb] in Hu. apply andb_true_iff in Hu as [Hc Hu].
  assert (exists s' e, (s' = sw_value \/ s' = sw_space_after_value) /\
    step p c (s, h, i, r) = inl (s', h, i, set_header_end e r)) as (s' & e & Hs' & E).
  { unfold value_or_space in Hc. destruct (value_byte c) eqn:Ev.
    - apply value_byte_tests in Ev as (H1 & H2 & H3 & H4).
      exists sw_value, (header_end r). split; [by left|].
      replace (set_header_end (header_end r) r) with r by (by destruct r).
      destruct Hs as [-> | ->]; unfold step; cbn [header_step]; by rewrite H1, H2, H3, H4.
    - cbn [orb] in Hc. exists sw_space_after_value,
        (if decide (s = sw_value) then p else header_end r). split; [by right|].
      destruct Hs as [-> | ->]; unfold step; cbn [header_step]; rewrite Hc;
        [by rewrite decide_True by done|]. rewrite decide_False by done. by destruct r. }
  cbn [scan]. rewrite E. destruct (IH Hu (p + 1) s' (set_header_end e r) Hs') as (e' & E').
  exists e'. rewrite E'. f_equal. lia.
Qed.

(** The end of the line. *)
Lemma scan_almost_done n p k h i r :
  scan step p (repeat CR n ++ LF :: k) (sw_almost_done, h, i, r) =
  inr (HeaderLineDone (p + Z.of_nat n) h i r).
Proof.
  revert p. induction n as [|n IH]; intros p; cbn [repeat app scan].
  - rewrite Z.add_0_r. done.
  - unfold step at 1. cbn [header_step]. change (CR =? LF) with false.
    change (CR =? CR) with true. cbn [negb]. rewrite IH. do 2 f_equal. lia.
Qed.

Lemma scan_header_eol e p k s h i r :
  header_eol e -> s = sw_space_before_value \/ s = sw_value \/ s = sw_space_after_value ->
  scan step p (e ++ k) (s, h, i, r) =
  inr (HeaderLineDone (p + Z.of_nat (length e) - 1) h i
    (match s with
     | sw_space_before_value => r |> set_header_start p |> set_header_end p
     | sw_value => set_header_end p r
     | _ => r
     end)).
Proof.
  intros [n ->] Hs. rewrite <-app_assoc, length_app, repeat_length. cbn [app length].
  destruct n as [|n]; cbn [repeat app scan].
  - replace (p + Z.of_nat (0 + 1) - 1) with p by lia.
    destruct Hs as [-> |[-> | ->]]; done.
  - replace (p + Z.of_nat (S n + 1) - 1) with (p + 1 + Z.of_nat n) by lia.
    destruct Hs as [-> |[-> | ->]]; unfold step at 1; cbn [header_step];
      change (CR =? ch " ") with false; change (CR =? CR) with true; cbn iota;
      apply scan_almost_done.
Qed.

(** From the end of the value to the end of the line. *)
Lemma scan_value_end sp e p k h i r :
  forallb is_space sp = true -> header_eol e ->
  scan step p (sp ++ e ++ k) (sw_value, h, i, r) =
  inr (HeaderLineDone (p + Z.of_nat (length (sp ++ e)) - 1) h i (set_header_end p r)).
Proof.
  intros Hs He. destruct sp as [|c sp]; cbn [app length forallb] in *.
  - rewrite (scan_header_eol e) by eauto. done.
  - apply andb_true_iff in Hs as [Hc Hs]. cbn [scan]. unfold step at 1. cbn [header_step].
    unfold is_space in Hc. rewrite Hc. fold step. rewrite scan_after_value by done.
    rewrite (scan_header_eol e) by eauto. do 2 f_equal. len_lia.
Qed.

(** From the colon to the end of the line. *)
Lemma scan_value v sp e p k h i r :
  header_value v -> (v = [] -> sp = []) -> forallb is_space sp = true -> header_eol e ->
  exists r', scan step p (v ++ sp ++ e ++ k) (sw_space_before_value, h, i, r) =
    inr (HeaderLineDone (p + Z.of_nat (length (v ++ sp ++ e)) - 1) h i r') /\
    exists x, r' = (r |> set_header_start p |> set_header_end x |>
                    set_header_end (p + Z.of_nat (length v))).
Proof.
  intros [->|(c & u & d & Hv & Hc & Hd & Hu)] Hsp Hs He.
  { rewrite Hsp by done. cbn [app length]. rewrite (scan_header_eol e) by eauto.
    eexists; split; [done|]. exists 0. by rewrite Z.add_0_r. }
  assert (Hfirst : forall w, scan step p (c :: w) (sw_space_before_value, h, i, r) =
    scan step (p + 1) w (sw_value, h, i, set_header_start p r)).
  { intros w. apply value_byte_tests in Hc as (H1 & H2 & H3 & H4). cbn [scan].
    unfold step at 1. cbn [header_step]. by rewrite H1, H2, H3, H4. }
  destruct Hv as [[-> ->] | ->].
  - cbn [app]. rewrite Hfirst, scan_value_end by done.
    eexists; split; [f_equal; f_equal; len_lia|].
    exists 0. unfold set_header_end. cbn. done.
  - rewrite <-app_comm_cons, <-app_assoc. cbn [app]. rewrite Hfirst.
    destruct (scan_value_text u (p + 1) (sp ++ e ++ k) sw_value h i (set_header_start p r) d)
      as (x & ->); [by left|done..|].
    rewrite scan_value_end by done.
    eexists; split; [f_equal; f_equal; len_lia|]. exists x.
    f_equal. len_lia.
Qed.

End accepts.

(** A well formed line "name: value" at the start of the data, with a name
    of at most 32 letters, digits and dashes and any spaces around the value,
    is parsed in one call: the reported slices are exactly the name and the
    trimmed value, the hash is that of the lower case name, which
    [lowcase_header] starts with, and the buffer is left after the line. *)
Lemma header_line_accepts b r au name sp1 v sp2 e rest :
  buf_data b = name ++ [ch ":"] ++ sp1 ++ v ++ sp2 ++ e ++ rest ->
  name <> [] -> (length name <= 32)%nat -> forallb name_byte name = true ->
  forallb is_space sp1 = true -> forallb is_space sp2 = true ->
  header_value v -> (v = [] -> sp2 = []) -> header_eol e ->
  r_state r = header_sw_num sw_start -> length (lowcase_header r) = 32%nat ->
  exists r', ntg_http_parse_header_line r b au =
      (NTG_OK, r', set_buf_pos (buf_pos b +
         Z.of_nat (length (name ++ [ch ":"] ++ sp1 ++ v ++ sp2 ++ e))) b) /\
    header_name_start r' = buf_pos b /\
    header_name_end r' = buf_pos b + Z.of_nat (length name) /\
    header_start r' = buf_pos b + Z.of_nat (length name + 1 + length sp1) /\
    header_end r' = header_start r' + Z.of_nat (length v) /\
    header_hash r' = name_hash name /\ invalid_header r' = false /\
    take (length name) (lowcase_header r') = map lowcase_of name /\
    r_state r' = header_sw_num sw_start.
Proof.
  intros Hd Hne Hlen Hname Hsp1 Hsp2 Hv Hvs He Hr Hl.
  destruct name as [|c name]; [done|]. cbn [forallb length] in Hname, Hlen.
  apply andb_true_iff in Hname as [Hc Hname].
  unfold ntg_http_parse_header_line. rewrite Hr, (header_sw_of_num sw_start), Hd.
  cbn [app]. rewrite scan_name_first by done.
  set (r1 := _ |> store_lowcase 0 (lowcase_of c)).
  destruct (lowcase_header r) as [|x0 low0] eqn:El; [done|].
  edestruct (scan_name_rest (buf_from b) au name (buf_pos b + 1)) with (i := 1%nat) (r := r1)
    as (i' & r2 & E2 & Hlow & _ & Hns & Hinv & _);
    [done|lia| |reflexivity|].
  { subst r1. cbn. rewrite El. done. }
  cbn [Z.of_nat] in E2. change (Z.pos (Pos.of_succ_nat 0)) with 1 in E2. rewrite E2. clear E2.
  (* the colon, and the spaces after it *)
  cbn [scan]. unfold header_step at 1.
  change (lowcase_of (ch ":")) with 0. cbn [Z.eqb negb].
  change (ch ":" =? ch "_") with false. change (ch ":" =? ch ":") with true. cbn iota.
  rewrite scan_before_value by done.
  edestruct (scan_value (buf_from b) au v sp2 e) as (r3 & -> & x & ->); [done..|].
  eexists. split; [f_equal; f_equal; len_lia|].
  cbn -[length]. subst r1. cbn in Hns, Hlow, Hinv. rewrite El in Hlow. cbn in Hlow.
  split_and!; try done; len_lia.
Qed.

(** ** Examples *)

Definition example_header : ntg_buf :=
  example_buf (str "Content-Length:  42 " ++ [CR; LF] ++ [CR; LF]).

Example header_line_accepts_example :
  exists r', ntg_http_parse_header_line example_hparse example_header false =
      (NTG_OK, r', set_buf_pos 1022 example_header) /\
    header_name_end r' = 1014 /\ header_start r' = 1017 /\ header_end r' = 1019 /\
    header_hash r' = name_hash (str "content-length").
Proof.
  destruct (header_line_accepts example_header example_hparse false (str "Content-Length")
    (str "  ") (str "42") (str " ") [CR; LF] [CR; LF])
    as (r' & E & _ & H1 & H2 & H3 & H4 & _);
    try done; try (cbn; lia).
  - right. exists (ch "4"), [], (ch "2"). split_and!; [by right|done..].
  - by exists 1%nat.
  - exists r'. rewrite H1, H3, H2, H4. done.
Qed.

Lemma header_line_resumable_witness :
  exists r1 b1,
    ntg_http_parse_header_line example_hparse (set_buf_last 1018 example_header) false =
      (NTG_AGAIN, r1, b1) /\
    same_header
      (ntg_http_parse_header_line r1 (set_buf_last (buf_last example_header) b1) false)
      (ntg_http_parse_header_line example_hparse example_header false).
Proof.
  pose proof (header_line_resumable example_hparse example_header 1018 false) as T.
  destruct (ntg_http_parse_header_line example_hparse (set_buf_last 1018 example_header) false)
    as [[rc r1] b1] eqn:E.
  exists r1, b1. assert (rc = NTG_AGAIN) as -> by (vm_compute in E; by injection E as <-).
  split; [done|]. apply T.
  - by apply (bool_decide_eq_true_1 _).
  - cbn. lia.
Defined.
