(* ===== verification/HttpChunked.v ===== *)
(** * Parsing a chunked body (src/http/ntg_http_parse.c, ntg_http_parse_chunked)

    The resumable state machine over the framing of a chunked body: it stops
    at the first byte of the data of a chunk, for the caller to skip the data,
    and at the end of the body. *)

From S2P Require Import Prelude HttpTypes.

Inductive chunked_sw :=
  | sw_chunk_start | sw_chunk_size | sw_chunk_extension | sw_chunk_extension_almost_done
  | sw_chunk_data | sw_after_data | sw_after_data_almost_done
  | sw_last_chunk_extension | sw_last_chunk_extension_almost_done
  | sw_trailer | sw_trailer_almost_done | sw_trailer_header | sw_trailer_header_almost_done.

#[export] Instance chunked_sw_eq_dec : EqDecision chunked_sw.
Proof. solve_decision. Defined.

Definition chunked_sw_list : list chunked_sw :=
  [sw_chunk_start; sw_chunk_size; sw_chunk_extension; sw_chunk_extension_almost_done;
   sw_chunk_data; sw_after_data; sw_after_data_almost_done; sw_last_chunk_extension;
   sw_last_chunk_extension_almost_done; sw_trailer; sw_trailer_almost_done;
   sw_trailer_header; sw_trailer_header_almost_done].

Definition chunked_sw_num (s : chunked_sw) : Z :=
  match s with
  | sw_chunk_start => 0 | sw_chunk_size => 1 | sw_chunk_extension => 2
  | sw_chunk_extension_almost_done => 3 | sw_chunk_data => 4 | sw_after_data => 5
  | sw_after_data_almost_done => 6 | sw_last_chunk_extension => 7
  | sw_last_chunk_extension_almost_done => 8 | sw_trailer => 9
  | sw_trailer_almost_done => 10 | sw_trailer_header => 11
  | sw_trailer_header_almost_done => 12
  end.

Definition chunked_sw_of (z : Z) : option chunked_sw :=
  if z <? 0 then None else chunked_sw_list !! Z.to_nat z.

Lemma chunked_sw_of_num s : chunked_sw_of (chunked_sw_num s) = Some s.
Proof. by destruct s. Qed.

Definition TAB : Z := 9.

(** The value of a hexadecimal digit, as the parser reads it: [c | 0x20] folds
    the case of a letter. *)
Definition hex_digit (c : Z) : option Z :=
  if (ch "0" <=? c) && (c <=? ch "9") then Some (c - ch "0")
  else
    let c := u8 (Z.lor c 32) in
    if (ch "a" <=? c) && (c <=? ch "f") then Some (c - ch "a" + 10)
    else None.

(** How the loop is left before the data ends. *)
Inductive chunked_exit :=
  | ChunkData (p size : Z)
  | ChunkDone (p size : Z)
  | ChunkInvalid (size : Z).

(** The local variable [state] and [ctx->size]. *)
Definition chunked_local : Type := chunked_sw * Z.

Definition is_ext_start (c : Z) : bool := (c =? ch ";") || (c =? ch " ") || (c =? TAB).

(** One pass of the loop body. *)
Definition chunked_step (p c : Z) (l : chunked_local) : chunked_local + chunked_exit :=
  let '(state, size) := l in
  let goto s := inl (s, size) in
  let invalid := inr (ChunkInvalid size) in
  match state with
  | sw_chunk_start =>
      match hex_digit c with
      | Some d => inl (sw_chunk_size, d)
      | None => invalid
      end
  | sw_chunk_size =>
      if size >? NTG_MAX_OFF_T_VALUE / 16 then invalid
      else
        match hex_digit c with
        | Some d => inl (sw_chunk_size, s64 (size * 16 + d))
        | None =>
            if size =? 0 then
              if c =? CR then goto sw_last_chunk_extension_almost_done
              else if c =? LF then goto sw_trailer
              else if is_ext_start c then goto sw_last_chunk_extension
              else invalid
            else
              if c =? CR then goto sw_chunk_extension_almost_done
              else if c =? LF then goto sw_chunk_data
              else if is_ext_start c then goto sw_chunk_extension
              else invalid
        end
  | sw_chunk_extension =>
      if c =? CR then goto sw_chunk_extension_almost_done
      else if c =? LF then goto sw_chunk_data
      else goto sw_chunk_extension
  | sw_chunk_extension_almost_done => if c =? LF then goto sw_chunk_data else invalid
  | sw_chunk_data => inr (ChunkData p size)
  | sw_after_data =>
      if c =? CR then goto sw_after_data_almost_done
      else if c =? LF then goto sw_chunk_start
      else goto sw_after_data
  | sw_after_data_almost_done => if c =? LF then goto sw_chunk_start else invalid
  | sw_last_chunk_extension =>
      if c =? CR then goto sw_last_chunk_extension_almost_done
      else if c =? LF then goto sw_trailer
      else goto sw_last_chunk_extension
  | sw_last_chunk_extension_almost_done => if c =? LF then goto sw_trailer else invalid
  | sw_trailer =>
      if c =? CR then goto sw_trailer_almost_done
      else if c =? LF then inr (ChunkDone p size)
      else goto sw_trailer_header
  | sw_trailer_almost_done => if c =? LF then inr (ChunkDone p size) else invalid
  | sw_trailer_header =>
      if c =? CR then goto sw_trailer_header_almost_done
      else if c =? LF then goto sw_trailer
      else goto sw_trailer_header
  | sw_trailer_header_almost_done => if c =? LF then goto sw_trailer else invalid
  end.

(** The least number of bytes that must still follow. *)
Definition chunked_length (state : chunked_sw) (size : Z) : Z :=
  match state with
  | sw_chunk_start => 3
  | sw_chunk_size => s64 (1 + (if negb (size =? 0) then s64 (size + 4) else 1))
  | sw_chunk_extension | sw_chunk_extension_almost_done => s64 (1 + size + 4)
  | sw_chunk_data => s64 (size + 4)
  | sw_after_data | sw_after_data_almost_done => 4
  | sw_last_chunk_extension | sw_last_chunk_extension_almost_done => 2
  | sw_trailer | sw_trailer_almost_done => 1
  | sw_trailer_header | sw_trailer_header_almost_done => 2
  end.

(** The code from the label [data] on, in state [state] at address [p]. *)
Definition chunked_data (rc : Z) (state : chunked_sw) (size p : Z) (b : ntg_buf)
    (ctx : ntg_http_chunked) : Z * ntg_buf * ntg_http_chunked :=
  let ctx := ctx |> set_chunk_size size |> set_chunk_state (chunked_sw_num state) in
  let b := set_buf_pos p b in
  if size >? NTG_MAX_OFF_T_VALUE - 5 then (NTG_ERROR, b, ctx)
  else (rc, b, set_chunk_length (chunked_length state size) ctx).

Definition ntg_http_parse_chunked (b : ntg_buf) (ctx : ntg_http_chunked)
  : Z * ntg_buf * ntg_http_chunked :=
  let p_end := buf_pos b + Z.of_nat (length (buf_data b)) in
  match chunked_sw_of (chunk_state ctx) with
  | None =>
      (* no [case] applies: the data is passed over, the length kept *)
      if chunk_size ctx >? NTG_MAX_OFF_T_VALUE - 5 then (NTG_ERROR, set_buf_pos p_end b, ctx)
      else (NTG_AGAIN, set_buf_pos p_end b, ctx)
  | Some state =>
      let state :=
        if bool_decide (state = sw_chunk_data) && (chunk_size ctx =? 0)
        then sw_after_data else state in
      match scan chunked_step (buf_pos b) (buf_data b) (state, chunk_size ctx) with
      | inl (state, size) => chunked_data NTG_AGAIN state size p_end b ctx
      | inr (ChunkData p size) => chunked_data NTG_OK sw_chunk_data size p b ctx
      | inr (ChunkDone p size) =>
          (NTG_DONE, set_buf_pos (p + 1) b, ctx |> set_chunk_size size |> set_chunk_state 0)
      | inr (ChunkInvalid size) => (NTG_ERROR, b, set_chunk_size size ctx)
      end
  end.

(** ** The sizes *)

Definition has_size (s : chunked_sw) : bool :=
  match s with
  | sw_chunk_extension | sw_chunk_extension_almost_done | sw_chunk_data => true
  | _ => false
  end.

(** The size read so far is a non-negative [off_t]; past the size line it can
    be added to without overflow; and a chunk whose data is expected is not
    empty. *)
Definition chunked_inv (s : chunked_sw) (size : Z) : Prop :=
  0 <= size <= NTG_MAX_OFF_T_VALUE /\
  (s <> sw_chunk_size -> size <= NTG_MAX_OFF_T_VALUE / 16) /\
  (has_size s = true -> size <> 0).

Lemma hex_digit_range c d : hex_digit c = Some d -> 0 <= d < 16.
Proof.
  unfold hex_digit. chars. repeat case_match; intros; simplify_eq; lia.
Qed.

Lemma chunked_step_inv p c s size :
  chunked_inv s size ->
  match chunked_step p c (s, size) with
  | inl (s', size') => chunked_inv s' size'
  | inr (ChunkData p' size') => p' = p /\ chunked_inv sw_chunk_data size'
  | inr (ChunkDone p' size') => p' = p /\ chunked_inv sw_chunk_start size'
  | inr (ChunkInvalid size') => 0 <= size'
  end.
Proof.
  unfold chunked_inv, NTG_MAX_OFF_T_VALUE. intros (H1 & H2 & H3).
  change (9223372036854775807 / 16) with 576460752303423487 in *.
  destruct s; cbn [chunked_step has_size] in *;
    change (NTG_MAX_OFF_T_VALUE / 16) with 576460752303423487;
    try specialize (H2 ltac:(done)); try specialize (H3 ltac:(done));
    repeat case_match; simplify_eq; try done;
    repeat match goal with H : hex_digit _ = Some _ |- _ => apply hex_digit_range in H end;
    rewrite ?s64_small by (width; lia); try lia; split_and!; try done; try lia.
Qed.

Lemma chunked_scan_inv data p s size :
  chunked_inv s size ->
  match scan chunked_step p data (s, size) with
  | inl (s', size') => chunked_inv s' size'
  | inr (ChunkData p' size') =>
      p <= p' < p + Z.of_nat (length data) /\ chunked_inv sw_chunk_data size'
  | inr (ChunkDone p' size') =>
      p <= p' < p + Z.of_nat (length data) /\ chunked_inv sw_chunk_start size'
  | inr (ChunkInvalid size') => 0 <= size'
  end.
Proof.
  revert p s size. induction data as [|c data IH]; intros p s size Hi; cbn [scan length]; [done|].
  pose proof (chunked_step_inv p c s size Hi) as Hs.
  destruct (chunked_step p c (s, size)) as [[s' size']|[]].
  - specialize (IH (p + 1) s' size' Hs). destruct (scan _ _ _ _) as [[? ?]|[]]; try done;
      (split; [lia|apply IH]).
  - destruct Hs as [-> ?]. split; [lia|done].
  - destruct Hs as [-> ?]. split; [lia|done].
  - done.
Qed.

(** What holds of the chunked object between two calls; the caller may have
    consumed all the data of the current chunk. *)
Definition ctx_inv (ctx : ntg_http_chunked) : Prop :=
  exists s, chunked_sw_of (chunk_state ctx) = Some s /\
    0 <= chunk_size ctx <= NTG_MAX_OFF_T_VALUE /\
    (s <> sw_chunk_size -> chunk_size ctx <= NTG_MAX_OFF_T_VALUE / 16) /\
    (s = sw_chunk_extension \/ s = sw_chunk_extension_almost_done -> chunk_size ctx <> 0).

(** The state the loop starts in. *)
Definition start_state (s : chunked_sw) (size : Z) : chunked_sw :=
  if bool_decide (s = sw_chunk_data) && (size =? 0) then sw_after_data else s.

Lemma start_state_inv ctx s :
  chunked_sw_of (chunk_state ctx) = Some s -> ctx_inv ctx ->
  chunked_inv (start_state s (chunk_size ctx)) (chunk_size ctx).
Proof.
  intros Hs (s' & Hs' & H1 & H2 & H3). rewrite Hs in Hs'. injection Hs' as <-.
  unfold start_state, chunked_inv. destruct s; cbn in *;
    try (destruct (Z.eqb_spec (chunk_size ctx) 0));
    cbn; split_and!; try done; try lia; try (by apply H2); intros; try (by apply H2);
    try (apply H3; tauto).
Qed.

Lemma chunked_inv_ctx s size b p rc ctx :
  chunked_inv s size -> ctx_inv (chunked_data rc s size p b ctx).2.
Proof.
  intros (H1 & H2 & H3). exists s. unfold chunked_data.
  destruct (size >? _); cbn; rewrite chunked_sw_of_num;
    (split_and!; [done|lia|lia|done|intros [-> | ->]; by apply H3]).
Qed.

(** The expected length is computed without overflow. *)
Lemma chunked_length_range s size :
  chunked_inv s size -> size <= NTG_MAX_OFF_T_VALUE - 5 ->
  0 < chunked_length s size <= NTG_MAX_OFF_T_VALUE.
Proof.
  unfold chunked_inv, NTG_MAX_OFF_T_VALUE. intros (H1 & H2 & _) H3.
  clear H2. destruct s; cbn [chunked_length]; repeat case_match; mlia.
Qed.

(** Discard the cases of a verdict that did not happen. *)
Ltac verdicts :=
  repeat match goal with H : _ \/ _ |- _ => destruct H end;
  repeat match goal with H : @eq Z _ _ |- _ => discriminate H end.

(** Whatever bytes arrive, one call leaves a chunk size that is a non-negative
    [off_t] and never overflowed; on [NTG_AGAIN] and [NTG_OK] the number of
    bytes still expected is positive and in range, on [NTG_OK] the buffer stands
    at a byte of the data of a non-empty chunk, and the buffer never leaves the
    received data. *)
Lemma chunked_bounds b ctx rc b' ctx' :
  ntg_http_parse_chunked b ctx = (rc, b', ctx') -> buf_wf b -> ctx_inv ctx ->
  buf_pos b <= buf_pos b' <= buf_last b /\
  0 <= chunk_size ctx' /\
  (rc = NTG_AGAIN \/ rc = NTG_OK ->
     ctx_inv ctx' /\ 0 < chunk_length ctx' <= NTG_MAX_OFF_T_VALUE) /\
  (rc = NTG_OK -> buf_pos b' < buf_last b /\ 0 < chunk_size ctx') /\
  (rc = NTG_AGAIN -> buf_pos b' = buf_last b) /\
  (rc = NTG_DONE -> buf_pos b < buf_pos b').
Proof.
  unfold ntg_http_parse_chunked. intros E Hwf Hc.
  pose proof Hc as (s & Hs & _). rewrite Hs in E. fold (start_state s (chunk_size ctx)) in E.
  pose proof (start_state_inv ctx s Hs Hc) as Hi. destruct Hwf as (Hw1 & Hw2 & Hw3).
  pose proof (buf_data_length b ltac:(done)) as Hl.
  pose proof (chunked_scan_inv (buf_data b) (buf_pos b) _ _ Hi) as Hsc.
  destruct (scan _ _ _ _) as [[s1 z1]|[p1 z1|p1 z1|z1]].
  - pose proof (chunked_inv_ctx s1 z1 b (buf_pos b + Z.of_nat (length (buf_data b)))
      NTG_AGAIN ctx Hsc) as Hc'.
    pose proof (chunked_length_range s1 z1 Hsc) as Hlen. destruct Hsc as (? & ? & ?).
    rewrite E in Hc'. unfold chunked_data in E. rewrite Z.gtb_ltb in E.
    destruct (Z.ltb_spec (NTG_MAX_OFF_T_VALUE - 5) z1); simplify_eq; cbn in *;
      split_and!; try lia; intros; verdicts; split_and!; try done; lia.
  - destruct Hsc as [Hp Hsc].
    pose proof (chunked_inv_ctx sw_chunk_data z1 b p1 NTG_OK ctx Hsc) as Hc'.
    pose proof (chunked_length_range sw_chunk_data z1 Hsc) as Hlen.
    destruct Hsc as (? & ? & Hz). specialize (Hz eq_refl).
    rewrite E in Hc'. unfold chunked_data in E. rewrite Z.gtb_ltb in E.
    destruct (Z.ltb_spec (NTG_MAX_OFF_T_VALUE - 5) z1); simplify_eq; cbn -[s64] in *;
      split_and!; try lia; intros; verdicts; split_and!; try done; lia.
  - destruct Hsc as [Hp (? & ? & ?)]. simplify_eq. cbn.
    split_and!; try lia; intros; verdicts; split_and!; try done; lia.
  - simplify_eq. cbn. split_and!; try lia; intros; verdicts; split_and!; try done; lia.
Qed.

(** ** Resuming *)

(** Results that a caller cannot tell apart: it drops everything on an error,
    and does not use the expected length at the end of the body. *)
Definition same_chunked (x y : Z * ntg_buf * ntg_http_chunked) : Prop :=
  let '(rc1, b1, c1) := x in
  let '(rc2, b2, c2) := y in
  rc1 = rc2 /\
  (rc1 <> NTG_ERROR -> b1 = b2 /\ chunk_state c1 = chunk_state c2 /\ chunk_size c1 = chunk_size c2) /\
  (rc1 = NTG_AGAIN \/ rc1 = NTG_OK -> c1 = c2).

Lemma start_state_id s z : chunked_inv s z -> start_state s z = s.
Proof.
  intros (_ & _ & H). unfold start_state. case_bool_decide as E; [|done]. subst.
  specialize (H eq_refl). by rewrite (proj2 (Z.eqb_neq z 0)).
Qed.

Lemma same_chunked_data rc s z p q b1 b2 c1 c2 :
  set_buf_pos p b1 = set_buf_pos q b2 ->
  same_chunked (chunked_data rc s z p b1 c1) (chunked_data rc s z q b2 c2).
Proof. intros E. unfold chunked_data. rewrite E. destruct (z >? _); cbn; split_and!; try done; intros; verdicts; done. Qed.

(** C7: parsing a chunked body that arrives in two parts, split at any byte,
    gives the result of parsing it at once. *)
Theorem chunked_resumable b mid ctx :
  buf_wf b -> buf_pos b <= mid <= buf_last b -> ctx_inv ctx ->
  let '(rc, b1, ctx1) := ntg_http_parse_chunked (set_buf_last mid b) ctx in
  let b1 := set_buf_last (buf_last b) b1 in
  if rc =? NTG_AGAIN
  then same_chunked (ntg_http_parse_chunked b1 ctx1) (ntg_http_parse_chunked b ctx)
  else same_chunked (rc, b1, ctx1) (ntg_http_parse_chunked b ctx).
Proof.
  intros Hwf Hmid Hc. destruct (buf_resume b mid Hwf Hmid) as (Hsp & Hl1 & Hl2 & Hbm).
  pose proof Hc as (s & Hs & _). pose proof (start_state_inv ctx s Hs Hc) as Hi.
  unfold ntg_http_parse_chunked. rewrite Hs. fold (start_state s (chunk_size ctx)).
  change (buf_pos (set_buf_last mid b)) with (buf_pos b). rewrite Hsp, scan_app.
  pose proof (chunked_scan_inv (buf_data (set_buf_last mid b)) (buf_pos b) _ _ Hi) as Hsc.
  destruct (scan chunked_step (buf_pos b) (buf_data (set_buf_last mid b)) _)
    as [[s1 z1]|[p1 z1|p1 z1|z1]].
  - replace (buf_pos b + Z.of_nat (length (buf_data (set_buf_last mid b)))) with mid
      in * by lia.
    unfold chunked_data at 1. rewrite Z.gtb_ltb.
    destruct (Z.ltb_spec (NTG_MAX_OFF_T_VALUE - 5) z1) as [Hz|Hz].
    + change (NTG_ERROR =? NTG_AGAIN) with false. cbn iota.
      assert (s1 = sw_chunk_size) as ->.
      { destruct Hsc as (H1 & H2 & _). destruct (decide (s1 = sw_chunk_size)); [done|].
        specialize (H2 ltac:(done)). unfold NTG_MAX_OFF_T_VALUE in *. mlia. }
      destruct (buf_data (set_buf_pos mid b)) as [|c d2]; cbn [scan].
      { unfold chunked_data. rewrite Z.gtb_ltb, (proj2 (Z.ltb_lt _ _)) by done.
        cbn. split_and!; try done; intros; verdicts; done. }
      cbn [chunked_step]. rewrite Z.gtb_ltb, (proj2 (Z.ltb_lt _ _)).
      * cbn. split_and!; try done; intros; verdicts; done.
      * unfold NTG_MAX_OFF_T_VALUE in *. mlia.
    + cbn [Z.eqb NTG_AGAIN]. rewrite Hbm.
      cbn [chunk_state chunk_size set_chunk_state set_chunk_size set_chunk_length].
      rewrite chunked_sw_of_num. fold (start_state s1 z1). rewrite (start_state_id _ _ Hsc).
      change (buf_pos (set_buf_pos mid b)) with mid.
      destruct (scan chunked_step mid _ (s1, z1)) as [[s2 z2]|[p2 z2|p2 z2|z2]].
      * apply same_chunked_data, set_buf_pos_twice. rewrite length_app. lia.
      * by apply same_chunked_data.
      * cbn. split_and!; try done; intros; verdicts.
      * cbn. split_and!; try done; intros; verdicts.
  - unfold chunked_data. destruct (z1 >? _); destruct b; cbn;
      split_and!; try done; intros; verdicts; done.
  - cbn. destruct b. split_and!; try done; intros; verdicts; done.
  - cbn. destruct b. split_and!; try done; intros; verdicts; done.
Qed.

Lemma chunked_resumable_witness :
  let b := example_buf (str "3;x" ++ [CR; LF] ++ str "abc") in
  buf_wf b /\ ctx_inv (HttpChunked 0 0 0) /\
  let '(rc, b1, ctx1) :=
    ntg_http_parse_chunked (set_buf_last 1002 b) (HttpChunked 0 0 0) in
  rc = NTG_AGAIN /\
  same_chunked (ntg_http_parse_chunked (set_buf_last (buf_last b) b1) ctx1)
    (ntg_http_parse_chunked b (HttpChunked 0 0 0)).
Proof.
  assert (Hw : buf_wf (example_buf (str "3;x" ++ [CR; LF] ++ str "abc"))) by (vm_compute; intuition congruence).
  assert (Hc : ctx_inv (HttpChunked 0 0 0)).
  { exists sw_chunk_start. cbn [chunk_size chunk_state].
    split_and!; try done. by intros [? | ?]. }
  split; [done|]. split; [done|].
  pose proof (chunked_resumable (example_buf (str "3;x" ++ [CR; LF] ++ str "abc")) 1002
    (HttpChunked 0 0 0) Hw ltac:(vm_compute; intuition congruence) Hc) as H.
  split; [reflexivity|exact H].
Defined.

(** ** Well formed bodies *)

Definition hex_val (c : Z) : Z := match hex_digit c with Some d => d | None => 0 end.

Definition hex_value (ds : bytes) : Z := fold_left (fun v c => v * 16 + hex_val c) ds 0.

Definition is_hex (c : Z) : bool := match hex_digit c with Some _ => true | None => false end.

Definition chunk_eol (w : bytes) : Prop := w = [LF] \/ w = [CR; LF].

Definition no_eol (c : Z) : bool := negb ((c =? CR) || (c =? LF)).

(** A chunk extension, which the parser passes over. *)
Definition chunk_ext (w : bytes) : Prop :=
  w = [] \/ exists c t, w = c :: t /\ is_ext_start c = true /\ forallb no_eol t = true.

(** The size line of a chunk of [n] bytes. *)
Definition size_line (w : bytes) (n : Z) : Prop :=
  exists ds x e, w = ds ++ x ++ e /\ ds <> [] /\ forallb is_hex ds = true /\
    hex_value ds = n /\ chunk_ext x /\ chunk_eol e.

Lemma hex_value_mono ds v :
  forallb is_hex ds = true -> 0 <= v ->
  v <= fold_left (fun v c => v * 16 + hex_val c) ds v.
Proof.
  revert v. induction ds as [|c ds IH]; intros v Hd Hv; cbn [fold_left forallb] in *; [lia|].
  apply andb_true_iff in Hd as [Hc Hd]. unfold is_hex in Hc.
  destruct (hex_digit c) as [d|] eqn:E; [|done]. unfold hex_val at 2. rewrite E.
  apply hex_digit_range in E. specialize (IH (v * 16 + d) Hd). lia.
Qed.

(** Reading the rest of a size that stays small enough. *)
Lemma scan_size_digits ds p k v :
  forallb is_hex ds = true -> 0 <= v ->
  fold_left (fun v c => v * 16 + hex_val c) ds v <= NTG_MAX_OFF_T_VALUE / 16 ->
  scan chunked_step p (ds ++ k) (sw_chunk_size, v) =
  scan chunked_step (p + Z.of_nat (length ds)) k
    (sw_chunk_size, fold_left (fun v c => v * 16 + hex_val c) ds v).
Proof.
  revert p v. induction ds as [|c ds IH]; intros p v Hd Hv Hm; cbn [app length fold_left].
  { by rewrite Z.add_0_r. }
  cbn [forallb] in Hd. apply andb_true_iff in Hd as [Hc Hd]. cbn [fold_left] in Hm.
  unfold is_hex in Hc. destruct (hex_digit c) as [d|] eqn:E; [|done].
  pose proof (hex_digit_range _ _ E) as Hr.
  assert (hex_val c = d) as Ev by (unfold hex_val; by rewrite E). rewrite Ev in *.
  pose proof (hex_value_mono ds (v * 16 + d) Hd ltac:(lia)) as Hmono.
  assert (NTG_MAX_OFF_T_VALUE / 16 = 576460752303423487) as Em by done.
  cbn [scan chunked_step]. rewrite Z.gtb_ltb, (proj2 (Z.ltb_ge _ v)) by lia. rewrite E.
  rewrite s64_small by (width; lia). rewrite IH by (done || lia). f_equal. lia.
Qed.

(** From the end of a non-zero size to the data. *)
Lemma scan_size_end x e p k n :
  chunk_ext x -> chunk_eol e -> 0 < n <= NTG_MAX_OFF_T_VALUE / 16 ->
  scan chunked_step p (x ++ e ++ k) (sw_chunk_size, n) =
  scan chunked_step (p + Z.of_nat (length (x ++ e))) k (sw_chunk_data, n).
Proof.
  intros Hx He Hn.
  assert (Hext : forall t p, forallb no_eol t = true ->
    scan chunked_step p (t ++ e ++ k) (sw_chunk_extension, n) =
    scan chunked_step (p + Z.of_nat (length (t ++ e))) k (sw_chunk_data, n)).
  { induction t as [|c t IH]; intros q Ht; cbn [app length].
    - destruct He as [-> | ->]; cbn [app scan length];
        unfold chunked_step at 1; cbn -[scan Z.add Z.of_nat]; [f_equal; lia|].
      unfold chunked_step at 1. cbn -[scan Z.add Z.of_nat]. f_equal. lia.
    - cbn [forallb] in Ht. apply andb_true_iff in Ht as [Hc Ht].
      apply negb_true_iff, orb_false_iff in Hc as [H1 H2].
      cbn [scan chunked_step]. rewrite H1, H2, IH by done. f_equal. lia. }
  assert (Hns : (n >? NTG_MAX_OFF_T_VALUE / 16) = false) by (rewrite Z.gtb_ltb; apply Z.ltb_ge; lia).
  assert (Hn0 : (n =? 0) = false) by (apply Z.eqb_neq; lia).
  destruct Hx as [->|(c & t & -> & Hc & Ht)].
  - destruct He as [-> | ->]; cbn [app length scan chunked_step]; rewrite Hns, Hn0.
    + change (hex_digit LF) with (@None Z). change (LF =? CR) with false.
      change (LF =? LF) with true. cbn iota. f_equal.
    + change (hex_digit CR) with (@None Z). change (CR =? CR) with true. cbn iota.
      unfold chunked_step at 1. change (LF =? LF) with true. cbn iota. f_equal. lia.
  - cbn [app scan chunked_step length]. rewrite Hns, Hn0.
    assert (hex_digit c = None /\ (c =? CR) = false /\ (c =? LF) = false) as (-> & -> & ->).
    { unfold is_ext_start in Hc. rewrite !orb_true_iff, !Z.eqb_eq in Hc.
      destruct Hc as [[-> | ->] | ->]; done. }
    rewrite Hc. rewrite Hext by done. f_equal. lia.
Qed.

(** A size line leads from the start of a chunk to its data. *)
Lemma scan_size_line w n p k v :
  size_line w n -> 0 < n <= NTG_MAX_OFF_T_VALUE / 16 ->
  scan chunked_step p (w ++ k) (sw_chunk_start, v) =
  scan chunked_step (p + Z.of_nat (length w)) k (sw_chunk_data, n).
Proof.
  intros (ds & x & e & -> & Hne & Hd & Hv & Hx & He) Hn.
  destruct ds as [|c ds]; [done|]. cbn [forallb] in Hd. apply andb_true_iff in Hd as [Hc Hd].
  unfold is_hex in Hc. destruct (hex_digit c) as [d|] eqn:E; [|done].
  pose proof (hex_digit_range _ _ E) as Hr.
  unfold hex_value in Hv. cbn [fold_left] in Hv.
  replace (0 * 16 + hex_val c) with d in Hv by (unfold hex_val; by rewrite E).
  rewrite <-!app_assoc. cbn [app scan chunked_step]. rewrite E.
  rewrite scan_size_digits by (done || lia). rewrite Hv, scan_size_end by done.
  f_equal. len_lia.
Qed.

(** Evaluate the next step, from a known state on a known byte. *)
Ltac eval_step :=
  match goal with
  | |- context [chunked_step ?p ?c ?l] =>
      let v := eval vm_compute in (chunked_step p c l) in
      change (chunked_step p c l) with v; cbn iota beta
  end.

(** From the end of a zero size to the trailer. *)
Lemma scan_last_end x e p k :
  chunk_ext x -> chunk_eol e ->
  scan chunked_step p (x ++ e ++ k) (sw_chunk_size, 0) =
  scan chunked_step (p + Z.of_nat (length (x ++ e))) k (sw_trailer, 0).
Proof.
  intros Hx He.
  assert (Hext : forall t p, forallb no_eol t = true ->
    scan chunked_step p (t ++ e ++ k) (sw_last_chunk_extension, 0) =
    scan chunked_step (p + Z.of_nat (length (t ++ e))) k (sw_trailer, 0)).
  { induction t as [|c t IH]; intros q Ht; cbn [app length].
    - destruct He as [-> | ->]; cbn [app scan length];
        unfold chunked_step at 1; cbn -[scan Z.add Z.of_nat]; [f_equal; lia|].
      unfold chunked_step at 1. cbn -[scan Z.add Z.of_nat]. f_equal. lia.
    - cbn [forallb] in Ht. apply andb_true_iff in Ht as [Hc Ht].
      apply negb_true_iff, orb_false_iff in Hc as [H1 H2].
      cbn [scan chunked_step]. rewrite H1, H2, IH by done. f_equal. lia. }
  destruct Hx as [->|(c & t & -> & Hc & Ht)].
  - destruct He as [-> | ->]; cbn [app length scan];
      unfold chunked_step at 1; cbn -[scan Z.add Z.of_nat]; [f_equal|].
    unfold chunked_step at 1. cbn -[scan Z.add Z.of_nat]. f_equal. lia.
  - unfold is_ext_start in Hc. rewrite !orb_true_iff, !Z.eqb_eq in Hc.
    destruct Hc as [[-> | ->] | ->]; cbn [app scan length]; eval_step;
      rewrite Hext by done; f_equal; lia.
Qed.

Lemma scan_last_line w p k v :
  size_line w 0 ->
  scan chunked_step p (w ++ k) (sw_chunk_start, v) =
  scan chunked_step (p + Z.of_nat (length w)) k (sw_trailer, 0).
Proof.
  intros (ds & x & e & -> & Hne & Hd & Hv & Hx & He).
  destruct ds as [|c ds]; [done|]. cbn [forallb] in Hd. apply andb_true_iff in Hd as [Hc Hd].
  unfold is_hex in Hc. destruct (hex_digit c) as [d|] eqn:E; [|done].
  pose proof (hex_digit_range _ _ E) as Hr.
  unfold hex_value in Hv. cbn [fold_left] in Hv.
  replace (0 * 16 + hex_val c) with d in Hv by (unfold hex_val; by rewrite E).
  assert (NTG_MAX_OFF_T_VALUE / 16 = 576460752303423487) as Em by done.
  rewrite <-!app_assoc. cbn [app scan chunked_step]. rewrite E.
  rewrite scan_size_digits by (done || lia). rewrite Hv, scan_last_end by done.
  f_equal. len_lia.
Qed.

(** A trailer: header lines, which the parser passes over, and an empty line. *)
Inductive chunk_trailer : bytes -> Prop :=
  | trailer_end e : chunk_eol e -> chunk_trailer e
  | trailer_line c t e w :
      no_eol c = true -> forallb no_eol t = true -> chunk_eol e -> chunk_trailer w ->
      chunk_trailer (c :: t ++ e ++ w).

Lemma scan_trailer w p k :
  chunk_trailer w ->
  scan chunked_step p (w ++ k) (sw_trailer, 0) =
  inr (ChunkDone (p + Z.of_nat (length w) - 1) 0).
Proof.
  intros Hw. revert p. induction Hw as [e He|c t e w Hc Ht He Hw IH]; intros p.
  - destruct He as [-> | ->]; cbn [app scan length];
      unfold chunked_step at 1; cbn -[scan Z.add Z.of_nat]; [do 2 f_equal; lia|].
    do 2 f_equal. lia.
  - assert (Hl : forall t p, forallb no_eol t = true ->
      scan chunked_step p (t ++ e ++ w ++ k) (sw_trailer_header, 0) =
      scan chunked_step (p + Z.of_nat (length (t ++ e))) (w ++ k) (sw_trailer, 0)).
    { clear Ht t. induction t as [|c' t IHt]; intros q Ht; cbn [app length].
      - destruct He as [-> | ->]; cbn [app scan length];
          unfold chunked_step at 1; cbn -[scan Z.add Z.of_nat]; [f_equal; lia|].
        unfold chunked_step at 1. cbn -[scan Z.add Z.of_nat]. f_equal. lia.
      - cbn [forallb] in Ht. apply andb_true_iff in Ht as [Hc' Ht].
        apply negb_true_iff, orb_false_iff in Hc' as [H1 H2].
        cbn [scan chunked_step]. rewrite H1, H2, IHt by done. f_equal. lia. }
    apply negb_true_iff, orb_false_iff in Hc as [H1 H2].
    cbn [app scan chunked_step]. rewrite H1, H2. rewrite <-!app_assoc, Hl by done.
    rewrite IH. do 2 f_equal. len_lia.
Qed.

(** A chunked body carrying the given payload (RFC 7230, 4.1, with the bare
    line feeds that the parser also takes). *)
Inductive chunked_body : bytes -> bytes -> Prop :=
  | body_last w t : size_line w 0 -> chunk_trailer t -> chunked_body (w ++ t) []
  | body_chunk w data e rest payload :
      size_line w (Z.of_nat (length data)) -> data <> [] ->
      Z.of_nat (length data) <= NTG_MAX_OFF_T_VALUE / 16 ->
      chunk_eol e -> chunked_body rest payload ->
      chunked_body (w ++ data ++ e ++ rest) (data ++ payload).

Lemma chunked_body_nonempty w pl : chunked_body w pl -> w <> [].
Proof.
  intros H. assert (Hs : forall w n, size_line w n -> w <> []).
  { intros ? ? (ds & x & e & -> & Hd & _). by destruct ds. }
  destruct H as [w t Hw|w data e rest pl Hw]; apply Hs in Hw; by destruct w.
Qed.

(** The states a call may start in before a size line: the start of a chunk,
    or the data of a chunk that has been consumed, and the separator then. *)
Definition chunk_front (s : chunked_sw) (w : bytes) : Prop :=
  (s = sw_chunk_start /\ w = []) \/ (s = sw_chunk_data /\ chunk_eol w).

Lemma scan_front s w p k :
  chunk_front s w ->
  scan chunked_step p (w ++ k) (start_state s 0, 0) =
  scan chunked_step (p + Z.of_nat (length w)) k (sw_chunk_start, 0).
Proof.
  intros [[-> ->] | [-> [-> | ->]]]; unfold start_state; cbn [bool_decide].
  - cbn. f_equal. lia.
  - cbn -[scan Z.add Z.of_nat]. cbn [scan]. unfold chunked_step at 1.
    cbn -[scan Z.add Z.of_nat]. f_equal.
  - cbn -[scan Z.add Z.of_nat]. cbn [scan]. unfold chunked_step at 1.
    cbn -[scan Z.add Z.of_nat]. cbn [scan]. unfold chunked_step at 1.
    cbn -[scan Z.add Z.of_nat]. f_equal. lia.
Qed.

(** One call stops at the data of the next chunk. *)
Lemma parse_next_chunk b ctx s w0 w n k :
  chunked_sw_of (chunk_state ctx) = Some s -> chunk_size ctx = 0 -> chunk_front s w0 ->
  size_line w n -> 0 < n <= NTG_MAX_OFF_T_VALUE / 16 -> k <> [] ->
  buf_data b = w0 ++ w ++ k ->
  ntg_http_parse_chunked b ctx =
  (NTG_OK, set_buf_pos (buf_pos b + Z.of_nat (length (w0 ++ w))) b,
   HttpChunked (chunked_sw_num sw_chunk_data) n (n + 4)).
Proof.
  intros Hs Hz Hf Hw Hn Hk Hd.
  assert (NTG_MAX_OFF_T_VALUE / 16 = 576460752303423487) as Em by done.
  unfold ntg_http_parse_chunked. rewrite Hs, Hz. fold (start_state s 0).
  rewrite Hd, (scan_front _ _ _ _ Hf), (scan_size_line _ _ _ _ _ Hw Hn).
  destruct k as [|c k]; [done|]. cbn [scan chunked_step]. unfold chunked_data.
  rewrite Z.gtb_ltb, (proj2 (Z.ltb_ge _ n)) by (unfold NTG_MAX_OFF_T_VALUE in *; lia).
  f_equal; [f_equal; f_equal; len_lia|].
  unfold set_chunk_length, set_chunk_state, set_chunk_size. cbn [chunk_state chunk_size chunk_length].
  f_equal. cbn [chunked_length]. apply s64_small. width. lia.
Qed.

(** One call passes over the last chunk and the trailer. *)
Lemma parse_last_chunk b ctx s w0 w t k :
  chunked_sw_of (chunk_state ctx) = Some s -> chunk_size ctx = 0 -> chunk_front s w0 ->
  size_line w 0 -> chunk_trailer t -> buf_data b = w0 ++ w ++ t ++ k ->
  ntg_http_parse_chunked b ctx =
  (NTG_DONE, set_buf_pos (buf_pos b + Z.of_nat (length (w0 ++ w ++ t))) b,
   HttpChunked 0 0 (chunk_length ctx)).
Proof.
  intros Hs Hz Hf Hw Ht Hd. unfold ntg_http_parse_chunked. rewrite Hs, Hz.
  fold (start_state s 0).
  rewrite Hd, (scan_front _ _ _ _ Hf), (scan_last_line _ _ _ _ Hw), (scan_trailer _ _ _ Ht).
  f_equal. f_equal. f_equal. len_lia.
Qed.
