(* ===== verification/HttpRequest.v ===== *)
(** * Requests (src/http/ntg_http_request.h, ntg_http_request.c)

    The request object, the pool of free requests of a worker, the text of a
    request and the handlers of the response headers the client understands. *)

From S2P Require Import Prelude NtgString Sprintf HttpTypes.

(** ** The request object *)

Definition NTG_HTTP_OUT_BUFFER_SIZE : Z := 512.
Definition NTG_HTTP_IN_BUFFER_SIZE : Z := 2560.

(** [enum ntg_req_state_e]. *)
Inductive ntg_req_state :=
  | NTG_REQ_STATE_START | NTG_REQ_STATE_URLS | NTG_REQ_STATE_DNS_BEFFORE | NTG_REQ_STATE_DNS
  | NTG_REQ_STATE_BUILD | NTG_REQ_STATE_CONN | NTG_REQ_STATE_SEND_START | NTG_REQ_STATE_SEND
  | NTG_REQ_STATE_RECV_START | NTG_REQ_STATE_RECV | NTG_REQ_STATE_AGAIN | NTG_REQ_STATE_NEXT
  | NTG_REQ_STATE_DONE.

(** The values of the handler pointers [process_header] and
    [read_event_handler]. *)
Inductive header_fn := PROCESS_NULL | PROCESS_STATUS_LINE | PROCESS_HEADER.
Inductive read_fn := READ_NULL | READ_HEADER | READ_DISCARD.

(** [ntg_http_headers_in_t]; the element pointers are never set. *)
Record ntg_http_headers_in := HeadersIn {
  status_n : Z;
  status_line : bytes;
  content_length_n : Z;
  connection_close : bool;
  chunked : bool }.

Definition set_status_n (v : Z) (r : ntg_http_headers_in) : ntg_http_headers_in :=
  HeadersIn v (status_line r) (content_length_n r) (connection_close r) (chunked r).
Definition set_status_line (v : bytes) (r : ntg_http_headers_in) : ntg_http_headers_in :=
  HeadersIn (status_n r) v (content_length_n r) (connection_close r) (chunked r).
Definition set_content_length_n (v : Z) (r : ntg_http_headers_in) : ntg_http_headers_in :=
  HeadersIn (status_n r) (status_line r) v (connection_close r) (chunked r).
Definition set_connection_close (v : bool) (r : ntg_http_headers_in) : ntg_http_headers_in :=
  HeadersIn (status_n r) (status_line r) (content_length_n r) v (chunked r).
Definition set_chunked (v : bool) (r : ntg_http_headers_in) : ntg_http_headers_in :=
  HeadersIn (status_n r) (status_line r) (content_length_n r) (connection_close r) v.

(** The fields of [struct ntg_http_request_s] and of its [upstream_state] the
    code below works on; [rq_data] is the [data] pointer, which links the free
    requests, by the number of a request. *)
Record ntg_http_request := HttpRequest {
  rq_data : option Z;
  csm_id : Z;
  gp_id : Z;
  user_id : Z;
  url_id : Z;
  req_state : ntg_req_state;
  out_buffer : ntg_buf;
  out_size : Z;
  in_buffer : ntg_buf;
  in_size : Z;
  rq_length : Z;
  rq_status : ntg_http_status;
  rq_chunked : ntg_http_chunked;
  up_status : Z;
  response_length : Z;
  headers_in : ntg_http_headers_in;
  read_event_handler : read_fn;
  process_header : header_fn;
  rq_parse : hparse;
  rq_http_version : Z;
  keepalive : bool;
  identical : bool;
  hostname : bytes;
  url_n : Z;
  index : Z }.

Definition set_rq_data (v : option Z) (r : ntg_http_request) : ntg_http_request :=
  HttpRequest v (csm_id r) (gp_id r) (user_id r) (url_id r) (req_state r) (out_buffer r)
    (out_size r) (in_buffer r) (in_size r) (rq_length r) (rq_status r) (rq_chunked r)
    (up_status r) (response_length r) (headers_in r) (read_event_handler r)
    (process_header r) (rq_parse r) (rq_http_version r) (keepalive r) (identical r)
    (hostname r) (url_n r) (index r).
Definition set_csm_id (v : Z) (r : ntg_http_request) : ntg_http_request :=
  HttpRequest (rq_data r) v (gp_id r) (user_id r) (url_id r) (req_state r) (out_buffer r)
    (out_size r) (in_buffer r) (in_size r) (rq_length r) (rq_status r) (rq_chunked r)
    (up_status r) (response_length r) (headers_in r) (read_event_handler r)
    (process_header r) (rq_parse r) (rq_http_version r) (keepalive r) (identical r)
    (hostname r) (url_n r) (index r).
Definition set_gp_id (v : Z) (r : ntg_http_request) : ntg_http_request :=
  HttpRequest (rq_data r) (csm_id r) v (user_id r) (url_id r) (req_state r) (out_buffer r)
    (out_size r) (in_buffer r) (in_size r) (rq_length r) (rq_status r) (rq_chunked r)
    (up_status r) (response_length r) (headers_in r) (read_event_handler r)
    (process_header r) (rq_parse r) (rq_http_version r) (keepalive r) (identical r)
    (hostname r) (url_n r) (index r).
Definition set_user_id (v : Z) (r : ntg_http_request) : ntg_http_request :=
  HttpRequest (rq_data r) (csm_id r) (gp_id r) v (url_id r) (req_state r) (out_buffer r)
    (out_size r) (in_buffer r) (in_size r) (rq_length r) (rq_status r) (rq_chunked r)
    (up_status r) (response_length r) (headers_in r) (read_event_handler r)
    (process_header r) (rq_parse r) (rq_http_version r) (keepalive r) (identical r)
    (hostname r) (url_n r) (index r).
Definition set_url_id (v : Z) (r : ntg_http_request) : ntg_http_request :=
  HttpRequest (rq_data r) (csm_id r) (gp_id r) (user_id r) v (req_state r) (out_buffer r)
    (out_size r) (in_buffer r) (in_size r) (rq_length r) (rq_status r) (rq_chunked r)
    (up_status r) (response_length r) (headers_in r) (read_event_handler r)
    (process_header r) (rq_parse r) (rq_http_version r) (keepalive r) (identical r)
    (hostname r) (url_n r) (index r).
Definition set_req_state (v : ntg_req_state) (r : ntg_http_request) : ntg_http_request :=
  HttpRequest (rq_data r) (csm_id r) (gp_id r) (user_id r) (url_id r) v (out_buffer r)
    (out_size r) (in_buffer r) (in_size r) (rq_length r) (rq_status r) (rq_chunked r)
    (up_status r) (response_length r) (headers_in r) (read_event_handler r)
    (process_header r) (rq_parse r) (rq_http_version r) (keepalive r) (identical r)
    (hostname r) (url_n r) (index r).
Definition set_out_buffer (v : ntg_buf) (r : ntg_http_request) : ntg_http_request :=
  HttpRequest (rq_data r) (csm_id r) (gp_id r) (user_id r) (url_id r) (req_state r) v
    (out_size r) (in_buffer r) (in_size r) (rq_length r) (rq_status r) (rq_chunked r)
    (up_status r) (response_length r) (headers_in r) (read_event_handler r)
    (process_header r) (rq_parse r) (rq_http_version r) (keepalive r) (identical r)
    (hostname r) (url_n r) (index r).
Definition set_out_size (v : Z) (r : ntg_http_request) : ntg_http_request :=
  HttpRequest (rq_data r) (csm_id r) (gp_id r) (user_id r) (url_id r) (req_state r)
    (out_buffer r) v (in_buffer r) (in_size r) (rq_length r) (rq_status r) (rq_chunked r)
    (up_status r) (response_length r) (headers_in r) (read_event_handler r)
    (process_header r) (rq_parse r) (rq_http_version r) (keepalive r) (identical r)
    (hostname r) (url_n r) (index r).
Definition set_in_buffer (v : ntg_buf) (r : ntg_http_request) : ntg_http_request :=
  HttpRequest (rq_data r) (csm_id r) (gp_id r) (user_id r) (url_id r) (req_state r)
    (out_buffer r) (out_size r) v (in_size r) (rq_length r) (rq_status r) (rq_chunked r)
    (up_status r) (response_length r) (headers_in r) (read_event_handler r)
    (process_header r) (rq_parse r) (rq_http_version r) (keepalive r) (identical r)
    (hostname r) (url_n r) (index r).
Definition set_in_size (v : Z) (r : ntg_http_request) : ntg_http_request :=
  HttpRequest (rq_data r) (csm_id r) (gp_id r) (user_id r) (url_id r) (req_state r)
    (out_buffer r) (out_size r) (in_buffer r) v (rq_length r) (rq_status r) (rq_chunked r)
    (up_status r) (response_length r) (headers_in r) (read_event_handler r)
    (process_header r) (rq_parse r) (rq_http_version r) (keepalive r) (identical r)
    (hostname r) (url_n r) (index r).
Definition set_rq_length (v : Z) (r : ntg_http_request) : ntg_http_request :=
  HttpRequest (rq_data r) (csm_id r) (gp_id r) (user_id r) (url_id r) (req_state r)
    (out_buffer r) (out_size r) (in_buffer r) (in_size r) v (rq_status r) (rq_chunked r)
    (up_status r) (response_length r) (headers_in r) (read_event_handler r)
    (process_header r) (rq_parse r) (rq_http_version r) (keepalive r) (identical r)
    (hostname r) (url_n r) (index r).
Definition set_rq_status (v : ntg_http_status) (r : ntg_http_request) : ntg_http_request :=
  HttpRequest (rq_data r) (csm_id r) (gp_id r) (user_id r) (url_id r) (req_state r)
    (out_buffer r) (out_size r) (in_buffer r) (in_size r) (rq_length r) v (rq_chunked r)
    (up_status r) (response_length r) (headers_in r) (read_event_handler r)
    (process_header r) (rq_parse r) (rq_http_version r) (keepalive r) (identical r)
    (hostname r) (url_n r) (index r).
Definition set_rq_chunked (v : ntg_http_chunked) (r : ntg_http_request) : ntg_http_request :=
  HttpRequest (rq_data r) (csm_id r) (gp_id r) (user_id r) (url_id r) (req_state r)
    (out_buffer r) (out_size r) (in_buffer r) (in_size r) (rq_length r) (rq_status r) v
    (up_status r) (response_length r) (headers_in r) (read_event_handler r)
    (process_header r) (rq_parse r) (rq_http_version r) (keepalive r) (identical r)
    (hostname r) (url_n r) (index r).
Definition set_up_status (v : Z) (r : ntg_http_request) : ntg_http_request :=
  HttpRequest (rq_data r) (csm_id r) (gp_id r) (user_id r) (url_id r) (req_state r)
    (out_buffer r) (out_size r) (in_buffer r) (in_size r) (rq_length r) (rq_status r)
    (rq_chunked r) v (response_length r) (headers_in r) (read_event_handler r)
    (process_header r) (rq_parse r) (rq_http_version r) (keepalive r) (identical r)
    (hostname r) (url_n r) (index r).
Definition set_response_length (v : Z) (r : ntg_http_request) : ntg_http_request :=
  HttpRequest (rq_data r) (csm_id r) (gp_id r) (user_id r) (url_id r) (req_state r)
    (out_buffer r) (out_size r) (in_buffer r) (in_size r) (rq_length r) (rq_status r)
    (rq_chunked r) (up_status r) v (headers_in r) (read_event_handler r) (process_header
    r) (rq_parse r) (rq_http_version r) (keepalive r) (identical r) (hostname r) (url_n r)
    (index r).
Definition set_headers_in (v : ntg_http_headers_in) (r : ntg_http_request) : ntg_http_request :=
  HttpRequest (rq_data r) (csm_id r) (gp_id r) (user_id r) (url_id r) (req_state r)
    (out_buffer r) (out_size r) (in_buffer r) (in_size r) (rq_length r) (rq_status r)
    (rq_chunked r) (up_status r) (response_length r) v (read_event_handler r)
    (process_header r) (rq_parse r) (rq_http_version r) (keepalive r) (identical r)
    (hostname r) (url_n r) (index r).
Definition set_read_event_handler (v : read_fn) (r : ntg_http_request) : ntg_http_request :=
  HttpRequest (rq_data r) (csm_id r) (gp_id r) (user_id r) (url_id r) (req_state r)
    (out_buffer r) (out_size r) (in_buffer r) (in_size r) (rq_length r) (rq_status r)
    (rq_chunked r) (up_status r) (response_length r) (headers_in r) v (process_header r)
    (rq_parse r) (rq_http_version r) (keepalive r) (identical r) (hostname r) (url_n r)
    (index r).
Definition set_process_header (v : header_fn) (r : ntg_http_request) : ntg_http_request :=
  HttpRequest (rq_data r) (csm_id r) (gp_id r) (user_id r) (url_id r) (req_state r)
    (out_buffer r) (out_size r) (in_buffer r) (in_size r) (rq_length r) (rq_status r)
    (rq_chunked r) (up_status r) (response_length r) (headers_in r) (read_event_handler r)
    v (rq_parse r) (rq_http_version r) (keepalive r) (identical r) (hostname r) (url_n r)
    (index r).
Definition set_rq_parse (v : hparse) (r : ntg_http_request) : ntg_http_request :=
  HttpRequest (rq_data r) (csm_id r) (gp_id r) (user_id r) (url_id r) (req_state r)
    (out_buffer r) (out_size r) (in_buffer r) (in_size r) (rq_length r) (rq_status r)
    (rq_chunked r) (up_status r) (response_length r) (headers_in r) (read_event_handler r)
    (process_header r) v (rq_http_version r) (keepalive r) (identical r) (hostname r)
    (url_n r) (index r).
Definition set_rq_http_version (v : Z) (r : ntg_http_request) : ntg_http_request :=
  HttpRequest (rq_data r) (csm_id r) (gp_id r) (user_id r) (url_id r) (req_state r)
    (out_buffer r) (out_size r) (in_buffer r) (in_size r) (rq_length r) (rq_status r)
    (rq_chunked r) (up_status r) (response_length r) (headers_in r) (read_event_handler r)
    (process_header r) (rq_parse r) v (keepalive r) (identical r) (hostname r) (url_n r)
    (index r).
Definition set_keepalive (v : bool) (r : ntg_http_request) : ntg_http_request :=
  HttpRequest (rq_data r) (csm_id r) (gp_id r) (user_id r) (url_id r) (req_state r)
    (out_buffer r) (out_size r) (in_buffer r) (in_size r) (rq_length r) (rq_status r)
    (rq_chunked r) (up_status r) (response_length r) (headers_in r) (read_event_handler r)
    (process_header r) (rq_parse r) (rq_http_version r) v (identical r) (hostname r)
    (url_n r) (index r).
Definition set_identical (v : bool) (r : ntg_http_request) : ntg_http_request :=
  HttpRequest (rq_data r) (csm_id r) (gp_id r) (user_id r) (url_id r) (req_state r)
    (out_buffer r) (out_size r) (in_buffer r) (in_size r) (rq_length r) (rq_status r)
    (rq_chunked r) (up_status r) (response_length r) (headers_in r) (read_event_handler r)
    (process_header r) (rq_parse r) (rq_http_version r) (keepalive r) v (hostname r)
    (url_n r) (index r).
Definition set_hostname (v : bytes) (r : ntg_http_request) : ntg_http_request :=
  HttpRequest (rq_data r) (csm_id r) (gp_id r) (user_id r) (url_id r) (req_state r)
    (out_buffer r) (out_size r) (in_buffer r) (in_size r) (rq_length r) (rq_status r)
    (rq_chunked r) (up_status r) (response_length r) (headers_in r) (read_event_handler r)
    (process_header r) (rq_parse r) (rq_http_version r) (keepalive r) (identical r) v
    (url_n r) (index r).
Definition set_url_n (v : Z) (r : ntg_http_request) : ntg_http_request :=
  HttpRequest (rq_data r) (csm_id r) (gp_id r) (user_id r) (url_id r) (req_state r)
    (out_buffer r) (out_size r) (in_buffer r) (in_size r) (rq_length r) (rq_status r)
    (rq_chunked r) (up_status r) (response_length r) (headers_in r) (read_event_handler r)
    (process_header r) (rq_parse r) (rq_http_version r) (keepalive r) (identical r)
    (hostname r) v (index r).
Definition set_index (v : Z) (r : ntg_http_request) : ntg_http_request :=
  HttpRequest (rq_data r) (csm_id r) (gp_id r) (user_id r) (url_id r) (req_state r)
    (out_buffer r) (out_size r) (in_buffer r) (in_size r) (rq_length r) (rq_status r)
    (rq_chunked r) (up_status r) (response_length r) (headers_in r) (read_event_handler r)
    (process_header r) (rq_parse r) (rq_http_version r) (keepalive r) (identical r)
    (hostname r) (url_n r) v.

Definition status_zero : ntg_http_status := HttpStatus 0 0 0 None None.
Definition chunked_zero : ntg_http_chunked := HttpChunked 0 0 0.
Definition headers_in_zero : ntg_http_headers_in := HeadersIn 0 [] 0 false false.
Definition buf_zero : ntg_buf := Buf 0 0 0 0 [].
Definition hparse_zero : hparse := HParse 0 0 0 (repeat 0 32) 0 0 0 0 false 0 0.

(** [ntg_memzero(rq, sizeof(ntg_http_request_t))]. *)
Definition request_zero : ntg_http_request :=
  HttpRequest None 0 0 0 0 NTG_REQ_STATE_START buf_zero 0 buf_zero 0 0 status_zero chunked_zero
    0 0 headers_in_zero READ_NULL PROCESS_NULL hparse_zero 0 false false (repeat 0 128) 0 0.

(** ** The pool of requests *)

(** The part of [ntg_cycle_t] that holds the requests, found by their number. *)
Record ntg_cycle := Cycle {
  free_reqs : option Z;
  free_req_n : Z;
  request_n : Z;
  requests : gmap Z ntg_http_request }.

Definition set_free_reqs (v : option Z) (r : ntg_cycle) : ntg_cycle :=
  Cycle v (free_req_n r) (request_n r) (requests r).
Definition set_free_req_n (v : Z) (r : ntg_cycle) : ntg_cycle :=
  Cycle (free_reqs r) v (request_n r) (requests r).
Definition set_request_n (v : Z) (r : ntg_cycle) : ntg_cycle :=
  Cycle (free_reqs r) (free_req_n r) v (requests r).
Definition set_requests (v : gmap Z ntg_http_request) (r : ntg_cycle) : ntg_cycle :=
  Cycle (free_reqs r) (free_req_n r) (request_n r) v.

Definition set_request (i : Z) (r : ntg_http_request) (cycle : ntg_cycle) : ntg_cycle :=
  set_requests (<[i := r]> (requests cycle)) cycle.

(** [ntg_http_get_request]: [allocated] tells whether the creation of the pool
    of the request and of its upstream state succeed.  The outer [None] is a
    dereference of a request that does not exist. *)
Definition ntg_http_get_request (allocated : bool) (cycle : ntg_cycle)
  : option (option Z * ntg_cycle) :=
  match free_reqs cycle with
  | None => Some (None, cycle)
  | Some i =>
      if negb allocated then Some (None, cycle)
      else
        rq ← requests cycle !! i;
        let cycle := set_free_reqs (rq_data rq) cycle in
        let cycle := set_free_req_n (u64 (free_req_n cycle - 1)) cycle in
        let rq := request_zero |> set_out_size NTG_HTTP_OUT_BUFFER_SIZE
                               |> set_in_size NTG_HTTP_IN_BUFFER_SIZE in
        Some (Some i, set_request i rq cycle)
  end.

(** [ntg_http_reuse_request]. *)
Definition ntg_http_reuse_request (rq : ntg_http_request) : ntg_http_request :=
  rq |> set_req_state NTG_REQ_STATE_START
     |> set_rq_length 0
     |> set_rq_status status_zero
     |> set_rq_chunked chunked_zero
     |> set_headers_in headers_in_zero
     |> set_up_status 0
     |> set_response_length 0
     |> set_read_event_handler READ_NULL
     |> set_process_header PROCESS_NULL
     |> set_identical false
     |> set_rq_parse (set_invalid_header false (rq_parse rq)).

(** [ntg_http_free_request]: the request goes back to the head of the free
    list; the resources it releases belong to other libraries. *)
Definition ntg_http_free_request (i : Z) (cycle : ntg_cycle) : option ntg_cycle :=
  rq ← requests cycle !! i;
  let rq := set_rq_data (free_reqs cycle) rq in
  Some (set_request i rq cycle |> set_free_reqs (Some i)
                               |> set_free_req_n (u64 (free_req_n cycle + 1))).

(** ** The text of a request *)

Definition CRLF : bytes := [CR; LF].

Definition build_headers : bytes :=
  str "User-Agent: Mozilla/5.0" ++ CRLF ++
  str "Accept: text/html,application/xhtml+xml,application/xml;q=0.9,*/*;q=0.8" ++ CRLF ++
  str "Accept_Charset: en-us,en;q=0.5" ++ CRLF ++
  str "Accept_Encoding: gzip,deflate" ++ CRLF ++
  str "Accept_Charset: ISO-8859-1,utf-8;q=0.7,*;q=0.7" ++ CRLF ++
  str "Connection: keep alive" ++ CRLF ++ CRLF.

(** [s == NULL || strlen(s) == 0], on a pointer from the URI library. *)
Definition is_empty (s : option bytes) : option bool :=
  match s with
  | None => Some true
  | Some s => (fun n => (n =? 0)%nat) <$> strlen s
  end.

(** The length of the target, as the code computes it. *)
Definition target_len (path query : option bytes) : option Z :=
  is_empty path ≫= fun no_path : bool =>
  if no_path then Some 1
  else
    is_empty query ≫= fun no_query : bool =>
    plen ← strlen (default [] path);
    if no_query then Some (Z.of_nat plen)
    else
      qlen ← strlen (default [] query);
      Some (Z.of_nat plen + 1 + Z.of_nat qlen).

(** The request line, written at [p]. *)
Definition request_line (p : Z) (path query : option bytes) : option bytes :=
  is_empty path ≫= fun no_path : bool =>
  if no_path then
    ntg_sprintf p (str "GET %s HTTP/1.1" ++ CRLF ++ [0]) [ACstr (str "/" ++ [0])]
  else
    is_empty query ≫= fun no_query : bool =>
    if no_query then
      ntg_sprintf p (str "GET %s HTTP/1.1" ++ CRLF ++ [0]) [ACstr (default [] path)]
    else
      ntg_sprintf p (str "GET %s?%s HTTP/1.1" ++ CRLF ++ [0])
        [ACstr (default [] path); ACstr (default [] query)].

(** [ntg_http_build_request]: [path] and [query] are what the URI library
    returns for the request, [palloc] the block the pool returns if asked.  The
    writes are not checked against the buffer, and the model keeps all the
    bytes written. *)
Definition ntg_http_build_request (palloc : option Z) (path query : option bytes)
    (rq : ntg_http_request) : option (Z * ntg_http_request) :=
  let start :=
    if buf_start (out_buffer rq) =? 0 then palloc else Some (buf_start (out_buffer rq)) in
  match start with
  | None => Some (NTG_ERROR, rq)
  | Some start =>
      let out := Buf start start start (start + out_size rq) [] in
      let rq := set_out_buffer out rq in
      len ← target_len path query;
      host_len ← strlen (hostname rq);
      let len :=
        u64 (3 + len + 16 + Z.of_nat host_len + 2 + Z.of_nat (length build_headers)) in
      if len >? out_size rq then Some (NTG_ERROR, rq)
      else
        line ← request_line start path query;
        let p := start + Z.of_nat (length line) in
        host ← ntg_sprintf p (str "Host: %s" ++ CRLF ++ [0]) [ACstr (hostname rq)];
        let p := p + Z.of_nat (length host) in
        rest ← ntg_sprintf p (str "%s" ++ [0]) [ACstr (build_headers ++ [0])];
        let p := p + Z.of_nat (length rest) in
        Some (NTG_OK,
              set_out_buffer (out |> set_buf_last p |> set_buf_mem (line ++ host ++ rest)) rq)
  end.

(** ** Handlers of the response headers *)

(** A header as the parser reports it: the memory of the buffer from the value
    on, and the length of the value. *)
Record ntg_table_elt := TableElt { h_value : bytes; h_value_len : Z }.

Definition ntg_http_process_content_length (h : ntg_table_elt) (r : ntg_http_request)
  : option ntg_http_request :=
  n ← ntg_atoof (h_value h) (Z.to_nat (h_value_len h));
  Some (set_headers_in (set_content_length_n n (headers_in r)) r).

Definition ntg_http_process_connection (h : ntg_table_elt) (r : ntg_http_request)
  : option ntg_http_request :=
  found ← ntg_strlcasestrn (h_value h) (h_value_len h) (str "close" ++ [0]) 4;
  Some (match found with
        | Some _ => set_headers_in (set_connection_close true (headers_in r)) r
        | None => r
        end).

Definition ntg_http_process_transfer_encoding (h : ntg_table_elt) (r : ntg_http_request)
  : option ntg_http_request :=
  found ← ntg_strlcasestrn (h_value h) (h_value_len h) (str "chunked" ++ [0]) 6;
  Some (match found with
        | Some _ => set_headers_in (set_chunked true (headers_in r)) r
        | None => r
        end).

(** [ntg_http_headers_in], up to the null entry. *)
Definition ntg_http_headers_in_table
  : list (bytes * (ntg_table_elt -> ntg_http_request -> option ntg_http_request)) :=
  [(str "content-length", ntg_http_process_content_length);
   (str "Connection", ntg_http_process_connection);
   (str "Transfer-Encoding", ntg_http_process_transfer_encoding)].

(** ** The pool hands each request to one user at a time *)

(** The requests linked from [p] by their [data] pointers. *)
Fixpoint free_chain (m : gmap Z ntg_http_request) (p : option Z) (l : list Z) : Prop :=
  match l with
  | [] => p = None
  | i :: l => p = Some i /\ exists rq, m !! i = Some rq /\ free_chain m (rq_data rq) l
  end.

(** The free requests of the cycle are [l], and their count is right. *)
Definition free_pool (cycle : ntg_cycle) (l : list Z) : Prop :=
  free_chain (requests cycle) (free_reqs cycle) l /\ NoDup l /\
  free_req_n cycle = Z.of_nat (length l) /\ is_u64 (Z.of_nat (length l) + 1).

Lemma free_chain_insert m p l i rq :
  i ∉ l -> free_chain m p l -> free_chain (<[i := rq]> m) p l.
Proof.
  revert p. induction l as [|j l IH]; intros p Hi; cbn [free_chain]; [done|].
  intros (-> & rq' & Hj & Hl). split; [done|]. exists rq'.
  rewrite lookup_insert_ne by set_solver. split; [done|]. apply IH; [set_solver|done].
Qed.

(** The pool of requests of a worker: a request is handed out exactly when
    one is free and its memory could be allocated, zeroed but for the buffer
    sizes, and leaves the list of free requests; a released request becomes
    the next to be handed out; the count of free requests stays exact and the
    other requests are not touched. *)
Theorem ntg_http_request_pool cycle l :
  free_pool cycle l ->
  ntg_http_get_request false cycle = Some (None, cycle) /\
  (l = [] -> ntg_http_get_request true cycle = Some (None, cycle)) /\
  (forall i l', l = i :: l' -> exists cycle' rq,
     ntg_http_get_request true cycle = Some (Some i, cycle') /\
     free_pool cycle' l' /\ requests cycle' = <[i := rq]> (requests cycle) /\
     rq_parse rq = hparse_zero /\ req_state rq = NTG_REQ_STATE_START /\
     headers_in rq = headers_in_zero /\ out_size rq = NTG_HTTP_OUT_BUFFER_SIZE) /\
  (forall i rq, i ∉ l -> requests cycle !! i = Some rq -> is_u64 (Z.of_nat (length l) + 2) ->
     exists cycle', ntg_http_free_request i cycle = Some cycle' /\ free_pool cycle' (i :: l) /\
       forall j, j <> i -> requests cycle' !! j = requests cycle !! j).
Proof.
  intros (Hc & Hnd & Hn & Hu). split_and!.
  - unfold ntg_http_get_request. by destruct (free_reqs cycle).
  - intros ->. cbn in Hc. unfold ntg_http_get_request. by rewrite Hc.
  - intros i l' ->. destruct Hc as (Hf & rq & Hi & Hc). unfold ntg_http_get_request.
    rewrite Hf. cbn [negb]. rewrite Hi. cbn [mbind option_bind].
    eexists _, _. split; [done|]. cbn -[hparse_zero]. split_and!; try done.
    apply NoDup_cons in Hnd as [Hni Hnd]. unfold free_pool. cbn [free_reqs free_req_n requests
      set_request set_requests set_free_reqs set_free_req_n]. split_and!.
    + by apply free_chain_insert.
    + done.
    + rewrite Hn. cbn [length] in *. rewrite u64_small; [lia|]. width. lia.
    + cbn [length] in Hu. width. lia.
  - intros i rq Hi Hrq Hu'. unfold ntg_http_free_request. rewrite Hrq. cbn [mbind option_bind].
    eexists. split; [done|].
    cbn [requests set_request set_requests set_free_reqs set_free_req_n].
    split; [|intros j Hj; by apply lookup_insert_ne].
    unfold free_pool. cbn [free_reqs free_req_n requests set_request set_requests set_free_reqs
      set_free_req_n free_chain length]. split_and!.
    + done.
    + eexists. rewrite lookup_insert_eq. split; [done|]. by apply free_chain_insert.
    + by apply NoDup_cons.
    + rewrite Hn, u64_small by done. lia.
    + width. lia.
Qed.

(** ** The text of a request *)

Lemma strlen_cstr s t : is_cstr s t -> strlen s = Some (length t).
Proof.
  intros [[r ->] Ht]. induction t as [|c t IH]; cbn; [done|].
  apply Forall_cons in Ht as [Hc Ht]. rewrite (proj2 (Z.eqb_neq c 0)) by lia. by rewrite IH.
Qed.

Lemma vslprintf_nul fuel room : (0 < fuel)%nat -> vslprintf_loop fuel room [0] [] = Some [].
Proof. destruct fuel; [lia|done]. Qed.

(** Formats with one or two strings. *)
Lemma sprintf_one p pre s t post :
  plain pre -> plain post -> is_cstr s t ->
  Z.of_nat (length (pre ++ t ++ post)) < 18446744073709551615 - p ->
  ntg_sprintf p (pre ++ str "%s" ++ post ++ [0]) [ACstr s] = Some (pre ++ t ++ post).
Proof.
  intros Hpre Hpost Hs Hr. rewrite !length_app in Hr. unfold ntg_sprintf, ntg_vslprintf.
  assert (L : length (str "%s") = 2%nat) by done.
  rewrite vslprintf_plain; [|done|len_lia|lia].
  rewrite (vslprintf_s s t); [|done|len_lia|lia|lia].
  rewrite vslprintf_plain; [|done|len_lia|lia].
  rewrite vslprintf_nul by len_lia. cbn. by rewrite app_nil_r.
Qed.

Lemma sprintf_two p pre s1 t1 mid s2 t2 post :
  plain pre -> plain mid -> plain post -> is_cstr s1 t1 -> is_cstr s2 t2 ->
  Z.of_nat (length (pre ++ t1 ++ mid ++ t2 ++ post)) < 18446744073709551615 - p ->
  ntg_sprintf p (pre ++ str "%s" ++ mid ++ str "%s" ++ post ++ [0]) [ACstr s1; ACstr s2] =
  Some (pre ++ t1 ++ mid ++ t2 ++ post).
Proof.
  intros Hpre Hmid Hpost Hs1 Hs2 Hr. rewrite !length_app in Hr. unfold ntg_sprintf, ntg_vslprintf.
  assert (L : length (str "%s") = 2%nat) by done.
  rewrite vslprintf_plain; [|done|len_lia|lia].
  rewrite (vslprintf_s s1 t1); [|done|len_lia|lia|lia].
  rewrite vslprintf_plain; [|done|len_lia|lia].
  rewrite (vslprintf_s s2 t2); [|done|len_lia|lia|lia].
  rewrite vslprintf_plain; [|done|len_lia|lia].
  rewrite vslprintf_nul by len_lia. cbn. by rewrite app_nil_r.
Qed.

(** An optional C string of the URI library and its text, "" for NULL. *)
Definition opt_cstr (s : option bytes) (t : bytes) : Prop :=
  match s with None => t = [] | Some s => is_cstr s t end.

(** The target of the request line. *)
Definition target (path query : bytes) : bytes :=
  if decide (path = []) then str "/"
  else if decide (query = []) then path else path ++ str "?" ++ query.

Definition request_text (path query host : bytes) : bytes :=
  str "GET " ++ target path query ++ str " HTTP/1.1" ++ CRLF ++
  str "Host: " ++ host ++ CRLF ++ build_headers.

Lemma is_empty_correct s t : opt_cstr s t -> is_empty s = Some (bool_decide (t = [])).
Proof.
  destruct s as [s|]; cbn; [|by intros ->]. intros Hs. rewrite (strlen_cstr s t Hs). by destruct t.
Qed.

Lemma target_len_correct path query tp tq :
  opt_cstr path tp -> opt_cstr query tq ->
  target_len path query = Some (Z.of_nat (length (target tp tq))).
Proof.
  intros Hp Hq. unfold target_len, target.
  rewrite (is_empty_correct _ _ Hp), (is_empty_correct _ _ Hq). cbn [mbind option_bind].
  destruct (decide (tp = [])) as [->|Hne]; [done|]. rewrite bool_decide_eq_false_2 by done.
  destruct path as [path|]; [|done]. cbn [default from_option id].
  rewrite (strlen_cstr path tp Hp). cbn [mbind option_bind].
  destruct (decide (tq = [])) as [->|Hne']; [done|]. rewrite bool_decide_eq_false_2 by done.
  destruct query as [query|]; [|done]. cbn [default from_option id].
  rewrite (strlen_cstr query tq Hq). cbn [mbind option_bind]. f_equal.
  rewrite !length_app. change (length (str "?")) with 1%nat. lia.
Qed.

Lemma plain_lit s : bool_decide (plain s) = true -> plain s.
Proof. apply (bool_decide_eq_true_1 _). Qed.

Lemma request_line_correct p path query tp tq :
  opt_cstr path tp -> opt_cstr query tq ->
  Z.of_nat (length (target tp tq)) + 100 < 18446744073709551615 - p ->
  request_line p path query = Some (str "GET " ++ target tp tq ++ str " HTTP/1.1" ++ CRLF).
Proof.
  intros Hp Hq Hr. unfold request_line, target in *.
  rewrite (is_empty_correct _ _ Hp), (is_empty_correct _ _ Hq). cbn [mbind option_bind].
  assert (Hpost : plain (str " HTTP/1.1" ++ CRLF)) by (by apply plain_lit; vm_compute).
  assert (Hlen : length (str "GET ") = 4%nat /\ length (str " HTTP/1.1" ++ CRLF) = 11%nat /\
    length (str "?") = 1%nat) by done.
  destruct Hlen as (L1 & L2 & L3).
  destruct (decide (tp = [])) as [->|Hne].
  { rewrite bool_decide_eq_true_2 by done.
    apply (sprintf_one p (str "GET ") _ (str "/") (str " HTTP/1.1" ++ CRLF)).
    - by apply plain_lit; vm_compute.
    - done.
    - split; [by exists []|]. repeat constructor.
    - rewrite !length_app in *. cbn in *. lia. }
  rewrite bool_decide_eq_false_2 by done. destruct path as [path|]; [|done].
  destruct (decide (tq = [])) as [->|Hne'].
  { rewrite bool_decide_eq_true_2 by done.
    apply (sprintf_one p (str "GET ") path tp (str " HTTP/1.1" ++ CRLF)); [|done|done|].
    - by apply plain_lit; vm_compute.
    - rewrite !length_app in *. lia. }
  rewrite bool_decide_eq_false_2 by done. destruct query as [query|]; [|done].
  rewrite <-!app_assoc.
  apply (sprintf_two p (str "GET ") path tp (str "?") query tq (str " HTTP/1.1" ++ CRLF));
    [| |done|done|done|].
  - by apply plain_lit; vm_compute.
  - by apply plain_lit; vm_compute.
  - rewrite !length_app in *. lia.
Qed.


(** ** Examples *)

(** With the buffer the requests get, a path of 255 bytes makes the code write
    two bytes beyond the end of the buffer. *)
Definition long_request : ntg_http_request :=
  request_zero |> set_out_size NTG_HTTP_OUT_BUFFER_SIZE
               |> set_hostname (str "h" ++ repeat 0 127).

Definition long_path : bytes := str "/" ++ repeat (ch "a") 254 ++ [0].

Lemma build_request_overflow :
  exists rq, ntg_http_build_request (Some 4096) (Some long_path) None long_request =
    Some (NTG_OK, rq) /\ buf_last (out_buffer rq) = buf_end (out_buffer rq) + 2.
Proof.
  eexists. split; [vm_compute; reflexivity|]. vm_compute. reflexivity.
Qed.


Definition example_cycle : ntg_cycle :=
  Cycle (Some 1) 2 2 (list_to_map [(1, set_rq_data (Some 2) request_zero); (2, request_zero)]).

Lemma ntg_http_request_pool_witness :
  exists cycle' rq, ntg_http_get_request true example_cycle = Some (Some 1, cycle') /\
    free_pool cycle' [2] /\ requests cycle' = <[1 := rq]> (requests example_cycle).
Proof.
  destruct (ntg_http_request_pool example_cycle [1; 2]) as (_ & _ & H & _).
  - split_and!.
    + cbn. split; [done|]. eexists. split; [reflexivity|]. split; [done|].
      eexists. split; [reflexivity|]. done.
    + apply (bool_decide_eq_true_1 _). by vm_compute.
    + done.
    + by apply (bool_decide_eq_true_1 _).
  - destruct (H 1 [2] eq_refl) as (c & rq & E & Hp & Hr & _). by exists c, rq.
Defined.
