(* ===== verification/HttpResponse.v ===== *)
(** * Processing a response (src/http/ntg_http.c, ntg_http_discard.c, ntg_http_recv.c)

    From the bytes received to the end of the body: the status line, the header
    lines and their handlers, the length of the body, and the reading and
    discarding of the body.  The socket is an oracle, the list of the outcomes
    of the successive calls of [recv]; a handler that ends the request, or
    waits for the next event, says so with an [action]. *)

From S2P Require Import Prelude NtgString HttpTypes HttpStatusLine HttpHeaderLine HttpChunked HttpRequest.

(** ** The response head *)

(** [ntg_http_process_header], after one line has been parsed: every entry of
    the table whose name the lower case header starts with. *)
Fixpoint run_handlers
    (table : list (bytes * (ntg_table_elt -> ntg_http_request -> option ntg_http_request)))
    (h : ntg_table_elt) (r : ntg_http_request) : option ntg_http_request :=
  match table with
  | [] => Some r
  | (name, handler) :: table =>
      c ← ntg_strncasecmp (lowcase_header (rq_parse r)) (name ++ [0]) (length name);
      r ← (if c =? 0 then handler h r else Some r);
      run_handlers table h r
  end.

Definition header_elt (r : ntg_http_request) : ntg_table_elt :=
  TableElt (buf_from (in_buffer r) (header_start (rq_parse r)))
    (header_end (rq_parse r) - header_start (rq_parse r)).

(** The loop of [ntg_http_process_header]; each turn but the last consumes at
    least a byte of the buffer. *)
Fixpoint process_header_loop (fuel : nat) (r : ntg_http_request)
  : option (Z * ntg_http_request) :=
  match fuel with
  | O => None
  | S fuel =>
      let '(rc, hp, b) := ntg_http_parse_header_line (rq_parse r) (in_buffer r) false in
      let r := r |> set_rq_parse hp |> set_in_buffer b in
      if rc =? NTG_OK then
        r ← run_handlers ntg_http_headers_in_table (header_elt r) r;
        process_header_loop fuel r
      else if rc =? NTG_HTTP_PARSE_HEADER_DONE then
        let hin := headers_in r in
        let hin := if chunked hin then set_content_length_n (-1) hin else hin in
        let r := set_headers_in hin r in
        Some (NTG_OK,
              set_keepalive (if status_n hin =? NTG_HTTP_SWITCHING_PROTOCOLS then false
                             else negb (connection_close hin)) r)
      else if rc =? NTG_AGAIN then Some (NTG_AGAIN, r)
      else Some (NTG_HTTP_PARSE_INVALID_HEADER, r)
  end.

Definition ntg_http_process_header (r : ntg_http_request) : option (Z * ntg_http_request) :=
  process_header_loop (S (length (buf_data (in_buffer r)))) r.

(** [ntg_http_process_status_line]; [pnalloc] tells whether the copy of the
    status text can be allocated. *)
Definition ntg_http_process_status_line (pnalloc : bool) (r : ntg_http_request)
  : option (Z * ntg_http_request) :=
  let '(rc, hp, b, st) := ntg_http_parse_status_line (rq_parse r) (in_buffer r) (rq_status r) in
  let r := r |> set_rq_parse hp |> set_in_buffer b |> set_rq_status st in
  if rc =? NTG_AGAIN then Some (NTG_AGAIN, r)
  else if rc =? NTG_ERROR then
    Some (NTG_OK, r |> set_rq_http_version NTG_HTTP_VERSION_9
                    |> set_up_status NTG_HTTP_OK
                    |> set_headers_in (set_connection_close true (headers_in r)))
  else
    let r := if up_status r =? 0 then set_up_status (code st) r else r in
    start ← status_start st;
    stop ← status_end st;
    let len := stop - start in
    if negb pnalloc then Some (NTG_ERROR, r)
    else
      let line := take (Z.to_nat len) (buf_from b start) in
      let r := set_headers_in (set_status_line line (headers_in r)) r in
      let r :=
        if http_version st <? NTG_HTTP_VERSION_11
        then set_headers_in (set_connection_close true (headers_in r)) r else r in
      ntg_http_process_header (set_process_header PROCESS_HEADER r).

(** [rq->process_header(rq)]. *)
Definition call_process_header (pnalloc : bool) (r : ntg_http_request)
  : option (Z * ntg_http_request) :=
  match process_header r with
  | PROCESS_NULL => None
  | PROCESS_STATUS_LINE => ntg_http_process_status_line pnalloc r
  | PROCESS_HEADER => ntg_http_process_header r
  end.

(** ** The length of the body *)

Definition ntg_http_filter_init (r : ntg_http_request) : Z * ntg_http_request :=
  let hin := headers_in r in
  (NTG_OK,
   if (status_n hin =? NTG_HTTP_NO_CONTENT) || (status_n hin =? NTG_HTTP_NOT_MODIFIED) then
     r |> set_rq_length 0 |> set_keepalive (negb (connection_close hin))
   else if chunked hin then set_rq_length 1 r
   else if content_length_n hin =? 0 then
     r |> set_rq_length 0 |> set_keepalive (negb (connection_close hin))
   else set_rq_length (content_length_n hin) r).

(** ** Discarding what has been received (ntg_http_discard_request_body_filter) *)

Definition set_body_length (n : Z) (r : ntg_http_request) : ntg_http_request :=
  set_headers_in (set_content_length_n n (headers_in r)) r.

(** The chunked case: each turn but the last stops at the data of a chunk and
    passes over it. *)
Fixpoint discard_chunked (fuel : nat) (r : ntg_http_request) : option (Z * ntg_http_request) :=
  match fuel with
  | O => None
  | S fuel =>
      let '(rc, b, ctx) := ntg_http_parse_chunked (in_buffer r) (rq_chunked r) in
      let r := r |> set_in_buffer b |> set_rq_chunked ctx in
      if rc =? NTG_OK then
        let size := buf_last b - buf_pos b in
        if size >? chunk_size ctx then
          discard_chunked fuel
            (r |> set_in_buffer (set_buf_pos (buf_pos b + chunk_size ctx) b)
               |> set_rq_chunked (set_chunk_size 0 ctx))
        else
          discard_chunked fuel
            (r |> set_in_buffer (set_buf_pos (buf_last b) b)
               |> set_rq_chunked (set_chunk_size (s64 (chunk_size ctx - size)) ctx))
      else if rc =? NTG_DONE then
        Some (NTG_OK, r |> set_keepalive (negb (connection_close (headers_in r)))
                        |> set_body_length 0)
      else if rc =? NTG_AGAIN then Some (NTG_OK, set_body_length (chunk_length ctx) r)
      else Some (NTG_ERROR, r)
  end.

Definition ntg_http_discard_request_body_filter (r : ntg_http_request)
  : option (Z * ntg_http_request) :=
  let b := in_buffer r in
  if chunked (headers_in r) then discard_chunked (2 + length (buf_data b)) r
  else
    let size := buf_last b - buf_pos b in
    let n := content_length_n (headers_in r) in
    if size >? n then
      Some (NTG_OK, r |> set_in_buffer (set_buf_pos (buf_pos b + n) b)
                      |> set_body_length 0
                      |> set_keepalive (negb (connection_close (headers_in r))))
    else
      Some (NTG_OK, r |> set_in_buffer (set_buf_pos (buf_last b) b)
                      |> set_body_length (s64 (n - size))).

(** ** The socket *)

(** What one call of [recv] does: bytes (none when the peer has closed), or an
    error. *)
Inductive sys_recv := RecvData (d : bytes) | RecvEagain | RecvEintr | RecvError.

(** [ntg_http_recv]: the result, the bytes stored at [buf], and the rest of the
    oracle; [None] when the oracle says no more. *)
Fixpoint ntg_http_recv (size : Z) (o : list sys_recv) : option (Z * bytes * list sys_recv) :=
  match o with
  | [] => None
  | RecvData d :: o =>
      let d := take (Z.to_nat size) d in Some (Z.of_nat (length d), d, o)
  | RecvEagain :: o => Some (NTG_AGAIN, [], o)
  | RecvEintr :: o => ntg_http_recv size o
  | RecvError :: o => Some (NTG_ERROR, [], o)
  end.

(** Storing received bytes at [last]. *)
Definition buf_store (d : bytes) (b : ntg_buf) : ntg_buf :=
  let off := Z.to_nat (buf_last b - buf_start b) in
  b |> set_buf_mem (take off (buf_mem b) ++ d ++ drop (off + length d) (buf_mem b))
    |> set_buf_last (buf_last b + Z.of_nat (length d)).

(** ** Reading and discarding the rest (ntg_http_discard.c) *)

(** Each turn consumes an outcome of the socket. *)
Fixpoint read_discarded (fuel : nat) (r : ntg_http_request) (o : list sys_recv)
  : option (Z * ntg_http_request * list sys_recv) :=
  match fuel with
  | O => None
  | S fuel =>
      if content_length_n (headers_in r) =? 0 then Some (NTG_OK, r, o)
      else
        let b := in_buffer r in
        let b := b |> set_buf_last (buf_start b) |> set_buf_pos (buf_start b) in
        let r := set_in_buffer b r in
        let size := u64 (Z.min (content_length_n (headers_in r)) (in_size r)) in
        match ntg_http_recv size o with
        | None => None
        | Some (n, d, o) =>
            if n =? NTG_AGAIN then Some (NTG_AGAIN, r, o)
            else if (n =? 0) || (n =? NTG_ERROR) then Some (NTG_OK, r, o)
            else
              let r := r |> set_response_length (s64 (response_length r + n))
                         |> set_in_buffer (buf_store d b) in
              match ntg_http_discard_request_body_filter r with
              | None => None
              | Some (rc, r) =>
                  if negb (rc =? NTG_OK) then Some (rc, r, o) else read_discarded fuel r o
              end
        end
  end.

Definition ntg_http_read_discarded_request_body (r : ntg_http_request) (o : list sys_recv)
  : option (Z * ntg_http_request * list sys_recv) :=
  read_discarded (S (length o)) r o.

(** What a handler leaves to be done: the request has come to its end
    ([ntg_http_final_process]), or the read event has been added. *)
Inductive action := ActFinal | ActWaitRead | ActWaitWrite.

Definition finish (s : ntg_req_state) (r : ntg_http_request) : ntg_http_request * action :=
  (set_req_state s r, ActFinal).

(** [if (r->index == 1) ... DONE else ... NEXT]. *)
Definition finish_by_index (r : ntg_http_request) : ntg_http_request * action :=
  finish (if index r =? 1 then NTG_REQ_STATE_DONE else NTG_REQ_STATE_NEXT) r.

(** [ntg_http_discarded_request_body_handler]; [event_add] is the outcome of
    adding the read event again. *)
Definition ntg_http_discarded_request_body_handler (event_add : bool) (r : ntg_http_request)
    (o : list sys_recv) : option (ntg_http_request * action * list sys_recv) :=
  match ntg_http_read_discarded_request_body r o with
  | None => None
  | Some (rc, r, o) =>
      if rc =? NTG_OK then Some (finish NTG_REQ_STATE_NEXT r, o)
      else if rc >=? NTG_HTTP_SPECIAL_RESPONSE then Some (finish NTG_REQ_STATE_NEXT r, o)
      else if negb event_add then Some (finish NTG_REQ_STATE_NEXT r, o)
      else Some ((r, ActWaitRead), o)
  end.

(** [ntg_http_discard_response_body]. *)
Definition ntg_http_discard_response_body (event_add : bool) (r : ntg_http_request)
    (o : list sys_recv) : option (Z * (ntg_http_request * action) * list sys_recv) :=
  let read_rest r :=
    match ntg_http_read_discarded_request_body r o with
    | None => None
    | Some (rc, r, o) =>
        if rc =? NTG_OK then Some (NTG_OK, finish NTG_REQ_STATE_NEXT r, o)
        else if rc >=? NTG_HTTP_SPECIAL_RESPONSE then Some (rc, finish NTG_REQ_STATE_NEXT r, o)
        else
          let r := set_read_event_handler READ_DISCARD r in
          if negb event_add then Some (NTG_ERROR, finish_by_index r, o)
          else Some (NTG_OK, (r, ActWaitRead), o)
    end in
  if (content_length_n (headers_in r) <=? 0) && negb (chunked (headers_in r))
  then Some (NTG_OK, finish_by_index r, o)
  else
    let size := buf_last (in_buffer r) - buf_pos (in_buffer r) in
    if negb (size =? 0) || chunked (headers_in r) then
      match ntg_http_discard_request_body_filter r with
      | None => None
      | Some (rc, r) =>
          if content_length_n (headers_in r) =? 0
          then Some (NTG_OK, finish NTG_REQ_STATE_NEXT r, o)
          else if negb (rc =? NTG_OK) && negb (rc =? NTG_AGAIN)
          then Some (rc, finish_by_index r, o)
          else read_rest r
      end
    else read_rest r.

(** ** The events of the connection (ntg_http.c) *)

(** The loop of [ntg_http_handler_header]: the last verdict, or the end of the
    handler. *)
Fixpoint handler_header_loop (fuel : nat) (event_add pnalloc : bool) (r : ntg_http_request)
    (o : list sys_recv)
  : option ((Z * ntg_http_request + ntg_http_request * action) * list sys_recv) :=
  match fuel with
  | O => None
  | S fuel =>
      let b := in_buffer r in
      match ntg_http_recv (buf_end b - buf_last b) o with
      | None => None
      | Some (n, d, o) =>
          if n =? NTG_AGAIN then
            Some (inr (if event_add then (r, ActWaitRead) else finish_by_index r), o)
          else if (n =? NTG_ERROR) || (n =? 0) then Some (inr (finish_by_index r), o)
          else
            let r := r |> set_in_buffer (buf_store d b)
                       |> set_response_length (s64 (response_length r + n)) in
            match call_process_header pnalloc r with
            | None => None
            | Some (rc, r) =>
                if rc =? NTG_AGAIN then
                  if buf_last (in_buffer r) =? buf_end (in_buffer r)
                  then Some (inr (finish_by_index r), o)
                  else handler_header_loop fuel event_add pnalloc r o
                else Some (inl (rc, r), o)
            end
      end
  end.

(** [ntg_http_handler_header]; [palloc] is the block the pool returns,
    [gettimeofday] the outcome of reading the clock. *)
Definition ntg_http_handler_header (palloc : option Z) (event_add pnalloc gettimeofday : bool)
    (r : ntg_http_request) (o : list sys_recv)
  : option (ntg_http_request * action * list sys_recv) :=
  let need := (buf_start (in_buffer r) =? 0) &&
              match req_state r with NTG_REQ_STATE_RECV_START => true | _ => false end in
  let start := if need then
      match palloc with
      | None => None
      | Some a => Some (r |> set_in_buffer (Buf a a a (a + in_size r) [])
                          |> set_req_state NTG_REQ_STATE_RECV)
      end
    else Some r in
  match start with
  | None => Some (finish_by_index r, o)
  | Some r =>
      match handler_header_loop (S (length o)) event_add pnalloc r o with
      | None => None
      | Some (inr ra, o) => Some (ra, o)
      | Some (inl (rc, r), o) =>
          if rc =? NTG_HTTP_PARSE_INVALID_HEADER then Some (finish_by_index r, o)
          else if rc =? NTG_ERROR then Some (finish_by_index r, o)
          else if negb gettimeofday then Some (finish_by_index r, o)
          else if status_n (headers_in r) >=? NTG_HTTP_SPECIAL_RESPONSE
          then Some (finish_by_index r, o)
          else
            let '(rc, r) := ntg_http_filter_init r in
            if rc =? NTG_ERROR then Some (finish_by_index r, o)
            else if rq_length r =? 0 then Some (finish_by_index r, o)
            else
              match ntg_http_discard_response_body event_add r o with
              | None => None
              | Some (_, ra, o) => Some (ra, o)
              end
      end
  end.

(** The flags of an event. *)
Record event_flags := EventFlags { EV_TIMEOUT : bool; EV_READ : bool; EV_WRITE : bool }.

(** [ntg_http_read_cb]. *)
Definition ntg_http_read_cb (palloc : option Z) (event_add pnalloc gettimeofday : bool)
    (fl : event_flags) (r : ntg_http_request) (o : list sys_recv)
  : option (ntg_http_request * action * list sys_recv) :=
  if EV_TIMEOUT fl then Some (finish_by_index r, o)
  else if negb (EV_READ fl) then Some (finish_by_index r, o)
  else
    match read_event_handler r with
    | READ_NULL => None
    | READ_HEADER => ntg_http_handler_header palloc event_add pnalloc gettimeofday r o
    | READ_DISCARD => ntg_http_discarded_request_body_handler event_add r o
    end.

(** What one call of [send] does: bytes taken, or an error; [errno] after a
    call that takes nothing is that of [SendZero]. *)
Inductive sys_send := SendData (n : Z) | SendZero (again : bool) | SendAgain | SendError.

(** The loop of [ntg_http_write_cb]: [inl] when all is sent. *)
Fixpoint write_loop (fuel : nat) (event_add : bool) (r : ntg_http_request) (o : list sys_send)
  : option ((ntg_http_request + ntg_http_request * action) * list sys_send) :=
  match fuel with
  | O => None
  | S fuel =>
      let b := out_buffer r in
      if buf_last b - buf_pos b =? 0 then Some (inl r, o)
      else
        match o with
        | [] => None
        | SendData n :: o =>
            write_loop fuel event_add
              (set_out_buffer (set_buf_pos (buf_pos b + n) b) r) o
        | SendZero true :: o | SendAgain :: o =>
            Some (inr (if event_add then (r, ActWaitWrite) else finish_by_index r), o)
        | SendZero false :: o | SendError :: o => Some (inr (finish_by_index r), o)
        end
  end.

(** [ntg_http_write_cb]; [event_del] and [add_read] are the outcomes of removing
    the write event and of adding the read event. *)
Definition ntg_http_write_cb (palloc : option Z) (event_add event_del add_read : bool)
    (fl : event_flags) (r : ntg_http_request) (o : list sys_send)
  : option (ntg_http_request * action * list sys_send) :=
  if negb (EV_WRITE fl) then Some (finish_by_index r, o)
  else if EV_TIMEOUT fl then Some (finish_by_index r, o)
  else
    match write_loop (S (length o)) event_add r o with
    | None => None
    | Some (inr ra, o) => Some (ra, o)
    | Some (inl r, o) =>
        let start :=
          if buf_start (in_buffer r) =? 0 then palloc else Some (buf_start (in_buffer r)) in
        match start with
        | None => Some (finish_by_index r, o)
        | Some a =>
            let mem := buf_mem (in_buffer r) in
            let r := r |> set_in_buffer (Buf a a a (a + in_size r) mem)
                       |> set_rq_parse (set_r_state 0 (rq_parse r))
                       |> set_read_event_handler READ_HEADER
                       |> set_process_header PROCESS_STATUS_LINE in
            if negb event_del then Some (finish_by_index r, o)
            else if negb add_read then Some (finish_by_index r, o)
            else Some ((r, ActWaitRead), o)
        end
    end.
