(* ===== verification/HttpHead.v ===== *)
(** * The head of a response is processed safely

    Theorems on the loop over the header lines and on the header handlers (the
    definitions of HttpResponse.v and HttpRequest.v). *)

From S2P Require Import Prelude NtgString HttpTypes HttpStatusLine HttpHeaderLine HttpChunked HttpRequest HttpResponse.

(** The start of the name, once it is known, lies in the buffer. *)
Definition name_low (lo : Z) (s : header_sw) (r : hparse) : Prop :=
  match s with
  | sw_start | sw_ignore_line | sw_header_almost_done => True
  | _ => lo <= header_name_start r
  end.

Lemma header_scan_low mem au lo data p s h i r :
  lo <= p -> name_low lo s r ->
  match scan (header_step mem au) p data (s, h, i, r) with
  | inl (s', _, _, r') => name_low lo s' r'
  | inr (HeaderLineDone _ _ _ r') => lo <= header_name_start r'
  | inr _ => True
  end.
Proof.
  revert p s h i r. induction data as [|c data IH]; intros p s h i r Hp Hr; cbn [scan]; [done|].
  assert (Hs : match header_step mem au p c (s, h, i, r) with
    | inl (s', _, _, r') => name_low lo s' r'
    | inr (HeaderLineDone _ _ _ r') => lo <= header_name_start r'
    | inr _ => True
    end).
  { destruct s; cbn [header_step name_low store_lowcase] in *; repeat case_match; simplify_eq;
      cbn; try done. }
  destruct (header_step mem au p c (s, h, i, r)) as [[[[s' h'] i'] r']|o]; [|by destruct o].
  apply IH; [lia|done].
Qed.

(** What holds of the request between two header lines or two events. *)
Definition head_inv (r : ntg_http_request) : Prop :=
  buf_wf (in_buffer r) /\ lowcase_inv (lowcase_index (rq_parse r)) (rq_parse r) /\
  exists s, header_sw_of (r_state (rq_parse r)) = Some s /\
    pointers_inv s (buf_pos (in_buffer r)) (rq_parse r) /\
    name_low (buf_start (in_buffer r)) s (rq_parse r).

(** The element handed to the handlers can be read, up to the byte after it. *)
Definition elt_ok (h : ntg_table_elt) : Prop :=
  0 <= h_value_len h <= Z.of_nat (length (h_value h)).

(** The length of the body is an [off_t]. *)
Definition length_ok (hin : ntg_http_headers_in) : Prop := is_s64 (content_length_n hin).

(** A handler reads nothing beyond the value, changes [headers_in] only, and
    keeps the length an [off_t]. *)
Definition handler_ok (f : ntg_table_elt -> ntg_http_request -> option ntg_http_request) : Prop :=
  forall h r, elt_ok h -> exists hin, f h r = Some (set_headers_in hin r) /\
    (length_ok (headers_in r) -> length_ok hin).

Lemma set_headers_in_id r : set_headers_in (headers_in r) r = r.
Proof. by destruct r. Qed.

Lemma atoof_total line n : (n <= length line)%nat -> exists v, ntg_atoof line n = Some v /\ is_s64 v.
Proof.
  intros Hn. unfold ntg_atoof. destruct n as [|n]; [by eexists|].
  change (atoi_loop line (S n) 0) with (atoi_loop line (S n) (s64 0)). rewrite (atoi_loop_spec line (S n) Hn 0).
  eexists. split; [done|]. cbn zeta. repeat case_match; auto using s64_range; done.
Qed.

Lemma atoof_digits ds more :
  ds <> [] -> forallb is_digit ds = true -> dec_value ds <= NTG_MAX_OFF_T_VALUE ->
  ntg_atoof (ds ++ more) (length ds) = Some (dec_value ds).
Proof.
  intros Hne Hds Hmax. unfold ntg_atoof. destruct (length ds) as [|n] eqn:El; [by destruct ds|].
  change (atoi_loop ?l ?n 0) with (atoi_loop l n (s64 0)).
  rewrite <-El, atoi_loop_spec by len_lia. rewrite take_app_length, Hds. fold (dec_value ds).
  pose proof (dec_value_cons_range ds 0 Hds ltac:(lia)) as H0. fold (dec_value ds) in H0.
  rewrite s64_small by (unfold NTG_MAX_OFF_T_VALUE in *; width; lia).
  cbn zeta. by rewrite (proj2 (Z.ltb_ge _ 0)).
Qed.

Lemma needle_total s len c u r :
  0 <= len <= Z.of_nat (length s) -> Forall (fun c => 0 < c) u ->
  exists o, ntg_strlcasestrn s len (c :: u ++ r) (length u) = Some o.
Proof.
  intros Hl Hu. destruct (strlcasestrn_loop_spec c u r Hu s (Z.to_nat len)) as (o & E & _); [lia|].
  exists o. rewrite Z2Nat.id in E by lia. exact E.
Qed.

Lemma process_content_length_ok : handler_ok ntg_http_process_content_length.
Proof.
  intros h r [H1 H2]. unfold ntg_http_process_content_length.
  destruct (atoof_total (h_value h) (Z.to_nat (h_value_len h))) as (v & -> & Hv); [lia|].
  by eexists.
Qed.

Lemma process_connection_ok : handler_ok ntg_http_process_connection.
Proof.
  intros h r Hh. unfold ntg_http_process_connection.
  destruct (needle_total (h_value h) (h_value_len h) (ch "c") (str "lose") [0] Hh) as (o & E);
    [repeat constructor|].
  change (ntg_strlcasestrn _ _ _ 4) with
    (ntg_strlcasestrn (h_value h) (h_value_len h) (ch "c" :: str "lose" ++ [0]) (length (str "lose"))).
  rewrite E. destruct o; cbn; eexists; [done|]. split; [by rewrite set_headers_in_id|done].
Qed.

Lemma process_transfer_encoding_ok : handler_ok ntg_http_process_transfer_encoding.
Proof.
  intros h r Hh. unfold ntg_http_process_transfer_encoding.
  destruct (needle_total (h_value h) (h_value_len h) (ch "c") (str "hunked") [0] Hh) as (o & E);
    [repeat constructor|].
  change (ntg_strlcasestrn _ _ _ 6) with
    (ntg_strlcasestrn (h_value h) (h_value_len h) (ch "c" :: str "hunked" ++ [0]) (length (str "hunked"))).
  rewrite E. destruct o; cbn; eexists; [done|]. split; [by rewrite set_headers_in_id|done].
Qed.

(** The names of the table fit [lowcase_header]. *)
Definition table_ok : Prop :=
  Forall (fun e : bytes * (ntg_table_elt -> ntg_http_request -> option ntg_http_request) =>
    (length e.1 <= 32)%nat /\ Forall (fun c => 0 < c) e.1 /\ handler_ok e.2)
    ntg_http_headers_in_table.

Lemma headers_in_table_ok : table_ok.
Proof.
  repeat constructor; cbn; try lia; auto using process_content_length_ok,
    process_connection_ok, process_transfer_encoding_ok.
Qed.

Lemma run_handlers_ok table h r :
  Forall (fun e : bytes * (ntg_table_elt -> ntg_http_request -> option ntg_http_request) =>
    (length e.1 <= 32)%nat /\ Forall (fun c => 0 < c) e.1 /\ handler_ok e.2) table ->
  elt_ok h -> length (lowcase_header (rq_parse r)) = 32%nat ->
  exists hin, run_handlers table h r = Some (set_headers_in hin r) /\
    (length_ok (headers_in r) -> length_ok hin).
Proof.
  intros Ht Hh. revert r. induction Ht as [|[name f] table (Hn1 & Hn2 & Hf) Ht IH]; intros r Hl;
    cbn [run_handlers].
  { exists (headers_in r). by rewrite set_headers_in_id. }
  cbn [fst snd] in *.
  destruct (strncasecmp_needle name (lowcase_header (rq_parse r)) [0] Hn2) as (v & -> & _); [lia|].
  cbn [mbind option_bind]. destruct (v =? 0); cbn.
  - destruct (Hf h r Hh) as (hin & -> & Hlen). cbn.
    destruct (IH (set_headers_in hin r) Hl) as (hin' & -> & Hlen'). exists hin'.
    split; [done|]. auto.
  - by apply IH.
Qed.

(** After a complete line the next one starts in [sw_start]. *)
Lemma parse_header_start r b rc r' b' :
  ntg_http_parse_header_line r b false = (rc, r', b') -> rc = NTG_OK ->
  r_state r' = header_sw_num sw_start.
Proof.
  unfold ntg_http_parse_header_line. intros E ->.
  destruct (header_sw_of (r_state r)); [|done].
  destruct (scan _ _ _ _) as [[[[? ?] ?] ?]|[]]; simplify_eq; done.
Qed.

Lemma parse_header_low r b rc r' b' s :
  ntg_http_parse_header_line r b false = (rc, r', b') ->
  buf_start b <= buf_pos b -> header_sw_of (r_state r) = Some s -> name_low (buf_start b) s r ->
  (rc = NTG_OK -> buf_start b <= header_name_start r') /\
  (rc = NTG_AGAIN -> forall s', header_sw_of (r_state r') = Some s' -> name_low (buf_start b) s' r').
Proof.
  unfold ntg_http_parse_header_line. intros E Hb Hs Hn. rewrite Hs in E.
  pose proof (header_scan_low (buf_from b) false (buf_start b) (buf_data b) (buf_pos b) s
    (header_hash r) (lowcase_index r) r Hb Hn) as H.
  destruct (scan _ _ _ _) as [[[[s1 ?] ?] ?]|[]]; simplify_eq; split; try done.
  intros _ s'. cbn. rewrite header_sw_of_num. by intros [= <-].
Qed.

Lemma parse_header_buf r b rc r' b' :
  ntg_http_parse_header_line r b false = (rc, r', b') -> b' = set_buf_pos (buf_pos b') b.
Proof.
  unfold ntg_http_parse_header_line. intros E.
  destruct (header_sw_of (r_state r)); [|by simplify_eq; destruct b].
  destruct (scan _ _ _ _) as [[[[? ?] ?] ?]|[]]; simplify_eq; try by destruct b.
  by destruct b'.
Qed.

(** What the loop over the lines leaves. *)
Record head_done (r : ntg_http_request) (rc : Z) (r' : ntg_http_request) : Prop := {
  hd_rc : rc = NTG_OK \/ rc = NTG_AGAIN \/ rc = NTG_HTTP_PARSE_INVALID_HEADER;
  hd_buf : in_buffer r' = set_buf_pos (buf_pos (in_buffer r')) (in_buffer r);
  hd_pos : buf_pos (in_buffer r) <= buf_pos (in_buffer r') <= buf_last (in_buffer r);
  hd_again : rc = NTG_AGAIN ->
    buf_pos (in_buffer r') = buf_last (in_buffer r) /\ head_inv r';
  hd_len : length_ok (headers_in r) -> length_ok (headers_in r');
  hd_frame : in_size r' = in_size r /\ rq_chunked r' = rq_chunked r /\
    read_event_handler r' = read_event_handler r /\ process_header r' = process_header r }.

Lemma process_header_loop_total fuel r :
  head_inv r -> (length (buf_data (in_buffer r)) < fuel)%nat ->
  exists rc r', process_header_loop fuel r = Some (rc, r') /\ head_done r rc r'.
Proof.
  revert r. induction fuel as [|fuel IH]; intros r (Hwf & Hlc & s & Hs & Hp & Hlow) Hf; [lia|].
  cbn [process_header_loop].
  destruct (ntg_http_parse_header_line (rq_parse r) (in_buffer r) false) as [[rc hp] b] eqn:E.
  pose proof (header_line_bounds _ _ _ _ _ _ s E Hwf Hlc Hs Hp) as (Hl & Hpos & Hok & Hag).
  pose proof (parse_header_buf _ _ _ _ _ E) as Eb. pose proof (buf_data_length _ Hwf) as Hlen.
  pose proof Hwf as (W1 & W2 & W3).
  destruct (parse_header_low _ _ _ _ _ s E ltac:(lia) Hs Hlow) as [Hlow1 Hlow2].
  destruct (Z.eqb_spec rc NTG_OK) as [Hrc|Hrc].
  - destruct (Hok Hrc) as (Hlc' & Hadv & Hn & Hv). specialize (Hlow1 Hrc).
    set (r1 := r |> set_rq_parse hp |> set_in_buffer b).
    assert (Helt : elt_ok (header_elt r1)).
    { unfold elt_ok, header_elt. cbn. unfold buf_from. rewrite length_drop, Eb. cbn. lia. }
    destruct (run_handlers_ok _ (header_elt r1) r1 headers_in_table_ok Helt) as (hin & -> & Hlen3).
    { exact Hl. }
    cbn [mbind option_bind]. set (r2 := set_headers_in hin r1).
    assert (Hwf2 : buf_wf (in_buffer r2)) by (unfold buf_wf; cbn; rewrite Eb; cbn; lia).
    pose proof (buf_data_length _ Hwf2) as Hlen2.
    assert (Hlast : buf_last (in_buffer r2) = buf_last (in_buffer r)) by (cbn; by rewrite Eb).
    rewrite Hlast in Hlen2. change (in_buffer r2) with b in *.
    destruct (IH r2) as (rc' & r' & E' & [D1 D2 D3 D4 D5 D6]).
    + split_and!; [done|done|]. exists sw_start. cbn.
      by rewrite (parse_header_start _ _ _ _ _ E Hrc).
    + change (in_buffer r2) with b. lia.
    + change (in_buffer r2) with b in *. rewrite Hlast in D3, D4.
      exists rc', r'. split; [done|]. split; try done; [by rewrite D2, Eb|lia|auto].
  - destruct (Z.eqb_spec rc NTG_HTTP_PARSE_HEADER_DONE) as [_|_];
      [|destruct (Z.eqb_spec rc NTG_AGAIN) as [Ha|_]];
      eexists _, _; (split; [done|]); split; cbn; try done; try tauto; try lia.
    + intros ?. destruct (chunked _); [done|assumption].
    + intros _. destruct (Hag Ha) as (H1 & H2 & s' & H3 & H4). split; [done|].
      split_and!; [unfold buf_wf; cbn; rewrite Eb; cbn; lia|done|].
      exists s'. cbn. rewrite H1. split_and!; [done|done|]. rewrite Eb. cbn. by apply Hlow2.
Qed.

(** C5: whatever bytes the server sends, the loop over the header lines ends
    with a verdict: it never reads outside the received data, the lower case
    name and the header values, the buffer never leaves the data, and when more
    data is needed the request is ready for the next event. *)
Theorem process_header_total r :
  head_inv r ->
  exists rc r', ntg_http_process_header r = Some (rc, r') /\ head_done r rc r'.
Proof. intros H. by apply process_header_loop_total; [|lia]. Qed.

(** ** The length of the body is understood *)

(** The handlers that run on a line named "content-length". *)
Lemma run_handlers_content_length h r v :
  length (lowcase_header (rq_parse r)) = 32%nat ->
  take 14 (lowcase_header (rq_parse r)) = str "content-length" ->
  ntg_atoof (h_value h) (Z.to_nat (h_value_len h)) = Some v ->
  run_handlers ntg_http_headers_in_table h r =
  Some (set_headers_in (set_content_length_n v (headers_in r)) r).
Proof.
  intros Hl Hlow Hv. unfold ntg_http_headers_in_table.
  assert (Htake : forall k, (k <= 14)%nat ->
    take k (lowcase_header (rq_parse r)) = take k (str "content-length")).
  { intros k Hk. rewrite <-Hlow, take_take. f_equal. lia. }
  cbn [run_handlers].
  destruct (strncasecmp_needle (str "content-length") (lowcase_header (rq_parse r)) [0])
    as (x & -> & Hx); [repeat constructor|cbn; lia|].
  cbn [mbind option_bind]. rewrite (proj2 (Z.eqb_eq x 0)) by
    (apply Hx; change (length (str "content-length")) with 14%nat; by rewrite Hlow).
  unfold ntg_http_process_content_length. rewrite Hv.
  cbn [mbind option_bind rq_parse set_headers_in].
  destruct (strncasecmp_needle (str "Connection") (lowcase_header (rq_parse r)) [0])
    as (y & -> & Hy); [repeat constructor|cbn; lia|].
  cbn [mbind option_bind]. rewrite (proj2 (Z.eqb_neq y 0)).
  2:{ rewrite Hy. change (length (str "Connection")) with 10%nat. rewrite Htake by lia.
      by vm_compute. }
  cbn [mbind option_bind rq_parse set_headers_in].
  destruct (strncasecmp_needle (str "Transfer-Encoding") (lowcase_header (rq_parse r)) [0])
    as (z & -> & Hz); [repeat constructor|cbn; lia|].
  cbn [mbind option_bind]. rewrite (proj2 (Z.eqb_neq z 0)); [done|].
  rewrite Hz. unfold same_nocase. intros H%(f_equal (take 1)).
  rewrite <-!fmap_take, take_take in H. change (1 `min` length (str "Transfer-Encoding"))%nat with 1%nat in H.
  rewrite Htake in H by lia. by vm_compute in H.
Qed.

Lemma named_bytes name :
  forallb (fun c => negb (c =? 0)) (map lowcase_of name) = true -> forallb name_byte name = true.
Proof. induction name as [|c name IH]; cbn; [done|]. intros [Hc H]%andb_true_iff. by rewrite IH, andb_true_r. Qed.

Lemma digit_value_byte c : is_digit c = true -> value_byte c = true.
Proof. intros H%is_digit_range. unfold value_byte, CR, LF. chars. lia. Qed.

Lemma digits_value ds : ds <> [] -> forallb is_digit ds = true -> header_value ds.
Proof.
  intros Hne Hds. right. destruct ds as [|c ds]; [done|]. cbn in Hds.
  apply andb_true_iff in Hds as [Hc Hds]. apply digit_value_byte in Hc.
  destruct (decide (ds = [])) as [->|Hn].
  { exists c, [], c. split_and!; try done. by left. }
  destruct (exists_last_elem ds Hn) as (u & d & ->).
  rewrite forallb_app in Hds. cbn in Hds. rewrite andb_true_r in Hds.
  apply andb_true_iff in Hds as [Hu Hd]. exists c, u, d.
  split_and!; [by right|done|by apply digit_value_byte|].
  apply forallb_forall. intros x Hx. rewrite forallb_forall in Hu.
  unfold value_or_space. by rewrite digit_value_byte by auto.
Qed.

(** The empty line that ends the head. *)
Lemma parse_header_end hp b eol rest :
  buf_data b = eol ++ rest -> eol = [LF] \/ eol = [CR; LF] ->
  r_state hp = header_sw_num sw_start ->
  exists hp', ntg_http_parse_header_line hp b false =
    (NTG_HTTP_PARSE_HEADER_DONE, hp', set_buf_pos (buf_pos b + Z.of_nat (length eol)) b).
Proof.
  intros Hd Heol Hs. unfold ntg_http_parse_header_line. rewrite Hs, (header_sw_of_num sw_start), Hd.
  destruct Heol as [-> | ->]; cbn -[Z.add]; eexists; f_equal. f_equal. lia.
Qed.

Lemma buf_from_app b k w rest :
  buf_wf b -> buf_data b = w ++ rest -> Z.of_nat (length w) = k ->
  exists more, buf_from b (buf_pos b + k) = rest ++ more.
Proof.
  intros (? & ? & ?) Hd Hk. unfold buf_data in Hd.
  exists (drop (Z.to_nat (buf_last b - buf_pos b)) (buf_from b (buf_pos b))).
  assert (E : buf_from b (buf_pos b + k) = drop (length w) (buf_from b (buf_pos b))).
  { unfold buf_from. rewrite drop_drop. f_equal. lia. }
  rewrite E. rewrite <-(take_drop (Z.to_nat (buf_last b - buf_pos b)) (buf_from b (buf_pos b))) at 1.
  rewrite Hd, <-app_assoc. by rewrite drop_app_length.
Qed.

(** A head that ends in a line "Content-Length: n", in any case and with any
    spaces around the value, sets the length of the body to [n] and leaves the
    buffer at the first byte of the body. *)
Theorem process_header_content_length r name sp1 ds sp2 e eol rest :
  head_inv r -> r_state (rq_parse r) = header_sw_num sw_start ->
  buf_data (in_buffer r) = (name ++ [ch ":"] ++ sp1 ++ ds ++ sp2 ++ e) ++ eol ++ rest ->
  map lowcase_of name = str "content-length" ->
  forallb is_space sp1 = true -> forallb is_space sp2 = true ->
  ds <> [] -> forallb is_digit ds = true -> dec_value ds <= NTG_MAX_OFF_T_VALUE ->
  header_eol e -> eol = [LF] \/ eol = [CR; LF] -> chunked (headers_in r) = false ->
  exists r', ntg_http_process_header r = Some (NTG_OK, r') /\
    content_length_n (headers_in r') = dec_value ds /\
    buf_data (in_buffer r') = rest.
Proof.
  intros Hinv Hst Hd Hname Hsp1 Hsp2 Hne Hds Hmax He Heol Hch.
  pose proof Hinv as (Hwf & [_ Hlow] & _).
  assert (Hd1 : buf_data (in_buffer r) =
    name ++ [ch ":"] ++ sp1 ++ ds ++ sp2 ++ e ++ (eol ++ rest)) by (by rewrite Hd, <-!app_assoc).
  assert (Hlen14 : length name = 14%nat) by (by rewrite <-(length_map lowcase_of), Hname).
  destruct (header_line_accepts (in_buffer r) (rq_parse r) false name sp1 ds sp2 e (eol ++ rest) Hd1)
    as (hp & E & _ & _ & Hs & Hend & _ & _ & Hlc & Hst'); try done; try lia.
  { by destruct name. }
  { by apply named_bytes; rewrite Hname. }
  { by apply digits_value. }
  pose proof (header_line_bounds _ _ _ _ _ _ sw_start E Hwf) as HB.
  unfold ntg_http_process_header.
  assert (exists n, length (buf_data (in_buffer r)) = S (S n)) as [n ->].
  { rewrite Hd1. destruct name as [|? [|? ?]]; [done..|]. by eexists. }
  cbn [process_header_loop]. rewrite E. change (NTG_OK =? NTG_OK) with true. cbn iota.
  set (line := name ++ [ch ":"] ++ sp1 ++ ds ++ sp2 ++ e) in *.
  set (b1 := set_buf_pos (buf_pos (in_buffer r) + Z.of_nat (length line)) (in_buffer r)) in *.
  destruct (buf_data_set_pos (in_buffer r) (Z.of_nat (length line)) line (eol ++ rest) Hwf)
    as [Hd2 Hwf2]; [by rewrite Hd|done|]. fold b1 in Hd2, Hwf2.
  assert (Hl32 : length (lowcase_header hp) = 32%nat).
  { destruct HB as [HB _]; [|by rewrite Hst|done|exact HB]. destruct Hinv as (_ & ? & _). done. }
  rewrite (run_handlers_content_length _ _ (dec_value ds)); [|exact Hl32|by rewrite <-Hname, <-Hlc, Hlen14|].
  2:{ unfold header_elt. cbn [h_value h_value_len rq_parse in_buffer set_rq_parse set_in_buffer].
      rewrite Hs, Hend. change (buf_from b1) with (buf_from (in_buffer r)).
      destruct (buf_from_app (in_buffer r) (Z.of_nat (length name + 1 + length sp1))
        (name ++ [ch ":"] ++ sp1) (ds ++ sp2 ++ e ++ eol ++ rest) Hwf) as (more & ->);
        [by rewrite Hd1, <-!app_assoc|len_lia|].
      replace (Z.to_nat _) with (length ds) by lia. rewrite <-app_assoc. by apply atoof_digits. }
  cbn [mbind option_bind].
  set (r2 := set_headers_in _ _). cbn [process_header_loop].
  change (in_buffer r2) with b1. change (rq_parse r2) with hp.
  destruct (parse_header_end hp b1 eol rest Hd2 Heol Hst') as (hp' & ->).
  change (NTG_HTTP_PARSE_HEADER_DONE =? NTG_OK) with false.
  change (NTG_HTTP_PARSE_HEADER_DONE =? NTG_HTTP_PARSE_HEADER_DONE) with true. cbn iota.
  eexists. split; [done|].
  destruct (buf_data_set_pos b1 (Z.of_nat (length eol)) eol rest Hwf2 Hd2 eq_refl) as [Hd3 _].
  cbn. rewrite Hch. cbn. split; [done|exact Hd3].
Qed.

(** ** Examples *)

Definition head_request (d : bytes) : ntg_http_request :=
  request_zero |> set_rq_parse example_hparse |> set_in_buffer (example_buf d)
               |> set_process_header PROCESS_HEADER.

Definition example_head : bytes :=
  str "Content-LENGTH:  42 " ++ [CR; LF] ++ [CR; LF] ++ str "body".

(** Only as many bytes of [lowcase_header] as the name of the entry has are
    compared, and those that a short name did not overwrite are stale: a line
    "C: 7" after a line "Content-Length: 5" sets the length to 7. *)
Lemma stale_name_matches :
  exists r, ntg_http_process_header
      (head_request (str "Content-Length: 5" ++ [CR; LF] ++ str "C: 7" ++ [CR; LF; CR; LF])) =
    Some (NTG_OK, r) /\ content_length_n (headers_in r) = 7.
Proof. eexists. split; [vm_compute; reflexivity|]. reflexivity. Qed.

(** A name that merely starts with that of an entry is taken for it. *)
Lemma longer_name_matches :
  exists r, ntg_http_process_header
      (head_request (str "Content-Length-Hint: 9" ++ [CR; LF; CR; LF])) =
    Some (NTG_OK, r) /\ content_length_n (headers_in r) = 9.
Proof. eexists. split; [vm_compute; reflexivity|]. reflexivity. Qed.

Lemma example_head_inv d : head_inv (head_request d).
Proof.
  split_and!.
  - unfold buf_wf. cbn. lia.
  - split; [unfold NTG_HTTP_LC_HEADER_LEN; cbn; lia|done].
  - by exists sw_start.
Qed.

Lemma process_header_total_witness :
  exists rc r', ntg_http_process_header (head_request example_head) = Some (rc, r') /\
    head_done (head_request example_head) rc r'.
Proof. apply process_header_total. apply example_head_inv. Defined.

Lemma process_header_content_length_witness :
  exists r', ntg_http_process_header (head_request example_head) = Some (NTG_OK, r') /\
    content_length_n (headers_in r') = 42 /\ buf_data (in_buffer r') = str "body".
Proof.
  destruct (process_header_content_length (head_request example_head) (str "Content-LENGTH")
    (str "  ") (str "42") (str " ") [CR; LF] [CR; LF] (str "body")) as (r' & E & H1 & H2);
    try reflexivity; try done.
  - apply example_head_inv.
  - by exists 1%nat.
  - by right.
  - exists r'. split; [exact E|]. split; [exact H1|exact H2].
Defined.
