(* ===== verification/HttpBody.v ===== *)
(** * The body of a response is read exactly

    Theorems on the reading and discarding of a body (the definitions of
    HttpResponse.v): the loops end, a chunked body is recognised, and the reader
    never asks the socket for more bytes than the body still has. *)

From S2P Require Import Prelude NtgString HttpTypes HttpStatusLine HttpHeaderLine HttpChunked HttpRequest HttpResponse.

(** ** The number of bytes a chunked body still has, at least *)

Definition need (s : chunked_sw) (size : Z) : Z :=
  match s with
  | sw_chunk_start => 3
  | sw_chunk_size => 1 + (if negb (size =? 0) then size + 4 else 1)
  | sw_chunk_extension | sw_chunk_extension_almost_done => 1 + size + 4
  | sw_chunk_data => size + 4
  | sw_after_data | sw_after_data_almost_done => 4
  | sw_last_chunk_extension | sw_last_chunk_extension_almost_done => 2
  | sw_trailer | sw_trailer_almost_done => 1
  | sw_trailer_header | sw_trailer_header_almost_done => 2
  end.

Lemma chunked_length_need s size :
  0 <= size <= NTG_MAX_OFF_T_VALUE - 5 -> chunked_length s size = need s size.
Proof.
  unfold NTG_MAX_OFF_T_VALUE. intros. destruct s; cbn [chunked_length need]; repeat case_match;
    rewrite ?(s64_small (size + 4)) by (width; lia); rewrite ?s64_small by (width; lia); lia.
Qed.

Lemma need_pos s size : 0 <= size -> 0 < need s size.
Proof. intros. destruct s; cbn [need]; repeat case_match; lia. Qed.

(** One byte reduces the need by at most one. *)
Lemma chunked_step_need p c s size :
  chunked_inv s size ->
  match chunked_step p c (s, size) with
  | inl (s', size') => need s size <= 1 + need s' size'
  | inr (ChunkData _ size') => s = sw_chunk_data /\ size' = size
  | inr (ChunkDone _ _) => need s size <= 1
  | inr (ChunkInvalid _) => True
  end.
Proof.
  unfold chunked_inv, NTG_MAX_OFF_T_VALUE. intros (H1 & H2 & _).
  change (9223372036854775807 / 16) with 576460752303423487 in *.
  destruct s; cbn [chunked_step has_size] in *;
    change (NTG_MAX_OFF_T_VALUE / 16) with 576460752303423487;
    try specialize (H2 ltac:(done)); repeat case_match; simplify_eq; try done; cbn [need];
    repeat match goal with H : hex_digit _ = Some _ |- _ => apply hex_digit_range in H end;
    rewrite ?s64_small by (width; lia); repeat case_match; try lia.
Qed.

Lemma chunked_scan_need data p s size :
  chunked_inv s size ->
  match scan chunked_step p data (s, size) with
  | inl (s', size') => need s size <= Z.of_nat (length data) + need s' size'
  | inr (ChunkData q size') => need s size <= q - p + need sw_chunk_data size'
  | inr (ChunkDone q _) => need s size <= q + 1 - p
  | inr (ChunkInvalid _) => True
  end.
Proof.
  revert p s size. induction data as [|c data IH]; intros p s size Hi; cbn [scan length]; [lia|].
  pose proof (chunked_step_inv p c s size Hi) as Hs.
  pose proof (chunked_step_need p c s size Hi) as Hn.
  destruct (chunked_step p c (s, size)) as [[s' size']|[]].
  - specialize (IH (p + 1) s' size' Hs). destruct (scan _ _ _ _) as [[? ?]|[]]; lia.
  - destruct Hs as [-> _]. destruct Hn as [-> ->]. lia.
  - destruct Hs as [-> _]. lia.
  - done.
Qed.

(** The need of a chunked object between two calls. *)
Definition ctx_need (ctx : ntg_http_chunked) : Z :=
  match chunked_sw_of (chunk_state ctx) with
  | Some s => need s (chunk_size ctx)
  | None => 0
  end.

Lemma ctx_need_start ctx s :
  chunked_sw_of (chunk_state ctx) = Some s ->
  ctx_need ctx = need (start_state s (chunk_size ctx)) (chunk_size ctx).
Proof.
  intros Hs. unfold ctx_need, start_state. rewrite Hs. case_bool_decide; subst; cbn; [|done].
  destruct (Z.eqb_spec (chunk_size ctx) 0) as [->|]; done.
Qed.

(** One call of the parser, as the discarding loop uses it. *)
Lemma parse_chunked_need b ctx rc b' ctx' :
  ntg_http_parse_chunked b ctx = (rc, b', ctx') -> buf_wf b -> ctx_inv ctx ->
  (rc = NTG_AGAIN -> ctx_need ctx <= buf_last b - buf_pos b + ctx_need ctx' /\
                     chunk_length ctx' = ctx_need ctx') /\
  (rc = NTG_OK -> chunk_state ctx' = 4 /\
                  ctx_need ctx <= buf_pos b' - buf_pos b + ctx_need ctx') /\
  (rc = NTG_DONE -> ctx_need ctx <= buf_pos b' - buf_pos b) /\
  (rc = NTG_OK \/ rc = NTG_AGAIN \/ rc = NTG_DONE \/ rc = NTG_ERROR) /\
  b' = set_buf_pos (buf_pos b') b.
Proof.
  unfold ntg_http_parse_chunked. intros E Hwf Hc.
  pose proof Hc as (s & Hs & _). rewrite (ctx_need_start _ _ Hs).
  rewrite Hs in E. fold (start_state s (chunk_size ctx)) in E.
  pose proof (start_state_inv ctx s Hs Hc) as Hi.
  pose proof (buf_data_length b Hwf) as Hl.
  pose proof (chunked_scan_inv (buf_data b) (buf_pos b) _ _ Hi) as Hsc.
  pose proof (chunked_scan_need (buf_data b) (buf_pos b) _ _ Hi) as Hn.
  unfold chunked_data in E.
  destruct (scan _ _ _ _) as [[s1 z1]|[p1 z1|p1 z1|z1]].
  - rewrite Z.gtb_ltb in E.
    destruct (Z.ltb_spec (NTG_MAX_OFF_T_VALUE - 5) z1); simplify_eq/=;
      (split_and!; [..|by destruct b]); try by (intros; verdicts); try tauto.
    intros _. unfold ctx_need. cbn. rewrite chunked_sw_of_num. split; [lia|].
    apply chunked_length_need. destruct Hsc. lia.
  - rewrite Z.gtb_ltb in E.
    destruct (Z.ltb_spec (NTG_MAX_OFF_T_VALUE - 5) z1); simplify_eq/=;
      (split_and!; [..|by destruct b]); try by (intros; verdicts); try tauto.
  - simplify_eq/=. split_and!; [..|by destruct b]; try by (intros; verdicts); try tauto.
  - simplify_eq/=. split_and!; [..|by destruct b']; try by (intros; verdicts); tauto.
Qed.

(** ** The discarding loop *)

(** What one run of the filter leaves: how much of the body is to come, in
    terms of the bytes consumed, and the fields it does not touch. *)
Record discarded (r : ntg_http_request) (rc : Z) (r' : ntg_http_request) : Prop := {
  dis_rc : rc = NTG_OK \/ rc = NTG_ERROR;
  dis_buf : in_buffer r' = set_buf_pos (buf_pos (in_buffer r')) (in_buffer r);
  dis_pos : buf_pos (in_buffer r) <= buf_pos (in_buffer r') <= buf_last (in_buffer r);
  dis_size : in_size r' = in_size r;
  dis_handler : read_event_handler r' = read_event_handler r;
  dis_resp : response_length r' = response_length r;
  dis_chunked : chunked (headers_in r') = chunked (headers_in r);
  dis_more : rc = NTG_OK -> content_length_n (headers_in r') <> 0 ->
    buf_pos (in_buffer r') = buf_last (in_buffer r) /\
    0 < content_length_n (headers_in r') <= NTG_MAX_OFF_T_VALUE }.

Lemma set_buf_pos_self b : b = set_buf_pos (buf_pos b) b.
Proof. by destruct b. Qed.

(** Passing over the data of a chunk keeps the object well formed, and the need
    drops by what has been passed over. *)
Lemma ctx_skip ctx k :
  ctx_inv ctx -> chunk_state ctx = 4 -> 0 <= k <= chunk_size ctx ->
  let ctx' := set_chunk_size (chunk_size ctx - k) ctx in
  ctx_inv ctx' /\ ctx_need ctx = k + ctx_need ctx'.
Proof.
  intros (s & Hs & H1 & H2 & H3) H4 Hk. rewrite H4 in Hs. injection Hs as <-. cbn.
  specialize (H2 ltac:(done)). split.
  - exists sw_chunk_data. cbn. rewrite H4. split_and!; try done; try lia.
    by intros [? | ?].
  - unfold ctx_need. cbn. rewrite H4. change (chunked_sw_of 4) with (Some sw_chunk_data). cbn [need]. lia.
Qed.

Lemma discard_chunked_spec fuel r :
  buf_wf (in_buffer r) -> ctx_inv (rq_chunked r) ->
  (length (buf_data (in_buffer r)) < fuel)%nat ->
  exists rc r', discard_chunked fuel r = Some (rc, r') /\ discarded r rc r' /\
    (rc = NTG_OK ->
     let used := buf_pos (in_buffer r') - buf_pos (in_buffer r) in
     (content_length_n (headers_in r') = 0 /\ ctx_need (rq_chunked r) <= used) \/
     (content_length_n (headers_in r') = ctx_need (rq_chunked r') /\
      ctx_need (rq_chunked r) <= used + ctx_need (rq_chunked r') /\ ctx_inv (rq_chunked r'))).
Proof.
  revert r. induction fuel as [|fuel IH]; intros r Hwf Hc Hf; [lia|]. cbn [discard_chunked].
  destruct (ntg_http_parse_chunked _ _) as [[rc b] ctx] eqn:E.
  pose proof (chunked_bounds _ _ _ _ _ E Hwf Hc) as (Hb & Hz & Hci & Hok & Hag & Hdn).
  pose proof (parse_chunked_need _ _ _ _ _ E Hwf Hc) as (Na & No & Nd & Hrc & Eb).
  pose proof (buf_data_length _ Hwf) as Hlen. destruct Hwf as (W1 & W2 & W3).
  assert (Hlast : buf_last b = buf_last (in_buffer r)) by (rewrite Eb; done).
  destruct Hrc as [-> |[-> |[-> | ->]]].
  - specialize (Hok eq_refl) as [Hp Hs]. destruct (Hci ltac:(tauto)) as [Hci' _].
    destruct (No eq_refl) as [H4 Hn]. change (NTG_OK =? NTG_OK) with true. cbn iota.
    rewrite Z.gtb_ltb, Hlast.
    set (k := Z.min (chunk_size ctx) (buf_last (in_buffer r) - buf_pos b)).
    destruct (ctx_skip ctx k Hci' H4 ltac:(lia)) as [Hci2 Hn2].
    set (r2 := r |> set_in_buffer (set_buf_pos (buf_pos b + k) b)
                 |> set_rq_chunked (set_chunk_size (chunk_size ctx - k) ctx)).
    assert (Hr2 : buf_wf (in_buffer r2)).
    { unfold buf_wf. cbn. rewrite Eb. cbn. lia. }
    pose proof (buf_data_length _ Hr2) as Hlen2. cbn [in_buffer r2 set_rq_chunked set_in_buffer
      buf_last buf_pos set_buf_pos] in Hlen2.
    destruct (IH r2 Hr2 Hci2) as (rc' & r' & E' & [D1 D2 D3 D4 DH DR D5 D6] & HD).
    { cbn [in_buffer r2 set_rq_chunked set_in_buffer]. lia. }
    assert (Hgoal : exists rc r', discard_chunked fuel r2 = Some (rc, r') /\ discarded r rc r' /\
      (rc = NTG_OK ->
       let used := buf_pos (in_buffer r') - buf_pos (in_buffer r) in
       (content_length_n (headers_in r') = 0 /\ ctx_need (rq_chunked r) <= used) \/
       (content_length_n (headers_in r') = ctx_need (rq_chunked r') /\
        ctx_need (rq_chunked r) <= used + ctx_need (rq_chunked r') /\ ctx_inv (rq_chunked r')))).
    { exists rc', r'. split; [done|]. cbn in D2, D3, D4, DH, DR, D5, D6, HD. split.
      - split; try done; [| |].
        + rewrite D2, Eb. done.
        + lia.
        + rewrite <-Hlast. done.
      - intros Hrc. specialize (HD Hrc). cbn. cbn in Hn2. lia || destruct HD as [HD|HD].
        + left. lia.
        + right. destruct HD as (? & ? & ?). split_and!; [done|lia|done]. }
    unfold r2, k in Hgoal. destruct (Z.ltb_spec (chunk_size ctx) (buf_last (in_buffer r) - buf_pos b)).
    + rewrite Z.min_l, Z.sub_diag in Hgoal by lia. done.
    + rewrite Z.min_r in Hgoal by lia.
      replace (buf_pos b + (buf_last (in_buffer r) - buf_pos b)) with (buf_last (in_buffer r))
        in Hgoal by lia.
      rewrite s64_small; [done|]. destruct Hci' as (? & ? & ? & _).
      unfold NTG_MAX_OFF_T_VALUE in *. width. lia.
  - specialize (Hag eq_refl). destruct (Hci ltac:(tauto)) as [Hci' Hl'].
    destruct (Na eq_refl) as [N1 N2]. change (NTG_AGAIN =? NTG_OK) with false.
    change (NTG_AGAIN =? NTG_DONE) with false. change (NTG_AGAIN =? NTG_AGAIN) with true. cbn iota.
    eexists _, _. split; [done|]. split.
    + split; cbn; try done; try tauto; try lia.
    + intros _. right. cbn. split_and!; [lia|lia|done].
  - change (NTG_DONE =? NTG_OK) with false. change (NTG_DONE =? NTG_DONE) with true. cbn iota.
    eexists _, _. split; [done|]. split.
    + split; cbn; try done; try tauto; try lia.
    + intros _. left. cbn. specialize (Nd eq_refl). lia.
  - change (NTG_ERROR =? NTG_OK) with false. change (NTG_ERROR =? NTG_DONE) with false.
    change (NTG_ERROR =? NTG_AGAIN) with false. cbn iota.
    eexists _, _. split; [done|]. split; [|by intros ?].
    split; cbn; try done; try tauto; try lia.
Qed.

(** ** The body still to come *)

(** A lower bound, which is exact when the length has been announced. *)
Definition body_left (r : ntg_http_request) : Z :=
  if chunked (headers_in r) then ctx_need (rq_chunked r) else content_length_n (headers_in r).

Definition body_ok (r : ntg_http_request) : Prop :=
  if chunked (headers_in r) then ctx_inv (rq_chunked r)
  else 0 <= content_length_n (headers_in r) <= NTG_MAX_OFF_T_VALUE.

(** Between two reads [content_length_n] is the body still to come. *)
Definition body_sync (r : ntg_http_request) : Prop :=
  content_length_n (headers_in r) = 0 \/
  (body_ok r /\ content_length_n (headers_in r) = body_left r).

Lemma discard_filter_spec r :
  buf_wf (in_buffer r) -> body_ok r ->
  exists rc r', ntg_http_discard_request_body_filter r = Some (rc, r') /\ discarded r rc r' /\
    (chunked (headers_in r) = false -> rc = NTG_OK) /\
    (rc = NTG_OK -> body_sync r' /\
       body_left r <= buf_pos (in_buffer r') - buf_pos (in_buffer r)
                      + content_length_n (headers_in r') /\
       (chunked (headers_in r) = false ->
          body_left r = buf_pos (in_buffer r') - buf_pos (in_buffer r)
                        + content_length_n (headers_in r'))).
Proof.
  intros Hwf Hok. unfold ntg_http_discard_request_body_filter, body_left, body_ok, body_sync in *.
  destruct (chunked (headers_in r)) eqn:Hch.
  - destruct (discard_chunked_spec (2 + length (buf_data (in_buffer r))) r Hwf Hok)
      as (rc & r' & E & D & H); [lia|].
    exists rc, r'. do 3 (split; [done|]). intros Hrc. specialize (H Hrc).
    unfold body_ok, body_left. rewrite (dis_chunked _ _ _ D), Hch.
    destruct H as [[H1 H2]|(H1 & H2 & H3)].
    + rewrite H1. split_and!; [by left|lia|done].
    + split_and!; [by right|lia|done].
  - destruct Hwf as (W1 & W2 & W3). rewrite Z.gtb_ltb.
    destruct (Z.ltb_spec (content_length_n (headers_in r))
      (buf_last (in_buffer r) - buf_pos (in_buffer r))).
    + eexists _, _. split; [done|]. split; [split; cbn; try done; tauto || lia|].
      split; [done|]. intros _. cbn. split_and!; [by left|lia|lia].
    + rewrite s64_small by (unfold NTG_MAX_OFF_T_VALUE in *; width; lia).
      eexists _, _. split; [done|]. split; [split; cbn; try done; tauto || lia|].
      split; [done|]. intros _. unfold body_ok, body_left. cbn. rewrite Hch. split_and!; [right|lia|lia].
      split; lia.
Qed.

(** ** Reading *)

(** The outcomes of [recv] after which the reader comes back. *)
Definition stops (x : sys_recv) : bool :=
  match x with
  | RecvData [] | RecvEagain | RecvError => true
  | RecvData _ | RecvEintr => false
  end.

Lemma ntg_http_recv_spec size o :
  0 < size -> existsb stops o = true ->
  exists n d o', ntg_http_recv size o = Some (n, d, o') /\ (length o' < length o)%nat /\
    (n = NTG_AGAIN \/ n = NTG_ERROR \/ n = 0 \/
     (0 < n <= size /\ Z.of_nat (length d) = n /\ existsb stops o' = true)).
Proof.
  intros Hs. induction o as [|x o IH]; [done|]. cbn [existsb ntg_http_recv length]. intros Ho.
  destruct x as [d| | |].
  - eexists _, _, _. split; [done|]. split; [lia|]. rewrite length_take.
    destruct d as [|c d]; cbn [length stops orb] in *; [right; right; left; lia|].
    right. right. right. split_and!; [lia|lia|lia|done].
  - eexists _, _, _. split; [done|]. split; [lia|]. by left.
  - destruct (IH Ho) as (n & d & o' & -> & ? & ?). eexists _, _, _. split; [done|].
    split; [lia|done].
  - eexists _, _, _. split; [done|]. split; [lia|]. tauto.
Qed.

(** The input buffer can hold the bytes that are asked for. *)
Definition room (r : ntg_http_request) : Prop :=
  0 < in_size r <= buf_end (in_buffer r) - buf_start (in_buffer r) /\
  in_size r <= NTG_MAX_OFF_T_VALUE.

Definition wiped (r : ntg_http_request) : ntg_http_request :=
  let b := in_buffer r in
  set_in_buffer (b |> set_buf_last (buf_start b) |> set_buf_pos (buf_start b)) r.

(** The request after a read of [n] bytes, before the filter. *)
Definition filled (r : ntg_http_request) (n : Z) (d : bytes) : ntg_http_request :=
  wiped r |> set_response_length (s64 (response_length r + n))
          |> set_in_buffer (buf_store d (in_buffer (wiped r))).

Lemma filled_wf r n d :
  room r -> 0 < n <= in_size r -> Z.of_nat (length d) = n ->
  buf_wf (in_buffer (filled r n d)) /\
  buf_pos (in_buffer (filled r n d)) = buf_start (in_buffer r) /\
  buf_last (in_buffer (filled r n d)) = buf_start (in_buffer r) + n.
Proof.
  intros [R1 R2] Hn Hd. unfold filled, wiped, buf_store, buf_wf. cbn.
  rewrite !length_app, length_take, length_drop. lia.
Qed.

Lemma read_discarded_eq fuel r o :
  read_discarded (S fuel) r o =
  if content_length_n (headers_in r) =? 0 then Some (NTG_OK, r, o)
  else
    match ntg_http_recv (u64 (Z.min (content_length_n (headers_in r)) (in_size r))) o with
    | None => None
    | Some (n, d, o) =>
        if n =? NTG_AGAIN then Some (NTG_AGAIN, wiped r, o)
        else if (n =? 0) || (n =? NTG_ERROR) then Some (NTG_OK, wiped r, o)
        else
          match ntg_http_discard_request_body_filter (filled r n d) with
          | None => None
          | Some (rc, r) =>
              if negb (rc =? NTG_OK) then Some (rc, r, o) else read_discarded fuel r o
          end
    end.
Proof. done. Qed.

(** What is promised of a run of the reader. *)
Record drained (r : ntg_http_request) (rc : Z) (r' : ntg_http_request) : Prop := {
  dr_rc : rc = NTG_OK \/ rc = NTG_AGAIN \/ rc = NTG_ERROR;
  dr_sync : rc <> NTG_ERROR -> body_sync r';
  dr_again : rc = NTG_AGAIN -> content_length_n (headers_in r') <> 0;
  dr_exact : rc = NTG_OK -> content_length_n (headers_in r') = 0 ->
    content_length_n (headers_in r) <> 0 ->
    buf_pos (in_buffer r') = buf_last (in_buffer r');
  dr_count : chunked (headers_in r) = false -> 0 <= response_length r ->
    response_length r + content_length_n (headers_in r) <= NTG_MAX_OFF_T_VALUE ->
    response_length r' + content_length_n (headers_in r') =
    response_length r + content_length_n (headers_in r);
  dr_place : buf_start (in_buffer r') = buf_start (in_buffer r) /\
    buf_end (in_buffer r') = buf_end (in_buffer r) /\ in_size r' = in_size r;
  dr_handler : read_event_handler r' = read_event_handler r;
  dr_range : rc <> NTG_ERROR -> content_length_n (headers_in r') <= NTG_MAX_OFF_T_VALUE;
  dr_bad : rc = NTG_ERROR -> chunked (headers_in r') = true }.

Lemma body_sync_range r :
  body_sync r -> content_length_n (headers_in r) <> 0 ->
  body_ok r /\ content_length_n (headers_in r) = body_left r /\
  0 < content_length_n (headers_in r).
Proof.
  intros [?|[H1 H2]] Hn; [done|]. split_and!; [done|done|].
  unfold body_ok, body_left in *. destruct (chunked (headers_in r)); [|lia].
  rewrite H2. destruct H1 as (s & Hs & ? & _). unfold ctx_need. rewrite Hs.
  apply need_pos. lia.
Qed.

Lemma read_discarded_spec fuel r o :
  body_sync r -> content_length_n (headers_in r) <= NTG_MAX_OFF_T_VALUE -> room r ->
  existsb stops o = true -> (length o < fuel)%nat ->
  exists rc r' o', read_discarded fuel r o = Some (rc, r', o') /\ drained r rc r'.
Proof.
  revert r o. induction fuel as [|fuel IH]; intros r o Hs Hmax Hroom Ho Hf; [lia|].
  rewrite read_discarded_eq. destruct (Z.eqb_spec (content_length_n (headers_in r)) 0) as [H0|H0].
  { exists NTG_OK, r, o. split; [done|]. split; try done; tauto. }
  destruct (body_sync_range r Hs H0) as (Hok & Hleft & Hpos).
  pose proof Hroom as [R1 R2].
  rewrite u64_small by (unfold NTG_MAX_OFF_T_VALUE in *; width; lia).
  destruct (ntg_http_recv_spec (Z.min (content_length_n (headers_in r)) (in_size r)) o)
    as (n & d & o' & -> & Hlen & Hn); [lia|done|].
  assert (Hw : forall rc, rc <> NTG_OK \/ True -> rc = NTG_OK \/ rc = NTG_AGAIN ->
    exists rc0 r' o0, Some (rc, wiped r, o') = Some (rc0, r', o0) /\ drained r rc0 r').
  { intros rc _ Hrc. exists rc, (wiped r), o'. split; [done|]. split; try done; try tauto.
    intros ->. by destruct Hrc. }
  destruct Hn as [-> |[-> |[-> |(Hn & Hd & Ho')]]].
  { apply Hw; [by right|by right]. }
  { apply Hw; [by right|by left]. }
  { apply Hw; [by right|by left]. }
  rewrite (proj2 (Z.eqb_neq n NTG_AGAIN)), (proj2 (Z.eqb_neq n 0)),
    (proj2 (Z.eqb_neq n NTG_ERROR)) by (unfold NTG_AGAIN, NTG_ERROR; lia). cbn [orb].
  destruct (filled_wf r n d Hroom ltac:(lia) Hd) as (Fw & Fp & Fl).
  destruct (discard_filter_spec (filled r n d) Fw Hok) as (rc & r' & -> & D & Hrc & HD).
  destruct (dis_rc _ _ _ D) as [-> | ->].
  2:{ exists NTG_ERROR, r', o'. split; [done|]. split; try done; try tauto.
      - intros Hch. by specialize (Hrc Hch).
      - rewrite (dis_buf _ _ _ D), (dis_size _ _ _ D). done.
      - apply (dis_handler _ _ _ D).
      - intros _. rewrite (dis_chunked _ _ _ D). destruct (chunked _) eqn:Hch; [done|].
        by specialize (Hrc eq_refl). }
  cbn [Z.eqb NTG_OK negb]. destruct (HD eq_refl) as (Hs' & Hge & Heq). clear HD Hrc.
  destruct D as [_ Db Dp Dsz Dh Dresp Dch Dmore]. specialize (Dmore eq_refl).
  rewrite Fp in Hge, Heq. rewrite Fp, Fl in Dp. rewrite Fl in Dmore.
  change (body_left (filled r n d)) with (body_left r) in *.
  change (chunked (headers_in (filled r n d))) with (chunked (headers_in r)) in *.
  change (response_length (filled r n d)) with (s64 (response_length r + n)) in *.
  change (in_size (filled r n d)) with (in_size r) in *.
  assert (Hroom' : room r').
  { unfold room in *. rewrite Dsz, Db. cbn. lia. }
  assert (Hstep : chunked (headers_in r) = false -> 0 <= response_length r ->
    response_length r + content_length_n (headers_in r) <= NTG_MAX_OFF_T_VALUE ->
    chunked (headers_in r') = false /\ 0 <= response_length r' /\
    response_length r' + content_length_n (headers_in r') =
    response_length r + content_length_n (headers_in r)).
  { intros Hch Hr Hm. specialize (Heq Hch). split; [congruence|].
    rewrite Dresp, s64_small by (unfold NTG_MAX_OFF_T_VALUE in *; width; lia).
    destruct (Z.eq_dec (content_length_n (headers_in r')) 0); lia. }
  destruct (IH r' o' Hs') as (rc & r2 & o2 & E & [I1 I2 I3 I4 I5 I6 IH' I7 I8]); [|done|done|lia|].
  { unfold NTG_MAX_OFF_T_VALUE in *. lia. }
  exists rc, r2, o2. split; [done|]. split; try done.
  - intros -> Hz _. destruct (Z.eq_dec (content_length_n (headers_in r')) 0) as [Hz'|Hz'].
    + destruct fuel; [done|]. rewrite read_discarded_eq, Hz' in E. injection E as <- <-.
      assert (buf_last (in_buffer r') = buf_start (in_buffer r) + n) as ->
        by (rewrite Db; exact Fl). lia.
    + by apply I4.
  - intros Hch Hr Hm. destruct (Hstep Hch Hr Hm) as (H1 & H2 & H3).
    rewrite (I5 H1 H2) by lia. done.
  - rewrite (proj1 I6), (proj1 (proj2 I6)), (proj2 (proj2 I6)), Dsz, Db. done.
  - rewrite IH'. exact Dh.
Qed.

(** C4: reading a body of announced or chunked length, with any outcomes of the
    socket that end in one that stops the reader: the loop ends; it never takes
    a byte that lies behind the body (when the whole body has been read, every
    byte received has been consumed); after [NTG_AGAIN] the expected length is
    that of the body still to come, so that the next event can resume; and with
    an announced length the count of received bytes is exact. *)
Theorem read_discarded_exact r o :
  body_sync r -> content_length_n (headers_in r) <= NTG_MAX_OFF_T_VALUE -> room r ->
  existsb stops o = true ->
  exists rc r' o', ntg_http_read_discarded_request_body r o = Some (rc, r', o') /\
    drained r rc r'.
Proof. intros. apply read_discarded_spec; try done. lia. Qed.

(** ** A complete chunked body *)

Lemma discard_chunked_whole fuel r s w0 w pl rest :
  chunked_body w pl -> chunked_sw_of (chunk_state (rq_chunked r)) = Some s ->
  chunk_size (rq_chunked r) = 0 -> chunk_front s w0 -> buf_wf (in_buffer r) ->
  buf_data (in_buffer r) = w0 ++ w ++ rest -> (length w < fuel)%nat ->
  exists r', discard_chunked fuel r = Some (NTG_OK, r') /\
    content_length_n (headers_in r') = 0 /\
    keepalive r' = negb (connection_close (headers_in r)) /\
    chunk_state (rq_chunked r') = 0 /\
    in_buffer r' = set_buf_pos (buf_pos (in_buffer r) + Z.of_nat (length (w0 ++ w)))
                     (in_buffer r).
Proof.
  intros Hb. revert fuel r s w0. induction Hb as [w t Hw Ht|w data e body pl Hw Hne Hle He Hb IH];
    intros fuel r s w0 Hs Hz Hf Hwf Hd Hfuel; (destruct fuel as [|fuel]; [lia|]); cbn [discard_chunked].
  - rewrite <-app_assoc in Hd.
    rewrite (parse_last_chunk _ _ s w0 w t rest Hs Hz Hf Hw Ht Hd).
    cbn [Z.eqb NTG_DONE NTG_OK]. eexists. split; [done|]. cbn. done.
  - assert (Hk : data ++ e ++ body ++ rest <> []) by (destruct data; done).
    rewrite (parse_next_chunk _ _ s w0 w (Z.of_nat (length data)) (data ++ e ++ body ++ rest) Hs Hz Hf Hw);
      [|split; [destruct data; [done|cbn [length]; lia]|done]|done|by rewrite Hd, <-!app_assoc].
    cbn [Z.eqb NTG_OK].
    destruct (buf_data_set_pos (in_buffer r) (Z.of_nat (length (w0 ++ w ++ data)))
      (w0 ++ w ++ data) (e ++ body ++ rest) Hwf) as [Hd2 Hwf2];
      [by rewrite Hd, <-!app_assoc|done|].
    pose proof (buf_data_length _ Hwf2) as Hl2. rewrite Hd2, !length_app in Hl2.
    cbn [buf_last buf_pos set_buf_pos chunk_size].
    cbn [buf_last buf_pos set_buf_pos] in Hl2.
    rewrite Z.gtb_ltb, (proj2 (Z.ltb_lt _ _)).
    2:{ rewrite !length_app. destruct He as [-> | ->]; cbn [length] in Hl2; lia. }
    edestruct (IH fuel) with (s := sw_chunk_data) (w0 := e) as (r' & E & H1 & H2 & H3 & H4);
      last first.
    + eexists. split; [exact E|]. split_and!; [done|done|done|]. rewrite H4. cbn.
      unfold set_buf_pos. cbn. f_equal. len_lia.
    + rewrite !length_app in Hfuel. destruct w; [|cbn [length] in Hfuel; lia].
      destruct Hw as (ds & ? & ? & Hw & Hds & _). by destruct ds.
    + etransitivity; [|exact Hd2]. cbn. unfold set_buf_pos. cbn. do 2 f_equal. len_lia.
    + cbn. unfold set_buf_pos in *. cbn in *. replace (_ + _ + _) with
        (buf_pos (in_buffer r) + Z.of_nat (length (w0 ++ w ++ data))) by len_lia. done.
    + by right.
    + done.
    + done.
Qed.

(** A complete chunked body, with any split of its payload into chunks, any
    extensions and any trailer, is recognised: the filter reports that nothing
    is left, the keep-alive flag follows the "Connection" header, and the
    buffer is left at the first byte after the body. *)
Theorem discard_chunked_correct r w payload rest :
  chunked (headers_in r) = true -> chunked_body w payload ->
  chunk_state (rq_chunked r) = 0 -> chunk_size (rq_chunked r) = 0 ->
  buf_wf (in_buffer r) -> buf_data (in_buffer r) = w ++ rest ->
  exists r', ntg_http_discard_request_body_filter r = Some (NTG_OK, r') /\
    content_length_n (headers_in r') = 0 /\
    keepalive r' = negb (connection_close (headers_in r)) /\
    buf_data (in_buffer r') = rest.
Proof.
  intros Hch Hb Hst Hsz Hwf Hd. unfold ntg_http_discard_request_body_filter. rewrite Hch.
  destruct (discard_chunked_whole (2 + length (buf_data (in_buffer r))) r sw_chunk_start [] w
    payload rest Hb) as (r' & E & H1 & H2 & _ & H4); try done.
  - by rewrite Hst.
  - by left.
  - rewrite Hd. len_lia.
  - exists r'. split_and!; try done. rewrite H4.
    by apply (buf_data_set_pos (in_buffer r) _ w rest Hwf Hd).
Qed.

(** ** Examples *)

Definition example_chunked : bytes :=
  str "3;x" ++ [CR; LF] ++ str "abc" ++ [CR; LF] ++ str "0" ++ [CR; LF] ++ [CR; LF].

Definition body_request (d : bytes) : ntg_http_request :=
  set_headers_in (HeadersIn 0 [] (-1) false true)
    (request_zero |> set_in_buffer (example_buf d) |> set_rq_chunked (HttpChunked 0 0 0)).

Lemma example_chunked_body : chunked_body example_chunked (str "abc").
Proof.
  change example_chunked with
    ((str "3;x" ++ [CR; LF]) ++ str "abc" ++ [CR; LF] ++ ((str "0" ++ [CR; LF]) ++ [CR; LF])).
  rewrite <-(app_nil_r (str "abc")). rewrite (app_nil_r (str "abc")) at 1.
  apply body_chunk; try done.
  - exists (str "3"), (str ";x"), [CR; LF]. split_and!; try done; [|by right].
    right. by exists (ch ";"), (str "x").
  - by right.
  - apply body_last; [|constructor; by right].
    exists (str "0"), [], [CR; LF]. split_and!; try done; [by left|by right].
Qed.

Lemma discard_chunked_correct_witness :
  exists r', ntg_http_discard_request_body_filter (body_request (example_chunked ++ str "next")) =
      Some (NTG_OK, r') /\
    content_length_n (headers_in r') = 0 /\ buf_data (in_buffer r') = str "next".
Proof.
  destruct (discard_chunked_correct (body_request (example_chunked ++ str "next"))
    example_chunked (str "abc") (str "next")) as (r' & E & H1 & _ & H2); try reflexivity.
  - exact example_chunked_body.
  - by apply (bool_decide_eq_true_1 _).
  - exists r'. split; [exact E|]. split; [exact H1|exact H2].
Defined.

Definition length_request : ntg_http_request :=
  set_headers_in (HeadersIn 0 [] 5 false false)
    (request_zero |> set_in_buffer (Buf 1000 1000 1000 1004 (repeat 0 4)) |> set_in_size 4).

Lemma read_discarded_exact_witness :
  exists rc r' o', ntg_http_read_discarded_request_body length_request
      [RecvData (str "abc"); RecvEintr; RecvData (str "de"); RecvEagain] = Some (rc, r', o') /\
    drained length_request rc r'.
Proof.
  apply read_discarded_exact.
  - right. split; [|reflexivity]. unfold body_ok, NTG_MAX_OFF_T_VALUE. cbn. lia.
  - unfold NTG_MAX_OFF_T_VALUE. cbn. lia.
  - unfold room, NTG_MAX_OFF_T_VALUE. cbn. lia.
  - reflexivity.
Defined.
