(* ===== verification/HttpConn.v ===== *)
(** * The life of a connection

    The composition of the handlers (HttpResponse.v): whatever the server
    sends and however it is cut into reads, every event either ends the request
    or leaves it ready for the next event. *)

From S2P Require Import Prelude NtgString HttpTypes HttpStatusLine HttpHeaderLine HttpChunked HttpRequest HttpResponse HttpHead HttpBody.

(** ** The status line *)

(** The start of the text is known once the code has been read. *)
Definition status_ok (s : status_sw) (st : ntg_http_status) : Prop :=
  match s with
  | sw_space_after_status | sw_status_text | HttpStatusLine.sw_almost_done => is_Some (status_start st)
  | _ => True
  end.

(** The parser of the status line leaves the fields of the header parser. *)
Definition same_low (r r' : hparse) : Prop :=
  lowcase_header r' = lowcase_header r /\ lowcase_index r' = lowcase_index r.

Lemma status_step_conn p c s r st :
  status_ok s st ->
  match status_step p c (s, r, st) with
  | inl (s', r', st') => status_ok s' st' /\ same_low r r'
  | inr (StatusDone p' r' st') => p' = p /\ is_Some (status_start st') /\ same_low r r'
  | inr (StatusError _ _) => True
  end.
Proof.
  destruct s; cbn [status_step status_ok]; intros Hs; repeat case_match; simplify_eq; cbn;
    try done.
Qed.

Lemma status_scan_conn data p s r st :
  status_ok s st ->
  match scan status_step p data (s, r, st) with
  | inl (s', r', st') => status_ok s' st' /\ same_low r r'
  | inr (StatusDone p' r' st') => p <= p' < p + Z.of_nat (length data) /\
      is_Some (status_start st') /\ same_low r r'
  | inr (StatusError _ _) => True
  end.
Proof.
  revert p s r st. induction data as [|c data IH]; intros p s r st Hs; cbn [scan length]; [done|].
  pose proof (status_step_conn p c s r st Hs) as H.
  destruct (status_step p c (s, r, st)) as [[[s' r'] st']|[r' st'|p' r' st']]; [|done|].
  - destruct H as [H [E1 E2]]. specialize (IH (p + 1) s' r' st' H). unfold same_low in *.
    destruct (scan _ _ _ _) as [[[? ?] ?]|[|]]; [|done|]; rewrite E1, E2 in IH; intuition lia.
  - destruct H as [-> H]. split; [lia|done].
Qed.

(** ** The head *)

(** The request while its head is being received. *)
Definition head_phase (r : ntg_http_request) : Prop :=
  match process_header r with
  | PROCESS_NULL => False
  | PROCESS_STATUS_LINE =>
      buf_wf (in_buffer r) /\ lowcase_inv (lowcase_index (rq_parse r)) (rq_parse r) /\
      exists s, status_sw_of (r_state (rq_parse r)) = Some s /\ status_ok s (rq_status r)
  | PROCESS_HEADER => head_inv r
  end.

(** What a verdict on the head leaves for the rest of the handler. *)
Record head_verdict (r : ntg_http_request) (rc : Z) (r' : ntg_http_request) : Prop := {
  hv_buf : in_buffer r' = set_buf_pos (buf_pos (in_buffer r')) (in_buffer r);
  hv_pos : buf_pos (in_buffer r) <= buf_pos (in_buffer r') <= buf_last (in_buffer r);
  hv_again : rc = NTG_AGAIN -> head_phase r';
  hv_len : length_ok (headers_in r) -> length_ok (headers_in r');
  hv_frame : in_size r' = in_size r /\ rq_chunked r' = rq_chunked r /\
    read_event_handler r' = read_event_handler r }.

Lemma head_done_verdict r rc r' :
  head_done r rc r' -> process_header r = PROCESS_HEADER -> head_verdict r rc r'.
Proof.
  intros [D1 D2 D3 D4 D5 (D6 & D7 & D8 & D9)] Hp. split; try done.
  intros Hrc. unfold head_phase. rewrite D9, Hp. by apply D4.
Qed.

Lemma process_header_verdict r :
  head_inv r -> process_header r = PROCESS_HEADER ->
  exists rc r', ntg_http_process_header r = Some (rc, r') /\ head_verdict r rc r'.
Proof.
  intros Hi Hp. destruct (process_header_loop_total (S (length (buf_data (in_buffer r)))) r Hi)
    as (rc & r' & E & D); [lia|].
  exists rc, r'. split; [done|]. by apply head_done_verdict.
Qed.

(** A step that consumes some data and keeps the rest. *)
Lemma head_verdict_trans r q r2 rc r' :
  in_buffer r2 = set_buf_pos q (in_buffer r) ->
  buf_pos (in_buffer r) <= q <= buf_last (in_buffer r) ->
  (length_ok (headers_in r) -> length_ok (headers_in r2)) ->
  in_size r2 = in_size r -> rq_chunked r2 = rq_chunked r ->
  read_event_handler r2 = read_event_handler r ->
  head_verdict r2 rc r' -> head_verdict r rc r'.
Proof.
  intros Eb Hq Hl E1 E2 E3 [V1 V2 V3 V4 (V5 & V6 & V7)]. rewrite Eb in V1, V2. cbn in V1, V2.
  split; try done; [lia|auto|]. split_and!; congruence.
Qed.

Lemma process_status_line_verdict pn r :
  head_phase r -> process_header r = PROCESS_STATUS_LINE ->
  exists rc r', ntg_http_process_status_line pn r = Some (rc, r') /\ head_verdict r rc r'.
Proof.
  unfold head_phase. intros Hi Hp. rewrite Hp in Hi. destruct Hi as (Hwf & Hlc & s & Hs & Hst).
  unfold ntg_http_process_status_line, ntg_http_parse_status_line. rewrite Hs.
  pose proof (buf_data_length _ Hwf) as Hlen.
  pose proof (status_scan_conn (buf_data (in_buffer r)) (buf_pos (in_buffer r)) s (rq_parse r)
    (rq_status r) Hst) as H.
  destruct (scan _ _ _ _) as [[[s' hp] st]|[hp st|p hp st]].
  - destruct H as [H [E1 E2]]. eexists _, _. split; [done|]. destruct Hwf as (? & ? & ?).
    split; cbn; try done; [lia|]. intros _. unfold head_phase. cbn. rewrite Hp.
    split_and!; [unfold buf_wf; cbn; lia| |].
    + unfold lowcase_inv in *. cbn. by rewrite E1, E2.
    + exists s'. by rewrite status_sw_of_num.
  - eexists _, _. split; [done|]. destruct Hwf. split; cbn; try done; try lia.
    by destruct (in_buffer r).
  - destruct H as (Hpr & [a Ha] & [E1 E2]). cbn [Z.eqb NTG_OK NTG_AGAIN NTG_ERROR].
    set (st' := match status_end st with None => _ | Some _ => _ end).
    assert (status_start (set_http_version (http_major hp * 1000 + http_minor hp) st') = Some a) as Ha'.
    { subst st'. by destruct (status_end st). }
    assert (exists e, status_end (set_http_version (http_major hp * 1000 + http_minor hp) st') = Some e)
      as [e He].
    { subst st'. destruct (status_end st) eqn:Ee; cbn; [rewrite Ee|]; by eexists. }
    cbn [set_rq_status status_start status_end rq_status].
    rewrite Ha', He. cbn [mbind option_bind].
    set (q := p + 1). set (hp' := set_r_state (status_sw_num HttpStatusLine.sw_start) hp).
    set (st2 := set_http_version _ st').
    set (r1 := r |> set_rq_parse hp' |> set_in_buffer (set_buf_pos q (in_buffer r))
                 |> set_rq_status st2).
    set (r2 := if up_status r1 =? 0 then set_up_status (code st2) r1 else r1).
    assert (Hr2 : exists u, r2 = set_up_status u r1).
    { subst r2. destruct (up_status r1 =? 0); [by eexists|]. exists (up_status r1). by destruct r1. }
    destruct Hr2 as [u ->]. destruct Hwf as (W1 & W2 & W3).
    destruct pn; cbn [negb].
    2:{ eexists _, _. split; [done|]. split; cbn; try done; lia. }
    set (r3 := set_headers_in (set_status_line _ _) _).
    set (r4 := if _ <? _ then _ else _).
    assert (Hr4 : exists hin, r4 = set_headers_in hin (set_up_status u r1) /\
      content_length_n hin = content_length_n (headers_in r)).
    { subst r4 r3. destruct (_ <? _); by eexists. }
    destruct Hr4 as (hin & -> & Hcl).
    destruct (process_header_verdict (set_process_header PROCESS_HEADER
      (set_headers_in hin (set_up_status u r1)))) as (rc & r' & E & V); [|done|].
    + split_and!; [unfold buf_wf; subst q; cbn; lia| |by exists sw_start].
      unfold lowcase_inv in *. cbn. by rewrite E1, E2.
    + exists rc, r'. split; [exact E|]. revert V. apply (head_verdict_trans r q); try done.
      * subst q. lia.
      * unfold length_ok. cbn. by rewrite Hcl.
Qed.

(** ** The events *)

(** Ready for the next read event. *)
Definition conn_inv (r : ntg_http_request) : Prop :=
  room r /\ buf_start (in_buffer r) <> 0 /\ length_ok (headers_in r) /\
  match read_event_handler r with
  | READ_NULL => False
  | READ_HEADER =>
      head_phase r /\ buf_last (in_buffer r) < buf_end (in_buffer r) /\ ctx_inv (rq_chunked r)
  | READ_DISCARD => body_sync r
  end.

(** The framing of a chunked body was wrong: the code takes the error for
    [NTG_AGAIN] and waits on. *)
Definition malformed (r : ntg_http_request) : Prop :=
  read_event_handler r = READ_DISCARD /\ chunked (headers_in r) = true.

(** How a handler of a read event leaves the request. *)
Definition outcome (ra : ntg_http_request * action) : Prop :=
  match ra.2 with
  | ActFinal => req_state ra.1 = NTG_REQ_STATE_DONE \/ req_state ra.1 = NTG_REQ_STATE_NEXT
  | ActWaitRead => conn_inv ra.1 \/ malformed ra.1
  | ActWaitWrite => False
  end.

Lemma finish_outcome s r :
  s = NTG_REQ_STATE_DONE \/ s = NTG_REQ_STATE_NEXT -> outcome (finish s r).
Proof. by intros [-> | ->]; [left|right]. Qed.

Lemma finish_by_index_outcome r : outcome (finish_by_index r).
Proof. unfold finish_by_index. destruct (index r =? 1); apply finish_outcome; tauto. Qed.

Lemma finish_next_outcome r : outcome (finish NTG_REQ_STATE_NEXT r).
Proof. apply finish_outcome. tauto. Qed.

#[local] Hint Resolve finish_outcome finish_by_index_outcome finish_next_outcome : ntg.

(** What the reader of the body keeps. *)
Definition body_ready (r : ntg_http_request) : Prop :=
  room r /\ buf_start (in_buffer r) <> 0 /\ length_ok (headers_in r) /\ body_sync r.

Lemma length_ok_max hin : length_ok hin -> content_length_n hin <= NTG_MAX_OFF_T_VALUE.
Proof. unfold length_ok, is_s64, NTG_MAX_OFF_T_VALUE. lia. Qed.

(** The filter and the reader keep the place of the buffer and the length in
    range. *)
Lemma discarded_ready r rc r' :
  discarded r rc r' -> rc = NTG_OK -> room r -> buf_start (in_buffer r) <> 0 ->
  room r' /\ buf_start (in_buffer r') <> 0 /\ length_ok (headers_in r').
Proof.
  intros [D1 D2 D3 D4 DH D5 D6 D7] Hrc [R1 R2] Hb. unfold room, length_ok, is_s64.
  rewrite D2, D4. cbn. split; [lia|]. split; [done|]. specialize (D7 Hrc).
  destruct (Z.eq_dec (content_length_n (headers_in r')) 0) as [->|H]; [lia|].
  specialize (D7 H). unfold NTG_MAX_OFF_T_VALUE in D7. lia.
Qed.

(** One run of the reader, as the handlers use it. *)
Lemma read_ready r o :
  body_ready r -> existsb stops o = true ->
  exists rc r' o', ntg_http_read_discarded_request_body r o = Some (rc, r', o') /\
    rc < NTG_HTTP_SPECIAL_RESPONSE /\ read_event_handler r' = read_event_handler r /\
    (body_ready r' \/ (rc = NTG_ERROR /\ chunked (headers_in r') = true)).
Proof.
  intros (R & Hb & Hl & Hs) Ho.
  destruct (read_discarded_spec (S (length o)) r o Hs (length_ok_max _ Hl) R Ho ltac:(lia))
    as (rc & r' & o' & E & [D1 D2 _ _ _ (P1 & P2 & P3) DH D7 D8]).
  exists rc, r', o'. split; [exact E|]. split.
  { unfold NTG_HTTP_SPECIAL_RESPONSE. destruct D1 as [-> |[-> | ->]]; unfold NTG_OK, NTG_AGAIN, NTG_ERROR; lia. }
  split; [done|]. destruct (Z.eq_dec rc NTG_ERROR) as [->|Hne]; [right; auto|left]. specialize (D2 Hne).
  unfold body_ready, room in *. rewrite P1, P2, P3. split_and!; try done; try lia.
  specialize (D7 Hne). unfold length_ok, is_s64, NTG_MAX_OFF_T_VALUE in *.
  destruct (Z.eq_dec (content_length_n (headers_in r')) 0) as [->|H]; [lia|].
  destruct (body_sync_range r' D2 H) as (_ & _ & ?). lia.
Qed.

(** After the reader: done, or wait for more. *)
Lemma wait_outcome rc r :
  body_ready r \/ (rc = NTG_ERROR /\ chunked (headers_in r) = true) ->
  outcome (set_read_event_handler READ_DISCARD r, ActWaitRead).
Proof.
  intros [(R & Hb & Hl & Hs)|[_ Hc]]; [left|right; by split].
  unfold conn_inv, room in *. cbn. done.
Qed.

Lemma discarded_handler_total ea r o :
  body_ready r -> read_event_handler r = READ_DISCARD -> existsb stops o = true ->
  exists ra o', ntg_http_discarded_request_body_handler ea r o = Some (ra, o') /\ outcome ra.
Proof.
  intros Hr Hh Ho. unfold ntg_http_discarded_request_body_handler.
  destruct (read_ready r o Hr Ho) as (rc & r' & o' & -> & Hrc & Hh' & Hr').
  destruct (rc =? NTG_OK); [eexists _, _; split; [done|]; auto with ntg|].
  rewrite Z.geb_leb, (proj2 (Z.leb_gt _ _)) by done.
  destruct ea; cbn [negb]; eexists _, _; (split; [done|]); auto with ntg.
  replace r' with (set_read_event_handler READ_DISCARD r')
    by (rewrite <-Hh, <-Hh'; by destruct r'). by apply (wait_outcome rc).
Qed.

Lemma read_rest_total ea r o :
  body_ready r -> existsb stops o = true ->
  exists rc ra o',
    match ntg_http_read_discarded_request_body r o with
    | None => None
    | Some (rc, r, o) =>
        if rc =? NTG_OK then Some (NTG_OK, finish NTG_REQ_STATE_NEXT r, o)
        else if rc >=? NTG_HTTP_SPECIAL_RESPONSE then Some (rc, finish NTG_REQ_STATE_NEXT r, o)
        else
          let r := set_read_event_handler READ_DISCARD r in
          if negb ea then Some (NTG_ERROR, finish_by_index r, o)
          else Some (NTG_OK, (r, ActWaitRead), o)
    end = Some (rc, ra, o') /\ outcome ra.
Proof.
  intros Hr Ho. destruct (read_ready r o Hr Ho) as (rc & r' & o' & -> & Hrc & Hh' & Hr').
  destruct (rc =? NTG_OK); [eexists _, _, _; split; [done|]; auto with ntg|].
  rewrite Z.geb_leb, (proj2 (Z.leb_gt _ _)) by done.
  destruct ea; cbn [negb]; eexists _, _, _; (split; [done|]); [|auto with ntg].
  by apply (wait_outcome rc).
Qed.

Lemma discard_response_total ea r o :
  buf_wf (in_buffer r) -> room r -> buf_start (in_buffer r) <> 0 -> length_ok (headers_in r) ->
  ctx_inv (rq_chunked r) -> existsb stops o = true ->
  exists rc ra o', ntg_http_discard_response_body ea r o = Some (rc, ra, o') /\ outcome ra.
Proof.
  intros Hwf R Hb Hl Hc Ho. unfold ntg_http_discard_response_body.
  destruct ((content_length_n (headers_in r) <=? 0) && negb (chunked (headers_in r))) eqn:Hnone.
  { eexists _, _, _. split; [done|]. auto with ntg. }
  assert (Hok : body_ok r /\ (chunked (headers_in r) = false -> body_left r = content_length_n (headers_in r))).
  { unfold body_ok, body_left. destruct (chunked (headers_in r)); cbn [negb] in Hnone; [done|].
    rewrite andb_true_r in Hnone. apply length_ok_max in Hl. split; [lia|done]. }
  destruct (negb _ || _) eqn:Hsz.
  - destruct (discard_filter_spec r Hwf (proj1 Hok)) as (rc & r' & -> & D & _ & HD).
    destruct (content_length_n _ =? 0); [eexists _, _, _; split; [done|]; auto with ntg|].
    destruct (Z.eqb_spec rc NTG_OK) as [Hrc|Hrc]; cbn [negb andb].
    + apply read_rest_total; [|done]. destruct (discarded_ready _ _ _ D Hrc R Hb) as (? & ? & ?).
      split_and!; try done. by apply HD.
    + assert (rc = NTG_ERROR) as -> by (destruct (dis_rc _ _ _ D); done).
      eexists _, _, _. split; [done|]. auto with ntg.
  - apply read_rest_total; [|done]. split_and!; try done. apply orb_false_iff in Hsz as [_ Hch].
    right. split; [apply Hok|]. symmetry. by apply Hok.
Qed.

(** Receiving into the free part of the buffer. *)
Lemma buf_store_wf d b :
  buf_wf b -> Z.of_nat (length d) <= buf_end b - buf_last b ->
  buf_wf (buf_store d b) /\ buf_pos (buf_store d b) = buf_pos b /\
  buf_last (buf_store d b) = buf_last b + Z.of_nat (length d) /\
  buf_start (buf_store d b) = buf_start b /\ buf_end (buf_store d b) = buf_end b.
Proof.
  intros (W1 & W2 & W3) Hd. unfold buf_wf, buf_store. cbn.
  rewrite !length_app, length_take, length_drop. lia.
Qed.

(** ** Receiving the head *)

Lemma head_phase_store d r n :
  head_phase r -> Z.of_nat (length d) <= buf_end (in_buffer r) - buf_last (in_buffer r) ->
  head_phase (r |> set_in_buffer (buf_store d (in_buffer r)) |> set_response_length n).
Proof.
  unfold head_phase, head_inv. cbn [process_header set_response_length set_in_buffer].
  intros Hp Hd. destruct (process_header r); [done| |].
  - destruct Hp as (Hwf & H). destruct (buf_store_wf d _ Hwf Hd) as (? & _). by split.
  - destruct Hp as (Hwf & Hlc & s & H1 & H2 & H3).
    destruct (buf_store_wf d _ Hwf Hd) as (? & Ep & _ & Es & _). split; [done|]. split; [done|].
    exists s. cbn [in_buffer rq_parse set_response_length set_in_buffer]. by rewrite Ep, Es.
Qed.

Lemma head_phase_wf r : head_phase r -> buf_wf (in_buffer r).
Proof.
  unfold head_phase, head_inv. destruct (process_header r); tauto.
Qed.

(** The request while the head is received, apart from the pending handler. *)
Definition head_ready (r : ntg_http_request) : Prop :=
  room r /\ buf_start (in_buffer r) <> 0 /\ length_ok (headers_in r) /\ head_phase r /\
  buf_last (in_buffer r) < buf_end (in_buffer r) /\ ctx_inv (rq_chunked r).

Lemma call_process_header_verdict pn r :
  head_phase r -> exists rc r', call_process_header pn r = Some (rc, r') /\ head_verdict r rc r'.
Proof.
  intros Hp. pose proof Hp as Hp'. unfold head_phase in Hp'. unfold call_process_header.
  destruct (process_header r) eqn:E; [done| |].
  - by apply process_status_line_verdict.
  - by apply process_header_verdict.
Qed.

Lemma ntg_http_recv_length size o n d o' :
  0 < size -> ntg_http_recv size o = Some (n, d, o') -> 0 < n -> n = Z.of_nat (length d).
Proof.
  intros Hs. induction o as [|x o IH]; cbn [ntg_http_recv]; [done|]. destruct x; intros E Hn;
    simplify_eq; try done. by apply IH.
Qed.

(** What the loop leaves: a verdict on the head, with the body to be read, or
    the end of the handler. *)
Definition loop_result (ea : bool) (res : Z * ntg_http_request + ntg_http_request * action) : Prop :=
  match res with
  | inl (rc, r) => room r /\ buf_start (in_buffer r) <> 0 /\ length_ok (headers_in r) /\
      buf_wf (in_buffer r) /\ ctx_inv (rq_chunked r)
  | inr (r, a) => a = ActWaitRead /\ head_ready r \/
      a = ActFinal /\ (req_state r = NTG_REQ_STATE_DONE \/ req_state r = NTG_REQ_STATE_NEXT)
  end.

Lemma finish_by_index_result ea r : loop_result ea (inr (finish_by_index r)).
Proof.
  right. unfold finish_by_index. destruct (index r =? 1); cbn; tauto.
Qed.

Lemma handler_header_loop_total fuel ea pn r o :
  head_ready r -> existsb stops o = true -> (length o < fuel)%nat ->
  exists res o', handler_header_loop fuel ea pn r o = Some (res, o') /\ loop_result ea res /\
    (match res with inl (_, r') | inr (r', _) =>
       read_event_handler r' = read_event_handler r end) /\
    (match res with inl _ => existsb stops o' = true | _ => True end).
Proof.
  revert r o. induction fuel as [|fuel IH]; intros r o (R & Hb & Hl & Hp & Hroom & Hc) Ho Hf; [lia|].
  cbn [handler_header_loop].
  destruct (ntg_http_recv_spec (buf_end (in_buffer r) - buf_last (in_buffer r)) o)
    as (n & d & o' & E & Hlen & Hn); [lia|done|].
  rewrite E. destruct Hn as [-> |[-> |[-> |(Hn & Hd & Ho')]]].
  - eexists _, _. split; [done|]. destruct ea; split_and!; try done.
    + left. split; [done|]. split_and!; done.
    + apply finish_by_index_result.
  - eexists _, _. split; [done|]. split_and!; try done. apply finish_by_index_result.
  - eexists _, _. split; [done|]. split_and!; try done. apply finish_by_index_result.
  - rewrite (proj2 (Z.eqb_neq n NTG_AGAIN)), (proj2 (Z.eqb_neq n NTG_ERROR)),
      (proj2 (Z.eqb_neq n 0)) by (unfold NTG_AGAIN, NTG_ERROR; lia). cbn [orb].
    pose proof (head_phase_store d r (s64 (response_length r + n)) Hp ltac:(lia)) as Hp2.
    destruct (buf_store_wf d _ (head_phase_wf _ Hp) ltac:(lia)) as (W & Ep & Ela & Es & Ee).
    set (r2 := r |> set_in_buffer _ |> set_response_length _) in *.
    assert (Hr2 : in_buffer r2 = buf_store d (in_buffer r)) by done.
    destruct (call_process_header_verdict pn r2 Hp2) as (rc & r' & -> & [V1 V2 V3 V4 (V5 & V6 & V7)]).
    rewrite Hr2 in V1, V2. 
    assert (Hplace : buf_start (in_buffer r') = buf_start (in_buffer r) /\
      buf_end (in_buffer r') = buf_end (in_buffer r) /\
      buf_last (in_buffer r') = buf_last (in_buffer r) + n).
    { rewrite V1. cbn [buf_start buf_end buf_last set_buf_pos]. rewrite Es, Ee, Ela. lia. }
    destruct Hplace as (P1 & P2 & P3).
    assert (Hroom' : room r') by (unfold room in *; rewrite P1, P2, V5; done).
    assert (Hwf' : buf_wf (in_buffer r')).
    { destruct W as (? & ? & ?). rewrite V1. unfold buf_wf. cbn [buf_start buf_end buf_last
        buf_mem buf_pos set_buf_pos]. lia. }
    destruct (Z.eqb_spec rc NTG_AGAIN) as [Hrc|Hrc].
    + destruct (Z.eqb_spec (buf_last (in_buffer r')) (buf_end (in_buffer r'))) as [Hfull|Hfull].
      * eexists _, _. split; [done|]. split_and!; try done. apply finish_by_index_result.
      * destruct (IH r' o') as (res & o2 & E2 & H1 & H2 & H3); [|done|lia|].
        { split_and!; try done; try congruence;
            [auto|auto|destruct Hwf' as (? & ? & ?); lia|by rewrite V6]. }
        exists res, o2. split_and!; try done. destruct res as [[? ?]|[? ?]]; by rewrite H2, V7.
    + eexists _, _. split; [done|]. split_and!; try done.
      split_and!; try done; [congruence|auto|by rewrite V6].
Qed.

Lemma finish_by_index_handler r :
  read_event_handler (finish_by_index r).1 = read_event_handler r.
Proof. unfold finish_by_index. by destruct (index r =? 1). Qed.

Lemma handler_header_total pa ea pn gt r o :
  head_ready r -> read_event_handler r = READ_HEADER -> existsb stops o = true ->
  exists ra o', ntg_http_handler_header pa ea pn gt r o = Some (ra, o') /\ outcome ra.
Proof.
  intros Hr Hh Ho. pose proof Hr as (_ & Hb & _). unfold ntg_http_handler_header.
  rewrite (proj2 (Z.eqb_neq _ 0)) by done. cbn [andb].
  destruct (handler_header_loop_total (S (length o)) ea pn r o Hr Ho ltac:(lia))
    as (res & o' & -> & Hres & Hh' & Hs).
  destruct res as [[rc r']|[r' a]].
  - destruct Hres as (R & Hb' & Hl & Hwf & Hc).
    destruct (_ =? NTG_HTTP_PARSE_INVALID_HEADER); [eexists _, _; split; [done|]; auto with ntg|].
    destruct (rc =? NTG_ERROR); [eexists _, _; split; [done|]; auto with ntg|].
    destruct gt; cbn [negb]; [|eexists _, _; split; [done|]; auto with ntg].
    destruct (_ >=? _); [eexists _, _; split; [done|]; auto with ntg|].
    unfold ntg_http_filter_init. set (r2 := if _ || _ then _ else _).
    assert (Hr2 : exists l k, r2 = r' |> set_rq_length l |> set_keepalive k).
    { subst r2. repeat split_test; eexists _, _; try reflexivity;
        instantiate (1 := keepalive r'); by destruct r'. }
    destruct Hr2 as (l & k & ->). cbn [Z.eqb NTG_OK NTG_ERROR].
    destruct (_ =? 0); [eexists _, _; split; [done|]; auto with ntg|].
    destruct (discard_response_total ea (r' |> set_rq_length l |> set_keepalive k) o')
      as (rc2 & ra & o2 & -> & Hra); try done.
    by eexists _, _.
  - destruct Hres as [[-> Hr']|[-> Hr']]; (eexists _, _; split; [done|]); [|done].
    left. unfold conn_inv. cbn [fst]. rewrite Hh', Hh. destruct Hr' as (?&?&?&?&?&?). done.
Qed.


(** ** Sending *)

(** The outcomes of [send] after which the writer comes back. *)
Definition stops_send (x : sys_send) : bool :=
  match x with SendData _ => false | _ => true end.

(** A request whose text is being sent, as [ntg_http_reuse_request] leaves it. *)
Definition fresh (r : ntg_http_request) : Prop :=
  0 < in_size r <= NTG_MAX_OFF_T_VALUE /\ length_ok (headers_in r) /\
  lowcase_inv (lowcase_index (rq_parse r)) (rq_parse r) /\ ctx_inv (rq_chunked r).

Definition send_outcome (ra : ntg_http_request * action) : Prop :=
  match ra.2 with
  | ActFinal => req_state ra.1 = NTG_REQ_STATE_DONE \/ req_state ra.1 = NTG_REQ_STATE_NEXT
  | ActWaitRead => conn_inv ra.1 /\ buf_pos (out_buffer ra.1) = buf_last (out_buffer ra.1)
  | ActWaitWrite => fresh ra.1
  end.

Lemma finish_by_index_send r : send_outcome (finish_by_index r).
Proof. exact (finish_by_index_outcome r). Qed.

#[local] Hint Resolve finish_by_index_send : ntg.

Lemma write_loop_total fuel ea r o :
  fresh r -> existsb stops_send o = true -> (length o < fuel)%nat ->
  exists res o', write_loop fuel ea r o = Some (res, o') /\
    match res with
    | inl r' => fresh r' /\ buf_pos (out_buffer r') = buf_last (out_buffer r')
    | inr ra => send_outcome ra /\ ra.2 <> ActWaitRead
    end.
Proof.
  revert r o. induction fuel as [|fuel IH]; intros r o Hr Ho Hf; [lia|]. cbn [write_loop].
  destruct (Z.eqb_spec (buf_last (out_buffer r) - buf_pos (out_buffer r)) 0) as [H0|H0].
  { eexists _, _. split; [done|]. split; [done|lia]. }
  assert (Hfin : forall r0, send_outcome (finish_by_index r0) /\ (finish_by_index r0).2 <> ActWaitRead).
  { intros r0. split; [auto with ntg|done]. }
  destruct o as [|x o]; [done|]. cbn [existsb length] in Ho, Hf. destruct x as [n|[|]| |].
  - apply IH; [exact Hr|done|lia].
  - eexists _, _. split; [done|]. destruct ea; [by split|apply Hfin].
  - eexists _, _. split; [done|]. apply Hfin.
  - eexists _, _. split; [done|]. destruct ea; [by split|apply Hfin].
  - eexists _, _. split; [done|]. apply Hfin.
Qed.


(** ** Examples *)

(** The code waits for more data after malformed chunked framing: it tells the
    error (a negative code) from [NTG_AGAIN] by comparing with 300. *)
Definition malformed_request : ntg_http_request :=
  set_headers_in (HeadersIn 0 [] 3 false true)
    (request_zero |> set_in_buffer (Buf 1000 1000 1000 1008 (repeat 0 8)) |> set_in_size 8
                  |> set_read_event_handler READ_DISCARD).

Lemma malformed_framing_waits :
  exists r, ntg_http_discarded_request_body_handler true malformed_request
      [RecvData (str "zzz")] = Some (r, ActWaitRead, []) /\ malformed r.
Proof. eexists. split; [vm_compute; reflexivity|]. by vm_compute. Qed.

Definition sending_request : ntg_http_request :=
  request_zero |> set_in_size 64 |> set_out_buffer (example_buf (str "GET / HTTP/1.1"))
               |> set_rq_parse example_hparse.

Lemma sending_fresh : fresh sending_request.
Proof.
  unfold fresh, length_ok, is_s64, lowcase_inv, NTG_HTTP_LC_HEADER_LEN, NTG_MAX_OFF_T_VALUE. cbn.
  split_and!; try done; try lia. exists sw_chunk_start. split_and!; try done.
  by intros [? | ?].
Qed.


Definition reading_request : ntg_http_request :=
  sending_request |> set_in_buffer (Buf 4096 4096 4096 (4096 + 64) [])
                  |> set_read_event_handler READ_HEADER |> set_process_header PROCESS_STATUS_LINE.

Lemma reading_ready : conn_inv reading_request.
Proof.
  destruct sending_fresh as (H1 & H2 & H3 & H4). unfold conn_inv, room, head_phase, buf_wf, NTG_MAX_OFF_T_VALUE. cbn.
  split_and!; try done; try lia.
  by exists HttpStatusLine.sw_start.
Qed.

