(* ===== verification/Balance.v ===== *)
(** * Balancing the requests over the traffic processes (src/user/ntg_user_balance.c)

    The user process sends each request to one of the traffic processes, by the
    load they reported (the dynamic method) or in turn (the polling method).
    The channels are an oracle, the list of the results of the successive calls
    of [ntg_write_channel]; a message that is sent is returned with the slot it
    went to. *)

From S2P Require Import Prelude.

(** The fields of [ntg_process_t] (ntg_process.h) the balancer uses. *)
Record ntg_process := Process {
  p_pid : Z;
  p_type : Z;
  p_reqs : Z;
  p_just_spawn : bool;
  p_detached : bool;
  p_exiting : bool;
  p_exited : bool }.

Definition set_p_reqs (v : Z) (p : ntg_process) : ntg_process :=
  Process (p_pid p) (p_type p) v (p_just_spawn p) (p_detached p) (p_exiting p) (p_exited p).
Definition set_p_just_spawn (v : bool) (p : ntg_process) : ntg_process :=
  Process (p_pid p) (p_type p) (p_reqs p) v (p_detached p) (p_exiting p) (p_exited p).
Definition set_p_exiting (v : bool) (p : ntg_process) : ntg_process :=
  Process (p_pid p) (p_type p) (p_reqs p) (p_just_spawn p) (p_detached p) v (p_exited p).

Definition NTG_TRAFFIC_PROCESS : Z := 2.

(** [ntg_processes], a slot per process. *)
Abbreviation slots := (list ntg_process).

(** Access to a slot; [None] is outside the array. *)
Definition slot (pros : slots) (i : Z) : option ntg_process :=
  if i <? 0 then None else pros !! Z.to_nat i.
Definition set_slot (i : Z) (p : ntg_process) (pros : slots) : slots :=
  <[Z.to_nat i := p]> pros.

(** [struct ntg_user_balance_s], without the pointers. *)
Record balance := Balance {
  min_reqs : Z;
  cur_slot : Z;
  blc_count : Z;
  blc_n : Z }.

Section balancer.
(** [ntg_start_process] and [ntg_last_process]. *)
Context (ntg_start_process ntg_last_process : Z).

Definition ntg_user_balance_init : balance :=
  Balance 0 ntg_start_process 0 (u64 (ntg_last_process - 2)).

(** ** The dynamic method *)

(** The loop of [ntg_user_balance_update], [n] slots from slot [i] on. *)
Fixpoint update_loop (n : nat) (i : Z) (pros : slots) (tmp_slop live : Z)
  : option (slots * Z * Z) :=
  match n with
  | O => Some (pros, tmp_slop, live)
  | S n =>
      p ← slot pros i;
      if p_detached p || (p_pid p =? -1) then update_loop n (i + 1) pros tmp_slop live
      else if p_just_spawn p then
        update_loop n (i + 1) (set_slot i (set_p_just_spawn false p) pros) tmp_slop live
      else if p_exited p || p_exiting p then update_loop n (i + 1) pros tmp_slop live
      else
        let live := u64 (live + 1) in
        tmp_slop ← (if live =? 1 then Some i
                    else q ← slot pros tmp_slop;
                         Some (if p_reqs p <? p_reqs q then i else tmp_slop));
        update_loop n (i + 1) pros tmp_slop live
  end.

Definition ntg_user_balance_update (blc : balance) (pros : slots) : option (balance * slots) :=
  '(pros, tmp_slop, live) ←
    update_loop (Z.to_nat (ntg_last_process - ntg_start_process)) ntg_start_process pros
      ntg_start_process 0;
  p ← slot pros tmp_slop;
  Some (Balance (p_reqs p) tmp_slop 0 live, pros).

(** The state a handler works on. *)
Record bstate := BState { b_blc : balance; b_pros : slots; b_chan : list Z }.

(** The loop of [ntg_user_balance_process_request]: the result, and the slot the
    message was sent to; each turn takes an outcome of the channels. *)
Fixpoint send_loop (fuel : nat) (st : bstate) : option (Z * option Z * bstate) :=
  match fuel, b_chan st with
  | S fuel, rc :: chan =>
      let blc := b_blc st in
      pro ← slot (b_pros st) (cur_slot blc);
      if negb (rc =? NTG_OK) then
        let pros := set_slot (cur_slot blc) (set_p_reqs 0 (set_p_exiting true pro)) (b_pros st) in
        '(blc, pros) ← ntg_user_balance_update blc pros;
        if negb (blc_n blc =? 0) then send_loop fuel (BState blc pros chan)
        else Some (NTG_ERROR, None, BState blc pros chan)
      else
        let pros := set_slot (cur_slot blc) (set_p_reqs (u64 (p_reqs pro + 1)) pro) (b_pros st) in
        let blc' := Balance (min_reqs blc) (cur_slot blc) (u64 (blc_count blc + 1)) (blc_n blc) in
        '(blc', pros) ← ntg_user_balance_update blc' pros;
        Some (NTG_OK, Some (cur_slot blc), BState blc' pros chan)
  | _, _ => None
  end.

Definition ntg_user_balance_process_request (st : bstate) : option (Z * option Z * bstate) :=
  send_loop (length (b_chan st)) st.

Definition ntg_user_balance_process_feedback (proc_slot reqs : Z) (st : bstate)
  : option (Z * bstate) :=
  p ← slot (b_pros st) proc_slot;
  let pros := set_slot proc_slot (set_p_reqs reqs p) (b_pros st) in
  '(blc, pros) ← (if min_reqs (b_blc st) >? reqs then ntg_user_balance_update (b_blc st) pros
                  else Some (b_blc st, pros));
  Some (NTG_OK, BState (Balance (min_reqs blc) (cur_slot blc) 0 (blc_n blc)) pros (b_chan st)).

(** The messages the balancer handles (message/ntg_message.h). *)
Inductive blc_message :=
  | MsgRequest
  | MsgFeedback (proc_slot reqs : Z)
  | MsgOther.

Definition ntg_user_balance_dynamic (msg : blc_message) (st : bstate)
  : option (Z * option Z * bstate) :=
  match msg with
  | MsgRequest => ntg_user_balance_process_request st
  | MsgFeedback proc_slot reqs =>
      '(rc, st) ← ntg_user_balance_process_feedback proc_slot reqs st; Some (rc, None, st)
  | MsgOther => Some (NTG_ERROR, None, st)
  end.

(** ** The polling method *)

(** The loop that looks for the next process, over the [n] slots from [i] on;
    the slot where it stops. *)
Fixpoint poll_loop (n : nat) (i : Z) (pros : slots) : option (slots * Z) :=
  match n with
  | O => Some (pros, i)
  | S n =>
      p ← slot pros i;
      if p_detached p || (p_pid p =? -1) then poll_loop n (i + 1) pros
      else if p_just_spawn p then
        poll_loop n (i + 1) (set_slot i (set_p_just_spawn false p) pros)
      else if p_exited p || p_exiting p then poll_loop n (i + 1) pros
      else if negb (p_type p =? NTG_TRAFFIC_PROCESS) then poll_loop n (i + 1) pros
      else Some (pros, i)
  end.

(** [ntg_current_process], the slots, the static counter, the channels. *)
Record pstate := PState { p_current : Z; p_pros : slots; p_count : Z; p_chan : list Z }.

Definition ntg_user_balance_polling (st : pstate) : option (Z * option Z * pstate) :=
  let pre_last := p_current st in
  let count := s32 (p_count st + 1) in
  if count <? 10 then Some (NTG_OK, None, PState (p_current st) (p_pros st) count (p_chan st))
  else
    '(pros, i) ← poll_loop (Z.to_nat (ntg_last_process - p_current st)) (p_current st) (p_pros st);
    '(pros, i) ← (if i =? ntg_last_process
                  then poll_loop (Z.to_nat (pre_last - ntg_start_process)) ntg_start_process pros
                  else Some (pros, i));
    let current := if i + 1 =? ntg_last_process then ntg_start_process else i + 1 in
    p ← slot pros i;
    match p_chan st with
    | [] => None
    | rc :: chan =>
        if negb (rc =? NTG_OK)
        then Some (NTG_ERROR, None, PState current (set_slot i (set_p_exiting true p) pros) count chan)
        else Some (NTG_OK, Some i, PState current pros count chan)
    end.

(** ** What the balancer promises *)

(** A process that takes requests now. *)
Definition eligible (p : ntg_process) : bool :=
  negb (p_detached p || (p_pid p =? -1) || p_just_spawn p || (p_exited p || p_exiting p)).

(** Slot [i] holds a process that takes requests. *)
Definition eligible_at (pros : slots) (i : Z) : Prop :=
  exists p, slot pros i = Some p /\ eligible p = true.

Definition reqs_at (pros : slots) (i : Z) : Z := from_option p_reqs 0 (slot pros i).

(** The number of processes with a property, in [n] slots from [i] on. *)
Fixpoint slot_count (P : ntg_process -> bool) (n : nat) (i : Z) (pros : slots) : Z :=
  match n with
  | O => 0
  | S n =>
      (match slot pros i with Some p => if P p then 1 else 0 | None => 0 end)
      + slot_count P n (i + 1) pros
  end.

(** All that an update changes of the slots: processes are no longer new. *)
Definition aged (pros pros' : slots) : Prop :=
  length pros' = length pros /\
  forall i p, slot pros i = Some p -> exists b, slot pros' i = Some (set_p_just_spawn b p) /\
    (b = true -> p_just_spawn p = true).

(** The best slot so far, of those in [[start, i)]. *)
Definition best (pros : slots) (i tmp live : Z) : Prop :=
  (live = 0 -> tmp = ntg_start_process /\
     forall j, ntg_start_process <= j < i -> ~ eligible_at pros j) /\
  (live <> 0 -> ntg_start_process <= tmp < i /\ eligible_at pros tmp /\
     forall j, ntg_start_process <= j < i -> eligible_at pros j ->
       reqs_at pros tmp <= reqs_at pros j /\ (j < tmp -> reqs_at pros tmp < reqs_at pros j)).

(** ** Facts about the slots *)

Lemma slot_lookup pros i : 0 <= i -> slot pros i = pros !! Z.to_nat i.
Proof. intros. unfold slot. by rewrite (proj2 (Z.ltb_ge _ _)). Qed.

Lemma slot_some pros i : 0 <= i < Z.of_nat (length pros) -> exists p, slot pros i = Some p.
Proof.
  intros. rewrite slot_lookup by lia.
  destruct (lookup_lt_is_Some_2 pros (Z.to_nat i)) as [p Hp]; [lia|by exists p].
Qed.

Lemma slot_range pros i p : slot pros i = Some p -> 0 <= i < Z.of_nat (length pros).
Proof.
  unfold slot. destruct (Z.ltb_spec i 0); [done|]. intros Hp%lookup_lt_Some. lia.
Qed.

Lemma slot_set_eq pros i p : 0 <= i < Z.of_nat (length pros) -> slot (set_slot i p pros) i = Some p.
Proof. intros. rewrite slot_lookup by lia. apply list_lookup_insert_eq. lia. Qed.

Lemma slot_set_ne pros i j p : 0 <= i -> i <> j -> slot (set_slot i p pros) j = slot pros j.
Proof.
  intros Hi Hj. unfold slot. destruct (Z.ltb_spec j 0); [done|].
  apply list_lookup_insert_ne. lia.
Qed.

Lemma set_slot_length pros i p : length (set_slot i p pros) = length pros.
Proof. apply length_insert. Qed.

Lemma set_just_spawn_id p : set_p_just_spawn (p_just_spawn p) p = p.
Proof. by destruct p. Qed.

Lemma aged_refl pros : aged pros pros.
Proof. split; [done|]. intros i p Hp. exists (p_just_spawn p). by rewrite set_just_spawn_id. Qed.

Lemma aged_clear pros pros' i p :
  aged pros pros' -> slot pros' i = Some p -> aged pros (set_slot i (set_p_just_spawn false p) pros').
Proof.
  intros [Hl Ha] Hp. split; [by rewrite set_slot_length|]. intros j q Hq.
  destruct (Ha j q Hq) as (b & Hb & Hbt). pose proof (slot_range _ _ _ Hp).
  destruct (decide (i = j)) as [<-|Hij].
  - rewrite slot_set_eq by done. rewrite Hp in Hb. injection Hb as ->. by exists false.
  - rewrite slot_set_ne by (done || lia). by exists b.
Qed.

Lemma aged_reqs pros pros' i p : aged pros pros' -> slot pros' i = Some p -> p_reqs p = reqs_at pros i.
Proof.
  intros [Hl Ha] Hp. pose proof (slot_range _ _ _ Hp) as Hr.
  destruct (slot_some pros i) as [q Hq]; [by rewrite <-Hl|].
  destruct (Ha i q Hq) as (b & Hb & _). rewrite Hp in Hb. injection Hb as ->.
  unfold reqs_at. by rewrite Hq.
Qed.

(** A process that takes requests still does after an update. *)
Lemma aged_eligible pros pros' i : aged pros pros' -> eligible_at pros i -> eligible_at pros' i.
Proof.
  intros [_ Ha] (p & Hp & He). destruct (Ha i p Hp) as (b & Hb & Hbt).
  exists (set_p_just_spawn b p). split; [done|]. unfold eligible in *. cbn.
  destruct b; [|destruct (p_just_spawn p); [by rewrite orb_true_r in He|done]].
  by rewrite Hbt in He.
Qed.

Lemma eligible_at_dec pros i p : slot pros i = Some p -> eligible_at pros i <-> eligible p = true.
Proof.
  intros Hp. unfold eligible_at. rewrite Hp. split; [by intros (? & [= <-] & ?)|by exists p].
Qed.

(** ** The update *)

(** Passing over a slot whose process takes no requests. *)
Lemma best_skip pros i tmp live :
  ~ eligible_at pros i -> best pros i tmp live -> best pros (i + 1) tmp live.
Proof.
  intros Hi [B0 B1]. split.
  - intros H. destruct (B0 H) as [? Hj]. split; [done|]. intros j Hr.
    destruct (Z.eq_dec j i) as [->|]; [done|]. apply Hj. lia.
  - intros H. destruct (B1 H) as (? & ? & Hj). split_and!; [lia..|done|]. intros j Hr He.
    destruct (Z.eq_dec j i) as [->|]; [done|]. apply Hj; [lia|done].
Qed.

(** Choosing between the best so far and slot [i]. *)
Lemma best_take pros i tmp live p :
  ntg_start_process <= i -> 0 <= live -> slot pros i = Some p -> eligible p = true ->
  best pros i tmp live ->
  best pros (i + 1) (if live + 1 =? 1 then i else if p_reqs p <? reqs_at pros tmp then i else tmp)
    (live + 1).
Proof.
  intros Hi Hl Hp He [B0 B1]. split; [lia|]. intros _.
  assert (Ei : eligible_at pros i) by (by exists p).
  assert (Ri : reqs_at pros i = p_reqs p) by (unfold reqs_at; by rewrite Hp).
  destruct (Z.eqb_spec (live + 1) 1) as [H1|H1].
  - destruct (B0 ltac:(lia)) as [-> Hj]. split_and!; [lia..|done|]. intros j Hr Hej.
    destruct (Z.eq_dec j i) as [->|]; [lia|]. exfalso. apply (Hj j); [lia|done].
  - destruct (B1 ltac:(lia)) as (Ht & Het & Hj).
    destruct (Z.ltb_spec (p_reqs p) (reqs_at pros tmp)).
    + split_and!; [lia..|done|]. intros j Hr Hej.
      destruct (Z.eq_dec j i) as [->|]; [lia|]. destruct (Hj j) as [? _]; [lia|done|]. lia.
    + split_and!; [lia..|done|]. intros j Hr Hej.
      destruct (Z.eq_dec j i) as [->|]; [lia|]. apply Hj; [lia|done].
Qed.

Lemma update_loop_spec n i pros0 pros tmp live :
  0 <= ntg_start_process <= i -> i + Z.of_nat n <= Z.of_nat (length pros0) ->
  aged pros0 pros -> (forall j, i <= j -> slot pros j = slot pros0 j) ->
  best pros0 i tmp live -> 0 <= live -> live + Z.of_nat n < 18446744073709551616 ->
  exists pros' tmp' live', update_loop n i pros tmp live = Some (pros', tmp', live') /\
    aged pros0 pros' /\ best pros0 (i + Z.of_nat n) tmp' live' /\
    live' = live + slot_count eligible n i pros0.
Proof.
  revert i pros tmp live. induction n as [|n IH]; intros i pros tmp live Hi Hn Ha Hs Hb Hl Hlim.
  { exists pros, tmp, live. cbn. rewrite !Z.add_0_r. done. }
  cbn [update_loop slot_count]. destruct (slot_some pros0 i) as [p Hp]; [lia|].
  rewrite (Hs i), Hp by lia. cbn [mbind option_bind].
  replace (i + Z.of_nat (S n)) with (i + 1 + Z.of_nat n) by lia.
  assert (Hskip : eligible p = false -> forall pros1, aged pros0 pros1 ->
    (forall j, i + 1 <= j -> slot pros1 j = slot pros0 j) ->
    exists pros' tmp' live', update_loop n (i + 1) pros1 tmp live = Some (pros', tmp', live') /\
      aged pros0 pros' /\ best pros0 (i + 1 + Z.of_nat n) tmp' live' /\
      live' = live + ((if eligible p then 1 else 0) + slot_count eligible n (i + 1) pros0)).
  { intros He pros1 Ha1 Hs1. rewrite He. apply IH; try done; try lia.
    apply best_skip; [|done]. rewrite (eligible_at_dec _ _ _ Hp). by rewrite He. }
  destruct (p_detached p || (p_pid p =? -1)) eqn:E1.
  { apply Hskip; [unfold eligible; by rewrite E1|done|eauto with lia]. }
  destruct (p_just_spawn p) eqn:E2.
  { apply Hskip; [unfold eligible; by rewrite E1, E2| |].
    - apply aged_clear; [done|]. rewrite Hs by lia. done.
    - intros j Hj. rewrite slot_set_ne by lia. apply Hs. lia. }
  destruct (p_exited p || p_exiting p) eqn:E3.
  { apply Hskip; [unfold eligible; by rewrite E1, E2, E3|done|eauto with lia]. }
  clear Hskip.
  assert (He : eligible p = true) by (unfold eligible; by rewrite E1, E2, E3).
  pose proof (best_take pros0 i tmp live p ltac:(lia) Hl Hp He Hb) as Hb'.
  rewrite He, (u64_small (live + 1)) by (width; lia).
  destruct (Z.eqb_spec (live + 1) 1) as [H1|H1]; cbn [mbind option_bind].
  - destruct (IH (i + 1) pros i (live + 1)) as (? & ? & ? & -> & ? & ? & ->); try done; try lia.
    { intros j Hj. apply Hs. lia. }
    eexists _, _, _. split; [done|]. split_and!; try done. lia.
  - destruct Hb as [_ B1]. destruct (B1 ltac:(lia)) as (Ht & (q0 & Hq0 & _) & _).
    destruct Ha as [Hal Ha]. destruct (Ha tmp q0 Hq0) as (b & Hq & _). rewrite Hq. cbn [mbind option_bind].
    assert (Er : p_reqs (set_p_just_spawn b q0) = reqs_at pros0 tmp)
      by (unfold reqs_at; by rewrite Hq0).
    rewrite Er.
    destruct (IH (i + 1) pros (if p_reqs p <? reqs_at pros0 tmp then i else tmp) (live + 1))
      as (? & ? & ? & -> & ? & ? & ->); try done; try lia.
    { intros j Hj. apply Hs. lia. }
    eexists _, _, _. split; [done|]. split_and!; try done. lia.
Qed.

(** The slots the traffic processes use are inside the array. *)
Definition slots_ok (pros : slots) : Prop :=
  0 <= ntg_start_process <= ntg_last_process /\
  ntg_start_process < Z.of_nat (length pros) /\ ntg_last_process <= Z.of_nat (length pros) /\
  Z.of_nat (length pros) < 18446744073709551616.

Definition n_slots : nat := Z.to_nat (ntg_last_process - ntg_start_process).

(** What an update leaves, for the slots [pros] it ran on. *)
Record balanced (pros : slots) (blc' : balance) (pros' : slots) : Prop := {
  bl_aged : aged pros pros';
  bl_n : blc_n blc' = slot_count eligible n_slots ntg_start_process pros;
  bl_best : best pros ntg_last_process (cur_slot blc') (blc_n blc');
  bl_min : min_reqs blc' = reqs_at pros (cur_slot blc');
  bl_count : blc_count blc' = 0;
  bl_slot : 0 <= cur_slot blc' < Z.of_nat (length pros) }.

Lemma update_spec blc pros :
  slots_ok pros ->
  exists blc' pros', ntg_user_balance_update blc pros = Some (blc', pros') /\
    balanced pros blc' pros'.
Proof.
  intros (H1 & H2 & H3 & H4). unfold ntg_user_balance_update.
  destruct (update_loop_spec n_slots ntg_start_process pros pros ntg_start_process 0)
    as (pros' & tmp & live & E & Ha & Hb & Hl); try (unfold n_slots; lia).
  { apply aged_refl. }
  { done. }
  { split; [|lia]. intros _. split; [done|lia]. }
  fold n_slots. rewrite E. cbn [mbind option_bind].
  replace (ntg_start_process + Z.of_nat n_slots) with ntg_last_process in Hb
    by (unfold n_slots; lia).
  assert (Ht : 0 <= tmp < Z.of_nat (length pros)).
  { destruct Hb as [B0 B1]. destruct (Z.eq_dec live 0) as [E0|E0].
    - destruct (B0 E0) as [-> _]. lia.
    - destruct (B1 E0) as (? & _). lia. }
  destruct (slot_some pros' tmp) as [p Hp]; [rewrite (proj1 Ha); lia|].
  rewrite Hp. cbn. eexists _, _. split; [done|]. split; cbn; try done.
  by apply (aged_reqs pros pros').
Qed.

(** ** Counting *)

Lemma slot_count_range P n i pros : 0 <= slot_count P n i pros <= Z.of_nat n.
Proof.
  revert i. induction n as [|n IH]; intros i; cbn [slot_count]; [lia|].
  specialize (IH (i + 1)). repeat case_match; lia.
Qed.

Lemma slot_count_le P n i pros pros' :
  (forall j p', i <= j < i + Z.of_nat n -> slot pros' j = Some p' -> P p' = true ->
     exists p, slot pros j = Some p /\ P p = true) ->
  slot_count P n i pros' <= slot_count P n i pros.
Proof.
  revert i. induction n as [|n IH]; intros i H; cbn [slot_count]; [lia|].
  assert (slot_count P n (i + 1) pros' <= slot_count P n (i + 1) pros).
  { apply IH. intros j p' Hj. apply H. lia. }
  pose proof (H i) as Hi. destruct (slot pros' i) as [p'|]; [|repeat case_match; lia].
  destruct (P p') eqn:E; [|repeat case_match; lia].
  destruct (Hi p' ltac:(lia) eq_refl E) as (p & -> & ->). lia.
Qed.

(** Losing one of the processes counted. *)
Lemma slot_count_lose P n i pros pros' k q :
  (forall j p', i <= j < i + Z.of_nat n -> slot pros' j = Some p' -> P p' = true ->
     exists p, slot pros j = Some p /\ P p = true) ->
  i <= k < i + Z.of_nat n -> slot pros k = Some q -> P q = true ->
  (forall p', slot pros' k = Some p' -> P p' = false) ->
  slot_count P n i pros' + 1 <= slot_count P n i pros.
Proof.
  revert i. induction n as [|n IH]; intros i H Hk Hq HP Hk'; [lia|]. cbn [slot_count].
  destruct (Z.eq_dec i k) as [->|Hne].
  - assert (slot_count P n (k + 1) pros' <= slot_count P n (k + 1) pros).
    { apply slot_count_le. intros j p' Hj. apply H. lia. }
    rewrite Hq, HP. destruct (slot pros' k) as [p'|]; [rewrite (Hk' p' eq_refl)|]; lia.
  - assert (slot_count P n (i + 1) pros' + 1 <= slot_count P n (i + 1) pros).
    { apply IH; try done; [|lia]. intros j p' Hj. apply H. lia. }
    pose proof (H i) as Hi. destruct (slot pros' i) as [p'|]; [|repeat case_match; lia].
    destruct (P p') eqn:E; [|repeat case_match; lia].
    destruct (Hi p' ltac:(lia) eq_refl E) as (p & -> & ->). lia.
Qed.

Definition staying (p : ntg_process) : bool := negb (p_exiting p).

Lemma eligible_staying p : eligible p = true -> staying p = true.
Proof. unfold eligible, staying. destruct (p_exiting p); [|done]. by rewrite !orb_true_r. Qed.

(** Marking a process as exiting and updating. *)
Lemma mark_staying pros i p pros' j p' :
  slot pros i = Some p -> aged (set_slot i (set_p_reqs 0 (set_p_exiting true p)) pros) pros' ->
  slot pros' j = Some p' -> staying p' = true ->
  i <> j /\ exists q, slot pros j = Some q /\ staying q = true.
Proof.
  intros Hp [Hl Ha] Hp' Hst. pose proof (slot_range _ _ _ Hp) as Hr.
  pose proof (slot_range _ _ _ Hp') as Hr'. rewrite Hl, set_slot_length in Hr'.
  destruct (decide (i = j)) as [<-|Hij].
  - destruct (Ha i _ (slot_set_eq _ _ _ Hr)) as (b & Hb & _). rewrite Hp' in Hb. injection Hb as ->.
    done.
  - split; [done|]. destruct (slot_some pros j Hr') as [q Hq]. exists q. split; [done|].
    destruct (Ha j q) as (b & Hb & _); [by rewrite slot_set_ne by (done || lia)|].
    rewrite Hp' in Hb. by injection Hb as ->.
Qed.

Lemma slots_ok_length pros pros' : length pros' = length pros -> slots_ok pros -> slots_ok pros'.
Proof. unfold slots_ok. by intros ->. Qed.

(** ** Sending a request *)

(** What is promised of the dispatch of a request. *)
Record dispatched (rc : Z) (sent : option Z) (st' : bstate) : Prop := {
  di_rc : rc = NTG_OK \/ rc = NTG_ERROR;
  di_ok : rc = NTG_OK -> exists i pros p, sent = Some i /\ slot pros i = Some p /\
    balanced (set_slot i (set_p_reqs (u64 (p_reqs p + 1)) p) pros) (b_blc st') (b_pros st');
  di_error : rc = NTG_ERROR -> sent = None /\ exists pros, aged pros (b_pros st') /\
    forall j, ntg_start_process <= j < ntg_last_process -> ~ eligible_at pros j }.

Definition stay_count (pros : slots) : Z := slot_count staying n_slots ntg_start_process pros.

(** One failure: the slot is given up, and either no process is left or the
    new slot holds one that is staying, of which there are fewer. *)
Lemma dispatch_failed st p :
  slots_ok (b_pros st) -> slot (b_pros st) (cur_slot (b_blc st)) = Some p ->
  exists blc pros, ntg_user_balance_update (b_blc st)
      (set_slot (cur_slot (b_blc st)) (set_p_reqs 0 (set_p_exiting true p)) (b_pros st)) =
    Some (blc, pros) /\
    balanced (set_slot (cur_slot (b_blc st)) (set_p_reqs 0 (set_p_exiting true p)) (b_pros st))
      blc pros /\
    slots_ok pros /\ 0 <= cur_slot blc < Z.of_nat (length pros) /\
    stay_count pros <= stay_count (b_pros st) /\
    (ntg_start_process <= cur_slot (b_blc st) < ntg_last_process -> staying p = true ->
       stay_count pros + 1 <= stay_count (b_pros st)).
Proof.
  intros Hok Hp. set (pros1 := set_slot _ _ _).
  assert (Hok1 : slots_ok pros1) by (eapply slots_ok_length; [apply set_slot_length|done]).
  destruct (update_spec (b_blc st) pros1 Hok1) as (blc & pros & E & B).
  pose proof (bl_aged _ _ _ B) as Ha. exists blc, pros. split; [done|]. split; [done|].
  pose proof Hok as (H1 & _).
  assert (Hmark : forall j p', slot pros j = Some p' -> staying p' = true ->
    cur_slot (b_blc st) <> j /\ exists q, slot (b_pros st) j = Some q /\ staying q = true).
  { intros j p'. by apply (mark_staying _ _ _ _ _ _ Hp). }
  split_and!.
  - eapply slots_ok_length; [apply Ha|done].
  - apply (bl_slot _ _ _ B).
  - rewrite (proj1 Ha). apply (bl_slot _ _ _ B).
  - apply slot_count_le. intros j p' _ Hj Hst. by apply (Hmark j p').
  - intros Hr Hst. apply (slot_count_lose _ _ _ _ _ (cur_slot (b_blc st)) p); try done.
    + intros j p' _ Hj Hst'. by apply (Hmark j p').
    + unfold n_slots. lia.
    + intros p' Hp'. destruct (staying p') eqn:E'; [|done].
      by destruct (Hmark _ _ Hp' E').
Qed.

(** A successful dispatch. *)
Lemma dispatch_ok st p chan :
  slots_ok (b_pros st) -> slot (b_pros st) (cur_slot (b_blc st)) = Some p ->
  exists blc pros,
    ntg_user_balance_update
      (Balance (min_reqs (b_blc st)) (cur_slot (b_blc st)) (u64 (blc_count (b_blc st) + 1))
        (blc_n (b_blc st)))
      (set_slot (cur_slot (b_blc st)) (set_p_reqs (u64 (p_reqs p + 1)) p) (b_pros st)) =
    Some (blc, pros) /\ dispatched NTG_OK (Some (cur_slot (b_blc st))) (BState blc pros chan).
Proof.
  intros Hok Hp.
  assert (Hok1 : slots_ok (set_slot (cur_slot (b_blc st)) (set_p_reqs (u64 (p_reqs p + 1)) p)
    (b_pros st))) by (eapply slots_ok_length; [apply set_slot_length|done]).
  destruct (update_spec (Balance (min_reqs (b_blc st)) (cur_slot (b_blc st))
    (u64 (blc_count (b_blc st) + 1)) (blc_n (b_blc st))) _ Hok1) as (blc & pros & E & B).
  exists blc, pros. split; [done|]. split; [by left| |done].
  intros _. by exists (cur_slot (b_blc st)), (b_pros st), p.
Qed.

(** When the chosen process may still be there, the staying processes bound the
    number of turns. *)
Lemma send_loop_spec fuel st :
  slots_ok (b_pros st) -> eligible_at (b_pros st) (cur_slot (b_blc st)) ->
  ntg_start_process <= cur_slot (b_blc st) < ntg_last_process ->
  stay_count (b_pros st) <= Z.of_nat fuel -> (fuel <= length (b_chan st))%nat ->
  exists rc sent st', send_loop fuel st = Some (rc, sent, st') /\ dispatched rc sent st'.
Proof.
  revert st. induction fuel as [|fuel IH]; intros st Hok (p & Hp & He) Hr Hf Hc;
    pose proof (eligible_staying _ He) as Hst;
    destruct (dispatch_failed st p Hok Hp) as (blc & pros & Eu & B & Hok' & Hcur & _ & Hlose);
    specialize (Hlose Hr Hst);
    pose proof (slot_count_range staying n_slots ntg_start_process pros) as Hpos;
    fold (stay_count pros) in Hpos; [lia|].
  destruct st as [blc0 pros0 [|rc chan]]; cbn [b_blc b_pros b_chan length] in *; [lia|].
  cbn [send_loop b_blc b_pros b_chan]. rewrite Hp. cbn [mbind option_bind].
  destruct (Z.eqb_spec rc NTG_OK) as [->|Hrc]; cbn [negb].
  - destruct (dispatch_ok (BState blc0 pros0 []) p chan Hok Hp) as (blc' & pros' & E & D).
    cbn [b_blc b_pros] in E. rewrite E. cbn [mbind option_bind]. by eexists _, _, _.
  - rewrite Eu. cbn [mbind option_bind].
    destruct (Z.eqb_spec (blc_n blc) 0) as [Hn|Hn]; cbn [negb].
    + eexists _, _, _. split; [done|]. split; [by right|done|]. intros _. split; [done|].
      cbn [b_pros]. eexists. split; [apply (bl_aged _ _ _ B)|]. by apply (bl_best _ _ _ B).
    + destruct (bl_best _ _ _ B) as [_ B1]. destruct (B1 Hn) as (Hr' & He' & _).
      apply IH; cbn [b_blc b_pros b_chan]; try done; try lia.
      by apply (aged_eligible _ _ _ (bl_aged _ _ _ B)).
Qed.

(** The slots are valid, and the chosen one is one of them. *)
Definition balancer_ok (st : bstate) : Prop :=
  slots_ok (b_pros st) /\ 0 <= cur_slot (b_blc st) < Z.of_nat (length (b_pros st)).

Lemma update_ok blc pros blc' pros' :
  slots_ok pros -> ntg_user_balance_update blc pros = Some (blc', pros') ->
  forall chan, balancer_ok (BState blc' pros' chan).
Proof.
  intros Hok E chan. destruct (update_spec blc pros Hok) as (blc1 & pros1 & E1 & B).
  rewrite E in E1. injection E1 as <- <-. pose proof (bl_aged _ _ _ B) as [Hl _].
  split; cbn [b_pros b_blc]; [by eapply slots_ok_length|]. rewrite Hl. apply (bl_slot _ _ _ B).
Qed.

(** A dispatch takes no more outcomes of the channels than there are staying
    processes. *)
Lemma send_loop_uses fuel k st rc sent st' :
  send_loop fuel st = Some (rc, sent, st') ->
  slots_ok (b_pros st) -> eligible_at (b_pros st) (cur_slot (b_blc st)) ->
  ntg_start_process <= cur_slot (b_blc st) < ntg_last_process ->
  stay_count (b_pros st) <= Z.of_nat k ->
  (length (b_chan st) <= length (b_chan st') + k)%nat /\ balancer_ok st'.
Proof.
  revert k st. induction fuel as [|fuel IH]; intros k st E Hok (p & Hp & He) Hr Hk; [done|].
  pose proof (eligible_staying _ He) as Hst.
  destruct (dispatch_failed st p Hok Hp) as (blc & pros & Eu & B & Hok' & Hcur & _ & Hlose).
  specialize (Hlose Hr Hst).
  pose proof (slot_count_range staying n_slots ntg_start_process pros) as Hpos. fold (stay_count pros) in Hpos.
  destruct st as [blc0 pros0 [|rc0 chan]]; [done|]. cbn [b_blc b_pros b_chan length send_loop] in *.
  rewrite Hp in E. cbn [mbind option_bind] in E. destruct (negb (rc0 =? NTG_OK)).
  - rewrite Eu in E. cbn [mbind option_bind] in E.
    destruct (Z.eqb_spec (blc_n blc) 0) as [Hn|Hn]; cbn [negb] in E.
    + injection E as _ _ <-. cbn [b_chan]. split; [lia|]. by split.
    + destruct (bl_best _ _ _ B) as [_ B1]. destruct (B1 Hn) as (Hr' & He' & _).
      destruct (IH (k - 1)%nat _ E) as [H1 H2]; cbn [b_blc b_pros b_chan] in *; try done; [|lia|].
      { by apply (aged_eligible _ _ _ (bl_aged _ _ _ B)). }
      split; [lia|done].
  - destruct (ntg_user_balance_update _ _) as [[blc' pros']|] eqn:E1 in E; [|done].
    cbn [mbind option_bind] in E. injection E as _ _ <-. cbn [b_chan]. split; [lia|].
    eapply update_ok; [|exact E1]. eapply slots_ok_length; [apply set_slot_length|done].
Qed.

(** One dispatch from any valid state. *)
Lemma process_request_spec st :
  balancer_ok st -> (n_slots < length (b_chan st))%nat ->
  exists rc sent st', ntg_user_balance_process_request st = Some (rc, sent, st') /\
    dispatched rc sent st' /\ balancer_ok st' /\
    (length (b_chan st) <= length (b_chan st') + S n_slots)%nat.
Proof.
  intros [Hok Hcur] Hc. destruct (slot_some _ _ Hcur) as [p Hp].
  destruct (dispatch_failed st p Hok Hp) as (blc & pros & Eu & B & Hok' & Hcur' & Hle & _).
  unfold ntg_user_balance_process_request.
  destruct st as [blc0 pros0 [|rc chan]]; cbn [b_blc b_pros b_chan length] in *; [lia|].
  cbn [send_loop b_blc b_pros b_chan]. rewrite Hp. cbn [mbind option_bind].
  destruct (Z.eqb_spec rc NTG_OK) as [->|Hrc]; cbn [negb].
  - destruct (dispatch_ok (BState blc0 pros0 []) p chan Hok Hp) as (blc' & pros' & E & D).
    cbn [b_blc b_pros] in E. rewrite E. cbn [mbind option_bind]. eexists _, _, _. split; [done|].
    split; [exact D|]. split; [|cbn; lia]. eapply update_ok; [|exact E].
    eapply slots_ok_length; [apply set_slot_length|done].
  - rewrite Eu. cbn [mbind option_bind].
    destruct (Z.eqb_spec (blc_n blc) 0) as [Hn|Hn]; cbn [negb].
    + eexists _, _, _. split; [done|]. split; [|split; [by split|cbn; lia]].
      split; [by right|done|]. intros _. split; [done|].
      cbn [b_pros]. eexists. split; [apply (bl_aged _ _ _ B)|]. by apply (bl_best _ _ _ B).
    + destruct (bl_best _ _ _ B) as [_ B1]. destruct (B1 Hn) as (Hr' & He' & _).
      pose proof (slot_count_range staying n_slots ntg_start_process pros) as Hpos.
      assert (He2 : eligible_at pros (cur_slot blc)) by (by apply (aged_eligible _ _ _ (bl_aged _ _ _ B))).
      destruct (send_loop_spec (length chan) (BState blc pros chan)) as (rc' & sent & st' & E & D);
        cbn [b_blc b_pros b_chan]; try done; [unfold stay_count; lia|].
      eexists _, _, _. split; [exact E|]. split; [exact D|].
      destruct (send_loop_uses _ n_slots _ _ _ _ E) as [H1 H2]; cbn [b_blc b_pros b_chan] in *; try done;
        [unfold stay_count; lia|]. split; [done|lia].
Qed.


(** A feedback message stores the load the process reports; when that is
    below the least known load the balancer is updated and then holds the least
    loaded process. *)
Theorem process_feedback_correct proc_slot reqs st p :
  slots_ok (b_pros st) -> slot (b_pros st) proc_slot = Some p ->
  exists st', ntg_user_balance_process_feedback proc_slot reqs st = Some (NTG_OK, st') /\
    reqs_at (b_pros st') proc_slot = reqs /\ blc_count (b_blc st') = 0 /\
    (reqs < min_reqs (b_blc st) ->
       balanced (set_slot proc_slot (set_p_reqs reqs p) (b_pros st)) (b_blc st') (b_pros st')) /\
    (min_reqs (b_blc st) <= reqs -> cur_slot (b_blc st') = cur_slot (b_blc st)).
Proof.
  intros Hok Hp. unfold ntg_user_balance_process_feedback. rewrite Hp. cbn [mbind option_bind].
  pose proof (slot_range _ _ _ Hp) as Hr.
  assert (Hreqs : reqs_at (set_slot proc_slot (set_p_reqs reqs p) (b_pros st)) proc_slot = reqs)
    by (unfold reqs_at; by rewrite slot_set_eq).
  rewrite Z.gtb_ltb. destruct (Z.ltb_spec reqs (min_reqs (b_blc st))) as [Hlt|Hge].
  - destruct (update_spec (b_blc st) (set_slot proc_slot (set_p_reqs reqs p) (b_pros st)))
      as (blc & pros & E & B).
    { eapply slots_ok_length; [apply set_slot_length|done]. }
    rewrite E. cbn [mbind option_bind]. eexists. split; [done|]. cbn.
    destruct B as [B1 B2 B3 B4 B5 B6]. split_and!; [|done|done|lia].
    destruct (slot_some pros proc_slot) as [q Hq]; [rewrite (proj1 B1), set_slot_length; lia|].
    rewrite <-Hreqs, <-(aged_reqs _ _ _ _ B1 Hq). unfold reqs_at. by rewrite Hq.
  - cbn [mbind option_bind]. eexists. split; [done|]. cbn. split_and!; try done. lia.
Qed.

(** ** Polling *)

Definition usable (p : ntg_process) : bool := eligible p && (p_type p =? NTG_TRAFFIC_PROCESS).

Definition usable_at (pros : slots) (i : Z) : Prop :=
  exists p, slot pros i = Some p /\ usable p = true.

(** [k] is the first usable slot of [[i, e)], or [e] when there is none. *)
Definition first_usable (pros : slots) (i e k : Z) : Prop :=
  i <= k <= e /\ (k < e -> usable_at pros k) /\ forall j, i <= j < k -> ~ usable_at pros j.

Lemma poll_loop_spec n i pros0 pros :
  0 <= i -> i + Z.of_nat n <= Z.of_nat (length pros0) -> aged pros0 pros ->
  (forall j, i <= j < i + Z.of_nat n -> slot pros j = slot pros0 j) ->
  exists pros' k, poll_loop n i pros = Some (pros', k) /\ aged pros0 pros' /\
    first_usable pros0 i (i + Z.of_nat n) k /\
    (forall j, j < i \/ i + Z.of_nat n <= j -> slot pros' j = slot pros j).
Proof.
  revert i pros. induction n as [|n IH]; intros i pros Hi Hn Ha Hs; cbn [poll_loop].
  { eexists _, _. split; [done|]. split; [done|]. split; [|done]. split_and!; try lia. }
  destruct (slot_some pros0 i) as [p Hp]; [lia|].
  rewrite (Hs i), Hp by lia. cbn [mbind option_bind].
  replace (i + Z.of_nat (S n)) with (i + 1 + Z.of_nat n) by lia.
  assert (Hskip : usable p = false -> forall pros1, aged pros0 pros1 ->
    (forall j, i <> j -> slot pros1 j = slot pros j) ->
    exists pros' k, poll_loop n (i + 1) pros1 = Some (pros', k) /\ aged pros0 pros' /\
      first_usable pros0 i (i + 1 + Z.of_nat n) k /\
      (forall j, j < i \/ i + 1 + Z.of_nat n <= j -> slot pros' j = slot pros j)).
  { intros Hu pros1 Ha1 Hs1. destruct (IH (i + 1) pros1) as (pros' & k & -> & Ha' & (K1 & K2 & K3) & Hf);
      try done; try lia.
    { intros j Hj. rewrite Hs1 by lia. apply Hs. lia. }
    eexists _, _. split; [done|]. split; [done|]. split.
    - split_and!; [lia|lia|done|]. intros j Hj. destruct (Z.eq_dec j i) as [->|]; [|apply K3; lia].
      intros (q & Hq & Hu'). rewrite Hp in Hq. injection Hq as <-. congruence.
    - intros j Hj. rewrite Hf by lia. apply Hs1. lia. }
  destruct (p_detached p || (p_pid p =? -1)) eqn:E1.
  { apply Hskip; [unfold usable, eligible; by rewrite E1|done|done]. }
  destruct (p_just_spawn p) eqn:E2.
  { apply Hskip; [unfold usable, eligible; by rewrite E1, E2| |].
    - apply aged_clear; [done|]. by rewrite Hs by lia.
    - intros j Hj. by rewrite slot_set_ne by lia. }
  destruct (p_exited p || p_exiting p) eqn:E3.
  { apply Hskip; [unfold usable, eligible; by rewrite E1, E2, E3|done|done]. }
  destruct (p_type p =? NTG_TRAFFIC_PROCESS) eqn:E4; cbn [negb].
  2:{ apply Hskip; [unfold usable; by rewrite E4, andb_false_r|done|done]. }
  eexists _, _. split; [done|]. split; [done|]. split; [|done]. split_and!; try lia.
  intros _. exists p. split; [done|]. unfold usable, eligible. by rewrite E1, E2, E3, E4.
Qed.

(** The slot the polling method takes when its turn is at [cur]. *)
Definition poll_target (pros : slots) (cur t : Z) : Prop :=
  (cur <= t < ntg_last_process /\ first_usable pros cur ntg_last_process t) \/
  ((forall j, cur <= j < ntg_last_process -> ~ usable_at pros j) /\
   first_usable pros ntg_start_process cur t).

Lemma polling_spec st :
  slots_ok (p_pros st) -> ntg_start_process <= p_current st < ntg_last_process ->
  0 <= p_count st < 2147483647 ->
  (p_count st < 9 ->
     ntg_user_balance_polling st =
     Some (NTG_OK, None, PState (p_current st) (p_pros st) (p_count st + 1) (p_chan st))) /\
  (forall rc chan, 9 <= p_count st -> p_chan st = rc :: chan ->
     exists t st', ntg_user_balance_polling st =
         Some (if rc =? NTG_OK then NTG_OK else NTG_ERROR,
               if rc =? NTG_OK then Some t else None, st') /\
       poll_target (p_pros st) (p_current st) t /\
       ntg_start_process <= p_current st' < ntg_last_process /\
       (t + 1 < ntg_last_process -> p_current st' = t + 1) /\
       (t + 1 = ntg_last_process -> p_current st' = ntg_start_process) /\
       (rc <> NTG_OK -> ~ usable_at (p_pros st') t) /\
       length (p_pros st') = length (p_pros st) /\ p_count st' = p_count st + 1 /\ p_chan st' = chan).
Proof.
  intros Hok Hcur Hcount. pose proof Hok as (H1 & H2 & H3 & H4).
  unfold ntg_user_balance_polling.
  replace (s32 (p_count st + 1)) with (p_count st + 1) by mlia. split.
  { intros H. by rewrite (proj2 (Z.ltb_lt _ _)) by lia. }
  intros rc chan H Hchan. rewrite (proj2 (Z.ltb_ge _ _)) by lia.
  destruct (poll_loop_spec (Z.to_nat (ntg_last_process - p_current st)) (p_current st) (p_pros st)
    (p_pros st)) as (pros1 & k1 & -> & Ha1 & F1 & Hf1); try lia; [apply aged_refl|done|].
  replace (p_current st + Z.of_nat (Z.to_nat (ntg_last_process - p_current st))) with
    ntg_last_process in * by lia.
  cbn [mbind option_bind].
  assert (exists pros2 t, (if k1 =? ntg_last_process
      then poll_loop (Z.to_nat (p_current st - ntg_start_process)) ntg_start_process pros1
      else Some (pros1, k1)) = Some (pros2, t) /\ aged (p_pros st) pros2 /\
    poll_target (p_pros st) (p_current st) t /\ ntg_start_process <= t < ntg_last_process)
    as (pros2 & t & -> & Ha2 & Ht & Htr).
  { destruct (Z.eqb_spec k1 ntg_last_process) as [->|Hk].
    - destruct (poll_loop_spec (Z.to_nat (p_current st - ntg_start_process)) ntg_start_process
        (p_pros st) pros1) as (pros2 & t & -> & Ha2 & F2 & _); try done; try lia.
      { intros j Hj. apply Hf1. lia. }
      replace (ntg_start_process + Z.of_nat (Z.to_nat (p_current st - ntg_start_process))) with
        (p_current st) in F2 by lia.
      eexists _, _. split; [done|]. split; [done|]. split; [|destruct F2; lia].
      right. split; [|done]. intros j Hj. apply (proj2 (proj2 F1)). lia.
    - eexists _, _. split; [done|]. split; [done|]. pose proof F1 as (? & ? & ?).
      split; [|lia]. left. split; [lia|exact F1]. }
  cbn [mbind option_bind].
  destruct (slot_some pros2 t) as [p Hp]; [rewrite (proj1 Ha2); lia|].
  rewrite Hp, Hchan. cbn [mbind option_bind].
  set (cur' := if t + 1 =? ntg_last_process then ntg_start_process else t + 1).
  assert (Hcur' : ntg_start_process <= cur' < ntg_last_process /\
    (t + 1 < ntg_last_process -> cur' = t + 1) /\
    (t + 1 = ntg_last_process -> cur' = ntg_start_process)).
  { subst cur'. destruct (Z.eqb_spec (t + 1) ntg_last_process); lia. }
  destruct Hcur' as (C1 & C2 & C3).
  exists t. destruct (Z.eqb_spec rc NTG_OK) as [->|Hrc]; cbn [negb];
    (eexists; split; [done|]; cbn [p_current p_pros p_count p_chan]; rewrite ?set_slot_length, ?(proj1 Ha2);
     split_and!; try done; try lia).
  intros _ (q & Hq & Hu). rewrite slot_set_eq in Hq by (apply (slot_range _ _ _ Hp)).
  injection Hq as <-. unfold usable, eligible in Hu. cbn in Hu. by rewrite !orb_true_r in Hu.
Qed.

(** The polling method takes the next usable traffic process in cyclic order
    from its turn on (the slot of the turn itself when no process is usable),
    the turn moves behind that slot and stays among the traffic processes, and
    the process is marked as exiting when its channel fails. The first nine
    calls drop the message. *)
Theorem polling_correct st :
  slots_ok (p_pros st) -> ntg_start_process <= p_current st < ntg_last_process ->
  0 <= p_count st < 2147483647 ->
  (p_count st < 9 ->
     ntg_user_balance_polling st =
     Some (NTG_OK, None, PState (p_current st) (p_pros st) (p_count st + 1) (p_chan st))) /\
  (forall rc chan, 9 <= p_count st -> p_chan st = rc :: chan ->
     exists t st', ntg_user_balance_polling st =
         Some (if rc =? NTG_OK then NTG_OK else NTG_ERROR,
               if rc =? NTG_OK then Some t else None, st') /\
       poll_target (p_pros st) (p_current st) t /\
       ntg_start_process <= p_current st' < ntg_last_process /\
       (t + 1 < ntg_last_process -> p_current st' = t + 1) /\
       (t + 1 = ntg_last_process -> p_current st' = ntg_start_process) /\
       (rc <> NTG_OK -> ~ usable_at (p_pros st') t)).
Proof.
  intros Hok Hcur Hcount. destruct (polling_spec st Hok Hcur Hcount) as [H1 H2]. split; [done|].
  intros rc chan H Hchan. destruct (H2 rc chan H Hchan) as (t & st' & E & H3). exists t, st'. tauto.
Qed.

End balancer.

(** ** Examples *)

Definition proc (reqs : Z) (spawn : bool) : ntg_process :=
  Process 100 NTG_TRAFFIC_PROCESS reqs spawn false false false.

(** The user process in slot 0, and three traffic processes. *)
Definition example_slots : slots := [proc 0 false; proc 5 false; proc 2 false; proc 9 true].

Definition example_state (chan : list Z) : bstate :=
  BState (Balance 0 1 0 2) example_slots chan.

Lemma example_slots_ok : slots_ok 1 4 example_slots.
Proof. unfold slots_ok. cbn. lia. Qed.


Lemma process_feedback_correct_witness :
  exists st', ntg_user_balance_process_feedback 1 4 2 0
      (BState (Balance 3 1 0 2) example_slots []) = Some (NTG_OK, st') /\
    reqs_at (b_pros st') 2 = 0 /\ cur_slot (b_blc st') = 2.
Proof.
  destruct (process_feedback_correct 1 4 2 0 (BState (Balance 3 1 0 2) example_slots [])
    (proc 2 false)) as (st' & E & H1 & _).
  - exact example_slots_ok.
  - reflexivity.
  - exists st'. split; [exact E|]. split; [exact H1|]. vm_compute in E. by injection E as <-.
Defined.

Lemma polling_correct_witness :
  exists t st', ntg_user_balance_polling 1 4 (PState 3 example_slots 9 [NTG_OK]) =
      Some (NTG_OK, Some t, st') /\ p_current st' = t + 1 /\ t = 1.
Proof.
  destruct (polling_correct 1 4 (PState 3 example_slots 9 [NTG_OK])) as [_ H].
  - exact example_slots_ok.
  - vm_compute. split; congruence.
  - vm_compute. split; congruence.
  - destruct (H NTG_OK []) as (t & st' & E & _ & _ & H1 & _); [cbn; lia|done|].
    exists t, st'. assert (t = 1) as -> by (vm_compute in E; by injection E as <- _).
    split; [exact E|]. split; [apply H1; lia|done].
Defined.

(** The first nine messages under the polling method are dropped, and reported
    as sent. *)
Lemma polling_drops_messages :
  ntg_user_balance_polling 1 4 (PState 1 example_slots 0 [NTG_OK]) =
  Some (NTG_OK, None, PState 1 example_slots 1 [NTG_OK]).
Proof. reflexivity. Qed.

(** When no traffic process is usable the message goes to the slot of the turn
    all the same. *)
Lemma polling_sends_to_unusable :
  exists st', ntg_user_balance_polling 1 2
      (PState 1 [proc 0 false; set_p_exiting true (proc 0 false)] 9 [NTG_OK]) =
    Some (NTG_OK, Some 1, st').
Proof. eexists. vm_compute. reflexivity. Qed.

(** A full channel ([NTG_AGAIN]) is taken for a closed one. *)
Lemma full_channel_gives_up :
  exists st', ntg_user_balance_process_request 1 2
      (BState (Balance 0 1 0 1) [proc 0 false; proc 0 false] [NTG_AGAIN; NTG_OK; NTG_OK]) =
    Some (NTG_ERROR, None, st').
Proof. eexists. vm_compute. reflexivity. Qed.
