(* ===== verification/Table.v ===== *)
(** * The hash table of the user process (src/utils/ntg_table.c)

    Buckets of singly linked nodes taken from a preallocated pool. The nodes
    are known by their number in the pool; the data of a node is a pointer, and
    the table's [key] and [cmp] functions are parameters. *)

From S2P Require Import Prelude.

(** [ntg_hash_node_t] and [ntg_hash_table_t] (ntg_table.h). *)
Record ntg_hash_node := HashNode { nd_next : option Z; nd_data : option Z }.

Record ntg_hash_table := HashTable {
  tb_size : Z;
  tb_buckets : list (option Z);
  tb_nodes : gmap Z ntg_hash_node;
  tb_free_nodes : option Z;
  tb_free_node_n : Z }.

Definition set_tb_buckets (v : list (option Z)) (t : ntg_hash_table) : ntg_hash_table :=
  HashTable (tb_size t) v (tb_nodes t) (tb_free_nodes t) (tb_free_node_n t).
Definition set_tb_nodes (v : gmap Z ntg_hash_node) (t : ntg_hash_table) : ntg_hash_table :=
  HashTable (tb_size t) (tb_buckets t) v (tb_free_nodes t) (tb_free_node_n t).
Definition set_tb_free (v : option Z) (n : Z) (t : ntg_hash_table) : ntg_hash_table :=
  HashTable (tb_size t) (tb_buckets t) (tb_nodes t) v n.

(** What the table relies on: [cmp] returns 0 exactly on equal keys. *)
Class TableKey (key : Z -> Z) (cmp : Z -> Z -> Z) : Prop :=
  cmp_key : forall d1 d2, cmp d1 d2 = 0 <-> key d1 = key d2.

Section table.
Context (key : Z -> Z) (cmp : Z -> Z -> Z).

(** The loop that links the node pool, from the last node to the first. *)
Fixpoint pool_loop (i : nat) (next : option Z) (m : gmap Z ntg_hash_node)
  : option Z * gmap Z ntg_hash_node :=
  match i with
  | O => (next, m)
  | S i => pool_loop i (Some (Z.of_nat i)) (<[Z.of_nat i := HashNode next None]> m)
  end.

(** [ntg_hash_table_init]; [palloc] tells whether the memory is there.  With
    [node_n] 0 the loop would run over all of memory. *)
Definition ntg_hash_table_init (palloc : bool) (size node_n : Z) : option (Z * ntg_hash_table) :=
  if negb palloc then Some (NTG_ERROR, HashTable size [] ∅ None 0)
  else if node_n <=? 0 then None
  else
    let '(free, m) := pool_loop (Z.to_nat node_n) None ∅ in
    Some (NTG_OK, HashTable size (replicate (Z.to_nat size) None) m free node_n).

(** [buckets[key % size]]: the index, when there is a bucket at all. *)
Definition bucket_index (t : ntg_hash_table) (data : Z) : option nat :=
  if tb_size t <=? 0 then None else Some (Z.to_nat (key data mod tb_size t)).

(** The loop over a bucket: the node whose data compares equal. *)
Fixpoint find_loop (fuel : nat) (m : gmap Z ntg_hash_node) (node : option Z) (data : Z)
  : option (option Z) :=
  match fuel with
  | O => None
  | S fuel =>
      match node with
      | None => Some None
      | Some i =>
          nd ← m !! i; d ← nd_data nd;
          if cmp d data =? 0 then Some (Some i) else find_loop fuel m (nd_next nd) data
      end
  end.

(** One more than the nodes of the pool bounds the length of a bucket. *)
Definition table_fuel (t : ntg_hash_table) : nat := S (size (tb_nodes t)).

Definition ntg_hash_find_node (t : ntg_hash_table) (data : Z) : option (option Z) :=
  i ← bucket_index t data; node ← tb_buckets t !! i;
  find_loop (table_fuel t) (tb_nodes t) node data.

Definition ntg_hash_get_node (t : ntg_hash_table) : option (option Z * ntg_hash_table) :=
  match tb_free_nodes t with
  | None => Some (None, t)
  | Some i =>
      nd ← tb_nodes t !! i;
      Some (Some i, t |> set_tb_free (nd_next nd) (s64 (tb_free_node_n t - 1))
                      |> set_tb_nodes (<[i := HashNode None (nd_data nd)]> (tb_nodes t)))
  end.

Definition ntg_hash_free_node (t : ntg_hash_table) (i : Z) : option ntg_hash_table :=
  nd ← tb_nodes t !! i;
  Some (t |> set_tb_nodes (<[i := HashNode (tb_free_nodes t) None]> (tb_nodes t))
          |> set_tb_free (Some i) (s64 (tb_free_node_n t + 1))).

Definition ntg_hash_insert_node (t : ntg_hash_table) (data : Z) : option (Z * ntg_hash_table) :=
  found ← ntg_hash_find_node t data;
  match found with
  | Some _ => Some (NTG_OK, t)
  | None =>
      '(node, t) ← ntg_hash_get_node t;
      match node with
      | None => Some (NTG_ERROR, t)
      | Some n =>
          i ← bucket_index t data; head ← tb_buckets t !! i;
          Some (NTG_OK, t |> set_tb_nodes (<[n := HashNode head (Some data)]> (tb_nodes t))
                          |> set_tb_buckets (<[i := Some n]> (tb_buckets t)))
      end
  end.

(** The loop of [ntg_hash_delete_node]: the node before the one that compares
    equal, and that node. *)
Fixpoint delete_loop (fuel : nat) (m : gmap Z ntg_hash_node) (pre : Z) (node : option Z) (data : Z)
  : option (option (Z * Z)) :=
  match fuel with
  | O => None
  | S fuel =>
      match node with
      | None => Some None
      | Some i =>
          nd ← m !! i; d ← nd_data nd;
          if cmp d data =? 0 then Some (Some (pre, i)) else delete_loop fuel m i (nd_next nd) data
      end
  end.

(** [ntg_hash_delete_node]: the data of the node taken out, or none. *)
Definition ntg_hash_delete_node (t : ntg_hash_table) (data : Z)
  : option (option Z * ntg_hash_table) :=
  i ← bucket_index t data; head ← tb_buckets t !! i;
  match head with
  | None => Some (None, t)
  | Some pre =>
      nd ← tb_nodes t !! pre; d ← nd_data nd;
      if cmp d data =? 0 then
        t ← ntg_hash_free_node (set_tb_buckets (<[i := None]> (tb_buckets t)) t) pre;
        Some (Some d, t)
      else
        found ← delete_loop (table_fuel t) (tb_nodes t) pre (nd_next nd) data;
        match found with
        | None => Some (None, t)
        | Some (pre, n) =>
            pnd ← tb_nodes t !! pre; nd ← tb_nodes t !! n;
            t ← ntg_hash_free_node
                  (set_tb_nodes (<[pre := HashNode (nd_next nd) (nd_data pnd)]> (tb_nodes t)) t) n;
            Some (nd_data nd, t)
        end
  end.

(** ** The table as a set of data *)

(** The nodes linked from [p], with their data. *)
Fixpoint bucket_chain (m : gmap Z ntg_hash_node) (p : option Z) (l : list (Z * Z)) : Prop :=
  match l with
  | [] => p = None
  | (i, d) :: l => p = Some i /\ exists next, m !! i = Some (HashNode next (Some d)) /\
      bucket_chain m next l
  end.

(** The free nodes linked from [p]. *)
Fixpoint free_list (m : gmap Z ntg_hash_node) (p : option Z) (l : list Z) : Prop :=
  match l with
  | [] => p = None
  | i :: l => p = Some i /\ exists nd, m !! i = Some nd /\ free_list m (nd_next nd) l
  end.

(** The table holds the buckets [chains], and the nodes [free] are free. *)
Record table_rep (t : ntg_hash_table) (chains : list (list (Z * Z))) (free : list Z) : Prop := {
  tr_size : 0 < tb_size t /\ Z.of_nat (length chains) = tb_size t;
  tr_buckets : Forall2 (bucket_chain (tb_nodes t)) (tb_buckets t) chains;
  tr_free : free_list (tb_nodes t) (tb_free_nodes t) free;
  tr_free_n : tb_free_node_n t = Z.of_nat (length free) /\ 
    is_s64 (Z.of_nat (length (concat chains) + length free));
  tr_nodup : NoDup ((concat chains).*1 ++ free);
  tr_place : forall i l n d, chains !! i = Some l -> (n, d) ∈ l ->
    key d mod tb_size t = Z.of_nat i;
  tr_keys : Forall (fun l : list (Z * Z) => NoDup (key <$> l.*2)) chains }.

(** The data stored under the key of [data]. *)
Definition lookup_data (t : ntg_hash_table) (chains : list (list (Z * Z))) (k : Z) : option Z :=
  l ← chains !! Z.to_nat (k mod tb_size t);
  e ← List.find (fun e : Z * Z => key e.2 =? k) l;
  Some e.2.

(** ** Chains *)

Lemma bucket_chain_frame m p l n x :
  n ∉ l.*1 -> bucket_chain m p l -> bucket_chain (<[n := x]> m) p l.
Proof.
  revert p. induction l as [|[i d] l IH]; intros p Hn; cbn [bucket_chain]; [done|].
  apply not_elem_of_cons in Hn as [Hni Hn]. cbn in Hni. intros (-> & next & Hi & Hl). split; [done|].
  exists next. rewrite lookup_insert_ne by done. auto.
Qed.

Lemma free_list_frame m p l n x : n ∉ l -> free_list m p l -> free_list (<[n := x]> m) p l.
Proof.
  revert p. induction l as [|i l IH]; intros p Hn; cbn; [done|].
  apply not_elem_of_cons in Hn as [Hni Hn]. intros (-> & nd & Hi & Hl). split; [done|].
  exists nd. rewrite lookup_insert_ne by congruence. auto.
Qed.

Lemma bucket_chain_in m p l n : bucket_chain m p l -> n ∈ l.*1 -> is_Some (m !! n).
Proof.
  revert p. induction l as [|[i d] l IH]; intros p; cbn; [by intros _ ?%elem_of_nil|].
  intros (-> & next & Hi & Hl) [->|Hn]%elem_of_cons; [by eexists|]. eauto.
Qed.

Lemma chain_nodup (chains : list (list (Z * Z))) i l :
  chains !! i = Some l -> NoDup (concat chains).*1 -> NoDup l.*1.
Proof.
  intros Hi. rewrite <-(take_drop_middle _ _ _ Hi), concat_app. cbn [concat].
  rewrite !fmap_app. intros (_ & _ & H)%NoDup_app. by apply NoDup_app in H as (? & _ & _).
Qed.

Lemma chain_in_concat (chains : list (list (Z * Z))) i l n :
  chains !! i = Some l -> n ∈ l.*1 -> n ∈ (concat chains).*1.
Proof.
  intros Hi Hn. rewrite <-(take_drop_middle _ _ _ Hi), concat_app. cbn [concat].
  rewrite !fmap_app, !elem_of_app. tauto.
Qed.

(** The bucket of a key. *)
Lemma rep_bucket t chains free data :
  table_rep t chains free ->
  exists i p l, bucket_index t data = Some i /\ tb_buckets t !! i = Some p /\
    chains !! i = Some l /\ bucket_chain (tb_nodes t) p l /\
    i = Z.to_nat (key data mod tb_size t) /\ (length l < table_fuel t)%nat.
Proof.
  intros [[S1 S2] B F N D P K]. unfold bucket_index.
  rewrite (proj2 (Z.leb_gt _ _)) by lia.
  pose proof (Z.mod_pos_bound (key data) (tb_size t) S1).
  destruct (lookup_lt_is_Some_2 chains (Z.to_nat (key data mod tb_size t))) as [l Hl]; [lia|].
  destruct (Forall2_lookup_r _ _ _ _ _ B Hl) as (p & Hp & Hc).
  eexists _, p, l. split_and!; try done. unfold table_fuel.
  apply NoDup_app in D as (D & _ & _). rewrite <-(length_fmap fst).
  apply Nat.lt_succ_r, nodes_bound; [by eapply chain_nodup|]. intros n. by apply bucket_chain_in with p.
Qed.

Section keys.
Context {TK : TableKey key cmp}.

Lemma cmp_eqb d1 d2 : (cmp d1 d2 =? 0) = (key d1 =? key d2).
Proof.
  destruct (Z.eqb_spec (key d1) (key d2)) as [E|E].
  - by apply Z.eqb_eq, cmp_key.
  - apply Z.eqb_neq. by rewrite cmp_key.
Qed.

Definition same_key (k : Z) (e : Z * Z) : bool := key e.2 =? k.

Lemma find_loop_spec fuel m p l data :
  bucket_chain m p l -> (length l < fuel)%nat ->
  find_loop fuel m p data = Some (fst <$> List.find (same_key (key data)) l).
Proof.
  revert p l. induction fuel as [|fuel IH]; intros p l; [lia|].
  destruct l as [|[i d] l]; cbn [bucket_chain length find_loop]; [by intros ->|].
  intros (-> & next & Hi & Hl) Hf. rewrite Hi. cbn [mbind option_bind nd_data nd_next List.find].
  rewrite cmp_eqb. unfold same_key at 1. cbn [snd].
  destruct (key d =? key data); [done|]. apply IH; [done|lia].
Qed.

Lemma find_none_keys l k : List.find (same_key k) l = None -> k ∉ key <$> l.*2.
Proof.
  induction l as [|[n d] l IH]; cbn; [by intros _ ?%elem_of_nil|].
  unfold same_key at 1. cbn. destruct (Z.eqb_spec (key d) k); [done|].
  intros H [?|?]%elem_of_cons; [done|]. by apply IH.
Qed.

Lemma find_node_spec t chains free data :
  table_rep t chains free ->
  exists l, chains !! Z.to_nat (key data mod tb_size t) = Some l /\
    ntg_hash_find_node t data = Some (fst <$> List.find (same_key (key data)) l).
Proof.
  intros R. destruct (rep_bucket t chains free data R) as (i & p & l & E1 & E2 & E3 & Hc & -> & Hf).
  exists l. split; [done|]. unfold ntg_hash_find_node. rewrite E1. cbn [mbind option_bind].
  rewrite E2. cbn [mbind option_bind]. by apply find_loop_spec.
Qed.

(** ** Changing one bucket *)

Lemma buckets_frame m bs chains n x :
  n ∉ (concat chains).*1 -> Forall2 (bucket_chain m) bs chains ->
  Forall2 (bucket_chain (<[n := x]> m)) bs chains.
Proof.
  intros Hn B. induction B as [|p l bs chains Hl B IH]; [constructor|].
  cbn [concat] in Hn. rewrite fmap_app, not_elem_of_app in Hn. destruct Hn as [Hn1 Hn2].
  constructor; [by apply bucket_chain_frame|by apply IH].
Qed.

(** Replacing bucket [i]. *)
Lemma concat_replace (chains : list (list (Z * Z))) i l l' :
  chains !! i = Some l -> concat (<[i := l']> chains) ++ l ≡ₚ concat chains ++ l'.
Proof.
  intros Hi. pose proof (lookup_lt_Some _ _ _ Hi).
  rewrite insert_take_drop by done. rewrite <-(take_drop_middle _ _ _ Hi) at 3.
  rewrite !concat_app. cbn [concat]. solve_Permutation.
Qed.

Lemma lookup_data_spec t chains k l :
  chains !! Z.to_nat (k mod tb_size t) = Some l ->
  lookup_data t chains k = snd <$> List.find (same_key k) l.
Proof. intros Hl. unfold lookup_data. rewrite Hl. cbn. by destruct (List.find _ l). Qed.

(** Looking up a datum finds the node that stores the one with its key, if
    there is one. *)
Lemma find_node_ok t chains free data :
  table_rep t chains free ->
  exists r, ntg_hash_find_node t data = Some r /\
    match r with
    | None => lookup_data t chains (key data) = None
    | Some n => exists d next, tb_nodes t !! n = Some (HashNode next (Some d)) /\
        lookup_data t chains (key data) = Some d /\ key d = key data
    end.
Proof.
  intros R. destruct (find_node_spec t chains free data R) as (l & Hl & E).
  eexists. split; [exact E|]. rewrite (lookup_data_spec _ _ _ _ Hl).
  destruct (List.find (same_key (key data)) l) as [[n d]|] eqn:Ef; [|done].
  apply find_some in Ef as [Hin Hk]. apply Z.eqb_eq in Hk. cbn in Hk |- *.
  destruct (Forall2_lookup_r _ _ _ _ _ (tr_buckets _ _ _ R) Hl) as (p & _ & Hc).
  clear -Hc Hin Hk. revert p Hc. induction l as [|[n' d'] l IH]; intros p; cbn; [done|].
  intros (-> & next & Hi & Hl). destruct Hin as [[= -> ->]|Hin]; [by exists d, next|eauto].
Qed.

Lemma free_list_in m p l n : free_list m p l -> n ∈ l -> is_Some (m !! n).
Proof.
  revert p. induction l as [|i l IH]; intros p; cbn; [by intros _ ?%elem_of_nil|].
  intros (-> & nd & Hi & Hl) [->|Hn]%elem_of_cons; [by eexists|]. eauto.
Qed.

(** Adding a node in front of bucket [i]. *)
Lemma rep_push t chains n free i p l data nd :
  table_rep t chains (n :: free) -> tb_nodes t !! n = Some nd ->
  tb_buckets t !! i = Some p -> chains !! i = Some l ->
  i = Z.to_nat (key data mod tb_size t) -> (key data) ∉ (key <$> l.*2) ->
  table_rep (HashTable (tb_size t) (<[i := Some n]> (tb_buckets t))
    (<[n := HashNode p (Some data)]> (tb_nodes t)) (nd_next nd) (s64 (tb_free_node_n t - 1)))
    (<[i := (n, data) :: l]> chains) free.
Proof.
  intros [[S1 S2] B F [N1 N2] D P K] Hn Hp Hl Hi Hk.
  destruct F as (Ef & nd' & Hn' & F). rewrite Hn in Hn'. injection Hn' as <-.
  assert (Hperm : concat (<[i := (n, data) :: l]> chains) ≡ₚ (n, data) :: concat chains).
  { apply (Permutation_app_inv_r l). rewrite (concat_replace _ _ _ _ Hl).
    cbn [app]. symmetry. apply Permutation_middle. }
  assert (D1 : n ∉ (concat chains).*1).
  { apply NoDup_app in D as (_ & D & _). intros H. apply (D n H). by left. }
  assert (D2 : (n ∉ free) /\ NoDup ((concat chains).*1 ++ free)).
  { rewrite <-(Permutation_middle) in D. apply NoDup_cons in D as [D D']. split; [|done].
    intros H. apply D, elem_of_app. by right. }
  split; cbn [tb_size tb_buckets tb_nodes tb_free_nodes tb_free_node_n].
  - by rewrite length_insert.
  - apply Forall2_insert; [by apply buckets_frame|]. cbn. split; [done|]. exists p.
    rewrite lookup_insert_eq. split; [done|]. apply bucket_chain_frame.
    + intros H. apply D1. by apply (chain_in_concat chains i l).
    + apply (Forall2_lookup_lr _ _ _ _ _ _ B Hp Hl).
  - apply free_list_frame; [apply D2|done].
  - rewrite Hperm, N1. cbn [length] in *. split; [|width; lia].
    rewrite s64_small by (width; lia). lia.
  -     rewrite Hperm. cbn. apply NoDup_cons. split; [|apply D2].
    rewrite elem_of_app. intros [?|?]; [done|by apply D2].
  - intros j l2 n2 d2 Hj Hin. destruct (decide (i = j)) as [<-|Hij].
    + rewrite list_lookup_insert_eq in Hj by (by eapply lookup_lt_Some). injection Hj as <-.
      apply elem_of_cons in Hin as [[= -> ->]|Hin]; [|by eapply P].
      pose proof (Z.mod_pos_bound (key data) (tb_size t) S1). lia.
    + rewrite list_lookup_insert_ne in Hj by done. by eapply P.
  - apply Forall_insert; [done|]. cbn. apply NoDup_cons. split; [done|].
    by apply (proj1 (Forall_lookup _ _) K i).
Qed.

(** Looking up after bucket [i] got a new front. *)
Lemma lookup_data_push t t' chains i n data l k :
  tb_size t' = tb_size t -> 0 < tb_size t -> chains !! i = Some l ->
  i = Z.to_nat (key data mod tb_size t) ->
  lookup_data t' (<[i := (n, data) :: l]> chains) k =
  if key data =? k then Some data else lookup_data t chains k.
Proof.
  intros Es Hs Hl Hi. unfold lookup_data. rewrite Es.
  destruct (decide (i = Z.to_nat (k mod tb_size t))) as [E|E].
  - rewrite <-E, list_lookup_insert_eq by (by eapply lookup_lt_Some). rewrite Hl. cbn.
    by destruct (key data =? k).
  - rewrite list_lookup_insert_ne by done.
    destruct (Z.eqb_spec (key data) k) as [<-|]; [by rewrite Hi in E|done].
Qed.

(** Inserting a datum succeeds and adds it under its key, taking a node of
    the pool, unless its key is there already (the table is then unchanged) or
    no node is left (an error, and the table is unchanged). *)
Lemma insert_node_ok t chains free data :
  table_rep t chains free ->
  exists rc t', ntg_hash_insert_node t data = Some (rc, t') /\
    (lookup_data t chains (key data) <> None -> rc = NTG_OK /\ t' = t) /\
    (lookup_data t chains (key data) = None -> free = [] -> rc = NTG_ERROR /\ t' = t) /\
    (lookup_data t chains (key data) = None -> free <> [] ->
       rc = NTG_OK /\ exists chains' free', table_rep t' chains' free' /\
         length free = S (length free') /\
         forall k, lookup_data t' chains' k =
           if key data =? k then Some data else lookup_data t chains k).
Proof.
  intros R. unfold ntg_hash_insert_node.
  destruct (find_node_spec t chains free data R) as (l & Hl & ->).
  rewrite (lookup_data_spec _ _ _ _ Hl). cbn [mbind option_bind].
  destruct (List.find (same_key (key data)) l) as [[n d]|] eqn:Ef; cbn.
  { eexists _, _. split; [done|]. split_and!; done. }
  pose proof (tr_free _ _ _ R) as F. unfold ntg_hash_get_node.
  destruct free as [|n free]; cbn in F.
  { rewrite F. cbn. eexists _, _. split; [done|]. split_and!; done. }
  destruct F as (EF & nd & Hn & HF). rewrite EF, Hn. cbn [mbind option_bind].
  destruct (rep_bucket t chains (n :: free) data R) as (i & p & l' & Ei & Ep & El' & _ & Hi & _).
  rewrite <-Hi in Hl. rewrite El' in Hl. injection Hl as ->.
  unfold bucket_index in *. cbn [tb_size set_tb_free set_tb_nodes tb_buckets].
  rewrite Ei. cbn [mbind option_bind]. rewrite Ep. cbn [mbind option_bind].
  eexists _, _. split; [done|]. split_and!; [done|done|]. intros _ _. split; [done|].
  exists (<[i := (n, data) :: l]> chains), free. split_and!; [|done|].
  - cbn. rewrite insert_insert_eq.
    apply (rep_push t chains n free i p l data nd); try done. by apply find_none_keys.
  - intros k. apply lookup_data_push; try done. apply (tr_size _ _ _ R).
Qed.

(** ** Deletion *)

(** Taking the node [n] out of bucket [i], whose chain becomes [l']. *)
Lemma rep_drop t chains free i l l' n d nd bs' m' :
  table_rep t chains free -> chains !! i = Some l -> l ≡ₚ (n, d) :: l' ->
  tb_nodes t !! n = Some nd ->
  Forall2 (bucket_chain m') bs' (<[i := l']> chains) ->
  free_list m' (tb_free_nodes t) free ->
  table_rep (HashTable (tb_size t) bs' (<[n := HashNode (tb_free_nodes t) None]> m') (Some n)
    (s64 (tb_free_node_n t + 1))) (<[i := l']> chains) (n :: free).
Proof.
  intros [[S1 S2] B F [N1 N2] D P K] Hl Hp Hn B' F'.
  assert (Hperm : concat chains ≡ₚ (n, d) :: concat (<[i := l']> chains)).
  { apply (Permutation_app_inv_r l'). rewrite <-(concat_replace chains i l l' Hl), Hp.
    cbn [app]. symmetry. apply Permutation_middle. }
  rewrite Hperm in N2, D. cbn in D. apply NoDup_cons in D as [Hnn D].
  rewrite not_elem_of_app in Hnn. destruct Hnn as [Hn1 Hn2].
  split; cbn [tb_size tb_buckets tb_nodes tb_free_nodes tb_free_node_n].
  - by rewrite length_insert.
  - by apply buckets_frame.
  - cbn. split; [done|]. eexists. rewrite lookup_insert_eq. split; [done|].
    by apply free_list_frame.
  - rewrite N1. cbn [length] in *. split; [|width; lia].
    rewrite s64_small by (width; lia). lia.
  - rewrite <-Permutation_middle. apply NoDup_cons. split; [|done].
    rewrite elem_of_app. tauto.
  - intros j l2 n2 d2 Hj Hin. destruct (decide (i = j)) as [<-|Hij].
    + rewrite list_lookup_insert_eq in Hj by (by eapply lookup_lt_Some). injection Hj as <-.
      eapply P; [done|]. rewrite Hp. by right.
    + rewrite list_lookup_insert_ne in Hj by done. by eapply P.
  - apply Forall_insert; [done|]. pose proof (proj1 (Forall_lookup _ _) K i _ Hl) as Hk.
    cbn in Hk. rewrite Hp in Hk. cbn in Hk. by apply NoDup_cons in Hk as [_ ?].
Qed.

Lemma delete_loop_spec fuel m pre p l data :
  bucket_chain m p l -> (length l < fuel)%nat ->
  match List.find (same_key (key data)) l with
  | None => delete_loop fuel m pre p data = Some None
  | Some e => exists l1 l2, l = l1 ++ e :: l2 /\ key e.2 = key data /\
      delete_loop fuel m pre p data = Some (Some (List.last l1.*1 pre, e.1))
  end.
Proof.
  revert pre p l. induction fuel as [|fuel IH]; intros pre p l; [lia|].
  destruct l as [|[i d] l]; cbn [bucket_chain length delete_loop List.find]; [by intros ->|].
  intros (-> & next & Hi & Hl) Hf. rewrite Hi. cbn [mbind option_bind nd_data nd_next].
  rewrite cmp_eqb. unfold same_key at 1. cbn [snd].
  destruct (Z.eqb_spec (key d) (key data)) as [E|E]; [by exists [], l|].
  specialize (IH i next l Hl ltac:(lia)). destruct (List.find _ l); [|done].
  destruct IH as (l1 & l2 & -> & Hk & ->). exists ((i, d) :: l1), l2.
  split; [done|]. split; [done|]. do 3 f_equal. symmetry. apply last_cons_default.
Qed.

(** Unlinking the node after [pre]. *)
Lemma unlink m p pre0 d0 l1 n d l2 nd pnd :
  bucket_chain m p ((pre0, d0) :: l1 ++ (n, d) :: l2) ->
  NoDup ((pre0, d0) :: l1 ++ (n, d) :: l2).*1 ->
  m !! n = Some nd -> m !! List.last l1.*1 pre0 = Some pnd ->
  bucket_chain (<[List.last l1.*1 pre0 := HashNode (nd_next nd) (nd_data pnd)]> m) p
    ((pre0, d0) :: l1 ++ l2).
Proof.
  intros Hc Hnd Hn. revert p pre0 d0 Hc Hnd. induction l1 as [|[i1 d1] l1 IH];
    intros p pre0 d0 Hc Hnd Hpre.
  - cbn [app fmap list_fmap List.last] in *. cbn in Hc.
    destruct Hc as (-> & next & Hp0 & (-> & next' & Hn' & Hl2)).
    rewrite Hn in Hn'. injection Hn' as ->. rewrite Hp0 in Hpre. injection Hpre as <-.
    cbn. split; [done|]. exists next'. rewrite lookup_insert_eq. split; [done|].
    cbn in Hnd. apply NoDup_cons in Hnd as [Hni Hnd]. apply bucket_chain_frame; [|done].
    intros H. apply Hni. by right.
  - assert (El : List.last ((i1, d1) :: l1).*1 pre0 = List.last l1.*1 i1).
    { apply last_cons_default. }
    rewrite El in Hpre |- *. cbn [app bucket_chain] in Hc |- *.
    destruct Hc as (-> & next & Hp0 & Hc). split; [done|]. exists next.
    apply NoDup_cons in Hnd as [Hni Hnd]. split.
    + rewrite lookup_insert_ne; [done|]. intros E. apply Hni.
      change (pre0 ∈ i1 :: (l1 ++ (n, d) :: l2).*1). rewrite <-E, fmap_app.
      pose proof (last_elem_of l1.*1 i1) as [->|H]%elem_of_cons; [by left|].
      right. apply elem_of_app. by left.
    + by apply (IH next i1 d1).
Qed.

(** Looking up after a datum left its bucket. *)
Lemma lookup_data_drop t t' chains i l1 n d l2 k :
  tb_size t' = tb_size t -> chains !! i = Some (l1 ++ (n, d) :: l2) ->
  i = Z.to_nat (key d mod tb_size t) -> NoDup (key <$> (l1 ++ (n, d) :: l2).*2) ->
  lookup_data t' (<[i := l1 ++ l2]> chains) k =
  if key d =? k then None else lookup_data t chains k.
Proof.
  intros Es Hl Hi Hnd. unfold lookup_data. rewrite Es.
  destruct (decide (i = Z.to_nat (k mod tb_size t))) as [E|E].
  - rewrite <-E, list_lookup_insert_eq by (by eapply lookup_lt_Some). rewrite Hl.
    cbn [mbind option_bind]. clear -Hnd. induction l1 as [|[n1 d1] l1 IH]; cbn in Hnd |- *.
    + apply NoDup_cons in Hnd as [Hni Hnd]. destruct (Z.eqb_spec (key d) k) as [<-|]; [|done].
      destruct (List.find _ l2) as [[n2 d2]|] eqn:Ef; [|done]. exfalso.
      apply find_some in Ef as [Hin Hk]. cbn in Hk. apply Hni.
      apply list_elem_of_fmap. exists d2. split; [lia|]. apply list_elem_of_fmap.
      exists (n2, d2). split; [done|]. by apply list_elem_of_In.
    + apply NoDup_cons in Hnd as [Hni Hnd]. specialize (IH Hnd).
      destruct (Z.eqb_spec (key d1) k) as [E1|E1]; [|exact IH].
      destruct (Z.eqb_spec (key d) k) as [E2|]; [|done]. exfalso. apply Hni.
      rewrite E1, <-E2. apply list_elem_of_fmap. exists d. split; [done|].
      apply list_elem_of_fmap. exists (n, d). split; [done|]. apply elem_of_app. right. by left.
  - rewrite list_lookup_insert_ne by done.
    destruct (Z.eqb_spec (key d) k) as [<-|]; [by rewrite Hi in E|done].
Qed.

(** Changing a node of bucket [i] only. *)
Lemma buckets_frame_at m bs chains i p l l' n x :
  Forall2 (bucket_chain m) bs chains -> bs !! i = Some p -> chains !! i = Some l ->
  n ∈ l.*1 -> NoDup (concat chains).*1 -> bucket_chain (<[n := x]> m) p l' ->
  Forall2 (bucket_chain (<[n := x]> m)) bs (<[i := l']> chains).
Proof.
  intros B. revert i. induction B as [|q l0 bs chains Hl B IH]; intros i Hp Hi Hn Hnd Hc; [done|].
  cbn [concat] in Hnd. rewrite fmap_app in Hnd. apply NoDup_app in Hnd as (Hnd1 & Hdis & Hnd2).
  destruct i as [|i]; cbn in Hp, Hi |- *.
  - injection Hp as ->. injection Hi as ->. constructor; [done|].
    apply buckets_frame; [by apply Hdis|done].
  - constructor; [|by apply IH]. apply bucket_chain_frame; [|done].
    intros H. apply (Hdis n H). by apply (chain_in_concat chains i l).
Qed.

Lemma bucket_chain_tail m p l1 n d l2 :
  bucket_chain m p (l1 ++ (n, d) :: l2) ->
  exists next, m !! n = Some (HashNode next (Some d)) /\ bucket_chain m next l2.
Proof.
  revert p. induction l1 as [|[i1 d1] l1 IH]; intros p; cbn.
  - intros (_ & next & ? & ?). by exists next.
  - intros (_ & next & _ & ?). eauto.
Qed.

(** What deleting [d], stored under the key of [data], does to the table. *)
Definition deleted (t : ntg_hash_table) (chains : list (list (Z * Z))) (free : list Z) (data d : Z) : Prop :=
  exists t' chains' free', ntg_hash_delete_node t data = Some (Some d, t') /\
    table_rep t' chains' free' /\ length free' = S (length free) /\
    forall k, lookup_data t' chains' k = if key data =? k then None else lookup_data t chains k.

(** Deleting the only datum of a bucket. *)
Lemma delete_single t chains free data i n d :
  table_rep t chains free -> bucket_index t data = Some i -> i = Z.to_nat (key data mod tb_size t) ->
  chains !! i = Some [(n, d)] -> tb_buckets t !! i = Some (Some n) -> tb_nodes t !! n = Some (HashNode None (Some d)) ->
  key d = key data -> deleted t chains free data d.
Proof.
  intros R Ei Hi El Ep Hn Hk. pose proof R as [[S1 S2] B F [N1 N2] D P K]. unfold deleted, ntg_hash_delete_node.
  rewrite Ei. cbn [mbind option_bind]. rewrite Ep. cbn [mbind option_bind]. rewrite Hn. cbn [mbind option_bind nd_data].
  rewrite cmp_eqb, Hk, Z.eqb_refl. unfold ntg_hash_free_node. cbn [tb_nodes set_tb_buckets]. rewrite Hn.
  cbn [mbind option_bind tb_free_nodes tb_free_node_n].
  eexists _, (<[i := []]> chains), (n :: free). split; [done|].
  assert (R' := rep_drop t chains free i [(n, d)] [] n d _ (<[i := None]> (tb_buckets t)) (tb_nodes t) R El ltac:(done) Hn).
  split; [|split; [done|]].
  - apply R'; [by apply Forall2_insert|done].
  - intros k. rewrite <-Hk. apply (lookup_data_drop _ _ _ i [] n d []); try done; [by rewrite Hk|apply NoDup_singleton].
Qed.

(** The node in front of an inner node of a chain. *)
Lemma inner_pre m (n0 d0 n dn : Z) (l1 l2 : list (Z * Z)) :
  bucket_chain m (Some n0) ((n0, d0) :: l1 ++ (n, dn) :: l2) -> NoDup ((n0, d0) :: l1 ++ (n, dn) :: l2).*1 ->
  let pre := List.last l1.*1 n0 in
  pre ∈ ((n0, d0) :: l1 ++ (n, dn) :: l2).*1 /\ is_Some (m !! pre) /\ pre <> n.
Proof.
  intros Hch Hnd pre.
  assert (Hpin : pre ∈ ((n0, d0) :: l1 ++ (n, dn) :: l2).*1).
  { change (List.last l1.*1 n0 ∈ n0 :: (l1 ++ (n, dn) :: l2).*1). rewrite fmap_app.
    pose proof (last_elem_of l1.*1 n0) as [->|H]%elem_of_cons; [by left|].
    right. apply elem_of_app. by left. }
  split; [done|]. split; [by apply (bucket_chain_in _ _ _ _ Hch)|]. intros E.
  change (NoDup (n0 :: (l1 ++ (n, dn) :: l2).*1)) in Hnd. rewrite fmap_app in Hnd.
  change (NoDup ((n0 :: l1.*1) ++ n :: l2.*1)) in Hnd. apply NoDup_app in Hnd as (_ & Hdis & _).
  apply (Hdis n); [|by left]. rewrite <-E. apply last_elem_of.
Qed.

(** Deleting a datum behind the first one of its bucket. *)
Lemma delete_inner t chains free data i n0 d0 next l1 n dn l2 :
  table_rep t chains free -> bucket_index t data = Some i -> i = Z.to_nat (key data mod tb_size t) ->
  chains !! i = Some ((n0, d0) :: l1 ++ (n, dn) :: l2) -> tb_buckets t !! i = Some (Some n0) ->
  tb_nodes t !! n0 = Some (HashNode next (Some d0)) -> bucket_chain (tb_nodes t) next (l1 ++ (n, dn) :: l2) ->
  key d0 <> key data -> key dn = key data ->
  delete_loop (table_fuel t) (tb_nodes t) n0 next data = Some (Some (List.last l1.*1 n0, n)) ->
  deleted t chains free data dn.
Proof.
  intros R Ei Hi El Ep Hn0 Hc E0 Hk HD. pose proof R as [[S1 S2] B F [N1 N2] D P K].
  unfold deleted, ntg_hash_delete_node. rewrite Ei. cbn [mbind option_bind]. rewrite Ep. cbn [mbind option_bind].
  rewrite Hn0. cbn [mbind option_bind nd_data nd_next]. rewrite cmp_eqb, (proj2 (Z.eqb_neq _ _) E0), HD.
  cbn [mbind option_bind]. destruct (bucket_chain_tail _ _ _ _ _ _ Hc) as (nx & Hn & _).
  assert (Hch : bucket_chain (tb_nodes t) (Some n0) ((n0, d0) :: l1 ++ (n, dn) :: l2)) by (split; [done|by exists next]).
  pose proof (proj1 (proj1 (NoDup_app _ _) D)) as Dc. pose proof (chain_nodup _ _ _ El Dc) as Hnd.
  pose proof (proj1 (Forall_lookup _ _) K i _ El) as Hkd.
  destruct (inner_pre _ _ _ _ _ _ _ Hch Hnd) as (Hpin & [pnd Hpre] & Hpn). set (pre := List.last l1.*1 n0) in *.
  rewrite Hpre, Hn. cbn [mbind option_bind]. unfold ntg_hash_free_node.
  cbn [tb_nodes set_tb_nodes nd_next nd_data tb_free_nodes tb_free_node_n].
  rewrite lookup_insert_ne, Hn by done. cbn [mbind option_bind].
  pose proof (unlink (tb_nodes t) (Some n0) n0 d0 l1 n dn l2 _ pnd Hch Hnd Hn Hpre) as Hun.
  cbn [nd_next] in Hun. fold pre in Hun.
  eexists _, (<[i := (n0, d0) :: l1 ++ l2]> chains), (n :: free). split; [done|]. split; [|split; [done|]].
  - apply (rep_drop t chains free i ((n0, d0) :: l1 ++ (n, dn) :: l2) _ n dn (HashNode nx (Some dn))); try done; [| |].
    + rewrite <-Permutation_middle. apply Permutation_swap.
    + apply (buckets_frame_at _ _ _ i (Some n0) ((n0, d0) :: l1 ++ (n, dn) :: l2)); done.
    + apply free_list_frame; [|done]. intros H. apply NoDup_app in D as (_ & D & _).
      apply (D pre); [|done]. by apply (chain_in_concat chains i _ _ El).
  - intros k. rewrite <-Hk. apply (lookup_data_drop _ _ _ i ((n0, d0) :: l1) n dn l2); try done. by rewrite Hk.
Qed.

Lemma delete_node_ok t chains free data l :
  table_rep t chains free -> chains !! Z.to_nat (key data mod tb_size t) = Some l ->
  (lookup_data t chains (key data) = None -> ntg_hash_delete_node t data = Some (None, t)) /\
  (forall d, lookup_data t chains (key data) = Some d ->
     (length l = 1%nat \/ (exists e, head l = Some e /\ key e.2 <> key data)) -> deleted t chains free data d).
Proof.
  intros R Hl. rewrite (lookup_data_spec _ _ _ _ Hl).
  destruct (rep_bucket t chains free data R) as (i & p & l' & Ei & Ep & El & Hc & Hi & Hf).
  rewrite <-Hi, El in Hl. injection Hl as ->. destruct l as [|[n0 d0] l]; cbn [bucket_chain] in Hc.
  { subst p. unfold ntg_hash_delete_node. rewrite Ei. cbn [mbind option_bind]. rewrite Ep. split; [done|]. intros d [=]. }
  destruct Hc as (-> & next & Hn0 & Hc). cbn [List.find head]. unfold same_key at 1 3. cbn [snd].
  destruct (Z.eqb_spec (key d0) (key data)) as [E0|E0].
  - split; [done|]. intros d [= <-] [Hlen|(e & [= <-] & He)]; [|done].
    destruct l as [|? l]; [|done]. cbn in Hc. subst next. by apply (delete_single t chains free data i n0).
  - pose proof (delete_loop_spec (table_fuel t) (tb_nodes t) n0 next l data Hc ltac:(cbn [length] in Hf; lia)) as HD.
    destruct (List.find (same_key (key data)) l) as [[n dn]|] eqn:Ef.
    + destruct HD as (l1 & l2 & -> & Hk & HD). split; [done|]. intros d [= <-] _.
      by apply (delete_inner t chains free data i n0 d0 next l1 n dn l2).
    + split; [|done]. intros _. unfold ntg_hash_delete_node. rewrite Ei. cbn [mbind option_bind]. rewrite Ep.
      cbn [mbind option_bind]. rewrite Hn0. cbn [mbind option_bind nd_data nd_next].
      rewrite cmp_eqb, (proj2 (Z.eqb_neq _ _) E0), HD. done.
Qed.

(** Deleting a datum whose key is absent changes nothing; otherwise, unless
    it is the first of several in its bucket, it is taken out of the table, its
    node goes back to the pool, and nothing else changes. *)
Theorem delete_node_correct t chains free data l :
  table_rep t chains free ->
  chains !! Z.to_nat (key data mod tb_size t) = Some l ->
  (lookup_data t chains (key data) = None -> ntg_hash_delete_node t data = Some (None, t)) /\
  (forall d, lookup_data t chains (key data) = Some d ->
     (length l = 1%nat \/ (exists e, head l = Some e /\ key e.2 <> key data)) ->
     exists t' chains' free', ntg_hash_delete_node t data = Some (Some d, t') /\
       table_rep t' chains' free' /\ length free' = S (length free) /\
       forall k, lookup_data t' chains' k =
         if key data =? k then None else lookup_data t chains k).
Proof. apply delete_node_ok. Qed.

End keys.

(** ** Initialisation *)

Lemma pool_loop_spec i next m l :
  free_list m next l -> Forall (fun n => Z.of_nat i <= n) l ->
  let '(p, m') := pool_loop i next m in free_list m' p (map Z.of_nat (seq 0 i) ++ l).
Proof.
  revert next m l. induction i as [|i IH]; intros next m l Hl Hge; cbn [pool_loop]; [done|].
  specialize (IH (Some (Z.of_nat i)) (<[Z.of_nat i := HashNode next None]> m) (Z.of_nat i :: l)).
  destruct (pool_loop i _ _) as [p m']. rewrite seq_S, map_app, <-app_assoc. apply IH.
  - cbn. split; [done|]. eexists. rewrite lookup_insert_eq. split; [done|]. cbn.
    apply free_list_frame; [|done]. rewrite Forall_forall in Hge. intros H%Hge. lia.
  - constructor; [lia|]. eapply Forall_impl; [exact Hge|]. cbn. intros. lia.
Qed.

(** A new table is empty, and all its nodes are free. *)
Lemma table_init_rep sz n :
  0 < sz -> 0 < n < 9223372036854775807 ->
  exists t, ntg_hash_table_init true sz n = Some (NTG_OK, t) /\
    table_rep t (replicate (Z.to_nat sz) []) (map Z.of_nat (seq 0 (Z.to_nat n))) /\
    forall k, lookup_data t (replicate (Z.to_nat sz) []) k = None.
Proof.
  intros Hs Hn. unfold ntg_hash_table_init. cbn [negb].
  rewrite (proj2 (Z.leb_gt _ _)) by lia.
  pose proof (pool_loop_spec (Z.to_nat n) None ∅ [] eq_refl ltac:(constructor)) as HF.
  destruct (pool_loop _ _ _) as [free m]. eexists. split; [done|].
  assert (Hc : forall j, concat (replicate j (@nil (Z * Z))) = []) by (by induction j).
  rewrite app_nil_r in HF. split.
  - split; cbn [tb_size tb_buckets tb_nodes tb_free_nodes tb_free_node_n].
    + rewrite length_replicate. lia.
    + induction (Z.to_nat sz); by constructor.
    + done.
    + rewrite length_map, length_seq, Hc. cbn [length]. width. lia.
    + rewrite Hc. cbn. apply (NoDup_fmap_2 Z.of_nat), NoDup_seq.
    + intros i l nd d Hi Hin. apply lookup_replicate_1 in Hi as [-> _]. by apply elem_of_nil in Hin.
    + induction (Z.to_nat sz); by repeat constructor.
  - intros k. unfold lookup_data. cbn [tb_size].
    destruct (replicate _ [] !! _) as [l|] eqn:E; [|done]. by apply lookup_replicate_1 in E as [-> _].
Qed.

(** ** The table as a finite map *)

(** The table maps the keys to the data of [M], and [n] nodes are free. *)
Definition table_holds (t : ntg_hash_table) (M : gmap Z Z) (n : nat) : Prop :=
  exists chains free, table_rep t chains free /\ length free = n /\
    forall k, lookup_data t chains k = M !! k.

Lemma lookup_data_key t chains k d : lookup_data t chains k = Some d -> key d = k.
Proof.
  unfold lookup_data. intros H. destruct (chains !! _) as [l|]; [|done]. cbn in H.
  destruct (List.find _ l) as [e|] eqn:E; [|done]. cbn in H. injection H as <-.
  apply find_some in E as [_ E]. by apply Z.eqb_eq.
Qed.

(** Every stored datum is the one found under its key. *)
Lemma lookup_data_stored t chains free i l n d :
  table_rep t chains free -> chains !! i = Some l -> (n, d) ∈ l ->
  lookup_data t chains (key d) = Some d.
Proof.
  intros R Hi Hin. rewrite (lookup_data_spec _ _ _ l).
  2: { by rewrite (tr_place _ _ _ R i l n d Hi Hin), Nat2Z.id. }
  pose proof (proj1 (Forall_lookup _ _) (tr_keys _ _ _ R) i l Hi) as Hnd. clear Hi.
  induction l as [|[n0 d0] l IH]; [by apply elem_of_nil in Hin|]. cbn [List.find].
  unfold same_key at 1. cbn [snd]. cbn in Hnd. apply NoDup_cons in Hnd as [Hn Hnd].
  apply elem_of_cons in Hin as [[= -> ->]|Hin]; [by rewrite Z.eqb_refl|].
  destruct (Z.eqb_spec (key d0) (key d)) as [E|E]; [|by apply IH].
  exfalso. apply Hn. rewrite E. apply list_elem_of_fmap. exists d. split; [done|].
  apply list_elem_of_fmap. by exists (n, d).
Qed.

Lemma table_holds_key t M n k d : table_holds t M n -> M !! k = Some d -> key d = k.
Proof. intros (chains & free & _ & _ & H) Hk. rewrite <-H in Hk. by eapply lookup_data_key. Qed.

Section map.
Context {K : TableKey key cmp}.

Lemma table_holds_find t M n data :
  table_holds t M n ->
  exists r, ntg_hash_find_node t data = Some r /\
    match r with
    | None => M !! key data = None
    | Some i => exists d next, tb_nodes t !! i = Some (HashNode next (Some d)) /\
        M !! key data = Some d
    end.
Proof.
  intros (chains & free & R & _ & H). destruct (find_node_ok t chains free data R) as (r & E & Hr).
  exists r. split; [done|]. rewrite <-H. destruct r as [i|]; [|done].
  destruct Hr as (d & next & ? & ? & _). eauto.
Qed.

Lemma table_holds_insert t M n data :
  table_holds t M (S n) -> M !! key data = None ->
  exists t', ntg_hash_insert_node t data = Some (NTG_OK, t') /\
    table_holds t' (<[key data := data]> M) n.
Proof.
  intros (chains & free & R & Hn & H) Hk. destruct (insert_node_ok t chains free data R)
    as (rc & t' & E & _ & _ & H3).
  destruct H3 as (-> & chains' & free' & R' & Hl & Hk'); [by rewrite H|by intros ->|].
  exists t'. split; [done|]. exists chains', free'. split; [done|]. split; [lia|].
  intros k. rewrite Hk', H. destruct (Z.eqb_spec (key data) k) as [<-|Hne].
  - by rewrite lookup_insert_eq.
  - by rewrite lookup_insert_ne.
Qed.

End map.

End table.

(** A table only depends on the keys of the data it stores. *)
Lemma table_holds_ext key key' t M n :
  table_holds key t M n -> (forall k d, M !! k = Some d -> key' d = key d) ->
  table_holds key' t M n.
Proof.
  intros (chains & free & R & Hn & H) Hk.
  assert (Hst : forall i l e, chains !! i = Some l -> e ∈ l -> key' e.2 = key e.2).
  { intros i l [m d] Hi Hin. apply (Hk (key d)). rewrite <-H. by eapply lookup_data_stored. }
  exists chains, free. split; [|split; [done|]].
  - destruct R as [S B F N D P K]. split; try done.
    + intros i l m d Hi Hin. pose proof (Hst i l (m, d) Hi Hin) as E. cbn in E. rewrite E.
      by apply (P i l m d).
    + rewrite Forall_lookup in K |- *. intros i l Hi. specialize (K i l Hi).
      rewrite <-list_fmap_compose in K |- *. erewrite list_fmap_ext; [exact K|].
      intros j e He. cbn. apply (Hst i l e Hi). by eapply list_elem_of_lookup_2.
  - intros k. rewrite <-H. unfold lookup_data.
    destruct (chains !! Z.to_nat (k mod tb_size t)) as [l|] eqn:Hi; [|done]. cbn [mbind option_bind].
    f_equal.
    assert (Hl : forall e, e ∈ l -> key' e.2 = key e.2) by (intros e; by apply Hst with (1 := Hi)).
    clear -Hl. induction l as [|e l IH]; [done|]. cbn. rewrite Hl by (by left).
    destruct (key e.2 =? k); [done|]. apply IH. intros e' He'. apply Hl. by right.
Qed.

(** ** The consumers as data (src/user/ntg_user_consumer.c)

    [id] reads the identifier of the consumer at an address. *)
Section consumers.
Context (id : Z -> Z).

Definition ntg_user_consumer_get_key (data : Z) : Z := u64 (id data).
Definition ntg_user_consumer_compare (d1 d2 : Z) : Z := u64 (id d1 - id d2).

#[export] Instance consumer_table_key :
  TableKey ntg_user_consumer_get_key ntg_user_consumer_compare.
Proof.
  intros d1 d2. unfold ntg_user_consumer_get_key, ntg_user_consumer_compare, u64.
  split; intros; Z.to_euclidean_division_equations; lia.
Qed.

End consumers.

(** ** Examples *)

(** Addresses that are identifiers, in a table of 2 buckets and 3 nodes. *)
Definition example_table : ntg_hash_table :=
  match ntg_hash_table_init true 2 3 with Some (_, t) => t | None => HashTable 0 [] ∅ None 0 end.

Abbreviation ekey := (ntg_user_consumer_get_key (fun d => d)).
Abbreviation ecmp := (ntg_user_consumer_compare (fun d => d)).

Lemma example_table_rep :
  table_rep ekey example_table [[]; []] [0; 1; 2] /\
  forall k, lookup_data ekey example_table [[]; []] k = None.
Proof.
  destruct (table_init_rep ekey 2 3) as (t & E & R & H); [lia|lia|].
  replace example_table with t; [by split|]. unfold example_table. by rewrite E.
Qed.

Example find_node_ok_example :
  exists r, ntg_hash_find_node ekey ecmp example_table 5 = Some r.
Proof.
  destruct (find_node_ok ekey ecmp example_table [[]; []] [0; 1; 2] 5) as (r & E & _).
  - apply example_table_rep.
  - exists r. exact E.
Qed.

Example insert_node_ok_example :
  exists t' chains' free', ntg_hash_insert_node ekey ecmp example_table 5 = Some (NTG_OK, t') /\
    table_rep ekey t' chains' free' /\ length free' = 2%nat /\
    lookup_data ekey t' chains' 5 = Some 5.
Proof.
  destruct (insert_node_ok ekey ecmp example_table [[]; []] [0; 1; 2] 5)
    as (rc & t' & E & _ & _ & H).
  - apply example_table_rep.
  - destruct H as (-> & chains' & free' & R & Hl & Hk); [apply example_table_rep|done|].
    exists t', chains', free'. split; [exact E|]. split; [exact R|].
    split; [injection Hl as <-; reflexivity|]. rewrite Hk. reflexivity.
Qed.

Lemma delete_node_correct_witness :
  ntg_hash_delete_node ekey ecmp example_table 5 = Some (None, example_table).
Proof.
  destruct (delete_node_correct ekey ecmp example_table [[]; []] [0; 1; 2] 5 []) as [H _].
  - apply example_table_rep.
  - reflexivity.
  - apply H. apply example_table_rep.
Defined.

(** Deleting the first of several data of a bucket drops the others: 2 and 4
    share a bucket, 4 is in front, and 2 is not found once 4 is deleted. *)
Lemma delete_head_drops_bucket :
  ('(_, t) ← ntg_hash_insert_node ekey ecmp example_table 2;
   '(_, t) ← ntg_hash_insert_node ekey ecmp t 4;
   before ← ntg_hash_find_node ekey ecmp t 2;
   '(deleted, t) ← ntg_hash_delete_node ekey ecmp t 4;
   after ← ntg_hash_find_node ekey ecmp t 2;
   Some (before, deleted, after)) = Some (Some 0, Some 4, None).
Proof. vm_compute. reflexivity. Qed.
