(* ===== verification/Spline.v ===== *)
(** * The curve of a scene (src/user/ntg_user_spline.c)

    A cubic spline through the 24 hourly values of a scene, in [float]
    arithmetic.  Reading or storing outside an array is undefined ([None]). *)

From Stdlib Require Import SpecFloat.
From S2P Require Import Prelude Sprintf.

(** ** Arithmetic of [float] *)

Definition f32_of_Z (z : Z) : spec_float := binary_normalize 24 128 z 0 false.
Definition fadd : spec_float -> spec_float -> spec_float := SFadd 24 128.
Definition fsub : spec_float -> spec_float -> spec_float := SFsub 24 128.
Definition fmul : spec_float -> spec_float -> spec_float := SFmul 24 128.
Definition fdiv : spec_float -> spec_float -> spec_float := SFdiv 24 128.

(** A [float] as a [double]. *)
Definition f64_of (f : spec_float) : spec_float :=
  match f with
  | S754_finite s m e => binary_normalize 53 1024 (cond_Zopp s (Zpos m)) e s
  | f => f
  end.

(** ** The spline object *)

Definition SPILINE_INPUT_MAX : Z := 24.
Definition SPILINE_OUTPUT_MAX : Z := 1440.

(** [struct ntg_cubic_spline_s]. *)
Record ntg_cubic_spline_t := Spline {
  cs_N : Z;
  cs_M : Z;
  m_create : bool;
  cs_X : list spec_float;
  cs_Y : list spec_float;
  cs_Z : list spec_float;
  cs_F : list spec_float;
  cs_H : list spec_float;
  cs_A : list spec_float;
  cs_B : list spec_float;
  cs_C : list spec_float;
  cs_D : list spec_float }.

Definition zeros (n : Z) : list spec_float := replicate (Z.to_nat n) (S754_zero false).

(** The object after [ntg_memzero]. *)
Definition zero_spline : ntg_cubic_spline_t :=
  let i := zeros SPILINE_INPUT_MAX in let o := zeros SPILINE_OUTPUT_MAX in
  Spline 0 0 false i i o o i i i i i.

Definition set_cs_M v cs :=
  Spline (cs_N cs) v (m_create cs) (cs_X cs) (cs_Y cs) (cs_Z cs) (cs_F cs) (cs_H cs) (cs_A cs)
    (cs_B cs) (cs_C cs) (cs_D cs).
Definition set_m_create v cs :=
  Spline (cs_N cs) (cs_M cs) v (cs_X cs) (cs_Y cs) (cs_Z cs) (cs_F cs) (cs_H cs) (cs_A cs)
    (cs_B cs) (cs_C cs) (cs_D cs).
Definition set_ctrl n X Y cs :=
  Spline n (cs_M cs) (m_create cs) X Y (cs_Z cs) (cs_F cs) (cs_H cs) (cs_A cs) (cs_B cs) (cs_C cs)
    (cs_D cs).
Definition set_out Zs F cs :=
  Spline (cs_N cs) (cs_M cs) (m_create cs) (cs_X cs) (cs_Y cs) Zs F (cs_H cs) (cs_A cs) (cs_B cs)
    (cs_C cs) (cs_D cs).
Definition set_work H A B C D cs :=
  Spline (cs_N cs) (cs_M cs) (m_create cs) (cs_X cs) (cs_Y cs) (cs_Z cs) (cs_F cs) H A B C D.

(** [xs[i]], and [xs[i] = v]. *)
Definition rd (xs : list spec_float) (i : Z) : option spec_float :=
  if i <? 0 then None else xs !! Z.to_nat i.
Definition wr (xs : list spec_float) (i : Z) (v : spec_float) : option (list spec_float) :=
  if (0 <=? i) && (i <? Z.of_nat (length xs)) then Some (<[Z.to_nat i := v]> xs) else None.

(** [for (i = ..., n turns, i++) body]. *)
Fixpoint for_loop {A} (n : nat) (i : Z) (body : Z -> A -> option A) (a : A) : option A :=
  match n with
  | O => Some a
  | S n => a ← body i a; for_loop n (i + 1) body a
  end.

(** ** ntg_cubic_spline *)

Definition h_step (X : list spec_float) (i : Z) (H : list spec_float) : option (list spec_float) :=
  x ← rd X i; x' ← rd X (i - 1); wr H (i - 1) (fsub x x').

Definition ab_step (Y H : list spec_float) (i : Z) (ab : list spec_float * list spec_float)
  : option (list spec_float * list spec_float) :=
  let '(A, B) := ab in
  h' ← rd H (i - 1); h ← rd H i;
  A ← wr A i (fdiv h' (fadd h' h));
  a ← rd A i; y ← rd Y i; y' ← rd Y (i - 1); y'' ← rd Y (i + 1);
  B ← wr B i (fmul (f32_of_Z 3)
        (fadd (fdiv (fmul (fsub (f32_of_Z 1) a) (fsub y y')) h') (fdiv (fmul a (fsub y'' y)) h)));
  Some (A, B).

(** The values at the ends. *)
Definition ab_ends (N : Z) (Y H : list spec_float) (ab : list spec_float * list spec_float)
  : option (list spec_float * list spec_float) :=
  let '(A, B) := ab in
  A ← wr A 0 (f32_of_Z 1); A ← wr A N (f32_of_Z 0);
  y0 ← rd Y 0; y1 ← rd Y 1; h0 ← rd H 0; yn ← rd Y N; yn' ← rd Y (N - 1); hn ← rd H (N - 1);
  B ← wr B 0 (fdiv (fmul (f32_of_Z 3) (fsub y1 y0)) h0);
  B ← wr B N (fdiv (fmul (f32_of_Z 3) (fsub yn yn')) hn);
  Some (A, B).

Definition d_step (i : Z) (D : list spec_float) : option (list spec_float) := wr D i (f32_of_Z 2).
Definition c_step (A : list spec_float) (i : Z) (C : list spec_float) : option (list spec_float) :=
  a ← rd A i; wr C i (fsub (f32_of_Z 1) a).

(** [fabs(d) <= 0.000001]. *)
Definition too_small (d : spec_float) : bool :=
  SFleb (SFabs (f64_of d)) (SFdiv 53 1024 (sf_of_Z 1) (sf_of_Z 1000000)).

(** The elimination; the flag is false once a divisor was too small. *)
Definition elim_step (C : list spec_float) (i : Z)
    (st : bool * (list spec_float * list spec_float * list spec_float))
  : option (bool * (list spec_float * list spec_float * list spec_float)) :=
  let '(ok, (A, B, D)) := st in
  if negb ok then Some st
  else
    d ← rd D i;
    if too_small d then Some (false, (A, B, D))
    else
      a' ← rd A (i - 1); b' ← rd B (i - 1); d' ← rd D (i - 1); c ← rd C i; b ← rd B i;
      A ← wr A (i - 1) (fdiv a' d');
      B ← wr B (i - 1) (fdiv b' d');
      a' ← rd A (i - 1); b' ← rd B (i - 1);
      D ← wr D i (fadd (fmul a' (SFopp c)) d);
      B ← wr B i (fadd (fmul (SFopp c) b') b);
      Some (true, (A, B, D)).

Definition back_step (P : Z) (A : list spec_float) (i : Z) (B : list spec_float)
  : option (list spec_float) :=
  b ← rd B (P - i); a ← rd A (P - i); b' ← rd B (P - i + 1);
  wr B (P - i) (fsub b (fmul a b')).

Definition ntg_cubic_spline (cs : ntg_cubic_spline_t) : option (Z * ntg_cubic_spline_t) :=
  let N := cs_N cs in let n := Z.to_nat N in
  H ← for_loop n 1 (h_step (cs_X cs)) (cs_H cs);
  '(A, B) ← for_loop (n - 1) 1 (ab_step (cs_Y cs) H) (cs_A cs, cs_B cs);
  '(A, B) ← ab_ends N (cs_Y cs) H (A, B);
  D ← for_loop (n + 1) 0 d_step (cs_D cs);
  C ← for_loop (n + 1) 0 (c_step A) (cs_C cs);
  '(ok, (A, B, D)) ← for_loop n 1 (elim_step C) (true, (A, B, D));
  if negb ok then Some (NTG_ERROR, set_m_create false (set_work H A B C D cs))
  else
    b ← rd B N; d ← rd D N; B ← wr B N (fdiv b d);
    B ← for_loop n 1 (back_step N A) B;
    Some (NTG_OK, set_m_create true (set_work H A B C D cs)).

(** The first [n] values of [src], copied to the front of [dst]. *)
Definition copy_in (dst src : list spec_float) (n : Z) : option (list spec_float) :=
  if (n <=? Z.of_nat (length src)) && (n <=? Z.of_nat (length dst))
  then Some (take (Z.to_nat n) src ++ drop (Z.to_nat n) dst) else None.

(** A null pointer is [None]. *)
Definition ntg_cubic_spline_interpolation_init (ctrl_x ctrl_y : option (list spec_float)) (ctrl_n : Z)
  : option (Z * ntg_cubic_spline_t) :=
  let cs := zero_spline in
  match ctrl_x, ctrl_y with
  | Some x, Some y =>
      if (ctrl_n <? 3) || (ctrl_n >? 24) then Some (NTG_ERROR, set_m_create false cs)
      else
        X ← copy_in (cs_X cs) x ctrl_n; Y ← copy_in (cs_Y cs) y ctrl_n;
        ntg_cubic_spline (set_ctrl (ctrl_n - 1) X Y cs)
  | _, _ => Some (NTG_ERROR, set_m_create false cs)
  end.

(** ** The values of the curve *)

(** The loop that looks for the interval of [x], for [n] more of them; the
    interval is [N + 1] when there is none. *)
Fixpoint find_interval (n : nat) (j : Z) (X : list spec_float) (x : spec_float) : option Z :=
  match n with
  | O => Some j
  | S n => xj ← rd X j; if SFleb x xj then Some (j - 1) else find_interval n (j + 1) X x
  end.

Definition interval (N : Z) (X : list spec_float) (x : spec_float) : option Z :=
  x0 ← rd X 0; xn ← rd X N;
  if SFltb x x0 then Some 0
  else if SFltb xn x then Some (N - 1)
  else find_interval (Z.to_nat N) 1 X x.

Definition ntg_cubic_spline_get_y_by_x (cs : ntg_cubic_spline_t) (x : spec_float)
  : option (option spec_float) :=
  if negb (m_create cs) then Some None
  else
    j ← interval (cs_N cs) (cs_X cs) x;
    xj ← rd (cs_X cs) j; xj' ← rd (cs_X cs) (j + 1); h ← rd (cs_H cs) j;
    y ← rd (cs_Y cs) j; y' ← rd (cs_Y cs) (j + 1); b ← rd (cs_B cs) j; b' ← rd (cs_B cs) (j + 1);
    let two := f32_of_Z 2 in let three := f32_of_Z 3 in
    let E := fsub xj' x in let E1 := fmul E E in
    let K := fsub x xj in let K1 := fmul K K in
    let v := fadd (fmul (fsub (fmul three E1) (fdiv (fmul (fmul two E1) E) h)) y)
                  (fmul (fsub (fmul three K1) (fdiv (fmul (fmul two K1) K) h)) y') in
    let v := fsub (fadd v (fmul (fsub (fmul h E1) (fmul E1 E)) b))
                  (fmul (fsub (fmul h K1) (fmul K1 K)) b') in
    Some (Some (fdiv v (fmul h h))).

Definition z_step (x0 dbStep : spec_float) (i : Z) (Zs : list spec_float) : option (list spec_float) :=
  wr Zs i (fadd x0 (fmul dbStep (f32_of_Z i))).

Definition f_step (cs : ntg_cubic_spline_t) (i : Z) (st : bool * list spec_float)
  : option (bool * list spec_float) :=
  let '(ok, F) := st in
  if negb ok then Some st
  else
    z ← rd (cs_Z cs) i;
    v ← ntg_cubic_spline_get_y_by_x cs z;
    match v with None => Some (false, F) | Some v => F ← wr F i v; Some (true, F) end.

Definition ntg_cs_interpolation (cs : ntg_cubic_spline_t) : option (Z * ntg_cubic_spline_t) :=
  let m := Z.to_nat (cs_M cs) in
  xn ← rd (cs_X cs) (cs_N cs); x0 ← rd (cs_X cs) 0;
  Zs ← for_loop (m + 1) 0 (z_step x0 (fdiv (fsub xn x0) (f32_of_Z (cs_M cs)))) (cs_Z cs);
  let cs := set_out Zs (cs_F cs) cs in
  '(ok, F) ← for_loop m 1 (f_step cs) (true, cs_F cs);
  if negb ok then Some (NTG_ERROR, set_out Zs F cs)
  else y0 ← rd (cs_Y cs) 0; F ← wr F 0 y0; Some (NTG_OK, set_out Zs F cs).

Definition ntg_cubic_spline_get_interpolation_points (cs : ntg_cubic_spline_t) (out_n : Z)
  : option (Z * ntg_cubic_spline_t) :=
  if negb (m_create cs) then Some (NTG_ERROR, cs)
  else if (out_n >? SPILINE_OUTPUT_MAX) || (out_n <? 1) then Some (NTG_ERROR, cs)
  else ntg_cs_interpolation (set_cs_M (out_n - 1) cs).

(** ** The curve of a scene *)

(** The table [x] of [ntg_user_group_init]: the hours. *)
Definition hours : list spec_float := map (fun i => f32_of_Z (Z.of_nat i)) (seq 0 24).

(** The two calls of [ntg_user_group_init]: the result, and the values the object
    holds then. *)
Definition scene_curve (scene : list spec_float) : option (Z * list spec_float) :=
  '(rc, cs) ← ntg_cubic_spline_interpolation_init (Some hours) (Some scene) SPILINE_INPUT_MAX;
  if negb (rc =? NTG_OK) then Some (NTG_ERROR, cs_F cs)
  else
    '(rc, cs) ← ntg_cubic_spline_get_interpolation_points cs SPILINE_OUTPUT_MAX;
    Some (if rc =? NTG_OK then NTG_OK else NTG_ERROR, cs_F cs).

Example curve_flat : exists F, scene_curve (replicate 24 (f32_of_Z 50)) = Some (NTG_OK, F) /\
  length F = 1440%nat /\ (F !! 100%nat = Some (f32_of_Z 50)).
Proof. eexists. split; [vm_compute; reflexivity|]. split; vm_compute; reflexivity. Qed.

(** ** The curve is always there

    What decides whether the arrays are kept and whether a divisor is too
    small does not depend on the values of the scene, only on the hours: the
    computation for one scene succeeds when that for another does. *)

Lemma rd_same xs ys i v : length xs = length ys -> rd xs i = Some v -> exists w, rd ys i = Some w.
Proof.
  unfold rd. intros Hl. destruct (i <? 0); [done|]. intros Hx%lookup_lt_Some. rewrite Hl in Hx.
  apply lookup_lt_is_Some_2 in Hx. destruct Hx as [w Hw]. by exists w.
Qed.

Lemma wr_same xs ys i v w xs' :
  length xs = length ys -> wr xs i v = Some xs' -> exists ys', wr ys i w = Some ys' /\ length xs' = length ys'.
Proof.
  unfold wr. intros Hl. rewrite <-Hl. destruct ((0 <=? i) && _); [|done]. intros [= <-].
  eexists. split; [done|]. by rewrite !length_insert.
Qed.

Lemma for_loop_sim {A B} (R : A -> B -> Prop) f g n i a b a' :
  (forall j x y x', R x y -> f j x = Some x' -> exists y', g j y = Some y' /\ R x' y') ->
  for_loop n i f a = Some a' -> R a b -> exists b', for_loop n i g b = Some b' /\ R a' b'.
Proof.
  intros Hs. revert i a b. induction n as [|n IH]; intros i a b; cbn [for_loop].
  - intros [= <-] Hr. by exists b.
  - intros E Hr. destruct (f i a) as [x|] eqn:Ef; [|done]. cbn [mbind option_bind] in E.
    destruct (Hs i a b x Hr Ef) as (y & -> & Hr'). cbn [mbind option_bind]. by apply (IH _ x).
Qed.

(** Objects that differ only in the values that come from the scene. *)
Record same_shape (cs cs' : ntg_cubic_spline_t) : Prop := {
  ss_N : cs_N cs = cs_N cs'; ss_M : cs_M cs = cs_M cs'; ss_create : m_create cs = m_create cs';
  ss_X : cs_X cs = cs_X cs'; ss_Z : cs_Z cs = cs_Z cs'; ss_H : cs_H cs = cs_H cs';
  ss_A : cs_A cs = cs_A cs'; ss_C : cs_C cs = cs_C cs'; ss_D : cs_D cs = cs_D cs';
  ss_Y : length (cs_Y cs) = length (cs_Y cs');
  ss_F : length (cs_F cs) = length (cs_F cs');
  ss_B : length (cs_B cs) = length (cs_B cs') }.

(** Following one computation step of the other object. *)
Ltac read_same :=
  match goal with
  | H : mbind _ (rd ?xs ?i) = Some _ |- context [rd ?xs ?i] =>
      let v := fresh "v" in let E := fresh "E" in
      destruct (rd xs i) as [v|] eqn:E; [|discriminate H]; cbn [mbind option_bind] in H |- *
  | H : mbind _ (rd ?xs ?i) = Some _, L : length ?xs = length ?ys |- context [rd ?ys ?i] =>
      let v := fresh "v" in let w := fresh "w" in let E := fresh "E" in let E' := fresh "E'" in
      destruct (rd xs i) as [v|] eqn:E; [|discriminate H];
      destruct (rd_same xs ys i v L E) as (w & E'); rewrite E'; cbn [mbind option_bind] in H |- *
  | H : mbind _ (wr ?xs ?i ?v) = Some _ |- context [wr ?xs ?i ?v] =>
      let xs' := fresh "xs" in let E := fresh "E" in
      destruct (wr xs i v) as [xs'|] eqn:E; [|discriminate H]; cbn [mbind option_bind] in H |- *
  | H : mbind _ (wr ?xs ?i ?v) = Some _, L : length ?xs = length ?ys |- context [wr ?ys ?i ?w] =>
      let xs' := fresh "xs" in let ys' := fresh "ys" in let E := fresh "E" in let E' := fresh "E'" in
      let L' := fresh "L" in
      destruct (wr xs i v) as [xs'|] eqn:E; [|discriminate H];
      destruct (wr_same xs ys i v w xs' L E) as (ys' & E' & L'); rewrite E'; cbn [mbind option_bind] in H |- *
  end.

Definition same_ab (ab ab' : list spec_float * list spec_float) : Prop :=
  ab.1 = ab'.1 /\ length ab.2 = length ab'.2.

Lemma ab_step_same Y Y' H j ab ab' r :
  length Y = length Y' -> same_ab ab ab' -> ab_step Y H j ab = Some r ->
  exists r', ab_step Y' H j ab' = Some r' /\ same_ab r r'.
Proof.
  intros HY. destruct ab as [A B], ab' as [A' B']. intros [HA HB] E. cbn in HA, HB. subst A'.
  cbn [ab_step] in *. repeat read_same. injection E as <-. by eexists.
Qed.

Lemma ab_ends_same N Y Y' H ab ab' r :
  length Y = length Y' -> same_ab ab ab' -> ab_ends N Y H ab = Some r ->
  exists r', ab_ends N Y' H ab' = Some r' /\ same_ab r r'.
Proof.
  intros HY. destruct ab as [A B], ab' as [A' B']. intros [HA HB] E. cbn in HA, HB. subst A'.
  cbn [ab_ends] in *. repeat read_same. injection E as <-. by eexists.
Qed.

Definition same_elim (s s' : bool * (list spec_float * list spec_float * list spec_float)) : Prop :=
  s.1 = s'.1 /\ s.2.1.1 = s'.2.1.1 /\ length s.2.1.2 = length s'.2.1.2 /\ s.2.2 = s'.2.2.

Lemma elim_step_same C j s s' r :
  same_elim s s' -> elim_step C j s = Some r -> exists r', elim_step C j s' = Some r' /\ same_elim r r'.
Proof.
  destruct s as [ok [[A B] D]], s' as [ok' [[A' B'] D']]. intros (H1 & H2 & H3 & H4) E. cbn in H1, H2, H3, H4.
  subst ok' A' D'. cbn [elim_step] in *. destruct (negb ok).
  { injection E as <-. by eexists. }
  read_same. destruct (too_small _).
  { injection E as <-. by eexists. }
  repeat read_same. injection E as <-. by eexists.
Qed.

Lemma back_step_same P A j B B' r :
  length B = length B' -> back_step P A j B = Some r ->
  exists r', back_step P A j B' = Some r' /\ length r = length r'.
Proof.
  intros L E. unfold back_step in *. repeat read_same. 
  exact (wr_same _ _ _ _ _ _ L E).
Qed.

Lemma ntg_cubic_spline_same cs cs' rc r :
  same_shape cs cs' -> ntg_cubic_spline cs = Some (rc, r) ->
  exists r', ntg_cubic_spline cs' = Some (rc, r') /\ same_shape r r'.
Proof.
  intros [HN HM Hc HX HZ HH HA HC HD LY LF LB] E. unfold ntg_cubic_spline in *.
  rewrite <-HN, <-HX, <-HH, <-HA, <-HC, <-HD.
  destruct (for_loop _ 1 (h_step _) _) as [H|]; [|done]. cbn [mbind option_bind] in *.
  destruct (for_loop _ 1 (ab_step (cs_Y cs) H) _) as [ab|] eqn:E1; [|done].
  destruct (for_loop_sim same_ab _ (ab_step (cs_Y cs') H) _ _ _ (cs_A cs, cs_B cs') _
    (fun j x y x' => ab_step_same _ _ H j x y x' LY) E1 (conj eq_refl LB)) as (ab' & -> & S1).
  cbn [mbind option_bind] in *. destruct ab as [A1 B1], ab' as [A1' B1'].
  destruct (ab_ends _ (cs_Y cs) H _) as [[A2 B2]|] eqn:E2; [|done].
  destruct (ab_ends_same _ _ (cs_Y cs') _ _ _ _ LY S1 E2) as ([A2' B2'] & -> & [S2 L2]).
  cbn in S2, L2. subst A2'. cbn [mbind option_bind] in *.
  destruct (for_loop _ 0 d_step _) as [D1|]; [|done]. cbn [mbind option_bind] in *.
  destruct (for_loop _ 0 (c_step A2) _) as [C1|]; [|done]. cbn [mbind option_bind] in *.
  destruct (for_loop _ 1 (elim_step C1) _) as [[ok [[A3 B3] D3]]|] eqn:E3; [|done].
  destruct (for_loop_sim same_elim _ (elim_step C1) _ _ _ (true, (A2, B2', D1)) _
    (fun j x y x' => elim_step_same C1 j x y x') E3 ltac:(done)) as ([ok' [[A3' B3'] D3']] & -> & S3).
  destruct S3 as (S31 & S32 & S33 & S34). cbn in S31, S32, S33, S34. subst ok' A3' D3'.
  cbn [mbind option_bind] in *. destruct (negb ok).
  { injection E as <- <-. eexists. split; [done|]. by split. }
  repeat read_same.
  destruct (for_loop _ 1 (back_step _ A3) _) as [Bb|] eqn:Eb; [|done].
  match goal with L : length _ = length ?B |- context [for_loop _ 1 (back_step _ A3) ?B] =>
    destruct (for_loop_sim (fun B B' => length B = length B') _ (back_step (cs_N cs) A3) _ _ _ B _
      (fun j x y x' => back_step_same _ A3 j x y x') Eb L) as (B5' & -> & Sb) end.
  cbn [mbind option_bind] in *. injection E as <- <-. eexists. split; [done|]. by split.
Qed.

Lemma get_y_same cs cs' x r :
  same_shape cs cs' -> ntg_cubic_spline_get_y_by_x cs x = Some r ->
  exists r', ntg_cubic_spline_get_y_by_x cs' x = Some r' /\ (is_Some r <-> is_Some r').
Proof.
  intros [HN HM Hc HX HZ HH HA HC HD LY LF LB] E. unfold ntg_cubic_spline_get_y_by_x in *.
  rewrite <-HN, <-HX, <-HH, <-Hc. destruct (negb (m_create cs)); [injection E as <-; by eexists|].
  destruct (interval _ _ x) as [j|]; [|done]. cbn [mbind option_bind] in *. repeat read_same.
  injection E as <-. eexists. split; [done|]. split; by eexists.
Qed.

Lemma f_step_same cs cs' j (s s' r : bool * list spec_float) :
  same_shape cs cs' -> s.1 = s'.1 /\ length s.2 = length s'.2 -> f_step cs j s = Some r ->
  exists r', f_step cs' j s' = Some r' /\ r.1 = r'.1 /\ length r.2 = length r'.2.
Proof.
  intros S. destruct s as [ok F], s' as [ok' F']. intros [H1 L] E. cbn in H1, L. subst ok'.
  cbn [f_step] in *. destruct (negb ok); [injection E as <-; by eexists|]. rewrite <-(ss_Z _ _ S).
  read_same. destruct (ntg_cubic_spline_get_y_by_x cs _) as [y|] eqn:Ey; [|done].
  destruct (get_y_same _ _ _ _ S Ey) as (y' & -> & Hy). cbn [mbind option_bind] in *.
  destruct y as [y|], y' as [y'|]; [|destruct Hy as [Hy _], (Hy ltac:(by eexists)); done
    |destruct Hy as [_ Hy], (Hy ltac:(by eexists)); done|].
  - repeat read_same. injection E as <-. by eexists.
  - injection E as <-. by eexists.
Qed.

Lemma ntg_cs_interpolation_same cs cs' rc r :
  same_shape cs cs' -> ntg_cs_interpolation cs = Some (rc, r) ->
  exists r', ntg_cs_interpolation cs' = Some (rc, r') /\ same_shape r r'.
Proof.
  intros S. pose proof S as [HN HM Hc HX HZ HH HA HC HD LY LF LB]. intros E.
  unfold ntg_cs_interpolation in *. rewrite <-HN, <-HX, <-HM, <-HZ. do 2 read_same.
  destruct (for_loop _ 0 (z_step _ _) _) as [Zs|]; [|done]. cbn [mbind option_bind] in *.
  destruct (for_loop _ 1 (f_step _) _) as [[ok F]|] eqn:Ef; [|done].
  assert (So : same_shape (set_out Zs (cs_F cs) cs) (set_out Zs (cs_F cs') cs')) by (by split).
  destruct (for_loop_sim (fun s s' : bool * list spec_float => s.1 = s'.1 /\ length s.2 = length s'.2) _
    (f_step (set_out Zs (cs_F cs') cs')) _ _ _ (true, cs_F cs') _
    (fun j x y x' => f_step_same _ _ j x y x' So) Ef (conj eq_refl LF)) as ([ok' F'] & Ef' & S1).
  cbn [cs_F set_out] in *. rewrite Ef'. destruct S1 as [S1 L1]. cbn in S1, L1. subst ok'.
  cbn [mbind option_bind] in *. destruct (negb ok).
  { injection E as <- <-. eexists. split; [done|]. by split. }
  cbn [cs_Y set_out] in *. repeat read_same. injection E as <- <-. eexists. split; [done|]. by split.
Qed.

(** The object keeps the values of the scene, and the curve starts at the first. *)
Lemma spline_keeps_Y cs rc cs' : ntg_cubic_spline cs = Some (rc, cs') -> cs_Y cs' = cs_Y cs.
Proof.
  unfold ntg_cubic_spline. intros E.
  repeat match type of E with
    | mbind _ ?x = _ => destruct x as [?|]; [cbn [mbind option_bind] in E|discriminate E]
    | (let '(_, _) := ?p in _) = _ => destruct p
    | (if ?b then _ else _) = _ => destruct b
    end; by injection E as <- <-.
Qed.

Lemma points_start cs n cs' :
  ntg_cubic_spline_get_interpolation_points cs n = Some (NTG_OK, cs') ->
  exists y, rd (cs_Y cs) 0 = Some y /\ cs_F cs' !! 0%nat = Some y.
Proof.
  unfold ntg_cubic_spline_get_interpolation_points, ntg_cs_interpolation. intros E.
  repeat match type of E with
    | mbind _ ?x = _ => destruct x as [?|] eqn:?; [cbn [mbind option_bind] in E|discriminate E]
    | (let '(_, _) := ?p in _) = _ => destruct p
    | (if ?b then _ else _) = _ => destruct b
    end; try discriminate E.
  injection E as <-. cbn [cs_F set_out cs_Y set_cs_M] in *. eexists. split; [eassumption|].
  unfold wr in *. destruct (_ && _) eqn:Hb; [|discriminate].
  match goal with H : Some _ = Some _ |- _ => injection H as <- end.
  apply list_lookup_insert_eq. apply andb_true_iff in Hb as [_ Hb%Z.ltb_lt]. lia.
Qed.

(** The computation for a scene of zeros. *)
Definition flat_init : option (Z * ntg_cubic_spline_t) :=
  ntg_cubic_spline_interpolation_init (Some hours) (Some (replicate 24 (S754_zero false))) SPILINE_INPUT_MAX.

Lemma flat_init_ok : exists cs, flat_init = Some (NTG_OK, cs) /\
  exists cs', ntg_cubic_spline_get_interpolation_points cs SPILINE_OUTPUT_MAX = Some (NTG_OK, cs') /\
    length (cs_F cs') = 1440%nat.
Proof.
  eexists. split; [vm_compute; reflexivity|]. eexists. split; [vm_compute; reflexivity|].
  vm_compute. reflexivity.
Qed.

Lemma init_same scene scene' rc cs :
  length scene = 24%nat -> length scene' = 24%nat ->
  ntg_cubic_spline_interpolation_init (Some hours) (Some scene) SPILINE_INPUT_MAX = Some (rc, cs) ->
  exists cs', ntg_cubic_spline_interpolation_init (Some hours) (Some scene') SPILINE_INPUT_MAX =
    Some (rc, cs') /\ same_shape cs cs' /\ cs_Y cs' = scene'.
Proof.
  intros L L' E. unfold ntg_cubic_spline_interpolation_init in *. cbn [orb Z.ltb Z.gtb Z.compare] in *.
  change (SPILINE_INPUT_MAX <? 3) with false in *. change (SPILINE_INPUT_MAX >? 24) with false in *.
  cbn [orb] in *. destruct (copy_in (cs_X zero_spline) hours _) as [X|]; [|done]. cbn [mbind option_bind] in *.
  assert (Hc : forall l, length l = 24%nat -> copy_in (cs_Y zero_spline) l SPILINE_INPUT_MAX = Some l).
  { intros l Hl. unfold copy_in. rewrite Hl. cbn [cs_Y zero_spline]. 
    change (Z.to_nat SPILINE_INPUT_MAX) with 24%nat.
    rewrite take_ge by lia. change (drop 24 (zeros SPILINE_INPUT_MAX)) with (@nil spec_float).
    by rewrite app_nil_r. }
  rewrite Hc in E |- * by done. cbn [mbind option_bind] in *.
  assert (S0 : same_shape (set_ctrl (SPILINE_INPUT_MAX - 1) X scene zero_spline)
    (set_ctrl (SPILINE_INPUT_MAX - 1) X scene' zero_spline)).
  { split; try done. cbn [cs_Y set_ctrl]. by rewrite L, L'. }
  destruct (ntg_cubic_spline_same _ _ rc cs S0 E) as (cs' & E' & S).
  exists cs'. split; [exact E'|]. split; [exact S|]. by rewrite (spline_keeps_Y _ _ _ E').
Qed.

Lemma scene_curve_ok scene :
  length scene = 24%nat ->
  exists F, scene_curve scene = Some (NTG_OK, F) /\ length F = 1440%nat /\ F !! 0%nat = scene !! 0%nat.
Proof.
  intros L. destruct flat_init_ok as (cs0 & E0 & cs0' & E0' & L0).
  destruct (init_same _ scene _ _ (length_replicate _ _) L E0) as (cs & E & S & HY).
  unfold scene_curve. rewrite E. cbn [mbind option_bind]. cbn [negb].
  assert (exists cs', ntg_cubic_spline_get_interpolation_points cs SPILINE_OUTPUT_MAX = Some (NTG_OK, cs') /\
    same_shape cs0' cs') as (cs' & E' & S').
  { unfold ntg_cubic_spline_get_interpolation_points in *. rewrite <-(ss_create _ _ S).
    destruct (negb (m_create cs0)); [discriminate E0'|]. cbn [orb] in *.
    apply (ntg_cs_interpolation_same _ (set_cs_M (SPILINE_OUTPUT_MAX - 1) cs)) in E0'; [done|].
    destruct S. by split. }
  rewrite E'. cbn [mbind option_bind negb]. exists (cs_F cs'). split; [done|].
  split; [by rewrite <-(ss_F _ _ S')|].
  destruct (points_start _ _ _ E') as (y & Hy & ->). rewrite HY in Hy. by unfold rd in Hy.
Qed.

(** C20: every scene of 24 values has its curve: no divisor is too small, nothing
    is read or stored outside an array, and the curve has a value for each of
    the 1440 minutes of the day, of which the first is that of the scene. *)
Theorem scene_curve_total scene :
  length scene = 24%nat ->
  exists F, scene_curve scene = Some (NTG_OK, F) /\ length F = 1440%nat /\ F !! 0%nat = scene !! 0%nat.
Proof. apply scene_curve_ok. Qed.

Lemma scene_curve_total_witness :
  exists F, scene_curve (replicate 24 (f32_of_Z 50)) = Some (NTG_OK, F) /\ length F = 1440%nat /\
    F !! 0%nat = Some (f32_of_Z 50).
Proof. exact (scene_curve_total (replicate 24 (f32_of_Z 50)) eq_refl). Defined.

(** ** What the code gets wrong *)

(** The curve goes above the values of the scene: here above 100 percent, for a
    day that begins with no users and ends with all of them. *)
Lemma curve_overshoots :
  ('(_, F) ← scene_curve (replicate 12 (f32_of_Z 0) ++ replicate 12 (f32_of_Z 100));
   Some (existsb (fun f => SFltb (f32_of_Z 101) f) F,
         existsb (fun f => SFltb f (f32_of_Z (-1))) F)) = Some (true, true).
Proof. vm_compute. reflexivity. Qed.
