(* ===== verification/UserGroup.v ===== *)
(** * Groups of simulated users (src/user/ntg_user_group.c)

    The memory of the user process: the users and consumers of the pools, the
    groups that are allocated and freed, and the links of the queues the users
    are on.  A group or user is known by its address; access to a group that
    has been freed, or through a null pointer, is undefined ([None]).

    What the code gets from libevent and from the random distributions of
    ntg_user_behavior.c is an argument: the outcome of [event_new] and of
    [evtimer_add], and the drawn times and counts. *)

From Stdlib Require Import SpecFloat.
From S2P Require Import Prelude Queue Sprintf Spline.

(** The queue elements: the [qele] of a user, the [free_q] and the [live_q] of a
    group; [QNull] is the null pointer, at which nothing is stored. *)
Inductive qnode := QNull | QUser (u : Z) | QFree (g : Z) | QLive (g : Z).

#[export] Instance qnode_eq_dec : EqDecision qnode.
Proof. solve_decision. Defined.

#[export] Instance qnode_countable : Countable qnode.
Proof.
  refine (inj_countable'
    (fun q => match q with
              | QNull => inl tt | QUser u => inr (0%nat, u)
              | QFree g => inr (1%nat, g) | QLive g => inr (2%nat, g) end)
    (fun e => match e with
              | inl _ => QNull | inr (O, u) => QUser u
              | inr (S O, g) => QFree g | inr (_, g) => QLive g end) _).
  by intros [].
Defined.

(** The [data] of a user or a consumer: the next free one of the pool, or the
    manager. *)
Inductive pool_data := PNull | PNext (a : Z) | PManage.

(** [struct ntg_user_s] (ntg_user.h).  An event is null, or allocated, and then
    pending or not. *)
Record ntg_user := User {
  u_data : pool_data;
  u_user_id : Z;
  u_group : option Z;
  u_event : option bool;
  u_time : Z * Z;
  u_clicks : Z;
  u_sessions : Z;
  u_live : bool;
  u_enable : bool }.

(** The types of distributions. *)
Definition NTG_MATH_AVERAGE_E : Z := 0.
Definition NTG_MATH_LOGNORMAL_E : Z := 1.
Definition NTG_MATH_POSISSON_E : Z := 2.
Definition NTG_MATH_EXPONENTIAL_E : Z := 3.
Definition NTG_MATH_NORMAL_E : Z := 4.
Definition NTG_MATH_WEIBULL_E : Z := 5.

(** A distribution of a group: its type and its three parameters. *)
Record distribution := Distribution { d_type : Z; d_args : list spec_float }.

(** The behaviour of the users of a group. *)
Record behavior := Behavior {
  ss_num : distribution; ss_itv : distribution;
  clk_num : distribution; clk_itv : distribution }.

(** [struct ntg_user_group_s] (ntg_user_group.h); [g_F] are the values of the
    spline, [g_data] is the next task. *)
Record ntg_user_group := Group {
  g_data : option Z;
  g_gp_id : Z;
  g_consumer : Z;
  g_event : option bool;
  g_users_n : Z;
  g_next_atv : Z;
  g_free_n : Z;
  g_live_n : Z;
  g_point : Z;
  g_st_users : Z;
  g_scene : list spec_float;
  g_behavior : behavior;
  g_F : list spec_float;
  g_active : bool;
  g_is_scene : bool }.

(** [struct ntg_user_consumer_s] (ntg_user_consumer.h). *)
Record ntg_user_consumer := Consumer {
  csm_data : pool_data;
  csm_id : Z;
  csm_gps : list (option Z) }.

(** What the groups use of [struct ntg_user_manage_s] (ntg_user_manage.h), and
    the objects it manages. *)
Record ustate := UState {
  users : gmap Z ntg_user;
  groups : gmap Z ntg_user_group;
  consumers : gmap Z ntg_user_consumer;
  links : gmap qnode (qlink qnode);
  free_users : option Z;
  free_user_n : Z;
  tasks : option Z }.

(** ** Field updates *)

Definition set_users v s :=
  UState v (groups s) (consumers s) (links s) (free_users s) (free_user_n s) (tasks s).
Definition set_groups v s :=
  UState (users s) v (consumers s) (links s) (free_users s) (free_user_n s) (tasks s).
Definition set_consumers v s :=
  UState (users s) (groups s) v (links s) (free_users s) (free_user_n s) (tasks s).
Definition set_links v s :=
  UState (users s) (groups s) (consumers s) v (free_users s) (free_user_n s) (tasks s).
Definition set_free_users v s :=
  UState (users s) (groups s) (consumers s) (links s) v (free_user_n s) (tasks s).
Definition set_free_user_n v s :=
  UState (users s) (groups s) (consumers s) (links s) (free_users s) v (tasks s).
Definition set_tasks v s :=
  UState (users s) (groups s) (consumers s) (links s) (free_users s) (free_user_n s) v.

Definition set_u_data v u :=
  User v (u_user_id u) (u_group u) (u_event u) (u_time u) (u_clicks u) (u_sessions u) (u_live u)
    (u_enable u).
Definition set_u_user_id v u :=
  User (u_data u) v (u_group u) (u_event u) (u_time u) (u_clicks u) (u_sessions u) (u_live u)
    (u_enable u).
Definition set_u_group v u :=
  User (u_data u) (u_user_id u) v (u_event u) (u_time u) (u_clicks u) (u_sessions u) (u_live u)
    (u_enable u).
Definition set_u_event v u :=
  User (u_data u) (u_user_id u) (u_group u) v (u_time u) (u_clicks u) (u_sessions u) (u_live u)
    (u_enable u).
Definition set_u_time v u :=
  User (u_data u) (u_user_id u) (u_group u) (u_event u) v (u_clicks u) (u_sessions u) (u_live u)
    (u_enable u).
Definition set_u_clicks v u :=
  User (u_data u) (u_user_id u) (u_group u) (u_event u) (u_time u) v (u_sessions u) (u_live u)
    (u_enable u).
Definition set_u_sessions v u :=
  User (u_data u) (u_user_id u) (u_group u) (u_event u) (u_time u) (u_clicks u) v (u_live u)
    (u_enable u).
Definition set_u_live v u :=
  User (u_data u) (u_user_id u) (u_group u) (u_event u) (u_time u) (u_clicks u) (u_sessions u) v
    (u_enable u).
Definition set_u_enable v u :=
  User (u_data u) (u_user_id u) (u_group u) (u_event u) (u_time u) (u_clicks u) (u_sessions u)
    (u_live u) v.

Definition set_g_data v g :=
  Group v (g_gp_id g) (g_consumer g) (g_event g) (g_users_n g) (g_next_atv g) (g_free_n g)
    (g_live_n g) (g_point g) (g_st_users g) (g_scene g) (g_behavior g) (g_F g) (g_active g)
    (g_is_scene g).
Definition set_g_gp_id v g :=
  Group (g_data g) v (g_consumer g) (g_event g) (g_users_n g) (g_next_atv g) (g_free_n g)
    (g_live_n g) (g_point g) (g_st_users g) (g_scene g) (g_behavior g) (g_F g) (g_active g)
    (g_is_scene g).
Definition set_g_consumer v g :=
  Group (g_data g) (g_gp_id g) v (g_event g) (g_users_n g) (g_next_atv g) (g_free_n g)
    (g_live_n g) (g_point g) (g_st_users g) (g_scene g) (g_behavior g) (g_F g) (g_active g)
    (g_is_scene g).
Definition set_g_event v g :=
  Group (g_data g) (g_gp_id g) (g_consumer g) v (g_users_n g) (g_next_atv g) (g_free_n g)
    (g_live_n g) (g_point g) (g_st_users g) (g_scene g) (g_behavior g) (g_F g) (g_active g)
    (g_is_scene g).
Definition set_g_users_n v g :=
  Group (g_data g) (g_gp_id g) (g_consumer g) (g_event g) v (g_next_atv g) (g_free_n g)
    (g_live_n g) (g_point g) (g_st_users g) (g_scene g) (g_behavior g) (g_F g) (g_active g)
    (g_is_scene g).
Definition set_g_next_atv v g :=
  Group (g_data g) (g_gp_id g) (g_consumer g) (g_event g) (g_users_n g) v (g_free_n g)
    (g_live_n g) (g_point g) (g_st_users g) (g_scene g) (g_behavior g) (g_F g) (g_active g)
    (g_is_scene g).
Definition set_g_free_n v g :=
  Group (g_data g) (g_gp_id g) (g_consumer g) (g_event g) (g_users_n g) (g_next_atv g) v
    (g_live_n g) (g_point g) (g_st_users g) (g_scene g) (g_behavior g) (g_F g) (g_active g)
    (g_is_scene g).
Definition set_g_live_n v g :=
  Group (g_data g) (g_gp_id g) (g_consumer g) (g_event g) (g_users_n g) (g_next_atv g)
    (g_free_n g) v (g_point g) (g_st_users g) (g_scene g) (g_behavior g) (g_F g) (g_active g)
    (g_is_scene g).
Definition set_g_point v g :=
  Group (g_data g) (g_gp_id g) (g_consumer g) (g_event g) (g_users_n g) (g_next_atv g)
    (g_free_n g) (g_live_n g) v (g_st_users g) (g_scene g) (g_behavior g) (g_F g) (g_active g)
    (g_is_scene g).
Definition set_g_st_users v g :=
  Group (g_data g) (g_gp_id g) (g_consumer g) (g_event g) (g_users_n g) (g_next_atv g)
    (g_free_n g) (g_live_n g) (g_point g) v (g_scene g) (g_behavior g) (g_F g) (g_active g)
    (g_is_scene g).
Definition set_g_scene v g :=
  Group (g_data g) (g_gp_id g) (g_consumer g) (g_event g) (g_users_n g) (g_next_atv g)
    (g_free_n g) (g_live_n g) (g_point g) (g_st_users g) v (g_behavior g) (g_F g) (g_active g)
    (g_is_scene g).
Definition set_g_behavior v g :=
  Group (g_data g) (g_gp_id g) (g_consumer g) (g_event g) (g_users_n g) (g_next_atv g)
    (g_free_n g) (g_live_n g) (g_point g) (g_st_users g) (g_scene g) v (g_F g) (g_active g)
    (g_is_scene g).
Definition set_g_F v g :=
  Group (g_data g) (g_gp_id g) (g_consumer g) (g_event g) (g_users_n g) (g_next_atv g)
    (g_free_n g) (g_live_n g) (g_point g) (g_st_users g) (g_scene g) (g_behavior g) v (g_active g)
    (g_is_scene g).
Definition set_g_active v g :=
  Group (g_data g) (g_gp_id g) (g_consumer g) (g_event g) (g_users_n g) (g_next_atv g)
    (g_free_n g) (g_live_n g) (g_point g) (g_st_users g) (g_scene g) (g_behavior g) (g_F g) v
    (g_is_scene g).
Definition set_g_is_scene v g :=
  Group (g_data g) (g_gp_id g) (g_consumer g) (g_event g) (g_users_n g) (g_next_atv g)
    (g_free_n g) (g_live_n g) (g_point g) (g_st_users g) (g_scene g) (g_behavior g) (g_F g)
    (g_active g) v.

(** ** Memory access *)

Definition modify_user (u : Z) (f : ntg_user -> ntg_user) (s : ustate) : option ustate :=
  us ← users s !! u; Some (set_users (<[u := f us]> (users s)) s).

Definition modify_group (g : Z) (f : ntg_user_group -> ntg_user_group) (s : ustate)
  : option ustate :=
  gp ← groups s !! g; Some (set_groups (<[g := f gp]> (groups s)) s).

Definition on_links (f : gmap qnode (qlink qnode) -> option (gmap qnode (qlink qnode)))
  (s : ustate) : option ustate :=
  m ← f (links s); Some (set_links m s).

(** A user pointer read from, and stored in, the [data] of a user. *)
Definition next_free (d : pool_data) : option (option Z) :=
  match d with PNull => Some None | PNext u => Some (Some u) | PManage => None end.
Definition pool_ptr (p : option Z) : pool_data :=
  match p with None => PNull | Some u => PNext u end.

(** ** Floating point *)

(** The conversion of a [float] of seconds to a [struct timeval]. *)
Definition timeval (time : spec_float) : Z * Z :=
  let sec := sf_trunc time in
  (sec, sf_trunc (SFmul 24 128 (SFsub 24 128 time (f32_of_Z sec)) (f32_of_Z 1000)) * 1000).

(** [(ntg_int_t)(f / 100.0 * n)]. *)
Definition percent_of (f : spec_float) (n : Z) : Z :=
  sf_trunc (sf_mul (SFdiv 53 1024 f (sf_of_Z 100)) (sf_of_Z n)).

Definition NTG_USER_GROUP_SIZE : Z := 10.

(** The number of users at the current point of the scene, and the next point. *)
Definition scene_users (gp : ntg_user_group) : option Z :=
  if g_point gp <? 0 then None
  else f ← g_F gp !! Z.to_nat (g_point gp); Some (percent_of f (g_users_n gp)).
Definition scene_next (gp : ntg_user_group) : Z :=
  let point := s64 (g_point gp + 1) in
  if point >? SPILINE_OUTPUT_MAX - 1 then 0 else point.

(** ** ntg_user_group_init *)

(** The loop that takes [n] users of the pool. *)
Fixpoint take_users (n : nat) (g : Z) (s : ustate) : option ustate :=
  match n with
  | O => Some s
  | S n =>
      u ← free_users s; us ← users s !! u; next ← next_free (u_data us);
      s ← on_links (fun m => ntg_queue_insert_head m (QFree g) (QUser u)) (set_free_users next s);
      take_users n g s
  end.

(** The part of the initialisation under [is_scene]. *)
Definition scene_init (ev_ok : bool) (g : Z) (s : ustate) : option (Z * ustate) :=
  gp ← groups s !! g;
  '(rc, F) ← scene_curve (g_scene gp);
  let gp := set_g_F F gp in
  if negb (rc =? NTG_OK) then Some (NTG_ERROR, set_groups (<[g := gp]> (groups s)) s)
  else
    n ← scene_users gp;
    let gp := gp |> set_g_st_users n |> set_g_point (scene_next gp) in
    let gp := set_g_event (if ev_ok then Some false else None) gp in
    Some (if ev_ok then NTG_OK else NTG_ERROR, set_groups (<[g := gp]> (groups s)) s).

(** [ev_ok]: the outcome of [event_new].  The do-while loop of a group of no
    users would run down the whole pool and through its end. *)
Definition ntg_user_group_init (ev_ok : bool) (g : Z) (s : ustate) : option (Z * ustate) :=
  gp ← groups s !! g;
  if free_user_n s <? u64 (g_users_n gp) then Some (NTG_ERROR, s)
  else if g_users_n gp <=? 0 then None
  else
    s ← on_links (fun m => ntg_queue_init m (QFree g)) s;
    s ← on_links (fun m => ntg_queue_init m (QLive g)) s;
    s ← take_users (Z.to_nat (g_users_n gp)) g s;
    let s := set_free_user_n (u64 (free_user_n s - g_users_n gp)) s in
    s ← modify_group g (fun gp => gp |> set_g_free_n (u64 (g_users_n gp)) |> set_g_next_atv 0
                                     |> set_g_data None) s;
    if g_is_scene gp then scene_init ev_ok g s else Some (NTG_OK, s).

(** ** ntg_user_group_free *)

(** The loop that looks for the task in front of [g]. *)
Fixpoint find_pre (fuel : nat) (pre g : Z) (s : ustate) : option Z :=
  match fuel with
  | O => None
  | S fuel =>
      p ← groups s !! pre;
      if bool_decide (g_data p = Some g) then Some pre
      else pre ← g_data p; find_pre fuel pre g s
  end.

Definition unlink_task (g : Z) (s : ustate) : option ustate :=
  pre ← tasks s; gp ← groups s !! g;
  if g =? pre then modify_group g (set_g_data None) (set_tasks (g_data gp) s)
  else
    pre ← find_pre (S (size (groups s))) pre g s;
    s ← modify_group pre (set_g_data (g_data gp)) s;
    modify_group g (set_g_data None) s.

(** The loop that gives the users of the queue [h] back to the pool. *)
Fixpoint return_users (fuel : nat) (h q : qnode) (s : ustate) (count : Z) : option (ustate * Z) :=
  match fuel with
  | O => None
  | S fuel =>
      if bool_decide (q = h) then Some (s, count)
      else
        next ← get_next (links s) q;
        s ← on_links (fun m => ntg_queue_remove m q) s;
        u ← (match q with QUser u => Some u | _ => None end);
        s ← modify_user u (fun us =>
              us |> set_u_event (match u_event us with Some _ => Some false | None => None end)
                 |> set_u_data (pool_ptr (free_users s))) s;
        return_users fuel h next (set_free_users (Some u) s) (count + 1)
  end.

Definition return_queue (h : qnode) (s : ustate) (count : Z) : option (ustate * Z) :=
  q ← ntg_queue_head (links s) h; return_users (S (size (users s))) h q s count.

(** Storing to [csm->gps[i]]; outside the array it is undefined. *)
Definition set_gps (c i : Z) (v : option Z) (s : ustate) : option ustate :=
  csm ← consumers s !! c;
  if bool_decide (0 <= i < Z.of_nat (length (csm_gps csm))) then
    Some (set_consumers (<[c := Consumer (csm_data csm) (csm_id csm)
                                  (<[Z.to_nat i := v]> (csm_gps csm))]> (consumers s)) s)
  else None.

Definition ntg_user_group_free (g : Z) (s : ustate) : option (Z * ustate) :=
  gp ← groups s !! g;
  s ← set_gps (g_consumer gp) (g_gp_id gp) None s;
  s ← (if g_active gp then unlink_task g s else Some s);
  '(s, count) ← return_queue (QFree g) s 0;
  '(s, count) ← return_queue (QLive g) s count;
  let s := set_free_user_n (u64 (free_user_n s + count)) s in
  Some (NTG_OK, s |> set_links (delete (QFree g) (delete (QLive g) (links s)))
                  |> set_groups (delete g (groups s))).

(** ** Activation *)

(** What one activation draws, and the outcomes of its events. *)
Record draw := Draw {
  dr_event_new : bool;
  dr_time : spec_float;
  dr_sessions : Z;
  dr_clicks : Z;
  dr_event_add : bool }.

(** The part of [ntg_group_enable_user] under [!u->enable]. *)
Definition enable_first (dr : draw) (g u : Z) (s : ustate) : option (bool * ustate) :=
  gp ← groups s !! g;
  s ← modify_user u (fun us =>
        us |> set_u_user_id (u64 (g_next_atv gp)) |> set_u_group (Some g) |> set_u_data PManage
           |> set_u_event (if dr_event_new dr then Some false else None)
           |> set_u_enable (u_enable us || dr_event_new dr)) s;
  if dr_event_new dr
  then s ← modify_group g (set_g_next_atv (s64 (g_next_atv gp + 1))) s; Some (true, s)
  else Some (false, s).

(** [flag] only selects the distribution of the time, which is drawn from the
    group of the user. *)
Definition ntg_group_enable_user (dr : draw) (g u : Z) (flag : bool) (s : ustate)
  : option (Z * ustate) :=
  us ← users s !! u;
  '(ok, s) ← (if u_enable us then Some (true, s) else enable_first dr g u s);
  if negb ok then Some (NTG_ERROR, s)
  else
    us ← users s !! u;
    g' ← u_group us; _ ← groups s !! g';
    _ ← u_event us;
    let us := us |> set_u_sessions (u64 (dr_sessions dr)) |> set_u_clicks (u64 (dr_clicks dr))
                 |> set_u_time (timeval (dr_time dr)) in
    if dr_event_add dr
    then Some (NTG_OK, set_users (<[u := set_u_event (Some true) us]> (users s)) s)
    else Some (NTG_ERROR, set_users (<[u := us]> (users s)) s).

(** The loops that activate [n] users, a draw for each. *)
Fixpoint activate_loop (n : nat) (drs : list draw) (g : Z) (flag : bool) (s : ustate)
  : option ustate :=
  match n, drs with
  | O, _ => Some s
  | S n, dr :: drs =>
      q ← ntg_queue_head (links s) (QFree g);
      s ← on_links (fun m => ntg_queue_remove m q) s;
      u ← (match q with QUser u => Some u | _ => None end);
      '(rc, s) ← ntg_group_enable_user dr g u flag s;
      if negb (rc =? NTG_OK) then
        s ← on_links (fun m => ntg_queue_insert_tail m (QFree g) q) s;
        activate_loop n drs g flag s
      else
        s ← on_links (fun m => ntg_queue_insert_head m (QLive g) q) s;
        s ← modify_user u (set_u_live true) s;
        s ← modify_group g (fun gp => set_g_live_n (u64 (g_live_n gp + 1)) gp) s;
        activate_loop n drs g flag s
  | S _, [] => None
  end.

(** The number of users to activate: the minimum is taken of unsigned numbers. *)
Definition activate_n (gp : ntg_user_group) (num : Z) : Z :=
  let want := u64 ((if g_is_scene gp then g_st_users gp else g_users_n gp) - g_live_n gp) in
  if want <? u64 num then s64 want else num.

(** [ev_ok]: the outcome of [evtimer_add] on the event of the scene. *)
Definition ntg_user_activate_group_users (drs : list draw) (ev_ok : bool) (g num : Z) (s : ustate)
  : option (Z * ustate) :=
  gp ← groups s !! g;
  s ← activate_loop (Z.to_nat (activate_n gp num)) drs g false s;
  gp ← groups s !! g;
  if g_is_scene gp && (g_live_n gp =? u64 (g_st_users gp)) then
    ev ← g_event gp;
    s ← modify_group g (set_g_event (Some (ev || ev_ok))) s;
    Some (NTG_OK, s)
  else if g_live_n gp =? u64 (g_users_n gp) then Some (NTG_OK, s)
  else Some (NTG_AGAIN, s).

(** The loop of [ntg_group_user_control_cb] that takes [n] users out of the
    live ones. *)
Fixpoint deactivate_loop (n : nat) (g : Z) (s : ustate) : option ustate :=
  match n with
  | O => Some s
  | S n =>
      q ← ntg_queue_last (links s) (QLive g);
      s ← on_links (fun m => ntg_queue_remove m q) s;
      u ← (match q with QUser u => Some u | _ => None end);
      s ← modify_user u (set_u_live false) s;
      s ← on_links (fun m => ntg_queue_insert_tail m (QFree g) q) s;
      s ← modify_group g (fun gp => set_g_live_n (u64 (g_live_n gp - 1)) gp) s;
      deactivate_loop n g s
  end.

Definition ntg_group_user_control_cb (drs : list draw) (g : Z) (s : ustate) : option ustate :=
  gp ← groups s !! g;
  n ← scene_users gp;
  s ← modify_group g (set_g_point (scene_next gp)) s;
  let count := s64 (g_live_n gp - n) in
  if count <? 0 then activate_loop (Z.to_nat (- count)) drs g true s
  else deactivate_loop (Z.to_nat count) g s.
