(* ===== verification/Random.v ===== *)
(** * What is drawn for a user (src/utils/ntg_math.c, src/user/ntg_user_behavior.c)

    The distributions in [float] arithmetic over the numbers that [rand] gives, and
    the four questions a user asks.  The transcendental functions of the C library
    are arguments; [sqrt] is exact. *)

From Stdlib Require Import SpecFloat.
From S2P Require Import Prelude Sprintf Spline UserGroup.

(** A value and the numbers that are left; or more numbers are wanted than were
    given; or the behaviour is undefined. *)
Inductive drawn (A : Type) := Drawn (a : A) (rest : list Z) | Waits | Undefined.
Arguments Drawn {A} a rest.
Arguments Waits {A}.
Arguments Undefined {A}.

Definition drawing (A : Type) := list Z -> drawn A.
Definition ret_draw {A} (a : A) : drawing A := fun ds => Drawn a ds.
Definition bind_draw {A B} (m : drawing A) (k : A -> drawing B) : drawing B :=
  fun ds => match m ds with Drawn a ds => k a ds | Waits => Waits | Undefined => Undefined end.
Definition defined {A} (v : option A) : drawing A := fun ds => match v with Some a => Drawn a ds | None => Undefined end.
Notation "x <~ m ; k" := (bind_draw m (fun x => k)) (at level 60, m at level 59, right associativity) : ntg_scope.

(** [do ... while (again)], at most [n] times. *)
Fixpoint until {A} (n : nat) (m : drawing A) (again : A -> bool) : drawing A :=
  match n with
  | O => fun _ => Waits
  | S n => a <~ m; if again a then until n m again else ret_draw a
  end.

(** Every turn takes a number, so that this many turns are enough. *)
Definition do_while {A} (m : drawing A) (again : A -> bool) : drawing A := fun ds => until (S (length ds)) m again ds.

(** ** Numbers *)

(** A [double] as a [float]. *)
Definition f32_of (d : spec_float) : spec_float :=
  match d with
  | S754_finite s m e => binary_normalize 24 128 (cond_Zopp s (Zpos m)) e s
  | d => d
  end.
Definition f64_of_Z (z : Z) : spec_float := binary_normalize 53 1024 z 0 false.

Definition INT_MIN : Z := -2147483648.
Definition INT_MAX : Z := 2147483647.
Definition in_int (z : Z) : option Z := if (INT_MIN <=? z) && (z <=? INT_MAX) then Some z else None.

(** The conversion to an [int] is undefined for what does not fit. *)
Definition int_of (f : spec_float) : option Z :=
  match f with
  | S754_zero _ => Some 0
  | S754_finite s m e => in_int (cond_Zopp s (Z.shiftl (Zpos m) e))
  | _ => None
  end.

(** The [int] of [ceil]. *)
Definition int_ceil (f : spec_float) : option Z :=
  match f with
  | S754_zero _ => Some 0
  | S754_finite s m e => in_int (if s then - Z.shiftl (Zpos m) e else - Z.shiftl (- Zpos m) e)
  | _ => None
  end.

Section random.
(** [pow], [exp] and [log] on [double]. *)
Context (pow : spec_float -> spec_float -> spec_float) (exp log : spec_float -> spec_float).

Definition rand : drawing Z := fun ds => match ds with [] => Waits | d :: ds => Drawn d ds end.

Definition ntg_math2_average_random (min max : spec_float) (n : Z) : drawing spec_float :=
  let c := f32_of (pow (f64_of_Z 10) (f64_of_Z n)) in
  min_int <~ defined (int_of (fmul min c));
  diff <~ defined (int_of (fmul (fsub max min) c));
  r <~ rand;
  rand_int <~ defined (if diff =? 0 then None else Some (Z.rem r diff));
  result <~ defined (in_int (rand_int + min_int));
  ret_draw (fdiv (f32_of_Z result) c).

(** The point in the circle, and [p1] with it. *)
Definition normal_point : drawing (spec_float * spec_float) :=
  p1 <~ ntg_math2_average_random (f32_of_Z (-1)) (f32_of_Z 1) 4;
  p2 <~ ntg_math2_average_random (f32_of_Z (-1)) (f32_of_Z 1) 4;
  ret_draw (fadd (fmul p1 p1) (fmul p2 p2), p1).

Definition ntg_math2_normal_random (mu sigma : spec_float) : drawing spec_float :=
  x <~ do_while normal_point (fun x => SFleb (f32_of_Z 1) (fst x));
  let p := f64_of (fst x) in let p1 := snd x in
  ret_draw (f32_of (SFadd 53 1024 (f64_of mu)
    (SFmul 53 1024 (f64_of (fmul sigma p1)) (SFsqrt 53 1024 (SFdiv 53 1024 (SFmul 53 1024 (f64_of_Z (-2)) (log p)) p))))).

Definition unit_random : drawing spec_float := ntg_math2_average_random (f32_of_Z 0) (f32_of_Z 1) 4.

Definition ntg_math2_weibull_random (a scale shape : spec_float) : drawing spec_float :=
  x <~ unit_random;
  ret_draw (f32_of (SFadd 53 1024 (f64_of a) (SFmul 53 1024 (f64_of scale) (pow (SFopp (log (f64_of x))) (f64_of (fdiv (f32_of_Z 1) shape)))))).

Definition ntg_math2_lognormal_random (a mu sigma : spec_float) : drawing spec_float :=
  x <~ ntg_math2_normal_random mu sigma;
  ret_draw (f32_of (SFadd 53 1024 (f64_of a) (exp (f64_of x)))).

(** The loop of the Poisson distribution: the product, and the turns so far. *)
Fixpoint poisson_loop (n : nat) (limit : spec_float) (b : spec_float) (i : Z) : drawing Z :=
  if SFleb limit (f64_of b) then
    match n with
    | O => fun _ => Waits
    | S n => x <~ unit_random; j <~ defined (in_int (i + 1)); poisson_loop n limit (fmul b x) j
    end
  else ret_draw i.

Definition ntg_math2_posisson_random (mu : spec_float) : drawing spec_float :=
  fun ds => (i <~ poisson_loop (length ds) (exp (f64_of (SFopp mu))) (f32_of_Z 1) 0; ret_draw (f32_of_Z (i - 1))) ds.

Definition ntg_math2_exponential_random (a b : spec_float) : drawing spec_float :=
  x <~ unit_random;
  ret_draw (f32_of (SFsub 53 1024 (f64_of a) (SFmul 53 1024 (f64_of b) (log (f64_of x))))).

(** [args[i]] of the three parameters. *)
Definition parameter (d : distribution) (i : nat) : drawing spec_float := defined (d_args d !! i).

Definition ntg_get_random (d : distribution) : drawing spec_float :=
  a0 <~ parameter d 0; a1 <~ parameter d 1; a2 <~ parameter d 2;
  if d_type d =? NTG_MATH_LOGNORMAL_E then ntg_math2_lognormal_random a0 a1 a2
  else if d_type d =? NTG_MATH_POSISSON_E then ntg_math2_posisson_random a0
  else if d_type d =? NTG_MATH_EXPONENTIAL_E then ntg_math2_exponential_random a0 a1
  else if d_type d =? NTG_MATH_NORMAL_E then ntg_math2_normal_random a0 a1
  else if d_type d =? NTG_MATH_WEIBULL_E then ntg_math2_weibull_random a0 a1 a2
  else if SFltb a0 a1 then ntg_math2_average_random a0 a1 2
  else ntg_math2_average_random a1 a0 2.

(** ** The questions of a user *)

Definition ntg_user_get_session_num (b : behavior) : drawing Z :=
  v <~ ntg_get_random (ss_num b); defined (int_ceil v).

Definition ntg_user_get_session_interval (b : behavior) : drawing spec_float :=
  do_while (ntg_get_random (ss_itv b)) (fun v => SFltb (f32_of_Z 1800) v).

(** The parameters are those of the interval. *)
Definition ntg_user_get_clicks (b : behavior) : drawing Z :=
  v <~ ntg_get_random (Distribution (d_type (clk_num b)) (d_args (clk_itv b))); defined (int_ceil v).

Definition ntg_user_get_time (b : behavior) : drawing spec_float :=
  do_while (ntg_get_random (clk_itv b)) (fun v => SFltb (f32_of_Z 600) v).

End random.

(** ** What can be said of every number *)

(** [draws m used ds] : [m] takes the numbers [used] off the front. *)
Lemma until_spec {A} (m : drawing A) again n ds a rest :
  until n m again ds = Drawn a rest -> again a = false.
Proof.
  revert ds. induction n as [|n IH]; intros ds; cbn [until]; [done|]. unfold bind_draw. destruct (m ds) as [b ds'| |] eqn:E; try done.
  destruct (again b) eqn:Hb; [apply IH|]. unfold ret_draw. by intros [= <- _].
Qed.

(** A drawing takes numbers, it does not put any back. *)
Definition takes {A} (m : drawing A) : Prop := forall ds a rest, m ds = Drawn a rest -> exists used, ds = used ++ rest /\ used <> [].
Definition keeps {A} (m : drawing A) : Prop := forall ds a rest, m ds = Drawn a rest -> exists used, ds = used ++ rest.

Lemma takes_keeps {A} (m : drawing A) : takes m -> keeps m.
Proof. intros H ds a rest E. destruct (H ds a rest E) as (used & -> & _). by exists used. Qed.

Lemma bind_takes_l {A B} (m : drawing A) (k : A -> drawing B) : takes m -> (forall a, keeps (k a)) -> takes (bind_draw m k).
Proof.
  intros Hm Hk ds b rest. unfold bind_draw. destruct (m ds) as [a ds'| |] eqn:E; try done. intros E2. destruct (Hm _ _ _ E) as (u1 & -> & Hn).
  destruct (Hk a _ _ _ E2) as (u2 & ->). exists (u1 ++ u2). split; [by rewrite app_assoc|]. by destruct u1.
Qed.

Lemma bind_takes_r {A B} (m : drawing A) (k : A -> drawing B) : keeps m -> (forall a, takes (k a)) -> takes (bind_draw m k).
Proof.
  intros Hm Hk ds b rest. unfold bind_draw. destruct (m ds) as [a ds'| |] eqn:E; try done. intros E2. destruct (Hm _ _ _ E) as (u1 & ->).
  destruct (Hk a _ _ _ E2) as (u2 & -> & Hn). exists (u1 ++ u2). split; [by rewrite app_assoc|]. by destruct u1.
Qed.

Lemma bind_keeps {A B} (m : drawing A) (k : A -> drawing B) : keeps m -> (forall a, keeps (k a)) -> keeps (bind_draw m k).
Proof.
  intros Hm Hk ds b rest. unfold bind_draw. destruct (m ds) as [a ds'| |] eqn:E; try done. intros E2. destruct (Hm _ _ _ E) as (u1 & ->).
  destruct (Hk a _ _ _ E2) as (u2 & ->). exists (u1 ++ u2). by rewrite app_assoc.
Qed.

Lemma ret_keeps {A} (a : A) : keeps (ret_draw a).
Proof. intros ds b rest [= _ ->]. by exists []. Qed.

Lemma defined_keeps {A} (v : option A) : keeps (defined v).
Proof. intros ds b rest. unfold defined. destruct v; [|done]. intros [= _ ->]. by exists []. Qed.

Lemma rand_takes : takes rand.
Proof. intros [|d ds] a rest; [done|]. intros [= _ ->]. by exists [d]. Qed.

Create HintDb draws.
#[export] Hint Resolve takes_keeps bind_takes_l bind_keeps ret_keeps defined_keeps rand_takes : draws.

(** With a number for every turn the fuel does not matter. *)
Lemma until_enough {A} (m : drawing A) again : takes m -> forall n k ds, (length ds < n)%nat -> (length ds < k)%nat -> until n m again ds = until k m again ds.
Proof.
  intros Hm. induction n as [|n IH]; intros [|k] ds Hn Hk; try lia. cbn [until]. unfold bind_draw. destruct (m ds) as [a ds'| |] eqn:E; [|done|done].
  destruct (Hm _ _ _ E) as (used & -> & Hne). assert (0 < length used)%nat by (destruct used; [done|cbn; lia]).
  rewrite length_app in Hn, Hk. destruct (again a); [|done]. apply IH; lia.
Qed.

(** The loop is what the code says: a turn, and the loop again or not. *)
Lemma do_while_unfold {A} (m : drawing A) again ds : takes m ->
  do_while m again ds = (a <~ m; if again a then do_while m again else ret_draw a) ds.
Proof.
  intros Hm. unfold do_while at 1. cbn [until]. unfold bind_draw. destruct (m ds) as [a ds'| |] eqn:E; [|done|done]. destruct (again a); [|done].
  destruct (Hm _ _ _ E) as (used & -> & Hne). assert (0 < length used)%nat by (destruct used; [done|cbn; lia]).
  unfold do_while. apply until_enough; [done| |]; rewrite ?length_app; lia.
Qed.

Lemma do_while_takes {A} (m : drawing A) again : takes m -> takes (do_while m again).
Proof.
  intros Hm ds. remember (length ds) as n eqn:En. revert ds En. induction n as [n IH] using lt_wf_ind. intros ds -> a rest. rewrite (do_while_unfold m again ds Hm).
  unfold bind_draw. destruct (m ds) as [b ds'| |] eqn:E; try done. destruct (Hm _ _ _ E) as (used & -> & Hne). destruct (again b).
  - intros E2. assert (0 < length used)%nat by (destruct used; [done|cbn; lia]). destruct (IH (length ds') ltac:(rewrite length_app; lia) ds' eq_refl _ _ E2) as (u2 & -> & _).
    exists (used ++ u2). split; [by rewrite app_assoc|by destruct used].
  - intros [= _ <-]. by exists used.
Qed.

Section laws.
Context (pow : spec_float -> spec_float -> spec_float) (exp log : spec_float -> spec_float).

Lemma average_takes a b n : takes (ntg_math2_average_random pow a b n).
Proof. unfold ntg_math2_average_random. apply bind_takes_r; [auto with draws|]. intros. apply bind_takes_r; [auto with draws|]. intros. auto 7 with draws. Qed.

Lemma normal_takes mu sigma : takes (ntg_math2_normal_random pow log mu sigma).
Proof.
  apply bind_takes_l; [|intros; apply ret_keeps]. apply do_while_takes. apply bind_takes_l; [apply average_takes|]. intros.
  apply bind_keeps; [apply takes_keeps, average_takes|intros; apply ret_keeps].
Qed.

Lemma poisson_keeps n limit b i : keeps (poisson_loop pow n limit b i).
Proof.
  revert b i. induction n as [|n IH]; intros b i; cbn [poisson_loop]; destruct (SFleb limit (f64_of b)); try apply ret_keeps; [by intros ? ? ?|].
  apply bind_keeps; [apply takes_keeps, average_takes|]. intros. apply bind_keeps; [apply defined_keeps|done].
Qed.

(** Every distribution but that of Poisson takes a number at least. *)
Lemma random_takes d : d_type d <> NTG_MATH_POSISSON_E -> takes (ntg_get_random pow exp log d).
Proof.
  intros Hd. unfold ntg_get_random, parameter. do 3 (apply bind_takes_r; [apply defined_keeps|intros]).
  rewrite (proj2 (Z.eqb_neq (d_type d) NTG_MATH_POSISSON_E)) by done.
  destruct (d_type d =? NTG_MATH_LOGNORMAL_E); [apply bind_takes_l; [apply normal_takes|intros; apply ret_keeps]|].
  destruct (d_type d =? NTG_MATH_EXPONENTIAL_E); [apply bind_takes_l; [apply average_takes|intros; apply ret_keeps]|].
  destruct (d_type d =? NTG_MATH_NORMAL_E); [apply normal_takes|].
  destruct (d_type d =? NTG_MATH_WEIBULL_E); [apply bind_takes_l; [apply average_takes|intros; apply ret_keeps]|].
  destruct (SFltb _ _); apply average_takes.
Qed.


(** A difference that is nought divides [rand]. *)
Lemma average_nothing a b n r ds :
  int_of (fmul (fsub b a) (f32_of (pow (f64_of_Z 10) (f64_of_Z n)))) = Some 0 -> ntg_math2_average_random pow a b n (r :: ds) = Undefined.
Proof.
  intros H. unfold ntg_math2_average_random. rewrite H. unfold bind_draw, defined. destruct (int_of (fmul a _)); reflexivity.
Qed.

Lemma fsub_same s m e : fsub (S754_finite s m e) (S754_finite s m e) = S754_zero false.
Proof. unfold fsub, SFsub. rewrite Z.sub_diag. reflexivity. Qed.

(** A uniform distribution whose bounds are equal is undefined behaviour, whatever
    is drawn: a division by zero. *)
Theorem equal_bounds_undefined s m e a2 r ds :
  f32_of (pow (f64_of_Z 10) (f64_of_Z 2)) = f32_of_Z 100 ->
  ntg_get_random pow exp log (Distribution 0 [S754_finite s m e; S754_finite s m e; a2]) (r :: ds) = Undefined.
Proof.
  intros Hp. unfold ntg_get_random, parameter. cbn [d_args d_type lookup list_lookup]. unfold bind_draw at 1 2 3. cbn [defined].
  change (0 =? NTG_MATH_LOGNORMAL_E) with false. change (0 =? NTG_MATH_POSISSON_E) with false. change (0 =? NTG_MATH_EXPONENTIAL_E) with false.
  change (0 =? NTG_MATH_NORMAL_E) with false. change (0 =? NTG_MATH_WEIBULL_E) with false. cbn match.
  destruct (SFltb _ _); apply average_nothing; rewrite Hp, fsub_same; reflexivity.
Qed.

(** ** The unit interval *)

Definition unit_value (k : Z) : spec_float := fdiv (f32_of_Z k) (f32_of_Z 10000).

Lemma unit_values : forallb (fun k => SFleb (f32_of_Z 0) (unit_value k) && SFltb (unit_value k) (f32_of_Z 1)) (seqZ 0 10000) = true.
Proof. vm_compute. reflexivity. Qed.

(** The numbers between nought and one have four digits, and nought is one of them. *)
Theorem unit_random_correct r ds :
  f32_of (pow (f64_of_Z 10) (f64_of_Z 4)) = f32_of_Z 10000 -> 0 <= r ->
  unit_random pow (r :: ds) = Drawn (unit_value (r mod 10000)) ds /\
  SFleb (f32_of_Z 0) (unit_value (r mod 10000)) = true /\ SFltb (unit_value (r mod 10000)) (f32_of_Z 1) = true.
Proof.
  intros Hp Hr. split.
  - unfold unit_random, ntg_math2_average_random. rewrite Hp. unfold bind_draw, defined.
    assert (E1 : int_of (fmul (f32_of_Z 0) (f32_of_Z 10000)) = Some 0) by reflexivity.
    assert (E2 : int_of (fmul (fsub (f32_of_Z 1) (f32_of_Z 0)) (f32_of_Z 10000)) = Some 10000) by reflexivity.
    rewrite E1, E2. cbn [rand]. change (10000 =? 0) with false. cbn match. rewrite Z.rem_mod_nonneg by lia. rewrite Z.add_0_r.
    pose proof (Z.mod_pos_bound r 10000 ltac:(lia)). unfold in_int, INT_MIN, INT_MAX. rewrite (proj2 (Z.leb_le _ _)), (proj2 (Z.leb_le _ _)) by lia. reflexivity.
  - pose proof unit_values as H. rewrite forallb_forall in H. apply andb_true_iff. apply H. apply list_elem_of_In, elem_of_seqZ.
    pose proof (Z.mod_pos_bound r 10000 ltac:(lia)). lia.
Qed.

(** ** What is not handled *)

Lemma zero_times_unit : forallb (fun k => match fmul (S754_zero false) (unit_value k) with S754_zero false => true | _ => false end) (seqZ 0 10000) = true.
Proof. vm_compute. reflexivity. Qed.

(** Where [exp] gives nought, as it does for a mean above 745, a product that has
    become nought never ends the loop of the Poisson distribution. *)
Lemma poisson_endless ds i :
  f32_of (pow (f64_of_Z 10) (f64_of_Z 4)) = f32_of_Z 10000 -> Forall (fun r => 0 <= r) ds -> 0 <= i -> i + Z.of_nat (length ds) <= INT_MAX ->
  poisson_loop pow (length ds) (S754_zero false) (S754_zero false) i ds = Waits.
Proof.
  intros Hp Hds. revert i. induction Hds as [|r ds Hr _ IH]; intros i H0 Hi; [reflexivity|]. cbn [length poisson_loop].
  change (SFleb (S754_zero false) (f64_of (S754_zero false))) with true. cbn match. unfold bind_draw at 1. destruct (unit_random_correct r ds Hp Hr) as (-> & _).
  cbn [length] in Hi. unfold bind_draw, defined, in_int. unfold INT_MIN, INT_MAX in *. rewrite (proj2 (Z.leb_le _ _)), (proj2 (Z.leb_le _ _)) by lia. cbn [andb].
  pose proof zero_times_unit as H. rewrite forallb_forall in H. specialize (H (r mod 10000)). pose proof (Z.mod_pos_bound r 10000 ltac:(lia)) as Hb.
  specialize (H ltac:(apply list_elem_of_In, elem_of_seqZ; lia)). cbn beta in H. destruct (fmul (S754_zero false) (unit_value (r mod 10000))) as [ [|]| | |]; try done.
  apply IH; lia.
Qed.

(** The logarithm of nought is infinite, and so is what is drawn: no [int]. *)
Lemma exponential_of_nought r ds a b : f32_of (pow (f64_of_Z 10) (f64_of_Z 4)) = f32_of_Z 10000 -> log (S754_zero false) = S754_infinity true ->
  0 <= r -> r mod 10000 = 0 -> ntg_math2_exponential_random pow log (f32_of_Z 1) (f32_of_Z 2) (r :: ds) = Drawn (S754_infinity false) ds /\
  ntg_user_get_session_num pow exp log (Behavior (Distribution 3 [f32_of_Z 1; f32_of_Z 2; f32_of_Z 0]) a b b) (r :: ds) = Undefined.
Proof.
  intros Hp Hl Hr Hm. assert (E : ntg_math2_exponential_random pow log (f32_of_Z 1) (f32_of_Z 2) (r :: ds) = Drawn (S754_infinity false) ds).
  { unfold ntg_math2_exponential_random, bind_draw. destruct (unit_random_correct r ds Hp Hr) as (-> & _). rewrite Hm.
    change (f64_of (unit_value 0)) with (S754_zero false). rewrite Hl. reflexivity. }
  split; [exact E|]. unfold ntg_user_get_session_num, ntg_get_random, parameter. cbn [ss_num d_args d_type lookup list_lookup].
  change (3 =? NTG_MATH_LOGNORMAL_E) with false. change (3 =? NTG_MATH_POSISSON_E) with false. change (3 =? NTG_MATH_EXPONENTIAL_E) with true.
  unfold bind_draw at 1 2 3 4. cbn [defined]. by rewrite E.
Qed.
End laws.

(** ** Examples *)

(** A [pow] that is exact on the powers of ten that are asked for. *)
Definition example_pow (x y : spec_float) : spec_float :=
  if SFeqb y (f64_of_Z 2) then f64_of_Z 100 else if SFeqb y (f64_of_Z 4) then f64_of_Z 10000 else S754_nan.

Definition uniform (a b : Z) : distribution := Distribution 0 [f32_of_Z a; f32_of_Z b; f32_of_Z 0].
Definition example_behavior : behavior := Behavior (uniform 1 4) (uniform 0 3600) (uniform 1 3) (uniform 10 20).


Lemma equal_bounds_undefined_witness : ntg_get_random example_pow id id (uniform 3 3) [17] = Undefined.
Proof. apply (equal_bounds_undefined example_pow id id false 12582912 (-22)). vm_compute. reflexivity. Defined.

Lemma unit_random_correct_witness : unit_random example_pow [123456] = Drawn (unit_value 3456) [].
Proof. apply (unit_random_correct example_pow 123456 []); [vm_compute; reflexivity|lia]. Defined.

(** The clicks are drawn from the bounds of the interval, not from their own. *)
Example clicks_of_interval : ntg_user_get_clicks example_pow id id example_behavior [150] = Drawn 12 [].
Proof. vm_compute. reflexivity. Qed.
