(* ===== verification/UserPool.v ===== *)
(** * The pool of users and the groups

    What ntg_user_group.c promises: every user of the process is in the pool of
    free users or in exactly one queue of exactly one group, whatever the
    groups do ([pool_inv]), and each operation moves the users it says. *)

From Stdlib Require Import SpecFloat.
From S2P Require Import Prelude Queue Sprintf Spline UserGroup.

(** ** The users as lists *)

(** The free users linked from [p]. *)
Fixpoint user_chain (us : gmap Z ntg_user) (p : option Z) (l : list Z) : Prop :=
  match l with
  | [] => p = None
  | u :: l => p = Some u /\ exists nd next, us !! u = Some nd /\
      next_free (u_data nd) = Some next /\ user_chain us next l
  end.

(** The two queues of group [g] hold the users [fl] and [ll]. *)
Definition group_queues (m : gmap qnode (qlink qnode)) (g : Z) (fl ll : list Z) : Prop :=
  is_queue m (QFree g) (QUser <$> fl) /\ is_queue m (QLive g) (QUser <$> ll).

(** [u] is a user of group [g]. *)
Definition in_group (gs : gmap Z (list Z * list Z)) (g u : Z) : Prop :=
  exists fl ll, gs !! g = Some (fl, ll) /\ u ∈ fl ++ ll.

(** What holds of group [g] with the free users [fl] and the live users [ll]. *)
Record group_ok (s : ustate) (g : Z) (fl ll : list Z) : Prop := {
  go_queues : group_queues (links s) g fl ll;
  go_nodup : NoDup (fl ++ ll);
  go_counts : exists gp, groups s !! g = Some gp /\
    g_users_n gp = Z.of_nat (length (fl ++ ll)) /\ g_live_n gp = Z.of_nat (length ll) }.

(** Every user is in the pool or in exactly one queue of one group, and the
    counters agree; [free] are the users of the pool, [gs] the groups. *)
Record pool_inv (s : ustate) (free : list Z) (gs : gmap Z (list Z * list Z)) : Prop := {
  pi_chain : user_chain (users s) (free_users s) free;
  pi_nodup : NoDup free;
  pi_count : free_user_n s = Z.of_nat (length free);
  pi_limit : Z.of_nat (size (users s)) < 9223372036854775808;
  pi_groups : forall g fl ll, gs !! g = Some (fl, ll) -> group_ok s g fl ll;
  pi_alloc : forall u, is_Some (users s !! u) ->
    is_Some (links s !! QUser u) /\ (u ∈ free \/ exists g, in_group gs g u);
  pi_own : forall g u, in_group gs g u ->
    is_Some (users s !! u) /\ (u ∉ free) /\ forall g', in_group gs g' u -> g' = g }.

(** ** Taking users *)

Lemma user_chain_in us p l u : user_chain us p l -> u ∈ l -> is_Some (us !! u).
Proof.
  revert p. induction l as [|v l IH]; intros p; cbn; [by intros _ ?%elem_of_nil|].
  intros (-> & nd & next & Hv & _ & Hl) [->|Hu]%elem_of_cons; [by eexists|]. eauto.
Qed.

Lemma user_chain_frame us us' p l :
  user_chain us p l -> (forall u, u ∈ l -> us' !! u = us !! u) -> user_chain us' p l.
Proof.
  revert p. induction l as [|v l IH]; intros p; cbn; [done|].
  intros (-> & nd & next & Hv & Hn & Hl) Hf. split; [done|]. exists nd, next.
  rewrite Hf by (by left). split_and!; try done. apply IH; [done|]. intros u Hu. apply Hf. by right.
Qed.

Lemma quser_in u (l : list Z) : QUser u ∈ QUser <$> l <-> u ∈ l.
Proof. rewrite list_elem_of_fmap. split; [by intros (v & [= ->] & ?)|]. eauto. Qed.

#[local] Instance quser_inj : Inj (=) (=) QUser.
Proof. by intros ? ? [=]. Qed.

Lemma take_users_spec g s l1 l2 fl :
  user_chain (users s) (free_users s) (l1 ++ l2) -> NoDup (l1 ++ fl) ->
  is_queue (links s) (QFree g) (QUser <$> fl) ->
  (forall u, u ∈ l1 -> is_Some (links s !! QUser u)) ->
  exists p m, take_users (length l1) g s = Some (set_links m (set_free_users p s)) /\
    user_chain (users s) p l2 /\ is_queue m (QFree g) (QUser <$> (rev l1 ++ fl)) /\
    same_except (QFree g :: (QUser <$> (l1 ++ fl))) (links s) m.
Proof.
  revert s fl. induction l1 as [|u l1 IH]; intros s fl Hc Hnd Hq Hm; cbn [length take_users].
  - exists (free_users s), (links s). split_and!; try done. by destruct s.
  - cbn [app user_chain] in Hc. destruct Hc as (Hp & nd & next & Hu & Hn & Hc).
    rewrite Hp. cbn [mbind option_bind]. rewrite Hu. cbn [mbind option_bind]. rewrite Hn. cbn [mbind option_bind].
    cbn [app] in Hnd. apply NoDup_cons in Hnd as [Hui Hnd].
    unfold on_links. cbn [links set_free_users].
    destruct (ntg_queue_insert_head_spec (links s) (QFree g) (QUser <$> fl) (QUser u) Hq)
      as (m & E & Hq' & Hs).
    { rewrite elem_of_cons, quser_in. set_solver. }
    { apply Hm. by left. }
    rewrite E. cbn [mbind option_bind].
    destruct (IH (set_links m (set_free_users next s)) (u :: fl)) as (p & m' & E' & Hch & Hq2 & Hs').
    + done.
    + rewrite <-Permutation_middle. by apply NoDup_cons.
    + exact Hq'.
    + intros v Hv. cbn. destruct Hs as [D _]. rewrite <-elem_of_dom, D, elem_of_dom. apply Hm.
      by right.
    + exists p, m'. split_and!; [exact E'|done| |].
      * cbn [rev]. by rewrite <-app_assoc.
      * cbn [links set_links] in Hs'.
        eapply same_except_trans; (eapply same_except_weaken; [eassumption|]); intros y;
          rewrite ?fmap_app, ?fmap_cons, ?elem_of_cons, ?elem_of_app, ?elem_of_cons; tauto.
Qed.

(** ** The invariant under changes *)

(** The nodes of the queues of a group. *)
Definition group_nodes (g : Z) (l : list Z) : list qnode := QFree g :: QLive g :: (QUser <$> l).

Lemma group_nodes_in y g l :
  y ∈ group_nodes g l <-> y = QFree g \/ y = QLive g \/ y ∈ QUser <$> l.
Proof. unfold group_nodes. by rewrite !elem_of_cons. Qed.

Lemma group_queues_frame m m' g fl ll :
  group_queues m g fl ll -> (forall y, y ∈ group_nodes g (fl ++ ll) -> m' !! y = m !! y) ->
  group_queues m' g fl ll.
Proof.
  intros [H1 H2] Hf. split; (eapply is_queue_frame; [eassumption|]); intros y Hy; apply Hf;
    rewrite group_nodes_in, fmap_app, elem_of_app; apply elem_of_cons in Hy; tauto.
Qed.

(** The nodes of different groups, and those of the pool, are different. *)
Lemma other_nodes y g g' l l' :
  y ∈ group_nodes g l -> g <> g' -> (forall u, u ∈ l -> u ∉ l') -> y ∉ group_nodes g' l'.
Proof.
  rewrite !group_nodes_in. intros Hy Hg Hd.
  destruct Hy as [->|[->|Hy]]; [intros [?|[?|H]].. |].
  1-6: try congruence; by apply list_elem_of_fmap in H as (? & ? & _).
  apply list_elem_of_fmap in Hy as (u & -> & Hu). rewrite quser_in.
  intros [?|[?|H]]; [done..|]. by apply (Hd u).
Qed.

Lemma in_group_insert gs g fl ll g' u :
  in_group (<[g := (fl, ll)]> gs) g' u <->
  (g' = g /\ u ∈ fl ++ ll) \/ (g' <> g /\ in_group gs g' u).
Proof.
  unfold in_group. destruct (decide (g' = g)) as [->|Hg].
  - rewrite lookup_insert_eq. naive_solver.
  - rewrite lookup_insert_ne by done. naive_solver.
Qed.

Lemma in_group_delete gs g g' u :
  in_group (delete g gs) g' u <-> g' <> g /\ in_group gs g' u.
Proof.
  unfold in_group. destruct (decide (g' = g)) as [->|Hg].
  - rewrite lookup_delete_eq. naive_solver.
  - rewrite lookup_delete_ne by done. naive_solver.
Qed.

(** Membership in the nodes of a group, for [same_except]. *)
Ltac nodes :=
  intros y; cbn [app]; rewrite ?group_nodes_in;
  repeat first [rewrite fmap_app | rewrite fmap_cons | rewrite fmap_nil | rewrite elem_of_cons
               | rewrite elem_of_app | rewrite elem_of_nil]; tauto.

(** Only the links, the users' domain and the counters of the groups matter. *)
Lemma pool_inv_groups s free gs gm :
  pool_inv s free gs ->
  (forall g gp, is_Some (gs !! g) -> groups s !! g = Some gp -> exists gp', gm !! g = Some gp' /\
    g_users_n gp' = g_users_n gp /\ g_live_n gp' = g_live_n gp) ->
  pool_inv (set_groups gm s) free gs.
Proof.
  intros [C N K L G A O] Hgm. split; try done. intros g fl ll Hg.
  destruct (G g fl ll Hg) as [Q D (gp & Hgp & H1 & H2)]. split; try done.
  destruct (Hgm g gp ltac:(by eexists) Hgp) as (gp' & Hgp' & E1 & E2). exists gp'.
  by rewrite E1, E2.
Qed.

(** The record of a group changes, but not its counters. *)
Lemma pool_inv_modify s free gs g gp gp' :
  pool_inv s free gs -> groups s !! g = Some gp -> g_users_n gp' = g_users_n gp ->
  g_live_n gp' = g_live_n gp -> pool_inv (set_groups (<[g := gp']> (groups s)) s) free gs.
Proof.
  intros I Hg H1 H2. apply pool_inv_groups; [exact I|]. intros g' gp0 _ Hg'.
  destruct (decide (g' = g)) as [->|?].
  - rewrite lookup_insert_eq. rewrite Hg in Hg'. injection Hg' as <-. by eexists.
  - rewrite lookup_insert_ne by done. by exists gp0.
Qed.

(** The chain of tasks is not part of the invariant. *)
Lemma pool_inv_tasks s free gs p : pool_inv s free gs -> pool_inv (set_tasks p s) free gs.
Proof.
  intros [C N K L G A O]. split; try done. intros g fl ll Hg. by destruct (G g fl ll Hg).
Qed.

Lemma pool_bound s free gs : pool_inv s free gs -> is_s64 (Z.of_nat (length free)).
Proof.
  intros [C N _ L _ _ _]. pose proof (nodes_bound (users s) free N) as H.
  assert ((length free <= size (users s))%nat); [|width; lia].
  apply H. intros u. by apply user_chain_in with (p := free_users s).
Qed.

(** A user changes, but not its place. *)
Lemma pool_inv_user s free gs u us :
  pool_inv s free gs -> is_Some (users s !! u) -> (u ∉ free) ->
  pool_inv (set_users (<[u := us]> (users s)) s) free gs.
Proof.
  intros [C N K L G A O] Hu Hf.
  assert (Hd : forall v, is_Some (<[u := us]> (users s) !! v) <-> is_Some (users s !! v)).
  { intros v. destruct (decide (v = u)) as [->|Hv].
    - rewrite lookup_insert_eq. split; [done|by eexists].
    - by rewrite lookup_insert_ne. }
  split; cbn [users free_users free_user_n set_users]; try done.
  - apply (user_chain_frame (users s)); [done|]. intros v Hv. apply lookup_insert_ne. by intros ->.
  - destruct Hu as [? Hu]. rewrite map_size_insert_Some; [done|by eexists].
  - intros g fl ll Hg. by destruct (G g fl ll Hg).
  - intros v. rewrite Hd. apply A.
  - intros g v Hv. rewrite Hd. by apply O.
Qed.

(** The links of the users and the sentinels of one group change. *)
Lemma group_ok_other s s' free gs g l g' fl ll :
  pool_inv s free gs -> same_except (group_nodes g l) (links s) (links s') ->
  (forall u, u ∈ l -> u ∈ free \/ in_group gs g u) ->
  g' <> g -> gs !! g' = Some (fl, ll) -> groups s' !! g' = groups s !! g' ->
  group_ok s' g' fl ll.
Proof.
  intros I [_ Hs] Hl Hg Hg' Hgp. destruct (pi_groups _ _ _ I g' fl ll Hg') as [Q D C].
  split; [|done|by rewrite Hgp]. eapply group_queues_frame; [exact Q|].
  intros y Hy. apply Hs. eapply other_nodes; [done..|]. intros u Hu Hul.
  assert (Hin : in_group gs g' u) by (by exists fl, ll).
  destruct (pi_own _ _ _ I g' u Hin) as (_ & Hnf & Huniq).
  destruct (Hl u Hul) as [?|H]; [done|]. apply Huniq in H. done.
Qed.

Lemma dom_size {A B} (m1 : gmap Z A) (m2 : gmap Z B) :
  (forall u, is_Some (m1 !! u) <-> is_Some (m2 !! u)) -> size m1 = size m2.
Proof.
  intros H. rewrite <-!size_dom. f_equal. apply set_eq. intros u. by rewrite !elem_of_dom.
Qed.

(** The users of a group move between its queues. *)
Lemma pool_inv_permute s s' free gs g fl ll fl' ll' :
  pool_inv s free gs -> gs !! g = Some (fl, ll) -> fl' ++ ll' ≡ₚ fl ++ ll ->
  same_except (group_nodes g (fl ++ ll)) (links s) (links s') ->
  group_queues (links s') g fl' ll' ->
  (forall g', g' <> g -> groups s' !! g' = groups s !! g') ->
  (exists gp, groups s' !! g = Some gp /\ g_users_n gp = Z.of_nat (length (fl ++ ll)) /\
     g_live_n gp = Z.of_nat (length ll')) ->
  (forall u, u ∉ fl ++ ll -> users s' !! u = users s !! u) ->
  (forall u, is_Some (users s' !! u) <-> is_Some (users s !! u)) ->
  free_users s' = free_users s -> free_user_n s' = free_user_n s ->
  pool_inv s' free (<[g := (fl', ll')]> gs).
Proof.
  intros I Hg Hp Hs Hq Hgo Hgp Hu Hd Hf Hn. pose proof I as [C N K L G A O].
  assert (Hin : forall g' u, in_group (<[g := (fl', ll')]> gs) g' u <-> in_group gs g' u).
  { intros g' u. rewrite in_group_insert, Hp. unfold in_group. split.
    - intros [[-> ?]|[_ ?]]; [by exists fl, ll|done].
    - intros H. destruct (decide (g' = g)) as [->|?]; [left|by right]. split; [done|].
      destruct H as (? & ? & H & ?). rewrite Hg in H. by injection H as <- <-. }
  split.
  - rewrite Hf. apply (user_chain_frame (users s)); [done|]. intros u Huf. apply Hu. intros H.
    by destruct (O g u) as (_ & ? & _); [by exists fl, ll|].
  - done.
  - by rewrite Hn.
  - by rewrite (dom_size _ _ Hd).
  - intros g' fl0 ll0. destruct (decide (g' = g)) as [->|Hgg].
    + rewrite lookup_insert_eq. intros [= <- <-]. destruct (G g fl ll Hg) as [_ D _].
      split; [done|by rewrite Hp|]. by rewrite (Permutation_length Hp).
    + rewrite lookup_insert_ne by done. intros Hg'.
      eapply group_ok_other; [done|done| |done|done|by apply Hgo].
      intros u Hul. right. by exists fl, ll.
  - intros u. rewrite Hd. intros Hu1. destruct (A u Hu1) as [Hl Hw]. split.
    + destruct Hs as [D _]. by rewrite <-elem_of_dom, D, elem_of_dom.
    + destruct Hw as [?|[g' ?]]; [by left|]. right. exists g'. by rewrite Hin.
  - intros g' u. rewrite Hin, Hd. intros Hi. destruct (O g' u Hi) as (? & ? & Huq).
    split_and!; [done..|]. intros g2. rewrite Hin. apply Huq.
Qed.

(** A new group takes the users [l] of the pool. *)
Lemma pool_inv_take s s' l free gs g fl :
  pool_inv s (l ++ free) gs -> gs !! g = None -> fl ≡ₚ l ->
  same_except (group_nodes g l) (links s) (links s') ->
  group_queues (links s') g fl [] ->
  (forall g', g' <> g -> groups s' !! g' = groups s !! g') ->
  (exists gp, groups s' !! g = Some gp /\ g_users_n gp = Z.of_nat (length l) /\
     g_live_n gp = 0) ->
  users s' = users s -> user_chain (users s) (free_users s') free ->
  free_user_n s' = Z.of_nat (length free) ->
  pool_inv s' free (<[g := (fl, [])]> gs).
Proof.
  intros I Hg Hp Hs Hq Hgo Hgp Hu Hc Hn. pose proof I as [C N K L G A O].
  assert (Hno : forall u, ~ in_group gs g u).
  { intros u (? & ? & H & _). by rewrite Hg in H. }
  assert (Hin : forall g' u, in_group (<[g := (fl, [])]> gs) g' u <->
    (g' = g /\ u ∈ l) \/ in_group gs g' u).
  { intros g' u. rewrite in_group_insert, app_nil_r, Hp. split; [naive_solver|].
    intros [?|H]; [by left|]. right. split; [|done]. intros ->. by apply Hno in H. }
  apply NoDup_app in N as (N1 & Ndis & N2).
  split; rewrite ?Hu; try done.
  - intros g' fl0 ll0. destruct (decide (g' = g)) as [->|Hgg].
    + rewrite lookup_insert_eq. intros [= <- <-]. split; [done|by rewrite app_nil_r, Hp|].
      rewrite app_nil_r, (Permutation_length Hp). done.
    + rewrite lookup_insert_ne by done. intros Hg'.
      eapply group_ok_other; [exact I|exact Hs| |done|done|by apply Hgo].
      intros u Hul. left. rewrite elem_of_app. by left.
  - intros u Hu1. destruct (A u Hu1) as [Hl Hw]. split.
    + destruct Hs as [D _]. by rewrite <-elem_of_dom, D, elem_of_dom.
    + destruct Hw as [[?|?]%elem_of_app|[g' ?]]; [|by left|].
      * right. exists g. rewrite Hin. left; by split.
      * right. exists g'. rewrite Hin. by right.
  - intros g' u. rewrite Hin. intros [[-> Hul]|Hi].
    + split_and!.
      * eapply user_chain_in; [exact C|]. rewrite elem_of_app. by left.
      * intros ?. by apply (Ndis u).
      * intros g2. rewrite Hin. intros [[? _]|H2]; [done|].
        destruct (O g2 u H2) as (_ & Hf & _). exfalso. apply Hf. rewrite elem_of_app. by left.
    + destruct (O g' u Hi) as (? & Hf & Huq). rewrite elem_of_app in Hf. split_and!; [done|tauto|].
      intros g2. rewrite Hin. intros [[_ ?]|H2]; [tauto|by apply Huq].
Qed.

(** ** ntg_user_group_init *)

(** A group with a scene starts inside the day, and has a value for every hour. *)
Definition scene_ready (gp : ntg_user_group) : Prop :=
  g_is_scene gp = true -> 0 <= g_point gp < SPILINE_OUTPUT_MAX /\ length (g_scene gp) = 24%nat.

(** The group keeps its place and is not yet a task. *)
Definition same_owner (gp gp' : ntg_user_group) : Prop :=
  g_consumer gp' = g_consumer gp /\ g_gp_id gp' = g_gp_id gp /\ g_active gp' = g_active gp.

Lemma scene_init_spec ev_ok g s gp :
  groups s !! g = Some gp -> g_is_scene gp = true -> scene_ready gp ->
  exists rc gp', scene_init ev_ok g s = Some (rc, set_groups (<[g := gp']> (groups s)) s) /\
    g_users_n gp' = g_users_n gp /\ g_live_n gp' = g_live_n gp /\ same_owner gp gp' /\
    (rc = NTG_OK <-> ev_ok = true).
Proof.
  intros Hg Hsc Hr. destruct (Hr Hsc) as [Hp HF]. unfold scene_init, modify_group. rewrite Hg.
  cbn [mbind option_bind]. destruct (scene_curve_ok _ HF) as (F & E & HL & _).
  rewrite E. cbn [mbind option_bind]. change (negb (NTG_OK =? NTG_OK)) with false. cbn iota.
  unfold scene_users. cbn [g_point g_F g_users_n set_g_F].
  rewrite (proj2 (Z.ltb_ge _ _)) by lia.
  destruct (lookup_lt_is_Some_2 F (Z.to_nat (g_point gp))) as [f Hf]; [unfold SPILINE_OUTPUT_MAX in *; lia|].
  rewrite Hf. cbn [mbind option_bind]. eexists _, _. split; [done|]. split_and!; [done|done|done|].
  by destruct ev_ok.
Qed.

(** A group gets its users from the pool: when there are not enough nothing
    changes and the result is an error; otherwise the group takes exactly the
    users it is to have, from the front of the pool, all of them idle, and no
    user is lost or held twice.  The result is then an error only when the
    timer of a scene cannot be created. *)
Lemma group_init_spec ev_ok g s gp free gs :
  pool_inv s free gs -> gs !! g = None -> groups s !! g = Some gp ->
  is_Some (links s !! QFree g) -> is_Some (links s !! QLive g) ->
  0 < g_users_n gp < 9223372036854775808 -> g_live_n gp = 0 -> scene_ready gp ->
  let n := Z.to_nat (g_users_n gp) in
  if Z.of_nat (length free) <? g_users_n gp
  then ntg_user_group_init ev_ok g s = Some (NTG_ERROR, s)
  else exists rc s', ntg_user_group_init ev_ok g s = Some (rc, s') /\
    pool_inv s' (drop n free) (<[g := (rev (take n free), [])]> gs) /\
    users s' = users s /\ consumers s' = consumers s /\ tasks s' = tasks s /\
    (forall g', g' <> g -> groups s' !! g' = groups s !! g') /\
    (exists gp', groups s' !! g = Some gp' /\ same_owner gp gp') /\
    (rc = NTG_OK <-> (g_is_scene gp = true -> ev_ok = true)).
Proof.
  intros I Hgs Hg HQ HL Hn Hlive Hsc n. unfold ntg_user_group_init. rewrite Hg.
  cbn [mbind option_bind]. rewrite (pi_count _ _ _ I), u64_small by (width; lia).
  destruct (Z.ltb_spec (Z.of_nat (length free)) (g_users_n gp)) as [|Hlen]; [done|].
  rewrite (proj2 (Z.leb_gt _ _)) by lia.
  unfold on_links. cbn [links set_links].
  destruct (ntg_queue_init_spec (links s) (QFree g) HQ) as (m1 & E1 & Q1 & S1).
  rewrite E1. cbn [mbind option_bind links set_links].
  destruct (ntg_queue_init_spec m1 (QLive g)) as (m2 & E2 & Q2 & S2).
  { destruct S1 as [D _]. by rewrite <-elem_of_dom, D, elem_of_dom. }
  rewrite E2. cbn [mbind option_bind].
  assert (Hsplit : free = take n free ++ drop n free) by (by rewrite take_drop).
  assert (Hlt : length (take n free) = n) by (rewrite length_take; lia).
  assert (I' := I). rewrite Hsplit in I'.
  pose proof (pi_nodup _ _ _ I) as Hnd. rewrite Hsplit in Hnd. apply NoDup_app in Hnd as (Hnd & _ & _).
  destruct (take_users_spec g (set_links m2 (set_links m1 s)) (take n free) (drop n free) [])
    as (p & m3 & E3 & C3 & Q3 & S3).
  - cbn. rewrite take_drop. apply (pi_chain _ _ _ I).
  - by rewrite app_nil_r.
  - cbn [links set_links fmap list_fmap]. eapply is_queue_same_except; [exact S2|exact Q1|].
    intros y. rewrite !elem_of_cons, !elem_of_nil. intros [->|[]] [?|[]]; done.
  - intros u Hu. cbn [links set_links]. destruct S1 as [D1 _], S2 as [D2 _].
    rewrite <-elem_of_dom, D2, D1, elem_of_dom. apply (pi_alloc _ _ _ I).
    eapply user_chain_in; [apply (pi_chain _ _ _ I)|]. rewrite Hsplit, elem_of_app. by left.
  - rewrite Hlt in E3. fold n. rewrite E3. cbn [mbind option_bind].
    rewrite app_nil_r in Q3, S3. cbn [links set_links] in S3.
    unfold modify_group. cbn [groups set_free_user_n set_links set_free_users]. rewrite Hg.
    cbn [mbind option_bind].
    set (gp1 := gp |> set_g_free_n _ |> _ |> _).
    set (s1 := set_groups _ _).
    assert (I1 : pool_inv s1 (drop n free) (<[g := (rev (take n free), [])]> gs)).
    { eapply (pool_inv_take s s1 (take n free) _ _ g); subst s1; cbn; try done.
      - symmetry. apply Permutation_rev.
      - eapply same_except_trans; [|eapply same_except_trans]; eapply same_except_weaken;
          [exact S1| |exact S2| |exact S3|]; intros y; rewrite group_nodes_in, ?elem_of_cons, ?elem_of_nil; tauto.
      - split; [exact Q3|]. eapply is_queue_same_except; [exact S3|exact Q2|].
        intros y [->|[]%elem_of_nil]%elem_of_cons. rewrite elem_of_cons, list_elem_of_fmap. naive_solver.
      - intros g' Hg'. by rewrite lookup_insert_ne.
      - exists gp1. rewrite lookup_insert_eq, Hlt. split_and!; [done| |done]. cbn. lia.
      - pose proof (pool_bound _ _ _ I). rewrite (pi_count _ _ _ I), length_drop.
        rewrite u64_small; width; lia. }
    destruct (g_is_scene gp) eqn:Es.
    + destruct (scene_init_spec ev_ok g s1 gp1) as (rc & gp2 & E & H1 & H2 & Ho & H3); [|done|done|].
      { subst s1. cbn. by rewrite lookup_insert_eq. }
      exists rc. eexists. split; [exact E|]. split_and!; [|done|done|done| | |rewrite H3; subst gp1; cbn; tauto].
      * apply (pool_inv_modify s1 _ _ g gp1); [exact I1| |done|done]. apply lookup_insert_eq.
      * subst s1. cbn. intros g' Hg'. by rewrite !lookup_insert_ne.
      * exists gp2. cbn. by rewrite lookup_insert_eq.
    + exists NTG_OK, s1. split; [done|]. split_and!; [done|done|done|done| | |done]; subst s1; cbn.
      * intros g' Hg'. by rewrite lookup_insert_ne.
      * exists gp1. by rewrite lookup_insert_eq.
Qed.

(** The queues of one group do not share nodes. *)
Lemma queues_disjoint m g (fl ll : list Z) l m' :
  is_queue m (QLive g) (QUser <$> ll) -> same_except l m m' ->
  (forall y, y ∈ l -> y = QFree g \/ exists u, y = QUser u /\ u ∈ fl) ->
  (forall u, u ∈ fl -> u ∉ ll) -> is_queue m' (QLive g) (QUser <$> ll).
Proof.
  intros Hq Hs Hl Hd. eapply is_queue_same_except; [exact Hs|exact Hq|].
  intros y Hy Hy'. destruct (Hl y Hy') as [->|(u & -> & Hu)]; apply elem_of_cons in Hy as [?|Hy]; try done.
  - by apply list_elem_of_fmap in Hy as (? & ? & _).
  - apply quser_in in Hy. by apply (Hd u).
Qed.

(** ** ntg_user_group_free *)

Lemma user_chain_push us p l u nd :
  user_chain us p l -> (u ∉ l) -> u_data nd = pool_ptr p ->
  user_chain (<[u := nd]> us) (Some u) (u :: l).
Proof.
  intros Hc Hu Hd. cbn. split; [done|]. exists nd, p. rewrite lookup_insert_eq, Hd.
  split_and!; [done|by destruct p|]. apply (user_chain_frame us); [done|].
  intros v Hv. apply lookup_insert_ne. by intros ->.
Qed.

Lemma return_users_spec fuel h s l free count :
  is_queue (links s) h (QUser <$> l) -> (length l < fuel)%nat ->
  user_chain (users s) (free_users s) free -> NoDup (l ++ free) ->
  (forall u, u ∈ l -> is_Some (users s !! u)) ->
  exists us p m, return_users fuel h (hd h (QUser <$> l)) s count =
      Some (set_links m (set_users us (set_free_users p s)), count + Z.of_nat (length l)) /\
    user_chain us p (rev l ++ free) /\ is_queue m h [] /\
    same_except (h :: (QUser <$> l)) (links s) m /\
    (forall u, u ∉ l -> us !! u = users s !! u) /\
    (forall u, is_Some (us !! u) <-> is_Some (users s !! u)).
Proof.
  revert s l free count. induction fuel as [|fuel IH]; [lia|].
  intros s l free count Hq Hf Hc Hnd Hl. cbn [return_users]. destruct l as [|u l].
  - cbn [fmap list_fmap hd]. rewrite bool_decide_eq_true_2 by done.
    exists (users s), (free_users s), (links s). destruct s. split_and!; try done.
    by rewrite Z.add_0_r.
  - cbn [fmap list_fmap hd]. assert (Hh : QUser u <> h).
    { destruct Hq as [Hn _]. intros <-. apply NoDup_cons in Hn as [Hn _]. apply Hn. by left. }
    rewrite bool_decide_eq_false_2 by done.
    assert (Hnext : get_next (links s) (QUser u) = Some (hd h (QUser <$> l))).
    { destruct Hq as [_ Hq]. cbn [app fmap list_fmap chain] in Hq. destruct Hq as [_ Hq].
      destruct l; apply Hq. }
    rewrite Hnext. cbn [mbind option_bind]. unfold on_links.
    destruct (ntg_queue_remove_spec (links s) h [] (QUser u) _ Hq)
      as (m & E & Hq' & Hs & _).
    rewrite E. cbn [mbind option_bind]. unfold modify_user. cbn [users set_links free_users].
    destruct (Hl u) as [nd Hu]; [by left|]. rewrite Hu. cbn [mbind option_bind].
    apply NoDup_cons in Hnd as [Hun Hnd]. rewrite elem_of_app in Hun.
    match goal with |- context [set_users (<[u := ?x]> _) _] => set (nd' := x) end.
    destruct (IH (set_free_users (Some u) (set_users (<[u:=nd']> (users s)) (set_links m s)))
      l (u :: free) (count + 1)) as (us & p & m' & E' & C' & Q' & S' & F' & D').
    + exact Hq'.
    + cbn [length] in Hf. lia.
    + cbn [users free_users set_free_users set_users set_links]. eapply user_chain_push; [exact Hc|tauto|done].
    + rewrite <-Permutation_middle. apply NoDup_cons. rewrite elem_of_app. tauto.
    + intros v Hv. cbn. rewrite lookup_insert_ne; [apply Hl; by right|]. intros ->. tauto.
    + exists us, p, m'. split_and!.
      * rewrite E'. f_equal. f_equal. cbn [length]. lia.
      * cbn [rev]. by rewrite <-app_assoc.
      * done.
      * cbn [links set_links set_users set_free_users] in S'. eapply same_except_trans;
          (eapply same_except_weaken; [eassumption|]); intros y; cbn [fmap list_fmap app];
          rewrite !elem_of_cons; tauto.
      * intros v Hv. rewrite not_elem_of_cons in Hv. rewrite F' by tauto.
        cbn. apply lookup_insert_ne. naive_solver.
      * intros v. rewrite D'. cbn. destruct (decide (u = v)) as [<-|Huv].
        -- rewrite lookup_insert_eq, Hu. split; by eexists.
        -- by rewrite lookup_insert_ne.
Qed.

(** The groups linked from [p] as tasks. *)
Fixpoint task_chain (gm : gmap Z ntg_user_group) (p : option Z) (l : list Z) : Prop :=
  match l with
  | [] => p = None
  | g :: l => p = Some g /\ exists gp, gm !! g = Some gp /\ task_chain gm (g_data gp) l
  end.

(** Groups that differ in their task links only. *)
Definition same_but_data (gm gm' : gmap Z ntg_user_group) : Prop :=
  forall g gp, gm !! g = Some gp -> exists d, gm' !! g = Some (set_g_data d gp).

Lemma set_g_data_id gp : set_g_data (g_data gp) gp = gp.
Proof. by destruct gp. Qed.

Lemma same_but_data_refl gm : same_but_data gm gm.
Proof. intros g gp Hg. exists (g_data gp). by rewrite set_g_data_id. Qed.

Lemma same_but_data_insert gm gm' g gp d :
  same_but_data gm gm' -> gm' !! g = Some gp -> same_but_data gm (<[g := set_g_data d gp]> gm').
Proof.
  intros H Hg g' gp' Hg'. destruct (H g' gp' Hg') as [d' Hd'].
  destruct (decide (g' = g)) as [->|Hn].
  - rewrite Hg in Hd'. injection Hd' as ->. exists d. by rewrite lookup_insert_eq.
  - exists d'. by rewrite lookup_insert_ne.
Qed.

Lemma task_chain_in gm p l g : task_chain gm p l -> g ∈ l -> is_Some (gm !! g).
Proof.
  revert p. induction l as [|v l IH]; intros p; cbn; [by intros _ ?%elem_of_nil|].
  intros (-> & gp & Hv & Hl) [->|Hg]%elem_of_cons; [by eexists|]. eauto.
Qed.

Lemma task_chain_frame gm gm' p l :
  task_chain gm p l -> (forall g, g ∈ l -> gm' !! g = gm !! g) -> task_chain gm' p l.
Proof.
  revert p. induction l as [|v l IH]; intros p; cbn; [done|].
  intros (-> & gp & Hv & Hl) Hf. split; [done|]. exists gp.
  rewrite Hf by (by left). split; [done|]. apply IH; [done|]. intros g Hg. apply Hf. by right.
Qed.

Lemma task_chain_app gm p l1 l2 :
  task_chain gm p (l1 ++ l2) -> exists q, task_chain gm q l2 /\
    (forall gm' l2', task_chain gm' q l2' -> (forall g, g ∈ l1 -> gm' !! g = gm !! g) ->
       task_chain gm' p (l1 ++ l2')).
Proof.
  revert p. induction l1 as [|v l1 IH]; intros p; cbn; [intros H; by exists p|].
  intros (-> & gp & Hv & Hl). destruct (IH _ Hl) as (q & Hq & H). exists q. split; [done|].
  intros gm' l2' Hq' Hf. split; [done|]. exists gp. rewrite Hf by (by left). split; [done|].
  apply H; [done|]. intros g Hg. apply Hf. by right.
Qed.

Lemma find_pre_spec fuel s p0 l pre g l2 :
  task_chain (groups s) (Some p0) (l ++ pre :: g :: l2) -> (g ∉ l ++ [pre]) ->
  (length l < fuel)%nat -> find_pre fuel p0 g s = Some pre.
Proof.
  revert p0 l. induction fuel as [|fuel IH]; [lia|]. intros p0 l Hc Hn Hf. cbn [find_pre].
  destruct l as [|v l]; cbn [app task_chain] in Hc.
  - destruct Hc as ([= ->] & gp & Hp & Hd & _). rewrite Hp. cbn [mbind option_bind].
    by rewrite bool_decide_eq_true_2.
  - destruct Hc as ([= ->] & gp & Hp & Hc). rewrite Hp. cbn [mbind option_bind].
    assert (exists q, g_data gp = Some q /\ q <> g) as (q & Hq & Hqg).
    { destruct l as [|w l]; cbn [app task_chain] in Hc; destruct Hc as [-> _]; eexists; split; try done;
        intros ->; apply Hn; set_solver. }
    rewrite Hq in Hc |- *. rewrite bool_decide_eq_false_2 by congruence.
    cbn [mbind option_bind]. apply IH with (l := l); [done| |cbn [length] in Hf; lia].
    cbn [app] in Hn. set_solver.
Qed.

(** Unlinking a task leaves the chain of the others. *)
Lemma unlink_task_spec g s l1 l2 :
  task_chain (groups s) (tasks s) (l1 ++ g :: l2) -> NoDup (l1 ++ g :: l2) ->
  exists gm p, unlink_task g s = Some (set_groups gm (set_tasks p s)) /\
    task_chain gm p (l1 ++ l2) /\ same_but_data (groups s) gm.
Proof.
  intros Hc Hnd. unfold unlink_task, modify_group.
  assert (Hgl : g ∉ l1 ++ l2).
  { rewrite <-Permutation_middle in Hnd. by apply NoDup_cons in Hnd as [? _]. }
  destruct (decide (l1 = [])) as [->|Hne].
  - cbn [app task_chain] in Hc, Hgl. destruct Hc as (Ht & gp & Hg & Hc). rewrite Ht.
    cbn [mbind option_bind]. rewrite Hg. cbn [mbind option_bind]. rewrite Z.eqb_refl.
    cbn [groups set_tasks]. rewrite Hg. cbn [mbind option_bind].
    eexists _, _. split; [done|]. split.
    + apply (task_chain_frame (groups s)); [done|]. intros v Hv. apply lookup_insert_ne.
      by intros ->.
    + apply same_but_data_insert; [apply same_but_data_refl|done].
  - destruct (exists_last_elem l1 Hne) as (k & pre & ->).
    assert (Hnp : NoDup (k ++ pre :: g :: l2)) by (by rewrite <-app_assoc in Hnd).
    rewrite <-app_assoc in Hc. cbn [app] in Hc.
    destruct (task_chain_app _ _ _ _ Hc) as (q & Hq & Hre).
    cbn [task_chain] in Hq. destruct Hq as (-> & pp & Hpp & Hd & gp & Hgp & Hl2).
    rewrite <-app_assoc in Hgl. cbn [app] in Hgl.
    assert (Hgp' : pre <> g) by set_solver.
    assert ((pre ∉ k) /\ (pre ∉ l2) /\ (g ∉ k) /\ (g ∉ l2)) as (Hk1 & Hk2 & Hk3 & Hk4).
    { apply NoDup_app in Hnp as (_ & Hd1 & Hd2). apply NoDup_cons in Hd2 as [Hd2 _].
      set_solver. }
    assert (exists p0, tasks s = Some p0 /\ p0 <> g) as (p0 & Hp0 & Hp0g).
    { destruct k as [|v k]; cbn [app task_chain] in Hc; destruct Hc as [-> _]; eexists;
        (split; [done|]); set_solver. }
    assert (Hlen : (length k < S (size (groups s)))%nat).
    { apply Nat.lt_succ_r, nodes_bound; [by apply NoDup_app in Hnp as [? _]|].
      intros v Hv. eapply task_chain_in; [exact Hc|]. rewrite elem_of_app. by left. }
    rewrite Hp0 in Hc |- *. cbn [mbind option_bind]. rewrite Hgp. cbn [mbind option_bind].
    rewrite (proj2 (Z.eqb_neq _ _)) by done.
    rewrite (find_pre_spec _ s p0 k pre g l2); [|done|set_solver|done].
    cbn [mbind option_bind]. rewrite Hpp. cbn [mbind option_bind groups set_groups].
    rewrite lookup_insert_ne, Hgp by done. cbn [mbind option_bind].
    eexists _, (Some p0). split; [|split].
    + unfold set_groups, set_tasks. cbn [users groups consumers links free_users free_user_n tasks].
      rewrite Hp0. reflexivity.
    + rewrite <-app_assoc. cbn [app]. rewrite <-Hp0. apply Hre.
      * cbn. split; [done|]. eexists. rewrite lookup_insert_ne by done.
        rewrite lookup_insert_eq. split; [done|]. cbn.
        apply (task_chain_frame (groups s)); [done|]. intros v Hv.
        rewrite !lookup_insert_ne; [done|set_solver..].
      * intros v Hv. rewrite !lookup_insert_ne; [done|set_solver..].
    + apply same_but_data_insert; [|by rewrite lookup_insert_ne].
      apply same_but_data_insert; [apply same_but_data_refl|done].
Qed.

Lemma return_queue_spec h s l free count :
  is_queue (links s) h (QUser <$> l) ->
  user_chain (users s) (free_users s) free -> NoDup (l ++ free) ->
  (forall u, u ∈ l -> is_Some (users s !! u)) ->
  exists us p m, return_queue h s count =
      Some (set_links m (set_users us (set_free_users p s)), count + Z.of_nat (length l)) /\
    user_chain us p (rev l ++ free) /\ is_queue m h [] /\
    same_except (h :: (QUser <$> l)) (links s) m /\
    (forall u, u ∉ l -> us !! u = users s !! u) /\
    (forall u, is_Some (us !! u) <-> is_Some (users s !! u)).
Proof.
  intros Hq Hc Hnd Hl. unfold return_queue, ntg_queue_head.
  rewrite (is_queue_first _ _ _ Hq). cbn [mbind option_bind].
  apply return_users_spec; try done. apply Nat.lt_succ_r, nodes_bound; [|done].
  by apply NoDup_app in Hnd as [? _].
Qed.

(** Both queues of a group are given back. *)
Lemma return_group_spec s g fl ll free :
  group_queues (links s) g fl ll -> NoDup (fl ++ ll ++ free) ->
  user_chain (users s) (free_users s) free ->
  (forall u, u ∈ fl ++ ll -> is_Some (users s !! u)) ->
  exists us p m s1 c, return_queue (QFree g) s 0 = Some (s1, c) /\
    return_queue (QLive g) s1 c =
      Some (set_links m (set_users us (set_free_users p s)), Z.of_nat (length (fl ++ ll))) /\
    user_chain us p (rev ll ++ rev fl ++ free) /\
    same_except (group_nodes g (fl ++ ll)) (links s) m /\
    (forall u, is_Some (us !! u) <-> is_Some (users s !! u)).
Proof.
  intros [QF QL] N C Hu. pose proof N as N0. apply NoDup_app in N as (N1 & N2 & N3).
  destruct (return_queue_spec (QFree g) s fl free 0) as (us1 & p1 & m1 & E1 & C1 & Q1 & S1 & F1 & U1).
  { done. } { done. }
  { rewrite app_assoc, (Permutation_app_comm fl ll), <-app_assoc in N0.
    by apply NoDup_app in N0 as (_ & _ & ?). }
  { intros u Hf. apply Hu, elem_of_app. by left. }
  destruct (return_queue_spec (QLive g) (set_links m1 (set_users us1 (set_free_users p1 s))) ll
    (rev fl ++ free) (0 + Z.of_nat (length fl))) as (us2 & p2 & m2 & E2 & C2 & Q2 & S2 & F2 & U2).
  { eapply (queues_disjoint _ g fl); [exact QL|exact S1| |].
    - intros y [->|(u & -> & Hv)%list_elem_of_fmap]%elem_of_cons; [by left|right; by exists u].
    - intros u Hf Hl. apply (N2 u Hf), elem_of_app. by left. }
  { exact C1. }
  { rewrite <-(Permutation_rev fl). rewrite app_assoc, (Permutation_app_comm ll fl), <-app_assoc.
    done. }
  { intros u Hl. cbn. rewrite U1. apply Hu, elem_of_app. by right. }
  eexists us2, p2, m2, _, _. split; [exact E1|]. rewrite E2.
  cbn [links set_links set_users set_free_users users] in *. split_and!.
  - f_equal. f_equal. rewrite length_app. lia.
  - done.
  - eapply same_except_trans; (eapply same_except_weaken; [eassumption|]); nodes.
  - intros u. by rewrite U2, U1.
Qed.

Lemma return_bound s l : user_chain (users s) (free_users s) l -> NoDup l -> (length l <= size (users s))%nat.
Proof. intros C N. apply nodes_bound; [done|]. intros u. by apply user_chain_in with (free_users s). Qed.

(** The users of group [g] go to the pool, and the group goes. *)
Lemma pool_inv_give s s' free free' gs g fl ll :
  pool_inv s free gs -> gs !! g = Some (fl, ll) -> free' ≡ₚ fl ++ ll ++ free ->
  user_chain (users s') (free_users s') free' ->
  (forall y, y ∉ group_nodes g (fl ++ ll) -> links s' !! y = links s !! y) ->
  (forall u, is_Some (links s' !! QUser u) <-> is_Some (links s !! QUser u)) ->
  (forall g' gp, g' <> g -> groups s !! g' = Some gp ->
     exists d, groups s' !! g' = Some (set_g_data d gp)) ->
  (forall u, is_Some (users s' !! u) <-> is_Some (users s !! u)) ->
  free_user_n s' = Z.of_nat (length free') ->
  pool_inv s' free' (delete g gs).
Proof.
  intros I Hg Hp Hc Hl Hlu Hgo Hd Hn. pose proof I as [C N K L G A O].
  pose proof (go_nodup _ _ _ _ (G g fl ll Hg)) as Dg.
  assert (Hin : forall u, u ∈ fl ++ ll <-> in_group gs g u).
  { intros u. unfold in_group. rewrite Hg. naive_solver. }
  rewrite app_assoc in Hp. split; try done.
  - rewrite Hp. apply NoDup_app. split_and!; [done| |done].
    intros u Hu. by apply (O g u), Hin.
  - by rewrite (dom_size _ _ Hd).
  - intros g' fl0 ll0. destruct (decide (g' = g)) as [->|Hgg]; [by rewrite lookup_delete_eq|].
    rewrite lookup_delete_ne by done. intros Hg'. destruct (G g' fl0 ll0 Hg') as [Q D (gp & H1 & H2 & H3)].
    split; [|done|].
    + eapply group_queues_frame; [exact Q|]. intros y Hy. apply Hl. eapply other_nodes; [done..|].
      intros u Hu1 Hu2%Hin. apply Hgg. symmetry. eapply O; [|done]. by exists fl0, ll0.
    + destruct (Hgo g' gp Hgg H1) as [d Hd']. exists (set_g_data d gp). done.
  - intros u. rewrite Hd, Hlu. intros Hu. destruct (A u Hu) as [? Hw]. split; [done|].
    rewrite Hp, elem_of_app. destruct Hw as [?|[g' Hg']]; [by left; right|].
    destruct (decide (g' = g)) as [->|Hgg]; [left; left; by apply Hin|].
    right. exists g'. by rewrite in_group_delete.
  - intros g' u. rewrite in_group_delete, Hd, Hp, elem_of_app, Hin. intros [Hgg Hi].
    destruct (O g' u Hi) as (? & ? & Hu). split_and!; [done| |].
    + intros [Hx|?]; [|done]. apply Hu in Hx. done.
    + intros g2. rewrite in_group_delete. intros [_ ?]. by apply Hu.
Qed.

(** Deleting a group that has been set up gives all its users back: the pool
    then holds each of them exactly once, in front of the users it had, and
    its counter agrees; the group is freed, its consumer no longer points to
    it, and the chain of tasks is the one without it. *)
Lemma group_free_spec s free gs g fl ll gp csm l1 l2 :
  pool_inv s free gs -> gs !! g = Some (fl, ll) -> groups s !! g = Some gp ->
  consumers s !! g_consumer gp = Some csm ->
  0 <= g_gp_id gp < Z.of_nat (length (csm_gps csm)) ->
  task_chain (groups s) (tasks s) (l1 ++ (if g_active gp then [g] else []) ++ l2) ->
  NoDup (l1 ++ g :: l2) ->
  exists s', ntg_user_group_free g s = Some (NTG_OK, s') /\
    pool_inv s' (rev ll ++ rev fl ++ free) (delete g gs) /\ groups s' !! g = None /\
    task_chain (groups s') (tasks s') (l1 ++ l2) /\
    consumers s' = <[g_consumer gp := Consumer (csm_data csm) (csm_id csm)
                      (<[Z.to_nat (g_gp_id gp) := None]> (csm_gps csm))]> (consumers s) /\
    (forall g' gp', g' <> g -> groups s !! g' = Some gp' ->
       exists d, groups s' !! g' = Some (set_g_data d gp')).
Proof.
  intros I Hg Hgp Hcsm Hid Hts Hnd. unfold ntg_user_group_free. rewrite Hgp.
  cbn [mbind option_bind]. unfold set_gps. rewrite Hcsm. cbn [mbind option_bind].
  rewrite bool_decide_eq_true_2 by done. cbn [mbind option_bind].
  set (s1 := set_consumers _ s).
  assert (exists gm p, (if g_active gp then unlink_task g s1 else Some s1) =
      Some (set_groups gm (set_tasks p s1)) /\ task_chain gm p (l1 ++ l2) /\
      same_but_data (groups s) gm) as (gm & p & -> & Hts' & Hgm).
  { destruct (g_active gp); cbn [app] in Hts.
    - by destruct (unlink_task_spec g s1 l1 l2) as (gm & p & ? & ? & ?); [done..|]; exists gm, p.
    - exists (groups s), (tasks s). split_and!; [by destruct s|done|apply same_but_data_refl]. }
  cbn [mbind option_bind].
  destruct (pi_groups _ _ _ I g fl ll Hg) as [Q D _].
  assert (Hown : forall u, u ∈ fl ++ ll -> is_Some (users s !! u) /\ (u ∉ free)).
  { intros u Hu. destruct (pi_own _ _ _ I g u) as (? & ? & _); [by exists fl, ll|done]. }
  assert (N : NoDup (fl ++ ll ++ free)).
  { rewrite app_assoc. apply NoDup_app. split_and!; [done|intros u; apply Hown|apply (pi_nodup _ _ _ I)]. }
  destruct (return_group_spec (set_groups gm (set_tasks p s1)) g fl ll free)
    as (us & p2 & m & s2 & c & E1 & E2 & C & S & U); [exact Q|done|apply (pi_chain _ _ _ I)|intros u; apply Hown|].
  rewrite E1. cbn [mbind option_bind]. rewrite E2. cbn [mbind option_bind].
  cbn [users links groups set_groups set_tasks set_consumers s1 set_links set_users set_free_users] in *.
  set (s' := set_groups _ _). exists s'. split; [done|].
  assert (Hp : rev ll ++ rev fl ++ free ≡ₚ fl ++ ll ++ free).
  { rewrite <-!(Permutation_rev _). apply Permutation_app_swap_app. }
  assert (Hb := return_bound s' (rev ll ++ rev fl ++ free) C ltac:(by rewrite Hp)).
  rewrite (dom_size (users s') (users s) U) in Hb. pose proof (pi_limit _ _ _ I).
  split; [|split; [apply lookup_delete_eq|split; [|split; [done|]]]].
  3: { intros g' gp' Hn Hg'. subst s'. cbn. rewrite lookup_delete_ne by done. by apply Hgm. }
  - eapply pool_inv_give; [exact I|exact Hg|done|exact C| | | |exact U|].
    + intros y. rewrite group_nodes_in. intros Hy. subst s'. cbn.
      rewrite !lookup_delete_ne by (intros <-; tauto). destruct S as [_ S].
      apply S. by rewrite group_nodes_in.
    + intros u. subst s'. cbn. rewrite !lookup_delete_ne by done.
      destruct S as [Hd _]. by rewrite <-!elem_of_dom, Hd.
    + intros g' gp' Hn Hg'. subst s'. cbn. rewrite lookup_delete_ne by done. by apply Hgm.
    + rewrite Hp in Hb |- *. subst s'. cbn. rewrite (pi_count _ _ _ I).
      rewrite (app_assoc fl), (length_app (fl ++ ll)) in *. rewrite u64_small; width; lia.
  - subst s'. cbn. apply (task_chain_frame gm); [done|]. intros v Hv. apply lookup_delete_ne.
    intros ->. rewrite <-Permutation_middle in Hnd. by apply NoDup_cons in Hnd as [? _].
Qed.

(** ** Activation *)

(** A user that has been enabled before still names a group that exists, and has
    its event. *)
Definition ready (s : ustate) (u : Z) : Prop :=
  exists us, users s !! u = Some us /\
    (u_enable us = true -> is_Some (u_event us) /\
       exists g, u_group us = Some g /\ is_Some (groups s !! g)).

(** What activation changes in the record of a group. *)
Definition same_group (gp gp' : ntg_user_group) : Prop :=
  exists n a, gp' = set_g_next_atv a (set_g_live_n n gp).

(** All that activation in group [g] leaves alone. *)
Record group_frame (g : Z) (s s' : ustate) : Prop := {
  gf_other : forall g', g' <> g -> groups s' !! g' = groups s !! g';
  gf_group : forall gp, groups s !! g = Some gp ->
    exists gp', groups s' !! g = Some gp' /\ same_group gp gp';
  gf_consumers : consumers s' = consumers s;
  gf_free : free_users s' = free_users s /\ free_user_n s' = free_user_n s;
  gf_tasks : tasks s' = tasks s }.

Lemma same_group_refl gp : same_group gp gp.
Proof. exists (g_live_n gp), (g_next_atv gp). by destruct gp. Qed.

Lemma same_group_trans gp1 gp2 gp3 : same_group gp1 gp2 -> same_group gp2 gp3 -> same_group gp1 gp3.
Proof. intros (n1 & a1 & ->) (n2 & a2 & ->). by exists n2, a2. Qed.

Lemma group_frame_refl g s : group_frame g s s.
Proof. split; try done. intros gp Hg. exists gp. split; [done|apply same_group_refl]. Qed.

Lemma group_frame_trans g s1 s2 s3 :
  group_frame g s1 s2 -> group_frame g s2 s3 -> group_frame g s1 s3.
Proof.
  intros [O1 G1 C1 [F1 N1] T1] [O2 G2 C2 [F2 N2] T2]. split; try congruence; [| |split; congruence].
  - intros g' Hg'. by rewrite O2, O1.
  - intros gp Hg. destruct (G1 gp Hg) as (gp1 & H1 & E1). destruct (G2 gp1 H1) as (gp2 & H2 & E2).
    exists gp2. split; [done|]. by eapply same_group_trans.
Qed.

(** The group of a user that is ready goes on existing. *)
Lemma ready_frame g s s' u :
  ready s u -> users s' !! u = users s !! u -> group_frame g s s' -> ready s' u.
Proof.
  intros (us & Hu & He) Hu' F. exists us. rewrite Hu'. split; [done|]. intros Hen.
  destruct (He Hen) as (Hev & g' & Hg' & [gp Hgp]). split; [done|]. exists g'. split; [done|].
  destruct (decide (g' = g)) as [->|Hn].
  - destruct (gf_group _ _ _ F gp Hgp) as (gp' & ? & _). by exists gp'.
  - rewrite (gf_other _ _ _ F) by done. by exists gp.
Qed.

(** A user stays ready as long as it is left alone and no group goes. *)
Lemma ready_mono s s' u :
  ready s u -> users s' !! u = users s !! u ->
  (forall g, is_Some (groups s !! g) -> is_Some (groups s' !! g)) -> ready s' u.
Proof.
  intros (us & Hu & He) Hu' Hg. exists us. rewrite Hu'. split; [done|]. intros Hen.
  destruct (He Hen) as (? & g & ? & ?). eauto.
Qed.

(** What [ntg_group_enable_user] does to the user. *)
Record enabled (dr : draw) (us us' : ntg_user) (rc : Z) : Prop := {
  en_result : rc = NTG_OK \/ rc = NTG_ERROR;
  en_good : dr_event_new dr = true -> dr_event_add dr = true -> rc = NTG_OK;
  en_started : rc = NTG_OK -> u_event us' = Some true /\ u_enable us' = true /\
    u_sessions us' = u64 (dr_sessions dr) /\ u_clicks us' = u64 (dr_clicks dr) /\
    u_time us' = timeval (dr_time dr);
  en_live : u_live us' = u_live us }.

Lemma enable_user_spec dr g u flag s gp us :
  groups s !! g = Some gp -> users s !! u = Some us -> ready s u ->
  exists rc us' a, ntg_group_enable_user dr g u flag s =
      Some (rc, set_users (<[u := us']> (users s))
                  (set_groups (<[g := set_g_next_atv a gp]> (groups s)) s)) /\
    enabled dr us us' rc /\
    (u_enable us' = true -> is_Some (u_event us') /\ exists g', u_group us' = Some g' /\ is_Some (groups s !! g')).
Proof.
  intros Hg Hu (us0 & Hu0 & Hr). rewrite Hu in Hu0. injection Hu0 as <-.
  unfold ntg_group_enable_user. rewrite Hu. cbn [mbind option_bind].
  assert (Hid : set_groups (<[g := set_g_next_atv (g_next_atv gp) gp]> (groups s)) s = s).
  { rewrite insert_id; [by destruct s|]. rewrite Hg. by destruct gp. }
  destruct (u_enable us) eqn:He.
  - destruct (Hr eq_refl) as ([ev Hev] & g' & Hg' & [gp' Hgp']).
    cbn [mbind option_bind negb]. rewrite Hu. cbn [mbind option_bind]. rewrite Hg'.
    cbn [mbind option_bind]. rewrite Hgp'. cbn [mbind option_bind]. rewrite Hev. cbn [mbind option_bind].
    destruct (dr_event_add dr) eqn:Ea; eexists _, _, (g_next_atv gp); rewrite Hid;
      (split; [done|split; [split; cbn; try done; auto|cbn; eauto]]); try (by intros ? ?; congruence).
  - unfold enable_first, modify_user, modify_group. rewrite Hg. cbn [mbind option_bind].
    rewrite Hu. cbn [mbind option_bind]. destruct (dr_event_new dr) eqn:En.
    + cbn [groups set_users]. rewrite Hg. cbn [mbind option_bind negb users set_groups].
      cbn. rewrite !lookup_insert_eq. cbn. rewrite orb_true_r.
      destruct (dr_event_add dr) eqn:Ea; eexists _, _, _; unfold set_users, set_groups; cbn;
        rewrite lookup_insert_eq, insert_insert_eq; cbn;
        (split; [reflexivity|split; [split; cbn; try done; auto|cbn; eauto]]).
      by intros _ ?; congruence.
    + cbn [mbind option_bind negb]. eexists _, _, (g_next_atv gp). split; [rewrite Hid; reflexivity|].
      split; [split; cbn; try done; [by right|by intros; congruence]|]. cbn. by rewrite He.
Qed.

Lemma group_bound s free gs g fl ll :
  pool_inv s free gs -> gs !! g = Some (fl, ll) -> Z.of_nat (length (fl ++ ll)) < 9223372036854775808.
Proof.
  intros I Hg. pose proof (pi_limit _ _ _ I).
  assert ((length (fl ++ ll) <= size (users s))%nat); [|lia]. apply nodes_bound.
  - apply (go_nodup _ _ _ _ (pi_groups _ _ _ I g fl ll Hg)).
  - intros u Hu. apply (pi_own _ _ _ I g u). by exists fl, ll.
Qed.

(** The result of one turn of the loop. *)
Record activated (dr : draw) (g u : Z) (fl ll : list Z) (gs : gmap Z (list Z * list Z))
    (free : list Z) (s s' : ustate) (ok : bool) : Prop := {
  ac_inv : pool_inv s' free
    (<[g := if ok then (fl, u :: ll) else (fl ++ [u], ll)]> gs);
  ac_frame : group_frame g s s';
  ac_good : dr_event_new dr = true -> dr_event_add dr = true -> ok = true;
  ac_users : forall v, v <> u -> users s' !! v = users s !! v;
  ac_ready : ready s' u;
  ac_live : ok = true -> exists us, users s' !! u = Some us /\ u_live us = true /\
    u_event us = Some true }.

Lemma activate_step n dr drs g u flag s fl ll free gs :
  pool_inv s free gs -> gs !! g = Some (u :: fl, ll) -> ready s u ->
  exists s' ok, activate_loop (S n) (dr :: drs) g flag s = activate_loop n drs g flag s' /\
    activated dr g u fl ll gs free s s' ok.
Proof.
  intros I Hg Hr. destruct (pi_groups _ _ _ I g _ _ Hg) as [[QF QL] D (gp & Hgp & Hun & Hln)].
  cbn [activate_loop]. unfold ntg_queue_head. rewrite (is_queue_first _ _ _ QF).
  cbn [hd fmap list_fmap mbind option_bind]. unfold on_links.
  destruct (ntg_queue_remove_spec (links s) (QFree g) [] (QUser u) _ QF)
    as (m1 & E1 & Q1 & S1 & K1).
  rewrite E1. cbn [mbind option_bind app] in *.
  apply NoDup_cons in D as [Hu D]. rewrite elem_of_app in Hu. apply NoDup_app in D as (D1 & D2 & D3).
  assert (L1 : is_queue m1 (QLive g) (QUser <$> ll)).
  { eapply (queues_disjoint _ g fl); [exact QL|exact S1| |done]. intros y [->|Hy]%elem_of_cons; [by left|].
    right. apply list_elem_of_fmap in Hy as (v & ? & ?). by exists v. }
  pose proof Hr as (us & Hus & _).
  destruct (enable_user_spec dr g u flag (set_links m1 s) gp us) as (rc & us' & a & E & En & Hre);
    [done|done|exact Hr|].
  rewrite E. cbn [mbind option_bind].
  assert (Hm1 : is_Some (m1 !! QUser u)).
  { rewrite K1. eapply is_queue_lookup; [exact QF|]. right. by left. }
  assert (Hdom : forall v, is_Some (<[u:=us']> (users s) !! v) <-> is_Some (users s !! v)).
  { intros v. destruct (decide (u = v)) as [<-|?]; [|by rewrite lookup_insert_ne].
    rewrite lookup_insert_eq, Hus. split; by eexists. }
  destruct (Z.eqb_spec rc NTG_OK) as [->|Hrc]; cbn [negb links set_users set_groups set_links].
  - destruct (ntg_queue_insert_head_spec m1 (QLive g) _ (QUser u) L1) as (m2 & E2 & Q2 & S2);
      [rewrite elem_of_cons, quser_in; naive_solver|done|].
    rewrite E2. cbn [mbind option_bind]. unfold modify_user, modify_group. cbn [users groups set_links set_users set_groups].
    rewrite lookup_insert_eq. cbn [mbind option_bind users groups set_links set_users set_groups].
    rewrite lookup_insert_eq. cbn [mbind option_bind]. rewrite !insert_insert_eq.
    cbn [g_live_n set_g_next_atv]. set (s' := set_groups _ _).
    assert (Hb := group_bound _ _ _ _ _ _ I Hg).
    assert (F : group_frame g s s').
    { split; cbn; try done; [intros; by rewrite lookup_insert_ne|]. rewrite Hgp. intros ? [= <-].
      eexists. rewrite lookup_insert_eq. split; [done|]. by eexists _, _. }
    exists s', true. split; [done|]. split; [|exact F|done| | |].
    + eapply pool_inv_permute; [exact I|exact Hg| | | | | | | |done|done].
      * rewrite <-Permutation_middle. done.
      * subst s'. cbn. eapply same_except_trans; (eapply same_except_weaken; [eassumption|]); nodes.
      * split; [|exact Q2]. cbn. eapply is_queue_same_except; [exact S2|exact Q1|].
        intros y [->|(v & -> & Hv)%list_elem_of_fmap]%elem_of_cons;
          rewrite !elem_of_cons, ?quser_in, ?list_elem_of_fmap; [naive_solver|].
        intros [[= ->]|[?|?]]; [tauto|done|]. by apply (D2 v).
      * apply (gf_other _ _ _ F).
      * subst s'. cbn. rewrite lookup_insert_eq. eexists. split; [done|]. cbn [g_users_n g_live_n set_g_live_n set_g_next_atv].
        split; [done|]. rewrite Hln. cbn [app length] in *. rewrite length_app in Hb. rewrite u64_small; width; lia.
      * intros v Hv. subst s'. cbn. apply lookup_insert_ne. intros ->. apply Hv. by left.
      * intros v. subst s'. cbn. destruct (decide (u = v)) as [<-|?]; [|by rewrite lookup_insert_ne].
        rewrite lookup_insert_eq, Hus. split; by eexists.
    + intros v Hv. subst s'. cbn. by rewrite lookup_insert_ne.
    + destruct (en_started _ _ _ _ En eq_refl) as (Hev & _). cbn in Hre.
      eexists. subst s'. cbn. rewrite lookup_insert_eq. split; [done|]. cbn. intros He.
      destruct (Hre He) as (? & g' & ? & [gp' Hgp']). split; [done|]. exists g'. split; [done|].
      destruct (decide (g' = g)) as [->|?]; [rewrite lookup_insert_eq|rewrite lookup_insert_ne by done]; by eexists.
    + intros _. eexists. subst s'. cbn. rewrite lookup_insert_eq. split_and!; [done..|].
      by destruct (en_started _ _ _ _ En eq_refl) as (Hev & _).
  - destruct (ntg_queue_insert_tail_spec m1 (QFree g) _ (QUser u) Q1) as (m2 & E2 & Q2 & S2);
      [rewrite elem_of_cons, quser_in; naive_solver|done|].
    rewrite E2. cbn [mbind option_bind]. set (s' := set_links m2 _).
    assert (F : group_frame g s s').
    { split; cbn; try done; [intros; by rewrite lookup_insert_ne|]. rewrite Hgp. intros ? [= <-].
      eexists. rewrite lookup_insert_eq. split; [done|]. exists (g_live_n gp), a. by destruct gp. }
    exists s', false. split; [done|]. split; [|exact F| | | |done].
    + eapply pool_inv_permute; [exact I|exact Hg| | | | | | |exact Hdom|done|done].
      * rewrite <-app_assoc. cbn [app]. symmetry. apply Permutation_middle.
      * subst s'. cbn. eapply same_except_trans; (eapply same_except_weaken; [eassumption|]); nodes.
      * split; [by rewrite fmap_app|]. eapply (queues_disjoint _ g (u :: fl)); [exact L1|exact S2| |].
        -- intros y [->|[->|(v & -> & Hv)%list_elem_of_fmap]%elem_of_cons]%elem_of_cons; [|by left|];
             right; eexists; (split; [done|]); [by left|by right].
        -- intros v [->|?]%elem_of_cons; [tauto|by apply D2].
      * apply (gf_other _ _ _ F).
      * subst s'. cbn. rewrite lookup_insert_eq. eexists. by split.
      * intros v Hv. subst s'. cbn. apply lookup_insert_ne. intros ->. apply Hv. by left.
    + intros H1 H2. by destruct (Hrc (en_good _ _ _ _ En H1 H2)).
    + intros v Hv. subst s'. cbn. by rewrite lookup_insert_ne.
    + exists us'. subst s'. cbn. rewrite lookup_insert_eq. split; [done|]. intros He.
      destruct (Hre He) as (? & g' & ? & [gp' Hgp']). split; [done|]. exists g'. split; [done|].
      destruct (decide (g' = g)) as [->|?]; [rewrite lookup_insert_eq|rewrite lookup_insert_ne by done]; by eexists.
Qed.

Definition good (dr : draw) : Prop := dr_event_new dr = true /\ dr_event_add dr = true.

(** A user whose timer runs. *)
Definition running (s : ustate) (u : Z) : Prop :=
  exists us, users s !! u = Some us /\ u_live us = true /\ u_event us = Some true.

Lemma activate_loop_spec n drs g flag s fl ll free gs :
  pool_inv s free gs -> gs !! g = Some (fl, ll) -> Forall (ready s) fl ->
  (n <= length fl)%nat -> (n <= length drs)%nat ->
  exists s' fl' new, activate_loop n drs g flag s = Some s' /\
    pool_inv s' free (<[g := (fl', new ++ ll)]> gs) /\ group_frame g s s' /\
    Forall (ready s') fl' /\ (forall v, v ∉ fl -> users s' !! v = users s !! v) /\
    fl' ++ new ≡ₚ fl /\ (length new <= n)%nat /\ Forall (running s') new /\
    (Forall good (take n drs) -> fl' = drop n fl /\ new = rev (take n fl)).
Proof.
  revert drs s fl ll gs. induction n as [|n IH]; intros drs s fl ll gs I Hg Hr Hn Hd.
  { exists s, fl, []. cbn [activate_loop app take drop rev]. rewrite insert_id by done.
    split_and!; try done. apply group_frame_refl. by rewrite app_nil_r. }
  destruct fl as [|u fl]; [cbn in Hn; lia|]. destruct drs as [|dr drs]; [cbn in Hd; lia|].
  cbn [length] in *. apply Forall_cons in Hr as [Hru Hr].
  destruct (activate_step n dr drs g u flag s fl ll free gs I Hg Hru) as (s1 & ok & E & [I1 F1 G1 U1 R1 L1]).
  rewrite E. assert (Hu : u ∉ fl).
  { pose proof (go_nodup _ _ _ _ (pi_groups _ _ _ I g _ _ Hg)) as D. apply NoDup_cons in D as [D _].
    set_solver. }
  assert (Hr1 : Forall (ready s1) fl).
  { rewrite Forall_forall in Hr |- *. intros v Hv. eapply ready_frame; [by apply Hr| |exact F1].
    apply U1. by intros ->. }
  destruct ok.
  - destruct (IH drs s1 fl (u :: ll) _ I1) as (s' & fl' & new & E' & I' & F' & R' & U' & P' & N' & L' & G');
      [by rewrite lookup_insert_eq|done|lia|lia|].
    exists s', fl', (new ++ [u]). rewrite insert_insert_eq in I'.
    split_and!; [done|by rewrite <-app_assoc|by eapply group_frame_trans|done| | | | |].
    + intros v Hv. rewrite U', U1; [done|set_solver..].
    + rewrite <-P'. rewrite app_assoc. symmetry. apply Permutation_cons_append.
    + rewrite length_app. cbn. lia.
    + apply Forall_app. split; [done|]. apply Forall_singleton. destruct (L1 eq_refl) as (us & ? & ?).
      exists us. by rewrite U'.
    + intros Hgd. cbn [take] in Hgd. apply Forall_cons in Hgd as [_ Hgd].
      destruct (G' Hgd) as [-> ->]. done.
  - destruct (IH drs s1 (fl ++ [u]) ll _ I1) as (s' & fl' & new & E' & I' & F' & R' & U' & P' & N' & L' & G');
      [by rewrite lookup_insert_eq|apply Forall_app; split; [done|by apply Forall_singleton]|rewrite length_app; cbn; lia|lia|].
    exists s', fl', new. rewrite insert_insert_eq in I'.
    split_and!; [done|done|by eapply group_frame_trans|done| | |lia|done|].
    + intros v Hv. rewrite U', U1; [done|set_solver..].
    + rewrite P'. symmetry. apply Permutation_cons_append.
    + intros Hgd. cbn [take] in Hgd. apply Forall_cons in Hgd as [[? ?] _]. exfalso. by apply Bool.diff_false_true, G1.
Qed.

(** The number of live users the group is brought to. *)
Definition target (gp : ntg_user_group) : Z :=
  if g_is_scene gp then g_st_users gp else g_users_n gp.

(** The group goes on having the same users to bring into service. *)
Definition same_plan (gp gp' : ntg_user_group) : Prop :=
  target gp' = target gp /\ g_users_n gp' = g_users_n gp /\ g_is_scene gp' = g_is_scene gp /\
  (is_Some (g_event gp) -> is_Some (g_event gp')).

Lemma same_plan_trans gp1 gp2 gp3 : same_plan gp1 gp2 -> same_plan gp2 gp3 -> same_plan gp1 gp3.
Proof. intros (A1 & A2 & A3 & A4) (B1 & B2 & B3 & B4). split_and!; try congruence; auto. Qed.

(** What activation in group [g], with the idle users [fl], leaves alone. *)
Record task_frame (g : Z) (fl : list Z) (s s' : ustate) : Prop := {
  tf_tasks : tasks s' = tasks s;
  tf_consumers : consumers s' = consumers s;
  tf_other : forall g', g' <> g -> groups s' !! g' = groups s !! g';
  tf_users : forall v, v ∉ fl -> users s' !! v = users s !! v;
  tf_group : forall gp, groups s !! g = Some gp -> exists gp', groups s' !! g = Some gp' /\
    g_data gp' = g_data gp /\ g_consumer gp' = g_consumer gp /\ g_gp_id gp' = g_gp_id gp /\
    g_active gp' = g_active gp /\ same_plan gp gp' }.

Lemma group_task_frame g fl s s' :
  group_frame g s s' -> (forall v, v ∉ fl -> users s' !! v = users s !! v) -> task_frame g fl s s'.
Proof.
  intros [O G C _ T] U. split; try done. intros gp Hgp.
  destruct (G gp Hgp) as (gp' & Hgp' & n & a & ->). eexists. split; [done|]. by split_and!.
Qed.

(** Activation starts as many of the idle users as the target and the limit
    allow, in the order of the queue of idle users, each with its timer
    running; no user is lost or held twice, and a user whose timer could not
    be started stays idle.  The result is success exactly when the group has
    reached its target. *)
Lemma activate_spec drs ev_ok g num s gp fl ll free gs :
  pool_inv s free gs -> gs !! g = Some (fl, ll) -> groups s !! g = Some gp ->
  Forall (ready s) fl -> 0 <= num < 9223372036854775808 ->
  Z.of_nat (length ll) <= target gp <= g_users_n gp ->
  (g_is_scene gp = true -> is_Some (g_event gp)) ->
  let n := Z.to_nat (Z.min (target gp - Z.of_nat (length ll)) num) in (n <= length drs)%nat ->
  exists rc s' fl' new, ntg_user_activate_group_users drs ev_ok g num s = Some (rc, s') /\
    pool_inv s' free (<[g := (fl', new ++ ll)]> gs) /\
    fl' ++ new ≡ₚ fl /\ (length new <= n)%nat /\ Forall (running s') new /\
    (Forall good (take n drs) -> fl' = drop n fl /\ new = rev (take n fl)) /\
    (rc = NTG_OK \/ rc = NTG_AGAIN) /\
    (rc = NTG_OK <-> Z.of_nat (length (new ++ ll)) = target gp) /\
    task_frame g fl s s' /\ Forall (ready s') fl'.
Proof.
  intros I Hg Hgp Hr Hnum Ht Hev n Hdr.
  destruct (pi_groups _ _ _ I g _ _ Hg) as [_ _ (gp0 & Hgp0 & Hun & Hln)].
  rewrite Hgp in Hgp0. injection Hgp0 as <-. pose proof (group_bound _ _ _ _ _ _ I Hg) as Hb.
  rewrite length_app in Hun, Hb.
  unfold ntg_user_activate_group_users. rewrite Hgp. cbn [mbind option_bind].
  assert (Hn : Z.to_nat (activate_n gp num) = n).
  { unfold activate_n. fold (target gp). rewrite Hln. subst n. rewrite !u64_small by (width; lia).
    destruct (Z.ltb_spec (target gp - Z.of_nat (length ll)) num); [rewrite s64_small by (width; lia)|]; f_equal; lia. }
  rewrite Hn.
  destruct (activate_loop_spec n drs g false s fl ll free gs) as
    (s1 & fl' & new & E & I1 & F1 & R1 & U1 & P1 & N1 & L1 & G1); [done|done|done|lia|done|].
  rewrite E. cbn [mbind option_bind].
  assert (T1 := group_task_frame _ _ _ _ F1 U1).
  destruct (gf_group _ _ _ F1 gp Hgp) as (gp1 & Hgp1 & (m & a & ->)).
  destruct (pi_groups _ _ _ I1 g fl' (new ++ ll)) as [_ _ (gp2 & Hgp2 & Hun2 & Hln2)];
    [by rewrite lookup_insert_eq|].
  rewrite Hgp1 in Hgp2. injection Hgp2 as <-. rewrite Hgp1. cbn [mbind option_bind].
  cbn [g_is_scene g_live_n g_st_users g_users_n g_event set_g_next_atv set_g_live_n] in *. subst m.
  assert (Hb2 := group_bound _ _ _ g fl' (new ++ ll) I1 ltac:(by rewrite lookup_insert_eq)).
  rewrite length_app in Hb2.
  assert (Hlim : Z.of_nat (length (new ++ ll)) <= target gp) by (rewrite length_app; subst n; lia).
  unfold target in *. destruct (g_is_scene gp) eqn:Es; cbn [andb].
  - rewrite !u64_small by (width; lia).
    destruct (Z.eqb_spec (Z.of_nat (length (new ++ ll))) (g_st_users gp)) as [Heq|Hne].
    + destruct (Hev eq_refl) as [ev Hev']. rewrite Hev'. cbn [mbind option_bind].
      unfold modify_group. rewrite Hgp1. cbn [mbind option_bind].
      eexists _, _, fl', new. split; [done|]. split_and!; try done; [|by left| |].
      3: { eapply Forall_impl; [exact R1|]. intros u Hu. eapply ready_mono; [exact Hu|done|].
           intros g' ?. cbn. apply lookup_insert_is_Some'. by right. }
      2: { destruct T1 as [T C O U G]. split; cbn; try done.
           - intros g' Hg'. rewrite lookup_insert_ne; auto.
           - intros gp2 Hgp2. destruct (G gp2 Hgp2) as (gp3 & Hgp3 & D & Cs & Id & A & P & Q & R & _).
             rewrite lookup_insert_eq. rewrite Hgp1 in Hgp3. injection Hgp3 as <-. eexists.
             done. }
      by apply (pool_inv_modify s1 _ _ g _ _ I1 Hgp1).
    + rewrite (proj2 (Z.eqb_neq _ (g_users_n gp))) by lia.
      eexists _, s1, fl', new. split; [done|]. split_and!; try done. by right.
  - rewrite !u64_small by (width; lia).
    destruct (Z.eqb_spec (Z.of_nat (length (new ++ ll))) (g_users_n gp)) as [Heq|Hne];
      eexists _, s1, fl', new; (split; [done|]); split_and!; try done; [by left|by right].
Qed.

(** ** The control of a scene *)

Lemma deactivate_loop_spec n g s fl ll l free gs :
  pool_inv s free gs -> gs !! g = Some (fl, ll ++ l) -> length l = n ->
  exists s', deactivate_loop n g s = Some s' /\
    pool_inv s' free (<[g := (fl ++ rev l, ll)]> gs) /\ group_frame g s s' /\
    (forall v, v ∉ l -> users s' !! v = users s !! v) /\
    Forall (fun u => exists us, users s' !! u = Some us /\ u_live us = false) l.
Proof.
  revert s fl l gs. induction n as [|n IH]; intros s fl l gs I Hg Hl.
  { apply nil_length_inv in Hl as ->. exists s. cbn [deactivate_loop rev].
    rewrite app_nil_r in Hg |- *. rewrite insert_id by done.
    split_and!; try done. apply group_frame_refl. }
  destruct (exists_last_elem l) as (k & u & ->); [by intros ->|].
  destruct (pi_groups _ _ _ I g _ _ Hg) as [[QF QL] D (gp & Hgp & Hun & Hln)].
  rewrite (app_assoc ll) in QL, D, Hln, Hg. cbn [deactivate_loop]. unfold ntg_queue_last.
  rewrite (is_queue_last _ _ _ QL), fmap_app. cbn [fmap list_fmap]. rewrite last_last.
  cbn [mbind option_bind]. unfold on_links.
  assert (QL' := QL). rewrite fmap_app in QL'.
  destruct (ntg_queue_remove_spec (links s) (QLive g) _ (QUser u) [] QL') as (m1 & E1 & Q1 & S1 & K1).
  rewrite E1. cbn [mbind option_bind]. rewrite app_nil_r in Q1, S1.
  destruct (pi_own _ _ _ I g u) as ([us Hus] & _ & _).
  { exists fl, ((ll ++ k) ++ [u]). split; [done|]. set_solver. }
  unfold modify_user, modify_group. cbn [users links set_links]. rewrite Hus.
  cbn [mbind option_bind users links groups set_links set_users].
  assert (Hnd : (u ∉ fl) /\ (u ∉ ll ++ k)).
  { rewrite (app_assoc fl) in D. apply nodup_snoc in D as [D _]. set_solver. }
  destruct Hnd as [Huf Hul].
  assert (Hsep : forall v, v ∈ fl -> v ∉ (ll ++ k) ++ [u]) by (by apply NoDup_app in D as (_ & ? & _)).
  assert (QF1 : is_queue m1 (QFree g) (QUser <$> fl)).
  { eapply is_queue_same_except; [exact S1|exact QF|].
    intros y [->|(v & -> & Hv)%list_elem_of_fmap]%elem_of_cons; rewrite elem_of_cons, ?quser_in, ?list_elem_of_fmap;
      [naive_solver|]. intros [?|?]; [done|]. apply (Hsep v); set_solver. }
  destruct (ntg_queue_insert_tail_spec m1 (QFree g) _ (QUser u) QF1) as (m2 & E2 & Q2 & S2).
  { rewrite elem_of_cons, quser_in. naive_solver. }
  { rewrite K1. eapply is_queue_lookup; [exact QL'|]. set_solver. }
  rewrite E2. cbn [mbind option_bind users groups set_links set_users]. rewrite Hgp. cbn [mbind option_bind].
  set (s1 := set_groups _ _).
  assert (F1 : group_frame g s s1).
  { split; cbn; try done; [intros; by rewrite lookup_insert_ne|]. rewrite Hgp. intros ? [= <-].
    eexists. rewrite lookup_insert_eq. split; [done|]. exists (u64 (g_live_n gp - 1)), (g_next_atv gp). by destruct gp. }
  assert (Hb := group_bound _ _ _ _ _ _ I Hg). rewrite !length_app in *. cbn [length] in *.
  assert (I1 : pool_inv s1 free (<[g := (fl ++ [u], ll ++ k)]> gs)).
  { eapply pool_inv_permute; [exact I|exact Hg| | | | | | | |done|done].
    - rewrite <-!app_assoc. apply Permutation_app_head. cbn [app]. rewrite app_assoc.
      apply Permutation_cons_append.
    - subst s1. cbn. eapply same_except_trans; (eapply same_except_weaken; [eassumption|]); nodes.
    - split; [rewrite fmap_app; exact Q2|]. subst s1. cbn. eapply (queues_disjoint _ g (fl ++ [u])); [exact Q1|exact S2| |].
      + intros y Hy. destruct (decide (y = QFree g)) as [|Hyf]; [by left|]. right.
        assert (y ∈ QUser <$> fl ++ [u]) as (v & -> & Hv)%list_elem_of_fmap by (rewrite fmap_app; set_solver).
        by exists v.
      + intros v Hv. intros ?. apply elem_of_app in Hv as [Hv|Hv]; [apply (Hsep v Hv); set_solver|].
        apply list_elem_of_singleton in Hv as ->. done.
    - apply (gf_other _ _ _ F1).
    - subst s1. cbn. rewrite lookup_insert_eq. eexists. split; [done|]. cbn. rewrite Hun, Hln.
      rewrite !length_app. cbn [length]. split; [lia|]. rewrite u64_small; width; lia.
    - intros v Hv. subst s1. cbn. apply lookup_insert_ne. intros ->. set_solver.
    - intros v. subst s1. cbn. destruct (decide (u = v)) as [<-|?]; [|by rewrite lookup_insert_ne].
      rewrite lookup_insert_eq, Hus. split; by eexists. }
  destruct (IH s1 (fl ++ [u]) k _ I1) as (s' & E & I' & F' & U' & V'); [by rewrite lookup_insert_eq|lia|].
  exists s'. rewrite insert_insert_eq, <-app_assoc in I'. rewrite rev_app_distr.
  split_and!; [exact E|exact I'|by eapply group_frame_trans| |].
  - intros v Hv. rewrite U' by set_solver. subst s1. cbn. apply lookup_insert_ne. set_solver.
  - apply Forall_app. split; [done|]. apply Forall_singleton. exists (set_u_live false us).
    rewrite U' by set_solver. subst s1. cbn. by rewrite lookup_insert_eq.
Qed.


(** ** Examples *)

Definition no_dist : distribution := Distribution 0 [].
(** A new group at address [g], zeroed by [ntg_calloc], then set up for [n] users. *)
Definition new_group (id csm n : Z) : ntg_user_group :=
  Group None id csm None n 0 0 0 0 0 [] (Behavior no_dist no_dist no_dist no_dist) [] false false.

Definition new_user (id : Z) (next : pool_data) : ntg_user :=
  User next id None None (0, 0) 0 0 false false.

(** Three users, two new groups of a consumer. *)
Definition example_users : gmap Z ntg_user :=
  {[ 0 := new_user 0 (PNext 1); 1 := new_user 1 (PNext 2); 2 := new_user 2 PNull ]}.

Definition null_link : qlink qnode := QLink QNull QNull.

Definition example_state (n : Z) : ustate :=
  UState example_users {[ 100 := new_group 0 200 n; 101 := new_group 1 200 n ]}
    {[ 200 := Consumer PManage 7 (<[0%nat := Some 100]> (<[1%nat := Some 101]> (replicate 10 None))) ]}
    {[ QUser 0 := null_link; QUser 1 := null_link; QUser 2 := null_link;
       QFree 100 := null_link; QLive 100 := null_link; QFree 101 := null_link; QLive 101 := null_link ]}
    (Some 0) 3 None.

Lemma example_inv n : pool_inv (example_state n) [0; 1; 2] ∅.
Proof.
  split; cbn [users links free_users free_user_n example_state].
  - cbn. split; [done|]. eexists _, _. split_and!; [reflexivity|reflexivity|done|].
    eexists _, _. split_and!; [reflexivity|reflexivity|done|].
    by eexists _, _; split_and!; [reflexivity|reflexivity|].
  - by apply (bool_decide_unpack _).
  - done.
  - vm_compute. done.
  - intros g fl ll H. by rewrite lookup_empty in H.
  - intros u Hu. assert (u = 0 \/ u = 1 \/ u = 2) as Hin.
    { destruct Hu as [us Hu]. unfold example_users in Hu.
      repeat (apply lookup_insert_Some in Hu as [[<- _]|[_ Hu]]; [tauto|]).
      apply lookup_singleton_Some in Hu as [<- _]. tauto. }
    destruct Hin as [->|[->| ->]]; (split; [by eexists|left; set_solver]).
  - intros g u (fl & ll & H & _). by rewrite lookup_empty in H.
Qed.

(** Two of the three users belong to group 100. *)
Definition example_grouped : ustate :=
  match ntg_user_group_init true 100 (example_state 2) with
  | Some (_, s) => s | None => example_state 2 end.

Lemma example_grouped_inv : pool_inv example_grouped [2] {[ 100 := ([1; 0], []) ]}.
Proof.
  pose proof (group_init_spec true 100 (example_state 2) (new_group 0 200 2) [0; 1; 2] ∅
    (example_inv 2) eq_refl eq_refl ltac:(by eexists) ltac:(by eexists)
    ltac:(split; reflexivity) eq_refl ltac:(discriminate)) as H.
  destruct H as (rc & s' & E & I & _). unfold example_grouped. rewrite E. exact I.
Qed.

(** Group 100 with a scene of half its users at every minute. *)
Definition example_scene : ustate :=
  match groups example_grouped !! 100 with
  | Some gp => set_groups (<[100 := set_g_F (replicate 1440 (f32_of_Z 50)) gp]>
                             (groups example_grouped)) example_grouped
  | None => example_grouped end.

Lemma example_scene_inv : pool_inv example_scene [2] {[ 100 := ([1; 0], []) ]}.
Proof.
  unfold example_scene. destruct (groups example_grouped !! 100) as [gp|] eqn:Hgp; [|apply example_grouped_inv].
  by apply (pool_inv_modify _ _ _ 100 gp); [apply example_grouped_inv|..].
Qed.

Definition good_draw : draw := Draw true (f32_of_Z 3) 1 1 true.

Definition idle (s : ustate) (u : Z) : bool :=
  match users s !! u with Some us => negb (u_enable us) | None => false end.

Lemma idle_ready s l : forallb (idle s) l = true -> Forall (ready s) l.
Proof.
  rewrite forallb_forall, Forall_forall. intros H u Hu. specialize (H u ltac:(by apply list_elem_of_In)).
  unfold idle, ready in *. destruct (users s !! u) as [us|]; [|done]. exists us. split; [done|].
  intros He. by rewrite He in H.
Qed.


(** ** What the code gets wrong *)

(** A group that is set up for more users than there are cannot be freed, as the
    caller then does: its queues have never been initialised. *)
Lemma failed_init_cannot_be_freed :
  ntg_user_group_init true 100 (example_state 4) = Some (NTG_ERROR, example_state 4) /\
  ntg_user_group_free 100 (example_state 4) = None.
Proof. split; vm_compute; reflexivity. Qed.

(** A group of no users runs through the end of the pool. *)
Lemma empty_group_overruns : ntg_user_group_init true 100 (example_state 0) = None.
Proof. vm_compute. reflexivity. Qed.

(** The users of a freed group go on pointing to it: another group that gets
    them cannot activate them. *)
Lemma stale_group_used :
  ('(_, s) ← ntg_user_activate_group_users [good_draw; good_draw] true 100 200 example_grouped;
   '(_, s) ← ntg_user_group_free 100 s;
   '(rc, s) ← ntg_user_group_init true 101 s;
   Some (rc, bool_decide (is_Some (ntg_user_activate_group_users [good_draw; good_draw] true 101 200 s)))) =
  Some (NTG_OK, false).
Proof. vm_compute. reflexivity. Qed.

(** With more live users than the scene wants, as many as the limit allows are
    still to be activated: the difference of the unsigned numbers is huge. *)
Lemma activation_underflow gp :
  g_is_scene gp = true -> g_st_users gp = 1 -> g_live_n gp = 2 -> activate_n gp 200 = 200.
Proof. intros H1 H2 H3. unfold activate_n. by rewrite H1, H2, H3. Qed.

(** A starting minute of 1440 or more, which the message has room for, is read
    behind the values of the spline. *)
Lemma scene_point_overrun gp F : g_F gp = F -> length F = 1440%nat -> g_point gp = 2000 ->
  scene_users gp = None.
Proof.
  intros HF Hl Hp. unfold scene_users. rewrite Hp, HF. cbn [Z.ltb Z.compare].
  by rewrite lookup_ge_None_2 by (rewrite Hl; lia).
Qed.

(** The curve of a day that begins with no users and ends with all of them
    wants 11 users of a group of 10, and less than none earlier on. *)
Lemma overshoot_wants_too_many :
  ('(_, F) ← scene_curve (replicate 12 (f32_of_Z 0) ++ replicate 12 (f32_of_Z 100));
   let gp := new_group 0 200 10 |> set_g_F F in
   n ← scene_users (set_g_point 780 gp); n' ← scene_users (set_g_point 660 gp); Some (n, n')) =
  Some (11, -1).
Proof. vm_compute. reflexivity. Qed.

(** Wanting more users than there are takes the sentinel of the empty queue for
    a user. *)
Lemma control_beyond_group :
  (gp ← groups example_grouped !! 100;
   Some (ntg_group_user_control_cb (replicate 3 good_draw) 100
     (set_groups (<[100 := set_g_F (replicate 1440 (f32_of_Z 150)) gp]> (groups example_grouped))
        example_grouped))) = Some None.
Proof. vm_compute. reflexivity. Qed.
