(* ===== verification/User.v ===== *)
(** * A simulated user (src/user/ntg_user.c)

    What a user does each time its timer fires: it sends a request through the
    balancer, and counts its clicks and sessions.  The balancer is known by its
    interface; the drawn numbers and the outcomes of libevent are arguments. *)

From Stdlib Require Import SpecFloat.
From S2P Require Import Prelude Queue Sprintf Spline HttpRequest Balance UserGroup UserPool.

(** ** The interface of the balancer *)

(** [ntg_request_message_t] (message/ntg_message.h). *)
Record ntg_request_message := RequestMessage {
  rqt_csm_id : Z;
  rqt_gp_id : Z;
  rqt_user_id : Z }.

(** [mg->blc->blance] on a request: the result, and the state of the balancer. *)
Class Balancer (B : Type) := blance : ntg_request_message -> B -> option (Z * B).

(** A balancer in a state of [serves (S n)] takes a request and can take [n] more. *)
Class BalancerLaw (B : Type) {Bl : Balancer B} (serves : nat -> B -> Prop) : Prop :=
  blance_serves : forall n rqt b, serves (S n) b ->
    exists rc b', blance rqt b = Some (rc, b') /\ serves n b'.

(** The two methods of ntg_user_balance.c. *)
Definition dynamic_balancer (start last : Z) : Balancer bstate := fun _ st =>
  '(rc, _, st) ← ntg_user_balance_dynamic start last MsgRequest st; Some (rc, st).
Definition polling_balancer (start last : Z) : Balancer pstate := fun _ st =>
  '(rc, _, st) ← ntg_user_balance_polling start last st; Some (rc, st).

(** ** The timer of a user *)

Section user.
Context {B : Type} `{Balancer B}.

(** The users and groups, the balancer, and the counter [ntg_requests]. *)
Record world := World { w_us : ustate; w_blc : B; ntg_requests : Z }.

(** [ntg_user_message_traffic_processes]: the result, and the message. *)
Definition ntg_user_message_traffic_processes (u : Z) (w : world)
  : option (Z * ntg_request_message * world) :=
  us ← users (w_us w) !! u; g ← u_group us; gp ← groups (w_us w) !! g;
  csm ← consumers (w_us w) !! g_consumer gp;
  let rqt := RequestMessage (csm_id csm) (g_gp_id gp) (s64 (u_user_id us)) in
  '(rc, b) ← blance rqt (w_blc w);
  Some (if negb (rc =? NTG_OK) then NTG_ERROR else NTG_OK, rqt, World (w_us w) b (ntg_requests w)).

(** What one firing draws: the interval between sessions, the time to think, the
    numbers of sessions and clicks; and whether [event_add] succeeds. *)
Record firing := Firing {
  fr_interval : spec_float;
  fr_time : spec_float;
  fr_sessions : Z;
  fr_clicks : Z;
  fr_event_add : bool }.

(** [event_add] on the event of a user: it is pending when it succeeds. *)
Definition add_event (fr : firing) (us : ntg_user) : option ntg_user :=
  ev ← u_event us; Some (set_u_event (Some (ev || fr_event_add fr)) us).

Definition set_user (u : Z) (us : ntg_user) (w : world) : world :=
  World (set_users (<[u := us]> (users (w_us w))) (w_us w)) (w_blc w) (ntg_requests w).

(** The user is not active: it starts again, or in a scene waits until the group
    calls it. *)
Definition timeout_idle (fr : firing) (u : Z) (us : ntg_user) (g : Z) (gp : ntg_user_group) (w : world)
  : option world :=
  if negb (g_is_scene gp) then
    us ← add_event fr (us |> set_u_live true |> set_u_sessions (u64 (fr_sessions fr))
                          |> set_u_clicks (u64 (fr_clicks fr)));
    Some (set_user u us w)
  else
    _ ← u_event us;
    let w := set_user u (set_u_event (Some false) us) w in
    s ← on_links (fun m => ntg_queue_remove m (QUser u)) (w_us w);
    s ← on_links (fun m => ntg_queue_insert_tail m (QFree g) (QUser u)) s;
    Some (World s (w_blc w) (ntg_requests w)).

(** The part after the message: the clicks, the sessions, and the time until the
    next firing. *)
Definition count_click (fr : firing) (us : ntg_user) : ntg_user * spec_float :=
  let us := set_u_clicks (u64 (u_clicks us - 1)) us in
  if u_clicks us <=? 0 then
    let us := set_u_sessions (u64 (u_sessions us - 1)) us in
    (if u_sessions us >? 0 then set_u_clicks (u64 (fr_clicks fr)) us else set_u_live false us,
     fr_interval fr)
  else (us, fr_time fr).

(** [ntg_user_timeout_cb]: the message sent, and the time the event is set to. *)
Definition ntg_user_timeout_cb (fr : firing) (u : Z) (w : world)
  : option (option ntg_request_message * option (Z * Z) * world) :=
  us ← users (w_us w) !! u; g ← u_group us; gp ← groups (w_us w) !! g;
  if negb (u_live us) then
    w ← timeout_idle fr u us g gp w;
    Some (None, if g_is_scene gp then None else Some (timeval (fr_interval fr)), w)
  else
    '(_, rqt, w) ← ntg_user_message_traffic_processes u w;
    let w := World (w_us w) (w_blc w) (s32 (ntg_requests w + 1)) in
    us ← users (w_us w) !! u;
    let '(us, n) := count_click fr us in
    us ← add_event fr us;
    Some (Some rqt, Some (timeval n), set_user u us w).

(** The firings of the timer of a user: the messages it sends. *)
Fixpoint user_runs (frs : list firing) (u : Z) (w : world)
  : option (list ntg_request_message * world) :=
  match frs with
  | [] => Some ([], w)
  | fr :: frs =>
      '(rqt, _, w) ← ntg_user_timeout_cb fr u w;
      '(rqts, w) ← user_runs frs u w;
      Some (match rqt with Some r => r :: rqts | None => rqts end, w)
  end.

(** ** The pool of users, used directly *)

(** [ntg_get_user]; [req_num] comes from the configuration, the field
    [request_n] it sets is used nowhere. *)
Definition ntg_get_user (s : ustate) : option (option Z * ustate) :=
  match free_users s with
  | None => Some (None, s)
  | Some u =>
      us ← users s !! u; next ← next_free (u_data us);
      let s := s |> set_free_users next |> set_free_user_n (u64 (free_user_n s - 1)) in
      Some (Some u, set_users (<[u := us |> set_u_data PNull |> set_u_live true]> (users s)) s)
  end.

(** The loop of [ntg_user_add_cb]; an event per turn, and whether it can be
    created and added.  A user that is not there is used all the same. *)
Fixpoint ntg_user_add_cb (evs : list (bool * bool)) (s : ustate) : option ustate :=
  match evs with
  | [] => Some s
  | (ev_new, ev_add) :: evs =>
      '(u, s) ← ntg_get_user s;
      u ← u;
      us ← users s !! u; g ← u_group us; _ ← groups s !! g;
      _ ← (if ev_new then Some () else None);
      s ← modify_user u (set_u_event (Some ev_add)) s;
      ntg_user_add_cb evs s
  end.

End user.

(** ** The requests of a traffic process *)

(** The loop of [ntg_user_process_init_in_worker] that links the requests. *)
Fixpoint request_pool_loop (i : nat) (next : option Z) (rqs : gmap Z ntg_http_request)
    (junk : Z -> ntg_http_request) : option Z * gmap Z ntg_http_request :=
  match i with
  | O => (next, rqs)
  | S i =>
      let r := Z.of_nat i in
      request_pool_loop i (Some r) (<[r := set_rq_data next (junk r)]> rqs) junk
  end.

(** [palloc]: the outcome of the allocation, with what the memory holds. *)
Definition ntg_user_process_init_in_worker (palloc : option (Z -> ntg_http_request))
    (req_num worker_users : Z) : option (Z * option ntg_cycle) :=
  let n := u64 (req_num * worker_users) in
  match palloc with
  | None => Some (NTG_ERROR, None)
  | Some junk =>
      if n =? 0 then None
      else
        let '(free, rqs) := request_pool_loop (Z.to_nat n) None ∅ junk in
        Some (NTG_OK, Some (Cycle free n n rqs))
  end.

(** ** The sessions of a user *)

(** The firings [frs] are those of a user that has [c] clicks left in the first
    of its [k] sessions: every later session draws at least one click, and the
    firings end with the last click of the last session. *)
Fixpoint session_script (k c : Z) (frs : list firing) : Prop :=
  match frs with
  | [] => False
  | fr :: frs =>
      if 1 <? c then session_script k (c - 1) frs
      else if 1 <? k then 1 <= fr_clicks fr < 18446744073709551616 /\ session_script (k - 1) (fr_clicks fr) frs
      else frs = []
  end.

Definition sum_list (l : list Z) : Z := foldr Z.add 0 l.

(** As many firings as there are clicks. *)
Lemma session_script_length k c frs :
  1 <= c -> 1 <= k -> session_script k c frs ->
  exists drawn, Z.of_nat (length drawn) = k - 1 /\ drawn `sublist_of` map fr_clicks frs /\
    Z.of_nat (length frs) = c + sum_list drawn.
Proof.
  revert k c. induction frs as [|fr frs IH]; intros k c Hc Hk; cbn [session_script map length]; [done|].
  destruct (Z.ltb_spec 1 c).
  - intros Hs. destruct (IH k (c - 1) ltac:(lia) Hk Hs) as (d & H1 & H2 & H3).
    exists d. split_and!; [done|by apply sublist_cons|lia].
  - destruct (Z.ltb_spec 1 k).
    + intros [Hf Hs]. destruct (IH (k - 1) (fr_clicks fr) ltac:(lia) ltac:(lia) Hs) as (d & H1 & H2 & H3).
      exists (fr_clicks fr :: d). cbn [length sum_list foldr]. fold (sum_list d).
      split_and!; [lia|by apply sublist_skip|lia].
    + intros ->. exists []. cbn. split_and!; [lia|apply sublist_nil_l|lia].
Qed.

Section sessions.
Context {B : Type} {Bl : Balancer B} (serves : nat -> B -> Prop) `{!BalancerLaw B serves}.

(** User [u] belongs to a group of a known consumer, and its timer is there. *)
Record known_user (s : ustate) (u : Z) (us : ntg_user) (rqt : ntg_request_message) : Prop := {
  ku_user : users s !! u = Some us;
  ku_event : is_Some (u_event us);
  ku_message : exists g gp csm, u_group us = Some g /\ groups s !! g = Some gp /\
    consumers s !! g_consumer gp = Some csm /\
    rqt = RequestMessage (csm_id csm) (g_gp_id gp) (s64 (u_user_id us)) }.

(** The user after the firing, but for its event. *)
Definition counted (fr : firing) (us us' : ntg_user) : Prop :=
  exists ev, us' = set_u_event (Some ev) (count_click fr us).1.

Lemma counted_known fr s u us us' rqt :
  known_user s u us rqt -> counted fr us us' ->
  known_user (set_users (<[u := us']> (users s)) s) u us' rqt.
Proof.
  intros [Hu _ (g & gp & csm & Hg & Hgp & Hc & ->)] [ev ->]. split; cbn [users set_users].
  - apply lookup_insert_eq.
  - by eexists.
  - exists g, gp, csm. cbn [groups consumers set_users]. split_and!; try done.
    + unfold count_click. by repeat case_match.
    + unfold count_click. by repeat case_match.
Qed.

(** A firing of an active user. *)
Lemma timeout_cb_live fr u w us rqt n :
  known_user (w_us w) u us rqt -> u_live us = true -> serves (S n) (w_blc w) ->
  exists us' b, ntg_user_timeout_cb fr u w =
      Some (Some rqt, Some (timeval (count_click fr us).2),
        World (set_users (<[u := us']> (users (w_us w))) (w_us w)) b (s32 (ntg_requests w + 1))) /\
    counted fr us us' /\ serves n b.
Proof.
  intros [Hu [ev Hev] (g & gp & csm & Hg & Hgp & Hc & ->)] Hl Hs. unfold ntg_user_timeout_cb.
  rewrite Hu. cbn [mbind option_bind]. rewrite Hg. cbn [mbind option_bind]. rewrite Hgp, Hl.
  cbn [mbind option_bind negb]. unfold ntg_user_message_traffic_processes. rewrite Hu.
  cbn [mbind option_bind]. rewrite Hg. cbn [mbind option_bind]. rewrite Hgp. cbn [mbind option_bind].
  rewrite Hc. cbn [mbind option_bind].
  destruct (blance_serves n (RequestMessage (csm_id csm) (g_gp_id gp) (s64 (u_user_id us))) (w_blc w) Hs)
    as (rc & b & E & Hb). rewrite E. cbn [mbind option_bind w_us w_blc ntg_requests]. rewrite Hu.
  cbn [mbind option_bind]. destruct (count_click fr us) as [us1 n1] eqn:Ec.
  assert (Hev1 : u_event us1 = Some ev).
  { revert Ec. unfold count_click. repeat case_match; intros [= <- _]; done. }
  unfold add_event. rewrite Hev1. cbn [mbind option_bind]. eexists _, b. split; [reflexivity|].
  split; [|done]. unfold counted. rewrite Ec. by eexists.
Qed.


End sessions.

(** ** A user that is not active *)

(** Moving a waiting user to the end of the queue of idle users. *)
Lemma requeue_spec s free gs g l1 u l2 ll us :
  pool_inv s free gs -> gs !! g = Some (l1 ++ u :: l2, ll) ->
  exists m1 m2, ntg_queue_remove (links s) (QUser u) = Some m1 /\
    ntg_queue_insert_tail m1 (QFree g) (QUser u) = Some m2 /\
    (is_Some (users s !! u) ->
     pool_inv (set_links m2 (set_users (<[u := us]> (users s)) s)) free
       (<[g := (l1 ++ l2 ++ [u], ll)]> gs)).
Proof.
  intros I Hg. destruct (pi_groups _ _ _ I g _ _ Hg) as [[QF QL] D (gp & Hgp & Hun & Hln)].
  rewrite fmap_app, fmap_cons in QF.
  destruct (ntg_queue_remove_spec (links s) (QFree g) _ (QUser u) _ QF) as (m1 & E1 & Q1 & S1 & K1).
  assert (Hu : QUser u ∉ QFree g :: (QUser <$> l1) ++ (QUser <$> l2)).
  { rewrite <-app_assoc in D. apply NoDup_app in D as (_ & D1 & D2). cbn [app] in D2.
    apply NoDup_cons in D2 as [D2 _]. rewrite elem_of_app in D2.
    rewrite elem_of_cons, elem_of_app, !quser_in. intros [?|[H|H]]; [done| |tauto].
    apply (D1 u H). apply elem_of_app. left. by left. }
  destruct (ntg_queue_insert_tail_spec m1 (QFree g) _ (QUser u) Q1 Hu) as (m2 & E2 & Q2 & S2).
  { rewrite K1. eapply is_queue_lookup; [exact QF|]. set_solver. }
  exists m1, m2. split; [done|]. split; [done|]. intros Hus.
  assert (P : l1 ++ l2 ++ [u] ≡ₚ l1 ++ u :: l2).
  { apply Permutation_app_head. symmetry. apply Permutation_cons_append. }
  eapply (pool_inv_permute s _ free gs g (l1 ++ u :: l2) ll); [exact I|exact Hg| | | |done| | | |done|done].
  - by rewrite P.
  - cbn. eapply same_except_trans; (eapply same_except_weaken; [eassumption|]); nodes.
  - split; [rewrite !fmap_app, app_assoc; exact Q2|]. cbn.
    apply NoDup_app in D as (_ & D1 & _).
    eapply (queues_disjoint _ g (l1 ++ u :: l2)); [eapply (queues_disjoint _ g (l1 ++ u :: l2)); [exact QL|exact S1| |done]|exact S2| |done].
    all: intros y; rewrite ?elem_of_cons, ?elem_of_app, ?list_elem_of_fmap; set_solver.
  - exists gp. split; [done|]. split; [|done]. done.
  - intros v Hv. cbn. apply lookup_insert_ne. intros ->. set_solver.
  - intros v. cbn. destruct (decide (u = v)) as [<-|?]; [|by rewrite lookup_insert_ne].
    rewrite lookup_insert_eq. split; [intros _; exact Hus|by eexists].
Qed.

(** The firing for a user that is not active sends nothing.  Outside a scene
    the user starts again, with the sessions and clicks drawn and its timer
    set for the next session.  In a scene a user that was taken out of service
    goes to the end of the idle users, its timer off, and no user is lost or
    held twice. *)
Theorem idle_firing_correct {B} {Bl : Balancer B} fr u (w : world) us g gp free gs l1 l2 ll :
  users (w_us w) !! u = Some us -> u_group us = Some g -> groups (w_us w) !! g = Some gp ->
  u_live us = false -> is_Some (u_event us) ->
  pool_inv (w_us w) free gs -> gs !! g = Some (l1 ++ u :: l2, ll) ->
  exists us' s', ntg_user_timeout_cb fr u w =
      Some (None, if g_is_scene gp then None else Some (timeval (fr_interval fr)),
        World s' (w_blc w) (ntg_requests w)) /\
    users s' = <[u := us']> (users (w_us w)) /\ groups s' = groups (w_us w) /\
    consumers s' = consumers (w_us w) /\
    if g_is_scene gp
    then us' = set_u_event (Some false) us /\ pool_inv s' free (<[g := (l1 ++ l2 ++ [u], ll)]> gs)
    else u_live us' = true /\ u_sessions us' = u64 (fr_sessions fr) /\
      u_clicks us' = u64 (fr_clicks fr) /\ links s' = links (w_us w) /\
      (fr_event_add fr = true -> u_event us' = Some true).
Proof.
  intros Hu Hg Hgp Hl [ev Hev] I Hgs. unfold ntg_user_timeout_cb. rewrite Hu. cbn [mbind option_bind].
  rewrite Hg. cbn [mbind option_bind]. rewrite Hgp, Hl. cbn [mbind option_bind negb].
  unfold timeout_idle. destruct (g_is_scene gp); cbn [negb].
  - rewrite Hev. cbn [mbind option_bind]. unfold on_links, set_user. cbn [w_us links set_users].
    destruct (requeue_spec (w_us w) free gs g l1 u l2 ll (set_u_event (Some false) us) I Hgs)
      as (m1 & m2 & E1 & E2 & I').
    rewrite E1. cbn [mbind option_bind links set_links]. rewrite E2. cbn [mbind option_bind w_blc ntg_requests].
    eexists _, _. split; [reflexivity|]. cbn [users groups consumers set_links set_users].
    split_and!; try done. apply I'. by eexists.
  - unfold add_event. cbn [u_event set_u_clicks set_u_sessions set_u_live]. rewrite Hev.
    cbn [mbind option_bind]. eexists _, _. split; [reflexivity|]. cbn.
    split_and!; try done. intros ->. by rewrite orb_true_r.
Qed.

(** ** Both methods are balancers *)

Section balancers.
Context (start last : Z).

Definition dynamic_serves (n : nat) (st : bstate) : Prop :=
  balancer_ok start last st /\ (n * S (n_slots start last) <= length (b_chan st))%nat.

#[export] Instance dynamic_law :
  @BalancerLaw bstate (dynamic_balancer start last) dynamic_serves.
Proof.
  intros n rqt st [Hok Hc]. destruct (process_request_spec start last st Hok) as
    (rc & sent & st' & E & _ & Hok' & Hc'); [lia|].
  unfold blance, dynamic_balancer, ntg_user_balance_dynamic. rewrite E. cbn [mbind option_bind].
  exists rc, st'. split; [done|]. split; [done|lia].
Qed.

Definition polling_serves (n : nat) (st : pstate) : Prop :=
  slots_ok start last (p_pros st) /\ start <= p_current st < last /\ 0 <= p_count st /\
  p_count st + Z.of_nat n < 2147483648 /\ (n <= length (p_chan st))%nat.

#[export] Instance polling_law :
  @BalancerLaw pstate (polling_balancer start last) polling_serves.
Proof.
  intros n rqt st (Hok & Hcur & Hcount & Hlim & Hc).
  destruct (polling_spec start last st Hok Hcur ltac:(lia)) as [H1 H2].
  unfold blance, polling_balancer. destruct (Z.ltb_spec (p_count st) 9) as [H|H].
  - rewrite H1 by done. cbn [mbind option_bind]. eexists _, _. split; [done|].
    split; [done|]. cbn. lia.
  - destruct (p_chan st) as [|rc chan] eqn:Hchan; [cbn in Hc; lia|].
    destruct (H2 rc chan H eq_refl) as (t & st' & E & _ & Hcur' & _ & _ & _ & Hl & Hn & Hch).
    rewrite E. cbn [mbind option_bind]. eexists _, st'. split; [done|].
    split; [by eapply slots_ok_length|]. rewrite Hn, Hch. cbn [length] in Hc. lia.
Qed.

End balancers.

(** ** The requests of a traffic process *)

Lemma request_pool_loop_spec junk i next rqs l :
  free_chain rqs next l -> Forall (fun r => Z.of_nat i <= r) l ->
  let '(p, rqs') := request_pool_loop i next rqs junk in
  free_chain rqs' p (map Z.of_nat (seq 0 i) ++ l).
Proof.
  revert next rqs l. induction i as [|i IH]; intros next rqs l Hl Hge; cbn [request_pool_loop]; [done|].
  set (rqs1 := <[Z.of_nat i := _]> rqs).
  specialize (IH (Some (Z.of_nat i)) rqs1 (Z.of_nat i :: l)).
  destruct (request_pool_loop i _ _ _) as [p rqs']. rewrite seq_S, map_app, <-app_assoc. apply IH.
  - cbn. split; [done|]. exists (set_rq_data next (junk (Z.of_nat i))). subst rqs1.
    rewrite lookup_insert_eq. split; [done|]. apply free_chain_insert; [|done].
    rewrite Forall_forall in Hge. intros H. specialize (Hge _ H). lia.
  - constructor; [lia|]. eapply Forall_impl; [exact Hge|]. cbn. lia.
Qed.

(** A traffic process starts with all its requests free, in order: the state
    that [ntg_http_get_request] and [ntg_http_free_request] keep. *)
Lemma worker_init_pool junk req_num worker_users :
  0 < req_num * worker_users < 9223372036854775808 ->
  exists cycle, ntg_user_process_init_in_worker (Some junk) req_num worker_users = Some (NTG_OK, Some cycle) /\
    free_pool cycle (map Z.of_nat (seq 0 (Z.to_nat (req_num * worker_users)))).
Proof.
  intros Hn. unfold ntg_user_process_init_in_worker. rewrite u64_small by (width; lia).
  rewrite (proj2 (Z.eqb_neq _ _)) by lia.
  pose proof (request_pool_loop_spec junk (Z.to_nat (req_num * worker_users)) None ∅ [] eq_refl ltac:(constructor)) as HC.
  destruct (request_pool_loop _ _ _ _) as [p rqs]. rewrite app_nil_r in HC. eexists. split; [done|].
  split; [exact HC|]. split; [apply (NoDup_fmap_2 Z.of_nat), NoDup_seq|].
  cbn [free_req_n]. rewrite length_map, length_seq. width. lia.
Qed.

(** ** Examples *)

(** User 0 of group 100, in the second of two sessions, with two clicks left;
    the balancer of three traffic processes. *)
Definition example_user : ntg_user :=
  User PManage 0 (Some 100) (Some false) (0, 0) 2 2 true true.
Definition example_world : world (B := bstate) :=
  World (set_users (<[0 := example_user]> (users example_grouped)) example_grouped)
    (Balance.example_state (replicate 20 NTG_OK)) 0.
Definition example_firing (clicks : Z) : firing := Firing (f32_of_Z 10) (f32_of_Z 3) 1 clicks true.


(** User 0 waits in group 100. *)
Lemma idle_firing_correct_witness :
  let H := dynamic_balancer 1 4 in
  let w := World (set_users (<[0 := set_u_live false example_user]> (users example_grouped)) example_grouped)
    (Balance.example_state []) 0 in
  exists us' s', ntg_user_timeout_cb (example_firing 3) 0 w =
      Some (None, Some (10, 0), World s' (Balance.example_state []) 0) /\
    users s' !! 0 = Some us' /\ u_live us' = true /\ u_clicks us' = 3.
Proof.
  intros H w. destruct (groups example_grouped !! 100) as [gp|] eqn:Hgp; [|vm_compute in Hgp; discriminate].
  assert (Hsc : g_is_scene gp = false) by (vm_compute in Hgp; injection Hgp as <-; reflexivity).
  destruct (idle_firing_correct (example_firing 3) 0 w (set_u_live false example_user) 100 gp [2]
    {[ 100 := ([1; 0], []) ]} [1] [] []) as (us' & s' & E & Hu & _ & _ & R).
  - vm_compute. reflexivity.
  - reflexivity.
  - exact Hgp.
  - reflexivity.
  - by eexists.
  - apply pool_inv_user; [apply example_grouped_inv|by eexists|].
    intros Hin%list_elem_of_singleton. discriminate Hin.
  - reflexivity.
  - rewrite Hsc in E, R. destruct R as (R1 & _ & R3 & _). exists us', s'. split; [exact E|].
    rewrite Hu. split; [apply lookup_insert_eq|]. split; [exact R1|exact R3].
Defined.

(** ** What the code gets wrong *)

(** A user whose session ends in a scene leaves the live queue by itself, but the
    number of live users of its group stays: taking that user out of service
    then finds the queue empty. *)
Lemma scene_user_not_counted :
  ('(_, s) ← ntg_user_activate_group_users [good_draw] true 100 1 example_scene;
   us ← users s !! 1;
   gp ← groups s !! 100;
   let s := s |> set_groups (<[100 := set_g_is_scene true gp]> (groups s))
              |> set_users (<[1 := set_u_live false us]> (users s)) in
   '(_, _, w) ← @ntg_user_timeout_cb bstate (dynamic_balancer 1 4) (example_firing 1) 1
     (World s (Balance.example_state []) 0);
   gp ← groups (w_us w) !! 100;
   Some (g_live_n gp, ntg_queue_head (links (w_us w)) (QLive 100), deactivate_loop 1 100 (w_us w))) =
  Some (1, Some (QLive 100), None).
Proof. vm_compute. reflexivity. Qed.

(** A session for which no click is drawn has practically no end: the counter of
    clicks goes below zero. *)
Lemma zero_clicks_endless fr us : u_clicks us = 0 ->
  (count_click fr us).1 = set_u_clicks 18446744073709551615 us.
Proof. intros H. unfold count_click. cbn [u_clicks set_u_clicks]. rewrite H. reflexivity. Qed.

(** Adding users when there are none goes through a null pointer. *)
Lemma add_users_without_users s : free_users s = None -> ntg_user_add_cb [(true, true)] s = None.
Proof. intros H. cbn. unfold ntg_get_user. by rewrite H. Qed.
