(* ===== verification/UserManage.v ===== *)
(** * The manager of the simulated users (src/user/ntg_user_manage.c)

    The manager answers the control layer: a simulation message sets up a group
    of users for a consumer, a control message deletes a group or a consumer,
    and a timer brings the groups to their numbers of users, a limited number
    at a time.  The result of every library call is an argument. *)

From Stdlib Require Import SpecFloat.
From S2P Require Import Prelude Queue Sprintf Spline Table UserGroup.

(** [struct ntg_user_manage_s] (ntg_user_manage.h), with the memory of
    [ustate]. *)
Record manage := Manage {
  mg_us : ustate;
  mg_consumers : option Z;
  mg_free_csms : option Z;
  mg_free_csm_n : Z;
  mg_table : ntg_hash_table;
  mg_task_n : Z;
  mg_task_flag : bool;
  mg_ev_task : option bool }.

Definition set_mg_us v m :=
  Manage v (mg_consumers m) (mg_free_csms m) (mg_free_csm_n m) (mg_table m) (mg_task_n m)
    (mg_task_flag m) (mg_ev_task m).
Definition set_mg_consumers v m :=
  Manage (mg_us m) v (mg_free_csms m) (mg_free_csm_n m) (mg_table m) (mg_task_n m)
    (mg_task_flag m) (mg_ev_task m).
Definition set_mg_free_csms v n m :=
  Manage (mg_us m) (mg_consumers m) v n (mg_table m) (mg_task_n m) (mg_task_flag m) (mg_ev_task m).
Definition set_mg_table v m :=
  Manage (mg_us m) (mg_consumers m) (mg_free_csms m) (mg_free_csm_n m) v (mg_task_n m)
    (mg_task_flag m) (mg_ev_task m).
Definition set_mg_task_n v m :=
  Manage (mg_us m) (mg_consumers m) (mg_free_csms m) (mg_free_csm_n m) (mg_table m) v
    (mg_task_flag m) (mg_ev_task m).
Definition set_mg_timer flag ev m :=
  Manage (mg_us m) (mg_consumers m) (mg_free_csms m) (mg_free_csm_n m) (mg_table m) (mg_task_n m)
    flag ev.

(** ** Initialisation *)

Definition NTG_CONF_UNSET : Z := -1.
Definition NTG_USER_DEFAULT_CONSUMER_NUM : Z := 32.
Definition NTG_MAX_ACTIVATE_NUM : Z := 200.

(** The loops that link the pools, from the last object to the first; the pool
    is memory with arbitrary contents. *)
Fixpoint user_pool_loop (i : nat) (next : option Z) (us : gmap Z ntg_user)
    (junk : Z -> ntg_user) : option Z * gmap Z ntg_user :=
  match i with
  | O => (next, us)
  | S i =>
      let u := Z.of_nat i in
      user_pool_loop i (Some u)
        (<[u := junk u |> set_u_data (pool_ptr next) |> set_u_user_id u |> set_u_live false]> us) junk
  end.

Fixpoint csm_pool_loop (i : nat) (next : option Z) (cs : gmap Z ntg_user_consumer)
    (junk : Z -> ntg_user_consumer) : option Z * gmap Z ntg_user_consumer :=
  match i with
  | O => (next, cs)
  | S i =>
      let c := Z.of_nat i in
      csm_pool_loop i (Some c)
        (<[c := Consumer (pool_ptr next) (csm_id (junk c)) (csm_gps (junk c))]> cs) junk
  end.

(** The links of the users of the pool, uninitialised. *)
Definition pool_links (n : nat) (junk : Z -> qlink qnode) : gmap qnode (qlink qnode) :=
  list_to_map (map (fun i => (QUser (Z.of_nat i), junk (Z.of_nat i))) (seq 0 n)).

(** The outcomes of the allocations, and what the memory held before. *)
Record init_env := InitEnv {
  ie_users : bool;
  ie_csms : bool;
  ie_table : bool;
  ie_hash : bool;
  ie_balance : bool;
  ie_junk_user : Z -> ntg_user;
  ie_junk_csm : Z -> ntg_user_consumer;
  ie_junk_link : Z -> qlink qnode;
  ie_ev_task : option bool }.

(** [ntg_user_manage_init]; the result of [ntg_hash_table_init] is not looked at.
    The quotient [csm_n / 1.5] of doubles is exact enough for the conversion
    to give the integer quotient. *)
Definition ntg_user_manage_init (env : init_env) (user_n consumes : Z) : option (Z * option manage) :=
  if negb (ie_users env) then Some (NTG_ERROR, None)
  else if user_n <=? 0 then None
  else
    let '(free, us) := user_pool_loop (Z.to_nat user_n) None ∅ (ie_junk_user env) in
    let csm_n := if negb (consumes =? NTG_CONF_UNSET) then u64 consumes
                 else NTG_USER_DEFAULT_CONSUMER_NUM in
    if negb (ie_csms env) then Some (NTG_ERROR, None)
    else if csm_n <=? 0 then None
    else
      let '(free_csms, cs) := csm_pool_loop (Z.to_nat csm_n) None ∅ (ie_junk_csm env) in
      if negb (ie_table env) then Some (NTG_ERROR, None)
      else
        '(_, table) ← ntg_hash_table_init (ie_hash env) (csm_n * 2 / 3) csm_n;
        let s := UState us ∅ cs (pool_links (Z.to_nat user_n) (ie_junk_link env)) free user_n None in
        if negb (ie_balance env) then Some (NTG_ERROR, None)
        else Some (NTG_OK, Some (Manage s (Some 0) free_csms csm_n table 0 false (ie_ev_task env))).

(** ** Consumers *)

(** [ntg_user_get_consumer]. *)
Definition ntg_user_get_consumer (m : manage) : option (option Z * manage) :=
  match mg_free_csms m with
  | None => Some (None, m)
  | Some c =>
      csm ← consumers (mg_us m) !! c;
      next ← next_free (csm_data csm);
      let m := set_mg_free_csms next (u64 (mg_free_csm_n m - 1)) m in
      let zero := Consumer PNull 0 (replicate (Z.to_nat NTG_USER_GROUP_SIZE) None) in
      Some (Some c, set_mg_us (set_consumers (<[c := zero]> (consumers (mg_us m))) (mg_us m)) m)
  end.

(** The consumer [tmp_csm] on the stack, of which only the identifier is set. *)
Definition TMP_CSM : Z := -1.

(** The identifier of the consumer at address [d]; [tmp] is that of [tmp_csm]. *)
Definition ident (cs : gmap Z ntg_user_consumer) (tmp d : Z) : Z :=
  if d =? TMP_CSM then tmp else from_option csm_id 0 (cs !! d).

(** The functions of the table of consumers. *)
Definition csm_key (m : manage) (tmp : Z) : Z -> Z :=
  ntg_user_consumer_get_key (ident (consumers (mg_us m)) tmp).
Definition csm_cmp (m : manage) (tmp : Z) : Z -> Z -> Z :=
  ntg_user_consumer_compare (ident (consumers (mg_us m)) tmp).

(** The consumer with identifier [id], looked up with [tmp_csm]. *)
Definition find_consumer (m : manage) (id : Z) : option (option Z) :=
  node ← ntg_hash_find_node (csm_key m id) (csm_cmp m id) (mg_table m) TMP_CSM;
  match node with
  | None => Some None
  | Some n => nd ← tb_nodes (mg_table m) !! n; c ← nd_data nd; Some (Some c)
  end.

Definition modify_csm (c : Z) (f : ntg_user_consumer -> ntg_user_consumer) (m : manage)
  : option manage :=
  csm ← consumers (mg_us m) !! c;
  Some (set_mg_us (set_consumers (<[c := f csm]> (consumers (mg_us m))) (mg_us m)) m).

(** The part of [ntg_user_simulation_process] that finds or creates the
    consumer: its address, or none on an error. *)
Definition get_or_create_consumer (id : Z) (m : manage) : option (option Z * manage) :=
  found ← find_consumer m id;
  match found with
  | Some c => Some (Some c, m)
  | None =>
      '(c, m) ← ntg_user_get_consumer m;
      match c with
      | None => Some (None, m)
      | Some c =>
          m ← modify_csm c (fun csm => Consumer PManage (s64 id) (csm_gps csm)) m;
          '(rc, t) ← ntg_hash_insert_node (csm_key m id) (csm_cmp m id) (mg_table m) c;
          let m := set_mg_table t m in
          Some (if rc =? NTG_OK then Some c else None, m)
      end
  end.

(** ** The simulation message *)

(** [ntg_simulation_message_t] (message/ntg_message.h). *)
Record simulation_message := Simulation {
  sm_csm_id : Z;
  sm_scene : list spec_float;
  sm_behavior : behavior;
  sm_gp_id : Z;
  sm_is_scene : bool;
  sm_st_point : Z;
  sm_user_n : Z }.

(** The outcomes of [ntg_calloc], of the [event_new] of a scene, and of the
    [event_new] and [event_add] of the task timer. *)
Record sim_env := SimEnv {
  se_calloc : option Z;
  se_scene_event : bool;
  se_event_new : bool;
  se_event_add : bool }.

(** A group fresh from [ntg_calloc]. *)
Definition zero_dist : distribution := Distribution 0 (replicate 3 (S754_zero false)).
Definition zero_group : ntg_user_group :=
  Group None 0 0 None 0 0 0 0 0 0 (replicate 24 (S754_zero false))
    (Behavior zero_dist zero_dist zero_dist zero_dist)
    (replicate (Z.to_nat SPILINE_OUTPUT_MAX) (S754_zero false)) false false.

(** [csm->gps[i]], [None] when it is outside the array. *)
Definition get_gps (m : manage) (c i : Z) : option (option Z) :=
  csm ← consumers (mg_us m) !! c;
  if i <? 0 then None else csm_gps csm !! Z.to_nat i.

Definition calloc_group (g c gp_id : Z) (m : manage) : option manage :=
  let s := mg_us m in
  let gp := zero_group |> set_g_gp_id gp_id |> set_g_consumer c in
  let s := s |> set_groups (<[g := gp]> (groups s))
             |> set_links (<[QFree g := QLink QNull QNull]> (<[QLive g := QLink QNull QNull]> (links s))) in
  s ← set_gps c gp_id (Some g) s;
  Some (set_mg_us s m).

Definition configure_group (sm : simulation_message) (gp : ntg_user_group) : ntg_user_group :=
  let gp := gp |> set_g_users_n (s64 (sm_user_n sm)) |> set_g_behavior (sm_behavior sm)
               |> set_g_is_scene (sm_is_scene sm) in
  if sm_is_scene sm then gp |> set_g_scene (sm_scene sm) |> set_g_point (sm_st_point sm) else gp.

(** Starting the task timer. *)
Definition start_timer (env : sim_env) (m : manage) : option (Z * manage) :=
  if mg_task_flag m then Some (NTG_OK, m)
  else
    let ev := match mg_ev_task m with
              | Some e => Some e | None => if se_event_new env then Some false else None end in
    match ev with
    | None => Some (NTG_ERROR, set_mg_timer false None m)
    | Some e =>
        if se_event_add env then Some (NTG_OK, set_mg_timer true (Some true) m)
        else Some (NTG_ERROR, set_mg_timer false (Some e) m)
    end.

(** The part that finds or creates the group: its address, or none on an error. *)
Definition get_or_create_group (env : sim_env) (c gp_id : Z) (m : manage)
  : option (option Z * manage) :=
  gp ← get_gps m c gp_id;
  match gp with
  | Some g => Some (Some g, m)
  | None =>
      match se_calloc env with
      | None => Some (None, m)
      | Some g => m ← calloc_group g c gp_id m; Some (Some g, m)
      end
  end.

(** The part that sets up the group and makes it a task. *)
Definition setup_group (env : sim_env) (sm : simulation_message) (g : Z) (m : manage)
  : option (Z * manage) :=
  s ← modify_group g (configure_group sm) (mg_us m);
  '(rc, s) ← ntg_user_group_init (se_scene_event env) g s;
  if negb (rc =? NTG_OK) then
    '(_, s) ← ntg_user_group_free g s; Some (NTG_ERROR, set_mg_us s m)
  else
    s ← modify_group g (fun gp => gp |> set_g_data (tasks s) |> set_g_active true) s;
    let m := m |> set_mg_us (set_tasks (Some g) s) |> set_mg_task_n (u64 (mg_task_n m + 1)) in
    start_timer env m.

Definition ntg_user_simulation_process (env : sim_env) (sm : simulation_message) (m : manage)
  : option (Z * manage) :=
  '(csm, m) ← get_or_create_consumer (sm_csm_id sm) m;
  match csm with
  | None => Some (NTG_ERROR, m)
  | Some c =>
      '(gp, m) ← get_or_create_group env c (sm_gp_id sm) m;
      match gp with
      | None => Some (NTG_ERROR, m)
      | Some g => setup_group env sm g m
      end
  end.

(** ** The control message *)

Definition NTG_CTL_DELETE : Z := 0.
Definition NTG_CTL_QUIT : Z := 1.

(** The loop over the groups of a consumer that quits. *)
Fixpoint quit_loop (n : nat) (i c : Z) (m : manage) : option manage :=
  match n with
  | O => Some m
  | S n =>
      gp ← get_gps m c i;
      match gp with
      | None => quit_loop n (i + 1) c m
      | Some g =>
          '(_, s) ← ntg_user_group_free g (mg_us m);
          s ← set_gps c i None s;
          quit_loop n (i + 1) c (set_mg_us s m)
      end
  end.

Definition ntg_user_control_process (csm_id gp_id type : Z) (m : manage) : option (Z * manage) :=
  found ← find_consumer m csm_id;
  match found with
  | None => Some (NTG_OK, m)
  | Some c =>
      if type =? NTG_CTL_DELETE then
        gp ← get_gps m c gp_id;
        match gp with
        | Some g => '(rc, s) ← ntg_user_group_free g (mg_us m); Some (rc, set_mg_us s m)
        | None => Some (NTG_OK, m)
        end
      else if type =? NTG_CTL_QUIT then
        '(_, t) ← ntg_hash_delete_node (csm_key m csm_id) (csm_cmp m csm_id) (mg_table m) c;
        m ← quit_loop (Z.to_nat NTG_USER_GROUP_SIZE) 0 c (set_mg_table t m);
        m ← modify_csm c (fun csm => Consumer (pool_ptr (mg_consumers m)) (UserGroup.csm_id csm) (csm_gps csm)) m;
        Some (NTG_OK, set_mg_consumers (Some c) m)
      else Some (NTG_OK, m)
  end.

(** ** The messages *)

Definition NTG_RST_SUCCESS : Z := 0.
Definition NTG_RST_FAILED : Z := 1.

(** The messages of the control layer. *)
Inductive user_message :=
  | SimulationMessage (sm : simulation_message)
  | ControlMessage (csm_id gp_id type : Z)
  | OtherMessage.

(** The loop that writes the result: the last outcome of [ntg_write_channel]. *)
Fixpoint write_result (rcs : list Z) : option Z :=
  match rcs with
  | [] => None
  | rc :: rcs => if rc =? NTG_AGAIN then write_result rcs else Some rc
  end.

(** [ntg_user_message_handler]: its return value, and the result message, the
    consumer and the status, that it wrote; [rcs] are the outcomes of the
    writes. *)
Definition ntg_user_message_handler (env : sim_env) (rcs : list Z) (msg : user_message) (m : manage)
  : option (Z * option (Z * Z) * manage) :=
  let reply id rc m :=
    ret ← write_result rcs;
    Some (ret, Some (s64 id, if rc =? NTG_OK then NTG_RST_SUCCESS else NTG_RST_FAILED), m) in
  match msg with
  | SimulationMessage sm =>
      '(rc, m) ← ntg_user_simulation_process env sm m; reply (sm_csm_id sm) rc m
  | ControlMessage id gp_id type =>
      '(rc, m) ← ntg_user_control_process id gp_id type m; reply id rc m
  | OtherMessage => Some (NTG_ERROR, None, m)
  end.

(** ** The task timer *)

(** The loop of [ntg_user_manage_process_task], for [n] more tasks; a turn has
    the draws and the timer outcome of its group.  The tasks that are not done
    are linked from [tmp_gp], and counted. *)
Fixpoint task_loop (n : nat) (drs : list (list draw * bool)) (tmp_gp : option Z) (count : Z)
    (s : ustate) : option (option Z * Z * ustate) :=
  match n, drs with
  | O, _ => Some (tmp_gp, count, s)
  | S n, (dr, ev_ok) :: drs =>
      g ← tasks s; gp ← groups s !! g;
      let s := set_tasks (g_data gp) s in
      s ← modify_group g (set_g_data None) s;
      '(rc, s) ← ntg_user_activate_group_users dr ev_ok g NTG_MAX_ACTIVATE_NUM s;
      '(tmp_gp, count, s) ←
        (if negb (rc =? NTG_OK)
         then s ← modify_group g (set_g_data tmp_gp) s; Some (Some g, u64 (count + 1), s)
         else Some (tmp_gp, count, s));
      s ← modify_group g (set_g_active false) s;
      task_loop n drs tmp_gp count s
  | S _, [] => None
  end.

(** [ev_ok]: the outcome of [evtimer_add]. *)
Definition ntg_user_manage_process_task (drs : list (list draw * bool)) (ev_ok : bool) (m : manage)
  : option manage :=
  '(tmp_gp, count, s) ← task_loop (Z.to_nat (mg_task_n m)) drs None 0 (mg_us m);
  let m := m |> set_mg_us (set_tasks tmp_gp s) |> set_mg_task_n count in
  ev ← mg_ev_task m;
  if negb (mg_task_n m =? 0) then Some (set_mg_timer (mg_task_flag m) (Some (ev || ev_ok)) m)
  else Some (set_mg_timer false (Some false) m).
