(* ===== verification/UserSim.v ===== *)
(** * The messages of the control layer

    What ntg_user_manage.c promises for a simulation message and for the
    deletion of a group: the manager keeps every user in one place, every
    group in the slot of its consumer, and the consumers in its table. *)

From Stdlib Require Import SpecFloat.
From S2P Require Import Prelude Queue Sprintf Spline Table UserGroup UserPool UserManage.

(** The free consumers linked from [p]. *)
Fixpoint csm_chain (cs : gmap Z ntg_user_consumer) (p : option Z) (l : list Z) : Prop :=
  match l with
  | [] => p = None
  | c :: l => p = Some c /\ exists csm next, cs !! c = Some csm /\
      next_free (csm_data csm) = Some next /\ csm_chain cs next l
  end.

(** Group [g] is in slot [i] of the consumer at [c]. *)
Definition in_slot (s : ustate) (c i g : Z) : Prop :=
  0 <= i < NTG_USER_GROUP_SIZE /\
  exists csm, consumers s !! c = Some csm /\ csm_gps csm !! Z.to_nat i = Some (Some g).

(** The consumers: the table has those that are known, by their identifiers,
    and [n] nodes are free; [cfree] are the others; the groups are those in
    the slots of the known consumers, and each group knows its slot. *)
Record csm_inv (m : manage) (gs : gmap Z (list Z * list Z)) (M : gmap Z Z) (n : nat)
    (cfree : list Z) : Prop := {
  ci_table : forall tmp, table_holds (csm_key m tmp) (mg_table m) M n;
  ci_chain : csm_chain (consumers (mg_us m)) (mg_free_csms m) cfree;
  ci_nodup : NoDup cfree;
  ci_count : mg_free_csm_n m = Z.of_nat (length cfree) /\ is_s64 (mg_free_csm_n m);
  ci_known : forall k c, M !! k = Some c -> (c ∉ cfree) /\ c <> TMP_CSM /\
    exists csm, consumers (mg_us m) !! c = Some csm /\ u64 (csm_id csm) = k /\
      length (csm_gps csm) = Z.to_nat NTG_USER_GROUP_SIZE;
  ci_free : TMP_CSM ∉ cfree;
  ci_group : forall g, is_Some (gs !! g) -> exists gp, groups (mg_us m) !! g = Some gp /\
    in_slot (mg_us m) (g_consumer gp) (g_gp_id gp) g /\
    exists k, M !! k = Some (g_consumer gp);
  ci_slot : forall k c i g, M !! k = Some c -> in_slot (mg_us m) c i g ->
    is_Some (gs !! g) /\ exists gp, groups (mg_us m) !! g = Some gp /\
      g_consumer gp = c /\ g_gp_id gp = i }.

(** The tasks are groups, and they are counted. *)
Record task_inv (m : manage) (gs : gmap Z (list Z * list Z)) (ts : list Z) : Prop := {
  ti_chain : task_chain (groups (mg_us m)) (tasks (mg_us m)) ts;
  ti_nodup : NoDup ts;
  ti_groups : forall g, g ∈ ts -> is_Some (gs !! g);
  ti_count : mg_task_n m = Z.of_nat (length ts) /\ is_s64 (mg_task_n m) }.

Record manage_inv (m : manage) (free : list Z) (gs : gmap Z (list Z * list Z)) (M : gmap Z Z)
    (n : nat) (cfree : list Z) (ts : list Z) : Prop := {
  mi_pool : pool_inv (mg_us m) free gs;
  mi_csm : csm_inv m gs M n cfree;
  mi_tasks : task_inv m gs ts }.

Lemma csm_chain_frame cs cs' p l :
  csm_chain cs p l -> (forall c, c ∈ l -> cs' !! c = cs !! c) -> csm_chain cs' p l.
Proof.
  revert p. induction l as [|v l IH]; intros p; cbn; [done|].
  intros (-> & csm & next & Hv & Hn & Hl) Hf. split; [done|]. exists csm, next.
  rewrite Hf by (by left). split_and!; try done. apply IH; [done|]. intros c Hc. apply Hf. by right.
Qed.

(** ** Initialisation *)

Lemma user_pool_loop_spec junk i next us l :
  user_chain us next l -> Forall (fun u => Z.of_nat i <= u) l ->
  let '(p, us') := user_pool_loop i next us junk in
  user_chain us' p (map Z.of_nat (seq 0 i) ++ l) /\
  (forall u, is_Some (us' !! u) <-> is_Some (us !! u) \/ 0 <= u < Z.of_nat i).
Proof.
  revert next us l. induction i as [|i IH]; intros next us l Hl Hge; cbn [user_pool_loop].
  { split; [done|]. intros u. split; [by left|]. intros [?|?]; [done|lia]. }
  set (us1 := <[Z.of_nat i := _]> us). specialize (IH (Some (Z.of_nat i)) us1 (Z.of_nat i :: l)).
  destruct (user_pool_loop i _ _ _) as [p us']. destruct IH as [H1 H2].
  - cbn. split; [done|]. subst us1. eexists _, next. rewrite lookup_insert_eq.
    split_and!; [done|by destruct next|]. apply (user_chain_frame us); [done|].
    intros u Hu. apply lookup_insert_ne. rewrite Forall_forall in Hge. specialize (Hge u Hu). lia.
  - constructor; [lia|]. eapply Forall_impl; [exact Hge|]. cbn. lia.
  - rewrite seq_S, map_app, <-app_assoc. split; [exact H1|]. intros u. rewrite H2. subst us1.
    rewrite lookup_insert_is_Some'. naive_solver lia.
Qed.

Lemma csm_pool_loop_spec junk i next cs l :
  csm_chain cs next l -> Forall (fun c => Z.of_nat i <= c) l ->
  let '(p, cs') := csm_pool_loop i next cs junk in csm_chain cs' p (map Z.of_nat (seq 0 i) ++ l).
Proof.
  revert next cs l. induction i as [|i IH]; intros next cs l Hl Hge; cbn [csm_pool_loop]; [done|].
  set (cs1 := <[Z.of_nat i := _]> cs). specialize (IH (Some (Z.of_nat i)) cs1 (Z.of_nat i :: l)).
  destruct (csm_pool_loop i _ _ _) as [p cs']. rewrite seq_S, map_app, <-app_assoc. apply IH.
  - cbn. split; [done|]. subst cs1. eexists _, next. rewrite lookup_insert_eq.
    split_and!; [done|by destruct next|]. apply (csm_chain_frame cs); [done|].
    intros c Hc. apply lookup_insert_ne. rewrite Forall_forall in Hge. specialize (Hge c Hc). lia.
  - constructor; [lia|]. eapply Forall_impl; [exact Hge|]. cbn. lia.
Qed.

Lemma pool_links_spec n junk u : 0 <= u < Z.of_nat n -> is_Some (pool_links n junk !! QUser u).
Proof.
  intros Hu. unfold pool_links. exists (junk u). apply elem_of_list_to_map_1.
  - rewrite <-list_fmap_compose. apply NoDup_fmap_2; [|apply NoDup_seq].
    intros x y [= E]. lia.
  - apply list_elem_of_fmap. exists (Z.to_nat u). rewrite Z2Nat.id by lia. split; [done|].
    apply elem_of_seq. lia.
Qed.

(** ** Finding a consumer *)

Lemma ident_tmp cs tmp : ident cs tmp TMP_CSM = tmp.
Proof. reflexivity. Qed.

Lemma ident_other cs tmp d : d <> TMP_CSM -> ident cs tmp d = from_option csm_id 0 (cs !! d).
Proof. intros H. unfold ident. by rewrite (proj2 (Z.eqb_neq _ _)). Qed.

Lemma csm_key_tmp m tmp : csm_key m tmp TMP_CSM = u64 tmp.
Proof. reflexivity. Qed.

Lemma csm_key_of m tmp c csm :
  c <> TMP_CSM -> consumers (mg_us m) !! c = Some csm -> csm_key m tmp c = u64 (csm_id csm).
Proof.
  intros Hc Hcs. unfold csm_key, ntg_user_consumer_get_key. rewrite ident_other by done. by rewrite Hcs.
Qed.

Lemma find_consumer_spec m gs M n cfree id :
  csm_inv m gs M n cfree -> find_consumer m id = Some (M !! u64 id).
Proof.
  intros [T _ _ _ _ _ _ _]. unfold find_consumer.
  destruct (table_holds_find (csm_key m id) (csm_cmp m id) _ _ _ TMP_CSM (T id)) as (r & E & Hr).
  rewrite csm_key_tmp in Hr. rewrite E. cbn [mbind option_bind]. destruct r as [i|]; [|by rewrite Hr].
  destruct Hr as (d & next & Hi & ->). rewrite Hi. done.
Qed.

(** ** Changes to the consumers *)

(** The groups are not affected by the consumers. *)
Lemma pool_inv_consumers s free gs cs : pool_inv s free gs -> pool_inv (set_consumers cs s) free gs.
Proof.
  intros [C N K L G A O]. split; try done. intros g fl ll Hg. by destruct (G g fl ll Hg).
Qed.

(** The keys of the known consumers stay the same while their identifiers do. *)
Lemma table_consumers m m' gs M n cfree :
  csm_inv m gs M n cfree -> mg_table m' = mg_table m ->
  (forall k c csm, M !! k = Some c -> consumers (mg_us m) !! c = Some csm ->
     exists csm', consumers (mg_us m') !! c = Some csm' /\ csm_id csm' = csm_id csm) ->
  forall tmp, table_holds (csm_key m' tmp) (mg_table m') M n.
Proof.
  intros [T _ _ _ K _ _ _] Et Hc tmp. rewrite Et.
  apply (table_holds_ext (csm_key m tmp)); [apply T|]. intros k c Hk.
  destruct (K k c Hk) as (_ & Hne & csm & Hcs & _ & _). destruct (Hc k c csm Hk Hcs) as (csm' & Hcs' & E).
  by rewrite (csm_key_of m' tmp c csm'), (csm_key_of m tmp c csm), E.
Qed.

Lemma u64_s64 z : u64 (s64 z) = u64 z.
Proof. mlia. Qed.

(** A new consumer comes from the front of the pool, without groups. *)
Lemma create_consumer_spec m gs M n c cfree id :
  csm_inv m gs M (S n) (c :: cfree) -> M !! u64 id = None ->
  exists m', get_or_create_consumer id m = Some (Some c, m') /\
    csm_inv m' gs (<[u64 id := c]> M) n cfree /\
    mg_us m' = set_consumers (<[c := Consumer PManage (s64 id)
      (replicate (Z.to_nat NTG_USER_GROUP_SIZE) None)]> (consumers (mg_us m))) (mg_us m) /\
    mg_task_n m' = mg_task_n m /\ mg_task_flag m' = mg_task_flag m /\ mg_ev_task m' = mg_ev_task m.
Proof.
  intros I Hid. pose proof I as [T C N [Cn Cs] K F G S]. unfold get_or_create_consumer.
  rewrite (find_consumer_spec _ _ _ _ _ _ I), Hid. cbn [mbind option_bind].
  cbn [csm_chain] in C. destruct C as (Hc & csm & next & Hcs & Hnext & C).
  unfold ntg_user_get_consumer. rewrite Hc. rewrite Hcs. cbn [mbind option_bind].
  rewrite Hnext. cbn [mbind option_bind]. unfold modify_csm. cbn [mg_us set_mg_us set_mg_free_csms consumers set_consumers].
  rewrite lookup_insert_eq. cbn [mbind option_bind csm_gps]. rewrite insert_insert_eq.
  set (m1 := set_mg_us _ _).
  assert (Hnew : forall c', c' ∉ c :: cfree -> consumers (mg_us m1) !! c' = consumers (mg_us m) !! c').
  { intros c' Hc'. subst m1. cbn. apply lookup_insert_ne. intros ->. apply Hc'. by left. }
  assert (Hcm : consumers (mg_us m1) !! c =
    Some (Consumer PManage (s64 id) (replicate (Z.to_nat NTG_USER_GROUP_SIZE) None))).
  { subst m1. cbn. apply lookup_insert_eq. }
  assert (Hct : c <> TMP_CSM) by (intros ->; apply F; by left).
  assert (T1 : forall tmp, table_holds (csm_key m1 tmp) (mg_table m1) M (Datatypes.S n)).
  { eapply table_consumers; [exact I|done|]. intros k c' csm' Hk Hc'.
    destruct (K k c' Hk) as (Hf & _ & _). exists csm'. by rewrite Hnew. }
  assert (Hkey : csm_key m1 id c = u64 id).
  { rewrite (csm_key_of _ _ _ _ Hct Hcm). apply u64_s64. }
  destruct (table_holds_insert (csm_key m1 id) (csm_cmp m1 id) _ _ _ c (T1 id)) as (t & E & T2);
    [by rewrite Hkey|].
  rewrite E, Hkey in *. cbn [mbind option_bind]. apply NoDup_cons in N as [Nc N].
  eexists. split; [done|]. split; [|done]. cbn [length] in Cn.
  assert (Hother : forall k c', M !! k = Some c' -> c' <> c).
  { intros k c' Hk ->. destruct (K k c Hk) as (Hf & _). apply Hf. by left. }
  assert (Hk' : forall k c', <[u64 id := c]> M !! k = Some c' -> (k = u64 id /\ c' = c) \/ M !! k = Some c').
  { intros k c'. rewrite lookup_insert. case_decide; [left|by right]. by simplify_eq. }
  assert (Hslot : forall c' i g, c' <> c -> in_slot (mg_us m1) c' i g <-> in_slot (mg_us m) c' i g).
  { intros c' i g Hne. unfold in_slot. by replace (consumers (mg_us m1) !! c') with (consumers (mg_us m) !! c')
      by (subst m1; cbn; by rewrite lookup_insert_ne). }
  split; cbn [mg_table mg_us mg_free_csms mg_free_csm_n set_mg_table]; try done.
  - intros tmp. eapply table_holds_ext; [exact T2|]. intros k c' Hk.
    change (csm_key m1 tmp c' = csm_key m1 id c'). unfold csm_key, ntg_user_consumer_get_key.
    rewrite !ident_other; [done| |]; destruct (Hk' k c' Hk) as [[_ ->]|H]; try done; by destruct (K k c' H) as (_ & ? & _).
  - apply (csm_chain_frame (consumers (mg_us m))); [exact C|]. intros c' Hc'. subst m1. cbn.
    apply lookup_insert_ne. by intros ->.
  - subst m1. cbn. rewrite Cn. width. rewrite Z.mod_small by lia. lia.
  - intros k c' Hk. destruct (Hk' k c' Hk) as [[-> ->]|H].
    + split; [done|]. split; [done|]. eexists. split; [exact Hcm|]. cbn. split; [apply u64_s64|].
      by rewrite length_replicate.
    + destruct (K k c' H) as (Hf & ? & csm' & Hcs' & ?). rewrite not_elem_of_cons in Hf.
      split; [tauto|]. split; [done|]. exists csm'. rewrite Hnew; [done|]. rewrite not_elem_of_cons. tauto.
  - intros H. apply F. by right.
  - intros g Hg. destruct (G g Hg) as (gp & Hgp & Hsl & k & Hk). exists gp. split; [done|].
    split; [by apply Hslot; [eapply Hother|]|]. exists k. rewrite lookup_insert_ne; [done|].
    intros <-. by rewrite Hid in Hk.
  - intros k c' i g Hk Hsl. destruct (Hk' k c' Hk) as [[-> ->]|H].
    + destruct Hsl as (Hi & csm' & Hcs' & Hg). rewrite Hcm in Hcs'.
      apply (inj Some) in Hcs' as <-. cbn [csm_gps] in Hg. apply lookup_replicate in Hg as [Hg _]. done.
    + apply Hslot in Hsl; [|by eapply Hother]. by apply (S k c' i g).
Qed.

(** ** Groups and their slots *)

(** Storing [v] in slot [i] of the consumer [csm]. *)
Definition put_slot (i : Z) (v : option Z) (csm : ntg_user_consumer) : ntg_user_consumer :=
  Consumer (csm_data csm) (csm_id csm) (<[Z.to_nat i := v]> (csm_gps csm)).

Lemma set_gps_spec c i v s csm :
  consumers s !! c = Some csm -> 0 <= i < Z.of_nat (length (csm_gps csm)) ->
  set_gps c i v s = Some (set_consumers (<[c := put_slot i v csm]> (consumers s)) s).
Proof. intros Hc Hi. unfold set_gps. rewrite Hc. cbn. by rewrite bool_decide_eq_true_2. Qed.

Lemma in_slot_put s c csm i v c' i' g :
  consumers s !! c = Some csm -> 0 <= i < Z.of_nat (length (csm_gps csm)) -> 
  in_slot (set_consumers (<[c := put_slot i v csm]> (consumers s)) s) c' i' g <->
  (c' = c /\ i' = i /\ v = Some g /\ 0 <= i < NTG_USER_GROUP_SIZE) \/
  (~ (c' = c /\ i' = i) /\ in_slot s c' i' g).
Proof.
  intros Hc Hi. unfold in_slot. cbn [consumers set_consumers]. destruct (decide (c' = c)) as [->|Hn].
  - rewrite lookup_insert_eq, Hc. destruct (decide (i' = i)) as [->|Hi'].
    + split.
      * intros (Hr & csm' & E & Hg). apply (inj Some) in E as <-. cbn [csm_gps put_slot] in Hg.
        rewrite list_lookup_insert_eq in Hg by lia. left. by simplify_eq.
      * intros [(_ & _ & -> & Hr)|[H _]]; [|tauto]. split; [done|]. eexists. split; [done|].
        cbn [csm_gps put_slot]. apply list_lookup_insert_eq. lia.
    + split.
      * intros (Hr & csm' & E & Hg). apply (inj Some) in E as <-. cbn [csm_gps put_slot] in Hg.
        right. split; [tauto|]. split; [done|]. exists csm. split; [done|].
        rewrite list_lookup_insert_ne in Hg; [done|lia].
      * intros [(_ & ? & _)|[_ (Hr & csm' & E & Hg)]]; [done|]. apply (inj Some) in E as <-.
        split; [done|]. eexists. split; [done|]. cbn [csm_gps put_slot].
        rewrite list_lookup_insert_ne; [done|lia].
  - rewrite lookup_insert_ne by done. split; [intros H; right; split; [tauto|done]|].
    intros [(? & _)|[_ H]]; done.
Qed.

(** Consumers whose slots only change. *)
Definition same_csms (cs cs' : gmap Z ntg_user_consumer) : Prop :=
  forall c csm, cs !! c = Some csm -> exists csm', cs' !! c = Some csm' /\
    csm_data csm' = csm_data csm /\ csm_id csm' = csm_id csm /\
    length (csm_gps csm') = length (csm_gps csm).

Lemma same_csms_put cs c csm i v : cs !! c = Some csm -> same_csms cs (<[c := put_slot i v csm]> cs).
Proof.
  intros Hc c' csm' Hc'. destruct (decide (c' = c)) as [->|Hn].
  - rewrite Hc in Hc'. injection Hc' as <-. eexists. rewrite lookup_insert_eq. split; [done|].
    cbn. by rewrite length_insert.
  - rewrite lookup_insert_ne by done. by exists csm'.
Qed.

(** The invariant of the consumers, over a change of slots. *)
Lemma csm_inv_change m m' gs gs' M n cfree :
  csm_inv m gs M n cfree -> mg_table m' = mg_table m -> mg_free_csms m' = mg_free_csms m ->
  mg_free_csm_n m' = mg_free_csm_n m ->
  same_csms (consumers (mg_us m)) (consumers (mg_us m')) ->
  (forall g, is_Some (gs' !! g) -> exists gp, groups (mg_us m') !! g = Some gp /\
    in_slot (mg_us m') (g_consumer gp) (g_gp_id gp) g /\ exists k, M !! k = Some (g_consumer gp)) ->
  (forall k c i g, M !! k = Some c -> in_slot (mg_us m') c i g ->
    is_Some (gs' !! g) /\ exists gp, groups (mg_us m') !! g = Some gp /\
      g_consumer gp = c /\ g_gp_id gp = i) ->
  csm_inv m' gs' M n cfree.
Proof.
  intros I Et Ef En Hs Hg Hsl. pose proof I as [T C N Cn K F G S]. split; try done.
  - eapply table_consumers; [exact I|done|]. intros k c csm _ Hc.
    destruct (Hs c csm Hc) as (csm' & ? & _ & ? & _). by exists csm'.
  - rewrite Ef. clear -C Hs. revert C. generalize (mg_free_csms m).
    induction cfree as [|c l IH]; intros p; cbn; [done|].
    intros (-> & csm & next & Hc & Hn & Hl). split; [done|].
    destruct (Hs c csm Hc) as (csm' & ? & E & _). exists csm', next. rewrite E. auto.
  - by rewrite En.
  - intros k c Hk. destruct (K k c Hk) as (? & ? & csm & Hc & ? & ?).
    destruct (Hs c csm Hc) as (csm' & ? & _ & E & El). split; [done|]. split; [done|].
    exists csm'. by rewrite E, El.
Qed.

(** ** Creating a group *)

(** A group is allocated, and put in an empty slot. *)
Lemma calloc_group_spec g c i m free gs csm :
  pool_inv (mg_us m) free gs -> gs !! g = None -> consumers (mg_us m) !! c = Some csm ->
  0 <= i < Z.of_nat (length (csm_gps csm)) ->
  exists s', calloc_group g c i m = Some (set_mg_us s' m) /\ pool_inv s' free gs /\
    groups s' = <[g := zero_group |> set_g_gp_id i |> set_g_consumer c]> (groups (mg_us m)) /\
    consumers s' = <[c := put_slot i (Some g) csm]> (consumers (mg_us m)) /\
    tasks s' = tasks (mg_us m) /\ is_Some (links s' !! QFree g) /\ is_Some (links s' !! QLive g).
Proof.
  intros I Hg Hc Hi. unfold calloc_group. set (s := mg_us m) in *.
  cbn [groups links consumers set_links set_groups].
  rewrite (set_gps_spec c i (Some g) _ csm) by done. cbn [mbind option_bind].
  eexists. split; [done|]. cbn [groups links consumers tasks set_links set_groups set_consumers].
  split; [|by rewrite lookup_insert_eq, lookup_insert_ne, lookup_insert_eq by done].
  apply pool_inv_consumers. destruct I as [C N K L G A O]. split; try done.
  - intros g' fl ll Hg'. assert (Hne : g' <> g) by (by intros ->; rewrite Hg in Hg').
    destruct (G g' fl ll Hg') as [Q D (gp & H1 & H2)]. split; [|done|].
    + eapply group_queues_frame; [exact Q|]. intros y Hy. cbn.
      rewrite group_nodes_in, list_elem_of_fmap in Hy.
      rewrite !lookup_insert_ne; [done|naive_solver..].
    + exists gp. cbn. by rewrite lookup_insert_ne.
  - intros u Hu. destruct (A u Hu) as [? ?]. split; [|done]. cbn. by rewrite !lookup_insert_ne.
Qed.

(** The counters of a group, once it is configured. *)
Lemma configure_group_fields sm gp :
  let gp' := configure_group sm gp in
  g_users_n gp' = s64 (sm_user_n sm) /\ g_live_n gp' = g_live_n gp /\ g_is_scene gp' = sm_is_scene sm /\
  same_owner gp gp' /\
  (sm_is_scene sm = true -> g_scene gp' = sm_scene sm /\ g_point gp' = sm_st_point sm).
Proof. unfold configure_group. destruct (sm_is_scene sm); cbn; split_and!; try done. Qed.

Lemma start_timer_spec env m :
  mg_task_flag m = true \/
  (se_event_add env = true /\ (mg_ev_task m = None -> se_event_new env = true)) ->
  exists m', start_timer env m = Some (NTG_OK, m') /\ mg_task_flag m' = true /\
    mg_us m' = mg_us m /\ mg_table m' = mg_table m /\ mg_free_csms m' = mg_free_csms m /\
    mg_free_csm_n m' = mg_free_csm_n m /\ mg_task_n m' = mg_task_n m /\
    (mg_task_flag m = false -> mg_ev_task m' = Some true).
Proof.
  intros H. unfold start_timer. destruct (mg_task_flag m) eqn:Ef.
  - by exists m.
  - destruct H as [|[Ha Hn]]; [done|].
    destruct (mg_ev_task m) as [e|]; [|rewrite (Hn eq_refl)]; rewrite Ha; by eexists.
Qed.

(** The message describes a group that can be set up. *)
Record sim_valid (sm : simulation_message) (free : list Z) : Prop := {
  sv_slot : 0 <= sm_gp_id sm < NTG_USER_GROUP_SIZE;
  sv_users : 0 < sm_user_n sm <= Z.of_nat (length free);
  sv_scene : sm_is_scene sm = true -> 0 <= sm_st_point sm < SPILINE_OUTPUT_MAX /\
    length (sm_scene sm) = 24%nat }.

(** The scene of the message, if any, gets its timer. *)
Definition playable (env : sim_env) (sm : simulation_message) : bool :=
  negb (sm_is_scene sm) || se_scene_event env.

Definition timer_works (env : sim_env) (m : manage) : Prop :=
  mg_task_flag m = true \/
  (se_event_add env = true /\ (mg_ev_task m = None -> se_event_new env = true)).

(** The manager with group [g] new in the slot [i] of consumer [c]. *)
Record fresh_group (m : manage) (gs : gmap Z (list Z * list Z)) (c i g : Z) : Prop := {
  fg_new : gs !! g = None;
  fg_group : exists gp, groups (mg_us m) !! g = Some gp /\ g_consumer gp = c /\ g_gp_id gp = i /\
    g_active gp = false /\ g_live_n gp = 0;
  fg_links : is_Some (links (mg_us m) !! QFree g) /\ is_Some (links (mg_us m) !! QLive g);
  fg_slot : in_slot (mg_us m) c i g }.

(** Setting up a new group. *)
Lemma setup_group_spec env sm g c m free gs :
  pool_inv (mg_us m) free gs -> fresh_group m gs c (sm_gp_id sm) g -> sim_valid sm free ->
  let n := Z.to_nat (sm_user_n sm) in
  exists rc s2 gp2, ntg_user_group_init (se_scene_event env) g
      (set_groups (<[g := configure_group sm gp2]> (groups (mg_us m))) (mg_us m)) = Some (rc, s2) /\
    groups (mg_us m) !! g = Some gp2 /\
    pool_inv s2 (drop n free) (<[g := (rev (take n free), [])]> gs) /\
    consumers s2 = consumers (mg_us m) /\ tasks s2 = tasks (mg_us m) /\
    (forall g', g' <> g -> groups s2 !! g' = groups (mg_us m) !! g') /\
    (exists gp', groups s2 !! g = Some gp' /\ same_owner gp2 gp') /\
    (rc =? NTG_OK) = playable env sm.
Proof.
  intros I [Hn (gp & Hgp & Hc & Hi & Ha & Hl) [HQ HL] Hs] [V1 V2 V3] n. 
  destruct (configure_group_fields sm gp) as (F1 & F2 & F3 & (O1 & O2 & O3) & F4).
  assert (Hlim := pool_bound _ _ _ I).
  assert (Hun : g_users_n (configure_group sm gp) = sm_user_n sm) by (rewrite F1, s64_small; width; lia).
  pose proof (group_init_spec (se_scene_event env) g
    (set_groups (<[g := configure_group sm gp]> (groups (mg_us m))) (mg_us m))
    (configure_group sm gp) free gs) as HI.
  rewrite Hun in HI. cbv zeta in HI. rewrite (proj2 (Z.ltb_ge _ _)) in HI by lia.
  destruct HI as (rc & s2 & E & I2 & U2 & C2 & T2 & G2 & (gp' & Hgp' & P1 & P2 & P3) & Hrc).
  - apply pool_inv_groups; [exact I|]. intros g' gp' Hg' Hgp'. destruct (decide (g' = g)) as [->|?].
    + rewrite Hn in Hg'. by destruct Hg'.
    + rewrite lookup_insert_ne by done. by exists gp'.
  - done.
  - cbn. apply lookup_insert_eq.
  - done.
  - done.
  - width. lia.
  - by rewrite F2.
  - intros Hsc. rewrite F3 in Hsc. destruct (F4 Hsc) as [-> ->]. by apply V3.
  - exists rc, s2, gp. split; [exact E|]. split; [done|]. split; [exact I2|]. split; [done|]. split; [done|].
    split; [|split].
    + intros g' Hg'. rewrite G2 by done. cbn. by rewrite lookup_insert_ne.
    + exists gp'. split; [done|]. split_and!; congruence.
    + unfold playable. rewrite F3 in Hrc. destruct (sm_is_scene sm) eqn:Es; cbn [negb orb].
      * apply eq_true_iff_eq. rewrite Z.eqb_eq. tauto.
      * apply Z.eqb_eq. by apply Hrc.
Qed.

(** After a failed set-up the consumers are as before. *)
Lemma put_slot_back i g csm :
  csm_gps csm !! Z.to_nat i = Some None -> put_slot i None (put_slot i (Some g) csm) = csm.
Proof.
  intros H. unfold put_slot. cbn. rewrite list_insert_insert_eq, list_insert_id by done.
  by destruct csm.
Qed.

(** A simulation message for a known consumer with a free slot. *)
Lemma simulate_known env sm g k c csm m free gs M n cfree ts :
  manage_inv m free gs M n cfree ts -> sim_valid sm free -> timer_works env m ->
  se_calloc env = Some g -> groups (mg_us m) !! g = None -> is_s64 (mg_task_n m + 1) ->
  M !! k = Some c -> consumers (mg_us m) !! c = Some csm ->
  csm_gps csm !! Z.to_nat (sm_gp_id sm) = Some None ->
  let u := Z.to_nat (sm_user_n sm) in
  exists m1 rc m', get_or_create_group env c (sm_gp_id sm) m = Some (Some g, m1) /\
    setup_group env sm g m1 = Some (rc, m') /\
    if playable env sm
    then rc = NTG_OK /\
      manage_inv m' (drop u free) (<[g := (rev (take u free), [])]> gs) M n cfree (g :: ts) /\
      mg_task_flag m' = true /\ in_slot (mg_us m') c (sm_gp_id sm) g
    else rc = NTG_ERROR /\ manage_inv m' free gs M n cfree ts.
Proof.
  intros [I CI TI] V W Hg Hgg Hlim Hk Hc Hslot u.
  pose proof CI as [_ _ _ _ K _ G S]. destruct (K k c Hk) as (_ & _ & csm' & Hc' & _ & Hlen).
  rewrite Hc in Hc'. apply (inj Some) in Hc' as <-. pose proof V as [V1 _ _].
  assert (Hi : 0 <= sm_gp_id sm < Z.of_nat (length (csm_gps csm))) by (rewrite Hlen; unfold NTG_USER_GROUP_SIZE in *; lia).
  assert (Hgs : gs !! g = None).
  { destruct (gs !! g) eqn:E; [|done]. destruct (G g ltac:(by eexists)) as (gp & Hgp & _). congruence. }
  unfold get_or_create_group, get_gps. rewrite Hc. cbn [mbind option_bind].
  rewrite (proj2 (Z.ltb_ge _ _)) by lia. rewrite Hslot. cbn [mbind option_bind]. rewrite Hg.
  destruct (calloc_group_spec g c (sm_gp_id sm) m free gs csm) as (s1 & E1 & I1 & G1 & C1 & T1 & L1 & L2);
    [done..|]. rewrite E1. cbn [mbind option_bind].
  assert (Hsl1 : forall c' i' g', in_slot s1 c' i' g' <->
    (c' = c /\ i' = sm_gp_id sm /\ Some g = Some g' /\ 0 <= sm_gp_id sm < NTG_USER_GROUP_SIZE) \/
    (~ (c' = c /\ i' = sm_gp_id sm) /\ in_slot (mg_us m) c' i' g')).
  { intros c' i' g'. rewrite <-(in_slot_put (mg_us m) c csm) by done. unfold in_slot. by rewrite C1. }
  destruct (setup_group_spec env sm g c (set_mg_us s1 m) free gs) as
    (rc & s2 & gp2 & E2 & Hgp2 & I2 & C2 & T2 & G2 & (gp3 & Hgp3 & O1 & O2 & O3) & Hrc); [done| |done|].
  { split; [done| |done|].
    - cbn. rewrite G1, lookup_insert_eq. by eexists.
    - cbn. apply Hsl1. left. done. }
  cbn [mg_us set_mg_us] in *. assert (Hgs1 := Hgp2). rewrite G1, lookup_insert_eq in Hgp2.
  apply (inj Some) in Hgp2.
  assert (O1' : g_consumer gp3 = c) by (by rewrite O1, <-Hgp2).
  assert (O2' : g_gp_id gp3 = sm_gp_id sm) by (by rewrite O2, <-Hgp2).
  assert (O3' : g_active gp3 = false) by (by rewrite O3, <-Hgp2).
  assert (G2' : forall g', g' <> g -> groups s2 !! g' = groups (mg_us m) !! g').
  { intros g' Hn. rewrite G2, G1 by done. by rewrite lookup_insert_ne. }
  assert (Hgt : g ∉ ts) by (intros H; apply (ti_groups _ _ _ TI) in H; rewrite Hgs in H; by destruct H).
  assert (Hch : task_chain (groups s2) (tasks (mg_us m)) ts).
  { eapply task_chain_frame; [apply (ti_chain _ _ _ TI)|]. intros g' Hg'. apply G2'. by intros ->. }
  exists (set_mg_us s1 m). unfold setup_group, modify_group. cbn [mg_us set_mg_us].
  rewrite Hgs1. cbn [mbind option_bind]. rewrite E2.
  cbn [mbind option_bind]. rewrite Hrc. destruct (playable env sm); cbn [negb].
  - rewrite Hgp3. cbn [mbind option_bind]. set (gp4 := set_g_active true _).
    set (s4 := set_groups _ s2). set (m4 := set_mg_task_n _ _).
    destruct (start_timer_spec env m4 W) as (m' & E & Hf & Hus & Htb & Hfc & Hfn & Htn & _).
    exists NTG_OK, m'. split; [done|]. split; [exact E|]. split; [done|].
    assert (Hg4 : groups (mg_us m') = <[g := gp4]> (groups s2)) by (by rewrite Hus).
    assert (Hc4 : consumers (mg_us m') = consumers s1) by (rewrite Hus; exact C2).
    assert (Hsl4 : forall c' i' g', in_slot (mg_us m') c' i' g' <-> in_slot s1 c' i' g')
      by (intros; unfold in_slot; by rewrite Hc4).
    split; [split|split; [done|]].
    + rewrite Hus. apply pool_inv_tasks. by apply (pool_inv_modify s2 _ _ g gp3).
    + eapply csm_inv_change; [exact CI|done..| | |].
      * rewrite Hc4, C1. by apply same_csms_put.
      * intros g' [fl Hg']. rewrite Hg4. destruct (decide (g' = g)) as [->|Hn].
        -- exists gp4. rewrite lookup_insert_eq. cbn [g_consumer g_gp_id gp4 set_g_active set_g_data].
           rewrite O1', O2'. split; [done|]. split; [|by exists k]. apply Hsl4, Hsl1. by left.
        -- rewrite lookup_insert_ne in Hg' by done. destruct (G g') as (gp & Hgp & Hs & Hkk); [by eexists|].
           exists gp. rewrite lookup_insert_ne, G2' by done. split; [done|]. split; [|done].
           apply Hsl4, Hsl1. right. split; [|done]. intros [E3 E4]. rewrite E3, E4 in Hs.
           destruct Hs as (_ & csm' & Hc' & Hgg'). rewrite Hc in Hc'. apply (inj Some) in Hc' as <-. congruence.
      * intros k' c' i' g' Hk'. rewrite Hsl4, Hsl1. intros [(-> & -> & [= <-] & _)|[_ Hs]].
        -- rewrite lookup_insert_eq, Hg4, lookup_insert_eq. split; [by eexists|]. exists gp4.
           cbn [g_consumer g_gp_id gp4 set_g_active set_g_data]. done.
        -- destruct (S k' c' i' g' Hk' Hs) as (Hgg' & gp & Hgp & ? & ?).
           assert (g' <> g) by (by intros ->; congruence).
           rewrite lookup_insert_ne by done. split; [done|]. exists gp.
           by rewrite Hg4, lookup_insert_ne, G2' by done.
    + split.
      * rewrite Hus. cbn. split; [done|]. exists gp4. rewrite lookup_insert_eq. split; [done|].
        cbn [g_data gp4 set_g_active set_g_data]. rewrite T2, T1.
        eapply task_chain_frame; [exact Hch|]. intros g' Hg'. apply lookup_insert_ne. by intros ->.
      * apply NoDup_cons. split; [done|apply (ti_nodup _ _ _ TI)].
      * intros g' [->|Hg']%elem_of_cons; [rewrite lookup_insert_eq; by eexists|].
        rewrite lookup_insert_is_Some'. right. by apply (ti_groups _ _ _ TI).
      * rewrite Htn. cbn [mg_task_n m4 set_mg_task_n set_mg_us]. destruct (ti_count _ _ _ TI) as [Ht _].
        rewrite u64_small by (width; lia). split; [|done]. rewrite Ht. cbn [length]. lia.
    + apply Hsl4, Hsl1. by left.
  - destruct (group_free_spec s2 (drop u free) (<[g := (rev (take u free), [])]> gs) g
      (rev (take u free)) [] gp3 (put_slot (sm_gp_id sm) (Some g) csm) [] ts)
      as (s5 & E5 & I5 & G5 & Ch5 & C5 & O5).
    + exact I2.
    + apply lookup_insert_eq.
    + done.
    + rewrite O1', C2, C1. apply lookup_insert_eq.
    + rewrite O2'. cbn. by rewrite length_insert.
    + rewrite O3', T2, T1. done.
    + cbn. apply NoDup_cons. split; [done|apply (ti_nodup _ _ _ TI)].
    + rewrite E5. cbn [mbind option_bind]. eexists _, _. split; [done|]. split; [done|]. split; [done|].
      cbn [rev app] in I5. rewrite rev_involutive, take_drop in I5.
      rewrite delete_insert_id in I5 by done.
      assert (Hc5 : consumers s5 = consumers (mg_us m)).
      { rewrite C5, O1', O2', C2, C1. change (Consumer _ _ _) with (put_slot (sm_gp_id sm) None (put_slot (sm_gp_id sm) (Some g) csm)).
        rewrite put_slot_back, insert_insert_eq by done. by apply insert_id. }
      assert (Hsl5 : forall c' i' g', in_slot s5 c' i' g' <-> in_slot (mg_us m) c' i' g')
        by (intros; unfold in_slot; by rewrite Hc5).
      split; [exact I5| |].
      * eapply csm_inv_change; [exact CI|done..| | |].
        -- cbn [mg_us set_mg_us]. rewrite Hc5. intros c' csm' Hc'. by exists csm'.
        -- intros g' Hg'. destruct (G g' Hg') as (gp & Hgp & Hs & Hkk).
           assert (Hn : g' <> g) by (intros ->; congruence).
           rewrite <-G2' in Hgp by done. destruct (O5 g' gp Hn Hgp) as [d Hd]. exists (set_g_data d gp).
           split; [done|]. split; [by apply Hsl5|done].
        -- intros k' c' i' g' Hk' Hs. apply Hsl5 in Hs. destruct (S k' c' i' g' Hk' Hs) as (Hg' & gp & Hgp & ? & ?).
           split; [done|]. assert (Hn : g' <> g) by (intros ->; congruence).
           rewrite <-G2' in Hgp by done. destruct (O5 g' gp Hn Hgp) as [d Hd]. by exists (set_g_data d gp).
      * destruct TI as [? ? ? ?]. split; try done.
Qed.

(** A simulation message with a slot that is free, for users that are there,
    creates the consumer when it is not known, and the group: when the scene of
    the message can be played the group holds exactly the users asked for, all
    idle, is in its slot, and is the first task, with the timer running; when
    it cannot, the group is freed again and every user is back in its place.
    The invariant of the manager holds in both cases. *)
Lemma simulation_ok env sm g m free gs M n cfree ts :
  manage_inv m free gs M n cfree ts -> sim_valid sm free -> timer_works env m ->
  se_calloc env = Some g -> groups (mg_us m) !! g = None -> is_s64 (mg_task_n m + 1) ->
  match M !! u64 (sm_csm_id sm) with
  | Some c => exists csm, consumers (mg_us m) !! c = Some csm /\
      csm_gps csm !! Z.to_nat (sm_gp_id sm) = Some None
  | None => cfree <> [] /\ n <> O
  end ->
  let u := Z.to_nat (sm_user_n sm) in
  exists rc m' c n' cfree', ntg_user_simulation_process env sm m = Some (rc, m') /\
    let M' := <[u64 (sm_csm_id sm) := c]> M in
    if playable env sm
    then rc = NTG_OK /\
      manage_inv m' (drop u free) (<[g := (rev (take u free), [])]> gs) M' n' cfree' (g :: ts) /\
      mg_task_flag m' = true /\ in_slot (mg_us m') c (sm_gp_id sm) g
    else rc = NTG_ERROR /\ manage_inv m' free gs M' n' cfree' ts.
Proof.
  intros I V W Hg Hgg Hlim Hcase u. unfold ntg_user_simulation_process.
  destruct (M !! u64 (sm_csm_id sm)) as [c|] eqn:Hk.
  - destruct Hcase as (csm & Hc & Hslot). unfold get_or_create_consumer.
    rewrite (find_consumer_spec _ _ _ _ _ _ (mi_csm _ _ _ _ _ _ _ I)), Hk. cbn [mbind option_bind].
    destruct (simulate_known env sm g _ c csm m free gs M n cfree ts I V W Hg Hgg Hlim Hk Hc Hslot)
      as (m1 & rc & m' & E1 & E2 & H).
    rewrite E1. cbn [mbind option_bind]. rewrite E2. exists rc, m', c, n, cfree. split; [done|].
    cbv zeta. rewrite (insert_id M) by done. exact H.
  - destruct Hcase as [Hcf Hn]. destruct cfree as [|c cfree]; [done|]. destruct n as [|n]; [done|].
    destruct I as [I CI TI].
    destruct (create_consumer_spec m gs M n c cfree _ CI Hk) as (m0 & E0 & CI0 & U0 & T0 & F0 & V0).
    rewrite E0. cbn [mbind option_bind].
    destruct (simulate_known env sm g (u64 (sm_csm_id sm)) c
      (Consumer PManage (s64 (sm_csm_id sm)) (replicate (Z.to_nat NTG_USER_GROUP_SIZE) None))
      m0 free gs (<[u64 (sm_csm_id sm) := c]> M) n cfree ts) as (m1 & rc & m' & E1 & E2 & H); try done.
    + split; [rewrite U0; by apply pool_inv_consumers|done|].
      destruct TI as [H1 H2 H3 H4]. split; rewrite ?U0, ?T0; done.
    + unfold timer_works. by rewrite F0, V0.
    + by rewrite U0.
    + by rewrite T0.
    + apply lookup_insert_eq.
    + rewrite U0. apply lookup_insert_eq.
    + cbn [csm_gps]. apply lookup_replicate. split; [done|]. destruct V as [V1 _ _].
      unfold NTG_USER_GROUP_SIZE in *. lia.
    + rewrite E1. cbn [mbind option_bind]. rewrite E2. by exists rc, m', c, n, cfree.
Qed.

(** ** Deleting a group *)

(** A control message that deletes a group which is no task gives all its
    users back to the pool, frees it and empties its slot, and the invariant
    of the manager holds again; for a consumer that is not known, or an empty
    slot, nothing changes. *)
Lemma control_delete_ok id i m free gs M n cfree ts :
  manage_inv m free gs M n cfree ts -> 0 <= i < NTG_USER_GROUP_SIZE ->
  match M !! u64 id with
  | None => ntg_user_control_process id i NTG_CTL_DELETE m = Some (NTG_OK, m)
  | Some c => exists csm, consumers (mg_us m) !! c = Some csm /\
      match csm_gps csm !! Z.to_nat i with
      | Some (Some g) => exists gp fl ll, groups (mg_us m) !! g = Some gp /\ gs !! g = Some (fl, ll) /\
          (g_active gp = false -> g ∉ ts ->
           exists m', ntg_user_control_process id i NTG_CTL_DELETE m = Some (NTG_OK, m') /\
             manage_inv m' (rev ll ++ rev fl ++ free) (delete g gs) M n cfree ts /\
             groups (mg_us m') !! g = None /\
             forall g', ~ in_slot (mg_us m') c i g')
      | _ => ntg_user_control_process id i NTG_CTL_DELETE m = Some (NTG_OK, m)
      end
  end.
Proof.
  intros [I CI TI] Hi. pose proof CI as [_ _ _ _ K _ G S].
  unfold ntg_user_control_process. rewrite (find_consumer_spec _ _ _ _ _ _ CI). cbn [mbind option_bind].
  destruct (M !! u64 id) as [c|] eqn:Hk; [|done].
  destruct (K _ c Hk) as (_ & _ & csm & Hc & _ & Hlen). exists csm. split; [done|].
  change (NTG_CTL_DELETE =? NTG_CTL_DELETE) with true. cbn iota. unfold get_gps. rewrite Hc.
  cbn [mbind option_bind]. rewrite (proj2 (Z.ltb_ge _ _)) by lia.
  destruct (csm_gps csm !! Z.to_nat i) as [[g|]|] eqn:Hs; cbn [mbind option_bind].
  2: done.
  2: { apply lookup_ge_None in Hs. rewrite Hlen in Hs. unfold NTG_USER_GROUP_SIZE in *. lia. }
  assert (Hin : in_slot (mg_us m) c i g) by (split; [done|]; by exists csm).
  destruct (S _ c i g Hk Hin) as ([[fl ll] Hg] & gp & Hgp & Hgc & Hgi).
  exists gp, fl, ll. split; [done|]. split; [done|]. intros Ha Hgt.
  destruct (group_free_spec (mg_us m) free gs g fl ll gp csm [] ts)
    as (s' & E' & I' & G' & Ch' & C' & O'); [done|done|done|by rewrite Hgc| | | |].
  { rewrite Hgi, Hlen. unfold NTG_USER_GROUP_SIZE in *. lia. }
  { rewrite Ha. apply (ti_chain _ _ _ TI). }
  { cbn. apply NoDup_cons. split; [done|apply (ti_nodup _ _ _ TI)]. }
  rewrite E'. cbn [mbind option_bind]. eexists. split; [done|].
  rewrite Hgc, Hgi in C'. change (Consumer _ _ _) with (put_slot i None csm) in C'.
  assert (Hl : 0 <= i < Z.of_nat (length (csm_gps csm))) by (rewrite Hlen; unfold NTG_USER_GROUP_SIZE in *; lia).
  assert (Hsl : forall c' i' g', in_slot s' c' i' g' <-> ~ (c' = c /\ i' = i) /\ in_slot (mg_us m) c' i' g').
  { intros c' i' g'. transitivity (in_slot (set_consumers (<[c := put_slot i None csm]> (consumers (mg_us m))) (mg_us m)) c' i' g').
    - unfold in_slot. by rewrite C'.
    - rewrite in_slot_put by done. naive_solver. }
  split; [|split; [done|intros g' H; apply Hsl in H; tauto]]. split; [exact I'| |].
  - eapply csm_inv_change; [exact CI|done..| | |]; cbn [mg_us set_mg_us].
    + rewrite C'. by apply same_csms_put.
    + intros g' Hg'. assert (Hn : g' <> g) by (intros ->; rewrite lookup_delete_eq in Hg'; by destruct Hg').
      rewrite lookup_delete_ne in Hg' by done. destruct (G g' Hg') as (gp' & Hgp' & Hs' & Hkk).
      destruct (O' g' gp' Hn Hgp') as [d Hd]. exists (set_g_data d gp'). split; [done|]. split; [|done].
      apply Hsl. split; [|done]. cbn. intros [E1 E2]. rewrite E1, E2 in Hs'.
      destruct Hs' as (_ & csm' & Hc' & Hg2). congruence.
    + intros k' c' i' g' Hk' Hs'. apply Hsl in Hs' as [Hne Hs'].
      destruct (S k' c' i' g' Hk' Hs') as (Hg' & gp' & Hgp' & Hc' & Hi').
      assert (Hn : g' <> g).
      { intros ->. rewrite Hgp in Hgp'. injection Hgp' as <-. apply Hne. split; congruence. }
      rewrite lookup_delete_ne by done. split; [done|]. destruct (O' g' gp' Hn Hgp') as [d Hd].
      by exists (set_g_data d gp').
  - destruct TI as [H1 H2 H3 H4]. split; try done. intros g' Hg'. rewrite lookup_delete_ne by (by intros ->). auto.
Qed.

(** ** A manager that has just been initialised *)

Lemma nodup_numbers n : NoDup (map Z.of_nat (seq 0 n)).
Proof. apply (NoDup_fmap_2 Z.of_nat), NoDup_seq. Qed.

Lemma in_numbers u n : u ∈ map Z.of_nat (seq 0 n) <-> 0 <= u < Z.of_nat n.
Proof.
  rewrite list_elem_of_fmap. split.
  - intros (i & -> & Hi%elem_of_seq). lia.
  - intros H. exists (Z.to_nat u). rewrite elem_of_seq. lia.
Qed.

(** Initialisation, when the memory is there, sets up the whole invariant: all
    users are in the pool, all consumers are free, there are no groups and no
    tasks, and no timer runs.  It needs two consumers at least. *)
Lemma manage_init_ok env user_n consumes :
  ie_users env = true -> ie_csms env = true -> ie_table env = true -> ie_hash env = true ->
  ie_balance env = true -> 0 < user_n < 9223372036854775807 ->
  let csm_n := if consumes =? NTG_CONF_UNSET then NTG_USER_DEFAULT_CONSUMER_NUM else consumes in
  2 <= csm_n < 9223372036854775807 ->
  exists m, ntg_user_manage_init env user_n consumes = Some (NTG_OK, Some m) /\
    manage_inv m (map Z.of_nat (seq 0 (Z.to_nat user_n))) ∅ ∅ (Z.to_nat csm_n)
      (map Z.of_nat (seq 0 (Z.to_nat csm_n))) [] /\
    mg_task_flag m = false.
Proof.
  intros H1 H2 H3 H4 H5 Hu csm_n Hc. unfold ntg_user_manage_init. rewrite H1, H2, H3, H4, H5.
  cbn [negb]. rewrite (proj2 (Z.leb_gt _ _)) by lia.
  pose proof (user_pool_loop_spec (ie_junk_user env) (Z.to_nat user_n) None ∅ [] eq_refl ltac:(constructor)) as HU.
  destruct (user_pool_loop _ _ _ _) as [fu us]. destruct HU as [HU HD]. rewrite app_nil_r in HU.
  assert (Ec : (if negb (consumes =? NTG_CONF_UNSET) then u64 consumes else NTG_USER_DEFAULT_CONSUMER_NUM) = csm_n).
  { subst csm_n. destruct (consumes =? NTG_CONF_UNSET); cbn [negb] in *; [done|]. apply u64_small. width. lia. }
  rewrite Ec. rewrite (proj2 (Z.leb_gt csm_n 0)) by lia.
  pose proof (csm_pool_loop_spec (ie_junk_csm env) (Z.to_nat csm_n) None ∅ [] eq_refl ltac:(constructor)) as HC.
  destruct (csm_pool_loop _ _ _ _) as [fc cs]. rewrite app_nil_r in HC.
  assert (Hsz : 0 < csm_n * 2 / 3) by (Z.to_euclidean_division_equations; lia).
  destruct (table_init_rep (fun _ => 0) (csm_n * 2 / 3) csm_n Hsz ltac:(lia)) as (t & Et & _).
  rewrite Et. cbn [mbind option_bind]. eexists. split; [done|]. split; [|done].
  assert (Hd : forall u, is_Some (us !! u) <-> 0 <= u < user_n).
  { intros u. rewrite HD, lookup_empty, Z2Nat.id by lia. split; [intros [[? ?]|?]; done|by right]. }
  split; cbn [mg_us].
  - split; cbn [users links free_users free_user_n]; try done.
    + apply nodup_numbers.
    + rewrite length_map, length_seq. lia.
    + assert (Hdom : dom us = list_to_set (C := gset Z) (map Z.of_nat (seq 0 (Z.to_nat user_n)))).
      { apply set_eq. intros u. rewrite elem_of_dom, Hd, elem_of_list_to_set, in_numbers. lia. }
      rewrite <-size_dom, Hdom, size_list_to_set by apply nodup_numbers.
      rewrite length_map, length_seq. lia.
    + intros u Hu'%Hd. split; [apply pool_links_spec; lia|]. left. apply in_numbers. lia.
    + intros g u (? & ? & H & _). by rewrite lookup_empty in H.
  - split; cbn [mg_us mg_table mg_free_csms mg_free_csm_n consumers groups]; try done.
    + intros tmp. destruct (table_init_rep (csm_key (Manage (UState us ∅ cs
        (pool_links (Z.to_nat user_n) (ie_junk_link env)) fu user_n None) (Some 0) fc csm_n t 0 false (ie_ev_task env)) tmp)
        (csm_n * 2 / 3) csm_n Hsz ltac:(lia)) as (t' & Et' & R & Hk).
      rewrite Et in Et'. injection Et' as <-. eexists _, _. split; [exact R|]. split.
      * by rewrite length_map, length_seq.
      * intros k. by rewrite Hk, lookup_empty.
    + apply nodup_numbers.
    + rewrite length_map, length_seq. width. lia.
    + rewrite in_numbers. unfold TMP_CSM. lia.
    + intros g [? H]. by rewrite lookup_empty in H.
  - split; cbn [mg_us mg_task_n tasks groups]; try done; [apply NoDup_nil_2|by intros g ?%elem_of_nil].
Qed.
