(* ===== verification/UserTasks.v ===== *)
(** * The task timer: bringing the groups to their numbers of users

    What [ntg_user_manage_process_task] of ntg_user_manage.c promises: every
    group of the chain of tasks is activated once, and exactly the groups that
    are not there yet stay in the chain. *)

From Stdlib Require Import SpecFloat.
From S2P Require Import Prelude Queue Sprintf Spline Table UserGroup UserPool UserManage UserSim.

(** The draws [d] are enough for the activation of group [g], whose idle users
    can be activated. *)
Definition task_ready (s : ustate) (gs : gmap Z (list Z * list Z)) (g : Z) (d : list draw * bool) : Prop :=
  exists fl ll gp, gs !! g = Some (fl, ll) /\ groups s !! g = Some gp /\ Forall (ready s) fl /\
    Z.of_nat (length ll) <= target gp <= g_users_n gp /\
    (g_is_scene gp = true -> is_Some (g_event gp)) /\
    (Z.to_nat (Z.min (target gp - Z.of_nat (length ll)) NTG_MAX_ACTIVATE_NUM) <= length d.1)%nat.

(** Group [g] has fewer or more live users than it should have. *)
Definition lagging (s : ustate) (gs : gmap Z (list Z * list Z)) (g : Z) : bool :=
  match gs !! g, groups s !! g with
  | Some (_, ll), Some gp => negb (Z.of_nat (length ll) =? target gp)
  | _, _ => false
  end.

(** What the activation of group [g] has done between [s] and [s']. *)
Definition task_outcome (s : ustate) (gs : gmap Z (list Z * list Z)) (s' : ustate)
    (gs' : gmap Z (list Z * list Z)) (g : Z) (d : list draw * bool) : Prop :=
  exists fl ll gp fl' new, gs !! g = Some (fl, ll) /\ groups s !! g = Some gp /\
    gs' !! g = Some (fl', new ++ ll) /\ fl' ++ new ≡ₚ fl /\ Forall (running s') new /\
    Forall (ready s') fl' /\
    let n := Z.to_nat (Z.min (target gp - Z.of_nat (length ll)) NTG_MAX_ACTIVATE_NUM) in
    (length new <= n)%nat /\ (Forall good (take n d.1) -> new = rev (take n fl)).

(** One turn of the loop. *)
Record task_turn (g : Z) (gp : ntg_user_group) (d : list draw * bool) (s : ustate)
    (gs : gmap Z (list Z * list Z)) (p : option Z) (s1 : ustate)
    (gs1 : gmap Z (list Z * list Z)) : Prop := {
  tt_tasks : tasks s1 = g_data gp;
  tt_consumers : consumers s1 = consumers s;
  tt_other : forall g', g' <> g -> groups s1 !! g' = groups s !! g' /\ gs1 !! g' = gs !! g';
  tt_group : exists gp1, groups s1 !! g = Some gp1 /\
    g_data gp1 = (if lagging s1 gs1 g then p else None) /\ g_active gp1 = false /\
    g_consumer gp1 = g_consumer gp /\ g_gp_id gp1 = g_gp_id gp /\ same_plan gp gp1;
  tt_users : forall v, (forall fl ll, gs !! g = Some (fl, ll) -> v ∉ fl) ->
    users s1 !! v = users s !! v;
  tt_outcome : task_outcome s gs s1 gs1 g d }.

Lemma task_step n g d drs s gs free p count gp :
  pool_inv s free gs -> tasks s = Some g -> groups s !! g = Some gp -> task_ready s gs g d ->
  exists s1 gs1, pool_inv s1 free gs1 /\ task_turn g gp d s gs p s1 gs1 /\
    task_loop (S n) (d :: drs) p count s =
    task_loop n drs (if lagging s1 gs1 g then Some g else p)
      (if lagging s1 gs1 g then u64 (count + 1) else count) s1.
Proof.
  intros I Ht Hgp (fl & ll & gp0 & Hg & Hgp0 & Hr & Htg & Hev & Hd). rewrite Hgp in Hgp0.
  injection Hgp0 as <-. destruct d as [dr ev]. cbn [fst] in Hd.
  cbn [task_loop]. rewrite Ht. cbn [mbind option_bind]. rewrite Hgp. cbn [mbind option_bind].
  unfold modify_group. cbn [groups set_tasks]. rewrite Hgp. cbn [mbind option_bind].
  set (s0 := set_groups _ (set_tasks _ s)).
  assert (I0 : pool_inv s0 free gs).
  { apply (pool_inv_modify (set_tasks (g_data gp) s) _ _ g gp); try done. by apply pool_inv_tasks. }
  destruct (activate_spec dr ev g NTG_MAX_ACTIVATE_NUM s0 (set_g_data None gp) fl ll free gs)
    as (rc & s1 & fl' & new & E & I1 & P & N & L & G & Hrc & Hok & [T1 C1 O1 U1 G1] & Hrd);
    [done|done| | |done|done|done|exact Hd|].
  { subst s0. cbn. apply lookup_insert_eq. }
  { eapply Forall_impl; [exact Hr|]. intros u Hu. eapply ready_mono; [exact Hu|done|].
    intros g' ?. subst s0. cbn. apply lookup_insert_is_Some'. by right. }
  rewrite E. cbn [mbind option_bind].
  destruct (G1 (set_g_data None gp)) as (gp1 & Hgp1 & D1 & E1 & F1 & A1 & X1);
    [subst s0; cbn; apply lookup_insert_eq|]. assert (Xt : target gp1 = target gp) by apply X1.
  set (gs1 := <[g := (fl', new ++ ll)]> gs) in *.
  assert (Hlag : forall s2 gp2, groups s2 !! g = Some gp2 -> target gp2 = target gp ->
    lagging s2 gs1 g = negb (rc =? NTG_OK)).
  { intros s2 gp2 H1 H2. unfold lagging. rewrite H1, H2. subst gs1. rewrite lookup_insert_eq. f_equal.
    apply eq_true_iff_eq. rewrite !Z.eqb_eq. by rewrite Hok. }
  assert (Hout : forall s2, users s2 = users s1 ->
    (forall g', is_Some (groups s1 !! g') -> is_Some (groups s2 !! g')) ->
    task_outcome s gs s2 gs1 g (dr, ev)).
  { intros s2 Hu2 Hg2. exists fl, ll, gp, fl', new. split; [done|]. split; [done|].
    split; [subst gs1; apply lookup_insert_eq|]. split; [done|].
    split; [|split; [|by split; [|intros Hgd; apply G]]].
    2: { eapply Forall_impl; [exact Hrd|]. intros u Hu'. by eapply ready_mono; [exact Hu'|rewrite Hu2|]. }
    eapply Forall_impl; [exact L|]. intros u. unfold running. by rewrite Hu2. }
  assert (Hother : forall g', g' <> g -> groups s1 !! g' = groups s !! g' /\ gs1 !! g' = gs !! g').
  { intros g' Hg'. subst gs1. rewrite lookup_insert_ne by done. split; [|done]. rewrite O1 by done.
    subst s0. cbn. by rewrite lookup_insert_ne. }
  assert (Husers : forall v, (forall fl ll, gs !! g = Some (fl, ll) -> v ∉ fl) -> users s1 !! v = users s !! v).
  { intros v Hv. rewrite U1; [done|]. by eapply Hv. }
  destruct (rc =? NTG_OK) eqn:Erc; cbn [negb mbind option_bind] in *.
  - rewrite Hgp1. cbn [mbind option_bind]. set (s2 := set_groups _ s1).
    assert (Hl2 : lagging s2 gs1 g = false).
    { eapply Hlag; [subst s2; cbn; apply lookup_insert_eq|exact Xt]. }
    exists s2, gs1. rewrite Hl2. split; [by apply (pool_inv_modify s1 _ _ g gp1)|]. split; [|done].
    split; try done.
    + intros g' Hg'. subst s2. cbn. rewrite lookup_insert_ne by done. by apply Hother.
    + rewrite Hl2. eexists. subst s2. cbn. rewrite lookup_insert_eq. split; [done|]. done.
    + apply Hout; [done|]. intros g' ?. subst s2. cbn. rewrite ?insert_insert_eq.
      apply lookup_insert_is_Some'. by right.
  - rewrite Hgp1. cbn [mbind option_bind groups set_groups]. rewrite lookup_insert_eq. cbn [mbind option_bind].
    rewrite insert_insert_eq. set (s2 := set_groups _ _).
    assert (Hl2 : lagging s2 gs1 g = true).
    { eapply Hlag; [subst s2; cbn; apply lookup_insert_eq|exact Xt]. }
    exists s2, gs1. rewrite Hl2. split; [by apply (pool_inv_modify s1 _ _ g gp1)|]. split; [|done].
    split; try done.
    + intros g' Hg'. subst s2. cbn. rewrite lookup_insert_ne by done. by apply Hother.
    + rewrite Hl2. eexists. subst s2. cbn. rewrite lookup_insert_eq. split; [done|]. done.
    + apply Hout; [done|]. intros g' ?. subst s2. cbn. rewrite ?insert_insert_eq.
      apply lookup_insert_is_Some'. by right.
Qed.

(** The users of different groups are different. *)
Lemma groups_disjoint s free gs g g' fl ll fl' ll' u :
  pool_inv s free gs -> gs !! g = Some (fl, ll) -> gs !! g' = Some (fl', ll') -> g' <> g ->
  u ∈ fl ++ ll -> u ∉ fl' ++ ll'.
Proof.
  intros I Hg Hg' Hn Hu Hu'. apply Hn.
  apply (pi_own _ _ _ I g u); [by exists fl, ll|by exists fl', ll'].
Qed.

(** The rest of the chain stays ready over a turn. *)
Lemma task_turn_ready g gp d s gs p s1 gs1 free g' d' :
  pool_inv s free gs -> groups s !! g = Some gp -> task_turn g gp d s gs p s1 gs1 -> g' <> g ->
  task_ready s gs g' d' -> task_ready s1 gs1 g' d'.
Proof.
  intros I Hgp [_ _ O G U _] Hn (fl & ll & gp' & Hg' & Hgp' & Hr & Hx).
  destruct (O g' Hn) as [Eg Es]. exists fl, ll, gp'. rewrite Eg, Es. split; [done|].
  split; [done|]. split; [|exact Hx].
  rewrite Forall_forall in Hr |- *. intros u Hu. eapply ready_mono; [by apply Hr| |].
  - apply U. intros fl0 ll0 Hg Hf. apply (groups_disjoint s free gs g g' fl0 ll0 fl ll u); [done..| |];
      apply elem_of_app; by left.
  - intros g2 H2. destruct (decide (g2 = g)) as [->|Hn2].
    + destruct G as (gp1 & -> & _). by eexists.
    + by destruct (O g2 Hn2) as [-> _].
Qed.

(** A finished activation is not disturbed by the turns of other groups. *)
Lemma task_outcome_later s gs s1 gs1 s' gs' g d :
  task_outcome s gs s1 gs1 g d -> gs' !! g = gs1 !! g ->
  (forall g', is_Some (groups s1 !! g') -> is_Some (groups s' !! g')) ->
  (forall fl ll u, gs1 !! g = Some (fl, ll) -> u ∈ fl ++ ll -> users s' !! u = users s1 !! u) ->
  task_outcome s gs s' gs' g d.
Proof.
  intros (fl & ll & gp & fl' & new & H1 & H2 & H3 & H4 & H5 & H7 & H6) Hg Hgs Hu.
  exists fl, ll, gp, fl', new. rewrite Hg. split; [done|]. split; [done|]. split; [done|].
  split; [done|]. split; [|split; [|exact H6]].
  2: { rewrite Forall_forall in H7 |- *. intros u Hin. eapply ready_mono; [by apply H7| |done].
       apply (Hu fl' (new ++ ll) u); [done|]. apply elem_of_app. by left. }
  rewrite Forall_forall in H5 |- *. intros u Hin. destruct (H5 u Hin) as (us & E & ?). exists us.
  rewrite (Hu fl' (new ++ ll) u); [done|done|]. rewrite !elem_of_app. tauto.
Qed.

(** What a run of the loop over the tasks [ts] leaves alone. *)
Record tasks_frame (ts : list Z) (s : ustate) (gs : gmap Z (list Z * list Z)) (s' : ustate)
    (gs' : gmap Z (list Z * list Z)) : Prop := {
  sf_consumers : consumers s' = consumers s;
  sf_other : forall g, g ∉ ts -> groups s' !! g = groups s !! g /\ gs' !! g = gs !! g;
  sf_group : forall g gp, groups s !! g = Some gp -> exists gp', groups s' !! g = Some gp' /\
    g_consumer gp' = g_consumer gp /\ g_gp_id gp' = g_gp_id gp /\ same_plan gp gp';
  sf_users : forall v, (forall g fl ll, g ∈ ts -> gs !! g = Some (fl, ll) -> v ∉ fl) ->
    users s' !! v = users s !! v }.

Lemma tasks_frame_cons g gp d ts s gs p s1 gs1 s' gs' free :
  pool_inv s free gs -> groups s !! g = Some gp -> task_turn g gp d s gs p s1 gs1 -> g ∉ ts ->
  tasks_frame ts s1 gs1 s' gs' -> tasks_frame (g :: ts) s gs s' gs'.
Proof.
  intros I Hgp [_ C O (gp1 & Hgp1 & _ & _ & E1 & E2 & E3) U _] Hn [C' O' G' U']. split.
  - by rewrite C'.
  - intros g' Hg'. apply not_elem_of_cons in Hg' as [Hg' Ht].
    destruct (O g' Hg') as [<- <-]. by apply O'.
  - intros g' gp' Hg'. destruct (decide (g' = g)) as [->|Hne].
    + rewrite Hgp in Hg'. injection Hg' as <-.
      destruct (G' g gp1 Hgp1) as (gp2 & ? & ? & ? & ?). exists gp2. split; [done|].
      split; [congruence|]. split; [congruence|]. by eapply same_plan_trans.
    + apply G'. by destruct (O g' Hne) as [-> _].
  - intros v Hv. rewrite U'; [apply U; intros fl ll Hg; eapply Hv; [by left|exact Hg]|].
    intros g' fl ll Hg' Hgs. assert (Hne : g' <> g) by (by intros ->).
    destruct (O g' Hne) as [_ E]. rewrite E in Hgs. eapply Hv; [by right|exact Hgs].
Qed.

Lemma lagging_ext s gs s' gs' g :
  groups s' !! g = groups s !! g -> gs' !! g = gs !! g -> lagging s' gs' g = lagging s gs g.
Proof. unfold lagging. by intros -> ->. Qed.

Lemma task_loop_spec ts drs s gs free p tl count :
  pool_inv s free gs -> task_chain (groups s) (tasks s) ts -> task_chain (groups s) p tl ->
  NoDup (ts ++ tl) -> Forall2 (task_ready s gs) ts drs ->
  0 <= count -> count + Z.of_nat (length ts) < 18446744073709551616 ->
  exists s' gs' p', let left := List.filter (lagging s' gs') ts in
    task_loop (length ts) drs p count s = Some (p', count + Z.of_nat (length left), s') /\
    pool_inv s' free gs' /\ task_chain (groups s') p' (rev left ++ tl) /\
    tasks_frame ts s gs s' gs' /\ Forall2 (task_outcome s gs s' gs') ts drs.
Proof.
  revert drs s gs p tl count. induction ts as [|g ts IH]; intros drs s gs p tl count I Ht Hp Hnd Hr Hc Hlim.
  { apply Forall2_nil_inv_l in Hr as ->. exists s, gs, p. cbn. split_and!; try done; [by rewrite Z.add_0_r|].
    split; try done. intros g gp Hg. by exists gp. }
  apply Forall2_cons_inv_l in Hr as (d & drs' & Hd & Hr & ->).
  cbn [task_chain] in Ht. destruct Ht as (Ht & gp & Hgp & Hch).
  cbn [app] in Hnd. apply NoDup_cons in Hnd as [Hg Hnd]. rewrite elem_of_app in Hg.
  destruct (task_step (length ts) g d drs' s gs free p count gp I Ht Hgp Hd) as (s1 & gs1 & I1 & T & E).
  pose proof T as [T1 C1 O1 (gp1 & Hgp1 & D1 & _) U1 R1].
  set (tl1 := if lagging s1 gs1 g then g :: tl else tl).
  destruct (IH drs' s1 gs1 (if lagging s1 gs1 g then Some g else p) tl1
    (if lagging s1 gs1 g then u64 (count + 1) else count)) as (s' & gs' & p' & E' & I' & Hp' & F' & R').
  - done.
  - rewrite T1. apply (task_chain_frame (groups s)); [done|]. intros v Hv. apply O1. intros ->. tauto.
  - assert (Htl : task_chain (groups s1) p tl).
    { apply (task_chain_frame (groups s)); [done|]. intros v Hv. apply O1. intros ->. tauto. }
    subst tl1. destruct (lagging s1 gs1 g); [|done]. cbn. split; [done|]. exists gp1. by rewrite D1.
  - subst tl1. destruct (lagging s1 gs1 g); [|done]. rewrite <-Permutation_middle.
    apply NoDup_cons. by rewrite elem_of_app.
  - assert (Hne : Forall (fun g' => g' <> g) ts).
    { apply Forall_forall. intros g' Hg' ->. tauto. }
    clear -I Hgp T Hr Hne. induction Hr as [|g' d' ts drs Hd' Hr IH]; constructor.
    + apply Forall_cons in Hne as [Hne _]. by eapply task_turn_ready.
    + apply IH. by apply Forall_cons in Hne as [_ Hne].
  - destruct (lagging s1 gs1 g); [apply u64_range|done].
  - cbn [length] in Hlim. destruct (lagging s1 gs1 g); [rewrite u64_small by (width; lia)|]; lia.
  - assert (Hgts : g ∉ ts) by tauto.
    destruct (sf_other _ _ _ _ _ F' g Hgts) as [Eg Es].
    assert (Hlag : lagging s' gs' g = lagging s1 gs1 g) by (by apply lagging_ext).
    exists s', gs', p'. cbn [length List.filter]. rewrite E, E', Hlag.
    split_and!; [|done| |by eapply tasks_frame_cons|].
    + cbn [length] in Hlim. subst tl1. destruct (lagging s1 gs1 g); [|done].
      rewrite u64_small by (width; lia). f_equal. f_equal. f_equal. cbn [length]. lia.
    + subst tl1. destruct (lagging s1 gs1 g); [|done]. cbn [rev]. by rewrite <-app_assoc.
    + constructor.
      * apply (task_outcome_later s gs s1 gs1); [done|done| |].
        { intros g' [gp' Hg']. destruct (sf_group _ _ _ _ _ F' g' gp' Hg') as (? & -> & _). by eexists. }
        intros fl ll u Hgs Hu.
        apply (sf_users _ _ _ _ _ F'). intros g' fl' ll' Hg' Hgs' Hu'.
        apply (groups_disjoint s1 free gs1 g g' fl ll fl' ll' u); [done|done|done|by intros ->|done|].
        apply elem_of_app. by left.
      * assert (Hne : Forall (fun g' => g' <> g) ts).
        { apply Forall_forall. intros g' Hg' ->. tauto. }
        clear -O1 R' Hne. induction R' as [|g' d' ts drs Hd' Hr IH]; constructor.
        -- apply Forall_cons in Hne as [Hne _]. destruct (O1 g' Hne) as [Eg Es].
           destruct Hd' as (fl & ll & gp & fl' & new & H1 & H2 & H3).
           exists fl, ll, gp, fl', new. by rewrite <-Eg, <-Es.
        -- apply IH. by apply Forall_cons in Hne as [_ Hne].
Qed.

(** The consumers and the groups keep pointing to each other. *)
Lemma tasks_csm_inv ts m gs s' gs' M n cfree m' :
  csm_inv m gs M n cfree -> tasks_frame ts (mg_us m) gs s' gs' ->
  (forall g, is_Some (gs' !! g) <-> is_Some (gs !! g)) ->
  consumers (mg_us m') = consumers s' -> groups (mg_us m') = groups s' ->
  mg_table m' = mg_table m -> mg_free_csms m' = mg_free_csms m ->
  mg_free_csm_n m' = mg_free_csm_n m -> csm_inv m' gs' M n cfree.
Proof.
  intros CI F Hd Hc Hg Ht Hf Hn. pose proof CI as [_ _ _ _ _ _ G S]. destruct F as [FC _ FG _].
  assert (Hsl : forall c i g, in_slot (mg_us m') c i g <-> in_slot (mg_us m) c i g).
  { intros. unfold in_slot. by rewrite Hc, FC. }
  eapply csm_inv_change; [exact CI|done..| | |].
  - rewrite Hc, FC. intros c csm Hcs. by exists csm.
  - intros g Hgs%Hd. destruct (G g Hgs) as (gp & Hgp & Hs & Hk).
    destruct (FG g gp Hgp) as (gp' & Hgp' & E1 & E2 & _). exists gp'. rewrite Hg, E1, E2.
    split; [done|]. split; [by apply Hsl|done].
  - intros k c i g Hk Hs%Hsl. destruct (S k c i g Hk Hs) as (Hgs & gp & Hgp & ? & ?).
    destruct (FG g gp Hgp) as (gp' & Hgp' & E1 & E2 & _). split; [by apply Hd|].
    exists gp'. rewrite Hg, E1, E2. done.
Qed.

Lemma outcomes_dom s gs s' gs' ts drs :
  Forall2 (task_outcome s gs s' gs') ts drs -> (forall g, g ∉ ts -> gs' !! g = gs !! g) ->
  forall g, is_Some (gs' !! g) <-> is_Some (gs !! g).
Proof.
  intros R Ho g. destruct (decide (g ∈ ts)) as [Hg|Hg]; [|by rewrite Ho].
  clear Ho. induction R as [|g' d ts drs Hd R IH]; [by apply elem_of_nil in Hg|].
  apply elem_of_cons in Hg as [->|Hg]; [|by apply IH].
  destruct Hd as (fl & ll & gp & fl' & new & -> & _ & -> & _). split; by eexists.
Qed.

(** When the timer fires every group of the chain of tasks is activated
    once: as many of its idle users as its target and the limit of 200 allow
    are started.  Exactly the groups that are still short of their targets stay
    in the chain, in reverse order, and are counted; no user is lost or held
    twice.  The timer is set again when some are left, and stopped otherwise.
    The invariant of the manager holds again. *)
Lemma process_task_ok drs ev_ok m ts free gs M n cfree ev :
  manage_inv m free gs M n cfree ts -> mg_ev_task m = Some ev ->
  Forall2 (task_ready (mg_us m) gs) ts drs ->
  exists m' gs', let left := rev (List.filter (lagging (mg_us m') gs') ts) in
    ntg_user_manage_process_task drs ev_ok m = Some m' /\
    manage_inv m' free gs' M n cfree left /\
    Forall2 (task_outcome (mg_us m) gs (mg_us m') gs') ts drs /\
    (forall g, g ∉ ts -> gs' !! g = gs !! g) /\
    (forall g gp, groups (mg_us m) !! g = Some gp ->
       exists gp', groups (mg_us m') !! g = Some gp' /\ same_plan gp gp') /\
    mg_task_flag m' = (if bool_decide (left = []) then false else mg_task_flag m) /\
    mg_ev_task m' = Some (if bool_decide (left = []) then false else ev || ev_ok).
Proof.
  intros [I CI [Hch Hnd Hts [Hn Hlim]]] Hev Hr. unfold ntg_user_manage_process_task.
  rewrite Hn, Nat2Z.id. rewrite Hn in Hlim.
  destruct (task_loop_spec ts drs (mg_us m) gs free None [] 0) as (s' & gs' & p' & E & I' & Hp & F & R);
    [done|done|done|by rewrite app_nil_r|done|lia|width; lia|].
  rewrite E. cbn [mbind option_bind mg_ev_task set_mg_task_n set_mg_us]. rewrite Hev. cbn [mbind option_bind].
  rewrite app_nil_r in Hp. cbn [mg_task_n set_mg_task_n].
  set (left := List.filter (lagging s' gs') ts) in *.
  assert (Hz : (0 + Z.of_nat (length left) =? 0) = bool_decide (rev left = [])).
  { apply eq_true_iff_eq. rewrite Z.eqb_eq, bool_decide_eq_true. split; intros H.
    - by destruct left; [|cbn in H; lia].
    - destruct left as [|x left]; [done|]. cbn in H. by destruct (rev left). }
  assert (Ho : forall g, g ∉ ts -> gs' !! g = gs !! g) by (intros g Hg; apply (sf_other _ _ _ _ _ F g Hg)).
  assert (Hle : (length left <= length ts)%nat) by (apply List.filter_length_le).
  assert (Hleft : forall m', mg_us m' = set_tasks p' s' -> mg_table m' = mg_table m ->
    mg_free_csms m' = mg_free_csms m -> mg_free_csm_n m' = mg_free_csm_n m ->
    mg_task_n m' = 0 + Z.of_nat (length left) ->
    List.filter (lagging (mg_us m') gs') ts = left /\ manage_inv m' free gs' M n cfree (rev left) /\
    Forall2 (task_outcome (mg_us m) gs (mg_us m') gs') ts drs /\
    (forall g gp, groups (mg_us m) !! g = Some gp ->
       exists gp', groups (mg_us m') !! g = Some gp' /\ same_plan gp gp')).
  { intros m' H1 H2 H3 H4 H5. split; [|split; [|split]].
    4: { rewrite H1. intros g gp Hg. destruct (sf_group _ _ _ _ _ F g gp Hg) as (gp' & ? & _ & _ & ?).
         by exists gp'. }
    - apply filter_ext. intros g. apply lagging_ext; [by rewrite H1|done].
    - split; [rewrite H1; by apply pool_inv_tasks| |].
      + eapply (tasks_csm_inv ts m gs s'); try done; [|by rewrite H1..]. by eapply outcomes_dom.
      + split; rewrite ?H1, ?H5, ?length_rev; [done| | |width; lia].
        * rewrite <-Permutation_rev. subst left. apply NoDup_ListNoDup, List.NoDup_filter. by apply NoDup_ListNoDup.
        * intros g Hg. apply (outcomes_dom _ _ _ _ _ _ R Ho). apply Hts.
          rewrite <-Permutation_rev in Hg. apply list_elem_of_In, List.filter_In in Hg as [Hg _].
          by apply list_elem_of_In.
    - eapply Forall2_impl; [exact R|]. intros g d (fl & ll & gp & fl' & new & A1 & A2 & A3 & A4 & A5 & A7 & A6).
      exists fl, ll, gp, fl', new. split_and!; try done; try apply A6.
      + eapply Forall_impl; [exact A5|]. intros u. unfold running. by rewrite H1.
      + eapply Forall_impl; [exact A7|]. intros u. unfold ready. by rewrite H1. }
  rewrite Hz. destruct (bool_decide (rev left = [])) eqn:Eb; cbn [negb];
    (eexists _, gs'; cbv zeta; split; [reflexivity|]).
  all: match goal with |- manage_inv ?m' _ _ _ _ _ _ /\ _ =>
         destruct (Hleft m') as (El & J & R' & P'); [reflexivity..|] end.
  all: rewrite El, Eb; split; [exact J|]; split; [exact R'|]; done.
Qed.
