(* ===== verification/UserControl.v ===== *)
(** * The manager, seen from the control layer

    What ntg_user_manage.c promises: a simulation message is answered and sets
    up a group, the task timer brings every group to its number of users and
    stops, and a control message takes a group away again. *)

From Stdlib Require Import SpecFloat.
From S2P Require Import Prelude Queue Sprintf Spline Table UserGroup UserPool UserManage UserSim UserTasks.

(** ** The task timer until it stops *)

(** The task timer fires: it is not pending any more when its function runs. *)
Definition fired (m : manage) : manage := set_mg_timer (mg_task_flag m) (Some false) m.

(** The firings of the task timer while it is set, each with what its groups
    draw; the timer can be set again every time. *)
Fixpoint timer_runs (ins : list (list (list draw * bool))) (m : manage) : option manage :=
  match ins with
  | [] => Some m
  | drs :: ins =>
      if bool_decide (mg_ev_task m = Some true) then
        m ← ntg_user_manage_process_task (take (Z.to_nat (mg_task_n m)) drs) true (fired m);
        timer_runs ins m
      else Some m
  end.

(** Group [g] can be brought to its number of users. *)
Definition can_activate (s : ustate) (gs : gmap Z (list Z * list Z)) (g : Z) : Prop :=
  exists fl ll gp, gs !! g = Some (fl, ll) /\ groups s !! g = Some gp /\ Forall (ready s) fl /\
    Z.of_nat (length ll) <= target gp <= g_users_n gp /\
    (g_is_scene gp = true -> is_Some (g_event gp)).

(** The users group [g] still needs. *)
Definition missing (s : ustate) (gs : gmap Z (list Z * list Z)) (g : Z) : Z :=
  match gs !! g, groups s !! g with
  | Some (_, ll), Some gp => target gp - Z.of_nat (length ll)
  | _, _ => 0
  end.

(** Enough draws for one group, and all of them succeed. *)
Definition good_draws (d : list draw * bool) : Prop :=
  NTG_MAX_ACTIVATE_NUM <= Z.of_nat (length d.1) /\ Forall good d.1.

Lemma can_activate_ready s gs g d : can_activate s gs g -> good_draws d -> task_ready s gs g d.
Proof.
  intros (fl & ll & gp & H1 & H2 & H3 & H4 & H5) [Hd _]. exists fl, ll, gp. split_and!; try done; try apply H4.
  unfold NTG_MAX_ACTIVATE_NUM in *. lia.
Qed.

Lemma lagging_missing s gs g : can_activate s gs g -> lagging s gs g = negb (missing s gs g =? 0).
Proof.
  intros (fl & ll & gp & H1 & H2 & _). unfold lagging, missing. rewrite H1, H2. f_equal.
  apply eq_true_iff_eq. rewrite !Z.eqb_eq. lia.
Qed.

(** One activation brings up to 200 of the missing users. *)
Lemma outcome_progress s gs s' gs' g d free :
  pool_inv s free gs -> can_activate s gs g -> good_draws d -> task_outcome s gs s' gs' g d ->
  (forall gp, groups s !! g = Some gp -> exists gp', groups s' !! g = Some gp' /\ same_plan gp gp') ->
  can_activate s' gs' g /\
  missing s' gs' g = missing s gs g - Z.min (missing s gs g) NTG_MAX_ACTIVATE_NUM.
Proof.
  intros I (fl & ll & gp & Hg & Hgp & _ & Ht & Hev) [Hd Hgood] R Hpl.
  destruct R as (fl0 & ll0 & gp0 & fl' & new & Hg0 & Hgp0 & Hg' & P & _ & Hr' & _ & Hnew).
  rewrite Hg in Hg0. injection Hg0 as <- <-. rewrite Hgp in Hgp0. injection Hgp0 as <-.
  destruct (Hpl gp Hgp) as (gp' & Hgp' & T & U & Sc & Ev).
  destruct (pi_groups _ _ _ I g _ _ Hg) as [_ _ (gp0 & Hgp0 & Hun & _)].
  rewrite Hgp in Hgp0. injection Hgp0 as <-. rewrite length_app in Hun.
  specialize (Hnew ltac:(by apply Forall_take)).
  assert (Hl : Z.of_nat (length new) = Z.min (target gp - Z.of_nat (length ll)) NTG_MAX_ACTIVATE_NUM).
  { rewrite Hnew, length_rev, length_take. unfold NTG_MAX_ACTIVATE_NUM. lia. }
  split.
  - exists fl', (new ++ ll), gp'. split; [done|]. split; [done|]. split; [done|].
    rewrite length_app, T, U, Sc. split; [lia|]. intros H. by apply Ev, Hev.
  - unfold missing. rewrite Hg, Hgp, Hg', Hgp', length_app, T. lia.
Qed.

Lemma outcomes_progress s gs s' gs' ts drs free :
  pool_inv s free gs -> Forall (can_activate s gs) ts -> Forall good_draws drs ->
  Forall2 (task_outcome s gs s' gs') ts drs ->
  (forall g gp, groups s !! g = Some gp -> exists gp', groups s' !! g = Some gp' /\ same_plan gp gp') ->
  Forall (fun g => can_activate s' gs' g /\
    missing s' gs' g = missing s gs g - Z.min (missing s gs g) NTG_MAX_ACTIVATE_NUM) ts.
Proof.
  intros I Hc Hd R Hp. induction R as [|g d ts drs Hg R IH]; [done|].
  apply Forall_cons in Hc as [Hc Hcs]. apply Forall_cons in Hd as [Hd Hds]. constructor; [|by apply IH].
  eapply outcome_progress; [exact I|done|exact Hd|done|]. by apply Hp.
Qed.

Lemma tasks_ready s gs ts drs :
  Forall (can_activate s gs) ts -> Forall good_draws drs -> (length ts <= length drs)%nat ->
  Forall2 (task_ready s gs) ts (take (length ts) drs).
Proof.
  revert drs. induction ts as [|g ts IH]; intros drs Hc Hd Hl; [constructor|].
  destruct drs as [|d drs]; [cbn in Hl; lia|]. apply Forall_cons in Hc as [Hc Hcs].
  apply Forall_cons in Hd as [Hd Hds]. cbn. constructor; [by apply can_activate_ready|].
  apply IH; [done|done|cbn in Hl; lia].
Qed.

(** Group [g] has its number of users. *)
Definition complete (s s' : ustate) (gs' : gmap Z (list Z * list Z)) (g : Z) : Prop :=
  exists fl ll gp gp', groups s !! g = Some gp /\ gs' !! g = Some (fl, ll) /\
    groups s' !! g = Some gp' /\ target gp' = target gp /\ Z.of_nat (length ll) = target gp.

(** The groups keep their plans. *)
Definition plans (s s' : ustate) : Prop :=
  forall g gp, groups s !! g = Some gp -> exists gp', groups s' !! g = Some gp' /\ same_plan gp gp'.

Lemma not_lagging_complete s gs s' gs' g :
  can_activate s gs g -> can_activate s' gs' g -> lagging s' gs' g = false -> plans s s' ->
  complete s s' gs' g.
Proof.
  intros (fl0 & ll0 & gp & _ & Hgp & _) Hc Hl P. rewrite lagging_missing in Hl by done.
  apply negb_false_iff, Z.eqb_eq in Hl. destruct Hc as (fl & ll & gp1 & H1 & H2 & _).
  unfold missing in Hl. rewrite H1, H2 in Hl. destruct (P g gp Hgp) as (gp' & Hgp' & T & _).
  rewrite H2 in Hgp'. injection Hgp' as <-. exists fl, ll, gp, gp1. split_and!; try done. lia.
Qed.

Lemma complete_earlier s gs s1 s' gs' g :
  complete s1 s' gs' g -> can_activate s gs g -> plans s s1 -> complete s s' gs' g.
Proof.
  intros (fl & ll & gp1 & gp' & H1 & H2 & H3 & H4 & H5) (fl0 & ll0 & gp & _ & Hgp & _) P.
  destruct (P g gp Hgp) as (gp1' & Hgp1' & T & _). rewrite H1 in Hgp1'. injection Hgp1' as <-.
  exists fl, ll, gp, gp'. split_and!; try done; congruence.
Qed.

Lemma complete_later s s1 gs1 s' gs' g :
  complete s s1 gs1 g -> gs' !! g = gs1 !! g -> plans s1 s' -> complete s s' gs' g.
Proof.
  intros (fl & ll & gp & gp1 & H1 & H2 & H3 & H4 & H5) Hg P. destruct (P g gp1 H3) as (gp' & Hgp' & T & _).
  exists fl, ll, gp, gp'. split_and!; try done; congruence.
Qed.

Lemma fired_inv m free gs M n cfree ts :
  manage_inv m free gs M n cfree ts -> manage_inv (fired m) free gs M n cfree ts.
Proof. intros [I [] []]. split; [exact I| |]; split; done. Qed.

Lemma timer_runs_finish ins m ts free gs M n cfree :
  manage_inv m free gs M n cfree ts -> ts <> [] -> ins <> [] -> mg_ev_task m = Some true ->
  Forall (fun g => can_activate (mg_us m) gs g /\
    missing (mg_us m) gs g <= NTG_MAX_ACTIVATE_NUM * Z.of_nat (length ins)) ts ->
  Forall (fun drs => (length ts <= length drs)%nat /\ Forall good_draws drs) ins ->
  exists m' gs', timer_runs ins m = Some m' /\ manage_inv m' free gs' M n cfree [] /\
    mg_task_flag m' = false /\ mg_ev_task m' = Some false /\
    (forall g, g ∉ ts -> gs' !! g = gs !! g) /\
    plans (mg_us m) (mg_us m') /\ Forall (complete (mg_us m) (mg_us m') gs') ts.
Proof.
  revert m ts gs. induction ins as [|drs ins IH]; intros m ts gs I Hts Hins Hev Hm Hd; [done|].
  apply Forall_cons in Hd as [[Hl Hg] Hd]. cbn [timer_runs]. rewrite bool_decide_eq_true_2 by done.
  destruct (ti_count _ _ _ (mi_tasks _ _ _ _ _ _ _ I)) as [Hn _]. rewrite Hn, Nat2Z.id.
  assert (Hca : Forall (can_activate (mg_us m) gs) ts) by (eapply Forall_impl; [exact Hm|]; by intros g [? _]).
  destruct (process_task_ok (take (length ts) drs) true (fired m) ts free gs M n cfree false
    (fired_inv _ _ _ _ _ _ _ I) eq_refl) as
    (m1 & gs1 & E & I1 & R & O & P & F & V); [by apply tasks_ready|].
  rewrite E. cbn [mbind option_bind].
  pose proof (outcomes_progress _ _ _ _ _ _ _ (mi_pool _ _ _ _ _ _ _ I) Hca
    ltac:(by apply Forall_take) R P) as Hpr.
  set (left := rev (List.filter (lagging (mg_us m1) gs1) ts)) in *.
  assert (Hleft : forall g, g ∈ left <-> g ∈ ts /\ lagging (mg_us m1) gs1 g = true).
  { intros g. subst left. rewrite <-Permutation_rev, !list_elem_of_In. apply List.filter_In. }
  assert (Hdone : forall g, g ∈ ts -> g ∉ left -> complete (mg_us m) (mg_us m1) gs1 g).
  { intros g Hgt Hgl. rewrite Forall_forall in Hpr, Hca. apply (not_lagging_complete _ gs); [by apply Hca|by apply Hpr| |done].
    apply not_true_is_false. intros ?. apply Hgl, Hleft. done. }
  destruct (decide (left = [])) as [El|Hne].
  - exists m1, gs1. rewrite El in *. rewrite bool_decide_eq_true_2 in F, V by done.
    split; [destruct ins; cbn [timer_runs]; [done|]; by rewrite bool_decide_eq_false_2 by (rewrite V; done)|].
    split_and!; try done. apply Forall_forall. intros g Hgt. apply Hdone; [done|]. apply not_elem_of_nil.
  - rewrite bool_decide_eq_false_2 in F, V by done.
    assert (Hm1 : Forall (fun g => can_activate (mg_us m1) gs1 g /\ 0 < missing (mg_us m1) gs1 g <=
      NTG_MAX_ACTIVATE_NUM * Z.of_nat (length ins)) left).
    { apply Forall_forall. intros g [Hgt Hlg]%Hleft. rewrite Forall_forall in Hpr, Hm.
      destruct (Hpr g Hgt) as [Hc1 Hms]. destruct (Hm g Hgt) as [Hc Hb]. split; [done|].
      rewrite lagging_missing in Hlg by done. apply negb_true_iff, Z.eqb_neq in Hlg.
      cbn [length] in Hb. unfold NTG_MAX_ACTIVATE_NUM in *. lia. }
    assert (Hins' : ins <> []).
    { intros ->. destruct left as [|g left]; [done|]. apply Forall_cons in Hm1 as [[_ H] _].
      unfold NTG_MAX_ACTIVATE_NUM in H. cbn in H. lia. }
    destruct (IH m1 left gs1 I1 Hne Hins' V) as (m' & gs' & E' & I' & F' & V' & O' & P' & C').
    + eapply Forall_impl; [exact Hm1|]. intros g [? ?]. split; [done|lia].
    + eapply Forall_impl; [exact Hd|]. cbn. intros drs' [? ?]. split; [|done].
      etrans; [|eassumption]. subst left. rewrite length_rev. apply List.filter_length_le.
    + exists m', gs'. split_and!; try done.
      * intros g Hgt. rewrite O', O; [done|done|]. intros H. apply Hleft in H. tauto.
      * intros g gp Hgp. destruct (P g gp Hgp) as (gp1 & Hgp1 & P1).
        destruct (P' g gp1 Hgp1) as (gp2 & ? & ?). exists gp2. split; [done|]. by eapply same_plan_trans.
      * rewrite Forall_forall in C' |- *. intros g Hgt. destruct (decide (g ∈ left)) as [Hgl|Hgl].
        -- rewrite Forall_forall in Hca. apply (complete_earlier _ gs (mg_us m1)); auto.
        -- apply (complete_later _ (mg_us m1) gs1); auto.
Qed.

(** C16: the task timer stops, and does it with every group complete: when the
    groups of the chain of tasks can be activated, and none of them is missing
    more than 200 users for each firing, the firings end with no task left,
    the timer stopped, and exactly the wanted number of live users in every
    group; groups that are no tasks are as before, and no user is lost. *)
Theorem activation_completes ins m ts free gs M n cfree :
  manage_inv m free gs M n cfree ts -> ts <> [] -> ins <> [] -> mg_ev_task m = Some true ->
  Forall (fun g => can_activate (mg_us m) gs g /\
    missing (mg_us m) gs g <= NTG_MAX_ACTIVATE_NUM * Z.of_nat (length ins)) ts ->
  Forall (fun drs => (length ts <= length drs)%nat /\ Forall good_draws drs) ins ->
  exists m' gs', timer_runs ins m = Some m' /\ manage_inv m' free gs' M n cfree [] /\
    mg_task_n m' = 0 /\ mg_task_flag m' = false /\ mg_ev_task m' = Some false /\
    (forall g, g ∉ ts -> gs' !! g = gs !! g) /\
    Forall (complete (mg_us m) (mg_us m') gs') ts.
Proof.
  intros I Hts Hins Hev Hm Hd.
  destruct (timer_runs_finish ins m ts free gs M n cfree I Hts Hins Hev Hm Hd) as
    (m' & gs' & E & I' & F & V & O & _ & C).
  exists m', gs'. split_and!; try done. apply (ti_count _ _ _ (mi_tasks _ _ _ _ _ _ _ I')).
Qed.

(** ** The messages *)

(** There is room for the group of the message: its slot is empty when the
    consumer is known, otherwise there is a consumer to take. *)
Definition slot_free (m : manage) (M : gmap Z Z) (n : nat) (cfree : list Z) (sm : simulation_message)
  : Prop :=
  match M !! u64 (sm_csm_id sm) with
  | Some c => exists csm, consumers (mg_us m) !! c = Some csm /\
      csm_gps csm !! Z.to_nat (sm_gp_id sm) = Some None
  | None => cfree <> [] /\ n <> O
  end.


Lemma no_memory env c i m csm :
  consumers (mg_us m) !! c = Some csm -> 0 <= i -> csm_gps csm !! Z.to_nat i = Some None ->
  se_calloc env = None -> get_or_create_group env c i m = Some (None, m).
Proof.
  intros Hc Hi Hs Hg. unfold get_or_create_group, get_gps. rewrite Hc. cbn [mbind option_bind].
  rewrite (proj2 (Z.ltb_ge _ _)) by lia. rewrite Hs. cbn [mbind option_bind]. by rewrite Hg.
Qed.

(** A message that fails before there is a group. *)
Lemma refused_simulation env sm m free gs M n cfree ts :
  manage_inv m free gs M n cfree ts -> 0 <= sm_gp_id sm < NTG_USER_GROUP_SIZE ->
  (cfree = [] /\ M !! u64 (sm_csm_id sm) = None) \/ (se_calloc env = None /\ slot_free m M n cfree sm) ->
  exists m' M' n' cfree', ntg_user_simulation_process env sm m = Some (NTG_ERROR, m') /\
    manage_inv m' free gs M' n' cfree' ts /\
    if bool_decide (cfree = [] \/ is_Some (M !! u64 (sm_csm_id sm))) then m' = m /\ M' = M
    else exists c, M' = <[u64 (sm_csm_id sm) := c]> M.
Proof.
  intros I Hi Hcase. unfold ntg_user_simulation_process.
  pose proof I as [_ CI _]. pose proof CI as [_ C _ _ _ _ _ _]. unfold slot_free in Hcase.
  destruct (M !! u64 (sm_csm_id sm)) as [c|] eqn:Hk.
  - destruct Hcase as [[_ ?]|[Hg (csm & Hc & Hs)]]; [done|]. unfold get_or_create_consumer.
    rewrite (find_consumer_spec _ _ _ _ _ _ CI), Hk. cbn [mbind option_bind].
    rewrite (no_memory _ _ _ _ csm) by (done || lia). cbn [mbind option_bind].
    exists m, M, n, cfree. rewrite bool_decide_eq_true_2 by (right; by eexists). done.
  - destruct Hcase as [[-> _]|[Hg [Hcf Hn]]].
    + unfold get_or_create_consumer. rewrite (find_consumer_spec _ _ _ _ _ _ CI), Hk.
      cbn [mbind option_bind]. unfold ntg_user_get_consumer. cbn in C. rewrite C. cbn [mbind option_bind].
      exists m, M, n, []. rewrite bool_decide_eq_true_2 by (by left). done.
    + destruct cfree as [|c cfree]; [done|]. destruct n as [|n]; [done|]. destruct I as [I _ TI].
      destruct (create_consumer_spec m gs M n c cfree _ CI Hk) as (m0 & E0 & CI0 & U0 & T0 & _).
      rewrite E0. cbn [mbind option_bind]. erewrite no_memory; [|rewrite U0; apply lookup_insert_eq|lia| |done].
      2: { cbn [csm_gps]. apply lookup_replicate. split; [done|]. unfold NTG_USER_GROUP_SIZE in *. lia. }
      cbn [mbind option_bind]. exists m0, (<[u64 (sm_csm_id sm) := c]> M), n, cfree.
      rewrite bool_decide_eq_false_2 by (intros [|[]]; done). split; [done|]. split; [|by exists c].
      destruct TI as [H1 H2 H3 H4]. split; [rewrite U0; by apply pool_inv_consumers|done|].
      split; rewrite ?U0, ?T0; done.
Qed.

(** A message for a group that cannot be allocated is answered with failure
    and changes no group, no user and no task: without a free consumer, or
    when the consumer is known but memory is short, nothing changes at all; a
    consumer that was created before memory ran short stays known. *)
Theorem message_refused env rcs ret sm m free gs M n cfree ts :
  manage_inv m free gs M n cfree ts -> 0 <= sm_gp_id sm < NTG_USER_GROUP_SIZE ->
  write_result rcs = Some ret ->
  (cfree = [] /\ M !! u64 (sm_csm_id sm) = None) \/ (se_calloc env = None /\ slot_free m M n cfree sm) ->
  exists m' M' n' cfree', ntg_user_message_handler env rcs (SimulationMessage sm) m =
      Some (ret, Some (s64 (sm_csm_id sm), NTG_RST_FAILED), m') /\
    manage_inv m' free gs M' n' cfree' ts /\
    if bool_decide (cfree = [] \/ is_Some (M !! u64 (sm_csm_id sm))) then m' = m /\ M' = M
    else exists c, M' = <[u64 (sm_csm_id sm) := c]> M.
Proof.
  intros I Hi Hret Hcase. unfold ntg_user_message_handler.
  destruct (refused_simulation env sm m free gs M n cfree ts I Hi Hcase) as (m' & M' & n' & cfree' & E & H).
  rewrite E. cbn [mbind option_bind]. rewrite Hret. by exists m', M', n', cfree'.
Qed.

(** A control message that deletes a group which is no task is answered with
    success: the users of the group are all back in the pool, the group is
    freed and its slot empty, and the invariant of the manager holds again. *)
Theorem message_delete_correct env rcs ret id i c g gp m free gs M n cfree ts :
  manage_inv m free gs M n cfree ts -> M !! u64 id = Some c -> in_slot (mg_us m) c i g ->
  groups (mg_us m) !! g = Some gp -> g_active gp = false -> g ∉ ts -> write_result rcs = Some ret ->
  exists fl ll m', gs !! g = Some (fl, ll) /\
    ntg_user_message_handler env rcs (ControlMessage id i NTG_CTL_DELETE) m =
      Some (ret, Some (s64 id, NTG_RST_SUCCESS), m') /\
    manage_inv m' (rev ll ++ rev fl ++ free) (delete g gs) M n cfree ts /\
    groups (mg_us m') !! g = None /\ forall g', ~ in_slot (mg_us m') c i g'.
Proof.
  intros I Hk Hs Hgp Ha Hgt Hret. pose proof Hs as (Hi & csm & Hc & Hg).
  pose proof (control_delete_ok id i m free gs M n cfree ts I Hi) as H. rewrite Hk in H.
  destruct H as (csm' & Hc' & H). rewrite Hc in Hc'. apply (inj Some) in Hc' as <-. rewrite Hg in H.
  destruct H as (gp' & fl & ll & Hgp' & Hgs & H). rewrite Hgp in Hgp'. apply (inj Some) in Hgp' as <-.
  destruct (H Ha Hgt) as (m' & E & I' & Hn & Hsl). exists fl, ll, m'.
  unfold ntg_user_message_handler. rewrite E. cbn [mbind option_bind]. by rewrite Hret.
Qed.

(** ** An example: two of three users for consumer 7 *)

Definition example_init : init_env :=
  InitEnv true true true true true (fun u => new_user u PNull) (fun _ => Consumer PNull 0 [])
    (fun _ => null_link) None.
Definition example_message : simulation_message :=
  Simulation 7 [] (g_behavior zero_group) 1 false 0 2.
Definition example_env : sim_env := SimEnv (Some 1000) true true true.
Definition example_draws : list (list draw * bool) := [(replicate 200 good_draw, true)].

(** The manager at the start, with the group, and with its users live. *)
Definition no_manager : manage :=
  Manage (example_state 0) None None 0 (HashTable 0 [] ∅ None 0) 0 false None.
Definition example_manager : manage :=
  match ntg_user_manage_init example_init 3 3 with Some (_, Some m) => m | _ => no_manager end.
Definition example_simulated : manage :=
  match ntg_user_message_handler example_env [NTG_OK] (SimulationMessage example_message)
    example_manager with Some (_, m) => m | None => no_manager end.
Definition example_running : manage := default no_manager (timer_runs [example_draws] example_simulated).

Lemma example_manager_inv : manage_inv example_manager [0; 1; 2] ∅ ∅ 3 [0; 1; 2] [].
Proof.
  destruct (manage_init_ok example_init 3 3) as (m & E & I & _); [reflexivity..|lia|cbn; lia|].
  unfold example_manager. rewrite E. exact I.
Qed.

Lemma example_valid : sim_valid example_message [0; 1; 2].
Proof. split; [|cbn; lia|discriminate]. cbn. unfold NTG_USER_GROUP_SIZE. lia. Qed.

Lemma example_timer : timer_works example_env example_manager.
Proof. right. by split. Qed.

Lemma example_simulated_inv : exists c n cfree,
  manage_inv example_simulated [2] {[ 1000 := ([1; 0], []) ]} {[ 7 := c ]} n cfree [1000] /\
  in_slot (mg_us example_simulated) c 1 1000.
Proof.
  destruct (simulation_ok example_env example_message 1000 example_manager [0; 1; 2] ∅ ∅ 3 [0; 1; 2] [])
    as (rc & m' & c & n & cfree & E & H).
  - apply example_manager_inv.
  - apply example_valid.
  - apply example_timer.
  - reflexivity.
  - by vm_compute.
  - by vm_compute.
  - by split.
  - destruct H as (-> & I & _ & Hs). exists c, n, cfree. unfold example_simulated, ntg_user_message_handler.
    rewrite E. by split.
Qed.

Lemma example_can_activate :
  can_activate (mg_us example_simulated) {[ 1000 := ([1; 0], []) ]} 1000 /\
  missing (mg_us example_simulated) {[ 1000 := ([1; 0], []) ]} 1000 = 2.
Proof.
  destruct (groups (mg_us example_simulated) !! 1000) as [gp|] eqn:Hgp; [|vm_compute in Hgp; discriminate].
  split.
  - exists [1; 0], [], gp. split; [done|]. split; [done|]. split; [apply idle_ready; by vm_compute|].
    vm_compute in Hgp. injection Hgp as <-. cbn. split; [lia|done].
  - unfold missing. rewrite Hgp. vm_compute in Hgp. by injection Hgp as <-.
Qed.

Lemma example_good : Forall good_draws example_draws.
Proof.
  apply Forall_singleton. split; [by vm_compute|]. by apply Forall_replicate.
Qed.

Lemma activation_completes_witness :
  exists m' gs', timer_runs [example_draws] example_simulated = Some m' /\ mg_task_n m' = 0 /\
    complete (mg_us example_simulated) (mg_us m') gs' 1000.
Proof.
  destruct example_simulated_inv as (c & n & cfree & I & _).
  destruct (activation_completes [example_draws] example_simulated [1000] [2]
    {[ 1000 := ([1; 0], []) ]} {[ 7 := c ]} n cfree) as (m' & gs' & E & _ & Hn & _ & _ & _ & C).
  - exact I.
  - done.
  - done.
  - vm_compute. reflexivity.
  - apply Forall_singleton. destruct example_can_activate as [H ->]. split; [exact H|].
    vm_compute. discriminate.
  - apply Forall_singleton. split; [cbn; lia|exact example_good].
  - exists m', gs'. split; [exact E|]. split; [exact Hn|]. exact (proj1 (Forall_singleton _ _) C).
Defined.


Lemma message_refused_witness :
  exists m', ntg_user_message_handler (SimEnv None true true true) [NTG_OK]
      (SimulationMessage example_message) example_manager = Some (NTG_OK, Some (7, NTG_RST_FAILED), m') /\
    exists M n cfree, manage_inv m' [0; 1; 2] ∅ M n cfree [].
Proof.
  destruct (message_refused (SimEnv None true true true) [NTG_OK] NTG_OK example_message
    example_manager [0; 1; 2] ∅ ∅ 3 [0; 1; 2] []) as (m' & M & n & cfree & E & I & _).
  - apply example_manager_inv.
  - vm_compute. split; [discriminate|reflexivity].
  - vm_compute. reflexivity.
  - right. split; [reflexivity|by split].
  - exists m'. split; [exact E|]. by exists M, n, cfree.
Defined.

Lemma example_running_inv : exists c n cfree gs,
  manage_inv example_running [2] gs {[ 7 := c ]} n cfree [] /\ in_slot (mg_us example_running) c 1 1000.
Proof.
  destruct example_simulated_inv as (c & n & cfree & I & Hs).
  destruct (timer_runs_finish [example_draws] example_simulated [1000] [2]
    {[ 1000 := ([1; 0], []) ]} {[ 7 := c ]} n cfree) as (m' & gs' & E & I' & _ & _ & _ & _ & C).
  - exact I.
  - done.
  - done.
  - by vm_compute.
  - apply Forall_singleton. destruct example_can_activate as [H ->]. split; [exact H|]. by vm_compute.
  - apply Forall_singleton. split; [cbn; lia|exact example_good].
  - apply Forall_singleton in C as (fl & ll & _ & gp & _ & Hg & Hgp & _).
    exists c, n, cfree, gs'. unfold example_running. rewrite E. cbn [default]. split; [exact I'|].
    destruct (ci_group _ _ _ _ _ (mi_csm _ _ _ _ _ _ _ I') 1000) as (gp' & Hgp' & Hsl & k & Hk); [by eexists|].
    apply lookup_singleton_Some in Hk as [_ ->].
    assert (Hid : g_gp_id gp' = 1).
    { assert (Er : m' = example_running) by (unfold example_running; by rewrite E). rewrite Er in Hgp'.
      vm_compute in Hgp'. by injection Hgp' as <-. }
    by rewrite Hid in Hsl.
Qed.

Lemma message_delete_correct_witness :
  exists m' free, ntg_user_message_handler example_env [NTG_OK]
      (ControlMessage 7 1 NTG_CTL_DELETE) example_running = Some (NTG_OK, Some (7, NTG_RST_SUCCESS), m') /\
    groups (mg_us m') !! 1000 = None /\
    exists gs M n cfree, manage_inv m' free gs M n cfree [].
Proof.
  destruct example_running_inv as (c & n & cfree & gs & I & Hs).
  destruct (groups (mg_us example_running) !! 1000) as [gp|] eqn:Hgp; [|vm_compute in Hgp; discriminate].
  destruct (message_delete_correct example_env [NTG_OK] NTG_OK 7 1 c 1000 gp example_running [2] gs
    {[ 7 := c ]} n cfree []) as (fl & ll & m' & _ & E & I' & Hn & _).
  - exact I.
  - apply lookup_singleton_eq.
  - exact Hs.
  - exact Hgp.
  - vm_compute in Hgp. injection Hgp as <-. reflexivity.
  - apply not_elem_of_nil.
  - vm_compute. reflexivity.
  - exists m', (rev ll ++ rev fl ++ [2]). split; [exact E|]. split; [exact Hn|].
    by exists (delete 1000 gs), {[ 7 := c ]}, n, cfree.
Defined.

(** ** What the code gets wrong *)

(** A group that is deleted while it is a task: its counter stays, and the
    next firing of the timer follows a null pointer. *)
Lemma deleted_task_counted :
  ('(_, _, m) ← ntg_user_message_handler example_env [NTG_OK]
      (ControlMessage 7 1 NTG_CTL_DELETE) example_simulated;
   Some (mg_task_n m, tasks (mg_us m), ntg_user_manage_process_task example_draws true (fired m))) =
  Some (1, None, None).
Proof. vm_compute. reflexivity. Qed.

(** The timer clears [active] of a group that stays a task, here since its
    timers could not be started; deleted then, the group stays in the chain of
    tasks, and the next firing of the timer reads it after it is freed. *)
Lemma requeued_group_dangles :
  let bad := (replicate 200 (Draw false (f32_of_Z 3) 1 1 true), true) in
  (m ← ntg_user_manage_process_task [bad] true (fired example_simulated);
   '(_, _, m) ← ntg_user_message_handler example_env [NTG_OK] (ControlMessage 7 1 NTG_CTL_DELETE) m;
   Some (tasks (mg_us m), groups (mg_us m) !! 1000, ntg_user_manage_process_task example_draws true (fired m))) =
  Some (Some 1000, None, None).
Proof. vm_compute. reflexivity. Qed.

(** When the timer cannot be started the answer is failure, but the group stays,
    with its users, as a task. *)
Lemma failed_timer_keeps_group :
  ('(_, reply, m) ← ntg_user_message_handler (SimEnv (Some 1000) true true false) [NTG_OK]
      (SimulationMessage example_message) example_manager;
   Some (reply, mg_task_n m, free_user_n (mg_us m), bool_decide (is_Some (groups (mg_us m) !! 1000)))) =
  Some (Some (7, NTG_RST_FAILED), 1, 1, true).
Proof. vm_compute. reflexivity. Qed.

(** A consumer that quits does not go back to the free ones: the next new
    consumer is another one, until there are none. *)
Lemma quit_loses_consumer :
  ('(_, _, m) ← ntg_user_message_handler example_env [NTG_OK]
      (ControlMessage 7 0 NTG_CTL_QUIT) example_running;
   Some (mg_consumers m, mg_free_csms m, mg_free_csm_n m)) = Some (Some 0, Some 1, 2).
Proof. vm_compute. reflexivity. Qed.

(** A second message for a group that is still a task makes it its own
    successor, and takes other users: those it had are in no queue and not in
    the pool. *)
Lemma second_simulation_loses_users :
  let again := Simulation 7 [] (g_behavior zero_group) 1 false 0 1 in
  ('(_, reply, m) ← ntg_user_message_handler example_env [NTG_OK]
      (SimulationMessage again) example_simulated;
   gp ← groups (mg_us m) !! 1000;
   Some (reply, mg_task_n m, g_data gp, g_users_n gp, free_user_n (mg_us m))) =
  Some (Some (7, NTG_RST_SUCCESS), 2, Some 1000, 1, 0).
Proof. vm_compute. reflexivity. Qed.
