(* ===== verification/Channel.v ===== *)
(** * The messages between processes (src/message/ntg_message.h, src/utils/ntg_channel.c)

    A message is a piece of memory with a type and a union of bodies; the
    channels, datagram sockets, carry a prefix of it.  The memory is modelled by
    its 4-byte cells, at the offsets of the structures on the 64-bit platform:
    the body starts at byte 8, behind the type and its padding. *)

From Stdlib Require Import SpecFloat.
From S2P Require Import Prelude Sprintf Spline Table UserGroup UserManage.

(** ** Cells *)

(** A cell of 4 bytes, known as an integer or as the [float] that was stored. *)
Inductive cell := CInt (w : Z) | CFlt (f : spec_float).
Abbreviation memory := (list cell).

(** The bits of a [float], and the [float] of some bits (IEEE 754, binary32). *)
Definition float_bits (f : spec_float) : Z :=
  let sign (s : bool) := if s then 2147483648 else 0 in
  match f with
  | S754_zero s => sign s
  | S754_infinity s => sign s + 2139095040
  | S754_nan => 2143289344
  | S754_finite s m e =>
      if Zpos m <? 8388608 then sign s + Zpos m
      else sign s + (e + 150) * 8388608 + (Zpos m - 8388608)
  end.

Definition float_of (w : Z) : spec_float :=
  let s := 2147483648 <=? w in
  let e := (w / 8388608) mod 256 in
  let m := w mod 8388608 in
  if e =? 255 then if m =? 0 then S754_infinity s else S754_nan
  else if e =? 0 then match m with Zpos p => S754_finite s p (-149) | _ => S754_zero s end
  else match m + 8388608 with Zpos p => S754_finite s p (e - 150) | _ => S754_nan end.

Example float_bits_1 : float_bits (f32_of_Z 1) = 1065353216 /\ float_of 1065353216 = f32_of_Z 1.
Proof. split; reflexivity. Qed.

Definition word (c : cell) : Z := match c with CInt w => w | CFlt f => float_bits f end.
Definition float (c : cell) : spec_float := match c with CFlt f => f | CInt w => float_of w end.

(** Bits [off] to [off + n] of a word, for the bit fields. *)
Definition get_bits (w off n : Z) : Z := Z.land (Z.shiftr w off) (Z.ones n).
Definition set_bits (w off n v : Z) : Z :=
  Z.lor (Z.ldiff w (Z.shiftl (Z.ones n) off)) (Z.shiftl (Z.land v (Z.ones n)) off).

(** Access to the memory; outside of it is undefined. *)
Definition put32 (i : nat) (v : Z) (m : memory) : memory := <[i := CInt (u32 v)]> m.
Definition put64 (i : nat) (v : Z) (m : memory) : memory := put32 (S i) (v / 4294967296) (put32 i v m).
Definition put_bits (i : nat) (off n v : Z) (m : memory) : memory :=
  match m !! i with Some c => <[i := CInt (set_bits (word c) off n v)]> m | None => m end.
Fixpoint put_floats (i : nat) (fs : list spec_float) (m : memory) : memory :=
  match fs with [] => m | f :: fs => put_floats (S i) fs (<[i := CFlt f]> m) end.

Definition at32 (i : nat) (m : memory) : Z := from_option word 0 (m !! i).
Definition at64 (i : nat) (m : memory) : Z := at32 i m + 4294967296 * at32 (S i) m.
Definition at_bits (i : nat) (off n : Z) (m : memory) : Z := get_bits (at32 i m) off n.
Definition at_floats (i n : nat) (m : memory) : list spec_float := map float (take n (drop i m)).

(** ** The structures *)

Definition NTG_CHANNEL_TYPE : Z := 1.
Definition NTG_SIMULATION_TYPE : Z := 2.
Definition NTG_CONTROL_TYPE : Z := 3.
Definition NTG_RESULT_TYPE : Z := 4.
Definition NTG_REQUEST_TYPE : Z := 5.
Definition NTG_FEEDBACK_TYPE : Z := 6.
Definition NTG_RECORD_TPYE : Z := 7.

(** [ntg_message_t] has 176 bytes: 8 and those of the largest body. *)
Definition message_cells : nat := 44.

(** The cells of each body. *)
Definition msg_size (type : Z) : nat :=
  if type =? NTG_CHANNEL_TYPE then 8
  else if type =? NTG_SIMULATION_TYPE then 42
  else if type =? NTG_CONTROL_TYPE then 6
  else if type =? NTG_RESULT_TYPE then 4
  else if type =? NTG_REQUEST_TYPE then 6
  else if type =? NTG_FEEDBACK_TYPE then 4
  else if type =? NTG_RECORD_TPYE then 12
  else 0.

(** The bodies. *)
Record channel_message := ChannelMsg { ch_command : Z; ch_pid : Z; ch_slot : Z; ch_fd : Z }.
Record record_message := RecordMsg {
  rc_csm_id : Z; rc_gp_id : Z; rc_state_code : Z; rc_user_id : Z; rc_url_id : Z; rc_send : Z; rc_receive : Z; rc_time : Z }.

Inductive message :=
  | MChannel (ch : channel_message)
  | MSimulation (sm : simulation_message)
  | MControl (csm_id gp_id type : Z)
  | MResult (csm_id status : Z)
  | MRequest (csm_id gp_id user_id : Z)
  | MFeedback (proc_slot reqs : Z)
  | MRecord (r : record_message).

Definition type_of (msg : message) : Z :=
  match msg with
  | MChannel _ => NTG_CHANNEL_TYPE | MSimulation _ => NTG_SIMULATION_TYPE | MControl _ _ _ => NTG_CONTROL_TYPE
  | MResult _ _ => NTG_RESULT_TYPE | MRequest _ _ _ => NTG_REQUEST_TYPE | MFeedback _ _ => NTG_FEEDBACK_TYPE
  | MRecord _ => NTG_RECORD_TPYE
  end.

(** The assignments that build a message in the memory [m]. *)
Definition put_simulation (sm : simulation_message) (m : memory) : memory :=
  let b := sm_behavior sm in
  m |> put64 2 (sm_csm_id sm) |> put_floats 4 (sm_scene sm)
    |> put_bits 28 0 8 (d_type (ss_num b)) |> put_bits 28 8 8 (d_type (ss_itv b))
    |> put_bits 28 16 8 (d_type (clk_num b)) |> put_bits 28 24 8 (d_type (clk_itv b))
    |> put_floats 29 (d_args (ss_num b)) |> put_floats 32 (d_args (ss_itv b))
    |> put_floats 35 (d_args (clk_num b)) |> put_floats 38 (d_args (clk_itv b))
    |> put_bits 41 0 4 (sm_gp_id sm) |> put_bits 41 4 1 (if sm_is_scene sm then 1 else 0)
    |> put_bits 41 5 11 (sm_st_point sm) |> put64 42 (sm_user_n sm).

Definition put_message (msg : message) (m : memory) : memory :=
  let m := put32 0 (type_of msg) m in
  match msg with
  | MChannel ch => m |> put64 2 (ch_command ch) |> put32 4 (ch_pid ch) |> put64 6 (ch_slot ch) |> put32 8 (ch_fd ch)
  | MSimulation sm => put_simulation sm m
  | MControl csm_id gp_id type => m |> put64 2 csm_id |> put64 4 gp_id |> put64 6 type
  | MResult csm_id status => m |> put64 2 csm_id |> put64 4 status
  | MRequest csm_id gp_id user_id => m |> put64 2 csm_id |> put64 4 gp_id |> put64 6 user_id
  | MFeedback proc_slot reqs => m |> put64 2 proc_slot |> put64 4 reqs
  | MRecord r => m |> put_bits 2 0 16 (rc_csm_id r) |> put_bits 2 16 4 (rc_gp_id r) |> put_bits 2 20 12 (rc_state_code r)
      |> put64 4 (rc_user_id r) |> put64 6 (rc_url_id r) |> put64 8 (rc_send r) |> put64 10 (rc_receive r)
      |> put64 12 (rc_time r)
  end.

(** What a receiver reads from the memory [m], by the type. *)
Definition at_distribution (bits : Z) (args : nat) (m : memory) : distribution :=
  Distribution (at_bits 28 bits 8 m) (at_floats args 3 m).

Definition at_simulation (m : memory) : simulation_message :=
  Simulation (at64 2 m) (at_floats 4 24 m)
    (Behavior (at_distribution 0 29 m) (at_distribution 8 32 m) (at_distribution 16 35 m) (at_distribution 24 38 m))
    (at_bits 41 0 4 m) (at_bits 41 4 1 m =? 1) (at_bits 41 5 11 m) (at64 42 m).

Definition at_message (m : memory) : option message :=
  let type := at32 0 m in
  if type =? NTG_CHANNEL_TYPE then
    Some (MChannel (ChannelMsg (at64 2 m) (s32 (at32 4 m)) (s64 (at64 6 m)) (s32 (at32 8 m))))
  else if type =? NTG_SIMULATION_TYPE then Some (MSimulation (at_simulation m))
  else if type =? NTG_CONTROL_TYPE then Some (MControl (s64 (at64 2 m)) (s64 (at64 4 m)) (s64 (at64 6 m)))
  else if type =? NTG_RESULT_TYPE then Some (MResult (s64 (at64 2 m)) (s64 (at64 4 m)))
  else if type =? NTG_REQUEST_TYPE then Some (MRequest (s64 (at64 2 m)) (s64 (at64 4 m)) (s64 (at64 6 m)))
  else if type =? NTG_FEEDBACK_TYPE then Some (MFeedback (at64 2 m) (at64 4 m))
  else if type =? NTG_RECORD_TPYE then
    Some (MRecord (RecordMsg (at_bits 2 0 16 m) (at_bits 2 16 4 m) (at_bits 2 20 12 m) (at64 4 m) (at64 6 m) (at64 8 m)
      (at64 10 m) (s64 (at64 12 m))))
  else None.

(** ** The channel *)

(** What goes over the socket: the bytes, and a descriptor to pass. *)
Record datagram := Datagram { dg_cells : memory; dg_fd : option Z }.

Inductive sendmsg_result := SendOk | SendAgain | SendFails.

(** [ntg_write_channel] of [size] cells; what it puts on the channel.  A
    descriptor is passed with a channel message. *)
Definition ntg_write_channel (msg : memory) (size : nat) (sent : sendmsg_result) : Z * option datagram :=
  let fd := s32 (at32 8 msg) in
  let control := if at32 0 msg =? NTG_CHANNEL_TYPE then (if fd =? -1 then None else Some fd) else None in
  match sent with
  | SendOk => (NTG_OK, Some (Datagram (take size msg) control))
  | SendAgain => (NTG_AGAIN, None)
  | SendFails => (NTG_ERROR, None)
  end.

(** The control data on the stack of [ntg_read_channel] behind [recvmsg]: whether
    its length, level and type are those of a descriptor, and the descriptor. *)
Record control_data := ControlData { cd_short : bool; cd_other : bool; cd_fd : Z }.

Inductive recvmsg_result := RecvAgain | RecvFails | Received (d : datagram).

Definition NTG_CMD_OPEN_CHANNEL : Z := 1.

(** [ntg_read_channel]: its result and the message memory; [junk] is
    what the control data holds when none was received, [fd] the descriptor
    the kernel makes of one that was. *)
Definition ntg_read_channel (msg : memory) (size : nat) (r : recvmsg_result) (junk : control_data) (fd : Z)
  : Z * memory :=
  match r with
  | RecvAgain => (NTG_AGAIN, msg)
  | RecvFails => (NTG_ERROR, msg)
  | Received d =>
      let cells := take size (dg_cells d) in
      if (length cells =? 0)%nat then (NTG_ERROR, msg)
      else
        let msg := cells ++ drop (length cells) msg in
        let n := 4 * Z.of_nat (length cells) in
        let control := match dg_fd d with Some _ => ControlData false false fd | None => junk end in
        if (at32 0 msg =? NTG_CHANNEL_TYPE) && (at64 2 msg =? NTG_CMD_OPEN_CHANNEL) then
          if cd_short control then (NTG_ERROR, msg)
          else if cd_other control then (NTG_ERROR, msg)
          else (n, put32 8 (cd_fd control) msg)
        else (n, msg)
  end.

(** The size every sender gives: the type without its padding, and the body. *)
Definition sent_cells (msg : message) : nat := S (msg_size (type_of msg)).

(** Memory that [ntg_memzero] cleared. *)
Definition zero_message : memory := replicate message_cells (CInt 0).

(** ** Bit fields *)

Lemma bit_field_same w off n v : 0 <= off -> 0 <= n -> 0 <= v < 2 ^ n -> get_bits (set_bits w off n v) off n = v.
Proof.
  intros Ho Hn Hv. unfold get_bits, set_bits. apply Z.bits_inj'. intros i Hi.
  rewrite Z.land_spec, Z.shiftr_spec, Z.lor_spec, Z.ldiff_spec, !Z.shiftl_spec, Z.land_spec by lia.
  replace (i + off - off) with i by lia. destruct (Z.ltb_spec i n).
  - rewrite Z.ones_spec_low by lia. cbn [negb]. by rewrite andb_false_r, !andb_true_r.
  - rewrite Z.ones_spec_high by lia. rewrite !andb_false_r.
    destruct (Z.eq_dec v 0) as [->|]; [by rewrite Z.bits_0|].
    rewrite Z.bits_above_log2; [done|lia|]. apply Z.log2_lt_pow2; [lia|].
    apply Z.lt_le_trans with (2 ^ n); [lia|]. apply Z.pow_le_mono_r; lia.
Qed.

Lemma bit_field_other w off n v off' n' :
  0 <= off -> 0 <= n -> 0 <= off' -> 0 <= n' -> off + n <= off' \/ off' + n' <= off ->
  get_bits (set_bits w off n v) off' n' = get_bits w off' n'.
Proof.
  intros Ho Hn Ho' Hn' Hd. unfold get_bits, set_bits. apply Z.bits_inj'. intros i Hi.
  rewrite !Z.land_spec, !Z.shiftr_spec, Z.lor_spec, Z.ldiff_spec, !Z.shiftl_spec by lia.
  destruct (Z.ltb_spec i n') as [Hin|Hin]; [|rewrite (Z.ones_spec_high n' i) by lia; by rewrite !andb_false_r].
  rewrite (Z.ones_spec_low n' i) by lia. rewrite !andb_true_r.
  destruct (Z.ltb_spec (i + off' - off) 0) as [Hneg|Hpos].
  - rewrite !(Z.testbit_neg_r _ (i + off' - off)) by lia. cbn [negb]. by rewrite andb_true_r, orb_false_r.
  - rewrite ?Z.land_spec, (Z.ones_spec_high n) by lia. cbn [negb]. by rewrite andb_true_r, andb_false_r, orb_false_r.
Qed.

(** ** What arrives *)

Lemma pair_u64 v : is_u64 v -> u32 v + 4294967296 * u32 (v / 4294967296) = v.
Proof. intros. mlia. Qed.
Lemma pair_s64 v : is_s64 v -> s64 (u32 v + 4294967296 * u32 (v / 4294967296)) = v.
Proof. intros. mlia. Qed.
Lemma low_u32 v : 0 <= v < 4294967296 -> u32 v + 4294967296 * 0 = v.
Proof. intros. mlia. Qed.
Lemma low_s32 v : 0 <= v < 4294967296 -> s64 (u32 v + 4294967296 * 0) = v.
Proof. intros. mlia. Qed.
Lemma int32 v : -2147483648 <= v < 2147483648 -> s32 (u32 v) = v.
Proof. intros. mlia. Qed.

Definition three (fs : list spec_float) : Prop := length fs = 3%nat.
Definition byte_range (v : Z) : Prop := 0 <= v < 2 ^ 8.
Definition last_range (v : Z) : Prop := 0 <= v < 4294967296.

Record valid_distribution (d : distribution) : Prop := {
  vd_type : byte_range (d_type d);
  vd_args : three (d_args d) }.

(** The values the fields can hold; of the last field only the lower half is sent. *)
Definition valid_message (msg : message) : Prop :=
  match msg with
  | MChannel ch => is_u64 (ch_command ch) /\ -2147483648 <= ch_pid ch < 2147483648 /\ is_s64 (ch_slot ch) /\
      -2147483648 <= ch_fd ch < 2147483648 /\ (ch_command ch = NTG_CMD_OPEN_CHANNEL -> ch_fd ch <> -1)
  | MSimulation sm => is_u64 (sm_csm_id sm) /\ length (sm_scene sm) = 24%nat /\
      valid_distribution (ss_num (sm_behavior sm)) /\ valid_distribution (ss_itv (sm_behavior sm)) /\
      valid_distribution (clk_num (sm_behavior sm)) /\ valid_distribution (clk_itv (sm_behavior sm)) /\
      0 <= sm_gp_id sm < 2 ^ 4 /\ 0 <= sm_st_point sm < 2 ^ 11 /\ last_range (sm_user_n sm)
  | MControl csm_id gp_id type => is_s64 csm_id /\ is_s64 gp_id /\ last_range type
  | MResult csm_id status => is_s64 csm_id /\ last_range status
  | MRequest csm_id gp_id user_id => is_s64 csm_id /\ is_s64 gp_id /\ last_range user_id
  | MFeedback proc_slot reqs => is_u64 proc_slot /\ last_range reqs
  | MRecord r => 0 <= rc_csm_id r < 2 ^ 16 /\ 0 <= rc_gp_id r < 2 ^ 4 /\ 0 <= rc_state_code r < 2 ^ 12 /\
      is_u64 (rc_user_id r) /\ is_u64 (rc_url_id r) /\ is_u64 (rc_send r) /\ is_u64 (rc_receive r) /\ last_range (rc_time r)
  end.

(** A descriptor is another number in the process that receives it. *)
Definition arrived (fd : Z) (msg : message) : message :=
  match msg with
  | MChannel ch => if ch_command ch =? NTG_CMD_OPEN_CHANNEL
                   then MChannel (ChannelMsg (ch_command ch) (ch_pid ch) (ch_slot ch) fd) else msg
  | _ => msg
  end.

(** Name the cells of a memory. *)
Ltac cells H :=
  repeat match type of H with
  | length ?l = S _ => destruct l; [discriminate H|apply (f_equal pred) in H; cbn [pred length] in H]
  end;
  match type of H with length ?l = O => destruct l; [clear H|discriminate H] end.

Ltac bit_fields := repeat first
  [rewrite bit_field_same by (lia || assumption)
  |rewrite bit_field_other by lia].

(** Evaluate an access to named cells. *)
Ltac read_cells := cbv -[u32 s32 s64 Z.mul Z.add Z.div set_bits get_bits float_bits Z.eqb].

(** [msg], built in the memory [junk], sent, and read into the memory [old]. *)
Definition arrives (fd : Z) (msg : message) (junk old : memory) (control : control_data) : Prop :=
  exists dg n mem, ntg_write_channel (put_message msg junk) (sent_cells msg) SendOk = (NTG_OK, Some dg) /\
    ntg_read_channel old message_cells (Received dg) control fd = (n, mem) /\
    0 < n /\ length mem = message_cells /\ at_message mem = Some (arrived fd msg).

Section arrival.
Context (fd : Z) (junk old : memory) (control : control_data).
Context (Hj : length junk = message_cells) (Ho : length old = message_cells).

Lemma simulation_arrives sm :
  valid_message (MSimulation sm) -> old !! sent_cells (MSimulation sm) = Some (CInt 0) ->
  arrives fd (MSimulation sm) junk old control.
Proof.
  destruct sm as [id scene [[t1 a1] [t2 a2] [t3 a3] [t4 a4]] gp is_scene pt un].
  cbn [valid_message sm_csm_id sm_scene sm_behavior ss_num ss_itv clk_num clk_itv sm_gp_id sm_st_point sm_user_n].
  intros (H1 & H2 & [H3 H4] & [H5 H6] & [H7 H8] & [H9 H10] & H11 & H12 & H13) Hlast.
  unfold arrives. change (sent_cells _) with 43%nat in *. unfold three, message_cells in *. cbn [d_type d_args] in *.
  cells H2. cells H4. cells H6. cells H8. cells H10. cells Hj. cells Ho.
  cbn in Hlast. injection Hlast as ->. cbn [arrived].
  eexists _, _, _. split; [reflexivity|]. split; [reflexivity|]. split; [reflexivity|]. split; [reflexivity|].
  match goal with |- at_message ?m = _ => change (at_message m) with (Some (MSimulation (at_simulation m))) end.
  assert (Hs : 0 <= (if is_scene then 1 else 0) < 2 ^ 1) by (destruct is_scene; lia).
  read_cells. bit_fields. rewrite pair_u64, low_u32 by done. by destruct is_scene.
Qed.

(** The other messages that are no channel messages. *)
Lemma small_arrives msg :
  match msg with MChannel _ | MSimulation _ => False | _ => True end ->
  valid_message msg -> old !! sent_cells msg = Some (CInt 0) -> arrives fd msg junk old control.
Proof.
  destruct msg as [| |id gp ty|id st|id gp u|sl rq|[c g st u url sd rv tm]]; intros Hm Hv Hlast; try done; clear Hm;
    cbn [valid_message rc_csm_id rc_gp_id rc_state_code rc_user_id rc_url_id rc_send rc_receive rc_time] in Hv;
    destruct_and! Hv; unfold last_range, arrives in *.
  1,3: change (sent_cells _) with 7%nat in *.
  3,4: change (sent_cells _) with 5%nat in *.
  5: change (sent_cells _) with 13%nat in *.
  all: unfold message_cells in *; cells Hj; cells Ho; cbn in Hlast; injection Hlast as ->; cbn [arrived];
    eexists _, _, _; split; [reflexivity|]; split; [reflexivity|]; split; [reflexivity|]; split; [reflexivity|].
  - match goal with |- at_message ?m = _ => change (at_message m) with (Some (MControl (s64 (at64 2 m)) (s64 (at64 4 m)) (s64 (at64 6 m)))) end.
    read_cells. by rewrite !pair_s64, low_s32 by done.
  - match goal with |- at_message ?m = _ => change (at_message m) with (Some (MRequest (s64 (at64 2 m)) (s64 (at64 4 m)) (s64 (at64 6 m)))) end.
    read_cells. by rewrite !pair_s64, low_s32 by done.
  - match goal with |- at_message ?m = _ => change (at_message m) with (Some (MResult (s64 (at64 2 m)) (s64 (at64 4 m)))) end.
    read_cells. by rewrite pair_s64, low_s32 by done.
  - match goal with |- at_message ?m = _ => change (at_message m) with (Some (MFeedback (at64 2 m) (at64 4 m))) end.
    read_cells. by rewrite pair_u64, low_u32 by done.
  - match goal with |- at_message ?m = _ => change (at_message m) with
      (Some (MRecord (RecordMsg (at_bits 2 0 16 m) (at_bits 2 16 4 m) (at_bits 2 20 12 m) (at64 4 m) (at64 6 m) (at64 8 m)
      (at64 10 m) (s64 (at64 12 m))))) end.
    read_cells. bit_fields. by rewrite !pair_u64, low_s32 by done.
Qed.

Lemma channel_arrives ch :
  -2147483648 <= fd < 2147483648 -> valid_message (MChannel ch) -> arrives fd (MChannel ch) junk old control.
Proof.
  destruct ch as [cmd pid slot f]. cbn [valid_message ch_command ch_pid ch_slot ch_fd].
  intros Hfd (H1 & H2 & H3 & H4 & H5). unfold arrives. change (sent_cells _) with 9%nat.
  unfold message_cells in *. cells Hj. cells Ho. cbn [arrived ch_command ch_pid ch_slot].
  set (sent := put_message _ _).
  assert (Ef : s32 (at32 8 sent) = f) by (exact (int32 f H4)).
  assert (Ew : ntg_write_channel sent 9 SendOk = (NTG_OK, Some (Datagram (take 9 sent) (if f =? -1 then None else Some f)))).
  { unfold ntg_write_channel. rewrite Ef. reflexivity. }
  rewrite Ew. exists (Datagram (take 9 sent) (if f =? -1 then None else Some f)). unfold ntg_read_channel. cbn [dg_cells dg_fd]. set (got := take 44 _ ++ _).
  assert (Ec : at64 2 got = cmd) by (exact (pair_u64 cmd H1)). rewrite Ec.
  change (at32 0 got =? NTG_CHANNEL_TYPE) with true. cbn [andb]. unfold NTG_CMD_OPEN_CHANNEL in *.
  change (length (take 44 (take 9 sent)) =? 0)%nat with false. cbv iota.
  assert (Em : forall m, at32 0 m = 1 -> at_message m =
    Some (MChannel (ChannelMsg (at64 2 m) (s32 (at32 4 m)) (s64 (at64 6 m)) (s32 (at32 8 m)))))
    by (intros m E; unfold at_message; by rewrite E).
  destruct (Z.eqb_spec cmd 1) as [->|Hc].
  - rewrite (proj2 (Z.eqb_neq f (-1))) by auto. cbn [cd_short cd_other cd_fd].
    eexists _, _. do 4 (split; [reflexivity|]). rewrite Em by reflexivity. subst got sent.
    read_cells. by rewrite pair_u64, pair_s64, !int32 by done.
  - eexists _, _. do 4 (split; [reflexivity|]). rewrite Em by reflexivity. subst got sent.
    read_cells. by rewrite pair_u64, pair_s64, !int32 by done.
Qed.

End arrival.

Lemma message_arrives fd msg junk old control :
  length junk = message_cells -> length old = message_cells -> -2147483648 <= fd < 2147483648 -> valid_message msg ->
  old !! sent_cells msg = Some (CInt 0) -> arrives fd msg junk old control.
Proof.
  intros Hj Ho Hfd Hv Hl. destruct msg; try (by apply small_arrives); [by apply channel_arrives|by apply simulation_arrives].
Qed.


(** ** Examples *)

Definition example_open : message := MChannel (ChannelMsg 1 4711 2 9).


(** A control message that is read behind a simulation message of a scene, in
    memory cleared only once, gets the upper half of its type from the scene:
    the deletion of group 1 is taken for an operation there is not. *)
Definition scene_message : message :=
  MSimulation (Simulation 7 (replicate 24 (f32_of_Z 3)) (Behavior zero_dist zero_dist zero_dist zero_dist) 1 true 0 10).

Definition read_after (before msg : message) : option message :=
  match ntg_write_channel (put_message before zero_message) (sent_cells before) SendOk,
        ntg_write_channel (put_message msg zero_message) (sent_cells msg) SendOk with
  | (_, Some d1), (_, Some d2) =>
      let '(_, mem) := ntg_read_channel zero_message message_cells (Received d1) (ControlData true true 0) 0 in
      let '(_, mem) := ntg_read_channel mem message_cells (Received d2) (ControlData true true 0) 0 in
      at_message mem
  | _, _ => None
  end.

Lemma stale_control : read_after scene_message (MControl 7 1 NTG_CTL_DELETE) = Some (MControl 7 1 4629700416936869888).
Proof. vm_compute. reflexivity. Qed.

(** More than 2^32 users are cut. *)
Lemma users_cut :
  read_after (MResult 0 0) (MSimulation (Simulation 7 (replicate 24 (f32_of_Z 3)) (Behavior zero_dist zero_dist zero_dist zero_dist)
    1 true 0 4294967297)) =
  Some (MSimulation (Simulation 7 (replicate 24 (f32_of_Z 3)) (Behavior zero_dist zero_dist zero_dist zero_dist) 1 true 0 1)).
Proof. vm_compute. reflexivity. Qed.
