(* ===== verification/Remote.v ===== *)
(** * The control connections (src/utils/ntg_remote.c)

    The front end connects, sends a request in JSON, and gets one answer.  A
    request goes over a channel to the process of the users, whose result comes
    back over another; the connections that wait for one are kept in a table.
    The tree is that of cJSON, whose parser is an argument. *)

From Stdlib Require Import SpecFloat.
From S2P Require Import Prelude NtgString Sprintf Spline Table UserGroup UserManage Channel.

(** ** JSON *)

(** [cJSON] (lib/cJSON.h): the strings without their NUL, the children in order. *)
Inductive cJSON := CJSON {
  cj_string : option bytes;
  cj_type : Z;
  cj_valuestring : option bytes;
  cj_valueint : Z;
  cj_valuedouble : spec_float;
  cj_child : list cJSON }.

Definition cJSON_True : Z := 2.
Definition cJSON_Number : Z := 8.
Definition cJSON_String : Z := 16.
Definition cJSON_Array : Z := 32.
Definition cJSON_Object : Z := 64.

Definition tolower (c : Z) : Z := if (ch "A" <=? c) && (c <=? ch "Z") then c + 32 else c.

(** [cJSON_GetObjectItem], which also takes a null object; names are compared
    without regard to case. *)
Definition cJSON_GetObjectItem (object : option cJSON) (name : bytes) : option cJSON :=
  match object with
  | None => None
  | Some o => List.find (fun c => match cj_string c with
                                  | Some s => bool_decide (map tolower s = map tolower name)
                                  | None => false
                                  end) (cj_child o)
  end.

(** Accesses to an item; a null item or a null string is undefined. *)
Definition int_item (object : option cJSON) (name : bytes) : option Z :=
  item ← cJSON_GetObjectItem object name; Some (cj_valueint item).

Definition string_item (object : option cJSON) (name : bytes) : option bytes :=
  item ← cJSON_GetObjectItem object name; cj_valuestring item.

(** The conversion of a [double] to a [float]. *)
Definition to_float (d : spec_float) : spec_float :=
  match d with
  | S754_finite s m e => binary_normalize 24 128 (if s then Zneg m else Zpos m) e s
  | _ => d
  end.

Definition ntg_remote_get_type (obj : option cJSON) : option Z :=
  type ← string_item obj (str "type");
  Some (if bool_decide (type = str "lognormal") then NTG_MATH_LOGNORMAL_E
        else if bool_decide (type = str "posisson") then NTG_MATH_POSISSON_E
        else if bool_decide (type = str "exponential") then NTG_MATH_EXPONENTIAL_E
        else if bool_decide (type = str "normal") then NTG_MATH_NORMAL_E
        else if bool_decide (type = str "weibull") then NTG_MATH_WEIBULL_E
        else NTG_MATH_AVERAGE_E).

(** The numbers of an array, filled up with zeros; more than [size] are written
    outside of [data]. *)
Definition ntg_remote_get_args (obj : option cJSON) (size : nat) : option (list spec_float) :=
  head ← cJSON_GetObjectItem obj (str "args");
  let data := map (fun pos => to_float (cj_valuedouble pos)) (cj_child head) in
  if (size <? length data)%nat then None
  else Some (data ++ replicate (size - length data) (S754_zero false)).

(** ** The message of a request *)

Definition get_distribution (root : cJSON) (name : bytes) : option distribution :=
  let json := cJSON_GetObjectItem (Some root) name in
  type ← ntg_remote_get_type json;
  args ← ntg_remote_get_args json 3;
  Some (Distribution type args).

(** The simulation message; the identifier is that of the connection, too. *)
Definition get_simulation (root : cJSON) : option (Z * simulation_message) :=
  csm_id ← int_item (Some root) (str "csm_id");
  gp_id ← int_item (Some root) (str "gp_id");
  users ← int_item (Some root) (str "users");
  ss_num ← get_distribution root (str "ss_num");
  ss_itv ← get_distribution root (str "ss_itv");
  clk_num ← get_distribution root (str "clk_num");
  clk_itv ← get_distribution root (str "clk_itv");
  let json := cJSON_GetObjectItem (Some root) (str "scene") in
  flag ← cJSON_GetObjectItem json (str "is_scene");
  let is_scene := cj_type flag =? cJSON_True in
  scene ← (if is_scene then ntg_remote_get_args json 24 else Some (replicate 24 (S754_zero false)));
  Some (csm_id, Simulation (u64 csm_id) scene (Behavior ss_num ss_itv clk_num clk_itv)
                  (gp_id mod 16) is_scene 0 (u64 users)).

(** The identifier the request gives the connection, if it does, the message,
    and the size that is sent of it. *)
Definition get_message (root : cJSON) : option (option Z * memory * nat) :=
  type ← string_item (Some root) (str "type");
  let control_size := S (msg_size NTG_CONTROL_TYPE) in
  if bool_decide (type = str "simulation") then
    '(id, sm) ← get_simulation root;
    Some (Some id, put_message (MSimulation sm) zero_message, S (msg_size NTG_SIMULATION_TYPE))
  else if bool_decide (type = str "control") then
    id ← int_item (Some root) (str "csm_id");
    ctl_type ← string_item (Some root) (str "ctl_type");
    if bool_decide (ctl_type = str "delete") then
      gp_id ← int_item (Some root) (str "gp_id");
      Some (Some id, put_message (MControl id gp_id NTG_CTL_DELETE) zero_message, control_size)
    else if bool_decide (ctl_type = str "quit") then
      Some (Some id, put_message (MControl id 0 NTG_CTL_QUIT) zero_message, control_size)
    else Some (Some id, put_message (MControl id 0 0) zero_message, control_size)
  else Some (None, zero_message, control_size).

(** ** The connections *)

(** [ntg_connect_t], with the buffers of its bufferevent. *)
Record ntg_connect := Connect {
  cn_fd : Z;
  cn_id : Z;
  cn_in : bytes;
  cn_out : bytes;
  cn_write : bool }.

(** [ntg_remote_s], with the memory of the connections, and the number of the
    trees that were built and not freed. *)
Record ntg_remote := Remote {
  rm_table : ntg_hash_table;
  rm_cnts : gmap Z ntg_connect;
  rm_trees : Z }.

Definition set_rm_table t r := Remote t (rm_cnts r) (rm_trees r).
Definition set_rm_cnts cs r := Remote (rm_table r) cs (rm_trees r).

Definition modify_cnt (c : Z) (f : ntg_connect -> ntg_connect) (r : ntg_remote) : option ntg_remote :=
  cn ← rm_cnts r !! c; Some (set_rm_cnts (<[c := f cn]> (rm_cnts r)) r).

(** The connection on the stack of [ntg_remote_result_handler]. *)
Definition TMP_CNT : Z := -1.

Definition cnt_ident (cs : gmap Z ntg_connect) (tmp d : Z) : Z :=
  if d =? TMP_CNT then tmp else from_option cn_id 0 (cs !! d).
Definition ntg_remote_get_key (cs : gmap Z ntg_connect) (tmp data : Z) : Z := u64 (cnt_ident cs tmp data).
Definition ntg_remote_compare (cs : gmap Z ntg_connect) (tmp d1 d2 : Z) : Z :=
  u64 (cnt_ident cs tmp d1 - cnt_ident cs tmp d2).

(** [ntg_remote_init]: the outcomes of the allocation of the object, of the
    listener and of the allocations of the table, whether there is an address to
    listen at, and the number of consumers of the configuration. *)
Definition ntg_remote_init (object address listener table buckets : bool) (consumes : Z)
  : option (Z * option ntg_remote) :=
  if negb (object && address && listener && table) then Some (NTG_ERROR, None)
  else
    let n := if negb (consumes =? NTG_CONF_UNSET) then consumes else NTG_USER_DEFAULT_CONSUMER_NUM in
    '(rc, t) ← ntg_hash_table_init buckets (Z.quot (n * 2) 3) n;
    Some (if rc =? NTG_OK then (NTG_OK, Some (Remote t ∅ 0)) else (NTG_ERROR, None)).

Definition ntg_accept_cb (bev : bool) (cnt : option Z) (fd : Z) (r : ntg_remote) : ntg_remote :=
  if negb bev then r
  else match cnt with
       | None => r
       | Some c => set_rm_cnts (<[c := Connect fd 0 [] [] false]> (rm_cnts r)) r
       end.

(** The answers, with the NUL behind them. *)
Definition NTG_REMOTE_FROMAT_ERROR : Z := 100.
Definition NTG_REMOTE_EXIST_ERROR : Z := 101.
Definition NTG_REMOTE_TOO_CSM_ERROR : Z := 102.
Definition NTG_REMOTE_END_ERROR : Z := 103.
Definition NTG_REMOTE_SUCCESS : Z := 200.

Definition state_code (digits : bytes) : bytes :=
  [123; 34] ++ str "state_code" ++ [34; 58] ++ digits ++ [125; 0].

Definition response_text (code : Z) : bytes :=
  if code =? NTG_REMOTE_FROMAT_ERROR then state_code (str "100")
  else if code =? NTG_REMOTE_EXIST_ERROR then state_code (str "101")
  else if code =? NTG_REMOTE_TOO_CSM_ERROR then state_code (str "102")
  else if code =? NTG_REMOTE_END_ERROR then state_code (str "103")
  else if code =? NTG_REMOTE_SUCCESS then state_code (str "200")
  else [].

Definition ntg_remote_response (c code : Z) (r : ntg_remote) : option ntg_remote :=
  modify_cnt c (fun cn => Connect (cn_fd cn) (cn_id cn) (cn_in cn) (cn_out cn ++ response_text code) true) r.

Section parse.
(** [cJSON_Parse], on the bytes in front of a NUL. *)
Context (cJSON_Parse : bytes -> option cJSON).

(** [ntg_remote_message_handler]; what goes over the channel is returned. *)
Definition ntg_remote_message_handler (sent : sendmsg_result) (c : Z) (root : cJSON) (r : ntg_remote)
  : option (Z * option datagram * ntg_remote) :=
  '(id, msg, size) ← get_message root;
  r ← match id with
      | Some id => modify_cnt c (fun cn => Connect (cn_fd cn) id (cn_in cn) (cn_out cn) (cn_write cn)) r
      | None => Some r
      end;
  let key := ntg_remote_get_key (rm_cnts r) 0 in
  let cmp := ntg_remote_compare (rm_cnts r) 0 in
  found ← ntg_hash_find_node key cmp (rm_table r) c;
  match found with
  | Some _ => r ← ntg_remote_response c NTG_REMOTE_EXIST_ERROR r; Some (NTG_ERROR, None, r)
  | None =>
      '(rc, t) ← ntg_hash_insert_node key cmp (rm_table r) c;
      let r := set_rm_table t r in
      if negb (rc =? NTG_OK) then
        r ← ntg_remote_response c NTG_REMOTE_TOO_CSM_ERROR r; Some (NTG_ERROR, None, r)
      else
        let '(rc, dg) := ntg_write_channel msg size sent in
        if negb (rc =? NTG_OK) then
          r ← ntg_remote_response c NTG_REMOTE_END_ERROR r; Some (NTG_ERROR, None, r)
        else Some (NTG_OK, dg, r)
  end.

(** [ntg_remote_read_cb]: up to 1024 bytes are taken from the buffer; with 1024
    the NUL is written behind the array.  The tree is not freed. *)
Definition ntg_remote_read_cb (sent : sendmsg_result) (c : Z) (r : ntg_remote) : option (option datagram * ntg_remote) :=
  cn ← rm_cnts r !! c;
  let data := take 1024 (cn_in cn) in
  r ← modify_cnt c (fun cn => Connect (cn_fd cn) (cn_id cn) (drop 1024 (cn_in cn)) (cn_out cn) (cn_write cn)) r;
  if (length data =? 1024)%nat then None
  else if (length data <? 16)%nat then
    r ← ntg_remote_response c NTG_REMOTE_FROMAT_ERROR r; Some (None, r)
  else
    match cJSON_Parse data with
    | None => r ← ntg_remote_response c NTG_REMOTE_FROMAT_ERROR r; Some (None, r)
    | Some root =>
        '(_, dg, r) ← ntg_remote_message_handler sent c root r;
        Some (dg, Remote (rm_table r) (rm_cnts r) (rm_trees r + 1))
    end.

End parse.

(** Taking a connection out of the table and freeing it. *)
Definition drop_connect (c : Z) (r : ntg_remote) : option ntg_remote :=
  '(_, t) ← ntg_hash_delete_node (ntg_remote_get_key (rm_cnts r) 0) (ntg_remote_compare (rm_cnts r) 0) (rm_table r) c;
  Some (Remote t (delete c (rm_cnts r)) (rm_trees r)).

Definition ntg_remote_write_cb (c : Z) (r : ntg_remote) : option ntg_remote :=
  cn ← rm_cnts r !! c;
  if (length (cn_out cn) =? 0)%nat then drop_connect c r else Some r.

Definition ntg_remote_event_cb (c : Z) (r : ntg_remote) : option ntg_remote :=
  _ ← rm_cnts r !! c; drop_connect c r.

Definition ntg_remote_result_handler (csm_id status : Z) (r : ntg_remote) : option (Z * ntg_remote) :=
  node ← ntg_hash_find_node (ntg_remote_get_key (rm_cnts r) csm_id) (ntg_remote_compare (rm_cnts r) csm_id) (rm_table r) TMP_CNT;
  match node with
  | None => Some (NTG_ERROR, r)
  | Some i =>
      nd ← tb_nodes (rm_table r) !! i; c ← nd_data nd;
      r ← ntg_remote_response c (if status =? NTG_RST_SUCCESS then NTG_REMOTE_SUCCESS else NTG_REMOTE_END_ERROR) r;
      Some (NTG_OK, r)
  end.

(** ** The connections that wait *)

#[export] Instance remote_table_key cs tmp : TableKey (ntg_remote_get_key cs tmp) (ntg_remote_compare cs tmp).
Proof. intros d1 d2. unfold ntg_remote_get_key, ntg_remote_compare. split; intros; mlia. Qed.

(** The connections [M], by identifier, wait for a result; [n] more can. *)
Record remote_inv (r : ntg_remote) (M : gmap Z Z) (n : nat) : Prop := {
  ri_table : table_holds (ntg_remote_get_key (rm_cnts r) 0) (rm_table r) M n;
  ri_cnts : forall k c, M !! k = Some c -> is_Some (rm_cnts r !! c);
  ri_tmp : rm_cnts r !! TMP_CNT = None }.

Definition waits (M : gmap Z Z) (c : Z) : Prop := exists k, M !! k = Some c.

Section connections.
Context (r : ntg_remote) (M : gmap Z Z) (n : nat) (I : remote_inv r M n).

Lemma key_of c cn tmp : rm_cnts r !! c = Some cn -> ntg_remote_get_key (rm_cnts r) tmp c = u64 (cn_id cn).
Proof.
  intros Hc. unfold ntg_remote_get_key, cnt_ident. destruct (Z.eqb_spec c TMP_CNT) as [->|].
  - by rewrite (ri_tmp _ _ _ I) in Hc.
  - by rewrite Hc.
Qed.

(** Connections that keep their identifiers while they wait. *)
Lemma table_holds_cnts cs tmp :
  (forall k c cn, M !! k = Some c -> rm_cnts r !! c = Some cn -> exists cn', cs !! c = Some cn' /\ cn_id cn' = cn_id cn) ->
  table_holds (ntg_remote_get_key cs tmp) (rm_table r) M n.
Proof.
  intros Hcs. apply (table_holds_ext _ _ _ _ _ (ri_table _ _ _ I)). intros k c Hk.
  destruct (ri_cnts _ _ _ I k c Hk) as [cn Hc]. destruct (Hcs k c cn Hk Hc) as (cn' & Hc' & Hid).
  rewrite (key_of c cn 0 Hc). unfold ntg_remote_get_key, cnt_ident.
  destruct (Z.eqb_spec c TMP_CNT) as [->|]; [by rewrite (ri_tmp _ _ _ I) in Hc|]. rewrite Hc'. cbn. by rewrite Hid.
Qed.

Lemma inv_update c cn cn' tr :
  rm_cnts r !! c = Some cn -> cn_id cn' = cn_id cn \/ ~ waits M c ->
  remote_inv (Remote (rm_table r) (<[c := cn']> (rm_cnts r)) tr) M n.
Proof.
  intros Hc Hid. split; cbn [rm_table rm_cnts].
  - apply table_holds_cnts. intros k d dn Hk Hd. destruct (decide (c = d)) as [<-|Hne].
    + rewrite lookup_insert_eq. exists cn'. split; [done|]. rewrite Hc in Hd. injection Hd as <-.
      destruct Hid as [|Hw]; [done|]. exfalso. apply Hw. by exists k.
    + rewrite lookup_insert_ne by done. by exists dn.
  - intros k d Hk. destruct (decide (c = d)) as [<-|Hne]; [rewrite lookup_insert_eq; by eexists|].
    rewrite lookup_insert_ne by done. by apply (ri_cnts _ _ _ I k).
  - rewrite lookup_insert_ne; [apply (ri_tmp _ _ _ I)|]. intros ->. by rewrite (ri_tmp _ _ _ I) in Hc.
Qed.

Lemma find_waiting c cn :
  rm_cnts r !! c = Some cn ->
  exists found, ntg_hash_find_node (ntg_remote_get_key (rm_cnts r) 0) (ntg_remote_compare (rm_cnts r) 0) (rm_table r) c = Some found /\
    (found = None <-> M !! u64 (cn_id cn) = None).
Proof.
  intros Hc. destruct (table_holds_find (ntg_remote_get_key (rm_cnts r) 0) (ntg_remote_compare (rm_cnts r) 0) _ _ _ c (ri_table _ _ _ I)) as (found & E & H).
  exists found. split; [exact E|]. rewrite (key_of c cn 0 Hc) in H. destruct found; [|done].
  destruct H as (d & next & _ & H). rewrite H. split; done.
Qed.

End connections.

(** Inserting into a table without a free node. *)
Lemma table_full key cmp `{TableKey key cmp} t M data :
  table_holds key t M 0 -> M !! key data = None -> ntg_hash_insert_node key cmp t data = Some (NTG_ERROR, t).
Proof.
  intros (chains & free & R & Hn & HM) Hk. apply nil_length_inv in Hn as ->.
  destruct (insert_node_ok key cmp t chains [] data R) as (rc & t' & E & _ & H2 & _).
  rewrite HM in H2. destruct (H2 Hk eq_refl) as [-> ->]. exact E.
Qed.

(** ** Requests *)

(** The answer to a request, if it is answered at once. *)
Definition request_code (M : gmap Z Z) (n : nat) (sent : sendmsg_result) (id : Z) : option Z :=
  match M !! u64 id, n, sent with
  | Some _, _, _ => Some NTG_REMOTE_EXIST_ERROR
  | None, O, _ => Some NTG_REMOTE_TOO_CSM_ERROR
  | None, S _, SendOk => None
  | None, S _, _ => Some NTG_REMOTE_END_ERROR
  end.

Definition request_accepted (M : gmap Z Z) (n : nat) (id : Z) : bool :=
  match M !! u64 id, n with None, S _ => true | _, _ => false end.

(** The connection [cn] with an answer. *)
Definition answered (cn : ntg_connect) (code : option Z) : ntg_connect :=
  match code with
  | Some code => Connect (cn_fd cn) (cn_id cn) (cn_in cn) (cn_out cn ++ response_text code) true
  | None => cn
  end.
Definition with_id (cn : ntg_connect) (id : Z) : ntg_connect :=
  Connect (cn_fd cn) id (cn_in cn) (cn_out cn) (cn_write cn).

Lemma response_ok r c cn code :
  rm_cnts r !! c = Some cn ->
  ntg_remote_response c code r = Some (set_rm_cnts (<[c := answered cn (Some code)]> (rm_cnts r)) r).
Proof. intros Hc. unfold ntg_remote_response, modify_cnt. by rewrite Hc. Qed.

Lemma answered_id cn code : cn_id (answered cn code) = cn_id cn.
Proof. by destruct code. Qed.

Lemma message_handler_ok sent c root r M n cn id msg size :
  remote_inv r M n -> rm_cnts r !! c = Some cn -> ~ waits M c -> get_message root = Some (Some id, msg, size) ->
  let code := request_code M n sent id in
  exists rc dg r', ntg_remote_message_handler sent c root r = Some (rc, dg, r') /\
    rm_cnts r' = <[c := answered (with_id cn id) code]> (rm_cnts r) /\ rm_trees r' = rm_trees r /\
    dg = match code with None => snd (ntg_write_channel msg size sent) | Some _ => None end /\
    if request_accepted M n id then remote_inv r' (<[u64 id := c]> M) (pred n) else remote_inv r' M n.
Proof.
  intros I Hc Hw Hm code. unfold ntg_remote_message_handler. rewrite Hm. cbn [mbind option_bind].
  unfold modify_cnt. rewrite Hc. cbn [mbind option_bind]. set (r1 := set_rm_cnts _ r).
  assert (I1 : remote_inv r1 M n) by (apply (inv_update r M n I c cn); [done|by right]).
  assert (Hc1 : rm_cnts r1 !! c = Some (with_id cn id)) by (subst r1; apply lookup_insert_eq).
  destruct (find_waiting r1 M n I1 c _ Hc1) as (found & Ef & Hf). rewrite Ef. cbn [mbind option_bind cn_id with_id] in *.
  subst code. unfold request_code, request_accepted.
  assert (Hans : forall r2 code, rm_cnts r2 = rm_cnts r1 ->
    ntg_remote_response c code r2 = Some (set_rm_cnts (<[c := answered (with_id cn id) (Some code)]> (rm_cnts r)) r2)).
  { intros r2 code E. rewrite (response_ok r2 c (with_id cn id)) by (by rewrite E). rewrite E. subst r1. cbn [rm_cnts set_rm_cnts].
    by rewrite insert_insert_eq. }
  assert (Hinv : forall t M' n' code, remote_inv (set_rm_table t r1) M' n' ->
    remote_inv (set_rm_cnts (<[c := answered (with_id cn id) (Some code)]> (rm_cnts r)) (set_rm_table t r1)) M' n').
  { intros t M' n' code I2. pose proof (inv_update (set_rm_table t r1) M' n' I2 c (with_id cn id) (answered (with_id cn id) (Some code))
      (rm_trees r) Hc1 ltac:(by left)) as H. subst r1. cbn [rm_cnts set_rm_cnts set_rm_table] in H. by rewrite insert_insert_eq in H. }
  assert (Ht1 : set_rm_table (rm_table r1) r1 = r1) by done.
  destruct found as [i|].
  { destruct (M !! u64 id) eqn:Hk; [|by discriminate (proj2 Hf eq_refl)]. rewrite Hans by done. cbn [mbind option_bind].
    eexists _, _, _. split; [reflexivity|]. do 3 (split; [reflexivity|]). rewrite <-Ht1. apply Hinv. by rewrite Ht1. }
  rewrite (proj1 Hf eq_refl). assert (Hk : M !! ntg_remote_get_key (rm_cnts r1) 0 c = None)
    by (rewrite (key_of r1 M n I1 c _ 0 Hc1); by apply Hf). destruct n as [|n].
  { rewrite (table_full _ _ _ _ _ (ri_table _ _ _ I1) Hk). cbn [mbind option_bind Z.eqb negb NTG_ERROR NTG_OK].
    change (negb (NTG_ERROR =? NTG_OK)) with true. cbv iota. rewrite Hans by done. cbn [mbind option_bind].
    eexists _, _, _. split; [reflexivity|]. do 3 (split; [reflexivity|]). apply Hinv. by rewrite Ht1. }
  destruct (table_holds_insert _ _ _ _ _ c (ri_table _ _ _ I1) Hk) as (t' & Et & Ht'). rewrite Et. cbn [mbind option_bind].
  change (negb (NTG_OK =? NTG_OK)) with false. cbv iota.
  assert (I2 : remote_inv (set_rm_table t' r1) (<[u64 id := c]> M) n).
  { rewrite (key_of r1 M (S n) I1 c _ 0 Hc1) in Ht'. split; [exact Ht'| |apply (ri_tmp _ _ _ I1)].
    intros k d. destruct (decide (u64 id = k)) as [<-|Hne].
    - rewrite lookup_insert_eq. intros [= <-]. by exists (with_id cn id).
    - rewrite lookup_insert_ne by done. apply (ri_cnts _ _ _ I1). }
  destruct sent; cbn [ntg_write_channel].
  { change (negb (NTG_OK =? NTG_OK)) with false. cbv iota. eexists _, _, _. split; [reflexivity|]. split; [reflexivity|]. done. }
  all: match goal with |- context [negb (?e =? NTG_OK)] => change (negb (e =? NTG_OK)) with true end; cbv iota;
    rewrite Hans by done; cbn [mbind option_bind]; eexists _, _, _; split; [reflexivity|];
    do 3 (split; [reflexivity|]); by apply Hinv.
Qed.

(** The connection with its input taken. *)
Definition emptied (cn : ntg_connect) : ntg_connect := Connect (cn_fd cn) (cn_id cn) [] (cn_out cn) (cn_write cn).

(** What the parser and the handler see in the bytes received. *)
Definition understood (parse : bytes -> option cJSON) (data : bytes) (parsed : option (Z * memory * nat)) : Prop :=
  match parsed with
  | None => (length data < 16)%nat \/ parse data = None
  | Some (id, msg, size) => (16 <= length data)%nat /\
      exists root, parse data = Some root /\ get_message root = Some (Some id, msg, size)
  end.

Lemma read_cb_ok parse sent c r M n cn parsed :
  remote_inv r M n -> rm_cnts r !! c = Some cn -> ~ waits M c -> (length (cn_in cn) < 1024)%nat ->
  understood parse (cn_in cn) parsed ->
  exists dg r', ntg_remote_read_cb parse sent c r = Some (dg, r') /\
  match parsed with
  | None => dg = None /\ rm_cnts r' = <[c := answered (emptied cn) (Some NTG_REMOTE_FROMAT_ERROR)]> (rm_cnts r) /\ remote_inv r' M n
  | Some (id, msg, size) =>
      let code := request_code M n sent id in
      dg = match code with None => snd (ntg_write_channel msg size sent) | Some _ => None end /\
      rm_cnts r' = <[c := answered (with_id (emptied cn) id) code]> (rm_cnts r) /\
      if request_accepted M n id then remote_inv r' (<[u64 id := c]> M) (pred n) else remote_inv r' M n
  end.
Proof.
  intros I Hc Hw Hl Hu. unfold ntg_remote_read_cb, modify_cnt. rewrite Hc. cbn [mbind option_bind].
  rewrite take_ge, drop_ge by lia. rewrite (proj2 (Nat.eqb_neq _ _)) by lia.
  set (r1 := set_rm_cnts _ r). change (Connect (cn_fd cn) (cn_id cn) [] (cn_out cn) (cn_write cn)) with (emptied cn) in r1.
  assert (I1 : remote_inv r1 M n) by (apply (inv_update r M n I c cn); [done|by left]).
  assert (Hc1 : rm_cnts r1 !! c = Some (emptied cn)) by (subst r1; apply lookup_insert_eq).
  assert (Hbad : exists r', ntg_remote_response c NTG_REMOTE_FROMAT_ERROR r1 = Some r' /\
    rm_cnts r' = <[c := answered (emptied cn) (Some NTG_REMOTE_FROMAT_ERROR)]> (rm_cnts r) /\ remote_inv r' M n).
  { rewrite (response_ok r1 c (emptied cn)) by done. eexists. split; [reflexivity|]. split.
    - subst r1. cbn [rm_cnts set_rm_cnts]. by rewrite insert_insert_eq.
    - apply (inv_update r1 M n I1 c (emptied cn)); [done|by left]. }
  destruct Hbad as (rb & Eb & Hb1 & Hb2). destruct parsed as [p|]; [destruct p as [p size]; destruct p as [id msg]|].
  - destruct Hu as (Hl16 & root & Ep & Em). rewrite (proj2 (Nat.ltb_ge _ _)) by lia. rewrite Ep.
    destruct (message_handler_ok sent c root r1 M n (emptied cn) id msg size I1 Hc1 Hw Em) as (rc & dg & r' & E & H1 & _ & H2 & H3).
    rewrite E. cbn [mbind option_bind]. eexists _, _. split; [reflexivity|]. cbn [rm_cnts].
    split; [exact H2|]. split.
    + rewrite H1. subst r1. cbn [rm_cnts set_rm_cnts]. by rewrite insert_insert_eq.
    + destruct (request_accepted M n id); destruct H3; by split.
  - destruct (Nat.ltb_spec (length (cn_in cn)) 16).
    + rewrite Eb. cbn [mbind option_bind]. by exists None, rb.
    + destruct Hu as [ | -> ]; [lia|]. rewrite Eb. cbn [mbind option_bind]. by exists None, rb.
Qed.


(** ** Results *)

Definition result_code (status : Z) : Z := if status =? NTG_RST_SUCCESS then NTG_REMOTE_SUCCESS else NTG_REMOTE_END_ERROR.

Lemma result_handler_ok r M n id status :
  remote_inv r M n ->
  match M !! u64 id with
  | None => ntg_remote_result_handler id status r = Some (NTG_ERROR, r)
  | Some c => exists cn, rm_cnts r !! c = Some cn /\ u64 (cn_id cn) = u64 id /\
      let r' := set_rm_cnts (<[c := answered cn (Some (result_code status))]> (rm_cnts r)) r in
      ntg_remote_result_handler id status r = Some (NTG_OK, r') /\ remote_inv r' M n
  end.
Proof.
  intros I. unfold ntg_remote_result_handler.
  assert (Ht : table_holds (ntg_remote_get_key (rm_cnts r) id) (rm_table r) M n)
    by (apply (table_holds_cnts r M n I); intros k d dn _ Hd; by exists dn).
  destruct (table_holds_find _ (ntg_remote_compare (rm_cnts r) id) _ _ _ TMP_CNT Ht) as (found & E & H).
  assert (Ek : ntg_remote_get_key (rm_cnts r) id TMP_CNT = u64 id) by done. rewrite Ek in H.
  rewrite E. cbn [mbind option_bind]. destruct found as [i|]; [|by rewrite H].
  destruct H as (c & next & Hi & Hk). rewrite Hk, Hi. cbn [mbind option_bind nd_data].
  destruct (ri_cnts _ _ _ I _ c Hk) as [cn Hc]. exists cn. split; [done|].
  split; [rewrite <-(key_of r M n I c cn id Hc); by apply (table_holds_key _ _ _ _ _ _ Ht)|].
  rewrite (response_ok r c cn) by done. cbn [mbind option_bind]. split; [reflexivity|].
  apply (inv_update r M n I c cn); [done|by left].
Qed.

(** A result is the answer of the connection that waits for its consumer,
    200 or 103, and of no other; a result nobody waits for changes nothing. *)
Theorem result_answered r M n id status :
  remote_inv r M n ->
  match M !! u64 id with
  | None => ntg_remote_result_handler id status r = Some (NTG_ERROR, r)
  | Some c => exists cn, rm_cnts r !! c = Some cn /\ u64 (cn_id cn) = u64 id /\
      let r' := set_rm_cnts (<[c := answered cn (Some (result_code status))]> (rm_cnts r)) r in
      ntg_remote_result_handler id status r = Some (NTG_OK, r') /\ remote_inv r' M n
  end.
Proof. apply result_handler_ok. Qed.

(** ** Initialisation and the end of a connection *)

Lemma remote_init_ok consumes :
  consumes <> NTG_CONF_UNSET -> 2 <= consumes < 4611686018427387904 ->
  exists r, ntg_remote_init true true true true true consumes = Some (NTG_OK, Some r) /\ remote_inv r ∅ (Z.to_nat consumes).
Proof.
  intros Hu Hn. unfold ntg_remote_init. cbn [negb andb]. rewrite (proj2 (Z.eqb_neq _ _) Hu). cbn [negb].
  assert (Hs : 0 < Z.quot (consumes * 2) 3) by (clear Hu; Z.to_euclidean_division_equations; lia).
  destruct (table_init_rep (ntg_remote_get_key ∅ 0) (Z.quot (consumes * 2) 3) consumes Hs ltac:(lia)) as (t & E & R & H).
  rewrite E. cbn [mbind option_bind]. eexists. split; [reflexivity|]. split; [|done|done].
  eexists _, _. split; [exact R|]. split; [by rewrite length_map, length_seq|]. intros k. by rewrite H.
Qed.

(** A connection is alone in its bucket. *)
Definition alone (M : gmap Z Z) (size k : Z) : Prop :=
  forall k', is_Some (M !! k') -> k' mod size = k mod size -> k' = k.

(** The chain of a bucket that holds one key only. *)
Lemma alone_chain key t chains free M size k l :
  table_rep key t chains free -> (forall k, lookup_data key t chains k = M !! k) ->
  alone M (tb_size t) k -> size = tb_size t -> chains !! Z.to_nat (k mod size) = Some l -> (length l <= 1)%nat.
Proof.
  intros R HM Ha -> Hl. destruct l as [|[n1 d1] [|[n2 d2] l]]; cbn; [lia|lia|exfalso].
  pose proof (tr_size _ _ _ _ R) as [Hs _].
  assert (Hkey : forall n d, (n, d) ∈ (n1, d1) :: (n2, d2) :: l -> key d = k).
  { intros n d Hin. apply Ha.
    - rewrite <-HM. rewrite (lookup_data_stored key t chains free _ _ n d R Hl Hin). by eexists.
    - rewrite (tr_place _ _ _ _ R _ _ n d Hl Hin). pose proof (Z.mod_pos_bound k (tb_size t) Hs). lia. }
  pose proof (proj1 (Forall_lookup _ _) (tr_keys _ _ _ _ R) _ _ Hl) as Hnd. cbn in Hnd.
  apply NoDup_cons in Hnd as [Hnd _]. apply Hnd.
  rewrite (Hkey n1 d1) by (by left). rewrite (Hkey n2 d2) by (right; by left). by left.
Qed.

(** Without a node in the table only the memory goes; otherwise the node goes
    back to the pool, when the connection is alone in its bucket. *)
Lemma drop_connect_ok r M n c cn :
  remote_inv r M n -> rm_cnts r !! c = Some cn ->
  (~ waits M c -> M !! u64 (cn_id cn) = None ->
     exists r', drop_connect c r = Some r' /\ rm_cnts r' = delete c (rm_cnts r) /\ remote_inv r' M n) /\
  (M !! u64 (cn_id cn) = Some c -> alone M (tb_size (rm_table r)) (u64 (cn_id cn)) ->
     exists r', drop_connect c r = Some r' /\ rm_cnts r' = delete c (rm_cnts r) /\
       remote_inv r' (delete (u64 (cn_id cn)) M) (S n)).
Proof.
  intros I Hc. pose proof (key_of r M n I c cn 0 Hc) as Hk.
  pose proof (ri_table _ _ _ I) as (chains & free & R & Hn & HM).
  destruct (rep_bucket _ _ _ _ c R) as (i & p & l & _ & _ & Hl & _ & Hi & _). rewrite Hi in Hl. clear Hi i p.
  destruct (delete_node_ok _ (ntg_remote_compare (rm_cnts r) 0) _ chains free c l R Hl) as [D1 D2].
  rewrite Hk in *. rewrite HM in D1, D2.
  assert (Hother : forall k d dn, M !! k = Some d -> d <> c -> rm_cnts r !! d = Some dn ->
    exists dn', delete c (rm_cnts r) !! d = Some dn' /\ cn_id dn' = cn_id dn).
  { intros k d dn _ Hne Hd. exists dn. by rewrite lookup_delete_ne. }
  split; intros H1 H2; unfold drop_connect.
  - rewrite (D1 H2). cbn [mbind option_bind]. eexists. split; [reflexivity|]. split; [reflexivity|].
    split; cbn [rm_table rm_cnts].
    + apply (table_holds_cnts r M n I). intros k d dn Hd. apply (Hother k); [done|]. intros ->. apply H1. by exists k.
    + intros k d Hd. destruct (ri_cnts _ _ _ I k d Hd) as [dn Hdn].
      destruct (Hother k d dn Hd) as (dn' & E & _); [intros ->; apply H1; by exists k|done|]. by exists dn'.
    + rewrite lookup_delete_ne; [apply (ri_tmp _ _ _ I)|]. intros ->. by rewrite (ri_tmp _ _ _ I) in Hc.
  - destruct (D2 c H1) as (t' & chains' & free' & E & R' & Hf & Hk').
    { left. pose proof (alone_chain _ _ _ _ M _ _ l R HM H2 eq_refl Hl) as Hlen.
      pose proof (lookup_data_spec (ntg_remote_get_key (rm_cnts r) 0) (rm_table r) chains (u64 (cn_id cn)) l Hl) as Hs.
      rewrite HM, H1 in Hs. destruct l as [|e [|]]; [discriminate Hs|done|cbn in Hlen; lia]. }
    rewrite E. cbn [mbind option_bind]. eexists. split; [reflexivity|]. split; [reflexivity|].
    set (M' := delete (u64 (cn_id cn)) M).
    assert (Hne : forall k d, M' !! k = Some d -> d <> c /\ M !! k = Some d).
    { intros k d [Hkne Hd]%lookup_delete_Some. split; [|done]. intros ->. apply Hkne.
      rewrite <-Hk. by apply (table_holds_key _ _ _ _ k c (ri_table _ _ _ I)). }
    assert (Ht' : table_holds (ntg_remote_get_key (rm_cnts r) 0) t' M' (S n)).
    { exists chains', free'. split; [exact R'|]. split; [lia|]. intros k. rewrite Hk', HM. subst M'.
      rewrite Hk. destruct (Z.eqb_spec (u64 (cn_id cn)) k) as [<-|]; [by rewrite lookup_delete_eq|by rewrite lookup_delete_ne]. }
    split; cbn [rm_table rm_cnts].
    + apply (table_holds_ext _ _ _ _ _ Ht'). intros k d Hd. destruct (Hne k d Hd) as [Hdc Hd'].
      unfold ntg_remote_get_key, cnt_ident. by rewrite lookup_delete_ne.
    + intros k d Hd. destruct (Hne k d Hd) as [Hdc Hd']. rewrite lookup_delete_ne by done. by apply (ri_cnts _ _ _ I k).
    + rewrite lookup_delete_ne; [apply (ri_tmp _ _ _ I)|]. intros ->. by rewrite (ri_tmp _ _ _ I) in Hc.
Qed.

(** ** Examples *)

Definition jint (name : bytes) (n : Z) : cJSON := CJSON (Some name) cJSON_Number None n (sf_of_Z n) [].
Definition jstr (name s : bytes) : cJSON := CJSON (Some name) cJSON_String (Some s) 0 (S754_zero false) [].
Definition jobj (name : bytes) (items : list cJSON) : cJSON := CJSON (Some name) cJSON_Object None 0 (S754_zero false) items.
Definition jarr (name : bytes) (ns : list Z) : cJSON := CJSON (Some name) cJSON_Array None 0 (S754_zero false) (map (jint []) ns).
Definition jdist (name : bytes) (args : list Z) : cJSON := jobj name [jstr (str "type") (str "normal"); jarr (str "args") args].

Definition example_request (id users : Z) (args : list Z) : cJSON :=
  jobj [] [jstr (str "type") (str "simulation"); jint (str "csm_id") id; jint (str "gp_id") 1; jint (str "users") users;
    jdist (str "ss_num") args; jdist (str "ss_itv") [10; 2]; jdist (str "clk_num") [3; 1]; jdist (str "clk_itv") [35; 3];
    jobj (str "scene") [CJSON (Some (str "is_scene")) 1 None 0 (S754_zero false) []]].

Definition example_dist (args : list Z) : distribution :=
  Distribution NTG_MATH_NORMAL_E (map f32_of_Z args).
Definition example_simulation (id users : Z) : simulation_message :=
  Simulation id (replicate 24 (S754_zero false))
    (Behavior (example_dist [5; 1; 0]) (example_dist [10; 2; 0]) (example_dist [3; 1; 0]) (example_dist [35; 3; 0])) 1 false 0 users.

Example example_get_message :
  get_message (example_request 7 2 [5; 1]) = Some (Some 7, put_message (MSimulation (example_simulation 7 2)) zero_message, 43%nat).
Proof. vm_compute. reflexivity. Qed.

(** A parser that knows a few texts. *)
Definition request_bytes (id : Z) : bytes := str "the request of consumer " ++ [id].
Definition example_parse (data : bytes) : option cJSON :=
  if bool_decide (data = request_bytes 7) then Some (example_request 7 2 [5; 1])
  else if bool_decide (data = request_bytes 8) then Some (example_request 8 2 [5; 1; 2; 3])
  else if bool_decide (data = request_bytes 9) then
    Some (jobj [] [jstr (str "type") (str "control"); jint (str "csm_id") 9; jstr (str "ctl_type") (str "stop")])
  else None.

Definition example_cnt (data : bytes) : ntg_connect := Connect 5 0 data [] false.

(** A server for up to 8 consumers with two connections, at 100 and 200. *)
Definition example_remote (data1 data2 : bytes) : ntg_remote :=
  match ntg_remote_init true true true true true 8 with
  | Some (_, Some r) => set_rm_cnts (<[100 := example_cnt data1]> (<[200 := example_cnt data2]> ∅)) r
  | _ => Remote (HashTable 0 [] ∅ None 0) ∅ 0
  end.

Lemma example_remote_inv data1 data2 : remote_inv (example_remote data1 data2) ∅ 8.
Proof.
  destruct (remote_init_ok 8) as (r & E & [T C P]); [done|lia|]. unfold example_remote. rewrite E. split; cbn [rm_table set_rm_cnts rm_cnts].
  - apply (table_holds_ext _ _ _ _ _ T). intros k c Hk. by rewrite lookup_empty in Hk.
  - intros k c Hk. by rewrite lookup_empty in Hk.
  - rewrite !lookup_insert_ne by done. done.
Qed.


(** The server of the example after the request of consumer 7. *)
Definition example_waiting (data2 : bytes) : ntg_remote :=
  match ntg_remote_read_cb example_parse SendOk 100 (example_remote (request_bytes 7) data2) with
  | Some (_, r) => r | None => example_remote [] [] end.

Lemma example_waiting_inv : remote_inv (example_waiting []) {[7 := 100]} 7.
Proof.
  destruct (read_cb_ok example_parse SendOk 100 (example_remote (request_bytes 7) []) ∅ 8 (example_cnt (request_bytes 7))
    (Some (7, put_message (MSimulation (example_simulation 7 2)) zero_message, 43%nat))) as (dg & r' & E & _ & _ & H).
  - apply example_remote_inv.
  - reflexivity.
  - intros (k & Hk). by rewrite lookup_empty in Hk.
  - cbn. lia.
  - split; [cbn; lia|]. exists (example_request 7 2 [5; 1]). split; [reflexivity|exact example_get_message].
  - unfold example_waiting. rewrite E. exact H.
Qed.

Lemma result_answered_witness :
  exists r', ntg_remote_result_handler 7 NTG_RST_SUCCESS (example_waiting []) = Some (NTG_OK, r') /\ remote_inv r' {[7 := 100]} 7.
Proof.
  destruct (result_answered (example_waiting []) {[7 := 100]} 7 7 NTG_RST_SUCCESS example_waiting_inv) as (cn & _ & _ & E & H).
  eexists. split; [exact E|exact H].
Defined.

(** What the code does not handle. *)

(** A second request for a consumer is refused with 101, but when the answer is
    written its connection takes the first one's node out of the table: the
    result then finds nobody, and the first connection is never answered. *)
Lemma duplicate_evicts :
  ('(_, r) ← ntg_remote_read_cb example_parse SendOk 200 (example_waiting (request_bytes 7));
   r ← modify_cnt 200 (fun cn => Connect (cn_fd cn) (cn_id cn) (cn_in cn) [] (cn_write cn)) r;
   r ← ntg_remote_write_cb 200 r;
   '(rc, r) ← ntg_remote_result_handler 7 NTG_RST_SUCCESS r;
   cn ← rm_cnts r !! 100;
   Some (rc, cn_out cn)) = Some (NTG_ERROR, []).
Proof. vm_compute. reflexivity. Qed.

(** The trees of the requests are never freed: the test of the end is inverted. *)
Lemma trees_leak :
  (fun '(_, r) => rm_trees r) <$> ntg_remote_read_cb example_parse SendOk 200 (example_waiting (request_bytes 7)) = Some 2.
Proof. vm_compute. reflexivity. Qed.

(** 1024 bytes at once: the NUL is written behind the array. *)
Lemma read_overruns : ntg_remote_read_cb example_parse SendOk 100 (example_remote (replicate 1024 32) []) = None.
Proof. vm_compute. reflexivity. Qed.

(** A request that comes in two pieces is two malformed ones. *)
Lemma pieces_refused :
  (fun '(dg, r) => (dg, cn_out <$> rm_cnts r !! 100)) <$>
    ntg_remote_read_cb example_parse SendOk 100 (example_remote (take 20 (request_bytes 7)) []) =
  Some (None, Some (state_code (str "100"))).
Proof. vm_compute. reflexivity. Qed.

(** Four parameters are written outside of the three there are. *)
Lemma args_overrun : get_message (example_request 8 2 [5; 1; 2; 3]) = None.
Proof. vm_compute. reflexivity. Qed.

(** A missing member is a null pointer that is followed. *)
Lemma missing_member : get_message (jobj [] [jstr (str "type") (str "simulation"); jint (str "csm_id") 7]) = None.
Proof. vm_compute. reflexivity. Qed.

(** An unknown operation on a consumer is sent as the deletion of its group 0. *)
Lemma unknown_control_deletes :
  get_message (jobj [] [jstr (str "type") (str "control"); jint (str "csm_id") 9; jstr (str "ctl_type") (str "stop")]) =
  Some (Some 9, put_message (MControl 9 0 NTG_CTL_DELETE) zero_message, 7%nat).
Proof. vm_compute. reflexivity. Qed.

(** A connection that waits and sends again changes its own identifier in the
    table: the result for the first request finds nobody. *)
Lemma second_request_moves :
  (r ← modify_cnt 100 (fun cn => Connect (cn_fd cn) (cn_id cn) (request_bytes 9) (cn_out cn) (cn_write cn)) (example_waiting []);
   '(_, r) ← ntg_remote_read_cb example_parse SendOk 100 r;
   '(rc, _) ← ntg_remote_result_handler 7 NTG_RST_SUCCESS r;
   Some rc) = Some NTG_ERROR.
Proof. vm_compute. reflexivity. Qed.
