(* ===== verification/Process.v ===== *)
(** * The table of processes (src/utils/ntg_process.c)

    [ntg_processes] as the master keeps it: processes are spawned into free
    slots with a pair of channel descriptors each, and marked when they exit.
    The kernel's answers are arguments; what is written to channels and the
    signals sent are a trace. *)

From S2P Require Import Prelude Channel.

(** ** Data *)

(** [ntg_process_t], without the log, the event and the failure counter. *)
Record ntg_process_t := ProcessT {
  pc_pid : Z;
  pc_type : Z;
  pc_status : Z;
  pc_channel : Z * Z;
  pc_proc : Z;
  pc_data : Z;
  pc_name : bytes;
  pc_reqs : Z;
  pc_respawn : bool;
  pc_just_spawn : bool;
  pc_detached : bool;
  pc_exiting : bool;
  pc_exited : bool }.

(** A slot of the static array before its first use. *)
Definition zero_process : ntg_process_t := ProcessT 0 0 0 (0, 0) 0 0 [] 0 false false false false false.

Definition set_pc_pid v p := ProcessT v (pc_type p) (pc_status p) (pc_channel p) (pc_proc p) (pc_data p) (pc_name p)
  (pc_reqs p) (pc_respawn p) (pc_just_spawn p) (pc_detached p) (pc_exiting p) (pc_exited p).
Definition set_pc_type v p := ProcessT (pc_pid p) v (pc_status p) (pc_channel p) (pc_proc p) (pc_data p) (pc_name p)
  (pc_reqs p) (pc_respawn p) (pc_just_spawn p) (pc_detached p) (pc_exiting p) (pc_exited p).
Definition set_pc_channel v p := ProcessT (pc_pid p) (pc_type p) (pc_status p) v (pc_proc p) (pc_data p) (pc_name p)
  (pc_reqs p) (pc_respawn p) (pc_just_spawn p) (pc_detached p) (pc_exiting p) (pc_exited p).
Definition set_pc_what proc data name p := ProcessT (pc_pid p) (pc_type p) (pc_status p) (pc_channel p) proc data name
  (pc_reqs p) (pc_respawn p) (pc_just_spawn p) (pc_detached p) (pc_exiting p) (pc_exited p).
Definition set_pc_modes respawn just_spawn detached p := ProcessT (pc_pid p) (pc_type p) (pc_status p) (pc_channel p)
  (pc_proc p) (pc_data p) (pc_name p) (pc_reqs p) respawn just_spawn detached (pc_exiting p) (pc_exited p).
Definition set_pc_exiting v p := ProcessT (pc_pid p) (pc_type p) (pc_status p) (pc_channel p) (pc_proc p) (pc_data p)
  (pc_name p) (pc_reqs p) (pc_respawn p) (pc_just_spawn p) (pc_detached p) v (pc_exited p).
Definition set_pc_exited status v p := ProcessT (pc_pid p) (pc_type p) status (pc_channel p) (pc_proc p) (pc_data p)
  (pc_name p) (pc_reqs p) (pc_respawn p) (pc_just_spawn p) (pc_detached p) (pc_exiting p) v.

Definition NTG_MAX_PROCESSES : Z := 1024.
Definition NTG_INVALID_PID : Z := -1.

Definition NTG_VIRTUAL_PROCESS : Z := 1.
Definition NTG_TRAFFIC_PROCESS : Z := 2.
Definition NTG_RECORD_PROCESS : Z := 4.

Definition NTG_PROCESS_NORESPAWN : Z := -1.
Definition NTG_PROCESS_JUST_SPAWN : Z := -2.
Definition NTG_PROCESS_RESPAWN : Z := -3.
Definition NTG_PROCESS_JUST_RESPAWN : Z := -4.
Definition NTG_PROCESS_DETACHED : Z := -5.

(** The first slot of the traffic processes, never assigned. *)
Definition ntg_start_process : Z := 1.

(** What a process does to others. *)
Inductive action :=
  | Wrote (fd : Z) (msg : message)
  | Killed (pid signo : Z).

(** The process table of one process: [ntg_processes], [ntg_last_process],
    [ntg_process_slot], [ntg_channel], the open descriptors of channels, and
    the trace. *)
Record procs := Procs {
  ps_slots : list ntg_process_t;
  ps_last : Z;
  ps_slot : Z;
  ps_channel : Z;
  ps_fds : gset Z;
  ps_out : list action }.

Definition set_ps_slots v ps := Procs v (ps_last ps) (ps_slot ps) (ps_channel ps) (ps_fds ps) (ps_out ps).
Definition set_ps_last v ps := Procs (ps_slots ps) v (ps_slot ps) (ps_channel ps) (ps_fds ps) (ps_out ps).
Definition set_ps_slot v ps := Procs (ps_slots ps) (ps_last ps) v (ps_channel ps) (ps_fds ps) (ps_out ps).
Definition set_ps_channel v ps := Procs (ps_slots ps) (ps_last ps) (ps_slot ps) v (ps_fds ps) (ps_out ps).
Definition set_ps_fds v ps := Procs (ps_slots ps) (ps_last ps) (ps_slot ps) (ps_channel ps) v (ps_out ps).
Definition emit a ps := Procs (ps_slots ps) (ps_last ps) (ps_slot ps) (ps_channel ps) (ps_fds ps) (ps_out ps ++ [a]).

(** Access to a slot; outside of the array is undefined. *)
Definition slot_at (i : Z) (ps : procs) : option ntg_process_t :=
  if i <? 0 then None else ps_slots ps !! Z.to_nat i.
Definition modify_slot (i : Z) (f : ntg_process_t -> ntg_process_t) (ps : procs) : option procs :=
  p ← slot_at i ps; Some (set_ps_slots (<[Z.to_nat i := f p]> (ps_slots ps)) ps).

(** ** Channels of processes *)

(** [close] of a descriptor; one that is not open is an error that is logged. *)
Definition close_fd (fd : Z) (ps : procs) : procs := set_ps_fds (ps_fds ps ∖ {[fd]}) ps.

Definition ntg_close_channel (c : Z * Z) (ps : procs) : procs := ps |> close_fd (fst c) |> close_fd (snd c).

(** ** Spawning *)

(** The outcomes of [socketpair], of the calls that prepare the descriptors,
    and of [fork] in the parent. *)
Record spawn_env := SpawnEnv {
  sp_pair : option (Z * Z);
  sp_nonblocking0 : bool;
  sp_nonblocking1 : bool;
  sp_async : bool;
  sp_owner : bool;
  sp_cloexec0 : bool;
  sp_cloexec1 : bool;
  sp_fork : option Z }.

(** The search for a free slot, [n] slots from [s] on. *)
Fixpoint find_slot (n : nat) (s : Z) (ps : procs) : option Z :=
  match n with
  | O => Some s
  | S n => p ← slot_at s ps; if pc_pid p =? -1 then Some s else find_slot n (s + 1) ps
  end.

Definition choose_slot (respawn point : Z) (ps : procs) : option Z :=
  if respawn >=? 0 then Some respawn
  else if point >=? 0 then Some point
  else find_slot (Z.to_nat (ps_last ps - ntg_start_process)) ntg_start_process ps.

(** The channel of the process in slot [s], whether it could be made; the
    signal-driven mode is not for a process with data 0. *)
Definition open_channel (env : spawn_env) (s data : Z) (ps : procs) : option (bool * procs) :=
  match sp_pair env with
  | None => Some (false, ps)
  | Some c =>
      ps ← modify_slot s (set_pc_channel c) ps;
      let ps := set_ps_fds ({[fst c]} ∪ ({[snd c]} ∪ ps_fds ps)) ps in
      if sp_nonblocking0 env && sp_nonblocking1 env
         && ((s32 data =? 0) || (sp_async env && sp_owner env))
         && sp_cloexec0 env && sp_cloexec1 env
      then Some (true, set_ps_channel (snd c) ps)
      else Some (false, ntg_close_channel c ps)
  end.

Definition spawn_modes (respawn : Z) : ntg_process_t -> ntg_process_t :=
  if respawn =? NTG_PROCESS_NORESPAWN then set_pc_modes false false false
  else if respawn =? NTG_PROCESS_JUST_SPAWN then set_pc_modes false true false
  else if respawn =? NTG_PROCESS_RESPAWN then set_pc_modes true false false
  else if respawn =? NTG_PROCESS_JUST_RESPAWN then set_pc_modes true true false
  else if respawn =? NTG_PROCESS_DETACHED then set_pc_modes false false true
  else id.

(** [ntg_spawn_process] in the parent: the identifier of the new process or
    [NTG_INVALID_PID], and the memory the new process starts with.
    [cpu_affinity_n] is that of the configuration. *)
Definition ntg_spawn_process (env : spawn_env) (cpu_affinity_n proc data : Z) (name : bytes) (respawn type point : Z)
  (ps : procs) : option (Z * option procs * procs) :=
  s ← choose_slot respawn point ps;
  if (respawn <? 0) && (point <? 0) && (s =? NTG_MAX_PROCESSES) then Some (NTG_INVALID_PID, None, ps)
  else if u64 s >? u64 (cpu_affinity_n - 2) then Some (NTG_INVALID_PID, None, ps)
  else
    ps ← modify_slot s (set_pc_type type) ps;
    '(ok, ps) ← (if negb (respawn =? NTG_PROCESS_DETACHED) then open_channel env s data ps
                 else ps ← modify_slot s (set_pc_channel (-1, -1)) ps; Some (true, ps));
    if negb ok then Some (NTG_INVALID_PID, None, ps)
    else
      let ps := set_ps_slot s ps in
      match sp_fork env with
      | None => p ← slot_at s ps; Some (NTG_INVALID_PID, None, ntg_close_channel (pc_channel p) ps)
      | Some pid =>
          let child := Procs (ps_slots ps) (ps_last ps) (ps_slot ps) (ps_channel ps) (ps_fds ps) [] in
          ps ← modify_slot s (fun p => p |> set_pc_pid pid |> set_pc_exited (pc_status p) false) ps;
          if respawn >=? 0 then Some (pid, Some child, ps)
          else
            ps ← modify_slot s (fun p => p |> set_pc_what proc data name |> set_pc_exiting false |> spawn_modes respawn) ps;
            let ps := if (s =? ps_last ps) && (type =? NTG_TRAFFIC_PROCESS) then set_ps_last (ps_last ps + 1) ps else ps in
            Some (pid, Some child, ps)
      end.

(** ** Processes that exit *)

(** The outcomes of [waitpid]. *)
Inductive wait_result := WaitNone | WaitInterrupted | WaitFails | WaitExited (pid status : Z).

Definition WEXITSTATUS (status : Z) : Z := Z.land (Z.shiftr status 8) 255.

(** The slot below [ntg_last_process] of a process, or the end. *)
Fixpoint find_pid (n : nat) (i pid : Z) (ps : procs) : option Z :=
  match n with
  | O => Some i
  | S n => p ← slot_at i ps; if pc_pid p =? pid then Some i else find_pid n (i + 1) pid ps
  end.

(** One process that [waitpid] reports. *)
Definition process_exited (pid status : Z) (ps : procs) : option procs :=
  i ← find_pid (Z.to_nat (ps_last ps)) 0 pid ps;
  ps ← (if i <? ps_last ps then modify_slot i (set_pc_exited status true) ps else Some ps);
  if WEXITSTATUS status =? 2 then
    p ← slot_at i ps;
    if pc_respawn p then modify_slot i (fun p => set_pc_modes false (pc_just_spawn p) (pc_detached p) p) ps
    else Some ps
  else Some ps.

Fixpoint ntg_process_get_status (waits : list wait_result) (ps : procs) : option procs :=
  match waits with
  | [] => None
  | WaitNone :: _ | WaitFails :: _ => Some ps
  | WaitInterrupted :: waits => ntg_process_get_status waits ps
  | WaitExited pid status :: waits => ps ← process_exited pid status ps; ntg_process_get_status waits ps
  end.

(** ** Signals *)

(** [ntg_process]. *)
Definition NTG_PROCESS_SINGLE : Z := 0.
Definition NTG_PROCESS_MASTER : Z := 1.
Definition NTG_PROCESS_VIRTUAL : Z := 3.
Definition NTG_PROCESS_TRAFFIC : Z := 4.
Definition NTG_PROCESS_RECORD : Z := 5.
Definition NTG_PROCESS_HELPER : Z := 6.

Definition SIGINT : Z := 2.
Definition SIGALRM : Z := 14.
Definition SIGCHLD : Z := 17.
Definition SIGIO : Z := 29.
Definition SIGKILL : Z := 9.
Definition NTG_SHUTDOWN_SIGNAL : Z := 3.
Definition NTG_TERMINATE_SIGNAL : Z := 15.
Definition NTG_RECONFIGURE_SIGNAL : Z := 1.
Definition NTG_ADD_SIGNAL : Z := 10.
Definition NTG_CHANGEBIN_SIGNAL : Z := 12.

(** The flags that signals set, and the process of a new binary. *)
Record flags := Flags {
  fl_reap : bool;
  fl_sigio : bool;
  fl_sigalrm : bool;
  fl_terminate : bool;
  fl_quit : bool;
  fl_reconfigure : bool;
  fl_add : bool;
  fl_change_binary : bool;
  fl_new_binary : Z }.

(** The assignments of [ntg_signal_handler]; [ppid] is that of the parent. *)
Definition signal_flags (process signo ppid : Z) (f : flags) : flags :=
  let master := (process =? NTG_PROCESS_MASTER) || (process =? NTG_PROCESS_SINGLE) in
  let child := (process =? NTG_PROCESS_VIRTUAL) || (process =? NTG_PROCESS_TRAFFIC)
               || (process =? NTG_PROCESS_RECORD) || (process =? NTG_PROCESS_HELPER) in
  let '(Flags reap io alrm term quit reconf add binary new) := f in
  if (master || child) && (signo =? NTG_SHUTDOWN_SIGNAL) then Flags reap io alrm term true reconf add binary new
  else if (master || child) && ((signo =? NTG_TERMINATE_SIGNAL) || (signo =? SIGINT))
  then Flags reap io alrm true quit reconf add binary new
  else if negb master then f
  else if signo =? NTG_RECONFIGURE_SIGNAL then Flags reap io alrm term quit true add binary new
  else if signo =? NTG_ADD_SIGNAL then Flags reap io alrm term quit reconf true binary new
  else if signo =? NTG_CHANGEBIN_SIGNAL then
    if (ppid >? 1) || (new >? 0) then f else Flags reap io alrm term quit reconf add true new
  else if signo =? SIGALRM then Flags reap io true term quit reconf add binary new
  else if signo =? SIGIO then Flags reap true alrm term quit reconf add binary new
  else if signo =? SIGCHLD then Flags true io alrm term quit reconf add binary new
  else f.

Definition ntg_signal_handler (process signo ppid : Z) (waits : list wait_result) (f : flags) (ps : procs)
  : option (flags * procs) :=
  ps ← (if signo =? SIGCHLD then ntg_process_get_status waits ps else Some ps);
  Some (signal_flags process signo ppid f, ps).

(** ** The invariant *)

Definition live (p : ntg_process_t) : bool := 0 <? pc_pid p.

(** The descriptors the master holds for a process: none for a detached one, and
    for one that exited and could not be spawned again. *)
Definition open_ended (p : ntg_process_t) : bool := negb (pc_detached p) && negb (fst (pc_channel p) =? -1).
Definition own (p : ntg_process_t) : list Z :=
  if live p && open_ended p then [fst (pc_channel p); snd (pc_channel p)] else [].

Definition owned (l : list ntg_process_t) : list Z := mjoin (own <$> l).
Definition pids (l : list ntg_process_t) : list Z := pc_pid <$> List.filter live l.

(** A process to be spawned again is not detached; both ends are closed or none. *)
Definition mode_ok (p : ntg_process_t) : Prop :=
  (pc_respawn p = true -> pc_detached p = false) /\
  (live p = true -> fst (pc_channel p) = -1 -> snd (pc_channel p) = -1).

(** The slots [l] have live processes with identifiers of their own and two
    descriptors each, and [fds] are all of these. *)
Record slots_inv (l : list ntg_process_t) (fds : gset Z) : Prop := {
  si_fds : fds = list_to_set (owned l);
  si_owned : NoDup (owned l);
  si_pids : NoDup (pids l);
  si_modes : Forall mode_ok l }.

(** The slots in use, below [ntg_last_process]. *)
Definition used (ps : procs) : list ntg_process_t := take (Z.to_nat (ps_last ps)) (ps_slots ps).

Record procs_inv (ps : procs) : Prop := {
  pi_length : length (ps_slots ps) = Z.to_nat NTG_MAX_PROCESSES;
  pi_last : 0 <= ps_last ps <= NTG_MAX_PROCESSES;
  pi_open : forall fd, fd ∈ ps_fds ps -> 0 <= fd;
  pi_slots : slots_inv (used ps) (ps_fds ps) }.

#[export] Instance owned_proper : Proper ((≡ₚ) ==> (≡ₚ)) owned.
Proof. intros l k H. unfold owned. by rewrite H. Qed.

Lemma filter_perm {A} (f : A -> bool) l k : l ≡ₚ k -> List.filter f l ≡ₚ List.filter f k.
Proof.
  induction 1 as [|x l k _ IH|x y l|l k j _ IH1 _ IH2]; cbn; [done| | |by rewrite IH1].
  - destruct (f x); by rewrite IH.
  - destruct (f x), (f y); try done. by rewrite Permutation_swap.
Qed.

#[export] Instance pids_proper : Proper ((≡ₚ) ==> (≡ₚ)) pids.
Proof. intros l k H. unfold pids. by rewrite (filter_perm _ _ _ H). Qed.

#[export] Instance slots_inv_proper : Proper ((≡ₚ) ==> eq ==> iff) slots_inv.
Proof.
  assert (forall l k fds, l ≡ₚ k -> slots_inv l fds -> slots_inv k fds) as H.
  { intros l k fds H [H1 H2 H3 H4]. split; [|by rewrite <-H|by rewrite <-H|by rewrite <-H].
    rewrite H1. apply leibniz_equiv. by rewrite H. }
  intros l k Hl ? fds ->. split; apply H; [done|by symmetry].
Qed.

Lemma owned_cons p l : owned (p :: l) = own p ++ owned l.
Proof. done. Qed.

(** A slot without a process can be anything. *)
Lemma slots_inv_dead p l fds :
  live p = false -> slots_inv (p :: l) fds <-> slots_inv l fds /\ (pc_respawn p = true -> pc_detached p = false).
Proof.
  intros Hp. assert (Ho : owned (p :: l) = owned l) by (rewrite owned_cons; unfold own; by rewrite Hp).
  assert (Hi : pids (p :: l) = pids l) by (unfold pids; cbn; by rewrite Hp).
  split.
  - intros [H1 H2 H3 H4]. rewrite Ho in H1, H2. rewrite Hi in H3. apply Forall_cons in H4 as [ [H4 _] H5]. done.
  - intros [[H1 H2 H3 H4] H5]. split; rewrite ?Ho, ?Hi; try done. constructor; [|done]. split; [done|by rewrite Hp].
Qed.

(** A process with a channel of its own joins. *)
Lemma slots_inv_join p l fds a b :
  slots_inv l fds -> live p = true -> pc_detached p = false -> pc_channel p = (a, b) -> 0 <= a ->
  a <> b -> a ∉ fds -> b ∉ fds -> pc_pid p ∉ pids l -> slots_inv (p :: l) ({[a]} ∪ ({[b]} ∪ fds)).
Proof.
  intros [H1 H2 H3 H4] Hl Hd Hc Ha0 Hab Ha Hb Hp. assert (Hop : open_ended p = true).
  { unfold open_ended. rewrite Hd, Hc. cbn. by rewrite (proj2 (Z.eqb_neq a (-1))) by lia. }
  assert (Ho : owned (p :: l) = a :: b :: owned l) by (rewrite owned_cons; unfold own; by rewrite Hl, Hop, Hc).
  assert (Hi : pids (p :: l) = pc_pid p :: pids l) by (unfold pids; cbn; by rewrite Hl).
  rewrite H1, elem_of_list_to_set in Ha, Hb. split.
  - rewrite Ho, H1. done.
  - rewrite Ho. apply NoDup_cons. split; [|by apply NoDup_cons]. rewrite elem_of_cons. naive_solver.
  - rewrite Hi. by apply NoDup_cons.
  - constructor; [|done]. split; [by rewrite Hd|]. rewrite Hc. cbn. lia.
Qed.

(** A process without a channel joins. *)
Lemma slots_inv_join_closed p l fds :
  slots_inv l fds -> open_ended p = false -> mode_ok p -> pc_pid p ∉ pids l ->
  slots_inv (p :: l) fds.
Proof.
  intros [H1 H2 H3 H4] Hd Hr Hp. assert (Ho : owned (p :: l) = owned l).
  { rewrite owned_cons. unfold own. rewrite Hd. by rewrite andb_false_r. }
  split; rewrite ?Ho; try done.
  - unfold pids. cbn. destruct (live p); [by apply NoDup_cons|done].
  - by constructor.
Qed.

(** A process with a channel leaves, and its descriptors are closed. *)
Lemma slots_inv_leave p l fds :
  slots_inv (p :: l) fds -> live p = true -> open_ended p = true ->
  slots_inv l (fds ∖ {[fst (pc_channel p)]} ∖ {[snd (pc_channel p)]}) /\ pc_pid p ∉ pids l.
Proof.
  intros [H1 H2 H3 H4] Hl Hd. set (a := fst (pc_channel p)). set (b := snd (pc_channel p)).
  assert (Ho : owned (p :: l) = a :: b :: owned l) by (rewrite owned_cons; unfold own; by rewrite Hl, Hd).
  assert (Hi : pids (p :: l) = pc_pid p :: pids l) by (unfold pids; cbn; by rewrite Hl).
  rewrite Ho in H1, H2. rewrite Hi in H3. apply NoDup_cons in H2 as [Ha H2]. apply NoDup_cons in H2 as [Hb H2].
  apply NoDup_cons in H3 as [Hp H3]. apply Forall_cons in H4 as [_ H4]. split; [|done]. split; try done.
  rewrite H1. cbn. apply set_eq. intros x. rewrite !elem_of_difference, !elem_of_union, !elem_of_singleton, elem_of_list_to_set.
  split; [naive_solver|]. intros Hx. split; [|intros ->; done]. split; [by right; right|]. intros ->.
  apply Ha. by right.
Qed.

Lemma slots_inv_leave_closed p l fds :
  slots_inv (p :: l) fds -> live p = true -> open_ended p = false -> slots_inv l fds /\ pc_pid p ∉ pids l.
Proof.
  intros [H1 H2 H3 H4] Hl Hd.
  assert (Ho : owned (p :: l) = owned l) by (rewrite owned_cons; unfold own; by rewrite Hl, Hd).
  assert (Hi : pids (p :: l) = pc_pid p :: pids l) by (unfold pids; cbn; by rewrite Hl).
  rewrite Ho in H1, H2. rewrite Hi in H3. apply NoDup_cons in H3 as [Hp H3]. by apply Forall_cons in H4 as [_ H4].
Qed.

(** ** Slots *)

Definition put_slot (i : Z) (p : ntg_process_t) (ps : procs) : procs :=
  set_ps_slots (<[Z.to_nat i := p]> (ps_slots ps)) ps.

Lemma modify_slot_at i f ps p : slot_at i ps = Some p -> modify_slot i f ps = Some (put_slot i (f p) ps).
Proof. intros H. unfold modify_slot. by rewrite H. Qed.

Lemma slot_at_put i p q ps : slot_at i ps = Some p -> slot_at i (put_slot i q ps) = Some q.
Proof.
  unfold slot_at, put_slot. cbn [ps_slots set_ps_slots]. destruct (i <? 0); [done|].
  intros H. apply list_lookup_insert_eq. by eapply lookup_lt_Some.
Qed.

Lemma slot_at_put_ne i j q ps : 0 <= i -> i <> j -> slot_at j (put_slot i q ps) = slot_at j ps.
Proof.
  unfold slot_at, put_slot. cbn [ps_slots set_ps_slots]. intros Hi Hij. destruct (Z.ltb_spec j 0); [done|].
  apply list_lookup_insert_ne. lia.
Qed.

Lemma put_put_slot i p q ps : put_slot i q (put_slot i p ps) = put_slot i q ps.
Proof. unfold put_slot, set_ps_slots. cbn. by rewrite list_insert_insert_eq. Qed.

Lemma slot_at_range i ps p : slot_at i ps = Some p -> 0 <= i < Z.of_nat (length (ps_slots ps)).
Proof. unfold slot_at. destruct (Z.ltb_spec i 0); [done|]. intros Hl%lookup_lt_Some. lia. Qed.

Lemma slot_at_some i ps : 0 <= i < Z.of_nat (length (ps_slots ps)) -> is_Some (slot_at i ps).
Proof. intros H. unfold slot_at. rewrite (proj2 (Z.ltb_ge i 0)) by lia. apply lookup_lt_is_Some. lia. Qed.

Lemma used_at i ps p : slot_at i ps = Some p -> i < ps_last ps -> used ps !! Z.to_nat i = Some p.
Proof.
  intros H Hi. pose proof (slot_at_range _ _ _ H). unfold slot_at in H. rewrite (proj2 (Z.ltb_ge i 0)) in H by lia.
  unfold used. rewrite lookup_take_lt by lia. exact H.
Qed.

Lemma used_put i p ps : 0 <= i < ps_last ps -> used (put_slot i p ps) = <[Z.to_nat i := p]> (used ps).
Proof. intros H. unfold used, put_slot. cbn. by rewrite take_insert_lt by lia. Qed.

Lemma used_put_ge i p ps : ps_last ps <= i -> 0 <= i -> used (put_slot i p ps) = used ps.
Proof. intros H Hi. unfold used, put_slot. cbn. by rewrite take_insert_ge by lia. Qed.

Lemma insert_perm {A} (l : list A) i x y : l !! i = Some x -> <[i := y]> l ≡ₚ y :: delete i l.
Proof.
  intros H. rewrite (insert_take_drop _ _ _ (lookup_lt_Some _ _ _ H)), delete_take_drop. by rewrite Permutation_middle.
Qed.

(** The slots in use but for slot [s]. *)
Definition others (s : Z) (ps : procs) : list ntg_process_t :=
  if s <? ps_last ps then delete (Z.to_nat s) (used ps) else used ps.

Lemma used_others s ps p : slot_at s ps = Some p -> s < ps_last ps -> used ps ≡ₚ p :: others s ps.
Proof.
  intros H Hs. unfold others. rewrite (proj2 (Z.ltb_lt _ _)) by done. apply delete_Permutation. by apply used_at.
Qed.

Lemma used_put_others s ps p q : slot_at s ps = Some p -> s < ps_last ps -> used (put_slot s q ps) ≡ₚ q :: others s ps.
Proof.
  intros H Hs. pose proof (slot_at_range _ _ _ H). rewrite used_put by lia. unfold others.
  rewrite (proj2 (Z.ltb_lt _ _)) by done. eapply insert_perm. by apply used_at.
Qed.

Lemma others_put s ps p q : slot_at s ps = Some p -> others s (put_slot s q ps) = others s ps.
Proof.
  intros H. pose proof (slot_at_range _ _ _ H). unfold others. cbn [ps_last put_slot set_ps_slots].
  destruct (Z.ltb_spec s (ps_last ps)); [|by rewrite used_put_ge by lia].
  rewrite used_put by lia. rewrite !delete_take_drop, take_insert_ge, drop_insert_lt by lia. done.
Qed.

(** ** Spawning *)

(** What the kernel promises: new descriptors, and an identifier no live
    process has. *)
Record kernel_ok (env : spawn_env) (l : list ntg_process_t) (fds : gset Z) : Prop := {
  ko_pair : forall a b, sp_pair env = Some (a, b) -> a <> b /\ a ∉ fds /\ b ∉ fds /\ 0 <= a /\ 0 <= b;
  ko_fork : forall pid, sp_fork env = Some pid -> 0 < pid /\ pid ∉ pids l }.

(** The calls that prepare the descriptors all work. *)
Definition prepared (env : spawn_env) (data : Z) : bool :=
  sp_nonblocking0 env && sp_nonblocking1 env && ((s32 data =? 0) || (sp_async env && sp_owner env))
  && sp_cloexec0 env && sp_cloexec1 env.

(** The new process and its channel, if it can be had. *)
Definition spawn_result (env : spawn_env) (cpu_affinity_n data respawn s : Z) : option (Z * (Z * Z)) :=
  if u64 s >? u64 (cpu_affinity_n - 2) then None
  else if respawn =? NTG_PROCESS_DETACHED then pid ← sp_fork env; Some (pid, (-1, -1))
  else c ← sp_pair env; if prepared env data then pid ← sp_fork env; Some (pid, c) else None.

(** What it makes of the slot. *)
Definition spawned (proc data : Z) (name : bytes) (respawn type : Z) (r : Z * (Z * Z)) (p : ntg_process_t) : ntg_process_t :=
  let p := p |> set_pc_type type |> set_pc_channel (snd r) |> set_pc_pid (fst r) |> set_pc_exited (pc_status p) false in
  if respawn >=? 0 then p
  else p |> set_pc_what proc data name |> set_pc_exiting false |> spawn_modes respawn.

Lemma close_new a b (fds : gset Z) : a ∉ fds -> b ∉ fds -> ({[a]} ∪ ({[b]} ∪ fds)) ∖ {[a]} ∖ {[b]} = fds.
Proof. intros Ha Hb. apply set_eq. intros x. set_solver. Qed.

Section spawn.
Context (env : spawn_env) (cpus proc data : Z) (name : bytes) (respawn type point : Z) (ps : procs) (s : Z) (p : ntg_process_t).
Context (Hs : choose_slot respawn point ps = Some s) (Hp : slot_at s ps = Some p) (Hmax : s < NTG_MAX_PROCESSES).
Context (K : kernel_ok env (others s ps) (ps_fds ps)) (Hopen : forall fd, fd ∈ ps_fds ps -> 0 <= fd).

(** Without a process nothing but the type and the channel of a slot changes. *)
Definition spawn_failed (ps' : procs) : Prop :=
  ps_last ps' = ps_last ps /\ ps_fds ps' = ps_fds ps /\ ps_out ps' = ps_out ps /\
  exists t c, ps_slots ps' = ps_slots (put_slot s (p |> set_pc_type t |> set_pc_channel c) ps).

Definition spawn_done (r : Z * (Z * Z)) (ps' : procs) : Prop :=
  ps' = Procs (<[Z.to_nat s := spawned proc data name respawn type r p]> (ps_slots ps))
    (if (respawn <? 0) && (s =? ps_last ps) && (type =? NTG_TRAFFIC_PROCESS) then ps_last ps + 1 else ps_last ps) s
    (if respawn =? NTG_PROCESS_DETACHED then ps_channel ps else snd (snd r))
    (if respawn =? NTG_PROCESS_DETACHED then ps_fds ps else {[fst (snd r)]} ∪ ({[snd (snd r)]} ∪ ps_fds ps)) (ps_out ps).

(** The memory of the new process: that of the parent, but its own identifier. *)
Definition spawn_child (r : Z * (Z * Z)) (ps' child : procs) : Prop :=
  ps_slot child = s /\ ps_channel child = ps_channel ps' /\ ps_fds child = ps_fds ps' /\ ps_last child = ps_last ps /\
  ps_out child = [] /\ ps_slots child = <[Z.to_nat s := p |> set_pc_type type |> set_pc_channel (snd r)]> (ps_slots ps).

Lemma set_type_channel t c : set_pc_channel c (set_pc_type t p) = (p |> set_pc_type t |> set_pc_channel c).
Proof. done. Qed.

Lemma same_type_channel : (p |> set_pc_type (pc_type p) |> set_pc_channel (pc_channel p)) = p.
Proof. by destruct p. Qed.

Lemma failed_same t c fds sl ch :
  fds = ps_fds ps -> spawn_failed (Procs (<[Z.to_nat s := p |> set_pc_type t |> set_pc_channel c]> (ps_slots ps))
    (ps_last ps) sl ch fds (ps_out ps)).
Proof. intros ->. split_and!; try done. by exists t, c. Qed.

Lemma spawn_spec :
  match spawn_result env cpus data respawn s with
  | None => exists ps', ntg_spawn_process env cpus proc data name respawn type point ps = Some (NTG_INVALID_PID, None, ps') /\
      spawn_failed ps'
  | Some r => exists child ps', ntg_spawn_process env cpus proc data name respawn type point ps = Some (fst r, Some child, ps') /\
      spawn_done r ps' /\ spawn_child r ps' child
  end.
Proof.
  pose proof (slot_at_range _ _ _ Hp) as [Hs0 _].
  unfold ntg_spawn_process, spawn_result. rewrite Hs. cbn [mbind option_bind].
  rewrite (proj2 (Z.eqb_neq s NTG_MAX_PROCESSES)) by lia. rewrite andb_false_r.
  destruct (u64 s >? u64 (cpus - 2)).
  { exists ps. split; [done|]. split_and!; try done. exists (pc_type p), (pc_channel p). rewrite same_type_channel.
    cbn. rewrite list_insert_id; [done|]. unfold slot_at in Hp. by rewrite (proj2 (Z.ltb_ge s 0)) in Hp by lia. }
  rewrite (modify_slot_at _ _ _ _ Hp). cbn [mbind option_bind]. set (ps1 := put_slot s (set_pc_type type p) ps).
  assert (H1 : slot_at s ps1 = Some (set_pc_type type p)) by (by apply slot_at_put with p).
  destruct (respawn =? NTG_PROCESS_DETACHED) eqn:Ed; cbn [negb].
  - rewrite (modify_slot_at _ _ _ _ H1). cbn [mbind option_bind negb]. unfold ps1. rewrite put_put_slot.
    set (p2 := set_pc_channel (-1, -1) (set_pc_type type p)).
    assert (H2 : slot_at s (set_ps_slot s (put_slot s p2 ps)) = Some p2) by (by apply slot_at_put with p).
    destruct (sp_fork env) as [pid|]; cbn [mbind option_bind].
    + rewrite (modify_slot_at _ _ _ _ H2). cbn [mbind option_bind].
      assert (Er : respawn >=? 0 = false) by (apply Z.eqb_eq in Ed as ->; done). rewrite Er.
      rewrite (modify_slot_at s _ _ (p2 |> set_pc_pid pid |> set_pc_exited (pc_status p2) false))
        by (by apply slot_at_put with p2). cbn [mbind option_bind].
      eexists _, _. split; [reflexivity|]. unfold spawn_done, spawn_child, spawned. rewrite Ed, Er.
      assert (El : respawn <? 0 = true) by (apply Z.ltb_lt; lia). rewrite El. cbn [andb].
      unfold put_slot, set_ps_slots, set_ps_slot. cbn [ps_slots ps_last ps_slot ps_channel ps_fds ps_out fst snd].
      rewrite !list_insert_insert_eq. destruct ((s =? ps_last ps) && (type =? NTG_TRAFFIC_PROCESS)); done.
    + rewrite H2. cbn [mbind option_bind]. eexists. split; [reflexivity|]. apply failed_same.
      assert (Hm : -1 ∉ ps_fds ps) by (intros H%Hopen; lia). cbn. apply set_eq. intros x. set_solver.
  - unfold open_channel. destruct (sp_pair env) as [[a b]|] eqn:Epr; cbn [mbind option_bind].
    2: { eexists. split; [reflexivity|]. split_and!; try done. exists type, (pc_channel p). by destruct p. }
    destruct (ko_pair _ _ _ K a b Epr) as (Hab & Ha & Hb & _).
    rewrite (modify_slot_at _ _ _ _ H1). cbn [mbind option_bind]. unfold ps1. rewrite put_put_slot.
    fold (prepared env data). destruct (prepared env data); cbn [mbind option_bind negb].
    2: { eexists. split; [reflexivity|]. apply failed_same. by apply close_new. }
    set (p2 := set_pc_channel (a, b) (set_pc_type type p)). match goal with |- context [set_ps_slot s ?x] => set (ps2 := set_ps_slot s x) end.
    assert (H2 : slot_at s ps2 = Some p2) by (by apply slot_at_put with p).
    destruct (sp_fork env) as [pid|]; cbn [mbind option_bind].
    2: { rewrite H2. cbn [mbind option_bind]. eexists. split; [reflexivity|]. apply failed_same. by apply close_new. }
    rewrite (modify_slot_at _ _ _ _ H2). cbn [mbind option_bind].
    unfold spawn_done, spawn_child, spawned. rewrite Ed.
    assert (El : respawn <? 0 = negb (respawn >=? 0)) by (destruct (Z.ltb_spec respawn 0), (Z.geb_spec respawn 0); (done || lia)).
    rewrite El. destruct (respawn >=? 0) eqn:Er; cbn [negb andb].
    + eexists _, _. split; [reflexivity|]. unfold ps2, put_slot, set_ps_slots, set_ps_slot.
      cbn [ps_slots ps_last ps_slot ps_channel ps_fds ps_out fst snd set_ps_fds set_ps_channel]. by rewrite !list_insert_insert_eq.
    + rewrite (modify_slot_at s _ _ (p2 |> set_pc_pid pid |> set_pc_exited (pc_status p2) false))
        by (by apply slot_at_put with p2). cbn [mbind option_bind].
      eexists _, _. split; [reflexivity|]. unfold ps2, put_slot, set_ps_slots, set_ps_slot.
      cbn [ps_slots ps_last ps_slot ps_channel ps_fds ps_out fst snd set_ps_fds set_ps_channel].
      rewrite !list_insert_insert_eq. destruct ((s =? ps_last ps) && (type =? NTG_TRAFFIC_PROCESS)); done.
Qed.

Context (Hlen : length (ps_slots ps) = Z.to_nat NTG_MAX_PROCESSES) (Hlast : 0 <= ps_last ps <= NTG_MAX_PROCESSES) (Hrest : slots_inv (others s ps) (ps_fds ps))
  (Hresp : -5 <= respawn) (Hkind : respawn >= 0 -> s < ps_last ps /\ pc_detached p = false).

Lemma spawned_fields r :
  let p' := spawned proc data name respawn type r p in
  pc_pid p' = fst r /\ pc_channel p' = snd r /\ pc_exited p' = false /\ pc_type p' = type /\
  (respawn = NTG_PROCESS_DETACHED -> pc_detached p' = true /\ pc_respawn p' = false) /\
  (respawn <> NTG_PROCESS_DETACHED -> pc_detached p' = false).
Proof.
  unfold spawned. destruct (Z.geb_spec respawn 0) as [Hr|Hr].
  - destruct (Hkind ltac:(lia)) as [_ Hd]. split_and!; try done. intros ->. done.
  - assert (Hc : respawn = -1 \/ respawn = -2 \/ respawn = -3 \/ respawn = -4 \/ respawn = -5) by lia.
    destruct Hc as [ -> | [ -> | [ -> | [ -> | -> ] ] ] ]; split_and!; done.
Qed.

Lemma spawn_result_kernel r :
  spawn_result env cpus data respawn s = Some r ->
  0 < fst r /\ fst r ∉ pids (others s ps) /\
  if respawn =? NTG_PROCESS_DETACHED then True
  else fst (snd r) <> snd (snd r) /\ fst (snd r) ∉ ps_fds ps /\ snd (snd r) ∉ ps_fds ps /\
       0 <= fst (snd r) /\ 0 <= snd (snd r).
Proof.
  unfold spawn_result. destruct (u64 s >? u64 (cpus - 2)); [done|].
  destruct (respawn =? NTG_PROCESS_DETACHED).
  - destruct (sp_fork env) as [pid|] eqn:Ef; [|done]. cbn. intros [= <-]. by destruct (ko_fork _ _ _ K pid Ef).
  - destruct (sp_pair env) as [[a b]|] eqn:Epr; [|done]. cbn. destruct (prepared env data); [|done].
    destruct (sp_fork env) as [pid|] eqn:Ef; [|done]. cbn. intros [= <-]. cbn.
    destruct (ko_fork _ _ _ K pid Ef), (ko_pair _ _ _ K a b Epr) as (? & ? & ? & ? & ?). done.
Qed.

Lemma used_spawned r ps' :
  spawn_done r ps' ->
  used ps' ≡ₚ (if (s <? ps_last ps) || ((respawn <? 0) && (s =? ps_last ps) && (type =? NTG_TRAFFIC_PROCESS))
               then [spawned proc data name respawn type r p] else []) ++ others s ps.
Proof.
  intros ->. unfold used. cbn [ps_last ps_slots]. pose proof (slot_at_range _ _ _ Hp) as Hr. destruct (Z.ltb_spec s (ps_last ps)).
  - rewrite (proj2 (Z.eqb_neq s (ps_last ps))) by lia. rewrite andb_false_r. cbn [andb orb].
    pose proof (used_put_others s ps p (spawned proc data name respawn type r p) Hp ltac:(lia)) as H'. exact H'.
  - cbn [orb]. unfold others. rewrite (proj2 (Z.ltb_ge s (ps_last ps))) by lia. pose proof (slot_at_range _ _ _ Hp) as [? _].
    destruct ((respawn <? 0) && (s =? ps_last ps) && (type =? NTG_TRAFFIC_PROCESS)) eqn:E; cbn [app].
    + apply andb_prop in E as [[_ Es%Z.eqb_eq]%andb_prop _]. replace (Z.to_nat (ps_last ps + 1)) with (S (Z.to_nat s)) by lia.
      rewrite (take_S_r _ _ (spawned proc data name respawn type r p)) by (apply list_lookup_insert_eq; lia).
      rewrite take_insert_ge by lia. unfold used. rewrite <-Es. by rewrite Permutation_app_comm.
    + rewrite take_insert_ge by lia. done.
Qed.

Lemma spawn_done_inv r ps' :
  spawn_result env cpus data respawn s = Some r -> spawn_done r ps' ->
  (s < ps_last ps \/ (s = ps_last ps /\ type = NTG_TRAFFIC_PROCESS) \/ respawn = NTG_PROCESS_DETACHED) -> procs_inv ps'.
Proof.
  intros Hr Hd Hcount. pose proof (used_spawned r ps' Hd) as Hu. destruct (spawn_result_kernel r Hr) as (Hpid & Hni & Hfd).
  destruct (spawned_fields r) as (F1 & F2 & _ & _ & F3 & F4). set (p' := spawned _ _ _ _ _ _ _) in *.
  assert (Hlive : live p' = true) by (unfold live; rewrite F1; by apply Z.ltb_lt).
  rewrite Hd. split; cbn [ps_slots ps_last ps_fds].
  - by rewrite length_insert.
  - destruct ((respawn <? 0) && (s =? ps_last ps) && (type =? NTG_TRAFFIC_PROCESS)) eqn:E; [|lia]. apply andb_prop in E as [[_ E%Z.eqb_eq]%andb_prop _]. lia.
  - intros fd. destruct (respawn =? NTG_PROCESS_DETACHED); [apply Hopen|].
    rewrite !elem_of_union, !elem_of_singleton. destruct Hfd as (_ & _ & _ & ? & ?). intros [ -> | [ -> | Hfd' ] ]; [done|done|by apply Hopen].
  - rewrite <-Hd. assert (Hfds : ps_fds ps' = if respawn =? NTG_PROCESS_DETACHED then ps_fds ps
      else {[fst (snd r)]} ∪ ({[snd (snd r)]} ∪ ps_fds ps)) by (by rewrite Hd). 
    match goal with |- slots_inv _ ?f => replace f with (ps_fds ps') by (by rewrite Hd) end.
    rewrite Hu, Hfds. destruct (Z.eqb_spec respawn NTG_PROCESS_DETACHED) as [Ed|Ed].
    + destruct ((s <? ps_last ps) || _); cbn [app]; [|exact Hrest]. destruct (F3 Ed) as [F5 F6].
      apply slots_inv_join_closed; [done|unfold open_ended; by rewrite F5| |by rewrite F1].
      split; [by rewrite F6|]. rewrite F2. unfold spawn_result in Hr. destruct (_ >? _); [done|].
      rewrite (proj2 (Z.eqb_eq _ _) Ed) in Hr. destruct (sp_fork env); [|done]. cbn in Hr. by injection Hr as <-.
    + assert (E : (s <? ps_last ps) || ((respawn <? 0) && (s =? ps_last ps) && (type =? NTG_TRAFFIC_PROCESS)) = true).
      { destruct Hcount as [Hc | [ [-> ->] | ] ]; [by rewrite (proj2 (Z.ltb_lt _ _) Hc)| |done].
        rewrite Z.eqb_refl. destruct (Z.ltb_spec respawn 0); [by rewrite orb_true_r|]. destruct (Hkind ltac:(lia)). lia. }
      rewrite E. destruct Hfd as (? & ? & ? & ? & _). cbn [app]. apply slots_inv_join; try done; [by apply F4| |by rewrite F1].
      rewrite F2. by destruct (snd r).
Qed.

End spawn.

(** A failure leaves the invariant. *)
Lemma spawn_failed_inv ps s p ps' :
  procs_inv ps -> slot_at s ps = Some p -> (s < ps_last ps -> pc_pid p = -1) -> spawn_failed ps s p ps' -> procs_inv ps'.
Proof.
  intros [Hlen Hlast Hopen Hinv] Hp Hd (E1 & E2 & _ & t & c & E4). pose proof (slot_at_range _ _ _ Hp) as Hr.
  split; rewrite ?E1, ?E2; [by rewrite E4; unfold put_slot; cbn; rewrite length_insert|done|done|].
  assert (Hu : used ps' = used (put_slot s (p |> set_pc_type t |> set_pc_channel c) ps)) by (unfold used; by rewrite E1, E4).
  rewrite Hu. destruct (Z.ltb_spec s (ps_last ps)) as [Hs|Hs]; [|by rewrite used_put_ge by lia].
  rewrite (used_put_others _ _ _ _ Hp Hs). rewrite (used_others _ _ _ Hp Hs) in Hinv.
  assert (Hl : live p = false) by (unfold live; by rewrite (Hd Hs)).
  apply slots_inv_dead in Hinv as [H1 H2]; [|done]. by apply slots_inv_dead.
Qed.

(** The search ends at the first free slot, or behind the last. *)
Lemma find_slot_spec n s0 ps :
  0 <= s0 -> s0 + Z.of_nat n <= Z.of_nat (length (ps_slots ps)) ->
  exists s, find_slot n s0 ps = Some s /\ s0 <= s <= s0 + Z.of_nat n /\
    (s < s0 + Z.of_nat n -> exists p, slot_at s ps = Some p /\ pc_pid p = -1) /\
    forall j p, s0 <= j < s -> slot_at j ps = Some p -> pc_pid p <> -1.
Proof.
  revert s0. induction n as [|n IH]; intros s0 H0 Hl; cbn [find_slot].
  - exists s0. split; [done|]. split; [lia|]. split; [lia|]. lia.
  - destruct (slot_at_some s0 ps ltac:(lia)) as [p Hp]. rewrite Hp. cbn [mbind option_bind].
    destruct (Z.eqb_spec (pc_pid p) (-1)) as [Hpid|Hpid].
    + exists s0. split; [done|]. split; [lia|]. split; [by exists p|]. lia.
    + destruct (IH (s0 + 1) ltac:(lia) ltac:(lia)) as (s & E & Hs & Hf & Hj). exists s.
      split; [exact E|]. split; [lia|]. split; [intros; apply Hf; lia|]. intros j q Hjr Hq.
      destruct (Z.eq_dec j s0) as [->|]; [congruence|]. apply (Hj j); [lia|done].
Qed.

Lemma live_dead p : pc_pid p = -1 -> live p = false.
Proof. unfold live. by intros ->. Qed.

(** A dead slot is no part of what the invariant says. *)
Lemma others_dead s ps p :
  slot_at s ps = Some p -> live p = false -> slots_inv (used ps) (ps_fds ps) -> slots_inv (others s ps) (ps_fds ps).
Proof.
  intros Hp Hl H. unfold others. destruct (Z.ltb_spec s (ps_last ps)) as [Hs|]; [|done].
  assert (Hpe : used ps ≡ₚ p :: delete (Z.to_nat s) (used ps)) by (apply delete_Permutation; by apply used_at).
  rewrite Hpe in H. by apply slots_inv_dead in H as [H _].
Qed.

Lemma pids_delete i l pid : pid ∉ pids l -> pid ∉ pids (delete i l).
Proof.
  intros H Hi. apply H. clear H. unfold pids in *. apply list_elem_of_fmap in Hi as (p & -> & Hp).
  apply list_elem_of_fmap. exists p. split; [done|]. apply list_elem_of_In, List.filter_In in Hp as [Hp Hl].
  apply list_elem_of_In, List.filter_In. split; [|done]. apply list_elem_of_In in Hp. apply list_elem_of_In.
  eapply elem_of_sublist; [exact Hp|apply sublist_delete].
Qed.

Lemma kernel_ok_others env s ps fds : kernel_ok env (used ps) fds -> kernel_ok env (others s ps) fds.
Proof.
  intros [H1 H2]. split; [done|]. intros pid H. destruct (H2 pid H) as [H3 H4]. split; [done|].
  unfold others. destruct (s <? ps_last ps); [by apply pids_delete|done].
Qed.

Lemma spawn_ok env cpus proc data name respawn type ps :
  procs_inv ps -> kernel_ok env (used ps) (ps_fds ps) -> -5 <= respawn < 0 ->
  (type = NTG_TRAFFIC_PROCESS /\ ntg_start_process <= ps_last ps) \/ respawn = NTG_PROCESS_DETACHED ->
  exists s, ntg_start_process <= s <= Z.max ntg_start_process (ps_last ps) /\
    (forall j q, ntg_start_process <= j < s -> slot_at j ps = Some q -> pc_pid q <> -1) /\
    if s =? NTG_MAX_PROCESSES
    then ntg_spawn_process env cpus proc data name respawn type (-1) ps = Some (NTG_INVALID_PID, None, ps)
    else exists p, slot_at s ps = Some p /\ (s < ps_last ps -> pc_pid p = -1) /\
      match spawn_result env cpus data respawn s with
      | None => exists ps', ntg_spawn_process env cpus proc data name respawn type (-1) ps = Some (NTG_INVALID_PID, None, ps') /\
          spawn_failed ps s p ps' /\ procs_inv ps'
      | Some r => exists child ps', ntg_spawn_process env cpus proc data name respawn type (-1) ps = Some (fst r, Some child, ps') /\
          spawn_done proc data name respawn type ps s p r ps' /\ spawn_child type ps s p r ps' child /\ procs_inv ps'
      end.
Proof.
  intros [Hlen Hlast Hopen Hinv] K Hr Ht. unfold ntg_start_process in *. pose proof Hlen as Hlz. unfold NTG_MAX_PROCESSES in Hlz, Hlast.
  destruct (find_slot_spec (Z.to_nat (ps_last ps - 1)) 1 ps ltac:(lia) ltac:(lia)) as (s & E & Hs & Hf & Hj).
  assert (Hc : choose_slot respawn (-1) ps = Some s).
  { unfold choose_slot. destruct (Z.geb_spec respawn 0); [lia|exact E]. }
  exists s. split; [lia|]. split; [exact Hj|]. unfold NTG_MAX_PROCESSES. destruct (Z.eqb_spec s 1024) as [Es|Es].
  { unfold ntg_spawn_process. rewrite Hc. cbn [mbind option_bind]. rewrite (proj2 (Z.ltb_lt respawn 0)) by lia. by rewrite Es. }
  destruct (slot_at_some s ps ltac:(lia)) as [p Hp]. exists p. split; [done|].
  assert (Hdead : s < ps_last ps -> pc_pid p = -1).
  { intros Hl. destruct (Hf ltac:(lia)) as (q & Hq & ?). congruence. }
  split; [exact Hdead|].
  assert (Hrest : slots_inv (others s ps) (ps_fds ps)).
  { destruct (Z.ltb_spec s (ps_last ps)) as [Hl|Hl]; [by apply others_dead with p; [|apply live_dead, Hdead|]|].
    unfold others. by rewrite (proj2 (Z.ltb_ge s (ps_last ps))) by lia. }
  pose proof (kernel_ok_others env s ps _ K) as K'.
  pose proof (spawn_spec env cpus proc data name respawn type (-1) ps s p Hc Hp ltac:(unfold NTG_MAX_PROCESSES; lia) K' Hopen) as H.
  destruct (spawn_result env cpus data respawn s) as [r|] eqn:Er.
  - destruct H as (child & ps' & H1 & H2 & H3). exists child, ps'. split_and!; try done.
    apply (spawn_done_inv env cpus proc data name respawn type (-1) ps s p Hc Hp ltac:(unfold NTG_MAX_PROCESSES; lia) K' Hopen
      Hlen ltac:(unfold NTG_MAX_PROCESSES; lia) Hrest ltac:(lia) ltac:(lia) r ps' Er H2).
    destruct Ht as [ [ -> ? ] | -> ]; [|by right; right]. destruct (Z.eq_dec s (ps_last ps)); [by right; left|left; lia].
  - destruct H as (ps' & H1 & H2). exists ps'. split_and!; [done..|]. by apply (spawn_failed_inv ps s p).
Qed.

(** C8: spawning a process that is no respawn.  It takes the first slot whose
    process is gone, or the one behind the last: without a slot, without a
    processor for it, without descriptors or when [fork] fails there is no
    process, and no descriptor stays open; otherwise the slot holds it, with two
    descriptors of its own unless it is detached, and its own memory is that
    of the master but for its identifier.  The invariant of the table holds again. *)
Theorem spawn_process_correct env cpus proc data name respawn type ps :
  procs_inv ps -> kernel_ok env (used ps) (ps_fds ps) -> -5 <= respawn < 0 ->
  (type = NTG_TRAFFIC_PROCESS /\ ntg_start_process <= ps_last ps) \/ respawn = NTG_PROCESS_DETACHED ->
  exists s, ntg_start_process <= s <= Z.max ntg_start_process (ps_last ps) /\
    (forall j q, ntg_start_process <= j < s -> slot_at j ps = Some q -> pc_pid q <> -1) /\
    if s =? NTG_MAX_PROCESSES
    then ntg_spawn_process env cpus proc data name respawn type (-1) ps = Some (NTG_INVALID_PID, None, ps)
    else exists p, slot_at s ps = Some p /\ (s < ps_last ps -> pc_pid p = -1) /\
      match spawn_result env cpus data respawn s with
      | None => exists ps', ntg_spawn_process env cpus proc data name respawn type (-1) ps = Some (NTG_INVALID_PID, None, ps') /\
          spawn_failed ps s p ps' /\ procs_inv ps'
      | Some r => exists child ps', ntg_spawn_process env cpus proc data name respawn type (-1) ps = Some (fst r, Some child, ps') /\
          spawn_done proc data name respawn type ps s p r ps' /\ spawn_child type ps s p r ps' child /\ procs_inv ps'
      end.
Proof. apply spawn_ok. Qed.

(** ** Exits *)

(** [q] is the process [p] with other marks. *)
Record same_process (p q : ntg_process_t) : Prop := {
  sp_pid : pc_pid q = pc_pid p;
  sp_channel : pc_channel q = pc_channel p;
  sp_detached : pc_detached q = pc_detached p;
  sp_respawn : pc_respawn q = true -> pc_respawn p = true }.

Lemma slots_inv_same p q l fds : same_process p q -> slots_inv (p :: l) fds -> slots_inv (q :: l) fds.
Proof.
  intros [Hp Hc Hd Hr] [H1 H2 H3 H4]. assert (Hl : live q = live p) by (unfold live; by rewrite Hp).
  assert (Ho : owned (q :: l) = owned (p :: l)) by (rewrite !owned_cons; unfold own, open_ended; by rewrite Hl, Hd, Hc).
  assert (Hi : pids (q :: l) = pids (p :: l)) by (unfold pids; cbn; rewrite Hl; destruct (live p); cbn; by rewrite ?Hp).
  split; rewrite ?Ho, ?Hi; try done. apply Forall_cons in H4 as [H4 H5]. constructor; [|done].
  destruct H4 as [H4 H6]. split; [rewrite Hd; auto|]. by rewrite Hl, Hc.
Qed.

Lemma put_slot_inv i p q ps : procs_inv ps -> slot_at i ps = Some p -> same_process p q -> procs_inv (put_slot i q ps).
Proof.
  intros [Hlen Hlast Hopen Hinv] Hp Hpq. pose proof (slot_at_range _ _ _ Hp) as Hr.
  split; cbn [put_slot set_ps_slots ps_slots ps_last ps_fds]; [by rewrite length_insert|done|done|].
  change (slots_inv (used (put_slot i q ps)) (ps_fds ps)). destruct (Z.ltb_spec i (ps_last ps)) as [Hi|Hi].
  - rewrite (used_put_others _ _ _ _ Hp Hi). rewrite (used_others _ _ _ Hp Hi) in Hinv. by eapply slots_inv_same.
  - by rewrite used_put_ge by lia.
Qed.

Lemma pid_in_pids l p : p ∈ l -> live p = true -> pc_pid p ∈ pids l.
Proof.
  intros Hp Hl. unfold pids. apply list_elem_of_fmap. exists p. split; [done|].
  apply list_elem_of_In, List.filter_In. split; [by apply list_elem_of_In|done].
Qed.

Lemma pid_unique l i j p q :
  NoDup (pids l) -> l !! i = Some p -> l !! j = Some q -> 0 < pc_pid p -> pc_pid q = pc_pid p -> i = j.
Proof.
  intros Hn Hi Hj Hpos Hpq. destruct (decide (i = j)) as [|Hij]; [done|exfalso].
  rewrite (delete_Permutation l i p Hi) in Hn. assert (Hl : live p = true) by (by apply Z.ltb_lt).
  unfold pids in Hn. cbn in Hn. rewrite Hl in Hn. cbn in Hn. apply NoDup_cons in Hn as [Hn _]. apply Hn.
  rewrite <-Hpq. apply pid_in_pids; [|unfold live; rewrite Hpq; exact Hl]. apply list_elem_of_lookup. 
  destruct (decide (j < i)%nat).
  - exists j. by rewrite list_lookup_delete_lt.
  - exists (pred j). rewrite list_lookup_delete_ge by lia. by replace (S (pred j)) with j by lia.
Qed.

Lemma find_pid_spec pid n i0 ps :
  0 <= i0 -> i0 + Z.of_nat n <= Z.of_nat (length (ps_slots ps)) ->
  exists i, find_pid n i0 pid ps = Some i /\ i0 <= i <= i0 + Z.of_nat n /\
    (i < i0 + Z.of_nat n -> exists p, slot_at i ps = Some p /\ pc_pid p = pid) /\
    forall j p, i0 <= j < i -> slot_at j ps = Some p -> pc_pid p <> pid.
Proof.
  revert i0. induction n as [|n IH]; intros i0 H0 Hl; cbn [find_pid].
  - exists i0. split; [done|]. split; [lia|]. split; [lia|]. lia.
  - destruct (slot_at_some i0 ps ltac:(lia)) as [p Hp]. rewrite Hp. cbn [mbind option_bind].
    destruct (Z.eqb_spec (pc_pid p) pid) as [Hpid|Hpid].
    + exists i0. split; [done|]. split; [lia|]. split; [by exists p|]. lia.
    + destruct (IH (i0 + 1) ltac:(lia) ltac:(lia)) as (i & E & Hi & Hf & Hj). exists i.
      split; [exact E|]. split; [lia|]. split; [intros; apply Hf; lia|]. intros j q Hjr Hq.
      destruct (Z.eq_dec j i0) as [->|]; [congruence|]. apply (Hj j); [lia|done].
Qed.

(** What an exit makes of a process: with status 2 it is not to be spawned again. *)
Definition exit_mark (e : Z * Z) (p : ntg_process_t) : ntg_process_t :=
  if pc_pid p =? fst e then
    let p := set_pc_exited (snd e) true p in
    if WEXITSTATUS (snd e) =? 2 then set_pc_modes false (pc_just_spawn p) (pc_detached p) p else p
  else p.

Lemma exit_mark_same e p : same_process p (exit_mark e p).
Proof. unfold exit_mark. destruct (_ =? _); [|done]. destruct (_ =? 2); done. Qed.

Lemma set_modes_id p : pc_respawn p = false -> set_pc_modes false (pc_just_spawn p) (pc_detached p) p = p.
Proof. destruct p. cbn. by intros ->. Qed.

(** The table when only marks differ. *)
Record marked (f : ntg_process_t -> ntg_process_t) (ps ps' : procs) : Prop := {
  mk_inv : procs_inv ps';
  mk_same : ps_last ps' = ps_last ps /\ ps_slot ps' = ps_slot ps /\ ps_channel ps' = ps_channel ps /\
            ps_fds ps' = ps_fds ps /\ ps_out ps' = ps_out ps;
  mk_slots : forall i p, i < ps_last ps -> slot_at i ps = Some p -> slot_at i ps' = Some (f p) }.

Lemma process_exited_ok pid status ps :
  procs_inv ps -> ps_last ps < NTG_MAX_PROCESSES -> 0 < pid ->
  exists ps', process_exited pid status ps = Some ps' /\ marked (exit_mark (pid, status)) ps ps'.
Proof.
  intros I Hmax Hpid. pose proof I as [Hlen Hlast Hopen Hinv]. unfold NTG_MAX_PROCESSES in *.
  destruct (find_pid_spec pid (Z.to_nat (ps_last ps)) 0 ps ltac:(lia) ltac:(lia)) as (i & E & Hi & Hf & Hj).
  unfold process_exited. rewrite E. cbn [mbind option_bind].
  destruct (slot_at_some i ps ltac:(lia)) as [p Hp]. destruct (Z.ltb_spec i (ps_last ps)) as [Hl|Hl].
  - destruct (Hf ltac:(lia)) as (p0 & Hp0 & Hpp). rewrite Hp in Hp0. injection Hp0 as <-.
    rewrite (modify_slot_at _ _ _ _ Hp). cbn [mbind option_bind].
    assert (Hq : slot_at i (put_slot i (set_pc_exited status true p) ps) = Some (set_pc_exited status true p)) by (by apply slot_at_put with p).
    exists (put_slot i (exit_mark (pid, status) p) ps). split.
    + unfold exit_mark. cbn [fst snd]. rewrite (proj2 (Z.eqb_eq _ _) Hpp). destruct (WEXITSTATUS status =? 2); [|done].
      rewrite Hq. cbn [mbind option_bind]. destruct (pc_respawn (set_pc_exited status true p)) eqn:Er.
      * rewrite (modify_slot_at _ _ _ _ Hq). by rewrite put_put_slot.
      * by rewrite set_modes_id.
    + split; [apply (put_slot_inv i p); [done|done|apply exit_mark_same]|done|].
      intros j q Hjl Hq'. destruct (Z.eq_dec i j) as [<-|Hne].
      * rewrite Hp in Hq'. injection Hq' as <-. by apply slot_at_put with p.
      * rewrite slot_at_put_ne by (lia || done). rewrite Hq'. f_equal. unfold exit_mark. cbn [fst].
        destruct (Z.eqb_spec (pc_pid q) pid) as [Hqp|]; [exfalso|done]. apply Hne.
        pose proof (slot_at_range _ _ _ Hq'). enough (Z.to_nat i = Z.to_nat j) by lia.
        apply (pid_unique (used ps) _ _ p q); [apply Hinv|by apply used_at|by apply used_at|lia|congruence].
  - cbn [mbind option_bind].
    assert (Hm : forall ps', ps_last ps' = ps_last ps -> (forall j, j < ps_last ps -> slot_at j ps' = slot_at j ps) ->
      forall j q, j < ps_last ps -> slot_at j ps = Some q -> slot_at j ps' = Some (exit_mark (pid, status) q)).
    { intros ps' _ Hs j q Hjl Hq. rewrite Hs, Hq by done. f_equal. unfold exit_mark. cbn [fst].
      pose proof (slot_at_range _ _ _ Hq). destruct (Z.eqb_spec (pc_pid q) pid) as [Hqp|]; [|done].
      exfalso. apply (Hj j q ltac:(lia) Hq Hqp). }
    destruct (WEXITSTATUS status =? 2); [|by exists ps; split; [done|split; [done|done|apply Hm]]].
    rewrite Hp. cbn [mbind option_bind]. destruct (pc_respawn p); [|by exists ps; split; [done|split; [done|done|apply Hm]]].
    rewrite (modify_slot_at _ _ _ _ Hp). eexists. split; [reflexivity|]. split; [|done|].
    + apply (put_slot_inv i p); done.
    + apply Hm; [done|]. intros j Hjl. apply slot_at_put_ne; lia.
Qed.

(** The exits that [waitpid] reports before it is done. *)
Fixpoint exits (waits : list wait_result) : option (list (Z * Z)) :=
  match waits with
  | [] => None
  | WaitNone :: _ | WaitFails :: _ => Some []
  | WaitInterrupted :: waits => exits waits
  | WaitExited pid status :: waits => es ← exits waits; Some ((pid, status) :: es)
  end.

Lemma get_status_ok waits es ps :
  procs_inv ps -> ps_last ps < NTG_MAX_PROCESSES -> exits waits = Some es -> Forall (fun e => 0 < fst e) es ->
  exists ps', ntg_process_get_status waits ps = Some ps' /\ marked (fun p => fold_left (fun p e => exit_mark e p) es p) ps ps'.
Proof.
  revert es ps. induction waits as [|w waits IH]; intros es ps I Hl He Hpos; [done|].
  destruct w; cbn [exits ntg_process_get_status] in *.
  - injection He as <-. by exists ps.
  - by apply IH.
  - injection He as <-. by exists ps.
  - destruct (exits waits) as [es0|] eqn:Ee; [|done]. cbn in He. injection He as <-.
    apply Forall_cons in Hpos as [Hp Hpos]. destruct (process_exited_ok pid status ps I Hl Hp) as (ps1 & E1 & M1).
    rewrite E1. cbn [mbind option_bind]. pose proof (mk_same _ _ _ M1) as (L & S1 & C1 & F1 & O1).
    destruct (IH es0 ps1 (mk_inv _ _ _ M1) ltac:(by rewrite L) eq_refl Hpos) as (ps2 & E2 & M2). exists ps2. split; [done|].
    pose proof (mk_same _ _ _ M2) as (L2 & S2 & C2 & F2 & O2). split; [apply M2|split_and!; congruence|].
    intros i p Hi Hp0. cbn [fold_left]. apply (mk_slots _ _ _ M2); [by rewrite L|]. by apply (mk_slots _ _ _ M1).
Qed.

(** When a process gets the signal of a child's exit, each child that
    [waitpid] reports is marked in the table, at its own slot and nowhere else,
    and one that exits with status 2 is not to be spawned again; the master is
    told to reap.  No other field, flag or descriptor changes. *)
Theorem signal_child_correct process ppid waits es f ps :
  procs_inv ps -> ps_last ps < NTG_MAX_PROCESSES -> exits waits = Some es -> Forall (fun e => 0 < fst e) es ->
  exists ps', ntg_signal_handler process SIGCHLD ppid waits f ps =
      Some (if (process =? NTG_PROCESS_MASTER) || (process =? NTG_PROCESS_SINGLE)
            then Flags true (fl_sigio f) (fl_sigalrm f) (fl_terminate f) (fl_quit f) (fl_reconfigure f) (fl_add f)
                   (fl_change_binary f) (fl_new_binary f) else f, ps') /\
    marked (fun p => fold_left (fun p e => exit_mark e p) es p) ps ps'.
Proof.
  intros I Hl He Hpos. destruct (get_status_ok waits es ps I Hl He Hpos) as (ps' & E & M). exists ps'. split; [|done].
  unfold ntg_signal_handler. change (SIGCHLD =? SIGCHLD) with true. cbv iota. rewrite E. cbn [mbind option_bind].
  unfold signal_flags. destruct f. destruct (_ || (process =? NTG_PROCESS_SINGLE)); cbn; rewrite ?andb_false_r; done.
Qed.

(** ** Examples *)

(** The static array, before any process is spawned. *)
Definition initial_procs : procs := Procs (replicate (Z.to_nat NTG_MAX_PROCESSES) zero_process) 1 0 0 ∅ [].

Lemma initial_inv : procs_inv initial_procs.
Proof.
  split; [done|by cbn|set_solver|]. change (used initial_procs) with [zero_process].
  apply slots_inv_dead; [done|]. split; [|done]. split; [done|apply NoDup_nil_2|apply NoDup_nil_2|done].
Qed.

(** The calls work and give descriptors [a] and [a + 1], and process [pid]. *)
Definition spawn_works (a pid : Z) : spawn_env := SpawnEnv (Some (a, a + 1)) true true true true true true (Some pid).

Definition example_procs : procs :=
  match ntg_spawn_process (spawn_works 10 501) 8 1 1 (str "traffic process") NTG_PROCESS_RESPAWN NTG_TRAFFIC_PROCESS (-1)
    initial_procs with Some (_, _, ps) => ps | None => initial_procs end.

Lemma example_kernel : kernel_ok (spawn_works 10 501) (used initial_procs) (ps_fds initial_procs).
Proof.
  split.
  - intros a b [= <- <-]. cbn. set_solver by lia.
  - intros pid [= <-]. split; [lia|]. apply not_elem_of_nil.
Qed.

Lemma spawn_process_correct_witness :
  exists child ps', ntg_spawn_process (spawn_works 10 501) 8 1 1 (str "traffic process") NTG_PROCESS_RESPAWN
      NTG_TRAFFIC_PROCESS (-1) initial_procs = Some (501, Some child, ps') /\ procs_inv ps' /\ ps_last ps' = 2.
Proof.
  destruct (spawn_process_correct (spawn_works 10 501) 8 1 1 (str "traffic process") NTG_PROCESS_RESPAWN
    NTG_TRAFFIC_PROCESS initial_procs) as (s & Hs & _ & H).
  - apply initial_inv.
  - apply example_kernel.
  - unfold NTG_PROCESS_RESPAWN. lia.
  - by left.
  - assert (Es : s = 1) by (unfold ntg_start_process in Hs; cbn in Hs; lia). subst s. clear Hs.
    change (1 =? NTG_MAX_PROCESSES) with false in H. cbv iota in H. destruct H as (p & Hp & _ & H).
    assert (Er : spawn_result (spawn_works 10 501) 8 1 NTG_PROCESS_RESPAWN 1 = Some (501, (10, 11))) by reflexivity.
    rewrite Er in H. destruct H as (child & ps' & E & D & _ & I). exists child, ps'. split; [exact E|]. split; [exact I|]. by rewrite D.
Defined.

Lemma example_procs_inv : procs_inv example_procs.
Proof.
  destruct (spawn_ok (spawn_works 10 501) 8 1 1 (str "traffic process") NTG_PROCESS_RESPAWN NTG_TRAFFIC_PROCESS initial_procs)
    as (s & Hs & _ & H); [apply initial_inv|apply example_kernel|unfold NTG_PROCESS_RESPAWN; lia|by left|].
  assert (Es : s = 1) by (unfold ntg_start_process in Hs; cbn in Hs; lia). subst s. clear Hs.
  change (1 =? NTG_MAX_PROCESSES) with false in H. destruct H as (p & _ & _ & H).
  assert (Er : spawn_result (spawn_works 10 501) 8 1 NTG_PROCESS_RESPAWN 1 = Some (501, (10, 11))) by reflexivity.
  rewrite Er in H. destruct H as (child & ps' & E & _ & _ & I). unfold example_procs. by rewrite E.
Qed.

Lemma signal_child_correct_witness :
  exists ps', ntg_signal_handler NTG_PROCESS_MASTER SIGCHLD 1 [WaitInterrupted; WaitExited 501 512; WaitFails]
      (Flags false false false false false false false false 0) example_procs =
      Some (Flags true false false false false false false false 0, ps') /\
    (fun p => (pc_exited p, pc_respawn p)) <$> slot_at 1 ps' = Some (true, false).
Proof.
  destruct (signal_child_correct NTG_PROCESS_MASTER 1 [WaitInterrupted; WaitExited 501 512; WaitFails] [(501, 512)]
    (Flags false false false false false false false false 0) example_procs) as (ps' & E & M).
  - apply example_procs_inv.
  - done.
  - done.
  - apply Forall_singleton. done.
  - exists ps'. split; [exact E|]. destruct (slot_at 1 example_procs) as [p|] eqn:Hp; [|vm_compute in Hp; discriminate].
    rewrite (mk_slots _ _ _ M 1 p ltac:(done) Hp). vm_compute in Hp. injection Hp as <-. reflexivity.
Defined.

(** What the code does not handle. *)

(** The process of a new binary takes the slot behind the last, but only traffic
    processes are counted: its exit is not seen in the table. *)
Lemma new_binary_uncounted :
  ('(pid, _, ps) ← ntg_spawn_process (spawn_works 12 502) 8 7 0 (str "new binary process") NTG_PROCESS_DETACHED 0 (-1) example_procs;
   ps ← ntg_process_get_status [WaitExited pid 0; WaitNone] ps;
   p ← slot_at 2 ps; Some (pid, pc_pid p, pc_exited p, ps_last ps)) = Some (502, 502, false, 2).
Proof. vm_compute. reflexivity. Qed.

(** With fewer than two processors in the configuration their number less two is
    a huge unsigned one, and any number of processes can be spawned. *)
Lemma no_processors_no_limit :
  (fun '(pid, _, _) => pid) <$>
    ntg_spawn_process (spawn_works 12 502) 1 1 2 (str "traffic process") NTG_PROCESS_RESPAWN NTG_TRAFFIC_PROCESS (-1) example_procs =
  Some 502.
Proof. vm_compute. reflexivity. Qed.
