(* ===== verification/Master.v ===== *)
(** * The master process (src/utils/ntg_process_cycle.c)

    The master spawns the user and the traffic processes, tells each the
    channels of the others, reaps those that exit, and passes the request to
    stop on.  One turn of its loop is a function of the signals it gets, the
    kernel's answers being arguments. *)

From S2P Require Import Prelude Channel Process.

(** ** Messages to the processes *)

Definition NTG_CMD_CLOSE_CHANNEL : Z := 2.
Definition NTG_CMD_QUIT : Z := 3.
Definition NTG_CMD_TERMINATE : Z := 4.

(** The routines of the processes. *)
Definition ntg_virtual_process_cycle : Z := 1.
Definition ntg_traffic_process_cycle : Z := 2.
Definition ntg_execute_proc : Z := 3.

(** Who is told: the processes of a list with a property, on the master's end of
    their channels. *)
Fixpoint tell_loop (to : Z -> ntg_process_t -> bool) (n : nat) (i : Z) (msg : message) (ps : procs) : option procs :=
  match n with
  | O => Some ps
  | S n =>
      p ← slot_at i ps;
      tell_loop to n (i + 1) msg (if to i p then emit (Wrote (fst (pc_channel p)) msg) ps else ps)
  end.

Definition ntg_pass_open_channel (msg : message) (ps : procs) : option procs :=
  tell_loop (fun i p => negb ((i =? ps_slot ps) || (pc_type p =? 0) || (pc_pid p =? -1) || (fst (pc_channel p) =? -1)))
    (Z.to_nat (ps_last ps)) 0 msg ps.

(** The announcement of the process in slot [ntg_process_slot]. *)
Definition open_message (ps : procs) : option channel_message :=
  p ← slot_at (ps_slot ps) ps;
  Some (ChannelMsg NTG_CMD_OPEN_CHANNEL (pc_pid p) (ps_slot ps) (fst (pc_channel p))).

(** [ntg_start_traffic_processes], with an environment for each of the processes. *)
Fixpoint ntg_start_traffic_processes (envs : list spawn_env) (cpus respawn : Z) (ps : procs) : option procs :=
  match envs with
  | [] => Some ps
  | env :: envs =>
      '(_, _, ps) ← ntg_spawn_process env cpus ntg_traffic_process_cycle (ps_last ps) (str "traffic process") respawn
                      NTG_TRAFFIC_PROCESS (-1) ps;
      ch ← open_message ps;
      ps ← ntg_pass_open_channel (MChannel ch) ps;
      ntg_start_traffic_processes envs cpus respawn ps
  end.

Definition ntg_start_virtual_process (env : spawn_env) (cpus n respawn : Z) (ps : procs) : option procs :=
  '(_, _, ps) ← ntg_spawn_process env cpus ntg_virtual_process_cycle n (str "virtual processes") respawn NTG_VIRTUAL_PROCESS 0 ps;
  ch ← open_message ps;
  ntg_pass_open_channel (MChannel ch) ps.

(** ** Stopping the processes *)

(** The outcomes of [kill]: [KillGone] is no such process. *)
Inductive kill_result := KillOk | KillGone | KillFails.

Definition signal_command (signo : Z) : Z :=
  if signo =? NTG_SHUTDOWN_SIGNAL then NTG_CMD_QUIT
  else if signo =? NTG_TERMINATE_SIGNAL then NTG_CMD_TERMINATE
  else 0.

Section signal.
(** The outcomes of the writes and of the signals, by slot. *)
Context (write : Z -> sendmsg_result) (kill : Z -> kill_result) (signo : Z).

(** The part that sends: the table, and whether there is somebody to reap. *)
Definition signal_process (i : Z) (p : ntg_process_t) (ps : procs) : option (bool * procs) :=
  let command := signal_command signo in
  if negb (command =? 0) && (match write i with SendOk => true | _ => false end) then
    ps ← modify_slot i (set_pc_exiting true) ps;
    Some (false, emit (Wrote (fst (pc_channel p)) (MChannel (ChannelMsg command 0 0 (-1)))) ps)
  else
    match kill i with
    | KillGone => ps ← modify_slot i (fun p => p |> set_pc_exited (pc_status p) true |> set_pc_exiting false) ps; Some (true, ps)
    | KillFails => Some (false, ps)
    | KillOk => ps ← modify_slot i (set_pc_exiting true) ps; Some (false, emit (Killed (pc_pid p) signo) ps)
    end.

Definition signal_slot (i : Z) (ps : procs) : option (bool * procs) :=
  p ← slot_at i ps;
  if pc_detached p || (pc_pid p =? -1) then Some (false, ps)
  else if pc_just_spawn p then
    ps ← modify_slot i (fun p => set_pc_modes (pc_respawn p) false (pc_detached p) p) ps; Some (false, ps)
  else if pc_exiting p && (signo =? NTG_SHUTDOWN_SIGNAL) then Some (false, ps)
  else signal_process i p ps.

Fixpoint signal_loop (n : nat) (i : Z) (reap : bool) (ps : procs) : option (bool * procs) :=
  match n with
  | O => Some (reap, ps)
  | S n => '(gone, ps) ← signal_slot i ps; signal_loop n (i + 1) (reap || gone) ps
  end.

(** [ntg_signal_worker_processes]; [reap] is the flag [ntg_reap]. *)
Definition ntg_signal_worker_processes (reap : bool) (ps : procs) : option (bool * procs) :=
  signal_loop (Z.to_nat (ps_last ps)) 0 reap ps.

End signal.

(** ** Reaping *)

(** The variables of [ntg_reap_children], and the globals it sets. *)
Record reap_state := Reap {
  rs_ps : procs;
  rs_ch : channel_message;
  rs_live : bool;
  rs_new : Z;
  rs_restart : bool;
  rs_noaccepting : bool }.

Section reap.
(** The kernel's answers to a spawn, in the table of that moment. *)
Context (kernel : procs -> spawn_env) (cpus : Z) (terminate quit : bool).

Definition set_rs_ps ps st := Reap ps (rs_ch st) (rs_live st) (rs_new st) (rs_restart st) (rs_noaccepting st).

(** The channel of a process that exited is closed, and the others are told. *)
Definition reap_close (i : Z) (p : ntg_process_t) (st : reap_state) : option reap_state :=
  if pc_detached p then Some st
  else
    let ps := ntg_close_channel (pc_channel p) (rs_ps st) in
    ps ← modify_slot i (set_pc_channel (-1, -1)) ps;
    let ch := ChannelMsg (ch_command (rs_ch st)) (pc_pid p) i (ch_fd (rs_ch st)) in
    ps ← tell_loop (fun _ q => negb (pc_exited q || (pc_pid q =? -1) || (fst (pc_channel q) =? -1)))
           (Z.to_nat (ps_last ps)) 0 (MChannel ch) ps;
    Some (Reap ps ch (rs_live st) (rs_new st) (rs_restart st) (rs_noaccepting st)).

(** It is spawned again. *)
Definition reap_respawn (i : Z) (p : ntg_process_t) (st : reap_state) : option reap_state :=
  '(rc, _, ps) ← ntg_spawn_process (kernel (rs_ps st)) cpus (pc_proc p) (pc_data p) (pc_name p) i (pc_type p) (-1) (rs_ps st);
  if rc =? NTG_INVALID_PID then Some (set_rs_ps ps st)
  else
    ch ← open_message ps;
    ps ← ntg_pass_open_channel (MChannel ch) ps;
    Some (Reap ps ch true (rs_new st) (rs_restart st) (rs_noaccepting st)).

(** Its slot is given back. *)
Definition reap_forget (i : Z) (p : ntg_process_t) (st : reap_state) : option reap_state :=
  let '(new, restart, noaccepting) :=
    if pc_pid p =? rs_new st
    then (0, if rs_noaccepting st then true else rs_restart st, if rs_noaccepting st then false else rs_noaccepting st)
    else (rs_new st, rs_restart st, rs_noaccepting st) in
  ps ← (if i =? ps_last (rs_ps st) - 1 then Some (set_ps_last (ps_last (rs_ps st) - 1) (rs_ps st))
        else modify_slot i (set_pc_pid (-1)) (rs_ps st));
  Some (Reap ps (rs_ch st) (rs_live st) new restart noaccepting).

Definition reap_slot (i : Z) (st : reap_state) : option reap_state :=
  p ← slot_at i (rs_ps st);
  if pc_pid p =? -1 then Some st
  else if pc_exited p then
    st ← reap_close i p st;
    if pc_respawn p && negb (pc_exiting p) && negb terminate && negb quit then reap_respawn i p st
    else reap_forget i p st
  else Some (if pc_exiting p || negb (pc_detached p)
             then Reap (rs_ps st) (rs_ch st) true (rs_new st) (rs_restart st) (rs_noaccepting st) else st).

Fixpoint reap_loop (n : nat) (i : Z) (st : reap_state) : option reap_state :=
  match n with
  | O => Some st
  | S n => if i <? ps_last (rs_ps st) then st ← reap_slot i st; reap_loop n (i + 1) st else Some st
  end.

(** [ntg_reap_children]: [ntg_last_process] only shrinks. *)
Definition ntg_reap_children (new : Z) (restart noaccepting : bool) (ps : procs) : option reap_state :=
  reap_loop (Z.to_nat (ps_last ps)) 0
    (Reap ps (ChannelMsg NTG_CMD_CLOSE_CHANNEL 0 0 (-1)) false new restart noaccepting).

End reap.

(** ** The loop of the master *)

(** The locals of [ntg_master_process_cycle], and the globals of the file. *)
Record master := Master {
  ma_ps : procs;
  ma_flags : flags;
  ma_live : bool;
  ma_delay : Z;
  ma_sigio : Z;
  ma_noaccept : bool;
  ma_noaccepting : bool;
  ma_restart : bool }.

(** What a turn meets: the signals its event loop delivers, each with the
    parent's identifier and the answers of [waitpid], the outcomes of writes and
    [kill], and whether the environment of a new binary can be made. *)
Record turn_env := TurnEnv {
  te_signals : list (Z * Z * list wait_result);
  te_write : Z -> sendmsg_result;
  te_kill : Z -> kill_result;
  te_binary : bool }.

Inductive turn := Continues (m : master) | Exits (ps : procs).

Section turn.
Context (kernel : procs -> spawn_env) (cpus worker_processes : Z).

(** The part of the timer; the flag [ntg_sigalrm] is taken. *)
Definition turn_delay (m : master) : master :=
  let f := ma_flags m in
  if negb (ma_delay m =? 0) && fl_sigalrm f
  then Master (ma_ps m) (Flags (fl_reap f) (fl_sigio f) false (fl_terminate f) (fl_quit f) (fl_reconfigure f) (fl_add f)
         (fl_change_binary f) (fl_new_binary f)) (ma_live m) (u64 (ma_delay m * 2)) 0 (ma_noaccept m) (ma_noaccepting m) (ma_restart m)
  else m.

(** The signals, one after the other. *)
Fixpoint turn_signals (sigs : list (Z * Z * list wait_result)) (f : flags) (ps : procs) : option (flags * procs) :=
  match sigs with
  | [] => Some (f, ps)
  | (signo, ppid, waits) :: sigs =>
      '(f, ps) ← ntg_signal_handler NTG_PROCESS_MASTER signo ppid waits f ps; turn_signals sigs f ps
  end.

Definition turn_reap (m : master) : option master :=
  let f := ma_flags m in
  if fl_reap f then
    st ← ntg_reap_children kernel cpus (fl_terminate f) (fl_quit f) (fl_new_binary f) (ma_restart m) (ma_noaccepting m) (ma_ps m);
    Some (Master (rs_ps st) (Flags false (fl_sigio f) (fl_sigalrm f) (fl_terminate f) (fl_quit f) (fl_reconfigure f)
            (fl_add f) (fl_change_binary f) (rs_new st)) (rs_live st) (ma_delay m) (ma_sigio m) (ma_noaccept m)
            (rs_noaccepting st) (rs_restart st))
  else Some m.

Definition set_ma_reap (reap : bool) (ps : procs) (m : master) : master :=
  let f := ma_flags m in
  Master ps (Flags reap (fl_sigio f) (fl_sigalrm f) (fl_terminate f) (fl_quit f) (fl_reconfigure f) (fl_add f)
    (fl_change_binary f) (fl_new_binary f)) (ma_live m) (ma_delay m) (ma_sigio m) (ma_noaccept m) (ma_noaccepting m) (ma_restart m).

Definition turn_workers (env : turn_env) (signo : Z) (m : master) : option master :=
  '(reap, ps) ← ntg_signal_worker_processes (te_write env) (te_kill env) signo (fl_reap (ma_flags m)) (ma_ps m);
  Some (set_ma_reap reap ps m).

(** Steps 5.6: with a grace of some turns between the signals, and [SIGKILL]
    when the delay has grown. *)
Definition turn_terminate (env : turn_env) (m : master) : option master :=
  let delay := if ma_delay m =? 0 then 50 else ma_delay m in
  let m := Master (ma_ps m) (ma_flags m) (ma_live m) delay (ma_sigio m) (ma_noaccept m) (ma_noaccepting m) (ma_restart m) in
  if negb (ma_sigio m =? 0) then
    Some (Master (ma_ps m) (ma_flags m) (ma_live m) delay (ma_sigio m - 1) (ma_noaccept m) (ma_noaccepting m) (ma_restart m))
  else
    let m := Master (ma_ps m) (ma_flags m) (ma_live m) delay (u64 (worker_processes + 2)) (ma_noaccept m) (ma_noaccepting m) (ma_restart m) in
    turn_workers env (if delay >? 1000 then SIGKILL else NTG_TERMINATE_SIGNAL) m.

Definition ntg_execute (name : bytes) (ctx : Z) (ps : procs) : option (Z * option procs * procs) :=
  ntg_spawn_process (kernel ps) cpus ntg_execute_proc ctx name NTG_PROCESS_DETACHED 0 (-1) ps.

(** [ntg_exec_new_binary]; [ready]: its memory, and the file it renames, can be had. *)
Definition ntg_exec_new_binary (ready : bool) (ctx : Z) (ps : procs) : option (Z * procs) :=
  if negb ready then Some (NTG_INVALID_PID, ps)
  else '(pid, _, ps) ← ntg_execute (str "new binary process") ctx ps; Some (pid, ps).

(** Steps 5.8 to 5.12. *)
Definition turn_rest (env : turn_env) (ctx : Z) (m : master) : option master :=
  let f := ma_flags m in
  let live := if ma_restart m then true else ma_live m in
  ps ← (if fl_add f then ntg_start_traffic_processes [kernel (ma_ps m)] cpus NTG_PROCESS_RESPAWN (ma_ps m) else Some (ma_ps m));
  '(new, ps) ← (if fl_change_binary f then ntg_exec_new_binary (te_binary env) ctx ps else Some (fl_new_binary f, ps));
  let f := Flags (fl_reap f) (fl_sigio f) (fl_sigalrm f) (fl_terminate f) (fl_quit f) false false false new in
  let m' := Master ps f live (ma_delay m) (ma_sigio m) false (ma_noaccept m || ma_noaccepting m) false in
  if ma_noaccept m then turn_workers env NTG_SHUTDOWN_SIGNAL m' else Some m'.

(** One turn of [ntg_master_process_cycle]. *)
Definition master_turn (env : turn_env) (ctx : Z) (m : master) : option turn :=
  let m := turn_delay m in
  '(f, ps) ← turn_signals (te_signals env) (ma_flags m) (ma_ps m);
  m ← turn_reap (Master ps f (ma_live m) (ma_delay m) (ma_sigio m) (ma_noaccept m) (ma_noaccepting m) (ma_restart m));
  let f := ma_flags m in
  if negb (ma_live m) && (fl_terminate f || fl_quit f) then Some (Exits (ma_ps m))
  else if fl_terminate f then Continues <$> turn_terminate env m
  else if fl_quit f then Continues <$> turn_workers env NTG_SHUTDOWN_SIGNAL m
  else Continues <$> turn_rest env ctx m.

End turn.

(** ** The trace *)

(** [ps] with more in its trace. *)
Definition emits (out : list action) (ps : procs) : procs :=
  Procs (ps_slots ps) (ps_last ps) (ps_slot ps) (ps_channel ps) (ps_fds ps) (ps_out ps ++ out).

Lemma emits_nil ps : emits [] ps = ps.
Proof. unfold emits. rewrite app_nil_r. by destruct ps. Qed.
Lemma emits_emits o1 o2 ps : emits o2 (emits o1 ps) = emits (o1 ++ o2) ps.
Proof. unfold emits. cbn. by rewrite app_assoc. Qed.
Lemma slot_at_emits i out ps : slot_at i (emits out ps) = slot_at i ps.
Proof. done. Qed.
Lemma put_slot_emits i p out ps : put_slot i p (emits out ps) = emits out (put_slot i p ps).
Proof. done. Qed.
Lemma emits_inv out ps : procs_inv ps -> procs_inv (emits out ps).
Proof. by intros []. Qed.
Lemma put_slot_id i p ps : slot_at i ps = Some p -> put_slot i p ps = ps.
Proof.
  intros H. pose proof (slot_at_range _ _ _ H). unfold slot_at in H. rewrite (proj2 (Z.ltb_ge i 0)) in H by lia.
  unfold put_slot, set_ps_slots. rewrite list_insert_id by done. by destruct ps.
Qed.

(** The ends of the channels of those that are told. *)
Fixpoint targets (to : Z -> ntg_process_t -> bool) (i : Z) (l : list ntg_process_t) : list Z :=
  match l with
  | [] => []
  | p :: l => (if to i p then [fst (pc_channel p)] else []) ++ targets to (i + 1) l
  end.

Lemma tell_loop_spec to n i msg ps :
  0 <= i -> i + Z.of_nat n <= Z.of_nat (length (ps_slots ps)) ->
  tell_loop to n i msg ps =
    Some (emits (map (fun fd => Wrote fd msg) (targets to i (take n (drop (Z.to_nat i) (ps_slots ps))))) ps).
Proof.
  revert i ps. induction n as [|n IH]; intros i ps Hi Hl; cbn [tell_loop].
  - cbn. by rewrite emits_nil.
  - destruct (slot_at_some i ps ltac:(lia)) as [p Hp]. rewrite Hp. cbn [mbind option_bind].
    unfold slot_at in Hp. rewrite (proj2 (Z.ltb_ge i 0)) in Hp by lia.
    rewrite (drop_S _ _ _ Hp). cbn [take targets].
    assert (E : (if to i p then emit (Wrote (fst (pc_channel p)) msg) ps else ps) =
      emits (map (fun fd => Wrote fd msg) (if to i p then [fst (pc_channel p)] else [])) ps).
    { destruct (to i p); [done|]. cbn. by rewrite emits_nil. }
    rewrite E, IH by (cbn; lia). cbn [ps_slots emits]. rewrite emits_emits, <-map_app.
    by replace (Z.to_nat (i + 1)) with (S (Z.to_nat i)) by lia.
Qed.

Lemma targets_spec to i l fd :
  fd ∈ targets to i l <-> exists j p, l !! j = Some p /\ to (i + Z.of_nat j) p = true /\ fd = fst (pc_channel p).
Proof.
  revert i. induction l as [|p l IH]; intros i; cbn [targets].
  - split; [intros H; by apply not_elem_of_nil in H|]. intros (j & q & H & _). done.
  - rewrite elem_of_app, IH. split.
    + intros [H|(j & q & H1 & H2 & H3)].
      * destruct (to i p) eqn:E; [|by apply not_elem_of_nil in H]. apply list_elem_of_singleton in H as ->.
        exists O, p. rewrite Z.add_0_r. done.
      * exists (S j), q. replace (i + Z.of_nat (S j)) with (i + 1 + Z.of_nat j) by lia. done.
    + intros ([|j] & q & H1 & H2 & H3).
      * left. injection H1 as ->. rewrite Z.add_0_r in H2. rewrite H2, H3. by left.
      * right. exists j, q. replace (i + 1 + Z.of_nat j) with (i + Z.of_nat (S j)) by lia. done.
Qed.

(** All slots in use are looked at. *)
Lemma tell_used to msg ps :
  procs_inv ps ->
  tell_loop to (Z.to_nat (ps_last ps)) 0 msg ps = Some (emits (map (fun fd => Wrote fd msg) (targets to 0 (used ps))) ps).
Proof.
  intros [Hlen Hlast _ _]. unfold NTG_MAX_PROCESSES in *. rewrite tell_loop_spec by lia. by rewrite drop_0.
Qed.

Lemma told_used to msg ps a :
  a ∈ map (fun fd => Wrote fd msg) (targets to 0 (used ps)) <->
  exists i p, 0 <= i < ps_last ps /\ slot_at i ps = Some p /\ to i p = true /\ a = Wrote (fst (pc_channel p)) msg.
Proof.
  rewrite list_elem_of_fmap. split.
  - intros (fd & -> & (j & p & H1 & H2 & ->)%targets_spec). unfold used in H1. apply lookup_take_Some in H1 as [H1 Hj].
    exists (Z.of_nat j), p. split; [lia|]. unfold slot_at. rewrite (proj2 (Z.ltb_ge _ 0)) by lia. by rewrite Nat2Z.id.
  - intros (i & p & Hi & Hp & Ht & ->). exists (fst (pc_channel p)). split; [done|]. apply targets_spec.
    exists (Z.to_nat i), p. split; [by apply used_at; [|lia]|]. by replace (0 + Z.of_nat (Z.to_nat i)) with i by lia.
Qed.

(** ** Every process is told to stop *)

(** A process that is to be told: not detached, there, not about to be told by
    the next signal, and not told to quit before. *)
Definition to_tell (signo : Z) (p : ntg_process_t) : bool :=
  negb (pc_detached p) && negb (pc_pid p =? -1) && negb (pc_just_spawn p)
  && negb (pc_exiting p && (signo =? NTG_SHUTDOWN_SIGNAL)).

(** How it is told, and what becomes of its slot. *)
Inductive told (write : sendmsg_result) (kill : kill_result) (signo : Z) (p : ntg_process_t)
  : ntg_process_t -> list action -> bool -> Prop :=
  | told_message : signal_command signo <> 0 -> write = SendOk ->
      told write kill signo p (set_pc_exiting true p)
        [Wrote (fst (pc_channel p)) (MChannel (ChannelMsg (signal_command signo) 0 0 (-1)))] false
  | told_signal : signal_command signo = 0 \/ write <> SendOk -> kill = KillOk ->
      told write kill signo p (set_pc_exiting true p) [Killed (pc_pid p) signo] false
  | told_gone : signal_command signo = 0 \/ write <> SendOk -> kill = KillGone ->
      told write kill signo p (p |> set_pc_exited (pc_status p) true |> set_pc_exiting false) [] true
  | told_not : signal_command signo = 0 \/ write <> SendOk -> kill = KillFails -> told write kill signo p p [] false.

Definition not_told (signo : Z) (p : ntg_process_t) : ntg_process_t :=
  if negb (pc_detached p) && negb (pc_pid p =? -1) && pc_just_spawn p
  then set_pc_modes (pc_respawn p) false (pc_detached p) p else p.

(** One slot: its new contents, what is sent, whether its process is gone. *)
Definition told_slot (write : sendmsg_result) (kill : kill_result) (signo : Z) (p q : ntg_process_t) (out : list action) (gone : bool)
  : Prop :=
  if to_tell signo p then told write kill signo p q out gone else q = not_told signo p /\ out = [] /\ gone = false.

Section stop.
Context (write : Z -> sendmsg_result) (kill : Z -> kill_result) (signo : Z).

Lemma signal_slot_spec i p ps :
  slot_at i ps = Some p ->
  exists q out gone, signal_slot write kill signo i ps = Some (gone, emits out (put_slot i q ps)) /\
    told_slot (write i) (kill i) signo p q out gone.
Proof.
  intros Hp. unfold signal_slot, told_slot, to_tell, not_told. rewrite Hp. cbn [mbind option_bind].
  assert (Hid : forall gone : bool, Some (gone, ps) = Some (gone, emits [] (put_slot i p ps)))
    by (intros; by rewrite put_slot_id, emits_nil).
  destruct (pc_detached p) eqn:Ed; cbn [orb negb andb]; [rewrite Hid; by eexists _, _, _|].
  destruct (pc_pid p =? -1); cbn [orb negb andb]; [rewrite Hid; by eexists _, _, _|].
  destruct (pc_just_spawn p) eqn:Ej; cbn [negb andb].
  { rewrite (modify_slot_at _ _ _ _ Hp). cbn [mbind option_bind]. eexists _, [], _. rewrite emits_nil, Ed. by split. }
  destruct (pc_exiting p && (signo =? NTG_SHUTDOWN_SIGNAL)); cbn [negb]; [rewrite Hid; by eexists _, _, _|].
  unfold signal_process.
  assert (Hk : signal_command signo = 0 \/ write i <> SendOk -> exists q out gone,
    match kill i with
    | KillGone => ps ← modify_slot i (fun p => p |> set_pc_exited (pc_status p) true |> set_pc_exiting false) ps; Some (true, ps)
    | KillFails => Some (false, ps)
    | KillOk => ps ← modify_slot i (set_pc_exiting true) ps; Some (false, emit (Killed (pc_pid p) signo) ps)
    end = Some (gone, emits out (put_slot i q ps)) /\ told (write i) (kill i) signo p q out gone).
  { intros Hn. destruct (kill i) eqn:Ek; rewrite ?(modify_slot_at _ _ _ _ Hp); cbn [mbind option_bind].
    - eexists _, [_], _. split; [reflexivity|by apply told_signal].
    - eexists _, [], _. rewrite emits_nil. split; [reflexivity|by apply told_gone].
    - rewrite Hid. eexists _, [], _. split; [reflexivity|by apply told_not]. }
  destruct (Z.eqb_spec (signal_command signo) 0) as [E0|E0]; cbn [negb andb]; [apply Hk; by left|].
  destruct (write i) eqn:Ew; cbn [andb]; [|apply Hk; by right..].
  rewrite (modify_slot_at _ _ _ _ Hp). cbn [mbind option_bind]. eexists _, [_], _. split; [reflexivity|by apply told_message].
Qed.

Lemma told_slot_same w k p q out gone : told_slot w k signo p q out gone -> same_process p q.
Proof.
  unfold told_slot, not_told. destruct (to_tell signo p); [by intros []|]. intros (-> & _ & _). by destruct (_ && _).
Qed.

(** The table and the trace after the slots from [i] on. *)
Record signalled (i0 : Z) (gone : bool) (out : list action) (ps ps' : procs) : Prop := {
  sl_inv : procs_inv ps';
  sl_same : ps_last ps' = ps_last ps /\ ps_fds ps' = ps_fds ps /\ ps_slot ps' = ps_slot ps /\ ps_out ps' = ps_out ps ++ out;
  sl_before : forall j, j < i0 -> slot_at j ps' = slot_at j ps;
  sl_slots : forall j p, i0 <= j < ps_last ps -> slot_at j ps = Some p ->
    exists q o g, slot_at j ps' = Some q /\ told_slot (write j) (kill j) signo p q o g /\
      (forall a, a ∈ o -> a ∈ out) /\ (g = true -> gone = true);
  sl_out : forall a, a ∈ out -> exists j p q o g, i0 <= j < ps_last ps /\ slot_at j ps = Some p /\
    told_slot (write j) (kill j) signo p q o g /\ a ∈ o;
  sl_gone : gone = true -> exists j p q o, i0 <= j < ps_last ps /\ slot_at j ps = Some p /\
    told_slot (write j) (kill j) signo p q o true }.

Lemma signal_loop_spec n i reap ps :
  procs_inv ps -> 0 <= i -> i + Z.of_nat n = ps_last ps \/ (n = O /\ ps_last ps <= i) ->
  exists gone out ps', signal_loop write kill signo n i reap ps = Some (reap || gone, ps') /\ signalled i gone out ps ps'.
Proof.
  revert i reap ps. induction n as [|n IH]; intros i reap ps I Hi Hn.
  - exists false, [], ps. cbn [signal_loop]. rewrite orb_false_r. split; [done|]. split; try done.
    + by rewrite app_nil_r.
    + lia.
    + intros a Ha. by apply not_elem_of_nil in Ha.
  - cbn [signal_loop]. pose proof I as [Hlen Hlast _ _]. unfold NTG_MAX_PROCESSES in *.
    destruct (slot_at_some i ps ltac:(lia)) as [p Hp]. destruct (signal_slot_spec i p ps Hp) as (q & o & g & E & T).
    rewrite E. cbn [mbind option_bind]. set (ps1 := emits o (put_slot i q ps)).
    assert (I1 : procs_inv ps1) by (apply emits_inv, (put_slot_inv i p); [done|done|by apply told_slot_same with (write i) (kill i) o g]).
    destruct (IH (i + 1) (reap || g) ps1 I1 ltac:(lia)) as (g2 & o2 & ps2 & E2 & [S1 S2 S3 S4 S5 S6]); [cbn; lia|].
    exists (g || g2), (o ++ o2), ps2. rewrite E2, orb_assoc. split; [done|].
    assert (Hq : slot_at i ps1 = Some q) by (subst ps1; rewrite slot_at_emits; by apply slot_at_put with p).
    assert (Hne : forall j, j <> i -> slot_at j ps1 = slot_at j ps) by (intros j Hj; subst ps1; rewrite slot_at_emits; by apply slot_at_put_ne).
    change (ps_last ps1) with (ps_last ps) in *. split.
    + done.
    + destruct S2 as (-> & -> & -> & ->). subst ps1. cbn. by rewrite app_assoc.
    + intros j Hj. rewrite S3 by lia. apply Hne. lia.
    + intros j r Hj Hr. destruct (Z.eq_dec j i) as [->|Hji].
      * rewrite Hp in Hr. injection Hr as <-. exists q, o, g. rewrite S3 by lia. split; [done|]. split; [done|].
        split; [intros a Ha; apply elem_of_app; by left|by intros ->].
      * destruct (S4 j r ltac:(lia)) as (q' & o' & g' & H1 & H2 & H3 & H4); [by rewrite Hne|].
        exists q', o', g'. split; [done|]. split; [done|]. split; [intros a Ha; apply elem_of_app; right; auto|].
        intros Hg. rewrite (H4 Hg). by rewrite orb_true_r.
    + intros a [Ha|Ha]%elem_of_app.
      * exists i, p, q, o, g. split; [lia|done].
      * destruct (S5 a Ha) as (j & r & q' & o' & g' & Hj & Hr & HT & Ho). exists j, r, q', o', g'.
        split; [lia|]. rewrite Hne in Hr by lia. done.
    + intros Hg. destruct g eqn:Eg.
      * exists i, p, q, o. split; [lia|done].
      * destruct (S6 Hg) as (j & r & q' & o' & Hj & Hr & HT). exists j, r, q', o'. split; [lia|]. rewrite Hne in Hr by lia. done.
Qed.

Lemma signal_workers_ok reap ps :
  procs_inv ps ->
  exists gone out ps', ntg_signal_worker_processes write kill signo reap ps = Some (reap || gone, ps') /\ signalled 0 gone out ps ps'.
Proof.
  intros I. pose proof (pi_last _ I). apply signal_loop_spec; [done|lia|]. lia.
Qed.

(** The request to stop reaches every process: each process that is there,
    not detached, not just spawned and, for a quit, not told before gets the
    command over its channel, or the signal when the command cannot be sent,
    and is marked as exiting; one that does not exist any more is marked as
    exited, and the master reaps.  Nothing else is sent to anybody, every other
    slot but for its [just_spawn] is as before, and no descriptor changes. *)
Theorem signal_workers_correct reap ps :
  procs_inv ps ->
  exists gone out ps', ntg_signal_worker_processes write kill signo reap ps = Some (reap || gone, ps') /\ signalled 0 gone out ps ps'.
Proof. apply signal_workers_ok. Qed.

End stop.

(** ** Processes that exit are reaped *)

(** The kernel gives new descriptors and identifiers; a spawn that gets its
    descriptors does not fail later. *)
Class Kernel (kernel : procs -> spawn_env) : Prop := {
  kn_ok : forall ps, kernel_ok (kernel ps) (used ps) (ps_fds ps);
  kn_sound : forall ps, sp_pair (kernel ps) = None \/
    (is_Some (sp_pair (kernel ps)) /\ (forall data, prepared (kernel ps) data = true) /\ is_Some (sp_fork (kernel ps))) }.

(** A process the master waits for. *)
Definition awaited (p : ntg_process_t) : bool :=
  negb (pc_pid p =? -1) && negb (pc_exited p) && (pc_exiting p || negb (pc_detached p)).

(** Every slot in use has a process or is free. *)
Definition all_set (ps : procs) : Prop :=
  forall i p, i < ps_last ps -> slot_at i ps = Some p -> pc_pid p = -1 \/ 0 < pc_pid p.

Section reaping.
Context (kernel : procs -> spawn_env) `{!Kernel kernel} (cpus : Z) (terminate quit : bool).

(** A process that exited is to be spawned again. *)
Definition again (p : ntg_process_t) : bool := pc_respawn p && negb (pc_exiting p) && negb terminate && negb quit.

(** What reaping makes of a slot, in a table that ends at [last]. *)
Inductive reaped (p : ntg_process_t) (last i : Z) (q : ntg_process_t) : Prop :=
  | reaped_free : pc_pid p = -1 -> q = p -> reaped p last i q
  | reaped_running : pc_pid p <> -1 -> pc_exited p = false -> q = p -> i < last -> reaped p last i q
  | reaped_again r : pc_pid p <> -1 -> pc_exited p = true -> again p = true -> i < last -> 0 < fst r ->
      q = spawned (pc_proc p) (pc_data p) (pc_name p) i (pc_type p) r p -> reaped p last i q
  | reaped_later : pc_pid p <> -1 -> pc_exited p = true -> again p = true -> i < last ->
      q = set_pc_channel (-1, -1) p -> reaped p last i q
  | reaped_gone : pc_pid p <> -1 -> pc_exited p = true -> again p = false -> pc_pid q = -1 -> reaped p last i q
  | reaped_last : pc_pid p <> -1 -> pc_exited p = true -> again p = false -> last <= i -> reaped p last i q.

(** The table with the channel of slot [i] closed. *)
Definition closed (i : Z) (p : ntg_process_t) (ps : procs) : procs :=
  set_ps_fds (ps_fds ps ∖ {[fst (pc_channel p)]} ∖ {[snd (pc_channel p)]}) (put_slot i (set_pc_channel (-1, -1) p) ps).

Lemma closed_inv i p ps :
  procs_inv ps -> slot_at i ps = Some p -> i < ps_last ps -> 0 < pc_pid p -> pc_detached p = false -> procs_inv (closed i p ps).
Proof.
  intros [Hlen Hlast Hopen Hinv] Hp Hi Hpid Hd.
  split; cbn [closed put_slot set_ps_slots set_ps_fds ps_slots ps_last ps_fds]; [by rewrite length_insert|done|set_solver|].
  match goal with |- slots_inv ?u ?f => change (slots_inv (used (put_slot i (set_pc_channel (-1, -1) p) ps)) f) end.
  rewrite (used_put_others _ _ _ _ Hp Hi). rewrite (used_others _ _ _ Hp Hi) in Hinv.
  assert (Hl : live p = true) by (by apply Z.ltb_lt).
  assert (Hmode : mode_ok (set_pc_channel (-1, -1) p)) by (split; done).
  assert (Ho : open_ended (set_pc_channel (-1, -1) p) = false) by (unfold open_ended; cbn; by rewrite andb_false_r).
  destruct (open_ended p) eqn:Eo.
  - destruct (slots_inv_leave _ _ _ Hinv Hl Eo) as [H1 H2]. by apply slots_inv_join_closed.
  - destruct (slots_inv_leave_closed _ _ _ Hinv Hl Eo) as [H1 H2]. unfold open_ended in Eo. rewrite Hd in Eo.
    apply negb_false_iff, Z.eqb_eq in Eo. destruct (proj1 (Forall_cons _ _ _) (si_modes _ _ Hinv)) as [[_ Hc] _].
    rewrite Eo, (Hc Hl Eo). assert (Hm : -1 ∉ ps_fds ps) by (intros H%Hopen; lia).
    replace (ps_fds ps ∖ {[-1]} ∖ {[-1]}) with (ps_fds ps) by (apply set_eq; intros x; set_solver).
    by apply slots_inv_join_closed.
Qed.

Lemma reap_close_spec i p st :
  procs_inv (rs_ps st) -> slot_at i (rs_ps st) = Some p -> i < ps_last (rs_ps st) -> 0 < pc_pid p -> pc_detached p = false ->
  exists out, reap_close i p st =
    Some (Reap (emits out (closed i p (rs_ps st))) (ChannelMsg (ch_command (rs_ch st)) (pc_pid p) i (ch_fd (rs_ch st)))
            (rs_live st) (rs_new st) (rs_restart st) (rs_noaccepting st)).
Proof.
  intros I Hp Hi Hpid Hd. unfold reap_close. rewrite Hd.
  rewrite (modify_slot_at _ _ _ p) by exact Hp. cbn [mbind option_bind].
  match goal with |- context [tell_loop _ _ 0 ?m ?x] =>
    change x with (closed i p (rs_ps st)); rewrite (tell_used _ m (closed i p (rs_ps st)) (closed_inv _ _ _ I Hp Hi Hpid Hd)) end.
  cbn [mbind option_bind]. by eexists.
Qed.

(** A spawn that has no processor or gets no descriptors changes nothing but the type. *)
Lemma spawn_refused env proc data name type s ps p :
  slot_at s ps = Some p -> pc_type p = type -> (u64 s >? u64 (cpus - 2) = true) \/ sp_pair env = None ->
  ntg_spawn_process env cpus proc data name s type (-1) ps = Some (NTG_INVALID_PID, None, ps).
Proof.
  intros Hp <- H. pose proof (slot_at_range _ _ _ Hp) as [Hs _]. unfold ntg_spawn_process, choose_slot.
  destruct (Z.geb_spec s 0) as [_|]; [|lia]. cbn [mbind option_bind]. rewrite (proj2 (Z.ltb_ge s 0)) by lia. cbn [andb].
  destruct (u64 s >? u64 (cpus - 2)); [done|]. destruct H as [|H]; [done|].
  rewrite (modify_slot_at _ _ _ _ Hp). cbn [mbind option_bind].
  replace (set_pc_type (pc_type p) p) with p by (by destruct p). rewrite put_slot_id by done.
  unfold NTG_PROCESS_DETACHED. rewrite (proj2 (Z.eqb_neq s (-5))) by lia. cbn [negb]. unfold open_channel. by rewrite H.
Qed.

Lemma reap_respawn_spec i p st :
  procs_inv (rs_ps st) -> slot_at i (rs_ps st) = Some p -> i < ps_last (rs_ps st) -> 0 < pc_pid p -> pc_detached p = false ->
  open_ended p = false ->
  exists st', reap_respawn kernel cpus i p st = Some st' /\
    (st' = st \/ exists r, 0 < fst r /\ procs_inv (rs_ps st') /\ rs_live st' = true /\ ps_last (rs_ps st') = ps_last (rs_ps st) /\
      (forall j, slot_at j (rs_ps st') =
         slot_at j (put_slot i (spawned (pc_proc p) (pc_data p) (pc_name p) i (pc_type p) r p) (rs_ps st)))).
Proof.
  intros I Hp Hi Hpid Hd Ho. set (ps := rs_ps st) in *. pose proof (slot_at_range _ _ _ Hp) as [Hi0 _].
  pose proof I as [Hlen Hlast Hopen Hinv]. unfold reap_respawn. fold ps. set (env := kernel ps).
  assert (Href : (u64 i >? u64 (cpus - 2) = true) \/ sp_pair env = None -> exists st',
    ('(rc, _, ps) ← ntg_spawn_process env cpus (pc_proc p) (pc_data p) (pc_name p) i (pc_type p) (-1) ps;
     if rc =? NTG_INVALID_PID then Some (set_rs_ps ps st)
     else ch ← open_message ps; ps ← ntg_pass_open_channel (MChannel ch) ps;
       Some (Reap ps ch true (rs_new st) (rs_restart st) (rs_noaccepting st))) = Some st' /\ st' = st).
  { intros H. rewrite (spawn_refused env _ _ _ _ _ _ _ Hp eq_refl H). cbn [mbind option_bind]. eexists. split; [reflexivity|].
    by destruct st. }
  destruct (u64 i >? u64 (cpus - 2)) eqn:Ecpu; [destruct Href as (st' & E & ->); [by left|by exists st; split; [|left]]|].
  destruct (kn_sound ps) as [Hn|([c Hc] & Hprep & [pid Hf])]; [destruct Href as (st' & E & ->); [by right|by exists st; split; [|left]]|].
  clear Href. fold env in Hc, Hprep, Hf.
  assert (Hch : choose_slot i (-1) ps = Some i) by (unfold choose_slot; destruct (Z.geb_spec i 0); [done|lia]).
  assert (K : kernel_ok env (others i ps) (ps_fds ps)) by (apply kernel_ok_others, kn_ok).
  assert (Hmax : i < NTG_MAX_PROCESSES) by lia.
  pose proof (spawn_spec env cpus (pc_proc p) (pc_data p) (pc_name p) i (pc_type p) (-1) ps i p Hch Hp Hmax K Hopen) as H.
  assert (Er : spawn_result env cpus (pc_data p) i i = Some (pid, c)).
  { unfold spawn_result. rewrite Ecpu, Hc, Hf. unfold NTG_PROCESS_DETACHED. rewrite (proj2 (Z.eqb_neq i (-5))) by lia.
    cbn. by rewrite Hprep. }
  rewrite Er in H. destruct H as (child & ps' & E & D & _). rewrite E. cbn [mbind option_bind fst].
  destruct (ko_fork _ _ _ (kn_ok ps) pid Hf) as [Hpos _]. unfold NTG_INVALID_PID. rewrite (proj2 (Z.eqb_neq pid (-1))) by lia.
  assert (Hrest : slots_inv (others i ps) (ps_fds ps)).
  { rewrite (used_others _ _ _ Hp Hi) in Hinv. apply (slots_inv_leave_closed p); [done|by apply Z.ltb_lt|done]. }
  assert (I' : procs_inv ps').
  { apply (spawn_done_inv env cpus (pc_proc p) (pc_data p) (pc_name p) i (pc_type p) (-1) ps i p Hch Hp Hmax K Hopen Hlen Hlast Hrest
      ltac:(lia) ltac:(done) _ ps' Er D). by left. }
  assert (Hsl : forall j, slot_at j ps' =
    slot_at j (put_slot i (spawned (pc_proc p) (pc_data p) (pc_name p) i (pc_type p) (pid, c) p) ps)) by (intros j; by rewrite D).
  assert (Ela : ps_last ps' = ps_last ps) by (rewrite D; cbn; rewrite (proj2 (Z.ltb_ge i 0)) by lia; done).
  unfold open_message. assert (Esl : ps_slot ps' = i) by (by rewrite D). rewrite Esl, Hsl.
  rewrite (slot_at_put _ p) by done. cbn [mbind option_bind]. unfold ntg_pass_open_channel. rewrite tell_used by done.
  cbn [mbind option_bind]. eexists. split; [reflexivity|]. right. exists (pid, c). split_and!; try done.
  by apply emits_inv.
Qed.

Lemma reap_forget_spec i p q st :
  procs_inv (rs_ps st) -> slot_at i (rs_ps st) = Some q -> 0 <= i < ps_last (rs_ps st) -> 0 < pc_pid q -> open_ended q = false ->
  exists st', reap_forget i p st = Some st' /\ procs_inv (rs_ps st') /\ rs_live st' = rs_live st /\
    ((i = ps_last (rs_ps st) - 1 /\ ps_last (rs_ps st') = i /\ ps_slots (rs_ps st') = ps_slots (rs_ps st)) \/
     (i <> ps_last (rs_ps st) - 1 /\ ps_last (rs_ps st') = ps_last (rs_ps st) /\
      ps_slots (rs_ps st') = ps_slots (put_slot i (set_pc_pid (-1) q) (rs_ps st)))).
Proof.
  intros I Hq Hi Hpid Ho. unfold reap_forget. set (ps := rs_ps st) in *. pose proof I as [Hlen Hlast Hopen Hinv].
  rewrite (used_others _ _ _ Hq ltac:(lia)) in Hinv.
  destruct (slots_inv_leave_closed _ _ _ Hinv ltac:(by apply Z.ltb_lt) Ho) as [Hrest _].
  destruct (if pc_pid p =? rs_new st then _ else _) as [[new restart] noaccepting].
  destruct (Z.eqb_spec i (ps_last ps - 1)) as [E|E]; cbn [mbind option_bind].
  - eexists. split; [reflexivity|]. split; [|split; [done|left; cbn; split; [done|split; [lia|done]]]].
    split; cbn [set_ps_last rs_ps ps_slots ps_last ps_fds]; [done|lia|done|].
    match goal with |- slots_inv ?u _ => assert (Hu : u = others i ps) end; [|by rewrite Hu].
    unfold others. rewrite (proj2 (Z.ltb_lt i _)) by lia. unfold used at 1. cbn [ps_last ps_slots set_ps_last].
    unfold used. replace (Z.to_nat (ps_last ps)) with (S (Z.to_nat i)) by lia. rewrite delete_take_drop, take_take.
    rewrite drop_ge by (rewrite length_take; lia). rewrite app_nil_r. f_equal. lia.
  - rewrite (modify_slot_at _ _ _ _ Hq). cbn [mbind option_bind]. eexists. split; [reflexivity|].
    split; [|split; [done|right; done]].
    split; cbn [set_ps_slots put_slot rs_ps ps_slots ps_last ps_fds]; [by rewrite length_insert|done|done|].
    match goal with |- slots_inv ?u ?f => change (slots_inv (used (put_slot i (set_pc_pid (-1) q) ps)) f) end.
    rewrite (used_put_others _ _ _ _ Hq ltac:(lia)). apply slots_inv_dead; [done|]. split; [done|].
    by destruct (proj1 (Forall_cons _ _ _) (si_modes _ _ Hinv)) as [[Hm _] _].
Qed.

(** One slot. *)
Record slot_reaped (i : Z) (p : ntg_process_t) (st st' : reap_state) : Prop := {
  sr_inv : procs_inv (rs_ps st');
  sr_others : forall j, j <> i -> slot_at j (rs_ps st') = slot_at j (rs_ps st);
  sr_last : ps_last (rs_ps st') = ps_last (rs_ps st) \/ (ps_last (rs_ps st') = i /\ i = ps_last (rs_ps st) - 1);
  sr_slot : exists q, slot_at i (rs_ps st') = Some q /\ reaped p (ps_last (rs_ps st')) i q /\
    rs_live st' = rs_live st || (awaited q && (i <? ps_last (rs_ps st'))) }.

Lemma slot_at_slots i ps ps' : ps_slots ps' = ps_slots ps -> slot_at i ps' = slot_at i ps.
Proof. unfold slot_at. by intros ->. Qed.

Lemma forgotten i p q st :
  procs_inv (rs_ps st) -> slot_at i (rs_ps st) = Some q -> 0 <= i < ps_last (rs_ps st) -> 0 < pc_pid q -> open_ended q = false ->
  pc_pid p <> -1 -> pc_exited p = true -> again p = false ->
  exists st', reap_forget i p st = Some st' /\ slot_reaped i p st st'.
Proof.
  intros I Hq Hi Hpid Ho H1 H2 H3. destruct (reap_forget_spec i p q st I Hq Hi Hpid Ho) as (st' & E & I' & L & H).
  exists st'. split; [exact E|]. destruct H as [(Ei & El & Es)|(Ei & El & Es)].
  - split; [done|by intros j Hj; apply slot_at_slots|by right|]. exists q. rewrite (slot_at_slots _ _ _ Es), El.
    split; [done|]. split; [by apply reaped_last; [| | |lia]|]. rewrite L. rewrite (proj2 (Z.ltb_ge i i)) by lia.
    by rewrite andb_false_r, orb_false_r.
  - split; [done| |by left|].
    + intros j Hj. rewrite (slot_at_slots _ _ _ Es). apply slot_at_put_ne; lia.
    + exists (set_pc_pid (-1) q). rewrite (slot_at_slots _ _ _ Es). split; [by apply slot_at_put with q|].
      split; [by apply reaped_gone|]. rewrite L. unfold awaited. cbn. by rewrite orb_false_r.
Qed.

Lemma slot_at_closed i p ps j : slot_at i ps = Some p -> slot_at j (closed i p ps) =
  if j =? i then Some (set_pc_channel (-1, -1) p) else slot_at j ps.
Proof.
  intros Hp. change (slot_at j (closed i p ps)) with (slot_at j (put_slot i (set_pc_channel (-1, -1) p) ps)).
  destruct (Z.eqb_spec j i) as [->|]; [by apply slot_at_put with p|].
  apply slot_at_put_ne; [|lia]. apply slot_at_range in Hp. lia.
Qed.

Lemma slot_reaped_trans i p st1 st2 st3 :
  slot_reaped i p st2 st3 -> rs_live st2 = rs_live st1 -> ps_last (rs_ps st2) = ps_last (rs_ps st1) ->
  (forall j, j <> i -> slot_at j (rs_ps st2) = slot_at j (rs_ps st1)) -> slot_reaped i p st1 st3.
Proof.
  intros [I O L S] H1 H2 H3. split; [done| |by rewrite <-H2|by rewrite <-H1].
  intros j Hj. rewrite O, H3 by done. done.
Qed.

Lemma reap_slot_spec i p st :
  procs_inv (rs_ps st) -> slot_at i (rs_ps st) = Some p -> i < ps_last (rs_ps st) -> pc_pid p = -1 \/ 0 < pc_pid p ->
  exists st', reap_slot kernel cpus terminate quit i st = Some st' /\ slot_reaped i p st st'.
Proof.
  intros I Hp Hi Hpid. pose proof (slot_at_range _ _ _ Hp) as [Hi0 _]. unfold reap_slot. rewrite Hp. cbn [mbind option_bind].
  destruct (Z.eqb_spec (pc_pid p) (-1)) as [Ep|Ep].
  { exists st. split; [done|]. split; [done|done|by left|]. exists p. split; [done|]. split; [by apply reaped_free|].
    unfold awaited. rewrite (proj2 (Z.eqb_eq _ _) Ep). cbn. by rewrite orb_false_r. }
  destruct (pc_exited p) eqn:Ex.
  2: { eexists. split; [reflexivity|].
       assert (Ha : awaited p = pc_exiting p || negb (pc_detached p))
         by (unfold awaited; rewrite (proj2 (Z.eqb_neq _ _) Ep), Ex; done).
       assert (Hr : reaped p (ps_last (rs_ps st)) i p) by (apply reaped_running; [done|done|done|lia]).
       rewrite <-Ha. destruct (awaited p) eqn:Ea; split; cbn [rs_ps rs_live]; try done; try (by left); exists p; rewrite Ea;
         rewrite (proj2 (Z.ltb_lt i _)) by lia; by rewrite ?orb_true_r, ?orb_false_r. }
  assert (Hpos : 0 < pc_pid p) by lia. fold (again p). destruct (pc_detached p) eqn:Ed.
  { unfold reap_close. rewrite Ed. cbn [mbind option_bind].
    assert (Hr : pc_respawn p = false).
    { pose proof (pi_slots _ I) as Hinv. rewrite (used_others _ _ _ Hp Hi) in Hinv.
      destruct (proj1 (Forall_cons _ _ _) (si_modes _ _ Hinv)) as [[Hm _] _]. destruct (pc_respawn p); [|done]. by rewrite Hm in Ed. }
    assert (Hag : again p = false) by (unfold again; by rewrite Hr). rewrite Hag.
    apply (forgotten i p p); try done. unfold open_ended. by rewrite Ed. }
  destruct (reap_close_spec i p st I Hp Hi Hpos Ed) as (out & E). rewrite E. cbn [mbind option_bind].
  set (st1 := Reap _ _ _ _ _ _). set (q := set_pc_channel (-1, -1) p).
  assert (I1 : procs_inv (rs_ps st1)) by (by apply emits_inv, closed_inv).
  assert (Hs1 : forall j, slot_at j (rs_ps st1) = if j =? i then Some q else slot_at j (rs_ps st))
    by (intros j; by apply slot_at_closed).
  assert (Hq : slot_at i (rs_ps st1) = Some q) by (rewrite Hs1; by rewrite Z.eqb_refl).
  assert (Hne : forall j, j <> i -> slot_at j (rs_ps st1) = slot_at j (rs_ps st))
    by (intros j Hj; rewrite Hs1; by rewrite (proj2 (Z.eqb_neq j i))).
  assert (Hoq : open_ended q = false) by (unfold open_ended; cbn; by rewrite andb_false_r).
  destruct (again p) eqn:Hag.
  - destruct (reap_respawn_spec i q st1 I1 Hq Hi Hpos Ed Hoq) as (st' & E' & H).
    change (reap_respawn kernel cpus i q st1) with (reap_respawn kernel cpus i p st1) in E'. exists st'. split; [exact E'|].
    destruct H as [->|(r & Hr & I' & L & La & Hs')].
    + apply (slot_reaped_trans i p st st1); try done. split; [done|done|by left|]. exists q. split; [done|].
      split; [by apply reaped_later|]. unfold awaited. cbn. rewrite Ex. rewrite andb_false_r. by rewrite orb_false_r.
    + apply (slot_reaped_trans i p st st1); try done. split; [done| |by left|].
      * intros j Hj. rewrite Hs'. apply slot_at_put_ne; lia.
      * eexists. rewrite Hs', (slot_at_put _ q) by done. split; [reflexivity|].
        assert (Esp : spawned (pc_proc q) (pc_data q) (pc_name q) i (pc_type q) r q =
          spawned (pc_proc p) (pc_data p) (pc_name p) i (pc_type p) r p)
          by (unfold spawned; destruct (Z.geb_spec i 0); [by destruct p|lia]).
        rewrite Esp. split; [apply reaped_again with r; try done; rewrite La; exact Hi|]. rewrite L.
        unfold awaited, spawned. destruct (Z.geb_spec i 0); [|lia]. cbn. rewrite Ed, orb_true_r.
        rewrite (proj2 (Z.eqb_neq (fst r) (-1))) by lia. rewrite La.
        rewrite (proj2 (Z.ltb_lt i _)) by (subst st1; cbn; lia). cbn. by rewrite orb_true_r.
  - destruct (forgotten i p q st1 I1 Hq ltac:(subst st1; cbn in *; lia) Hpos Hoq Ep Ex Hag) as (st' & E' & H).
    exists st'. split; [exact E'|]. by apply (slot_reaped_trans i p st st1).
Qed.

(** All slots from [i] on. *)
Record slots_reaped (i : Z) (st st' : reap_state) : Prop := {
  ra_inv : procs_inv (rs_ps st');
  ra_last : i <= ps_last (rs_ps st') <= ps_last (rs_ps st);
  ra_before : forall j, j < i -> slot_at j (rs_ps st') = slot_at j (rs_ps st);
  ra_slots : forall j p, i <= j < ps_last (rs_ps st) -> slot_at j (rs_ps st) = Some p ->
    exists q, slot_at j (rs_ps st') = Some q /\ reaped p (ps_last (rs_ps st')) j q;
  ra_live : rs_live st' = true <-> rs_live st = true \/
    exists j q, i <= j < ps_last (rs_ps st') /\ slot_at j (rs_ps st') = Some q /\ awaited q = true }.

Lemma reaped_mono p last last' i q : reaped p last i q -> i < last -> i < last' -> reaped p last' i q.
Proof.
  intros [H1 H2|H1 H2 H3 H4|r H1 H2 H3 H4 H5 H6|H1 H2 H3 H4 H5|H1 H2 H3 H4|H1 H2 H3 H4] Hi Hi'.
  - by apply reaped_free.
  - by apply reaped_running.
  - by apply reaped_again with r.
  - by apply reaped_later.
  - by apply reaped_gone.
  - lia.
Qed.

Lemma reap_loop_spec n i st :
  procs_inv (rs_ps st) -> 0 <= i -> i + Z.of_nat n = ps_last (rs_ps st) ->
  (forall j p, i <= j < ps_last (rs_ps st) -> slot_at j (rs_ps st) = Some p -> pc_pid p = -1 \/ 0 < pc_pid p) ->
  exists st', reap_loop kernel cpus terminate quit n i st = Some st' /\ slots_reaped i st st'.
Proof.
  revert i st. induction n as [|n IH]; intros i st I Hi Hn Hset.
  - exists st. split; [done|]. split; [done|lia|done|intros; lia|]. split; [by left|]. intros [?|(j & q & ? & _)]; [done|lia].
  - cbn [reap_loop]. rewrite (proj2 (Z.ltb_lt i _)) by lia. pose proof I as [Hlen Hlast _ _].
    destruct (slot_at_some i (rs_ps st)) as [p Hp]; [unfold NTG_MAX_PROCESSES in *; lia|].
    destruct (reap_slot_spec i p st I Hp ltac:(lia) ltac:(by apply (Hset i); [lia|])) as (st1 & E & [I1 O1 L1 (q & Hq & Rq & V1)]).
    rewrite E. cbn [mbind option_bind]. destruct L1 as [L1|[L1 Ei]].
    + destruct (IH (i + 1) st1 I1 ltac:(lia) ltac:(lia)) as (st2 & E2 & [I2 L2 B2 S2 V2]).
      { intros j p' Hj Hp'. apply (Hset j); [lia|]. by rewrite <-O1 by lia. }
      exists st2. split; [exact E2|]. split; [done|lia| | |].
      * intros j Hj. rewrite B2, O1 by lia. done.
      * intros j p' Hj Hp'. destruct (Z.eq_dec j i) as [->|Hji].
        -- rewrite Hp in Hp'. injection Hp' as <-. exists q. rewrite B2 by lia. split; [done|].
           eapply reaped_mono; [exact Rq|lia|lia].
        -- apply S2; [lia|]. by rewrite O1.
      * rewrite V2, V1. assert (Hil : (i <? ps_last (rs_ps st1)) = true) by (apply Z.ltb_lt; lia). rewrite Hil, andb_true_r, orb_true_iff.
        assert (Hq2 : slot_at i (rs_ps st2) = Some q) by (by rewrite B2 by lia). split.
        -- intros [[H|H]|(j & q' & Hj & H)]; [by left| |]; right; [exists i, q|exists j, q']; (split; [lia|done]).
        -- intros [H|(j & q' & Hj & H & Ha)]; [by left; left|]. destruct (Z.eq_dec j i) as [->|Hji].
           ++ left. right. rewrite Hq2 in H. by injection H as ->.
           ++ right. exists j, q'. split; [lia|done].
    + assert (n = O) as -> by lia. exists st1. split; [done|]. split; [done|lia| | |].
      * intros j Hj. apply O1. lia.
      * intros j p' Hj Hp'. assert (j = i) as -> by lia. rewrite Hp in Hp'. injection Hp' as <-. by exists q.
      * rewrite V1. rewrite (proj2 (Z.ltb_ge i _)) by lia. rewrite andb_false_r, orb_false_r.
        split; [by left|]. intros [?|(j & ? & ? & _)]; [done|lia].
Qed.

Lemma reap_children_ok new restart noaccepting ps :
  procs_inv ps -> all_set ps ->
  exists st', ntg_reap_children kernel cpus terminate quit new restart noaccepting ps = Some st' /\
    procs_inv (rs_ps st') /\ ps_last (rs_ps st') <= ps_last ps /\
    (forall i p, i < ps_last ps -> slot_at i ps = Some p ->
       exists q, slot_at i (rs_ps st') = Some q /\ reaped p (ps_last (rs_ps st')) i q) /\
    (rs_live st' = true <-> exists i q, i < ps_last (rs_ps st') /\ slot_at i (rs_ps st') = Some q /\ awaited q = true).
Proof.
  intros I Hset. pose proof (pi_last _ I) as Hl. unfold ntg_reap_children. set (st := Reap _ _ _ _ _ _).
  destruct (reap_loop_spec (Z.to_nat (ps_last ps)) 0 st I ltac:(lia) ltac:(cbn; lia)) as (st' & E & [I' L B S V]).
  { intros j p Hj. apply Hset. cbn in Hj. lia. }
  exists st'. split; [exact E|]. split; [done|]. split; [cbn in L; lia|]. split.
  - intros i p Hi Hp. apply (S i); [|done]. cbn. apply slot_at_range in Hp. lia.
  - rewrite V. split.
    + intros [H|(j & q & Hj & H)]; [done|]. exists j, q. split; [lia|done].
    + intros (j & q & Hj & H & Ha). right. exists j, q. split; [|done]. apply slot_at_range in H. lia.
Qed.


End reaping.

(** ** The master outlives its children *)

Section master_turns.
Context (kernel : procs -> spawn_env) `{!Kernel kernel} (cpus worker_processes : Z).

(** While the master thinks nobody is alive, it has nobody to wait for. *)
Record master_inv (m : master) : Prop := {
  mi_procs : procs_inv (ma_ps m);
  mi_set : all_set (ma_ps m);
  mi_last : ps_last (ma_ps m) < NTG_MAX_PROCESSES;
  mi_live : ma_live m = false -> forall i p, i < ps_last (ma_ps m) -> slot_at i (ma_ps m) = Some p -> awaited p = false }.

(** The answers of [waitpid] end, and are of children. *)
Definition proper_signals (sigs : list (Z * Z * list wait_result)) : Prop :=
  Forall (fun '(_, _, waits) => exists es, exits waits = Some es /\ Forall (fun e => 0 < fst e) es) sigs.

(** Nobody asks for another traffic process. *)
Definition no_add (sigs : list (Z * Z * list wait_result)) (f : flags) : Prop :=
  fl_add f = false /\ Forall (fun '(signo, _, _) => signo <> NTG_ADD_SIGNAL) sigs.

Lemma exit_mark_awaited e p : awaited (exit_mark e p) = true -> awaited p = true.
Proof.
  unfold exit_mark. destruct (_ =? _); [|done]. unfold awaited. destruct (_ =? 2); cbn; by rewrite andb_false_r.
Qed.

Lemma exit_marks_awaited es p : awaited (fold_left (fun p e => exit_mark e p) es p) = true -> awaited p = true.
Proof. revert p. induction es as [|e es IH]; intros p H; [done|]. by apply exit_mark_awaited with e, IH. Qed.

Lemma exit_marks_same es p : same_process p (fold_left (fun p e => exit_mark e p) es p).
Proof.
  revert p. induction es as [|e es IH]; intros p; [done|]. cbn. destruct (exit_mark_same e p) as [P1 C1 D1 R1].
  destruct (IH (exit_mark e p)) as [P2 C2 D2 R2]. split; [congruence|congruence|congruence|auto].
Qed.

(** A later table: its processes are the earlier ones, awaited only if they were. *)
Record follows (ps ps' : procs) : Prop := {
  fo_inv : procs_inv ps';
  fo_last : ps_last ps' = ps_last ps;
  fo_slots : forall i p, i < ps_last ps -> slot_at i ps = Some p ->
    exists q, slot_at i ps' = Some q /\ pc_pid q = pc_pid p /\ (awaited q = true -> awaited p = true) }.

Lemma follows_refl ps : procs_inv ps -> follows ps ps.
Proof. intros I. split; [done|done|]. intros i p _ Hp. by exists p. Qed.

Lemma follows_trans ps1 ps2 ps3 : follows ps1 ps2 -> follows ps2 ps3 -> follows ps1 ps3.
Proof.
  intros [I2 L2 S2] [I3 L3 S3]. split; [done|congruence|]. intros i p Hi Hp. destruct (S2 i p Hi Hp) as (q & Hq & E2 & A2).
  destruct (S3 i q ltac:(lia) Hq) as (r & Hr & E3 & A3). exists r. split; [done|]. split; [congruence|auto].
Qed.

Lemma marked_follows es ps ps' : marked (fun p => fold_left (fun p e => exit_mark e p) es p) ps ps' -> follows ps ps'.
Proof.
  intros [I (L & _) S]. split; [done|done|]. intros i p Hi Hp. eexists. split; [by apply S|].
  split; [apply exit_marks_same|apply exit_marks_awaited].
Qed.

Lemma told_awaited w k signo p q out gone : told_slot w k signo p q out gone -> awaited q = true -> awaited p = true.
Proof.
  unfold told_slot, to_tell, not_told. destruct (negb (pc_detached p) && _ && _ && _) eqn:E.
  - apply andb_prop in E as [[[H1 H2]%andb_prop _]%andb_prop _]. apply negb_true_iff in H1. intros []; unfold awaited; cbn; rewrite ?H1.
    + by rewrite orb_true_r.
    + by rewrite orb_true_r.
    + by rewrite andb_false_r.
    + done.
  - intros (-> & _ & _). destruct (_ && pc_just_spawn p); intros H; exact H.
Qed.

Lemma signalled_follows w k signo gone out ps ps' : signalled w k signo 0 gone out ps ps' -> follows ps ps'.
Proof.
  intros [I (L & _) _ S _ _]. split; [done|done|]. intros i p Hi Hp.
  destruct (S i p) as (q & o & g & Hq & T & _); [apply slot_at_range in Hp; lia|done|].
  exists q. split; [done|]. split; [apply (told_slot_same _ _ _ _ _ _ _ T)|exact (told_awaited _ _ _ _ _ _ _ T)].
Qed.

Lemma follows_inv ps ps' : procs_inv ps -> all_set ps -> follows ps ps' -> all_set ps'.
Proof.
  intros I Hset [I' L S] i q Hi Hq. pose proof (pi_last _ I). pose proof (pi_length _ I) as Hlen. unfold NTG_MAX_PROCESSES in *.
  pose proof (slot_at_range _ _ _ Hq). destruct (slot_at_some i ps ltac:(lia)) as [p Hp].
  destruct (S i p ltac:(lia) Hp) as (q' & Hq' & E & _). rewrite Hq in Hq'. injection Hq' as <-. rewrite E.
  apply (Hset i); [lia|done].
Qed.

Lemma follows_awaited ps ps' :
  procs_inv ps -> follows ps ps' ->
  (forall i p, i < ps_last ps -> slot_at i ps = Some p -> awaited p = false) ->
  forall i p, i < ps_last ps' -> slot_at i ps' = Some p -> awaited p = false.
Proof.
  intros I [I' L S] H i q Hi Hq. pose proof (pi_last _ I). pose proof (pi_length _ I) as Hlen. unfold NTG_MAX_PROCESSES in *.
  pose proof (slot_at_range _ _ _ Hq). destruct (slot_at_some i ps ltac:(lia)) as [p Hp].
  destruct (S i p ltac:(lia) Hp) as (q' & Hq' & _ & A). rewrite Hq in Hq'. injection Hq' as <-.
  destruct (awaited q); [|done]. pose proof (H i p ltac:(lia) Hp) as E. by rewrite (A eq_refl) in E.
Qed.

Definition stop_requested (f : flags) : bool := fl_terminate f || fl_quit f.

Lemma signal_flags_spec process signo ppid f :
  let f' := signal_flags process signo ppid f in
  (signo <> NTG_ADD_SIGNAL -> fl_add f' = fl_add f) /\ (stop_requested f = true -> stop_requested f' = true) /\
  (fl_reap f = true -> fl_reap f' = true).
Proof.
  unfold signal_flags, stop_requested. destruct f as [reap io alrm term quit reconf add binary new].
  repeat match goal with
  | |- context [if ?b then _ else _] => destruct b eqn:?
  end; cbn; rewrite ?orb_true_r; split_and!; try done; intros H; try done.
  exfalso. apply H. by apply Z.eqb_eq.
Qed.

Lemma turn_signals_ok sigs f ps :
  procs_inv ps -> ps_last ps < NTG_MAX_PROCESSES -> proper_signals sigs -> no_add sigs f ->
  exists f' ps', turn_signals sigs f ps = Some (f', ps') /\ follows ps ps' /\ fl_add f' = false /\
    (stop_requested f = true -> stop_requested f' = true).
Proof.
  revert f ps. induction sigs as [|[[signo ppid] waits] sigs IH]; intros f ps I Hl Hp [Ha Hn].
  - exists f, ps. split; [done|]. split; [by apply follows_refl|done].
  - apply Forall_cons in Hp as [(es & He & Hes) Hp]. apply Forall_cons in Hn as [Hn1 Hn]. cbn [turn_signals].
    destruct (signal_flags_spec NTG_PROCESS_MASTER signo ppid f) as (Hf1 & Hf2 & _).
    set (f1 := signal_flags NTG_PROCESS_MASTER signo ppid f) in *.
    assert (Hh : exists ps1, ntg_signal_handler NTG_PROCESS_MASTER signo ppid waits f ps = Some (f1, ps1) /\ follows ps ps1).
    { unfold ntg_signal_handler. destruct (signo =? SIGCHLD).
      - destruct (get_status_ok waits es ps I Hl He Hes) as (ps1 & E & M). rewrite E. exists ps1. split; [done|].
        by apply marked_follows in M.
      - exists ps. split; [done|]. by apply follows_refl. }
    destruct Hh as (ps1 & E & F1). rewrite E. cbn [mbind option_bind].
    destruct (IH f1 ps1 (fo_inv _ _ F1)) as (f2 & ps2 & E2 & F2 & A2 & S2).
    + by rewrite (fo_last _ _ F1).
    + done.
    + split; [|done]. by rewrite Hf1.
    + exists f2, ps2. split; [done|]. split; [by eapply follows_trans|]. split; [done|auto].
Qed.

(** A new binary, detached, is not awaited. *)
Lemma execute_ok name ctx ps :
  procs_inv ps -> all_set ps ->
  exists pid child ps', ntg_execute kernel cpus name ctx ps = Some (pid, child, ps') /\ procs_inv ps' /\ all_set ps' /\
    ps_last ps' = ps_last ps /\
    ((forall i p, i < ps_last ps -> slot_at i ps = Some p -> awaited p = false) ->
     forall i p, i < ps_last ps' -> slot_at i ps' = Some p -> awaited p = false).
Proof.
  intros I Hset. unfold ntg_execute.
  destruct (spawn_ok (kernel ps) cpus ntg_execute_proc ctx name NTG_PROCESS_DETACHED 0 ps I (kn_ok ps) ltac:(done) ltac:(by right))
    as (s & Hs & _ & H).
  destruct (s =? NTG_MAX_PROCESSES); [by eexists _, _, ps|]. destruct H as (p & Hp & Hdead & H).
  assert (Hcase : forall ps' q, (forall j, j <> s -> slot_at j ps' = slot_at j ps) -> slot_at s ps' = Some q ->
    ps_last ps' = ps_last ps -> (s < ps_last ps -> (pc_pid q = -1 \/ 0 < pc_pid q) /\ awaited q = false) ->
    all_set ps' /\ ((forall i p, i < ps_last ps -> slot_at i ps = Some p -> awaited p = false) ->
     forall i p, i < ps_last ps' -> slot_at i ps' = Some p -> awaited p = false)).
  { intros ps' q Hne Hq La Hw. rewrite La. split.
    - intros i r Hi Hr. destruct (Z.eq_dec i s) as [->|Hn].
      + rewrite Hq in Hr. injection Hr as <-. by apply Hw; rewrite La in Hi.
      + rewrite Hne in Hr by done. apply (Hset i); [by rewrite La in Hi|done].
    - intros Ha i r Hi Hr. destruct (Z.eq_dec i s) as [->|Hn].
      + rewrite Hq in Hr. injection Hr as <-. by apply Hw.
      + rewrite Hne in Hr by done. by apply (Ha i). }
  pose proof (slot_at_range _ _ _ Hp) as [Hs0 _].
  destruct (spawn_result (kernel ps) cpus ctx NTG_PROCESS_DETACHED s) as [r|] eqn:Er.
  - destruct H as (child & ps' & E & D & _ & I'). eexists _, _, ps'. split; [exact E|]. split; [done|].
    assert (La : ps_last ps' = ps_last ps) by (rewrite D; cbn; by rewrite andb_false_r).
    set (q := spawned ntg_execute_proc ctx name NTG_PROCESS_DETACHED 0 r p) in *.
    destruct (Hcase ps' q) as [H1 H2]; [| |done| |done].
    + intros j Hj. rewrite D. apply slot_at_put_ne; lia.
    + rewrite D. by apply slot_at_put with p.
    + intros _. unfold spawn_result in Er. destruct (_ >? _); [done|]. cbn in Er.
      destruct (sp_fork (kernel ps)) as [pid|] eqn:Ef; [|done]. cbn in Er. injection Er as <-.
      destruct (ko_fork _ _ _ (kn_ok ps) pid Ef). split; [by right|]. unfold awaited. cbn. by rewrite andb_false_r.
  - destruct H as (ps' & E & (La & _ & _ & t & c & Es) & I'). eexists _, _, ps'. split; [exact E|]. split; [done|].
    destruct (Hcase ps' (p |> set_pc_type t |> set_pc_channel c)) as [H1 H2]; [| |done| |done].
    + intros j Hj. rewrite (slot_at_slots _ _ _ Es). apply slot_at_put_ne; lia.
    + rewrite (slot_at_slots _ _ _ Es). by apply slot_at_put with p.
    + intros Hl. unfold awaited. cbn. rewrite (Hdead Hl). split; [by left|done].
Qed.

Lemma turn_workers_ok env signo m :
  master_inv m -> exists m', turn_workers env signo m = Some m' /\ master_inv m' /\
    ma_live m' = ma_live m /\ stop_requested (ma_flags m') = stop_requested (ma_flags m).
Proof.
  intros [I Hset Hl Hlive]. unfold turn_workers.
  destruct (signal_workers_ok (te_write env) (te_kill env) signo (fl_reap (ma_flags m)) (ma_ps m) I) as (gone & out & ps' & E & S).
  rewrite E. cbn [mbind option_bind]. eexists. split; [reflexivity|]. apply signalled_follows in S.
  split; [|by destruct m]. split; cbn [set_ma_reap ma_ps ma_live].
  - apply S.
  - by apply (follows_inv (ma_ps m)).
  - by rewrite (fo_last _ _ S).
  - intros Hm. apply (follows_awaited (ma_ps m)); [done|done|by apply Hlive].
Qed.

(** The fields the invariant reads. *)
Lemma master_inv_ext m m' :
  master_inv m -> ma_ps m' = ma_ps m -> (ma_live m' = false -> ma_live m = false) -> master_inv m'.
Proof. intros [I S L A] E H. split; rewrite E; [done|done|done|]. intros Hm. by apply A, H. Qed.

Lemma turn_terminate_ok env m :
  master_inv m -> exists m', turn_terminate worker_processes env m = Some m' /\ master_inv m' /\
    stop_requested (ma_flags m') = stop_requested (ma_flags m).
Proof.
  intros I. unfold turn_terminate. cbn [ma_sigio ma_ps ma_flags ma_live ma_noaccept ma_noaccepting ma_restart].
  destruct (negb (ma_sigio m =? 0)).
  - eexists. split; [reflexivity|]. split; [|done]. by apply (master_inv_ext m).
  - match goal with |- context [turn_workers env ?s ?x] => destruct (turn_workers_ok env s x) as (m' & E & I' & _ & F) end.
    { by apply (master_inv_ext m). }
    exists m'. by split.
Qed.

Lemma turn_rest_ok env ctx m :
  master_inv m -> fl_add (ma_flags m) = false ->
  exists m', turn_rest kernel cpus env ctx m = Some m' /\ master_inv m'.
Proof.
  intros I Ha. unfold turn_rest. rewrite Ha. cbn [mbind option_bind]. pose proof I as [IP Hset Hl Hlive].
  assert (Hb : exists new ps', (if fl_change_binary (ma_flags m) then ntg_exec_new_binary kernel cpus (te_binary env) ctx (ma_ps m)
      else Some (fl_new_binary (ma_flags m), ma_ps m)) = Some (new, ps') /\ procs_inv ps' /\ all_set ps' /\
      ps_last ps' = ps_last (ma_ps m) /\
      ((forall i p, i < ps_last (ma_ps m) -> slot_at i (ma_ps m) = Some p -> awaited p = false) ->
       forall i p, i < ps_last ps' -> slot_at i ps' = Some p -> awaited p = false)).
  { destruct (fl_change_binary (ma_flags m)); [|by eexists _, _]. unfold ntg_exec_new_binary.
    destruct (te_binary env); cbn [negb]; [|by eexists _, _].
    destruct (execute_ok (str "new binary process") ctx (ma_ps m) IP Hset) as (pid & child & ps' & E & H).
    rewrite E. cbn [mbind option_bind]. by eexists _, _. }
  destruct Hb as (new & ps' & E & I' & Hset' & L' & Hw). rewrite E. cbn [mbind option_bind].
  match goal with |- context [turn_workers env _ ?x] => assert (Ix : master_inv x) end.
  { split; cbn [ma_ps ma_live]; [done|done|by rewrite L'|]. intros Hm. apply Hw, Hlive. by destruct (ma_restart m). }
  destruct (ma_noaccept m); [|by eexists].
  match goal with |- context [turn_workers env ?s ?x] => destruct (turn_workers_ok env s x Ix) as (m' & Em & Im & _) end.
  by exists m'.
Qed.

Lemma turn_reap_ok m :
  master_inv m -> exists m', turn_reap kernel cpus m = Some m' /\ master_inv m' /\
    fl_add (ma_flags m') = fl_add (ma_flags m) /\ stop_requested (ma_flags m') = stop_requested (ma_flags m) /\
    (fl_reap (ma_flags m) = true -> stop_requested (ma_flags m) = true ->
     (forall i p, i < ps_last (ma_ps m) -> slot_at i (ma_ps m) = Some p -> awaited p = false) -> ma_live m' = false).
Proof.
  intros I. unfold turn_reap. destruct (fl_reap (ma_flags m)) eqn:Er; [|by exists m].
  pose proof I as [IP Hset Hl Hlive].
  destruct (reap_children_ok kernel cpus (fl_terminate (ma_flags m)) (fl_quit (ma_flags m)) (fl_new_binary (ma_flags m))
    (ma_restart m) (ma_noaccepting m) (ma_ps m) IP Hset) as (st & E & I' & L' & S & V).
  rewrite E. cbn [mbind option_bind]. eexists. split; [reflexivity|].
  assert (Hslot : forall i q, i < ps_last (rs_ps st) -> slot_at i (rs_ps st) = Some q -> exists p, i < ps_last (ma_ps m) /\
    slot_at i (ma_ps m) = Some p /\ reaped (fl_terminate (ma_flags m)) (fl_quit (ma_flags m)) p (ps_last (rs_ps st)) i q).
  { intros i q Hi Hq. pose proof (pi_last _ IP). pose proof (pi_length _ IP) as Hlen. unfold NTG_MAX_PROCESSES in *.
    pose proof (slot_at_range _ _ _ Hq). destruct (slot_at_some i (ma_ps m) ltac:(lia)) as [p Hp].
    destruct (S i p ltac:(lia) Hp) as (q' & Hq' & R). rewrite Hq in Hq'. injection Hq' as <-. exists p. split; [lia|done]. }
  split; [split; cbn [ma_ps ma_live]|split; [done|split; [done|]]].
  - done.
  - intros i q Hi Hq. destruct (Hslot i q Hi Hq) as (p & Hpi & Hp & R).
    destruct R as [H1 ->|H1 H2 ->|r H1 H2 H3 H4 H5 ->|H1 H2 H3 H4 ->|H1 H2 H3 H4|H1 H2 H3 H4]; [by left|exact (Hset i p Hpi Hp)| |exact (Hset i p Hpi Hp)|by left|lia].
    right. unfold spawned. by destruct (i >=? 0); [|unfold spawn_modes; repeat destruct (i =? _)].
  - lia.
  - intros Hm i q Hi Hq. destruct (awaited q) eqn:Ea; [|done]. assert (Ht : rs_live st = true) by (apply V; by exists i, q). congruence.
  - cbn [ma_live]. intros _ Hstop Hno. destruct (rs_live st); [|done]. destruct (proj1 V eq_refl) as (i & q & Hi & Hq & Ea).
    destruct (Hslot i q Hi Hq) as (p & Hpi & Hp & R). rewrite <-Ea. unfold stop_requested in Hstop.
    assert (Hag : again (fl_terminate (ma_flags m)) (fl_quit (ma_flags m)) p = false)
      by (unfold again; destruct (fl_terminate (ma_flags m)), (fl_quit (ma_flags m)); cbn in *; rewrite ?andb_false_r; done).
    destruct R as [H1 ->|H1 H2 ->|r H1 H2 H3|H1 H2 H3|H1 H2 H3 H4|H1 H2 H3 H4]; [exact (Hno i p Hpi Hp)|exact (Hno i p Hpi Hp)|congruence|congruence| |lia].
    unfold awaited. by rewrite H4.
Qed.

(** What a turn does before it decides. *)
Lemma turn_reaches env m :
  master_inv m -> proper_signals (te_signals env) -> no_add (te_signals env) (ma_flags m) ->
  exists f ps m', let m1 := turn_delay m in
    turn_signals (te_signals env) (ma_flags m1) (ma_ps m1) = Some (f, ps) /\
    turn_reap kernel cpus (Master ps f (ma_live m1) (ma_delay m1) (ma_sigio m1) (ma_noaccept m1) (ma_noaccepting m1) (ma_restart m1)) =
      Some m' /\
    master_inv m' /\ fl_add (ma_flags m') = false /\ (stop_requested (ma_flags m) = true -> stop_requested (ma_flags m') = true) /\
    (fl_reap f = true -> stop_requested f = true ->
     (forall i p, i < ps_last ps -> slot_at i ps = Some p -> awaited p = false) -> ma_live m' = false).
Proof.
  intros I Hp Hn. set (m1 := turn_delay m).
  assert (Hd : ma_ps m1 = ma_ps m /\ ma_live m1 = ma_live m /\ fl_add (ma_flags m1) = fl_add (ma_flags m) /\
    stop_requested (ma_flags m1) = stop_requested (ma_flags m)) by (subst m1; unfold turn_delay; by destruct (_ && _)).
  destruct Hd as (D1 & D2 & D3 & D4). pose proof I as [IP Hset Hl Hlive].
  destruct (turn_signals_ok (te_signals env) (ma_flags m1) (ma_ps m1)) as (f & ps & E & F & A & St).
  - by rewrite D1.
  - by rewrite D1.
  - done.
  - split; [by rewrite D3; apply Hn|apply Hn].
  - set (m2 := Master ps f (ma_live m1) (ma_delay m1) (ma_sigio m1) (ma_noaccept m1) (ma_noaccepting m1) (ma_restart m1)).
    rewrite D1 in F. assert (I2 : master_inv m2).
    { split; cbn [m2 ma_ps ma_live]; [apply F|by apply (follows_inv (ma_ps m))|by rewrite (fo_last _ _ F)|].
      rewrite D2. intros Hm. apply (follows_awaited (ma_ps m)); [done|done|by apply Hlive]. }
    destruct (turn_reap_ok m2 I2) as (m' & E' & I' & A' & St' & L'). exists f, ps, m'. split; [exact E|]. split; [exact E'|].
    split; [done|]. split; [by rewrite A'|]. split; [|exact L']. intros H. rewrite St'. apply St. by rewrite D4.
Qed.


Lemma exit_marks_exited es p status :
  (pc_pid p, status) ∈ es -> pc_exited (fold_left (fun p e => exit_mark e p) es p) = true.
Proof.
  assert (Hk : forall es p, pc_exited p = true -> pc_exited (fold_left (fun p e => exit_mark e p) es p) = true).
  { clear. induction es as [|e es IH]; intros p H; [done|]. apply IH. unfold exit_mark. destruct (_ =? _); [|done]. by destruct (_ =? 2). }
  revert p. induction es as [|e es IH]; intros p H; [by apply not_elem_of_nil in H|].
  apply elem_of_cons in H as [<-|H]; cbn [fold_left].
  - apply Hk. unfold exit_mark. cbn. rewrite Z.eqb_refl. by destruct (_ =? 2).
  - apply IH. rewrite (sp_pid _ _ (exit_mark_same e p)). done.
Qed.


End master_turns.

(** ** Examples *)

(** A kernel that gives the next numbers. *)
Definition highest (l : list Z) : Z := fold_right Z.max 0 l.

Definition next_kernel (ps : procs) : spawn_env :=
  spawn_works (highest (elements (ps_fds ps)) + 1) (highest (pids (used ps)) + 1).

Lemma highest_pos l : 0 <= highest l.
Proof. induction l as [|x l IH]; cbn [highest fold_right]; [lia|]. fold (highest l). lia. Qed.
Lemma highest_in l x : x ∈ l -> x <= highest l.
Proof.
  induction 1 as [x l|x y l _ IH]; cbn [highest fold_right]; fold (highest l); pose proof (highest_pos l); lia.
Qed.

#[export] Instance next_kernel_ok : Kernel next_kernel.
Proof.
  split; [|intros ps; right; split; [by eexists|split; [|by eexists]]; intros data; unfold prepared; cbn; by rewrite orb_true_r].
  intros ps. split.
  - intros a b [= <- <-]. pose proof (highest_pos (elements (ps_fds ps))) as Hh.
    assert (Hf : forall fd, fd ∈ ps_fds ps -> fd <= highest (elements (ps_fds ps)))
      by (intros fd H; apply highest_in; by apply elem_of_elements).
    split_and!; try lia; intros H; apply Hf in H; lia.
  - intros pid [= <-]. pose proof (highest_pos (pids (used ps))). split; [lia|]. intros Hi%highest_in. lia.
Qed.

Definition no_flags : flags := Flags false false false false false false false false 0.
Definition quit_flags : flags := Flags false false false false true false false false 0.

(** The process of the users in slot 0, and two traffic processes. *)
Definition example_started : procs :=
  default initial_procs
    (ps ← ntg_start_virtual_process (next_kernel initial_procs) 8 0 NTG_PROCESS_RESPAWN initial_procs;
     ps ← ntg_start_traffic_processes [next_kernel ps] 8 NTG_PROCESS_RESPAWN ps;
     ntg_start_traffic_processes [next_kernel ps] 8 NTG_PROCESS_RESPAWN ps).

Definition example_master (f : flags) (ps : procs) : master := Master ps f true 0 0 false false false.

Example example_started_slots :
  map (fun p => (pc_pid p, pc_type p, pc_channel p)) (used example_started) =
    [(1, 1, (1, 2)); (2, 2, (3, 4)); (3, 2, (5, 6))] /\ ps_fds example_started = {[1; 2; 3; 4; 5; 6]}.
Proof. vm_compute. done. Qed.

Lemma example_last : ps_last example_started = 3.
Proof. vm_compute. reflexivity. Qed.

Lemma example_started_inv : procs_inv example_started.
Proof.
  destruct example_started_slots as [_ Ef]. split.
  - vm_compute. reflexivity.
  - vm_compute. split; discriminate.
  - rewrite Ef. intros fd. rewrite !elem_of_union, !elem_of_singleton. lia.
  - split.
    + rewrite Ef. vm_compute. reflexivity.
    + apply (bool_decide_unpack _). vm_compute. exact I.
    + apply (bool_decide_unpack _). vm_compute. exact I.
    + set (l := used example_started). vm_compute in l. subst l. repeat constructor; done.
Qed.

Lemma example_started_set : all_set example_started.
Proof.
  intros i p Hi Hp. right. apply used_at in Hp; [|done]. set (l := used example_started) in *. vm_compute in l. subst l.
  destruct (Z.to_nat i) as [|[|[|n]]]; cbn in Hp; [by injection Hp as <-..|done].
Qed.

Lemma example_master_inv f : master_inv (example_master f example_started).
Proof. split; [exact example_started_inv|exact example_started_set|vm_compute; reflexivity|done]. Qed.

(** Processes 2 and 3, in slots 1 and 2, have exited. *)
Definition example_exited : procs := default initial_procs (ntg_process_get_status [WaitExited 2 0; WaitExited 3 0; WaitNone] example_started).

Lemma signal_workers_correct_witness :
  exists out ps', ntg_signal_worker_processes (fun i => if i =? 0 then SendOk else SendAgain) (fun _ => KillOk) NTG_SHUTDOWN_SIGNAL
      false example_started = Some (false, ps') /\ ps_out ps' = ps_out example_started ++ out /\
    Wrote 1 (MChannel (ChannelMsg NTG_CMD_QUIT 0 0 (-1))) ∈ out /\ Killed 3 NTG_SHUTDOWN_SIGNAL ∈ out.
Proof.
  destruct (signal_workers_correct (fun i => if i =? 0 then SendOk else SendAgain) (fun _ => KillOk) NTG_SHUTDOWN_SIGNAL
    false example_started example_started_inv) as (gone & out & ps' & E & [_ (_ & _ & _ & So) _ S _ _]).
  assert (Eg : gone = false) by (vm_compute in E; by injection E as <- _). subst gone.
  exists out, ps'. split; [exact E|]. split; [exact So|]. split.
  - destruct (slot_at 0 example_started) as [p|] eqn:Hp; [|vm_compute in Hp; discriminate].
    destruct (S 0 p ltac:(rewrite example_last; lia) Hp) as (q & o & g & _ & T & Ho & _). apply Ho. vm_compute in Hp. injection Hp as <-.
    clear -T. unfold told_slot in T. cbn in T. inversion T as [| [|] | [|] | [|] ]; subst; [by left|done..].
  - destruct (slot_at 2 example_started) as [p|] eqn:Hp; [|vm_compute in Hp; discriminate].
    destruct (S 2 p ltac:(rewrite example_last; lia) Hp) as (q & o & g & _ & T & Ho & _). apply Ho. vm_compute in Hp. injection Hp as <-.
    clear -T. unfold told_slot in T. cbn in T. inversion T; subst; [done|by left|done|done].
Defined.

Lemma example_exited_inv : procs_inv example_exited /\ all_set example_exited.
Proof.
  destruct (get_status_ok [WaitExited 2 0; WaitExited 3 0; WaitNone] [(2, 0); (3, 0)] example_started) as (ps' & E & M).
  - apply example_started_inv.
  - vm_compute. reflexivity.
  - reflexivity.
  - repeat constructor.
  - assert (H : example_exited = ps') by (unfold example_exited; by rewrite E). rewrite H. split; [apply M|].
    exact (follows_inv _ _ example_started_inv example_started_set (marked_follows _ _ _ M)).
Qed.




(** What the code does not handle. *)

(** Two processes exit before the master reaps, and the first is spawned again:
    the message that closes the channel of the second has the command of an
    opening, with the descriptor of the first. *)
(** [ps] with an empty trace. *)
Definition untraced (ps : procs) : procs := Procs (ps_slots ps) (ps_last ps) (ps_slot ps) (ps_channel ps) (ps_fds ps) [].

(** Two processes exit before the master reaps, and the first is spawned again:
    the message that closes the channel of the second has the command of an
    opening, with the descriptor of the first. *)
Lemma close_sent_as_open :
  (fun st => take 5 (ps_out (rs_ps st))) <$> ntg_reap_children next_kernel 8 false false 0 false false (untraced example_exited) =
  Some [Wrote 1 (MChannel (ChannelMsg NTG_CMD_CLOSE_CHANNEL 2 1 (-1)));
        Wrote 1 (MChannel (ChannelMsg NTG_CMD_OPEN_CHANNEL 4 1 7)); Wrote 5 (MChannel (ChannelMsg NTG_CMD_OPEN_CHANNEL 4 1 7));
        Wrote 1 (MChannel (ChannelMsg NTG_CMD_OPEN_CHANNEL 3 2 7)); Wrote 7 (MChannel (ChannelMsg NTG_CMD_OPEN_CHANNEL 3 2 7))].
Proof. vm_compute. reflexivity. Qed.

(** A process that cannot be spawned again when [fork] fails keeps the numbers of
    its closed descriptors; a process that gets them next loses them when the
    master reaps again. *)
Definition fork_fails (a : Z) (ps : procs) : spawn_env := SpawnEnv (Some (a, a + 1)) true true true true true true None.

Lemma closed_twice :
  (st ← ntg_reap_children (fork_fails 7) 8 false false 0 false false example_exited;
   ps ← ntg_start_traffic_processes [spawn_works 7 4] 8 NTG_PROCESS_RESPAWN (rs_ps st);
   st ← ntg_reap_children (fork_fails 9) 8 false false 0 false false ps;
   p ← slot_at 3 (rs_ps st);
   Some (pc_pid p, pc_channel p, bool_decide (7 ∈ ps_fds ps), bool_decide (7 ∈ ps_fds (rs_ps st)))) =
  Some (4, (7, 8), true, false).
Proof. vm_compute. reflexivity. Qed.

(** When the process of the users cannot be spawned its slot has identifier 0: the
    signal to stop goes to the whole group of processes, the master included. *)
Lemma nobody_is_killed :
  (ps ← ntg_start_virtual_process (SpawnEnv None true true true true true true None) 8 0 NTG_PROCESS_RESPAWN initial_procs;
   '(_, ps) ← ntg_signal_worker_processes (fun _ => SendFails) (fun _ => KillOk) NTG_TERMINATE_SIGNAL false (untraced ps);
   Some (ps_out ps)) = Some [Killed 0 NTG_TERMINATE_SIGNAL].
Proof. vm_compute. reflexivity. Qed.

(** A traffic process that cannot be spawned is announced all the same, with what
    the last one spawned had. *)
Lemma failure_announced :
  ps_out <$> ntg_start_traffic_processes [SpawnEnv None true true true true true true None] 8 NTG_PROCESS_RESPAWN (untraced example_started) =
  Some [Wrote 1 (MChannel (ChannelMsg NTG_CMD_OPEN_CHANNEL 3 2 5)); Wrote 3 (MChannel (ChannelMsg NTG_CMD_OPEN_CHANNEL 3 2 5))].
Proof. vm_compute. reflexivity. Qed.

(** A traffic process that is added when all others are gone does not count as
    alive: told to quit, the master exits without telling it. *)
Definition signals (sigs : list (Z * Z * list wait_result)) : turn_env := TurnEnv sigs (fun _ => SendOk) (fun _ => KillOk) true.

Definition turns (sigs : list (list (Z * Z * list wait_result))) (m : master) : option turn :=
  foldl (fun t s => match t with Some (Continues m) => master_turn next_kernel 8 2 (signals s) 0 m | _ => t end)
    (Some (Continues m)) sigs.

Lemma added_is_orphaned :
  (t ← turns [[(SIGCHLD, 1, [WaitExited 1 512; WaitExited 2 512; WaitExited 3 512; WaitNone])];
              [(NTG_ADD_SIGNAL, 1, [])]; [(NTG_SHUTDOWN_SIGNAL, 1, [])]] (example_master no_flags example_started);
   match t with
   | Exits ps => p ← slot_at 1 ps; Some (ps_last ps, pc_pid p, awaited p)
   | Continues _ => None
   end) = Some (2, 1, true).
Proof. vm_compute. reflexivity. Qed.
