(* ===== verification/Dispatch.v ===== *)
(** * Dispatching the messages (ntg_channel_handler of src/utils/ntg_process_cycle.c)

    Every process reads its channel until it is empty and hands each message to
    the part it is for: the table of processes, the manager of the users, the
    waiting connections, the balancer, the records.  The last sections put the
    parts together: a request of the front end gets the answer its simulation
    deserves, and the process of the users knows the processes the master has. *)

From Stdlib Require Import SpecFloat.
From S2P Require Import Prelude NtgString Record Balance Table UserGroup UserManage UserSim UserControl Channel Remote Process Master.

(** ** The state of a process *)

(** What [cycle] and the globals hold for the handler: the table of processes, the
    flags, the manager, its balancer with the method ([true]: the dynamic one) and
    the variables of the polling method, the connections, the records. *)
Record worker := Worker {
  wk_ps : procs;
  wk_quit : bool;
  wk_terminate : bool;
  wk_add_request : bool;
  wk_manage : manage;
  wk_blc : balance;
  wk_dynamic : bool;
  wk_current : Z;
  wk_count : Z;
  wk_remote : ntg_remote;
  wk_records : ntg_record_manage }.

Definition set_wk_ps v w := Worker v (wk_quit w) (wk_terminate w) (wk_add_request w) (wk_manage w) (wk_blc w) (wk_dynamic w)
  (wk_current w) (wk_count w) (wk_remote w) (wk_records w).
Definition set_wk_flags q t a w := Worker (wk_ps w) q t a (wk_manage w) (wk_blc w) (wk_dynamic w)
  (wk_current w) (wk_count w) (wk_remote w) (wk_records w).
Definition set_wk_manage v w := Worker (wk_ps w) (wk_quit w) (wk_terminate w) (wk_add_request w) v (wk_blc w) (wk_dynamic w)
  (wk_current w) (wk_count w) (wk_remote w) (wk_records w).
Definition set_wk_blc blc current count w := Worker (wk_ps w) (wk_quit w) (wk_terminate w) (wk_add_request w) (wk_manage w) blc
  (wk_dynamic w) current count (wk_remote w) (wk_records w).
Definition set_wk_remote v w := Worker (wk_ps w) (wk_quit w) (wk_terminate w) (wk_add_request w) (wk_manage w) (wk_blc w)
  (wk_dynamic w) (wk_current w) (wk_count w) v (wk_records w).
Definition set_wk_records v w := Worker (wk_ps w) (wk_quit w) (wk_terminate w) (wk_add_request w) (wk_manage w) (wk_blc w)
  (wk_dynamic w) (wk_current w) (wk_count w) (wk_remote w) v.

(** What a message makes the process do: a result written to its end of the
    channel, a request that is begun, a message passed on to a slot. *)
Inductive effect :=
  | Replied (fd : Z) (d : datagram)
  | Begun (csm_id gp_id user_id : Z)
  | Forwarded (slot : Z).

(** What a message meets: the resources of a simulation, the outcomes of the
    writes of its result and the memory the result is built in, the outcomes of
    the writes of the balancer. *)
Record message_env := MessageEnv {
  me_sim : sim_env;
  me_replies : list Z;
  me_junk : memory;
  me_channels : list Z }.

(** ** The messages *)

Definition handle_channel (ch : channel_message) (w : worker) : option worker :=
  let ps := wk_ps w in
  if ch_command ch =? NTG_CMD_QUIT then Some (set_wk_flags true (wk_terminate w) (wk_add_request w) w)
  else if ch_command ch =? NTG_CMD_TERMINATE then Some (set_wk_flags (wk_quit w) true (wk_add_request w) w)
  else if ch_command ch =? NTG_CMD_OPEN_CHANNEL then
    ps ← modify_slot (ch_slot ch) (fun p => p |> set_pc_pid (ch_pid ch) |> set_pc_channel (ch_fd ch, snd (pc_channel p))) ps;
    let ps := set_ps_fds ({[ch_fd ch]} ∪ ps_fds ps) ps in
    own ← slot_at (ps_slot ps) ps;
    if (pc_type own =? NTG_VIRTUAL_PROCESS) && (ch_slot ch >=? ntg_start_process) then
      let last := s64 (ps_last ps + 1) in
      let blc := wk_blc w in
      Some (set_wk_blc (Balance (min_reqs blc) (cur_slot blc) (blc_count blc) (u64 (last - ntg_start_process)))
              (wk_current w) (wk_count w) (set_wk_ps (set_ps_last last ps) w))
    else Some (set_wk_ps ps w)
  else if ch_command ch =? NTG_CMD_CLOSE_CHANNEL then
    p ← slot_at (ch_slot ch) ps;
    ps ← modify_slot (ch_slot ch) (fun p => set_pc_channel (-1, snd (pc_channel p)) p) (close_fd (fst (pc_channel p)) ps);
    Some (set_wk_ps ps w)
  else Some w.

(** A simulation or control message: its result goes to the process's end of
    its own channel. *)
Definition handle_user (env : message_env) (msg : user_message) (w : worker) : option (worker * list effect) :=
  '(ret, reply, m) ← ntg_user_message_handler (me_sim env) (me_replies env) msg (wk_manage w);
  p ← slot_at (ps_slot (wk_ps w)) (wk_ps w);
  let out := match reply with
             | Some (csm_id, status) =>
                 let result := MResult csm_id status in
                 match ntg_write_channel (put_message result (me_junk env)) (sent_cells result)
                         (if ret =? NTG_OK then SendOk else SendFails) with
                 | (_, Some d) => [Replied (snd (pc_channel p)) d]
                 | (_, None) => []
                 end
             | None => []
             end in
  Some (set_wk_manage m w, out).

(** The balancer works on the same slots. *)
Definition blc_view (p : ntg_process_t) : ntg_process :=
  Process (pc_pid p) (pc_type p) (pc_reqs p) (pc_just_spawn p) (pc_detached p) (pc_exiting p) (pc_exited p).
Definition blc_update (p : ntg_process_t) (b : ntg_process) : ntg_process_t :=
  ProcessT (pc_pid p) (pc_type p) (pc_status p) (pc_channel p) (pc_proc p) (pc_data p) (pc_name p) (p_reqs b) (pc_respawn p)
    (p_just_spawn b) (pc_detached p) (p_exiting b) (pc_exited p).

Definition handle_feedback (env : message_env) (proc_slot reqs : Z) (w : worker) : option (worker * list effect) :=
  let ps := wk_ps w in
  let pros := map blc_view (ps_slots ps) in
  let back pros := set_wk_ps (set_ps_slots (zip_with blc_update (ps_slots ps) pros) ps) w in
  if wk_dynamic w then
    '(_, _, st) ← ntg_user_balance_dynamic ntg_start_process (ps_last ps) (MsgFeedback proc_slot reqs)
                    (BState (wk_blc w) pros (me_channels env));
    Some (set_wk_blc (b_blc st) (wk_current w) (wk_count w) (back (b_pros st)), [])
  else
    '(_, sent, st) ← ntg_user_balance_polling ntg_start_process (ps_last ps)
                       (PState (wk_current w) pros (wk_count w) (me_channels env));
    Some (set_wk_blc (wk_blc w) (p_current st) (p_count st) (back (p_pros st)),
          match sent with Some i => [Forwarded i] | None => [] end).

(** A record: when there is no room, some of the oldest are dropped.  The record
    that is got is not used. *)
Definition handle_record (w : worker) : worker :=
  let '(rd, mg) := ntg_get_record (wk_records w) in
  match rd with
  | Some _ => set_wk_records mg w
  | None =>
      let mg := RecordManage (records mg) (record_n mg) (u32 (dequeue_count mg + Z.shiftr (record_n mg) 8)) (enqueue_count mg) in
      set_wk_records (snd (ntg_get_record mg)) w
  end.

(** The switch on the type of the message in [mem]. *)
Definition handle_message (env : message_env) (mem : memory) (w : worker) : option (worker * list effect) :=
  match at_message mem with
  | Some (MChannel ch) => w ← handle_channel ch w; Some (w, [])
  | Some (MSimulation sm) => handle_user env (SimulationMessage sm) w
  | Some (MControl csm_id gp_id type) => handle_user env (ControlMessage csm_id gp_id type) w
  | Some (MResult csm_id status) =>
      '(_, r) ← ntg_remote_result_handler csm_id status (wk_remote w); Some (set_wk_remote r w, [])
  | Some (MRequest csm_id gp_id user_id) =>
      Some (set_wk_flags (wk_quit w) (wk_terminate w) true w, [Begun csm_id gp_id user_id])
  | Some (MFeedback proc_slot reqs) => handle_feedback env proc_slot reqs w
  | Some (MRecord _) => Some (handle_record w, [])
  | None => Some (w, [])
  end.

(** What one read gives: the message, the control data on the stack when none
    was received, the number of a descriptor, and what the message meets. *)
Record channel_input := ChannelInput {
  ci_received : recvmsg_result;
  ci_control : control_data;
  ci_fd : Z;
  ci_env : message_env }.

(** The loop of [ntg_channel_handler]; it ends when the channel is empty or fails. *)
Fixpoint channel_loop (ins : list channel_input) (mem : memory) (w : worker) : option (worker * list effect) :=
  match ins with
  | [] => None
  | i :: ins =>
      let '(n, mem) := ntg_read_channel mem message_cells (ci_received i) (ci_control i) (ci_fd i) in
      if (n =? NTG_ERROR) || (n =? NTG_AGAIN) then Some (w, [])
      else
        '(w, out) ← handle_message (ci_env i) mem w;
        '(w, out') ← channel_loop ins mem w;
        Some (w, out ++ out')
  end.

(** [ntg_channel_handler]; the memory of the message is cleared once. *)
Definition ntg_channel_handler (ins : list channel_input) (w : worker) : option (worker * list effect) :=
  channel_loop ins zero_message w.

(** ** One message *)

(** The channel is empty after the datagram [d]. *)
Definition one_message (d : datagram) (fd : Z) (env : message_env) (control : control_data) : list channel_input :=
  [ChannelInput (Received d) control fd env; ChannelInput RecvAgain control fd env].

(** A message that arrives is handled, and the handler returns. *)
Lemma one_message_handled fd msg junk control env w w' out :
  length junk = message_cells -> -2147483648 <= fd < 2147483648 -> valid_message msg ->
  (forall mem, at_message mem = Some (arrived fd msg) -> handle_message env mem w = Some (w', out)) ->
  exists d, ntg_write_channel (put_message msg junk) (sent_cells msg) SendOk = (NTG_OK, Some d) /\
    ntg_channel_handler (one_message d fd env control) w = Some (w', out).
Proof.
  intros Hj Hfd Hv Hh.
  destruct (message_arrives fd msg junk zero_message control Hj eq_refl Hfd Hv) as (d & n & mem & E1 & E2 & Hn & _ & Hm).
  { by destruct msg. }
  exists d. split; [exact E1|]. unfold ntg_channel_handler, one_message, channel_loop. cbn [ci_received ci_control ci_fd ci_env].
  rewrite E2. unfold NTG_ERROR, NTG_AGAIN. rewrite (proj2 (Z.eqb_neq n (-1))), (proj2 (Z.eqb_neq n (-2))) by lia. cbn [orb].
  rewrite (Hh mem Hm). cbn. by rewrite app_nil_r.
Qed.

(** ** The front end is answered *)

Section front_end.
Context (parse : bytes -> option cJSON).

(** The answer a simulation deserves. *)
Definition deserved (env : sim_env) (sm : simulation_message) : Z :=
  if playable env sm then NTG_REMOTE_SUCCESS else NTG_REMOTE_END_ERROR.

(** The process of the users turns the message into a result for its consumer. *)
Lemma user_turn env control d0 id sm g w p free gs M n cfree ts :
  manage_inv (wk_manage w) free gs M n cfree ts -> sim_valid sm free -> timer_works (me_sim env) (wk_manage w) ->
  se_calloc (me_sim env) = Some g -> groups (mg_us (wk_manage w)) !! g = None -> is_s64 (mg_task_n (wk_manage w) + 1) ->
  slot_free (wk_manage w) M n cfree sm -> write_result (me_replies env) = Some NTG_OK -> length (me_junk env) = message_cells ->
  slot_at (ps_slot (wk_ps w)) (wk_ps w) = Some p -> valid_message (MSimulation sm) -> sm_csm_id sm = u64 id -> is_s64 id ->
  ntg_write_channel (put_message (MSimulation sm) zero_message) (sent_cells (MSimulation sm)) SendOk = (NTG_OK, Some d0) ->
  let status := if playable (me_sim env) sm then NTG_RST_SUCCESS else NTG_RST_FAILED in
  exists w' d, ntg_channel_handler (one_message d0 0 env control) w = Some (w', [Replied (snd (pc_channel p)) d]) /\
    ntg_write_channel (put_message (MResult id status) (me_junk env)) (sent_cells (MResult id status)) SendOk = (NTG_OK, Some d) /\
    wk_ps w' = wk_ps w /\
    exists c n' cfree', let M' := <[u64 id := c]> M in
      if playable (me_sim env) sm
      then manage_inv (wk_manage w') (drop (Z.to_nat (sm_user_n sm)) free)
             (<[g := (rev (take (Z.to_nat (sm_user_n sm)) free), [])]> gs) M' n' cfree' (g :: ts)
      else manage_inv (wk_manage w') free gs M' n' cfree' ts.
Proof.
  intros I V T Hg Hgg Hlim Hs Hret Hj Hp Hv Hid Hs64 Hd0 status.
  destruct (simulation_ok (me_sim env) sm g (wk_manage w) free gs M n cfree ts I V T Hg Hgg Hlim Hs)
    as (rc & m' & c & n' & cfree' & E & H).
  assert (Eid : s64 (sm_csm_id sm) = id) by (rewrite Hid; mlia).
  assert (Est : (if rc =? NTG_OK then NTG_RST_SUCCESS else NTG_RST_FAILED) = status)
    by (unfold status; destruct (playable (me_sim env) sm); by destruct H as [-> _]).
  assert (exists d2, ntg_write_channel (put_message (MResult id status) (me_junk env)) (sent_cells (MResult id status)) SendOk =
    (NTG_OK, Some d2)) as [d2 Ed2] by (by eexists).
  destruct (one_message_handled 0 (MSimulation sm) zero_message control env w (set_wk_manage m' w)
    [Replied (snd (pc_channel p)) d2]) as (d & Ed & Eh); [done|done|done| |].
  - intros mem Hm. unfold handle_message. rewrite Hm. cbn [arrived]. unfold handle_user, ntg_user_message_handler.
    rewrite E. cbn [mbind option_bind]. rewrite Hret. cbn [mbind option_bind]. rewrite Hp. cbn [mbind option_bind].
    rewrite Eid, Est. change (NTG_OK =? NTG_OK) with true. cbv iota. by rewrite Ed2.
  - rewrite Ed in Hd0. injection Hd0 as ->. eexists _, _. split; [exact Eh|]. split; [exact Ed2|]. split; [reflexivity|].
    exists c, n', cfree'. cbn [set_wk_manage wk_manage]. assert (Eu : u64 (sm_csm_id sm) = u64 id) by (rewrite Hid; mlia).
    rewrite Eu in H.
    destruct (playable (me_sim env) sm); [by destruct H as (_ & H & _)|by destruct H as (_ & H)].
Qed.

(** The master hands the result to the connection that waits. *)
Lemma result_turn env control d id status junk w Mr nr c :
  remote_inv (wk_remote w) (<[u64 id := c]> Mr) nr -> length junk = message_cells ->
  valid_message (MResult id status) ->
  ntg_write_channel (put_message (MResult id status) junk) (sent_cells (MResult id status)) SendOk = (NTG_OK, Some d) ->
  exists cn w', rm_cnts (wk_remote w) !! c = Some cn /\
    ntg_channel_handler (one_message d 0 env control) w = Some (w', []) /\
    rm_cnts (wk_remote w') = <[c := answered cn (Some (result_code status))]> (rm_cnts (wk_remote w)) /\
    remote_inv (wk_remote w') (<[u64 id := c]> Mr) nr.
Proof.
  intros R Hj Hv Hd. pose proof (result_handler_ok _ _ _ id status R) as H. rewrite lookup_insert_eq in H.
  destruct H as (cn & Hc & _ & E & R').
  destruct (one_message_handled 0 (MResult id status) junk control env w
    (set_wk_remote (set_rm_cnts (<[c:=answered cn (Some (result_code status))]> (rm_cnts (wk_remote w))) (wk_remote w)) w) [])
    as (d' & Ed & Eh); [done|done|done| |].
  - intros mem Hm. unfold handle_message. rewrite Hm. cbn [arrived]. by rewrite E.
  - rewrite Ed in Hd. injection Hd as ->. exists cn. eexists. split; [done|]. split; [exact Eh|]. by split.
Qed.

(** C2: a request for a simulation goes all the way.  The text a connection sends
    becomes a message of the master, the process of the users sets the group up
    and writes a result, and the master answers exactly this connection: 200
    when the group waits for its turn, 103 when the timer of its scene could
    not be had.  No other connection changes, and the tables of the
    connections and of the users hold what they must. *)
Theorem front_end_answered env control id sm c cn wm wu p g Mr nr free gs M n cfree ts :
  remote_inv (wk_remote wm) Mr nr -> rm_cnts (wk_remote wm) !! c = Some cn -> ~ waits Mr c -> (length (cn_in cn) < 1024)%nat ->
  understood parse (cn_in cn) (Some (id, put_message (MSimulation sm) zero_message, sent_cells (MSimulation sm))) ->
  request_accepted Mr nr id = true ->
  manage_inv (wk_manage wu) free gs M n cfree ts -> sim_valid sm free -> timer_works (me_sim env) (wk_manage wu) ->
  se_calloc (me_sim env) = Some g -> groups (mg_us (wk_manage wu)) !! g = None -> is_s64 (mg_task_n (wk_manage wu) + 1) ->
  slot_free (wk_manage wu) M n cfree sm -> write_result (me_replies env) = Some NTG_OK -> length (me_junk env) = message_cells ->
  slot_at (ps_slot (wk_ps wu)) (wk_ps wu) = Some p -> valid_message (MSimulation sm) -> sm_csm_id sm = u64 id -> is_s64 id ->
  exists d1 r1 wu' d2 wm',
    ntg_remote_read_cb parse SendOk c (wk_remote wm) = Some (Some d1, r1) /\
    ntg_channel_handler (one_message d1 0 env control) wu = Some (wu', [Replied (snd (pc_channel p)) d2]) /\
    ntg_channel_handler (one_message d2 0 env control) (set_wk_remote r1 wm) = Some (wm', []) /\
    rm_cnts (wk_remote wm') = <[c := answered (with_id (emptied cn) id) (Some (deserved (me_sim env) sm))]> (rm_cnts (wk_remote wm)) /\
    remote_inv (wk_remote wm') (<[u64 id := c]> Mr) (pred nr) /\
    exists k n' cfree', let M' := <[u64 id := k]> M in
      if playable (me_sim env) sm
      then manage_inv (wk_manage wu') (drop (Z.to_nat (sm_user_n sm)) free)
             (<[g := (rev (take (Z.to_nat (sm_user_n sm)) free), [])]> gs) M' n' cfree' (g :: ts)
      else manage_inv (wk_manage wu') free gs M' n' cfree' ts.
Proof.
  intros R Hc Hw Hlen Hu Hacc I V T Hg Hgg Hlim Hs Hret Hj Hp Hv Hid Hs64.
  destruct (read_cb_ok parse SendOk c _ Mr nr cn _ R Hc Hw Hlen Hu) as (dg & r1 & E1 & Hdg & Hcn & Hr1).
  rewrite Hacc in Hr1.
  assert (Hcode : request_code Mr nr SendOk id = None).
  { unfold request_accepted in Hacc. unfold request_code. destruct (Mr !! u64 id); [done|]. by destruct nr. }
  rewrite Hcode in Hdg, Hcn. cbn [answered] in Hcn.
  destruct (ntg_write_channel (put_message (MSimulation sm) zero_message) (sent_cells (MSimulation sm)) SendOk) as [rc0 [d1|]] eqn:Ed1; [|done].
  assert (rc0 = NTG_OK) as -> by (by injection Ed1). cbn [snd] in Hdg. subst dg.
  destruct (user_turn env control d1 id sm g wu p free gs M n cfree ts) as (wu' & d2 & E2 & Ed2 & _ & HM); try done.
  assert (Hst : valid_message (MResult id (if playable (me_sim env) sm then NTG_RST_SUCCESS else NTG_RST_FAILED)))
    by (split; [done|unfold last_range; by destruct (playable (me_sim env) sm)]).
  destruct (result_turn env control d2 id _ (me_junk env) (set_wk_remote r1 wm) Mr (pred nr) c Hr1 Hj Hst Ed2)
    as (cn1 & wm' & Hc1 & E3 & Hcn' & R').
  exists d1, r1, wu', d2, wm'. split; [exact E1|]. split; [exact E2|]. split; [exact E3|]. split; [|split; [exact R'|exact HM]].
  rewrite Hcn'. cbn [set_wk_remote wk_remote] in *. rewrite Hcn in *. rewrite lookup_insert_eq in Hc1. injection Hc1 as <-.
  rewrite insert_insert_eq. f_equal. f_equal. f_equal. unfold result_code, deserved. by destruct (playable (me_sim env) sm).
Qed.

End front_end.

Definition example_worker (ps : procs) (r : ntg_remote) (m : manage) : worker :=
  Worker ps false false false m (Balance 0 1 0 0) true 1 0 r (RecordManage [] 0 0 0).

Definition example_me : message_env := MessageEnv example_env [NTG_AGAIN; NTG_OK] zero_message [].

Lemma example_dist_valid a b c : valid_distribution (example_dist [a; b; c]).
Proof. split; [|reflexivity]. unfold byte_range, example_dist. cbn [d_type]. unfold NTG_MATH_NORMAL_E. lia. Qed.

Lemma example_simulation_valid : valid_message (MSimulation (example_simulation 7 2)).
Proof.
  unfold example_simulation. cbn [valid_message sm_csm_id sm_scene sm_behavior sm_gp_id sm_st_point sm_user_n ss_num ss_itv clk_num clk_itv].
  unfold is_u64, last_range. split; [lia|]. split; [by rewrite length_replicate|].
  do 4 (split; [apply example_dist_valid|]). lia.
Qed.

Lemma front_end_answered_witness :
  exists d1 r1 wu' d2 wm' cn,
    ntg_remote_read_cb example_parse SendOk 100 (example_remote (request_bytes 7) []) = Some (Some d1, r1) /\
    ntg_channel_handler (one_message d1 0 example_me (ControlData true true 0))
      (example_worker (set_ps_slot 0 example_started) (example_remote [] []) example_manager) = Some (wu', [Replied 2 d2]) /\
    ntg_channel_handler (one_message d2 0 example_me (ControlData true true 0))
      (set_wk_remote r1 (example_worker example_started (example_remote (request_bytes 7) []) no_manager)) = Some (wm', []) /\
    rm_cnts (wk_remote wm') !! 100 = Some cn /\ cn_out cn = state_code (str "200").
Proof.
  destruct (slot_at 0 (set_ps_slot 0 example_started)) as [p|] eqn:Hp; [|vm_compute in Hp; discriminate].
  assert (Hch : snd (pc_channel p) = 2) by (vm_compute in Hp; injection Hp as <-; reflexivity).
  destruct (front_end_answered example_parse example_me (ControlData true true 0) 7 (example_simulation 7 2) 100
    (example_cnt (request_bytes 7)) (example_worker example_started (example_remote (request_bytes 7) []) no_manager)
    (example_worker (set_ps_slot 0 example_started) (example_remote [] []) example_manager) p 1000 ∅ 8 [0; 1; 2] ∅ ∅ 3 [0; 1; 2] [])
    as (d1 & r1 & wu' & d2 & wm' & E1 & E2 & E3 & Hcn & _).
  - apply example_remote_inv.
  - reflexivity.
  - intros (k & Hk). by rewrite lookup_empty in Hk.
  - cbn. lia.
  - split; [cbn; lia|]. exists (example_request 7 2 [5; 1]). split; [reflexivity|exact example_get_message].
  - reflexivity.
  - exact example_manager_inv.
  - split; cbn; [unfold NTG_USER_GROUP_SIZE; lia|lia|discriminate].
  - exact example_timer.
  - reflexivity.
  - vm_compute. reflexivity.
  - vm_compute. split; [discriminate|reflexivity].
  - by split.
  - reflexivity.
  - reflexivity.
  - exact Hp.
  - exact example_simulation_valid.
  - reflexivity.
  - vm_compute. split; [discriminate|reflexivity].
  - rewrite Hch in E2. exists d1, r1, wu', d2, wm'. eexists. split; [exact E1|]. split; [exact E2|]. split; [exact E3|].
    rewrite Hcn. split; [apply lookup_insert_eq|]. reflexivity.
Defined.

(** ** The process of the users knows the traffic processes *)

(** What was written to one descriptor. *)
Definition to_fd (fd : Z) (out : list action) : list message :=
  omap (fun a => match a with Wrote fd' msg => if fd' =? fd then Some msg else None | Killed _ _ => None end) out.

Lemma to_fd_app fd o1 o2 : to_fd fd (o1 ++ o2) = to_fd fd o1 ++ to_fd fd o2.
Proof. apply omap_app. Qed.

Lemma to_fd_wrote fd msg fds : fd ∉ fds -> to_fd fd (map (fun f => Wrote f msg) fds) = [].
Proof.
  induction fds as [|f fds IH]; intros H; [done|]. apply not_elem_of_cons in H as [H1 H2]. cbn.
  rewrite (proj2 (Z.eqb_neq f fd)) by done. by apply IH.
Qed.

(** The datagrams of messages, and an empty channel behind them; [fds] are the
    numbers of the descriptors that come along. *)
Definition sent_datagram (msg : message) : datagram :=
  default (Datagram [] None) (snd (ntg_write_channel (put_message msg zero_message) (sent_cells msg) SendOk)).

Definition deliver (control : control_data) (env : message_env) (msgs : list message) (fds : list Z) : list channel_input :=
  zip_with (fun msg fd => ChannelInput (Received (sent_datagram msg)) control fd env) msgs fds ++
  [ChannelInput RecvAgain control 0 env].

(** The table of the master while it starts: every process runs, with a channel. *)
Definition all_running (ps : procs) : Prop :=
  forall i p, i < ps_last ps -> slot_at i ps = Some p -> 0 < pc_pid p /\ pc_detached p = false /\ fst (pc_channel p) <> -1.

(** The process of the users, in slot 0, knows the processes of the master's table
    and counts them. *)
Record knows (ps : procs) (w : worker) : Prop := {
  kw_length : length (ps_slots (wk_ps w)) = Z.to_nat NTG_MAX_PROCESSES;
  kw_own : ps_slot (wk_ps w) = 0 /\ exists p, slot_at 0 (wk_ps w) = Some p /\ pc_type p = NTG_VIRTUAL_PROCESS;
  kw_last : ps_last (wk_ps w) = ps_last ps;
  kw_blc : ps_last ps = ntg_start_process \/ blc_n (wk_blc w) = ps_last ps - ntg_start_process;
  kw_slots : forall i p, ntg_start_process <= i < ps_last ps -> slot_at i ps = Some p ->
    exists q, slot_at i (wk_ps w) = Some q /\ pc_pid q = pc_pid p /\ fst (pc_channel q) ∈ ps_fds (wk_ps w) }.

Section starting.
Context (kernel : procs -> spawn_env) `{!Kernel kernel} (cpus : Z).
Context (Hworks : forall ps, sp_pair (kernel ps) <> None).

(** One traffic process more in the master's table. *)
Record one_more (a : Z) (ps ps' : procs) : Prop := {
  om_inv : procs_inv ps';
  om_last : ps_last ps' = ps_last ps + 1;
  om_running : all_running ps';
  om_others : forall i, i <> ps_last ps -> slot_at i ps' = slot_at i ps;
  om_out : exists p out, slot_at (ps_last ps) ps' = Some p /\ ps_out ps' = ps_out ps ++ out /\
    to_fd a out = [MChannel (ChannelMsg NTG_CMD_OPEN_CHANNEL (pc_pid p) (ps_last ps) (fst (pc_channel p)))] }.

(** The others are told through other descriptors. *)
Lemma own_running p : 0 < pc_pid p -> pc_detached p = false -> fst (pc_channel p) <> -1 ->
  own p = [fst (pc_channel p); snd (pc_channel p)].
Proof.
  intros Hp Hd Hc. unfold own, live, open_ended. rewrite (proj2 (Z.ltb_lt _ _) Hp), Hd.
  by rewrite (proj2 (Z.eqb_neq _ _) Hc).
Qed.

Lemma targets_owned to i l fd :
  (forall j p, l !! j = Some p -> own p = [fst (pc_channel p); snd (pc_channel p)]) -> fd ∈ targets to i l -> fd ∈ owned l.
Proof.
  intros Ho (j & p & Hj & _ & ->)%targets_spec. unfold owned. apply list_elem_of_join. exists (own p). rewrite (Ho j p Hj).
  split; [by left|]. rewrite <-(Ho j p Hj). apply list_elem_of_fmap. exists p. split; [done|]. by eapply list_elem_of_lookup_2.
Qed.

Lemma told_once to msg ps v :
  procs_inv ps -> all_running ps -> slot_at 0 ps = Some v -> 0 < ps_last ps -> to 0 v = true ->
  to_fd (fst (pc_channel v)) (map (fun f => Wrote f msg) (targets to 0 (used ps))) = [msg].
Proof.
  intros I R Hv Hl Ht. pose proof (used_at 0 ps v Hv Hl) as Hu. pose proof (si_owned _ _ (pi_slots _ I)) as Hn.
  assert (Ho : forall j p, used ps !! j = Some p -> own p = [fst (pc_channel p); snd (pc_channel p)]).
  { intros j p Hj. unfold used in Hj. apply lookup_take_Some in Hj as [Hj Hjl].
    destruct (R (Z.of_nat j) p) as (? & ? & ?); [lia| |by apply own_running].
    unfold slot_at. rewrite (proj2 (Z.ltb_ge _ 0)) by lia. by rewrite Nat2Z.id. }
  destruct (used ps) as [|v' rest]; [done|]. cbn in Hu. injection Hu as ->. cbn [targets]. rewrite Ht. cbn [app map to_fd omap list_omap].
  rewrite Z.eqb_refl. f_equal. apply to_fd_wrote. intros Hin. apply targets_owned in Hin; [|intros j p Hj; by apply (Ho (S j))].
  rewrite owned_cons, (Ho O v eq_refl) in Hn. apply NoDup_app in Hn as (_ & Hn & _). apply (Hn (fst (pc_channel v))); [by left|done].
Qed.

Lemma start_one ps v :
  procs_inv ps -> all_running ps -> ntg_start_process <= ps_last ps -> ps_last ps < NTG_MAX_PROCESSES ->
  ps_last ps <= cpus - 2 < 18446744073709551616 -> slot_at 0 ps = Some v -> pc_type v <> 0 ->
  exists ps', ntg_start_traffic_processes [kernel ps] cpus NTG_PROCESS_RESPAWN ps = Some ps' /\ one_more (fst (pc_channel v)) ps ps'.
Proof.
  intros I R Hst Hmax Hcpu Hv Hvt. cbn [ntg_start_traffic_processes].
  destruct (spawn_ok (kernel ps) cpus ntg_traffic_process_cycle (ps_last ps) (str "traffic process") NTG_PROCESS_RESPAWN NTG_TRAFFIC_PROCESS
    ps I (kn_ok ps) ltac:(unfold NTG_PROCESS_RESPAWN; lia) ltac:(by left)) as (s & Hs & _ & H).
  unfold ntg_start_process in *. unfold NTG_MAX_PROCESSES in Hmax.
  unfold NTG_MAX_PROCESSES in H. rewrite (proj2 (Z.eqb_neq s 1024)) in H by lia. destruct H as (p & Hp & Hdead & H).
  assert (Es : s = ps_last ps).
  { destruct (Z.eq_dec s (ps_last ps)) as [|Hne]; [done|]. pose proof (Hdead ltac:(lia)). destruct (R s p ltac:(lia) Hp). lia. }
  subst s. clear Hs Hdead.
  destruct (kn_sound ps) as [Hn|([c Hc] & Hprep & [pid Hf])]; [by apply Hworks in Hn|].
  assert (Er : spawn_result (kernel ps) cpus (ps_last ps) NTG_PROCESS_RESPAWN (ps_last ps) = Some (pid, c)).
  { unfold spawn_result. rewrite !u64_small by (unfold is_u64; lia). rewrite (Z.gtb_ltb), (proj2 (Z.ltb_ge _ _)) by lia.
    cbn. rewrite Hc. cbn. by rewrite Hprep, Hf. }
  rewrite Er in H. destruct H as (child & ps1 & E & D & _ & I1). rewrite E. cbn [mbind option_bind].
  unfold spawn_done in D. set (p' := spawned _ _ _ _ _ _ _) in D. destruct (ko_fork _ _ _ (kn_ok ps) pid Hf) as [Hpos _].
  destruct c as [c0 c1]. destruct (ko_pair _ _ _ (kn_ok ps) c0 c1 Hc) as (_ & _ & _ & Hc0 & _).
  assert (Hp1 : slot_at (ps_last ps) ps1 = Some p') by (rewrite D; by apply slot_at_put with p).
  assert (Hne1 : forall i, i <> ps_last ps -> slot_at i ps1 = slot_at i ps).
  { intros i Hi. rewrite D. apply slot_at_put_ne; [|lia]. pose proof (slot_at_range _ _ _ Hp). lia. }
  assert (L1 : ps_last ps1 = ps_last ps + 1) by (rewrite D; cbn; by rewrite Z.eqb_refl).
  assert (S1 : ps_slot ps1 = ps_last ps) by (by rewrite D). assert (O1 : ps_out ps1 = ps_out ps) by (by rewrite D).
  assert (R1 : all_running ps1).
  { intros i q Hi Hq. destruct (Z.eq_dec i (ps_last ps)) as [->|Hie].
    - rewrite Hp1 in Hq. injection Hq as <-. subst p'. cbn. split; [done|]. split; [done|lia].
    - rewrite Hne1 in Hq by done. apply (R i); [lia|done]. }
  unfold open_message. rewrite S1, Hp1. cbn [mbind option_bind]. unfold ntg_pass_open_channel. rewrite (tell_used _ _ _ I1).
  cbn [mbind option_bind]. eexists. split; [reflexivity|].
  split; [by apply emits_inv|exact L1|exact R1|exact Hne1|].
  exists p'. eexists. split; [exact Hp1|]. split; [cbn [ps_out emits]; by rewrite O1|].
  assert (Hv1 : slot_at 0 ps1 = Some v) by (rewrite Hne1 by lia; done). destruct (R1 0 v ltac:(lia) Hv1) as (Hvp & _ & Hvc).
  apply told_once; [done|done|done|lia|]. rewrite S1, (proj2 (Z.eqb_neq 0 _)), (proj2 (Z.eqb_neq (pc_type v) _)), (proj2 (Z.eqb_neq (pc_pid v) _)) by lia.
  by rewrite (proj2 (Z.eqb_neq _ _) Hvc).
Qed.

(** The announcement makes the process of the users know it. *)
Lemma learn_one a ps ps' w fd :
  one_more a ps ps' -> knows ps w -> ntg_start_process <= ps_last ps -> ps_last ps < NTG_MAX_PROCESSES ->
  exists p w', slot_at (ps_last ps) ps' = Some p /\
    handle_channel (ChannelMsg NTG_CMD_OPEN_CHANNEL (pc_pid p) (ps_last ps) fd) w = Some w' /\ knows ps' w'.
Proof.
  intros [_ L _ O (p & out & Hp & _ & _)] [Kl (Ks & v & Hv & Hvt) Kla Kb Kq] Hst Hmax. exists p.
  unfold ntg_start_process, NTG_MAX_PROCESSES in *. set (s := ps_last ps) in *.
  destruct (slot_at_some s (wk_ps w) ltac:(lia)) as [q Hq].
  unfold handle_channel. cbn [ch_command ch_slot ch_pid ch_fd].
  change (NTG_CMD_OPEN_CHANNEL =? NTG_CMD_QUIT) with false. change (NTG_CMD_OPEN_CHANNEL =? NTG_CMD_TERMINATE) with false.
  change (NTG_CMD_OPEN_CHANNEL =? NTG_CMD_OPEN_CHANNEL) with true. cbv iota. rewrite (modify_slot_at _ _ _ _ Hq). cbn [mbind option_bind].
  set (q' := q |> set_pc_pid (pc_pid p) |> set_pc_channel (fd, snd (pc_channel q))).
  set (ps1 := set_ps_fds _ _).
  assert (Hs1 : forall i, i <> s -> slot_at i ps1 = slot_at i (wk_ps w)) by (intros i Hi; exact (slot_at_put_ne s i q' (wk_ps w) ltac:(lia) ltac:(lia))).
  assert (Hq1 : slot_at s ps1 = Some q') by exact (slot_at_put s q q' (wk_ps w) Hq).
  change (ps_slot ps1) with (ps_slot (wk_ps w)). rewrite Ks, Hs1, Hv by lia. cbn [mbind option_bind]. rewrite Hvt.
  change (NTG_VIRTUAL_PROCESS =? NTG_VIRTUAL_PROCESS) with true. unfold ntg_start_process. rewrite Z.geb_leb, (proj2 (Z.leb_le 1 s)) by lia. cbn [andb].
  eexists. split; [done|]. split; [reflexivity|].
  assert (El : s64 (ps_last ps1 + 1) = s + 1) by (change (ps_last ps1) with (ps_last (wk_ps w)); rewrite Kla; apply s64_small; unfold is_s64; lia).
  split; cbn [set_wk_blc set_wk_ps wk_ps wk_blc set_ps_last ps_slots ps_slot ps_last ps_fds blc_n].
  - subst ps1. cbn. by rewrite length_insert.
  - split; [exact Ks|]. exists v. split; [|done]. rewrite <-Hv. apply Hs1. lia.
  - by rewrite El, L.
  - right. rewrite El, L. apply u64_small. unfold is_u64, ntg_start_process. lia.
  - intros i r Hi Hr. destruct (Z.eq_dec i s) as [->|His].
    + rewrite Hp in Hr. injection Hr as <-. exists q'. split; [exact Hq1|]. split; [done|]. subst q' ps1. cbn. set_solver.
    + rewrite O in Hr by done. unfold ntg_start_process in Hi. destruct (Kq i r ltac:(lia) Hr) as (q2 & Hq2 & E2 & F2). exists q2.
      split; [rewrite <-Hq2; by apply Hs1|]. split; [done|]. subst ps1. cbn. set_solver.
Qed.

(** Reading an announcement. *)
Lemma read_open ch control fd env ins mem w :
  valid_message (MChannel ch) -> ch_command ch = NTG_CMD_OPEN_CHANNEL -> -2147483648 <= fd < 2147483648 -> length mem = message_cells ->
  exists mem', length mem' = message_cells /\
    channel_loop (ChannelInput (Received (sent_datagram (MChannel ch))) control fd env :: ins) mem w =
    (w ← handle_channel (ChannelMsg NTG_CMD_OPEN_CHANNEL (ch_pid ch) (ch_slot ch) fd) w; channel_loop ins mem' w).
Proof.
  intros Hv Hc Hfd Hm. destruct (channel_arrives fd zero_message mem control eq_refl Hm ch Hfd Hv) as (d & n & mem' & E1 & E2 & Hn & Hm' & Ha).
  assert (Es : sent_datagram (MChannel ch) = d) by (unfold sent_datagram; by rewrite E1).
  exists mem'. split; [done|]. rewrite Es. cbn [channel_loop ci_received ci_control ci_fd ci_env].
  rewrite E2. unfold NTG_ERROR, NTG_AGAIN. rewrite (proj2 (Z.eqb_neq n (-1))), (proj2 (Z.eqb_neq n (-2))) by lia. cbn [orb].
  unfold handle_message. rewrite Ha. unfold arrived. rewrite Hc. cbn [Z.eqb]. change (NTG_CMD_OPEN_CHANNEL =? NTG_CMD_OPEN_CHANNEL) with true. cbv iota.
  destruct (handle_channel _ w) as [w1|]; [|done]. cbn [mbind option_bind]. by destruct (channel_loop ins mem' w1) as [[w2 out]|].
Qed.

(** The environments of [n] spawns, as the kernel gives them one after the other. *)
Fixpoint start_envs (n : nat) (ps : procs) : list spawn_env :=
  match n with
  | O => []
  | S n => kernel ps :: start_envs n (default ps (ntg_start_traffic_processes [kernel ps] cpus NTG_PROCESS_RESPAWN ps))
  end.

Lemma start_cons env envs respawn ps :
  ntg_start_traffic_processes (env :: envs) cpus respawn ps =
  (ps ← ntg_start_traffic_processes [env] cpus respawn ps; ntg_start_traffic_processes envs cpus respawn ps).
Proof.
  cbn [ntg_start_traffic_processes]. destruct (ntg_spawn_process _ _ _ _ _ _ _ _ _) as [[[? ?] ps1]|]; [|done]. cbn [mbind option_bind].
  destruct (open_message ps1); [|done]. cbn [mbind option_bind]. by destruct (ntg_pass_open_channel _ ps1).
Qed.

Lemma starting_known n ps v w mem control env fds :
  procs_inv ps -> all_running ps -> ntg_start_process <= ps_last ps -> ps_last ps + Z.of_nat n <= NTG_MAX_PROCESSES ->
  ps_last ps + Z.of_nat n <= cpus - 1 < 18446744073709551616 -> slot_at 0 ps = Some v -> pc_type v <> 0 -> knows ps w ->
  length fds = n -> Forall (fun fd => -2147483648 <= fd < 2147483648) fds -> length mem = message_cells ->
  exists ps' out, ntg_start_traffic_processes (start_envs n ps) cpus NTG_PROCESS_RESPAWN ps = Some ps' /\
    ps_last ps' = ps_last ps + Z.of_nat n /\ ps_out ps' = ps_out ps ++ out /\
    (Forall valid_message (to_fd (fst (pc_channel v)) out) ->
     exists w', channel_loop (deliver control env (to_fd (fst (pc_channel v)) out) fds) mem w = Some (w', []) /\ knows ps' w').
Proof.
  revert ps w mem fds. induction n as [|n IH]; intros ps w mem fds I R Hst Hmax Hcpu Hv Hvt K Hl Hfds Hm.
  - exists ps, []. split; [done|]. split; [lia|]. split; [by rewrite app_nil_r|]. intros _. by exists w.
  - destruct fds as [|fd fds]; [done|]. injection Hl as Hl. apply Forall_cons in Hfds as [Hfd Hfds]. cbn [start_envs].
    destruct (start_one ps v I R Hst ltac:(lia) ltac:(lia) Hv Hvt) as (ps1 & E1 & M1). rewrite start_cons, E1. cbn [mbind option_bind default].
    destruct (learn_one _ ps ps1 w fd M1 K Hst ltac:(lia)) as (p & w1 & Hp & Ew & K1).
    destruct M1 as [I1 L1 R1 O1 (p1 & out1 & Hp1 & Eo1 & Et1)]. rewrite Hp in Hp1. injection Hp1 as <-.
    assert (Hv1 : slot_at 0 ps1 = Some v) by (unfold ntg_start_process in *; rewrite O1 by lia; done).
    set (ch := ChannelMsg NTG_CMD_OPEN_CHANNEL (pc_pid p) (ps_last ps) (fst (pc_channel p))) in *.
    assert (Hnext : forall mem1, length mem1 = message_cells -> exists ps' out, ntg_start_traffic_processes (start_envs n ps1) cpus NTG_PROCESS_RESPAWN ps1 = Some ps' /\
      ps_last ps' = ps_last ps1 + Z.of_nat n /\ ps_out ps' = ps_out ps1 ++ out /\
      (Forall valid_message (to_fd (fst (pc_channel v)) out) ->
       exists w', channel_loop (deliver control env (to_fd (fst (pc_channel v)) out) fds) mem1 w1 = Some (w', []) /\ knows ps' w'))
      by (intros mem1 Hm1; apply IH; try done; lia).
    destruct (Hnext mem Hm) as (ps' & out2 & E2 & L2 & O2 & _). exists ps', (out1 ++ out2). split; [exact E2|]. split; [lia|].
    split; [by rewrite O2, Eo1, app_assoc|]. rewrite to_fd_app, Et1. intros [Hch Hrest]%Forall_cons.
    destruct (read_open ch control fd env (deliver control env (to_fd (fst (pc_channel v)) out2) fds) mem w Hch eq_refl Hfd Hm) as (mem1 & Hm1 & El).
    destruct (Hnext mem1 Hm1) as (ps2 & out3 & E3 & _ & O3 & H3). rewrite E2 in E3. injection E3 as <-.
    assert (out3 = out2) as -> by (rewrite O2 in O3; by apply app_inv_head in O3).
    destruct (H3 Hrest) as (w' & E' & K'). exists w'. split; [|exact K']. cbn [app deliver zip_with].
    unfold deliver in *. cbn [zip_with app]. rewrite El. cbn [ch_pid ch_slot ch]. rewrite Ew. exact E'.
Qed.



End starting.

(** ** Examples of the start *)

(** The master and the process of the users, before there are traffic processes. *)
Definition example_virtual : procs :=
  default initial_procs (ntg_start_virtual_process (next_kernel initial_procs) 8 0 NTG_PROCESS_RESPAWN initial_procs).

Definition example_users : worker := example_worker example_virtual (example_remote [] []) example_manager.

Lemma example_virtual_slot : exists v, slot_at 0 example_virtual = Some v /\ pc_pid v = 1 /\ pc_type v = NTG_VIRTUAL_PROCESS /\
  pc_channel v = (1, 2) /\ pc_detached v = false.
Proof. destruct (slot_at 0 example_virtual) as [v|] eqn:Hv; vm_compute in Hv; [|done]. injection Hv as <-. by eexists. Qed.

Lemma example_virtual_inv : procs_inv example_virtual.
Proof.
  assert (Ef : ps_fds example_virtual = {[1; 2]}) by (vm_compute; reflexivity). split.
  - vm_compute. reflexivity.
  - vm_compute. split; discriminate.
  - rewrite Ef. intros fd. rewrite elem_of_union, !elem_of_singleton. lia.
  - split.
    + rewrite Ef. vm_compute. reflexivity.
    + apply (bool_decide_unpack _). vm_compute. exact I.
    + apply (bool_decide_unpack _). vm_compute. exact I.
    + set (l := used example_virtual). vm_compute in l. subst l. by repeat constructor.
Qed.

Lemma example_virtual_last : ps_last example_virtual = 1.
Proof. vm_compute. reflexivity. Qed.

Lemma example_users_know : knows example_virtual example_users.
Proof.
  destruct example_virtual_slot as (v & Hv & _ & Ht & _). split.
  - vm_compute. reflexivity.
  - split; [vm_compute; reflexivity|]. exists v. split; [exact Hv|exact Ht].
  - reflexivity.
  - left. vm_compute. reflexivity.
  - intros i p Hi. rewrite example_virtual_last in Hi. unfold ntg_start_process in Hi. lia.
Qed.


(** What the code does not handle. *)

(** A process that is spawned again into its slot is announced like a new one: the
    process of the users counts it once more, and its balancer takes the empty
    slot behind the last process for the one with the least to do. *)
Definition example_respawn_messages : list message :=
  default [] (st ← ntg_reap_children next_kernel 8 false false 0 false false
                    (default initial_procs (ntg_process_get_status [WaitExited 2 0; WaitNone] (untraced example_started)));
              Some (to_fd 1 (ps_out (rs_ps st)))).

Lemma respawn_counted_twice :
  (w ← fst <$> ntg_channel_handler (deliver (ControlData true true 0) example_me (to_fd 1 (ps_out example_started)) [20; 21]) example_users;
   w ← fst <$> ntg_channel_handler (deliver (ControlData true true 0) example_me example_respawn_messages [0; 22]) w;
   '(blc, _) ← ntg_user_balance_update ntg_start_process (ps_last (wk_ps w)) (wk_blc w)
                 (map (fun p => blc_view (if pc_pid p =? 0 then p else blc_update p (set_p_reqs 5 (blc_view p)))) (ps_slots (wk_ps w)));
   Some (ps_last example_started, ps_last (wk_ps w), blc_n (wk_blc w), cur_slot blc)) = Some (3, 4, 3, 3).
Proof. vm_compute. reflexivity. Qed.

(** A record that arrives takes a place in the ring, but is not written to it. *)
Lemma record_not_stored w env mem r :
  at_message mem = Some (MRecord r) ->
  exists w', handle_message env mem w = Some (w', []) /\ records (wk_records w') = records (wk_records w).
Proof.
  intros H. unfold handle_message. rewrite H. eexists. split; [reflexivity|]. unfold handle_record.
  assert (Hg : forall mg, records (snd (ntg_get_record mg)) = records mg) by (intros mg; unfold ntg_get_record; by destruct (_ >=? _)).
  pose proof (Hg (wk_records w)) as E. destruct (ntg_get_record (wk_records w)) as [[i|] mg]; [exact E|]. cbn [set_wk_records wk_records].
  by rewrite Hg.
Qed.
