(* ===== verification/Worker.v ===== *)
(** * The worker processes (src/utils/ntg_process_cycle.c)

    What a process does that the master spawned: it keeps the ends of the
    channels it needs, runs its loop, and exits when it is told to. *)

From S2P Require Import Prelude Channel Process Master Dispatch.

(** ** Initialisation *)

Section init.
Context (pid : Z).

(** The loop that closes the other processes' ends. *)
Fixpoint close_loop (n : nat) (i : Z) (ps : procs) : option procs :=
  match n with
  | O => Some ps
  | S n =>
      p ← slot_at i ps;
      close_loop n (i + 1)
        (if (pc_pid p =? -1) || (i =? ps_slot ps) || (snd (pc_channel p) =? -1) then ps else close_fd (snd (pc_channel p)) ps)
  end.

(** The part of [ntg_worker_process_init] about the table and the channels; [pid]
    is that of the process. *)
Definition worker_pid_init (ps : procs) : option procs := modify_slot (ps_slot ps) (set_pc_pid pid) ps.

Definition worker_channels_init (ps : procs) : option procs :=
  ps ← worker_pid_init ps;
  ps ← close_loop (Z.to_nat (ps_last ps)) 0 ps;
  p ← slot_at (ps_slot ps) ps;
  Some (close_fd (fst (pc_channel p)) ps).

End init.

(** ** The loop *)

Inductive worker_step := WorkerContinues (exiting : bool) (w : worker) | WorkerExits (w : worker).

(** What the event loop delivers: readings of the channel, and signals. *)
Inductive worker_event :=
  | ChannelReadable (ins : list channel_input)
  | SignalCaught (signo : Z).

(** The flags a signal sets in a worker. *)
Definition worker_signal (process signo : Z) (w : worker) : worker :=
  let f := signal_flags process signo 1 (Flags false false false (wk_terminate w) (wk_quit w) false false false 0) in
  set_wk_flags (fl_quit f) (fl_terminate f) (wk_add_request w) w.

Fixpoint worker_events (process : Z) (evs : list worker_event) (w : worker) : option worker :=
  match evs with
  | [] => Some w
  | ChannelReadable ins :: evs => '(w, _) ← ntg_channel_handler ins w; worker_events process evs w
  | SignalCaught signo :: evs => worker_events process evs (worker_signal process signo w)
  end.

(** One turn of the loops of [ntg_virtual_process_cycle],
    [ntg_traffic_process_cycle] and [ntg_record_process_cycle]. *)
Definition worker_turn (process : Z) (evs : list worker_event) (exiting : bool) (w : worker) : option worker_step :=
  if exiting then Some (WorkerExits w)
  else
    w ← worker_events process evs w;
    if wk_terminate w then Some (WorkerExits w)
    else if wk_quit w then Some (WorkerContinues true (set_wk_flags false (wk_terminate w) (wk_add_request w) w))
    else Some (WorkerContinues false w).

(** ** The channels a worker keeps *)

Lemma close_loop_spec n i ps :
  0 <= i -> i + Z.of_nat n <= Z.of_nat (length (ps_slots ps)) ->
  exists fds, close_loop n i ps = Some (set_ps_fds fds ps) /\
    forall x, x ∈ fds <-> x ∈ ps_fds ps /\ ~ exists j p, i <= j < i + Z.of_nat n /\ slot_at j ps = Some p /\
      pc_pid p <> -1 /\ j <> ps_slot ps /\ snd (pc_channel p) <> -1 /\ x = snd (pc_channel p).
Proof.
  revert i ps. induction n as [|n IH]; intros i ps Hi Hl; cbn [close_loop].
  - exists (ps_fds ps). split; [by destruct ps|]. intros x. split; [|by intros []]. intros Hx. split; [done|].
    intros (j & p & Hj & _). lia.
  - destruct (slot_at_some i ps ltac:(lia)) as [p Hp]. rewrite Hp. cbn [mbind option_bind].
    set (ps1 := if (pc_pid p =? -1) || (i =? ps_slot ps) || (snd (pc_channel p) =? -1) then ps else close_fd (snd (pc_channel p)) ps).
    assert (H1 : ps_slots ps1 = ps_slots ps /\ ps_slot ps1 = ps_slot ps /\ forall fds, set_ps_fds fds ps1 = set_ps_fds fds ps)
      by (subst ps1; by destruct (_ || (snd (pc_channel p) =? -1))).
    destruct H1 as (Hs & Ho & Hf). destruct (IH (i + 1) ps1 ltac:(lia) ltac:(rewrite Hs; lia)) as (fds & E & H).
    exists fds. rewrite <-Hf. split; [exact E|]. intros x. rewrite H. unfold slot_at in *. rewrite Hs, Ho.
    assert (Hx : x ∈ ps_fds ps1 <-> x ∈ ps_fds ps /\ ~ (pc_pid p <> -1 /\ i <> ps_slot ps /\ snd (pc_channel p) <> -1 /\ x = snd (pc_channel p))).
    { subst ps1. destruct (Z.eqb_spec (pc_pid p) (-1)), (Z.eqb_spec i (ps_slot ps)), (Z.eqb_spec (snd (pc_channel p)) (-1));
        cbn [orb]; try (split; [intros; split; [done|]; intros (? & ? & ? & ?); done|by intros []]).
      cbn [close_fd set_ps_fds ps_fds]. rewrite elem_of_difference, elem_of_singleton. split; intros [? Hne]; (split; [done|]).
      - by intros (_ & _ & _ & ?).
      - intros ->. apply Hne. done. }
    rewrite Hx. split.
    + intros [[H1 H2] H3]. split; [done|]. intros (j & q & Hj & Hq & Hrest). destruct (Z.eq_dec j i) as [->|].
      * rewrite Hp in Hq. injection Hq as <-. by apply H2.
      * apply H3. exists j, q. split; [lia|done].
    + intros [H1 H2]. split; [split; [done|]|].
      * intros Hr. apply H2. exists i, p. split; [lia|done].
      * intros (j & q & Hj & Hq & Hrest). apply H2. exists j, q. split; [lia|done].
Qed.

(** Two processes of the table share no descriptor, and one has two. *)
Lemma running_owned ps i p :
  all_running ps -> i < ps_last ps -> slot_at i ps = Some p -> own p = [fst (pc_channel p); snd (pc_channel p)].
Proof. intros R Hi Hp. destruct (R i p Hi Hp) as (? & ? & ?). by apply own_running. Qed.

Lemma running_fds ps x :
  procs_inv ps -> all_running ps -> x ∈ ps_fds ps <->
  exists i p, i < ps_last ps /\ slot_at i ps = Some p /\ (x = fst (pc_channel p) \/ x = snd (pc_channel p)).
Proof.
  intros I R. pose proof (pi_last _ I). rewrite (si_fds _ _ (pi_slots _ I)), elem_of_list_to_set. unfold owned. rewrite list_elem_of_join. split.
  - intros (o & Hx & (p & -> & Hp)%list_elem_of_fmap). apply list_elem_of_lookup in Hp as [j Hj].
    unfold used in Hj. apply lookup_take_Some in Hj as [Hj Hjl].
    assert (Hs : slot_at (Z.of_nat j) ps = Some p) by (unfold slot_at; rewrite (proj2 (Z.ltb_ge _ 0)) by lia; by rewrite Nat2Z.id).
    exists (Z.of_nat j), p. split; [lia|]. split; [done|]. rewrite (running_owned ps (Z.of_nat j) p R ltac:(lia) Hs) in Hx.
    by rewrite !elem_of_cons, elem_of_nil in Hx; tauto.
  - intros (i & p & Hi & Hp & Hx). exists (own p). rewrite (running_owned ps i p R Hi Hp).
    split; [rewrite !elem_of_cons; tauto|]. rewrite <-(running_owned ps i p R Hi Hp). apply list_elem_of_fmap. exists p. split; [done|].
    eapply list_elem_of_lookup_2. by apply used_at.
Qed.

Lemma running_distinct ps i j p q :
  procs_inv ps -> all_running ps -> i < ps_last ps -> j < ps_last ps -> slot_at i ps = Some p -> slot_at j ps = Some q ->
  fst (pc_channel p) <> snd (pc_channel q).
Proof.
  intros I R Hi Hj Hp Hq E. pose proof (si_owned _ _ (pi_slots _ I)) as Hn.
  rewrite (used_others i ps p Hp Hi), owned_cons, (running_owned ps i p R Hi Hp) in Hn.
  destruct (Z.eq_dec i j) as [->|Hne].
  - rewrite Hp in Hq. injection Hq as <-. apply NoDup_app in Hn as [Hn _]. apply NoDup_cons in Hn as [Hn _]. apply Hn. rewrite E. by left.
  - apply NoDup_app in Hn as (_ & Hn & _). apply (Hn (fst (pc_channel p))); [by left|]. rewrite E. unfold owned.
    apply list_elem_of_join. exists (own q). rewrite (running_owned ps j q R Hj Hq). split; [right; by left|].
    rewrite <-(running_owned ps j q R Hj Hq). apply list_elem_of_fmap. exists q. split; [done|].
    assert (Hu : used ps !! Z.to_nat j = Some q) by (by apply used_at). pose proof (slot_at_range _ _ _ Hp). pose proof (slot_at_range _ _ _ Hq).
    unfold others. rewrite (proj2 (Z.ltb_lt _ _) Hi). destruct (Z.ltb_spec j i).
    + apply list_elem_of_lookup. exists (Z.to_nat j). by rewrite list_lookup_delete_lt by lia.
    + apply list_elem_of_lookup. exists (pred (Z.to_nat j)). rewrite list_lookup_delete_ge by lia. by replace (S (pred (Z.to_nat j))) with (Z.to_nat j) by lia.
Qed.

(** A traffic process spawned next to running ones, behind the last. *)
Lemma channels_kept ps c0 c1 pid child p r proc data name ps1 :
  procs_inv ps -> all_running ps -> ps_last ps < NTG_MAX_PROCESSES -> slot_at (ps_last ps) ps = Some p -> r = (pid, (c0, c1)) ->
  c0 <> c1 -> c0 ∉ ps_fds ps -> c1 ∉ ps_fds ps ->
  spawn_done proc data name NTG_PROCESS_RESPAWN NTG_TRAFFIC_PROCESS ps (ps_last ps) p r ps1 ->
  spawn_child NTG_TRAFFIC_PROCESS ps (ps_last ps) p r ps1 child ->
  exists ps' q, worker_channels_init pid child = Some ps' /\ slot_at (ps_slot ps') ps' = Some q /\ pc_pid q = pid /\
    ps_channel ps' = c1 /\ pc_channel q = (c0, c1) /\
    forall x, x ∈ ps_fds ps' <-> x = c1 \/ exists i q, i < ps_last ps /\ slot_at i ps = Some q /\ x = fst (pc_channel q).
Proof.
  intros I R Hmax Hp -> Hc H0 H1 D (Cs & Cc & Cf & Cl & _ & Csl). set (s := ps_last ps) in *. pose proof (pi_last _ I) as Hl.
  pose proof (pi_length _ I) as Hlen. unfold NTG_MAX_PROCESSES in *. pose proof (slot_at_range _ _ _ Hp) as Hr.
  set (q := p |> set_pc_type NTG_TRAFFIC_PROCESS |> set_pc_channel (c0, c1)) in *. cbn [fst snd] in *.
  assert (Hq : slot_at s child = Some q) by (rewrite (slot_at_slots s (put_slot s q ps) child Csl); by apply slot_at_put with p).
  assert (Hne : forall j, j <> s -> slot_at j child = slot_at j ps).
  { intros j Hj. rewrite (slot_at_slots j (put_slot s q ps) child Csl). apply slot_at_put_ne; lia. }
  unfold worker_channels_init, worker_pid_init. rewrite Cs, (modify_slot_at _ _ _ _ Hq). cbn [mbind option_bind].
  set (ps2 := put_slot s (set_pc_pid pid q) child).
  assert (Hq2 : slot_at s ps2 = Some (set_pc_pid pid q)) by (by apply slot_at_put with q).
  assert (Hne2 : forall j, j <> s -> slot_at j ps2 = slot_at j ps) by (intros j Hj; rewrite <-Hne by done; apply slot_at_put_ne; lia).
  change (ps_last ps2) with (ps_last child). rewrite Cl. fold s.
  destruct (close_loop_spec (Z.to_nat s) 0 ps2 ltac:(lia)) as (fds & E & Hf).
  { subst ps2. cbn. rewrite length_insert, Csl, length_insert. lia. }
  rewrite E. cbn [mbind option_bind]. change (ps_slot (set_ps_fds fds ps2)) with (ps_slot child). rewrite Cs.
  change (slot_at s (set_ps_fds fds ps2)) with (slot_at s ps2). rewrite Hq2. cbn [mbind option_bind].
  eexists _, (set_pc_pid pid q). split; [reflexivity|]. split; [cbn [close_fd set_ps_fds ps_slot ps2 put_slot set_ps_slots]; rewrite Cs; exact Hq2|].
  split; [done|]. split; [cbn; rewrite Cc, D; done|]. split; [done|].
  intros x. cbn [close_fd set_ps_fds ps_fds]. rewrite elem_of_difference, elem_of_singleton, Hf.
  change (ps_fds ps2) with (ps_fds child). rewrite Cf, D. cbn [ps_fds]. unfold NTG_PROCESS_RESPAWN, NTG_PROCESS_DETACHED.
  rewrite (proj2 (Z.eqb_neq (-3) (-5))) by lia. cbn [fst snd]. change (ps_slot ps2) with (ps_slot child). rewrite Cs.
  assert (Hclosed : (exists j p0, 0 <= j < 0 + Z.of_nat (Z.to_nat s) /\ slot_at j ps2 = Some p0 /\ pc_pid p0 <> -1 /\ j <> s /\
      snd (pc_channel p0) <> -1 /\ x = snd (pc_channel p0)) <-> exists i q, i < s /\ slot_at i ps = Some q /\ x = snd (pc_channel q)).
  { split.
    - intros (j & p0 & Hj & Hp0 & _ & Hjs & _ & ->). exists j, p0. rewrite Hne2 in Hp0 by done. split; [lia|done].
    - intros (j & p0 & Hj & Hp0 & ->). exists j, p0. destruct (R j p0 Hj Hp0) as (Hpos & _). pose proof (slot_at_range _ _ _ Hp0).
      assert (0 <= snd (pc_channel p0)) by (apply (pi_open _ I), (running_fds ps _ I R); exists j, p0; by auto).
      split; [lia|]. rewrite Hne2 by lia. split; [done|]. split_and!; (done || lia). }
  rewrite Hclosed, !elem_of_union, !elem_of_singleton, (running_fds ps x I R). fold s. split.
  - intros [[[ -> | [ -> | (i & q0 & Hi & Hq0 & [ -> | -> ]) ] ] Hnot] Hx0]; [done|by left|right; by exists i, q0|].
    exfalso. apply Hnot. by exists i, q0.
  - intros [ -> | (i & q0 & Hi & Hq0 & ->) ].
    + split; [|done]. split; [by right; left|]. intros (i & q0 & Hi & Hq0 & ->). apply H1, (running_fds ps _ I R). exists i, q0. auto.
    + assert (Hin : fst (pc_channel q0) ∈ ps_fds ps) by (apply (running_fds ps _ I R); exists i, q0; auto).
      split; [|intros E0; by rewrite E0 in Hin]. split; [right; right; exists i, q0; auto|].
      intros (j & q1 & Hj & Hq1 & Ex). by apply (running_distinct ps i j q0 q1 I R Hi Hj Hq0 Hq1).
Qed.

(** C13: a traffic process that the master spawned next to running ones keeps,
    once it is initialised, exactly its own end of its channel and the master's
    ends of all the others', through which it reaches them: every other
    descriptor it inherited is closed, and it has its identifier in its table. *)
Theorem worker_keeps_channels env cpus proc data name ps pid child ps1 :
  procs_inv ps -> all_running ps -> ntg_start_process <= ps_last ps < NTG_MAX_PROCESSES -> kernel_ok env (used ps) (ps_fds ps) ->
  ntg_spawn_process env cpus proc data name NTG_PROCESS_RESPAWN NTG_TRAFFIC_PROCESS (-1) ps = Some (pid, Some child, ps1) ->
  exists ps' q, worker_channels_init pid child = Some ps' /\ slot_at (ps_slot ps') ps' = Some q /\ pc_pid q = pid /\
    ps_channel ps' = snd (pc_channel q) /\
    forall x, x ∈ ps_fds ps' <->
      x = snd (pc_channel q) \/ exists i p, i < ps_last ps /\ slot_at i ps = Some p /\ x = fst (pc_channel p).
Proof.
  intros I R Hl K E. unfold NTG_MAX_PROCESSES in Hl.
  destruct (spawn_ok env cpus proc data name NTG_PROCESS_RESPAWN NTG_TRAFFIC_PROCESS ps I K ltac:(unfold NTG_PROCESS_RESPAWN; lia)
    ltac:(left; lia)) as (s & Hs & _ & H).
  unfold NTG_MAX_PROCESSES in H. rewrite (proj2 (Z.eqb_neq s 1024)) in H by lia. destruct H as (p & Hp & Hdead & H).
  assert (s = ps_last ps) as ->.
  { destruct (Z.eq_dec s (ps_last ps)) as [|Hne]; [done|]. pose proof (Hdead ltac:(lia)). destruct (R s p ltac:(lia) Hp). lia. }
  destruct (spawn_result _ _ _ _ _) as [[pid0 [c0 c1]]|] eqn:Er; [|destruct H as (? & H & _); congruence].
  destruct H as (child0 & ps0 & E0 & D & C & _). rewrite E in E0. injection E0 as -> <- <-.
  assert (Ec : sp_pair env = Some (c0, c1)).
  { unfold spawn_result in Er. destruct (_ >? _); [done|]. cbn in Er. destruct (sp_pair env) as [c|]; cbn in Er; [|done].
    destruct (prepared env data); [|done]. destruct (sp_fork env); cbn in Er; congruence. }
  destruct (ko_pair _ _ _ K c0 c1 Ec) as (Hc & H0 & H1 & _).
  destruct (channels_kept ps c0 c1 pid0 child p _ proc data name ps1 I R ltac:(unfold NTG_MAX_PROCESSES; lia) Hp eq_refl Hc H0 H1 D C)
    as (ps' & q & E1 & Hq & Hpid & Hch & Hqc & Hf).
  exists ps', q. rewrite Hqc. by split_and!.
Qed.

(** ** A process that is told to stop stops *)

(** The loop, with what each of its turns meets: the state the process exits in,
    [None] when it is still running. *)
Fixpoint worker_run (process : Z) (turns : list (list worker_event)) (exiting : bool) (w : worker) : option (option worker) :=
  match turns with
  | [] => Some None
  | evs :: turns =>
      t ← worker_turn process evs exiting w;
      match t with
      | WorkerExits w => Some (Some w)
      | WorkerContinues exiting w => worker_run process turns exiting w
      end
  end.

(** What the process meets when the master did [a] to it. *)
Definition delivered (control : control_data) (env : message_env) (a : action) : worker_event :=
  match a with
  | Wrote _ msg => ChannelReadable (one_message (sent_datagram msg) 0 env control)
  | Killed _ signo => SignalCaught signo
  end.

(** [a] is meant for the process [p]. *)
Definition addressed (p : ntg_process_t) (a : action) : Prop :=
  match a with
  | Wrote fd _ => fd = fst (pc_channel p)
  | Killed pid _ => pid = pc_pid p
  end.

Definition stop_signal (signo : Z) : Prop := signo = NTG_SHUTDOWN_SIGNAL \/ signo = NTG_TERMINATE_SIGNAL.
Definition child_process (process : Z) : Prop :=
  process = NTG_PROCESS_VIRTUAL \/ process = NTG_PROCESS_TRAFFIC \/ process = NTG_PROCESS_RECORD.

(** The flags after the command and after the signal are the same. *)
Definition told_to_stop (signo : Z) (w : worker) : worker :=
  if signo =? NTG_SHUTDOWN_SIGNAL then set_wk_flags true (wk_terminate w) (wk_add_request w) w
  else set_wk_flags (wk_quit w) true (wk_add_request w) w.

Lemma command_stops signo fd env control w :
  stop_signal signo -> -2147483648 <= fd < 2147483648 ->
  ntg_channel_handler (one_message (sent_datagram (MChannel (ChannelMsg (signal_command signo) 0 0 (-1)))) fd env control) w =
  Some (told_to_stop signo w, []).
Proof.
  intros S Hfd. set (ch := ChannelMsg (signal_command signo) 0 0 (-1)).
  destruct (one_message_handled fd (MChannel ch) zero_message control env w (told_to_stop signo w) [] eq_refl Hfd) as (d & E & H).
  - cbn. destruct S as [ -> | -> ]; cbn; unfold is_u64, is_s64, NTG_CMD_QUIT, NTG_CMD_TERMINATE, NTG_CMD_OPEN_CHANNEL; lia.
  - intros mem Hm. unfold handle_message. rewrite Hm. by destruct S as [ -> | -> ].
  - assert (Es : sent_datagram (MChannel ch) = d) by (unfold sent_datagram; by rewrite E). by rewrite Es.
Qed.

Lemma signal_stops process signo w :
  stop_signal signo -> child_process process -> worker_signal process signo w = told_to_stop signo w.
Proof. intros [ -> | -> ] [ -> | [ -> | -> ] ]; by destruct w. Qed.

Lemma stop_exits process signo ev evs w :
  stop_signal signo -> worker_events process [ev] w = Some (told_to_stop signo w) ->
  exists w', worker_run process [[ev]; evs] false w = Some (Some w') /\ wk_ps w' = wk_ps w.
Proof.
  intros S E. cbn [worker_run worker_turn]. rewrite E. cbn [mbind option_bind]. destruct w.
  destruct S as [ -> | -> ]; cbn; [|by eexists]. destruct wk_terminate; cbn; by eexists.
Qed.

(** C12: a process the master wants to stop stops: when the master tells the
    processes to quit or to terminate, and either its message or its signal can
    be sent, it does something to each process that is to be told which makes
    that process's loop end, whatever state it is in, at the latest in its next
    turn, with the table of processes it had. *)
Theorem stopping_stops_workers write kill signo reap ps i p process w evs control env :
  procs_inv ps -> 0 <= i < ps_last ps -> slot_at i ps = Some p -> to_tell signo p = true ->
  stop_signal signo -> write i = SendOk \/ kill i = KillOk -> child_process process ->
  exists reap' ps' a w', ntg_signal_worker_processes write kill signo reap ps = Some (reap', ps') /\
    a ∈ ps_out ps' /\ addressed p a /\
    worker_run process [[delivered control env a]; evs] false w = Some (Some w') /\ wk_ps w' = wk_ps w.
Proof.
  intros I Hi Hp Ht S Hs Hc. destruct (signal_workers_ok write kill signo reap ps I) as (gone & out & ps' & E & H).
  exists (reap || gone), ps'. destruct (sl_slots _ _ _ _ _ _ _ _ H i p ltac:(lia) Hp) as (q & o & g & _ & T & Ho & _).
  unfold told_slot in T. rewrite Ht in T.
  assert (Hn : signal_command signo <> 0) by (by destruct S as [ -> | -> ]).
  assert (Ha : forall a, a ∈ o -> addressed p a ->
    worker_events process [delivered control env a] w = Some (told_to_stop signo w) -> exists a w', Some (reap || gone, ps') = Some (reap || gone, ps') /\
    a ∈ ps_out ps' /\ addressed p a /\
    worker_run process [[delivered control env a]; evs] false w = Some (Some w') /\ wk_ps w' = wk_ps w).
  { intros a Hao Haa Hev. destruct (stop_exits process signo _ evs w S Hev) as (w' & Hr & Hw). exists a, w'.
    destruct (sl_same _ _ _ _ _ _ _ _ H) as (_ & _ & _ & ->). split_and!; try done. apply elem_of_app. right. by apply Ho. }
  rewrite E. inversion T; subst.
  - eapply Ha; [by left|done|]. cbn [worker_events delivered]. by rewrite command_stops.
  - eapply Ha; [by left|done|]. cbn [worker_events delivered]. by rewrite signal_stops.
  - destruct Hs as [Hs|Hs]; [|congruence]. destruct H0; congruence.
  - destruct Hs as [Hs|Hs]; [|congruence]. destruct H0; congruence.
Qed.

(** ** Examples *)

(** The second traffic process, as it starts. *)
Definition example_second : spawn_env := spawn_works 7 4.

Definition example_traffic : procs := default initial_procs (ntg_start_traffic_processes [spawn_works 3 2] 8 NTG_PROCESS_RESPAWN example_virtual).

Lemma example_all_running : procs_inv example_traffic /\ all_running example_traffic /\ ps_last example_traffic = 2 /\
  ps_fds example_traffic = {[1; 2; 3; 4]} /\ pids (used example_traffic) = [1; 2].
Proof.
  assert (Ef : ps_fds example_traffic = {[1; 2; 3; 4]}) by (vm_compute; reflexivity).
  assert (El : ps_last example_traffic = 2) by (vm_compute; reflexivity).
  assert (Eo : owned (used example_traffic) = [1; 2; 3; 4]) by (vm_compute; reflexivity).
  assert (Ep : pids (used example_traffic) = [1; 2]) by (vm_compute; reflexivity).
  split; [|split; [|done] ].
  - split.
    + vm_compute. reflexivity.
    + rewrite El. unfold NTG_MAX_PROCESSES. lia.
    + rewrite Ef. intros fd. rewrite !elem_of_union, !elem_of_singleton. lia.
    + split.
      * rewrite Ef, Eo. vm_compute. reflexivity.
      * rewrite Eo. repeat (apply NoDup_cons; split; [rewrite ?elem_of_cons, elem_of_nil; lia|]). apply NoDup_nil_2.
      * rewrite Ep. repeat (apply NoDup_cons; split; [rewrite ?elem_of_cons, elem_of_nil; lia|]). apply NoDup_nil_2.
      * set (l := used example_traffic) in *. vm_compute in l. subst l. repeat constructor; cbn; try done; lia.
  - intros i p Hi Hp. rewrite El in Hi. pose proof (slot_at_range _ _ _ Hp). assert (Hi' : i = 0 \/ i = 1) by lia.
    destruct Hi' as [ -> | -> ]; vm_compute in Hp; injection Hp as <-; cbn; repeat split; lia.
Qed.

Lemma worker_keeps_channels_witness :
  exists child ps1 ps' q, ntg_spawn_process example_second 8 ntg_traffic_process_cycle 2 (str "traffic process") NTG_PROCESS_RESPAWN
      NTG_TRAFFIC_PROCESS (-1) example_traffic = Some (4, Some child, ps1) /\
    worker_channels_init 4 child = Some ps' /\ slot_at (ps_slot ps') ps' = Some q /\ ps_fds child = {[1; 2; 3; 4; 7; 8]} /\
    forall x, x ∈ ps_fds ps' <->
      x = snd (pc_channel q) \/ exists i p, i < ps_last example_traffic /\ slot_at i example_traffic = Some p /\ x = fst (pc_channel p).
Proof.
  destruct example_all_running as (I & R & L & F & P).
  destruct (ntg_spawn_process example_second 8 ntg_traffic_process_cycle 2 (str "traffic process") NTG_PROCESS_RESPAWN
      NTG_TRAFFIC_PROCESS (-1) example_traffic) as [[[pid [child|]] ps1]|] eqn:E.
  2-3: exfalso; assert (Hc : (fun r => match r with (_, Some _, _) => true | _ => false end) <$> ntg_spawn_process example_second 8
      ntg_traffic_process_cycle 2 (str "traffic process") NTG_PROCESS_RESPAWN NTG_TRAFFIC_PROCESS (-1) example_traffic = Some true)
      by (vm_compute; reflexivity); rewrite E in Hc; discriminate Hc.
  assert (Hc : (fun r => match r with (pid, Some child, _) => Some (pid, ps_fds child) | _ => None end) <$> ntg_spawn_process example_second 8
      ntg_traffic_process_cycle 2 (str "traffic process") NTG_PROCESS_RESPAWN NTG_TRAFFIC_PROCESS (-1) example_traffic =
      Some (Some (4, {[1; 2; 3; 4; 7; 8]}))) by (vm_compute; reflexivity).
  rewrite E in Hc. cbn [fmap option_fmap option_map] in Hc. injection Hc as -> Hf.
  destruct (worker_keeps_channels example_second 8 ntg_traffic_process_cycle 2 (str "traffic process") example_traffic 4 child ps1 I R)
    as (ps' & q & E' & Hq & _ & _ & Hx).
  - rewrite L. unfold ntg_start_process, NTG_MAX_PROCESSES. lia.
  - rewrite F. split.
    + intros a b [= <- <-]. rewrite !elem_of_union, !elem_of_singleton. lia.
    + intros n [= <-]. rewrite P, !elem_of_cons, elem_of_nil. lia.
  - exact E.
  - exists child, ps1, ps', q. by split_and!.
Defined.

Lemma stopping_stops_workers_witness :
  exists a w', addressed (default zero_process (slot_at 1 example_started)) a /\
    worker_run NTG_PROCESS_TRAFFIC [[delivered (ControlData true true 0) example_me a]; []] false example_users = Some (Some w').
Proof.
  destruct (slot_at 1 example_started) as [p|] eqn:Hp; [|vm_compute in Hp; discriminate].
  assert (Ht : to_tell NTG_SHUTDOWN_SIGNAL p = true) by (vm_compute in Hp; injection Hp as <-; reflexivity).
  destruct (stopping_stops_workers (fun _ => SendOk) (fun _ => KillFails) NTG_SHUTDOWN_SIGNAL false example_started 1 p NTG_PROCESS_TRAFFIC
    example_users [] (ControlData true true 0) example_me) as (reap' & ps' & a & w' & _ & _ & Ha & Hr & _).
  - exact example_started_inv.
  - rewrite example_last. lia.
  - exact Hp.
  - exact Ht.
  - by left.
  - by left.
  - right. by left.
  - exists a, w'. split; [exact Ha|exact Hr].
Defined.
